(* ===== verification/_CoqProject ===== *)
-Q . S2P
Prelude.v
Wire.v
Sdk.v
PbParams.v
PbTickets.v
PbRedeemRequest.v
PbGenesis.v
PbQuery.v
PbTx.v
SdkModel.v
Types.v
World.v
Keeper.v
MsgServer.v
Store.v
Bank.v
Handlers.v
EndBlock.v
Chain.v
AppConfig.v
Scenario.v
CodecProps.v
ModuleProps.v
ChainProps.v
Witnesses.v
PulsarTypes.v
Pulsar.v
PulsarLaws.v
PulsarDesc.v
PulsarSchema.v
PulsarReflect.v
PulsarTickets.v
PulsarRedeemRequest.v
PulsarParams.v
PulsarGenesis.v
PulsarQuery.v
PulsarTx.v
PulsarModule.v
PulsarModel.v
PulsarProps.v
PulsarGogo.v
PulsarWitnesses.v
AppMonad.v
AppExport.v
AppTestnet.v
AppCommands.v
HalModule.v
Grpc.v
AppNew.v
AppRoot.v
AppWitnesses.v
Rust.v
CwStd.v
DvammPackage.v
DvammPair.v
DvammFactory.v
DvammPairProps.v
DvammFactoryProps.v
DvammWitnesses.v
Ledger.v
NearSdk.v
NearStaking.v
NearAssociated.v
NearRegistry.v
NearClub.v
NearClubProps.v
NearSystem.v
NearWitnesses.v
SolanaSdk.v
SolanaGame.v
SolanaGameProps.v
Substrate.v
Sway.v
Evm.v
EthContracts.v
EthProps.v
EthLoansProps.v
EthBooks.v
Murky.v
EthWitnesses.v
