(* ===== verification/Prelude.v ===== *)
(** * Halborn repository: verification library

    The repository collects security exercises, one program per directory of
    [src/].  This library verifies all seven: the Cosmos SDK chain
    [HalbornCTF_Golang_Cosmos] with its module [x/hal], the automated market
    maker [HalbornCTF_Rust_CosmWasm/dvamm], the club contracts
    [HalbornCTF_Rust_NEAR], the game [HalbornCTF_Rust_Solana], the pallets
    [HalbornCTF_Rust_Substrate], the lending contracts
    [HalbornCTF_Solidity_Ethereum] and the pool [HalbornCTF_Sway].  The
    programs do not call each other; they share the ledgers and result types
    of this library.  The last part of this comment lists what remains.

    ** The chain

    Users send the module four messages.  [MintHal] pays collateral into the
    collateral pool and mints twice as many HAL; [RedeemCollateral] burns HAL
    and moves half as much collateral to the redeem pool, where a request
    waits for its completion time; [CreateTicket] stores a numbered text
    against one HAL per byte; [UpdateParams] is reserved to the governance
    authority.  [EndBlock] pays the mature requests, [BeginBlock] compares the
    supply of HAL with the pooled collateral.  All state of the module is one
    key-value store (parameters, tickets, ticket counter, requests), whose
    values are protobuf messages encoded by generated code, and the coins the
    bank module keeps.

    ** The market maker

    A factory contract instantiates one pair contract for each pair of assets
    (native coins or cw20 tokens) and keeps their registry and the fees.  A
    pair takes deposits of both assets against liquidity tokens, swaps one
    asset for the other and pays withdrawals; it answers with messages to the
    bank and to the tokens, and asks the factory for the fees.

    ** The other programs

    On NEAR a club issues a fungible token; a member burns a share of the
    supply to register for an event, which the club asks the associated
    contract to record; a third contract takes stakes.  The Solana game keeps
    configurations and users in accounts at derived addresses; users spend
    credits on levels.  The Substrate pallets allocate new coins up to a limit
    and hold a pause flag.  On Ethereum NFTs are sold or airdropped against a
    Merkle root, deposited with the loans contract as collateral and lent
    against in a token; each contract sits behind an upgradeable proxy.  The
    Sway pool takes deposits against pool tokens.

    ** Files of the chain (paths below [src/HalbornCTF_Golang_Cosmos/])

    - [Prelude]: bytes, machine integers, the result type [res] (value, error,
      panic, exhausted fuel), generic lemmas, tactics, hint databases.
    - [Wire]: what the generated marshalling code of [x/hal/types/*.pb.go] has
      in common: varints, writing a buffer from its end, skipping unknown
      fields, the unmarshalling loop; the predicates [writes], [fills],
      [reads] and [fails] that the codec proofs compose.
    - [Sdk]: interfaces of the code outside the repository, as classes of
      operations and classes of laws: sdk.Int, sdk.Dec, sdk.Coin, bech32
      addresses, the gogoproto support library, the store, the bank keeper
      (whose queries panic on invalid denominations), the binary codec.  [SdkModel] holds concrete instances of all of them
      with proofs of their laws, which the witnesses run on.
    - [PbParams], [PbTickets], [PbRedeemRequest], [PbGenesis], [PbQuery],
      [PbTx]: the messages of the file of the same name: record, getters,
      [Size], [Marshal], [MarshalTo], [MarshalToSizedBuffer], [Unmarshal].
    - [Types]: [keys.go], [params.go], [genesis.go], the message checks.
    - [World]: the state (store and bank), the state and error monad of the
      handlers, the node-local inputs (clock, map iteration order).
    - [Keeper]: [x/hal/keeper/keeper.go], [params.go], [ticket.go],
      [abci.go], and the text of a time, which tickets contain.  [MsgServer]: the [msg_*.go] and [query_params.go] handlers
      and [x/hal/module/genesis.go].
    - [Store]: the abstract state [hal] and the relation [refines] to the
      store, with a lemma for each operation.  [Bank]: transfers of one coin.
      [Handlers]: what each message does, success and failure.  [EndBlock]:
      the payout loop and the check of the begin hook.  [Chain]: blocks and
      transactions as a step relation, its simulation by the abstract one, and
      what sequences of whole blocks keep.
    - [AppConfig]: the lists and module configurations of
      [app/app_config.go] and the functions of [app/app.go] computed from them.
    - [HalModule]: the rest of [x/hal/module]: genesis as JSON, codec
      registration, command-line descriptors, simulation operations and
      proposals, and the keeper of [testutil/keeper].
    - [Grpc]: the gRPC clients, handlers and service descriptors of
      [x/hal/types/query.pb.go] and [tx.pb.go], the clients of
      [api/halbornctf/hal/*_grpc.pb.go], the gateway [query.pb.gw.go], and the
      registration of both in [x/hal/module/module.go].  A connection, the
      message router and the mux are known by the laws of [Serves], [Routes]
      and [ServeMuxOk].
    - [AppMonad]: calls on the state of the whole app.  [AppExport]:
      [app/export.go], over a class of staking, distribution and slashing
      keepers, and such keepers.  [AppTestnet]:
      [cmd/HalbornCTFd/cmd/testnet.go].  [AppCommands]: store keys, scoped keepers, genesis
      accounts, the export command, flag defaults.
    - [AppNew]: [New] of [app/app.go] and [registerIBCModules] of
      [app/ibc.go], over the class [AppDeps] of the constructors they call.
      [AppRoot]: the command tree of [cmd/HalbornCTFd/cmd] ([root.go],
      [commands.go], [config.go]), [main.go], the prefixes of
      [app/config.go], the API routes, [docs/docs.go], [testutil/network] and
      [testutil/nullify].  [AppWitnesses]: the theorems of these files at
      concrete inputs.
    - [Scenario]: a concrete chain.  [CodecProps], [ModuleProps],
      [ChainProps], [Witnesses]: the theorems and their concrete instances.

    ** Files of the pulsar bindings ([api/halbornctf/hal/])

    The messages have a second generated implementation, with reflection
    methods and a codec of its own, for clients.

    - [PulsarTypes]: the sixteen structs, pointers to them behind the
      interface [ProtoMessage], reflection values.  [Pulsar]: the pieces the
      generated methods share, over the class [ProtoRuntime] of the protobuf
      runtime; [PulsarLaws]: their lemmas.
    - [PulsarDesc]: raw file descriptors and their parser, the type tables and
      the initialisation of a file.  [PulsarSchema]: the .proto files.
      [PulsarReflect]: what the reflection methods promise, and the tactics of
      the proofs about generated methods.
    - [PulsarTickets], [PulsarRedeemRequest], [PulsarParams],
      [PulsarGenesis], [PulsarQuery], [PulsarTx], [PulsarModule]: the
      generated file of the same name, method by method.
    - [PulsarModel]: a runtime.  [PulsarProps]: the theorems about all
      messages.  [PulsarGogo]: both bindings agree.  [PulsarWitnesses]:
      concrete messages.

    ** Files of the market maker (paths below [src/HalbornCTF_Rust_CosmWasm/dvamm/])

    - [Rust]: results with panics, [?], [unwrap].  [CwStd]: cosmwasm-std's
      integers, decimals and addresses as classes of operations and laws, with
      a computed instance.
    - [DvammPackage]: [packages/dvamm/src/]: assets, messages, queries, token
      validation; the class [Querier] is the rest of the chain.
    - [DvammPair]: [contracts/pair/src/contract.rs] with its state and errors:
      storage to storage and response.  [DvammFactory]: [contracts/factory/src/].
    - [DvammPairProps]: swap, withdrawal and deposit in exact integers, then
      the handlers.  [DvammFactoryProps]: the registry over sequences of
      transactions, and the pages of its listing.  [DvammWitnesses]: a concrete
      market.

    ** Files of the other programs

    - [Ledger]: maps from accounts to amounts, their sums, and arithmetic of
      fixed width under a build profile that checks overflow or wraps around.
    - [NearSdk]: receipts, promises and the collections of near-sdk.
      [NearStaking], [NearAssociated], [NearClub]: the [lib.rs] of
      [halborn-near-ctf-staking], [halborn-near-ctf-associated-contract] (with
      [storage.rs]) and [halborn-near-ctf], method by method; each has a
      type of calls and a function that runs a call as a receipt.
      [NearRegistry]: the registry that the associated contract refines, and
      what follows from it.  [NearSystem]: a registration across both
      contracts.  [NearClubProps], [NearWitnesses]: theorems and concrete
      instances.
    - [SolanaSdk]: accounts, program errors and what the runtime lets a program
      write; deriving and creating accounts is a class.  [SolanaGame]:
      [constants.rs], [state.rs], [instructions.rs], [processor.rs], [lib.rs]
      of [ctf_game/ctf/src].  [SolanaGameProps]: theorems and instances.
    - [Substrate]: [pallets/pause], [pallets/allocations] and the parts of
      [runtime/src] that compute ([pallets_malborn.rs], [implementations.rs],
      [migrations.rs]), over a class of the balances pallet, with theorems and
      instances.
    - [Sway]: [src/main.sw] on the coins of the chain, with theorems and
      instances.
    - [Evm]: the machine and OpenZeppelin as classes of operations and laws.
      [EthContracts]: [src/*.sol], [src/libraries/Multicall.sol] and the
      replacement implementations of [src/exploits]; a transaction carries
      scripts of the calls that receivers make back, so that [run_tx] runs any
      re-entrancy.  [EthProps]: invariants of single calls lifted to
      transactions, and the sale.  [EthLoansProps]: loans, multicall,
      upgrades.  [EthBooks]: the records of the collateral.  [Murky]: the Merkle
      trees of [test/murky].  [EthWitnesses]: instances.

    ** What the theorems show

    - Refinement: the store of every reachable state encodes an abstract state
      and every block step is an abstract step; tickets are append-only.
    - Block hooks: which requests a block pays and removes, whatever the store
      holds; in the configured app a request stays through any blocks before
      its time and is paid in the first one after it, unless a hook panics;
      exactly when the begin hook does.
    - Handlers: state and balances after each message, including the paths on
      which the code drops an error.
    - Codecs: round trips of all messages, totality of [Unmarshal] on every
      input, sizes.
    - Pulsar bindings: reflection implements the declared fields, the codec
      round-trips with unknown fields and writes what the descriptors say, the
      descriptors are the .proto files, and both bindings write and read the
      same bytes.
    - Remote calls: a dispatched message runs the transaction of [Chain]; a
      call of either client returns the answer of the server; the stubs have
      the methods, types and paths of the schema; a GET of the parameters
      returns the stored ones over a connection, and with a local server when
      its context carries an SDK context.
    - Start: after a successful injection [New] does not panic, which errors it
      returns, and how the IBC keepers, stores, subspaces and routes of the
      app it returns are connected; which commands of the returned tree have
      the app's flag defaults, whatever the order of Go's maps.
    - App: what the preparation of a zero-height genesis and of a testnet
      leaves in staking, slashing, distribution and the bank; genesis JSON;
      commands that match the schema; module orders without gaps.
    - Defects of the code, stated as theorems about it: [MintHal] without
      payment, the begin blocker that panics after a redemption, the
      redemption of one HAL that stops the chain, the ticket read as a
      request, the lost request, the dependence on clock and map order, the
      missing treasury account.
    - Market maker: deposits never dilute earlier holders, a swap does not
      lower the product of the pools, a registered pair is permanent and
      unique for its key, the pages of the listing are consecutive, who may
      call what.  Defects, again as theorems: swaps of ordinary size panic, a
      fee takes the whole output, a partial withdrawal pays nothing, the
      reverse simulation ignores the fee, configuration updates are lost.
    - NEAR: the associated contract refines a registry, so its collections
      never collide; registrations come from privileged clubs; the supply of
      the token is the sum of the balances plus what was minted to accounts
      that are not registered; stakes can always be paid without airdrops.
      Defects: a paused club stays paused, metadata disappears when it is
      read, the fee of a rejected registration is lost, a contract the owner
      calls has the rights of the owner, airdrops spend the stakes.
    - Solana: accounts stay bound to their addresses whatever is passed; the
      levelling loop ends and its charge is exact.  Defects: a foreign
      configuration is accepted, and without overflow checks the charge wraps.
    - Substrate: the limit of allocations holds when arithmetic is checked.
      Defects: a failed call moves the counter, nothing ever unpauses.
    - Ethereum: without callbacks the books balance as long as nobody upgrades
      the loans; proofs of the Merkle generator verify.  Defects: a re-entrant deposit is lost, a borrower is
      locked out, anyone ends the sale, one payment buys many tokens, anyone
      replaces the contracts.
    - Sway: recorded deposits add up; exactly when a withdrawal succeeds; how
      the pool is drained.

    ** Bounds and fuel

    Integers of Go types wrap at their width.  A varint loop runs at most 11
    rounds: the shift grows by 7 and the code fails from 64 on.  The
    unmarshalling and skipping loops get one round more than there are bytes,
    since each round consumes at least one; [Unmarshal_total] shows that the
    fuel is never exhausted.  The round trips assume encodings shorter than
    2^63 bytes, the range of Go's int, and the refinement a ticket counter
    below 2^56, where the key of a ticket cannot be the key of the counter.
    The market maker has no unbounded loops; its integers are bounded by the
    laws of [CwStd], which say when an operation panics.

    The levelling loop of the game gets 256 rounds, as the level is a byte that
    grows in every round but the last.  The fuel of [run_tx] is the depth to
    which receivers call back: at depth 1 they call nothing, and the theorems
    about re-entrancy hold for every depth that lets the attack run.  The loops
    of the Merkle generator get as many rounds as there are leaves, since each
    round at least halves a level, and the loop over the bits of a number 257.

    ** Not modelled

    Gas, events and logging; the size limits the store puts on keys and
    values; the transport of gRPC and HTTP, the injection of dependencies and
    the execution of commands, which are other packages and known by laws; the
    server stubs of the API package, which repeat those of the module and are
    not registered; the slow reflection path and the text form of the
    pulsar messages, which the protobuf runtime implements; the random address
    of [testutil/sample] and the build tags of [tools/tools.go].
    A keeper of the SDK is known by its laws only: a call that the laws do not
    mention may do anything to the rest of the app.  Iterators yield what the
    store held when they were opened.  Of the market maker: JSON encodings,
    event attributes, the generated parser of the instantiation reply (a
    parameter), the cw20 tokens and the bank (the querier before, the messages
    after a call).

    Of the other programs: gas, rent and weights; views, which only read the
    state the theorems speak about; [upgradeToAndCall], of which [upgradeTo] to
    the implementations of the repository is modelled; the storage cost of NEAR
    beyond the laws of the storage interface; the encodings of calls; the
    Substrate node, the executor and the part of the runtime that is type-level
    configuration of framework pallets; tests, benchmarks, scripts and
    deployments, which the programs do not contain. *)

From stdpp Require Export base list gmap strings numbers sorting.
From Stdlib Require Export ZArith Lia Init.Byte Strings.Byte.

#[global] Open Scope Z_scope.

(** ** Bytes and Go strings *)

Abbreviation bytes := (list byte).
Abbreviation gostring := (list byte).

(** The bytes of an ASCII literal, for the string constants of the source. *)
Definition str (s : string) : gostring := String.list_byte_of_string s.

#[export] Instance byte_eq_dec : EqDecision byte.
Proof. exact Byte.byte_eq_dec. Defined.

#[export] Program Instance byte_countable : Countable byte :=
  inj_countable Byte.to_N Byte.of_N _.
Next Obligation. intros b. apply Byte.of_to_N. Qed.

(** A byte as an unsigned integer, and Go's [byte(z)] / [uint8(z)] conversion. *)
Definition bz (b : byte) : Z := Z.of_N (Byte.to_N b).
Definition zb (z : Z) : byte := default x00 (Byte.of_N (Z.to_N (z mod 256))).

(** Go's [len]. *)
Definition len {A} (l : list A) : Z := Z.of_nat (length l).

(** ** Machine integers

    Values are kept in [Z]; a conversion or an operation that can overflow
    is followed by the wrap of its Go type. *)

Definition uwrap (k z : Z) : Z := z mod 2 ^ k.
Definition swrap (k z : Z) : Z :=
  let u := z mod 2 ^ k in if u <? 2 ^ (k - 1) then u else u - 2 ^ k.

Definition u64 : Z -> Z := uwrap 64.
Definition u32 : Z -> Z := uwrap 32.
Definition i64 : Z -> Z := swrap 64.
Definition i32 : Z -> Z := swrap 32.

(** ** Results

    A Go function returning [(T, error)] returns [Ok] or [Err]; [Panic] is a
    run-time or explicit panic; [Fuel] marks an exhausted loop bound, which
    the termination theorems show never happens. *)

(** The files generated from the .proto definitions; each declares its own
    copy of the three decoding sentinels.  The pulsar files share those of
    cosmos-proto's runtime package. *)
Inductive pbfile := PbParams | PbTickets | PbRedeemRequest | PbGenesis | PbQuery | PbTx | PbRuntime.

(** Sentinel errors of the SDK and of [x/hal/types/errors.go] that handlers wrap. *)
Inductive sentinel :=
  ErrInvalidAddress | ErrInsufficientFunds | ErrInvalidRequest | ErrUnauthorized
| ErrInvalidSigner | ErrGrpcInvalidArgument.

Inductive goerror :=
| ErrIntOverflow (f : pbfile)
| ErrInvalidLength (f : pbfile)
| ErrUnexpectedEndOfGroup (f : pbfile)
| ErrUnexpectedEOF
| ErrEndGroup (msg : string)
| ErrIllegalTag (msg : string) (fieldNum wire : Z)
| ErrWrongWireType (wireType : Z) (fieldName : string)
| ErrIllegalWireType (wireType : Z)
| ErrWrap (s : sentinel) (msg : string)
| ErrMsg (msg : string).

Inductive gopanic :=
| PIndexOutOfRange | PSliceBounds | PNilDeref | PMsg (msg : string) | PErr (e : goerror)
(** [log.Fatal]: the process ends. *)
| PExit.

Inductive res (A : Type) : Type :=
| Ok (a : A) | Err (e : goerror) | Panic (p : gopanic) | Fuel.
Arguments Ok {A} a.
Arguments Err {A} e.
Arguments Panic {A} p.
Arguments Fuel {A}.

#[export] Instance res_ret : MRet res := fun _ a => Ok a.
#[export] Instance res_bind : MBind res := fun _ _ k r =>
  match r with Ok a => k a | Err e => Err e | Panic p => Panic p | Fuel => Fuel end.

#[export] Instance pbfile_eq_dec : EqDecision pbfile.
Proof. solve_decision. Defined.
#[export] Instance sentinel_eq_dec : EqDecision sentinel.
Proof. solve_decision. Defined.
#[export] Instance goerror_eq_dec : EqDecision goerror.
Proof. solve_decision. Defined.
#[export] Instance gopanic_eq_dec : EqDecision gopanic.
Proof. solve_decision. Defined.
#[export] Instance res_eq_dec {A} `{EqDecision A} : EqDecision (res A).
Proof. solve_decision. Defined.

(** [safe r Q]: [r] is an ordinary return (no panic, no exhausted bound), and a
    successful one satisfies [Q]. *)
Definition safe {A} (r : res A) (Q : A -> Prop) : Prop :=
  match r with Ok a => Q a | Err _ => True | _ => False end.

(** Must-functions: an error becomes a panic. *)
Definition must {A} (r : res A) : res A :=
  match r with Err e => Panic (PErr e) | r => r end.

(** ** Slices

    Indexing and slicing with Go's bounds checks. *)

Definition index (s : bytes) (i : Z) : res byte :=
  if 0 <=? i then
    match s !! Z.to_nat i with Some b => Ok b | None => Panic PIndexOutOfRange end
  else Panic PIndexOutOfRange.

Definition slice (s : bytes) (lo hi : Z) : res bytes :=
  if (0 <=? lo) && (lo <=? hi) && (hi <=? len s)
  then Ok (take (Z.to_nat (hi - lo)) (drop (Z.to_nat lo) s))
  else Panic PSliceBounds.

(** [s[i] = b]. *)
Definition set_index (s : bytes) (i : Z) (b : byte) : res bytes :=
  if (0 <=? i) && (i <? len s) then Ok (<[Z.to_nat i := b]> s) else Panic PIndexOutOfRange.

(** [copy(s[i:], t)]: as many bytes as fit. *)
Definition copy_at (s : bytes) (i : Z) (t : bytes) : res bytes :=
  if (0 <=? i) && (i <=? len s) then
    let room := (length s - Z.to_nat i)%nat in
    let t' := take room t in
    Ok (take (Z.to_nat i) s ++ t' ++ drop (Z.to_nat i + length t') s)
  else Panic PSliceBounds.

(** ** Automation *)

Create HintDb halborn.
Create Rewrite HintDb len.

(** Split the first conditional or option match of the goal. *)
Ltac case_bool :=
  match goal with
  | |- context [if ?b then _ else _] => let E := fresh "E" in destruct b eqn:E
  end.

(** Boolean comparisons in the context become propositions for [lia]. *)
Ltac zify_bools :=
  repeat match goal with
  | H : (_ && _)%bool = true |- _ => apply andb_true_iff in H; destruct H
  | H : (_ && _)%bool = false |- _ => apply andb_false_iff in H
  | H : (_ || _)%bool = false |- _ => apply orb_false_iff in H; destruct H
  | H : (_ || _)%bool = true |- _ => apply orb_true_iff in H
  | H : negb _ = true |- _ => apply negb_true_iff in H
  | H : negb _ = false |- _ => apply negb_false_iff in H
  | H : (_ <? _) = true |- _ => apply Z.ltb_lt in H
  | H : (_ <? _) = false |- _ => apply Z.ltb_ge in H
  | H : (_ <=? _) = true |- _ => apply Z.leb_le in H
  | H : (_ <=? _) = false |- _ => apply Z.leb_gt in H
  | H : (_ =? _) = true |- _ => apply Z.eqb_eq in H
  | H : (_ =? _) = false |- _ => apply Z.eqb_neq in H
  end.

(** Decide a conditional of the goal whose test is settled by arithmetic. *)
Ltac if_true := rewrite (proj2 (Z.ltb_lt _ _)) || rewrite (proj2 (Z.leb_le _ _))
  || rewrite (proj2 (Z.eqb_eq _ _)).
Ltac if_false := rewrite (proj2 (Z.ltb_ge _ _)) || rewrite (proj2 (Z.leb_gt _ _))
  || rewrite (proj2 (Z.eqb_neq _ _)).

(** ** Lemmas on bytes and integers *)

Lemma bz_range b : 0 <= bz b < 256.
Proof.
  unfold bz. pose proof (Byte.to_N_bounded b). lia.
Qed.

Lemma bz_zb z : bz (zb z) = z mod 256.
Proof.
  unfold bz, zb. pose proof (Z.mod_pos_bound z 256 ltac:(lia)) as R.
  destruct (Byte.of_N (Z.to_N (z mod 256))) as [b|] eqn:E; cbn.
  - apply Byte.to_of_N in E. rewrite E. lia.
  - apply Byte.of_N_None_iff in E. lia.
Qed.

Lemma bz_zb_small z : 0 <= z < 256 -> bz (zb z) = z.
Proof. intros. rewrite bz_zb. now apply Z.mod_small. Qed.

Lemma bz_inj a b : bz a = bz b -> a = b.
Proof.
  unfold bz. intros H. apply N2Z.inj in H.
  pose proof (Byte.of_to_N a) as Ha. pose proof (Byte.of_to_N b) as Hb.
  rewrite H in Ha. congruence.
Qed.

Lemma zb_bz b : zb (bz b) = b.
Proof. apply bz_inj, bz_zb_small, bz_range. Qed.

Lemma len_nonneg {A} (l : list A) : 0 <= len l.
Proof. unfold len. lia. Qed.

Lemma len_app {A} (l k : list A) : len (l ++ k) = len l + len k.
Proof. unfold len. rewrite length_app. lia. Qed.

Lemma len_cons {A} (x : A) l : len (x :: l) = 1 + len l.
Proof. unfold len. cbn [length]. lia. Qed.

Lemma len_nil {A} : len (@nil A) = 0.
Proof. reflexivity. Qed.

Lemma len_to_nat {A} (l : list A) : Z.to_nat (len l) = length l.
Proof. unfold len. lia. Qed.

#[export] Hint Resolve bz_range len_nonneg : halborn.
#[export] Hint Rewrite @len_app @len_cons @len_nil : len.

Lemma uwrap_range k z : 0 <= k -> 0 <= uwrap k z < 2 ^ k.
Proof. intros. apply Z.mod_pos_bound. lia. Qed.

Lemma uwrap_small k z : 0 <= z < 2 ^ k -> uwrap k z = z.
Proof. apply Z.mod_small. Qed.

Lemma swrap_small k z : 0 < k -> - 2 ^ (k - 1) <= z < 2 ^ (k - 1) -> swrap k z = z.
Proof.
  intros Hk Hz. unfold swrap.
  assert (E : 2 ^ k = 2 * 2 ^ (k - 1)) by (rewrite <- Z.pow_succ_r by lia; f_equal; lia).
  destruct (Z.lt_ge_cases z 0).
  - assert (M : z mod 2 ^ k = z + 2 ^ k).
    { symmetry. apply Z.mod_unique_pos with (q := -1); lia. }
    rewrite M. case_bool; zify_bools; lia.
  - rewrite Z.mod_small by lia. case_bool; zify_bools; lia.
Qed.

(** Wrapping to a signed type keeps the residue. *)
Lemma swrap_mod k z : 0 <= k -> swrap k z mod 2 ^ k = z mod 2 ^ k.
Proof.
  intros Hk. unfold swrap. cbn zeta. pose proof (Z.mod_pos_bound z (2 ^ k) ltac:(lia)).
  case_bool; [now rewrite Z.mod_mod by lia|].
  replace (z mod 2 ^ k - 2 ^ k) with (z mod 2 ^ k + -1 * 2 ^ k) by lia.
  now rewrite Z.mod_add, Z.mod_mod by lia.
Qed.

Lemma swrap_range k z : 0 < k -> - 2 ^ (k - 1) <= swrap k z < 2 ^ (k - 1).
Proof.
  intros Hk. unfold swrap.
  assert (E : 2 ^ k = 2 * 2 ^ (k - 1)) by (rewrite <- Z.pow_succ_r by lia; f_equal; lia).
  pose proof (Z.mod_pos_bound z (2 ^ k) ltac:(lia)).
  case_bool; zify_bools; lia.
Qed.

(** Bit [n] of a wrapped value. *)
Lemma testbit_uwrap k z n :
  0 <= k -> 0 <= n -> Z.testbit (uwrap k z) n = (n <? k) && Z.testbit z n.
Proof.
  intros. unfold uwrap. destruct (n <? k) eqn:E; zify_bools; cbn.
  - apply Z.mod_pow2_bits_low. lia.
  - apply Z.mod_pow2_bits_high. lia.
Qed.

Lemma testbit_swrap k z n :
  0 < k -> 0 <= n -> Z.testbit (swrap k z) n = Z.testbit z (Z.min n (k - 1)).
Proof.
  intros Hk Hn. unfold swrap.
  assert (E : 2 ^ k = 2 * 2 ^ (k - 1)) by (rewrite <- Z.pow_succ_r by lia; f_equal; lia).
  pose proof (Z.mod_pos_bound z (2 ^ k) ltac:(lia)) as R.
  assert (T : forall m, 0 <= m < k -> Z.testbit (z mod 2 ^ k) m = Z.testbit z m)
    by (intros; apply Z.mod_pow2_bits_low; lia).
  assert (S : (z mod 2 ^ k <? 2 ^ (k - 1)) = negb (Z.testbit z (k - 1))).
  { rewrite <- T by lia. rewrite Z.testbit_eqb by lia.
    destruct (Z.ltb_spec (z mod 2 ^ k) (2 ^ (k - 1))).
    - rewrite Z.div_small by lia. reflexivity.
    - replace (z mod 2 ^ k / 2 ^ (k - 1)) with 1; [reflexivity|].
      apply Z.div_unique with (r := z mod 2 ^ k - 2 ^ (k - 1)); lia. }
  rewrite S. destruct (Z.testbit z (k - 1)) eqn:B; cbn.
  - replace (z mod 2 ^ k - 2 ^ k) with (Z.lor (z mod 2 ^ k) (- 2 ^ k)).
    + rewrite Z.lor_spec, Z.bits_opp by lia.
      replace (Z.pred (2 ^ k)) with (Z.ones k) by (rewrite Z.ones_equiv; reflexivity).
      destruct (Z.lt_ge_cases n k).
      * rewrite T by lia. rewrite Z.ones_spec_low by lia. rewrite orb_false_r. f_equal. lia.
      * rewrite Z.ones_spec_high by lia. rewrite orb_true_r. rewrite Z.min_r by lia. now rewrite B.
    + pose proof (Z.add_lor_land (z mod 2 ^ k) (- 2 ^ k)) as A.
      replace (Z.land (z mod 2 ^ k) (- 2 ^ k)) with 0 in A; [lia|].
      symmetry. apply Z.bits_inj'. intros m Hm.
      rewrite Z.land_spec, Z.bits_0, Z.bits_opp by lia.
      replace (Z.pred (2 ^ k)) with (Z.ones k) by (rewrite Z.ones_equiv; reflexivity).
      destruct (Z.lt_ge_cases m k).
      * rewrite Z.ones_spec_low by lia. apply andb_false_r.
      * rewrite Z.mod_pow2_bits_high by lia. reflexivity.
  - destruct (Z.lt_ge_cases n k).
    + rewrite T by lia. f_equal. lia.
    + rewrite Z.mod_pow2_bits_high by lia. rewrite Z.min_r by lia. now rewrite B.
Qed.

(** Conversions to a Go integer type commute with bitwise or, which is what
    lets the decoders accumulate a value group by group. *)
Class BitHom (W : Z -> Z) : Prop := {
  bithom_0 : W 0 = 0;
  bithom_lor : forall a b, W (Z.lor a b) = Z.lor (W a) (W b) }.

#[export] Instance uwrap_bithom k : 0 <= k -> BitHom (uwrap k).
Proof.
  intros Hk. split.
  - unfold uwrap. apply Z.mod_0_l. lia.
  - intros a b. apply Z.bits_inj'. intros n Hn.
    rewrite Z.lor_spec, !testbit_uwrap, Z.lor_spec by lia.
    destruct (n <? k), (Z.testbit a n), (Z.testbit b n); reflexivity.
Qed.

#[export] Instance swrap_bithom k : 0 < k -> BitHom (swrap k).
Proof.
  intros Hk. split.
  - apply swrap_small; [lia|]. assert (0 < 2 ^ (k - 1)) by lia. lia.
  - intros a b. apply Z.bits_inj'. intros n Hn.
    rewrite Z.lor_spec, !testbit_swrap, Z.lor_spec by lia. reflexivity.
Qed.

#[export] Instance u64_bithom : BitHom u64.
Proof. apply uwrap_bithom. lia. Qed.
#[export] Instance u32_bithom : BitHom u32.
Proof. apply uwrap_bithom. lia. Qed.
#[export] Instance i64_bithom : BitHom i64.
Proof. apply swrap_bithom. lia. Qed.
#[export] Instance i32_bithom : BitHom i32.
Proof. apply swrap_bithom. lia. Qed.

(** ** Lemmas on results *)

Lemma safe_bind {A B} (r : res A) (k : A -> res B) P Q :
  safe r P -> (forall a, P a -> safe (k a) Q) -> safe (r ≫= k) Q.
Proof. destruct r; cbn; auto. Qed.

Lemma safe_weaken {A} (r : res A) (P Q : A -> Prop) :
  safe r P -> (forall a, P a -> Q a) -> safe r Q.
Proof. destruct r; cbn; auto. Qed.

Lemma safe_ok {A} (r : res A) Q a : safe r Q -> r = Ok a -> Q a.
Proof. intros H ->. exact H. Qed.

Lemma bind_ok_inv {A B} (r : res A) (k : A -> res B) b :
  r ≫= k = Ok b -> exists a, r = Ok a /\ k a = Ok b.
Proof. destruct r; cbn; try discriminate. eauto. Qed.

Lemma must_ok_inv {A} (r : res A) a : must r = Ok a -> r = Ok a.
Proof. destruct r; cbn; congruence. Qed.

(** ** Lemmas on slices *)

Lemma index_app (pre : bytes) b post : index (pre ++ b :: post) (len pre) = Ok b.
Proof.
  unfold index, len. rewrite (proj2 (Z.leb_le _ _)) by lia.
  now rewrite Nat2Z.id, list_lookup_middle.
Qed.

Lemma index_safe s i : 0 <= i < len s -> safe (index s i) (fun _ => True).
Proof.
  unfold index, len. intros. rewrite (proj2 (Z.leb_le _ _)) by lia.
  destruct (lookup_lt_is_Some_2 s (Z.to_nat i)) as [b ->]; [lia|exact I].
Qed.

Lemma slice_app (pre mid post : bytes) :
  slice (pre ++ mid ++ post) (len pre) (len pre + len mid) = Ok mid.
Proof.
  unfold slice. rewrite !len_app.
  pose proof (len_nonneg pre). pose proof (len_nonneg mid). pose proof (len_nonneg post).
  rewrite !(proj2 (Z.leb_le _ _)) by lia. cbn. f_equal.
  replace (len pre + len mid - len pre) with (len mid) by lia.
  now rewrite !len_to_nat, drop_app_length, take_app_length.
Qed.

Lemma slice_safe s lo hi :
  0 <= lo <= hi -> hi <= len s -> safe (slice s lo hi) (fun t => len t = hi - lo).
Proof.
  intros. unfold slice. rewrite !(proj2 (Z.leb_le _ _)) by lia. cbn.
  unfold len in *. rewrite length_take, length_drop. lia.
Qed.

Lemma set_index_app (pre : bytes) b post b' :
  set_index (pre ++ b :: post) (len pre) b' = Ok (pre ++ b' :: post).
Proof.
  unfold set_index. rewrite len_app, len_cons.
  pose proof (len_nonneg pre). pose proof (len_nonneg post).
  rewrite (proj2 (Z.leb_le _ _)), (proj2 (Z.ltb_lt _ _)) by lia. cbn.
  now rewrite len_to_nat, insert_app_r_alt, Nat.sub_diag by lia.
Qed.

Lemma copy_at_app (pre mid post t : bytes) :
  length mid = length t -> copy_at (pre ++ mid ++ post) (len pre) t = Ok (pre ++ t ++ post).
Proof.
  intros E. unfold copy_at. rewrite !len_app.
  pose proof (len_nonneg pre). pose proof (len_nonneg mid). pose proof (len_nonneg post).
  rewrite !(proj2 (Z.leb_le _ _)) by lia. cbn. rewrite len_to_nat, !length_app.
  rewrite (take_ge t) by lia. rewrite <- E, take_app_length.
  rewrite <- length_app, (app_assoc pre mid), drop_app_length. reflexivity.
Qed.

(** A block as long as [a ++ b] splits into blocks as long as [a] and [b]. *)
Lemma split_length {A} (l a b : list A) : length l = length (a ++ b) ->
  exists l1 l2, l = l1 ++ l2 /\ length l1 = length a /\ length l2 = length b.
Proof.
  rewrite length_app. intros H. exists (take (length a) l), (drop (length a) l).
  rewrite take_drop, length_take, length_drop. repeat split; lia.
Qed.

(** Boolean filters respect permutation. *)
Lemma filter_bool_Permutation {A} (p : A -> bool) (l k : list A) :
  l ≡ₚ k -> List.filter p l ≡ₚ List.filter p k.
Proof.
  induction 1 as [|x l k P IH|x y l|l k m P1 IH1 P2 IH2]; cbn.
  - reflexivity.
  - destruct (p x); [now constructor | assumption].
  - destruct (p x), (p y); try reflexivity. constructor.
  - now transitivity (List.filter p k).
Qed.
