(* ===== verification/Wire.v ===== *)
(** * The protobuf wire routines of the generated files

    The six files [x/hal/types/*.pb.go] carry one copy each of the varint
    writer ([encodeVarint*]), the size functions ([sov*], [soz*]), the inlined
    varint reader, the field skipper ([skip*]) and the main loop of
    [Unmarshal].  The copies differ in the sentinel errors they return, so
    they are modelled once, with the file as an argument, and named per file
    at the end.  The theorems: the writer fills a buffer with the reference
    encoding, the reader inverts it at every integer type the code reads, and
    every reading loop ends without panicking on arbitrary bytes. *)

From S2P Require Import Prelude.

(** ** Sizes *)

(** [bits.Len64]: the number of bits needed to represent [x]. *)
Definition Len64 (x : Z) : Z := if x =? 0 then 0 else Z.log2 x + 1.

Definition sov (x : Z) : Z := (Len64 (Z.lor x 1) + 6) / 7.

(** [uint64((x << 1) ^ uint64((int64(x) >> 63)))], the zig-zag size. *)
Definition soz (x : Z) : Z :=
  sov (u64 (Z.lxor (u64 (Z.shiftl x 1)) (u64 (Z.shiftr (i64 x) 63)))).

(** ** Writing into a sized buffer *)

(** The buffer and the write position of a [MarshalToSizedBuffer] in progress. *)
Record wbuf := WBuf { dAtA : bytes; pos : Z }.

(** One statement of such a function. *)
Definition writer := wbuf -> res wbuf.

Definition wskip : writer := fun st => Ok st.
Definition wseq (p q : writer) : writer := fun st => st ← p st; q st.
Declare Scope writer_scope.
Notation "p >> q" := (wseq p q) (at level 62, right associativity) : writer_scope.
Bind Scope writer_scope with writer.
Open Scope writer_scope.

(** The loop of [encodeVarint]; ten rounds cover 64 bits. *)
Fixpoint encodeVarint_loop (fuel : nat) (d : bytes) (offset v : Z) : res bytes :=
  match fuel with
  | O => Fuel
  | S fuel =>
      if 1 * 2 ^ 7 <=? v then
        d ← set_index d offset (zb (Z.lor (Z.land v 0x7f) 0x80));
        encodeVarint_loop fuel d (offset + 1) (Z.shiftr v 7)
      else set_index d offset (zb v)
  end.

Definition encodeVarint (d : bytes) (offset v : Z) : res (bytes * Z) :=
  let offset := offset - sov v in
  let base := offset in
  d ← encodeVarint_loop 10 d offset v;
  Ok (d, base).

(** [i = encodeVarint(dAtA, i, v)]. *)
Definition wvarint (v : Z) : writer := fun st =>
  '(d, i) ← encodeVarint (dAtA st) (pos st) v; Ok (WBuf d i).

(** [i--; dAtA[i] = b]. *)
Definition wbyte (b : Z) : writer := fun st =>
  d ← set_index (dAtA st) (pos st - 1) (zb b); Ok (WBuf d (pos st - 1)).

(** [i -= len(s); copy(dAtA[i:], s)]. *)
Definition wcopy (s : bytes) : writer := fun st =>
  d ← copy_at (dAtA st) (pos st - len s) s; Ok (WBuf d (pos st - len s)).

(** A string field: [if len(s) > 0 { copy; length; tag }]. *)
Definition wstring (tag : Z) (s : gostring) : writer :=
  if 0 <? len s then wcopy s >> wvarint (u64 (len s)) >> wbyte tag else wskip.

(** A scalar field: [if v != 0 { varint; tag }]. *)
Definition wscalar (tag v : Z) : writer :=
  if negb (v =? 0) then wvarint (u64 v) >> wbyte tag else wskip.

(** A message field, written by the message's own [MarshalToSizedBuffer] into
    the prefix [dAtA[:i]] of the same array:
    [size, err := x.MarshalToSizedBuffer(dAtA[:i]); i -= size; length; tag]. *)
Definition wmessage (tag : Z) (m : bytes -> res (bytes * Z)) : writer := fun st =>
  sub ← slice (dAtA st) 0 (pos st);
  '(sub, size) ← m sub;
  (wvarint (u64 size) >> wbyte tag)
    (WBuf (sub ++ drop (Z.to_nat (pos st)) (dAtA st)) (pos st - size)).

(** A [time.Duration] or [time.Time] field, written forward into the suffix
    [dAtA[i-size:]] by gogoproto's helper. *)
Definition wstd (tag size : Z) (m : bytes -> res (bytes * Z)) : writer := fun st =>
  sub ← slice (dAtA st) (pos st - size) (len (dAtA st));
  '(sub, n) ← m sub;
  (wvarint (u64 n) >> wbyte tag)
    (WBuf (take (Z.to_nat (pos st - size)) (dAtA st) ++ sub) (pos st - n)).

(** [i := len(dAtA)] ... [return len(dAtA) - i]. *)
Definition MarshalToSizedBuffer (w : writer) (d : bytes) : res (bytes * Z) :=
  st ← w (WBuf d (len d));
  Ok (dAtA st, len d - pos st).

(** [Marshal]: allocate [Size()] bytes, fill them, return the first [n]. *)
Definition Marshal (size : Z) (w : writer) : res bytes :=
  '(d, n) ← MarshalToSizedBuffer w (replicate (Z.to_nat size) x00);
  slice d 0 n.

(** [MarshalTo]: fill the first [Size()] bytes of the caller's slice. *)
Definition MarshalTo (size : Z) (w : writer) (d : bytes) : res (bytes * Z) :=
  sub ← slice d 0 size;
  '(sub, n) ← MarshalToSizedBuffer w sub;
  Ok (sub ++ drop (Z.to_nat size) d, n).

(** ** Reading *)

Section reading.
Variable f : pbfile.

(** The inlined varint reader, at the integer type whose conversion is [W]:
    [x |= T(b&0x7F) << shift].  Eleven rounds reach the overflow test. *)
Fixpoint decodeVarint_loop (W : Z -> Z) (fuel : nat) (d : bytes) (iNdEx shift x : Z)
    : res (Z * Z) :=
  match fuel with
  | O => Fuel
  | S fuel =>
      if 64 <=? shift then Err (ErrIntOverflow f) else
      if len d <=? iNdEx then Err ErrUnexpectedEOF else
      b ← index d iNdEx;
      let x := Z.lor x (W (Z.shiftl (Z.land (bz b) 0x7F) shift)) in
      if bz b <? 0x80 then Ok (x, iNdEx + 1)
      else decodeVarint_loop W fuel d (iNdEx + 1) (shift + 7) x
  end.

Definition decodeVarint (W : Z -> Z) (d : bytes) (iNdEx : Z) : res (Z * Z) :=
  decodeVarint_loop W 11 d iNdEx 0 0.

(** The reader of [skip*]'s case 0, which discards the value. *)
Fixpoint skipVarint_loop (fuel : nat) (d : bytes) (iNdEx shift : Z) : res Z :=
  match fuel with
  | O => Fuel
  | S fuel =>
      if 64 <=? shift then Err (ErrIntOverflow f) else
      if len d <=? iNdEx then Err ErrUnexpectedEOF else
      b ← index d (iNdEx + 1 - 1);
      if bz b <? 0x80 then Ok (iNdEx + 1)
      else skipVarint_loop fuel d (iNdEx + 1) (shift + 7)
  end.

(** The switch of [skip*] on the wire type: the new index and group depth. *)
Definition skip_case (d : bytes) (wireType iNdEx depth : Z) : res (Z * Z) :=
  if wireType =? 0 then iNdEx ← skipVarint_loop 11 d iNdEx 0; Ok (iNdEx, depth)
  else if wireType =? 1 then Ok (i64 (iNdEx + 8), depth)
  else if wireType =? 2 then
    '(length, iNdEx) ← decodeVarint i64 d iNdEx;
    if length <? 0 then Err (ErrInvalidLength f)
    else Ok (i64 (iNdEx + length), depth)
  else if wireType =? 3 then Ok (iNdEx, depth + 1)
  else if wireType =? 4 then
    if depth =? 0 then Err (ErrUnexpectedEndOfGroup f) else Ok (iNdEx, depth - 1)
  else if wireType =? 5 then Ok (i64 (iNdEx + 4), depth)
  else Err (ErrIllegalWireType wireType).

Fixpoint skip_loop (fuel : nat) (d : bytes) (iNdEx depth : Z) : res Z :=
  match fuel with
  | O => Fuel
  | S fuel =>
      if iNdEx <? len d then
        '(wire, iNdEx) ← decodeVarint u64 d iNdEx;
        '(iNdEx, depth) ← skip_case d (Z.land wire 0x7) iNdEx depth;
        if iNdEx <? 0 then Err (ErrInvalidLength f) else
        if depth =? 0 then Ok iNdEx else skip_loop fuel d iNdEx depth
      else Err ErrUnexpectedEOF
  end.

Definition skip (d : bytes) : res Z := skip_loop (S (length d)) d 0 0.

(** A length prefix read as [int] (messages) with its two range checks, giving
    the payload and the index after it. *)
Definition read_message (name : string) (wireType : Z) (d : bytes) (iNdEx : Z)
    : res (bytes * Z) :=
  if negb (wireType =? 2) then Err (ErrWrongWireType wireType name) else
  '(msglen, iNdEx) ← decodeVarint i64 d iNdEx;
  if msglen <? 0 then Err (ErrInvalidLength f) else
  let postIndex := i64 (iNdEx + msglen) in
  if postIndex <? 0 then Err (ErrInvalidLength f) else
  if len d <? postIndex then Err ErrUnexpectedEOF else
  s ← slice d iNdEx postIndex;
  Ok (s, postIndex).

(** A length prefix read as [uint64] and converted (strings). *)
Definition read_string (name : string) (wireType : Z) (d : bytes) (iNdEx : Z)
    : res (gostring * Z) :=
  if negb (wireType =? 2) then Err (ErrWrongWireType wireType name) else
  '(stringLen, iNdEx) ← decodeVarint u64 d iNdEx;
  let intStringLen := i64 stringLen in
  if intStringLen <? 0 then Err (ErrInvalidLength f) else
  let postIndex := i64 (iNdEx + intStringLen) in
  if postIndex <? 0 then Err (ErrInvalidLength f) else
  if len d <? postIndex then Err ErrUnexpectedEOF else
  s ← slice d iNdEx postIndex;
  Ok (s, postIndex).

(** A scalar field of the type whose conversion is [W]. *)
Definition read_scalar (W : Z -> Z) (name : string) (wireType : Z) (d : bytes) (iNdEx : Z)
    : res (Z * Z) :=
  if negb (wireType =? 0) then Err (ErrWrongWireType wireType name) else
  decodeVarint W d iNdEx.

(** ** The loop of [Unmarshal]

    [field m fieldNum wireType d iNdEx] is the message's switch; [None] is its
    default case, which is [dflt], given the index where the field starts. *)
Section unmarshal.
Context {M : Type} (name : string) (dflt : bytes -> M -> Z -> res (M * Z)).
Context (field : M -> Z -> Z -> bytes -> Z -> option (res (M * Z))).

Fixpoint unmarshal_loop (fuel : nat) (d : bytes) (m : M) (iNdEx : Z) : res M :=
  match fuel with
  | O => Fuel
  | S fuel =>
      if iNdEx <? len d then
        let preIndex := iNdEx in
        '(wire, iNdEx) ← decodeVarint u64 d iNdEx;
        let fieldNum := i32 (Z.shiftr wire 3) in
        let wireType := Z.land wire 0x7 in
        if wireType =? 4 then Err (ErrEndGroup name) else
        if fieldNum <=? 0 then Err (ErrIllegalTag name fieldNum wire) else
        '(m, iNdEx) ←
          match field m fieldNum wireType d iNdEx with
          | Some r => r
          | None => dflt d m preIndex
          end;
        unmarshal_loop fuel d m iNdEx
      else if len d <? iNdEx then Err ErrUnexpectedEOF
      else Ok m
  end.

Definition Unmarshal_with (m : M) (d : bytes) : res M := unmarshal_loop (S (length d)) d m 0.
End unmarshal.

(** The default case of the gogoproto files: skip the field, whose tag starts
    at [preIndex]. *)
Definition skip_field {M : Type} (d : bytes) (m : M) (preIndex : Z) : res (M * Z) :=
  sub ← slice d preIndex (len d);
  skippy ← skip sub;
  if (skippy <? 0) || (i64 (preIndex + skippy) <? 0) then Err (ErrInvalidLength f) else
  if len d <? i64 (preIndex + skippy) then Err ErrUnexpectedEOF else
  Ok (m, i64 (preIndex + skippy)).

Definition Unmarshal {M : Type} (name : string) (field : M -> Z -> Z -> bytes -> Z -> option (res (M * Z)))
    : M -> bytes -> res M :=
  Unmarshal_with name skip_field field.
End reading.

(** ** The reference encoding of a varint *)

Fixpoint varint_aux (n : nat) (v : Z) : bytes :=
  match n with
  | O => []
  | S n => if v <? 128 then [zb v]
           else zb (Z.lor (Z.land v 0x7f) 0x80) :: varint_aux n (Z.shiftr v 7)
  end.

Definition varint (v : Z) : bytes := varint_aux 10 v.

Lemma sov_log2 v : 0 <= v -> sov v = Z.log2 v / 7 + 1.
Proof.
  intros Hv. unfold sov, Len64.
  assert (L : Z.log2 (Z.lor v 1) = Z.log2 v).
  { rewrite Z.log2_lor by lia. pose proof (Z.log2_nonneg v). cbn. lia. }
  assert (N : Z.lor v 1 <> 0) by (intros E; apply Z.lor_eq_0_iff in E; lia).
  rewrite (proj2 (Z.eqb_neq _ _)) by exact N. rewrite L.
  replace (Z.log2 v + 1 + 6) with (1 * 7 + Z.log2 v) by lia.
  rewrite Z.div_add_l by lia. lia.
Qed.

Lemma sov_small v : 0 <= v < 128 -> sov v = 1.
Proof.
  intros. rewrite sov_log2 by lia.
  assert (0 <= Z.log2 v < 7).
  { split; [apply Z.log2_nonneg|]. destruct (Z.eq_dec v 0) as [->|]; [reflexivity|].
    apply Z.log2_lt_pow2; lia. }
  rewrite Z.div_small by lia. reflexivity.
Qed.

Lemma shiftr7_bound v k : 128 <= v < 2 ^ k -> 7 < k /\ 1 <= Z.shiftr v 7 < 2 ^ (k - 7).
Proof.
  intros H. assert (7 < k).
  { destruct (Z.lt_ge_cases 7 k); [assumption|].
    pose proof (Z.pow_le_mono_r 2 k 7 ltac:(lia) ltac:(lia)). lia. }
  rewrite Z.shiftr_div_pow2 by lia. split; [assumption|]. split.
  - apply Z.div_le_lower_bound; lia.
  - apply Z.div_lt_upper_bound; [lia|]. rewrite <- Z.pow_add_r by lia.
    replace (7 + (k - 7)) with k by lia. lia.
Qed.

Lemma sov_step v : 128 <= v -> sov v = 1 + sov (Z.shiftr v 7).
Proof.
  intros H.
  assert (1 <= Z.shiftr v 7).
  { rewrite Z.shiftr_div_pow2 by lia. apply Z.div_le_lower_bound; lia. }
  rewrite !sov_log2 by lia. rewrite Z.log2_shiftr by lia.
  assert (7 <= Z.log2 v) by (apply Z.log2_le_pow2; lia).
  rewrite Z.max_r by lia.
  replace (Z.log2 v) with (1 * 7 + (Z.log2 v - 7)) at 1 by lia.
  rewrite Z.div_add_l by lia. lia.
Qed.

Lemma varint_aux_len n v : 0 <= v < 2 ^ (7 * Z.of_nat n) -> (0 < n)%nat ->
  len (varint_aux n v) = sov v.
Proof.
  revert v. induction n as [|n IH]; intros v Hv Hn; [lia|]. cbn [varint_aux].
  case_bool; zify_bools.
  - rewrite sov_small by lia. reflexivity.
  - destruct (shiftr7_bound v (7 * Z.of_nat (S n))) as [K S]; [lia|].
    rewrite len_cons, IH, <- sov_step by (try replace (7 * Z.of_nat n) with (7 * Z.of_nat (Datatypes.S n) - 7) by lia; lia).
    reflexivity.
Qed.

Lemma varint_len v : 0 <= v < 2 ^ 64 -> len (varint v) = sov v.
Proof. intros. apply varint_aux_len; lia. Qed.

(** ** What a writer writes

    [writes w e]: the statement [w] fills the bytes just before the position
    with [e] and moves the position to its start, whatever is around. *)

Definition writes (w : writer) (e : bytes) : Prop :=
  forall pre mid post, length mid = length e ->
    w (WBuf (pre ++ mid ++ post) (len pre + len mid)) = Ok (WBuf (pre ++ e ++ post) (len pre)).

(** The same for the nested functions, which fill the end (messages) or the
    start (durations, times) of the slice they are given. *)
Definition fills_end (m : bytes -> res (bytes * Z)) (e : bytes) : Prop :=
  forall pre mid, length mid = length e -> m (pre ++ mid) = Ok (pre ++ e, len e).
Definition fills_start (m : bytes -> res (bytes * Z)) (e : bytes) : Prop :=
  forall mid post, length mid = length e -> m (mid ++ post) = Ok (e ++ post, len e).

Lemma writes_skip : writes wskip [].
Proof.
  intros pre mid post H. destruct mid; [|discriminate].
  unfold wskip. rewrite len_nil, Z.add_0_r. reflexivity.
Qed.

Lemma writes_seq p q e1 e2 : writes p e1 -> writes q e2 -> writes (p >> q) (e2 ++ e1).
Proof.
  intros Hp Hq pre mid post H. destruct (split_length _ _ _ H) as (m2 & m1 & -> & L2 & L1).
  unfold wseq. rewrite len_app.
  replace (pre ++ (m2 ++ m1) ++ post) with ((pre ++ m2) ++ m1 ++ post) by now rewrite !app_assoc.
  replace (len pre + (len m2 + len m1)) with (len (pre ++ m2) + len m1) by (rewrite len_app; lia).
  rewrite Hp by assumption. cbn. rewrite <- app_assoc, len_app, Hq by assumption.
  now rewrite !app_assoc.
Qed.

Lemma writes_byte b : writes (wbyte b) [zb b].
Proof.
  intros pre mid post H. destruct mid as [|c [|? ?]]; try discriminate.
  unfold wbyte. cbn [dAtA pos]. replace (len pre + len [c] - 1) with (len pre) by (rewrite len_cons, len_nil; lia).
  cbn [app]. now rewrite set_index_app.
Qed.

Lemma writes_copy s : writes (wcopy s) s.
Proof.
  intros pre mid post H. unfold wcopy. cbn [dAtA pos].
  replace (len pre + len mid - len s) with (len pre) by (unfold len; lia).
  now rewrite copy_at_app by assumption.
Qed.

Lemma encodeVarint_loop_spec n v pre mid post :
  0 <= v < 2 ^ (7 * Z.of_nat n) -> (0 < n)%nat -> length mid = length (varint_aux n v) ->
  encodeVarint_loop n (pre ++ mid ++ post) (len pre) v = Ok (pre ++ varint_aux n v ++ post).
Proof.
  revert v pre mid. induction n as [|n IH]; intros v pre mid Hv Hn Hl; [lia|].
  cbn [encodeVarint_loop varint_aux] in *. change (1 * 2 ^ 7) with 128.
  destruct (v <? 128) eqn:E; zify_bools.
  - rewrite (proj2 (Z.leb_gt _ _)) by lia.
    destruct mid as [|c [|? ?]]; try discriminate. cbn [app]. now rewrite set_index_app.
  - rewrite (proj2 (Z.leb_le _ _)) by lia.
    destruct (shiftr7_bound v (7 * Z.of_nat (S n))) as [K S]; [lia|].
    destruct mid as [|c mid]; [discriminate|]. cbn [app]. rewrite set_index_app. cbn [mbind res_bind].
    set (b := zb _).
    replace (pre ++ b :: mid ++ post) with ((pre ++ [b]) ++ mid ++ post) by now rewrite <- app_assoc.
    replace (len pre + 1) with (len (pre ++ [b])) by (rewrite len_app, len_cons, len_nil; lia).
    rewrite IH.
    + now rewrite <- app_assoc.
    + replace (7 * Z.of_nat n) with (7 * Z.of_nat (Datatypes.S n) - 7) by lia. lia.
    + lia.
    + cbn in Hl. lia.
Qed.

Lemma writes_varint v : 0 <= v < 2 ^ 64 -> writes (wvarint v) (varint v).
Proof.
  intros Hv pre mid post H. unfold wvarint, encodeVarint. cbn [dAtA pos].
  replace (len pre + len mid - sov v) with (len pre)
    by (rewrite <- varint_len by lia; unfold len; lia).
  now rewrite encodeVarint_loop_spec by (cbn -[Z.pow] in *; lia || exact H).
Qed.

(** The reference encodings of the three kinds of fields. *)
Definition enc_string (tag : Z) (s : gostring) : bytes :=
  if 0 <? len s then zb tag :: varint (len s) ++ s else [].
Definition enc_scalar (tag v : Z) : bytes :=
  if v =? 0 then [] else zb tag :: varint (u64 v).
Definition enc_message (tag : Z) (e : bytes) : bytes := zb tag :: varint (len e) ++ e.

Lemma u64_range z : 0 <= u64 z < 2 ^ 64.
Proof. apply uwrap_range. lia. Qed.

Lemma u64_len {A} (l : list A) : len l < 2 ^ 64 -> u64 (len l) = len l.
Proof. intros. apply uwrap_small. pose proof (len_nonneg l). lia. Qed.

Lemma writes_string tag s : len s < 2 ^ 64 -> writes (wstring tag s) (enc_string tag s).
Proof.
  intros Hs. unfold wstring, enc_string. case_bool; [|apply writes_skip].
  rewrite u64_len by assumption. pose proof (len_nonneg s).
  change (zb tag :: varint (len s) ++ s) with (([zb tag] ++ varint (len s)) ++ s).
  apply writes_seq; [apply writes_copy|].
  apply writes_seq; [apply writes_varint; lia | apply writes_byte].
Qed.

Lemma writes_scalar tag v : writes (wscalar tag v) (enc_scalar tag v).
Proof.
  unfold wscalar, enc_scalar. destruct (v =? 0); cbn [negb]; [apply writes_skip|].
  change (zb tag :: varint (u64 v)) with ([zb tag] ++ varint (u64 v)).
  apply writes_seq; [apply writes_varint, u64_range | apply writes_byte].
Qed.

(** A length and a tag written in front of a payload that is already there. *)
Lemma writes_header tag e pre mid post :
  len e < 2 ^ 64 -> length mid = length ([zb tag] ++ varint (len e)) ->
  (wvarint (u64 (len e)) >> wbyte tag)
    (WBuf ((pre ++ mid) ++ e ++ post) (len (pre ++ mid) + len e - len e)) =
  Ok (WBuf (pre ++ enc_message tag e ++ post) (len pre)).
Proof.
  intros He Hm. rewrite u64_len by assumption. pose proof (len_nonneg e).
  replace (len (pre ++ mid) + len e - len e) with (len pre + len mid) by (rewrite len_app; lia).
  rewrite <- app_assoc.
  rewrite (writes_seq (wvarint (len e)) (wbyte tag) (varint (len e)) [zb tag])
    by (try apply writes_byte; try (apply writes_varint; lia); assumption).
  unfold enc_message. cbn [app]. now rewrite <- app_assoc.
Qed.

Lemma writes_message tag m e :
  len e < 2 ^ 64 -> fills_end m e -> writes (wmessage tag m) (enc_message tag e).
Proof.
  intros He Hm pre mid post Hl. unfold wmessage. cbn [dAtA pos].
  change (enc_message tag e) with (([zb tag] ++ varint (len e)) ++ e) in Hl.
  destruct (split_length _ _ _ Hl) as (m2 & m1 & -> & L2 & L1). rewrite len_app.
  replace (pre ++ (m2 ++ m1) ++ post) with ((pre ++ m2 ++ m1) ++ post) by now rewrite !app_assoc.
  replace (len pre + (len m2 + len m1)) with (len (pre ++ m2 ++ m1)) by (rewrite !len_app; lia).
  pose proof (slice_app [] (pre ++ m2 ++ m1) post) as HS. cbn [app] in HS.
  rewrite len_nil, Z.add_0_l in HS. rewrite HS. cbn [mbind res_bind].
  rewrite (app_assoc pre), Hm by assumption. cbn [mbind res_bind].
  rewrite len_to_nat, drop_app_length.
  replace (len ((pre ++ m2) ++ m1)) with (len (pre ++ m2) + len e) by (rewrite !len_app; unfold len; lia).
  rewrite <- (app_assoc (pre ++ m2)). now apply writes_header.
Qed.

Lemma writes_std tag size m e :
  len e < 2 ^ 64 -> size = len e -> fills_start m e ->
  writes (wstd tag size m) (enc_message tag e).
Proof.
  intros He -> Hm pre mid post Hl. unfold wstd. cbn [dAtA pos].
  change (enc_message tag e) with (([zb tag] ++ varint (len e)) ++ e) in Hl.
  destruct (split_length _ _ _ Hl) as (m2 & m1 & -> & L2 & L1).
  replace (pre ++ (m2 ++ m1) ++ post) with ((pre ++ m2) ++ (m1 ++ post)) by now rewrite !app_assoc.
  replace (len pre + len (m2 ++ m1)) with (len (pre ++ m2) + len e)
    by (rewrite !len_app; unfold len; lia).
  replace (len (pre ++ m2) + len e - len e) with (len (pre ++ m2)) by lia.
  pose proof (slice_app (pre ++ m2) (m1 ++ post) []) as HS.
  rewrite app_nil_r, <- len_app in HS. rewrite HS. cbn [mbind res_bind].
  rewrite Hm by assumption. cbn [mbind res_bind].
  rewrite len_to_nat, take_app_length. now apply writes_header.
Qed.

Lemma writes_fills_end w e : writes w e -> fills_end (MarshalToSizedBuffer w) e.
Proof.
  intros Hw pre mid Hl. unfold MarshalToSizedBuffer.
  pose proof (Hw pre mid [] Hl) as H. rewrite !app_nil_r in H.
  rewrite <- len_app in H. rewrite H. cbn [mbind res_bind dAtA pos].
  rewrite len_app. do 2 f_equal. unfold len. lia.
Qed.

(** [Marshal] returns the reference encoding when [Size] is its length. *)
Lemma Marshal_writes size w e : writes w e -> size = len e -> Marshal size w = Ok e.
Proof.
  intros Hw ->. unfold Marshal. rewrite len_to_nat.
  pose proof (writes_fills_end w e Hw [] (replicate (length e) x00)) as H.
  rewrite length_replicate in H. cbn [app] in H. rewrite H by reflexivity.
  cbn [mbind res_bind]. pose proof (slice_app [] e []) as HS.
  rewrite app_nil_r in HS. exact HS.
Qed.

(** [MarshalTo] leaves the rest of the caller's slice untouched. *)
Lemma MarshalTo_writes size w e mid post :
  writes w e -> size = len e -> length mid = length e ->
  MarshalTo size w (mid ++ post) = Ok (e ++ post, size).
Proof.
  intros Hw -> Hl. unfold MarshalTo. pose proof (slice_app [] mid post) as HS.
  cbn [app] in HS. rewrite len_nil, Z.add_0_l in HS.
  replace (len e) with (len mid) by (unfold len; lia). rewrite HS. cbn [mbind res_bind].
  pose proof (writes_fills_end w e Hw [] mid Hl) as H. cbn [app] in H. rewrite H.
  cbn [mbind res_bind]. rewrite len_to_nat, drop_app_length.
  do 2 f_equal. unfold len. lia.
Qed.

#[export] Hint Resolve writes_skip writes_seq writes_byte writes_copy writes_string
  writes_scalar writes_message writes_std writes_fills_end : halborn.

(** ** What the readers read *)

Lemma low7_byte v : bz (zb (Z.lor (Z.land v 0x7f) 0x80)) = v mod 128 + 128.
Proof.
  change 0x7f with (Z.ones 7). rewrite Z.land_ones by lia. change (2 ^ 7) with 128.
  pose proof (Z.mod_pos_bound v 128 ltac:(lia)).
  assert (E : Z.lor (v mod 128) 0x80 = v mod 128 + 128).
  { pose proof (Z.add_lor_land (v mod 128) 0x80) as A.
    replace (Z.land (v mod 128) 0x80) with 0 in A; [lia|].
    symmetry. apply Z.bits_inj'. intros n Hn. rewrite Z.land_spec, Z.bits_0.
    change 128 with (2 ^ 7). rewrite Z.pow2_bits_eqb by lia.
    destruct (Z.eqb_spec 7 n) as [<-|]; [|apply andb_false_r].
    rewrite Z.mod_pow2_bits_high by lia. reflexivity. }
  rewrite E. apply bz_zb_small. lia.
Qed.

Lemma low7_add x : 0 <= x < 128 -> Z.land (x + 128) 0x7F = x.
Proof.
  intros. change 0x7F with (Z.ones 7). rewrite Z.land_ones by lia. change (2 ^ 7) with 128.
  replace (x + 128) with (x + 1 * 128) by lia. rewrite Z_mod_plus_full. apply Z.mod_small. lia.
Qed.

Lemma shiftl_split7 v s :
  0 <= s -> Z.shiftl v s = Z.lor (Z.shiftl (v mod 128) s) (Z.shiftl (Z.shiftr v 7) (s + 7)).
Proof.
  intros Hs. replace (s + 7) with (7 + s) by lia. rewrite <- Z.shiftl_shiftl by lia.
  rewrite <- Z.shiftl_lor. f_equal. apply Z.bits_inj'. intros n Hn.
  rewrite Z.lor_spec, Z.shiftl_spec by lia. change 128 with (2 ^ 7).
  destruct (Z.lt_ge_cases n 7).
  - rewrite Z.mod_pow2_bits_low, (Z.testbit_neg_r _ (n - 7)) by lia. now rewrite orb_false_r.
  - rewrite Z.mod_pow2_bits_high, Z.shiftr_spec by lia. cbn. f_equal. lia.
Qed.

Lemma i64_add a b : 0 <= a < 2 ^ 63 -> 0 <= b < 2 ^ 63 ->
  (i64 (a + b) = a + b /\ a + b < 2 ^ 63) \/ i64 (a + b) < 0.
Proof.
  intros. destruct (Z.lt_ge_cases (a + b) (2 ^ 63)).
  - left. split; [apply swrap_small; lia | assumption].
  - right. unfold i64, swrap. rewrite Z.mod_small by lia. case_bool; zify_bools; lia.
Qed.

Section reading_lemmas.
Variable f : pbfile.

Lemma decodeVarint_loop_spec W `{!BitHom W} n fuel v s y pre post :
  (0 < n <= fuel)%nat -> 0 <= v < 2 ^ (7 * Z.of_nat n) -> 0 <= s < 64 -> v < 2 ^ (64 - s) ->
  decodeVarint_loop f W fuel (pre ++ varint_aux n v ++ post) (len pre) s (W y) =
  Ok (W (Z.lor y (Z.shiftl v s)), len pre + len (varint_aux n v)).
Proof.
  revert fuel v s y pre. induction n as [|n IH]; intros [|fuel] v s y pre Hn Hv Hs Hv'; try lia.
  cbn [decodeVarint_loop varint_aux]. rewrite (proj2 (Z.leb_gt 64 s)) by lia.
  pose proof (len_nonneg pre). pose proof (len_nonneg post).
  destruct (v <? 128) eqn:E; zify_bools.
  - cbn [app]. rewrite len_app, len_cons, (proj2 (Z.leb_gt _ _)) by lia.
    rewrite index_app. cbn [mbind res_bind]. rewrite bz_zb_small by lia.
    rewrite (proj2 (Z.ltb_lt v 0x80)) by lia. change 0x7F with (Z.ones 7).
    rewrite Z.land_ones, Z.mod_small, <- bithom_lor by (lia || assumption).
    rewrite len_cons, len_nil. reflexivity.
  - destruct (shiftr7_bound v (7 * Z.of_nat (S n))) as [K1 S1]; [lia|].
    destruct (shiftr7_bound v (64 - s)) as [K2 S2]; [lia|].
    cbn [app]. rewrite len_app, len_cons, (proj2 (Z.leb_gt _ _))
      by (pose proof (len_nonneg (varint_aux n (Z.shiftr v 7) ++ post)); lia).
    rewrite index_app. cbn [mbind res_bind]. rewrite low7_byte.
    pose proof (Z.mod_pos_bound v 128 ltac:(lia)).
    rewrite (proj2 (Z.ltb_ge _ 0x80)), low7_add, <- bithom_lor by (lia || assumption).
    set (b := zb _).
    replace (pre ++ b :: varint_aux n (Z.shiftr v 7) ++ post)
      with ((pre ++ [b]) ++ varint_aux n (Z.shiftr v 7) ++ post) by now rewrite <- app_assoc.
    replace (len pre + 1) with (len (pre ++ [b])) by (rewrite len_app, len_cons, len_nil; lia).
    rewrite IH; try lia.
    + rewrite <- Z.lor_assoc, <- shiftl_split7 by lia.
      rewrite len_app, !len_cons, len_nil. do 2 f_equal. lia.
    + replace (7 * Z.of_nat n) with (7 * Z.of_nat (S n) - 7) by lia. lia.
    + replace (64 - (s + 7)) with (64 - s - 7) by lia. lia.
Qed.

(** Reading inverts writing at every integer type. *)
Lemma decodeVarint_varint W `{!BitHom W} v pre post :
  0 <= v < 2 ^ 64 ->
  decodeVarint f W (pre ++ varint v ++ post) (len pre) = Ok (W v, len pre + len (varint v)).
Proof.
  intros Hv. unfold decodeVarint.
  pose proof (decodeVarint_loop_spec W 10 11 v 0 0 pre post) as H.
  rewrite (bithom_0 (W := W)) in H. cbn [Z.lor] in H. rewrite Z.shiftl_0_r in H. apply H; lia.
Qed.

(** On arbitrary bytes the reader advances, and its value is one of the type. *)
Lemma decodeVarint_loop_safe W `{!BitHom W} fuel d i s y :
  0 <= i -> (0 < fuel)%nat -> 64 <= s + 7 * (Z.of_nat fuel - 1) ->
  safe (decodeVarint_loop f W fuel d i s (W y))
    (fun '(x, j) => i < j <= len d /\ exists y, x = W y).
Proof.
  revert i s y. induction fuel as [|fuel IH]; intros i s y Hi Hf Hs; [lia|].
  cbn [decodeVarint_loop]. case_bool; [exact I|]. case_bool; [exact I|]. zify_bools.
  apply safe_bind with (P := fun _ => True); [apply index_safe; lia|]. intros b _.
  rewrite <- bithom_lor. case_bool; zify_bools; [cbn; split; [lia | eauto]|].
  eapply safe_weaken; [apply IH; lia|]. intros [? j] [? ?]. split; [lia | assumption].
Qed.

Lemma decodeVarint_safe W `{!BitHom W} d i :
  0 <= i -> safe (decodeVarint f W d i) (fun '(x, j) => i < j <= len d /\ exists y, x = W y).
Proof.
  intros. pose proof (decodeVarint_loop_safe W 11 d i 0 0) as H'.
  rewrite (bithom_0 (W := W)) in H'. apply H'; lia.
Qed.

Lemma skipVarint_loop_safe fuel d i s :
  0 <= i -> (0 < fuel)%nat -> 64 <= s + 7 * (Z.of_nat fuel - 1) ->
  safe (skipVarint_loop f fuel d i s) (fun j => i < j <= len d).
Proof.
  revert i s. induction fuel as [|fuel IH]; intros i s Hi Hf Hs; [lia|].
  cbn [skipVarint_loop]. case_bool; [exact I|]. case_bool; [exact I|]. zify_bools.
  apply safe_bind with (P := fun _ => True); [apply index_safe; lia|]. intros b _.
  case_bool; zify_bools; [cbn; lia|].
  eapply safe_weaken; [apply IH; lia|]. cbn. lia.
Qed.

Lemma i64_range z : - 2 ^ 63 <= i64 z < 2 ^ 63.
Proof. apply (swrap_range 64). lia. Qed.

Lemma skip_case_safe d wt i depth :
  0 <= i <= len d -> len d < 2 ^ 63 ->
  safe (skip_case f d wt i depth) (fun '(j, _) => j < 0 \/ i <= j < 2 ^ 63).
Proof.
  intros Hi Hd. unfold skip_case. repeat case_bool; zify_bools; try exact I; try (cbn; lia).
  - apply safe_bind with (P := fun j => i < j <= len d);
      [apply skipVarint_loop_safe; lia | cbn; lia].
  - cbn. pose proof (i64_add i 8). lia.
  - eapply safe_bind; [apply decodeVarint_safe; [apply _ | lia]|].
    intros [n j] [Hj [y ->]]. case_bool; zify_bools; [exact I|]. cbn.
    pose proof (i64_range y). pose proof (i64_add j (i64 y)). lia.
  - cbn. pose proof (i64_add i 4). lia.
Qed.

Lemma skip_loop_safe fuel d i depth :
  0 <= i -> len d < 2 ^ 63 -> len d - i < Z.of_nat fuel -> (0 < fuel)%nat ->
  safe (skip_loop f fuel d i depth) (fun j => i < j < 2 ^ 63).
Proof.
  revert i depth. induction fuel as [|fuel IH]; intros i depth Hi Hd Hf Hp; [lia|].
  cbn [skip_loop]. case_bool; [|exact I]. zify_bools.
  eapply safe_bind; [apply decodeVarint_safe; [apply _ | lia]|]. intros [w j] [Hj _].
  eapply safe_bind; [apply skip_case_safe; lia|]. intros [k dep] Hk.
  case_bool; [exact I|]. case_bool; zify_bools; [cbn; lia|].
  destruct fuel as [|fuel]; [lia|].
  eapply safe_weaken; [apply IH; lia|]. cbn. lia.
Qed.

Lemma skip_safe d : len d < 2 ^ 63 -> safe (skip f d) (fun n => 0 < n < 2 ^ 63).
Proof. intros. apply skip_loop_safe; unfold len in *; lia. Qed.

(** *** Length-delimited and scalar fields *)

Lemma read_message_safe name wt d i :
  0 <= i -> len d < 2 ^ 63 ->
  safe (read_message f name wt d i) (fun '(s, j) => i <= j <= len d /\ len s < 2 ^ 63).
Proof.
  intros Hi Hd. unfold read_message. case_bool; [exact I|].
  eapply safe_bind; [apply decodeVarint_safe; [apply _ | lia]|].
  intros [n j] [Hj [y ->]]. pose proof (i64_range y). pose proof (i64_add j (i64 y)).
  repeat case_bool; zify_bools; try exact I.
  eapply safe_bind; [apply slice_safe; lia|]. intros s Hs. cbn beta in Hs. cbn. lia.
Qed.

Lemma read_string_safe name wt d i :
  0 <= i -> len d < 2 ^ 63 ->
  safe (read_string f name wt d i) (fun '(s, j) => i <= j <= len d /\ len s < 2 ^ 63).
Proof.
  intros Hi Hd. unfold read_string. case_bool; [exact I|].
  eapply safe_bind; [apply decodeVarint_safe; [apply _ | lia]|].
  intros [n j] [Hj _]. pose proof (i64_range n). pose proof (i64_add j (i64 n)).
  repeat case_bool; zify_bools; try exact I.
  eapply safe_bind; [apply slice_safe; lia|]. intros s Hs. cbn beta in Hs. cbn. lia.
Qed.

Lemma read_scalar_safe W `{!BitHom W} name wt d i :
  0 <= i -> safe (read_scalar f W name wt d i) (fun '(x, j) => i <= j <= len d).
Proof.
  intros Hi. unfold read_scalar. case_bool; [exact I|].
  eapply safe_weaken; [apply decodeVarint_safe; assumption|]. intros [? j] [? _]. lia.
Qed.

(** The payload of [enc_message] or [enc_string], at any position. *)
Lemma read_message_spec name s pre post :
  len (pre ++ (varint (len s) ++ s) ++ post) < 2 ^ 63 ->
  read_message f name 2 (pre ++ (varint (len s) ++ s) ++ post) (len pre) =
  Ok (s, len pre + len (varint (len s) ++ s)).
Proof.
  intros H. rewrite !len_app in H.
  pose proof (len_nonneg pre). pose proof (len_nonneg s). pose proof (len_nonneg post).
  pose proof (len_nonneg (varint (len s))).
  unfold read_message. rewrite Z.eqb_refl. cbn [negb].
  rewrite <- (app_assoc (varint (len s))), decodeVarint_varint by (apply _ || lia).
  cbn [mbind res_bind].
  replace (i64 (len s)) with (len s) by (symmetry; apply (swrap_small 64); lia).
  rewrite (proj2 (Z.ltb_ge (len s) 0)) by lia.
  replace (i64 (len pre + len (varint (len s)) + len s)) with (len pre + len (varint (len s)) + len s)
    by (symmetry; apply (swrap_small 64); lia).
  rewrite !(proj2 (Z.ltb_ge _ _)) by (rewrite ?len_app; lia).
  pose proof (slice_app (pre ++ varint (len s)) s post) as HS.
  rewrite <- app_assoc, len_app in HS. rewrite HS. cbn. rewrite len_app. do 2 f_equal. lia.
Qed.

Lemma read_string_spec name s pre post :
  len (pre ++ (varint (len s) ++ s) ++ post) < 2 ^ 63 ->
  read_string f name 2 (pre ++ (varint (len s) ++ s) ++ post) (len pre) =
  Ok (s, len pre + len (varint (len s) ++ s)).
Proof.
  intros H. rewrite !len_app in H.
  pose proof (len_nonneg pre). pose proof (len_nonneg s). pose proof (len_nonneg post).
  pose proof (len_nonneg (varint (len s))).
  unfold read_string. rewrite Z.eqb_refl. cbn [negb].
  rewrite <- (app_assoc (varint (len s))), decodeVarint_varint by (apply _ || lia).
  cbn [mbind res_bind]. rewrite u64_len by lia.
  replace (i64 (len s)) with (len s) by (symmetry; apply (swrap_small 64); lia).
  rewrite (proj2 (Z.ltb_ge (len s) 0)) by lia.
  replace (i64 (len pre + len (varint (len s)) + len s)) with (len pre + len (varint (len s)) + len s)
    by (symmetry; apply (swrap_small 64); lia).
  rewrite !(proj2 (Z.ltb_ge _ _)) by (rewrite ?len_app; lia).
  pose proof (slice_app (pre ++ varint (len s)) s post) as HS.
  rewrite <- app_assoc, len_app in HS. rewrite HS. cbn. rewrite len_app. do 2 f_equal. lia.
Qed.

Lemma read_scalar_spec W `{!BitHom W} name v pre post :
  0 <= v < 2 ^ 64 ->
  read_scalar f W name 0 (pre ++ varint v ++ post) (len pre) = Ok (W v, len pre + len (varint v)).
Proof. intros. unfold read_scalar. cbn [negb Z.eqb]. now apply decodeVarint_varint. Qed.
End reading_lemmas.

Arguments encodeVarint_loop : simpl never.
Arguments decodeVarint_loop : simpl never.
Arguments skipVarint_loop : simpl never.
Arguments skip_loop : simpl never.

(** ** The main loop *)

Section unmarshal_lemmas.
Context (f : pbfile) {M : Type} (name : string) (dflt : bytes -> M -> Z -> res (M * Z)).
Context (field : M -> Z -> Z -> bytes -> Z -> option (res (M * Z))).

(** The switch returns normally and never moves the index backwards or past
    the end. *)
Definition field_ok : Prop := forall m fn wt d i,
  0 <= i <= len d -> len d < 2 ^ 63 ->
  match field m fn wt d i with
  | Some r => safe r (fun '(_, j) => i <= j <= len d)
  | None => True
  end.

(** The default case consumes something. *)
Definition dflt_ok : Prop := forall d m i,
  0 <= i <= len d -> len d < 2 ^ 63 -> safe (dflt d m i) (fun '(_, j) => i < j <= len d).

Context (Hfield : field_ok) (Hdflt : dflt_ok).

(** One round: the rest of the loop continues from a larger index. *)
Definition round (d : bytes) (m : M) (i : Z) : res (M * Z) :=
  '(wire, j) ← decodeVarint f u64 d i;
  let fieldNum := i32 (Z.shiftr wire 3) in
  let wireType := Z.land wire 0x7 in
  if wireType =? 4 then Err (ErrEndGroup name) else
  if fieldNum <=? 0 then Err (ErrIllegalTag name fieldNum wire) else
  match field m fieldNum wireType d j with Some r => r | None => dflt d m i end.

Lemma unmarshal_loop_S fuel d m i :
  unmarshal_loop f name dflt field (S fuel) d m i =
  if i <? len d then round d m i ≫= fun '(m, j) => unmarshal_loop f name dflt field fuel d m j
  else if len d <? i then Err ErrUnexpectedEOF else Ok m.
Proof.
  cbn [unmarshal_loop]. unfold round. case_bool; [|reflexivity].
  destruct (decodeVarint f u64 d i) as [[w j]| | |]; cbn; try reflexivity.
  repeat case_bool; reflexivity.
Qed.

Lemma round_safe d m i :
  0 <= i < len d -> len d < 2 ^ 63 -> safe (round d m i) (fun '(_, j) => i < j <= len d).
Proof.
  intros Hi Hd. unfold round.
  eapply safe_bind; [apply decodeVarint_safe; [apply _ | lia]|]. intros [w j] [Hj _].
  repeat case_bool; try exact I.
  pose proof (Hfield m (i32 (Z.shiftr w 3)) (Z.land w 7) d j ltac:(lia) Hd) as F.
  destruct (field _ _ _ _ _).
  - eapply safe_weaken; [exact F|]. intros [? k] ?. lia.
  - apply Hdflt; lia.
Qed.

Lemma unmarshal_loop_safe fuel d m i :
  0 <= i <= len d -> len d < 2 ^ 63 -> len d - i < Z.of_nat fuel ->
  safe (unmarshal_loop f name dflt field fuel d m i) (fun _ => True).
Proof.
  revert m i. induction fuel as [|fuel IH]; intros m i Hi Hd Hf; [lia|].
  rewrite unmarshal_loop_S. case_bool; zify_bools; [|rewrite (proj2 (Z.ltb_ge _ _)) by lia; exact I].
  eapply safe_bind; [apply round_safe; lia|]. intros [m' j] Hj. apply IH; lia.
Qed.

(** Enough fuel is enough: the result does not depend on it. *)
Lemma unmarshal_loop_fuel fuel1 fuel2 d m i :
  0 <= i <= len d -> len d < 2 ^ 63 ->
  len d - i < Z.of_nat fuel1 -> len d - i < Z.of_nat fuel2 ->
  unmarshal_loop f name dflt field fuel1 d m i = unmarshal_loop f name dflt field fuel2 d m i.
Proof.
  revert fuel2 m i. induction fuel1 as [|fuel1 IH]; intros [|fuel2] m i Hi Hd H1 H2; try lia.
  rewrite !unmarshal_loop_S. case_bool; [|reflexivity]. zify_bools.
  pose proof (round_safe d m i ltac:(lia) Hd) as R.
  destruct (round d m i) as [[m' j]| | |]; cbn in *; try reflexivity. apply IH; lia.
Qed.

(** [unm d m i]: the rest of the loop from index [i]. *)
Definition unm (d : bytes) (m : M) (i : Z) : res M :=
  unmarshal_loop f name dflt field (S (Z.to_nat (len d - i))) d m i.

Lemma unm_round d m i :
  0 <= i < len d -> len d < 2 ^ 63 ->
  unm d m i = round d m i ≫= fun '(m, j) => unm d m j.
Proof.
  intros Hi Hd. unfold unm at 1. rewrite unmarshal_loop_S, (proj2 (Z.ltb_lt _ _)) by lia.
  pose proof (round_safe d m i Hi Hd) as R.
  destruct (round d m i) as [[m' j]| | |]; cbn [mbind res_bind safe] in *; try reflexivity.
  apply unmarshal_loop_fuel; lia.
Qed.

Lemma unm_end d m : unm d m (len d) = Ok m.
Proof. unfold unm. rewrite unmarshal_loop_S, Z.ltb_irrefl. reflexivity. Qed.

(** [Unmarshal] on arbitrary bytes returns a message or an error. *)
Lemma Unmarshal_with_safe m d :
  len d < 2 ^ 63 -> safe (Unmarshal_with f name dflt field m d) (fun _ => True).
Proof.
  intros. pose proof (len_nonneg d). apply unmarshal_loop_safe; unfold len in *; lia.
Qed.

(** [reads m e m']: wherever the bytes [e] stand, reading them turns [m] into [m']. *)
Definition reads (m : M) (e : bytes) (m' : M) : Prop := forall pre post,
  len (pre ++ e ++ post) < 2 ^ 63 ->
  unm (pre ++ e ++ post) m (len pre) = unm (pre ++ e ++ post) m' (len pre + len e).

Lemma reads_nil m : reads m [] m.
Proof. intros pre post _. rewrite len_nil, Z.add_0_r. reflexivity. Qed.

Lemma reads_app m e1 m1 e2 m2 : reads m e1 m1 -> reads m1 e2 m2 -> reads m (e1 ++ e2) m2.
Proof.
  intros H1 H2 pre post Hl. rewrite <- app_assoc in *. rewrite H1 by assumption.
  rewrite app_assoc in Hl. specialize (H2 (pre ++ e1) post Hl).
  rewrite <- app_assoc, len_app in H2. rewrite H2, len_app. f_equal. lia.
Qed.

Lemma reads_Unmarshal_with m e m' : reads m e m' -> len e < 2 ^ 63 -> Unmarshal_with f name dflt field m e = Ok m'.
Proof.
  intros H Hl. pose proof (len_nonneg e). specialize (H [] []).
  rewrite app_nil_r in H. cbn [app] in H. rewrite len_nil, Z.add_0_l in H.
  rewrite unm_end in H. rewrite <- H by assumption. unfold Unmarshal_with.
  apply unmarshal_loop_fuel; unfold len in *; lia.
Qed.

(** A one-byte tag: field number and wire type. *)
Lemma round_tag tag pre post m :
  8 <= tag < 128 -> Z.land tag 7 <> 4 ->
  round (pre ++ zb tag :: post) m (len pre) =
  match field m (Z.shiftr tag 3) (Z.land tag 7) (pre ++ zb tag :: post) (len pre + 1) with
  | Some r => r | None => dflt (pre ++ zb tag :: post) m (len pre) end.
Proof.
  intros Ht Hw. unfold round.
  assert (E : varint tag = [zb tag]).
  { unfold varint. cbn [varint_aux]. now rewrite (proj2 (Z.ltb_lt _ _)) by lia. }
  pose proof (decodeVarint_varint f u64 tag pre post ltac:(lia)) as D.
  rewrite E in D. cbn [app] in D. rewrite D. cbn [mbind res_bind].
  change (len [zb tag]) with 1. replace (u64 tag) with tag by (symmetry; apply uwrap_small; lia).
  rewrite (proj2 (Z.eqb_neq _ _) Hw).
  assert (1 <= Z.shiftr tag 3 < 16).
  { rewrite Z.shiftr_div_pow2 by lia. change (2 ^ 3) with 8.
    split; [apply Z.div_le_lower_bound | apply Z.div_lt_upper_bound]; lia. }
  replace (i32 (Z.shiftr tag 3)) with (Z.shiftr tag 3) by (symmetry; apply (swrap_small 32); lia).
  now rewrite (proj2 (Z.leb_gt _ _)) by lia.
Qed.

Lemma reads_field tag payload m m' :
  8 <= tag < 128 -> Z.land tag 7 <> 4 ->
  (forall pre post, len (pre ++ payload ++ post) < 2 ^ 63 ->
     field m (Z.shiftr tag 3) (Z.land tag 7) (pre ++ payload ++ post) (len pre) =
     Some (Ok (m', len pre + len payload))) ->
  reads m (zb tag :: payload) m'.
Proof.
  intros Ht Hw Hf pre post Hl. cbn [app] in *.
  pose proof (len_nonneg pre). pose proof (len_nonneg (payload ++ post)).
  rewrite unm_round by (try assumption; rewrite len_app, len_cons; lia).
  rewrite round_tag by assumption.
  specialize (Hf (pre ++ [zb tag]) post). rewrite <- app_assoc in Hf. cbn [app] in Hf.
  replace (len (pre ++ [zb tag])) with (len pre + 1) in Hf by (rewrite len_app; reflexivity).
  rewrite Hf by assumption.
  cbn [mbind res_bind]. f_equal. rewrite len_cons. lia.
Qed.

(** *** Reading back each kind of field *)

Lemma reads_conv m e m1 m2 : reads m e m1 -> m1 = m2 -> reads m e m2.
Proof. now intros ? <-. Qed.

Lemma reads_string tag fname (upd : gostring -> M) s m :
  8 <= tag < 128 -> Z.land tag 7 = 2 ->
  (forall d i, field m (Z.shiftr tag 3) 2 d i =
     Some ('(s, j) ← read_string f fname 2 d i; Ok (upd s, j))) ->
  upd [] = m -> reads m (enc_string tag s) (upd s).
Proof.
  intros Ht Hw Hf Hd. unfold enc_string. destruct s as [|c s].
  - rewrite Hd. apply reads_nil.
  - rewrite (proj2 (Z.ltb_lt _ _)) by (rewrite len_cons; pose proof (len_nonneg s); lia).
    apply reads_field; [assumption | lia |]. intros pre post Hl.
    rewrite Hw, Hf, read_string_spec by assumption. reflexivity.
Qed.

(** A string field that is present, whatever its length. *)
Lemma reads_string_present tag fname (upd : gostring -> M) s m :
  8 <= tag < 128 -> Z.land tag 7 = 2 ->
  (forall d i, field m (Z.shiftr tag 3) 2 d i =
     Some ('(s, j) ← read_string f fname 2 d i; Ok (upd s, j))) ->
  reads m (enc_message tag s) (upd s).
Proof.
  intros Ht Hw Hf. apply reads_field; [assumption | lia |]. intros pre post Hl.
  rewrite Hw, Hf, read_string_spec by assumption. reflexivity.
Qed.

Lemma reads_scalar W `{!BitHom W} tag fname (upd : Z -> M) v m :
  8 <= tag < 128 -> Z.land tag 7 = 0 ->
  (forall d i, field m (Z.shiftr tag 3) 0 d i =
     Some ('(x, j) ← read_scalar f W fname 0 d i; Ok (upd x, j))) ->
  upd 0 = m -> W (u64 v) = v -> reads m (enc_scalar tag v) (upd v).
Proof.
  intros Ht Hw Hf Hd Hv. unfold enc_scalar. case_bool; zify_bools.
  - subst v. rewrite Hd. apply reads_nil.
  - apply reads_field; [assumption | lia |]. intros pre post Hl.
    rewrite Hw, Hf, read_scalar_spec by (apply u64_range || apply _). cbn. now rewrite Hv.
Qed.

Lemma reads_message tag fname (upd : bytes -> res M) e m m' :
  8 <= tag < 128 -> Z.land tag 7 = 2 ->
  (forall d i, field m (Z.shiftr tag 3) 2 d i =
     Some ('(s, j) ← read_message f fname 2 d i; m' ← upd s; Ok (m', j))) ->
  upd e = Ok m' -> reads m (enc_message tag e) m'.
Proof.
  intros Ht Hw Hf He. unfold enc_message.
  apply reads_field; [assumption | lia |]. intros pre post Hl.
  rewrite Hw, Hf, read_message_spec by assumption. cbn [mbind res_bind]. now rewrite He.
Qed.

(** An element of the input that makes a round fail makes the whole call fail. *)
Lemma unm_round_err pre post m e :
  len (pre ++ post) < 2 ^ 63 -> (0 < length post)%nat ->
  round (pre ++ post) m (len pre) = Err e -> unm (pre ++ post) m (len pre) = Err e.
Proof.
  intros Hl Hp He. pose proof (len_nonneg pre).
  rewrite unm_round by (try assumption; rewrite ?len_app; unfold len in *; lia). now rewrite He.
Qed.

(** *** Unknown fields and failures *)

(** [fails m e]: wherever the bytes [e] stand, [m] reading them is an error. *)
Definition fails (m : M) (e : bytes) : Prop := forall pre post,
  len (pre ++ e ++ post) < 2 ^ 63 -> exists err, unm (pre ++ e ++ post) m (len pre) = Err err.

Lemma fails_app_l m e1 e2 : fails m e1 -> fails m (e1 ++ e2).
Proof. intros H pre post Hl. rewrite <- app_assoc in *. now apply H. Qed.

Lemma fails_app_r m e1 m1 e2 : reads m e1 m1 -> fails m1 e2 -> fails m (e1 ++ e2).
Proof.
  intros H1 H2 pre post Hl. rewrite <- app_assoc in *. rewrite H1 by assumption.
  rewrite app_assoc in Hl. specialize (H2 (pre ++ e1) post Hl).
  now rewrite <- app_assoc, len_app in H2.
Qed.

Lemma fails_field tag payload m err : 8 <= tag < 128 -> Z.land tag 7 <> 4 ->
  (forall pre post, len (pre ++ payload ++ post) < 2 ^ 63 ->
     field m (Z.shiftr tag 3) (Z.land tag 7) (pre ++ payload ++ post) (len pre) = Some (Err err)) ->
  fails m (zb tag :: payload).
Proof.
  intros Ht Hw Hf pre post Hl. exists err. cbn [app] in *.
  apply unm_round_err; [assumption | cbn; lia |].
  rewrite round_tag by assumption.
  specialize (Hf (pre ++ [zb tag]) post). rewrite <- app_assoc in Hf. cbn [app] in Hf.
  replace (len (pre ++ [zb tag])) with (len pre + 1) in Hf by (rewrite len_app; reflexivity).
  now rewrite Hf.
Qed.

(** A field number 0 is an illegal tag. *)
Lemma fails_tag_zero m payload : fails m (x00 :: payload).
Proof.
  intros pre post Hl. exists (ErrIllegalTag name 0 0). apply unm_round_err; [assumption | cbn; lia |].
  unfold round. pose proof (decodeVarint_varint f u64 0 pre (payload ++ post) ltac:(lia)) as D.
  change (varint 0) with [x00] in D. cbn [app] in *. now rewrite D.
Qed.

(** A scalar where the message has a length-delimited field, or the reverse. *)
Lemma fails_scalar tag fname v m : 8 <= tag < 128 -> Z.land tag 7 = 0 -> v <> 0 ->
  (forall d i, field m (Z.shiftr tag 3) 0 d i = Some (Err (ErrWrongWireType 0 fname))) ->
  fails m (enc_scalar tag v).
Proof.
  intros Ht Hw Hv Hf. unfold enc_scalar. rewrite (proj2 (Z.eqb_neq _ _) Hv).
  eapply fails_field; [assumption | lia |]. intros. rewrite Hw. apply Hf.
Qed.

(** A nested message whose reader fails. *)
Lemma fails_message tag fname (upd : bytes -> res M) e m err :
  8 <= tag < 128 -> Z.land tag 7 = 2 ->
  (forall d i, field m (Z.shiftr tag 3) 2 d i =
     Some ('(s, j) ← read_message f fname 2 d i; m' ← upd s; Ok (m', j))) ->
  upd e = Err err -> fails m (enc_message tag e).
Proof.
  intros Ht Hw Hf He. eapply fails_field; [assumption | lia |]. intros pre post Hl.
  rewrite Hw, Hf, read_message_spec by assumption. cbn [mbind res_bind]. now rewrite He.
Qed.

Lemma fails_Unmarshal_with m e : fails m e -> len e < 2 ^ 63 ->
  exists err, Unmarshal_with f name dflt field m e = Err err.
Proof.
  intros H Hl. pose proof (len_nonneg e). specialize (H [] []).
  rewrite app_nil_r in H. cbn [app] in H. destruct (H Hl) as [err E]. exists err. rewrite <- E.
  apply unmarshal_loop_fuel; unfold len in *; cbn; lia.
Qed.
End unmarshal_lemmas.

(** *** The gogoproto files *)

Section skip_unknown.
Context (f : pbfile) {M : Type} (name : string).
Context (field : M -> Z -> Z -> bytes -> Z -> option (res (M * Z))).

Lemma skip_field_safe : dflt_ok (M := M) (skip_field f).
Proof.
  intros d m i Hi Hd. unfold skip_field.
  eapply safe_bind; [apply slice_safe; lia|]. intros s Hs. cbn beta in Hs.
  eapply safe_bind; [apply skip_safe; lia|]. intros n Hn. cbn beta in Hn.
  pose proof (i64_add i n). repeat case_bool; zify_bools; try exact I. cbn. lia.
Qed.

Context (Hfield : field_ok field).
Abbreviation reads := (reads f name (skip_field f) field).
Abbreviation round := (round f name (skip_field f) field).

Lemma Unmarshal_safe m d : len d < 2 ^ 63 -> safe (Unmarshal f name field m d) (fun _ => True).
Proof. apply Unmarshal_with_safe; [exact Hfield | exact skip_field_safe]. Qed.

Lemma reads_Unmarshal m e m' : reads m e m' -> len e < 2 ^ 63 -> Unmarshal f name field m e = Ok m'.
Proof. apply reads_Unmarshal_with; [exact Hfield | exact skip_field_safe]. Qed.

Lemma fails_Unmarshal m e : fails f name (skip_field f) field m e -> len e < 2 ^ 63 ->
  exists err, Unmarshal f name field m e = Err err.
Proof. apply fails_Unmarshal_with; [exact Hfield | exact skip_field_safe]. Qed.

(** Skipping a length-delimited field. *)
Lemma skip_delimited tag s post : 0 <= tag < 128 -> Z.land tag 7 = 2 ->
  len (zb tag :: varint (len s) ++ s ++ post) < 2 ^ 63 ->
  skip f (zb tag :: varint (len s) ++ s ++ post) = Ok (len (zb tag :: varint (len s) ++ s)).
Proof.
  intros Ht Hw Hl. set (d := zb tag :: _) in *. unfold skip. unfold skip_loop; fold (skip_loop f).
  assert (L : len d = 1 + len (varint (len s)) + len s + len post)
    by (unfold d; rewrite len_cons, !len_app; lia).
  pose proof (len_nonneg s). pose proof (len_nonneg post). pose proof (len_nonneg (varint (len s))).
  rewrite (proj2 (Z.ltb_lt _ _)) by lia.
  assert (E : varint tag = [zb tag]).
  { unfold varint. cbn [varint_aux]. now rewrite (proj2 (Z.ltb_lt _ _)) by lia. }
  pose proof (decodeVarint_varint f u64 tag [] (varint (len s) ++ s ++ post) ltac:(lia)) as D.
  rewrite E in D. cbn [app] in D. fold d in D. rewrite len_nil in D. rewrite D. cbn [mbind res_bind].
  change (0 + len [zb tag]) with 1. replace (u64 tag) with tag by (symmetry; apply uwrap_small; lia). rewrite Hw.
  pose proof (decodeVarint_varint f i64 (len s) [zb tag] (s ++ post) ltac:(lia)) as D'.
  cbn [app] in D'. fold d in D'. change (len [zb tag]) with 1 in D'.
  unfold skip_case. cbn [Z.eqb Pos.eqb]. rewrite D'. cbn [mbind res_bind].
  replace (i64 (len s)) with (len s) by (symmetry; apply (swrap_small 64); lia).
  rewrite (proj2 (Z.ltb_ge _ _)) by lia. cbn [mbind res_bind].
  replace (i64 (1 + len (varint (len s)) + len s)) with (1 + len (varint (len s)) + len s)
    by (symmetry; apply (swrap_small 64); lia).
  rewrite (proj2 (Z.ltb_ge _ _)) by lia. rewrite Z.eqb_refl, len_cons, len_app. f_equal. lia.
Qed.

(** A field the message does not know is skipped. *)
Lemma reads_unknown_present tag s m :
  8 <= tag < 128 -> Z.land tag 7 = 2 -> (forall d i, field m (Z.shiftr tag 3) 2 d i = None) ->
  reads m (enc_message tag s) m.
Proof.
  intros Ht Hw Hf. unfold enc_message.
  intros pre post Hl. pose proof (len_nonneg pre). pose proof (len_nonneg post).
  assert (L : len (pre ++ (zb tag :: varint (len s) ++ s) ++ post) =
    len pre + len (zb tag :: varint (len s) ++ s) + len post) by (rewrite !len_app; lia).
  assert (L2 : len (zb tag :: varint (len s) ++ s ++ post) = len (zb tag :: varint (len s) ++ s) + len post)
    by (rewrite !len_cons, !len_app; lia).
  assert (0 < len (zb tag :: varint (len s) ++ s))
    by (rewrite len_cons; pose proof (len_nonneg (varint (len s) ++ s)); lia).
  rewrite unm_round by first [exact Hfield | exact skip_field_safe | lia]. set (d := pre ++ _) in *.
  replace (round d m (len pre)) with (Ok (m, len pre + len (zb tag :: varint (len s) ++ s)));
    [reflexivity|].
  unfold d at 1. cbn [app]. rewrite round_tag, Hw, Hf by lia. fold d.
  unfold skip_field. pose proof (slice_app pre ((zb tag :: varint (len s) ++ s) ++ post) []) as HS.
  rewrite app_nil_r in HS. fold d in HS.
  replace (len pre + len ((zb tag :: varint (len s) ++ s) ++ post)) with (len d) in HS
    by (rewrite len_app; lia).
  unfold d in HS. cbn [app] in HS. unfold d. cbn [app]. rewrite HS. cbn [mbind res_bind].
  rewrite <- app_assoc, skip_delimited by lia.
  cbn [mbind res_bind].
  set (n := len (zb tag :: varint (len s) ++ s)) in *.
  replace (i64 (len pre + n)) with (len pre + n) by (symmetry; apply (swrap_small 64); lia).
  rewrite !len_app, L2, !(proj2 (Z.ltb_ge _ _)) by lia. reflexivity.
Qed.

Lemma reads_unknown tag s m :
  8 <= tag < 128 -> Z.land tag 7 = 2 -> (forall d i, field m (Z.shiftr tag 3) 2 d i = None) ->
  reads m (enc_string tag s) m.
Proof. intros. unfold enc_string. case_bool; [now apply reads_unknown_present | apply reads_nil]. Qed.

End skip_unknown.

#[export] Hint Resolve skip_field_safe : halborn.


Arguments unmarshal_loop : simpl never.

(** ** The copies of each generated file *)

Definition sovParams := sov.
Definition sozParams := soz.
Definition encodeVarintParams := encodeVarint.
Definition skipParams := skip PbParams.
Definition sovTickets := sov.
Definition sozTickets := soz.
Definition encodeVarintTickets := encodeVarint.
Definition skipTickets := skip PbTickets.
Definition sovRedeemRequest := sov.
Definition sozRedeemRequest := soz.
Definition encodeVarintRedeemRequest := encodeVarint.
Definition skipRedeemRequest := skip PbRedeemRequest.
Definition sovGenesis := sov.
Definition sozGenesis := soz.
Definition encodeVarintGenesis := encodeVarint.
Definition skipGenesis := skip PbGenesis.
Definition sovQuery := sov.
Definition sozQuery := soz.
Definition encodeVarintQuery := encodeVarint.
Definition skipQuery := skip PbQuery.
Definition sovTx := sov.
Definition sozTx := soz.
Definition encodeVarintTx := encodeVarint.
Definition skipTx := skip PbTx.

(** ** Lengths of the reference encodings, as [Size] computes them *)

Lemma len_enc_string tag s : len s < 2 ^ 64 ->
  len (enc_string tag s) = if 0 <? len s then 1 + len s + sov (u64 (len s)) else 0.
Proof.
  intros H. unfold enc_string. case_bool; [|reflexivity].
  pose proof (len_nonneg s).
  rewrite len_cons, len_app, varint_len, u64_len by lia. lia.
Qed.

Lemma len_enc_scalar tag v :
  len (enc_scalar tag v) = if negb (v =? 0) then 1 + sov (u64 v) else 0.
Proof.
  unfold enc_scalar. case_bool; cbn [negb]; [reflexivity|].
  now rewrite len_cons, varint_len by apply u64_range.
Qed.

Lemma len_enc_message tag e : len e < 2 ^ 64 ->
  len (enc_message tag e) = 1 + len e + sov (u64 (len e)).
Proof.
  intros H. unfold enc_message. pose proof (len_nonneg e).
  rewrite len_cons, len_app, varint_len, u64_len by lia. lia.
Qed.

(** A field's payload is no longer than the field. *)
Lemma len_enc_string_le tag s : len s <= len (enc_string tag s).
Proof.
  unfold enc_string. case_bool; zify_bools.
  - rewrite len_cons, len_app. pose proof (len_nonneg (varint (len s))). lia.
  - rewrite len_nil. lia.
Qed.

Lemma len_enc_message_le tag e : len e <= len (enc_message tag e).
Proof.
  unfold enc_message. rewrite len_cons, len_app.
  pose proof (len_nonneg (varint (len e))). lia.
Qed.

Lemma u64_u64 v : 0 <= v < 2 ^ 64 -> u64 (u64 v) = v.
Proof. intros. rewrite !(uwrap_small 64) by (rewrite ?(uwrap_small 64); lia). reflexivity. Qed.

Lemma u32_u64 v : 0 <= v < 2 ^ 32 -> u32 (u64 v) = v.
Proof. intros. rewrite (uwrap_small 64) by lia. apply (uwrap_small 32). lia. Qed.

Lemma i32_u64 v : - 2 ^ 31 <= v < 2 ^ 31 -> i32 (u64 v) = v.
Proof.
  intros. unfold i32, swrap, u64, uwrap.
  replace (v mod 2 ^ 64 mod 2 ^ 32) with (v mod 2 ^ 32)
    by (symmetry; apply Z.mod_mod_divide; exists (2 ^ 32); reflexivity).
  apply (swrap_small 32); lia.
Qed.

(** Lengths of the parts of an encoding whose total length is bounded. *)
Ltac enc_bounds :=
  repeat match goal with
  | H : context [len (_ ++ _)] |- _ => rewrite len_app in H
  end;
  repeat match goal with
  | H : context [len (enc_string ?t ?s)] |- _ =>
      lazymatch goal with
      | _ : len s <= len (enc_string t s) |- _ => fail
      | _ => pose proof (len_enc_string_le t s)
      end
  | H : context [len (enc_message ?t ?e)] |- _ =>
      lazymatch goal with
      | _ : len e <= len (enc_message t e) |- _ => fail
      | _ => pose proof (len_enc_message_le t e)
      end
  end;
  repeat match goal with
  | H : context [len ?l] |- _ =>
      lazymatch goal with _ : 0 <= len l |- _ => fail | _ => pose proof (len_nonneg l) end
  end.

(** Discharge the side conditions of the [reads_*] lemmas. *)
Ltac reads_side := first [assumption | lia | reflexivity | apply _ | intros; reflexivity
  | solve [auto with halborn]].

Arguments varint_aux : simpl never.
Arguments varint : simpl never.
Arguments enc_string : simpl never.
Arguments enc_scalar : simpl never.
Arguments enc_message : simpl never.
