(* ===== verification/Sdk.v ===== *)
(** * The Cosmos SDK as the module sees it

    The module calls code that is not part of the repository: gogoproto's
    codecs of durations, times and coins, the SDK's coin, decimal and address
    types, the key-value store, and the account and bank keepers
    ([x/hal/types/expected_keepers.go]).  Each is a class of operations, an
    argument of every definition that calls it, and a class of laws: what the
    documentation of that code promises and the module relies on.  The file
    [SdkModel] shows that the laws can hold. *)

From S2P Require Import Prelude Wire.

(** ** Data *)

(** [math.Int]: a nil pointer or an integer. *)
Abbreviation Int := (option Z).

(** [sdk.Coin]. *)
Record Coin := MkCoin { Denom : gostring; Amount : Int }.
Abbreviation Coins := (list Coin).

(** [sdk.AccAddress] is a byte slice. *)
Abbreviation AccAddress := (list byte).

(** [time.Duration], in nanoseconds, and [time.Time], in nanoseconds since the
    Unix epoch. *)
Abbreviation Duration := Z (only parsing).
Abbreviation Time := Z (only parsing).

#[export] Instance Coin_eq_dec : EqDecision Coin.
Proof. solve_decision. Defined.

(** Go's zero values: the zero [time.Time] is January 1, year 1. *)
Definition zero_time : Time := -62135596800 * 10 ^ 9.
Definition zero_coin : Coin := MkCoin [] None.

(** The times a protobuf timestamp can hold: years 1 to 9999. *)
Definition time_valid (t : Time) : Prop := zero_time <= t < 253402300800 * 10 ^ 9.

(** A coin whose amount is set and within [math.Int]'s 256 bits. *)
Definition coin_set (c : Coin) : Prop := exists z, Amount c = Some z /\ - 2 ^ 256 < z < 2 ^ 256.

(** ** gogoproto's codecs *)

Class Gogo : Type := {
  SizeOfStdDuration : Duration -> Z;
  StdDurationMarshalTo : Duration -> bytes -> res (bytes * Z);
  StdDurationUnmarshal : Duration -> bytes -> res Duration;
  SizeOfStdTime : Time -> Z;
  StdTimeMarshalTo : Time -> bytes -> res (bytes * Z);
  StdTimeUnmarshal : Time -> bytes -> res Time;
  Coin_Size : Coin -> Z;
  Coin_MarshalToSizedBuffer : Coin -> bytes -> res (bytes * Z);
  Coin_Unmarshal : Coin -> bytes -> res Coin }.

(** Each writes an encoding of the size it announces, reads it back, and
    returns an error, not a panic, on other bytes. *)
Class GogoOk `{G : Gogo} : Type := {
  duration_enc : Duration -> bytes;
  duration_size d : SizeOfStdDuration d = len (duration_enc d);
  duration_fills d : fills_start (StdDurationMarshalTo d) (duration_enc d);
  duration_reads d0 d : - 2 ^ 63 <= d < 2 ^ 63 -> StdDurationUnmarshal d0 (duration_enc d) = Ok d;
  duration_safe d0 s : safe (StdDurationUnmarshal d0 s) (fun _ => True);
  (** The fields are numbers 1 and 2, so an encoding begins with one of their
      tags, 0x08 and 0x10. *)
  duration_tag d c s : duration_enc d = c :: s -> bz c = 0x8 \/ bz c = 0x10;
  time_enc : Time -> bytes;
  time_size t : time_valid t -> SizeOfStdTime t = len (time_enc t);
  time_fills t : time_valid t -> fills_start (StdTimeMarshalTo t) (time_enc t);
  time_reads t0 t : time_valid t -> StdTimeUnmarshal t0 (time_enc t) = Ok t;
  time_safe t0 s : safe (StdTimeUnmarshal t0 s) (fun _ => True);
  coin_enc : Coin -> bytes;
  coin_size c : Coin_Size c = len (coin_enc c);
  coin_fills c : len (coin_enc c) < 2 ^ 63 -> fills_end (Coin_MarshalToSizedBuffer c) (coin_enc c);
  coin_reads c : coin_set c -> len (coin_enc c) < 2 ^ 63 ->
    Coin_Unmarshal zero_coin (coin_enc c) = Ok c;
  coin_safe c0 s : len s < 2 ^ 63 -> safe (Coin_Unmarshal c0 s) (fun _ => True) }.

(** ** Automation for the message codecs

    [pbsafe] holds the totality of the nested readers, [pbfills] what the
    nested writers fill. *)

Create HintDb pbsafe.
Create HintDb pbfills.
#[export] Hint Resolve duration_safe time_safe coin_safe : pbsafe.
#[export] Hint Resolve duration_fills time_fills coin_fills duration_size time_size coin_size : pbfills.

(** [field_ok]: each case of the switch reads one field. *)
Ltac solve_field_ok :=
  repeat case_bool; try exact I;
  lazymatch goal with
  | |- safe (read_string _ _ _ _ _ ≫= _) _ =>
      eapply safe_bind; [apply read_string_safe; lia|]; intros [? ?] [? ?]; cbn; lia
  | |- safe (read_scalar _ _ _ _ _ _ ≫= _) _ =>
      eapply safe_bind; [apply read_scalar_safe; [apply _|lia]|]; intros [? ?] ?; cbn in *; lia
  | |- safe (read_message _ _ _ _ _ ≫= _) _ =>
      eapply safe_bind; [apply read_message_safe; lia|]; intros [? ?] [? ?];
      eapply safe_bind with (P := fun _ => True);
        [eapply safe_bind; [solve [eauto with pbsafe] | intros; exact I] | intros; cbn; lia]
  end.

(** [writes]: one lemma per statement. *)
Ltac solve_writes :=
  rewrite ?app_assoc; repeat apply writes_seq;
  first
  [ apply writes_string; lia
  | apply writes_scalar
  | apply writes_skip
  | apply writes_message; [lia | solve [eauto with pbfills lia]]
  | apply writes_std; [lia | solve [eauto with pbfills] | solve [eauto with pbfills]]
  ].
#[export] Hint Extern 5 (_ < _) => lia : lia.

(** ** Coins, decimals and addresses *)

(** [math.LegacyDec] has 18 decimal places; [math.Int] holds 256 bits and a
    [LegacyDec] 315. *)
Definition precision : Z := 10 ^ 18.
Definition maxInt : Z := 2 ^ 256.
Definition maxDec : Z := 2 ^ 315.

(** [sdk.VerifyAddressFormat]: 1 to 255 bytes. *)
Definition addr_ok (a : AccAddress) : Prop := 0 < len a <= 255.

Class SdkTypes : Type := {
  (** [sdk.ValidateDenom(denom) == nil]. *)
  ValidateDenom : gostring -> bool;
  NewCoin : gostring -> Int -> res Coin;
  NewCoins : list Coin -> res Coins;
  (** [coin.IsValid()], [coin.IsZero()], [coin.Add(other)]. *)
  Coin_IsValid : Coin -> bool;
  Coin_IsZero : Coin -> res bool;
  Coin_Add : Coin -> Coin -> res Coin;
  (** [math.Int]. *)
  Int_Sub : Int -> Int -> res Int;
  Int_GT : Int -> Int -> res bool;
  Int_IsNegative : Int -> res bool;
  (** [math.LegacyDec]. *)
  Dec : Type;
  LegacyNewDec : Z -> Dec;
  LegacyNewDecFromInt : Int -> res Dec;
  Dec_Mul : Dec -> Dec -> res Dec;
  Dec_Quo : Dec -> Dec -> res Dec;
  Dec_TruncateInt : Dec -> res Int;
  (** [sdk.AccAddressFromBech32] and [AccAddress.String]. *)
  AccAddressFromBech32 : gostring -> res AccAddress;
  AccAddress_String : AccAddress -> gostring }.

(** Documented behaviour, where the module relies on it.  Decimal products and
    quotients are given where they are exact; all the module's are. *)
Class SdkTypesOk `{S : SdkTypes} : Type := {
  NewCoin_ok d z : ValidateDenom d = true -> 0 <= z -> NewCoin d (Some z) = Ok (MkCoin d (Some z));
  NewCoin_neg d z : z < 0 -> exists p, NewCoin d (Some z) = Panic p;
  NewCoin_nil d : exists p, NewCoin d None = Panic p;
  NewCoin_denom d a : ValidateDenom d = false -> exists p, NewCoin d a = Panic p;
  NewCoins_pos d z : ValidateDenom d = true -> 0 < z ->
    NewCoins [MkCoin d (Some z)] = Ok [MkCoin d (Some z)];
  NewCoins_zero d : NewCoins [MkCoin d (Some 0)] = Ok [];
  NewCoins_neg d z : z < 0 -> exists p, NewCoins [MkCoin d (Some z)] = Panic p;
  NewCoins_denom d z : z <> 0 -> ValidateDenom d = false -> exists p, NewCoins [MkCoin d (Some z)] = Panic p;
  NewCoins_nil d : exists p, NewCoins [MkCoin d None] = Panic p;
  Coin_IsValid_spec c : Coin_IsValid c = true <->
    ValidateDenom (Denom c) = true /\ exists z, Amount c = Some z /\ 0 <= z;
  Coin_IsZero_spec d z : Coin_IsZero (MkCoin d (Some z)) = Ok (z =? 0);
  Coin_IsZero_nil d : exists p, Coin_IsZero (MkCoin d None) = Panic p;
  Coin_Add_spec d a b : Z.abs (a + b) < maxInt ->
    Coin_Add (MkCoin d (Some a)) (MkCoin d (Some b)) = Ok (MkCoin d (Some (a + b)));
  Coin_Add_big d a b : maxInt <= Z.abs (a + b) ->
    exists p, Coin_Add (MkCoin d (Some a)) (MkCoin d (Some b)) = Panic p;
  Int_Sub_spec a b : Z.abs (a - b) < maxInt -> Int_Sub (Some a) (Some b) = Ok (Some (a - b));
  Int_Sub_big a b : maxInt <= Z.abs (a - b) -> exists p, Int_Sub (Some a) (Some b) = Panic p;
  Int_GT_spec a b : Int_GT (Some a) (Some b) = Ok (b <? a);
  Int_IsNegative_spec a : Int_IsNegative (Some a) = Ok (a <? 0);
  (** A decimal as an integer number of units of 10^-18. *)
  dec_val : Dec -> Z;
  LegacyNewDec_val n : dec_val (LegacyNewDec n) = n * precision;
  LegacyNewDecFromInt_val z : exists d, LegacyNewDecFromInt (Some z) = Ok d /\ dec_val d = z * precision;
  Dec_Mul_val a b n : dec_val a * dec_val b = n * precision -> Z.abs n < maxDec ->
    exists d, Dec_Mul a b = Ok d /\ dec_val d = n;
  Dec_Mul_big a b n : dec_val a * dec_val b = n * precision -> maxDec <= Z.abs n ->
    exists p, Dec_Mul a b = Panic p;
  Dec_Quo_val a b n : dec_val b <> 0 -> dec_val a * precision = n * dec_val b -> Z.abs n < maxDec ->
    exists d, Dec_Quo a b = Ok d /\ dec_val d = n;
  Dec_Quo_big a b n : dec_val b <> 0 -> dec_val a * precision = n * dec_val b -> maxDec <= Z.abs n ->
    exists p, Dec_Quo a b = Panic p;
  Dec_TruncateInt_val d : Z.abs (Z.quot (dec_val d) precision) < maxInt ->
    Dec_TruncateInt d = Ok (Some (Z.quot (dec_val d) precision));
  Dec_TruncateInt_big d : maxInt <= Z.abs (Z.quot (dec_val d) precision) ->
    exists p, Dec_TruncateInt d = Panic p;
  AccAddressFromBech32_String a : addr_ok a -> AccAddressFromBech32 (AccAddress_String a) = Ok a;
  AccAddressFromBech32_safe s : safe (AccAddressFromBech32 s) addr_ok;
  AccAddressFromBech32_empty : exists e, AccAddressFromBech32 [] = Err e;
  (** Bech32 text is printable. *)
  AccAddressFromBech32_control c s : bz c < 33 -> exists e, AccAddressFromBech32 (c :: s) = Err e }.

(** ** The key-value store *)

Class KVStore (S : Type) : Type := {
  kv_get : S -> bytes -> option bytes;
  kv_set : S -> bytes -> bytes -> S;
  kv_delete : S -> bytes -> S;
  (** [Iterator(nil, nil)]: every entry, in ascending key order. *)
  kv_entries : S -> list (bytes * bytes) }.

Class KVStoreOk (S : Type) `{KVStore S} : Prop := {
  kv_get_set s k v : kv_get (kv_set s k v) k = Some v;
  kv_get_set_ne s k k' v : k <> k' -> kv_get (kv_set s k v) k' = kv_get s k';
  kv_get_delete s k : kv_get (kv_delete s k) k = None;
  kv_get_delete_ne s k k' : k <> k' -> kv_get (kv_delete s k) k' = kv_get s k';
  kv_entries_spec s k v : (k, v) ∈ kv_entries s <-> kv_get s k = Some v;
  kv_entries_nodup s : NoDup (fst <$> kv_entries s) }.

(** ** The bank and account keepers

    [x/hal/types/expected_keepers.go].  An operation returns its result and the
    new bank state. *)

Class BankKeeper (B : Type) : Type := {
  GetBalance : B -> AccAddress -> gostring -> res Coin;
  HasBalance : B -> AccAddress -> Coin -> res bool;
  SendCoinsFromAccountToModule : AccAddress -> gostring -> Coins -> B -> res unit * B;
  SendCoinsFromModuleToAccount : gostring -> AccAddress -> Coins -> B -> res unit * B;
  SendCoinsFromModuleToModule : gostring -> gostring -> Coins -> B -> res unit * B;
  MintCoins : gostring -> Coins -> B -> res unit * B;
  BurnCoins : gostring -> Coins -> B -> res unit * B;
  GetSupply : B -> gostring -> res Coin;
  HasSupply : B -> gostring -> bool;
  (** [accountKeeper.GetModuleAddress]; nil for an unknown module. *)
  GetModuleAddress : gostring -> AccAddress }.

(** The amount of a denomination in a coin set. *)
Definition amount_of (cs : Coins) (d : gostring) : Z :=
  foldr (fun c n => (if bool_decide (Denom c = d) then default 0 (Amount c) else 0) + n) 0 cs.

Definition delta (b : bool) (z : Z) : Z := if b then z else 0.

(** The ledger behind a bank: balances, supply, and the unlocked part of a
    balance. *)
Record ledger_view (B : Type) := LedgerView {
  bal_ : B -> AccAddress -> gostring -> Z;
  supply_ : B -> gostring -> Z;
  spendable_ : B -> AccAddress -> gostring -> Z }.
Arguments LedgerView {B} _ _ _.
Arguments bal_ {B} _ _ _ _.
Arguments supply_ {B} _ _ _.
Arguments spendable_ {B} _ _ _ _.

(** What is locked does not change: an unchanged balance is as spendable as
    before. *)
Definition same_locks {B} (v : ledger_view B) (b b' : B) : Prop :=
  forall a d, bal_ v b' a d = bal_ v b a d -> spendable_ v b' a d = spendable_ v b a d.

(** [b'] is [b] with [cs] moved from [from] to [to]. *)
Definition moved {B} (v : ledger_view B) (b : B) (from to : AccAddress) (cs : Coins) (b' : B) : Prop :=
  (forall a d, bal_ v b' a d = bal_ v b a d - delta (bool_decide (a = from)) (amount_of cs d)
                                           + delta (bool_decide (a = to)) (amount_of cs d)) /\
  (forall d, supply_ v b' d = supply_ v b d) /\ same_locks v b b'.

(** [b'] is [b] with [cs] created at (or, with sign -1, removed from) [at_]. *)
Definition issued {B} (v : ledger_view B) (sign : Z) (b : B) (at_ : AccAddress) (cs : Coins) (b' : B) : Prop :=
  (forall a d, bal_ v b' a d = bal_ v b a d + delta (bool_decide (a = at_)) (sign * amount_of cs d)) /\
  (forall d, supply_ v b' d = supply_ v b d + sign * amount_of cs d) /\ same_locks v b b'.

(** At most one coin: the coin sets the module builds. *)
Definition single (cs : Coins) : Prop := (length cs <= 1)%nat.

Class BankKeeperOk (B : Type) `{K : BankKeeper B} `{SDK : SdkTypes} : Type := {
  view : ledger_view B;
  bal := bal_ view;
  supply := supply_ view;
  spendable := spendable_ view;
  (** The addresses that may not receive. *)
  blocked : AccAddress -> bool;
  (** Module accounts and their permissions, fixed by the app configuration. *)
  registered : gostring -> bool;
  may_mint : gostring -> bool;
  may_burn : gostring -> bool;
  bal_nonneg b a d : 0 <= bal b a d;
  spendable_le b a d : 0 <= spendable b a d <= bal b a d;
  (** The queries build their coin with [NewCoin], which panics on an invalid
      denomination. *)
  GetBalance_spec b a d : ValidateDenom d = true -> GetBalance b a d = Ok (MkCoin d (Some (bal b a d)));
  GetBalance_denom b a d : ValidateDenom d = false -> exists p, GetBalance b a d = Panic p;
  GetSupply_spec b d : ValidateDenom d = true -> GetSupply b d = Ok (MkCoin d (Some (supply b d)));
  GetSupply_denom b d : ValidateDenom d = false -> exists p, GetSupply b d = Panic p;
  HasSupply_spec b d : HasSupply b d = negb (supply b d =? 0);
  HasBalance_spec b a d z : ValidateDenom d = true -> HasBalance b a (MkCoin d (Some z)) = Ok (z <=? bal b a d);
  HasBalance_denom b a d z : ValidateDenom d = false -> exists p, HasBalance b a (MkCoin d z) = Panic p;
  (** A transfer happens entirely or, for at most one coin, not at all; it
      happens when the sender can spend the coins. *)
  sendAM_ok b b' a m cs : SendCoinsFromAccountToModule a m cs b = (Ok tt, b') ->
    moved view b a (GetModuleAddress m) cs b';
  sendAM_fail b b' a m cs e : SendCoinsFromAccountToModule a m cs b = (Err e, b') -> single cs -> b' = b;
  sendAM_total b a m cs : registered m = true ->
    exists r b', SendCoinsFromAccountToModule a m cs b = (r, b') /\ safe r (fun _ => True) /\
      ((forall d, 0 <= amount_of cs d <= spendable b a d) -> r = Ok tt) /\
      (r = Ok tt -> forall d, amount_of cs d <= spendable b a d);
  sendAM_unregistered b a m cs : registered m = false ->
    exists p b', SendCoinsFromAccountToModule a m cs b = (Panic p, b');
  sendMA_ok b b' m a cs : SendCoinsFromModuleToAccount m a cs b = (Ok tt, b') ->
    moved view b (GetModuleAddress m) a cs b';
  sendMA_fail b b' m a cs e : SendCoinsFromModuleToAccount m a cs b = (Err e, b') -> single cs -> b' = b;
  sendMA_total b m a cs : registered m = true ->
    exists r b', SendCoinsFromModuleToAccount m a cs b = (r, b') /\ safe r (fun _ => True) /\
      ((forall d, 0 <= amount_of cs d <= spendable b (GetModuleAddress m) d) ->
        blocked a = false -> r = Ok tt) /\
      (r = Ok tt -> blocked a = false /\
        forall d, amount_of cs d <= spendable b (GetModuleAddress m) d);
  sendMM_ok b b' m m' cs : SendCoinsFromModuleToModule m m' cs b = (Ok tt, b') ->
    moved view b (GetModuleAddress m) (GetModuleAddress m') cs b';
  sendMM_total b m m' cs : registered m = true -> registered m' = true ->
    exists r b', SendCoinsFromModuleToModule m m' cs b = (r, b') /\ safe r (fun _ => True) /\
      ((forall d, 0 <= amount_of cs d <= spendable b (GetModuleAddress m) d) -> r = Ok tt) /\
      (r = Ok tt -> forall d, amount_of cs d <= spendable b (GetModuleAddress m) d);
  mint_ok b b' m cs : MintCoins m cs b = (Ok tt, b') ->
    issued view 1 b (GetModuleAddress m) cs b';
  mint_total b m cs : registered m = true -> may_mint m = true ->
    (forall d, 0 <= amount_of cs d) ->
    (forall d, amount_of cs d <> 0 -> supply b d + amount_of cs d < maxInt /\
                                      bal b (GetModuleAddress m) d + amount_of cs d < maxInt) ->
    exists b', MintCoins m cs b = (Ok tt, b');
  burn_ok b b' m cs : BurnCoins m cs b = (Ok tt, b') ->
    issued view (-1) b (GetModuleAddress m) cs b';
  burn_total b m cs : registered m = true -> may_burn m = true ->
    exists r b', BurnCoins m cs b = (r, b') /\ safe r (fun _ => True) /\
      ((forall d, 0 <= amount_of cs d <= spendable b (GetModuleAddress m) d) -> r = Ok tt) /\
      (r = Ok tt -> forall d, amount_of cs d <= spendable b (GetModuleAddress m) d);
  (** Module accounts hold no vesting coins and have distinct addresses. *)
  module_spendable b m d : spendable b (GetModuleAddress m) d = bal b (GetModuleAddress m) d;
  module_address_inj m m' : registered m = true -> registered m' = true ->
    GetModuleAddress m = GetModuleAddress m' -> m = m' }.

(** ** The binary codec

    [codec.BinaryCodec] marshals a message with the message's own generated
    methods, the [codec.ProtoMarshaler] interface; unmarshalling resets the
    message first. *)

Class ProtoMarshaler (A : Type) : Type := {
  pm_Reset : A;
  pm_Marshal : A -> res bytes;
  pm_Unmarshal : A -> bytes -> res A }.

Class BinaryCodec : Type := {
  cdc_Marshal : forall {A} `{ProtoMarshaler A}, A -> res bytes;
  cdc_Unmarshal : forall {A} `{ProtoMarshaler A}, bytes -> A -> res A }.

Class BinaryCodecOk `{BinaryCodec} : Prop := {
  cdc_Marshal_spec A `{ProtoMarshaler A} (m : A) : cdc_Marshal m = pm_Marshal m;
  cdc_Unmarshal_spec A `{ProtoMarshaler A} (m : A) d : cdc_Unmarshal d m = pm_Unmarshal pm_Reset d }.

(** [MustMarshal] and [MustUnmarshal] panic on an error. *)
Definition cdc_MustMarshal `{BinaryCodec} {A} `{ProtoMarshaler A} (m : A) : res bytes :=
  must (cdc_Marshal m).
Definition cdc_MustUnmarshal `{BinaryCodec} {A} `{ProtoMarshaler A} (d : bytes) (m : A) : res A :=
  must (cdc_Unmarshal d m).
