(* ===== verification/PbParams.v ===== *)
(** * [x/hal/types/params.pb.go]: the parameters and their codec

    [Params] and [TokenMeta] with their methods: accessors, [Equal], [Size],
    [Marshal*], [Unmarshal].  The theorems: [Equal] decides equality,
    [Marshal] produces the reference encoding in exactly [Size] bytes,
    [Unmarshal] inverts it, and [Unmarshal] returns normally on any bytes. *)

From S2P Require Import Prelude Wire Sdk.

(** ** Messages *)

Record TokenMeta := MkTokenMeta {
  TokenMeta_Denom : gostring;
  TokenMeta_Decimals : Z;
  TokenMeta_Description : gostring }.

Record Params := MkParams {
  RedeemDur : Duration;
  MaxRedeemEntries : Z;
  CollateralMetas : TokenMeta;
  HalMeta : TokenMeta }.

#[export] Instance TokenMeta_eq_dec : EqDecision TokenMeta.
Proof. solve_decision. Defined.
#[export] Instance Params_eq_dec : EqDecision Params.
Proof. solve_decision. Defined.

(** [Reset]: the zero messages. *)
Definition TokenMeta_Reset : TokenMeta := MkTokenMeta [] 0 [].
Definition Params_Reset : Params := MkParams 0 0 TokenMeta_Reset TokenMeta_Reset.

(** Accessors, on possibly nil receivers. *)
Definition Params_GetRedeemDur (m : option Params) : Duration :=
  match m with Some m => RedeemDur m | None => 0 end.
Definition Params_GetMaxRedeemEntries (m : option Params) : Z :=
  match m with Some m => MaxRedeemEntries m | None => 0 end.
Definition Params_GetCollateralMetas (m : option Params) : TokenMeta :=
  match m with Some m => CollateralMetas m | None => TokenMeta_Reset end.
Definition Params_GetHalMeta (m : option Params) : TokenMeta :=
  match m with Some m => HalMeta m | None => TokenMeta_Reset end.
Definition TokenMeta_GetDenom (m : option TokenMeta) : gostring :=
  match m with Some m => TokenMeta_Denom m | None => [] end.
Definition TokenMeta_GetDecimals (m : option TokenMeta) : Z :=
  match m with Some m => TokenMeta_Decimals m | None => 0 end.
Definition TokenMeta_GetDescription (m : option TokenMeta) : gostring :=
  match m with Some m => TokenMeta_Description m | None => [] end.

(** ** Equality

    The argument is an [interface{}]: nil, a pointer to the message type, the
    message type itself, or something else. *)
Inductive any (A : Type) := AnyNil | AnyPtr (p : option A) | AnyVal (v : A) | AnyOther.
Arguments AnyNil {A}.
Arguments AnyPtr {A} p.
Arguments AnyVal {A} v.
Arguments AnyOther {A}.

Definition TokenMeta_Equal (this : option TokenMeta) (that : any TokenMeta) : bool :=
  let cmp (that1 : option TokenMeta) :=
    match that1, this with
    | None, _ => bool_decide (this = None)
    | Some _, None => false
    | Some that1, Some this =>
        if negb (bool_decide (TokenMeta_Denom this = TokenMeta_Denom that1)) then false else
        if negb (TokenMeta_Decimals this =? TokenMeta_Decimals that1) then false else
        if negb (bool_decide (TokenMeta_Description this = TokenMeta_Description that1)) then false
        else true
    end in
  match that with
  | AnyNil => bool_decide (this = None)
  | AnyPtr p => cmp p
  | AnyVal v => cmp (Some v)
  | AnyOther => false
  end.

Definition Params_Equal (this : option Params) (that : any Params) : bool :=
  let cmp (that1 : option Params) :=
    match that1, this with
    | None, _ => bool_decide (this = None)
    | Some _, None => false
    | Some that1, Some this =>
        if negb (RedeemDur this =? RedeemDur that1) then false else
        if negb (MaxRedeemEntries this =? MaxRedeemEntries that1) then false else
        if negb (TokenMeta_Equal (Some (CollateralMetas this)) (AnyPtr (Some (CollateralMetas that1))))
        then false else
        if negb (TokenMeta_Equal (Some (HalMeta this)) (AnyPtr (Some (HalMeta that1)))) then false
        else true
    end in
  match that with
  | AnyNil => bool_decide (this = None)
  | AnyPtr p => cmp p
  | AnyVal v => cmp (Some v)
  | AnyOther => false
  end.

(** ** Writing *)

Section codec.
Context `{Gogo}.

Definition TokenMeta_writer (m : TokenMeta) : writer :=
  wstring 0x1a (TokenMeta_Description m) >>
  wscalar 0x10 (TokenMeta_Decimals m) >>
  wstring 0xa (TokenMeta_Denom m).

Definition TokenMeta_MarshalToSizedBuffer (m : TokenMeta) : bytes -> res (bytes * Z) :=
  MarshalToSizedBuffer (TokenMeta_writer m).

Definition TokenMeta_Size (m : option TokenMeta) : Z :=
  match m with
  | None => 0
  | Some m =>
      (let l := len (TokenMeta_Denom m) in if 0 <? l then 1 + l + sovParams (u64 l) else 0) +
      (if negb (TokenMeta_Decimals m =? 0) then 1 + sovParams (u64 (TokenMeta_Decimals m)) else 0) +
      (let l := len (TokenMeta_Description m) in if 0 <? l then 1 + l + sovParams (u64 l) else 0)
  end.

Definition TokenMeta_Marshal (m : TokenMeta) : res bytes :=
  Marshal (TokenMeta_Size (Some m)) (TokenMeta_writer m).
Definition TokenMeta_MarshalTo (m : TokenMeta) (d : bytes) : res (bytes * Z) :=
  MarshalTo (TokenMeta_Size (Some m)) (TokenMeta_writer m) d.

Definition Params_writer (m : Params) : writer :=
  wmessage 0x22 (TokenMeta_MarshalToSizedBuffer (HalMeta m)) >>
  wmessage 0x1a (TokenMeta_MarshalToSizedBuffer (CollateralMetas m)) >>
  wscalar 0x10 (MaxRedeemEntries m) >>
  wstd 0xa (SizeOfStdDuration (RedeemDur m)) (StdDurationMarshalTo (RedeemDur m)).

Definition Params_MarshalToSizedBuffer (m : Params) : bytes -> res (bytes * Z) :=
  MarshalToSizedBuffer (Params_writer m).

Definition Params_Size (m : option Params) : Z :=
  match m with
  | None => 0
  | Some m =>
      (let l := SizeOfStdDuration (RedeemDur m) in 1 + l + sovParams (u64 l)) +
      (if negb (MaxRedeemEntries m =? 0) then 1 + sovParams (u64 (MaxRedeemEntries m)) else 0) +
      (let l := TokenMeta_Size (Some (CollateralMetas m)) in 1 + l + sovParams (u64 l)) +
      (let l := TokenMeta_Size (Some (HalMeta m)) in 1 + l + sovParams (u64 l))
  end.

Definition Params_Marshal (m : Params) : res bytes :=
  Marshal (Params_Size (Some m)) (Params_writer m).
Definition Params_MarshalTo (m : Params) (d : bytes) : res (bytes * Z) :=
  MarshalTo (Params_Size (Some m)) (Params_writer m) d.

(** ** Reading *)

Definition TokenMeta_field (m : TokenMeta) (fieldNum wireType : Z) (d : bytes) (iNdEx : Z)
    : option (res (TokenMeta * Z)) :=
  if fieldNum =? 1 then Some (
    '(s, j) ← read_string PbParams "Denom" wireType d iNdEx;
    Ok (MkTokenMeta s (TokenMeta_Decimals m) (TokenMeta_Description m), j))
  else if fieldNum =? 2 then Some (
    '(x, j) ← read_scalar PbParams u32 "Decimals" wireType d iNdEx;
    Ok (MkTokenMeta (TokenMeta_Denom m) x (TokenMeta_Description m), j))
  else if fieldNum =? 3 then Some (
    '(s, j) ← read_string PbParams "Description" wireType d iNdEx;
    Ok (MkTokenMeta (TokenMeta_Denom m) (TokenMeta_Decimals m) s, j))
  else None.

Definition TokenMeta_Unmarshal : TokenMeta -> bytes -> res TokenMeta :=
  Unmarshal PbParams "TokenMeta" TokenMeta_field.

Definition Params_field (m : Params) (fieldNum wireType : Z) (d : bytes) (iNdEx : Z)
    : option (res (Params * Z)) :=
  if fieldNum =? 1 then Some (
    '(s, j) ← read_message PbParams "RedeemDur" wireType d iNdEx;
    m' ← (x ← StdDurationUnmarshal (RedeemDur m) s;
          Ok (MkParams x (MaxRedeemEntries m) (CollateralMetas m) (HalMeta m)));
    Ok (m', j))
  else if fieldNum =? 2 then Some (
    '(x, j) ← read_scalar PbParams i32 "MaxRedeemEntries" wireType d iNdEx;
    Ok (MkParams (RedeemDur m) x (CollateralMetas m) (HalMeta m), j))
  else if fieldNum =? 3 then Some (
    '(s, j) ← read_message PbParams "CollateralMetas" wireType d iNdEx;
    m' ← (x ← TokenMeta_Unmarshal (CollateralMetas m) s;
          Ok (MkParams (RedeemDur m) (MaxRedeemEntries m) x (HalMeta m)));
    Ok (m', j))
  else if fieldNum =? 4 then Some (
    '(s, j) ← read_message PbParams "HalMeta" wireType d iNdEx;
    m' ← (x ← TokenMeta_Unmarshal (HalMeta m) s;
          Ok (MkParams (RedeemDur m) (MaxRedeemEntries m) (CollateralMetas m) x));
    Ok (m', j))
  else None.

Definition Params_Unmarshal : Params -> bytes -> res Params :=
  Unmarshal PbParams "Params" Params_field.
End codec.

(** ** Equality is decided *)

Lemma TokenMeta_Equal_spec this that :
  TokenMeta_Equal (Some this) (AnyPtr (Some that)) = bool_decide (this = that).
Proof.
  destruct this as [d1 k1 s1], that as [d2 k2 s2]. cbn.
  destruct (Z.eqb_spec k1 k2); repeat case_bool_decide; cbn; try reflexivity; congruence.
Qed.

Lemma Params_Equal_spec this that :
  Params_Equal (Some this) (AnyVal that) = bool_decide (this = that).
Proof.
  destruct this as [r1 e1 c1 h1], that as [r2 e2 c2 h2].
  unfold Params_Equal. rewrite !TokenMeta_Equal_spec. cbn.
  destruct (Z.eqb_spec r1 r2), (Z.eqb_spec e1 e2); repeat case_bool_decide; cbn;
    try reflexivity; congruence.
Qed.

(** ** Encodings *)

Definition TokenMeta_enc (m : TokenMeta) : bytes :=
  enc_string 0xa (TokenMeta_Denom m) ++ enc_scalar 0x10 (TokenMeta_Decimals m) ++
  enc_string 0x1a (TokenMeta_Description m).

(** Values a Go message can hold. *)
Definition TokenMeta_wf (m : TokenMeta) : Prop := 0 <= TokenMeta_Decimals m < 2 ^ 32.
Definition Params_wf (m : Params) : Prop :=
  - 2 ^ 63 <= RedeemDur m < 2 ^ 63 /\ - 2 ^ 31 <= MaxRedeemEntries m < 2 ^ 31 /\
  TokenMeta_wf (CollateralMetas m) /\ TokenMeta_wf (HalMeta m).

Lemma TokenMeta_writes m :
  len (TokenMeta_enc m) < 2 ^ 63 -> writes (TokenMeta_writer m) (TokenMeta_enc m).
Proof.
  intros Hl. unfold TokenMeta_enc in *. enc_bounds. unfold TokenMeta_writer.
  rewrite app_assoc. repeat apply writes_seq; auto with halborn;
    apply writes_string; lia.
Qed.

Lemma TokenMeta_Size_enc m :
  len (TokenMeta_enc m) < 2 ^ 63 -> TokenMeta_Size (Some m) = len (TokenMeta_enc m).
Proof.
  intros Hl. unfold TokenMeta_enc in *. enc_bounds. unfold TokenMeta_Size, sovParams.
  rewrite !len_app, !len_enc_string, len_enc_scalar by lia. cbn zeta. lia.
Qed.

Lemma TokenMeta_Marshal_enc m :
  len (TokenMeta_enc m) < 2 ^ 63 -> TokenMeta_Marshal m = Ok (TokenMeta_enc m).
Proof. intros. apply Marshal_writes; [now apply TokenMeta_writes | now apply TokenMeta_Size_enc]. Qed.

Lemma TokenMeta_field_ok : field_ok TokenMeta_field.
Proof.
  intros m fn wt d i Hi Hd. unfold TokenMeta_field. repeat case_bool; try exact I.
  all: eapply safe_bind; [apply read_string_safe || apply read_scalar_safe; try apply _; lia|].
  all: intros [x j] ?; cbn in *; lia.
Qed.

#[export] Hint Resolve TokenMeta_field_ok : halborn.

Lemma TokenMeta_Unmarshal_enc m :
  TokenMeta_wf m -> len (TokenMeta_enc m) < 2 ^ 63 ->
  TokenMeta_Unmarshal TokenMeta_Reset (TokenMeta_enc m) = Ok m.
Proof.
  intros Hwf Hl. apply reads_Unmarshal; [apply TokenMeta_field_ok| |assumption].
  eapply reads_conv; [unfold TokenMeta_enc|].
  - eapply reads_app; [eapply reads_string; reads_side|].
    eapply reads_app; [eapply reads_scalar with (W := u32); try reads_side; now apply u32_u64|].
    eapply reads_string; reads_side.
  - now destruct m.
Qed.

Lemma TokenMeta_Unmarshal_safe m d :
  len d < 2 ^ 63 -> safe (TokenMeta_Unmarshal m d) (fun _ => True).
Proof. intros. apply Unmarshal_safe; auto with halborn. Qed.

Section params.
Context `{GogoOk}.

Definition Params_enc (m : Params) : bytes :=
  enc_message 0xa (duration_enc (RedeemDur m)) ++ enc_scalar 0x10 (MaxRedeemEntries m) ++
  enc_message 0x1a (TokenMeta_enc (CollateralMetas m)) ++
  enc_message 0x22 (TokenMeta_enc (HalMeta m)).

Lemma Params_writes m : len (Params_enc m) < 2 ^ 63 -> writes (Params_writer m) (Params_enc m).
Proof.
  intros Hl. unfold Params_enc in *. enc_bounds. unfold Params_writer. rewrite !app_assoc.
  repeat apply writes_seq.
  1, 2: apply writes_message; [lia | apply writes_fills_end, TokenMeta_writes; lia].
  - apply writes_scalar.
  - apply writes_std; [lia | apply duration_size | apply duration_fills].
Qed.

Lemma Params_Size_enc m : len (Params_enc m) < 2 ^ 63 -> Params_Size (Some m) = len (Params_enc m).
Proof.
  intros Hl. unfold Params_enc in *. enc_bounds. unfold Params_Size, sovParams. cbn zeta.
  rewrite !len_app, !len_enc_message, len_enc_scalar by lia.
  rewrite duration_size, !TokenMeta_Size_enc by lia. lia.
Qed.

Lemma Params_field_ok : field_ok Params_field.
Proof.
  intros m fn wt d i Hi Hd. unfold Params_field. repeat case_bool; try exact I.
  2: eapply safe_bind; [apply read_scalar_safe; [apply _ | lia]|]; intros [x j] ?; cbn in *; lia.
  all: eapply safe_bind; [apply read_message_safe; lia|]; intros [s j] [Hj Hs].
  all: eapply safe_bind with (P := fun _ => True); [|intros; exact Hj].
  all: eapply safe_bind; [|intros; exact I].
  - apply duration_safe.
  - apply TokenMeta_Unmarshal_safe, Hs.
  - apply TokenMeta_Unmarshal_safe, Hs.
Qed.
#[local] Hint Resolve Params_field_ok : halborn.

Lemma Params_Unmarshal_enc m :
  Params_wf m -> len (Params_enc m) < 2 ^ 63 -> Params_Unmarshal Params_Reset (Params_enc m) = Ok m.
Proof.
  intros (Hd & He & Hc & Hh) Hl. apply reads_Unmarshal; [apply Params_field_ok| |assumption].
  unfold Params_enc in *. enc_bounds. eapply reads_conv.
  - eapply reads_app.
    { eapply reads_message; try reads_side. cbn. now rewrite duration_reads by assumption. }
    eapply reads_app.
    { eapply reads_scalar with (W := i32); try reads_side. now apply i32_u64. }
    eapply reads_app.
    { eapply reads_message; try reads_side. cbn. now rewrite TokenMeta_Unmarshal_enc by (lia || assumption). }
    eapply reads_message; try reads_side. cbn. now rewrite TokenMeta_Unmarshal_enc by (lia || assumption).
  - now destruct m.
Qed.

Lemma Params_Unmarshal_safe m d :
  len d < 2 ^ 63 -> safe (Params_Unmarshal m d) (fun _ => True).
Proof. intros. apply Unmarshal_safe; auto with halborn. Qed.

Lemma Params_fills m :
  len (Params_enc m) < 2 ^ 63 -> fills_end (Params_MarshalToSizedBuffer m) (Params_enc m).
Proof. intros. now apply writes_fills_end, Params_writes. Qed.

Lemma Params_Marshal_enc m :
  len (Params_enc m) < 2 ^ 63 -> Params_Marshal m = Ok (Params_enc m).
Proof. intros. apply Marshal_writes; [now apply Params_writes | now apply Params_Size_enc]. Qed.
End params.

#[export] Hint Resolve Params_Unmarshal_safe : pbsafe.
#[export] Hint Resolve Params_fills : pbfills.
