(* ===== verification/PbTickets.v ===== *)
(** * [x/hal/types/tickets.pb.go]: the ticket and its codec

    [Ticket] with its methods, the reference encoding, and the lemmas that
    [Marshal] produces it in [Size] bytes and [Unmarshal] inverts it. *)

From S2P Require Import Prelude Wire Sdk.

(** ** [Ticket] *)

Record Ticket := MkTicket {
  Ticket_Author : gostring;
  Ticket_Issue : gostring;
  Ticket_Id : Z;
  Ticket_AdditionalInfo : gostring }.

#[export] Instance Ticket_eq_dec : EqDecision Ticket.
Proof. solve_decision. Defined.

Definition Ticket_Reset : Ticket := MkTicket [] [] 0 [].

Definition Ticket_GetAuthor (m : option Ticket) : gostring :=
  match m with Some m => Ticket_Author m | None => [] end.
Definition Ticket_GetIssue (m : option Ticket) : gostring :=
  match m with Some m => Ticket_Issue m | None => [] end.
Definition Ticket_GetId (m : option Ticket) : Z :=
  match m with Some m => Ticket_Id m | None => 0 end.
Definition Ticket_GetAdditionalInfo (m : option Ticket) : gostring :=
  match m with Some m => Ticket_AdditionalInfo m | None => [] end.

Definition Ticket_writer (m : Ticket) : writer :=
  wstring 0x22 (Ticket_AdditionalInfo m) >>
  wscalar 0x18 (Ticket_Id m) >>
  wstring 0x12 (Ticket_Issue m) >>
  wstring 0xa (Ticket_Author m).

Definition Ticket_MarshalToSizedBuffer (m : Ticket) : bytes -> res (bytes * Z) :=
  MarshalToSizedBuffer (Ticket_writer m).

Definition Ticket_Size (m : option Ticket) : Z :=
  match m with
  | None => 0
  | Some m =>
      (let l := len (Ticket_Author m) in if 0 <? l then 1 + l + sovTickets (u64 l) else 0) +
      (let l := len (Ticket_Issue m) in if 0 <? l then 1 + l + sovTickets (u64 l) else 0) +
      (if negb (Ticket_Id m =? 0) then 1 + sovTickets (u64 (Ticket_Id m)) else 0) +
      (let l := len (Ticket_AdditionalInfo m) in if 0 <? l then 1 + l + sovTickets (u64 l) else 0)
  end.

Definition Ticket_Marshal (m : Ticket) : res bytes :=
  Marshal (Ticket_Size (Some m)) (Ticket_writer m).
Definition Ticket_MarshalTo (m : Ticket) (d : bytes) : res (bytes * Z) :=
  MarshalTo (Ticket_Size (Some m)) (Ticket_writer m) d.

Definition Ticket_field (m : Ticket) (fieldNum wireType : Z) (d : bytes) (iNdEx : Z)
    : option (res (Ticket * Z)) :=
  if fieldNum =? 1 then Some (
    '(s, j) ← read_string PbTickets "Author" wireType d iNdEx;
    Ok (MkTicket s (Ticket_Issue m) (Ticket_Id m) (Ticket_AdditionalInfo m), j))
  else if fieldNum =? 2 then Some (
    '(s, j) ← read_string PbTickets "Issue" wireType d iNdEx;
    Ok (MkTicket (Ticket_Author m) s (Ticket_Id m) (Ticket_AdditionalInfo m), j))
  else if fieldNum =? 3 then Some (
    '(x, j) ← read_scalar PbTickets u64 "Id" wireType d iNdEx;
    Ok (MkTicket (Ticket_Author m) (Ticket_Issue m) x (Ticket_AdditionalInfo m), j))
  else if fieldNum =? 4 then Some (
    '(s, j) ← read_string PbTickets "AdditionalInfo" wireType d iNdEx;
    Ok (MkTicket (Ticket_Author m) (Ticket_Issue m) (Ticket_Id m) s, j))
  else None.

Definition Ticket_Unmarshal : Ticket -> bytes -> res Ticket :=
  Unmarshal PbTickets "Ticket" Ticket_field.

Definition Ticket_enc (m : Ticket) : bytes :=
  enc_string 0xa (Ticket_Author m) ++ enc_string 0x12 (Ticket_Issue m) ++ enc_scalar 0x18 (Ticket_Id m) ++ enc_string 0x22 (Ticket_AdditionalInfo m).

Definition Ticket_wf (m : Ticket) : Prop := 0 <= Ticket_Id m < 2 ^ 64.

Lemma Ticket_writes m : Ticket_wf m -> len (Ticket_enc m) < 2 ^ 63 -> writes (Ticket_writer m) (Ticket_enc m).
Proof.
  unfold Ticket_wf. intros Hwf Hl. unfold Ticket_enc in *. enc_bounds. unfold Ticket_writer.
  solve_writes.
Qed.

Lemma Ticket_Size_enc m : Ticket_wf m -> len (Ticket_enc m) < 2 ^ 63 ->
  Ticket_Size (Some m) = len (Ticket_enc m).
Proof.
  unfold Ticket_wf. intros Hwf Hl. unfold Ticket_enc in *. enc_bounds. unfold Ticket_Size, sovTickets. cbn zeta.
  rewrite ?len_app, ?len_enc_string, ?len_enc_scalar by lia. lia.
Qed.

Lemma Ticket_Marshal_enc m : Ticket_wf m -> len (Ticket_enc m) < 2 ^ 63 -> Ticket_Marshal m = Ok (Ticket_enc m).
Proof. intros. apply Marshal_writes; [now apply Ticket_writes | now apply Ticket_Size_enc]. Qed.

Lemma Ticket_field_ok : field_ok Ticket_field.
Proof. intros m fn wt d i Hi Hd. unfold Ticket_field. solve_field_ok. Qed.
#[export] Hint Resolve Ticket_field_ok : halborn.

Lemma Ticket_Unmarshal_safe m d : len d < 2 ^ 63 -> safe (Ticket_Unmarshal m d) (fun _ => True).
Proof. intros. apply Unmarshal_safe; auto with halborn. Qed.

Lemma Ticket_Unmarshal_enc m : Ticket_wf m -> len (Ticket_enc m) < 2 ^ 63 ->
  Ticket_Unmarshal Ticket_Reset (Ticket_enc m) = Ok m.
Proof.
  unfold Ticket_wf. intros Hwf Hl. apply reads_Unmarshal; [apply Ticket_field_ok| |assumption].
  unfold Ticket_enc in *. enc_bounds. eapply reads_conv.
  - eapply reads_app.
    { eapply reads_string; reads_side. }
    eapply reads_app.
    { eapply reads_string; reads_side. }
    eapply reads_app.
    { eapply reads_scalar with (W := u64); try reads_side. now apply u64_u64. }
    eapply reads_string; reads_side.
  - now destruct m.
Qed.
