(* ===== verification/PbRedeemRequest.v ===== *)
(** * [x/hal/types/redeem_request.pb.go]: the redeem request and its codec

    [RedeemRequest] with its methods, the reference encoding, and the lemmas
    that [Marshal] produces it in [Size] bytes and [Unmarshal] inverts it. *)

From S2P Require Import Prelude Wire Sdk.

(** ** [RedeemRequest] *)

Record RedeemRequest := MkRedeemRequest {
  RedeemRequest_Account : gostring;
  RedeemRequest_Collateral : Coin;
  RedeemRequest_Completiontime : Time }.

#[export] Instance RedeemRequest_eq_dec : EqDecision RedeemRequest.
Proof. solve_decision. Defined.

Definition RedeemRequest_Reset : RedeemRequest := MkRedeemRequest [] zero_coin zero_time.

Definition RedeemRequest_GetAccount (m : option RedeemRequest) : gostring :=
  match m with Some m => RedeemRequest_Account m | None => [] end.
Definition RedeemRequest_GetCollateral (m : option RedeemRequest) : Coin :=
  match m with Some m => RedeemRequest_Collateral m | None => zero_coin end.
Definition RedeemRequest_GetCompletiontime (m : option RedeemRequest) : Time :=
  match m with Some m => RedeemRequest_Completiontime m | None => zero_time end.

Section RedeemRequest_codec.
Context `{Gogo}.

Definition RedeemRequest_writer (m : RedeemRequest) : writer :=
  wstd 0x1a (SizeOfStdTime (RedeemRequest_Completiontime m)) (StdTimeMarshalTo (RedeemRequest_Completiontime m)) >>
  wmessage 0x12 (Coin_MarshalToSizedBuffer (RedeemRequest_Collateral m)) >>
  wstring 0xa (RedeemRequest_Account m).

Definition RedeemRequest_MarshalToSizedBuffer (m : RedeemRequest) : bytes -> res (bytes * Z) :=
  MarshalToSizedBuffer (RedeemRequest_writer m).

Definition RedeemRequest_Size (m : option RedeemRequest) : Z :=
  match m with
  | None => 0
  | Some m =>
      (let l := len (RedeemRequest_Account m) in if 0 <? l then 1 + l + sovRedeemRequest (u64 l) else 0) +
      (let l := Coin_Size (RedeemRequest_Collateral m) in 1 + l + sovRedeemRequest (u64 l)) +
      (let l := SizeOfStdTime (RedeemRequest_Completiontime m) in 1 + l + sovRedeemRequest (u64 l))
  end.

Definition RedeemRequest_Marshal (m : RedeemRequest) : res bytes :=
  Marshal (RedeemRequest_Size (Some m)) (RedeemRequest_writer m).
Definition RedeemRequest_MarshalTo (m : RedeemRequest) (d : bytes) : res (bytes * Z) :=
  MarshalTo (RedeemRequest_Size (Some m)) (RedeemRequest_writer m) d.

Definition RedeemRequest_field (m : RedeemRequest) (fieldNum wireType : Z) (d : bytes) (iNdEx : Z)
    : option (res (RedeemRequest * Z)) :=
  if fieldNum =? 1 then Some (
    '(s, j) ← read_string PbRedeemRequest "Account" wireType d iNdEx;
    Ok (MkRedeemRequest s (RedeemRequest_Collateral m) (RedeemRequest_Completiontime m), j))
  else if fieldNum =? 2 then Some (
    '(s, j) ← read_message PbRedeemRequest "Collateral" wireType d iNdEx;
    m' ← (x ← Coin_Unmarshal (RedeemRequest_Collateral m) s; Ok (MkRedeemRequest (RedeemRequest_Account m) x (RedeemRequest_Completiontime m)));
    Ok (m', j))
  else if fieldNum =? 3 then Some (
    '(s, j) ← read_message PbRedeemRequest "Completiontime" wireType d iNdEx;
    m' ← (x ← StdTimeUnmarshal (RedeemRequest_Completiontime m) s; Ok (MkRedeemRequest (RedeemRequest_Account m) (RedeemRequest_Collateral m) x));
    Ok (m', j))
  else None.

Definition RedeemRequest_Unmarshal : RedeemRequest -> bytes -> res RedeemRequest :=
  Unmarshal PbRedeemRequest "RedeemRequest" RedeemRequest_field.
End RedeemRequest_codec.

Section RedeemRequest_lemmas.
Context `{GogoOk}.

Definition RedeemRequest_enc (m : RedeemRequest) : bytes :=
  enc_string 0xa (RedeemRequest_Account m) ++ enc_message 0x12 (coin_enc (RedeemRequest_Collateral m)) ++ enc_message 0x1a (time_enc (RedeemRequest_Completiontime m)).

Definition RedeemRequest_wf (m : RedeemRequest) : Prop := coin_set (RedeemRequest_Collateral m) /\ time_valid (RedeemRequest_Completiontime m).

Lemma RedeemRequest_writes m : RedeemRequest_wf m -> len (RedeemRequest_enc m) < 2 ^ 63 -> writes (RedeemRequest_writer m) (RedeemRequest_enc m).
Proof.
  unfold RedeemRequest_wf. intros (H0 & H1) Hl. unfold RedeemRequest_enc in *. enc_bounds. unfold RedeemRequest_writer.
  solve_writes.
Qed.

Lemma RedeemRequest_Size_enc m : RedeemRequest_wf m -> len (RedeemRequest_enc m) < 2 ^ 63 ->
  RedeemRequest_Size (Some m) = len (RedeemRequest_enc m).
Proof.
  unfold RedeemRequest_wf. intros (H0 & H1) Hl. unfold RedeemRequest_enc in *. enc_bounds. unfold RedeemRequest_Size, sovRedeemRequest. cbn zeta.
  rewrite ?len_app, ?len_enc_string, ?len_enc_message by lia.
  rewrite ?coin_size, ?time_size by (assumption || lia). lia.
Qed.

Lemma RedeemRequest_Marshal_enc m : RedeemRequest_wf m -> len (RedeemRequest_enc m) < 2 ^ 63 -> RedeemRequest_Marshal m = Ok (RedeemRequest_enc m).
Proof. intros. apply Marshal_writes; [now apply RedeemRequest_writes | now apply RedeemRequest_Size_enc]. Qed.

Lemma RedeemRequest_field_ok : field_ok RedeemRequest_field.
Proof. intros m fn wt d i Hi Hd. unfold RedeemRequest_field. solve_field_ok. Qed.
#[local] Hint Resolve RedeemRequest_field_ok : halborn.

Lemma RedeemRequest_Unmarshal_safe m d : len d < 2 ^ 63 -> safe (RedeemRequest_Unmarshal m d) (fun _ => True).
Proof. intros. apply Unmarshal_safe; auto with halborn. Qed.

Lemma RedeemRequest_Unmarshal_enc m : RedeemRequest_wf m -> len (RedeemRequest_enc m) < 2 ^ 63 ->
  RedeemRequest_Unmarshal RedeemRequest_Reset (RedeemRequest_enc m) = Ok m.
Proof.
  unfold RedeemRequest_wf. intros (H0 & H1) Hl. apply reads_Unmarshal; [apply RedeemRequest_field_ok| |assumption].
  unfold RedeemRequest_enc in *. enc_bounds. eapply reads_conv.
  - eapply reads_app.
    { eapply reads_string; reads_side. }
    eapply reads_app.
    { eapply reads_message; try reads_side. cbn. now rewrite coin_reads by (assumption || lia). }
    eapply reads_message; try reads_side. cbn. now rewrite time_reads by (assumption || lia).
  - now destruct m.
Qed.

End RedeemRequest_lemmas.
