(* ===== verification/PbGenesis.v ===== *)
(** * [x/hal/types/genesis.pb.go]: the genesis state and its codec *)

From S2P Require Import Prelude Wire Sdk PbParams.

(** ** [GenesisState] *)

Record GenesisState := MkGenesisState {
  GenesisState_Params : Params }.

#[export] Instance GenesisState_eq_dec : EqDecision GenesisState.
Proof. solve_decision. Defined.

Definition GenesisState_Reset : GenesisState := MkGenesisState Params_Reset.

Definition GenesisState_GetParams (m : option GenesisState) : Params :=
  match m with Some m => GenesisState_Params m | None => Params_Reset end.

Section GenesisState_codec.
Context `{Gogo}.

Definition GenesisState_writer (m : GenesisState) : writer :=
  wmessage 0xa (Params_MarshalToSizedBuffer (GenesisState_Params m)).

Definition GenesisState_MarshalToSizedBuffer (m : GenesisState) : bytes -> res (bytes * Z) :=
  MarshalToSizedBuffer (GenesisState_writer m).

Definition GenesisState_Size (m : option GenesisState) : Z :=
  match m with
  | None => 0
  | Some m =>
      (let l := Params_Size (Some (GenesisState_Params m)) in 1 + l + sovGenesis (u64 l))
  end.

Definition GenesisState_Marshal (m : GenesisState) : res bytes :=
  Marshal (GenesisState_Size (Some m)) (GenesisState_writer m).
Definition GenesisState_MarshalTo (m : GenesisState) (d : bytes) : res (bytes * Z) :=
  MarshalTo (GenesisState_Size (Some m)) (GenesisState_writer m) d.

Definition GenesisState_field (m : GenesisState) (fieldNum wireType : Z) (d : bytes) (iNdEx : Z)
    : option (res (GenesisState * Z)) :=
  if fieldNum =? 1 then Some (
    '(s, j) ← read_message PbGenesis "Params" wireType d iNdEx;
    m' ← (x ← Params_Unmarshal (GenesisState_Params m) s; Ok (MkGenesisState x));
    Ok (m', j))
  else None.

Definition GenesisState_Unmarshal : GenesisState -> bytes -> res GenesisState :=
  Unmarshal PbGenesis "GenesisState" GenesisState_field.
End GenesisState_codec.

Section GenesisState_lemmas.
Context `{GogoOk}.

Definition GenesisState_enc (m : GenesisState) : bytes :=
  enc_message 0xa (Params_enc (GenesisState_Params m)).

Definition GenesisState_wf (m : GenesisState) : Prop := Params_wf (GenesisState_Params m).

Lemma GenesisState_writes m : GenesisState_wf m -> len (GenesisState_enc m) < 2 ^ 63 -> writes (GenesisState_writer m) (GenesisState_enc m).
Proof.
  unfold GenesisState_wf. intros Hwf Hl. unfold GenesisState_enc in *. enc_bounds. unfold GenesisState_writer.
  solve_writes.
Qed.

Lemma GenesisState_Size_enc m : GenesisState_wf m -> len (GenesisState_enc m) < 2 ^ 63 ->
  GenesisState_Size (Some m) = len (GenesisState_enc m).
Proof.
  unfold GenesisState_wf. intros Hwf Hl. unfold GenesisState_enc in *. enc_bounds. unfold GenesisState_Size, sovGenesis. cbn zeta.
  rewrite ?len_enc_message by lia.
  rewrite ?Params_Size_enc by (assumption || lia). lia.
Qed.

Lemma GenesisState_Marshal_enc m : GenesisState_wf m -> len (GenesisState_enc m) < 2 ^ 63 -> GenesisState_Marshal m = Ok (GenesisState_enc m).
Proof. intros. apply Marshal_writes; [now apply GenesisState_writes | now apply GenesisState_Size_enc]. Qed.

Lemma GenesisState_field_ok : field_ok GenesisState_field.
Proof. intros m fn wt d i Hi Hd. unfold GenesisState_field. solve_field_ok. Qed.
#[local] Hint Resolve GenesisState_field_ok : halborn.

Lemma GenesisState_Unmarshal_safe m d : len d < 2 ^ 63 -> safe (GenesisState_Unmarshal m d) (fun _ => True).
Proof. intros. apply Unmarshal_safe; auto with halborn. Qed.

Lemma GenesisState_Unmarshal_enc m : GenesisState_wf m -> len (GenesisState_enc m) < 2 ^ 63 ->
  GenesisState_Unmarshal GenesisState_Reset (GenesisState_enc m) = Ok m.
Proof.
  unfold GenesisState_wf. intros Hwf Hl. apply reads_Unmarshal; [apply GenesisState_field_ok| |assumption].
  unfold GenesisState_enc in *. enc_bounds. eapply reads_conv.
  - eapply reads_message; try reads_side. cbn. now rewrite Params_Unmarshal_enc by (assumption || lia).
  - now destruct m.
Qed.

End GenesisState_lemmas.
