(* ===== verification/PbQuery.v ===== *)
(** * [x/hal/types/query.pb.go]: the query messages and their codecs *)

From S2P Require Import Prelude Wire Sdk PbParams.

(** ** [QueryParamsRequest] *)

Record QueryParamsRequest := MkQueryParamsRequest { }.

#[export] Instance QueryParamsRequest_eq_dec : EqDecision QueryParamsRequest.
Proof. solve_decision. Defined.

Definition QueryParamsRequest_Reset : QueryParamsRequest := MkQueryParamsRequest.


Definition QueryParamsRequest_writer (m : QueryParamsRequest) : writer :=
  wskip.

Definition QueryParamsRequest_MarshalToSizedBuffer (m : QueryParamsRequest) : bytes -> res (bytes * Z) :=
  MarshalToSizedBuffer (QueryParamsRequest_writer m).

Definition QueryParamsRequest_Size (m : option QueryParamsRequest) : Z :=
  match m with
  | None => 0
  | Some m =>
      0
  end.

Definition QueryParamsRequest_Marshal (m : QueryParamsRequest) : res bytes :=
  Marshal (QueryParamsRequest_Size (Some m)) (QueryParamsRequest_writer m).
Definition QueryParamsRequest_MarshalTo (m : QueryParamsRequest) (d : bytes) : res (bytes * Z) :=
  MarshalTo (QueryParamsRequest_Size (Some m)) (QueryParamsRequest_writer m) d.

Definition QueryParamsRequest_field (m : QueryParamsRequest) (fieldNum wireType : Z) (d : bytes) (iNdEx : Z)
    : option (res (QueryParamsRequest * Z)) :=
  None.

Definition QueryParamsRequest_Unmarshal : QueryParamsRequest -> bytes -> res QueryParamsRequest :=
  Unmarshal PbQuery "QueryParamsRequest" QueryParamsRequest_field.

Definition QueryParamsRequest_enc (m : QueryParamsRequest) : bytes :=
  [].

Definition QueryParamsRequest_wf (m : QueryParamsRequest) : Prop := True.

Lemma QueryParamsRequest_writes m : QueryParamsRequest_wf m -> len (QueryParamsRequest_enc m) < 2 ^ 63 -> writes (QueryParamsRequest_writer m) (QueryParamsRequest_enc m).
Proof.
  unfold QueryParamsRequest_wf. intros _ Hl. unfold QueryParamsRequest_enc in *. enc_bounds. unfold QueryParamsRequest_writer.
  solve_writes.
Qed.

Lemma QueryParamsRequest_Size_enc m : QueryParamsRequest_wf m -> len (QueryParamsRequest_enc m) < 2 ^ 63 ->
  QueryParamsRequest_Size (Some m) = len (QueryParamsRequest_enc m).
Proof.
  reflexivity.
Qed.

Lemma QueryParamsRequest_Marshal_enc m : QueryParamsRequest_wf m -> len (QueryParamsRequest_enc m) < 2 ^ 63 -> QueryParamsRequest_Marshal m = Ok (QueryParamsRequest_enc m).
Proof. intros. apply Marshal_writes; [now apply QueryParamsRequest_writes | now apply QueryParamsRequest_Size_enc]. Qed.

Lemma QueryParamsRequest_field_ok : field_ok QueryParamsRequest_field.
Proof. intros m fn wt d i Hi Hd. unfold QueryParamsRequest_field. exact I. Qed.
#[export] Hint Resolve QueryParamsRequest_field_ok : halborn.

Lemma QueryParamsRequest_Unmarshal_safe m d : len d < 2 ^ 63 -> safe (QueryParamsRequest_Unmarshal m d) (fun _ => True).
Proof. intros. apply Unmarshal_safe; auto with halborn. Qed.

Lemma QueryParamsRequest_Unmarshal_enc m : QueryParamsRequest_wf m -> len (QueryParamsRequest_enc m) < 2 ^ 63 ->
  QueryParamsRequest_Unmarshal QueryParamsRequest_Reset (QueryParamsRequest_enc m) = Ok m.
Proof.
  unfold QueryParamsRequest_wf. intros _ Hl. apply reads_Unmarshal; [apply QueryParamsRequest_field_ok| |assumption].
  destruct m. apply reads_nil.
Qed.

(** ** [QueryParamsResponse] *)

Record QueryParamsResponse := MkQueryParamsResponse {
  QueryParamsResponse_Params : Params }.

#[export] Instance QueryParamsResponse_eq_dec : EqDecision QueryParamsResponse.
Proof. solve_decision. Defined.

Definition QueryParamsResponse_Reset : QueryParamsResponse := MkQueryParamsResponse Params_Reset.

Definition QueryParamsResponse_GetParams (m : option QueryParamsResponse) : Params :=
  match m with Some m => QueryParamsResponse_Params m | None => Params_Reset end.

Section QueryParamsResponse_codec.
Context `{Gogo}.

Definition QueryParamsResponse_writer (m : QueryParamsResponse) : writer :=
  wmessage 0xa (Params_MarshalToSizedBuffer (QueryParamsResponse_Params m)).

Definition QueryParamsResponse_MarshalToSizedBuffer (m : QueryParamsResponse) : bytes -> res (bytes * Z) :=
  MarshalToSizedBuffer (QueryParamsResponse_writer m).

Definition QueryParamsResponse_Size (m : option QueryParamsResponse) : Z :=
  match m with
  | None => 0
  | Some m =>
      (let l := Params_Size (Some (QueryParamsResponse_Params m)) in 1 + l + sovQuery (u64 l))
  end.

Definition QueryParamsResponse_Marshal (m : QueryParamsResponse) : res bytes :=
  Marshal (QueryParamsResponse_Size (Some m)) (QueryParamsResponse_writer m).
Definition QueryParamsResponse_MarshalTo (m : QueryParamsResponse) (d : bytes) : res (bytes * Z) :=
  MarshalTo (QueryParamsResponse_Size (Some m)) (QueryParamsResponse_writer m) d.

Definition QueryParamsResponse_field (m : QueryParamsResponse) (fieldNum wireType : Z) (d : bytes) (iNdEx : Z)
    : option (res (QueryParamsResponse * Z)) :=
  if fieldNum =? 1 then Some (
    '(s, j) ← read_message PbQuery "Params" wireType d iNdEx;
    m' ← (x ← Params_Unmarshal (QueryParamsResponse_Params m) s; Ok (MkQueryParamsResponse x));
    Ok (m', j))
  else None.

Definition QueryParamsResponse_Unmarshal : QueryParamsResponse -> bytes -> res QueryParamsResponse :=
  Unmarshal PbQuery "QueryParamsResponse" QueryParamsResponse_field.
End QueryParamsResponse_codec.

Section QueryParamsResponse_lemmas.
Context `{GogoOk}.

Definition QueryParamsResponse_enc (m : QueryParamsResponse) : bytes :=
  enc_message 0xa (Params_enc (QueryParamsResponse_Params m)).

Definition QueryParamsResponse_wf (m : QueryParamsResponse) : Prop := Params_wf (QueryParamsResponse_Params m).

Lemma QueryParamsResponse_writes m : QueryParamsResponse_wf m -> len (QueryParamsResponse_enc m) < 2 ^ 63 -> writes (QueryParamsResponse_writer m) (QueryParamsResponse_enc m).
Proof.
  unfold QueryParamsResponse_wf. intros Hwf Hl. unfold QueryParamsResponse_enc in *. enc_bounds. unfold QueryParamsResponse_writer.
  solve_writes.
Qed.

Lemma QueryParamsResponse_Size_enc m : QueryParamsResponse_wf m -> len (QueryParamsResponse_enc m) < 2 ^ 63 ->
  QueryParamsResponse_Size (Some m) = len (QueryParamsResponse_enc m).
Proof.
  unfold QueryParamsResponse_wf. intros Hwf Hl. unfold QueryParamsResponse_enc in *. enc_bounds. unfold QueryParamsResponse_Size, sovQuery. cbn zeta.
  rewrite ?len_enc_message by lia.
  rewrite ?Params_Size_enc by (assumption || lia). lia.
Qed.

Lemma QueryParamsResponse_Marshal_enc m : QueryParamsResponse_wf m -> len (QueryParamsResponse_enc m) < 2 ^ 63 -> QueryParamsResponse_Marshal m = Ok (QueryParamsResponse_enc m).
Proof. intros. apply Marshal_writes; [now apply QueryParamsResponse_writes | now apply QueryParamsResponse_Size_enc]. Qed.

Lemma QueryParamsResponse_field_ok : field_ok QueryParamsResponse_field.
Proof. intros m fn wt d i Hi Hd. unfold QueryParamsResponse_field. solve_field_ok. Qed.
#[local] Hint Resolve QueryParamsResponse_field_ok : halborn.

Lemma QueryParamsResponse_Unmarshal_safe m d : len d < 2 ^ 63 -> safe (QueryParamsResponse_Unmarshal m d) (fun _ => True).
Proof. intros. apply Unmarshal_safe; auto with halborn. Qed.

Lemma QueryParamsResponse_Unmarshal_enc m : QueryParamsResponse_wf m -> len (QueryParamsResponse_enc m) < 2 ^ 63 ->
  QueryParamsResponse_Unmarshal QueryParamsResponse_Reset (QueryParamsResponse_enc m) = Ok m.
Proof.
  unfold QueryParamsResponse_wf. intros Hwf Hl. apply reads_Unmarshal; [apply QueryParamsResponse_field_ok| |assumption].
  unfold QueryParamsResponse_enc in *. enc_bounds. eapply reads_conv.
  - eapply reads_message; try reads_side. cbn. now rewrite Params_Unmarshal_enc by (assumption || lia).
  - now destruct m.
Qed.

End QueryParamsResponse_lemmas.
