(* ===== verification/PbTx.v ===== *)
(** * [x/hal/types/tx.pb.go]: the messages of the Msg service and their codecs

    The four requests and responses with their methods, their reference
    encodings, and for each the lemmas that [Marshal] produces the encoding
    in [Size] bytes, that [Unmarshal] inverts it, and that [Unmarshal]
    returns normally on any bytes. *)

From S2P Require Import Prelude Wire Sdk PbParams.

(** ** [MsgUpdateParams] *)

Record MsgUpdateParams := MkMsgUpdateParams {
  MsgUpdateParams_Authority : gostring;
  MsgUpdateParams_Params : Params }.

#[export] Instance MsgUpdateParams_eq_dec : EqDecision MsgUpdateParams.
Proof. solve_decision. Defined.

Definition MsgUpdateParams_Reset : MsgUpdateParams := MkMsgUpdateParams [] Params_Reset.

Definition MsgUpdateParams_GetAuthority (m : option MsgUpdateParams) : gostring :=
  match m with Some m => MsgUpdateParams_Authority m | None => [] end.
Definition MsgUpdateParams_GetParams (m : option MsgUpdateParams) : Params :=
  match m with Some m => MsgUpdateParams_Params m | None => Params_Reset end.

Section MsgUpdateParams_codec.
Context `{Gogo}.

Definition MsgUpdateParams_writer (m : MsgUpdateParams) : writer :=
  wmessage 0x12 (Params_MarshalToSizedBuffer (MsgUpdateParams_Params m)) >>
  wstring 0xa (MsgUpdateParams_Authority m).

Definition MsgUpdateParams_MarshalToSizedBuffer (m : MsgUpdateParams) : bytes -> res (bytes * Z) :=
  MarshalToSizedBuffer (MsgUpdateParams_writer m).

Definition MsgUpdateParams_Size (m : option MsgUpdateParams) : Z :=
  match m with
  | None => 0
  | Some m =>
      (let l := len (MsgUpdateParams_Authority m) in if 0 <? l then 1 + l + sovTx (u64 l) else 0) +
      (let l := Params_Size (Some (MsgUpdateParams_Params m)) in 1 + l + sovTx (u64 l))
  end.

Definition MsgUpdateParams_Marshal (m : MsgUpdateParams) : res bytes :=
  Marshal (MsgUpdateParams_Size (Some m)) (MsgUpdateParams_writer m).
Definition MsgUpdateParams_MarshalTo (m : MsgUpdateParams) (d : bytes) : res (bytes * Z) :=
  MarshalTo (MsgUpdateParams_Size (Some m)) (MsgUpdateParams_writer m) d.

Definition MsgUpdateParams_field (m : MsgUpdateParams) (fieldNum wireType : Z) (d : bytes) (iNdEx : Z)
    : option (res (MsgUpdateParams * Z)) :=
  if fieldNum =? 1 then Some (
    '(s, j) ← read_string PbTx "Authority" wireType d iNdEx;
    Ok (MkMsgUpdateParams s (MsgUpdateParams_Params m), j))
  else if fieldNum =? 2 then Some (
    '(s, j) ← read_message PbTx "Params" wireType d iNdEx;
    m' ← (x ← Params_Unmarshal (MsgUpdateParams_Params m) s; Ok (MkMsgUpdateParams (MsgUpdateParams_Authority m) x));
    Ok (m', j))
  else None.

Definition MsgUpdateParams_Unmarshal : MsgUpdateParams -> bytes -> res MsgUpdateParams :=
  Unmarshal PbTx "MsgUpdateParams" MsgUpdateParams_field.
End MsgUpdateParams_codec.

Section MsgUpdateParams_lemmas.
Context `{GogoOk}.

Definition MsgUpdateParams_enc (m : MsgUpdateParams) : bytes :=
  enc_string 0xa (MsgUpdateParams_Authority m) ++ enc_message 0x12 (Params_enc (MsgUpdateParams_Params m)).

Definition MsgUpdateParams_wf (m : MsgUpdateParams) : Prop := Params_wf (MsgUpdateParams_Params m).

Lemma MsgUpdateParams_writes m : MsgUpdateParams_wf m -> len (MsgUpdateParams_enc m) < 2 ^ 63 -> writes (MsgUpdateParams_writer m) (MsgUpdateParams_enc m).
Proof.
  unfold MsgUpdateParams_wf. intros Hwf Hl. unfold MsgUpdateParams_enc in *. enc_bounds. unfold MsgUpdateParams_writer.
  solve_writes.
Qed.

Lemma MsgUpdateParams_Size_enc m : MsgUpdateParams_wf m -> len (MsgUpdateParams_enc m) < 2 ^ 63 ->
  MsgUpdateParams_Size (Some m) = len (MsgUpdateParams_enc m).
Proof.
  unfold MsgUpdateParams_wf. intros Hwf Hl. unfold MsgUpdateParams_enc in *. enc_bounds. unfold MsgUpdateParams_Size, sovTx. cbn zeta.
  rewrite ?len_app, ?len_enc_string, ?len_enc_message by lia.
  rewrite ?Params_Size_enc by (assumption || lia). lia.
Qed.

Lemma MsgUpdateParams_Marshal_enc m : MsgUpdateParams_wf m -> len (MsgUpdateParams_enc m) < 2 ^ 63 -> MsgUpdateParams_Marshal m = Ok (MsgUpdateParams_enc m).
Proof. intros. apply Marshal_writes; [now apply MsgUpdateParams_writes | now apply MsgUpdateParams_Size_enc]. Qed.

Lemma MsgUpdateParams_field_ok : field_ok MsgUpdateParams_field.
Proof. intros m fn wt d i Hi Hd. unfold MsgUpdateParams_field. solve_field_ok. Qed.
#[local] Hint Resolve MsgUpdateParams_field_ok : halborn.

Lemma MsgUpdateParams_Unmarshal_safe m d : len d < 2 ^ 63 -> safe (MsgUpdateParams_Unmarshal m d) (fun _ => True).
Proof. intros. apply Unmarshal_safe; auto with halborn. Qed.

Lemma MsgUpdateParams_Unmarshal_enc m : MsgUpdateParams_wf m -> len (MsgUpdateParams_enc m) < 2 ^ 63 ->
  MsgUpdateParams_Unmarshal MsgUpdateParams_Reset (MsgUpdateParams_enc m) = Ok m.
Proof.
  unfold MsgUpdateParams_wf. intros Hwf Hl. apply reads_Unmarshal; [apply MsgUpdateParams_field_ok| |assumption].
  unfold MsgUpdateParams_enc in *. enc_bounds. eapply reads_conv.
  - eapply reads_app.
    { eapply reads_string; reads_side. }
    eapply reads_message; try reads_side. cbn. now rewrite Params_Unmarshal_enc by (assumption || lia).
  - now destruct m.
Qed.

End MsgUpdateParams_lemmas.

(** ** [MsgUpdateParamsResponse] *)

Record MsgUpdateParamsResponse := MkMsgUpdateParamsResponse { }.

#[export] Instance MsgUpdateParamsResponse_eq_dec : EqDecision MsgUpdateParamsResponse.
Proof. solve_decision. Defined.

Definition MsgUpdateParamsResponse_Reset : MsgUpdateParamsResponse := MkMsgUpdateParamsResponse.


Definition MsgUpdateParamsResponse_writer (m : MsgUpdateParamsResponse) : writer :=
  wskip.

Definition MsgUpdateParamsResponse_MarshalToSizedBuffer (m : MsgUpdateParamsResponse) : bytes -> res (bytes * Z) :=
  MarshalToSizedBuffer (MsgUpdateParamsResponse_writer m).

Definition MsgUpdateParamsResponse_Size (m : option MsgUpdateParamsResponse) : Z :=
  match m with
  | None => 0
  | Some m =>
      0
  end.

Definition MsgUpdateParamsResponse_Marshal (m : MsgUpdateParamsResponse) : res bytes :=
  Marshal (MsgUpdateParamsResponse_Size (Some m)) (MsgUpdateParamsResponse_writer m).
Definition MsgUpdateParamsResponse_MarshalTo (m : MsgUpdateParamsResponse) (d : bytes) : res (bytes * Z) :=
  MarshalTo (MsgUpdateParamsResponse_Size (Some m)) (MsgUpdateParamsResponse_writer m) d.

Definition MsgUpdateParamsResponse_field (m : MsgUpdateParamsResponse) (fieldNum wireType : Z) (d : bytes) (iNdEx : Z)
    : option (res (MsgUpdateParamsResponse * Z)) :=
  None.

Definition MsgUpdateParamsResponse_Unmarshal : MsgUpdateParamsResponse -> bytes -> res MsgUpdateParamsResponse :=
  Unmarshal PbTx "MsgUpdateParamsResponse" MsgUpdateParamsResponse_field.

Definition MsgUpdateParamsResponse_enc (m : MsgUpdateParamsResponse) : bytes :=
  [].

Definition MsgUpdateParamsResponse_wf (m : MsgUpdateParamsResponse) : Prop := True.

Lemma MsgUpdateParamsResponse_writes m : MsgUpdateParamsResponse_wf m -> len (MsgUpdateParamsResponse_enc m) < 2 ^ 63 -> writes (MsgUpdateParamsResponse_writer m) (MsgUpdateParamsResponse_enc m).
Proof.
  unfold MsgUpdateParamsResponse_wf. intros _ Hl. unfold MsgUpdateParamsResponse_enc in *. enc_bounds. unfold MsgUpdateParamsResponse_writer.
  solve_writes.
Qed.

Lemma MsgUpdateParamsResponse_Size_enc m : MsgUpdateParamsResponse_wf m -> len (MsgUpdateParamsResponse_enc m) < 2 ^ 63 ->
  MsgUpdateParamsResponse_Size (Some m) = len (MsgUpdateParamsResponse_enc m).
Proof.
  reflexivity.
Qed.

Lemma MsgUpdateParamsResponse_Marshal_enc m : MsgUpdateParamsResponse_wf m -> len (MsgUpdateParamsResponse_enc m) < 2 ^ 63 -> MsgUpdateParamsResponse_Marshal m = Ok (MsgUpdateParamsResponse_enc m).
Proof. intros. apply Marshal_writes; [now apply MsgUpdateParamsResponse_writes | now apply MsgUpdateParamsResponse_Size_enc]. Qed.

Lemma MsgUpdateParamsResponse_field_ok : field_ok MsgUpdateParamsResponse_field.
Proof. intros m fn wt d i Hi Hd. unfold MsgUpdateParamsResponse_field. exact I. Qed.
#[export] Hint Resolve MsgUpdateParamsResponse_field_ok : halborn.

Lemma MsgUpdateParamsResponse_Unmarshal_safe m d : len d < 2 ^ 63 -> safe (MsgUpdateParamsResponse_Unmarshal m d) (fun _ => True).
Proof. intros. apply Unmarshal_safe; auto with halborn. Qed.

Lemma MsgUpdateParamsResponse_Unmarshal_enc m : MsgUpdateParamsResponse_wf m -> len (MsgUpdateParamsResponse_enc m) < 2 ^ 63 ->
  MsgUpdateParamsResponse_Unmarshal MsgUpdateParamsResponse_Reset (MsgUpdateParamsResponse_enc m) = Ok m.
Proof.
  unfold MsgUpdateParamsResponse_wf. intros _ Hl. apply reads_Unmarshal; [apply MsgUpdateParamsResponse_field_ok| |assumption].
  destruct m. apply reads_nil.
Qed.

(** ** [MsgMintHal] *)

Record MsgMintHal := MkMsgMintHal {
  MsgMintHal_Creator : gostring;
  MsgMintHal_CollateralAmount : Coin }.

#[export] Instance MsgMintHal_eq_dec : EqDecision MsgMintHal.
Proof. solve_decision. Defined.

Definition MsgMintHal_Reset : MsgMintHal := MkMsgMintHal [] zero_coin.

Definition MsgMintHal_GetCreator (m : option MsgMintHal) : gostring :=
  match m with Some m => MsgMintHal_Creator m | None => [] end.
Definition MsgMintHal_GetCollateralAmount (m : option MsgMintHal) : Coin :=
  match m with Some m => MsgMintHal_CollateralAmount m | None => zero_coin end.

Section MsgMintHal_codec.
Context `{Gogo}.

Definition MsgMintHal_writer (m : MsgMintHal) : writer :=
  wmessage 0x12 (Coin_MarshalToSizedBuffer (MsgMintHal_CollateralAmount m)) >>
  wstring 0xa (MsgMintHal_Creator m).

Definition MsgMintHal_MarshalToSizedBuffer (m : MsgMintHal) : bytes -> res (bytes * Z) :=
  MarshalToSizedBuffer (MsgMintHal_writer m).

Definition MsgMintHal_Size (m : option MsgMintHal) : Z :=
  match m with
  | None => 0
  | Some m =>
      (let l := len (MsgMintHal_Creator m) in if 0 <? l then 1 + l + sovTx (u64 l) else 0) +
      (let l := Coin_Size (MsgMintHal_CollateralAmount m) in 1 + l + sovTx (u64 l))
  end.

Definition MsgMintHal_Marshal (m : MsgMintHal) : res bytes :=
  Marshal (MsgMintHal_Size (Some m)) (MsgMintHal_writer m).
Definition MsgMintHal_MarshalTo (m : MsgMintHal) (d : bytes) : res (bytes * Z) :=
  MarshalTo (MsgMintHal_Size (Some m)) (MsgMintHal_writer m) d.

Definition MsgMintHal_field (m : MsgMintHal) (fieldNum wireType : Z) (d : bytes) (iNdEx : Z)
    : option (res (MsgMintHal * Z)) :=
  if fieldNum =? 1 then Some (
    '(s, j) ← read_string PbTx "Creator" wireType d iNdEx;
    Ok (MkMsgMintHal s (MsgMintHal_CollateralAmount m), j))
  else if fieldNum =? 2 then Some (
    '(s, j) ← read_message PbTx "CollateralAmount" wireType d iNdEx;
    m' ← (x ← Coin_Unmarshal (MsgMintHal_CollateralAmount m) s; Ok (MkMsgMintHal (MsgMintHal_Creator m) x));
    Ok (m', j))
  else None.

Definition MsgMintHal_Unmarshal : MsgMintHal -> bytes -> res MsgMintHal :=
  Unmarshal PbTx "MsgMintHal" MsgMintHal_field.
End MsgMintHal_codec.

Section MsgMintHal_lemmas.
Context `{GogoOk}.

Definition MsgMintHal_enc (m : MsgMintHal) : bytes :=
  enc_string 0xa (MsgMintHal_Creator m) ++ enc_message 0x12 (coin_enc (MsgMintHal_CollateralAmount m)).

Definition MsgMintHal_wf (m : MsgMintHal) : Prop := coin_set (MsgMintHal_CollateralAmount m).

Lemma MsgMintHal_writes m : MsgMintHal_wf m -> len (MsgMintHal_enc m) < 2 ^ 63 -> writes (MsgMintHal_writer m) (MsgMintHal_enc m).
Proof.
  unfold MsgMintHal_wf. intros Hwf Hl. unfold MsgMintHal_enc in *. enc_bounds. unfold MsgMintHal_writer.
  solve_writes.
Qed.

Lemma MsgMintHal_Size_enc m : MsgMintHal_wf m -> len (MsgMintHal_enc m) < 2 ^ 63 ->
  MsgMintHal_Size (Some m) = len (MsgMintHal_enc m).
Proof.
  unfold MsgMintHal_wf. intros Hwf Hl. unfold MsgMintHal_enc in *. enc_bounds. unfold MsgMintHal_Size, sovTx. cbn zeta.
  rewrite ?len_app, ?len_enc_string, ?len_enc_message by lia.
  rewrite ?coin_size by (assumption || lia). lia.
Qed.

Lemma MsgMintHal_Marshal_enc m : MsgMintHal_wf m -> len (MsgMintHal_enc m) < 2 ^ 63 -> MsgMintHal_Marshal m = Ok (MsgMintHal_enc m).
Proof. intros. apply Marshal_writes; [now apply MsgMintHal_writes | now apply MsgMintHal_Size_enc]. Qed.

Lemma MsgMintHal_field_ok : field_ok MsgMintHal_field.
Proof. intros m fn wt d i Hi Hd. unfold MsgMintHal_field. solve_field_ok. Qed.
#[local] Hint Resolve MsgMintHal_field_ok : halborn.

Lemma MsgMintHal_Unmarshal_safe m d : len d < 2 ^ 63 -> safe (MsgMintHal_Unmarshal m d) (fun _ => True).
Proof. intros. apply Unmarshal_safe; auto with halborn. Qed.

Lemma MsgMintHal_Unmarshal_enc m : MsgMintHal_wf m -> len (MsgMintHal_enc m) < 2 ^ 63 ->
  MsgMintHal_Unmarshal MsgMintHal_Reset (MsgMintHal_enc m) = Ok m.
Proof.
  unfold MsgMintHal_wf. intros Hwf Hl. apply reads_Unmarshal; [apply MsgMintHal_field_ok| |assumption].
  unfold MsgMintHal_enc in *. enc_bounds. eapply reads_conv.
  - eapply reads_app.
    { eapply reads_string; reads_side. }
    eapply reads_message; try reads_side. cbn. now rewrite coin_reads by (assumption || lia).
  - now destruct m.
Qed.

End MsgMintHal_lemmas.

(** ** [MsgMintHalResponse] *)

Record MsgMintHalResponse := MkMsgMintHalResponse {
  MsgMintHalResponse_MintedAmount : Coin }.

#[export] Instance MsgMintHalResponse_eq_dec : EqDecision MsgMintHalResponse.
Proof. solve_decision. Defined.

Definition MsgMintHalResponse_Reset : MsgMintHalResponse := MkMsgMintHalResponse zero_coin.

Definition MsgMintHalResponse_GetMintedAmount (m : option MsgMintHalResponse) : Coin :=
  match m with Some m => MsgMintHalResponse_MintedAmount m | None => zero_coin end.

Section MsgMintHalResponse_codec.
Context `{Gogo}.

Definition MsgMintHalResponse_writer (m : MsgMintHalResponse) : writer :=
  wmessage 0xa (Coin_MarshalToSizedBuffer (MsgMintHalResponse_MintedAmount m)).

Definition MsgMintHalResponse_MarshalToSizedBuffer (m : MsgMintHalResponse) : bytes -> res (bytes * Z) :=
  MarshalToSizedBuffer (MsgMintHalResponse_writer m).

Definition MsgMintHalResponse_Size (m : option MsgMintHalResponse) : Z :=
  match m with
  | None => 0
  | Some m =>
      (let l := Coin_Size (MsgMintHalResponse_MintedAmount m) in 1 + l + sovTx (u64 l))
  end.

Definition MsgMintHalResponse_Marshal (m : MsgMintHalResponse) : res bytes :=
  Marshal (MsgMintHalResponse_Size (Some m)) (MsgMintHalResponse_writer m).
Definition MsgMintHalResponse_MarshalTo (m : MsgMintHalResponse) (d : bytes) : res (bytes * Z) :=
  MarshalTo (MsgMintHalResponse_Size (Some m)) (MsgMintHalResponse_writer m) d.

Definition MsgMintHalResponse_field (m : MsgMintHalResponse) (fieldNum wireType : Z) (d : bytes) (iNdEx : Z)
    : option (res (MsgMintHalResponse * Z)) :=
  if fieldNum =? 1 then Some (
    '(s, j) ← read_message PbTx "MintedAmount" wireType d iNdEx;
    m' ← (x ← Coin_Unmarshal (MsgMintHalResponse_MintedAmount m) s; Ok (MkMsgMintHalResponse x));
    Ok (m', j))
  else None.

Definition MsgMintHalResponse_Unmarshal : MsgMintHalResponse -> bytes -> res MsgMintHalResponse :=
  Unmarshal PbTx "MsgMintHalResponse" MsgMintHalResponse_field.
End MsgMintHalResponse_codec.

Section MsgMintHalResponse_lemmas.
Context `{GogoOk}.

Definition MsgMintHalResponse_enc (m : MsgMintHalResponse) : bytes :=
  enc_message 0xa (coin_enc (MsgMintHalResponse_MintedAmount m)).

Definition MsgMintHalResponse_wf (m : MsgMintHalResponse) : Prop := coin_set (MsgMintHalResponse_MintedAmount m).

Lemma MsgMintHalResponse_writes m : MsgMintHalResponse_wf m -> len (MsgMintHalResponse_enc m) < 2 ^ 63 -> writes (MsgMintHalResponse_writer m) (MsgMintHalResponse_enc m).
Proof.
  unfold MsgMintHalResponse_wf. intros Hwf Hl. unfold MsgMintHalResponse_enc in *. enc_bounds. unfold MsgMintHalResponse_writer.
  solve_writes.
Qed.

Lemma MsgMintHalResponse_Size_enc m : MsgMintHalResponse_wf m -> len (MsgMintHalResponse_enc m) < 2 ^ 63 ->
  MsgMintHalResponse_Size (Some m) = len (MsgMintHalResponse_enc m).
Proof.
  unfold MsgMintHalResponse_wf. intros Hwf Hl. unfold MsgMintHalResponse_enc in *. enc_bounds. unfold MsgMintHalResponse_Size, sovTx. cbn zeta.
  rewrite ?len_enc_message by lia.
  rewrite ?coin_size by (assumption || lia). lia.
Qed.

Lemma MsgMintHalResponse_Marshal_enc m : MsgMintHalResponse_wf m -> len (MsgMintHalResponse_enc m) < 2 ^ 63 -> MsgMintHalResponse_Marshal m = Ok (MsgMintHalResponse_enc m).
Proof. intros. apply Marshal_writes; [now apply MsgMintHalResponse_writes | now apply MsgMintHalResponse_Size_enc]. Qed.

Lemma MsgMintHalResponse_field_ok : field_ok MsgMintHalResponse_field.
Proof. intros m fn wt d i Hi Hd. unfold MsgMintHalResponse_field. solve_field_ok. Qed.
#[local] Hint Resolve MsgMintHalResponse_field_ok : halborn.

Lemma MsgMintHalResponse_Unmarshal_safe m d : len d < 2 ^ 63 -> safe (MsgMintHalResponse_Unmarshal m d) (fun _ => True).
Proof. intros. apply Unmarshal_safe; auto with halborn. Qed.

Lemma MsgMintHalResponse_Unmarshal_enc m : MsgMintHalResponse_wf m -> len (MsgMintHalResponse_enc m) < 2 ^ 63 ->
  MsgMintHalResponse_Unmarshal MsgMintHalResponse_Reset (MsgMintHalResponse_enc m) = Ok m.
Proof.
  unfold MsgMintHalResponse_wf. intros Hwf Hl. apply reads_Unmarshal; [apply MsgMintHalResponse_field_ok| |assumption].
  unfold MsgMintHalResponse_enc in *. enc_bounds. eapply reads_conv.
  - eapply reads_message; try reads_side. cbn. now rewrite coin_reads by (assumption || lia).
  - now destruct m.
Qed.

End MsgMintHalResponse_lemmas.

(** ** [MsgRedeemCollateral] *)

Record MsgRedeemCollateral := MkMsgRedeemCollateral {
  MsgRedeemCollateral_Creator : gostring;
  MsgRedeemCollateral_HalAmount : Coin }.

#[export] Instance MsgRedeemCollateral_eq_dec : EqDecision MsgRedeemCollateral.
Proof. solve_decision. Defined.

Definition MsgRedeemCollateral_Reset : MsgRedeemCollateral := MkMsgRedeemCollateral [] zero_coin.

Definition MsgRedeemCollateral_GetCreator (m : option MsgRedeemCollateral) : gostring :=
  match m with Some m => MsgRedeemCollateral_Creator m | None => [] end.
Definition MsgRedeemCollateral_GetHalAmount (m : option MsgRedeemCollateral) : Coin :=
  match m with Some m => MsgRedeemCollateral_HalAmount m | None => zero_coin end.

Section MsgRedeemCollateral_codec.
Context `{Gogo}.

Definition MsgRedeemCollateral_writer (m : MsgRedeemCollateral) : writer :=
  wmessage 0x12 (Coin_MarshalToSizedBuffer (MsgRedeemCollateral_HalAmount m)) >>
  wstring 0xa (MsgRedeemCollateral_Creator m).

Definition MsgRedeemCollateral_MarshalToSizedBuffer (m : MsgRedeemCollateral) : bytes -> res (bytes * Z) :=
  MarshalToSizedBuffer (MsgRedeemCollateral_writer m).

Definition MsgRedeemCollateral_Size (m : option MsgRedeemCollateral) : Z :=
  match m with
  | None => 0
  | Some m =>
      (let l := len (MsgRedeemCollateral_Creator m) in if 0 <? l then 1 + l + sovTx (u64 l) else 0) +
      (let l := Coin_Size (MsgRedeemCollateral_HalAmount m) in 1 + l + sovTx (u64 l))
  end.

Definition MsgRedeemCollateral_Marshal (m : MsgRedeemCollateral) : res bytes :=
  Marshal (MsgRedeemCollateral_Size (Some m)) (MsgRedeemCollateral_writer m).
Definition MsgRedeemCollateral_MarshalTo (m : MsgRedeemCollateral) (d : bytes) : res (bytes * Z) :=
  MarshalTo (MsgRedeemCollateral_Size (Some m)) (MsgRedeemCollateral_writer m) d.

Definition MsgRedeemCollateral_field (m : MsgRedeemCollateral) (fieldNum wireType : Z) (d : bytes) (iNdEx : Z)
    : option (res (MsgRedeemCollateral * Z)) :=
  if fieldNum =? 1 then Some (
    '(s, j) ← read_string PbTx "Creator" wireType d iNdEx;
    Ok (MkMsgRedeemCollateral s (MsgRedeemCollateral_HalAmount m), j))
  else if fieldNum =? 2 then Some (
    '(s, j) ← read_message PbTx "HalAmount" wireType d iNdEx;
    m' ← (x ← Coin_Unmarshal (MsgRedeemCollateral_HalAmount m) s; Ok (MkMsgRedeemCollateral (MsgRedeemCollateral_Creator m) x));
    Ok (m', j))
  else None.

Definition MsgRedeemCollateral_Unmarshal : MsgRedeemCollateral -> bytes -> res MsgRedeemCollateral :=
  Unmarshal PbTx "MsgRedeemCollateral" MsgRedeemCollateral_field.
End MsgRedeemCollateral_codec.

Section MsgRedeemCollateral_lemmas.
Context `{GogoOk}.

Definition MsgRedeemCollateral_enc (m : MsgRedeemCollateral) : bytes :=
  enc_string 0xa (MsgRedeemCollateral_Creator m) ++ enc_message 0x12 (coin_enc (MsgRedeemCollateral_HalAmount m)).

Definition MsgRedeemCollateral_wf (m : MsgRedeemCollateral) : Prop := coin_set (MsgRedeemCollateral_HalAmount m).

Lemma MsgRedeemCollateral_writes m : MsgRedeemCollateral_wf m -> len (MsgRedeemCollateral_enc m) < 2 ^ 63 -> writes (MsgRedeemCollateral_writer m) (MsgRedeemCollateral_enc m).
Proof.
  unfold MsgRedeemCollateral_wf. intros Hwf Hl. unfold MsgRedeemCollateral_enc in *. enc_bounds. unfold MsgRedeemCollateral_writer.
  solve_writes.
Qed.

Lemma MsgRedeemCollateral_Size_enc m : MsgRedeemCollateral_wf m -> len (MsgRedeemCollateral_enc m) < 2 ^ 63 ->
  MsgRedeemCollateral_Size (Some m) = len (MsgRedeemCollateral_enc m).
Proof.
  unfold MsgRedeemCollateral_wf. intros Hwf Hl. unfold MsgRedeemCollateral_enc in *. enc_bounds. unfold MsgRedeemCollateral_Size, sovTx. cbn zeta.
  rewrite ?len_app, ?len_enc_string, ?len_enc_message by lia.
  rewrite ?coin_size by (assumption || lia). lia.
Qed.

Lemma MsgRedeemCollateral_Marshal_enc m : MsgRedeemCollateral_wf m -> len (MsgRedeemCollateral_enc m) < 2 ^ 63 -> MsgRedeemCollateral_Marshal m = Ok (MsgRedeemCollateral_enc m).
Proof. intros. apply Marshal_writes; [now apply MsgRedeemCollateral_writes | now apply MsgRedeemCollateral_Size_enc]. Qed.

Lemma MsgRedeemCollateral_field_ok : field_ok MsgRedeemCollateral_field.
Proof. intros m fn wt d i Hi Hd. unfold MsgRedeemCollateral_field. solve_field_ok. Qed.
#[local] Hint Resolve MsgRedeemCollateral_field_ok : halborn.

Lemma MsgRedeemCollateral_Unmarshal_safe m d : len d < 2 ^ 63 -> safe (MsgRedeemCollateral_Unmarshal m d) (fun _ => True).
Proof. intros. apply Unmarshal_safe; auto with halborn. Qed.

Lemma MsgRedeemCollateral_Unmarshal_enc m : MsgRedeemCollateral_wf m -> len (MsgRedeemCollateral_enc m) < 2 ^ 63 ->
  MsgRedeemCollateral_Unmarshal MsgRedeemCollateral_Reset (MsgRedeemCollateral_enc m) = Ok m.
Proof.
  unfold MsgRedeemCollateral_wf. intros Hwf Hl. apply reads_Unmarshal; [apply MsgRedeemCollateral_field_ok| |assumption].
  unfold MsgRedeemCollateral_enc in *. enc_bounds. eapply reads_conv.
  - eapply reads_app.
    { eapply reads_string; reads_side. }
    eapply reads_message; try reads_side. cbn. now rewrite coin_reads by (assumption || lia).
  - now destruct m.
Qed.

End MsgRedeemCollateral_lemmas.

(** ** [MsgRedeemCollateralResponse] *)

Record MsgRedeemCollateralResponse := MkMsgRedeemCollateralResponse {
  MsgRedeemCollateralResponse_BurnedAmount : Coin;
  MsgRedeemCollateralResponse_CompletionTime : Time }.

#[export] Instance MsgRedeemCollateralResponse_eq_dec : EqDecision MsgRedeemCollateralResponse.
Proof. solve_decision. Defined.

Definition MsgRedeemCollateralResponse_Reset : MsgRedeemCollateralResponse := MkMsgRedeemCollateralResponse zero_coin zero_time.

Definition MsgRedeemCollateralResponse_GetBurnedAmount (m : option MsgRedeemCollateralResponse) : Coin :=
  match m with Some m => MsgRedeemCollateralResponse_BurnedAmount m | None => zero_coin end.
Definition MsgRedeemCollateralResponse_GetCompletionTime (m : option MsgRedeemCollateralResponse) : Time :=
  match m with Some m => MsgRedeemCollateralResponse_CompletionTime m | None => zero_time end.

Section MsgRedeemCollateralResponse_codec.
Context `{Gogo}.

Definition MsgRedeemCollateralResponse_writer (m : MsgRedeemCollateralResponse) : writer :=
  wstd 0x12 (SizeOfStdTime (MsgRedeemCollateralResponse_CompletionTime m)) (StdTimeMarshalTo (MsgRedeemCollateralResponse_CompletionTime m)) >>
  wmessage 0xa (Coin_MarshalToSizedBuffer (MsgRedeemCollateralResponse_BurnedAmount m)).

Definition MsgRedeemCollateralResponse_MarshalToSizedBuffer (m : MsgRedeemCollateralResponse) : bytes -> res (bytes * Z) :=
  MarshalToSizedBuffer (MsgRedeemCollateralResponse_writer m).

Definition MsgRedeemCollateralResponse_Size (m : option MsgRedeemCollateralResponse) : Z :=
  match m with
  | None => 0
  | Some m =>
      (let l := Coin_Size (MsgRedeemCollateralResponse_BurnedAmount m) in 1 + l + sovTx (u64 l)) +
      (let l := SizeOfStdTime (MsgRedeemCollateralResponse_CompletionTime m) in 1 + l + sovTx (u64 l))
  end.

Definition MsgRedeemCollateralResponse_Marshal (m : MsgRedeemCollateralResponse) : res bytes :=
  Marshal (MsgRedeemCollateralResponse_Size (Some m)) (MsgRedeemCollateralResponse_writer m).
Definition MsgRedeemCollateralResponse_MarshalTo (m : MsgRedeemCollateralResponse) (d : bytes) : res (bytes * Z) :=
  MarshalTo (MsgRedeemCollateralResponse_Size (Some m)) (MsgRedeemCollateralResponse_writer m) d.

Definition MsgRedeemCollateralResponse_field (m : MsgRedeemCollateralResponse) (fieldNum wireType : Z) (d : bytes) (iNdEx : Z)
    : option (res (MsgRedeemCollateralResponse * Z)) :=
  if fieldNum =? 1 then Some (
    '(s, j) ← read_message PbTx "BurnedAmount" wireType d iNdEx;
    m' ← (x ← Coin_Unmarshal (MsgRedeemCollateralResponse_BurnedAmount m) s; Ok (MkMsgRedeemCollateralResponse x (MsgRedeemCollateralResponse_CompletionTime m)));
    Ok (m', j))
  else if fieldNum =? 2 then Some (
    '(s, j) ← read_message PbTx "CompletionTime" wireType d iNdEx;
    m' ← (x ← StdTimeUnmarshal (MsgRedeemCollateralResponse_CompletionTime m) s; Ok (MkMsgRedeemCollateralResponse (MsgRedeemCollateralResponse_BurnedAmount m) x));
    Ok (m', j))
  else None.

Definition MsgRedeemCollateralResponse_Unmarshal : MsgRedeemCollateralResponse -> bytes -> res MsgRedeemCollateralResponse :=
  Unmarshal PbTx "MsgRedeemCollateralResponse" MsgRedeemCollateralResponse_field.
End MsgRedeemCollateralResponse_codec.

Section MsgRedeemCollateralResponse_lemmas.
Context `{GogoOk}.

Definition MsgRedeemCollateralResponse_enc (m : MsgRedeemCollateralResponse) : bytes :=
  enc_message 0xa (coin_enc (MsgRedeemCollateralResponse_BurnedAmount m)) ++ enc_message 0x12 (time_enc (MsgRedeemCollateralResponse_CompletionTime m)).

Definition MsgRedeemCollateralResponse_wf (m : MsgRedeemCollateralResponse) : Prop := coin_set (MsgRedeemCollateralResponse_BurnedAmount m) /\ time_valid (MsgRedeemCollateralResponse_CompletionTime m).

Lemma MsgRedeemCollateralResponse_writes m : MsgRedeemCollateralResponse_wf m -> len (MsgRedeemCollateralResponse_enc m) < 2 ^ 63 -> writes (MsgRedeemCollateralResponse_writer m) (MsgRedeemCollateralResponse_enc m).
Proof.
  unfold MsgRedeemCollateralResponse_wf. intros (H0 & H1) Hl. unfold MsgRedeemCollateralResponse_enc in *. enc_bounds. unfold MsgRedeemCollateralResponse_writer.
  solve_writes.
Qed.

Lemma MsgRedeemCollateralResponse_Size_enc m : MsgRedeemCollateralResponse_wf m -> len (MsgRedeemCollateralResponse_enc m) < 2 ^ 63 ->
  MsgRedeemCollateralResponse_Size (Some m) = len (MsgRedeemCollateralResponse_enc m).
Proof.
  unfold MsgRedeemCollateralResponse_wf. intros (H0 & H1) Hl. unfold MsgRedeemCollateralResponse_enc in *. enc_bounds. unfold MsgRedeemCollateralResponse_Size, sovTx. cbn zeta.
  rewrite ?len_app, ?len_enc_message by lia.
  rewrite ?coin_size, ?time_size by (assumption || lia). lia.
Qed.

Lemma MsgRedeemCollateralResponse_Marshal_enc m : MsgRedeemCollateralResponse_wf m -> len (MsgRedeemCollateralResponse_enc m) < 2 ^ 63 -> MsgRedeemCollateralResponse_Marshal m = Ok (MsgRedeemCollateralResponse_enc m).
Proof. intros. apply Marshal_writes; [now apply MsgRedeemCollateralResponse_writes | now apply MsgRedeemCollateralResponse_Size_enc]. Qed.

Lemma MsgRedeemCollateralResponse_field_ok : field_ok MsgRedeemCollateralResponse_field.
Proof. intros m fn wt d i Hi Hd. unfold MsgRedeemCollateralResponse_field. solve_field_ok. Qed.
#[local] Hint Resolve MsgRedeemCollateralResponse_field_ok : halborn.

Lemma MsgRedeemCollateralResponse_Unmarshal_safe m d : len d < 2 ^ 63 -> safe (MsgRedeemCollateralResponse_Unmarshal m d) (fun _ => True).
Proof. intros. apply Unmarshal_safe; auto with halborn. Qed.

Lemma MsgRedeemCollateralResponse_Unmarshal_enc m : MsgRedeemCollateralResponse_wf m -> len (MsgRedeemCollateralResponse_enc m) < 2 ^ 63 ->
  MsgRedeemCollateralResponse_Unmarshal MsgRedeemCollateralResponse_Reset (MsgRedeemCollateralResponse_enc m) = Ok m.
Proof.
  unfold MsgRedeemCollateralResponse_wf. intros (H0 & H1) Hl. apply reads_Unmarshal; [apply MsgRedeemCollateralResponse_field_ok| |assumption].
  unfold MsgRedeemCollateralResponse_enc in *. enc_bounds. eapply reads_conv.
  - eapply reads_app.
    { eapply reads_message; try reads_side. cbn. now rewrite coin_reads by (assumption || lia). }
    eapply reads_message; try reads_side. cbn. now rewrite time_reads by (assumption || lia).
  - now destruct m.
Qed.

End MsgRedeemCollateralResponse_lemmas.

(** ** [MsgCreateTicket] *)

Record MsgCreateTicket := MkMsgCreateTicket {
  MsgCreateTicket_Creator : gostring;
  MsgCreateTicket_Author : gostring;
  MsgCreateTicket_Issue : gostring }.

#[export] Instance MsgCreateTicket_eq_dec : EqDecision MsgCreateTicket.
Proof. solve_decision. Defined.

Definition MsgCreateTicket_Reset : MsgCreateTicket := MkMsgCreateTicket [] [] [].

Definition MsgCreateTicket_GetCreator (m : option MsgCreateTicket) : gostring :=
  match m with Some m => MsgCreateTicket_Creator m | None => [] end.
Definition MsgCreateTicket_GetAuthor (m : option MsgCreateTicket) : gostring :=
  match m with Some m => MsgCreateTicket_Author m | None => [] end.
Definition MsgCreateTicket_GetIssue (m : option MsgCreateTicket) : gostring :=
  match m with Some m => MsgCreateTicket_Issue m | None => [] end.

Definition MsgCreateTicket_writer (m : MsgCreateTicket) : writer :=
  wstring 0x1a (MsgCreateTicket_Issue m) >>
  wstring 0x12 (MsgCreateTicket_Author m) >>
  wstring 0xa (MsgCreateTicket_Creator m).

Definition MsgCreateTicket_MarshalToSizedBuffer (m : MsgCreateTicket) : bytes -> res (bytes * Z) :=
  MarshalToSizedBuffer (MsgCreateTicket_writer m).

Definition MsgCreateTicket_Size (m : option MsgCreateTicket) : Z :=
  match m with
  | None => 0
  | Some m =>
      (let l := len (MsgCreateTicket_Creator m) in if 0 <? l then 1 + l + sovTx (u64 l) else 0) +
      (let l := len (MsgCreateTicket_Author m) in if 0 <? l then 1 + l + sovTx (u64 l) else 0) +
      (let l := len (MsgCreateTicket_Issue m) in if 0 <? l then 1 + l + sovTx (u64 l) else 0)
  end.

Definition MsgCreateTicket_Marshal (m : MsgCreateTicket) : res bytes :=
  Marshal (MsgCreateTicket_Size (Some m)) (MsgCreateTicket_writer m).
Definition MsgCreateTicket_MarshalTo (m : MsgCreateTicket) (d : bytes) : res (bytes * Z) :=
  MarshalTo (MsgCreateTicket_Size (Some m)) (MsgCreateTicket_writer m) d.

Definition MsgCreateTicket_field (m : MsgCreateTicket) (fieldNum wireType : Z) (d : bytes) (iNdEx : Z)
    : option (res (MsgCreateTicket * Z)) :=
  if fieldNum =? 1 then Some (
    '(s, j) ← read_string PbTx "Creator" wireType d iNdEx;
    Ok (MkMsgCreateTicket s (MsgCreateTicket_Author m) (MsgCreateTicket_Issue m), j))
  else if fieldNum =? 2 then Some (
    '(s, j) ← read_string PbTx "Author" wireType d iNdEx;
    Ok (MkMsgCreateTicket (MsgCreateTicket_Creator m) s (MsgCreateTicket_Issue m), j))
  else if fieldNum =? 3 then Some (
    '(s, j) ← read_string PbTx "Issue" wireType d iNdEx;
    Ok (MkMsgCreateTicket (MsgCreateTicket_Creator m) (MsgCreateTicket_Author m) s, j))
  else None.

Definition MsgCreateTicket_Unmarshal : MsgCreateTicket -> bytes -> res MsgCreateTicket :=
  Unmarshal PbTx "MsgCreateTicket" MsgCreateTicket_field.

Definition MsgCreateTicket_enc (m : MsgCreateTicket) : bytes :=
  enc_string 0xa (MsgCreateTicket_Creator m) ++ enc_string 0x12 (MsgCreateTicket_Author m) ++ enc_string 0x1a (MsgCreateTicket_Issue m).

Definition MsgCreateTicket_wf (m : MsgCreateTicket) : Prop := True.

Lemma MsgCreateTicket_writes m : MsgCreateTicket_wf m -> len (MsgCreateTicket_enc m) < 2 ^ 63 -> writes (MsgCreateTicket_writer m) (MsgCreateTicket_enc m).
Proof.
  unfold MsgCreateTicket_wf. intros _ Hl. unfold MsgCreateTicket_enc in *. enc_bounds. unfold MsgCreateTicket_writer.
  solve_writes.
Qed.

Lemma MsgCreateTicket_Size_enc m : MsgCreateTicket_wf m -> len (MsgCreateTicket_enc m) < 2 ^ 63 ->
  MsgCreateTicket_Size (Some m) = len (MsgCreateTicket_enc m).
Proof.
  unfold MsgCreateTicket_wf. intros _ Hl. unfold MsgCreateTicket_enc in *. enc_bounds. unfold MsgCreateTicket_Size, sovTx. cbn zeta.
  rewrite ?len_app, ?len_enc_string by lia. lia.
Qed.

Lemma MsgCreateTicket_Marshal_enc m : MsgCreateTicket_wf m -> len (MsgCreateTicket_enc m) < 2 ^ 63 -> MsgCreateTicket_Marshal m = Ok (MsgCreateTicket_enc m).
Proof. intros. apply Marshal_writes; [now apply MsgCreateTicket_writes | now apply MsgCreateTicket_Size_enc]. Qed.

Lemma MsgCreateTicket_field_ok : field_ok MsgCreateTicket_field.
Proof. intros m fn wt d i Hi Hd. unfold MsgCreateTicket_field. solve_field_ok. Qed.
#[export] Hint Resolve MsgCreateTicket_field_ok : halborn.

Lemma MsgCreateTicket_Unmarshal_safe m d : len d < 2 ^ 63 -> safe (MsgCreateTicket_Unmarshal m d) (fun _ => True).
Proof. intros. apply Unmarshal_safe; auto with halborn. Qed.

Lemma MsgCreateTicket_Unmarshal_enc m : MsgCreateTicket_wf m -> len (MsgCreateTicket_enc m) < 2 ^ 63 ->
  MsgCreateTicket_Unmarshal MsgCreateTicket_Reset (MsgCreateTicket_enc m) = Ok m.
Proof.
  unfold MsgCreateTicket_wf. intros _ Hl. apply reads_Unmarshal; [apply MsgCreateTicket_field_ok| |assumption].
  unfold MsgCreateTicket_enc in *. enc_bounds. eapply reads_conv.
  - eapply reads_app.
    { eapply reads_string; reads_side. }
    eapply reads_app.
    { eapply reads_string; reads_side. }
    eapply reads_string; reads_side.
  - now destruct m.
Qed.

(** ** [MsgCreateTicketResponse] *)

Record MsgCreateTicketResponse := MkMsgCreateTicketResponse {
  MsgCreateTicketResponse_Id : Z }.

#[export] Instance MsgCreateTicketResponse_eq_dec : EqDecision MsgCreateTicketResponse.
Proof. solve_decision. Defined.

Definition MsgCreateTicketResponse_Reset : MsgCreateTicketResponse := MkMsgCreateTicketResponse 0.

Definition MsgCreateTicketResponse_GetId (m : option MsgCreateTicketResponse) : Z :=
  match m with Some m => MsgCreateTicketResponse_Id m | None => 0 end.

Definition MsgCreateTicketResponse_writer (m : MsgCreateTicketResponse) : writer :=
  wscalar 0x8 (MsgCreateTicketResponse_Id m).

Definition MsgCreateTicketResponse_MarshalToSizedBuffer (m : MsgCreateTicketResponse) : bytes -> res (bytes * Z) :=
  MarshalToSizedBuffer (MsgCreateTicketResponse_writer m).

Definition MsgCreateTicketResponse_Size (m : option MsgCreateTicketResponse) : Z :=
  match m with
  | None => 0
  | Some m =>
      (if negb (MsgCreateTicketResponse_Id m =? 0) then 1 + sovTx (u64 (MsgCreateTicketResponse_Id m)) else 0)
  end.

Definition MsgCreateTicketResponse_Marshal (m : MsgCreateTicketResponse) : res bytes :=
  Marshal (MsgCreateTicketResponse_Size (Some m)) (MsgCreateTicketResponse_writer m).
Definition MsgCreateTicketResponse_MarshalTo (m : MsgCreateTicketResponse) (d : bytes) : res (bytes * Z) :=
  MarshalTo (MsgCreateTicketResponse_Size (Some m)) (MsgCreateTicketResponse_writer m) d.

Definition MsgCreateTicketResponse_field (m : MsgCreateTicketResponse) (fieldNum wireType : Z) (d : bytes) (iNdEx : Z)
    : option (res (MsgCreateTicketResponse * Z)) :=
  if fieldNum =? 1 then Some (
    '(x, j) ← read_scalar PbTx u64 "Id" wireType d iNdEx;
    Ok (MkMsgCreateTicketResponse x, j))
  else None.

Definition MsgCreateTicketResponse_Unmarshal : MsgCreateTicketResponse -> bytes -> res MsgCreateTicketResponse :=
  Unmarshal PbTx "MsgCreateTicketResponse" MsgCreateTicketResponse_field.

Definition MsgCreateTicketResponse_enc (m : MsgCreateTicketResponse) : bytes :=
  enc_scalar 0x8 (MsgCreateTicketResponse_Id m).

Definition MsgCreateTicketResponse_wf (m : MsgCreateTicketResponse) : Prop := 0 <= MsgCreateTicketResponse_Id m < 2 ^ 64.

Lemma MsgCreateTicketResponse_writes m : MsgCreateTicketResponse_wf m -> len (MsgCreateTicketResponse_enc m) < 2 ^ 63 -> writes (MsgCreateTicketResponse_writer m) (MsgCreateTicketResponse_enc m).
Proof.
  unfold MsgCreateTicketResponse_wf. intros Hwf Hl. unfold MsgCreateTicketResponse_enc in *. enc_bounds. unfold MsgCreateTicketResponse_writer.
  solve_writes.
Qed.

Lemma MsgCreateTicketResponse_Size_enc m : MsgCreateTicketResponse_wf m -> len (MsgCreateTicketResponse_enc m) < 2 ^ 63 ->
  MsgCreateTicketResponse_Size (Some m) = len (MsgCreateTicketResponse_enc m).
Proof.
  unfold MsgCreateTicketResponse_wf. intros Hwf Hl. unfold MsgCreateTicketResponse_enc in *. enc_bounds. unfold MsgCreateTicketResponse_Size, sovTx. cbn zeta.
  rewrite ?len_enc_scalar by lia. lia.
Qed.

Lemma MsgCreateTicketResponse_Marshal_enc m : MsgCreateTicketResponse_wf m -> len (MsgCreateTicketResponse_enc m) < 2 ^ 63 -> MsgCreateTicketResponse_Marshal m = Ok (MsgCreateTicketResponse_enc m).
Proof. intros. apply Marshal_writes; [now apply MsgCreateTicketResponse_writes | now apply MsgCreateTicketResponse_Size_enc]. Qed.

Lemma MsgCreateTicketResponse_field_ok : field_ok MsgCreateTicketResponse_field.
Proof. intros m fn wt d i Hi Hd. unfold MsgCreateTicketResponse_field. solve_field_ok. Qed.
#[export] Hint Resolve MsgCreateTicketResponse_field_ok : halborn.

Lemma MsgCreateTicketResponse_Unmarshal_safe m d : len d < 2 ^ 63 -> safe (MsgCreateTicketResponse_Unmarshal m d) (fun _ => True).
Proof. intros. apply Unmarshal_safe; auto with halborn. Qed.

Lemma MsgCreateTicketResponse_Unmarshal_enc m : MsgCreateTicketResponse_wf m -> len (MsgCreateTicketResponse_enc m) < 2 ^ 63 ->
  MsgCreateTicketResponse_Unmarshal MsgCreateTicketResponse_Reset (MsgCreateTicketResponse_enc m) = Ok m.
Proof.
  unfold MsgCreateTicketResponse_wf. intros Hwf Hl. apply reads_Unmarshal; [apply MsgCreateTicketResponse_field_ok| |assumption].
  unfold MsgCreateTicketResponse_enc in *. enc_bounds. eapply reads_conv.
  - eapply reads_scalar with (W := u64); try reads_side. now apply u64_u64.
  - now destruct m.
Qed.
