(* ===== verification/SdkModel.v ===== *)
(** * An implementation of the SDK interfaces

    Concrete, executable instances of every class of [Sdk], used to evaluate
    the examples of the other files: protobuf durations, timestamps and coins
    in their documented wire formats, integer decimals, a store that is a
    finite map, and a ledger of balances.  They also show that the laws of
    [Sdk] are satisfiable together. *)

From Stdlib Require Import DecimalString DecimalZ.
From S2P Require Import Prelude Wire Sdk.

(** ** gogoproto

    A [Duration] or [Timestamp] is a message of seconds and nanoseconds. *)

Record secs := MkSecs { seconds : Z; nanos : Z }.

Definition secs_writer (m : secs) : writer := wscalar 0x10 (nanos m) >> wscalar 0x8 (seconds m).
Definition secs_enc (m : secs) : bytes := enc_scalar 0x8 (seconds m) ++ enc_scalar 0x10 (nanos m).
Definition secs_field (m : secs) (fieldNum wireType : Z) (d : bytes) (i : Z) : option (res (secs * Z)) :=
  if fieldNum =? 1 then Some (
    '(x, j) ← read_scalar PbParams i64 "Seconds" wireType d i; Ok (MkSecs x (nanos m), j))
  else if fieldNum =? 2 then Some (
    '(x, j) ← read_scalar PbParams i32 "Nanos" wireType d i; Ok (MkSecs (seconds m) x, j))
  else None.

(** Durations split towards zero, times towards the past. *)
Definition secs_of_duration (d : Duration) : secs := MkSecs (Z.quot d (10 ^ 9)) (Z.rem d (10 ^ 9)).
Definition secs_of_time (t : Time) : secs := MkSecs (t / 10 ^ 9) (t mod 10 ^ 9).
Definition secs_total (m : secs) : Z := seconds m * 10 ^ 9 + nanos m.

Definition secs_unmarshal (d : bytes) : res Z :=
  if len d <? 2 ^ 63 then
    m ← Unmarshal PbParams "Secs" secs_field (MkSecs 0 0) d; Ok (secs_total m)
  else Err (ErrMsg "too long").

(** [MarshalTo]: the first [Size()] bytes of the slice. *)
Definition secs_marshal_to (m : secs) (d : bytes) : res (bytes * Z) :=
  MarshalTo (len (secs_enc m)) (secs_writer m) d.

(** A coin is its denomination and its amount in decimal digits. *)
Definition text_of_int (a : Int) : bytes :=
  String.list_byte_of_string (NilZero.string_of_int (Z.to_int (default 0 a))).
Definition int_of_text (s : bytes) : res Int :=
  match NilZero.int_of_string (String.string_of_list_byte s) with
  | Some i => let z := Z.of_int i in if Z.abs z <? 2 ^ 256 then Ok (Some z) else Err (ErrMsg "integer out of range")
  | None => Err (ErrMsg "invalid integer")
  end.

Definition pbcoin_writer (c : Coin) : writer :=
  wmessage 0x12 (fun d => MarshalToSizedBuffer (wcopy (text_of_int (Amount c))) d) >>
  wstring 0xa (Denom c).
Definition pbcoin_enc (c : Coin) : bytes :=
  enc_string 0xa (Denom c) ++ enc_message 0x12 (text_of_int (Amount c)).
Definition pbcoin_field (m : Coin) (fieldNum wireType : Z) (d : bytes) (i : Z) : option (res (Coin * Z)) :=
  if fieldNum =? 1 then Some (
    '(s, j) ← read_string PbTx "Denom" wireType d i; Ok (MkCoin s (Amount m), j))
  else if fieldNum =? 2 then Some (
    '(s, j) ← read_message PbTx "Amount" wireType d i;
    m' ← (x ← int_of_text s; Ok (MkCoin (Denom m) x));
    Ok (m', j))
  else None.

#[export] Instance gogo : Gogo := {
  SizeOfStdDuration d := len (secs_enc (secs_of_duration d));
  StdDurationMarshalTo d := secs_marshal_to (secs_of_duration d);
  StdDurationUnmarshal _ := secs_unmarshal;
  SizeOfStdTime t := len (secs_enc (secs_of_time t));
  StdTimeMarshalTo t := secs_marshal_to (secs_of_time t);
  StdTimeUnmarshal _ := secs_unmarshal;
  Coin_Size c := len (pbcoin_enc c);
  Coin_MarshalToSizedBuffer c := MarshalToSizedBuffer (pbcoin_writer c);
  Coin_Unmarshal c d := Unmarshal PbTx "Coin" pbcoin_field c d }.

(** *** The laws *)

Lemma secs_fills m : fills_start (secs_marshal_to m) (secs_enc m).
Proof.
  intros mid post Hl. apply MarshalTo_writes; [|reflexivity|assumption].
  unfold secs_writer, secs_enc. apply writes_seq; apply writes_scalar.
Qed.

Lemma secs_field_ok : field_ok secs_field.
Proof. intros m fn wt d i Hi Hd. unfold secs_field. solve_field_ok. Qed.

Lemma i64_u64 v : - 2 ^ 63 <= v < 2 ^ 63 -> i64 (u64 v) = v.
Proof.
  intros. unfold i64, swrap, u64, uwrap. rewrite Z.mod_mod by lia. apply (swrap_small 64); lia.
Qed.

Lemma len_varint_le v : len (varint v) <= 10.
Proof.
  unfold varint. assert (forall n v, len (varint_aux n v) <= Z.of_nat n) as L; [|apply (L 10%nat)].
  induction n as [|n IH]; intros w; [reflexivity|].
  unfold varint_aux; fold varint_aux.
  case_bool; rewrite len_cons; [rewrite len_nil; lia | specialize (IH (Z.shiftr w 7)); lia].
Qed.

Lemma len_secs_enc m : len (secs_enc m) <= 22.
Proof.
  unfold secs_enc, enc_scalar. rewrite len_app.
  pose proof (len_varint_le (u64 (seconds m))). pose proof (len_varint_le (u64 (nanos m))).
  repeat case_bool; rewrite ?len_cons; change (len (@nil byte)) with 0; lia.
Qed.

Lemma secs_tag m c s : secs_enc m = c :: s -> bz c = 0x8 \/ bz c = 0x10.
Proof.
  unfold secs_enc, enc_scalar. destruct (seconds m =? 0); cbn [app].
  - destruct (nanos m =? 0); [discriminate|]. intros E. injection E as <- _. now right.
  - intros E. injection E as <- _. now left.
Qed.

Lemma secs_reads m : - 2 ^ 63 <= seconds m < 2 ^ 63 -> - 2 ^ 31 <= nanos m < 2 ^ 31 ->
  secs_unmarshal (secs_enc m) = Ok (secs_total m).
Proof.
  intros Hs Hn. unfold secs_unmarshal. pose proof (len_secs_enc m).
  rewrite (proj2 (Z.ltb_lt _ _)) by lia.
  rewrite (reads_Unmarshal PbParams "Secs" secs_field secs_field_ok _ _ m); [reflexivity| |lia].
  pose proof secs_field_ok. eapply reads_conv.
  - eapply reads_app.
    { eapply reads_scalar with (W := i64); try reads_side. now apply i64_u64. }
    eapply reads_scalar with (W := i32); try reads_side. now apply i32_u64.
  - now destruct m.
Qed.

Lemma secs_unmarshal_safe d : safe (secs_unmarshal d) (fun _ => True).
Proof.
  unfold secs_unmarshal. case_bool; [|exact I]. zify_bools.
  eapply safe_bind; [apply Unmarshal_safe; [apply secs_field_ok | assumption] | intros; exact I].
Qed.

Lemma to_int_not_nil z : Z.to_int z <> Decimal.Pos Decimal.Nil /\ Z.to_int z <> Decimal.Neg Decimal.Nil.
Proof.
  destruct z as [|p|p]; split; try discriminate; intros E; injection E as E;
    now apply DecimalPos.Unsigned.to_uint_nonnil in E.
Qed.

Lemma int_text_roundtrip z : - 2 ^ 256 < z < 2 ^ 256 ->
  int_of_text (text_of_int (Some z)) = Ok (Some z).
Proof.
  intros Hz. unfold int_of_text, text_of_int. change (default 0 (Some z)) with z.
  destruct (to_int_not_nil z).
  rewrite String.string_of_list_byte_of_string, NilZero.isi, DecimalZ.of_to by assumption.
  now rewrite (proj2 (Z.ltb_lt _ _)) by lia.
Qed.

Lemma int_of_text_safe s : safe (int_of_text s) (fun _ => True).
Proof. unfold int_of_text. case_match; [case_bool|]; exact I. Qed.

#[local] Hint Resolve int_of_text_safe : pbsafe.

Lemma pbcoin_field_ok : field_ok pbcoin_field.
Proof. intros m fn wt d i Hi Hd. unfold pbcoin_field. solve_field_ok. Qed.

Lemma pbcoin_writes c : len (pbcoin_enc c) < 2 ^ 63 -> writes (pbcoin_writer c) (pbcoin_enc c).
Proof.
  unfold pbcoin_enc. intros Hl. enc_bounds. apply writes_seq.
  - apply writes_message; [lia|]. apply writes_fills_end, writes_copy.
  - apply writes_string. lia.
Qed.

Lemma pbcoin_reads c : coin_set c -> len (pbcoin_enc c) < 2 ^ 63 ->
  Unmarshal PbTx "Coin" pbcoin_field zero_coin (pbcoin_enc c) = Ok c.
Proof.
  intros (z & Ha & Hz) Hl. pose proof pbcoin_field_ok.
  apply reads_Unmarshal; [assumption| |assumption]. eapply reads_conv.
  - eapply reads_app; [eapply reads_string; reads_side|].
    eapply reads_message; try reads_side. cbn. rewrite Ha. now rewrite int_text_roundtrip.
  - destruct c. cbn in *. congruence.
Qed.

Lemma secs_of_duration_total d : secs_total (secs_of_duration d) = d.
Proof. unfold secs_total, secs_of_duration. cbn -[Z.quot Z.rem Z.pow]. pose proof (Z.quot_rem' d (10 ^ 9)). lia. Qed.

Lemma secs_of_time_total t : secs_total (secs_of_time t) = t.
Proof. unfold secs_total, secs_of_time. cbn -[Z.div Z.modulo Z.pow]. pose proof (Z.div_mod t (10 ^ 9)). lia. Qed.

#[export] Program Instance gogo_ok : GogoOk := {
  duration_enc d := secs_enc (secs_of_duration d);
  time_enc t := secs_enc (secs_of_time t);
  coin_enc := pbcoin_enc }.
Next Obligation. reflexivity. Qed.
Next Obligation. intros. apply secs_fills. Qed.
Next Obligation.
  intros d0 d Hd. cbn. rewrite secs_reads, secs_of_duration_total; [reflexivity| |]; cbn -[Z.quot Z.rem Z.pow].
  - pose proof (Z.quot_rem' d (10 ^ 9)). pose proof (Z.rem_bound_abs d (10 ^ 9)). lia.
  - pose proof (Z.rem_bound_abs d (10 ^ 9)). lia.
Qed.
Next Obligation. intros. apply secs_unmarshal_safe. Qed.
Next Obligation. intros d c s E. exact (secs_tag _ c s E). Qed.
Next Obligation. reflexivity. Qed.
Next Obligation. intros. apply secs_fills. Qed.
Next Obligation.
  intros t0 t Ht. unfold time_valid, zero_time in Ht. cbn.
  rewrite secs_reads, secs_of_time_total; [reflexivity| |]; cbn -[Z.div Z.modulo Z.pow].
  - pose proof (Z.div_mod t (10 ^ 9)). pose proof (Z.mod_pos_bound t (10 ^ 9)). lia.
  - pose proof (Z.mod_pos_bound t (10 ^ 9)). lia.
Qed.
Next Obligation. intros. apply secs_unmarshal_safe. Qed.
Next Obligation. reflexivity. Qed.
Next Obligation. intros c Hl. now apply writes_fills_end, pbcoin_writes. Qed.
Next Obligation. intros. now apply pbcoin_reads. Qed.
Next Obligation. intros. apply Unmarshal_safe; [apply pbcoin_field_ok | assumption]. Qed.

(** ** Coins, decimals and addresses *)

Definition is_letter (b : byte) : bool :=
  let z := bz b in ((65 <=? z) && (z <=? 90)) || ((97 <=? z) && (z <=? 122)).
Definition is_denom_char (b : byte) : bool :=
  let z := bz b in is_letter b || ((48 <=? z) && (z <=? 57)) || bool_decide (b ∈ str "/:._-").

(** [[a-zA-Z][a-zA-Z0-9/:._-]{2,127}]. *)
Definition denom_regexp (d : gostring) : bool :=
  match d with
  | [] => false
  | c :: d => is_letter c && forallb is_denom_char d && (2 <=? len d) && (len d <=? 127)
  end.

Definition coin_valid (c : Coin) : bool :=
  denom_regexp (Denom c) && match Amount c with Some z => 0 <=? z | None => false end.

Definition bounded (max z : Z) : res Z :=
  if Z.abs z <? max then Ok z else Panic (PMsg "Int overflow").

Definition bech32_prefix : gostring := str "cosmos1".

#[export] Instance sdk : SdkTypes := {
  ValidateDenom := denom_regexp;
  NewCoin d a :=
    let c := MkCoin d a in if coin_valid c then Ok c else Panic (PMsg "invalid coin");
  NewCoins cs :=
    let cs := List.filter (fun c => negb (bool_decide (Amount c = Some 0))) cs in
    if forallb coin_valid cs then Ok cs else Panic (PMsg "invalid coins");
  Coin_IsValid := coin_valid;
  Coin_IsZero c := match Amount c with Some z => Ok (z =? 0) | None => Panic PNilDeref end;
  Coin_Add a b :=
    if bool_decide (Denom a = Denom b) then
      match Amount a, Amount b with
      | Some x, Some y => z ← bounded maxInt (x + y); Ok (MkCoin (Denom a) (Some z))
      | _, _ => Panic PNilDeref
      end
    else Panic (PMsg "invalid coin denominations");
  Int_Sub a b :=
    match a, b with Some x, Some y => z ← bounded maxInt (x - y); Ok (Some z) | _, _ => Panic PNilDeref end;
  Int_GT a b := match a, b with Some x, Some y => Ok (y <? x) | _, _ => Panic PNilDeref end;
  Int_IsNegative a := match a with Some x => Ok (x <? 0) | None => Panic PNilDeref end;
  Dec := Z;
  LegacyNewDec n := n * precision;
  LegacyNewDecFromInt a := match a with Some z => Ok (z * precision) | None => Panic PNilDeref end;
  Dec_Mul a b := bounded maxDec (Z.quot (a * b) precision);
  Dec_Quo a b := if b =? 0 then Panic (PMsg "division by zero") else bounded maxDec (Z.quot (a * precision) b);
  Dec_TruncateInt d := z ← bounded maxInt (Z.quot d precision); Ok (Some z);
  AccAddressFromBech32 s :=
    if bool_decide (take 7 s = bech32_prefix) && (7 <? len s) && (len s <=? 262) then Ok (drop 7 s)
    else Err (ErrMsg "decoding bech32 failed");
  AccAddress_String a := bech32_prefix ++ a }.

Lemma bounded_ok max z : Z.abs z < max -> bounded max z = Ok z.
Proof. intros. unfold bounded. now rewrite (proj2 (Z.ltb_lt _ _)) by lia. Qed.

Lemma bounded_big max z : max <= Z.abs z -> exists p, bounded max z = Panic p.
Proof. intros. unfold bounded. rewrite (proj2 (Z.ltb_ge _ _)) by lia. eauto. Qed.

#[export] Program Instance sdk_ok : SdkTypesOk := { dec_val d := d }.
Next Obligation.
  intros d z Hd Hz. cbn in *. unfold coin_valid. cbn. now rewrite Hd, (proj2 (Z.leb_le _ _)) by lia.
Qed.
Next Obligation.
  intros d z Hz. cbn. unfold coin_valid. cbn. rewrite (proj2 (Z.leb_gt _ _)), andb_false_r by lia. eauto.
Qed.
Next Obligation. intros d. cbn. unfold coin_valid. cbn. rewrite andb_false_r. eauto. Qed.
Next Obligation. intros d a Hd. cbn in *. unfold coin_valid. cbn. rewrite Hd. eauto. Qed.
Next Obligation.
  intros d z Hd Hz. cbn in *. rewrite bool_decide_eq_false_2 by (injection; lia). cbn.
  unfold coin_valid. cbn. now rewrite Hd, (proj2 (Z.leb_le _ _)) by lia.
Qed.
Next Obligation. intros d. reflexivity. Qed.
Next Obligation.
  intros d z Hz. cbn. rewrite bool_decide_eq_false_2 by (injection; lia). cbn.
  unfold coin_valid. cbn. rewrite (proj2 (Z.leb_gt _ _)), andb_false_r by lia. eauto.
Qed.
Next Obligation.
  intros d z Hz Hd. cbn in *. rewrite bool_decide_eq_false_2 by congruence. cbn.
  unfold coin_valid. cbn. rewrite Hd. eauto.
Qed.
Next Obligation.
  intros d. cbn. rewrite bool_decide_eq_false_2 by discriminate. cbn.
  unfold coin_valid. cbn. rewrite !andb_false_r. eauto.
Qed.
Next Obligation.
  intros [d a]. cbn. unfold coin_valid. cbn. rewrite andb_true_iff. split.
  - intros [Hd Ha]. split; [assumption|]. destruct a as [z|]; [|discriminate]. zify_bools. eauto.
  - intros [Hd (z & -> & Hz)]. split; [assumption|]. now apply Z.leb_le.
Qed.
Next Obligation. reflexivity. Qed.
Next Obligation. eexists. reflexivity. Qed.
Next Obligation.
  intros d a b H. cbn. rewrite bool_decide_eq_true_2 by reflexivity. now rewrite bounded_ok.
Qed.
Next Obligation.
  intros d a b H. cbn. rewrite bool_decide_eq_true_2 by reflexivity.
  destruct (bounded_big _ _ H) as [p ->]. cbn. eauto.
Qed.
Next Obligation. intros a b H. cbn. now rewrite bounded_ok. Qed.
Next Obligation. intros a b H. cbn. destruct (bounded_big _ _ H) as [p ->]. cbn. eauto. Qed.
Next Obligation. reflexivity. Qed.
Next Obligation. reflexivity. Qed.
Next Obligation. reflexivity. Qed.
Next Obligation. intros z. cbn -[precision]. eauto. Qed.
Next Obligation.
  intros a b n H Hn. cbn -[precision maxDec Z.mul]. rewrite H, Z.quot_mul by (unfold precision; lia).
  rewrite bounded_ok by assumption. eauto.
Qed.
Next Obligation.
  intros a b n H Hn. cbn -[precision maxDec Z.mul]. rewrite H, Z.quot_mul by (unfold precision; lia).
  eauto using bounded_big.
Qed.
Next Obligation.
  intros a b n Hb H Hn. cbn -[precision maxDec Z.mul]. rewrite (proj2 (Z.eqb_neq _ _) Hb).
  rewrite H, Z.quot_mul, bounded_ok by assumption. eauto.
Qed.
Next Obligation.
  intros a b n Hb H Hn. cbn -[precision maxDec Z.mul]. rewrite (proj2 (Z.eqb_neq _ _) Hb).
  rewrite H, Z.quot_mul by assumption. eauto using bounded_big.
Qed.
Next Obligation. intros d H. cbn -[precision maxInt]. now rewrite bounded_ok. Qed.
Next Obligation.
  intros d H. cbn -[precision maxInt]. unfold bounded.
  rewrite (proj2 (Z.ltb_ge _ _)) by assumption. cbn. eauto.
Qed.
Next Obligation.
  intros a Ha. unfold addr_ok in Ha. cbn -[bech32_prefix len].
  rewrite bool_decide_eq_true_2 by reflexivity. rewrite len_app. change (len bech32_prefix) with 7.
  rewrite (proj2 (Z.ltb_lt _ _)), (proj2 (Z.leb_le _ _)) by lia. reflexivity.
Qed.
Next Obligation.
  intros s. cbn -[bech32_prefix len]. case_bool; [|exact I]. cbn. zify_bools.
  unfold addr_ok, len in *. rewrite length_drop. lia.
Qed.
Next Obligation. eexists. reflexivity. Qed.
Next Obligation.
  intros c s Hc. cbn -[bech32_prefix len]. rewrite bool_decide_eq_false_2; [eauto|].
  intros E. cbn in E. injection E as -> _. revert Hc. vm_compute. discriminate.
Qed.

(** ** The store: a finite map, iterated in byte order *)

Fixpoint bytes_leb (a b : bytes) : bool :=
  match a, b with
  | [], _ => true
  | _ :: _, [] => false
  | x :: a, y :: b => (bz x <? bz y) || ((bz x =? bz y) && bytes_leb a b)
  end.

Definition kv_le (x y : bytes * bytes) : Prop := bytes_leb x.1 y.1 = true.
#[local] Instance kv_le_dec : RelDecision kv_le.
Proof. intros x y. unfold kv_le. apply _. Defined.

#[export] Instance kvmap : KVStore (gmap bytes bytes) := {
  kv_get s k := s !! k;
  kv_set s k v := <[k := v]> s;
  kv_delete s k := delete k s;
  kv_entries s := merge_sort kv_le (map_to_list s) }.

#[export] Instance kvmap_ok : KVStoreOk (gmap bytes bytes).
Proof.
  split.
  - intros. apply lookup_insert_eq.
  - intros. now apply lookup_insert_ne.
  - intros. apply lookup_delete_eq.
  - intros. now apply lookup_delete_ne.
  - intros s k v. cbn. rewrite (merge_sort_Permutation kv_le). apply elem_of_map_to_list.
  - intros s. cbn. rewrite (merge_sort_Permutation kv_le). apply NoDup_fst_map_to_list.
Qed.

(** ** The bank: a ledger of balances

    [mods] lists the module accounts, with their permissions to mint and burn. *)

Abbreviation modules := (list (gostring * bool * bool)).

Record ledger (mods : modules) := Ledger {
  lbal : AccAddress -> gostring -> N;
  lsupply : gostring -> Z }.
Arguments Ledger {mods} lbal lsupply.
Arguments lbal {mods} l a d.
Arguments lsupply {mods} l d.

Section ledger.
Context {mods : modules}.
Implicit Types (b : ledger mods) (cs : Coins).

Definition module_entry (m : gostring) : option (bool * bool) :=
  match List.find (fun e => bool_decide (e.1.1 = m)) mods with
  | Some e => Some (e.1.2, e.2)
  | None => None
  end.
Definition is_module (m : gostring) : bool :=
  match module_entry m with Some _ => true | None => false end.
Definition module_addr (m : gostring) : AccAddress :=
  if is_module m then str "module/" ++ m else [].
Definition blocked_addr (a : AccAddress) : bool := bool_decide (a = str "blocked").
Definition zbal b a d : Z := Z.of_N (lbal b a d).

Definition zview : ledger_view (ledger mods) := LedgerView zbal lsupply zbal.

(** Every denomination of [cs] has an amount between 0 and its limit. *)
Definition within (limit : gostring -> Z) cs : bool :=
  forallb (fun c => let n := amount_of cs (Denom c) in (0 <=? n) && (n <=? limit (Denom c))) cs.

Definition transfer (from to : AccAddress) cs b : res unit * ledger mods :=
  if within (zbal b from) cs then
    (Ok tt, Ledger (fun a d => Z.to_N (zbal b a d - delta (bool_decide (a = from)) (amount_of cs d)
                                       + delta (bool_decide (a = to)) (amount_of cs d))) (lsupply b))
  else (Err (ErrMsg "insufficient funds"), b).

Definition issue (sign : Z) (at_ : AccAddress) cs b : ledger mods :=
  Ledger (fun a d => Z.to_N (zbal b a d + delta (bool_decide (a = at_)) (sign * amount_of cs d)))
         (fun d => lsupply b d + sign * amount_of cs d).

Definition no_module : gopanic := PMsg "module account does not exist".

#[export] Instance bank : BankKeeper (ledger mods) := {
  GetBalance b a d := NewCoin d (Some (zbal b a d));
  HasBalance b a c :=
    balance ← NewCoin (Denom c) (Some (zbal b a (Denom c)));
    match Amount c with Some z => Ok (z <=? zbal b a (Denom c)) | None => Panic PNilDeref end;
  SendCoinsFromAccountToModule a m cs b :=
    if is_module m then transfer a (module_addr m) cs b else (Panic no_module, b);
  SendCoinsFromModuleToAccount m a cs b :=
    if is_module m then
      if blocked_addr a then (Err (ErrMsg "not allowed to receive funds"), b)
      else transfer (module_addr m) a cs b
    else (Panic no_module, b);
  SendCoinsFromModuleToModule m m' cs b :=
    if is_module m && is_module m' then transfer (module_addr m) (module_addr m') cs b
    else (Panic no_module, b);
  MintCoins m cs b :=
    match module_entry m with
    | Some (true, _) =>
        if within (fun d => Z.max 0 (maxInt - 1 - lsupply b d)) cs then (Ok tt, issue 1 (module_addr m) cs b)
        else (Panic (PMsg "Int overflow"), b)
    | _ => (Panic no_module, b)
    end;
  BurnCoins m cs b :=
    match module_entry m with
    | Some (_, true) =>
        if within (zbal b (module_addr m)) cs
        then (Ok tt, issue (-1) (module_addr m) cs b)
        else (Err (ErrMsg "insufficient funds"), b)
    | _ => (Panic no_module, b)
    end;
  GetSupply b d := if denom_regexp d then Ok (MkCoin d (Some (lsupply b d))) else Panic (PMsg "invalid denom");
  HasSupply b d := negb (lsupply b d =? 0);
  GetModuleAddress := module_addr }.

Lemma amount_of_absent cs d : (forall c, In c cs -> Denom c <> d) -> amount_of cs d = 0.
Proof.
  induction cs as [|c cs IH]; intros Hc; [reflexivity|].
  unfold amount_of. cbn. fold (amount_of cs d).
  rewrite bool_decide_eq_false_2 by (apply Hc; now left).
  rewrite IH; [reflexivity|]. intros c' ?. apply Hc. now right.
Qed.

Lemma within_true limit cs d : within limit cs = true ->
  amount_of cs d = 0 \/ 0 <= amount_of cs d <= limit d.
Proof.
  unfold within. rewrite forallb_forall. intros H.
  destruct (decide (Exists (fun c => Denom c = d) cs)) as [E|E].
  - apply Exists_exists in E. destruct E as (c & Hc & <-). apply list_elem_of_In in Hc.
    specialize (H c Hc). cbn in H. zify_bools. lia.
  - left. apply amount_of_absent. intros c Hc Hd. apply E.
    apply Exists_exists. exists c. split; [now apply list_elem_of_In | assumption].
Qed.

Lemma within_intro limit cs : (forall d, 0 <= amount_of cs d <= limit d) -> within limit cs = true.
Proof.
  intros H. unfold within. apply forallb_forall. intros c _. specialize (H (Denom c)).
  cbn. rewrite !(proj2 (Z.leb_le _ _)) by lia. reflexivity.
Qed.

Lemma within_spec limit cs :
  (forall d, 0 <= limit d) -> within limit cs = true <-> forall d, 0 <= amount_of cs d <= limit d.
Proof.
  intros Hl. split; [|apply within_intro]. intros H d.
  destruct (within_true limit cs d H); [specialize (Hl d); lia | assumption].
Qed.

Lemma zbal_nonneg b a d : 0 <= zbal b a d.
Proof. unfold zbal. lia. Qed.

Lemma transfer_spec from to cs b : exists r b', transfer from to cs b = (r, b') /\
  safe r (fun _ => True) /\
  ((forall d, 0 <= amount_of cs d <= zbal b from d) -> r = Ok tt) /\
  (r = Ok tt -> (forall d, amount_of cs d <= zbal b from d) /\ moved zview b from to cs b') /\
  (forall e, r = Err e -> b' = b).
Proof.
  unfold transfer. pose proof (within_spec (zbal b from) cs (zbal_nonneg b from)) as W.
  destruct (within (zbal b from) cs).
  - do 2 eexists. split; [reflexivity|]. specialize (proj1 W eq_refl) as H.
    split; [exact I|]. split; [reflexivity|]. split; [|discriminate].
    intros _. split; [intros d; apply H|]. split; [|split; [reflexivity | now intros ? ?]].
    intros a d. unfold bal_, zview, zbal at 1. cbn. specialize (H d). rewrite Z2N.id; [reflexivity|].
    pose proof (zbal_nonneg b a d). unfold delta.
    destruct (decide (a = from)) as [->|]; [rewrite bool_decide_eq_true_2 by reflexivity|
      rewrite bool_decide_eq_false_2 by assumption]; destruct (bool_decide (_ = to)); lia.
  - do 2 eexists. split; [reflexivity|]. split; [exact I|].
    split; [intros H; apply W in H; discriminate|]. split; [discriminate | reflexivity].
Qed.

Lemma issue_spec sign at_ cs b :
  (forall d, 0 <= zbal b at_ d + sign * amount_of cs d) ->
  issued zview sign b at_ cs (issue sign at_ cs b).
Proof.
  intros H. split; [|split; [reflexivity | now intros ? ?]].
  intros a d. unfold bal_, zview, zbal at 1. cbn. rewrite Z2N.id; [reflexivity|].
  pose proof (zbal_nonneg b a d). unfold delta. case_bool; [|lia].
  apply bool_decide_eq_true in E. subst. apply H.
Qed.

Lemma module_addr_inj m m' :
  is_module m = true -> is_module m' = true -> module_addr m = module_addr m' -> m = m'.
Proof. unfold module_addr. intros -> ->. apply app_inv_head. Qed.

Definition mints (m : gostring) : bool := match module_entry m with Some (b, _) => b | None => false end.
Definition burns (m : gostring) : bool := match module_entry m with Some (_, b) => b | None => false end.

Lemma transfer_ok from to cs b b' : transfer from to cs b = (Ok tt, b') -> moved zview b from to cs b'.
Proof.
  intros E. destruct (transfer_spec from to cs b) as (r & b1 & T & _ & _ & M & _).
  rewrite E in T. injection T as <- <-. now apply M.
Qed.

Lemma transfer_fail from to cs b b' e : transfer from to cs b = (Err e, b') -> b' = b.
Proof.
  intros E. destruct (transfer_spec from to cs b) as (r & b1 & T & _ & _ & _ & M).
  rewrite E in T. injection T as <- <-. eauto.
Qed.

#[export] Program Instance bank_ok : BankKeeperOk (ledger mods) := {
  view := zview;
  blocked := blocked_addr;
  registered := is_module;
  may_mint := mints;
  may_burn := burns }.
Next Obligation. intros. apply zbal_nonneg. Qed.
Next Obligation. intros. cbn. pose proof (zbal_nonneg b a d). lia. Qed.
Next Obligation. intros b a d V. apply (NewCoin_ok d (zbal b a d) V (zbal_nonneg b a d)). Qed.
Next Obligation. intros b a d V. apply (NewCoin_denom d (Some (zbal b a d)) V). Qed.
Next Obligation. intros b d V. cbn in *. now rewrite V. Qed.
Next Obligation. intros b d V. cbn in *. rewrite V. eauto. Qed.
Next Obligation. reflexivity. Qed.
Next Obligation.
  intros b a d z V. unfold HasBalance, bank. cbn [Denom]. now rewrite (NewCoin_ok d (zbal b a d) V (zbal_nonneg b a d)).
Qed.
Next Obligation.
  intros b a d z V. unfold HasBalance, bank. cbn [Denom].
  destruct (NewCoin_denom d (Some (zbal b a d)) V) as [p ->]. now exists p.
Qed.
Next Obligation. intros b b' a m cs. cbn. case_bool; [apply transfer_ok | discriminate]. Qed.
Next Obligation. intros b b' a m cs e. cbn. case_bool; [|discriminate]. intros H _. eapply transfer_fail, H. Qed.
Next Obligation.
  intros b a m cs Hm. cbn. rewrite Hm.
  destruct (transfer_spec a (module_addr m) cs b) as (r & b' & T & S & O & M & _).
  exists r, b'. repeat split; try assumption. intros ->. now apply M.
Qed.
Next Obligation. intros b a m cs Hm. cbn. rewrite Hm. eauto. Qed.
Next Obligation.
  intros b b' m a cs. cbn. repeat case_bool; try discriminate. apply transfer_ok.
Qed.
Next Obligation.
  intros b b' m a cs e. cbn. repeat case_bool; try discriminate; intros H _.
  - congruence.
  - eapply transfer_fail, H.
Qed.
Next Obligation.
  intros b m a cs Hm. cbn. rewrite Hm. destruct (blocked_addr a).
  - do 2 eexists. repeat split; try discriminate. 
  - destruct (transfer_spec (module_addr m) a cs b) as (r & b' & T & S & O & M & _).
    exists r, b'. repeat split; try assumption; [auto|]. intros d. now apply M.
Qed.
Next Obligation. intros b b' m m' cs. cbn. case_bool; [apply transfer_ok | discriminate]. Qed.
Next Obligation.
  intros b m m' cs Hm Hm'. cbn. rewrite Hm, Hm'. cbn.
  destruct (transfer_spec (module_addr m) (module_addr m') cs b) as (r & b' & T & S & O & M & _).
  exists r, b'. repeat split; try assumption. intros ->. now apply M.
Qed.
Next Obligation.
  intros b b' m cs. cbn. destruct (module_entry m) as [[[] ?]|]; try discriminate.
  case_bool; [|discriminate]. intros H. injection H as <-. apply issue_spec. intros d.
  pose proof (zbal_nonneg b (module_addr m) d). destruct (within_true _ _ d E); lia.
Qed.
Next Obligation.
  intros b m cs Hm Hp H0 H. cbn -[maxInt] in *. unfold mints in Hp. destruct (module_entry m) as [[[] ?]|]; try discriminate.
  rewrite within_intro; [eauto|]. intros d. specialize (H0 d). specialize (H d). lia.
Qed.
Next Obligation.
  intros b b' m cs. cbn. destruct (module_entry m) as [[? []]|]; try discriminate.
  case_bool; [|discriminate]. intros H. injection H as <-. apply issue_spec. intros d.
  pose proof (zbal_nonneg b (module_addr m) d). destruct (within_true _ _ d E); lia.
Qed.
Next Obligation.
  intros b m cs Hm Hp. cbn in *. unfold burns in Hp. destruct (module_entry m) as [[? []]|]; try discriminate.
  pose proof (within_spec (zbal b (module_addr m)) cs (zbal_nonneg b (module_addr m))) as W.
  destruct (within _ cs).
  - do 2 eexists. repeat split. intros _ d. now apply W.
  - do 2 eexists. repeat split; [|discriminate]. intros H. apply W in H. discriminate.
Qed.
Next Obligation. reflexivity. Qed.
Next Obligation. intros. now apply module_addr_inj. Qed.
End ledger.

(** ** The codec *)

#[export] Instance codec : BinaryCodec := {
  cdc_Marshal A PM m := pm_Marshal m;
  cdc_Unmarshal A PM d m := pm_Unmarshal pm_Reset d }.

#[export] Instance codec_ok : BinaryCodecOk.
Proof. split; reflexivity. Qed.
