(* ===== verification/World.v ===== *)
(** * The state a handler runs on

    A handler reads and writes the module's store and the bank; an error or a
    panic leaves the writes made before it, which [BaseApp] discards for a
    transaction ([deliver]).  [M] threads that state and Go's three outcomes
    through the calls. *)

From S2P Require Import Prelude Sdk.

Record world (S B : Type) := World { kvs : S; bnk : B }.
Arguments World {S B} kvs bnk.
Arguments kvs {S B} w.
Arguments bnk {S B} w.

(** The parts of [sdk.Context] the module reads. *)
Record Context_ := MkContext { BlockTime : Time; ChainID : gostring }.

(** What the Go runtime of one node supplies: the wall clock, and the order in
    which [range] visits a map. *)
Record Runtime := MkRuntime {
  Now : Time;
  map_order : list (gostring * gostring) -> list (gostring * gostring);
  map_order_perm : forall m, map_order m ≡ₚ m }.

Definition M (S B A : Type) : Type := world S B -> res A * world S B.

#[export] Instance M_ret {S B} : MRet (M S B) := fun _ a w => (Ok a, w).
#[export] Instance M_bind {S B} : MBind (M S B) := fun _ _ k m w =>
  match m w with
  | (Ok a, w') => k a w'
  | (Err e, w') => (Err e, w')
  | (Panic p, w') => (Panic p, w')
  | (Fuel, w') => (Fuel, w')
  end.

Section operations.
Context {S B : Type}.

(** A computation without effects. *)
Definition lift {A} (r : res A) : M S B A := fun w => (r, w).

Definition get_kvs : M S B S := fun w => (Ok (kvs w), w).
Definition modify_kvs (f : S -> S) : M S B unit := fun w => (Ok tt, World (f (kvs w)) (bnk w)).

(** A query of the bank, one that may panic, and a bank operation. *)
Definition bank_get {A} (f : B -> A) : M S B A := fun w => (Ok (f (bnk w)), w).
Definition bank_query {A} (f : B -> res A) : M S B A := fun w => (f (bnk w), w).
Definition bank_op {A} (f : B -> res A * B) : M S B A := fun w =>
  let '(r, b) := f (bnk w) in (r, World (kvs w) b).

(** [if err := m; err != nil { h }; k]. *)
Definition on_err {A C} (m : M S B A) (h : goerror -> M S B C) (k : A -> M S B C) : M S B C := fun w =>
  match m w with
  | (Ok a, w') => k a w'
  | (Err e, w') => h e w'
  | (Panic p, w') => (Panic p, w')
  | (Fuel, w') => (Fuel, w')
  end.

(** [if err := m; err != nil { return nil, errorsmod.Wrap(s, msg) }]. *)
Definition wrap_err {A} (s : sentinel) (msg : string) (m : M S B A) : M S B A :=
  on_err m (fun _ => lift (Err (ErrWrap s msg))) mret.

(** A call whose error the code does not look at. *)
Definition ignore_err (m : M S B unit) : M S B unit := on_err m (fun _ => mret tt) mret.

(** A call whose error becomes a panic. *)
Definition must_do {A} (m : M S B A) : M S B A := on_err m (fun e => lift (Panic (PErr e))) mret.

(** A transaction of one message: its writes are kept only if it succeeds. *)
Definition deliver {A} (m : M S B A) (w : world S B) : res A * world S B :=
  match m w with
  | (Ok a, w') => (Ok a, w')
  | (r, _) => (r, w)
  end.
End operations.

(** ** Lemmas *)

Section lemmas.
Context {S B : Type}.
Implicit Types (w : world S B).

Lemma world_eta w : World (kvs w) (bnk w) = w.
Proof. now destruct w. Qed.

Lemma M_bind_ok {A C} (m : M S B A) (k : A -> M S B C) w a w' :
  m w = (Ok a, w') -> (m ≫= k) w = k a w'.
Proof. unfold mbind, M_bind. now intros ->. Qed.

Lemma M_bind_panic {A C} (m : M S B A) (k : A -> M S B C) w p w' :
  m w = (Panic p, w') -> (m ≫= k) w = (Panic p, w').
Proof. unfold mbind, M_bind. now intros ->. Qed.

Lemma M_bind_err {A C} (m : M S B A) (k : A -> M S B C) w e w' :
  m w = (Err e, w') -> (m ≫= k) w = (Err e, w').
Proof. unfold mbind, M_bind. now intros ->. Qed.

Lemma M_bind_inv {A C} (m : M S B A) (k : A -> M S B C) w c w' :
  (m ≫= k) w = (Ok c, w') -> exists a w1, m w = (Ok a, w1) /\ k a w1 = (Ok c, w').
Proof. unfold mbind, M_bind. destruct (m w) as [[a|e|p|] w1]; try discriminate. eauto. Qed.

Lemma lift_inv {A} (r : res A) w a w' : lift r w = (Ok a, w') -> r = Ok a /\ w' = w.
Proof. unfold lift. intros E. now injection E as -> <-. Qed.

Lemma bank_op_inv {A} (f : B -> res A * B) w r w' : bank_op f w = (r, w') ->
  f (bnk w) = (r, bnk w') /\ kvs w' = kvs w.
Proof. unfold bank_op. destruct (f (bnk w)) as [r0 b]. intros E. now injection E as -> <-. Qed.

Lemma bank_op_run {A} (f : B -> res A * B) w r b :
  f (bnk w) = (r, b) -> bank_op f w = (r, World (kvs w) b).
Proof. unfold bank_op. now intros ->. Qed.

Lemma wrap_err_inv {A} s msg (m : M S B A) w a w' :
  wrap_err s msg m w = (Ok a, w') -> m w = (Ok a, w').
Proof.
  unfold wrap_err, on_err, lift, mret, M_ret. destruct (m w) as [[?|?|?|] ?]; congruence.
Qed.

Lemma wrap_err_run {A} s msg (m : M S B A) w a w' :
  m w = (Ok a, w') -> wrap_err s msg m w = (Ok a, w').
Proof. unfold wrap_err, on_err. now intros ->. Qed.

Lemma ignore_err_inv (m : M S B unit) w u w' : ignore_err m w = (Ok u, w') ->
  m w = (Ok tt, w') \/ exists e, m w = (Err e, w').
Proof.
  unfold ignore_err, on_err, mret, M_ret. destruct (m w) as [[[]|e|?|] w1]; try discriminate.
  - intros E. injection E as <- <-. now left.
  - intros E. injection E as <- <-. eauto.
Qed.

(** Forward evaluation, one call at a time. *)
Lemma lift_bind {A C} (a : A) (k : A -> M S B C) w : (lift (Ok a) ≫= k) w = k a w.
Proof. reflexivity. Qed.

Lemma bank_get_bind {A C} (f : B -> A) (k : A -> M S B C) w : (bank_get f ≫= k) w = k (f (bnk w)) w.
Proof. reflexivity. Qed.

Lemma bank_query_bind {A C} (f : B -> res A) (k : A -> M S B C) w a :
  f (bnk w) = Ok a -> (bank_query f ≫= k) w = k a w.
Proof. intros E. apply M_bind_ok. unfold bank_query. now rewrite E. Qed.

Lemma bank_query_panic {A C} (f : B -> res A) (k : A -> M S B C) w p :
  f (bnk w) = Panic p -> (bank_query f ≫= k) w = (Panic p, w).
Proof. intros E. apply M_bind_panic. unfold bank_query. now rewrite E. Qed.

Lemma wrap_bank_bind {A C} s msg (f : B -> res A * B) (k : A -> M S B C) w a b :
  f (bnk w) = (Ok a, b) -> (wrap_err s msg (bank_op f) ≫= k) w = k a (World (kvs w) b).
Proof.
  intros E. unfold mbind, M_bind, wrap_err, on_err, bank_op. now rewrite E.
Qed.

Lemma ignore_bank_bind {C} (f : B -> res unit * B) (k : unit -> M S B C) w r b :
  f (bnk w) = (r, b) -> safe r (fun _ => True) ->
  (ignore_err (bank_op f) ≫= k) w = k tt (World (kvs w) b).
Proof.
  intros E Hr. unfold mbind, M_bind, ignore_err, on_err, bank_op. rewrite E.
  destruct r as [[]| | |]; try contradiction; reflexivity.
Qed.

Lemma deliver_inv {A} (m : M S B A) w a w' :
  deliver m w = (Ok a, w') -> m w = (Ok a, w').
Proof. unfold deliver. destruct (m w) as [[?|?|?|] ?]; congruence. Qed.

Lemma deliver_atomic {A} (m : M S B A) w r w' :
  deliver m w = (r, w') -> (exists a, r = Ok a /\ m w = (Ok a, w')) \/ w' = w.
Proof.
  unfold deliver. destruct (m w) as [[a|?|?|] w1]; intros E; injection E as <- <-; eauto.
Qed.
End lemmas.

(** ** Computations that change nothing *)

Section readonly.
Context {S B : Type}.

Definition readonly {A} (m : M S B A) : Prop := forall w, (m w).2 = w.

Lemma readonly_bind {A C} (m : M S B A) (k : A -> M S B C) :
  readonly m -> (forall a, readonly (k a)) -> readonly (m ≫= k).
Proof.
  intros Hm Hk w. unfold mbind, M_bind. specialize (Hm w).
  destruct (m w) as [[a|e|p|] w']; cbn in *; subst; try reflexivity. apply Hk.
Qed.

Lemma readonly_lift {A} (r : res A) : readonly (lift r).
Proof. now intros w. Qed.
Lemma readonly_ret {A} (a : A) : readonly (mret a).
Proof. now intros w. Qed.
Lemma readonly_get_kvs : readonly get_kvs.
Proof. now intros w. Qed.
Lemma readonly_bank_query {A} (f : B -> res A) : readonly (bank_query f).
Proof. intros w. reflexivity. Qed.
Lemma readonly_bank_get {A} (f : B -> A) : readonly (bank_get f).
Proof. now intros w. Qed.
Lemma readonly_on_err {A C} (m : M S B A) (h : goerror -> M S B C) k :
  readonly m -> (forall e, readonly (h e)) -> (forall a, readonly (k a)) -> readonly (on_err m h k).
Proof.
  intros Hm Hh Hk w. unfold on_err. specialize (Hm w).
  destruct (m w) as [[a|e|p|] w']; cbn in *; subst; try reflexivity; [apply Hk | apply Hh].
Qed.
End readonly.

#[export] Hint Resolve readonly_lift readonly_ret readonly_get_kvs readonly_bank_get readonly_bank_query : halborn.

(** One lemma per construct of the body. *)
Ltac solve_readonly :=
  repeat first [ apply readonly_bind | apply readonly_on_err | solve [auto with halborn]
               | progress intros | match goal with |- readonly (match ?x with _ => _ end) => destruct x end ].

(** Take a successful run [E] apart, one call at a time: [x] is the call's
    result and [R] its equation. *)
Tactic Notation "step" hyp(E) "as" ident(x) ident(w) ident(R) :=
  apply M_bind_inv in E; destruct E as (x & w & R & E).
Tactic Notation "pure" hyp(E) "as" ident(x) ident(R) :=
  apply M_bind_inv in E;
  let w := fresh in destruct E as (x & w & R & E); apply lift_inv in R; destruct R as [R ->].
Tactic Notation "bank" hyp(E) "as" ident(w) ident(R) ident(K) :=
  apply M_bind_inv in E;
  let x := fresh in destruct E as (x & w & R & E); destruct x; try apply wrap_err_inv in R;
  apply bank_op_inv in R; destruct R as [R K].
