(* ===== verification/Keeper.v ===== *)
(** * [x/hal/keeper]: parameters, tickets, redeem requests, block hooks

    [keeper.go], [params.go], [ticket.go] and [abci.go].  The store, the bank,
    the codec and the SDK types are the classes of [Sdk]; a keeper's own data
    is its authority address. *)

From S2P Require Import Prelude Wire Sdk PbParams PbTickets PbRedeemRequest Types World.

(** ** [time.Time.String] for times in UTC

    The format ["2006-01-02 15:04:05.999999999 -0700 MST"] the ticket keeper
    writes the block time with.  Block times are in UTC. *)

(** [width] decimal digits of [n], most significant first. *)
Fixpoint digits (width : nat) (n : Z) : gostring :=
  match width with
  | O => []
  | S width => digits width (n / 10) ++ [zb (48 + n mod 10)]
  end.

(** The proleptic Gregorian date of a number of days since the Unix epoch. *)
Definition civil (days : Z) : Z * Z * Z :=
  let z := days + 719468 in
  let era := z / 146097 in
  let doe := z mod 146097 in
  let yoe := (doe - doe / 1460 + doe / 36524 - doe / 146096) / 365 in
  let doy := doe - (365 * yoe + yoe / 4 - yoe / 100) in
  let mp := (5 * doy + 2) / 153 in
  let day := doy - (153 * mp + 2) / 5 + 1 in
  let month := if mp <? 10 then mp + 3 else mp - 9 in
  (yoe + era * 400 + (if month <=? 2 then 1 else 0), month, day).

(** Fraction of a second: up to nine digits without trailing zeros. *)
Fixpoint trim_zeros (s : gostring) : gostring :=
  match s with
  | [] => []
  | b :: s =>
      match trim_zeros s with
      | [] => if bz b =? 48 then [] else [b]
      | t => b :: t
      end
  end.

Definition fraction (ns : Z) : gostring :=
  match trim_zeros (digits 9 ns) with [] => [] | s => str "." ++ s end.

Definition Time_String (t : Z) : gostring :=
  let sec := t / 10 ^ 9 in
  let '(year, month, day) := civil (sec / 86400) in
  let s := sec mod 86400 in
  (if year <? 0 then str "-" ++ digits 4 (- year) else digits 4 year) ++ str "-" ++
  digits 2 month ++ str "-" ++ digits 2 day ++ str " " ++
  digits 2 (s / 3600) ++ str ":" ++ digits 2 (s / 60 mod 60) ++ str ":" ++ digits 2 (s mod 60) ++
  fraction (t mod 10 ^ 9) ++ str " +0000 UTC".

Example Time_String_epoch : Time_String 0 = str "1970-01-01 00:00:00 +0000 UTC".
Proof. vm_compute. reflexivity. Qed.
Example Time_String_zero : Time_String (-62135596800 * 10 ^ 9) = str "0001-01-01 00:00:00 +0000 UTC".
Proof. vm_compute. reflexivity. Qed.
Example Time_String_leap :
  Time_String (1709210096 * 10 ^ 9 + 120000000) = str "2024-02-29 12:34:56.12 +0000 UTC".
Proof. vm_compute. reflexivity. Qed.

#[export] Instance Params_pm `{Gogo} : ProtoMarshaler Params :=
  {| pm_Reset := Params_Reset; pm_Marshal := Params_Marshal; pm_Unmarshal := Params_Unmarshal |}.
#[export] Instance Ticket_pm : ProtoMarshaler Ticket :=
  {| pm_Reset := Ticket_Reset; pm_Marshal := Ticket_Marshal; pm_Unmarshal := Ticket_Unmarshal |}.
#[export] Instance RedeemRequest_pm `{Gogo} : ProtoMarshaler RedeemRequest :=
  {| pm_Reset := RedeemRequest_Reset; pm_Marshal := RedeemRequest_Marshal;
     pm_Unmarshal := RedeemRequest_Unmarshal |}.

(** The keeper's fields other than the codec, the store, the logger and the
    keepers it calls. *)
Record Keeper := MkKeeper { authority : gostring }.

Section keeper.
Context {S B : Type} `{KVStore S} `{BankKeeper B} `{Gogo} `{SdkTypes} `{BinaryCodec}.
Abbreviation M := (M S B).

(** ** [keeper.go] *)

Definition NewKeeper (auth : gostring) : res Keeper :=
  match AccAddressFromBech32 auth with
  | Ok _ => Ok (MkKeeper auth)
  | Err _ => Panic (PMsg "invalid authority address: %s")
  | Panic p => Panic p
  | Fuel => Fuel
  end.

Definition GetAuthority (k : Keeper) : gostring := authority k.

Definition redeem_key (account : gostring) : bytes := RedeemRequestKeyPrefix ++ account.

Definition SetRedeemRequest (request : RedeemRequest) : M unit :=
  bz ← lift (cdc_MustMarshal request);
  modify_kvs (fun s => kv_set s (redeem_key (RedeemRequest_Account request)) bz).

(** The loop of [GetAllRedeemRequests]: a value that does not unmarshal is skipped. *)
Fixpoint collect_requests (entries : list (bytes * bytes)) : res (list RedeemRequest) :=
  match entries with
  | [] => Ok []
  | (_, rawValue) :: entries =>
      match cdc_Unmarshal rawValue RedeemRequest_Reset with
      | Ok request => requests ← collect_requests entries; Ok (request :: requests)
      | Err _ => collect_requests entries
      | Panic p => Panic p
      | Fuel => Fuel
      end
  end.

Definition GetAllRedeemRequests : M (list RedeemRequest) :=
  s ← get_kvs; lift (collect_requests (kv_entries s)).

Definition DeleteRedeemRequest (account : gostring) : M unit :=
  modify_kvs (fun s => kv_delete s (redeem_key account)).

(** The body of the loop of [EndRedeeming]; [continue] is [mret tt]. *)
Definition end_redeeming_one (ctx : Context_) (req : RedeemRequest) : M unit :=
  if RedeemRequest_Completiontime req <? BlockTime ctx then
    on_err (lift (AccAddressFromBech32 (RedeemRequest_Account req))) (fun _ => mret tt) (fun accAddr =>
    balanceBefore ← bank_query (fun b => GetBalance b accAddr (Denom (RedeemRequest_Collateral req)));
    coins ← lift (NewCoins [RedeemRequest_Collateral req]);
    on_err (bank_op (SendCoinsFromModuleToAccount RedeemPoolName accAddr coins)) (fun _ => mret tt) (fun _ =>
    balanceAfter ← bank_query (fun b => GetBalance b accAddr (Denom (RedeemRequest_Collateral req)));
    greater ← lift (Int_GT (Amount balanceAfter) (Amount balanceBefore));
    if negb greater then lift (Panic (PMsg "User balance did not increase after the transfer. Balance before: %s, Balance after: %s"))
    else DeleteRedeemRequest (RedeemRequest_Account req)))
  else mret tt.

Fixpoint end_redeeming_loop (ctx : Context_) (reqs : list RedeemRequest) : M unit :=
  match reqs with
  | [] => mret tt
  | req :: reqs => _ ← end_redeeming_one ctx req; end_redeeming_loop ctx reqs
  end.

Definition EndRedeeming (ctx : Context_) : M unit :=
  redeemRequests ← GetAllRedeemRequests;
  end_redeeming_loop ctx redeemRequests.

(** ** [params.go] *)

Definition GetParams : M Params :=
  s ← get_kvs;
  match kv_get s ParamsKey with
  | None => mret Params_Reset
  | Some bz => lift (cdc_MustUnmarshal bz Params_Reset)
  end.

Definition SetParams (params : Params) : M unit :=
  bz ← lift (cdc_Marshal params);
  modify_kvs (fun s => kv_set s ParamsKey bz).

(** ** [InvariantCheck] *)

Definition InvariantCheck : M unit :=
  params ← GetParams;
  let collateralDenom := TokenMeta_Denom (CollateralMetas params) in
  let halDenom := TokenMeta_Denom (HalMeta params) in
  has ← bank_get (fun b => HasSupply b halDenom);
  if negb has then mret tt else
  collateralPoolBalance ← bank_query (fun b => GetBalance b (GetModuleAddress CollateralPoolName) collateralDenom);
  redeemPoolBalance ← bank_query (fun b => GetBalance b (GetModuleAddress RedeemPoolName) collateralDenom);
  poolBalance ← lift (Coin_Add collateralPoolBalance redeemPoolBalance);
  collateralAmountDec ← lift (LegacyNewDecFromInt (Amount poolBalance));
  let exchangeRate := LegacyNewDec 2 in
  mintableHalAmountDec ← lift (Dec_Mul collateralAmountDec exchangeRate);
  halSupply ← bank_query (fun b => GetSupply b halDenom);
  mintable ← lift (Dec_TruncateInt mintableHalAmountDec);
  result ← lift (Int_Sub (Amount halSupply) mintable);
  negative ← lift (Int_IsNegative result);
  if (negative : bool)
  then lift (Panic (PMsg "invariant check failed: total HAL supply is less than the calculated amount from collateral"))
  else mret tt.

(** ** [ticket.go] *)

Definition GetTicketCount : M Z :=
  s ← get_kvs;
  match kv_get s (KeyPrefix TicketKeyCounter) with
  | None => mret 0
  | Some bz => lift (Uint64 bz)
  end.

Definition SetTicketCounter (count : Z) : M unit :=
  modify_kvs (fun s => kv_set s (KeyPrefix TicketKeyCounter) (PutUint64 count)).

(** The metadata map of [AppendTicket] and the text its loop appends. *)
Definition ticket_metadata (ctx : Context_) : list (gostring * gostring) :=
  [ (str "status", str "Creater");
    (str "timestamp", Time_String (BlockTime ctx));
    (str "chain ID", ChainID ctx) ].

Definition append_info (additionalInfo : gostring) (e : gostring * gostring) : gostring :=
  additionalInfo ++ [x0a] ++ e.1 ++ str ": " ++ e.2.

(** The key of ticket [id] in the prefix store of [TicketKey]. *)
Definition ticket_key (id : Z) : bytes := KeyPrefix TicketKey ++ PutUint64 id.

(** The ticket as [AppendTicket] stores it. *)
Definition stamp_ticket (rt : Runtime) (ctx : Context_) (count : Z) (post : Ticket) : Ticket :=
  MkTicket (Ticket_Author post) (Ticket_Issue post) count
    (foldl append_info (Ticket_AdditionalInfo post) (map_order rt (ticket_metadata ctx))).

Definition AppendTicket (rt : Runtime) (ctx : Context_) (post : Ticket) : M Z :=
  count ← GetTicketCount;
  let post := stamp_ticket rt ctx count post in
  appendedValue ← lift (cdc_MustMarshal post);
  _ ← modify_kvs (fun s => kv_set s (ticket_key (Ticket_Id post)) appendedValue);
  _ ← SetTicketCounter (u64 (count + 1));
  mret count.

(** ** [abci.go] *)

Definition EndBlocker (ctx : Context_) : M unit := _ ← EndRedeeming ctx; mret tt.
Definition BeginBlocker (ctx : Context_) : M unit := _ ← ignore_err InvariantCheck; mret tt.
End keeper.
