(* ===== verification/MsgServer.v ===== *)
(** * [x/hal/keeper]: the message server and the query server

    [msg_server_mint_hal.go], [msg_server_redeem_collateral.go],
    [msg_server_create_ticket.go], [msg_update_params.go] and
    [query_params.go]; genesis import and export of [x/hal/module/genesis.go]. *)

From S2P Require Import Prelude Wire Sdk PbParams PbTickets PbRedeemRequest PbGenesis PbQuery PbTx Types World Keeper.

Section msg_server.
Context {S B : Type} `{KVStore S} `{BankKeeper B} `{Gogo} `{SdkTypes} `{BinaryCodec}.
Abbreviation M := (M S B).

Definition MintHal (msg : MsgMintHal) : M MsgMintHalResponse :=
  accAddr ← lift (creator_address (MsgMintHal_Creator msg));
  zero ← lift (if negb (Coin_IsValid (MsgMintHal_CollateralAmount msg))
               then Coin_IsZero (MsgMintHal_CollateralAmount msg) else Ok false);
  if (zero : bool) then lift (Err (ErrWrap ErrInvalidRequest "collateral amount is invalid or zero")) else
  params ← GetParams;
  let collateralDenom := TokenMeta_Denom (CollateralMetas params) in
  if negb (bool_decide (Denom (MsgMintHal_CollateralAmount msg) = collateralDenom))
  then lift (Err (ErrWrap ErrInvalidRequest "collateral denom mismatch: expected %s, got %s")) else
  let exchangeRate := LegacyNewDec 2 in
  collateralAmount ← lift (LegacyNewDecFromInt (Amount (MsgMintHal_CollateralAmount msg)));
  product ← lift (Dec_Mul collateralAmount exchangeRate);
  mintedHalAmount ← lift (Dec_TruncateInt product);
  let halDenom := TokenMeta_Denom (HalMeta params) in
  mintedHalCoin ← lift (NewCoin halDenom mintedHalAmount);
  coins ← lift (NewCoins [mintedHalCoin]);
  _ ← wrap_err ErrInsufficientFunds "failed to mint HAL coins"
        (bank_op (MintCoins CollateralPoolName coins));
  coins ← lift (NewCoins [mintedHalCoin]);
  _ ← wrap_err ErrInsufficientFunds "failed to send minted HAL coins to creator"
        (bank_op (SendCoinsFromModuleToAccount CollateralPoolName accAddr coins));
  coins ← lift (NewCoins [MsgMintHal_CollateralAmount msg]);
  _ ← ignore_err (bank_op (SendCoinsFromAccountToModule accAddr CollateralPoolName coins));
  mret (MkMsgMintHalResponse mintedHalCoin).

Definition RedeemCollateral (rt : Runtime) (msg : MsgRedeemCollateral) : M MsgRedeemCollateralResponse :=
  accAddr ← lift (creator_address (MsgRedeemCollateral_Creator msg));
  if negb (Coin_IsValid (MsgRedeemCollateral_HalAmount msg))
  then lift (Err (ErrWrap ErrInvalidRequest "HAL amount is invalid")) else
  params ← GetParams;
  let halDenom := TokenMeta_Denom (HalMeta params) in
  halCoin ← lift (NewCoin halDenom (Amount (MsgRedeemCollateral_HalAmount msg)));
  coins ← lift (NewCoins [halCoin]);
  _ ← ignore_err (bank_op (SendCoinsFromAccountToModule accAddr CollateralPoolName coins));
  coins ← lift (NewCoins [halCoin]);
  _ ← wrap_err ErrUnauthorized "failed to burn HAL coins" (bank_op (BurnCoins CollateralPoolName coins));
  let exchangeRate := LegacyNewDec 2 in
  halAmount ← lift (LegacyNewDecFromInt (Amount (MsgRedeemCollateral_HalAmount msg)));
  quotient ← lift (Dec_Quo halAmount exchangeRate);
  redeemedCollateralAmount ← lift (Dec_TruncateInt quotient);
  let collateralDenom := TokenMeta_Denom (CollateralMetas params) in
  redeemedCollateralCoin ← lift (NewCoin collateralDenom redeemedCollateralAmount);
  coins ← lift (NewCoins [redeemedCollateralCoin]);
  _ ← wrap_err ErrInsufficientFunds "failed to transfer collateral tokens to redeem pool"
        (bank_op (SendCoinsFromModuleToModule CollateralPoolName RedeemPoolName coins));
  params' ← GetParams;
  let completionTime := Now rt + RedeemDur params' in
  _ ← SetRedeemRequest (MkRedeemRequest (AccAddress_String accAddr) redeemedCollateralCoin completionTime);
  mret (MkMsgRedeemCollateralResponse halCoin completionTime).

Definition CreateTicket (rt : Runtime) (ctx : Context_) (msg : MsgCreateTicket) : M MsgCreateTicketResponse :=
  accAddr ← lift (creator_address (MsgCreateTicket_Creator msg));
  let halCost := u64 (len (MsgCreateTicket_Issue msg)) in
  params ← GetParams;
  let halDenom := TokenMeta_Denom (HalMeta params) in
  halCoin ← lift (NewCoin halDenom (Some halCost));
  has ← bank_query (fun b => HasBalance b accAddr halCoin);
  if negb has then lift (Err (ErrWrap ErrInsufficientFunds "insufficient HAL tokens")) else
  coins ← lift (NewCoins [halCoin]);
  _ ← wrap_err ErrInsufficientFunds "failed to deduct HAL tokens"
        (bank_op (SendCoinsFromAccountToModule accAddr TreasuryKey coins));
  let ticket := MkTicket (MsgCreateTicket_Author msg) (MsgCreateTicket_Issue msg) 0 [] in
  id ← AppendTicket rt ctx ticket;
  mret (MkMsgCreateTicketResponse id).

Definition UpdateParams (k : Keeper) (req : MsgUpdateParams) : M MsgUpdateParamsResponse :=
  if negb (bool_decide (GetAuthority k = MsgUpdateParams_Authority req))
  then lift (Err (ErrWrap ErrInvalidSigner "invalid authority; expected %s, got %s")) else
  _ ← SetParams (MsgUpdateParams_Params req);
  mret MkMsgUpdateParamsResponse.

(** The query; a nil request is [None]. *)
Definition Params_query (req : option QueryParamsRequest) : M QueryParamsResponse :=
  match req with
  | None => lift (Err (ErrWrap ErrGrpcInvalidArgument "invalid request"))
  | Some _ => params ← GetParams; mret (MkQueryParamsResponse params)
  end.

(** ** [x/hal/module/genesis.go] *)

Definition InitGenesis (genState : GenesisState) : M unit :=
  must_do (SetParams (GenesisState_Params genState)).

Definition ExportGenesis : M GenesisState :=
  let genesis := DefaultGenesis in
  params ← GetParams;
  mret (MkGenesisState params).
End msg_server.
