(* ===== verification/Store.v ===== *)
(** * What the module's store holds

    [hal] is the module's state as data: parameters, the list of tickets and
    the redeem requests by account.  [entry a k v] says that state [a] is
    stored with [v] under key [k], and [refines a s] that the store [s] holds
    the entries of [a] and nothing else.  Every keeper operation on a store
    that refines [a] has the effect of an operation on [a]. *)

From S2P Require Import Prelude Wire Sdk PbParams PbTickets PbRedeemRequest Types World Keeper.

Lemma elem_of_option_list {A} (o : option A) x : x ∈ option_list o <-> o = Some x.
Proof.
  destruct o as [y|]; cbn.
  - rewrite list_elem_of_singleton. split; congruence.
  - split; [intros E; now apply not_elem_of_nil in E | discriminate].
Qed.

(** ** Keys *)

Lemma ticket_key_inj i j : 0 <= i < 2 ^ 64 -> 0 <= j < 2 ^ 64 -> ticket_key i = ticket_key j -> i = j.
Proof.
  intros Hi Hj E. apply app_inv_head in E.
  pose proof (Uint64_PutUint64 i [] Hi) as A. pose proof (Uint64_PutUint64 j [] Hj) as C.
  rewrite E in A. congruence.
Qed.

(** The one ticket number whose key is the key of the counter. *)
Definition counter_collision : Z := 0x5f636f756e746572.

Lemma ticket_key_counter i : 0 <= i < 2 ^ 64 ->
  ticket_key i = KeyPrefix TicketKeyCounter <-> i = counter_collision.
Proof.
  intros Hi. split; [|intros ->; reflexivity].
  replace (KeyPrefix TicketKeyCounter) with (ticket_key counter_collision) by reflexivity.
  apply ticket_key_inj; [assumption | unfold counter_collision; lia].
Qed.

Lemma redeem_key_inj a b : redeem_key a = redeem_key b -> a = b.
Proof. apply app_inv_head. Qed.

Lemma PutUint64_inj i j : 0 <= i < 2 ^ 64 -> 0 <= j < 2 ^ 64 -> PutUint64 i = PutUint64 j -> i = j.
Proof. intros Hi Hj E. apply ticket_key_inj; [assumption..|]. unfold ticket_key. now f_equal. Qed.

(** The first byte of a small counter is 0. *)
Lemma PutUint64_small n : 0 <= n < 2 ^ 56 -> exists e, PutUint64 n = x00 :: e.
Proof.
  intros Hn. unfold PutUint64. cbn [map]. rewrite Z.shiftr_div_pow2, Z.div_small by lia. eauto.
Qed.

(** ** The abstract state *)

Record hal := Hal {
  h_params : option Params;
  h_tickets : list Ticket;
  h_requests : gmap gostring RedeemRequest }.

Definition hal_empty : hal := Hal None [] ∅.
Definition set_params (p : Params) (a : hal) : hal := Hal (Some p) (h_tickets a) (h_requests a).
Definition push_ticket (t : Ticket) (a : hal) : hal := Hal (h_params a) (h_tickets a ++ [t]) (h_requests a).
Definition put_request (r : RedeemRequest) (a : hal) : hal :=
  Hal (h_params a) (h_tickets a) (<[RedeemRequest_Account r := r]> (h_requests a)).
Definition drop_request (account : gostring) (a : hal) : hal :=
  Hal (h_params a) (h_tickets a) (delete account (h_requests a)).

(** A request replaces the one of the same account. *)
Lemma put_request_twice r r' a : RedeemRequest_Account r = RedeemRequest_Account r' ->
  put_request r' (put_request r a) = put_request r' a.
Proof. intros E. unfold put_request. cbn. now rewrite E, insert_insert_eq. Qed.

(** The parameters a handler sees. *)
Definition params_of (a : hal) : Params := default Params_Reset (h_params a).
Definition hal_denom (a : hal) : gostring := TokenMeta_Denom (HalMeta (params_of a)).
Definition collateral_denom (a : hal) : gostring := TokenMeta_Denom (CollateralMetas (params_of a)).

(** Ticket numbers below this bound keep the keys apart. *)
Definition ticket_limit : Z := 2 ^ 56.

Section store.
Context {S B : Type} `{KVStoreOk S} `{GogoOk} `{BinaryCodecOk}.
Implicit Types (a : hal) (s : S) (w : world S B).

(** Values that marshal, and whose encodings read back. *)
Definition Params_ok (p : Params) : Prop := Params_wf p /\ len (Params_enc p) < 2 ^ 63.
Definition Ticket_ok (t : Ticket) : Prop := Ticket_wf t /\ len (Ticket_enc t) < 2 ^ 63.
Definition RedeemRequest_ok (r : RedeemRequest) : Prop :=
  RedeemRequest_wf r /\ len (RedeemRequest_enc r) < 2 ^ 63.

Record hal_ok a : Prop := {
  ok_params p : h_params a = Some p -> Params_ok p;
  ok_ticket i t : h_tickets a !! i = Some t -> Ticket_ok t /\ Ticket_Id t = Z.of_nat i;
  ok_limit : len (h_tickets a) < ticket_limit;
  ok_request account r : h_requests a !! account = Some r ->
    RedeemRequest_ok r /\ RedeemRequest_Account r = account }.

Inductive entry a : bytes -> bytes -> Prop :=
| entry_params p : h_params a = Some p -> entry a ParamsKey (Params_enc p)
| entry_counter : h_tickets a <> [] ->
    entry a (KeyPrefix TicketKeyCounter) (PutUint64 (len (h_tickets a)))
| entry_ticket i t : h_tickets a !! i = Some t -> entry a (ticket_key (Z.of_nat i)) (Ticket_enc t)
| entry_request account r : h_requests a !! account = Some r ->
    entry a (redeem_key account) (RedeemRequest_enc r).

Definition refines a s : Prop := hal_ok a /\ forall k v, kv_get s k = Some v <-> entry a k v.

Lemma entry_inv a k v : entry a k v ->
  (k = ParamsKey /\ exists p, h_params a = Some p /\ v = Params_enc p) \/
  (k = KeyPrefix TicketKeyCounter /\ h_tickets a <> [] /\ v = PutUint64 (len (h_tickets a))) \/
  (exists i t, k = ticket_key (Z.of_nat i) /\ h_tickets a !! i = Some t /\ v = Ticket_enc t) \/
  (exists account r, k = redeem_key account /\ h_requests a !! account = Some r /\ v = RedeemRequest_enc r).
Proof. destruct 1; eauto 12. Qed.

Ltac entry_cases H :=
  apply entry_inv in H;
  let K := fresh "K" in let p := fresh "p" in let i := fresh "i" in let t := fresh "t" in
  let account := fresh "account" in let r := fresh "r" in let L := fresh "L" in
  destruct H as [(K & p & L & ->)|[(K & L & ->)|[(i & t & K & L & ->)|(account & r & K & L & ->)]]].

(** ** Reading the store *)

Lemma lookup_lt_limit a i t : hal_ok a -> h_tickets a !! i = Some t -> 0 <= Z.of_nat i < ticket_limit.
Proof.
  intros Ha Hi. apply lookup_lt_Some in Hi. pose proof (ok_limit a Ha). unfold len in *. lia.
Qed.

Lemma refines_none a s k : refines a s -> (forall v, ~ entry a k v) -> kv_get s k = None.
Proof.
  intros [_ R] E. destruct (kv_get s k) as [v|] eqn:Ek; [|reflexivity].
  apply R in Ek. destruct (E v Ek).
Qed.

Lemma ticket_key_not_counter i : 0 <= i < ticket_limit -> ticket_key i <> KeyPrefix TicketKeyCounter.
Proof.
  unfold ticket_limit. intros Hi E. apply ticket_key_counter in E; [|lia]. unfold counter_collision in E. lia.
Qed.
(** ** Writing the store *)

Lemma refines_set a a' s k v : refines a s -> hal_ok a' ->
  (forall v', entry a' k v' <-> v' = v) ->
  (forall k' v', k' <> k -> entry a' k' v' <-> entry a k' v') -> refines a' (kv_set s k v).
Proof.
  intros [_ R] Ha Hk Hn. split; [assumption|]. intros k' v'. destruct (decide (k' = k)) as [->|N].
  - rewrite kv_get_set, Hk. split; congruence.
  - rewrite kv_get_set_ne, Hn by congruence. apply R.
Qed.

Lemma refines_delete a a' s k : refines a s -> hal_ok a' ->
  (forall v', ~ entry a' k v') ->
  (forall k' v', k' <> k -> entry a' k' v' <-> entry a k' v') -> refines a' (kv_delete s k).
Proof.
  intros [_ R] Ha Hk Hn. split; [assumption|]. intros k' v'. destruct (decide (k' = k)) as [->|N].
  - rewrite kv_get_delete. split; [discriminate | intros E; destruct (Hk v' E)].
  - rewrite kv_get_delete_ne, Hn by congruence. apply R.
Qed.

(** Contradictions between keys of different kinds. *)
Ltac key_clash :=
  solve [ discriminate | congruence
        | match goal with
          | E : _ = KeyPrefix TicketKeyCounter |- _ =>
              exfalso; revert E; apply ticket_key_not_counter; eauto using lookup_lt_limit
          | E : KeyPrefix TicketKeyCounter = _ |- _ =>
              exfalso; symmetry in E; revert E; apply ticket_key_not_counter; eauto using lookup_lt_limit
          end ].

Lemma refines_set_params a s p : refines a s -> Params_ok p ->
  refines (set_params p a) (kv_set s ParamsKey (Params_enc p)).
Proof.
  intros Ha Hp. pose proof (proj1 Ha) as Hok. apply refines_set with a; [assumption| | |].
  - destruct Hok. split; cbn; try assumption. congruence.
  - intros v'. split; [|intros ->; now constructor].
    intros E. entry_cases E; try discriminate. cbn in *. congruence.
  - intros k' v' N. split; intros E; entry_cases E; subst; cbn in *; try congruence; now constructor.
Qed.

Lemma refines_put_request a s r : refines a s -> RedeemRequest_ok r ->
  refines (put_request r a) (kv_set s (redeem_key (RedeemRequest_Account r)) (RedeemRequest_enc r)).
Proof.
  intros Ha Hr. pose proof (proj1 Ha) as Hok. apply refines_set with a; [assumption| | |].
  - destruct Hok. split; cbn; try assumption. intros account r'.
    rewrite lookup_insert. case_decide; [|auto]. intros E. injection E as <-. auto.
  - intros v'. split; [|intros ->; constructor; apply lookup_insert_eq].
    intros E. entry_cases E; try discriminate. apply redeem_key_inj in K. subst.
    cbn in L. rewrite lookup_insert_eq in L. congruence.
  - intros k' v' N. split; intros E; entry_cases E; subst; cbn in *; try now constructor.
    all: constructor; cbn; rewrite lookup_insert_ne in * by congruence; assumption.
Qed.

Lemma refines_drop_request a s account : refines a s ->
  refines (drop_request account a) (kv_delete s (redeem_key account)).
Proof.
  intros Ha. pose proof (proj1 Ha) as Hok. apply refines_delete with a; [assumption| | |].
  - destruct Hok. split; cbn; try assumption. intros account' r'.
    rewrite lookup_delete_Some. intros [_ L]. auto.
  - intros v' E. entry_cases E; try discriminate. apply redeem_key_inj in K. subst.
    cbn in L. now rewrite lookup_delete_eq in L.
  - intros k' v' N. split; intros E; entry_cases E; subst; cbn in *; try now constructor.
    all: constructor; cbn; rewrite lookup_delete_ne in * by congruence; assumption.
Qed.

Lemma refines_push_ticket a s t : refines a s -> Ticket_ok t -> Ticket_Id t = len (h_tickets a) ->
  len (h_tickets a) + 1 < ticket_limit ->
  refines (push_ticket t a)
    (kv_set (kv_set s (ticket_key (len (h_tickets a))) (Ticket_enc t))
       (KeyPrefix TicketKeyCounter) (PutUint64 (len (h_tickets a) + 1))).
Proof.
  intros [Hok R] Ht Hid Hlim. set (n := len (h_tickets a)) in *.
  assert (0 <= n) by apply len_nonneg.
  assert (Hlen : len (h_tickets (push_ticket t a)) = n + 1) by (cbn; now rewrite len_app).
  assert (Hne : ticket_key n <> KeyPrefix TicketKeyCounter) by (apply ticket_key_not_counter; lia).
  assert (Hlast : (h_tickets a ++ [t]) !! length (h_tickets a) = Some t)
    by (now rewrite lookup_app_r, Nat.sub_diag by lia).
  assert (Hold : forall i t', h_tickets a !! i = Some t' -> 0 <= Z.of_nat i < n).
  { intros i t' L. apply lookup_lt_Some in L. unfold n, len. lia. }
  split.
  { destruct Hok. split; cbn; try assumption; [|rewrite len_app; exact Hlim].
    intros i t' L. apply lookup_app_Some in L. destruct L as [L|[Hi L]]; [auto|].
    apply list_lookup_singleton_Some in L. destruct L as [Hz <-]. split; [assumption|].
    rewrite Hid. unfold n, len. lia. }
  intros k v. destruct (decide (k = KeyPrefix TicketKeyCounter)) as [->|N1];
    [rewrite kv_get_set | rewrite kv_get_set_ne by congruence;
     destruct (decide (k = ticket_key n)) as [->|N2]; [rewrite kv_get_set | rewrite kv_get_set_ne, R by congruence]].
  - split.
    + intros E. injection E as <-. rewrite <- Hlen. constructor. cbn. intros E. now apply app_nil in E.
    + intros E. entry_cases E; try discriminate; [now rewrite Hlen|].
      exfalso. symmetry in K. revert K. apply ticket_key_not_counter. cbn in L.
      apply lookup_lt_Some in L. rewrite length_app in L. unfold n, len in *. cbn in L. lia.
  - split.
    + intros E. injection E as <-. now constructor.
    + intros E. entry_cases E; try discriminate; [congruence|]. cbn in L.
      pose proof (lookup_lt_Some _ _ _ L) as Hi. rewrite length_app in Hi. cbn in Hi.
      apply ticket_key_inj in K; [|unfold ticket_limit, n, len in *; lia..].
      replace i with (length (h_tickets a)) in L by (unfold n, len in K; lia). congruence.
  - split; intros E; entry_cases E; subst; try congruence; try now constructor.
    + constructor. cbn. now apply lookup_app_l_Some.
    + cbn in L. apply lookup_app_Some in L. destruct L as [L|[Hi L]]; [now constructor|].
      apply list_lookup_singleton_Some in L. destruct L as [Hz <-]. destruct N2. f_equal.
      unfold n, len. lia.
Qed.

(** ** The keeper's operations *)

Lemma GetParams_refines {T} a (w : world S T) : refines a (kvs w) -> GetParams w = (Ok (params_of a), w).
Proof.
  intros R. unfold GetParams, mbind, M_bind, get_kvs, params_of. destruct (h_params a) as [p|] eqn:E.
  - rewrite (proj2 (proj2 R ParamsKey (Params_enc p))) by now constructor.
    destruct (ok_params a (proj1 R) p E). unfold cdc_MustUnmarshal. rewrite cdc_Unmarshal_spec. cbn.
    rewrite Params_Unmarshal_enc by assumption. reflexivity.
  - rewrite (refines_none a _ ParamsKey R); [reflexivity|].
    intros v En. entry_cases En; discriminate || congruence.
Qed.

Lemma refines_params a a' s : refines a s -> refines a' s -> params_of a = params_of a'.
Proof.
  intros R R'. pose proof (GetParams_refines a (World s tt) R) as E.
  rewrite (GetParams_refines a' (World s tt) R') in E. congruence.
Qed.

Lemma SetParams_refines a w p : refines a (kvs w) -> Params_ok p ->
  exists s', SetParams p w = (Ok tt, World s' (bnk w)) /\ refines (set_params p a) s'.
Proof.
  intros R Hp. eexists. split; [|apply refines_set_params; eassumption].
  unfold SetParams. rewrite cdc_Marshal_spec. cbn. destruct Hp. now rewrite Params_Marshal_enc.
Qed.

Lemma GetTicketCount_refines a w : refines a (kvs w) -> GetTicketCount w = (Ok (len (h_tickets a)), w).
Proof.
  intros R. unfold GetTicketCount, mbind, M_bind, get_kvs.
  pose proof (ok_limit a (proj1 R)) as Hl. unfold ticket_limit in Hl.
  destruct (decide (h_tickets a = [])) as [E|E].
  - rewrite (refines_none a _ _ R); [now rewrite E|].
    intros v En. entry_cases En; try discriminate; try congruence.
    exfalso. rewrite E in L. destruct i; discriminate.
  - rewrite (proj2 (proj2 R _ _) (entry_counter a E)). unfold lift.
    pose proof (len_nonneg (h_tickets a)).
    rewrite <- (app_nil_r (PutUint64 _)), Uint64_PutUint64 by lia. reflexivity.
Qed.

Lemma AppendTicket_refines a w rt ctx post : refines a (kvs w) ->
  let t := stamp_ticket rt ctx (len (h_tickets a)) post in
  Ticket_ok t -> len (h_tickets a) + 1 < ticket_limit ->
  exists s', AppendTicket rt ctx post w = (Ok (len (h_tickets a)), World s' (bnk w)) /\
             refines (push_ticket t a) s'.
Proof.
  intros R t Ht Hlim. pose proof (len_nonneg (h_tickets a)). eexists. split.
  - unfold AppendTicket. rewrite (M_bind_ok _ _ w _ w (GetTicketCount_refines a w R)).
    fold t. unfold cdc_MustMarshal. rewrite cdc_Marshal_spec. cbn [pm_Marshal Ticket_pm].
    destruct Ht. rewrite Ticket_Marshal_enc by assumption. reflexivity.
  - unfold KeyPrefix. rewrite (uwrap_small 64) by (unfold ticket_limit in *; lia).
    now apply refines_push_ticket.
Qed.

Lemma SetRedeemRequest_refines a w r : refines a (kvs w) -> RedeemRequest_ok r ->
  exists s', SetRedeemRequest r w = (Ok tt, World s' (bnk w)) /\ refines (put_request r a) s'.
Proof.
  intros R Hr. eexists. split; [|apply refines_put_request; eassumption].
  unfold SetRedeemRequest, cdc_MustMarshal. rewrite cdc_Marshal_spec. cbn.
  destruct Hr. now rewrite RedeemRequest_Marshal_enc.
Qed.

Lemma DeleteRedeemRequest_refines a w account : refines a (kvs w) ->
  exists s', DeleteRedeemRequest account w = (Ok tt, World s' (bnk w)) /\
             refines (drop_request account a) s'.
Proof. intros R. eexists. split; [reflexivity | now apply refines_drop_request]. Qed.

(** ** Which values of the store read back as redeem requests *)

(** What the loop of [GetAllRedeemRequests] makes of a value. *)
Definition decode (v : bytes) : option RedeemRequest :=
  match RedeemRequest_Unmarshal RedeemRequest_Reset v with Ok r => Some r | _ => None end.

Lemma collect_requests_spec es : (forall k v, (k, v) ∈ es -> len v < 2 ^ 63) ->
  collect_requests es = Ok (omap (decode ∘ snd) es).
Proof.
  induction es as [|[k v] es IH]; intros Hl; [reflexivity|]. cbn [collect_requests].
  rewrite IH by (intros; eapply Hl; constructor; eassumption). rewrite cdc_Unmarshal_spec. cbn. unfold decode.
  pose proof (RedeemRequest_Unmarshal_safe RedeemRequest_Reset v) as Hs.
  destruct (RedeemRequest_Unmarshal RedeemRequest_Reset v); cbn; try reflexivity;
    exfalso; apply Hs; apply (Hl k); constructor.
Qed.

Lemma decode_request r : RedeemRequest_ok r -> decode (RedeemRequest_enc r) = Some r.
Proof. intros []. unfold decode. now rewrite RedeemRequest_Unmarshal_enc. Qed.

Lemma fails_decode v : fails PbRedeemRequest "RedeemRequest" (skip_field PbRedeemRequest) RedeemRequest_field RedeemRequest_Reset v ->
  len v < 2 ^ 63 -> decode v = None.
Proof.
  intros F Hl. destruct (fails_Unmarshal _ _ _ RedeemRequest_field_ok _ _ F Hl) as [e E].
  unfold decode, RedeemRequest_Unmarshal. now rewrite E.
Qed.

Lemma decode_counter n : 0 <= n < 2 ^ 56 -> decode (PutUint64 n) = None.
Proof.
  intros Hn. apply fails_decode; [|unfold PutUint64, len; cbn; lia].
  destruct (PutUint64_small n Hn) as [e ->]. apply fails_tag_zero; [apply RedeemRequest_field_ok | apply skip_field_safe].
Qed.

(** The first field of a ticket or of the parameters reads as the account. *)
Lemma reads_account (account : gostring) : reads PbRedeemRequest "RedeemRequest" (skip_field PbRedeemRequest) RedeemRequest_field
  RedeemRequest_Reset (enc_string 0xa account) (MkRedeemRequest account zero_coin zero_time).
Proof.
  pose proof RedeemRequest_field_ok. eapply reads_conv; [eapply reads_string; reads_side | reflexivity].
Qed.

(** A non-zero ticket number stands where a request has its time: an error. *)
Lemma fails_ticket t : Ticket_Id t <> 0 -> len (Ticket_enc t) < 2 ^ 63 ->
  fails PbRedeemRequest "RedeemRequest" (skip_field PbRedeemRequest) RedeemRequest_field RedeemRequest_Reset (Ticket_enc t).
Proof.
  intros Hid Hl. unfold Ticket_enc in *. pose proof RedeemRequest_field_ok as F. enc_bounds.
  eapply fails_app_r; [apply reads_account|].
  assert (Sc : safe (Coin_Unmarshal zero_coin (Ticket_Issue t)) (fun _ => True)) by (apply coin_safe; lia).
  unfold enc_string at 1. case_bool.
  - change (zb 18 :: varint (len (Ticket_Issue t)) ++ Ticket_Issue t) with (enc_message 0x12 (Ticket_Issue t)).
    destruct (Coin_Unmarshal zero_coin (Ticket_Issue t)) as [c|e| |] eqn:Ec; try contradiction.
    + eapply fails_app_r; [eapply reads_message; try reads_side; cbn; now rewrite Ec |].
      apply fails_app_l. eapply fails_scalar; try reads_side.
    + apply fails_app_l. eapply fails_message; try reads_side. cbn. now rewrite Ec.
  - cbn [app]. apply fails_app_l. eapply fails_scalar; try reads_side.
Qed.

(** So does a non-zero [max_redeem_entries]. *)
Lemma fails_params p : MaxRedeemEntries p <> 0 -> len (Params_enc p) < 2 ^ 63 ->
  fails PbRedeemRequest "RedeemRequest" (skip_field PbRedeemRequest) RedeemRequest_field RedeemRequest_Reset (Params_enc p).
Proof.
  intros Hm Hl. unfold Params_enc in *. pose proof RedeemRequest_field_ok as F.
  eapply fails_app_r; [eapply reads_string_present; reads_side |].
  apply fails_app_l. eapply fails_scalar; reads_side.
Qed.

(** Parameters that read as a request name the bytes of the redeem duration as
    the account, and no coin. *)
Lemma decode_params p r : len (Params_enc p) < 2 ^ 63 -> decode (Params_enc p) = Some r ->
  exists t, r = MkRedeemRequest (duration_enc (RedeemDur p)) zero_coin t.
Proof.
  intros Hl D. destruct (Z.eq_dec (MaxRedeemEntries p) 0) as [Hm|Hm];
    [|now rewrite fails_decode in D by auto using fails_params].
  pose proof RedeemRequest_field_ok as F. pose proof (time_safe zero_time (TokenMeta_enc (CollateralMetas p))) as Sf.
  destruct (StdTimeUnmarshal zero_time (TokenMeta_enc (CollateralMetas p))) as [t|e| |] eqn:Et; try contradiction.
  - assert (Er : reads PbRedeemRequest "RedeemRequest" (skip_field PbRedeemRequest) RedeemRequest_field
      RedeemRequest_Reset (Params_enc p) (MkRedeemRequest (duration_enc (RedeemDur p)) zero_coin t)).
    { unfold Params_enc in *. rewrite Hm in *. eapply reads_app; [eapply reads_string_present; reads_side|].
      change (enc_scalar 0x10 0) with (@nil byte). rewrite app_nil_l. eapply reads_app; [|eapply reads_unknown_present; reads_side].
      eapply reads_message; try reads_side. cbn. now rewrite Et. }
    unfold decode, RedeemRequest_Unmarshal in D. erewrite reads_Unmarshal in D by eassumption. injection D as <-. eauto.
  - exfalso. rewrite fails_decode in D; [discriminate | | assumption]. unfold Params_enc in *. rewrite Hm in *.
    eapply fails_app_r; [eapply reads_string_present; reads_side|].
    change (enc_scalar 0x10 0) with (@nil byte). rewrite app_nil_l. apply fails_app_l. eapply fails_message; try reads_side. cbn. now rewrite Et.
Qed.

(** Ticket 0 has no number field: its author and issue read as a request. *)
Lemma decode_ticket_zero t c : Ticket_Id t = 0 -> len (Ticket_enc t) < 2 ^ 63 ->
  Ticket_Issue t = coin_enc c -> coin_set c -> 0 < len (coin_enc c) ->
  decode (Ticket_enc t) = Some (MkRedeemRequest (Ticket_Author t) c zero_time).
Proof.
  intros Hid Hl Hi Hc Hp. unfold decode, RedeemRequest_Unmarshal. pose proof RedeemRequest_field_ok as F.
  erewrite reads_Unmarshal; [reflexivity | exact F | | assumption].
  unfold Ticket_enc in *. rewrite Hi, Hid in *. change (enc_scalar 0x18 0) with (@nil byte) in *.
  cbn [app] in *. enc_bounds. eapply reads_app; [apply reads_account|].
  eapply reads_app; [|eapply reads_unknown; reads_side].
  unfold enc_string. rewrite (proj2 (Z.ltb_lt _ _)) by assumption.
  change (zb 18 :: varint (len (coin_enc c)) ++ coin_enc c) with (enc_message 0x12 (coin_enc c)).
  eapply reads_message; try reads_side. cbn. now rewrite coin_reads by (assumption || lia).
Qed.

(** The request ticket 0 reads as, if it does; no other ticket does. *)
Definition posing a : list RedeemRequest := option_list (head (h_tickets a) ≫= decode ∘ Ticket_enc).

(** The requests read from values that are not requests. *)
Definition confused a : list RedeemRequest := option_list (h_params a ≫= decode ∘ Params_enc) ++ posing a.

(** With [max_redeem_entries] set and no ticket 0 there are none. *)
Lemma confused_nil a : hal_ok a -> MaxRedeemEntries (params_of a) <> 0 -> h_tickets a = [] -> confused a = [].
Proof.
  intros Ha Hm Ht. unfold confused, posing, params_of in *. rewrite Ht. destruct (h_params a) as [p|] eqn:Ep; [|reflexivity].
  cbn in *. destruct (ok_params a Ha p Ep). now rewrite fails_decode by auto using fails_params.
Qed.

(** The entries of a state, listed. *)
Definition entries a : list (bytes * bytes) :=
  ((fun p => (ParamsKey, Params_enc p)) <$> option_list (h_params a)) ++
  match h_tickets a with [] => [] | ts => [(KeyPrefix TicketKeyCounter, PutUint64 (len ts))] end ++
  imap (fun i t => (ticket_key (Z.of_nat i), Ticket_enc t)) (h_tickets a) ++
  ((fun '(account, r) => (redeem_key account, RedeemRequest_enc r)) <$> map_to_list (h_requests a)).

Lemma elem_of_entries a k v : (k, v) ∈ entries a <-> entry a k v.
Proof.
  unfold entries. rewrite !elem_of_app, !list_elem_of_fmap, elem_of_lookup_imap. split.
  - intros [(p & E & Hp)|[Hc|[(i & t & E & Hi)|([account r] & E & Hr)]]].
    + injection E as -> ->. apply elem_of_option_list in Hp. now constructor.
    + destruct (h_tickets a) eqn:Et; [now apply not_elem_of_nil in Hc|].
      apply list_elem_of_singleton in Hc. injection Hc as -> ->. rewrite <- Et. constructor. congruence.
    + injection E as -> ->. now constructor.
    + injection E as -> ->. apply elem_of_map_to_list in Hr. now constructor.
  - intros E. entry_cases E; subst k.
    + left. exists p. split; [reflexivity | now apply elem_of_option_list].
    + right. left. destruct (h_tickets a); [congruence | now apply list_elem_of_singleton].
    + right. right. left. eauto.
    + right. right. right. exists (account, r). split; [reflexivity | now apply elem_of_map_to_list].
Qed.

(** Each key occurs once. *)
Lemma entries_nodup a : hal_ok a -> NoDup (entries a).
Proof.
  intros Ha. unfold entries.
  assert (P : forall x, x ∈ imap (fun i t => (ticket_key (Z.of_nat i), Ticket_enc t)) (h_tickets a) ->
    exists i t, x.1 = ticket_key (Z.of_nat i) /\ h_tickets a !! i = Some t).
  { intros x Hx. apply elem_of_lookup_imap in Hx. destruct Hx as (i & t & -> & Hi). eauto. }
  apply NoDup_app. split; [destruct (h_params a); repeat constructor; apply not_elem_of_nil|]. split.
  { intros x Hx. destruct (h_params a) as [p|]; [|now apply not_elem_of_nil in Hx].
    apply list_elem_of_singleton in Hx. subst x. rewrite !elem_of_app, list_elem_of_fmap.
    intros [Hc|[Ht|([account r] & E & _)]]; [|destruct (P _ Ht) as (? & ? & ? & _); discriminate | discriminate].
    destruct (h_tickets a); [now apply not_elem_of_nil in Hc | now apply list_elem_of_singleton in Hc]. }
  apply NoDup_app. split; [destruct (h_tickets a); repeat constructor; apply not_elem_of_nil|]. split.
  { intros x Hx. destruct (h_tickets a) eqn:Et; [now apply not_elem_of_nil in Hx|]. rewrite <- Et in *.
    apply list_elem_of_singleton in Hx. subst x. rewrite elem_of_app, list_elem_of_fmap.
    intros [Ht|([account r] & E & _)]; [|discriminate]. destruct (P _ Ht) as (i & t' & E & Hi).
    symmetry in E. apply ticket_key_not_counter in E; [contradiction | eauto using lookup_lt_limit]. }
  apply NoDup_app. split; [|split].
  - apply NoDup_alt. intros i j x. rewrite !list_lookup_imap.
    destruct (h_tickets a !! i) eqn:Ei, (h_tickets a !! j) eqn:Ej; try discriminate.
    cbn [fmap option_fmap option_map]. intros E1 E2. rewrite <- E2 in E1.
    apply (f_equal (option_map fst)) in E1. cbn [option_map fst] in E1. apply Some_inj in E1.
    apply ticket_key_inj in E1; pose proof (lookup_lt_limit a i _ Ha Ei);
      pose proof (lookup_lt_limit a j _ Ha Ej); unfold ticket_limit in *; lia.
  - intros x Hx. destruct (P _ Hx) as (i & t & E & _). rewrite list_elem_of_fmap.
    intros ([account r] & -> & _). discriminate.
  - apply (NoDup_fmap_1 fst). rewrite <- list_fmap_compose.
    rewrite (list_fmap_ext _ (redeem_key ∘ fst)) by (now intros ? [] _).
    rewrite list_fmap_compose. apply NoDup_fmap_2; [exact redeem_key_inj | apply NoDup_fst_map_to_list].
Qed.

Lemma refines_entries a s : refines a s -> kv_entries s ≡ₚ entries a.
Proof.
  intros [Ha R]. apply NoDup_Permutation.
  - apply (NoDup_fmap_1 fst), kv_entries_nodup.
  - now apply entries_nodup.
  - intros [k v]. rewrite kv_entries_spec, elem_of_entries. apply R.
Qed.

Lemma entry_len a k v : hal_ok a -> entry a k v -> len v < 2 ^ 63.
Proof.
  intros Ha E. entry_cases E.
  - now destruct (ok_params a Ha p L).
  - unfold PutUint64, len. cbn. lia.
  - now destruct (ok_ticket a Ha i t L) as [[] ?].
  - now destruct (ok_request a Ha account r L) as [[] ?].
Qed.

(** Of the tickets, only ticket 0 can read as a request. *)
Lemma decode_tickets a : hal_ok a ->
  omap (decode ∘ snd) (imap (fun i t => (ticket_key (Z.of_nat i), Ticket_enc t)) (h_tickets a)) =
  option_list (head (h_tickets a) ≫= decode ∘ Ticket_enc).
Proof.
  intros Ha. destruct (h_tickets a) as [|t ts] eqn:Et; [reflexivity|]. cbn.
  assert (E : omap (decode ∘ snd) (imap (fun i t => (ticket_key (Z.of_nat (Datatypes.S i)), Ticket_enc t)) ts) = []).
  { apply elem_of_nil_inv. intros r Hr. apply list_elem_of_omap in Hr. destruct Hr as ([k v] & Hkv & Hd).
    apply elem_of_lookup_imap in Hkv. destruct Hkv as (i & t' & Ekv & Hi). injection Ekv as -> ->.
    destruct (ok_ticket a Ha (Datatypes.S i) t') as [[] Hid]; [now rewrite Et|]. cbn in Hd.
    rewrite fails_decode in Hd by (auto using fails_ticket || (apply fails_ticket; [lia|assumption])).
    discriminate. }
  unfold compose in E |- *. cbn in E |- *. rewrite E. destruct (decode (Ticket_enc t)); reflexivity.
Qed.

Lemma decode_requests (l : list (gostring * RedeemRequest)) :
  (forall account r, (account, r) ∈ l -> RedeemRequest_ok r) ->
  omap (decode ∘ snd) ((fun '(account, r) => (redeem_key account, RedeemRequest_enc r)) <$> l) = l.*2.
Proof.
  induction l as [|[account r] l IH]; intros Hl; [reflexivity|]. cbn.
  rewrite decode_request by (apply (Hl account); constructor). f_equal.
  apply IH. intros account' r' Hr. apply (Hl account'). now constructor.
Qed.

(** [GetAllRedeemRequests] returns the stored requests and the confused values. *)
Lemma GetAllRedeemRequests_refines a w : refines a (kvs w) ->
  exists l, GetAllRedeemRequests w = (Ok l, w) /\ l ≡ₚ confused a ++ (map_to_list (h_requests a)).*2.
Proof.
  intros R. pose proof (proj1 R) as Ha. eexists. split.
  - unfold GetAllRedeemRequests, mbind, M_bind, get_kvs, lift. rewrite collect_requests_spec; [reflexivity|].
    intros k v Hk. apply kv_entries_spec, (proj2 R) in Hk. eapply entry_len; eassumption.
  - rewrite (refines_entries a _ R). unfold entries. rewrite !omap_app, decode_tickets, decode_requests
      by (assumption || (intros account r Hr; apply elem_of_map_to_list in Hr; now apply (ok_request a Ha) in Hr)).
    unfold confused, posing. rewrite <- app_assoc. apply reflexive_eq. f_equal.
    + destruct (h_params a) as [p|]; [cbn|reflexivity]. now destruct (decode (Params_enc p)).
    + pose proof (ok_limit a Ha). pose proof (len_nonneg (h_tickets a)).
      destruct (h_tickets a) as [|t ts] eqn:Et; [reflexivity|]. cbn [omap list_omap]. unfold compose at 1.
      cbn [snd]. rewrite decode_counter by (unfold ticket_limit in *; lia). reflexivity.
Qed.

(** When nothing is confused, exactly the stored requests. *)
Lemma GetAllRedeemRequests_exact a w : refines a (kvs w) -> confused a = [] ->
  exists l, GetAllRedeemRequests w = (Ok l, w) /\ l ≡ₚ (map_to_list (h_requests a)).*2.
Proof.
  intros R Hc. destruct (GetAllRedeemRequests_refines a w R) as (l & E & P). rewrite Hc in P. eauto.
Qed.
End store.

Section empty.
Context {S : Type} `{KVStoreOk S} `{GogoOk}.

(** An empty store is the state before genesis. *)
Lemma refines_empty (s : S) : kv_entries s = [] -> refines hal_empty s.
Proof.
  intros E. split.
  - split; cbn; discriminate || reflexivity || (intros ? ?; rewrite lookup_empty; discriminate).
  - intros k v. rewrite <- kv_entries_spec, E. split; [intros X; now apply not_elem_of_nil in X|].
    destruct 1 as [p X|X|i t X|account r X]; cbn in X; try discriminate; congruence.
Qed.
End empty.
