(* ===== verification/Bank.v ===== *)
(** * Coins, decimals and bank transfers as the module uses them

    Consequences of the laws of [Sdk] for the calls the handlers make: the
    coin sets have one coin, the decimal arithmetic is doubling and halving,
    and a transfer succeeds exactly when the sender can spend the coins. *)

From S2P Require Import Prelude Sdk.

(** [sdk.NewCoins] of one coin of amount [z]. *)
Definition coins1 (d : gostring) (z : Z) : Coins := if z =? 0 then [] else [MkCoin d (Some z)].

Lemma amount_of_coins1 d z d' : amount_of (coins1 d z) d' = delta (bool_decide (d = d')) z.
Proof.
  unfold coins1. destruct (Z.eqb_spec z 0) as [->|]; cbn; unfold delta; case_bool_decide; cbn; lia.
Qed.

Lemma single_coins1 d z : single (coins1 d z).
Proof. unfold single, coins1. case_bool; cbn; lia. Qed.

(** [z] at the one place [y], an account and a denomination. *)
Definition at1 (x y : AccAddress * gostring) (z : Z) : Z := delta (bool_decide (x = y)) z.

Section coins.
Context `{SdkTypesOk}.

Lemma NewCoin_inv d x c : NewCoin d x = Ok c ->
  exists z, x = Some z /\ c = MkCoin d (Some z) /\ 0 <= z /\ ValidateDenom d = true.
Proof.
  intros E. destruct (ValidateDenom d) eqn:V; [|destruct (NewCoin_denom d x V); congruence].
  destruct x as [z|]; [|destruct (NewCoin_nil d); congruence].
  destruct (Z.lt_ge_cases z 0) as [N|P]; [destruct (NewCoin_neg d z N); congruence|].
  rewrite NewCoin_ok in E by assumption. injection E as <-. eauto.
Qed.

Lemma NewCoins_inv c cs : NewCoins [c] = Ok cs ->
  exists z, Amount c = Some z /\ 0 <= z /\ cs = coins1 (Denom c) z.
Proof.
  destruct c as [d [z|]]; cbn; intros E; [|destruct (NewCoins_nil d); congruence].
  exists z. destruct (Z.lt_ge_cases z 0) as [N|P]; [destruct (NewCoins_neg d z N); congruence|].
  split; [reflexivity|]. split; [assumption|]. unfold coins1. destruct (Z.eqb_spec z 0) as [->|N].
  - rewrite NewCoins_zero in E. congruence.
  - destruct (ValidateDenom d) eqn:V; [|destruct (NewCoins_denom d z N V); congruence].
    rewrite NewCoins_pos in E by (assumption || lia). congruence.
Qed.

Lemma NewCoins_run d z : 0 <= z -> (z <> 0 -> ValidateDenom d = true) ->
  NewCoins [MkCoin d (Some z)] = Ok (coins1 d z).
Proof.
  intros Hz Hd. unfold coins1. destruct (Z.eqb_spec z 0) as [->|N]; [apply NewCoins_zero|].
  apply NewCoins_pos; [auto | lia].
Qed.

(** Multiplying by the exchange rate and truncating doubles. *)
Lemma double_run z : 0 <= z -> 2 * z * precision < maxDec -> exists d p,
  LegacyNewDecFromInt (Some z) = Ok d /\ Dec_Mul d (LegacyNewDec 2) = Ok p /\
  Dec_TruncateInt p = Ok (Some (2 * z)).
Proof.
  intros Hz Hb. destruct (LegacyNewDecFromInt_val z) as (d & Ed & Vd). exists d.
  destruct (Dec_Mul_val d (LegacyNewDec 2) (2 * z * precision)) as (p & Ep & Vp).
  { rewrite Vd, LegacyNewDec_val. lia. }
  { unfold precision, maxDec in *. lia. }
  exists p. split; [assumption|]. split; [assumption|].
  assert (Q : Z.quot (dec_val p) precision = 2 * z) by (rewrite Vp; apply Z.quot_mul; unfold precision; lia).
  rewrite Dec_TruncateInt_val; rewrite Q; [reflexivity|]. unfold precision, maxDec, maxInt in *. lia.
Qed.

Lemma double_big z : 0 <= z -> maxDec <= 2 * z * precision -> exists d p,
  LegacyNewDecFromInt (Some z) = Ok d /\ Dec_Mul d (LegacyNewDec 2) = Panic p.
Proof.
  intros Hz Hb. destruct (LegacyNewDecFromInt_val z) as (d & Ed & Vd). exists d.
  destruct (Dec_Mul_big d (LegacyNewDec 2) (2 * z * precision)) as [p Ep].
  { rewrite Vd, LegacyNewDec_val. lia. }
  { unfold precision, maxDec in *. lia. }
  now exists p.
Qed.

Lemma double_inv z d p i : LegacyNewDecFromInt (Some z) = Ok d -> Dec_Mul d (LegacyNewDec 2) = Ok p ->
  Dec_TruncateInt p = Ok i -> i = Some (2 * z).
Proof.
  intros Ed Ep Ei. destruct (LegacyNewDecFromInt_val z) as (d' & Ed' & Vd).
  assert (d' = d) by congruence. subst d'.
  assert (Vm : dec_val d * dec_val (LegacyNewDec 2) = 2 * z * precision * precision)
    by (rewrite Vd, LegacyNewDec_val; lia).
  destruct (Z.lt_ge_cases (Z.abs (2 * z * precision)) maxDec) as [Lt|Ge].
  2: { destruct (Dec_Mul_big _ _ _ Vm Ge). congruence. }
  destruct (Dec_Mul_val _ _ _ Vm Lt) as (p' & Ep' & Vp). assert (p' = p) by congruence. subst p'.
  assert (Q : Z.quot (dec_val p) precision = 2 * z) by (rewrite Vp; apply Z.quot_mul; unfold precision; lia).
  rewrite Dec_TruncateInt_val in Ei; rewrite Q in *; [congruence|].
  unfold precision, maxDec, maxInt in *. lia.
Qed.

(** Dividing by it and truncating halves, rounding down. *)
Lemma half_quotient h : 0 <= h -> h * precision * precision = h * (precision / 2) * (2 * precision) /\
  Z.quot (h * (precision / 2)) precision = h / 2.
Proof.
  intros Hh. change (precision / 2) with 500000000000000000. change precision with 1000000000000000000.
  split; [lia|]. rewrite Z.quot_div_nonneg by lia. symmetry.
  apply Z.div_unique with (h mod 2 * 500000000000000000);
    pose proof (Z.mod_pos_bound h 2); pose proof (Z.div_mod h 2); lia.
Qed.

Lemma half_run h : 0 <= h < maxInt -> exists d p,
  LegacyNewDecFromInt (Some h) = Ok d /\ Dec_Quo d (LegacyNewDec 2) = Ok p /\
  Dec_TruncateInt p = Ok (Some (h / 2)).
Proof.
  intros Hh. destruct (LegacyNewDecFromInt_val h) as (d & Ed & Vd). exists d.
  destruct (half_quotient h) as [Q1 Q2]; [lia|].
  destruct (Dec_Quo_val d (LegacyNewDec 2) (h * (precision / 2))) as (p & Ep & Vp).
  { rewrite LegacyNewDec_val. unfold precision. lia. }
  { rewrite Vd, LegacyNewDec_val. exact Q1. }
  { change (precision / 2) with 500000000000000000. unfold maxInt, maxDec in *. lia. }
  exists p. split; [assumption|]. split; [assumption|].
  rewrite Dec_TruncateInt_val; rewrite Vp, Q2; [reflexivity|].
  pose proof (Z.div_pos h 2). pose proof (Z.div_le_upper_bound h 2 h). unfold maxInt in *. lia.
Qed.

Lemma half_inv h d p i : 0 <= h -> LegacyNewDecFromInt (Some h) = Ok d -> Dec_Quo d (LegacyNewDec 2) = Ok p ->
  Dec_TruncateInt p = Ok i -> i = Some (h / 2).
Proof.
  intros Hh Ed Ep Ei. destruct (LegacyNewDecFromInt_val h) as (d' & Ed' & Vd).
  assert (d' = d) by congruence. subst d'. destruct (half_quotient h Hh) as [Q1 Q2].
  assert (Vb : dec_val (LegacyNewDec 2) <> 0) by (rewrite LegacyNewDec_val; unfold precision; lia).
  assert (Vm : dec_val d * precision = h * (precision / 2) * dec_val (LegacyNewDec 2))
    by (rewrite Vd, LegacyNewDec_val; exact Q1).
  destruct (Z.lt_ge_cases (Z.abs (h * (precision / 2))) maxDec) as [Lt|Ge].
  2: { destruct (Dec_Quo_big _ _ _ Vb Vm Ge). congruence. }
  destruct (Dec_Quo_val _ _ _ Vb Vm Lt) as (p' & Ep' & Vp). assert (p' = p) by congruence. subst p'.
  destruct (Z.lt_ge_cases (Z.abs (h / 2)) maxInt) as [Lt'|Ge'].
  - rewrite Dec_TruncateInt_val in Ei; rewrite Vp, Q2 in *; congruence.
  - destruct (Dec_TruncateInt_big p); [rewrite Vp, Q2; assumption | congruence].
Qed.
End coins.

Section bank.
Context {B : Type} `{BankKeeperOk B}.
Implicit Types b : B.

(** The effect of moving, minting or burning one coin. *)
Definition moves1 b (from to : AccAddress) (d : gostring) (z : Z) b' : Prop :=
  moved view b from to (coins1 d z) b'.

Lemma at1_bools x y d d' z : at1 (x, d') (y, d) z = delta (bool_decide (x = y)) (delta (bool_decide (d = d')) z).
Proof.
  unfold at1, delta. repeat case_bool_decide; try reflexivity; try congruence.
Qed.

Lemma moves1_bal b from to d z b' x d' : moves1 b from to d z b' ->
  bal b' x d' = bal b x d' - at1 (x, d') (from, d) z + at1 (x, d') (to, d) z.
Proof. intros [E _]. unfold bal. now rewrite E, amount_of_coins1, !at1_bools. Qed.

Lemma moves1_supply b from to d z b' d' : moves1 b from to d z b' -> supply b' d' = supply b d'.
Proof. intros (_ & E & _). apply E. Qed.

Lemma issued1_bal sign b y d z b' x d' : issued view sign b y (coins1 d z) b' ->
  bal b' x d' = bal b x d' + sign * at1 (x, d') (y, d) z.
Proof.
  intros [E _]. unfold bal. rewrite E, amount_of_coins1, at1_bools. unfold delta. repeat case_bool; lia.
Qed.

Lemma issued1_supply sign b y d z b' d' : issued view sign b y (coins1 d z) b' ->
  supply b' d' = supply b d' + sign * delta (bool_decide (d = d')) z.
Proof. intros (_ & E & _). unfold supply. now rewrite E, amount_of_coins1. Qed.

Lemma at1_self x z : at1 x x z = z.
Proof. unfold at1. now rewrite bool_decide_eq_true_2. Qed.

Lemma at1_ne x y d d' z : d' <> d -> at1 (x, d') (y, d) z = 0.
Proof. intros N. unfold at1. now rewrite bool_decide_eq_false_2 by congruence. Qed.

Lemma at1_other x y d d' z : x <> y -> at1 (x, d') (y, d) z = 0.
Proof. intros N. unfold at1. now rewrite bool_decide_eq_false_2 by congruence. Qed.

(** Other denominations stay as spendable as they were. *)
Lemma moves1_spendable b from to d z b' x d' : moves1 b from to d z b' -> d' <> d ->
  spendable b' x d' = spendable b x d'.
Proof.
  intros Hm N. pose proof (moves1_bal _ _ _ _ _ _ x d' Hm) as E. rewrite !at1_ne in E by assumption.
  destruct Hm as (_ & _ & L). apply L. unfold bal in E. lia.
Qed.

Lemma issued1_spendable sign b y d z b' x d' : issued view sign b y (coins1 d z) b' -> d' <> d ->
  spendable b' x d' = spendable b x d'.
Proof.
  intros Hm N. pose proof (issued1_bal _ _ _ _ _ _ x d' Hm) as E. rewrite !at1_ne in E by assumption.
  destruct Hm as (_ & _ & L). apply L. unfold bal in E. lia.
Qed.

Lemma coins1_within d z (limit : gostring -> Z) : 0 <= z <= limit d -> (forall d', 0 <= limit d') ->
  forall d', 0 <= amount_of (coins1 d z) d' <= limit d'.
Proof.
  intros Hz Hl d'. rewrite amount_of_coins1. specialize (Hl d'). unfold delta. case_bool_decide; [subst|]; lia.
Qed.

Lemma coins1_limit d z (limit : gostring -> Z) :
  (forall d', amount_of (coins1 d z) d' <= limit d') -> z <= limit d.
Proof. intros Hl. specialize (Hl d). rewrite amount_of_coins1 in Hl. unfold delta in Hl.
  now rewrite bool_decide_eq_true_2 in Hl by reflexivity. Qed.

(** A transfer of one coin from an account: it is made when the account can
    spend it, and otherwise nothing changes. *)
Lemma sendAM_run b a m d z : registered m = true -> 0 <= z -> exists r b',
  SendCoinsFromAccountToModule a m (coins1 d z) b = (r, b') /\ safe r (fun _ => True) /\
  if z <=? spendable b a d then r = Ok tt /\ moves1 b a (GetModuleAddress m) d z b'
  else r <> Ok tt /\ b' = b.
Proof.
  intros Hm Hz. destruct (sendAM_total b a m (coins1 d z) Hm) as (r & b' & E & Hs & Ht & Hf).
  exists r, b'. split; [assumption|]. split; [assumption|].
  destruct (z <=? spendable b a d) eqn:L; zify_bools.
  - assert (r = Ok tt) as ->; [|split; [reflexivity | now apply sendAM_ok]].
    apply Ht, coins1_within; [lia|]. intros d'. apply spendable_le.
  - assert (N : r <> Ok tt) by (intros ->; specialize (coins1_limit _ _ _ (Hf eq_refl)); lia).
    split; [assumption|]. destruct r as [[]|e| |]; try contradiction.
    eapply sendAM_fail; [exact E | apply single_coins1].
Qed.

(** From a module account, whose whole balance is spendable. *)
Lemma sendMA_run b m a d z : registered m = true -> 0 <= z <= bal b (GetModuleAddress m) d ->
  blocked a = false -> exists b',
  SendCoinsFromModuleToAccount m a (coins1 d z) b = (Ok tt, b') /\ moves1 b (GetModuleAddress m) a d z b'.
Proof.
  intros Hm Hz Ha. destruct (sendMA_total b m a (coins1 d z) Hm) as (r & b' & E & _ & Ht & _).
  assert (r = Ok tt) as ->; [|exists b'; split; [assumption | now apply sendMA_ok]].
  apply Ht; [|assumption]. apply coins1_within; [now rewrite module_spendable|].
  intros d'. apply spendable_le.
Qed.

Lemma sendMM_run b m m' d z : registered m = true -> registered m' = true ->
  0 <= z <= bal b (GetModuleAddress m) d -> exists b',
  SendCoinsFromModuleToModule m m' (coins1 d z) b = (Ok tt, b') /\
  moves1 b (GetModuleAddress m) (GetModuleAddress m') d z b'.
Proof.
  intros Hm Hm' Hz. destruct (sendMM_total b m m' (coins1 d z) Hm Hm') as (r & b' & E & _ & Ht & _).
  assert (r = Ok tt) as ->; [|exists b'; split; [assumption | now apply sendMM_ok]].
  apply Ht, coins1_within; [now rewrite module_spendable|]. intros d'. apply spendable_le.
Qed.

Lemma mint_run b m d z : registered m = true -> may_mint m = true -> 0 <= z ->
  supply b d + z < maxInt -> bal b (GetModuleAddress m) d + z < maxInt -> exists b',
  MintCoins m (coins1 d z) b = (Ok tt, b') /\ issued view 1 b (GetModuleAddress m) (coins1 d z) b'.
Proof.
  intros Hm Hp Hz Hs Hb. destruct (mint_total b m (coins1 d z) Hm Hp) as [b' E].
  - intros d'. rewrite amount_of_coins1. unfold delta. case_bool; lia.
  - intros d'. rewrite amount_of_coins1. unfold delta. case_bool_decide; [subst; lia | contradiction].
  - exists b'. split; [assumption | now apply mint_ok].
Qed.

Lemma burn_run b m d z : registered m = true -> may_burn m = true ->
  0 <= z <= bal b (GetModuleAddress m) d -> exists b',
  BurnCoins m (coins1 d z) b = (Ok tt, b') /\ issued view (-1) b (GetModuleAddress m) (coins1 d z) b'.
Proof.
  intros Hm Hp Hz. destruct (burn_total b m (coins1 d z) Hm Hp) as (r & b' & E & _ & Ht & _).
  assert (r = Ok tt) as ->; [|exists b'; split; [assumption | now apply burn_ok]].
  apply Ht, coins1_within; [now rewrite module_spendable|]. intros d'. apply spendable_le.
Qed.
End bank.
