(* ===== verification/Handlers.v ===== *)
(** * The effects of the message handlers

    For each handler: what a successful run does to the store and to the bank
    (inversion), and which runs succeed (evaluation).  The state of the module
    is described by [Store.refines]. *)

From S2P Require Import Prelude Wire Sdk PbParams PbTickets PbRedeemRequest PbGenesis PbQuery PbTx.
From S2P Require Import Types World Keeper MsgServer Store Bank.

Section handlers.
Context {S B : Type} `{KVStoreOk S} `{BankKeeperOk B} `{GogoOk} `{!SdkTypesOk} `{BinaryCodecOk}.
Implicit Types (a : hal) (w : world S B) (b : B).

(** The module accounts' addresses. *)
Definition collateral_pool : AccAddress := GetModuleAddress CollateralPoolName.
Definition redeem_pool : AccAddress := GetModuleAddress RedeemPoolName.
Definition treasury : AccAddress := GetModuleAddress TreasuryKey.

(** The accounts and permissions the app configuration gives the module. *)
Record accounts_ok : Prop := {
  collateral_registered : registered CollateralPoolName = true;
  redeem_registered : registered RedeemPoolName = true;
  collateral_mints : may_mint CollateralPoolName = true;
  collateral_burns : may_burn CollateralPoolName = true }.

(** ** [MintHal] *)

(** [2 * z] HAL appear at [addr]; if [paid], [z] of the collateral moves from
    [addr] to the pool. *)
Definition minted a (addr : AccAddress) (z : Z) (paid : bool) b b' : Prop :=
  (forall x d, bal b' x d = bal b x d + at1 (x, d) (addr, hal_denom a) (2 * z)
     + (if paid then at1 (x, d) (collateral_pool, collateral_denom a) z
                     - at1 (x, d) (addr, collateral_denom a) z else 0)) /\
  (forall d, supply b' d = supply b d + delta (bool_decide (hal_denom a = d)) (2 * z)).

Lemma creator_address_inv creator addr : creator_address creator = Ok addr ->
  AccAddressFromBech32 creator = Ok addr.
Proof. unfold creator_address. now destruct (AccAddressFromBech32 creator). Qed.

Lemma creator_address_run creator addr : AccAddressFromBech32 creator = Ok addr ->
  creator_address creator = Ok addr.
Proof. unfold creator_address. now intros ->. Qed.

(** [moved] by zero coins is no change. *)
Lemma minted_intro a addr z paid b b1 b2 b3 :
  issued view 1 b collateral_pool (coins1 (hal_denom a) (2 * z)) b1 ->
  moves1 b1 collateral_pool addr (hal_denom a) (2 * z) b2 ->
  (if paid : bool then moves1 b2 addr collateral_pool (collateral_denom a) z b3 else b3 = b2) ->
  minted a addr z paid b b3.
Proof.
  intros I M1 M2. split.
  - intros x d. destruct paid; [rewrite (moves1_bal _ _ _ _ _ _ x d M2) | subst b3];
      rewrite (moves1_bal _ _ _ _ _ _ x d M1), (issued1_bal _ _ _ _ _ _ x d I); lia.
  - intros d. destruct paid; [rewrite (moves1_supply _ _ _ _ _ _ d M2) | subst b3];
      rewrite (moves1_supply _ _ _ _ _ _ d M1), (issued1_supply _ _ _ _ _ _ d I); lia.
Qed.

Lemma MintHal_inv a w msg resp w' : refines a (kvs w) -> MintHal msg w = (Ok resp, w') ->
  exists addr z paid,
    AccAddressFromBech32 (MsgMintHal_Creator msg) = Ok addr /\
    MsgMintHal_CollateralAmount msg = MkCoin (collateral_denom a) (Some z) /\ 0 <= z /\
    resp = MkMsgMintHalResponse (MkCoin (hal_denom a) (Some (2 * z))) /\
    kvs w' = kvs w /\ minted a addr z paid (bnk w) (bnk w').
Proof.
  intros R E. unfold MintHal in E. pure E as addr Ha. pure E as zero Hz.
  destruct zero; [discriminate|]. step E as params w1 Hp.
  rewrite (GetParams_refines a) in Hp by assumption. injection Hp as <- <-.
  case_bool_decide as Hd; [|discriminate]. cbn [negb] in E.
  pure E as d Ed. pure E as p Ep. pure E as i Ei. pure E as coin Hc. pure E as cs Hcs.
  bank E as w1 M1 K1. pure E as cs2 Hcs2. bank E as w2 M2 K2. pure E as cs3 Hcs3.
  step E as u w3 M3. injection E as <- <-. assert (cs2 = cs) by congruence. subst cs2.
  destruct (MsgMintHal_CollateralAmount msg) as [dn amt] eqn:Em. cbn in *.
  destruct (NewCoins_inv _ _ Hcs3) as (z & Hz3 & Hz0 & ->). cbn in Hz3, Hz0. subst dn amt.
  rewrite (double_inv z d p i Ed Ep Ei) in Hc.
  destruct (NewCoin_inv _ _ _ Hc) as (z2 & Hz2 & -> & _ & _). injection Hz2 as <-.
  destruct (NewCoins_inv _ _ Hcs) as (z2 & Hz2 & _ & ->). cbn in Hz2. injection Hz2 as <-.
  exists addr, z. apply mint_ok in M1. apply sendMA_ok in M2.
  apply ignore_err_inv in M3. destruct M3 as [M3|[e M3]].
  all: apply bank_op_inv in M3; destruct M3 as [M3 K3].
  - exists true. apply sendAM_ok in M3.
    repeat (split; [solve [eauto using creator_address_inv | congruence]|]). eapply minted_intro; eauto.
  - exists false. apply sendAM_fail in M3; [|apply single_coins1].
    repeat (split; [solve [eauto using creator_address_inv | congruence]|]). eapply minted_intro; eauto.
Qed.

(** C17: a valid [MintHal] of [z] collateral always succeeds: the creator
    receives [2 * z] new HAL; the [z] of collateral move to the pool if the
    creator can spend them, and otherwise not at all.  The store does not
    change. *)
Theorem MintHal_run a w msg addr z : accounts_ok -> refines a (kvs w) ->
  AccAddressFromBech32 (MsgMintHal_Creator msg) = Ok addr -> blocked addr = false ->
  MsgMintHal_CollateralAmount msg = MkCoin (collateral_denom a) (Some z) -> 0 <= z ->
  ValidateDenom (hal_denom a) = true -> ValidateDenom (collateral_denom a) = true ->
  hal_denom a <> collateral_denom a -> 2 * z * precision < maxDec ->
  supply (bnk w) (hal_denom a) + 2 * z < maxInt ->
  bal (bnk w) collateral_pool (hal_denom a) + 2 * z < maxInt ->
  exists b', MintHal msg w =
    (Ok (MkMsgMintHalResponse (MkCoin (hal_denom a) (Some (2 * z)))), World (kvs w) b') /\
    minted a addr z (z <=? spendable (bnk w) addr (collateral_denom a)) (bnk w) b'.
Proof.
  intros A R Ha Hbl Hm Hz Vh Vc Hne Hb1 Hb2 Hb3. unfold MintHal.
  rewrite (creator_address_run _ _ Ha), lift_bind, Hm.
  rewrite (proj2 (Coin_IsValid_spec _)) by (cbn; eauto). cbn [negb]. rewrite lift_bind.
  rewrite (M_bind_ok _ _ _ _ _ (GetParams_refines a w R)). cbn [Denom Amount].
  fold (collateral_denom a) (hal_denom a). rewrite bool_decide_eq_true_2 by reflexivity. cbn [negb].
  destruct (double_run z Hz Hb1) as (d & p & -> & Ep & Ei).
  rewrite lift_bind, Ep, lift_bind, Ei, lift_bind, NewCoin_ok, lift_bind by (assumption || lia).
  rewrite (NewCoins_run (hal_denom a)), lift_bind by (auto || lia).
  destruct (mint_run (bnk w) CollateralPoolName (hal_denom a) (2 * z)) as (b1 & E1 & I1);
    try apply A; try assumption; [lia|].
  rewrite (wrap_bank_bind _ _ _ _ _ _ _ E1), lift_bind. cbn [kvs bnk].
  destruct (sendMA_run b1 CollateralPoolName addr (hal_denom a) (2 * z)) as (b2 & E2 & M2);
    [apply A | | assumption |].
  { rewrite (issued1_bal _ _ _ _ _ _ _ _ I1), at1_self.
    pose proof (bal_nonneg (bnk w) (GetModuleAddress CollateralPoolName) (hal_denom a)). lia. }
  rewrite (wrap_bank_bind _ _ _ _ (World (kvs w) b1) _ _ E2). cbn [kvs bnk].
  rewrite NewCoins_run, lift_bind by auto.
  destruct (sendAM_run b2 addr CollateralPoolName (collateral_denom a) z) as (r & b3 & E3 & Hs & M3);
    [apply A | assumption |].
  rewrite (ignore_bank_bind _ _ (World (kvs w) b2) _ _ E3 Hs). exists b3. split; [reflexivity|].
  assert (Q : spendable b2 addr (collateral_denom a) = spendable (bnk w) addr (collateral_denom a)).
  { rewrite (moves1_spendable _ _ _ _ _ _ _ _ M2), (issued1_spendable _ _ _ _ _ _ _ _ I1) by congruence.
    reflexivity. }
  rewrite Q in M3. eapply minted_intro; [exact I1 | exact M2 |]. now destruct (z <=? _).
Qed.

(** ** [RedeemCollateral] *)

(** [h] HAL are destroyed, those of [addr] if [paid] and the pool's otherwise;
    [h / 2] of the collateral move from the pool to the redeem pool. *)
Definition redeemed a (addr : AccAddress) (h : Z) (paid : bool) b b' : Prop :=
  (forall x d, bal b' x d = bal b x d
     - at1 (x, d) (if paid then addr else collateral_pool, hal_denom a) h
     - at1 (x, d) (collateral_pool, collateral_denom a) (h / 2)
     + at1 (x, d) (redeem_pool, collateral_denom a) (h / 2)) /\
  (forall d, supply b' d = supply b d - delta (bool_decide (hal_denom a = d)) h).

(** The request it stores. *)
Definition new_request a (rt : Runtime) (addr : AccAddress) (h : Z) : RedeemRequest :=
  MkRedeemRequest (AccAddress_String addr) (MkCoin (collateral_denom a) (Some (h / 2)))
    (Now rt + RedeemDur (params_of a)).

Lemma redeemed_intro a addr h paid b b1 b2 b3 :
  (if paid : bool then moves1 b addr collateral_pool (hal_denom a) h b1 else b1 = b) ->
  issued view (-1) b1 collateral_pool (coins1 (hal_denom a) h) b2 ->
  moves1 b2 collateral_pool redeem_pool (collateral_denom a) (h / 2) b3 ->
  redeemed a addr h paid b b3.
Proof.
  intros M1 I M2. split.
  - intros x d. rewrite (moves1_bal _ _ _ _ _ _ x d M2), (issued1_bal _ _ _ _ _ _ x d I).
    destruct paid; [rewrite (moves1_bal _ _ _ _ _ _ x d M1) | subst b1]; lia.
  - intros d. rewrite (moves1_supply _ _ _ _ _ _ d M2), (issued1_supply _ _ _ _ _ _ d I).
    destruct paid; [rewrite (moves1_supply _ _ _ _ _ _ d M1) | subst b1]; lia.
Qed.

Lemma RedeemCollateral_inv a rt w msg resp w' :
  refines a (kvs w) -> RedeemCollateral rt msg w = (Ok resp, w') ->
  exists addr h paid,
    AccAddressFromBech32 (MsgRedeemCollateral_Creator msg) = Ok addr /\
    Amount (MsgRedeemCollateral_HalAmount msg) = Some h /\ 0 <= h /\
    resp = MkMsgRedeemCollateralResponse (MkCoin (hal_denom a) (Some h)) (Now rt + RedeemDur (params_of a)) /\
    redeemed a addr h paid (bnk w) (bnk w') /\
    (RedeemRequest_ok (new_request a rt addr h) -> refines (put_request (new_request a rt addr h) a) (kvs w')).
Proof.
  intros R E. unfold RedeemCollateral in E. pure E as addr Ha.
  destruct (Coin_IsValid _) eqn:V; [cbn [negb] in E|discriminate]. step E as params w1 Hp.
  rewrite (GetParams_refines a) in Hp by assumption. injection Hp as <- <-.
  pure E as coin Hc. pure E as cs Hcs. step E as u w1 M1. pure E as cs2 Hcs2. bank E as w2 M2 K2.
  pure E as d Ed. pure E as p Ep. pure E as i Ei. pure E as coin3 Hc3. pure E as cs3 Hcs3.
  bank E as w3 M3 K3. step E as params w4 Hp. step E as u' w5 Hs. injection E as <- <-.
  assert (cs2 = cs) by congruence. subst cs2.
  destruct (NewCoin_inv _ _ _ Hc) as (h & Hh & -> & Hh0 & _). rewrite Hh in *.
  destruct (NewCoins_inv _ _ Hcs) as (h' & Hh' & _ & ->). cbn in Hh'. injection Hh' as <-.
  rewrite (half_inv h d p i) in Hc3 by assumption.
  destruct (NewCoin_inv _ _ _ Hc3) as (q & Hq & -> & _ & _). injection Hq as <-.
  destruct (NewCoins_inv _ _ Hcs3) as (q & Hq & _ & ->). cbn in Hq. injection Hq as <-.
  apply burn_ok in M2. apply sendMM_ok in M3. apply ignore_err_inv in M1.
  assert (exists paid : bool, kvs w1 = kvs w /\
    if paid then moves1 (bnk w) addr collateral_pool (hal_denom a) h (bnk w1) else bnk w1 = bnk w)
    as (paid & K1 & Hpaid).
  { destruct M1 as [M1|[e M1]]; apply bank_op_inv in M1; destruct M1 as [M1 K1].
    - exists true. now apply sendAM_ok in M1.
    - exists false. apply sendAM_fail in M1; [auto | apply single_coins1]. }
  assert (R3 : refines a (kvs w3)) by now rewrite K3, K2, K1.
  rewrite (GetParams_refines a) in Hp by assumption. injection Hp as <- <-.
  fold (collateral_denom a) in Hs. fold (new_request a rt addr h) in Hs.
  exists addr, h, paid. repeat (split; [solve [eauto using creator_address_inv]|]). split.
  - assert (Eb : bnk w5 = bnk w3).
    { unfold SetRedeemRequest in Hs. pure Hs as bz Hb. now injection Hs as _ <-. }
    rewrite Eb. eapply redeemed_intro; eassumption.
  - intros Hr. destruct (SetRedeemRequest_refines a w3 _ R3 Hr) as (s' & E' & R').
    rewrite E' in Hs. now injection Hs as _ <-.
Qed.

(** C18: a valid [RedeemCollateral] of [h] HAL succeeds when the collateral
    pool holds [h / 2] collateral and either the creator can spend [h] HAL or
    the pool holds them: [h] HAL are burned, the creator's in the first case
    and the pool's in the second, [h / 2] collateral move to the redeem pool,
    and the creator's request for them is stored, due at the node's clock plus
    the redeem duration.  The denomination of the message's coin is not used. *)
Theorem RedeemCollateral_run a rt w msg addr dn h : accounts_ok -> refines a (kvs w) ->
  AccAddressFromBech32 (MsgRedeemCollateral_Creator msg) = Ok addr ->
  MsgRedeemCollateral_HalAmount msg = MkCoin dn (Some h) -> ValidateDenom dn = true -> 0 <= h < maxInt ->
  ValidateDenom (hal_denom a) = true -> ValidateDenom (collateral_denom a) = true ->
  hal_denom a <> collateral_denom a ->
  let paid := h <=? spendable (bnk w) addr (hal_denom a) in
  (paid = false -> h <= bal (bnk w) collateral_pool (hal_denom a)) ->
  h / 2 <= bal (bnk w) collateral_pool (collateral_denom a) ->
  RedeemRequest_ok (new_request a rt addr h) ->
  exists w', RedeemCollateral rt msg w =
    (Ok (MkMsgRedeemCollateralResponse (MkCoin (hal_denom a) (Some h)) (Now rt + RedeemDur (params_of a))), w') /\
    redeemed a addr h paid (bnk w) (bnk w') /\ refines (put_request (new_request a rt addr h) a) (kvs w').
Proof.
  intros A R Ha Hm Vd Hh Vh Vc Hne paid Hpaid Hcol Hr. unfold RedeemCollateral.
  assert (0 <= h / 2) by (apply Z.div_pos; lia).
  rewrite (creator_address_run _ _ Ha), lift_bind, Hm.
  rewrite (proj2 (Coin_IsValid_spec _)) by (split; [exact Vd | exists h; split; [reflexivity | lia]]).
  cbn [negb Denom Amount].
  rewrite (M_bind_ok _ _ _ _ _ (GetParams_refines a w R)). fold (collateral_denom a) (hal_denom a).
  rewrite (NewCoin_ok (hal_denom a) h), lift_bind by (assumption || lia).
  rewrite (NewCoins_run (hal_denom a) h), lift_bind by (auto || lia).
  destruct (sendAM_run (bnk w) addr CollateralPoolName (hal_denom a) h) as (r & b1 & E1 & Hs & M1);
    [apply A | lia |]. fold paid in M1.
  rewrite (ignore_bank_bind _ _ w _ _ E1 Hs), lift_bind.
  assert (M1' : if paid then moves1 (bnk w) addr collateral_pool (hal_denom a) h b1 else b1 = bnk w)
    by (destruct paid; apply M1).
  destruct (burn_run b1 CollateralPoolName (hal_denom a) h) as (b2 & E2 & I2); [apply A..| |].
  { fold collateral_pool. destruct paid eqn:P; [|subst b1; specialize (Hpaid eq_refl); lia].
    rewrite (moves1_bal _ _ _ _ _ _ _ _ M1'), at1_self. unfold paid in P. zify_bools.
    pose proof (bal_nonneg (bnk w) collateral_pool (hal_denom a)).
    pose proof (spendable_le (bnk w) addr (hal_denom a)). unfold at1, delta. case_bool_decide as Q; [|lia].
    injection Q as Q. rewrite <- Q in *. lia. }
  rewrite (wrap_bank_bind _ _ _ _ (World (kvs w) b1) _ _ E2). cbn [kvs bnk].
  destruct (half_run h Hh) as (d & p & -> & Ep & Ei).
  rewrite lift_bind, Ep, lift_bind, Ei, lift_bind.
  rewrite NewCoin_ok, lift_bind, NewCoins_run, lift_bind by (auto || lia).
  destruct (sendMM_run b2 CollateralPoolName RedeemPoolName (collateral_denom a) (h / 2)) as (b3 & E3 & M3);
    [apply A..| |].
  { fold collateral_pool. rewrite (issued1_bal _ _ _ _ _ _ _ _ I2), at1_ne by congruence.
    destruct paid; [rewrite (moves1_bal _ _ _ _ _ _ _ _ M1'), !at1_ne by congruence | subst b1]; lia. }
  rewrite (wrap_bank_bind _ _ _ _ (World (kvs w) b2) _ _ E3). cbn [kvs bnk].
  rewrite (M_bind_ok _ _ _ _ _ (GetParams_refines a (World (kvs w) b3) R)).
  destruct (SetRedeemRequest_refines a (World (kvs w) b3) _ R Hr) as (s' & E' & R').
  rewrite (M_bind_ok _ _ _ _ _ E'). eexists. split; [reflexivity|]. split; [|exact R'].
  eapply redeemed_intro; eassumption.
Qed.

(** ** [CreateTicket] *)

(** The price: one HAL per byte of the issue. *)
Definition ticket_cost (msg : MsgCreateTicket) : Z := u64 (len (MsgCreateTicket_Issue msg)).

Definition new_ticket a (rt : Runtime) (ctx : Context_) (msg : MsgCreateTicket) : Ticket :=
  stamp_ticket rt ctx (len (h_tickets a))
    (MkTicket (MsgCreateTicket_Author msg) (MsgCreateTicket_Issue msg) 0 []).

Lemma ticket_cost_nonneg msg : 0 <= ticket_cost msg.
Proof. apply u64_range. Qed.

Lemma CreateTicket_inv a rt ctx w msg resp w' :
  refines a (kvs w) -> CreateTicket rt ctx msg w = (Ok resp, w') ->
  exists addr,
    AccAddressFromBech32 (MsgCreateTicket_Creator msg) = Ok addr /\
    resp = MkMsgCreateTicketResponse (len (h_tickets a)) /\
    moves1 (bnk w) addr treasury (hal_denom a) (ticket_cost msg) (bnk w') /\
    (Ticket_ok (new_ticket a rt ctx msg) -> len (h_tickets a) + 1 < ticket_limit ->
     refines (push_ticket (new_ticket a rt ctx msg) a) (kvs w')).
Proof.
  intros R E. unfold CreateTicket in E. pure E as addr Ha. step E as params w1 Hp.
  rewrite (GetParams_refines a) in Hp by assumption. injection Hp as <- <-.
  pure E as coin Hc. step E as has w1 Hh. injection Hh as _ <-.
  destruct has; [cbn [negb] in E|discriminate]. pure E as cs Hcs. bank E as w1 M1 K1.
  step E as id w2 Ht. injection E as <- <-.
  destruct (NewCoin_inv _ _ _ Hc) as (z & Hz & -> & _ & _). injection Hz as <-.
  destruct (NewCoins_inv _ _ Hcs) as (z & Hz & _ & ->). cbn in Hz. injection Hz as <-.
  apply sendAM_ok in M1. assert (R1 : refines a (kvs w1)) by now rewrite K1.
  assert (Hb : bnk w2 = bnk w1 /\ id = len (h_tickets a)).
  { unfold AppendTicket in Ht. step Ht as n w3 Hn. rewrite (GetTicketCount_refines a) in Hn by assumption.
    injection Hn as <- <-. pure Ht as bz Hbz. now injection Ht as <- <-. }
  destruct Hb as [Hb ->]. exists addr.
  split; [eauto using creator_address_inv|]. split; [reflexivity|]. split; [rewrite Hb; exact M1|].
  intros Hok Hl. destruct (AppendTicket_refines a w1 rt ctx _ R1 Hok Hl) as (s' & E' & R').
  rewrite E' in Ht. now injection Ht as <-.
Qed.

(** C19: what [CreateTicket] by a valid creator does, in each case.  With an
    invalid HAL denomination it panics; a creator who holds less than one HAL
    per byte of the issue gets an error and nothing changes.  Without a
    treasury account, which is how [app/app_config.go] configures the app, it
    panics and stores nothing.  With one, a creator whose coins are locked gets
    an error and nothing changes; otherwise the price moves to the treasury,
    the ticket is stored under the next number with the block's metadata, and
    the number is returned. *)
Theorem CreateTicket_run a rt ctx w msg addr : refines a (kvs w) ->
  AccAddressFromBech32 (MsgCreateTicket_Creator msg) = Ok addr ->
  Ticket_ok (new_ticket a rt ctx msg) -> len (h_tickets a) + 1 < ticket_limit ->
  if negb (ValidateDenom (hal_denom a)) then
    exists p, CreateTicket rt ctx msg w = (Panic p, w)
  else if bal (bnk w) addr (hal_denom a) <? ticket_cost msg then
    CreateTicket rt ctx msg w = (Err (ErrWrap ErrInsufficientFunds "insufficient HAL tokens"), w)
  else if negb (registered TreasuryKey) then
    exists p w', CreateTicket rt ctx msg w = (Panic p, w') /\ kvs w' = kvs w
  else if spendable (bnk w) addr (hal_denom a) <? ticket_cost msg then
    CreateTicket rt ctx msg w = (Err (ErrWrap ErrInsufficientFunds "failed to deduct HAL tokens"), w)
  else exists w', CreateTicket rt ctx msg w = (Ok (MkMsgCreateTicketResponse (len (h_tickets a))), w') /\
    moves1 (bnk w) addr treasury (hal_denom a) (ticket_cost msg) (bnk w') /\
    refines (push_ticket (new_ticket a rt ctx msg) a) (kvs w').
Proof.
  intros R Ha Hok Hl. pose proof (ticket_cost_nonneg msg) as Hz0.
  unfold CreateTicket. rewrite (creator_address_run _ _ Ha), lift_bind. fold (ticket_cost msg).
  rewrite (M_bind_ok _ _ _ _ _ (GetParams_refines a w R)). fold (hal_denom a).
  destruct (ValidateDenom (hal_denom a)) eqn:Vh; cbn [negb].
  2: { destruct (NewCoin_denom (hal_denom a) (Some (ticket_cost msg)) Vh) as [p ->]. now exists p. }
  rewrite NewCoin_ok, lift_bind by assumption. erewrite bank_query_bind by now apply HasBalance_spec.
  rewrite Z.leb_antisym, negb_involutive. destruct (bal _ _ _ <? _); [reflexivity|].
  rewrite NewCoins_run, lift_bind by auto.
  destruct (registered TreasuryKey) eqn:Hm; cbn [negb].
  2: { destruct (sendAM_unregistered (bnk w) addr TreasuryKey (coins1 (hal_denom a) (ticket_cost msg)) Hm)
         as (p & b' & E). exists p, (World (kvs w) b'). split; [|reflexivity].
       apply M_bind_panic. unfold wrap_err, on_err, bank_op. now rewrite E. }
  destruct (sendAM_run (bnk w) addr TreasuryKey (hal_denom a) (ticket_cost msg) Hm Hz0)
    as (r & b1 & E1 & Sr & M1). rewrite Z.leb_antisym in M1.
  destruct (spendable _ _ _ <? _); cbn [negb] in M1.
  - destruct M1 as [N ->]. apply M_bind_err. unfold wrap_err, on_err, bank_op. rewrite E1, world_eta.
    destruct r as [[]|e| |]; try contradiction; reflexivity.
  - destruct M1 as [-> M1]. rewrite (wrap_bank_bind _ _ _ _ w _ _ E1).
    destruct (AppendTicket_refines a (World (kvs w) b1) rt ctx _ R Hok Hl) as (s' & E' & R').
    rewrite (M_bind_ok _ _ _ _ _ E'). eexists. split; [reflexivity|]. now split.
Qed.

(** Without a treasury account no ticket is ever created. *)
Lemma CreateTicket_unregistered rt ctx w msg resp w' : registered TreasuryKey = false ->
  CreateTicket rt ctx msg w <> (Ok resp, w').
Proof.
  intros Hm E. unfold CreateTicket in E. pure E as addr Ha. step E as params w1 Hp.
  pure E as coin Hc. step E as has w2 Hb.
  destruct has; [cbn [negb] in E|discriminate]. pure E as cs Hcs. bank E as w3 M1 K1.
  destruct (sendAM_unregistered (bnk w2) addr TreasuryKey cs Hm) as (p & b' & Ep). congruence.
Qed.

(** ** [UpdateParams] *)

Lemma UpdateParams_inv a k w req resp w' : refines a (kvs w) ->
  Params_ok (MsgUpdateParams_Params req) -> UpdateParams k req w = (Ok resp, w') ->
  authority k = MsgUpdateParams_Authority req /\ bnk w' = bnk w /\
  refines (set_params (MsgUpdateParams_Params req) a) (kvs w').
Proof.
  intros R Hp E. unfold UpdateParams in E. case_bool_decide as Hauth; [cbn [negb] in E|discriminate].
  step E as u w1 Hs. destruct resp. injection E as <-.
  destruct (SetParams_refines a w _ R Hp) as (s' & E' & R'). rewrite E' in Hs. destruct u. injection Hs as <-. auto.
Qed.
End handlers.
