(* ===== verification/EndBlock.v ===== *)
(** * The block hooks: [EndRedeeming] and [InvariantCheck]

    Which requests a block pays, what that does to balances and store, when
    the hook panics, and the exact condition of the supply check. *)

From S2P Require Import Prelude Wire Sdk PbParams PbTickets PbRedeemRequest Types World Keeper Store Bank Handlers.

Section end_block.
Context {S B : Type} `{KVStoreOk S} `{BankKeeperOk B} `{GogoOk} `{!SdkTypesOk} `{BinaryCodecOk}.
Implicit Types (a : hal) (w : world S B) (b : B) (r : RedeemRequest) (ctx : Context_).

(** ** Payments *)

(** A request whose time has passed. *)
Definition matured ctx r : bool := RedeemRequest_Completiontime r <? BlockTime ctx.

Definition payee r : option AccAddress :=
  match AccAddressFromBech32 (RedeemRequest_Account r) with Ok x => Some x | _ => None end.

Definition amount r : Z := default 0 (Amount (RedeemRequest_Collateral r)).

Lemma amount_some r z : Amount (RedeemRequest_Collateral r) = Some z -> amount r = z.
Proof. unfold amount. now intros ->. Qed.

(** What the requests [ps] pay to [x] in [d], and in total. *)
Definition paid_to (ps : list RedeemRequest) (x : AccAddress) (d : gostring) : Z :=
  foldr (fun r n => delta (bool_decide (payee r = Some x /\ Denom (RedeemRequest_Collateral r) = d)) (amount r) + n) 0 ps.
Definition total (ps : list RedeemRequest) (d : gostring) : Z :=
  foldr (fun r n => delta (bool_decide (Denom (RedeemRequest_Collateral r) = d)) (amount r) + n) 0 ps.

(** [ps] are paid out of the redeem pool. *)
Definition settled (ps : list RedeemRequest) b b' : Prop :=
  (forall x d, bal b' x d = bal b x d + paid_to ps x d - delta (bool_decide (x = redeem_pool)) (total ps d)) /\
  (forall d, supply b' d = supply b d).

Definition drop_requests (ps : list RedeemRequest) a : hal :=
  foldl (fun a r => drop_request (RedeemRequest_Account r) a) a ps.

Lemma settled_nil b : settled [] b b.
Proof. split; intros; unfold paid_to, total, delta; cbn; [case_bool; lia | reflexivity]. Qed.

Lemma pay_at1 x y d d' z : delta (bool_decide (Some x = Some y /\ d = d')) z = at1 (y, d') (x, d) z.
Proof.
  unfold at1, delta. rewrite (bool_decide_ext (Some x = Some y /\ d = d') ((y, d') = (x, d))); [reflexivity|].
  split; [intros [E ->]; now injection E as -> | intros E; now injection E as -> ->].
Qed.

Lemma settled_cons r x z ps b b1 b2 :
  payee r = Some x -> Amount (RedeemRequest_Collateral r) = Some z ->
  moves1 b redeem_pool x (Denom (RedeemRequest_Collateral r)) z b1 ->
  settled ps b1 b2 -> settled (r :: ps) b b2.
Proof.
  intros Hx Hz M [E Es]. split.
  - intros y d. rewrite E, (moves1_bal _ _ _ _ _ _ y d M). unfold paid_to, total. cbn [foldr].
    fold (paid_to ps y d) (total ps d). rewrite (amount_some r z Hz), Hx.
    rewrite pay_at1, (at1_bools y redeem_pool). unfold delta. destruct (bool_decide (y = redeem_pool)); lia.
  - intros d. now rewrite Es, (moves1_supply _ _ _ _ _ _ d M).
Qed.

(** ** One request *)

(** A request is left alone, or it is mature and paid in full and removed. *)
Lemma end_redeeming_one_inv ctx r w u w' : end_redeeming_one ctx r w = (Ok u, w') ->
  w' = w \/
  exists x z, matured ctx r = true /\ payee r = Some x /\ Amount (RedeemRequest_Collateral r) = Some z /\ 0 < z /\
    moves1 (bnk w) redeem_pool x (Denom (RedeemRequest_Collateral r)) z (bnk w') /\
    kvs w' = kv_delete (kvs w) (redeem_key (RedeemRequest_Account r)).
Proof.
  unfold end_redeeming_one, matured, payee. case_bool; [|intros Er; left; now injection Er as _ <-].
  unfold on_err at 1. unfold lift at 1. pose proof (AccAddressFromBech32_safe (RedeemRequest_Account r)) as Hs.
  destruct (AccAddressFromBech32 _) as [x|e| |]; try contradiction; [|intros Er; left; now injection Er as _ <-].
  set (d := Denom (RedeemRequest_Collateral r)) in *.
  destruct (ValidateDenom d) eqn:V; [rewrite (bank_query_bind _ _ _ _ (GetBalance_spec _ x d V))|].
  2: { destruct (GetBalance_denom (bnk w) x d V) as [p Ep]. now rewrite (bank_query_panic _ _ _ _ Ep). }
  intros Er. pure Er as cs Hcs. destruct (NewCoins_inv _ _ Hcs) as (z & Hz & Hz0 & ->).
  unfold on_err, bank_op in Er.
  destruct (SendCoinsFromModuleToAccount _ _ _ _) as [[[]|e| |] b1] eqn:Es; try discriminate.
  2: { left. injection Er as _ <-. apply sendMA_fail in Es; [|apply single_coins1]. subst. apply world_eta. }
  apply sendMA_ok in Es. fold redeem_pool in Es.
  rewrite (bank_query_bind _ _ (World (kvs w) b1) _ (GetBalance_spec b1 x d V)) in Er.
  cbn [bnk Amount] in Er. rewrite Int_GT_spec, lift_bind in Er.
  destruct (bal (bnk w) x d <? bal b1 x d) eqn:G1; [cbn [negb] in Er|discriminate]. zify_bools.
  right. exists x, z. injection Er as _ <-. cbn. repeat split; try assumption; try apply Es.
  rewrite (moves1_bal _ _ _ _ _ _ x d Es), at1_self in G1. revert G1. unfold at1, delta. case_bool; lia.
Qed.

(** It returns or panics. *)
Lemma NewCoins_total c : (exists cs, NewCoins [c] = Ok cs) \/ (exists p, NewCoins [c] = Panic p).
Proof.
  destruct c as [d [z|]]; [|right; apply NewCoins_nil].
  destruct (Z.lt_ge_cases z 0); [right; now apply NewCoins_neg|].
  destruct (Z.eq_dec z 0) as [->|N]; [left; eauto using NewCoins_zero|].
  destruct (ValidateDenom d) eqn:V; [left; eexists; apply NewCoins_pos; auto; lia|].
  right. now apply NewCoins_denom.
Qed.

Lemma end_redeeming_one_ends ctx r w : accounts_ok (B:=B) ->
  match (end_redeeming_one ctx r w).1 with Ok _ | Panic _ => True | Err _ | Fuel => False end.
Proof.
  intros A. unfold end_redeeming_one. case_bool; [|exact I].
  unfold on_err at 1. unfold lift at 1. pose proof (AccAddressFromBech32_safe (RedeemRequest_Account r)) as Hs.
  destruct (AccAddressFromBech32 _) as [x|e| |]; try contradiction; [|exact I].
  destruct (ValidateDenom (Denom (RedeemRequest_Collateral r))) eqn:V;
    [erewrite bank_query_bind by now apply GetBalance_spec|].
  2: { destruct (GetBalance_denom (bnk w) x _ V) as [p Ep]. now rewrite (bank_query_panic _ _ _ _ Ep). }
  destruct (NewCoins_total (RedeemRequest_Collateral r)) as [[cs ->]|[p ->]]; [rewrite lift_bind | exact I].
  unfold on_err, bank_op.
  destruct (sendMA_total (bnk w) RedeemPoolName x cs (redeem_registered A)) as (res & b1 & -> & Hr & _).
  destruct res as [[]|e| |]; try contradiction; [|exact I].
  erewrite bank_query_bind by now apply GetBalance_spec. cbn [Amount]. rewrite Int_GT_spec, lift_bind. now case_bool.
Qed.

Lemma end_redeeming_one_total ctx r w : accounts_ok (B:=B) ->
  (exists w', end_redeeming_one ctx r w = (Ok tt, w')) \/ (exists p w', end_redeeming_one ctx r w = (Panic p, w')).
Proof.
  intros A. pose proof (end_redeeming_one_ends ctx r w A) as T.
  destruct (end_redeeming_one ctx r w) as [[[]| | |] w']; cbn in T; try contradiction; eauto.
Qed.

(** A mature request for nothing makes the hook panic. *)
Lemma end_redeeming_one_zero ctx r w x : accounts_ok (B:=B) -> matured ctx r = true -> payee r = Some x ->
  blocked x = false -> Amount (RedeemRequest_Collateral r) = Some 0 ->
  exists p w', end_redeeming_one ctx r w = (Panic p, w').
Proof.
  intros A Hm Hp Hb Hz. destruct (end_redeeming_one_total ctx r w A) as [[w' E]|E]; [exfalso|assumption].
  destruct (end_redeeming_one_inv _ _ _ _ _ E) as [->|(? & z & _ & _ & Hz' & ? & _)];
    [|rewrite Hz in Hz'; injection Hz' as <-; lia].
  revert E. unfold end_redeeming_one. unfold matured in Hm. rewrite Hm.
  unfold payee in Hp. destruct (AccAddressFromBech32 _) as [y| | |]; try discriminate. injection Hp as ->.
  unfold on_err at 1. unfold lift at 1. destruct (RedeemRequest_Collateral r) as [d am]. cbn in Hz. subst am.
  cbn [Denom]. destruct (ValidateDenom d) eqn:V; [rewrite (bank_query_bind _ _ _ _ (GetBalance_spec _ x d V))|].
  2: { destruct (GetBalance_denom (bnk w) x d V) as [p Ep]. now rewrite (bank_query_panic _ _ _ _ Ep). }
  rewrite NewCoins_zero, lift_bind. unfold on_err, bank_op.
  destruct (sendMA_run (bnk w) RedeemPoolName x d 0) as (b1 & E1 & M1); [apply A | | assumption |].
  { pose proof (bal_nonneg (bnk w) (GetModuleAddress RedeemPoolName) d). lia. }
  change (coins1 d 0) with (@nil Coin) in E1. rewrite E1.
  rewrite (bank_query_bind _ _ (World (kvs w) b1) _ (GetBalance_spec b1 x d V)).
  cbn [Amount Denom bnk]. rewrite Int_GT_spec, lift_bind.
  rewrite (moves1_bal _ _ _ _ _ _ _ _ M1). unfold at1, delta.
  rewrite (proj2 (Z.ltb_ge _ _)) by (repeat case_bool; lia). discriminate.
Qed.

Lemma end_redeeming_loop_panic ctx l w r x : accounts_ok (B:=B) -> r ∈ l -> matured ctx r = true ->
  payee r = Some x -> blocked x = false -> Amount (RedeemRequest_Collateral r) = Some 0 ->
  exists p w', end_redeeming_loop ctx l w = (Panic p, w').
Proof.
  intros A Hr Hm Hp Hb Hz. revert w. induction l as [|r' l IH]; intros w; [now apply not_elem_of_nil in Hr|].
  cbn [end_redeeming_loop]. apply elem_of_cons in Hr. destruct Hr as [<-|Hr].
  - destruct (end_redeeming_one_zero ctx r w x A Hm Hp Hb Hz) as (p & w' & E).
    rewrite (M_bind_panic _ _ _ _ _ E). eauto.
  - destruct (end_redeeming_one_total ctx r' w A) as [[w' E]|(p & w' & E)].
    + rewrite (M_bind_ok _ _ _ _ _ E). auto.
    + rewrite (M_bind_panic _ _ _ _ _ E). eauto.
Qed.

(** ** When everything can be paid *)

Definition payable r : Prop := exists x z, payee r = Some x /\ blocked x = false /\ x <> redeem_pool /\
  Amount (RedeemRequest_Collateral r) = Some z /\ 0 < z /\ ValidateDenom (Denom (RedeemRequest_Collateral r)) = true.

Lemma end_redeeming_one_run ctx r w : accounts_ok (B:=B) -> matured ctx r = true -> payable r ->
  amount r <= bal (bnk w) redeem_pool (Denom (RedeemRequest_Collateral r)) ->
  exists x w', payee r = Some x /\ x <> redeem_pool /\ end_redeeming_one ctx r w = (Ok tt, w') /\
    moves1 (bnk w) redeem_pool x (Denom (RedeemRequest_Collateral r)) (amount r) (bnk w') /\
    kvs w' = kv_delete (kvs w) (redeem_key (RedeemRequest_Account r)).
Proof.
  intros A Hm (x & z & Hx & Hb & Hne & Hz & Hz0 & V) Hbal. exists x.
  pose proof (amount_some r z Hz) as Ez. rewrite Ez in *.
  destruct (sendMA_run (bnk w) RedeemPoolName x (Denom (RedeemRequest_Collateral r)) z) as (b1 & E1 & M1);
    [apply A | fold redeem_pool; lia | assumption |]. fold redeem_pool in M1.
  exists (World (kv_delete (kvs w) (redeem_key (RedeemRequest_Account r))) b1).
  split; [assumption|]. split; [assumption|]. split; [|split; [exact M1 | reflexivity]].
  unfold end_redeeming_one. unfold matured in Hm. rewrite Hm.
  unfold payee in Hx. destruct (AccAddressFromBech32 _) as [y| | |]; try discriminate. injection Hx as ->.
  unfold on_err at 1. unfold lift at 1.
  destruct (RedeemRequest_Collateral r) as [d am]. cbn in Hz, V, E1, M1 |- *. subst am.
  rewrite (bank_query_bind _ _ _ _ (GetBalance_spec _ x d V)).
  rewrite NewCoins_run, lift_bind by (auto || lia). unfold on_err, bank_op. rewrite E1.
  rewrite (bank_query_bind _ _ (World (kvs w) b1) _ (GetBalance_spec b1 x d V)).
  cbn [Amount bnk]. rewrite Int_GT_spec, lift_bind.
  rewrite (moves1_bal _ _ _ _ _ _ _ _ M1), at1_self. unfold at1 at 1.
  rewrite bool_decide_eq_false_2 by congruence. cbn [delta].
  rewrite (proj2 (Z.ltb_lt _ _)) by lia. reflexivity.
Qed.

Lemma total_cons r ps d : total (r :: ps) d =
  delta (bool_decide (Denom (RedeemRequest_Collateral r) = d)) (amount r) + total ps d.
Proof. reflexivity. Qed.

Lemma total_nonneg ps d : Forall (fun r => 0 <= amount r) ps -> 0 <= total ps d.
Proof.
  induction 1 as [|r ps Hr _ IH]; [reflexivity|]. rewrite total_cons. unfold delta. case_bool; lia.
Qed.

Lemma total_Permutation ps qs d : ps ≡ₚ qs -> total ps d = total qs d.
Proof. induction 1; rewrite ?total_cons in *; lia. Qed.

(** A request that is not mature, or not of an account, is skipped. *)
Lemma end_redeeming_one_skip ctx r w : matured ctx r = false -> end_redeeming_one ctx r w = (Ok tt, w).
Proof. unfold matured, end_redeeming_one. now intros ->. Qed.

Lemma end_redeeming_one_stranger ctx r w : payee r = None -> end_redeeming_one ctx r w = (Ok tt, w).
Proof.
  unfold payee, end_redeeming_one. case_bool; [|reflexivity].
  pose proof (AccAddressFromBech32_safe (RedeemRequest_Account r)) as Hs. unfold on_err at 1. unfold lift at 1.
  now destruct (AccAddressFromBech32 _) as [x|e| |].
Qed.

(** ** What is due *)

(** The mature requests for a positive amount. *)
Definition due ctx (l : list RedeemRequest) : list RedeemRequest :=
  List.filter (fun r => matured ctx r && (0 <? amount r)) l.

(** The redeem pool holds what is due. *)
Definition covered ctx (l : list RedeemRequest) b : Prop := forall d, total (due ctx l) d <= bal b redeem_pool d.

Lemma due_nonneg ctx l d : 0 <= total (due ctx l) d.
Proof.
  apply total_nonneg, Forall_forall. intros r Hr. apply list_elem_of_In, filter_In in Hr. zify_bools. lia.
Qed.

Lemma due_cons ctx r l d : total (due ctx (r :: l)) d =
  delta (matured ctx r && (0 <? amount r) && bool_decide (Denom (RedeemRequest_Collateral r) = d)) (amount r) + total (due ctx l) d.
Proof.
  unfold due. cbn [List.filter]. destruct (matured ctx r && (0 <? amount r)); cbn [andb]; [apply total_cons | reflexivity].
Qed.

(** What is due of a payable request, and the pool after a payment. *)
Lemma covered_head ctx r l b : covered ctx (r :: l) b -> matured ctx r = true -> 0 < amount r ->
  amount r <= bal b redeem_pool (Denom (RedeemRequest_Collateral r)).
Proof.
  intros C Hm Hz. specialize (C (Denom (RedeemRequest_Collateral r))). rewrite due_cons, Hm in C.
  rewrite (proj2 (Z.ltb_lt _ _) Hz), bool_decide_eq_true_2 in C by reflexivity. cbn [andb delta] in C.
  pose proof (due_nonneg ctx l (Denom (RedeemRequest_Collateral r))). lia.
Qed.

Lemma covered_skip ctx r l b : covered ctx (r :: l) b -> covered ctx l b.
Proof.
  intros C d. specialize (C d). rewrite due_cons in C. destruct (Z.ltb_spec 0 (amount r)).
  - unfold delta in C. destruct (matured ctx r), (bool_decide _); cbn in C; lia.
  - now rewrite andb_false_r in C.
Qed.

Lemma covered_paid ctx r l x b b' : covered ctx (r :: l) b -> matured ctx r = true -> 0 < amount r ->
  moves1 b redeem_pool x (Denom (RedeemRequest_Collateral r)) (amount r) b' -> covered ctx l b'.
Proof.
  intros C Hm Hz M d. specialize (C d). rewrite due_cons, Hm, (proj2 (Z.ltb_lt _ _) Hz) in C. cbn [andb] in C.
  rewrite (moves1_bal _ _ _ _ _ _ redeem_pool d M), !at1_bools, bool_decide_eq_true_2 by reflexivity.
  unfold delta in *. repeat case_bool; lia.
Qed.

Lemma moves1_nonzero b x y d z : z <> 0 -> x <> y -> ~ moves1 b x y d z b.
Proof.
  intros Hz N M. pose proof (moves1_bal _ _ _ _ _ _ x d M) as E.
  rewrite at1_self, at1_other in E by assumption. lia.
Qed.

Lemma payable_pos r : payable r -> 0 < amount r.
Proof. intros (x & z & _ & _ & _ & Hz & ? & _). now rewrite (amount_some r z Hz). Qed.

(** The paid requests are in the list, mature, for a positive amount and of an
    account; when the pool covers what is due, every payable one is paid. *)
Lemma end_redeeming_loop_inv ctx l a w u w' : refines a (kvs w) -> end_redeeming_loop ctx l w = (Ok u, w') ->
  exists ps, ps `sublist_of` l /\
    Forall (fun r => matured ctx r = true /\ 0 < amount r /\ is_Some (payee r)) ps /\
    refines (drop_requests ps a) (kvs w') /\ settled ps (bnk w) (bnk w') /\
    (accounts_ok (B:=B) -> covered ctx l (bnk w) -> forall r, r ∈ l -> matured ctx r = true -> payable r -> r ∈ ps).
Proof.
  revert a w. induction l as [|r l IH]; intros a w R E.
  - injection E as _ <-. exists []. do 4 (split; [eauto using settled_nil|]). auto.
  - cbn [end_redeeming_loop] in E. step E as u1 w1 E1.
    destruct (end_redeeming_one_inv _ _ _ _ _ E1) as [->|(x & z & Hm & Hp & Hz & Hz0 & M & K1)].
    + destruct (IH a w R E) as (ps & Hs & Hf & R' & St & L). exists ps.
      do 4 (split; [eauto using sublist_cons|]). intros A C q Hq Hm Hp.
      apply elem_of_cons in Hq as [->|Hq]; [exfalso | now apply L; eauto using covered_skip].
      pose proof (payable_pos r Hp) as Hz.
      destruct (end_redeeming_one_run ctx r w A Hm Hp (covered_head _ _ _ _ C Hm Hz)) as (x & w2 & _ & Hx & E2 & M & _).
      assert (w2 = w) by congruence. subst w2. revert M. apply moves1_nonzero; [lia | congruence].
    + rewrite <-(amount_some r z Hz) in Hz0, M.
      destruct (IH (drop_request (RedeemRequest_Account r) a) w1) as (ps & Hs & Hf & R' & St & L);
        [rewrite K1; now apply refines_drop_request | assumption |].
      exists (r :: ps). split; [now constructor|]. split; [constructor; [eauto | assumption]|].
      split; [assumption|]. split; [rewrite (amount_some r z Hz) in M; eauto using settled_cons|].
      intros A C q Hq Hmq Hpq. apply elem_of_cons in Hq as [->|Hq]; [now left|]. right. eauto using covered_paid.
Qed.

(** When the pool covers what is due and every mature request of an account
    can be paid, the loop ends. *)
Lemma end_redeeming_loop_run ctx l w : accounts_ok (B:=B) -> covered ctx l (bnk w) ->
  Forall (fun r => matured ctx r = true -> payee r = None \/ payable r) l ->
  exists w', end_redeeming_loop ctx l w = (Ok tt, w').
Proof.
  intros A. revert w. induction l as [|r l IH]; intros w C Hl; [eauto|].
  inversion_clear Hl as [|? ? Hr Hl']. cbn [end_redeeming_loop].
  destruct (matured ctx r) eqn:Hm;
    [|rewrite (M_bind_ok _ _ _ _ _ (end_redeeming_one_skip ctx r w Hm)); eauto using covered_skip].
  destruct (Hr eq_refl) as [Hn|Hp].
  - rewrite (M_bind_ok _ _ _ _ _ (end_redeeming_one_stranger ctx r w Hn)). eauto using covered_skip.
  - pose proof (payable_pos r Hp) as Hz.
    destruct (end_redeeming_one_run ctx r w A Hm Hp (covered_head _ _ _ _ C Hm Hz)) as (x & w1 & _ & _ & E1 & M1 & _).
    rewrite (M_bind_ok _ _ _ _ _ E1). eauto using covered_paid.
Qed.

Lemma end_redeeming_loop_total ctx l w : accounts_ok (B:=B) ->
  (exists w', end_redeeming_loop ctx l w = (Ok tt, w')) \/ (exists p w', end_redeeming_loop ctx l w = (Panic p, w')).
Proof.
  intros A. revert w. induction l as [|r l IH]; intros w; [eauto|]. cbn [end_redeeming_loop].
  destruct (end_redeeming_one_total ctx r w A) as [[w' E]|(p & w' & E)];
    [rewrite (M_bind_ok _ _ _ _ _ E); auto | rewrite (M_bind_panic _ _ _ _ _ E); eauto].
Qed.

(** ** The requests that remain *)

Lemma drop_requests_fields ps a : h_params (drop_requests ps a) = h_params a /\
  h_tickets (drop_requests ps a) = h_tickets a.
Proof. revert a. induction ps as [|r ps IH]; intros a; [auto|]. apply (IH (drop_request (RedeemRequest_Account r) a)). Qed.

Lemma drop_requests_lookup ps a account : h_requests (drop_requests ps a) !! account =
  if decide (account ∈ RedeemRequest_Account <$> ps) then None else h_requests a !! account.
Proof.
  revert a. induction ps as [|r ps IH]; intros a; [reflexivity|]. cbn [drop_requests foldl].
  fold (drop_requests ps (drop_request (RedeemRequest_Account r) a)). rewrite IH. cbn [drop_request h_requests].
  rewrite fmap_cons, lookup_delete. destruct (decide (account ∈ RedeemRequest_Account <$> ps)) as [C1|C1],
    (decide (account ∈ RedeemRequest_Account r :: (RedeemRequest_Account <$> ps))) as [C2|C2]; rewrite elem_of_cons in C2.
  - reflexivity.
  - tauto.
  - case_decide; [reflexivity|]. destruct C2 as [->|]; [congruence | contradiction].
  - case_decide as C3; [|reflexivity]. subst. tauto.
Qed.

(** ** Which requests are paid *)

(** The parameters never pose as a request that is paid: the bytes they put in
    place of the account are not an address. *)
Lemma params_stranger p r : Params_ok p -> decode (Params_enc p) = Some r -> payee r = None.
Proof.
  intros [_ Hl] D. unfold payee. destruct (decode_params p r Hl D) as [t ->]. cbn.
  destruct (duration_enc (RedeemDur p)) as [|c s] eqn:Ed.
  - destruct AccAddressFromBech32_empty as [e ->]. reflexivity.
  - destruct (AccAddressFromBech32_control c s) as [e ->]; [|reflexivity].
    destruct (duration_tag _ _ _ Ed) as [->| ->]; lia.
Qed.

Lemma params_amount p r : Params_ok p -> decode (Params_enc p) = Some r -> amount r = 0.
Proof. intros [_ Hl] D. now destruct (decode_params p r Hl D) as [t ->]. Qed.

(** The requests a block can pay: the stored ones and the one ticket 0 reads as. *)
Definition listed a : list RedeemRequest := posing a ++ (map_to_list (h_requests a)).*2.

Lemma listed_stranger a l r : hal_ok a -> l ≡ₚ confused a ++ (map_to_list (h_requests a)).*2 -> r ∈ l ->
  r ∈ listed a \/ payee r = None.
Proof.
  intros Ha P Hr. rewrite P in Hr. unfold confused in Hr. rewrite <- app_assoc in Hr. fold (listed a) in Hr.
  apply elem_of_app in Hr as [Hr|Hr]; [right | now left]. apply elem_of_option_list in Hr.
  destruct (h_params a) as [p|] eqn:Ep; [|discriminate]. exact (params_stranger p r (ok_params a Ha p Ep) Hr).
Qed.

Lemma paid_listed a l ps : hal_ok a -> l ≡ₚ confused a ++ (map_to_list (h_requests a)).*2 ->
  ps `sublist_of` l -> Forall (fun r => is_Some (payee r)) ps -> ps ⊆+ listed a.
Proof.
  intros Ha P Hs Hf. apply sublist_submseteq in Hs. rewrite P in Hs. unfold confused in Hs.
  rewrite <- app_assoc in Hs. fold (listed a) in Hs.
  destruct (h_params a) as [p|] eqn:Ep; [|exact Hs]. cbn in Hs.
  destruct (decode (Params_enc p)) as [r|] eqn:D; [|exact Hs]. cbn in Hs.
  apply submseteq_cons_r in Hs as [Hs|(ps' & E & _)]; [exact Hs | exfalso].
  rewrite E in Hf. apply Forall_cons in Hf as [[x Hx] _].
  rewrite (params_stranger p r (ok_params a Ha p Ep) D) in Hx. discriminate.
Qed.

Lemma listed_requests a : h_tickets a = [] -> listed a = (map_to_list (h_requests a)).*2.
Proof. unfold listed, posing. now intros ->. Qed.

Lemma requests_stored a r : hal_ok a -> r ∈ (map_to_list (h_requests a)).*2 ->
  h_requests a !! RedeemRequest_Account r = Some r.
Proof.
  intros Ha Hr. apply list_elem_of_fmap in Hr as ([account r'] & -> & Hr). apply elem_of_map_to_list in Hr.
  destruct (ok_request a Ha _ _ Hr) as [_ <-]. exact Hr.
Qed.

(** What is due does not depend on values that are no account's. *)
Lemma covered_listed ctx a l b : hal_ok a -> l ≡ₚ confused a ++ (map_to_list (h_requests a)).*2 ->
  covered ctx (listed a) b -> covered ctx l b.
Proof.
  intros Ha P C d. unfold confused in P. rewrite <- app_assoc in P. fold (listed a) in P.
  assert (E : total (due ctx l) d = total (due ctx (option_list (h_params a ≫= decode ∘ Params_enc) ++ listed a)) d)
    by (unfold due; now apply total_Permutation, filter_bool_Permutation).
  rewrite E. destruct (h_params a) as [p|] eqn:Ep; [|apply C].
  change ((Some p ≫= decode ∘ Params_enc)) with (decode (Params_enc p)).
  destruct (decode (Params_enc p)) as [r|] eqn:D; [|apply C].
  change (option_list (Some r) ++ listed a) with (r :: listed a). rewrite due_cons, (params_amount p r) by (apply (ok_params a Ha p Ep) || assumption).
  rewrite andb_false_r. cbn [andb delta]. apply C.
Qed.

(** The accounts of the listed requests are the keys. *)
Lemma requests_accounts a l : hal_ok a -> l ≡ₚ (map_to_list (h_requests a)).*2 ->
  RedeemRequest_Account <$> l ≡ₚ (map_to_list (h_requests a)).*1.
Proof.
  intros Ha P. rewrite P, <- list_fmap_compose. apply reflexive_eq, list_fmap_ext. intros i [account r] Hi.
  apply list_elem_of_lookup_2, elem_of_map_to_list in Hi. now destruct (ok_request a Ha _ _ Hi).
Qed.

(** ** [InvariantCheck] *)

(** The collateral held for HAL holders and redeemers. *)
Definition pooled a b : Z :=
  bal b collateral_pool (collateral_denom a) + bal b redeem_pool (collateral_denom a).

(** Redeeming moves collateral between the pools. *)
Lemma pooled_redeemed a addr h paid b b' : hal_denom a <> collateral_denom a ->
  redeemed a addr h paid b b' -> pooled a b' = pooled a b.
Proof.
  intros Hne [E _]. unfold pooled. rewrite !E. rewrite !(at1_ne _ _ (hal_denom a)) by congruence.
  destruct (decide (collateral_pool = redeem_pool)) as [Q|Q]; [rewrite Q; lia|].
  rewrite !at1_self, !at1_other by congruence. lia.
Qed.

Lemma redeemed_pool a addr h paid b b' : hal_denom a <> collateral_denom a -> collateral_pool <> redeem_pool ->
  redeemed a addr h paid b b' ->
  bal b' redeem_pool (collateral_denom a) = bal b redeem_pool (collateral_denom a) + h / 2.
Proof.
  intros Hne Hpp [E _]. rewrite E, at1_self, at1_ne, at1_other by congruence. lia.
Qed.

(** What makes the check panic: HAL exist, and a denomination is not valid, or
    an amount it computes does not fit its type, or the supply of HAL is below
    twice the pooled collateral. *)
Definition check_panics a b : bool :=
  negb (supply b (hal_denom a) =? 0) &&
  (negb (ValidateDenom (collateral_denom a)) || negb (ValidateDenom (hal_denom a)) ||
   (maxDec <=? 2 * pooled a b * precision) || (maxInt <=? Z.abs (supply b (hal_denom a) - 2 * pooled a b)) ||
   (supply b (hal_denom a) <? 2 * pooled a b)).

Lemma pooled_nonneg a b : 0 <= pooled a b.
Proof.
  unfold pooled. pose proof (bal_nonneg b collateral_pool (collateral_denom a)).
  pose proof (bal_nonneg b redeem_pool (collateral_denom a)). lia.
Qed.

(** The sum of the two balances is a coin or too large for one. *)
Lemma pool_sum a b :
  let sum := Coin_Add (MkCoin (collateral_denom a) (Some (bal b collateral_pool (collateral_denom a))))
                      (MkCoin (collateral_denom a) (Some (bal b redeem_pool (collateral_denom a)))) in
  if pooled a b <? maxInt then sum = Ok (MkCoin (collateral_denom a) (Some (pooled a b)))
  else exists p, sum = Panic p.
Proof.
  intros sum. subst sum. pose proof (pooled_nonneg a b) as Hp. destruct (pooled a b <? maxInt) eqn:L; zify_bools;
    unfold pooled in *; [apply Coin_Add_spec; lia | apply Coin_Add_big; lia].
Qed.

Lemma InvariantCheck_run a w : refines a (kvs w) ->
  exists p, InvariantCheck w = (if check_panics a (bnk w) then Panic p else Ok tt, w).
Proof.
  intros R. unfold InvariantCheck, check_panics. rewrite (M_bind_ok _ _ _ _ _ (GetParams_refines a w R)).
  fold (hal_denom a) (collateral_denom a). rewrite bank_get_bind, HasSupply_spec, negb_involutive.
  destruct (supply (bnk w) (hal_denom a) =? 0); cbn [negb andb]; [exists PNilDeref; reflexivity|].
  destruct (ValidateDenom (collateral_denom a)) eqn:Vc; cbn [negb orb].
  2: { destruct (GetBalance_denom (bnk w) collateral_pool _ Vc) as [p Ep]. exists p.
       now rewrite (bank_query_panic _ _ _ _ Ep). }
  rewrite (bank_query_bind _ _ _ _ (GetBalance_spec _ collateral_pool _ Vc)).
  rewrite (bank_query_bind _ _ _ _ (GetBalance_spec _ redeem_pool _ Vc)).
  pose proof (pooled_nonneg a (bnk w)) as Hp.
  destruct (maxDec <=? 2 * pooled a (bnk w) * precision) eqn:Hb; zify_bools.
  - rewrite orb_true_r. cbn [orb]. pose proof (pool_sum a (bnk w)) as Es. cbn zeta in Es.
    destruct (pooled a (bnk w) <? maxInt); [|destruct Es as [p ->]; now exists p].
    rewrite Es, lift_bind. cbn [Amount]. destruct (double_big (pooled a (bnk w)) Hp Hb) as (d & p & -> & Ep).
    exists p. now rewrite lift_bind, Ep.
  - pose proof (pool_sum a (bnk w)) as Es. cbn zeta in Es.
    rewrite (proj2 (Z.ltb_lt _ _)) in Es by (unfold precision, maxDec, maxInt in *; lia).
    rewrite Es, lift_bind. cbn [Amount].
    destruct (double_run (pooled a (bnk w))) as (d & p & -> & Ep & Ei); [assumption..|].
    rewrite lift_bind, Ep, lift_bind.
    destruct (ValidateDenom (hal_denom a)) eqn:Vh; cbn [negb orb].
    2: { destruct (GetSupply_denom (bnk w) _ Vh) as [q Eq]. exists q. now rewrite (bank_query_panic _ _ _ _ Eq). }
    rewrite (bank_query_bind _ _ _ _ (GetSupply_spec _ _ Vh)), Ei, lift_bind. cbn [Amount].
    destruct (maxInt <=? _) eqn:Hd; zify_bools.
    { destruct (Int_Sub_big _ _ Hd) as [q ->]. now exists q. }
    rewrite Int_Sub_spec, lift_bind, Int_IsNegative_spec, lift_bind by assumption.
    destruct (supply (bnk w) (hal_denom a) <? 2 * pooled a (bnk w)) eqn:L; zify_bools.
    + rewrite (proj2 (Z.ltb_lt _ _)) by lia. eexists. reflexivity.
    + rewrite (proj2 (Z.ltb_ge _ _)) by lia. exists PNilDeref. reflexivity.
Qed.
End end_block.
