(* ===== verification/Chain.v ===== *)
(** * The module in a chain

    Transactions ([ValidateBasic], then the handler, with rollback), the block
    hooks of [x/hal/module/module.go], genesis, and the runs they make up.
    The abstract machine [astep] moves between states of [Store]; every run of
    the chain is simulated by it. *)

From S2P Require Import Prelude Wire Sdk PbParams PbTickets PbRedeemRequest PbGenesis PbTx.
From S2P Require Import Types World Keeper MsgServer Store Bank Handlers EndBlock.

(** ** [x/hal/module/module.go] *)

Section module_.
Context {S B : Type} `{KVStore S} `{BankKeeper B} `{Gogo} `{SdkTypes} `{BinaryCodec}.

Definition ConsensusVersion : Z := 1.

Definition BeginBlock (ctx : Context_) : M S B unit :=
  on_err (BeginBlocker ctx) (fun err => lift (Err err)) (fun _ => mret tt).
Definition EndBlock (ctx : Context_) : M S B unit :=
  on_err (EndBlocker ctx) (fun err => lift (Err err)) (fun _ => mret tt).

(** [authtypes.NewModuleAddress] and [NewModuleAddressOrBech32Address] are
    parameters, as is the name of the gov module. *)
Definition ProvideModule (NewModuleAddress NewModuleAddressOrBech32Address : gostring -> AccAddress)
    (gov_ModuleName Config_Authority : gostring) : res Keeper :=
  let authority := NewModuleAddress gov_ModuleName in
  let authority := if negb (bool_decide (Config_Authority = []))
                   then NewModuleAddressOrBech32Address Config_Authority else authority in
  NewKeeper (AccAddress_String authority).

(** ** Transactions *)

Inductive tx :=
| TxUpdateParams (msg : MsgUpdateParams)
| TxMintHal (msg : MsgMintHal)
| TxRedeemCollateral (msg : MsgRedeemCollateral)
| TxCreateTicket (msg : MsgCreateTicket).

Definition validate_basic (t : tx) : res unit :=
  match t with
  | TxUpdateParams msg => MsgUpdateParams_ValidateBasic msg
  | TxMintHal msg => MsgMintHal_ValidateBasic msg
  | TxRedeemCollateral msg => MsgRedeemCollateral_ValidateBasic msg
  | TxCreateTicket msg => MsgCreateTicket_ValidateBasic msg
  end.

Definition handle (k : Keeper) (rt : Runtime) (ctx : Context_) (t : tx) : M S B unit :=
  match t with
  | TxUpdateParams msg => _ ← UpdateParams k msg; mret tt
  | TxMintHal msg => _ ← MintHal msg; mret tt
  | TxRedeemCollateral msg => _ ← RedeemCollateral rt msg; mret tt
  | TxCreateTicket msg => _ ← CreateTicket rt ctx msg; mret tt
  end.

Definition run_tx (k : Keeper) (rt : Runtime) (ctx : Context_) (t : tx) (w : world S B) : res unit * world S B :=
  deliver (_ ← lift (validate_basic t); handle k rt ctx t) w.
End module_.

Section chain.
Context {S B : Type} `{KVStoreOk S} `{BankKeeperOk B} `{GogoOk} `{!SdkTypesOk} `{BinaryCodecOk}.
Implicit Types (a : hal) (w : world S B) (rt : Runtime) (ctx : Context_).

(** The values a transaction stores have representable times and sizes. *)
Definition storable a rt ctx (t : tx) : Prop :=
  match t with
  | TxMintHal _ => True
  | TxUpdateParams msg => Params_ok (MsgUpdateParams_Params msg)
  | TxRedeemCollateral msg => forall addr h,
      AccAddressFromBech32 (MsgRedeemCollateral_Creator msg) = Ok addr ->
      Amount (MsgRedeemCollateral_HalAmount msg) = Some h -> RedeemRequest_ok (new_request a rt addr h)
  | TxCreateTicket msg => Ticket_ok (new_ticket a rt ctx msg) /\ len (h_tickets a) + 1 < ticket_limit
  end.

(** ** Runs of the chain

    Other modules change the bank between the steps of this one. *)
Inductive step (k : Keeper) : world S B -> world S B -> Prop :=
| step_tx rt ctx t w r w' :
    (forall a, refines a (kvs w) -> storable a rt ctx t) ->
    run_tx k rt ctx t w = (r, w') -> step k w w'
| step_begin ctx w w' : BeginBlock ctx w = (Ok tt, w') -> step k w w'
| step_end ctx w w' : EndBlock ctx w = (Ok tt, w') -> step k w w'
| step_bank w b : step k w (World (kvs w) b).

(** ** The abstract machine *)
Inductive astep : hal -> hal -> Prop :=
| astep_refl a : astep a a
| astep_params a p : astep a (set_params p a)
| astep_ticket a t : Ticket_Id t = len (h_tickets a) -> astep a (push_ticket t a)
| astep_request a r : astep a (put_request r a)
| astep_settle a ctx ps : Forall (fun r => matured ctx r = true) ps -> astep a (drop_requests ps a).

Lemma on_err_inv {A C} (m : M S B A) (h : goerror -> M S B C) k w c w' : on_err m h k w = (Ok c, w') ->
  (exists x w1, m w = (Ok x, w1) /\ k x w1 = (Ok c, w')) \/ (exists e w1, m w = (Err e, w1) /\ h e w1 = (Ok c, w')).
Proof. unfold on_err. destruct (m w) as [[x|e| |] w1]; try discriminate; eauto 6. Qed.

(** The begin-block hook only reads. *)
Lemma GetParams_readonly : readonly (S := S) (B := B) GetParams.
Proof. unfold GetParams. solve_readonly. Qed.

Lemma InvariantCheck_readonly : readonly (S := S) (B := B) InvariantCheck.
Proof. unfold InvariantCheck. apply readonly_bind; [exact GetParams_readonly|]. solve_readonly. Qed.

Lemma BeginBlock_readonly ctx : readonly (S := S) (B := B) (BeginBlock ctx).
Proof.
  unfold BeginBlock, BeginBlocker, ignore_err. apply readonly_on_err; [|solve_readonly..].
  apply readonly_bind; [apply readonly_on_err; [exact InvariantCheck_readonly | solve_readonly..] | solve_readonly].
Qed.

(** It returns or panics. *)
Lemma BeginBlock_run ctx a w : refines a (kvs w) ->
  exists p, BeginBlock ctx w = (if check_panics a (bnk w) then Panic p else Ok tt, w).
Proof.
  intros R. destruct (InvariantCheck_run a w R) as [p E]. exists p.
  unfold BeginBlock, on_err, BeginBlocker, ignore_err, on_err, mbind, M_bind. rewrite E. now case_bool.
Qed.

Lemma EndBlock_loop ctx a w : refines a (kvs w) ->
  exists l, l ≡ₚ confused a ++ (map_to_list (h_requests a)).*2 /\
    (forall w', end_redeeming_loop ctx l w = (Ok tt, w') <-> EndBlock ctx w = (Ok tt, w')) /\
    (forall p w', end_redeeming_loop ctx l w = (Panic p, w') -> EndBlock ctx w = (Panic p, w')).
Proof.
  intros R. destruct (GetAllRedeemRequests_refines a w R) as (l & El & P). exists l. split; [exact P|].
  unfold EndBlock, on_err, EndBlocker, EndRedeeming, mbind, M_bind, mret, M_ret, lift. rewrite El.
  destruct (end_redeeming_loop ctx l w) as [[[]|e|p|] w1]; split; intros; try split; congruence.
Qed.

(** What a block that ends has paid: requests that are stored or read from
    ticket 0, mature and for a positive amount; all the payable ones when the
    pool covers what is due. *)
Lemma EndBlock_inv ctx a w w' : refines a (kvs w) -> EndBlock ctx w = (Ok tt, w') ->
  exists ps, ps ⊆+ listed a /\ Forall (fun r => matured ctx r = true /\ 0 < amount r) ps /\
    refines (drop_requests ps a) (kvs w') /\ settled ps (bnk w) (bnk w') /\
    (accounts_ok (B:=B) -> covered ctx (listed a) (bnk w) ->
     forall r, r ∈ listed a -> matured ctx r = true -> payable r -> r ∈ ps).
Proof.
  intros R E. destruct (EndBlock_loop ctx a w R) as (l & P & Eo & _). apply Eo in E.
  destruct (end_redeeming_loop_inv ctx l a w tt w' R E) as (ps & Hs & Hf & R' & St & L). exists ps.
  split; [apply (paid_listed a l ps (proj1 R) P Hs); eapply Forall_impl; [exact Hf | now intros r (_ & _ & ?)]|].
  split; [eapply Forall_impl; [exact Hf | now intros r (? & ? & _)]|]. do 2 (split; [assumption|]).
  intros A C r Hr. apply L; [assumption | eapply covered_listed; [apply R | eassumption..] |].
  rewrite P. unfold confused. rewrite <- app_assoc, elem_of_app. now right.
Qed.

(** A transaction by which account [x] redeems. *)
Definition redeems (x : gostring) (t : tx) : Prop :=
  match t with
  | TxRedeemCollateral msg => exists addr,
      AccAddressFromBech32 (MsgRedeemCollateral_Creator msg) = Ok addr /\ AccAddress_String addr = x
  | _ => False
  end.

(** A transaction is a step of the abstract machine; without a treasury account
    it creates no ticket, and it leaves the requests of other accounts alone. *)
Lemma run_tx_simulates k rt ctx t a w r w' : refines a (kvs w) -> storable a rt ctx t ->
  run_tx k rt ctx t w = (r, w') ->
  exists a', astep a a' /\ refines a' (kvs w') /\ (registered TreasuryKey = false -> h_tickets a' = h_tickets a) /\
    (forall x, ~ redeems x t -> h_requests a' !! x = h_requests a !! x).
Proof.
  intros R Hs E. unfold run_tx in E. apply deliver_atomic in E.
  destruct E as [([] & -> & E)| ->]; [|exists a; split; [constructor | auto]].
  pure E as u Hv. destruct t as [msg|msg|msg|msg]; cbn [handle storable redeems] in *;
    step E as resp w1 E1; injection E as <-.
  - destruct (UpdateParams_inv a k w msg resp w1 R Hs E1) as (_ & _ & R').
    eexists. split; [constructor | split; [exact R' | now split]].
  - destruct (MintHal_inv a w msg resp w1 R E1) as (? & ? & ? & _ & _ & _ & _ & -> & _).
    exists a. split; [constructor | auto].
  - destruct (RedeemCollateral_inv a rt w msg resp w1 R E1) as (addr & h & ? & Ha & Hh & _ & _ & _ & R').
    eexists. split; [constructor | split; [exact (R' (Hs addr h Ha Hh)) | split; [reflexivity|]]].
    intros y N. cbn. apply lookup_insert_ne. intros <-. eauto.
  - destruct (CreateTicket_inv a rt ctx w msg resp w1 R E1) as (addr & _ & _ & _ & R').
    destruct Hs as [Ht Hl]. eexists. split; [|split; [exact (R' Ht Hl)|]]; [now constructor|].
    split; [|reflexivity]. intros Hr. now apply CreateTicket_unregistered in E1.
Qed.

(** Every step of the chain is a step of the abstract machine, and without a
    treasury account none creates a ticket. *)
Lemma step_simulates k a w w' : step k w w' -> refines a (kvs w) ->
  exists a', astep a a' /\ refines a' (kvs w') /\ (registered TreasuryKey = false -> h_tickets a' = h_tickets a).
Proof.
  intros St R. destruct St as [rt ctx t w r w' Hs E|ctx w w' E|ctx w w' E|w b].
  - destruct (run_tx_simulates k rt ctx t a w r w' R (Hs a R) E) as (a' & ? & ? & ? & _). eauto.
  - pose proof (BeginBlock_readonly ctx w) as Hr. rewrite E in Hr. cbn in Hr. subst.
    exists a. split; [constructor | auto].
  - destruct (EndBlock_inv ctx a w w' R E) as (ps & _ & Hf & R' & _).
    eexists. split; [|split; [exact R' | intros _; apply drop_requests_fields]].
    apply astep_settle with ctx. eapply Forall_impl; [exact Hf | now intros r []].
  - exists a. split; [constructor | auto].
Qed.

Lemma run_simulates k a w w' : rtc (step k) w w' -> refines a (kvs w) ->
  exists a', rtc astep a a' /\ refines a' (kvs w') /\ (registered TreasuryKey = false -> h_tickets a' = h_tickets a).
Proof.
  intros St. revert a. induction St as [w|w w1 w2 S1 _ IH]; intros a R; [eauto using rtc_refl|].
  destruct (step_simulates k a w w1 S1 R) as (a1 & A1 & R1 & T1).
  destruct (IH a1 R1) as (a2 & A2 & R2 & T2). exists a2. split; [eapply rtc_l; eassumption|].
  split; [assumption|]. intros Hr. rewrite T2, T1; auto.
Qed.

(** Tickets are only ever appended. *)
Lemma astep_tickets a a' : astep a a' -> h_tickets a `prefix_of` h_tickets a'.
Proof.
  destruct 1 as [a|a p|a t Ht|a r|a ctx ps Hp]; cbn; try reflexivity; [now apply prefix_app_r|].
  now rewrite (proj2 (drop_requests_fields ps a)).
Qed.

Lemma run_tickets a a' : rtc astep a a' -> h_tickets a `prefix_of` h_tickets a'.
Proof. induction 1 as [|a a1 a2 A1 _ IH]; [reflexivity|]. transitivity (h_tickets a1); [now apply astep_tickets | exact IH]. Qed.

(** ** Blocks

    A block is its begin hook, then any transactions, accepted or rolled back,
    and any bank activity of other modules, then its end hook.  [action] and
    [blocks] leave out only the redemptions of one account. *)

Inductive action (k : Keeper) (ctx : Context_) (x : gostring) : world S B -> world S B -> Prop :=
| action_tx rt t w r w' :
    (forall a, refines a (kvs w) -> storable a rt ctx t) -> ~ redeems x t ->
    run_tx k rt ctx t w = (r, w') -> action k ctx x w w'
| action_bank w b : action k ctx x w (World (kvs w) b).

Inductive blocks (k : Keeper) (x : gostring) : list Context_ -> world S B -> world S B -> Prop :=
| blocks_nil w : blocks k x [] w w
| blocks_cons ctx ctxs w w1 w2 w3 w' :
    BeginBlock ctx w = (Ok tt, w1) -> rtc (action k ctx x) w1 w2 -> EndBlock ctx w2 = (Ok tt, w3) ->
    blocks k x ctxs w3 w' -> blocks k x (ctx :: ctxs) w w'.

(** Without tickets, a request stays until its time has come. *)
Lemma actions_keep k ctx x a w w' : registered TreasuryKey = false -> rtc (action k ctx x) w w' ->
  refines a (kvs w) -> h_tickets a = [] ->
  exists a', refines a' (kvs w') /\ h_tickets a' = [] /\ h_requests a' !! x = h_requests a !! x.
Proof.
  intros Hr St. revert a. induction St as [w|w w1 w2 A _ IH]; intros a R Ht; [eauto|].
  destruct A as [rt t w r w1 Hs N E|w b]; [|now apply IH].
  destruct (run_tx_simulates k rt ctx t a w r w1 R (Hs a R) E) as (a1 & _ & R1 & T1 & Q1).
  destruct (IH a1 R1) as (a2 & R2 & T2 & Q2); [now rewrite T1|]. exists a2. rewrite Q2, Q1 by assumption. auto.
Qed.

(** The requests paid by the end of a block, without tickets. *)
Lemma paid_stored a ps : hal_ok a -> h_tickets a = [] -> ps ⊆+ listed a ->
  NoDup (RedeemRequest_Account <$> ps) /\ forall r, r ∈ ps -> h_requests a !! RedeemRequest_Account r = Some r.
Proof.
  intros Ha Ht Hs. rewrite (listed_requests a Ht) in Hs. split.
  - apply submseteq_Permutation in Hs as [k P].
    pose proof (NoDup_fst_map_to_list (h_requests a)) as N.
    rewrite <- (requests_accounts a _ Ha (Permutation_refl _)), P, fmap_app in N. now apply NoDup_app in N.
  - intros r Hr. apply (requests_stored a r Ha). eapply elem_of_submseteq; eassumption.
Qed.

Lemma blocks_keep k x ctxs a w w' r : registered TreasuryKey = false -> blocks k x ctxs w w' ->
  refines a (kvs w) -> h_tickets a = [] -> h_requests a !! x = Some r ->
  Forall (fun ctx => matured ctx r = false) ctxs ->
  exists a', refines a' (kvs w') /\ h_tickets a' = [] /\ h_requests a' !! x = Some r.
Proof.
  intros Hr Bs. revert a. induction Bs as [w|ctx ctxs w w1 w2 w3 w' Eb St Ee _ IH]; intros a R Ht Hx Hm; [eauto|].
  apply Forall_cons in Hm as [Hm Hms]. pose proof (BeginBlock_readonly ctx w) as Ro. rewrite Eb in Ro. cbn in Ro. subst w1.
  destruct (actions_keep k ctx x a w w2 Hr St R Ht) as (a2 & R2 & T2 & Q2). rewrite Hx in Q2.
  destruct (EndBlock_inv ctx a2 w2 w3 R2 Ee) as (ps & Hs & Hf & R3 & _).
  destruct (paid_stored a2 ps (proj1 R2) T2 Hs) as [_ Hps].
  apply (IH (drop_requests ps a2)); [assumption | | | assumption].
  - now rewrite (proj2 (drop_requests_fields ps a2)).
  - rewrite drop_requests_lookup, decide_False; [assumption|]. intros Hin.
    apply list_elem_of_fmap in Hin as (q & -> & Hq). rewrite (Hps q Hq) in Q2. injection Q2 as ->.
    rewrite Forall_forall in Hf. destruct (Hf r Hq). congruence.
Qed.

(** ** Genesis *)

Lemma InitGenesis_refines w g : kv_entries (kvs w) = [] -> Params_ok (GenesisState_Params g) ->
  exists s', InitGenesis g w = (Ok tt, World s' (bnk w)) /\
    refines (set_params (GenesisState_Params g) hal_empty) s'.
Proof.
  intros E Hp. destruct (SetParams_refines hal_empty w _ (refines_empty _ E) Hp) as (s' & E' & R').
  exists s'. split; [|assumption]. unfold InitGenesis, must_do, on_err. now rewrite E'.
Qed.
End chain.
