(* ===== verification/AppConfig.v ===== *)
(** * [app/app_config.go]: module orders, account permissions, blocked accounts

    The lists of the app configuration and the two functions of [app/app.go]
    that read them.  The names of the SDK's own modules are constants of other
    packages: [name_of] is a parameter, and the theorems need only that they
    are distinct and not names of this module. *)

From S2P Require Import Prelude Types.

(** Constants of the SDK, IBC and their modules that the lists mention. *)
Inductive sdk_name :=
| Capability | Auth | BankModule | Distr | Staking | Slashing | Gov | MintModule | Crisis | IbcExported
| Genutil | Evidence | Authz | IbcTransfer | Ica | IbcFee | Feegrant | ParamsModule | Upgrade | Vesting
| Nft | Group | Consensus | Circuit | FeeCollectorName | BondedPoolName | NotBondedPoolName.

#[export] Instance sdk_name_eq_dec : EqDecision sdk_name.
Proof. solve_decision. Defined.

(** [authtypes.Minter], [authtypes.Burner], [authtypes.Staking] and a module
    name used as a permission. *)
Inductive permission := Minter | Burner | StakingPerm | PermOf (n : sdk_name).
#[export] Instance permission_eq_dec : EqDecision permission.
Proof. solve_decision. Defined.

Class SdkNames : Type := name_of : sdk_name -> gostring.

Section config.
Context `{SdkNames}.

Definition genesisModuleOrder : list gostring :=
  (name_of <$> [Capability; Auth; BankModule; Distr; Staking; Slashing; Gov; MintModule; Crisis; IbcExported;
    Genutil; Evidence; Authz; IbcTransfer; Ica; IbcFee; Feegrant; ParamsModule; Upgrade; Vesting; Nft; Group;
    Consensus; Circuit]) ++ [ModuleName].

Definition beginBlockers : list gostring :=
  (name_of <$> [MintModule; Distr; Slashing; Evidence; Staking; Authz; Genutil; Capability; IbcExported;
    IbcTransfer; Ica; IbcFee]) ++ [ModuleName].

Definition endBlockers : list gostring :=
  (name_of <$> [Crisis; Gov; Staking; Feegrant; Group; Genutil; IbcExported; IbcTransfer; Capability; Ica;
    IbcFee]) ++ [ModuleName].

Definition preBlockers : list gostring := [name_of Upgrade].

Definition moduleAccPerms : list (gostring * list permission) :=
  [ (name_of FeeCollectorName, []);
    (name_of Distr, []);
    (name_of MintModule, [Minter]);
    (name_of BondedPoolName, [Burner; PermOf Staking]);
    (name_of NotBondedPoolName, [Burner; PermOf Staking]);
    (name_of Gov, [Burner]);
    (name_of Nft, []);
    (name_of IbcTransfer, [Minter; Burner]);
    (name_of IbcFee, []);
    (name_of Ica, []);
    (ModuleName, [Minter; Burner; StakingPerm]);
    (CollateralPoolName, [Minter; Burner]);
    (RedeemPoolName, [Minter; Burner]) ].

Definition blockAccAddrs : list gostring :=
  name_of <$> [FeeCollectorName; Distr; MintModule; BondedPoolName; NotBondedPoolName; Nft].

(** ** [app/app.go] *)

Definition GetMaccPerms : gmap gostring (list permission) :=
  foldl (fun dup e => <[e.1 := e.2]> dup) ∅ moduleAccPerms.

Definition BlockedAddresses : gmap gostring bool :=
  if 0 <? len blockAccAddrs
  then foldl (fun result addr => <[addr := true]> result) ∅ blockAccAddrs
  else foldl (fun result addr => <[addr := true]> result) ∅ (map_to_list GetMaccPerms).*1.
End config.

(** Distinct constants, none of them a name of this module. *)
Class SdkNamesOk `{SdkNames} : Prop := {
  name_inj : Inj (=) (=) name_of;
  name_not_hal n : name_of n ∉ [ModuleName; CollateralPoolName; RedeemPoolName; TreasuryKey] }.

(** ** Lemmas *)

Section config_lemmas.
Context `{SdkNamesOk}.

(** Lookups in a fold of insertions over distinct keys. *)
Lemma foldl_insert_notin {A} (l : list (gostring * A)) (m : gmap gostring A) k :
  k ∉ l.*1 -> foldl (fun m e => <[e.1 := e.2]> m) m l !! k = m !! k.
Proof.
  revert m. induction l as [|[k' v] l IH]; intros m Hk; [reflexivity|]. cbn in Hk |- *.
  apply not_elem_of_cons in Hk. destruct Hk. rewrite IH by assumption. now apply lookup_insert_ne.
Qed.

Lemma foldl_insert_in {A} (l : list (gostring * A)) (m : gmap gostring A) k v :
  NoDup l.*1 -> (k, v) ∈ l -> foldl (fun m e => <[e.1 := e.2]> m) m l !! k = Some v.
Proof.
  revert m. induction l as [|[k' v'] l IH]; intros m Hl Hk; [now apply not_elem_of_nil in Hk|]. cbn in Hl |- *.
  apply NoDup_cons in Hl. destruct Hl as [Hn Hl]. apply elem_of_cons in Hk. destruct Hk as [E|Hk]; [|auto].
  injection E as -> ->. rewrite foldl_insert_notin by assumption. apply lookup_insert_eq.
Qed.

Lemma names_nodup l hs : NoDup l -> NoDup hs -> (forall h, h ∈ hs -> h ∈ [ModuleName; CollateralPoolName; RedeemPoolName; TreasuryKey]) ->
  NoDup ((name_of <$> l) ++ hs).
Proof.
  intros Hl Hh Hs. apply NoDup_app. split; [apply NoDup_fmap_2; [apply name_inj | assumption]|].
  split; [|assumption]. intros x Hx Hx'. apply list_elem_of_fmap in Hx. destruct Hx as (n & -> & _).
  apply (name_not_hal n). auto.
Qed.

Lemma moduleAccPerms_nodup : NoDup moduleAccPerms.*1.
Proof.
  change moduleAccPerms.*1 with ((name_of <$> [FeeCollectorName; Distr; MintModule; BondedPoolName; NotBondedPoolName;
    Gov; Nft; IbcTransfer; IbcFee; Ica]) ++ [ModuleName; CollateralPoolName; RedeemPoolName]).
  apply names_nodup.
  - apply (bool_decide_unpack _). vm_compute. exact I.
  - apply (bool_decide_unpack _). vm_compute. exact I.
  - intros h. rewrite !elem_of_cons. tauto.
Qed.

(** The names of the lists, for membership tests. *)
Lemma not_name_of h (l : list sdk_name) : h ∈ [ModuleName; CollateralPoolName; RedeemPoolName; TreasuryKey] -> h ∉ name_of <$> l.
Proof. intros Hh Hx. apply list_elem_of_fmap in Hx. destruct Hx as (n & -> & _). now apply (name_not_hal n). Qed.

Lemma perms_collateral : GetMaccPerms !! CollateralPoolName = Some [Minter; Burner].
Proof. apply foldl_insert_in; [apply moduleAccPerms_nodup|]. unfold moduleAccPerms. rewrite !elem_of_cons. tauto. Qed.

Lemma perms_redeem : GetMaccPerms !! RedeemPoolName = Some [Minter; Burner].
Proof. apply foldl_insert_in; [apply moduleAccPerms_nodup|]. unfold moduleAccPerms. rewrite !elem_of_cons. tauto. Qed.

Lemma perms_treasury : GetMaccPerms !! TreasuryKey = None.
Proof.
  unfold GetMaccPerms. rewrite foldl_insert_notin; [apply lookup_empty|].
  change moduleAccPerms.*1 with ((name_of <$> [FeeCollectorName; Distr; MintModule; BondedPoolName; NotBondedPoolName;
    Gov; Nft; IbcTransfer; IbcFee; Ica]) ++ [ModuleName; CollateralPoolName; RedeemPoolName]).
  rewrite elem_of_app. intros [Hx|Hx]; [revert Hx; apply not_name_of; rewrite !elem_of_cons; tauto|].
  revert Hx. apply (bool_decide_unpack _). vm_compute. exact I.
Qed.

Lemma blocked_lookup k : BlockedAddresses !! k = if bool_decide (k ∈ blockAccAddrs) then Some true else None.
Proof.
  unfold BlockedAddresses. cbn [len blockAccAddrs]. change (0 <? len blockAccAddrs) with true. cbn iota.
  assert (G : forall l (m : gmap gostring bool), foldl (fun r a => <[a := true]> r) m l !! k =
    if bool_decide (k ∈ l) then Some true else m !! k).
  { induction l as [|x l IH]; intros m; [reflexivity|]. cbn [foldl]. rewrite IH.
    destruct (decide (k = x)) as [->|N].
    - rewrite lookup_insert_eq, (bool_decide_eq_true_2 (x ∈ x :: l)) by (rewrite elem_of_cons; tauto). now case_bool.
    - rewrite lookup_insert_ne by congruence.
      rewrite (bool_decide_ext (k ∈ x :: l) (k ∈ l)) by (rewrite elem_of_cons; tauto). reflexivity. }
  rewrite G. case_bool; [reflexivity | apply lookup_empty].
Qed.
End config_lemmas.

(** ** The modules of the app

    [appConfig] of [app/app_config.go], the configuration of every module that
    dependency injection builds, and the modules [app/ibc.go] registers by
    hand.  The module manager panics at start when a module is missing from an
    order or an order names an unknown module: the theorem is that neither
    happens.  The names of other packages are a parameter, as in [AppConfig]. *)

(** A module of the SDK or IBC lists, the runtime, the transaction
    configuration, this module, and the two light clients. *)
Inductive module_name := Sdk (n : sdk_name) | RuntimeName | TxName | HalName | IbcTm | Solomachine.
#[export] Instance module_name_eq_dec : EqDecision module_name.
Proof. solve_decision. Defined.

Section app_modules.
Context `{SdkNames} (runtime_name ibctm_name solomachine_name : gostring).

Definition resolve (m : module_name) : gostring :=
  match m with
  | Sdk n => name_of n
  | RuntimeName => runtime_name
  | TxName => str "tx"
  | HalName => ModuleName
  | IbcTm => ibctm_name
  | Solomachine => solomachine_name
  end.

Definition AccountAddressPrefix : string := "cosmos".
Definition Name : string := "HalbornCTF".

(** The configurations with content; [ModuleDefaults] is an empty one. *)
Inductive ModuleConfig :=
| RuntimeModule (AppName : string) (PreBlockers BeginBlockers EndBlockers InitGenesis : list gostring)
    (OverrideStoreKeys : list (module_name * string))
| AuthModule (Bech32Prefix : string) (ModuleAccountPermissions : list (gostring * list permission))
| BankModuleConfig (BlockedModuleAccountsOverride : list gostring)
| StakingModule (Bech32PrefixValidator Bech32PrefixConsensus : string)
| GroupModule (MaxExecutionPeriod MaxMetadataLen : Z)
| HalModuleConfig (Authority : gostring)
| ModuleDefaults.

Definition appConfig : list (module_name * ModuleConfig) :=
  [ (RuntimeName, RuntimeModule Name preBlockers beginBlockers endBlockers genesisModuleOrder [(Sdk Auth, "acc")]);
    (Sdk Auth, AuthModule AccountAddressPrefix moduleAccPerms);
    (Sdk Nft, ModuleDefaults);
    (Sdk Vesting, ModuleDefaults);
    (Sdk BankModule, BankModuleConfig blockAccAddrs);
    (Sdk Staking, StakingModule (AccountAddressPrefix +:+ "valoper") (AccountAddressPrefix +:+ "valcons"));
    (Sdk Slashing, ModuleDefaults);
    (Sdk ParamsModule, ModuleDefaults);
    (TxName, ModuleDefaults);
    (Sdk Genutil, ModuleDefaults);
    (Sdk Authz, ModuleDefaults);
    (Sdk Upgrade, ModuleDefaults);
    (Sdk Distr, ModuleDefaults);
    (Sdk Evidence, ModuleDefaults);
    (Sdk MintModule, ModuleDefaults);
    (Sdk Group, GroupModule (1209600 * 10 ^ 9) 255);
    (Sdk Feegrant, ModuleDefaults);
    (Sdk Gov, ModuleDefaults);
    (Sdk Crisis, ModuleDefaults);
    (Sdk Consensus, ModuleDefaults);
    (Sdk Circuit, ModuleDefaults);
    (HalName, HalModuleConfig []) ].

(** [app.RegisterModules(...)] in [registerIBCModules], and the modules of
    [RegisterIBC] for the client. *)
Definition registered_ibc_modules : list module_name :=
  [Sdk IbcExported; Sdk IbcTransfer; Sdk IbcFee; Sdk Ica; Sdk Capability; IbcTm; Solomachine].
Definition RegisterIBC : list module_name :=
  [Sdk IbcExported; Sdk IbcTransfer; Sdk IbcFee; Sdk Ica; Sdk Capability; IbcTm; Solomachine].

(** The modules of the running app: configured or registered. *)
Definition app_modules : list module_name := appConfig.*1 ++ registered_ibc_modules.

(** The modules of the app are those of the genesis order, the runtime, the
    transaction configuration and the light clients, which have no genesis of
    their own; every block hook belongs to a module of the app; and the client
    registers the same IBC modules as the app. *)
Theorem app_modules_ordered :
  resolve <$> app_modules ≡ₚ
    genesisModuleOrder ++ (resolve <$> [RuntimeName; TxName; IbcTm; Solomachine]) /\
  Forall (fun l => l ⊆ resolve <$> app_modules) [preBlockers; beginBlockers; endBlockers] /\
  NoDup app_modules /\ RegisterIBC = registered_ibc_modules.
Proof.
  assert (G : forall l, bool_decide (l ⊆ app_modules) = true -> (resolve <$> l) ⊆ resolve <$> app_modules).
  { intros l Hl. apply bool_decide_eq_true in Hl. intros x Hx. apply list_elem_of_fmap in Hx as (m & -> & Hm).
    apply list_elem_of_fmap. eauto. }
  split; [|split; [|split; [apply (bool_decide_unpack _); vm_compute; exact I | reflexivity]]].
  - change genesisModuleOrder with (resolve <$> ((Sdk <$> [Capability; Auth; BankModule; Distr; Staking; Slashing; Gov;
      MintModule; Crisis; IbcExported; Genutil; Evidence; Authz; IbcTransfer; Ica; IbcFee; Feegrant; ParamsModule;
      Upgrade; Vesting; Nft; Group; Consensus; Circuit]) ++ [HalName])).
    rewrite <-fmap_app. apply fmap_Permutation, (bool_decide_unpack _). vm_compute. exact I.
  - repeat apply Forall_cons_2; try apply Forall_nil_2.
    + apply (G [Sdk Upgrade]). vm_compute. reflexivity.
    + change beginBlockers with (resolve <$> ((Sdk <$> [MintModule; Distr; Slashing; Evidence; Staking; Authz; Genutil; Capability; IbcExported;
        IbcTransfer; Ica; IbcFee]) ++ [HalName])). apply G. vm_compute. reflexivity.
    + change endBlockers with (resolve <$> ((Sdk <$> [Crisis; Gov; Staking; Feegrant; Group; Genutil; IbcExported; IbcTransfer; Capability; Ica;
        IbcFee]) ++ [HalName])). apply G. vm_compute. reflexivity.
Qed.
End app_modules.
