(* ===== verification/Scenario.v ===== *)
(** * A concrete chain

    The instances of [SdkModel] with the module's accounts, the default
    parameters in the store and a few balances: the inputs on which the
    theorems are evaluated. *)

From S2P Require Import Prelude Wire Sdk SdkModel PbParams PbTickets PbRedeemRequest PbGenesis PbTx.
From S2P Require Import Types World Keeper MsgServer Store Bank Handlers EndBlock Chain.

Abbreviation store := (gmap bytes bytes).

(** The module accounts, with a treasury. *)
Definition accounts : modules :=
  [(CollateralPoolName, true, true); (RedeemPoolName, true, true); (TreasuryKey, false, false)].

Abbreviation chain_world := (world store (ledger accounts)).

Definition alice : AccAddress := str "alice".
Definition alice_account : gostring := str "cosmos1alice".
Definition HAL : gostring := str "HAL".
Definition Stake : gostring := str "Stake".

(** The state after genesis with the default parameters. *)
Definition genesis_state : hal := set_params DefaultParams hal_empty.
Definition genesis_store : store := kv_set ∅ ParamsKey (Params_enc DefaultParams).

(** A ledger with the given balances of one account and the pools; the HAL
    supply is the sum of the balances. *)
Definition ledger_of {mods} (l : list (AccAddress * gostring * N)) : ledger mods :=
  Ledger (fun x d => foldr (fun e n => (if bool_decide (e.1 = (x, d)) then e.2 else 0) + n)%N 0%N l)
         (fun d => foldr (fun e n => (if bool_decide (e.1.2 = d) then Z.of_N e.2 else 0) + n) 0 l).

Definition pool_addr (m : gostring) : AccAddress := str "module/" ++ m.

(** Alice has 10 Stake and 6 HAL, backed by 3 Stake in the pool. *)
Definition bank0 : ledger accounts :=
  ledger_of [(alice, Stake, 10%N); (alice, HAL, 6%N); (pool_addr CollateralPoolName, Stake, 3%N)].
Definition world0 : chain_world := World genesis_store bank0.

(** A node's clock at the given time, visiting maps in order. *)
Definition runtime_at (t : Time) : Runtime := MkRuntime t (fun m => m) (fun m => Permutation_refl m).
(** A node that visits them backwards. *)
Definition runtime_reversed (t : Time) : Runtime := MkRuntime t (fun m => reverse m) (fun m => reverse_Permutation m).
Definition ctx_at (t : Time) : Context_ := MkContext t (str "halborn").

(** 2024-01-01. *)
Definition now0 : Time := 1704067200 * 10 ^ 9.

Lemma Params_ok_default : Params_ok DefaultParams.
Proof. repeat split; vm_compute; congruence. Qed.

Lemma genesis_refines : refines genesis_state genesis_store.
Proof.
  unfold genesis_state, genesis_store.
  apply refines_set_params; [apply refines_empty; reflexivity | exact Params_ok_default].
Qed.

Lemma accounts_ok_scenario : accounts_ok (B := ledger accounts).
Proof. split; reflexivity. Qed.
