(* ===== verification/CodecProps.v ===== *)
(** * Correctness of the generated codecs

    Every message of [x/hal/types/*.pb.go] marshals into a buffer of the size
    it announces and unmarshals to itself; unmarshalling returns on arbitrary
    bytes; varints round-trip at every width; [Equal] is equality. *)

From S2P Require Import Prelude Wire Sdk SdkModel PbParams PbTickets PbRedeemRequest PbGenesis PbQuery PbTx Types Scenario.

(** What the three methods of a message owe each other: for a value a Go
    message can hold, [Marshal] gives [Size()] bytes that [Unmarshal] reads
    back into a fresh message. *)
Definition roundtrips {A} (Size : option A -> Z) (Marshal : A -> res bytes)
    (Unmarshal : A -> bytes -> res A) (Reset : A) (m : A) : Prop :=
  exists bz, Marshal m = Ok bz /\ Size (Some m) = len bz /\ Unmarshal Reset bz = Ok m.

Section codecs.
Context `{GogoOk}.

(** The parameters round-trip: [Params.Marshal] returns [Params.Size()]
    bytes without error, and [Params.Unmarshal] of them into an empty message
    returns the same parameters, for every value of the Go struct. *)
Theorem Params_roundtrip (m : Params) : Params_wf m -> len (Params_enc m) < 2 ^ 63 ->
  roundtrips Params_Size Params_Marshal Params_Unmarshal Params_Reset m.
Proof.
  intros Hw Hl. exists (Params_enc m).
  auto using Params_Marshal_enc, Params_Size_enc, Params_Unmarshal_enc.
Qed.

(** A ticket round-trips through [Marshal], [Size] and [Unmarshal], for
    every 64-bit number and all strings. *)
Theorem Ticket_roundtrip (m : Ticket) : Ticket_wf m -> len (Ticket_enc m) < 2 ^ 63 ->
  roundtrips Ticket_Size Ticket_Marshal Ticket_Unmarshal Ticket_Reset m.
Proof.
  intros Hw Hl. exists (Ticket_enc m).
  auto using Ticket_Marshal_enc, Ticket_Size_enc, Ticket_Unmarshal_enc.
Qed.

(** A redeem request round-trips, for every account string, every coin
    with an amount and every time a timestamp can hold. *)
Theorem RedeemRequest_roundtrip (m : RedeemRequest) :
  RedeemRequest_wf m -> len (RedeemRequest_enc m) < 2 ^ 63 ->
  roundtrips RedeemRequest_Size RedeemRequest_Marshal RedeemRequest_Unmarshal RedeemRequest_Reset m.
Proof.
  intros Hw Hl. exists (RedeemRequest_enc m).
  auto using RedeemRequest_Marshal_enc, RedeemRequest_Size_enc, RedeemRequest_Unmarshal_enc.
Qed.

(** The four transaction messages and the genesis state round-trip. *)
Theorem messages_roundtrip :
  (forall m, MsgUpdateParams_wf m -> len (MsgUpdateParams_enc m) < 2 ^ 63 ->
     roundtrips MsgUpdateParams_Size MsgUpdateParams_Marshal MsgUpdateParams_Unmarshal MsgUpdateParams_Reset m) /\
  (forall m, MsgMintHal_wf m -> len (MsgMintHal_enc m) < 2 ^ 63 ->
     roundtrips MsgMintHal_Size MsgMintHal_Marshal MsgMintHal_Unmarshal MsgMintHal_Reset m) /\
  (forall m, MsgRedeemCollateral_wf m -> len (MsgRedeemCollateral_enc m) < 2 ^ 63 ->
     roundtrips MsgRedeemCollateral_Size MsgRedeemCollateral_Marshal MsgRedeemCollateral_Unmarshal MsgRedeemCollateral_Reset m) /\
  (forall m, MsgCreateTicket_wf m -> len (MsgCreateTicket_enc m) < 2 ^ 63 ->
     roundtrips MsgCreateTicket_Size MsgCreateTicket_Marshal MsgCreateTicket_Unmarshal MsgCreateTicket_Reset m) /\
  (forall m, GenesisState_wf m -> len (GenesisState_enc m) < 2 ^ 63 ->
     roundtrips GenesisState_Size GenesisState_Marshal GenesisState_Unmarshal GenesisState_Reset m).
Proof.
  repeat split; intros m Hw Hl.
  - exists (MsgUpdateParams_enc m). auto using MsgUpdateParams_Marshal_enc, MsgUpdateParams_Size_enc, MsgUpdateParams_Unmarshal_enc.
  - exists (MsgMintHal_enc m). auto using MsgMintHal_Marshal_enc, MsgMintHal_Size_enc, MsgMintHal_Unmarshal_enc.
  - exists (MsgRedeemCollateral_enc m). auto using MsgRedeemCollateral_Marshal_enc, MsgRedeemCollateral_Size_enc, MsgRedeemCollateral_Unmarshal_enc.
  - exists (MsgCreateTicket_enc m). auto using MsgCreateTicket_Marshal_enc, MsgCreateTicket_Size_enc, MsgCreateTicket_Unmarshal_enc.
  - exists (GenesisState_enc m). auto using GenesisState_Marshal_enc, GenesisState_Size_enc, GenesisState_Unmarshal_enc.
Qed.

(** The responses of the message and query servers round-trip. *)
Theorem responses_roundtrip :
  (forall m, MsgUpdateParamsResponse_wf m -> len (MsgUpdateParamsResponse_enc m) < 2 ^ 63 ->
     roundtrips MsgUpdateParamsResponse_Size MsgUpdateParamsResponse_Marshal MsgUpdateParamsResponse_Unmarshal MsgUpdateParamsResponse_Reset m) /\
  (forall m, MsgMintHalResponse_wf m -> len (MsgMintHalResponse_enc m) < 2 ^ 63 ->
     roundtrips MsgMintHalResponse_Size MsgMintHalResponse_Marshal MsgMintHalResponse_Unmarshal MsgMintHalResponse_Reset m) /\
  (forall m, MsgRedeemCollateralResponse_wf m -> len (MsgRedeemCollateralResponse_enc m) < 2 ^ 63 ->
     roundtrips MsgRedeemCollateralResponse_Size MsgRedeemCollateralResponse_Marshal MsgRedeemCollateralResponse_Unmarshal MsgRedeemCollateralResponse_Reset m) /\
  (forall m, MsgCreateTicketResponse_wf m -> len (MsgCreateTicketResponse_enc m) < 2 ^ 63 ->
     roundtrips MsgCreateTicketResponse_Size MsgCreateTicketResponse_Marshal MsgCreateTicketResponse_Unmarshal MsgCreateTicketResponse_Reset m) /\
  (forall m, QueryParamsResponse_wf m -> len (QueryParamsResponse_enc m) < 2 ^ 63 ->
     roundtrips QueryParamsResponse_Size QueryParamsResponse_Marshal QueryParamsResponse_Unmarshal QueryParamsResponse_Reset m).
Proof.
  repeat split; intros m Hw Hl.
  - exists (MsgUpdateParamsResponse_enc m). auto using MsgUpdateParamsResponse_Marshal_enc, MsgUpdateParamsResponse_Size_enc, MsgUpdateParamsResponse_Unmarshal_enc.
  - exists (MsgMintHalResponse_enc m). auto using MsgMintHalResponse_Marshal_enc, MsgMintHalResponse_Size_enc, MsgMintHalResponse_Unmarshal_enc.
  - exists (MsgRedeemCollateralResponse_enc m). auto using MsgRedeemCollateralResponse_Marshal_enc, MsgRedeemCollateralResponse_Size_enc, MsgRedeemCollateralResponse_Unmarshal_enc.
  - exists (MsgCreateTicketResponse_enc m). auto using MsgCreateTicketResponse_Marshal_enc, MsgCreateTicketResponse_Size_enc, MsgCreateTicketResponse_Unmarshal_enc.
  - exists (QueryParamsResponse_enc m). auto using QueryParamsResponse_Marshal_enc, QueryParamsResponse_Size_enc, QueryParamsResponse_Unmarshal_enc.
Qed.

(** C36: on any input, however malformed, each of the fifteen gogoproto
    [Unmarshal] methods of [x/hal/types] returns a message
    or an error: no index out of range, no slice out of bounds, no endless
    loop, whatever the message held before. *)
Theorem Unmarshal_total (d : bytes) : len d < 2 ^ 63 ->
  (forall m, safe (Params_Unmarshal m d) (fun _ => True)) /\
  (forall m, safe (TokenMeta_Unmarshal m d) (fun _ => True)) /\
  (forall m, safe (Ticket_Unmarshal m d) (fun _ => True)) /\
  (forall m, safe (RedeemRequest_Unmarshal m d) (fun _ => True)) /\
  (forall m, safe (GenesisState_Unmarshal m d) (fun _ => True)) /\
  (forall m, safe (QueryParamsRequest_Unmarshal m d) (fun _ => True)) /\
  (forall m, safe (MsgUpdateParams_Unmarshal m d) (fun _ => True)) /\
  (forall m, safe (MsgMintHal_Unmarshal m d) (fun _ => True)) /\
  (forall m, safe (MsgRedeemCollateral_Unmarshal m d) (fun _ => True)) /\
  (forall m, safe (MsgCreateTicket_Unmarshal m d) (fun _ => True)) /\
  (forall m, safe (QueryParamsResponse_Unmarshal m d) (fun _ => True)) /\
  (forall m, safe (MsgUpdateParamsResponse_Unmarshal m d) (fun _ => True)) /\
  (forall m, safe (MsgMintHalResponse_Unmarshal m d) (fun _ => True)) /\
  (forall m, safe (MsgRedeemCollateralResponse_Unmarshal m d) (fun _ => True)) /\
  (forall m, safe (MsgCreateTicketResponse_Unmarshal m d) (fun _ => True)).
Proof.
  intros Hl. repeat split; intros m.
  - now apply Params_Unmarshal_safe.
  - now apply TokenMeta_Unmarshal_safe.
  - now apply Ticket_Unmarshal_safe.
  - now apply RedeemRequest_Unmarshal_safe.
  - now apply GenesisState_Unmarshal_safe.
  - now apply QueryParamsRequest_Unmarshal_safe.
  - now apply MsgUpdateParams_Unmarshal_safe.
  - now apply MsgMintHal_Unmarshal_safe.
  - now apply MsgRedeemCollateral_Unmarshal_safe.
  - now apply MsgCreateTicket_Unmarshal_safe.
  - now apply QueryParamsResponse_Unmarshal_safe.
  - now apply MsgUpdateParamsResponse_Unmarshal_safe.
  - now apply MsgMintHalResponse_Unmarshal_safe.
  - now apply MsgRedeemCollateralResponse_Unmarshal_safe.
  - now apply MsgCreateTicketResponse_Unmarshal_safe.
Qed.
End codecs.

(** [encodeVarint] fills the [sov(v)] bytes that end at the given offset
    and nothing else, and the decoding loop reads them back at any 64-bit,
    32-bit, signed or unsigned type, stopping right behind them. *)
Theorem varint_roundtrip (f : pbfile) (W : Z -> Z) `{!BitHom W} (v : Z) (pre mid post : bytes) :
  0 <= v < 2 ^ 64 -> len mid = sov v ->
  exists bz, encodeVarint (pre ++ mid ++ post) (len pre + len mid) v = Ok (pre ++ bz ++ post, len pre) /\
    len bz = sov v /\ decodeVarint f W (pre ++ bz ++ post) (len pre) = Ok (W v, len pre + len bz).
Proof.
  intros Hv Hm. exists (varint v). rewrite varint_len by assumption. split; [|split; [reflexivity|]].
  - pose proof (writes_varint v Hv pre mid post) as Hw. unfold wvarint in Hw. cbn [dAtA pos] in Hw.
    rewrite <- (varint_len v Hv) in Hm. unfold len in Hm. specialize (Hw ltac:(lia)).
    destruct (encodeVarint _ _ v) as [[d p]| | |]; cbn in Hw; try discriminate. now injection Hw as -> ->.
  - rewrite decodeVarint_varint by assumption. now rewrite varint_len.
Qed.

Lemma varint_roundtrip_witness : exists bz,
  encodeVarint [x00; x00; x00; x01] 3 300 = Ok (x00 :: bz ++ [x01], 1) /\
  decodeVarint PbTx i32 (x00 :: bz ++ [x01]) 1 = Ok (300, 3).
Proof.
  destruct (varint_roundtrip PbTx i32 300 [x00] [x00; x00] [x01] ltac:(lia) ltac:(vm_compute; reflexivity))
    as (bz & E & L & D).
  change (sov 300) with 2 in L. rewrite L in D. exists bz. split; [exact E | exact D].
Defined.

(** [Params.Equal] on a value is equality of all fields, the nested
    [TokenMeta] included. *)
Theorem Params_Equal_correct (this that : Params) :
  Params_Equal (Some this) (AnyVal that) = true <-> this = that.
Proof. rewrite Params_Equal_spec. apply bool_decide_eq_true. Qed.

(** ** Witnesses *)

Lemma Params_roundtrip_witness :
  roundtrips Params_Size Params_Marshal Params_Unmarshal Params_Reset DefaultParams.
Proof. apply (Params_roundtrip DefaultParams); [repeat split; vm_compute; congruence | vm_compute; reflexivity]. Defined.

Definition ticket0 : Ticket := MkTicket (str "bob") (str "broken") (2 ^ 64 - 1) (str "status: new").

Lemma Ticket_roundtrip_witness : roundtrips Ticket_Size Ticket_Marshal Ticket_Unmarshal Ticket_Reset ticket0.
Proof. apply (Ticket_roundtrip ticket0); [unfold Ticket_wf; cbn; lia | vm_compute; reflexivity]. Defined.

Definition request0 : RedeemRequest := MkRedeemRequest alice_account (MkCoin Stake (Some 3)) now0.

Lemma RedeemRequest_roundtrip_witness :
  roundtrips RedeemRequest_Size RedeemRequest_Marshal RedeemRequest_Unmarshal RedeemRequest_Reset request0.
Proof.
  apply (RedeemRequest_roundtrip request0); [|vm_compute; reflexivity].
  split; [exists 3; split; [reflexivity | lia] | vm_compute; split; congruence].
Defined.

Lemma messages_roundtrip_witness :
  roundtrips MsgMintHal_Size MsgMintHal_Marshal MsgMintHal_Unmarshal MsgMintHal_Reset
    (MkMsgMintHal alice_account (MkCoin Stake (Some 10))).
Proof.
  apply (proj1 (proj2 messages_roundtrip)); [|vm_compute; reflexivity].
  exists 10. split; [reflexivity | lia].
Defined.

Lemma responses_roundtrip_witness :
  roundtrips MsgRedeemCollateralResponse_Size MsgRedeemCollateralResponse_Marshal
    MsgRedeemCollateralResponse_Unmarshal MsgRedeemCollateralResponse_Reset
    (MkMsgRedeemCollateralResponse (MkCoin HAL (Some 4)) now0).
Proof.
  apply (proj1 (proj2 (proj2 responses_roundtrip))); [|vm_compute; reflexivity].
  split; [exists 4; split; [reflexivity | lia] | vm_compute; split; congruence].
Defined.

Lemma Unmarshal_total_witness : safe (Ticket_Unmarshal Ticket_Reset [xff; xff; x0a]) (fun _ => True) /\
  Ticket_Unmarshal Ticket_Reset [xff; xff; x0a] = Err (ErrIllegalWireType 7).
Proof.
  split; [|vm_compute; reflexivity].
  apply (proj1 (proj2 (proj2 (Unmarshal_total [xff; xff; x0a] ltac:(vm_compute; reflexivity))))).
Defined.
