(* ===== verification/ModuleProps.v ===== *)
(** * Properties of the keeper, the message server and the block hooks *)

From S2P Require Import Prelude Wire Sdk PbParams PbTickets PbRedeemRequest PbGenesis PbQuery PbTx.
From S2P Require Import Types World Keeper MsgServer Store Bank Handlers EndBlock Chain.

Section properties.
Context {S B : Type} `{KVStoreOk S} `{BankKeeperOk B} `{GogoOk} `{!SdkTypesOk} `{BinaryCodecOk}.
Implicit Types (a : hal) (w : world S B) (b : B) (ctx : Context_) (rt : Runtime).

(** ** The end of a block *)

(** C3: whatever the store and the balances, the end of a block either
    panics or pays a list of requests out of the redeem pool, each in full to
    its account, all of them mature and for a positive amount, and changes no
    other balance and no supply.  The list takes each stored request, and the
    request that ticket 0 reads as when it reads as one, at most once, and
    nothing else: no other ticket and no parameters are ever paid.  The
    requests of the paid accounts are removed and the rest of the state is
    unchanged.  Without tickets, which is every state of the configured app,
    the paid requests are stored ones, one per account, so that a request is
    removed if and only if it was paid. *)
Theorem end_block_safe ctx a w : accounts_ok (B := B) -> refines a (kvs w) ->
  (exists p w', EndBlock ctx w = (Panic p, w')) \/
  exists w' ps, EndBlock ctx w = (Ok tt, w') /\
    ps ⊆+ option_list (head (h_tickets a) ≫= decode ∘ Ticket_enc) ++ (map_to_list (h_requests a)).*2 /\
    (forall r, r ∈ ps -> matured ctx r = true /\ 0 < amount r) /\
    settled ps (bnk w) (bnk w') /\ refines (drop_requests ps a) (kvs w') /\
    (h_tickets a = [] -> NoDup (RedeemRequest_Account <$> ps) /\
       forall r, r ∈ ps -> h_requests a !! RedeemRequest_Account r = Some r).
Proof.
  intros A R. destruct (EndBlock_loop ctx a w R) as (l & P & Eo & Ep).
  destruct (end_redeeming_loop_total ctx l w A) as [[w' E]|(p & w' & E)]; [right | left; eauto].
  apply Eo in E. destruct (EndBlock_inv ctx a w w' R E) as (ps & Hs & Hf & R' & St & _).
  rewrite Forall_forall in Hf. exists w', ps. repeat (split; [assumption|]).
  intros Ht. exact (paid_stored a ps (proj1 R) Ht Hs).
Qed.

(** When the redeem pool covers what is due, the end of a block pays every
    payable mature request, unless it panics; it does not panic when every
    mature request is payable. *)
Lemma end_block_pays ctx a w : accounts_ok (B := B) -> refines a (kvs w) -> covered ctx (listed a) (bnk w) ->
  ((exists p w', EndBlock ctx w = (Panic p, w')) /\
     ~ (forall r, r ∈ listed a -> matured ctx r = true -> payable r)) \/
  exists w' ps, EndBlock ctx w = (Ok tt, w') /\ ps ⊆+ listed a /\
    (forall r, r ∈ ps -> matured ctx r = true /\ 0 < amount r) /\
    (forall r, r ∈ listed a -> matured ctx r = true -> payable r -> r ∈ ps) /\
    settled ps (bnk w) (bnk w') /\ refines (drop_requests ps a) (kvs w').
Proof.
  intros A R C. destruct (EndBlock_loop ctx a w R) as (l & P & Eo & Ep).
  destruct (end_redeeming_loop_total ctx l w A) as [[w' E]|(p & w' & E)].
  - right. apply Eo in E. destruct (EndBlock_inv ctx a w w' R E) as (ps & Hs & Hf & R' & St & L).
    rewrite Forall_forall in Hf. exists w', ps. repeat (split; [assumption|]). split; [now apply L | now split].
  - left. split; [eauto|]. intros Hp.
    destruct (end_redeeming_loop_run ctx l w A) as [w'' E'']; [|apply Forall_forall|congruence].
    + eapply covered_listed; [apply R | eassumption..].
    + intros r Hr Hm. destruct (listed_stranger a l r (proj1 R) P Hr); auto.
Qed.

(** C35: redeeming a single HAL stores a request for no collateral, and the
    first block after its time panics instead of ending, whatever the other
    modules did to the bank in between: one HAL stops the chain. *)
Theorem redeem_one_halts_chain ctx rt a w w' b msg resp addr : accounts_ok (B := B) -> refines a (kvs w) ->
  AccAddressFromBech32 (MsgRedeemCollateral_Creator msg) = Ok addr -> blocked addr = false ->
  Amount (MsgRedeemCollateral_HalAmount msg) = Some 1 ->
  RedeemRequest_ok (new_request a rt addr 1) ->
  RedeemCollateral rt msg w = (Ok resp, w') -> Now rt + RedeemDur (params_of a) < BlockTime ctx ->
  exists p w'', EndBlock ctx (World (kvs w') b) = (Panic p, w'').
Proof.
  intros A R Ha Hb Hh Hr E Ht.
  destruct (RedeemCollateral_inv a rt w msg resp w' R E) as (addr' & h & paid & Ha' & Hh' & _ & _ & _ & R').
  assert (addr' = addr) by congruence. assert (h = 1) by congruence. subst. specialize (R' Hr).
  set (r := new_request a rt addr 1) in *.
  destruct (GetAllRedeemRequests_refines _ (World (kvs w') b) R') as (l & El & P).
  destruct (end_redeeming_loop_panic ctx l (World (kvs w') b) r addr A) as (p & w'' & Ep).
  - rewrite P, elem_of_app. right. apply list_elem_of_fmap. exists (RedeemRequest_Account r, r).
    split; [reflexivity|]. apply elem_of_map_to_list. apply lookup_insert_eq.
  - now apply Z.ltb_lt.
  - unfold payee, r. cbn. pose proof (AccAddressFromBech32_safe (MsgRedeemCollateral_Creator msg)) as Hs.
    rewrite Ha in Hs. now rewrite (AccAddressFromBech32_String addr Hs).
  - assumption.
  - reflexivity.
  - exists p, w''. unfold EndBlock, on_err, EndBlocker, EndRedeeming.
    rewrite (M_bind_panic _ _ (World (kvs w') b) p w''); [reflexivity|].
    now rewrite (M_bind_ok _ _ _ _ _ El).
Qed.

(** ** The begin of a block *)

(** C34: [BeginBlock] changes nothing, and panics exactly when some HAL exist
    and the denomination of the collateral or of HAL is not valid, or an amount
    of the check does not fit its type, or the supply of HAL is below twice the
    collateral of the two pools. *)
Theorem begin_block_condition ctx a w : refines a (kvs w) ->
  exists p, BeginBlock ctx w =
    (if negb (supply (bnk w) (hal_denom a) =? 0) &&
        (negb (ValidateDenom (collateral_denom a)) || negb (ValidateDenom (hal_denom a)) ||
         (maxDec <=? 2 * pooled a (bnk w) * precision) ||
         (maxInt <=? Z.abs (supply (bnk w) (hal_denom a) - 2 * pooled a (bnk w))) ||
         (supply (bnk w) (hal_denom a) <? 2 * pooled a (bnk w)))
     then Panic p else Ok tt, w).
Proof. intros R. exact (BeginBlock_run ctx a w R). Qed.

(** On a fully backed chain (the supply of HAL is twice the pooled
    collateral), a successful redemption of at least two, but not all, HAL
    leaves a state in which the next [BeginBlock] panics: the check counts the
    collateral that waits in the redeem pool but not the HAL burned for it. *)
Theorem redeem_breaks_begin_block ctx rt a w w' msg resp h : refines a (kvs w) ->
  hal_denom a <> collateral_denom a -> RedeemCollateral rt msg w = (Ok resp, w') ->
  Amount (MsgRedeemCollateral_HalAmount msg) = Some h ->
  (forall addr, AccAddressFromBech32 (MsgRedeemCollateral_Creator msg) = Ok addr ->
    RedeemRequest_ok (new_request a rt addr h)) ->
  supply (bnk w) (hal_denom a) = 2 * pooled a (bnk w) -> 2 <= h < supply (bnk w) (hal_denom a) ->
  exists p, BeginBlock ctx w' = (Panic p, w').
Proof.
  intros R Hne E Hh Hok Hs Hl.
  destruct (RedeemCollateral_inv a rt w msg resp w' R E) as (addr & h' & paid & Ha & Hh' & _ & _ & Rd & R').
  assert (h' = h) by congruence. subst h'. specialize (R' (Hok addr Ha)).
  set (a' := put_request _ a) in R'.
  assert (Ep : pooled a' (bnk w') = pooled a (bnk w)) by (apply (pooled_redeemed a addr h paid); assumption).
  assert (Es : supply (bnk w') (hal_denom a') = supply (bnk w) (hal_denom a) - h).
  { destruct Rd as [_ Es]. rewrite Es. change (hal_denom a') with (hal_denom a).
    now rewrite bool_decide_eq_true_2. }
  destruct (BeginBlock_run ctx a' w' R') as [p Ei]. exists p. rewrite Ei. unfold check_panics.
  rewrite Es, Ep, (proj2 (Z.ltb_lt _ _)), (proj2 (Z.eqb_neq _ _)), orb_true_r by lia. reflexivity.
Qed.

(** ** Minting *)

(** A successful [MintHal] by an account that is not one of the pools
    creates twice the named collateral in HAL and never adds more collateral
    to the pools than that: if the supply was at least twice the pooled
    collateral before, it is so afterwards, and the gap grows only when the
    collateral was not collected. *)
Theorem mint_preserves_begin_check a w w' msg resp : refines a (kvs w) -> MintHal msg w = (Ok resp, w') ->
  hal_denom a <> collateral_denom a ->
  (forall addr, AccAddressFromBech32 (MsgMintHal_Creator msg) = Ok addr -> addr <> collateral_pool /\ addr <> redeem_pool) ->
  collateral_pool <> redeem_pool ->
  exists z (paid : bool), MsgMintHal_CollateralAmount msg = MkCoin (collateral_denom a) (Some z) /\ 0 <= z /\
    supply (bnk w') (hal_denom a) = supply (bnk w) (hal_denom a) + 2 * z /\
    pooled a (bnk w') = pooled a (bnk w) + (if paid then z else 0) /\
    (2 * pooled a (bnk w) <= supply (bnk w) (hal_denom a) -> 2 * pooled a (bnk w') <= supply (bnk w') (hal_denom a)).
Proof.
  intros R E Hne Hp Hpp. destruct (MintHal_inv a w msg resp w' R E) as (addr & z & paid & Ha & Hm & Hz & _ & _ & Mi).
  destruct (Hp addr Ha) as [N1 N2]. exists z, paid. destruct Mi as [Mb Ms].
  assert (Es : supply (bnk w') (hal_denom a) = supply (bnk w) (hal_denom a) + 2 * z)
    by (rewrite Ms; now rewrite bool_decide_eq_true_2).
  assert (Ep : pooled a (bnk w') = pooled a (bnk w) + (if paid then z else 0)).
  { unfold pooled. rewrite !Mb. rewrite !(at1_ne _ _ (hal_denom a)) by congruence.
    rewrite at1_self, !at1_other by congruence. destruct paid; lia. }
  repeat (split; [assumption|]). destruct paid; lia.
Qed.

(** [MintHal] rejects an address that does not parse and a coin of
    another denomination, with the documented errors and without touching the
    state. *)
Theorem mint_rejects a w msg : refines a (kvs w) ->
  (forall e, AccAddressFromBech32 (MsgMintHal_Creator msg) = Err e ->
     MintHal msg w = (Err (ErrWrap ErrInvalidAddress "invalid creator address (%s)"), w)) /\
  (forall addr z, AccAddressFromBech32 (MsgMintHal_Creator msg) = Ok addr ->
     Amount (MsgMintHal_CollateralAmount msg) = Some z -> z <> 0 ->
     Denom (MsgMintHal_CollateralAmount msg) <> collateral_denom a ->
     MintHal msg w = (Err (ErrWrap ErrInvalidRequest "collateral denom mismatch: expected %s, got %s"), w)).
Proof.
  intros R. split.
  - intros e E. unfold MintHal, creator_address. now rewrite E.
  - intros addr z Ha Hz Nz Hd. unfold MintHal. rewrite (creator_address_run _ _ Ha), lift_bind.
    destruct (MsgMintHal_CollateralAmount msg) as [d x]. cbn in Hz, Hd. subst x.
    replace (if negb (Coin_IsValid (MkCoin d (Some z))) then Coin_IsZero (MkCoin d (Some z)) else Ok false)
      with (Ok false : res bool).
    2: { rewrite Coin_IsZero_spec, (proj2 (Z.eqb_neq _ _) Nz). now case_bool. }
    rewrite lift_bind, (M_bind_ok _ _ _ _ _ (GetParams_refines a w R)). fold (collateral_denom a). cbn [Denom].
    now rewrite bool_decide_eq_false_2.
Qed.

(** ** Redeem requests *)

(** With [max_redeem_entries] set and no tickets,
    [GetAllRedeemRequests] returns exactly the stored requests, each once,
    although it reads every value of the store. *)
Theorem get_all_requests_exact a w : refines a (kvs w) -> MaxRedeemEntries (params_of a) <> 0 ->
  h_tickets a = [] ->
  exists l, GetAllRedeemRequests w = (Ok l, w) /\ l ≡ₚ (map_to_list (h_requests a)).*2.
Proof. intros R Hm Ht. apply GetAllRedeemRequests_exact; [assumption|]. now apply (confused_nil a (proj1 R)). Qed.

(** A redemption replaces the pending request of the same account: after
    two of them only the second request is in the store, while the redeem pool
    received the collateral of both. *)
Theorem second_redeem_overwrites rt1 rt2 a w w1 w2 msg1 msg2 r1 r2 addr h1 h2 : refines a (kvs w) ->
  hal_denom a <> collateral_denom a -> collateral_pool <> redeem_pool ->
  AccAddressFromBech32 (MsgRedeemCollateral_Creator msg1) = Ok addr ->
  AccAddressFromBech32 (MsgRedeemCollateral_Creator msg2) = Ok addr ->
  Amount (MsgRedeemCollateral_HalAmount msg1) = Some h1 -> Amount (MsgRedeemCollateral_HalAmount msg2) = Some h2 ->
  RedeemRequest_ok (new_request a rt1 addr h1) -> RedeemRequest_ok (new_request a rt2 addr h2) ->
  RedeemCollateral rt1 msg1 w = (Ok r1, w1) -> RedeemCollateral rt2 msg2 w1 = (Ok r2, w2) ->
  refines (put_request (new_request a rt2 addr h2) a) (kvs w2) /\
  bal (bnk w2) redeem_pool (collateral_denom a) =
    bal (bnk w) redeem_pool (collateral_denom a) + h1 / 2 + h2 / 2.
Proof.
  intros R Hne Hpp Ha1 Ha2 Hh1 Hh2 O1 O2 E1 E2.
  destruct (RedeemCollateral_inv a rt1 w msg1 r1 w1 R E1) as (x & h & p1 & Ex & Eh & _ & _ & D1 & R1).
  assert (x = addr) by congruence. assert (h = h1) by congruence. subst. specialize (R1 O1).
  destruct (RedeemCollateral_inv _ rt2 w1 msg2 r2 w2 R1 E2) as (x & h & p2 & Ex' & Eh' & _ & _ & D2 & R2).
  assert (x = addr) by congruence. assert (h = h2) by congruence. subst. specialize (R2 O2). split.
  - rewrite (put_request_twice (new_request a rt1 addr h1)) in R2 by reflexivity. exact R2.
  - rewrite (redeemed_pool _ _ _ _ _ _ Hne Hpp D2), (redeemed_pool _ _ _ _ _ _ Hne Hpp D1). reflexivity.
Qed.

(** The outcome of a redemption depends on the clock of the node that
    executes it: nodes whose clocks differ answer the same transaction on the
    same state differently. *)
Theorem redeem_depends_on_clock rt1 rt2 a w w1 w2 msg r1 r2 : refines a (kvs w) ->
  RedeemCollateral rt1 msg w = (Ok r1, w1) -> RedeemCollateral rt2 msg w = (Ok r2, w2) ->
  r1 = r2 <-> Now rt1 = Now rt2.
Proof.
  intros R E1 E2.
  destruct (RedeemCollateral_inv a rt1 w msg r1 w1 R E1) as (x & h & p1 & _ & Eh & _ & -> & _).
  destruct (RedeemCollateral_inv a rt2 w msg r2 w2 R E2) as (y & h' & p2 & _ & Eh' & _ & -> & _).
  assert (h' = h) by congruence. subst h'. split; [intros E; injection E; lia | now intros ->].
Qed.

(** The first ticket can pose as a redeem request: when its author is an
    account and its issue the encoding of a coin, [GetAllRedeemRequests]
    returns a request of that account for that coin, mature since year 1. *)
Theorem first_ticket_is_request rt ctx a w w' msg resp c : refines a (kvs w) -> h_tickets a = [] ->
  MsgCreateTicket_Issue msg = coin_enc c -> coin_set c -> 0 < len (coin_enc c) ->
  Ticket_ok (new_ticket a rt ctx msg) -> CreateTicket rt ctx msg w = (Ok resp, w') ->
  exists l, GetAllRedeemRequests w' = (Ok l, w') /\
    MkRedeemRequest (MsgCreateTicket_Author msg) c zero_time ∈ l.
Proof.
  intros R Ht Hi Hc Hl Hok E.
  destruct (CreateTicket_inv a rt ctx w msg resp w' R E) as (addr & _ & _ & _ & R').
  rewrite Ht in R'. specialize (R' Hok ltac:(vm_compute; reflexivity)).
  destruct (GetAllRedeemRequests_refines _ w' R') as (l & El & P). exists l. split; [assumption|].
  rewrite P, elem_of_app. left. unfold confused, posing. rewrite elem_of_app. right. apply elem_of_option_list.
  cbn. rewrite Ht. cbn. unfold new_ticket in *. rewrite Ht in *.
  rewrite (decode_ticket_zero _ c); cbn; try assumption; try reflexivity. apply Hok.
Qed.

(** ** Parameters and genesis *)

(** [UpdateParams] by the authority replaces the parameters, which
    [GetParams] and the query then return, and changes nothing else; by
    anyone else it is the error [ErrInvalidSigner] and changes nothing. *)
Theorem update_params_spec k a w req : refines a (kvs w) -> Params_ok (MsgUpdateParams_Params req) ->
  if bool_decide (authority k = MsgUpdateParams_Authority req)
  then exists w', UpdateParams k req w = (Ok MkMsgUpdateParamsResponse, w') /\ bnk w' = bnk w /\
    refines (set_params (MsgUpdateParams_Params req) a) (kvs w') /\
    Params_query (Some MkQueryParamsRequest) w' = (Ok (MkQueryParamsResponse (MsgUpdateParams_Params req)), w')
  else UpdateParams k req w = (Err (ErrWrap ErrInvalidSigner "invalid authority; expected %s, got %s"), w).
Proof.
  intros R Hp. unfold UpdateParams, GetAuthority. case_bool; cbn [negb]; [|reflexivity].
  destruct (SetParams_refines a w _ R Hp) as (s' & E' & R').
  rewrite (M_bind_ok _ _ _ _ _ E'). eexists. split; [reflexivity|]. split; [reflexivity|]. split; [exact R'|].
  unfold Params_query. now rewrite (M_bind_ok _ _ _ _ _ (GetParams_refines _ (World s' (bnk w)) R')).
Qed.

(** Importing a genesis state into an empty store and exporting it again
    returns the same state. *)
Theorem genesis_roundtrip g w : kv_entries (kvs w) = [] -> Params_ok (GenesisState_Params g) ->
  exists w', InitGenesis g w = (Ok tt, w') /\ ExportGenesis w' = (Ok g, w').
Proof.
  intros E Hp. destruct (InitGenesis_refines w g E Hp) as (s' & Ei & R').
  eexists. split; [exact Ei|]. unfold ExportGenesis.
  rewrite (M_bind_ok _ _ _ _ _ (GetParams_refines _ (World s' (bnk w)) R')). now destruct g.
Qed.

(** [ExportGenesis] keeps the parameters only: two states that differ in
    tickets and pending requests export the same genesis. *)
Theorem export_drops_requests a a' w w' : refines a (kvs w) -> refines a' (kvs w') -> h_params a = h_params a' ->
  (ExportGenesis w).1 = (ExportGenesis w').1.
Proof.
  intros R R' E. unfold ExportGenesis.
  rewrite (M_bind_ok _ _ _ _ _ (GetParams_refines a w R)), (M_bind_ok _ _ _ _ _ (GetParams_refines a' w' R')).
  unfold params_of. now rewrite E.
Qed.

(** ** Tickets *)

(** The ticket counter read back after [SetTicketCounter] is the number
    written, for every 64-bit number and every store. *)
Theorem ticket_counter_roundtrip n w : 0 <= n < 2 ^ 64 ->
  exists w', SetTicketCounter n w = (Ok tt, w') /\ GetTicketCount w' = (Ok n, w').
Proof.
  intros Hn. eexists. split; [reflexivity|]. unfold GetTicketCount, mbind, M_bind, get_kvs. cbn [kvs].
  rewrite kv_get_set. unfold lift. now rewrite <- (app_nil_r (PutUint64 n)), Uint64_PutUint64.
Qed.
End properties.

(** Different ticket numbers have different keys; the key of a ticket is
    never that of the parameters or of a redeem request, and it is the key of
    the counter for one number only, 0x5f636f756e746572. *)
Theorem ticket_keys_distinct i j : 0 <= i < 2 ^ 64 -> 0 <= j < 2 ^ 64 ->
  (ticket_key i = ticket_key j <-> i = j) /\ ticket_key i <> ParamsKey /\
  (forall account, ticket_key i <> redeem_key account) /\
  (ticket_key i = KeyPrefix TicketKeyCounter <-> i = 0x5f636f756e746572).
Proof.
  intros Hi Hj. repeat split; try discriminate; try (now intros ->); try (now apply ticket_key_inj);
    now apply ticket_key_counter.
Qed.
