(* ===== verification/ChainProps.v ===== *)
(** * Properties of the chain and of the app configuration *)

From S2P Require Import Prelude Wire Sdk PbParams PbTickets PbRedeemRequest PbGenesis PbTx.
From S2P Require Import Types World Keeper MsgServer Store Bank Handlers EndBlock Chain AppConfig ModuleProps.

Section chain_properties.
Context {S B : Type} `{KVStoreOk S} `{BankKeeperOk B} `{GogoOk} `{!SdkTypesOk} `{BinaryCodecOk}.
Implicit Types (a : hal) (w : world S B).

(** C1: in every run of the chain from genesis (any transactions, accepted
    or rolled back, any block hooks, any bank activity of other modules) the
    store holds exactly the encodings of an abstract state: parameters,
    tickets numbered from 0 with a matching counter, and at most one request
    per account under its own key.  The run is one of the abstract machine. *)
Theorem chain_refines_abstract k g w0 w1 w : kv_entries (kvs w0) = [] -> Params_ok (GenesisState_Params g) ->
  InitGenesis g w0 = (Ok tt, w1) -> rtc (step k) w1 w ->
  exists a, rtc astep (set_params (GenesisState_Params g) hal_empty) a /\ refines a (kvs w).
Proof.
  intros E Hp Ei St. destruct (InitGenesis_refines w0 g E Hp) as (s' & Ei' & R).
  assert (w1 = World s' (bnk w0)) by congruence. subst w1.
  destruct (run_simulates k _ _ w St R) as (a & A & R' & _). eauto.
Qed.

(** Once stored, a ticket keeps its number and contents in every later
    state of the chain, and the counter never decreases. *)
Theorem tickets_append_only k a w w' i t : refines a (kvs w) -> rtc (step k) w w' ->
  h_tickets a !! i = Some t ->
  kv_get (kvs w') (ticket_key (Z.of_nat i)) = Some (Ticket_enc t) /\ Ticket_Id t = Z.of_nat i /\
  exists n, GetTicketCount w' = (Ok n, w') /\ len (h_tickets a) <= n.
Proof.
  intros R St Hi. destruct (run_simulates k a w w' St R) as (a' & A & R' & _).
  pose proof (run_tickets a a' A) as P. split; [|split].
  - apply R'. apply entry_ticket. eapply prefix_lookup_Some; eassumption.
  - now destruct (ok_ticket a (proj1 R) i t Hi).
  - exists (len (h_tickets a')). split; [now apply GetTicketCount_refines|].
    apply prefix_length in P. unfold len. lia.
Qed.

(** ** The configured app *)

Context `{SdkNamesOk}.

(** The auth and bank keepers run with the app's module accounts. *)
Record configured : Prop := {
  cfg_registered m : registered m = bool_decide (is_Some (GetMaccPerms !! m));
  cfg_mint m : may_mint m = bool_decide (Minter ∈ default [] (GetMaccPerms !! m));
  cfg_burn m : may_burn m = bool_decide (Burner ∈ default [] (GetMaccPerms !! m)) }.

Lemma configured_treasury : configured -> registered TreasuryKey = false.
Proof.
  intros C. rewrite (cfg_registered C), perms_treasury. apply bool_decide_eq_false_2. now intros [? ?].
Qed.

(** The configuration gives the two pools the accounts and permissions
    that [MintHal], [RedeemCollateral] and [EndRedeeming] need. *)
Lemma app_accounts_ok : configured -> accounts_ok (B := B).
Proof.
  intros C. split.
  - rewrite (cfg_registered C), perms_collateral. now apply bool_decide_eq_true_2.
  - rewrite (cfg_registered C), perms_redeem. now apply bool_decide_eq_true_2.
  - rewrite (cfg_mint C), perms_collateral. reflexivity.
  - rewrite (cfg_burn C), perms_collateral. reflexivity.
Qed.

(** In the configured app no ticket is ever created, because the treasury
    the price is paid to is not among the module accounts: after any run from
    genesis the counter is 0 and every [CreateTicket] fails. *)
Theorem app_creates_no_ticket k g w0 w1 w : configured -> kv_entries (kvs w0) = [] ->
  Params_ok (GenesisState_Params g) -> InitGenesis g w0 = (Ok tt, w1) -> rtc (step k) w1 w ->
  GetTicketCount w = (Ok 0, w) /\ forall rt ctx msg resp w', CreateTicket rt ctx msg w <> (Ok resp, w').
Proof.
  intros C E Hp Ei St. destruct (InitGenesis_refines w0 g E Hp) as (s' & Ei' & R).
  assert (w1 = World s' (bnk w0)) by congruence. subst w1.
  destruct (run_simulates k _ _ w St R) as (a & _ & R' & Ht). split.
  - rewrite (GetTicketCount_refines a w R'), Ht by now apply configured_treasury. reflexivity.
  - intros. now apply CreateTicket_unregistered, configured_treasury.
Qed.

(** In the configured app no reachable state has a ticket. *)
Lemma app_no_tickets k g w0 w1 w a : configured -> kv_entries (kvs w0) = [] ->
  Params_ok (GenesisState_Params g) -> InitGenesis g w0 = (Ok tt, w1) -> rtc (step k) w1 w ->
  refines a (kvs w) -> h_tickets a = [].
Proof.
  intros C E Hp Ei St R. destruct (InitGenesis_refines w0 g E Hp) as (s' & Ei' & R0).
  assert (w1 = World s' (bnk w0)) by congruence. subst w1.
  destruct (run_simulates k _ _ w St R0) as (a' & _ & R' & Ht). specialize (Ht (configured_treasury C)).
  pose proof (GetTicketCount_refines a w R) as Ec. rewrite (GetTicketCount_refines a' w R'), Ht in Ec.
  injection Ec as Ec. apply nil_length_inv. unfold len in Ec. cbn in Ec. lia.
Qed.

(** C2: the configured app pays redemptions.  Take any state reachable from
    genesis and a request [r] stored in it for account [x], and then any blocks
    whose times do not pass the time of [r]: the begin hooks, any transactions
    of anyone except redemptions by [x] itself (they replace the request), any
    bank activity of other modules, the end hooks.  The request is still
    stored.  Let the next block's time pass the time of [r].  Its begin hook
    halts the chain, or it goes on, and after its transactions the request is
    still stored.  If then [r] can be paid and the redeem pool covers what is
    due, the end hook panics, which takes some mature request that cannot be
    paid, or the block ends, has paid [r] in full, once and to its account,
    together with other stored mature requests, and has removed [r]. *)
Theorem redemptions_eventually_paid k g w0 w1 w a x r ctxs w2 :
  configured -> kv_entries (kvs w0) = [] -> Params_ok (GenesisState_Params g) ->
  InitGenesis g w0 = (Ok tt, w1) -> rtc (step k) w1 w ->
  refines a (kvs w) -> h_requests a !! x = Some r ->
  blocks k x ctxs w w2 -> Forall (fun ctx => matured ctx r = false) ctxs ->
  (exists a2, refines a2 (kvs w2) /\ h_requests a2 !! x = Some r) /\
  forall ctx, matured ctx r = true ->
  (exists p, BeginBlock ctx w2 = (Panic p, w2)) \/
  BeginBlock ctx w2 = (Ok tt, w2) /\
  forall w3, rtc (action k ctx x) w2 w3 ->
  exists a3, refines a3 (kvs w3) /\ h_requests a3 !! x = Some r /\
  let requests := (map_to_list (h_requests a3)).*2 in
  (payable r -> covered ctx requests (bnk w3) ->
   ((exists p w4, EndBlock ctx w3 = (Panic p, w4)) /\
      ~ (forall q, q ∈ requests -> matured ctx q = true -> payable q)) \/
   exists w4 ps, EndBlock ctx w3 = (Ok tt, w4) /\ r ∈ ps /\ NoDup (RedeemRequest_Account <$> ps) /\
     (forall q, q ∈ ps -> h_requests a3 !! RedeemRequest_Account q = Some q /\ matured ctx q = true) /\
     settled ps (bnk w3) (bnk w4) /\ refines (drop_requests ps a3) (kvs w4) /\
     h_requests (drop_requests ps a3) !! x = None).
Proof.
  intros C E0 Hg Ei St R Hx Bs Hm. pose proof (configured_treasury C) as Tr.
  pose proof (app_no_tickets k g w0 w1 w a C E0 Hg Ei St R) as Ht.
  destruct (blocks_keep k x ctxs a w w2 r Tr Bs R Ht Hx Hm) as (a2 & R2 & T2 & Q2). split; [eauto|].
  intros ctx Hc. destruct (BeginBlock_run ctx a2 w2 R2) as [p Eb].
  destruct (check_panics a2 (bnk w2)); [left; eauto | right; split; [exact Eb|]].
  intros w3 St3. destruct (actions_keep k ctx x a2 w2 w3 Tr St3 R2 T2) as (a3 & R3 & T3 & Q3). rewrite Q2 in Q3.
  exists a3. split; [assumption|]. split; [assumption|]. intros requests Hp Hcov.
  pose proof (listed_requests a3 T3) as El. fold requests in El. rewrite <- El in Hcov.
  destruct (end_block_pays ctx a3 w3 (app_accounts_ok C) R3 Hcov) as [[Ep N]|(w4 & ps & Ee & Hs & Hf & L & S4 & R4)];
    [left; now rewrite El in N | right].
  assert (Hr : r ∈ ps).
  { apply L; [|assumption..]. rewrite El. apply list_elem_of_fmap. exists (x, r).
    split; [reflexivity | now apply elem_of_map_to_list]. }
  destruct (paid_stored a3 ps (proj1 R3) T3 Hs) as [Nd Hst]. exists w4, ps.
  do 3 (split; [assumption|]). split; [intros q Hq; split; [now apply Hst | now apply Hf]|]. do 2 (split; [assumption|]).
  rewrite drop_requests_lookup, decide_True; [reflexivity|]. apply list_elem_of_fmap. exists r. split; [|assumption].
  symmetry. now destruct (ok_request a3 (proj1 R3) x r Q3).
Qed.

(** The pools may receive coins (they are not blocked), every blocked
    account is a module account, and each list of modules names a module at
    most once, with this module last. *)
Theorem app_lists_wf :
  BlockedAddresses !! CollateralPoolName = None /\ BlockedAddresses !! RedeemPoolName = None /\
  (forall m, BlockedAddresses !! m = Some true -> is_Some (GetMaccPerms !! m)) /\
  Forall (fun l => NoDup l /\ last l = Some ModuleName) [genesisModuleOrder; beginBlockers; endBlockers].
Proof.
  split; [|split; [|split]].
  - rewrite blocked_lookup, bool_decide_eq_false_2; [reflexivity|]. apply not_name_of. rewrite !elem_of_cons. tauto.
  - rewrite blocked_lookup, bool_decide_eq_false_2; [reflexivity|]. apply not_name_of. rewrite !elem_of_cons. tauto.
  - intros m. rewrite blocked_lookup. case_bool_decide as Hm; [intros _ | discriminate].
    unfold blockAccAddrs in Hm. cbn in Hm.
    assert (exists ps, (m, ps) ∈ moduleAccPerms) as [ps Hps].
    { unfold moduleAccPerms. rewrite !elem_of_cons in Hm.
      destruct Hm as [->|[->|[->|[->|[->|[->|Hm]]]]]]; try (now apply not_elem_of_nil in Hm);
        eexists; rewrite !elem_of_cons; eauto 20. }
    exists ps. apply foldl_insert_in; [apply moduleAccPerms_nodup | assumption].
  - assert (N : forall l, NoDup l -> NoDup ((name_of <$> l) ++ [ModuleName])).
    { intros l Hl. apply names_nodup; [assumption | apply NoDup_singleton|]. intros h. rewrite !elem_of_cons. tauto. }
    apply Forall_cons. split; [|apply Forall_cons; split; [|apply Forall_cons; split; [|apply Forall_nil; exact I]]];
      (split; [apply N, (bool_decide_unpack _); vm_compute; exact I | reflexivity]).
Qed.

(** The orders satisfy the constraints their comments state: at genesis
    capability comes first and genutil after staking and auth; at begin block
    slashing comes after distribution and capability before the IBC modules. *)
Theorem app_order_constraints :
  head genesisModuleOrder = Some (name_of Capability) /\
  (exists l1 l2 l3, genesisModuleOrder = l1 ++ name_of Auth :: l2 ++ name_of Staking :: l3 /\ name_of Genutil ∈ l3) /\
  (exists l1 l2, beginBlockers = l1 ++ name_of Distr :: l2 /\ name_of Slashing ∈ l2) /\
  (exists l1 l2, beginBlockers = l1 ++ name_of Capability :: l2 /\
     Forall (fun m => m ∈ l2) [name_of IbcExported; name_of IbcTransfer; name_of Ica; name_of IbcFee]).
Proof.
  split; [reflexivity|]. split; [|split].
  - exists [name_of Capability], [name_of BankModule; name_of Distr]. eexists. split; [reflexivity|].
    rewrite !elem_of_cons. tauto.
  - exists [name_of MintModule]. eexists. split; [reflexivity|]. rewrite !elem_of_cons. tauto.
  - exists (name_of <$> [MintModule; Distr; Slashing; Evidence; Staking; Authz; Genutil]). eexists.
    split; [reflexivity|]. repeat constructor; rewrite !elem_of_cons; tauto.
Qed.
End chain_properties.
