(* ===== verification/Witnesses.v ===== *)
(** * The theorems at concrete inputs

    Each theorem of the module and of the chain applied to the scenario: its
    hypotheses hold there, and its conclusion is about a run that can be
    evaluated. *)

From S2P Require Import Prelude Wire Sdk SdkModel PbParams PbTickets PbRedeemRequest PbGenesis PbQuery PbTx.
From S2P Require Import Types World Keeper MsgServer Store Bank Handlers EndBlock Chain AppConfig Scenario.
From S2P Require Import ModuleProps ChainProps.

(** ** Inputs *)

Definition mint10 : MsgMintHal := MkMsgMintHal alice_account (MkCoin Stake (Some 10)).
(** More collateral than Alice has. *)
Definition mint50 : MsgMintHal := MkMsgMintHal alice_account (MkCoin Stake (Some 50)).
Definition redeem (h : Z) : MsgRedeemCollateral := MkMsgRedeemCollateral alice_account (MkCoin HAL (Some h)).
Definition ticket_msg : MsgCreateTicket := MkMsgCreateTicket alice_account (str "alice") (str "bug").

Definition rt0 : Runtime := runtime_at now0.
(** A month later. *)
Definition later : Context_ := ctx_at (now0 + 30 * 24 * Hour).

Definition request1 : RedeemRequest := MkRedeemRequest alice_account (MkCoin Stake (Some 3)) now0.
Definition state1 : hal := put_request request1 genesis_state.
Definition store1 : store := kv_set genesis_store (redeem_key alice_account) (RedeemRequest_enc request1).
(** The redeem pool holds the 3 Stake of the request. *)
Definition world1 : chain_world := World store1 (ledger_of [(pool_addr RedeemPoolName, Stake, 3%N)]).

Lemma request_ok_at t z : 0 <= z < 1000 -> t = now0 \/ t = now0 + DefaultRedeemDur ->
  len (RedeemRequest_enc (MkRedeemRequest alice_account (MkCoin Stake (Some z)) t)) < 2 ^ 63 ->
  RedeemRequest_ok (MkRedeemRequest alice_account (MkCoin Stake (Some z)) t).
Proof.
  intros Hz Ht Hl. split; [|assumption]. split; [exists z; split; [reflexivity | lia]|].
  destruct Ht as [->| ->]; vm_compute; split; congruence.
Qed.

Lemma state1_refines : refines state1 store1.
Proof.
  unfold state1, store1. apply (refines_put_request genesis_state genesis_store request1); [exact genesis_refines|].
  apply request_ok_at; [lia | now left | vm_compute; reflexivity].
Qed.

(** A run is its result and the state it leaves. *)
Lemma run_eq {A C} (p : A * C) x : p.1 = x -> p = (x, p.2).
Proof. now destruct p as [? ?]; cbn; intros ->. Qed.

Definition after {A} (p : res A * chain_world) : chain_world := p.2.

(** Discharge the hypotheses at the scenario by evaluation. *)
Ltac scenario :=
  lazymatch goal with
  | |- accounts_ok => exact accounts_ok_scenario
  | |- refines genesis_state _ => exact genesis_refines
  | |- refines state1 _ => exact state1_refines
  | |- RedeemRequest_ok _ => idtac
  | |- coin_set _ => eexists; split; [reflexivity | lia]
  | |- forall _ : list byte, _ => idtac
  | |- _ = (_, _) => apply run_eq; vm_compute; reflexivity
  | |- Ticket_ok _ => split; [split; vm_compute; congruence | vm_compute; reflexivity]
  | |- _ /\ _ => split; scenario
  | |- _ <= _ < _ => split; vm_compute; congruence
  | |- _ => vm_compute; congruence
  end.

(** ** Handlers *)

(** Alice mints 100 HAL for 50 Stake she does not have: nothing is collected. *)
Lemma MintHal_run_witness :
  (50 <=? spendable bank0 alice (collateral_denom genesis_state)) = false /\
  exists b', MintHal mint50 world0 =
    (Ok (MkMsgMintHalResponse (MkCoin (hal_denom genesis_state) (Some (2 * 50)))), World (kvs world0) b') /\
    minted genesis_state alice 50 (50 <=? spendable bank0 alice (collateral_denom genesis_state)) bank0 b'.
Proof.
  split; [vm_compute; reflexivity|].
  apply (MintHal_run genesis_state world0 mint50 alice 50); scenario.
Defined.

Lemma RedeemCollateral_run_witness : exists w', RedeemCollateral rt0 (redeem 4) world0 =
    (Ok (MkMsgRedeemCollateralResponse (MkCoin (hal_denom genesis_state) (Some 4))
           (Now rt0 + RedeemDur (params_of genesis_state))), w') /\
    redeemed genesis_state alice 4 (4 <=? spendable (bnk world0) alice (hal_denom genesis_state)) (bnk world0) (bnk w') /\
    refines (put_request (new_request genesis_state rt0 alice 4) genesis_state) (kvs w').
Proof.
  apply (RedeemCollateral_run genesis_state rt0 world0 (redeem 4) alice HAL 4); scenario.
  apply (request_ok_at (now0 + DefaultRedeemDur) 2); [lia | now right | vm_compute; reflexivity].
Defined.

(** Alice can pay for a ticket of 3 bytes. *)
Lemma CreateTicket_run_witness : exists w', CreateTicket rt0 later ticket_msg world0 =
    (Ok (MkMsgCreateTicketResponse (len (h_tickets genesis_state))), w') /\
    moves1 (bnk world0) alice (treasury (B := ledger accounts)) (hal_denom genesis_state) (ticket_cost ticket_msg) (bnk w') /\
    refines (push_ticket (new_ticket genesis_state rt0 later ticket_msg) genesis_state) (kvs w').
Proof.
  assert (K : Ticket_ok (new_ticket genesis_state rt0 later ticket_msg)) by scenario.
  assert (A : AccAddressFromBech32 (MsgCreateTicket_Creator ticket_msg) = Ok alice) by (vm_compute; reflexivity).
  pose proof (CreateTicket_run genesis_state rt0 later world0 ticket_msg alice genesis_refines A K eq_refl) as R.
  assert (V : ValidateDenom (hal_denom genesis_state) = true) by (vm_compute; reflexivity). rewrite V in R.
  assert (L : (bal (bnk world0) alice (hal_denom genesis_state) <? ticket_cost ticket_msg) = false)
    by (vm_compute; reflexivity). rewrite L in R.
  assert (G : registered (B := ledger accounts) TreasuryKey = true) by (vm_compute; reflexivity). rewrite G in R.
  assert (P : (spendable (bnk world0) alice (hal_denom genesis_state) <? ticket_cost ticket_msg) = false)
    by (vm_compute; reflexivity). rewrite P in R.
  exact R.
Defined.

Lemma mint_rejects_witness :
  MintHal (MkMsgMintHal (str "nobody") (MkCoin Stake (Some 1))) world0 =
    (Err (ErrWrap ErrInvalidAddress "invalid creator address (%s)"), world0) /\
  MintHal (MkMsgMintHal alice_account (MkCoin HAL (Some 1))) world0 =
    (Err (ErrWrap ErrInvalidRequest "collateral denom mismatch: expected %s, got %s"), world0).
Proof.
  split.
  - apply (proj1 (mint_rejects genesis_state world0 (MkMsgMintHal (str "nobody") (MkCoin Stake (Some 1))) genesis_refines)
      (ErrMsg "decoding bech32 failed")). vm_compute. reflexivity.
  - apply (proj2 (mint_rejects genesis_state world0 (MkMsgMintHal alice_account (MkCoin HAL (Some 1))) genesis_refines)
      alice 1); scenario.
Defined.

Lemma mint_preserves_begin_check_witness : exists z (paid : bool),
  MsgMintHal_CollateralAmount mint10 = MkCoin (collateral_denom genesis_state) (Some z) /\ 0 <= z /\
  supply (bnk (after (MintHal mint10 world0))) (hal_denom genesis_state) =
    supply (bnk world0) (hal_denom genesis_state) + 2 * z /\
  pooled genesis_state (bnk (after (MintHal mint10 world0))) =
    pooled genesis_state (bnk world0) + (if paid then z else 0) /\
  (2 * pooled genesis_state (bnk world0) <= supply (bnk world0) (hal_denom genesis_state) ->
   2 * pooled genesis_state (bnk (after (MintHal mint10 world0))) <=
     supply (bnk (after (MintHal mint10 world0))) (hal_denom genesis_state)).
Proof.
  apply (mint_preserves_begin_check genesis_state world0 (after (MintHal mint10 world0)) mint10
    (MkMsgMintHalResponse (MkCoin HAL (Some 20)))); scenario.
  intros addr E. vm_compute in E. injection E as <-. split; vm_compute; congruence.
Defined.

(** ** Redeeming *)

Lemma request_witness h : 0 <= h < 1000 -> (exists z, h / 2 = z /\ (z = 0 \/ z = 1 \/ z = 2)) ->
  RedeemRequest_ok (new_request genesis_state rt0 alice h).
Proof.
  intros Hh (z & Hz & Hz'). unfold new_request. rewrite Hz.
  apply (request_ok_at (now0 + DefaultRedeemDur) z); [lia | now right|].
  destruct Hz' as [->|[->| ->]]; vm_compute; reflexivity.
Qed.

Lemma redeem_one_halts_chain_witness : exists p w'',
  EndBlock later (World (kvs (after (RedeemCollateral rt0 (redeem 1) world0))) bank0) = (Panic p, w'').
Proof.
  apply (redeem_one_halts_chain later rt0 genesis_state world0 (after (RedeemCollateral rt0 (redeem 1) world0)) bank0
    (redeem 1) (MkMsgRedeemCollateralResponse (MkCoin HAL (Some 1)) (now0 + DefaultRedeemDur)) alice); scenario.
  apply request_witness; [lia | exists 0; split; [reflexivity | auto]].
Defined.

Lemma begin_block_condition_witness : exists p, BeginBlock later world0 =
  (if negb (supply (bnk world0) (hal_denom genesis_state) =? 0) &&
      (negb (ValidateDenom (collateral_denom genesis_state)) || negb (ValidateDenom (hal_denom genesis_state)) ||
       (maxDec <=? 2 * pooled genesis_state (bnk world0) * precision) ||
       (maxInt <=? Z.abs (supply (bnk world0) (hal_denom genesis_state) - 2 * pooled genesis_state (bnk world0))) ||
       (supply (bnk world0) (hal_denom genesis_state) <? 2 * pooled genesis_state (bnk world0)))
   then Panic p else Ok tt, world0).
Proof. apply (begin_block_condition later genesis_state world0). exact genesis_refines. Defined.

(** In [world0] there are 6 HAL for 3 Stake; redeeming 4 of them stops the chain. *)
Lemma redeem_breaks_begin_block_witness : exists p,
  BeginBlock later (after (RedeemCollateral rt0 (redeem 4) world0)) =
    (Panic p, after (RedeemCollateral rt0 (redeem 4) world0)).
Proof.
  apply (redeem_breaks_begin_block later rt0 genesis_state world0 (after (RedeemCollateral rt0 (redeem 4) world0))
    (redeem 4) (MkMsgRedeemCollateralResponse (MkCoin HAL (Some 4)) (now0 + DefaultRedeemDur)) 4); scenario.
  intros addr E. vm_compute in E. injection E as <-.
  apply request_witness; [lia | exists 2; split; [reflexivity | auto]].
Defined.

Lemma second_redeem_overwrites_witness :
  let w1 := after (RedeemCollateral rt0 (redeem 2) world0) in
  let w2 := after (RedeemCollateral rt0 (redeem 4) w1) in
  refines (put_request (new_request genesis_state rt0 alice 4) genesis_state) (kvs w2) /\
  bal (bnk w2) (redeem_pool (B := ledger accounts)) (collateral_denom genesis_state) =
    bal (bnk world0) (redeem_pool (B := ledger accounts)) (collateral_denom genesis_state) + 2 / 2 + 4 / 2.
Proof.
  intros w1 w2. subst w2. subst w1.
  apply (second_redeem_overwrites rt0 rt0 genesis_state world0 (after (RedeemCollateral rt0 (redeem 2) world0))
    (after (RedeemCollateral rt0 (redeem 4) (after (RedeemCollateral rt0 (redeem 2) world0)))) (redeem 2) (redeem 4)
    (MkMsgRedeemCollateralResponse (MkCoin HAL (Some 2)) (now0 + DefaultRedeemDur))
    (MkMsgRedeemCollateralResponse (MkCoin HAL (Some 4)) (now0 + DefaultRedeemDur)) alice 2 4); scenario.
  - apply request_witness; [lia | exists 1; split; [reflexivity | auto]].
  - apply request_witness; [lia | exists 2; split; [reflexivity | auto]].
Defined.

Lemma redeem_depends_on_clock_witness :
  (Ok (MkMsgRedeemCollateralResponse (MkCoin HAL (Some 4)) (now0 + DefaultRedeemDur)) =
     (RedeemCollateral rt0 (redeem 4) world0).1) /\
  MkMsgRedeemCollateralResponse (MkCoin HAL (Some 4)) (now0 + DefaultRedeemDur) <>
  MkMsgRedeemCollateralResponse (MkCoin HAL (Some 4)) (now0 + 1 + DefaultRedeemDur).
Proof.
  split; [vm_compute; reflexivity|]. intros E.
  apply (redeem_depends_on_clock rt0 (runtime_at (now0 + 1)) genesis_state world0
    (after (RedeemCollateral rt0 (redeem 4) world0))
    (after (RedeemCollateral (runtime_at (now0 + 1)) (redeem 4) world0)) (redeem 4)) in E.
  2-4: scenario.
  vm_compute in E. discriminate.
Defined.

(** ** The end of a block *)

(** Alice is paid the 3 Stake of her request. *)
Lemma end_block_safe_witness :
  (exists p w', EndBlock later world1 = (Panic p, w')) \/
  exists w' ps, EndBlock later world1 = (Ok tt, w') /\
    ps ⊆+ option_list (head (h_tickets state1) ≫= decode ∘ Ticket_enc) ++ (map_to_list (h_requests state1)).*2 /\
    (forall r, r ∈ ps -> matured later r = true /\ 0 < amount r) /\
    settled ps (bnk world1) (bnk w') /\ refines (drop_requests ps state1) (kvs w') /\
    (h_tickets state1 = [] -> NoDup (RedeemRequest_Account <$> ps) /\
       forall r, r ∈ ps -> h_requests state1 !! RedeemRequest_Account r = Some r).
Proof. exact (end_block_safe later state1 world1 accounts_ok_scenario state1_refines). Defined.

Lemma get_all_requests_exact_witness : exists l, GetAllRedeemRequests world1 = (Ok l, world1) /\
  l ≡ₚ (map_to_list (h_requests state1)).*2.
Proof. apply (get_all_requests_exact state1 world1); scenario. Defined.

(** Alice writes a ticket that is a request for 1000 Stake. *)
Definition forged : MsgCreateTicket :=
  MkMsgCreateTicket alice_account alice_account (coin_enc (MkCoin Stake (Some 1000))).
Definition rich_world : chain_world := World genesis_store (ledger_of [(alice, HAL, 100%N)]).

Lemma first_ticket_is_request_witness : exists l,
  GetAllRedeemRequests (after (CreateTicket rt0 later forged rich_world)) =
    (Ok l, after (CreateTicket rt0 later forged rich_world)) /\
  MkRedeemRequest alice_account (MkCoin Stake (Some 1000)) zero_time ∈ l.
Proof.
  apply (first_ticket_is_request rt0 later genesis_state rich_world (after (CreateTicket rt0 later forged rich_world))
    forged (MkMsgCreateTicketResponse 0) (MkCoin Stake (Some 1000))); scenario.
Defined.

(** ** Parameters, genesis, tickets *)

Definition gov : Keeper := MkKeeper (str "cosmos1gov").
Definition new_params : Params := NewParams Hour 1 DefaultCollateralMetas DefaultHalMeta.

Lemma new_params_ok : Params_ok new_params.
Proof. repeat split; vm_compute; congruence. Qed.

Lemma update_params_spec_witness : exists w',
  UpdateParams gov (MkMsgUpdateParams (str "cosmos1gov") new_params) world0 = (Ok MkMsgUpdateParamsResponse, w') /\
  bnk w' = bank0 /\ refines (set_params new_params genesis_state) (kvs w') /\
  Params_query (Some MkQueryParamsRequest) w' = (Ok (MkQueryParamsResponse new_params), w').
Proof.
  exact (update_params_spec gov genesis_state world0 (MkMsgUpdateParams (str "cosmos1gov") new_params)
    genesis_refines new_params_ok).
Defined.

Lemma genesis_roundtrip_witness : exists w',
  InitGenesis DefaultGenesis (World ∅ bank0 : chain_world) = (Ok tt, w') /\ ExportGenesis w' = (Ok DefaultGenesis, w').
Proof. apply (genesis_roundtrip DefaultGenesis (World ∅ bank0)); [reflexivity | exact Params_ok_default]. Defined.

Lemma export_drops_requests_witness : (ExportGenesis world0).1 = (ExportGenesis world1).1.
Proof.
  apply (export_drops_requests genesis_state state1 world0 world1);
    [exact genesis_refines | exact state1_refines | reflexivity].
Defined.

Lemma ticket_counter_roundtrip_witness : exists w',
  SetTicketCounter (2 ^ 64 - 1) world0 = (Ok tt, w') /\ GetTicketCount w' = (Ok (2 ^ 64 - 1), w').
Proof. apply (ticket_counter_roundtrip (2 ^ 64 - 1) world0). lia. Defined.

Lemma ticket_keys_distinct_witness : ticket_key 0x5f636f756e746572 = KeyPrefix TicketKeyCounter /\
  ticket_key 0x5f636f756e746572 <> ticket_key 1.
Proof.
  destruct (ticket_keys_distinct 0x5f636f756e746572 1 ltac:(lia) ltac:(lia)) as (K1 & _ & _ & K2). split.
  - apply K2. reflexivity.
  - intros E. apply K1 in E. lia.
Defined.

(** The order in which the runtime visits the metadata map decides what
    [AppendTicket] stores: two nodes with the same clock that execute the same
    message on the same state can store different tickets. *)
Theorem append_ticket_order_dependent : exists rt1 rt2, Now rt1 = Now rt2 /\
  kv_get (kvs (after (AppendTicket rt1 later (MkTicket (str "alice") (str "bug") 0 []) world0))) (ticket_key 0) <>
  kv_get (kvs (after (AppendTicket rt2 later (MkTicket (str "alice") (str "bug") 0 []) world0))) (ticket_key 0).
Proof.
  exists rt0, (runtime_reversed now0). split; [reflexivity|]. vm_compute. congruence.
Qed.

(** ** Runs of the chain *)

Lemma init_default : InitGenesis DefaultGenesis (World ∅ bank0 : chain_world) = (Ok tt, world0).
Proof. reflexivity. Qed.

(** A block: the begin hook, a mint transaction, the end hook. *)
Lemma run0 : rtc (step gov) world0 (after (MintHal mint10 world0)).
Proof.
  eapply rtc_l; [apply (step_begin gov later); apply run_eq; vm_compute; reflexivity|].
  apply rtc_once. apply (step_tx gov rt0 later (TxMintHal mint10) _ (Ok tt)); [intros a _; exact I | reflexivity].
Qed.

Lemma chain_refines_abstract_witness : exists a, rtc astep (set_params DefaultParams hal_empty) a /\
  refines a (kvs (after (MintHal mint10 world0))).
Proof.
  apply (chain_refines_abstract gov DefaultGenesis (World ∅ bank0) world0 (after (MintHal mint10 world0)));
    [reflexivity | exact Params_ok_default | exact init_default | exact run0].
Defined.

(** A state with one ticket. *)
Definition ticket_state : hal := push_ticket (new_ticket genesis_state rt0 later ticket_msg) genesis_state.
Definition ticket_world : chain_world := after (CreateTicket rt0 later ticket_msg world0).

Lemma ticket_world_refines : refines ticket_state (kvs ticket_world).
Proof.
  destruct (CreateTicket_inv genesis_state rt0 later world0 ticket_msg (MkMsgCreateTicketResponse 0) ticket_world
    genesis_refines) as (addr & _ & _ & _ & R).
  - apply run_eq. vm_compute. reflexivity.
  - apply R; scenario.
Qed.

Lemma tickets_append_only_witness :
  kv_get (kvs (World (kvs ticket_world) bank0)) (ticket_key 0) =
    Some (Ticket_enc (new_ticket genesis_state rt0 later ticket_msg)) /\
  Ticket_Id (new_ticket genesis_state rt0 later ticket_msg) = 0 /\
  exists n, GetTicketCount (World (kvs ticket_world) bank0 : chain_world) = (Ok n, World (kvs ticket_world) bank0) /\
    len (h_tickets ticket_state) <= n.
Proof.
  apply (tickets_append_only gov ticket_state ticket_world (World (kvs ticket_world) bank0) 0);
    [exact ticket_world_refines | apply rtc_once, step_bank | reflexivity].
Defined.

(** ** The app *)

#[export] Instance sdk_names : SdkNames := fun n => str
  match n with
  | Capability => "capability" | Auth => "auth" | BankModule => "bank" | Distr => "distribution"
  | Staking => "staking" | Slashing => "slashing" | Gov => "gov" | MintModule => "mint" | Crisis => "crisis"
  | IbcExported => "ibc" | Genutil => "genutil" | Evidence => "evidence" | Authz => "authz"
  | IbcTransfer => "transfer" | Ica => "interchainaccounts" | IbcFee => "feeibc" | Feegrant => "feegrant"
  | ParamsModule => "params" | Upgrade => "upgrade" | Vesting => "vesting" | Nft => "nft" | Group => "group"
  | Consensus => "consensus" | Circuit => "circuit" | FeeCollectorName => "fee_collector"
  | BondedPoolName => "bonded_tokens_pool" | NotBondedPoolName => "not_bonded_tokens_pool"
  end.

Definition all_names : list sdk_name :=
  [Capability; Auth; BankModule; Distr; Staking; Slashing; Gov; MintModule; Crisis; IbcExported; Genutil; Evidence;
   Authz; IbcTransfer; Ica; IbcFee; Feegrant; ParamsModule; Upgrade; Vesting; Nft; Group; Consensus; Circuit;
   FeeCollectorName; BondedPoolName; NotBondedPoolName].

#[export] Instance sdk_names_ok : SdkNamesOk.
Proof.
  split.
  - intros n m E. apply (inj Some).
    assert (F : forall n, List.find (fun x => bool_decide (name_of x = name_of n)) all_names = Some n)
      by (intros []; vm_compute; reflexivity).
    now rewrite <- (F n), <- (F m), E.
  - intros n. apply (bool_decide_unpack _). destruct n; vm_compute; exact I.
Qed.

(** The accounts of the configuration, in a ledger. *)
Definition config_accounts : modules :=
  (fun '(m, ps) => (m, bool_decide (Minter ∈ ps), bool_decide (Burner ∈ ps))) <$> moduleAccPerms.

Lemma find_perms (l : list (gostring * list permission)) m : NoDup l.*1 ->
  match List.find (fun e => bool_decide (e.1.1 = m))
    ((fun '(m, ps) => (m, bool_decide (Minter ∈ ps), bool_decide (Burner ∈ ps))) <$> l) with
  | Some e => Some (e.1.2, e.2) | None => None end =
  (fun ps => (bool_decide (Minter ∈ ps), bool_decide (Burner ∈ ps))) <$>
    (foldl (fun dup e => <[e.1 := e.2]> dup) ∅ l : gmap gostring (list permission)) !! m.
Proof.
  intros Hl. destruct (decide (m ∈ l.*1)) as [Hm|Hm].
  - apply list_elem_of_fmap in Hm. destruct Hm as ([m' ps] & -> & Hm). cbn [fst].
    rewrite (foldl_insert_in l ∅ m' ps Hl Hm). induction l as [|[k v] l IH]; [now apply not_elem_of_nil in Hm|].
    cbn in *. apply NoDup_cons in Hl. destruct Hl as [Hk Hl]. apply elem_of_cons in Hm. destruct Hm as [E|Hm].
    + injection E as -> ->. now rewrite bool_decide_eq_true_2.
    + rewrite bool_decide_eq_false_2; [auto|]. intros ->. apply Hk, list_elem_of_fmap. now exists (m', ps).
  - rewrite foldl_insert_notin, lookup_empty by assumption.
    induction l as [|[k v] l IH]; [reflexivity|]. cbn in *. apply not_elem_of_cons in Hm. destruct Hm as [N Hm].
    rewrite bool_decide_eq_false_2 by congruence. apply NoDup_cons in Hl. now apply IH.
Qed.

Lemma config_entry m : module_entry (mods := config_accounts) m =
  (fun ps => (bool_decide (Minter ∈ ps), bool_decide (Burner ∈ ps))) <$> GetMaccPerms !! m.
Proof. apply find_perms, moduleAccPerms_nodup. Qed.

Lemma config_ok : configured (B := ledger config_accounts).
Proof.
  split; intros m; cbn [registered may_mint may_burn bank_ok]; unfold is_module, mints, burns;
    rewrite config_entry; destruct (GetMaccPerms !! m) as [ps|]; reflexivity.
Qed.

Lemma app_accounts_ok_witness : accounts_ok (B := ledger config_accounts).
Proof. apply (app_accounts_ok (B := ledger config_accounts)), config_ok. Defined.

Definition app_world : world store (ledger config_accounts) :=
  World genesis_store (ledger_of [(alice, HAL, 6%N)]).

(** Alice redeems 4 HAL in the configured app.  Then others mint, so that the
    check at the begin of a block holds. *)
Definition redeem_bank : ledger config_accounts :=
  ledger_of [(alice, HAL, 6%N); (pool_addr CollateralPoolName, Stake, 3%N)].
Definition redeem_world0 : world store (ledger config_accounts) := World genesis_store redeem_bank.
Definition redeem_world1 : world store (ledger config_accounts) := (RedeemCollateral rt0 (redeem 4) redeem_world0).2.
Definition redeem_world : world store (ledger config_accounts) := World (kvs redeem_world1)
  (ledger_of [(alice, HAL, 100%N); (pool_addr CollateralPoolName, Stake, 1%N); (pool_addr RedeemPoolName, Stake, 2%N)]).
Definition redeem_state : hal := put_request (new_request genesis_state rt0 alice 4) genesis_state.
Abbreviation request4 := (new_request genesis_state rt0 alice 4).

Lemma redeem_run : RedeemCollateral rt0 (redeem 4) redeem_world0 =
  (Ok (MkMsgRedeemCollateralResponse (MkCoin HAL (Some 4)) (now0 + DefaultRedeemDur)), redeem_world1).
Proof. apply run_eq. vm_compute. reflexivity. Qed.

Lemma request4_ok : RedeemRequest_ok request4.
Proof. apply request_witness; [lia | exists 2; split; [reflexivity | auto]]. Qed.

Lemma redeem_refines : refines redeem_state (kvs redeem_world).
Proof.
  destruct (RedeemCollateral_inv genesis_state rt0 redeem_world0 (redeem 4) _ _ genesis_refines redeem_run)
    as (addr & h & ? & Ha & Hh & _ & _ & _ & R).
  vm_compute in Ha. injection Ha as <-. injection Hh as <-. exact (R request4_ok).
Qed.

Lemma redeem_reachable : rtc (step gov) redeem_world0 redeem_world.
Proof.
  eapply rtc_l; [|apply rtc_once, (step_bank gov redeem_world1)].
  apply (step_tx gov rt0 later (TxRedeemCollateral (redeem 4)) _ (Ok tt)).
  - intros a R addr h Ha Hh. vm_compute in Ha. injection Ha as <-. injection Hh as <-.
    unfold new_request, collateral_denom. rewrite (refines_params a genesis_state genesis_store R genesis_refines).
    exact request4_ok.
  - assert (V : validate_basic (TxRedeemCollateral (redeem 4)) = Ok tt) by (vm_compute; reflexivity).
    unfold run_tx, deliver. rewrite V, lift_bind. unfold handle. now rewrite (M_bind_ok _ _ _ _ _ redeem_run).
Qed.

(** One block before the completion time, then one after it, which pays. *)
Lemma redeem_blocks : blocks gov alice_account [ctx_at now0] redeem_world (EndBlock (ctx_at now0) redeem_world).2.
Proof.
  eapply blocks_cons; [apply run_eq; vm_compute; reflexivity | apply rtc_refl | | apply blocks_nil].
  change ((BeginBlock (ctx_at now0) redeem_world).2) with redeem_world. apply run_eq. vm_compute. reflexivity.
Qed.

Lemma payable_request4 : payable (B := ledger config_accounts) request4.
Proof. exists alice, 2. repeat split; vm_compute; congruence. Qed.

(** Alice's request is the only one. *)
Lemma covered_request4 a : refines a (kvs redeem_world) -> h_requests a !! alice_account = Some request4 ->
  covered later (map_to_list (h_requests a)).*2 (bnk redeem_world).
Proof.
  intros R Hx. destruct (GetAllRedeemRequests_refines a redeem_world R) as (l & El & P).
  apply (f_equal fst) in El. vm_compute in El. injection El as <-.
  assert (Hin : request4 ∈ (map_to_list (h_requests a)).*2).
  { apply list_elem_of_fmap. exists (alice_account, request4). split; [reflexivity | now apply elem_of_map_to_list]. }
  apply Permutation_length in P. rewrite length_app in P. cbn [length] in P.
  destruct (map_to_list (h_requests a)).*2 as [|q [|q' l]]; [now apply not_elem_of_nil in Hin | | cbn in P; lia].
  apply list_elem_of_singleton in Hin. subst q. intros d. destruct (decide (Stake = d)) as [<-|N].
  - vm_compute. congruence.
  - rewrite due_cons, (bool_decide_eq_false_2 _ N), andb_false_r. apply bal_nonneg.
Qed.

Lemma redemptions_eventually_paid_witness : let w3 := (EndBlock (ctx_at now0) redeem_world).2 in
  exists w4 ps, EndBlock later w3 = (Ok tt, w4) /\ request4 ∈ ps /\ NoDup (RedeemRequest_Account <$> ps) /\
    settled ps (bnk w3) (bnk w4).
Proof.
  intros w3. destruct (redemptions_eventually_paid gov DefaultGenesis (World ∅ redeem_bank) redeem_world0 redeem_world
    redeem_state alice_account request4 [ctx_at now0] w3) as [_ P];
    [exact config_ok | reflexivity | exact Params_ok_default | reflexivity | exact redeem_reachable
    | exact redeem_refines | apply lookup_insert_eq | exact redeem_blocks | repeat constructor |].
  destruct (P later) as [[p E]|[_ Q]]; [vm_compute; reflexivity | |].
  { apply (f_equal fst) in E. vm_compute in E. discriminate. }
  destruct (Q _ (rtc_refl _ _)) as (a3 & R3 & Hx & L).
  destruct (L payable_request4 (covered_request4 a3 R3 Hx)) as [[(p & w4 & E) _]|(w4 & ps & E & Hr & Nd & _ & S4 & _)].
  - exfalso. apply (f_equal fst) in E. vm_compute in E. discriminate.
  - exists w4, ps. auto.
Defined.

Lemma app_creates_no_ticket_witness : GetTicketCount app_world = (Ok 0, app_world) /\
  forall rt ctx msg resp w', CreateTicket rt ctx msg app_world <> (Ok resp, w').
Proof.
  apply (app_creates_no_ticket gov DefaultGenesis (World ∅ (ledger_of [(alice, HAL, 6%N)])) app_world app_world);
    [exact config_ok | reflexivity | exact Params_ok_default | reflexivity | apply rtc_refl].
Defined.

Lemma app_lists_wf_witness :
  BlockedAddresses !! CollateralPoolName = None /\ BlockedAddresses !! RedeemPoolName = None /\
  (forall m, BlockedAddresses !! m = Some true -> is_Some (GetMaccPerms !! m)) /\
  Forall (fun l => NoDup l /\ last l = Some ModuleName) [genesisModuleOrder; beginBlockers; endBlockers].
Proof. exact app_lists_wf. Defined.
