(* ===== verification/PulsarTypes.v ===== *)
(** * The messages of [api/halbornctf/hal/*.pulsar.go]

    The structs that protoc-gen-go-pulsar generates, with the raw bytes of the
    fields the schema does not know, and the two interface types the
    reflection methods are written against: [ProtoMessage], a value of which
    is a pointer to one of the messages, and [Value], a field's value.  The
    bookkeeping fields [state] and [sizeCache] of the structs belong to the
    protobuf runtime and are left out. *)

From S2P Require Import Prelude.

(** A Go pointer to a message: nil or the message it points to. *)
Abbreviation ptr := option.

Definition deref {A} (x : ptr A) : res A :=
  match x with Some a => Ok a | None => Panic PNilDeref end.

(** ** The messages of other packages that occur as fields

    [cosmossdk.io/api/cosmos/base/v1beta1.Coin] and the well-known types
    [timestamppb.Timestamp] and [durationpb.Duration]. *)

Record apiCoin := MkapiCoin {
  apiCoin_unknownFields : option bytes;
  apiCoin_Denom : gostring;
  apiCoin_Amount : gostring }.

Record apiTimestamp := MkapiTimestamp {
  apiTimestamp_unknownFields : option bytes;
  apiTimestamp_Seconds : Z;
  apiTimestamp_Nanos : Z }.

Record apiDuration := MkapiDuration {
  apiDuration_unknownFields : option bytes;
  apiDuration_Seconds : Z;
  apiDuration_Nanos : Z }.

Definition apiCoin_zero : apiCoin := MkapiCoin None [] [].
Definition apiTimestamp_zero : apiTimestamp := MkapiTimestamp None 0 0.
Definition apiDuration_zero : apiDuration := MkapiDuration None 0 0.

(** ** The messages of the module *)

Record apiTokenMeta := MkapiTokenMeta {
  apiTokenMeta_unknownFields : option bytes;
  apiTokenMeta_Denom : gostring;
  apiTokenMeta_Decimals : Z;
  apiTokenMeta_Description : gostring }.

Record apiParams := MkapiParams {
  apiParams_unknownFields : option bytes;
  apiParams_RedeemDur : ptr apiDuration;
  apiParams_MaxRedeemEntries : Z;
  apiParams_CollateralMetas : ptr apiTokenMeta;
  apiParams_HalMeta : ptr apiTokenMeta }.

Record apiTicket := MkapiTicket {
  apiTicket_unknownFields : option bytes;
  apiTicket_Author : gostring;
  apiTicket_Issue : gostring;
  apiTicket_Id : Z;
  apiTicket_AdditionalInfo : gostring }.

Record apiRedeemRequest := MkapiRedeemRequest {
  apiRedeemRequest_unknownFields : option bytes;
  apiRedeemRequest_Account : gostring;
  apiRedeemRequest_Collateral : ptr apiCoin;
  apiRedeemRequest_Completiontime : ptr apiTimestamp }.

Record apiGenesisState := MkapiGenesisState {
  apiGenesisState_unknownFields : option bytes;
  apiGenesisState_Params : ptr apiParams }.

Record apiQueryParamsRequest := MkapiQueryParamsRequest {
  apiQueryParamsRequest_unknownFields : option bytes }.

Record apiQueryParamsResponse := MkapiQueryParamsResponse {
  apiQueryParamsResponse_unknownFields : option bytes;
  apiQueryParamsResponse_Params : ptr apiParams }.

Record apiMsgUpdateParams := MkapiMsgUpdateParams {
  apiMsgUpdateParams_unknownFields : option bytes;
  apiMsgUpdateParams_Authority : gostring;
  apiMsgUpdateParams_Params : ptr apiParams }.

Record apiMsgUpdateParamsResponse := MkapiMsgUpdateParamsResponse {
  apiMsgUpdateParamsResponse_unknownFields : option bytes }.

Record apiMsgMintHal := MkapiMsgMintHal {
  apiMsgMintHal_unknownFields : option bytes;
  apiMsgMintHal_Creator : gostring;
  apiMsgMintHal_CollateralAmount : ptr apiCoin }.

Record apiMsgMintHalResponse := MkapiMsgMintHalResponse {
  apiMsgMintHalResponse_unknownFields : option bytes;
  apiMsgMintHalResponse_MintedAmount : ptr apiCoin }.

Record apiMsgRedeemCollateral := MkapiMsgRedeemCollateral {
  apiMsgRedeemCollateral_unknownFields : option bytes;
  apiMsgRedeemCollateral_Creator : gostring;
  apiMsgRedeemCollateral_HalAmount : ptr apiCoin }.

Record apiMsgRedeemCollateralResponse := MkapiMsgRedeemCollateralResponse {
  apiMsgRedeemCollateralResponse_unknownFields : option bytes;
  apiMsgRedeemCollateralResponse_BurnedAmount : ptr apiCoin;
  apiMsgRedeemCollateralResponse_CompletionTime : ptr apiTimestamp }.

Record apiMsgCreateTicket := MkapiMsgCreateTicket {
  apiMsgCreateTicket_unknownFields : option bytes;
  apiMsgCreateTicket_Creator : gostring;
  apiMsgCreateTicket_Author : gostring;
  apiMsgCreateTicket_Issue : gostring }.

Record apiMsgCreateTicketResponse := MkapiMsgCreateTicketResponse {
  apiMsgCreateTicketResponse_unknownFields : option bytes;
  apiMsgCreateTicketResponse_Id : Z }.

Record apiModule := MkapiModule {
  apiModule_unknownFields : option bytes;
  apiModule_Authority : gostring }.

(** The zero values. *)
Definition apiTokenMeta_zero : apiTokenMeta := MkapiTokenMeta None [] 0 [].
Definition apiParams_zero : apiParams := MkapiParams None None 0 None None.
Definition apiTicket_zero : apiTicket := MkapiTicket None [] [] 0 [].
Definition apiRedeemRequest_zero : apiRedeemRequest := MkapiRedeemRequest None [] None None.
Definition apiGenesisState_zero : apiGenesisState := MkapiGenesisState None None.
Definition apiQueryParamsRequest_zero : apiQueryParamsRequest := MkapiQueryParamsRequest None.
Definition apiQueryParamsResponse_zero : apiQueryParamsResponse := MkapiQueryParamsResponse None None.
Definition apiMsgUpdateParams_zero : apiMsgUpdateParams := MkapiMsgUpdateParams None [] None.
Definition apiMsgUpdateParamsResponse_zero : apiMsgUpdateParamsResponse := MkapiMsgUpdateParamsResponse None.
Definition apiMsgMintHal_zero : apiMsgMintHal := MkapiMsgMintHal None [] None.
Definition apiMsgMintHalResponse_zero : apiMsgMintHalResponse := MkapiMsgMintHalResponse None None.
Definition apiMsgRedeemCollateral_zero : apiMsgRedeemCollateral := MkapiMsgRedeemCollateral None [] None.
Definition apiMsgRedeemCollateralResponse_zero : apiMsgRedeemCollateralResponse := MkapiMsgRedeemCollateralResponse None None None.
Definition apiMsgCreateTicket_zero : apiMsgCreateTicket := MkapiMsgCreateTicket None [] [] [].
Definition apiMsgCreateTicketResponse_zero : apiMsgCreateTicketResponse := MkapiMsgCreateTicketResponse None 0.
Definition apiModule_zero : apiModule := MkapiModule None [].

(** ** Interfaces

    A [protoreflect.ProtoMessage] holds a pointer, possibly nil, and its
    dynamic type.  A [protoreflect.Message] is the same pointer under the type
    [fastReflection_*], so one type stands for both.  [POther] is a message of
    a type the files do not mention, by its full name. *)

Inductive ProtoMessage :=
| PCoin (x : ptr apiCoin)
| PTimestamp (x : ptr apiTimestamp)
| PDuration (x : ptr apiDuration)
| PTokenMeta (x : ptr apiTokenMeta)
| PParams (x : ptr apiParams)
| PTicket (x : ptr apiTicket)
| PRedeemRequest (x : ptr apiRedeemRequest)
| PGenesisState (x : ptr apiGenesisState)
| PQueryParamsRequest (x : ptr apiQueryParamsRequest)
| PQueryParamsResponse (x : ptr apiQueryParamsResponse)
| PMsgUpdateParams (x : ptr apiMsgUpdateParams)
| PMsgUpdateParamsResponse (x : ptr apiMsgUpdateParamsResponse)
| PMsgMintHal (x : ptr apiMsgMintHal)
| PMsgMintHalResponse (x : ptr apiMsgMintHalResponse)
| PMsgRedeemCollateral (x : ptr apiMsgRedeemCollateral)
| PMsgRedeemCollateralResponse (x : ptr apiMsgRedeemCollateralResponse)
| PMsgCreateTicket (x : ptr apiMsgCreateTicket)
| PMsgCreateTicketResponse (x : ptr apiMsgCreateTicketResponse)
| PModule (x : ptr apiModule)
| POther (name : string).

(** The full name of the dynamic type. *)
Definition type_name (m : ProtoMessage) : string :=
  match m with
  | PCoin _ => "cosmos.base.v1beta1.Coin"
  | PTimestamp _ => "google.protobuf.Timestamp"
  | PDuration _ => "google.protobuf.Duration"
  | PTokenMeta _ => "halbornctf.hal.TokenMeta"
  | PParams _ => "halbornctf.hal.Params"
  | PTicket _ => "halbornctf.hal.Ticket"
  | PRedeemRequest _ => "halbornctf.hal.RedeemRequest"
  | PGenesisState _ => "halbornctf.hal.GenesisState"
  | PQueryParamsRequest _ => "halbornctf.hal.QueryParamsRequest"
  | PQueryParamsResponse _ => "halbornctf.hal.QueryParamsResponse"
  | PMsgUpdateParams _ => "halbornctf.hal.MsgUpdateParams"
  | PMsgUpdateParamsResponse _ => "halbornctf.hal.MsgUpdateParamsResponse"
  | PMsgMintHal _ => "halbornctf.hal.MsgMintHal"
  | PMsgMintHalResponse _ => "halbornctf.hal.MsgMintHalResponse"
  | PMsgRedeemCollateral _ => "halbornctf.hal.MsgRedeemCollateral"
  | PMsgRedeemCollateralResponse _ => "halbornctf.hal.MsgRedeemCollateralResponse"
  | PMsgCreateTicket _ => "halbornctf.hal.MsgCreateTicket"
  | PMsgCreateTicketResponse _ => "halbornctf.hal.MsgCreateTicketResponse"
  | PModule _ => "halbornctf.hal.module.Module"
  | POther n => n
  end.

(** Whether the interface holds a nil pointer. *)
Definition is_nil (m : ProtoMessage) : bool :=
  match m with
  | PCoin None
  | PTimestamp None
  | PDuration None
  | PTokenMeta None
  | PParams None
  | PTicket None
  | PRedeemRequest None
  | PGenesisState None
  | PQueryParamsRequest None
  | PQueryParamsResponse None
  | PMsgUpdateParams None
  | PMsgUpdateParamsResponse None
  | PMsgMintHal None
  | PMsgMintHalResponse None
  | PMsgRedeemCollateral None
  | PMsgRedeemCollateralResponse None
  | PMsgCreateTicket None
  | PMsgCreateTicketResponse None
  | PModule None => true
  | _ => false
  end.

(** Whether two interfaces have the same dynamic type. *)
Definition same_type (m n : ProtoMessage) : bool :=
  match m, n with
  | PCoin _, PCoin _
  | PTimestamp _, PTimestamp _
  | PDuration _, PDuration _
  | PTokenMeta _, PTokenMeta _
  | PParams _, PParams _
  | PTicket _, PTicket _
  | PRedeemRequest _, PRedeemRequest _
  | PGenesisState _, PGenesisState _
  | PQueryParamsRequest _, PQueryParamsRequest _
  | PQueryParamsResponse _, PQueryParamsResponse _
  | PMsgUpdateParams _, PMsgUpdateParams _
  | PMsgUpdateParamsResponse _, PMsgUpdateParamsResponse _
  | PMsgMintHal _, PMsgMintHal _
  | PMsgMintHalResponse _, PMsgMintHalResponse _
  | PMsgRedeemCollateral _, PMsgRedeemCollateral _
  | PMsgRedeemCollateralResponse _, PMsgRedeemCollateralResponse _
  | PMsgCreateTicket _, PMsgCreateTicket _
  | PMsgCreateTicketResponse _, PMsgCreateTicketResponse _
  | PModule _, PModule _ => true
  | POther a, POther b => String.eqb a b
  | _, _ => false
  end.

(** The type assertions [m.( *T)], which panic on another dynamic type. *)
Definition bad_assertion {A} (m : ProtoMessage) (t : string) : res A :=
  Panic (PMsg ("interface conversion: " +:+ type_name m +:+ ", not " +:+ t)).

Definition as_Coin (m : ProtoMessage) : res (ptr apiCoin) :=
  match m with PCoin x => Ok x | _ => bad_assertion m "Coin" end.
Definition as_Timestamp (m : ProtoMessage) : res (ptr apiTimestamp) :=
  match m with PTimestamp x => Ok x | _ => bad_assertion m "Timestamp" end.
Definition as_Duration (m : ProtoMessage) : res (ptr apiDuration) :=
  match m with PDuration x => Ok x | _ => bad_assertion m "Duration" end.
Definition as_TokenMeta (m : ProtoMessage) : res (ptr apiTokenMeta) :=
  match m with PTokenMeta x => Ok x | _ => bad_assertion m "TokenMeta" end.
Definition as_Params (m : ProtoMessage) : res (ptr apiParams) :=
  match m with PParams x => Ok x | _ => bad_assertion m "Params" end.
Definition as_Ticket (m : ProtoMessage) : res (ptr apiTicket) :=
  match m with PTicket x => Ok x | _ => bad_assertion m "Ticket" end.
Definition as_RedeemRequest (m : ProtoMessage) : res (ptr apiRedeemRequest) :=
  match m with PRedeemRequest x => Ok x | _ => bad_assertion m "RedeemRequest" end.
Definition as_GenesisState (m : ProtoMessage) : res (ptr apiGenesisState) :=
  match m with PGenesisState x => Ok x | _ => bad_assertion m "GenesisState" end.
Definition as_QueryParamsRequest (m : ProtoMessage) : res (ptr apiQueryParamsRequest) :=
  match m with PQueryParamsRequest x => Ok x | _ => bad_assertion m "QueryParamsRequest" end.
Definition as_QueryParamsResponse (m : ProtoMessage) : res (ptr apiQueryParamsResponse) :=
  match m with PQueryParamsResponse x => Ok x | _ => bad_assertion m "QueryParamsResponse" end.
Definition as_MsgUpdateParams (m : ProtoMessage) : res (ptr apiMsgUpdateParams) :=
  match m with PMsgUpdateParams x => Ok x | _ => bad_assertion m "MsgUpdateParams" end.
Definition as_MsgUpdateParamsResponse (m : ProtoMessage) : res (ptr apiMsgUpdateParamsResponse) :=
  match m with PMsgUpdateParamsResponse x => Ok x | _ => bad_assertion m "MsgUpdateParamsResponse" end.
Definition as_MsgMintHal (m : ProtoMessage) : res (ptr apiMsgMintHal) :=
  match m with PMsgMintHal x => Ok x | _ => bad_assertion m "MsgMintHal" end.
Definition as_MsgMintHalResponse (m : ProtoMessage) : res (ptr apiMsgMintHalResponse) :=
  match m with PMsgMintHalResponse x => Ok x | _ => bad_assertion m "MsgMintHalResponse" end.
Definition as_MsgRedeemCollateral (m : ProtoMessage) : res (ptr apiMsgRedeemCollateral) :=
  match m with PMsgRedeemCollateral x => Ok x | _ => bad_assertion m "MsgRedeemCollateral" end.
Definition as_MsgRedeemCollateralResponse (m : ProtoMessage) : res (ptr apiMsgRedeemCollateralResponse) :=
  match m with PMsgRedeemCollateralResponse x => Ok x | _ => bad_assertion m "MsgRedeemCollateralResponse" end.
Definition as_MsgCreateTicket (m : ProtoMessage) : res (ptr apiMsgCreateTicket) :=
  match m with PMsgCreateTicket x => Ok x | _ => bad_assertion m "MsgCreateTicket" end.
Definition as_MsgCreateTicketResponse (m : ProtoMessage) : res (ptr apiMsgCreateTicketResponse) :=
  match m with PMsgCreateTicketResponse x => Ok x | _ => bad_assertion m "MsgCreateTicketResponse" end.
Definition as_Module (m : ProtoMessage) : res (ptr apiModule) :=
  match m with PModule x => Ok x | _ => bad_assertion m "Module" end.

(** [protoreflect.Value]: the kinds of field the messages have, the 64-bit
    signed kind that [Value.Int] also accepts, and the kinds that are none of
    these. *)
Inductive Value :=
| VString (s : gostring)
| VUint32 (z : Z)
| VUint64 (z : Z)
| VInt32 (z : Z)
| VInt64 (z : Z)
| VMessage (m : ProtoMessage)
| VBool (b : bool)
| VBytes (s : bytes)
| VInvalid.

(** What the methods ask of a [protoreflect.FieldDescriptor]. *)
Record FieldDescriptor := MkFieldDescriptor { FullName : string; IsExtension : bool }.

#[export] Instance apiCoin_eq_dec : EqDecision apiCoin.
Proof. solve_decision. Defined.
#[export] Instance apiTimestamp_eq_dec : EqDecision apiTimestamp.
Proof. solve_decision. Defined.
#[export] Instance apiDuration_eq_dec : EqDecision apiDuration.
Proof. solve_decision. Defined.
#[export] Instance apiTokenMeta_eq_dec : EqDecision apiTokenMeta.
Proof. solve_decision. Defined.
#[export] Instance apiParams_eq_dec : EqDecision apiParams.
Proof. solve_decision. Defined.
#[export] Instance apiTicket_eq_dec : EqDecision apiTicket.
Proof. solve_decision. Defined.
#[export] Instance apiRedeemRequest_eq_dec : EqDecision apiRedeemRequest.
Proof. solve_decision. Defined.
#[export] Instance apiGenesisState_eq_dec : EqDecision apiGenesisState.
Proof. solve_decision. Defined.
#[export] Instance apiQueryParamsRequest_eq_dec : EqDecision apiQueryParamsRequest.
Proof. solve_decision. Defined.
#[export] Instance apiQueryParamsResponse_eq_dec : EqDecision apiQueryParamsResponse.
Proof. solve_decision. Defined.
#[export] Instance apiMsgUpdateParams_eq_dec : EqDecision apiMsgUpdateParams.
Proof. solve_decision. Defined.
#[export] Instance apiMsgUpdateParamsResponse_eq_dec : EqDecision apiMsgUpdateParamsResponse.
Proof. solve_decision. Defined.
#[export] Instance apiMsgMintHal_eq_dec : EqDecision apiMsgMintHal.
Proof. solve_decision. Defined.
#[export] Instance apiMsgMintHalResponse_eq_dec : EqDecision apiMsgMintHalResponse.
Proof. solve_decision. Defined.
#[export] Instance apiMsgRedeemCollateral_eq_dec : EqDecision apiMsgRedeemCollateral.
Proof. solve_decision. Defined.
#[export] Instance apiMsgRedeemCollateralResponse_eq_dec : EqDecision apiMsgRedeemCollateralResponse.
Proof. solve_decision. Defined.
#[export] Instance apiMsgCreateTicket_eq_dec : EqDecision apiMsgCreateTicket.
Proof. solve_decision. Defined.
#[export] Instance apiMsgCreateTicketResponse_eq_dec : EqDecision apiMsgCreateTicketResponse.
Proof. solve_decision. Defined.
#[export] Instance apiModule_eq_dec : EqDecision apiModule.
Proof. solve_decision. Defined.
#[export] Instance ProtoMessage_eq_dec : EqDecision ProtoMessage.
Proof. solve_decision. Defined.
#[export] Instance Value_eq_dec : EqDecision Value.
Proof. solve_decision. Defined.
