(* ===== verification/Pulsar.v ===== *)
(** * The runtime of the pulsar files

    What the seven files [api/halbornctf/hal/**/*.pulsar.go] share: the shape
    of the fast-path methods [size], [marshal] and [unmarshal] that a message
    returns from [ProtoMethods], and of the reflection methods.  cosmos-proto's
    [runtime] package, protobuf-go's [proto] options and [protoreflect.Value]
    are parameters with their documented behaviour.  The file states what a
    correct codec ([codec_ok]) and a correct reflection ([ReflectionOk]) of a
    message are; the files of the messages prove the instances. *)

From S2P Require Import Prelude Wire PulsarTypes.

(** ** Parameters *)

(** [protoiface.Methods]: [marshal] appends to a buffer that may be nil, and
    [unmarshal] takes the [DiscardUnknown] flag.  A method that fails leaves
    the message partly updated; the callers drop it, and so does the model. *)
Record Methods := MkMethods {
  m_size : ProtoMessage -> res Z;
  m_marshal : option bytes -> ProtoMessage -> res (option bytes);
  m_unmarshal : bool -> bytes -> ProtoMessage -> res ProtoMessage }.

Class ProtoRuntime : Type := {
  (** [runtime.Sov], [runtime.EncodeVarint], [runtime.Skip]. *)
  Sov : Z -> Z;
  EncodeVarint : bytes -> Z -> Z -> res (bytes * Z);
  Skip : bytes -> res Z;
  (** [proto.SizeOptions.Size], [proto.MarshalOptions.Marshal] and
      [proto.UnmarshalOptions.Unmarshal] on a message with these methods. *)
  options_Size : (ProtoMessage -> res Z) -> ProtoMessage -> res Z;
  options_Marshal : (option bytes -> ProtoMessage -> res (option bytes)) -> ProtoMessage -> res bytes;
  options_Unmarshal : (bool -> bytes -> ProtoMessage -> res ProtoMessage) ->
    bool -> bytes -> ProtoMessage -> res ProtoMessage;
  (** [value.Interface().(string)], [value.Uint()], [value.Int()] and
      [value.Message().Interface()]. *)
  Value_string : Value -> res gostring;
  Value_Uint : Value -> res Z;
  Value_Int : Value -> res Z;
  Value_Message : Value -> res ProtoMessage;
  (** The methods of the messages of other packages. *)
  Coin_methods : Methods;
  Timestamp_methods : Methods;
  Duration_methods : Methods }.

(** ** The fast path *)

Section fast_path.
Context `{ProtoRuntime}.

(** *** Size *)

Definition size_string (s : gostring) : Z :=
  let l := len s in if 0 <? l then 1 + l + Sov (u64 l) else 0.
Definition size_scalar (v : Z) : Z := if negb (v =? 0) then 1 + Sov (u64 v) else 0.
Definition size_message {A} (mk : ptr A -> ProtoMessage) (mt : Methods) (x : ptr A) : res Z :=
  match x with
  | Some _ => l ← options_Size (m_size mt) (mk x); Ok (1 + l + Sov (u64 l))
  | None => Ok 0
  end.
Definition size_unknown (u : option bytes) : Z := match u with Some s => len s | None => 0 end.

(** *** Marshal *)

(** [i = runtime.EncodeVarint(dAtA, i, v)]. *)
Definition pvarint (v : Z) : writer := fun st =>
  '(d, i) ← EncodeVarint (dAtA st) (pos st) v; Ok (WBuf d i).

Definition pstring (tag : Z) (s : gostring) : writer :=
  if 0 <? len s then wcopy s >> pvarint (u64 (len s)) >> wbyte tag else wskip.
Definition pscalar (tag v : Z) : writer :=
  if negb (v =? 0) then pvarint (u64 v) >> wbyte tag else wskip.

(** [encoded, err := options.Marshal(x.F)] and the copy of the result. *)
Definition pmessage {A} (tag : Z) (mk : ptr A -> ProtoMessage) (mt : Methods) (x : ptr A) : writer :=
  match x with
  | Some _ => fun st =>
      encoded ← options_Marshal (m_marshal mt) (mk x);
      (wcopy encoded >> pvarint (u64 (len encoded)) >> wbyte tag) st
  | None => wskip
  end.
Definition punknown (u : option bytes) : writer :=
  match u with Some s => wcopy s | None => wskip end.

(** [make([]byte, size)]. *)
Definition make_bytes (size : Z) : res bytes :=
  if size <? 0 then Panic (PMsg "makeslice: len out of range") else Ok (replicate (Z.to_nat size) x00).

(** [if input.Buf != nil { append } else { input.Buf = dAtA }]. *)
Definition append_buf (buf : option bytes) (d : bytes) : option bytes :=
  match buf with Some b => Some (b ++ d) | None => Some d end.

Definition fill_buf (size : res Z) (w : writer) (buf : option bytes) : res (option bytes) :=
  size ← size;
  d ← make_bytes size;
  st ← w (WBuf d (len d));
  Ok (append_buf buf (dAtA st)).

(** *** Unmarshal *)

(** The default case: the raw bytes of the field are kept unless the caller
    discards unknown fields. *)
Definition keep_unknown {M} (add : bytes -> M -> M) (discard : bool) (d : bytes) (m : M) (preIndex : Z)
    : res (M * Z) :=
  sub ← slice d preIndex (len d);
  skippy ← Skip sub;
  if (skippy <? 0) || (i64 (preIndex + skippy) <? 0) then Err (ErrInvalidLength PbRuntime) else
  if len d <? i64 (preIndex + skippy) then Err ErrUnexpectedEOF else
  m ← (if discard then Ok m else s ← slice d preIndex (i64 (preIndex + skippy)); Ok (add s m));
  Ok (m, i64 (preIndex + skippy)).

(** [append(x.unknownFields, s...)]. *)
Definition append_unknown (u : option bytes) (s : bytes) : option bytes := Some (default [] u ++ s).

(** A message field: allocate it when nil, then [options.Unmarshal] into it. *)
Definition read_into {A} (mk : ptr A -> ProtoMessage) (as_ : ProtoMessage -> res (ptr A)) (zero : A)
    (mt : Methods) (discard : bool) (s : bytes) (x : ptr A) : res (ptr A) :=
  let x := match x with Some x => x | None => zero end in
  y ← options_Unmarshal (m_unmarshal mt) discard s (mk (Some x));
  as_ y.
End fast_path.

(** ** Reflection *)

(** [s != ""] and [p != nil]. *)
Definition nonempty (s : gostring) : bool := match s with [] => false | _ => true end.
Definition is_set {A} (p : ptr A) : bool := match p with Some _ => true | None => false end.

(** [switch name { case ...: ... default: ... }]. *)
Fixpoint switch {A} (name : string) (cases : list (string * A)) (dflt : A) : A :=
  match cases with
  | [] => dflt
  | (c, a) :: cases => if String.eqb name c then a else switch name cases dflt
  end.

(** The default case of the switches, in the message named [md]. *)
Definition no_field {A} (md : string) (fd : FieldDescriptor) : res A :=
  if IsExtension fd
  then Panic (PErr (ErrMsg ("proto3 declared messages do not support extensions: " +:+ md)))
  else Panic (PErr (ErrMsg ("message " +:+ md +:+ " does not contain field " +:+ FullName fd))).

Definition not_mutable {A} (field md : string) : res A :=
  Panic (PErr (ErrMsg ("field " +:+ field +:+ " of message " +:+ md +:+ " is not mutable"))).

Definition not_oneof {A} (md name : string) : res A :=
  Panic (PErr (ErrMsg (name +:+ " is not a oneof field in " +:+ md))).

(** One statement of [Range]: call [f] on a populated field and go on unless it
    returns false.  [f] may keep a state of its own; it does not change the
    message. *)
Definition range_field {St} (populated : bool) (fd : FieldDescriptor) (v : Value)
    (f : FieldDescriptor -> Value -> St -> bool * St) (k : St -> res St) (s : St) : res St :=
  if populated then let '(go, s) := f fd v s in if go then k s else Ok s else k s.

(** The reflection methods of a message.  A mutating method returns the
    message behind the pointer. *)
Record Reflection (M : Type) := MkReflection {
  r_Interface : ptr M -> ProtoMessage;
  r_New : ProtoMessage;
  r_Zero : ProtoMessage;
  r_Range : forall St, ptr M -> (FieldDescriptor -> Value -> St -> bool * St) -> St -> res St;
  r_Has : ptr M -> FieldDescriptor -> res bool;
  r_Clear : ptr M -> FieldDescriptor -> res (ptr M);
  r_Get : ptr M -> FieldDescriptor -> res Value;
  r_Set : ptr M -> FieldDescriptor -> Value -> res (ptr M);
  r_Mutable : ptr M -> FieldDescriptor -> res (ptr M * Value);
  r_NewField : ptr M -> FieldDescriptor -> res Value;
  r_WhichOneof : ptr M -> string -> res FieldDescriptor;
  r_GetUnknown : ptr M -> res (option bytes);
  r_SetUnknown : ptr M -> option bytes -> res (ptr M);
  r_IsValid : ptr M -> bool }.
Arguments MkReflection {M}.
Arguments r_Interface {M}.
Arguments r_New {M}.
Arguments r_Zero {M}.
Arguments r_Range {M} _ {St}.
Arguments r_Has {M}.
Arguments r_Clear {M}.
Arguments r_Get {M}.
Arguments r_Set {M}.
Arguments r_Mutable {M}.
Arguments r_NewField {M}.
Arguments r_WhichOneof {M}.
Arguments r_GetUnknown {M}.
Arguments r_SetUnknown {M}.
Arguments r_IsValid {M}.
