(* ===== verification/PulsarLaws.v ===== *)
(** * What the pulsar files promise

    The documented behaviour of the protobuf runtime ([ProtoRuntimeOk]), the
    specification of a message's fast path ([codec_ok]) and of its reflection
    ([ReflectionOk], a refinement of the message by the association list of
    its fields), with the lemmas and tactics that prove them for a message. *)

From S2P Require Import Prelude Wire PulsarTypes Pulsar.

(** ** Codecs *)

(** The fast path of the messages [mk (Some x)]: on a well-formed [x] it
    announces the size of [enc x], appends [enc x] to the buffer, and reads it
    back into a new message; on other bytes it returns a message of the same
    type or an error.  [wf discard] depends on whether unknown fields are
    discarded: they are then lost in a round trip. *)
Record codec_ok {A} (mk : ptr A -> ProtoMessage) (zero : A) (wf : bool -> A -> Prop)
    (enc : A -> bytes) (mt : Methods) : Prop := {
  co_size dis x : wf dis x -> len (enc x) < 2 ^ 63 -> m_size mt (mk (Some x)) = Ok (len (enc x));
  co_marshal dis x buf : wf dis x -> len (enc x) < 2 ^ 63 ->
    m_marshal mt buf (mk (Some x)) = Ok (Some (default [] buf ++ enc x));
  co_unmarshal dis x : wf dis x -> len (enc x) < 2 ^ 63 ->
    m_unmarshal mt dis (enc x) (mk (Some zero)) = Ok (mk (Some x));
  co_safe dis d x : len d < 2 ^ 63 ->
    safe (m_unmarshal mt dis d (mk (Some x))) (fun m => exists y, m = mk (Some y));
  co_nil dis buf d : m_size mt (mk None) = Ok 0 /\ m_marshal mt buf (mk None) = Ok buf /\
    m_unmarshal mt dis d (mk None) = Ok (mk None) }.
Arguments co_size {A mk zero wf enc mt}.
Arguments co_marshal {A mk zero wf enc mt}.
Arguments co_unmarshal {A mk zero wf enc mt}.
Arguments co_safe {A mk zero wf enc mt}.
Arguments co_nil {A mk zero wf enc mt}.

(** The messages of other packages: no unknown fields, integers in range. *)
Definition apiCoin_wf (dis : bool) (c : apiCoin) : Prop := apiCoin_unknownFields c = None.
Definition apiTimestamp_wf (dis : bool) (t : apiTimestamp) : Prop :=
  apiTimestamp_unknownFields t = None /\
  - 2 ^ 63 <= apiTimestamp_Seconds t < 2 ^ 63 /\ - 2 ^ 31 <= apiTimestamp_Nanos t < 2 ^ 31.
Definition apiDuration_wf (dis : bool) (t : apiDuration) : Prop :=
  apiDuration_unknownFields t = None /\
  - 2 ^ 63 <= apiDuration_Seconds t < 2 ^ 63 /\ - 2 ^ 31 <= apiDuration_Nanos t < 2 ^ 31.

Class ProtoRuntimeOk `{P : ProtoRuntime} : Type := {
  Sov_spec v : 0 <= v < 2 ^ 64 -> Sov v = len (varint v);
  EncodeVarint_writes v : 0 <= v < 2 ^ 64 -> writes (pvarint v) (varint v);
  (** [Skip] returns the length of the field the bytes start with. *)
  Skip_safe d : len d < 2 ^ 63 -> safe (Skip d) (fun n => 0 < n < 2 ^ 63);
  Skip_delimited tag s post : 8 <= tag < 128 -> Z.land tag 7 = 2 ->
    len (enc_message tag s ++ post) < 2 ^ 63 ->
    Skip (enc_message tag s ++ post) = Ok (len (enc_message tag s));
  Skip_varint tag v post : 8 <= tag < 128 -> Z.land tag 7 = 0 -> 0 <= v < 2 ^ 64 ->
    len (zb tag :: varint v ++ post) < 2 ^ 63 ->
    Skip (zb tag :: varint v ++ post) = Ok (len (zb tag :: varint v));
  (** The options dispatch to the methods of the message. *)
  options_Size_spec f m : options_Size f m = f m;
  options_Marshal_spec f m e : (forall buf, f buf m = Ok (Some (default [] buf ++ e))) ->
    options_Marshal f m = Ok e;
  options_Unmarshal_spec f dis d m : options_Unmarshal f dis d m = f dis d m;
  (** The accessors of a value panic on another kind. *)
  Value_string_spec v : match v with VString s => Value_string v = Ok s
                                   | _ => exists p, Value_string v = Panic p end;
  Value_Uint_spec v : match v with VUint32 z | VUint64 z => Value_Uint v = Ok z
                                 | _ => exists p, Value_Uint v = Panic p end;
  Value_Int_spec v : match v with VInt32 z | VInt64 z => Value_Int v = Ok z
                                | _ => exists p, Value_Int v = Panic p end;
  Value_Message_spec v : match v with VMessage m => Value_Message v = Ok m
                                    | _ => exists p, Value_Message v = Panic p end;
  apiCoin_enc : apiCoin -> bytes;
  apiTimestamp_enc : apiTimestamp -> bytes;
  apiDuration_enc : apiDuration -> bytes;
  Coin_codec : codec_ok PCoin apiCoin_zero apiCoin_wf apiCoin_enc Coin_methods;
  Timestamp_codec : codec_ok PTimestamp apiTimestamp_zero apiTimestamp_wf apiTimestamp_enc Timestamp_methods;
  Duration_codec : codec_ok PDuration apiDuration_zero apiDuration_wf apiDuration_enc Duration_methods }.

Create HintDb pulsar.
#[export] Hint Resolve Coin_codec Timestamp_codec Duration_codec : pulsar.

(** ** Unknown fields *)

(** A field the message does not know: a tag and a varint or a byte string. *)
Inductive raw_field := RawVarint (tag v : Z) | RawBytes (tag : Z) (s : bytes).

Definition enc_raw (r : raw_field) : bytes :=
  match r with RawVarint tag v => zb tag :: varint v | RawBytes tag s => enc_message tag s end.

Definition raw_tag (r : raw_field) : Z := match r with RawVarint tag _ | RawBytes tag _ => tag end.

Definition raw_ok (known : list Z) (r : raw_field) : Prop :=
  8 <= raw_tag r < 128 /\ (Z.shiftr (raw_tag r) 3 ∉ known) /\
  match r with
  | RawVarint tag v => Z.land tag 7 = 0 /\ 0 <= v < 2 ^ 64
  | RawBytes tag s => Z.land tag 7 = 2
  end.

(** The bytes kept in [unknownFields], nil when there is none. *)
Definition raw_fields (rs : list raw_field) : option bytes :=
  match rs with [] => None | _ => Some (concat (enc_raw <$> rs)) end.

(** [u] holds fields outside [known], or nothing when they are discarded. *)
Definition unknown_ok (known : list Z) (dis : bool) (u : option bytes) : Prop :=
  if dis then u = None else exists rs, Forall (raw_ok known) rs /\ u = raw_fields rs.

(** The encoding of a message field: nothing when nil. *)
Definition enc_ptr {A} (tag : Z) (enc : A -> bytes) (x : ptr A) : bytes :=
  match x with Some x => enc_message tag (enc x) | None => [] end.

Definition wf_ptr {A} (wf : bool -> A -> Prop) (dis : bool) (x : ptr A) : Prop :=
  match x with Some x => wf dis x | None => True end.

Section codec_lemmas.
Context `{ProtoRuntimeOk}.

Lemma writes_pvarint_tag tag v : 0 <= v < 2 ^ 64 ->
  writes (pvarint v >> wbyte tag) (zb tag :: varint v).
Proof. intros. apply (writes_seq _ _ _ [zb tag]); [now apply EncodeVarint_writes | apply writes_byte]. Qed.

Lemma writes_delimited tag s : len s < 2 ^ 64 ->
  writes (wcopy s >> pvarint (u64 (len s)) >> wbyte tag) (enc_message tag s).
Proof.
  intros. pose proof (len_nonneg s). replace (u64 (len s)) with (len s) by (symmetry; apply uwrap_small; lia).
  change (enc_message tag s) with ((zb tag :: varint (len s)) ++ s).
  apply writes_seq; [apply writes_copy | apply writes_pvarint_tag; lia].
Qed.

Lemma writes_pstring tag s : len s < 2 ^ 64 -> writes (pstring tag s) (enc_string tag s).
Proof.
  intros. unfold pstring, enc_string. case_bool; [now apply writes_delimited | apply writes_skip].
Qed.

Lemma writes_pscalar tag v : writes (pscalar tag v) (enc_scalar tag v).
Proof.
  unfold pscalar, enc_scalar. destruct (v =? 0); [apply writes_skip | apply writes_pvarint_tag, u64_range].
Qed.

Lemma writes_punknown u : writes (punknown u) (default [] u).
Proof. destruct u; [apply writes_copy | apply writes_skip]. Qed.

Lemma writes_pmessage {A} tag (mk : ptr A -> ProtoMessage) zero wf enc mt dis x :
  codec_ok mk zero wf enc mt -> wf_ptr wf dis x -> len (enc_ptr tag enc x) < 2 ^ 63 ->
  writes (pmessage tag mk mt x) (enc_ptr tag enc x).
Proof.
  intros C W L. destruct x as [x|]; [|apply writes_skip]. cbn in *.
  pose proof (len_enc_message_le tag (enc x)).
  intros pre mid post Hm. rewrite (options_Marshal_spec _ _ (enc x))
    by (intros; eapply co_marshal; [exact C | exact W | lia]).
  cbn. now apply writes_delimited; [lia|].
Qed.

Lemma size_string_enc tag s : len s < 2 ^ 63 -> size_string s = len (enc_string tag s).
Proof.
  intros. pose proof (len_nonneg s). unfold size_string. cbn zeta. rewrite len_enc_string by lia.
  case_bool; [|reflexivity]. replace (u64 (len s)) with (len s) by (symmetry; apply uwrap_small; lia).
  rewrite Sov_spec, varint_len by lia. lia.
Qed.

Lemma size_scalar_enc tag v : size_scalar v = len (enc_scalar tag v).
Proof.
  unfold size_scalar. rewrite len_enc_scalar. case_bool; [|reflexivity].
  now rewrite Sov_spec, varint_len by apply u64_range.
Qed.

Lemma size_unknown_enc u : size_unknown u = len (default [] u).
Proof. destruct u; reflexivity. Qed.

Lemma size_message_enc {A} tag (mk : ptr A -> ProtoMessage) zero wf enc mt dis x :
  codec_ok mk zero wf enc mt -> wf_ptr wf dis x -> len (enc_ptr tag enc x) < 2 ^ 63 ->
  size_message mk mt x = Ok (len (enc_ptr tag enc x)).
Proof.
  intros C W L. destruct x as [x|]; [|reflexivity]. cbn in *.
  pose proof (len_enc_message_le tag (enc x)). pose proof (len_nonneg (enc x)).
  rewrite options_Size_spec, (co_size C dis x W) by lia. cbn.
  rewrite Sov_spec, varint_len by apply u64_range. now rewrite len_enc_message by lia.
Qed.

Lemma append_buf_eq buf e : append_buf buf e = Some (default [] buf ++ e).
Proof. destruct buf; reflexivity. Qed.

Lemma fill_buf_writes w e buf : writes w e -> fill_buf (Ok (len e)) w buf = Ok (Some (default [] buf ++ e)).
Proof.
  intros W. unfold fill_buf, make_bytes. cbn. pose proof (len_nonneg e).
  rewrite (proj2 (Z.ltb_ge _ _)) by lia. cbn.
  specialize (W [] (replicate (Z.to_nat (len e)) x00) []). rewrite !app_nil_r in W. cbn [app] in W.
  rewrite len_nil, Z.add_0_l in W. rewrite W by (rewrite length_replicate; unfold len; lia).
  cbn. now rewrite append_buf_eq.
Qed.

(** *** Reading *)

Lemma keep_unknown_safe {M} (add : bytes -> M -> M) dis : dflt_ok (keep_unknown add dis).
Proof.
  intros d m i Hi Hd. unfold keep_unknown.
  eapply safe_bind; [apply slice_safe; lia|]. intros s Hs. cbn beta in Hs.
  eapply safe_bind; [apply Skip_safe; lia|]. intros n Hn. cbn beta in Hn.
  pose proof (i64_add i n). repeat case_bool; zify_bools; try exact I; cbn; [lia|].
  eapply safe_bind with (P := fun _ => True); [|intros; cbn; lia].
  eapply safe_bind; [apply slice_safe; lia | intros; exact I].
Qed.

(** A message field that is nil before. *)
Lemma read_into_enc {A} (mk : ptr A -> ProtoMessage) as_ zero wf enc mt dis x :
  codec_ok mk zero wf enc mt -> (forall y, as_ (mk y) = Ok y) -> wf dis x -> len (enc x) < 2 ^ 63 ->
  read_into mk as_ zero mt dis (enc x) None = Ok (Some x).
Proof.
  intros C Has W L. unfold read_into. rewrite options_Unmarshal_spec, (co_unmarshal C) by assumption.
  cbn. apply Has.
Qed.

Lemma read_into_safe {A} (mk : ptr A -> ProtoMessage) as_ zero wf enc mt dis s x :
  codec_ok mk zero wf enc mt -> (forall y, as_ (mk y) = Ok y) -> len s < 2 ^ 63 ->
  safe (read_into mk as_ zero mt dis s x) (fun _ => True).
Proof.
  intros C Has L. unfold read_into. rewrite options_Unmarshal_spec.
  eapply safe_bind; [apply (co_safe C); assumption|]. intros m [y ->]. now rewrite Has.
Qed.

Section unknown.
Context {M : Type} (name : string) (field : M -> Z -> Z -> bytes -> Z -> option (res (M * Z))).
Context (add : bytes -> M -> M) (known : list Z).
Context (Hfield : field_ok field).
Context (Hknown : forall m fn wt d i, fn ∉ known -> field m fn wt d i = None).

Lemma Skip_raw r post : raw_ok known r -> len (enc_raw r ++ post) < 2 ^ 63 ->
  Skip (enc_raw r ++ post) = Ok (len (enc_raw r)).
Proof.
  intros (Ht & _ & Hr) L. destruct r as [tag v|tag s]; cbn in *.
  - apply Skip_varint; tauto.
  - apply Skip_delimited; tauto.
Qed.

Lemma enc_raw_head r : exists e, enc_raw r = zb (raw_tag r) :: e.
Proof. destruct r; eexists; reflexivity. Qed.

(** An unknown field is kept. *)
Lemma reads_raw r m : raw_ok known r ->
  reads PbRuntime name (keep_unknown add false) field m (enc_raw r) (add (enc_raw r) m).
Proof.
  intros Hr pre post L. pose proof Hr as (Ht & Hk & Hw). destruct (enc_raw_head r) as [e He].
  pose proof (len_nonneg pre). pose proof (len_nonneg post). pose proof (len_nonneg e).
  assert (Le : len (enc_raw r) = 1 + len e) by (rewrite He, len_cons; lia).
  rewrite !len_app in L.
  rewrite unm_round by (first [exact Hfield | apply keep_unknown_safe | rewrite !len_app; lia]).
  pose proof (round_tag PbRuntime name (keep_unknown add false) field (raw_tag r) pre (e ++ post) m Ht) as R.
  change (zb (raw_tag r) :: e ++ post) with ((zb (raw_tag r) :: e) ++ post) in R. rewrite <- He in R.
  rewrite R, Hknown by (exact Hk || (destruct r; cbn in *; lia)). clear R.
  unfold keep_unknown.
  pose proof (slice_app pre (enc_raw r ++ post) []) as S1. rewrite app_nil_r in S1.
  rewrite <- len_app in S1. rewrite S1. cbn [mbind res_bind].
  rewrite Skip_raw by (first [assumption | rewrite len_app; lia]). cbn [mbind res_bind].
  replace (i64 (len pre + len (enc_raw r))) with (len pre + len (enc_raw r)) by (symmetry; apply (swrap_small 64); lia).
  rewrite (proj2 (Z.ltb_ge (len (enc_raw r)) 0)), (proj2 (Z.ltb_ge (len pre + _) 0)) by lia. cbn [orb].
  rewrite (proj2 (Z.ltb_ge (len (pre ++ _)) _)) by (rewrite !len_app; lia).
  rewrite slice_app. reflexivity.
Qed.

Lemma reads_raws rs m : Forall (raw_ok known) rs ->
  reads PbRuntime name (keep_unknown add false) field m (concat (enc_raw <$> rs))
    (foldl (fun m r => add (enc_raw r) m) m rs).
Proof.
  intros F. revert m. induction F as [|r rs Hr F IH]; intros m; [apply reads_nil|].
  cbn. eapply reads_app; [now apply reads_raw | apply IH].
Qed.

Context (getu : M -> option bytes) (setu : option bytes -> M -> M).
Context (Hadd : forall s m, add s m = setu (append_unknown (getu m) s) m).
Context (Hget : forall u m, getu (setu u m) = u) (Hset : forall u v m, setu u (setu v m) = setu u m).
Context (Hsame : forall m, setu (getu m) m = m).

Lemma foldl_add rs m s : getu m = Some s ->
  foldl (fun m r => add (enc_raw r) m) m rs = setu (Some (s ++ concat (enc_raw <$> rs))) m.
Proof.
  revert m s. induction rs as [|r rs IH]; intros m s Hm; cbn.
  - rewrite app_nil_r, <- Hm. now rewrite Hsame.
  - rewrite Hadd, Hm. unfold append_unknown. cbn. rewrite (IH _ (s ++ enc_raw r)) by apply Hget.
    now rewrite Hset, app_assoc.
Qed.

(** The unknown fields at the end of an encoding are read into a message that
    has none. *)
Lemma reads_unknown_fields dis u m : unknown_ok known dis u -> getu m = None ->
  reads PbRuntime name (keep_unknown add dis) field m (default [] u) (setu u m).
Proof.
  intros Hu Hm. destruct dis; cbn in Hu.
  - subst u. eapply reads_conv; [apply reads_nil|]. rewrite <- Hm at 1. now rewrite Hsame.
  - destruct Hu as ([|r rs] & F & ->); cbn.
    + eapply reads_conv; [apply reads_nil|]. rewrite <- Hm at 1. now rewrite Hsame.
    + eapply reads_conv; [apply (reads_raws (r :: rs)); assumption|]. cbn.
      rewrite Hadd, Hm. unfold append_unknown. cbn. rewrite (foldl_add _ _ (enc_raw r)) by apply Hget.
      now rewrite Hset.
Qed.
End unknown.

Lemma reads_ptr {M A} name (field : M -> Z -> Z -> bytes -> Z -> option (res (M * Z))) dflt tag fname
    (mk : ptr A -> ProtoMessage) as_ zero wf enc mt dis (upd : ptr A -> M) x m :
  field_ok field -> dflt_ok dflt ->
  codec_ok mk zero wf enc mt -> (forall y, as_ (mk y) = Ok y) -> wf_ptr wf dis x ->
  len (enc_ptr tag enc x) < 2 ^ 63 -> 8 <= tag < 128 -> Z.land tag 7 = 2 ->
  (forall d i, field m (Z.shiftr tag 3) 2 d i =
     Some ('(s, j) ← read_message PbRuntime fname 2 d i;
           m' ← (p ← read_into mk as_ zero mt dis s None; Ok (upd p)); Ok (m', j))) ->
  upd None = m -> reads PbRuntime name dflt field m (enc_ptr tag enc x) (upd x).
Proof.
  intros Hf Hd C Has W L Ht Hw Hfld Hn. destruct x as [x|]; cbn in *; [|rewrite Hn; apply reads_nil].
  pose proof (len_enc_message_le tag (enc x)).
  eapply (reads_message PbRuntime name dflt field Hf Hd tag fname); [assumption | assumption | exact Hfld |].
  cbn beta. now rewrite (read_into_enc mk as_ zero wf enc mt dis x) by (assumption || lia).
Qed.
End codec_lemmas.

#[export] Hint Extern 1 (dflt_ok (keep_unknown _ _)) => apply keep_unknown_safe : halborn.
