(* ===== verification/PulsarDesc.v ===== *)
(** * File descriptors

    Each pulsar file carries its .proto file as the bytes of a
    [FileDescriptorProto] ([file_*_rawDesc]) and the tables that link it to
    the Go types ([file_*_goTypes], [file_*_depIdxs]), and hands them to
    protobuf-go's [TypeBuilder] when the package is initialised.  The builder
    is a parameter.  What it does with the bytes is stated against a parser of
    the fields of descriptor.proto that matter here, and what it requires of
    the tables, as documented in protobuf-go's [internal/filetype], is the
    check [tables_ok]. *)

From S2P Require Import Prelude PulsarTypes.

(** ** A reader of descriptor.proto *)

(** A field of the wire format: number, and varint or bytes. *)
Inductive wire_value := WVarint (z : Z) | WBytes (s : bytes).

Fixpoint take_varint (fuel : nat) (d : bytes) : option (Z * bytes) :=
  match fuel, d with
  | S fuel, b :: d =>
      if bz b <? 128 then Some (bz b, d)
      else '(z, d) ← take_varint fuel d; Some (bz b - 128 + 128 * z, d)
  | _, _ => None
  end.

(** The fields of a message, in order.  Every round consumes a byte. *)
Fixpoint wire_fields (fuel : nat) (d : bytes) : option (list (Z * wire_value)) :=
  match fuel, d with
  | _, [] => Some []
  | O, _ => None
  | S fuel, d =>
      '(tag, d) ← take_varint 10 d;
      '(z, d) ← take_varint 10 d;
      if tag mod 8 =? 0 then fs ← wire_fields fuel d; Some ((tag / 8, WVarint z) :: fs)
      else if (tag mod 8 =? 2) && (z <=? len d) then
        fs ← wire_fields fuel (drop (Z.to_nat z) d);
        Some ((tag / 8, WBytes (take (Z.to_nat z) d)) :: fs)
      else None
  end.

Definition parse_fields (d : bytes) : option (list (Z * wire_value)) := wire_fields (length d) d.

Definition all_bytes (n : Z) (fs : list (Z * wire_value)) : list bytes :=
  omap (fun '(k, v) => match v with WBytes s => if k =? n then Some s else None | _ => None end) fs.
Definition the_int (n : Z) (fs : list (Z * wire_value)) : Z :=
  default 0 (head (omap (fun '(k, v) => match v with WVarint z => if k =? n then Some z else None | _ => None end) fs)).
Definition the_string (n : Z) (fs : list (Z * wire_value)) : string :=
  String.string_of_list_byte (default [] (head (all_bytes n fs))).

(** [FieldDescriptorProto], [DescriptorProto], [MethodDescriptorProto],
    [ServiceDescriptorProto] and [FileDescriptorProto]. *)
Record FieldProto := MkFieldProto {
  f_name : string; f_number : Z; f_label : Z; f_type : Z; f_type_name : string }.
Record MessageProto := MkMessageProto {
  m_name : string; m_fields : list FieldProto; m_nested : Z; m_oneofs : Z }.
Record MethodProto := MkMethodProto { mt_name : string; mt_input : string; mt_output : string }.
Record ServiceProto := MkServiceProto { s_name : string; s_methods : list MethodProto }.
Record FileProto := MkFileProto {
  file_name : string; file_package : string; file_deps : list string;
  file_messages : list MessageProto; file_enums : Z; file_services : list ServiceProto;
  file_extensions : Z; file_syntax : string }.

Definition parse_field (d : bytes) : option FieldProto :=
  fs ← parse_fields d;
  Some (MkFieldProto (the_string 1 fs) (the_int 3 fs) (the_int 4 fs) (the_int 5 fs) (the_string 6 fs)).

Definition parse_message (d : bytes) : option MessageProto :=
  fs ← parse_fields d;
  fields ← mapM parse_field (all_bytes 2 fs);
  Some (MkMessageProto (the_string 1 fs) fields (len (all_bytes 3 fs)) (len (all_bytes 8 fs))).

Definition parse_method (d : bytes) : option MethodProto :=
  fs ← parse_fields d; Some (MkMethodProto (the_string 1 fs) (the_string 2 fs) (the_string 3 fs)).

Definition parse_service (d : bytes) : option ServiceProto :=
  fs ← parse_fields d;
  methods ← mapM parse_method (all_bytes 2 fs);
  Some (MkServiceProto (the_string 1 fs) methods).

Definition parse_file (d : bytes) : option FileProto :=
  fs ← parse_fields d;
  messages ← mapM parse_message (all_bytes 4 fs);
  services ← mapM parse_service (all_bytes 6 fs);
  Some (MkFileProto (the_string 1 fs) (the_string 2 fs) (String.string_of_list_byte <$> all_bytes 3 fs)
    messages (len (all_bytes 5 fs)) services (len (all_bytes 7 fs)) (the_string 12 fs)).

(** ** The type builder *)

(** The arguments of [protoimpl.TypeBuilder]; a Go type is given by a nil
    pointer of it.  The package path and the [MessageInfos], which the builder
    fills in for the fallback reflection, are left out. *)
Record TypeBuilder := MkTypeBuilder {
  RawDescriptor : bytes;
  NumEnums : Z; NumMessages : Z; NumExtensions : Z; NumServices : Z;
  GoTypes : list ProtoMessage;
  DependencyIndexes : list Z }.

Definition qualified (scope name : string) : string := scope +:+ "." +:+ name.

(** The types a file's declarations depend on: those of the message fields,
    then the inputs and the outputs of the methods.  A type name in a
    descriptor starts with a dot. *)
Definition field_types (F : FileProto) : list string :=
  List.filter (fun t => negb (String.eqb t EmptyString))
    (concat ((fun m => f_type_name <$> m_fields m) <$> file_messages F)).
Definition method_types (sel : MethodProto -> string) (F : FileProto) : list string :=
  concat ((fun s => sel <$> s_methods s) <$> file_services F).

(** Index [i] of the table of Go types has the type name [t]. *)
Definition resolves (types : list ProtoMessage) (i : Z) (t : string) : bool :=
  match types !! Z.to_nat i with
  | Some m => (0 <=? i) && String.eqb t ("." +:+ type_name m)
  | None => false
  end.

Fixpoint all_resolve (types : list ProtoMessage) (idxs : list Z) (ts : list string) : bool :=
  match idxs, ts with
  | [], [] => true
  | i :: idxs, t :: ts => resolves types i t && all_resolve types idxs ts
  | _, _ => false
  end.

(** The layout the builder documents: the messages of the file come first in
    [GoTypes]; [DependencyIndexes] resolves the field types, extension
    targets, extension types, method inputs and method outputs, in this
    order, followed by the offsets of the five lists in reverse order. *)
Definition tables_ok (b : TypeBuilder) (F : FileProto) : bool :=
  let fields := field_types F in
  let deps := fields ++ method_types mt_input F ++ method_types mt_output F in
  let n := length deps in
  let ext := len fields in
  let outs := len fields + len (method_types mt_input F) in
  (NumEnums b =? file_enums F) && (NumMessages b =? len (file_messages F)) &&
  (NumExtensions b =? file_extensions F) && (NumServices b =? len (file_services F)) &&
  bool_decide (type_name <$> take (length (file_messages F)) (GoTypes b) =
               qualified (file_package F) ∘ m_name <$> file_messages F) &&
  all_resolve (GoTypes b) (take n (DependencyIndexes b)) deps &&
  bool_decide (drop n (DependencyIndexes b) = [outs; ext; ext; ext; 0]).

Class ProtoDesc : Type := {
  FileDescriptor : Type;
  MessageDescriptor : Type;
  (** [TypeBuilder{...}.Build().File], [File.Messages().ByName(name)] and
      [md.Fields().ByName(name)]. *)
  Build : TypeBuilder -> FileDescriptor;
  Messages_ByName : FileDescriptor -> string -> MessageDescriptor;
  Fields_ByName : MessageDescriptor -> string -> FieldDescriptor;
  (** [protoimpl.X.CompressGZIP]. *)
  CompressGZIP : bytes -> bytes }.

(** A builder given consistent tables finds every field of the descriptor. *)
Class ProtoDescOk `{ProtoDesc} : Prop := {
  ByName_spec b F m f : parse_file (RawDescriptor b) = Some F -> tables_ok b F = true ->
    m ∈ file_messages F -> f ∈ m_fields m ->
    Fields_ByName (Messages_ByName (Build b) (m_name m)) (f_name f) =
    MkFieldDescriptor (qualified (qualified (file_package F) (m_name m)) (f_name f)) false }.

(** The field [f] of the message [m] is declared in the file. *)
Definition declares (F : FileProto) (m f : string) : bool :=
  existsb (fun M => String.eqb (m_name M) m && existsb (fun x => String.eqb (f_name x) f) (m_fields M))
    (file_messages F).

Lemma FullName_ByName `{ProtoDescOk} b F m f :
  parse_file (RawDescriptor b) = Some F -> tables_ok b F = true -> declares F m f = true ->
  FullName (Fields_ByName (Messages_ByName (Build b) m) f) = qualified (qualified (file_package F) m) f.
Proof.
  intros Hp Ht Hd. unfold declares in Hd. apply existsb_exists in Hd as (M & HM & Hd).
  apply andb_true_iff in Hd as [Em Hf]. apply existsb_exists in Hf as (x & Hx & Ef).
  apply String.eqb_eq in Em, Ef. subst m f.
  rewrite (ByName_spec b F M x) by (assumption || now apply list_elem_of_In). reflexivity.
Qed.

(** ** Package variables *)

(** What an [Exporter] gives access to: the address of one of the three
    bookkeeping fields of a message. *)
Inductive exported := ExState | ExSizeCache | ExUnknownFields.

(** The closure [func(v interface{}, i int) interface{}] of a message type. *)
Definition exporter {A} (as_ : ProtoMessage -> res (ptr A)) (v : ProtoMessage) (i : Z) : res (option exported) :=
  x ← as_ v;
  if i =? 0 then _ ← deref x; Ok (Some ExState)
  else if i =? 1 then _ ← deref x; Ok (Some ExSizeCache)
  else if i =? 2 then _ ← deref x; Ok (Some ExUnknownFields)
  else Ok None.

(** [File_*], the three tables, which [file_*_init] drops after building, and
    the exporters in [file_*_msgTypes]. *)
Record FileVars {D : ProtoDesc} := MkFileVars {
  File : option FileDescriptor;
  rawDesc : option bytes;
  goTypes : option (list ProtoMessage);
  depIdxs : option (list Z);
  Exporters : list (option (ProtoMessage -> Z -> res (option exported))) }.
Arguments FileVars D : clear implicits.
Arguments MkFileVars {D}.

Section vars.
Context `{D : ProtoDesc}.

(** The body of [file_*_init] after the test that the file is not built yet:
    the exporters are only set when unsafe pointers are not available. *)
Definition build_file (unsafe : bool) (exporters : list (ProtoMessage -> Z -> res (option exported)))
    (enums messages extensions services : Z) (st : FileVars D) : FileVars D :=
  let msgTypes := if negb unsafe then Some <$> exporters else Exporters st in
  let out := Build (MkTypeBuilder (default [] (rawDesc st)) enums messages extensions services
                      (default [] (goTypes st)) (default [] (depIdxs st))) in
  MkFileVars (Some out) None None None msgTypes.

(** [file_*_rawDescOnce] and [file_*_rawDescData]. *)
Record GzipVars := MkGzipVars { gz_done : bool; gz_data : bytes }.

(** [file_*_rawDescGZIP]: compress on the first call, return the cached bytes
    afterwards. *)
Definition rawDescGZIP (st : GzipVars) : bytes * GzipVars :=
  let st := if gz_done st then st else MkGzipVars true (CompressGZIP (gz_data st)) in
  (gz_data st, st).

Lemma rawDescGZIP_stable st :
  rawDescGZIP (rawDescGZIP st).2 = ((rawDescGZIP st).1, (rawDescGZIP st).2).
Proof. unfold rawDescGZIP. now destruct (gz_done st) eqn:E; cbn; rewrite ?E. Qed.
End vars.
