(* ===== verification/PulsarSchema.v ===== *)
(** * The schema of the module: [proto/halbornctf/hal/**/*.proto]

    The seven .proto files, as far as they decide the wire format and the
    reflection of the messages: package, imports, messages with the name,
    number and type of each field, services with their methods.  The options
    and comments are left out. *)

From S2P Require Import Prelude PulsarTypes PulsarDesc.

(** Singular fields ([LABEL_OPTIONAL]) of the types the files use. *)
Definition fint32 (name : string) (n : Z) : FieldProto := MkFieldProto name n 1 5 EmptyString.
Definition fuint64 (name : string) (n : Z) : FieldProto := MkFieldProto name n 1 4 EmptyString.
Definition fstring (name : string) (n : Z) : FieldProto := MkFieldProto name n 1 9 EmptyString.
Definition fuint32 (name : string) (n : Z) : FieldProto := MkFieldProto name n 1 13 EmptyString.
Definition fmessage (name : string) (n : Z) (type : string) : FieldProto := MkFieldProto name n 1 11 type.

(** A message without nested types and oneofs, and a proto3 file of messages
    and services. *)
Definition message (name : string) (fields : list FieldProto) : MessageProto :=
  MkMessageProto name fields 0 0.
Definition proto3_file (name package : string) (imports : list string)
    (messages : list MessageProto) (services : list ServiceProto) : FileProto :=
  MkFileProto name package imports messages 0 services 0 "proto3".

Definition tickets_schema : FileProto :=
  proto3_file "halbornctf/hal/tickets.proto" "halbornctf.hal"
    []
    [message "Ticket" [
      fstring "author" 1;
      fstring "issue" 2;
      fuint64 "id" 3;
      fstring "additionalInfo" 4]]
    [].

Definition redeem_request_schema : FileProto :=
  proto3_file "halbornctf/hal/redeem_request.proto" "halbornctf.hal"
    ["gogoproto/gogo.proto";
     "cosmos/base/v1beta1/coin.proto";
     "google/protobuf/timestamp.proto"]
    [message "RedeemRequest" [
      fstring "account" 1;
      fmessage "collateral" 2 ".cosmos.base.v1beta1.Coin";
      fmessage "completiontime" 3 ".google.protobuf.Timestamp"]]
    [].

Definition params_schema : FileProto :=
  proto3_file "halbornctf/hal/params.proto" "halbornctf.hal"
    ["amino/amino.proto";
     "gogoproto/gogo.proto";
     "google/protobuf/duration.proto"]
    [message "Params" [
      fmessage "redeem_dur" 1 ".google.protobuf.Duration";
      fint32 "max_redeem_entries" 2;
      fmessage "collateral_metas" 3 ".halbornctf.hal.TokenMeta";
      fmessage "hal_meta" 4 ".halbornctf.hal.TokenMeta"];
     message "TokenMeta" [
      fstring "denom" 1;
      fuint32 "decimals" 2;
      fstring "description" 3]]
    [].

Definition genesis_schema : FileProto :=
  proto3_file "halbornctf/hal/genesis.proto" "halbornctf.hal"
    ["amino/amino.proto";
     "gogoproto/gogo.proto";
     "halbornctf/hal/params.proto"]
    [message "GenesisState" [fmessage "params" 1 ".halbornctf.hal.Params"]]
    [].

Definition query_schema : FileProto :=
  proto3_file "halbornctf/hal/query.proto" "halbornctf.hal"
    ["amino/amino.proto";
     "gogoproto/gogo.proto";
     "google/api/annotations.proto";
     "cosmos/base/query/v1beta1/pagination.proto";
     "halbornctf/hal/params.proto"]
    [message "QueryParamsRequest" [];
     message "QueryParamsResponse" [fmessage "params" 1 ".halbornctf.hal.Params"]]
    [MkServiceProto "Query" [
      MkMethodProto "Params" ".halbornctf.hal.QueryParamsRequest" ".halbornctf.hal.QueryParamsResponse"]].

Definition tx_schema : FileProto :=
  proto3_file "halbornctf/hal/tx.proto" "halbornctf.hal"
    ["amino/amino.proto";
     "cosmos/msg/v1/msg.proto";
     "cosmos_proto/cosmos.proto";
     "gogoproto/gogo.proto";
     "halbornctf/hal/params.proto";
     "cosmos/base/v1beta1/coin.proto";
     "google/protobuf/timestamp.proto"]
    [message "MsgUpdateParams" [
      fstring "authority" 1;
      fmessage "params" 2 ".halbornctf.hal.Params"];
     message "MsgUpdateParamsResponse" [];
     message "MsgMintHal" [
      fstring "creator" 1;
      fmessage "collateralAmount" 2 ".cosmos.base.v1beta1.Coin"];
     message "MsgMintHalResponse" [fmessage "mintedAmount" 1 ".cosmos.base.v1beta1.Coin"];
     message "MsgRedeemCollateral" [
      fstring "creator" 1;
      fmessage "halAmount" 2 ".cosmos.base.v1beta1.Coin"];
     message "MsgRedeemCollateralResponse" [
      fmessage "burnedAmount" 1 ".cosmos.base.v1beta1.Coin";
      fmessage "completion_time" 2 ".google.protobuf.Timestamp"];
     message "MsgCreateTicket" [
      fstring "creator" 1;
      fstring "author" 2;
      fstring "issue" 3];
     message "MsgCreateTicketResponse" [fuint64 "id" 1]]
    [MkServiceProto "Msg" [
      MkMethodProto "UpdateParams" ".halbornctf.hal.MsgUpdateParams" ".halbornctf.hal.MsgUpdateParamsResponse";
      MkMethodProto "MintHal" ".halbornctf.hal.MsgMintHal" ".halbornctf.hal.MsgMintHalResponse";
      MkMethodProto "RedeemCollateral" ".halbornctf.hal.MsgRedeemCollateral" ".halbornctf.hal.MsgRedeemCollateralResponse";
      MkMethodProto "CreateTicket" ".halbornctf.hal.MsgCreateTicket" ".halbornctf.hal.MsgCreateTicketResponse"]].

Definition module_schema : FileProto :=
  proto3_file "halbornctf/hal/module/module.proto" "halbornctf.hal.module"
    ["cosmos/app/v1alpha1/module.proto"]
    [message "Module" [fstring "authority" 1]]
    [].
