(* ===== verification/PulsarReflect.v ===== *)
(** * Reflection as operations on a field list

    The abstract view of a message: the list of its field names and values, in
    declaration order, and its unknown fields.  [ReflectionOk] states that the
    reflection methods of a message implement the operations of that view:
    look up, replace, reset, enumerate.  The consequences a caller relies on
    (what was set is read back, other fields are untouched, clearing makes
    [Has] false) are proved here once, from [ReflectionOk]. *)

From S2P Require Import Prelude Wire PulsarTypes Pulsar PulsarLaws.
From S2P Require Import PulsarDesc.

(** ** Association lists *)

Fixpoint assoc {A} (n : string) (l : list (string * A)) : option A :=
  match l with
  | [] => None
  | (c, a) :: l => if String.eqb n c then Some a else assoc n l
  end.

Fixpoint assoc_set {A} (n : string) (a : A) (l : list (string * A)) : list (string * A) :=
  match l with
  | [] => []
  | (c, b) :: l => if String.eqb n c then (c, a) :: l else (c, b) :: assoc_set n a l
  end.

Lemma assoc_set_same {A} n (a : A) l : is_Some (assoc n l) -> assoc n (assoc_set n a l) = Some a.
Proof.
  induction l as [|[c b] l IH]; cbn; [intros [? [=]]|].
  destruct (String.eqb n c) eqn:E; cbn; rewrite E; auto.
Qed.

Lemma assoc_set_other {A} n n' (a : A) l : n <> n' -> assoc n' (assoc_set n a l) = assoc n' l.
Proof.
  intros Hn. induction l as [|[c b] l IH]; cbn; [reflexivity|].
  destruct (String.eqb n c) eqn:E; cbn.
  - apply String.eqb_eq in E. subst c. now rewrite (proj2 (String.eqb_neq n' n)) by congruence.
  - now rewrite IH.
Qed.

Lemma assoc_elem {A} n (l : list (string * A)) : is_Some (assoc n l) <-> n ∈ l.*1.
Proof.
  induction l as [|[c b] l IH]; cbn; [split; [intros [? [=]] | intros H; inversion H]|].
  destruct (String.eqb n c) eqn:E.
  - apply String.eqb_eq in E. subst. split; [left | eauto].
  - apply String.eqb_neq in E. rewrite IH, elem_of_cons. tauto.
Qed.

(** ** Kinds of field *)

(** The type of a field; a message field knows its nil and its new value. *)
Inductive kind :=
| KString | KUint64 | KUint32 | KInt32 | KMessage (nilm newm : ProtoMessage).

(** The default value, and a new value to fill. *)
Definition zero_of (k : kind) : Value :=
  match k with
  | KString => VString [] | KUint64 => VUint64 0 | KUint32 => VUint32 0 | KInt32 => VInt32 0
  | KMessage nilm _ => VMessage nilm
  end.
Definition new_of (k : kind) : Value :=
  match k with KMessage _ newm => VMessage newm | _ => zero_of k end.

(** The values a field accepts, as stored in it. *)
Definition convert (k : kind) (v : Value) : option Value :=
  match k, v with
  | KString, VString s => Some (VString s)
  | KUint64, (VUint32 z | VUint64 z) => Some (VUint64 z)
  | KUint32, (VUint32 z | VUint64 z) => Some (VUint32 (u32 z))
  | KInt32, (VInt32 z | VInt64 z) => Some (VInt32 (i32 z))
  | KMessage nilm _, VMessage m => if same_type m nilm then Some (VMessage m) else None
  | _, _ => None
  end.

(** A field is populated when it does not hold its default value. *)
Definition populated (v : Value) : bool :=
  match v with
  | VString s => nonempty s
  | VUint32 z | VUint64 z | VInt32 z | VInt64 z => negb (z =? 0)
  | VMessage m => negb (is_nil m)
  | _ => false
  end.

(** Calling [f] on the populated fields until it returns false. *)
Fixpoint visit {St} (f : FieldDescriptor -> Value -> St -> bool * St)
    (l : list (FieldDescriptor * Value)) (s : St) : St :=
  match l with
  | [] => s
  | (fd, v) :: l =>
      if populated v then let '(go, s) := f fd v s in if go then visit f l s else s
      else visit f l s
  end.

Definition panics {A} (r : res A) : Prop := exists p, r = Panic p.

(** ** The specification *)

Record Abstraction (M : Type) := MkAbstraction {
  a_pointer : ptr M -> ProtoMessage;
  a_zero : M;
  a_kinds : list (string * kind);
  a_fds : list FieldDescriptor;
  a_view : M -> list (string * Value);
  a_unknown : M -> option bytes }.
Arguments MkAbstraction {M}.
Arguments a_pointer {M}.
Arguments a_zero {M}.
Arguments a_kinds {M}.
Arguments a_fds {M}.
Arguments a_view {M}.
Arguments a_unknown {M}.

(** [m'] is [m] with the field [n] replaced. *)
Definition replaces {M} (T : Abstraction M) (n : string) (v : Value) (m m' : M) : Prop :=
  a_view T m' = assoc_set n v (a_view T m) /\ a_unknown T m' = a_unknown T m.

(** What the methods do on a field of kind [k] that holds [v]. *)
Definition field_spec {M} (R : Reflection M) (T : Abstraction M) (m : M) (fd : FieldDescriptor)
    (k : kind) (v : Value) : Prop :=
  r_Get R (Some m) fd = Ok v /\
  r_Has R (Some m) fd = Ok (populated v) /\
  (exists m', r_Clear R (Some m) fd = Ok (Some m') /\ replaces T (FullName fd) (zero_of k) m m') /\
  (forall w, match convert k w with
             | Some w' => exists m', r_Set R (Some m) fd w = Ok (Some m') /\ replaces T (FullName fd) w' m m'
             | None => panics (r_Set R (Some m) fd w)
             end) /\
  match k with
  | KMessage _ newm =>
      let w := if populated v then v else VMessage newm in
      exists m', r_Mutable R (Some m) fd = Ok (Some m', w) /\ replaces T (FullName fd) w m m'
  | _ => panics (r_Mutable R (Some m) fd)
  end.

(** On a nil message every access to a field of the message is a panic, apart
    from [NewField], which does not look at the message. *)
Definition nil_spec {M} (R : Reflection M) (fd : FieldDescriptor) (k : kind) : Prop :=
  panics (r_Get R None fd) /\ panics (r_Has R None fd) /\ panics (r_Clear R None fd) /\
  (forall w, panics (r_Set R None fd w)) /\ panics (r_Mutable R None fd) /\
  forall x, r_NewField R x fd = Ok (new_of k).

(** A descriptor that is not the message's. *)
Definition foreign_spec {M} (R : Reflection M) (fd : FieldDescriptor) : Prop :=
  forall x, panics (r_Get R x fd) /\ panics (r_Has R x fd) /\ panics (r_Clear R x fd) /\
    (forall w, panics (r_Set R x fd w)) /\ panics (r_Mutable R x fd) /\ panics (r_NewField R x fd).

Record ReflectionOk {M} (R : Reflection M) (T : Abstraction M) : Prop := {
  (** The view has the declared fields, is complete, and starts at zero. *)
  ro_names m : (a_view T m).*1 = (a_kinds T).*1;
  ro_fds : FullName <$> a_fds T = (a_kinds T).*1;
  ro_nodup : NoDup (a_kinds T).*1;
  ro_complete m m' : a_view T m = a_view T m' -> a_unknown T m = a_unknown T m' -> m = m';
  ro_zero : a_view T (a_zero T) = prod_map id zero_of <$> a_kinds T /\ a_unknown T (a_zero T) = None;
  (** The default value is not populated; it and a new value can be set. *)
  ro_defaults n k : assoc n (a_kinds T) = Some k ->
    populated (zero_of k) = false /\ convert k (zero_of k) = Some (zero_of k) /\
    convert k (new_of k) = Some (new_of k);
  (** The methods on fields. *)
  ro_field m fd : match assoc (FullName fd) (a_kinds T), assoc (FullName fd) (a_view T m) with
                  | Some k, Some v => field_spec R T m fd k v /\ nil_spec R fd k
                  | None, None => foreign_spec R fd
                  | _, _ => False
                  end;
  ro_range St m (f : FieldDescriptor -> Value -> St -> bool * St) s :
    r_Range R (Some m) f s = Ok (visit f (zip (a_fds T) (a_view T m).*2) s);
  (** The other methods. *)
  ro_unknown m : r_GetUnknown R (Some m) = Ok (a_unknown T m);
  ro_set_unknown m u : exists m', r_SetUnknown R (Some m) u = Ok (Some m') /\
    a_view T m' = a_view T m /\ a_unknown T m' = u;
  ro_unknown_nil u : panics (r_GetUnknown R None) /\ panics (r_SetUnknown R None u);
  ro_oneof x n : panics (r_WhichOneof R x n);
  ro_valid x : r_IsValid R x = bool_decide (x <> None);
  ro_pointers x : r_Interface R x = a_pointer T x /\ r_New R = a_pointer T (Some (a_zero T)) /\
    r_Zero R = a_pointer T None }.
Arguments ro_names {M R T}.
Arguments ro_field {M R T}.
Arguments ro_defaults {M R T}.

(** One statement of [Range]. *)
Lemma range_field_visit {St} (f : FieldDescriptor -> Value -> St -> bool * St) c fd v l k s :
  c = populated v -> (forall s, k s = Ok (visit f l s)) ->
  range_field c fd v f k s = Ok (visit f ((fd, v) :: l) s).
Proof.
  intros -> Hk. unfold range_field. cbn [visit]. destruct (populated v); [|apply Hk].
  destruct (f fd v s) as [[] s']; [apply Hk | reflexivity].
Qed.

(** ** Consequences *)

Section consequences.
Context {M : Type} {R : Reflection M} {T : Abstraction M} (Hok : ReflectionOk R T).

Lemma field_known m fd k : assoc (FullName fd) (a_kinds T) = Some k ->
  exists v, assoc (FullName fd) (a_view T m) = Some v /\ field_spec R T m fd k v.
Proof.
  intros Hk. pose proof (ro_field Hok m fd) as F. rewrite Hk in F.
  destruct (assoc (FullName fd) (a_view T m)) as [v|]; [|contradiction]. exists v. tauto.
Qed.

Lemma get_view m fd k v : assoc (FullName fd) (a_kinds T) = Some k ->
  assoc (FullName fd) (a_view T m) = Some v -> r_Get R (Some m) fd = Ok v.
Proof. intros Hk Hv. destruct (field_known m fd k Hk) as (v' & E & G & _). congruence. Qed.

Lemma replaces_get m m' fd k w : assoc (FullName fd) (a_kinds T) = Some k ->
  replaces T (FullName fd) w m m' ->
  r_Get R (Some m') fd = Ok w /\ r_Has R (Some m') fd = Ok (populated w).
Proof.
  intros Hk [V _]. destruct (field_known m fd k Hk) as (v & Ev & _).
  destruct (field_known m' fd k Hk) as (v' & Ev' & G & P & _).
  rewrite V, assoc_set_same in Ev' by eauto. injection Ev' as <-. auto.
Qed.

(** A method that replaces a field leaves the others alone. *)
Lemma replaces_frame n v m m' fd : replaces T n v m m' -> is_Some (assoc (FullName fd) (a_kinds T)) ->
  FullName fd <> n -> r_Get R (Some m') fd = r_Get R (Some m) fd.
Proof.
  intros [V _] [k Hk] Hn. destruct (field_known m fd k Hk) as (u & Eu & -> & _).
  eapply get_view; [exact Hk|]. rewrite V, assoc_set_other by congruence. exact Eu.
Qed.

(** [Set] stores the value [Get] then returns. *)
Lemma set_replaces m fd k w w' : assoc (FullName fd) (a_kinds T) = Some k -> convert k w = Some w' ->
  exists m', r_Set R (Some m) fd w = Ok (Some m') /\ replaces T (FullName fd) w' m m'.
Proof.
  intros Hk Hc. destruct (field_known m fd k Hk) as (v & _ & _ & _ & _ & S & _).
  specialize (S w). now rewrite Hc in S.
Qed.

(** After [Clear], [Has] reports false. *)
Lemma clear_has m fd k : assoc (FullName fd) (a_kinds T) = Some k ->
  exists m', r_Clear R (Some m) fd = Ok (Some m') /\ r_Has R (Some m') fd = Ok false.
Proof.
  intros Hk. destruct (field_known m fd k Hk) as (v & _ & _ & _ & (m' & C & V) & _).
  exists m'. split; [exact C|]. destruct (ro_defaults Hok _ k Hk) as [<- _].
  now apply (replaces_get m m' fd k (zero_of k)).
Qed.

Lemma nil_panics fd k : assoc (FullName fd) (a_kinds T) = Some k -> nil_spec R fd k.
Proof.
  intros Hk. pose proof (ro_field Hok (a_zero T) fd) as F. rewrite Hk in F.
  destruct (assoc (FullName fd) (a_view T (a_zero T))) as [v|]; [tauto | contradiction].
Qed.
End consequences.

(** ** Tactics for the messages of the pulsar files

    One tactic per obligation of [codec_ok] and [ReflectionOk]. *)

Ltac split_and_hyps := repeat match goal with H : _ /\ _ |- _ => destruct H end.

(** ** Codecs *)

(** [size] returns the length of the encoding. *)
Tactic Notation "solve_size" reference(wf) reference(enc) reference(size) reference(as_) :=
  intros W L; unfold wf in W; unfold enc in *; unfold size; cbn [as_ mbind res_bind];
  enc_bounds; split_and_hyps; rewrite ?len_app;
  repeat match goal with
  | |- context [len (enc_ptr ?tag ?e ?x)] =>
      lazymatch goal with
      | |- context [size_message ?mk ?mt x] =>
          rewrite (size_message_enc tag mk _ _ e mt _ x ltac:(solve [eauto with pulsar]) ltac:(eassumption) ltac:(lia));
          cbn [mbind res_bind]
      end
  end;
  rewrite <- ?size_string_enc, <- ?size_scalar_enc, <- ?size_unknown_enc by lia;
  f_equal; lia.

(** The statements of [marshal] write the encoding. *)
Tactic Notation "solve_pwrites" reference(wf) reference(enc) reference(wr) :=
  intros W L; unfold wf in W; unfold enc in *; enc_bounds; split_and_hyps; unfold wr;
  rewrite ?app_assoc; repeat apply writes_seq;
  first
  [ apply writes_punknown
  | apply writes_pstring; lia
  | apply writes_pscalar
  | eapply writes_pmessage; [solve [eauto with pulsar] | eassumption | lia] ].

(** Each case of the switch of [unmarshal] reads one field. *)
Ltac solve_pfield_ok :=
  repeat case_bool; try exact I;
  lazymatch goal with
  | |- safe (read_string _ _ _ _ _ ≫= _) _ =>
      eapply safe_bind; [apply read_string_safe; lia|]; intros [? ?] [? ?]; cbn; lia
  | |- safe (read_scalar _ _ _ _ _ _ ≫= _) _ =>
      eapply safe_bind; [apply read_scalar_safe; [apply _|lia]|]; intros [? ?] ?; cbn in *; lia
  | |- safe (read_message _ _ _ _ _ ≫= _) _ =>
      eapply safe_bind; [apply read_message_safe; lia|]; intros [? ?] [? ?];
      eapply safe_bind with (P := fun _ => True);
        [eapply safe_bind;
           [eapply read_into_safe; [solve [eauto with pulsar] | reflexivity | lia] | intros; exact I]
        | intros; cbn; lia]
  | |- True => exact I
  end.

Ltac reads_pointer :=
  eapply reads_ptr;
  [ assumption | solve [auto with halborn] | solve [eauto with pulsar] | | eassumption | lia | lia
  | reflexivity | intros; reflexivity | reflexivity ]; intros; reflexivity.

(** The switch has no case for the other field numbers. *)
Tactic Notation "other_fields" reference(field) :=
  intros ? ? ? ? ? Hn; rewrite ?not_elem_of_cons in Hn; split_and_hyps; unfold field;
  repeat (case_bool; zify_bools; [contradiction|]); reflexivity.

Ltac solve_codec size_enc writes field_ok reads :=
  constructor;
  [ intros; eapply size_enc; eassumption
  | intros dis x buf W L; cbn -[enc_string]; rewrite options_Size_spec, (size_enc dis x W L);
    apply fill_buf_writes; eapply writes; eassumption
  | intros dis x W L; cbn -[enc_string Unmarshal_with];
    rewrite (reads_Unmarshal_with _ _ _ _ (field_ok dis) (keep_unknown_safe _ dis) _ _ _ (reads dis x W L) L);
    reflexivity
  | intros dis d x L; cbn -[Unmarshal_with]; eapply safe_bind;
    [apply Unmarshal_with_safe; [apply field_ok | apply keep_unknown_safe | exact L] | intros y _; cbn; eauto]
  | repeat split ].

(** ** Reflection *)

Arguments no_field : simpl never.
Arguments not_mutable : simpl never.
Arguments not_oneof : simpl never.
Arguments range_field : simpl never.
Arguments visit : simpl never.
Arguments bad_assertion : simpl never.
Arguments u32 : simpl never.
Arguments i32 : simpl never.

(** The descriptors are those of the file. *)
Ltac solve_fds parse tables :=
  cbn [a_fds a_kinds fmap list_fmap];
  repeat (apply (f_equal2 cons); [etransitivity; [eapply FullName_ByName; [exact parse | exact tables | reflexivity] | reflexivity]|]);
  reflexivity.

Ltac solve_nodup := apply (bool_decide_unpack _); vm_compute; exact I.

(** The view determines the message. *)
Ltac solve_complete := intros [] []; cbn; intros; simplify_eq; reflexivity.

(** A value of each kind, with what the accessors make of it. *)
Ltac each_value w :=
  pose proof (Value_string_spec w) as S1; pose proof (Value_Uint_spec w) as S2;
  pose proof (Value_Int_spec w) as S3; pose proof (Value_Message_spec w) as S4;
  destruct w as [s|z|z|z|z|y|b|s|]; cbn in S1, S2, S3, S4; cbn;
  rewrite ?S1, ?S2, ?S3, ?S4; cbn.

Ltac each_type tac :=
  match goal with y : ProtoMessage |- _ => destruct y; cbn; tac end.

Ltac value_panics :=
  first
  [ eexists; reflexivity
  | match goal with S : exists p, _ = Panic p |- _ => destruct S as [? S]; rewrite S; eexists; reflexivity end
  | each_type ltac:(eexists; reflexivity) ].

Ltac replaced := eexists; split; [reflexivity | split; reflexivity].

(** [Set] on a message and on nil. *)
Ltac solve_set :=
  let w := fresh "w" in intros w; each_value w;
  first [replaced | value_panics | each_type ltac:(first [replaced | eexists; reflexivity])].
Ltac solve_set_nil := let w := fresh "w" in intros w; each_value w; value_panics.

(** On a nil message, and with a descriptor of another message. *)
Ltac solve_panic :=
  cbn;
  repeat match goal with E : String.eqb _ _ = false |- _ => rewrite E; clear E end; cbn;
  unfold no_field; repeat case_match; eexists; reflexivity.

(** A field of the message, its name being known. *)
Ltac solve_known m :=
  split; [split; [|split; [|split; [|split]]] | split; [|split; [|split; [|split; [|split]]]]];
  [ reflexivity
  | cbn; first [reflexivity | destruct m; cbn; match goal with |- context [is_set ?p] => destruct p end; reflexivity]
  | replaced
  | solve_set
  | cbn; first
      [ eexists; reflexivity
      | destruct m; cbn; match goal with |- context [is_set ?p] => destruct p end; cbn;
        replaced ]
  | eexists; reflexivity | eexists; reflexivity | eexists; reflexivity | solve_set_nil | eexists; reflexivity
  | intros; reflexivity ].

Ltac solve_foreign :=
  intros x; split; [|split; [|split; [|split; [intros w|split]]]]; solve_panic.

Ltac solve_fields :=
  let m := fresh "m" in let n := fresh "n" in let e := fresh "e" in
  intros m [n e]; cbn [FullName a_kinds a_view];
  repeat match goal with
  | |- context [assoc n (?l)] => let l' := eval hnf in l in progress change l with l'
  end; cbn [assoc];
  repeat match goal with
  | |- match (if String.eqb n ?c then _ else _) with _ => _ end =>
      let E := fresh "E" in destruct (String.eqb n c) eqn:E;
      [apply String.eqb_eq in E; subst n; solve_known m|]
  end;
  solve_foreign.

Ltac solve_defaults :=
  let n := fresh "n" in intros n k; cbn; repeat case_match; intros [= <-]; repeat split.

Ltac solve_range :=
  intros St m f s; cbn;
  repeat (apply range_field_visit; [first [reflexivity | destruct m; cbn; match goal with |- is_set ?p = _ => destruct p end; reflexivity] | intros]);
  reflexivity.

Ltac solve_reflection parse tables :=
  constructor;
  [ reflexivity | solve_fds parse tables | solve_nodup | solve_complete | split; reflexivity | solve_defaults | solve_fields
  | solve_range | reflexivity | intros; replaced
  | split; eexists; reflexivity | intros; eexists; reflexivity | now intros [] | repeat split ].
