(* ===== verification/PulsarTickets.v ===== *)
(** * [api/halbornctf/hal/tickets.pulsar.go]: the ticket

    The file descriptor with its tables, the accessors, the reflection methods
    and the fast path of each message, with the proof that the fast path is a
    correct codec. *)

From S2P Require Import Prelude Wire PulsarTypes Pulsar PulsarLaws PulsarDesc PulsarSchema PulsarReflect.

(** ** The file descriptor *)

Definition file_tickets_rawDesc : bytes := [
  x0a; x1c; x68; x61; x6c; x62; x6f; x72; x6e; x63; x74; x66; x2f; x68; x61; x6c;
  x2f; x74; x69; x63; x6b; x65; x74; x73; x2e; x70; x72; x6f; x74; x6f; x12; x0e;
  x68; x61; x6c; x62; x6f; x72; x6e; x63; x74; x66; x2e; x68; x61; x6c; x22; x6e;
  x0a; x06; x54; x69; x63; x6b; x65; x74; x12; x16; x0a; x06; x61; x75; x74; x68;
  x6f; x72; x18; x01; x20; x01; x28; x09; x52; x06; x61; x75; x74; x68; x6f; x72;
  x12; x14; x0a; x05; x69; x73; x73; x75; x65; x18; x02; x20; x01; x28; x09; x52;
  x05; x69; x73; x73; x75; x65; x12; x0e; x0a; x02; x69; x64; x18; x03; x20; x01;
  x28; x04; x52; x02; x69; x64; x12; x26; x0a; x0e; x61; x64; x64; x69; x74; x69;
  x6f; x6e; x61; x6c; x49; x6e; x66; x6f; x18; x04; x20; x01; x28; x09; x52; x0e;
  x61; x64; x64; x69; x74; x69; x6f; x6e; x61; x6c; x49; x6e; x66; x6f; x42; x9a;
  x01; x0a; x12; x63; x6f; x6d; x2e; x68; x61; x6c; x62; x6f; x72; x6e; x63; x74;
  x66; x2e; x68; x61; x6c; x42; x0c; x54; x69; x63; x6b; x65; x74; x73; x50; x72;
  x6f; x74; x6f; x50; x01; x5a; x1d; x48; x61; x6c; x62; x6f; x72; x6e; x43; x54;
  x46; x2f; x61; x70; x69; x2f; x68; x61; x6c; x62; x6f; x72; x6e; x63; x74; x66;
  x2f; x68; x61; x6c; xa2; x02; x03; x48; x48; x58; xaa; x02; x0e; x48; x61; x6c;
  x62; x6f; x72; x6e; x63; x74; x66; x2e; x48; x61; x6c; xca; x02; x0e; x48; x61;
  x6c; x62; x6f; x72; x6e; x63; x74; x66; x5c; x48; x61; x6c; xe2; x02; x1a; x48;
  x61; x6c; x62; x6f; x72; x6e; x63; x74; x66; x5c; x48; x61; x6c; x5c; x47; x50;
  x42; x4d; x65; x74; x61; x64; x61; x74; x61; xea; x02; x0f; x48; x61; x6c; x62;
  x6f; x72; x6e; x63; x74; x66; x3a; x3a; x48; x61; x6c; x62; x06; x70; x72; x6f;
  x74; x6f; x33].

Definition file_tickets_goTypes : list ProtoMessage := [PTicket None].

Definition file_tickets_depIdxs : list Z := [0; 0; 0; 0; 0].

Definition file_tickets_builder : TypeBuilder :=
  MkTypeBuilder file_tickets_rawDesc 0 1 0 0 file_tickets_goTypes file_tickets_depIdxs.

(** The descriptor is the .proto file, and the tables are what the builder
    expects. *)
Lemma file_tickets_parse : parse_file file_tickets_rawDesc = Some tickets_schema.
Proof. vm_compute. reflexivity. Qed.

Lemma file_tickets_tables : tables_ok file_tickets_builder tickets_schema = true.
Proof. vm_compute. reflexivity. Qed.

Section file_tickets_vars.
Context `{D : ProtoDesc}.

Definition File_tickets : FileDescriptor := Build file_tickets_builder.

(** The package variables, and their initialisation. *)
Definition file_tickets_vars : FileVars D :=
  MkFileVars None (Some file_tickets_rawDesc) (Some file_tickets_goTypes) (Some file_tickets_depIdxs) (replicate 1 None).
Definition file_tickets_exporters : list (ProtoMessage -> Z -> res (option exported)) :=
  [exporter as_Ticket].
Definition file_tickets_init (unsafe : bool) (st : FileVars D) : FileVars D :=
  match File st with
  | Some _ => st
  | None => build_file unsafe file_tickets_exporters 0 1 0 0 st
  end.

(** Initialising twice builds the file once; the file is that of the builder. *)
Lemma file_tickets_init_twice unsafe st : file_tickets_init unsafe (file_tickets_init unsafe st) = file_tickets_init unsafe st.
Proof. unfold file_tickets_init. destruct (File st) eqn:E; [now rewrite E | reflexivity]. Qed.

Lemma file_tickets_init_File unsafe : File (file_tickets_init unsafe file_tickets_vars) = Some File_tickets.
Proof. reflexivity. Qed.

Definition file_tickets_gzip : GzipVars := MkGzipVars false file_tickets_rawDesc.
Definition file_tickets_rawDescGZIP : GzipVars -> bytes * GzipVars := rawDescGZIP.
Definition apiTicket_Descriptor (st : GzipVars) : bytes * list Z * GzipVars :=
  let '(d, st) := file_tickets_rawDescGZIP st in (d, [0], st).
End file_tickets_vars.

(** ** [Ticket] *)

Definition apiTicket_Reset (x : ptr apiTicket) : res (ptr apiTicket) := _ ← deref x; Ok (Some apiTicket_zero).
Definition apiTicket_GetAuthor (x : ptr apiTicket) : gostring :=
  match x with Some x => apiTicket_Author x | None => [] end.
Definition apiTicket_GetIssue (x : ptr apiTicket) : gostring :=
  match x with Some x => apiTicket_Issue x | None => [] end.
Definition apiTicket_GetId (x : ptr apiTicket) : Z :=
  match x with Some x => apiTicket_Id x | None => 0 end.
Definition apiTicket_GetAdditionalInfo (x : ptr apiTicket) : gostring :=
  match x with Some x => apiTicket_AdditionalInfo x | None => [] end.

Section fast_Ticket_defs.
Context `{R : ProtoRuntime} `{D : ProtoDesc}.

(** *** Descriptors *)

Definition md_Ticket : MessageDescriptor := Messages_ByName File_tickets "Ticket".
Definition fd_Ticket_author : FieldDescriptor := Fields_ByName md_Ticket "author".
Definition fd_Ticket_issue : FieldDescriptor := Fields_ByName md_Ticket "issue".
Definition fd_Ticket_id : FieldDescriptor := Fields_ByName md_Ticket "id".
Definition fd_Ticket_additionalInfo : FieldDescriptor := Fields_ByName md_Ticket "additionalInfo".

(** *** Reflection *)

Definition fast_Ticket_ProtoReflect (x : ptr apiTicket) : ProtoMessage := PTicket x.
Definition fast_Ticket_messageType_Zero : ProtoMessage := PTicket None.
Definition fast_Ticket_messageType_New : ProtoMessage := PTicket (Some apiTicket_zero).
Definition fast_Ticket_messageType_Descriptor : MessageDescriptor := md_Ticket.
Definition fast_Ticket_Descriptor (x : ptr apiTicket) : MessageDescriptor := md_Ticket.
Definition fast_Ticket_New (x : ptr apiTicket) : ProtoMessage := PTicket (Some apiTicket_zero).
Definition fast_Ticket_Interface (x : ptr apiTicket) : ProtoMessage := PTicket x.

Definition fast_Ticket_Range {St} (x : ptr apiTicket) (f : FieldDescriptor -> Value -> St -> bool * St) (s : St) : res St :=
  x ← deref x;
  range_field (nonempty (apiTicket_Author x)) fd_Ticket_author (VString (apiTicket_Author x)) f (
  range_field (nonempty (apiTicket_Issue x)) fd_Ticket_issue (VString (apiTicket_Issue x)) f (
  range_field (negb (apiTicket_Id x =? 0)) fd_Ticket_id (VUint64 (apiTicket_Id x)) f (
  range_field (nonempty (apiTicket_AdditionalInfo x)) fd_Ticket_additionalInfo (VString (apiTicket_AdditionalInfo x)) f (
  Ok)))) s.

Definition fast_Ticket_Has (x : ptr apiTicket) (fd : FieldDescriptor) : res bool :=
  switch (FullName fd) [
    ("halbornctf.hal.Ticket.author", x ← deref x; Ok (nonempty (apiTicket_Author x)));
    ("halbornctf.hal.Ticket.issue", x ← deref x; Ok (nonempty (apiTicket_Issue x)));
    ("halbornctf.hal.Ticket.id", x ← deref x; Ok (negb (apiTicket_Id x =? 0)));
    ("halbornctf.hal.Ticket.additionalInfo", x ← deref x; Ok (nonempty (apiTicket_AdditionalInfo x)))
  ] (no_field "halbornctf.hal.Ticket" fd).

Definition fast_Ticket_Clear (x : ptr apiTicket) (fd : FieldDescriptor) : res (ptr apiTicket) :=
  switch (FullName fd) [
    ("halbornctf.hal.Ticket.author", x ← deref x; Ok (Some (MkapiTicket (apiTicket_unknownFields x) [] (apiTicket_Issue x) (apiTicket_Id x) (apiTicket_AdditionalInfo x))));
    ("halbornctf.hal.Ticket.issue", x ← deref x; Ok (Some (MkapiTicket (apiTicket_unknownFields x) (apiTicket_Author x) [] (apiTicket_Id x) (apiTicket_AdditionalInfo x))));
    ("halbornctf.hal.Ticket.id", x ← deref x; Ok (Some (MkapiTicket (apiTicket_unknownFields x) (apiTicket_Author x) (apiTicket_Issue x) 0 (apiTicket_AdditionalInfo x))));
    ("halbornctf.hal.Ticket.additionalInfo", x ← deref x; Ok (Some (MkapiTicket (apiTicket_unknownFields x) (apiTicket_Author x) (apiTicket_Issue x) (apiTicket_Id x) [])))
  ] (no_field "halbornctf.hal.Ticket" fd).

Definition fast_Ticket_Get (x : ptr apiTicket) (fd : FieldDescriptor) : res Value :=
  switch (FullName fd) [
    ("halbornctf.hal.Ticket.author", x ← deref x; Ok (VString (apiTicket_Author x)));
    ("halbornctf.hal.Ticket.issue", x ← deref x; Ok (VString (apiTicket_Issue x)));
    ("halbornctf.hal.Ticket.id", x ← deref x; Ok (VUint64 (apiTicket_Id x)));
    ("halbornctf.hal.Ticket.additionalInfo", x ← deref x; Ok (VString (apiTicket_AdditionalInfo x)))
  ] (no_field "halbornctf.hal.Ticket" fd).

Definition fast_Ticket_Set (x : ptr apiTicket) (fd : FieldDescriptor) (value : Value) : res (ptr apiTicket) :=
  switch (FullName fd) [
    ("halbornctf.hal.Ticket.author", v ← Value_string value; x ← deref x; Ok (Some (MkapiTicket (apiTicket_unknownFields x) v (apiTicket_Issue x) (apiTicket_Id x) (apiTicket_AdditionalInfo x))));
    ("halbornctf.hal.Ticket.issue", v ← Value_string value; x ← deref x; Ok (Some (MkapiTicket (apiTicket_unknownFields x) (apiTicket_Author x) v (apiTicket_Id x) (apiTicket_AdditionalInfo x))));
    ("halbornctf.hal.Ticket.id", v ← Value_Uint value; x ← deref x; Ok (Some (MkapiTicket (apiTicket_unknownFields x) (apiTicket_Author x) (apiTicket_Issue x) v (apiTicket_AdditionalInfo x))));
    ("halbornctf.hal.Ticket.additionalInfo", v ← Value_string value; x ← deref x; Ok (Some (MkapiTicket (apiTicket_unknownFields x) (apiTicket_Author x) (apiTicket_Issue x) (apiTicket_Id x) v)))
  ] (no_field "halbornctf.hal.Ticket" fd).

Definition fast_Ticket_Mutable (x : ptr apiTicket) (fd : FieldDescriptor) : res (ptr apiTicket * Value) :=
  switch (FullName fd) [
    ("halbornctf.hal.Ticket.author", not_mutable "author" "halbornctf.hal.Ticket");
    ("halbornctf.hal.Ticket.issue", not_mutable "issue" "halbornctf.hal.Ticket");
    ("halbornctf.hal.Ticket.id", not_mutable "id" "halbornctf.hal.Ticket");
    ("halbornctf.hal.Ticket.additionalInfo", not_mutable "additionalInfo" "halbornctf.hal.Ticket")
  ] (no_field "halbornctf.hal.Ticket" fd).

Definition fast_Ticket_NewField (x : ptr apiTicket) (fd : FieldDescriptor) : res Value :=
  switch (FullName fd) [
    ("halbornctf.hal.Ticket.author", Ok (VString []));
    ("halbornctf.hal.Ticket.issue", Ok (VString []));
    ("halbornctf.hal.Ticket.id", Ok (VUint64 0));
    ("halbornctf.hal.Ticket.additionalInfo", Ok (VString []))
  ] (no_field "halbornctf.hal.Ticket" fd).

Definition fast_Ticket_WhichOneof (x : ptr apiTicket) (d : string) : res FieldDescriptor := not_oneof "halbornctf.hal.Ticket" d.
Definition fast_Ticket_GetUnknown (x : ptr apiTicket) : res (option bytes) := x ← deref x; Ok (apiTicket_unknownFields x).
Definition apiTicket_with_unknown (u : option bytes) (x : apiTicket) : apiTicket :=
  MkapiTicket u (apiTicket_Author x) (apiTicket_Issue x) (apiTicket_Id x) (apiTicket_AdditionalInfo x).
Definition fast_Ticket_SetUnknown (x : ptr apiTicket) (fields : option bytes) : res (ptr apiTicket) :=
  x ← deref x; Ok (Some (apiTicket_with_unknown fields x)).
Definition fast_Ticket_IsValid (x : ptr apiTicket) : bool := is_set x.

Definition fast_Ticket : Reflection apiTicket := MkReflection fast_Ticket_Interface fast_Ticket_messageType_New fast_Ticket_messageType_Zero
  (@fast_Ticket_Range) fast_Ticket_Has fast_Ticket_Clear fast_Ticket_Get fast_Ticket_Set fast_Ticket_Mutable fast_Ticket_NewField fast_Ticket_WhichOneof
  fast_Ticket_GetUnknown fast_Ticket_SetUnknown fast_Ticket_IsValid.

(** *** The fast path *)

Definition fast_Ticket_size (input : ProtoMessage) : res Z :=
  x ← as_Ticket input;
  match x with
  | None => Ok 0
  | Some x =>
      Ok (size_string (apiTicket_Author x) + size_string (apiTicket_Issue x) + size_scalar (apiTicket_Id x) + size_string (apiTicket_AdditionalInfo x) + size_unknown (apiTicket_unknownFields x))
  end.

Definition fast_Ticket_writer (x : apiTicket) : writer :=
  punknown (apiTicket_unknownFields x) >>
  pstring 0x22 (apiTicket_AdditionalInfo x) >>
  pscalar 0x18 (apiTicket_Id x) >>
  pstring 0x12 (apiTicket_Issue x) >>
  pstring 0xa (apiTicket_Author x).

Definition fast_Ticket_marshal (buf : option bytes) (input : ProtoMessage) : res (option bytes) :=
  x ← as_Ticket input;
  match x with
  | None => Ok buf
  | Some x => fill_buf (options_Size fast_Ticket_size (PTicket (Some x))) (fast_Ticket_writer x) buf
  end.

Definition fast_Ticket_field (discard : bool) (x : apiTicket) (fieldNum wireType : Z) (d : bytes) (iNdEx : Z)
    : option (res (apiTicket * Z)) :=
  if fieldNum =? 1 then Some (
    '(s, j) ← read_string PbRuntime "Author" wireType d iNdEx;
    Ok (MkapiTicket (apiTicket_unknownFields x) s (apiTicket_Issue x) (apiTicket_Id x) (apiTicket_AdditionalInfo x), j))
  else if fieldNum =? 2 then Some (
    '(s, j) ← read_string PbRuntime "Issue" wireType d iNdEx;
    Ok (MkapiTicket (apiTicket_unknownFields x) (apiTicket_Author x) s (apiTicket_Id x) (apiTicket_AdditionalInfo x), j))
  else if fieldNum =? 3 then Some (
    '(v, j) ← read_scalar PbRuntime u64 "Id" wireType d iNdEx;
    Ok (MkapiTicket (apiTicket_unknownFields x) (apiTicket_Author x) (apiTicket_Issue x) v (apiTicket_AdditionalInfo x), j))
  else if fieldNum =? 4 then Some (
    '(s, j) ← read_string PbRuntime "AdditionalInfo" wireType d iNdEx;
    Ok (MkapiTicket (apiTicket_unknownFields x) (apiTicket_Author x) (apiTicket_Issue x) (apiTicket_Id x) s, j))
  else None.

Definition fast_Ticket_add_unknown (s : bytes) (x : apiTicket) : apiTicket :=
  apiTicket_with_unknown (append_unknown (apiTicket_unknownFields x) s) x.
Definition fast_Ticket_unmarshal (discard : bool) (d : bytes) (input : ProtoMessage) : res ProtoMessage :=
  x ← as_Ticket input;
  match x with
  | None => Ok input
  | Some x =>
      x ← Unmarshal_with PbRuntime "Ticket" (keep_unknown fast_Ticket_add_unknown discard) (fast_Ticket_field discard) x d;
      Ok (PTicket (Some x))
  end.

Definition fast_Ticket_methods : Methods := MkMethods fast_Ticket_size fast_Ticket_marshal fast_Ticket_unmarshal.
End fast_Ticket_defs.

(** *** Specification *)

Definition apiTicket_kinds : list (string * kind) := [
  ("halbornctf.hal.Ticket.author", KString);
  ("halbornctf.hal.Ticket.issue", KString);
  ("halbornctf.hal.Ticket.id", KUint64);
  ("halbornctf.hal.Ticket.additionalInfo", KString)].

Definition apiTicket_view (x : apiTicket) : list (string * Value) := [
  ("halbornctf.hal.Ticket.author", VString (apiTicket_Author x));
  ("halbornctf.hal.Ticket.issue", VString (apiTicket_Issue x));
  ("halbornctf.hal.Ticket.id", VUint64 (apiTicket_Id x));
  ("halbornctf.hal.Ticket.additionalInfo", VString (apiTicket_AdditionalInfo x))].

Definition apiTicket_abs `{D : ProtoDesc} : Abstraction apiTicket := MkAbstraction PTicket apiTicket_zero apiTicket_kinds
  [fd_Ticket_author; fd_Ticket_issue; fd_Ticket_id; fd_Ticket_additionalInfo] apiTicket_view apiTicket_unknownFields.

Section fast_Ticket_lemmas.
Context `{ProtoRuntimeOk} `{ProtoDescOk}.

Definition apiTicket_enc (x : apiTicket) : bytes :=
  enc_string 0xa (apiTicket_Author x) ++
  enc_string 0x12 (apiTicket_Issue x) ++
  enc_scalar 0x18 (apiTicket_Id x) ++
  enc_string 0x22 (apiTicket_AdditionalInfo x) ++
  default [] (apiTicket_unknownFields x).

Definition apiTicket_wf (dis : bool) (x : apiTicket) : Prop :=
  0 <= apiTicket_Id x < 2 ^ 64 /\
  unknown_ok [1; 2; 3; 4] dis (apiTicket_unknownFields x).

Lemma fast_Ticket_size_enc dis x : apiTicket_wf dis x -> len (apiTicket_enc x) < 2 ^ 63 ->
  fast_Ticket_size (PTicket (Some x)) = Ok (len (apiTicket_enc x)).
Proof. solve_size apiTicket_wf apiTicket_enc fast_Ticket_size as_Ticket. Qed.

Lemma fast_Ticket_writes dis x : apiTicket_wf dis x -> len (apiTicket_enc x) < 2 ^ 63 -> writes (fast_Ticket_writer x) (apiTicket_enc x).
Proof. solve_pwrites apiTicket_wf apiTicket_enc fast_Ticket_writer. Qed.

Lemma fast_Ticket_field_ok dis : field_ok (fast_Ticket_field dis).
Proof. intros x fn wt d i Hi Hd. unfold fast_Ticket_field. solve_pfield_ok. Qed.

Lemma fast_Ticket_reads dis x : apiTicket_wf dis x -> len (apiTicket_enc x) < 2 ^ 63 ->
  reads PbRuntime "Ticket" (keep_unknown fast_Ticket_add_unknown dis) (fast_Ticket_field dis) apiTicket_zero (apiTicket_enc x) x.
Proof.
  unfold apiTicket_wf. intros (W0 & W1) L. pose proof (fast_Ticket_field_ok dis).
  unfold apiTicket_enc in *. enc_bounds. eapply reads_conv.
  - 
    eapply reads_app; [eapply reads_string; reads_side|].
    eapply reads_app; [eapply reads_string; reads_side|].
    eapply reads_app; [eapply reads_scalar with (W := u64); try reads_side; now apply u64_u64|].
    eapply reads_app; [eapply reads_string; reads_side|].
    apply reads_unknown_fields with (known := [1; 2; 3; 4]) (getu := apiTicket_unknownFields) (setu := apiTicket_with_unknown);
      [assumption | other_fields fast_Ticket_field | reflexivity | reflexivity | reflexivity | now intros [] | assumption | reflexivity].
  - now destruct x.
Qed.

Lemma fast_Ticket_codec : codec_ok PTicket apiTicket_zero apiTicket_wf apiTicket_enc fast_Ticket_methods.
Proof.
  solve_codec fast_Ticket_size_enc fast_Ticket_writes fast_Ticket_field_ok fast_Ticket_reads.
Qed.

Lemma fast_Ticket_ok : ReflectionOk fast_Ticket apiTicket_abs.
Proof. solve_reflection file_tickets_parse file_tickets_tables. Qed.
End fast_Ticket_lemmas.
#[export] Hint Resolve fast_Ticket_codec : pulsar.
