(* ===== verification/PulsarRedeemRequest.v ===== *)
(** * [api/halbornctf/hal/redeem_request.pulsar.go]: the redeem request

    The file descriptor with its tables, the accessors, the reflection methods
    and the fast path of each message, with the proof that the fast path is a
    correct codec. *)

From S2P Require Import Prelude Wire PulsarTypes Pulsar PulsarLaws PulsarDesc PulsarSchema PulsarReflect.

(** ** The file descriptor *)

Definition file_redeem_request_rawDesc : bytes := [
  x0a; x23; x68; x61; x6c; x62; x6f; x72; x6e; x63; x74; x66; x2f; x68; x61; x6c;
  x2f; x72; x65; x64; x65; x65; x6d; x5f; x72; x65; x71; x75; x65; x73; x74; x2e;
  x70; x72; x6f; x74; x6f; x12; x0e; x68; x61; x6c; x62; x6f; x72; x6e; x63; x74;
  x66; x2e; x68; x61; x6c; x1a; x14; x67; x6f; x67; x6f; x70; x72; x6f; x74; x6f;
  x2f; x67; x6f; x67; x6f; x2e; x70; x72; x6f; x74; x6f; x1a; x1e; x63; x6f; x73;
  x6d; x6f; x73; x2f; x62; x61; x73; x65; x2f; x76; x31; x62; x65; x74; x61; x31;
  x2f; x63; x6f; x69; x6e; x2e; x70; x72; x6f; x74; x6f; x1a; x1f; x67; x6f; x6f;
  x67; x6c; x65; x2f; x70; x72; x6f; x74; x6f; x62; x75; x66; x2f; x74; x69; x6d;
  x65; x73; x74; x61; x6d; x70; x2e; x70; x72; x6f; x74; x6f; x22; xd2; x01; x0a;
  x0d; x52; x65; x64; x65; x65; x6d; x52; x65; x71; x75; x65; x73; x74; x12; x18;
  x0a; x07; x61; x63; x63; x6f; x75; x6e; x74; x18; x01; x20; x01; x28; x09; x52;
  x07; x61; x63; x63; x6f; x75; x6e; x74; x12; x3f; x0a; x0a; x63; x6f; x6c; x6c;
  x61; x74; x65; x72; x61; x6c; x18; x02; x20; x01; x28; x0b; x32; x19; x2e; x63;
  x6f; x73; x6d; x6f; x73; x2e; x62; x61; x73; x65; x2e; x76; x31; x62; x65; x74;
  x61; x31; x2e; x43; x6f; x69; x6e; x42; x04; xc8; xde; x1f; x00; x52; x0a; x63;
  x6f; x6c; x6c; x61; x74; x65; x72; x61; x6c; x12; x66; x0a; x0e; x63; x6f; x6d;
  x70; x6c; x65; x74; x69; x6f; x6e; x74; x69; x6d; x65; x18; x03; x20; x01; x28;
  x0b; x32; x1a; x2e; x67; x6f; x6f; x67; x6c; x65; x2e; x70; x72; x6f; x74; x6f;
  x62; x75; x66; x2e; x54; x69; x6d; x65; x73; x74; x61; x6d; x70; x42; x22; xc8;
  xde; x1f; x00; xf2; xde; x1f; x16; x79; x61; x6d; x6c; x3a; x22; x63; x6f; x6d;
  x70; x6c; x65; x74; x69; x6f; x6e; x5f; x74; x69; x6d; x65; x22; x90; xdf; x1f;
  x01; x52; x0e; x63; x6f; x6d; x70; x6c; x65; x74; x69; x6f; x6e; x74; x69; x6d;
  x65; x42; xa0; x01; x0a; x12; x63; x6f; x6d; x2e; x68; x61; x6c; x62; x6f; x72;
  x6e; x63; x74; x66; x2e; x68; x61; x6c; x42; x12; x52; x65; x64; x65; x65; x6d;
  x52; x65; x71; x75; x65; x73; x74; x50; x72; x6f; x74; x6f; x50; x01; x5a; x1d;
  x48; x61; x6c; x62; x6f; x72; x6e; x43; x54; x46; x2f; x61; x70; x69; x2f; x68;
  x61; x6c; x62; x6f; x72; x6e; x63; x74; x66; x2f; x68; x61; x6c; xa2; x02; x03;
  x48; x48; x58; xaa; x02; x0e; x48; x61; x6c; x62; x6f; x72; x6e; x63; x74; x66;
  x2e; x48; x61; x6c; xca; x02; x0e; x48; x61; x6c; x62; x6f; x72; x6e; x63; x74;
  x66; x5c; x48; x61; x6c; xe2; x02; x1a; x48; x61; x6c; x62; x6f; x72; x6e; x63;
  x74; x66; x5c; x48; x61; x6c; x5c; x47; x50; x42; x4d; x65; x74; x61; x64; x61;
  x74; x61; xea; x02; x0f; x48; x61; x6c; x62; x6f; x72; x6e; x63; x74; x66; x3a;
  x3a; x48; x61; x6c; x62; x06; x70; x72; x6f; x74; x6f; x33].

Definition file_redeem_request_goTypes : list ProtoMessage := [PRedeemRequest None; PCoin None; PTimestamp None].

Definition file_redeem_request_depIdxs : list Z := [1; 2; 2; 2; 2; 2; 0].

Definition file_redeem_request_builder : TypeBuilder :=
  MkTypeBuilder file_redeem_request_rawDesc 0 1 0 0 file_redeem_request_goTypes file_redeem_request_depIdxs.

(** The descriptor is the .proto file, and the tables are what the builder
    expects. *)
Lemma file_redeem_request_parse : parse_file file_redeem_request_rawDesc = Some redeem_request_schema.
Proof. vm_compute. reflexivity. Qed.

Lemma file_redeem_request_tables : tables_ok file_redeem_request_builder redeem_request_schema = true.
Proof. vm_compute. reflexivity. Qed.

Section file_redeem_request_vars.
Context `{D : ProtoDesc}.

Definition File_redeem_request : FileDescriptor := Build file_redeem_request_builder.

(** The package variables, and their initialisation. *)
Definition file_redeem_request_vars : FileVars D :=
  MkFileVars None (Some file_redeem_request_rawDesc) (Some file_redeem_request_goTypes) (Some file_redeem_request_depIdxs) (replicate 1 None).
Definition file_redeem_request_exporters : list (ProtoMessage -> Z -> res (option exported)) :=
  [exporter as_RedeemRequest].
Definition file_redeem_request_init (unsafe : bool) (st : FileVars D) : FileVars D :=
  match File st with
  | Some _ => st
  | None => build_file unsafe file_redeem_request_exporters 0 1 0 0 st
  end.

(** Initialising twice builds the file once; the file is that of the builder. *)
Lemma file_redeem_request_init_twice unsafe st : file_redeem_request_init unsafe (file_redeem_request_init unsafe st) = file_redeem_request_init unsafe st.
Proof. unfold file_redeem_request_init. destruct (File st) eqn:E; [now rewrite E | reflexivity]. Qed.

Lemma file_redeem_request_init_File unsafe : File (file_redeem_request_init unsafe file_redeem_request_vars) = Some File_redeem_request.
Proof. reflexivity. Qed.

Definition file_redeem_request_gzip : GzipVars := MkGzipVars false file_redeem_request_rawDesc.
Definition file_redeem_request_rawDescGZIP : GzipVars -> bytes * GzipVars := rawDescGZIP.
Definition apiRedeemRequest_Descriptor (st : GzipVars) : bytes * list Z * GzipVars :=
  let '(d, st) := file_redeem_request_rawDescGZIP st in (d, [0], st).
End file_redeem_request_vars.

(** ** [RedeemRequest] *)

Definition apiRedeemRequest_Reset (x : ptr apiRedeemRequest) : res (ptr apiRedeemRequest) := _ ← deref x; Ok (Some apiRedeemRequest_zero).
Definition apiRedeemRequest_GetAccount (x : ptr apiRedeemRequest) : gostring :=
  match x with Some x => apiRedeemRequest_Account x | None => [] end.
Definition apiRedeemRequest_GetCollateral (x : ptr apiRedeemRequest) : ptr apiCoin :=
  match x with Some x => apiRedeemRequest_Collateral x | None => None end.
Definition apiRedeemRequest_GetCompletiontime (x : ptr apiRedeemRequest) : ptr apiTimestamp :=
  match x with Some x => apiRedeemRequest_Completiontime x | None => None end.

Section fast_RedeemRequest_defs.
Context `{R : ProtoRuntime} `{D : ProtoDesc}.

(** *** Descriptors *)

Definition md_RedeemRequest : MessageDescriptor := Messages_ByName File_redeem_request "RedeemRequest".
Definition fd_RedeemRequest_account : FieldDescriptor := Fields_ByName md_RedeemRequest "account".
Definition fd_RedeemRequest_collateral : FieldDescriptor := Fields_ByName md_RedeemRequest "collateral".
Definition fd_RedeemRequest_completiontime : FieldDescriptor := Fields_ByName md_RedeemRequest "completiontime".

(** *** Reflection *)

Definition fast_RedeemRequest_ProtoReflect (x : ptr apiRedeemRequest) : ProtoMessage := PRedeemRequest x.
Definition fast_RedeemRequest_messageType_Zero : ProtoMessage := PRedeemRequest None.
Definition fast_RedeemRequest_messageType_New : ProtoMessage := PRedeemRequest (Some apiRedeemRequest_zero).
Definition fast_RedeemRequest_messageType_Descriptor : MessageDescriptor := md_RedeemRequest.
Definition fast_RedeemRequest_Descriptor (x : ptr apiRedeemRequest) : MessageDescriptor := md_RedeemRequest.
Definition fast_RedeemRequest_New (x : ptr apiRedeemRequest) : ProtoMessage := PRedeemRequest (Some apiRedeemRequest_zero).
Definition fast_RedeemRequest_Interface (x : ptr apiRedeemRequest) : ProtoMessage := PRedeemRequest x.

Definition fast_RedeemRequest_Range {St} (x : ptr apiRedeemRequest) (f : FieldDescriptor -> Value -> St -> bool * St) (s : St) : res St :=
  x ← deref x;
  range_field (nonempty (apiRedeemRequest_Account x)) fd_RedeemRequest_account (VString (apiRedeemRequest_Account x)) f (
  range_field (is_set (apiRedeemRequest_Collateral x)) fd_RedeemRequest_collateral (VMessage (PCoin (apiRedeemRequest_Collateral x))) f (
  range_field (is_set (apiRedeemRequest_Completiontime x)) fd_RedeemRequest_completiontime (VMessage (PTimestamp (apiRedeemRequest_Completiontime x))) f (
  Ok))) s.

Definition fast_RedeemRequest_Has (x : ptr apiRedeemRequest) (fd : FieldDescriptor) : res bool :=
  switch (FullName fd) [
    ("halbornctf.hal.RedeemRequest.account", x ← deref x; Ok (nonempty (apiRedeemRequest_Account x)));
    ("halbornctf.hal.RedeemRequest.collateral", x ← deref x; Ok (is_set (apiRedeemRequest_Collateral x)));
    ("halbornctf.hal.RedeemRequest.completiontime", x ← deref x; Ok (is_set (apiRedeemRequest_Completiontime x)))
  ] (no_field "halbornctf.hal.RedeemRequest" fd).

Definition fast_RedeemRequest_Clear (x : ptr apiRedeemRequest) (fd : FieldDescriptor) : res (ptr apiRedeemRequest) :=
  switch (FullName fd) [
    ("halbornctf.hal.RedeemRequest.account", x ← deref x; Ok (Some (MkapiRedeemRequest (apiRedeemRequest_unknownFields x) [] (apiRedeemRequest_Collateral x) (apiRedeemRequest_Completiontime x))));
    ("halbornctf.hal.RedeemRequest.collateral", x ← deref x; Ok (Some (MkapiRedeemRequest (apiRedeemRequest_unknownFields x) (apiRedeemRequest_Account x) None (apiRedeemRequest_Completiontime x))));
    ("halbornctf.hal.RedeemRequest.completiontime", x ← deref x; Ok (Some (MkapiRedeemRequest (apiRedeemRequest_unknownFields x) (apiRedeemRequest_Account x) (apiRedeemRequest_Collateral x) None)))
  ] (no_field "halbornctf.hal.RedeemRequest" fd).

Definition fast_RedeemRequest_Get (x : ptr apiRedeemRequest) (fd : FieldDescriptor) : res Value :=
  switch (FullName fd) [
    ("halbornctf.hal.RedeemRequest.account", x ← deref x; Ok (VString (apiRedeemRequest_Account x)));
    ("halbornctf.hal.RedeemRequest.collateral", x ← deref x; Ok (VMessage (PCoin (apiRedeemRequest_Collateral x))));
    ("halbornctf.hal.RedeemRequest.completiontime", x ← deref x; Ok (VMessage (PTimestamp (apiRedeemRequest_Completiontime x))))
  ] (no_field "halbornctf.hal.RedeemRequest" fd).

Definition fast_RedeemRequest_Set (x : ptr apiRedeemRequest) (fd : FieldDescriptor) (value : Value) : res (ptr apiRedeemRequest) :=
  switch (FullName fd) [
    ("halbornctf.hal.RedeemRequest.account", v ← Value_string value; x ← deref x; Ok (Some (MkapiRedeemRequest (apiRedeemRequest_unknownFields x) v (apiRedeemRequest_Collateral x) (apiRedeemRequest_Completiontime x))));
    ("halbornctf.hal.RedeemRequest.collateral", v ← Value_Message value; v ← as_Coin v; x ← deref x; Ok (Some (MkapiRedeemRequest (apiRedeemRequest_unknownFields x) (apiRedeemRequest_Account x) v (apiRedeemRequest_Completiontime x))));
    ("halbornctf.hal.RedeemRequest.completiontime", v ← Value_Message value; v ← as_Timestamp v; x ← deref x; Ok (Some (MkapiRedeemRequest (apiRedeemRequest_unknownFields x) (apiRedeemRequest_Account x) (apiRedeemRequest_Collateral x) v)))
  ] (no_field "halbornctf.hal.RedeemRequest" fd).

Definition fast_RedeemRequest_Mutable (x : ptr apiRedeemRequest) (fd : FieldDescriptor) : res (ptr apiRedeemRequest * Value) :=
  switch (FullName fd) [
    ("halbornctf.hal.RedeemRequest.collateral", x ← deref x;
      let x := if is_set (apiRedeemRequest_Collateral x) then x else MkapiRedeemRequest (apiRedeemRequest_unknownFields x) (apiRedeemRequest_Account x) (Some apiCoin_zero) (apiRedeemRequest_Completiontime x) in
      Ok (Some x, VMessage (PCoin (apiRedeemRequest_Collateral x))));
    ("halbornctf.hal.RedeemRequest.completiontime", x ← deref x;
      let x := if is_set (apiRedeemRequest_Completiontime x) then x else MkapiRedeemRequest (apiRedeemRequest_unknownFields x) (apiRedeemRequest_Account x) (apiRedeemRequest_Collateral x) (Some apiTimestamp_zero) in
      Ok (Some x, VMessage (PTimestamp (apiRedeemRequest_Completiontime x))));
    ("halbornctf.hal.RedeemRequest.account", not_mutable "account" "halbornctf.hal.RedeemRequest")
  ] (no_field "halbornctf.hal.RedeemRequest" fd).

Definition fast_RedeemRequest_NewField (x : ptr apiRedeemRequest) (fd : FieldDescriptor) : res Value :=
  switch (FullName fd) [
    ("halbornctf.hal.RedeemRequest.account", Ok (VString []));
    ("halbornctf.hal.RedeemRequest.collateral", Ok (VMessage (PCoin (Some apiCoin_zero))));
    ("halbornctf.hal.RedeemRequest.completiontime", Ok (VMessage (PTimestamp (Some apiTimestamp_zero))))
  ] (no_field "halbornctf.hal.RedeemRequest" fd).

Definition fast_RedeemRequest_WhichOneof (x : ptr apiRedeemRequest) (d : string) : res FieldDescriptor := not_oneof "halbornctf.hal.RedeemRequest" d.
Definition fast_RedeemRequest_GetUnknown (x : ptr apiRedeemRequest) : res (option bytes) := x ← deref x; Ok (apiRedeemRequest_unknownFields x).
Definition apiRedeemRequest_with_unknown (u : option bytes) (x : apiRedeemRequest) : apiRedeemRequest :=
  MkapiRedeemRequest u (apiRedeemRequest_Account x) (apiRedeemRequest_Collateral x) (apiRedeemRequest_Completiontime x).
Definition fast_RedeemRequest_SetUnknown (x : ptr apiRedeemRequest) (fields : option bytes) : res (ptr apiRedeemRequest) :=
  x ← deref x; Ok (Some (apiRedeemRequest_with_unknown fields x)).
Definition fast_RedeemRequest_IsValid (x : ptr apiRedeemRequest) : bool := is_set x.

Definition fast_RedeemRequest : Reflection apiRedeemRequest := MkReflection fast_RedeemRequest_Interface fast_RedeemRequest_messageType_New fast_RedeemRequest_messageType_Zero
  (@fast_RedeemRequest_Range) fast_RedeemRequest_Has fast_RedeemRequest_Clear fast_RedeemRequest_Get fast_RedeemRequest_Set fast_RedeemRequest_Mutable fast_RedeemRequest_NewField fast_RedeemRequest_WhichOneof
  fast_RedeemRequest_GetUnknown fast_RedeemRequest_SetUnknown fast_RedeemRequest_IsValid.

(** *** The fast path *)

Definition fast_RedeemRequest_size (input : ProtoMessage) : res Z :=
  x ← as_RedeemRequest input;
  match x with
  | None => Ok 0
  | Some x =>
      l2 ← size_message PCoin Coin_methods (apiRedeemRequest_Collateral x);
      l3 ← size_message PTimestamp Timestamp_methods (apiRedeemRequest_Completiontime x);
      Ok (size_string (apiRedeemRequest_Account x) + l2 + l3 + size_unknown (apiRedeemRequest_unknownFields x))
  end.

Definition fast_RedeemRequest_writer (x : apiRedeemRequest) : writer :=
  punknown (apiRedeemRequest_unknownFields x) >>
  pmessage 0x1a PTimestamp Timestamp_methods (apiRedeemRequest_Completiontime x) >>
  pmessage 0x12 PCoin Coin_methods (apiRedeemRequest_Collateral x) >>
  pstring 0xa (apiRedeemRequest_Account x).

Definition fast_RedeemRequest_marshal (buf : option bytes) (input : ProtoMessage) : res (option bytes) :=
  x ← as_RedeemRequest input;
  match x with
  | None => Ok buf
  | Some x => fill_buf (options_Size fast_RedeemRequest_size (PRedeemRequest (Some x))) (fast_RedeemRequest_writer x) buf
  end.

Definition fast_RedeemRequest_field (discard : bool) (x : apiRedeemRequest) (fieldNum wireType : Z) (d : bytes) (iNdEx : Z)
    : option (res (apiRedeemRequest * Z)) :=
  if fieldNum =? 1 then Some (
    '(s, j) ← read_string PbRuntime "Account" wireType d iNdEx;
    Ok (MkapiRedeemRequest (apiRedeemRequest_unknownFields x) s (apiRedeemRequest_Collateral x) (apiRedeemRequest_Completiontime x), j))
  else if fieldNum =? 2 then Some (
    '(s, j) ← read_message PbRuntime "Collateral" wireType d iNdEx;
    x' ← (p ← read_into PCoin as_Coin apiCoin_zero Coin_methods discard s (apiRedeemRequest_Collateral x);
          Ok (MkapiRedeemRequest (apiRedeemRequest_unknownFields x) (apiRedeemRequest_Account x) p (apiRedeemRequest_Completiontime x)));
    Ok (x', j))
  else if fieldNum =? 3 then Some (
    '(s, j) ← read_message PbRuntime "Completiontime" wireType d iNdEx;
    x' ← (p ← read_into PTimestamp as_Timestamp apiTimestamp_zero Timestamp_methods discard s (apiRedeemRequest_Completiontime x);
          Ok (MkapiRedeemRequest (apiRedeemRequest_unknownFields x) (apiRedeemRequest_Account x) (apiRedeemRequest_Collateral x) p));
    Ok (x', j))
  else None.

Definition fast_RedeemRequest_add_unknown (s : bytes) (x : apiRedeemRequest) : apiRedeemRequest :=
  apiRedeemRequest_with_unknown (append_unknown (apiRedeemRequest_unknownFields x) s) x.
Definition fast_RedeemRequest_unmarshal (discard : bool) (d : bytes) (input : ProtoMessage) : res ProtoMessage :=
  x ← as_RedeemRequest input;
  match x with
  | None => Ok input
  | Some x =>
      x ← Unmarshal_with PbRuntime "RedeemRequest" (keep_unknown fast_RedeemRequest_add_unknown discard) (fast_RedeemRequest_field discard) x d;
      Ok (PRedeemRequest (Some x))
  end.

Definition fast_RedeemRequest_methods : Methods := MkMethods fast_RedeemRequest_size fast_RedeemRequest_marshal fast_RedeemRequest_unmarshal.
End fast_RedeemRequest_defs.

(** *** Specification *)

Definition apiRedeemRequest_kinds : list (string * kind) := [
  ("halbornctf.hal.RedeemRequest.account", KString);
  ("halbornctf.hal.RedeemRequest.collateral", KMessage (PCoin None) (PCoin (Some apiCoin_zero)));
  ("halbornctf.hal.RedeemRequest.completiontime", KMessage (PTimestamp None) (PTimestamp (Some apiTimestamp_zero)))].

Definition apiRedeemRequest_view (x : apiRedeemRequest) : list (string * Value) := [
  ("halbornctf.hal.RedeemRequest.account", VString (apiRedeemRequest_Account x));
  ("halbornctf.hal.RedeemRequest.collateral", VMessage (PCoin (apiRedeemRequest_Collateral x)));
  ("halbornctf.hal.RedeemRequest.completiontime", VMessage (PTimestamp (apiRedeemRequest_Completiontime x)))].

Definition apiRedeemRequest_abs `{D : ProtoDesc} : Abstraction apiRedeemRequest := MkAbstraction PRedeemRequest apiRedeemRequest_zero apiRedeemRequest_kinds
  [fd_RedeemRequest_account; fd_RedeemRequest_collateral; fd_RedeemRequest_completiontime] apiRedeemRequest_view apiRedeemRequest_unknownFields.

Section fast_RedeemRequest_lemmas.
Context `{ProtoRuntimeOk} `{ProtoDescOk}.

Definition apiRedeemRequest_enc (x : apiRedeemRequest) : bytes :=
  enc_string 0xa (apiRedeemRequest_Account x) ++
  enc_ptr 0x12 apiCoin_enc (apiRedeemRequest_Collateral x) ++
  enc_ptr 0x1a apiTimestamp_enc (apiRedeemRequest_Completiontime x) ++
  default [] (apiRedeemRequest_unknownFields x).

Definition apiRedeemRequest_wf (dis : bool) (x : apiRedeemRequest) : Prop :=
  wf_ptr apiCoin_wf dis (apiRedeemRequest_Collateral x) /\
  wf_ptr apiTimestamp_wf dis (apiRedeemRequest_Completiontime x) /\
  unknown_ok [1; 2; 3] dis (apiRedeemRequest_unknownFields x).

Lemma fast_RedeemRequest_size_enc dis x : apiRedeemRequest_wf dis x -> len (apiRedeemRequest_enc x) < 2 ^ 63 ->
  fast_RedeemRequest_size (PRedeemRequest (Some x)) = Ok (len (apiRedeemRequest_enc x)).
Proof. solve_size apiRedeemRequest_wf apiRedeemRequest_enc fast_RedeemRequest_size as_RedeemRequest. Qed.

Lemma fast_RedeemRequest_writes dis x : apiRedeemRequest_wf dis x -> len (apiRedeemRequest_enc x) < 2 ^ 63 -> writes (fast_RedeemRequest_writer x) (apiRedeemRequest_enc x).
Proof. solve_pwrites apiRedeemRequest_wf apiRedeemRequest_enc fast_RedeemRequest_writer. Qed.

Lemma fast_RedeemRequest_field_ok dis : field_ok (fast_RedeemRequest_field dis).
Proof. intros x fn wt d i Hi Hd. unfold fast_RedeemRequest_field. solve_pfield_ok. Qed.

Lemma fast_RedeemRequest_reads dis x : apiRedeemRequest_wf dis x -> len (apiRedeemRequest_enc x) < 2 ^ 63 ->
  reads PbRuntime "RedeemRequest" (keep_unknown fast_RedeemRequest_add_unknown dis) (fast_RedeemRequest_field dis) apiRedeemRequest_zero (apiRedeemRequest_enc x) x.
Proof.
  unfold apiRedeemRequest_wf. intros (W0 & W1 & W2) L. pose proof (fast_RedeemRequest_field_ok dis).
  unfold apiRedeemRequest_enc in *. enc_bounds. eapply reads_conv.
  - 
    eapply reads_app; [eapply reads_string; reads_side|].
    eapply reads_app; [reads_pointer|].
    eapply reads_app; [reads_pointer|].
    apply reads_unknown_fields with (known := [1; 2; 3]) (getu := apiRedeemRequest_unknownFields) (setu := apiRedeemRequest_with_unknown);
      [assumption | other_fields fast_RedeemRequest_field | reflexivity | reflexivity | reflexivity | now intros [] | assumption | reflexivity].
  - now destruct x.
Qed.

Lemma fast_RedeemRequest_codec : codec_ok PRedeemRequest apiRedeemRequest_zero apiRedeemRequest_wf apiRedeemRequest_enc fast_RedeemRequest_methods.
Proof.
  solve_codec fast_RedeemRequest_size_enc fast_RedeemRequest_writes fast_RedeemRequest_field_ok fast_RedeemRequest_reads.
Qed.

Lemma fast_RedeemRequest_ok : ReflectionOk fast_RedeemRequest apiRedeemRequest_abs.
Proof. solve_reflection file_redeem_request_parse file_redeem_request_tables. Qed.
End fast_RedeemRequest_lemmas.
#[export] Hint Resolve fast_RedeemRequest_codec : pulsar.
