(* ===== verification/PulsarParams.v ===== *)
(** * [api/halbornctf/hal/params.pulsar.go]: the parameters and the token metadata

    The file descriptor with its tables, the accessors, the reflection methods
    and the fast path of each message, with the proof that the fast path is a
    correct codec. *)

From S2P Require Import Prelude Wire PulsarTypes Pulsar PulsarLaws PulsarDesc PulsarSchema PulsarReflect.

(** ** The file descriptor *)

Definition file_params_rawDesc : bytes := [
  x0a; x1b; x68; x61; x6c; x62; x6f; x72; x6e; x63; x74; x66; x2f; x68; x61; x6c;
  x2f; x70; x61; x72; x61; x6d; x73; x2e; x70; x72; x6f; x74; x6f; x12; x0e; x68;
  x61; x6c; x62; x6f; x72; x6e; x63; x74; x66; x2e; x68; x61; x6c; x1a; x11; x61;
  x6d; x69; x6e; x6f; x2f; x61; x6d; x69; x6e; x6f; x2e; x70; x72; x6f; x74; x6f;
  x1a; x14; x67; x6f; x67; x6f; x70; x72; x6f; x74; x6f; x2f; x67; x6f; x67; x6f;
  x2e; x70; x72; x6f; x74; x6f; x1a; x1e; x67; x6f; x6f; x67; x6c; x65; x2f; x70;
  x72; x6f; x74; x6f; x62; x75; x66; x2f; x64; x75; x72; x61; x74; x69; x6f; x6e;
  x2e; x70; x72; x6f; x74; x6f; x22; x86; x03; x0a; x06; x50; x61; x72; x61; x6d;
  x73; x12; x57; x0a; x0a; x72; x65; x64; x65; x65; x6d; x5f; x64; x75; x72; x18;
  x01; x20; x01; x28; x0b; x32; x19; x2e; x67; x6f; x6f; x67; x6c; x65; x2e; x70;
  x72; x6f; x74; x6f; x62; x75; x66; x2e; x44; x75; x72; x61; x74; x69; x6f; x6e;
  x42; x1d; xc8; xde; x1f; x00; xf2; xde; x1f; x11; x79; x61; x6d; x6c; x3a; x22;
  x72; x65; x64; x65; x65; x6d; x5f; x64; x75; x72; x22; x98; xdf; x1f; x01; x52;
  x09; x72; x65; x64; x65; x65; x6d; x44; x75; x72; x12; x4b; x0a; x12; x6d; x61;
  x78; x5f; x72; x65; x64; x65; x65; x6d; x5f; x65; x6e; x74; x72; x69; x65; x73;
  x18; x02; x20; x01; x28; x05; x42; x1d; xf2; xde; x1f; x19; x79; x61; x6d; x6c;
  x3a; x22; x6d; x61; x78; x5f; x72; x65; x64; x65; x65; x6d; x5f; x65; x6e; x74;
  x72; x69; x65; x73; x22; x52; x10; x6d; x61; x78; x52; x65; x64; x65; x65; x6d;
  x45; x6e; x74; x72; x69; x65; x73; x12; x65; x0a; x10; x63; x6f; x6c; x6c; x61;
  x74; x65; x72; x61; x6c; x5f; x6d; x65; x74; x61; x73; x18; x03; x20; x01; x28;
  x0b; x32; x19; x2e; x68; x61; x6c; x62; x6f; x72; x6e; x63; x74; x66; x2e; x68;
  x61; x6c; x2e; x54; x6f; x6b; x65; x6e; x4d; x65; x74; x61; x42; x1f; xc8; xde;
  x1f; x00; xf2; xde; x1f; x17; x79; x61; x6d; x6c; x3a; x22; x63; x6f; x6c; x6c;
  x61; x74; x65; x72; x61; x6c; x5f; x6d; x65; x74; x61; x73; x22; x52; x0f; x63;
  x6f; x6c; x6c; x61; x74; x65; x72; x61; x6c; x4d; x65; x74; x61; x73; x12; x4d;
  x0a; x08; x68; x61; x6c; x5f; x6d; x65; x74; x61; x18; x04; x20; x01; x28; x0b;
  x32; x19; x2e; x68; x61; x6c; x62; x6f; x72; x6e; x63; x74; x66; x2e; x68; x61;
  x6c; x2e; x54; x6f; x6b; x65; x6e; x4d; x65; x74; x61; x42; x17; xc8; xde; x1f;
  x00; xf2; xde; x1f; x0f; x79; x61; x6d; x6c; x3a; x22; x68; x61; x6c; x5f; x6d;
  x65; x74; x61; x22; x52; x07; x68; x61; x6c; x4d; x65; x74; x61; x3a; x20; xe8;
  xa0; x1f; x01; x8a; xe7; xb0; x2a; x17; x68; x61; x6c; x62; x6f; x72; x6e; x63;
  x74; x66; x2f; x78; x2f; x68; x61; x6c; x2f; x50; x61; x72; x61; x6d; x73; x22;
  xa4; x01; x0a; x09; x54; x6f; x6b; x65; x6e; x4d; x65; x74; x61; x12; x26; x0a;
  x05; x64; x65; x6e; x6f; x6d; x18; x01; x20; x01; x28; x09; x42; x10; xf2; xde;
  x1f; x0c; x79; x61; x6d; x6c; x3a; x22; x64; x65; x6e; x6f; x6d; x22; x52; x05;
  x64; x65; x6e; x6f; x6d; x12; x2f; x0a; x08; x64; x65; x63; x69; x6d; x61; x6c;
  x73; x18; x02; x20; x01; x28; x0d; x42; x13; xf2; xde; x1f; x0f; x79; x61; x6d;
  x6c; x3a; x22; x64; x65; x63; x69; x6d; x61; x6c; x73; x22; x52; x08; x64; x65;
  x63; x69; x6d; x61; x6c; x73; x12; x38; x0a; x0b; x64; x65; x73; x63; x72; x69;
  x70; x74; x69; x6f; x6e; x18; x03; x20; x01; x28; x09; x42; x16; xf2; xde; x1f;
  x12; x79; x61; x6d; x6c; x3a; x22; x64; x65; x73; x63; x72; x69; x70; x74; x69;
  x6f; x6e; x22; x52; x0b; x64; x65; x73; x63; x72; x69; x70; x74; x69; x6f; x6e;
  x3a; x04; xe8; xa0; x1f; x01; x42; x99; x01; x0a; x12; x63; x6f; x6d; x2e; x68;
  x61; x6c; x62; x6f; x72; x6e; x63; x74; x66; x2e; x68; x61; x6c; x42; x0b; x50;
  x61; x72; x61; x6d; x73; x50; x72; x6f; x74; x6f; x50; x01; x5a; x1d; x48; x61;
  x6c; x62; x6f; x72; x6e; x43; x54; x46; x2f; x61; x70; x69; x2f; x68; x61; x6c;
  x62; x6f; x72; x6e; x63; x74; x66; x2f; x68; x61; x6c; xa2; x02; x03; x48; x48;
  x58; xaa; x02; x0e; x48; x61; x6c; x62; x6f; x72; x6e; x63; x74; x66; x2e; x48;
  x61; x6c; xca; x02; x0e; x48; x61; x6c; x62; x6f; x72; x6e; x63; x74; x66; x5c;
  x48; x61; x6c; xe2; x02; x1a; x48; x61; x6c; x62; x6f; x72; x6e; x63; x74; x66;
  x5c; x48; x61; x6c; x5c; x47; x50; x42; x4d; x65; x74; x61; x64; x61; x74; x61;
  xea; x02; x0f; x48; x61; x6c; x62; x6f; x72; x6e; x63; x74; x66; x3a; x3a; x48;
  x61; x6c; x62; x06; x70; x72; x6f; x74; x6f; x33].

Definition file_params_goTypes : list ProtoMessage := [PParams None; PTokenMeta None; PDuration None].

Definition file_params_depIdxs : list Z := [2; 1; 1; 3; 3; 3; 3; 0].

Definition file_params_builder : TypeBuilder :=
  MkTypeBuilder file_params_rawDesc 0 2 0 0 file_params_goTypes file_params_depIdxs.

(** The descriptor is the .proto file, and the tables are what the builder
    expects. *)
Lemma file_params_parse : parse_file file_params_rawDesc = Some params_schema.
Proof. vm_compute. reflexivity. Qed.

Lemma file_params_tables : tables_ok file_params_builder params_schema = true.
Proof. vm_compute. reflexivity. Qed.

Section file_params_vars.
Context `{D : ProtoDesc}.

Definition File_params : FileDescriptor := Build file_params_builder.

(** The package variables, and their initialisation. *)
Definition file_params_vars : FileVars D :=
  MkFileVars None (Some file_params_rawDesc) (Some file_params_goTypes) (Some file_params_depIdxs) (replicate 2 None).
Definition file_params_exporters : list (ProtoMessage -> Z -> res (option exported)) :=
  [exporter as_Params; exporter as_TokenMeta].
Definition file_params_init (unsafe : bool) (st : FileVars D) : FileVars D :=
  match File st with
  | Some _ => st
  | None => build_file unsafe file_params_exporters 0 2 0 0 st
  end.

(** Initialising twice builds the file once; the file is that of the builder. *)
Lemma file_params_init_twice unsafe st : file_params_init unsafe (file_params_init unsafe st) = file_params_init unsafe st.
Proof. unfold file_params_init. destruct (File st) eqn:E; [now rewrite E | reflexivity]. Qed.

Lemma file_params_init_File unsafe : File (file_params_init unsafe file_params_vars) = Some File_params.
Proof. reflexivity. Qed.

Definition file_params_gzip : GzipVars := MkGzipVars false file_params_rawDesc.
Definition file_params_rawDescGZIP : GzipVars -> bytes * GzipVars := rawDescGZIP.
Definition apiParams_Descriptor (st : GzipVars) : bytes * list Z * GzipVars :=
  let '(d, st) := file_params_rawDescGZIP st in (d, [0], st).
Definition apiTokenMeta_Descriptor (st : GzipVars) : bytes * list Z * GzipVars :=
  let '(d, st) := file_params_rawDescGZIP st in (d, [1], st).
End file_params_vars.

(** ** [TokenMeta] *)

Definition apiTokenMeta_Reset (x : ptr apiTokenMeta) : res (ptr apiTokenMeta) := _ ← deref x; Ok (Some apiTokenMeta_zero).
Definition apiTokenMeta_GetDenom (x : ptr apiTokenMeta) : gostring :=
  match x with Some x => apiTokenMeta_Denom x | None => [] end.
Definition apiTokenMeta_GetDecimals (x : ptr apiTokenMeta) : Z :=
  match x with Some x => apiTokenMeta_Decimals x | None => 0 end.
Definition apiTokenMeta_GetDescription (x : ptr apiTokenMeta) : gostring :=
  match x with Some x => apiTokenMeta_Description x | None => [] end.

Section fast_TokenMeta_defs.
Context `{R : ProtoRuntime} `{D : ProtoDesc}.

(** *** Descriptors *)

Definition md_TokenMeta : MessageDescriptor := Messages_ByName File_params "TokenMeta".
Definition fd_TokenMeta_denom : FieldDescriptor := Fields_ByName md_TokenMeta "denom".
Definition fd_TokenMeta_decimals : FieldDescriptor := Fields_ByName md_TokenMeta "decimals".
Definition fd_TokenMeta_description : FieldDescriptor := Fields_ByName md_TokenMeta "description".

(** *** Reflection *)

Definition fast_TokenMeta_ProtoReflect (x : ptr apiTokenMeta) : ProtoMessage := PTokenMeta x.
Definition fast_TokenMeta_messageType_Zero : ProtoMessage := PTokenMeta None.
Definition fast_TokenMeta_messageType_New : ProtoMessage := PTokenMeta (Some apiTokenMeta_zero).
Definition fast_TokenMeta_messageType_Descriptor : MessageDescriptor := md_TokenMeta.
Definition fast_TokenMeta_Descriptor (x : ptr apiTokenMeta) : MessageDescriptor := md_TokenMeta.
Definition fast_TokenMeta_New (x : ptr apiTokenMeta) : ProtoMessage := PTokenMeta (Some apiTokenMeta_zero).
Definition fast_TokenMeta_Interface (x : ptr apiTokenMeta) : ProtoMessage := PTokenMeta x.

Definition fast_TokenMeta_Range {St} (x : ptr apiTokenMeta) (f : FieldDescriptor -> Value -> St -> bool * St) (s : St) : res St :=
  x ← deref x;
  range_field (nonempty (apiTokenMeta_Denom x)) fd_TokenMeta_denom (VString (apiTokenMeta_Denom x)) f (
  range_field (negb (apiTokenMeta_Decimals x =? 0)) fd_TokenMeta_decimals (VUint32 (apiTokenMeta_Decimals x)) f (
  range_field (nonempty (apiTokenMeta_Description x)) fd_TokenMeta_description (VString (apiTokenMeta_Description x)) f (
  Ok))) s.

Definition fast_TokenMeta_Has (x : ptr apiTokenMeta) (fd : FieldDescriptor) : res bool :=
  switch (FullName fd) [
    ("halbornctf.hal.TokenMeta.denom", x ← deref x; Ok (nonempty (apiTokenMeta_Denom x)));
    ("halbornctf.hal.TokenMeta.decimals", x ← deref x; Ok (negb (apiTokenMeta_Decimals x =? 0)));
    ("halbornctf.hal.TokenMeta.description", x ← deref x; Ok (nonempty (apiTokenMeta_Description x)))
  ] (no_field "halbornctf.hal.TokenMeta" fd).

Definition fast_TokenMeta_Clear (x : ptr apiTokenMeta) (fd : FieldDescriptor) : res (ptr apiTokenMeta) :=
  switch (FullName fd) [
    ("halbornctf.hal.TokenMeta.denom", x ← deref x; Ok (Some (MkapiTokenMeta (apiTokenMeta_unknownFields x) [] (apiTokenMeta_Decimals x) (apiTokenMeta_Description x))));
    ("halbornctf.hal.TokenMeta.decimals", x ← deref x; Ok (Some (MkapiTokenMeta (apiTokenMeta_unknownFields x) (apiTokenMeta_Denom x) 0 (apiTokenMeta_Description x))));
    ("halbornctf.hal.TokenMeta.description", x ← deref x; Ok (Some (MkapiTokenMeta (apiTokenMeta_unknownFields x) (apiTokenMeta_Denom x) (apiTokenMeta_Decimals x) [])))
  ] (no_field "halbornctf.hal.TokenMeta" fd).

Definition fast_TokenMeta_Get (x : ptr apiTokenMeta) (fd : FieldDescriptor) : res Value :=
  switch (FullName fd) [
    ("halbornctf.hal.TokenMeta.denom", x ← deref x; Ok (VString (apiTokenMeta_Denom x)));
    ("halbornctf.hal.TokenMeta.decimals", x ← deref x; Ok (VUint32 (apiTokenMeta_Decimals x)));
    ("halbornctf.hal.TokenMeta.description", x ← deref x; Ok (VString (apiTokenMeta_Description x)))
  ] (no_field "halbornctf.hal.TokenMeta" fd).

Definition fast_TokenMeta_Set (x : ptr apiTokenMeta) (fd : FieldDescriptor) (value : Value) : res (ptr apiTokenMeta) :=
  switch (FullName fd) [
    ("halbornctf.hal.TokenMeta.denom", v ← Value_string value; x ← deref x; Ok (Some (MkapiTokenMeta (apiTokenMeta_unknownFields x) v (apiTokenMeta_Decimals x) (apiTokenMeta_Description x))));
    ("halbornctf.hal.TokenMeta.decimals", v ← Value_Uint value; x ← deref x; Ok (Some (MkapiTokenMeta (apiTokenMeta_unknownFields x) (apiTokenMeta_Denom x) (u32 v) (apiTokenMeta_Description x))));
    ("halbornctf.hal.TokenMeta.description", v ← Value_string value; x ← deref x; Ok (Some (MkapiTokenMeta (apiTokenMeta_unknownFields x) (apiTokenMeta_Denom x) (apiTokenMeta_Decimals x) v)))
  ] (no_field "halbornctf.hal.TokenMeta" fd).

Definition fast_TokenMeta_Mutable (x : ptr apiTokenMeta) (fd : FieldDescriptor) : res (ptr apiTokenMeta * Value) :=
  switch (FullName fd) [
    ("halbornctf.hal.TokenMeta.denom", not_mutable "denom" "halbornctf.hal.TokenMeta");
    ("halbornctf.hal.TokenMeta.decimals", not_mutable "decimals" "halbornctf.hal.TokenMeta");
    ("halbornctf.hal.TokenMeta.description", not_mutable "description" "halbornctf.hal.TokenMeta")
  ] (no_field "halbornctf.hal.TokenMeta" fd).

Definition fast_TokenMeta_NewField (x : ptr apiTokenMeta) (fd : FieldDescriptor) : res Value :=
  switch (FullName fd) [
    ("halbornctf.hal.TokenMeta.denom", Ok (VString []));
    ("halbornctf.hal.TokenMeta.decimals", Ok (VUint32 0));
    ("halbornctf.hal.TokenMeta.description", Ok (VString []))
  ] (no_field "halbornctf.hal.TokenMeta" fd).

Definition fast_TokenMeta_WhichOneof (x : ptr apiTokenMeta) (d : string) : res FieldDescriptor := not_oneof "halbornctf.hal.TokenMeta" d.
Definition fast_TokenMeta_GetUnknown (x : ptr apiTokenMeta) : res (option bytes) := x ← deref x; Ok (apiTokenMeta_unknownFields x).
Definition apiTokenMeta_with_unknown (u : option bytes) (x : apiTokenMeta) : apiTokenMeta :=
  MkapiTokenMeta u (apiTokenMeta_Denom x) (apiTokenMeta_Decimals x) (apiTokenMeta_Description x).
Definition fast_TokenMeta_SetUnknown (x : ptr apiTokenMeta) (fields : option bytes) : res (ptr apiTokenMeta) :=
  x ← deref x; Ok (Some (apiTokenMeta_with_unknown fields x)).
Definition fast_TokenMeta_IsValid (x : ptr apiTokenMeta) : bool := is_set x.

Definition fast_TokenMeta : Reflection apiTokenMeta := MkReflection fast_TokenMeta_Interface fast_TokenMeta_messageType_New fast_TokenMeta_messageType_Zero
  (@fast_TokenMeta_Range) fast_TokenMeta_Has fast_TokenMeta_Clear fast_TokenMeta_Get fast_TokenMeta_Set fast_TokenMeta_Mutable fast_TokenMeta_NewField fast_TokenMeta_WhichOneof
  fast_TokenMeta_GetUnknown fast_TokenMeta_SetUnknown fast_TokenMeta_IsValid.

(** *** The fast path *)

Definition fast_TokenMeta_size (input : ProtoMessage) : res Z :=
  x ← as_TokenMeta input;
  match x with
  | None => Ok 0
  | Some x =>
      Ok (size_string (apiTokenMeta_Denom x) + size_scalar (apiTokenMeta_Decimals x) + size_string (apiTokenMeta_Description x) + size_unknown (apiTokenMeta_unknownFields x))
  end.

Definition fast_TokenMeta_writer (x : apiTokenMeta) : writer :=
  punknown (apiTokenMeta_unknownFields x) >>
  pstring 0x1a (apiTokenMeta_Description x) >>
  pscalar 0x10 (apiTokenMeta_Decimals x) >>
  pstring 0xa (apiTokenMeta_Denom x).

Definition fast_TokenMeta_marshal (buf : option bytes) (input : ProtoMessage) : res (option bytes) :=
  x ← as_TokenMeta input;
  match x with
  | None => Ok buf
  | Some x => fill_buf (options_Size fast_TokenMeta_size (PTokenMeta (Some x))) (fast_TokenMeta_writer x) buf
  end.

Definition fast_TokenMeta_field (discard : bool) (x : apiTokenMeta) (fieldNum wireType : Z) (d : bytes) (iNdEx : Z)
    : option (res (apiTokenMeta * Z)) :=
  if fieldNum =? 1 then Some (
    '(s, j) ← read_string PbRuntime "Denom" wireType d iNdEx;
    Ok (MkapiTokenMeta (apiTokenMeta_unknownFields x) s (apiTokenMeta_Decimals x) (apiTokenMeta_Description x), j))
  else if fieldNum =? 2 then Some (
    '(v, j) ← read_scalar PbRuntime u32 "Decimals" wireType d iNdEx;
    Ok (MkapiTokenMeta (apiTokenMeta_unknownFields x) (apiTokenMeta_Denom x) v (apiTokenMeta_Description x), j))
  else if fieldNum =? 3 then Some (
    '(s, j) ← read_string PbRuntime "Description" wireType d iNdEx;
    Ok (MkapiTokenMeta (apiTokenMeta_unknownFields x) (apiTokenMeta_Denom x) (apiTokenMeta_Decimals x) s, j))
  else None.

Definition fast_TokenMeta_add_unknown (s : bytes) (x : apiTokenMeta) : apiTokenMeta :=
  apiTokenMeta_with_unknown (append_unknown (apiTokenMeta_unknownFields x) s) x.
Definition fast_TokenMeta_unmarshal (discard : bool) (d : bytes) (input : ProtoMessage) : res ProtoMessage :=
  x ← as_TokenMeta input;
  match x with
  | None => Ok input
  | Some x =>
      x ← Unmarshal_with PbRuntime "TokenMeta" (keep_unknown fast_TokenMeta_add_unknown discard) (fast_TokenMeta_field discard) x d;
      Ok (PTokenMeta (Some x))
  end.

Definition fast_TokenMeta_methods : Methods := MkMethods fast_TokenMeta_size fast_TokenMeta_marshal fast_TokenMeta_unmarshal.
End fast_TokenMeta_defs.

(** *** Specification *)

Definition apiTokenMeta_kinds : list (string * kind) := [
  ("halbornctf.hal.TokenMeta.denom", KString);
  ("halbornctf.hal.TokenMeta.decimals", KUint32);
  ("halbornctf.hal.TokenMeta.description", KString)].

Definition apiTokenMeta_view (x : apiTokenMeta) : list (string * Value) := [
  ("halbornctf.hal.TokenMeta.denom", VString (apiTokenMeta_Denom x));
  ("halbornctf.hal.TokenMeta.decimals", VUint32 (apiTokenMeta_Decimals x));
  ("halbornctf.hal.TokenMeta.description", VString (apiTokenMeta_Description x))].

Definition apiTokenMeta_abs `{D : ProtoDesc} : Abstraction apiTokenMeta := MkAbstraction PTokenMeta apiTokenMeta_zero apiTokenMeta_kinds
  [fd_TokenMeta_denom; fd_TokenMeta_decimals; fd_TokenMeta_description] apiTokenMeta_view apiTokenMeta_unknownFields.

Section fast_TokenMeta_lemmas.
Context `{ProtoRuntimeOk} `{ProtoDescOk}.

Definition apiTokenMeta_enc (x : apiTokenMeta) : bytes :=
  enc_string 0xa (apiTokenMeta_Denom x) ++
  enc_scalar 0x10 (apiTokenMeta_Decimals x) ++
  enc_string 0x1a (apiTokenMeta_Description x) ++
  default [] (apiTokenMeta_unknownFields x).

Definition apiTokenMeta_wf (dis : bool) (x : apiTokenMeta) : Prop :=
  0 <= apiTokenMeta_Decimals x < 2 ^ 32 /\
  unknown_ok [1; 2; 3] dis (apiTokenMeta_unknownFields x).

Lemma fast_TokenMeta_size_enc dis x : apiTokenMeta_wf dis x -> len (apiTokenMeta_enc x) < 2 ^ 63 ->
  fast_TokenMeta_size (PTokenMeta (Some x)) = Ok (len (apiTokenMeta_enc x)).
Proof. solve_size apiTokenMeta_wf apiTokenMeta_enc fast_TokenMeta_size as_TokenMeta. Qed.

Lemma fast_TokenMeta_writes dis x : apiTokenMeta_wf dis x -> len (apiTokenMeta_enc x) < 2 ^ 63 -> writes (fast_TokenMeta_writer x) (apiTokenMeta_enc x).
Proof. solve_pwrites apiTokenMeta_wf apiTokenMeta_enc fast_TokenMeta_writer. Qed.

Lemma fast_TokenMeta_field_ok dis : field_ok (fast_TokenMeta_field dis).
Proof. intros x fn wt d i Hi Hd. unfold fast_TokenMeta_field. solve_pfield_ok. Qed.

Lemma fast_TokenMeta_reads dis x : apiTokenMeta_wf dis x -> len (apiTokenMeta_enc x) < 2 ^ 63 ->
  reads PbRuntime "TokenMeta" (keep_unknown fast_TokenMeta_add_unknown dis) (fast_TokenMeta_field dis) apiTokenMeta_zero (apiTokenMeta_enc x) x.
Proof.
  unfold apiTokenMeta_wf. intros (W0 & W1) L. pose proof (fast_TokenMeta_field_ok dis).
  unfold apiTokenMeta_enc in *. enc_bounds. eapply reads_conv.
  - 
    eapply reads_app; [eapply reads_string; reads_side|].
    eapply reads_app; [eapply reads_scalar with (W := u32); try reads_side; now apply u32_u64|].
    eapply reads_app; [eapply reads_string; reads_side|].
    apply reads_unknown_fields with (known := [1; 2; 3]) (getu := apiTokenMeta_unknownFields) (setu := apiTokenMeta_with_unknown);
      [assumption | other_fields fast_TokenMeta_field | reflexivity | reflexivity | reflexivity | now intros [] | assumption | reflexivity].
  - now destruct x.
Qed.

Lemma fast_TokenMeta_codec : codec_ok PTokenMeta apiTokenMeta_zero apiTokenMeta_wf apiTokenMeta_enc fast_TokenMeta_methods.
Proof.
  solve_codec fast_TokenMeta_size_enc fast_TokenMeta_writes fast_TokenMeta_field_ok fast_TokenMeta_reads.
Qed.

Lemma fast_TokenMeta_ok : ReflectionOk fast_TokenMeta apiTokenMeta_abs.
Proof. solve_reflection file_params_parse file_params_tables. Qed.
End fast_TokenMeta_lemmas.
#[export] Hint Resolve fast_TokenMeta_codec : pulsar.

(** ** [Params] *)

Definition apiParams_Reset (x : ptr apiParams) : res (ptr apiParams) := _ ← deref x; Ok (Some apiParams_zero).
Definition apiParams_GetRedeemDur (x : ptr apiParams) : ptr apiDuration :=
  match x with Some x => apiParams_RedeemDur x | None => None end.
Definition apiParams_GetMaxRedeemEntries (x : ptr apiParams) : Z :=
  match x with Some x => apiParams_MaxRedeemEntries x | None => 0 end.
Definition apiParams_GetCollateralMetas (x : ptr apiParams) : ptr apiTokenMeta :=
  match x with Some x => apiParams_CollateralMetas x | None => None end.
Definition apiParams_GetHalMeta (x : ptr apiParams) : ptr apiTokenMeta :=
  match x with Some x => apiParams_HalMeta x | None => None end.

Section fast_Params_defs.
Context `{R : ProtoRuntime} `{D : ProtoDesc}.

(** *** Descriptors *)

Definition md_Params : MessageDescriptor := Messages_ByName File_params "Params".
Definition fd_Params_redeem_dur : FieldDescriptor := Fields_ByName md_Params "redeem_dur".
Definition fd_Params_max_redeem_entries : FieldDescriptor := Fields_ByName md_Params "max_redeem_entries".
Definition fd_Params_collateral_metas : FieldDescriptor := Fields_ByName md_Params "collateral_metas".
Definition fd_Params_hal_meta : FieldDescriptor := Fields_ByName md_Params "hal_meta".

(** *** Reflection *)

Definition fast_Params_ProtoReflect (x : ptr apiParams) : ProtoMessage := PParams x.
Definition fast_Params_messageType_Zero : ProtoMessage := PParams None.
Definition fast_Params_messageType_New : ProtoMessage := PParams (Some apiParams_zero).
Definition fast_Params_messageType_Descriptor : MessageDescriptor := md_Params.
Definition fast_Params_Descriptor (x : ptr apiParams) : MessageDescriptor := md_Params.
Definition fast_Params_New (x : ptr apiParams) : ProtoMessage := PParams (Some apiParams_zero).
Definition fast_Params_Interface (x : ptr apiParams) : ProtoMessage := PParams x.

Definition fast_Params_Range {St} (x : ptr apiParams) (f : FieldDescriptor -> Value -> St -> bool * St) (s : St) : res St :=
  x ← deref x;
  range_field (is_set (apiParams_RedeemDur x)) fd_Params_redeem_dur (VMessage (PDuration (apiParams_RedeemDur x))) f (
  range_field (negb (apiParams_MaxRedeemEntries x =? 0)) fd_Params_max_redeem_entries (VInt32 (apiParams_MaxRedeemEntries x)) f (
  range_field (is_set (apiParams_CollateralMetas x)) fd_Params_collateral_metas (VMessage (PTokenMeta (apiParams_CollateralMetas x))) f (
  range_field (is_set (apiParams_HalMeta x)) fd_Params_hal_meta (VMessage (PTokenMeta (apiParams_HalMeta x))) f (
  Ok)))) s.

Definition fast_Params_Has (x : ptr apiParams) (fd : FieldDescriptor) : res bool :=
  switch (FullName fd) [
    ("halbornctf.hal.Params.redeem_dur", x ← deref x; Ok (is_set (apiParams_RedeemDur x)));
    ("halbornctf.hal.Params.max_redeem_entries", x ← deref x; Ok (negb (apiParams_MaxRedeemEntries x =? 0)));
    ("halbornctf.hal.Params.collateral_metas", x ← deref x; Ok (is_set (apiParams_CollateralMetas x)));
    ("halbornctf.hal.Params.hal_meta", x ← deref x; Ok (is_set (apiParams_HalMeta x)))
  ] (no_field "halbornctf.hal.Params" fd).

Definition fast_Params_Clear (x : ptr apiParams) (fd : FieldDescriptor) : res (ptr apiParams) :=
  switch (FullName fd) [
    ("halbornctf.hal.Params.redeem_dur", x ← deref x; Ok (Some (MkapiParams (apiParams_unknownFields x) None (apiParams_MaxRedeemEntries x) (apiParams_CollateralMetas x) (apiParams_HalMeta x))));
    ("halbornctf.hal.Params.max_redeem_entries", x ← deref x; Ok (Some (MkapiParams (apiParams_unknownFields x) (apiParams_RedeemDur x) 0 (apiParams_CollateralMetas x) (apiParams_HalMeta x))));
    ("halbornctf.hal.Params.collateral_metas", x ← deref x; Ok (Some (MkapiParams (apiParams_unknownFields x) (apiParams_RedeemDur x) (apiParams_MaxRedeemEntries x) None (apiParams_HalMeta x))));
    ("halbornctf.hal.Params.hal_meta", x ← deref x; Ok (Some (MkapiParams (apiParams_unknownFields x) (apiParams_RedeemDur x) (apiParams_MaxRedeemEntries x) (apiParams_CollateralMetas x) None)))
  ] (no_field "halbornctf.hal.Params" fd).

Definition fast_Params_Get (x : ptr apiParams) (fd : FieldDescriptor) : res Value :=
  switch (FullName fd) [
    ("halbornctf.hal.Params.redeem_dur", x ← deref x; Ok (VMessage (PDuration (apiParams_RedeemDur x))));
    ("halbornctf.hal.Params.max_redeem_entries", x ← deref x; Ok (VInt32 (apiParams_MaxRedeemEntries x)));
    ("halbornctf.hal.Params.collateral_metas", x ← deref x; Ok (VMessage (PTokenMeta (apiParams_CollateralMetas x))));
    ("halbornctf.hal.Params.hal_meta", x ← deref x; Ok (VMessage (PTokenMeta (apiParams_HalMeta x))))
  ] (no_field "halbornctf.hal.Params" fd).

Definition fast_Params_Set (x : ptr apiParams) (fd : FieldDescriptor) (value : Value) : res (ptr apiParams) :=
  switch (FullName fd) [
    ("halbornctf.hal.Params.redeem_dur", v ← Value_Message value; v ← as_Duration v; x ← deref x; Ok (Some (MkapiParams (apiParams_unknownFields x) v (apiParams_MaxRedeemEntries x) (apiParams_CollateralMetas x) (apiParams_HalMeta x))));
    ("halbornctf.hal.Params.max_redeem_entries", v ← Value_Int value; x ← deref x; Ok (Some (MkapiParams (apiParams_unknownFields x) (apiParams_RedeemDur x) (i32 v) (apiParams_CollateralMetas x) (apiParams_HalMeta x))));
    ("halbornctf.hal.Params.collateral_metas", v ← Value_Message value; v ← as_TokenMeta v; x ← deref x; Ok (Some (MkapiParams (apiParams_unknownFields x) (apiParams_RedeemDur x) (apiParams_MaxRedeemEntries x) v (apiParams_HalMeta x))));
    ("halbornctf.hal.Params.hal_meta", v ← Value_Message value; v ← as_TokenMeta v; x ← deref x; Ok (Some (MkapiParams (apiParams_unknownFields x) (apiParams_RedeemDur x) (apiParams_MaxRedeemEntries x) (apiParams_CollateralMetas x) v)))
  ] (no_field "halbornctf.hal.Params" fd).

Definition fast_Params_Mutable (x : ptr apiParams) (fd : FieldDescriptor) : res (ptr apiParams * Value) :=
  switch (FullName fd) [
    ("halbornctf.hal.Params.redeem_dur", x ← deref x;
      let x := if is_set (apiParams_RedeemDur x) then x else MkapiParams (apiParams_unknownFields x) (Some apiDuration_zero) (apiParams_MaxRedeemEntries x) (apiParams_CollateralMetas x) (apiParams_HalMeta x) in
      Ok (Some x, VMessage (PDuration (apiParams_RedeemDur x))));
    ("halbornctf.hal.Params.collateral_metas", x ← deref x;
      let x := if is_set (apiParams_CollateralMetas x) then x else MkapiParams (apiParams_unknownFields x) (apiParams_RedeemDur x) (apiParams_MaxRedeemEntries x) (Some apiTokenMeta_zero) (apiParams_HalMeta x) in
      Ok (Some x, VMessage (PTokenMeta (apiParams_CollateralMetas x))));
    ("halbornctf.hal.Params.hal_meta", x ← deref x;
      let x := if is_set (apiParams_HalMeta x) then x else MkapiParams (apiParams_unknownFields x) (apiParams_RedeemDur x) (apiParams_MaxRedeemEntries x) (apiParams_CollateralMetas x) (Some apiTokenMeta_zero) in
      Ok (Some x, VMessage (PTokenMeta (apiParams_HalMeta x))));
    ("halbornctf.hal.Params.max_redeem_entries", not_mutable "max_redeem_entries" "halbornctf.hal.Params")
  ] (no_field "halbornctf.hal.Params" fd).

Definition fast_Params_NewField (x : ptr apiParams) (fd : FieldDescriptor) : res Value :=
  switch (FullName fd) [
    ("halbornctf.hal.Params.redeem_dur", Ok (VMessage (PDuration (Some apiDuration_zero))));
    ("halbornctf.hal.Params.max_redeem_entries", Ok (VInt32 0));
    ("halbornctf.hal.Params.collateral_metas", Ok (VMessage (PTokenMeta (Some apiTokenMeta_zero))));
    ("halbornctf.hal.Params.hal_meta", Ok (VMessage (PTokenMeta (Some apiTokenMeta_zero))))
  ] (no_field "halbornctf.hal.Params" fd).

Definition fast_Params_WhichOneof (x : ptr apiParams) (d : string) : res FieldDescriptor := not_oneof "halbornctf.hal.Params" d.
Definition fast_Params_GetUnknown (x : ptr apiParams) : res (option bytes) := x ← deref x; Ok (apiParams_unknownFields x).
Definition apiParams_with_unknown (u : option bytes) (x : apiParams) : apiParams :=
  MkapiParams u (apiParams_RedeemDur x) (apiParams_MaxRedeemEntries x) (apiParams_CollateralMetas x) (apiParams_HalMeta x).
Definition fast_Params_SetUnknown (x : ptr apiParams) (fields : option bytes) : res (ptr apiParams) :=
  x ← deref x; Ok (Some (apiParams_with_unknown fields x)).
Definition fast_Params_IsValid (x : ptr apiParams) : bool := is_set x.

Definition fast_Params : Reflection apiParams := MkReflection fast_Params_Interface fast_Params_messageType_New fast_Params_messageType_Zero
  (@fast_Params_Range) fast_Params_Has fast_Params_Clear fast_Params_Get fast_Params_Set fast_Params_Mutable fast_Params_NewField fast_Params_WhichOneof
  fast_Params_GetUnknown fast_Params_SetUnknown fast_Params_IsValid.

(** *** The fast path *)

Definition fast_Params_size (input : ProtoMessage) : res Z :=
  x ← as_Params input;
  match x with
  | None => Ok 0
  | Some x =>
      l1 ← size_message PDuration Duration_methods (apiParams_RedeemDur x);
      l3 ← size_message PTokenMeta fast_TokenMeta_methods (apiParams_CollateralMetas x);
      l4 ← size_message PTokenMeta fast_TokenMeta_methods (apiParams_HalMeta x);
      Ok (l1 + size_scalar (apiParams_MaxRedeemEntries x) + l3 + l4 + size_unknown (apiParams_unknownFields x))
  end.

Definition fast_Params_writer (x : apiParams) : writer :=
  punknown (apiParams_unknownFields x) >>
  pmessage 0x22 PTokenMeta fast_TokenMeta_methods (apiParams_HalMeta x) >>
  pmessage 0x1a PTokenMeta fast_TokenMeta_methods (apiParams_CollateralMetas x) >>
  pscalar 0x10 (apiParams_MaxRedeemEntries x) >>
  pmessage 0xa PDuration Duration_methods (apiParams_RedeemDur x).

Definition fast_Params_marshal (buf : option bytes) (input : ProtoMessage) : res (option bytes) :=
  x ← as_Params input;
  match x with
  | None => Ok buf
  | Some x => fill_buf (options_Size fast_Params_size (PParams (Some x))) (fast_Params_writer x) buf
  end.

Definition fast_Params_field (discard : bool) (x : apiParams) (fieldNum wireType : Z) (d : bytes) (iNdEx : Z)
    : option (res (apiParams * Z)) :=
  if fieldNum =? 1 then Some (
    '(s, j) ← read_message PbRuntime "RedeemDur" wireType d iNdEx;
    x' ← (p ← read_into PDuration as_Duration apiDuration_zero Duration_methods discard s (apiParams_RedeemDur x);
          Ok (MkapiParams (apiParams_unknownFields x) p (apiParams_MaxRedeemEntries x) (apiParams_CollateralMetas x) (apiParams_HalMeta x)));
    Ok (x', j))
  else if fieldNum =? 2 then Some (
    '(v, j) ← read_scalar PbRuntime i32 "MaxRedeemEntries" wireType d iNdEx;
    Ok (MkapiParams (apiParams_unknownFields x) (apiParams_RedeemDur x) v (apiParams_CollateralMetas x) (apiParams_HalMeta x), j))
  else if fieldNum =? 3 then Some (
    '(s, j) ← read_message PbRuntime "CollateralMetas" wireType d iNdEx;
    x' ← (p ← read_into PTokenMeta as_TokenMeta apiTokenMeta_zero fast_TokenMeta_methods discard s (apiParams_CollateralMetas x);
          Ok (MkapiParams (apiParams_unknownFields x) (apiParams_RedeemDur x) (apiParams_MaxRedeemEntries x) p (apiParams_HalMeta x)));
    Ok (x', j))
  else if fieldNum =? 4 then Some (
    '(s, j) ← read_message PbRuntime "HalMeta" wireType d iNdEx;
    x' ← (p ← read_into PTokenMeta as_TokenMeta apiTokenMeta_zero fast_TokenMeta_methods discard s (apiParams_HalMeta x);
          Ok (MkapiParams (apiParams_unknownFields x) (apiParams_RedeemDur x) (apiParams_MaxRedeemEntries x) (apiParams_CollateralMetas x) p));
    Ok (x', j))
  else None.

Definition fast_Params_add_unknown (s : bytes) (x : apiParams) : apiParams :=
  apiParams_with_unknown (append_unknown (apiParams_unknownFields x) s) x.
Definition fast_Params_unmarshal (discard : bool) (d : bytes) (input : ProtoMessage) : res ProtoMessage :=
  x ← as_Params input;
  match x with
  | None => Ok input
  | Some x =>
      x ← Unmarshal_with PbRuntime "Params" (keep_unknown fast_Params_add_unknown discard) (fast_Params_field discard) x d;
      Ok (PParams (Some x))
  end.

Definition fast_Params_methods : Methods := MkMethods fast_Params_size fast_Params_marshal fast_Params_unmarshal.
End fast_Params_defs.

(** *** Specification *)

Definition apiParams_kinds : list (string * kind) := [
  ("halbornctf.hal.Params.redeem_dur", KMessage (PDuration None) (PDuration (Some apiDuration_zero)));
  ("halbornctf.hal.Params.max_redeem_entries", KInt32);
  ("halbornctf.hal.Params.collateral_metas", KMessage (PTokenMeta None) (PTokenMeta (Some apiTokenMeta_zero)));
  ("halbornctf.hal.Params.hal_meta", KMessage (PTokenMeta None) (PTokenMeta (Some apiTokenMeta_zero)))].

Definition apiParams_view (x : apiParams) : list (string * Value) := [
  ("halbornctf.hal.Params.redeem_dur", VMessage (PDuration (apiParams_RedeemDur x)));
  ("halbornctf.hal.Params.max_redeem_entries", VInt32 (apiParams_MaxRedeemEntries x));
  ("halbornctf.hal.Params.collateral_metas", VMessage (PTokenMeta (apiParams_CollateralMetas x)));
  ("halbornctf.hal.Params.hal_meta", VMessage (PTokenMeta (apiParams_HalMeta x)))].

Definition apiParams_abs `{D : ProtoDesc} : Abstraction apiParams := MkAbstraction PParams apiParams_zero apiParams_kinds
  [fd_Params_redeem_dur; fd_Params_max_redeem_entries; fd_Params_collateral_metas; fd_Params_hal_meta] apiParams_view apiParams_unknownFields.

Section fast_Params_lemmas.
Context `{ProtoRuntimeOk} `{ProtoDescOk}.

Definition apiParams_enc (x : apiParams) : bytes :=
  enc_ptr 0xa apiDuration_enc (apiParams_RedeemDur x) ++
  enc_scalar 0x10 (apiParams_MaxRedeemEntries x) ++
  enc_ptr 0x1a apiTokenMeta_enc (apiParams_CollateralMetas x) ++
  enc_ptr 0x22 apiTokenMeta_enc (apiParams_HalMeta x) ++
  default [] (apiParams_unknownFields x).

Definition apiParams_wf (dis : bool) (x : apiParams) : Prop :=
  wf_ptr apiDuration_wf dis (apiParams_RedeemDur x) /\
  - 2 ^ 31 <= apiParams_MaxRedeemEntries x < 2 ^ 31 /\
  wf_ptr apiTokenMeta_wf dis (apiParams_CollateralMetas x) /\
  wf_ptr apiTokenMeta_wf dis (apiParams_HalMeta x) /\
  unknown_ok [1; 2; 3; 4] dis (apiParams_unknownFields x).

Lemma fast_Params_size_enc dis x : apiParams_wf dis x -> len (apiParams_enc x) < 2 ^ 63 ->
  fast_Params_size (PParams (Some x)) = Ok (len (apiParams_enc x)).
Proof. solve_size apiParams_wf apiParams_enc fast_Params_size as_Params. Qed.

Lemma fast_Params_writes dis x : apiParams_wf dis x -> len (apiParams_enc x) < 2 ^ 63 -> writes (fast_Params_writer x) (apiParams_enc x).
Proof. solve_pwrites apiParams_wf apiParams_enc fast_Params_writer. Qed.

Lemma fast_Params_field_ok dis : field_ok (fast_Params_field dis).
Proof. intros x fn wt d i Hi Hd. unfold fast_Params_field. solve_pfield_ok. Qed.

Lemma fast_Params_reads dis x : apiParams_wf dis x -> len (apiParams_enc x) < 2 ^ 63 ->
  reads PbRuntime "Params" (keep_unknown fast_Params_add_unknown dis) (fast_Params_field dis) apiParams_zero (apiParams_enc x) x.
Proof.
  unfold apiParams_wf. intros (W0 & W1 & W2 & W3 & W4) L. pose proof (fast_Params_field_ok dis).
  unfold apiParams_enc in *. enc_bounds. eapply reads_conv.
  - 
    eapply reads_app; [reads_pointer|].
    eapply reads_app; [eapply reads_scalar with (W := i32); try reads_side; now apply i32_u64|].
    eapply reads_app; [reads_pointer|].
    eapply reads_app; [reads_pointer|].
    apply reads_unknown_fields with (known := [1; 2; 3; 4]) (getu := apiParams_unknownFields) (setu := apiParams_with_unknown);
      [assumption | other_fields fast_Params_field | reflexivity | reflexivity | reflexivity | now intros [] | assumption | reflexivity].
  - now destruct x.
Qed.

Lemma fast_Params_codec : codec_ok PParams apiParams_zero apiParams_wf apiParams_enc fast_Params_methods.
Proof.
  solve_codec fast_Params_size_enc fast_Params_writes fast_Params_field_ok fast_Params_reads.
Qed.

Lemma fast_Params_ok : ReflectionOk fast_Params apiParams_abs.
Proof. solve_reflection file_params_parse file_params_tables. Qed.
End fast_Params_lemmas.
#[export] Hint Resolve fast_Params_codec : pulsar.
