(* ===== verification/PulsarGenesis.v ===== *)
(** * [api/halbornctf/hal/genesis.pulsar.go]: the genesis state

    The file descriptor with its tables, the accessors, the reflection methods
    and the fast path of each message, with the proof that the fast path is a
    correct codec. *)

From S2P Require Import Prelude Wire PulsarTypes Pulsar PulsarLaws PulsarDesc PulsarSchema PulsarReflect PulsarParams.

(** ** The file descriptor *)

Definition file_genesis_rawDesc : bytes := [
  x0a; x1c; x68; x61; x6c; x62; x6f; x72; x6e; x63; x74; x66; x2f; x68; x61; x6c;
  x2f; x67; x65; x6e; x65; x73; x69; x73; x2e; x70; x72; x6f; x74; x6f; x12; x0e;
  x68; x61; x6c; x62; x6f; x72; x6e; x63; x74; x66; x2e; x68; x61; x6c; x1a; x11;
  x61; x6d; x69; x6e; x6f; x2f; x61; x6d; x69; x6e; x6f; x2e; x70; x72; x6f; x74;
  x6f; x1a; x14; x67; x6f; x67; x6f; x70; x72; x6f; x74; x6f; x2f; x67; x6f; x67;
  x6f; x2e; x70; x72; x6f; x74; x6f; x1a; x1b; x68; x61; x6c; x62; x6f; x72; x6e;
  x63; x74; x66; x2f; x68; x61; x6c; x2f; x70; x61; x72; x61; x6d; x73; x2e; x70;
  x72; x6f; x74; x6f; x22; x49; x0a; x0c; x47; x65; x6e; x65; x73; x69; x73; x53;
  x74; x61; x74; x65; x12; x39; x0a; x06; x70; x61; x72; x61; x6d; x73; x18; x01;
  x20; x01; x28; x0b; x32; x16; x2e; x68; x61; x6c; x62; x6f; x72; x6e; x63; x74;
  x66; x2e; x68; x61; x6c; x2e; x50; x61; x72; x61; x6d; x73; x42; x09; xc8; xde;
  x1f; x00; xa8; xe7; xb0; x2a; x01; x52; x06; x70; x61; x72; x61; x6d; x73; x42;
  x9a; x01; x0a; x12; x63; x6f; x6d; x2e; x68; x61; x6c; x62; x6f; x72; x6e; x63;
  x74; x66; x2e; x68; x61; x6c; x42; x0c; x47; x65; x6e; x65; x73; x69; x73; x50;
  x72; x6f; x74; x6f; x50; x01; x5a; x1d; x48; x61; x6c; x62; x6f; x72; x6e; x43;
  x54; x46; x2f; x61; x70; x69; x2f; x68; x61; x6c; x62; x6f; x72; x6e; x63; x74;
  x66; x2f; x68; x61; x6c; xa2; x02; x03; x48; x48; x58; xaa; x02; x0e; x48; x61;
  x6c; x62; x6f; x72; x6e; x63; x74; x66; x2e; x48; x61; x6c; xca; x02; x0e; x48;
  x61; x6c; x62; x6f; x72; x6e; x63; x74; x66; x5c; x48; x61; x6c; xe2; x02; x1a;
  x48; x61; x6c; x62; x6f; x72; x6e; x63; x74; x66; x5c; x48; x61; x6c; x5c; x47;
  x50; x42; x4d; x65; x74; x61; x64; x61; x74; x61; xea; x02; x0f; x48; x61; x6c;
  x62; x6f; x72; x6e; x63; x74; x66; x3a; x3a; x48; x61; x6c; x62; x06; x70; x72;
  x6f; x74; x6f; x33].

Definition file_genesis_goTypes : list ProtoMessage := [PGenesisState None; PParams None].

Definition file_genesis_depIdxs : list Z := [1; 1; 1; 1; 1; 0].

Definition file_genesis_builder : TypeBuilder :=
  MkTypeBuilder file_genesis_rawDesc 0 1 0 0 file_genesis_goTypes file_genesis_depIdxs.

(** The descriptor is the .proto file, and the tables are what the builder
    expects. *)
Lemma file_genesis_parse : parse_file file_genesis_rawDesc = Some genesis_schema.
Proof. vm_compute. reflexivity. Qed.

Lemma file_genesis_tables : tables_ok file_genesis_builder genesis_schema = true.
Proof. vm_compute. reflexivity. Qed.

Section file_genesis_vars.
Context `{D : ProtoDesc}.

Definition File_genesis : FileDescriptor := Build file_genesis_builder.

(** The package variables, and their initialisation. *)
Definition file_genesis_vars : FileVars D :=
  MkFileVars None (Some file_genesis_rawDesc) (Some file_genesis_goTypes) (Some file_genesis_depIdxs) (replicate 1 None).
Definition file_genesis_exporters : list (ProtoMessage -> Z -> res (option exported)) :=
  [exporter as_GenesisState].
Definition file_genesis_init (unsafe : bool) (params st : FileVars D) : FileVars D * FileVars D :=
  match File st with
  | Some _ => (params, st)
  | None => (file_params_init unsafe params, build_file unsafe file_genesis_exporters 0 1 0 0 st)
  end.

(** Initialising twice builds the file once; the file is that of the builder. *)
Lemma file_genesis_init_twice unsafe params st :
  let '(params', st') := file_genesis_init unsafe params st in file_genesis_init unsafe params' st' = (params', st').
Proof. unfold file_genesis_init. destruct (File st) eqn:E; [now rewrite E | reflexivity]. Qed.

Lemma file_genesis_init_File unsafe params : File (file_genesis_init unsafe params file_genesis_vars).2 = Some File_genesis.
Proof. reflexivity. Qed.

Definition file_genesis_gzip : GzipVars := MkGzipVars false file_genesis_rawDesc.
Definition file_genesis_rawDescGZIP : GzipVars -> bytes * GzipVars := rawDescGZIP.
Definition apiGenesisState_Descriptor (st : GzipVars) : bytes * list Z * GzipVars :=
  let '(d, st) := file_genesis_rawDescGZIP st in (d, [0], st).
End file_genesis_vars.

(** ** [GenesisState] *)

Definition apiGenesisState_Reset (x : ptr apiGenesisState) : res (ptr apiGenesisState) := _ ← deref x; Ok (Some apiGenesisState_zero).
Definition apiGenesisState_GetParams (x : ptr apiGenesisState) : ptr apiParams :=
  match x with Some x => apiGenesisState_Params x | None => None end.

Section fast_GenesisState_defs.
Context `{R : ProtoRuntime} `{D : ProtoDesc}.

(** *** Descriptors *)

Definition md_GenesisState : MessageDescriptor := Messages_ByName File_genesis "GenesisState".
Definition fd_GenesisState_params : FieldDescriptor := Fields_ByName md_GenesisState "params".

(** *** Reflection *)

Definition fast_GenesisState_ProtoReflect (x : ptr apiGenesisState) : ProtoMessage := PGenesisState x.
Definition fast_GenesisState_messageType_Zero : ProtoMessage := PGenesisState None.
Definition fast_GenesisState_messageType_New : ProtoMessage := PGenesisState (Some apiGenesisState_zero).
Definition fast_GenesisState_messageType_Descriptor : MessageDescriptor := md_GenesisState.
Definition fast_GenesisState_Descriptor (x : ptr apiGenesisState) : MessageDescriptor := md_GenesisState.
Definition fast_GenesisState_New (x : ptr apiGenesisState) : ProtoMessage := PGenesisState (Some apiGenesisState_zero).
Definition fast_GenesisState_Interface (x : ptr apiGenesisState) : ProtoMessage := PGenesisState x.

Definition fast_GenesisState_Range {St} (x : ptr apiGenesisState) (f : FieldDescriptor -> Value -> St -> bool * St) (s : St) : res St :=
  x ← deref x;
  range_field (is_set (apiGenesisState_Params x)) fd_GenesisState_params (VMessage (PParams (apiGenesisState_Params x))) f (
  Ok) s.

Definition fast_GenesisState_Has (x : ptr apiGenesisState) (fd : FieldDescriptor) : res bool :=
  switch (FullName fd) [
    ("halbornctf.hal.GenesisState.params", x ← deref x; Ok (is_set (apiGenesisState_Params x)))
  ] (no_field "halbornctf.hal.GenesisState" fd).

Definition fast_GenesisState_Clear (x : ptr apiGenesisState) (fd : FieldDescriptor) : res (ptr apiGenesisState) :=
  switch (FullName fd) [
    ("halbornctf.hal.GenesisState.params", x ← deref x; Ok (Some (MkapiGenesisState (apiGenesisState_unknownFields x) None)))
  ] (no_field "halbornctf.hal.GenesisState" fd).

Definition fast_GenesisState_Get (x : ptr apiGenesisState) (fd : FieldDescriptor) : res Value :=
  switch (FullName fd) [
    ("halbornctf.hal.GenesisState.params", x ← deref x; Ok (VMessage (PParams (apiGenesisState_Params x))))
  ] (no_field "halbornctf.hal.GenesisState" fd).

Definition fast_GenesisState_Set (x : ptr apiGenesisState) (fd : FieldDescriptor) (value : Value) : res (ptr apiGenesisState) :=
  switch (FullName fd) [
    ("halbornctf.hal.GenesisState.params", v ← Value_Message value; v ← as_Params v; x ← deref x; Ok (Some (MkapiGenesisState (apiGenesisState_unknownFields x) v)))
  ] (no_field "halbornctf.hal.GenesisState" fd).

Definition fast_GenesisState_Mutable (x : ptr apiGenesisState) (fd : FieldDescriptor) : res (ptr apiGenesisState * Value) :=
  switch (FullName fd) [
    ("halbornctf.hal.GenesisState.params", x ← deref x;
      let x := if is_set (apiGenesisState_Params x) then x else MkapiGenesisState (apiGenesisState_unknownFields x) (Some apiParams_zero) in
      Ok (Some x, VMessage (PParams (apiGenesisState_Params x))))
  ] (no_field "halbornctf.hal.GenesisState" fd).

Definition fast_GenesisState_NewField (x : ptr apiGenesisState) (fd : FieldDescriptor) : res Value :=
  switch (FullName fd) [
    ("halbornctf.hal.GenesisState.params", Ok (VMessage (PParams (Some apiParams_zero))))
  ] (no_field "halbornctf.hal.GenesisState" fd).

Definition fast_GenesisState_WhichOneof (x : ptr apiGenesisState) (d : string) : res FieldDescriptor := not_oneof "halbornctf.hal.GenesisState" d.
Definition fast_GenesisState_GetUnknown (x : ptr apiGenesisState) : res (option bytes) := x ← deref x; Ok (apiGenesisState_unknownFields x).
Definition apiGenesisState_with_unknown (u : option bytes) (x : apiGenesisState) : apiGenesisState :=
  MkapiGenesisState u (apiGenesisState_Params x).
Definition fast_GenesisState_SetUnknown (x : ptr apiGenesisState) (fields : option bytes) : res (ptr apiGenesisState) :=
  x ← deref x; Ok (Some (apiGenesisState_with_unknown fields x)).
Definition fast_GenesisState_IsValid (x : ptr apiGenesisState) : bool := is_set x.

Definition fast_GenesisState : Reflection apiGenesisState := MkReflection fast_GenesisState_Interface fast_GenesisState_messageType_New fast_GenesisState_messageType_Zero
  (@fast_GenesisState_Range) fast_GenesisState_Has fast_GenesisState_Clear fast_GenesisState_Get fast_GenesisState_Set fast_GenesisState_Mutable fast_GenesisState_NewField fast_GenesisState_WhichOneof
  fast_GenesisState_GetUnknown fast_GenesisState_SetUnknown fast_GenesisState_IsValid.

(** *** The fast path *)

Definition fast_GenesisState_size (input : ProtoMessage) : res Z :=
  x ← as_GenesisState input;
  match x with
  | None => Ok 0
  | Some x =>
      l1 ← size_message PParams fast_Params_methods (apiGenesisState_Params x);
      Ok (l1 + size_unknown (apiGenesisState_unknownFields x))
  end.

Definition fast_GenesisState_writer (x : apiGenesisState) : writer :=
  punknown (apiGenesisState_unknownFields x) >>
  pmessage 0xa PParams fast_Params_methods (apiGenesisState_Params x).

Definition fast_GenesisState_marshal (buf : option bytes) (input : ProtoMessage) : res (option bytes) :=
  x ← as_GenesisState input;
  match x with
  | None => Ok buf
  | Some x => fill_buf (options_Size fast_GenesisState_size (PGenesisState (Some x))) (fast_GenesisState_writer x) buf
  end.

Definition fast_GenesisState_field (discard : bool) (x : apiGenesisState) (fieldNum wireType : Z) (d : bytes) (iNdEx : Z)
    : option (res (apiGenesisState * Z)) :=
  if fieldNum =? 1 then Some (
    '(s, j) ← read_message PbRuntime "Params" wireType d iNdEx;
    x' ← (p ← read_into PParams as_Params apiParams_zero fast_Params_methods discard s (apiGenesisState_Params x);
          Ok (MkapiGenesisState (apiGenesisState_unknownFields x) p));
    Ok (x', j))
  else None.

Definition fast_GenesisState_add_unknown (s : bytes) (x : apiGenesisState) : apiGenesisState :=
  apiGenesisState_with_unknown (append_unknown (apiGenesisState_unknownFields x) s) x.
Definition fast_GenesisState_unmarshal (discard : bool) (d : bytes) (input : ProtoMessage) : res ProtoMessage :=
  x ← as_GenesisState input;
  match x with
  | None => Ok input
  | Some x =>
      x ← Unmarshal_with PbRuntime "GenesisState" (keep_unknown fast_GenesisState_add_unknown discard) (fast_GenesisState_field discard) x d;
      Ok (PGenesisState (Some x))
  end.

Definition fast_GenesisState_methods : Methods := MkMethods fast_GenesisState_size fast_GenesisState_marshal fast_GenesisState_unmarshal.
End fast_GenesisState_defs.

(** *** Specification *)

Definition apiGenesisState_kinds : list (string * kind) := [
  ("halbornctf.hal.GenesisState.params", KMessage (PParams None) (PParams (Some apiParams_zero)))].

Definition apiGenesisState_view (x : apiGenesisState) : list (string * Value) := [
  ("halbornctf.hal.GenesisState.params", VMessage (PParams (apiGenesisState_Params x)))].

Definition apiGenesisState_abs `{D : ProtoDesc} : Abstraction apiGenesisState := MkAbstraction PGenesisState apiGenesisState_zero apiGenesisState_kinds
  [fd_GenesisState_params] apiGenesisState_view apiGenesisState_unknownFields.

Section fast_GenesisState_lemmas.
Context `{ProtoRuntimeOk} `{ProtoDescOk}.

Definition apiGenesisState_enc (x : apiGenesisState) : bytes :=
  enc_ptr 0xa apiParams_enc (apiGenesisState_Params x) ++
  default [] (apiGenesisState_unknownFields x).

Definition apiGenesisState_wf (dis : bool) (x : apiGenesisState) : Prop :=
  wf_ptr apiParams_wf dis (apiGenesisState_Params x) /\
  unknown_ok [1] dis (apiGenesisState_unknownFields x).

Lemma fast_GenesisState_size_enc dis x : apiGenesisState_wf dis x -> len (apiGenesisState_enc x) < 2 ^ 63 ->
  fast_GenesisState_size (PGenesisState (Some x)) = Ok (len (apiGenesisState_enc x)).
Proof. solve_size apiGenesisState_wf apiGenesisState_enc fast_GenesisState_size as_GenesisState. Qed.

Lemma fast_GenesisState_writes dis x : apiGenesisState_wf dis x -> len (apiGenesisState_enc x) < 2 ^ 63 -> writes (fast_GenesisState_writer x) (apiGenesisState_enc x).
Proof. solve_pwrites apiGenesisState_wf apiGenesisState_enc fast_GenesisState_writer. Qed.

Lemma fast_GenesisState_field_ok dis : field_ok (fast_GenesisState_field dis).
Proof. intros x fn wt d i Hi Hd. unfold fast_GenesisState_field. solve_pfield_ok. Qed.

Lemma fast_GenesisState_reads dis x : apiGenesisState_wf dis x -> len (apiGenesisState_enc x) < 2 ^ 63 ->
  reads PbRuntime "GenesisState" (keep_unknown fast_GenesisState_add_unknown dis) (fast_GenesisState_field dis) apiGenesisState_zero (apiGenesisState_enc x) x.
Proof.
  unfold apiGenesisState_wf. intros (W0 & W1) L. pose proof (fast_GenesisState_field_ok dis).
  unfold apiGenesisState_enc in *. enc_bounds. eapply reads_conv.
  - 
    eapply reads_app; [reads_pointer|].
    apply reads_unknown_fields with (known := [1]) (getu := apiGenesisState_unknownFields) (setu := apiGenesisState_with_unknown);
      [assumption | other_fields fast_GenesisState_field | reflexivity | reflexivity | reflexivity | now intros [] | assumption | reflexivity].
  - now destruct x.
Qed.

Lemma fast_GenesisState_codec : codec_ok PGenesisState apiGenesisState_zero apiGenesisState_wf apiGenesisState_enc fast_GenesisState_methods.
Proof.
  solve_codec fast_GenesisState_size_enc fast_GenesisState_writes fast_GenesisState_field_ok fast_GenesisState_reads.
Qed.

Lemma fast_GenesisState_ok : ReflectionOk fast_GenesisState apiGenesisState_abs.
Proof. solve_reflection file_genesis_parse file_genesis_tables. Qed.
End fast_GenesisState_lemmas.
#[export] Hint Resolve fast_GenesisState_codec : pulsar.
