(* ===== verification/PulsarQuery.v ===== *)
(** * [api/halbornctf/hal/query.pulsar.go]: the query messages

    The file descriptor with its tables, the accessors, the reflection methods
    and the fast path of each message, with the proof that the fast path is a
    correct codec. *)

From S2P Require Import Prelude Wire PulsarTypes Pulsar PulsarLaws PulsarDesc PulsarSchema PulsarReflect PulsarParams.

(** ** The file descriptor *)

Definition file_query_rawDesc : bytes := [
  x0a; x1a; x68; x61; x6c; x62; x6f; x72; x6e; x63; x74; x66; x2f; x68; x61; x6c;
  x2f; x71; x75; x65; x72; x79; x2e; x70; x72; x6f; x74; x6f; x12; x0e; x68; x61;
  x6c; x62; x6f; x72; x6e; x63; x74; x66; x2e; x68; x61; x6c; x1a; x11; x61; x6d;
  x69; x6e; x6f; x2f; x61; x6d; x69; x6e; x6f; x2e; x70; x72; x6f; x74; x6f; x1a;
  x14; x67; x6f; x67; x6f; x70; x72; x6f; x74; x6f; x2f; x67; x6f; x67; x6f; x2e;
  x70; x72; x6f; x74; x6f; x1a; x1c; x67; x6f; x6f; x67; x6c; x65; x2f; x61; x70;
  x69; x2f; x61; x6e; x6e; x6f; x74; x61; x74; x69; x6f; x6e; x73; x2e; x70; x72;
  x6f; x74; x6f; x1a; x2a; x63; x6f; x73; x6d; x6f; x73; x2f; x62; x61; x73; x65;
  x2f; x71; x75; x65; x72; x79; x2f; x76; x31; x62; x65; x74; x61; x31; x2f; x70;
  x61; x67; x69; x6e; x61; x74; x69; x6f; x6e; x2e; x70; x72; x6f; x74; x6f; x1a;
  x1b; x68; x61; x6c; x62; x6f; x72; x6e; x63; x74; x66; x2f; x68; x61; x6c; x2f;
  x70; x61; x72; x61; x6d; x73; x2e; x70; x72; x6f; x74; x6f; x22; x14; x0a; x12;
  x51; x75; x65; x72; x79; x50; x61; x72; x61; x6d; x73; x52; x65; x71; x75; x65;
  x73; x74; x22; x50; x0a; x13; x51; x75; x65; x72; x79; x50; x61; x72; x61; x6d;
  x73; x52; x65; x73; x70; x6f; x6e; x73; x65; x12; x39; x0a; x06; x70; x61; x72;
  x61; x6d; x73; x18; x01; x20; x01; x28; x0b; x32; x16; x2e; x68; x61; x6c; x62;
  x6f; x72; x6e; x63; x74; x66; x2e; x68; x61; x6c; x2e; x50; x61; x72; x61; x6d;
  x73; x42; x09; xc8; xde; x1f; x00; xa8; xe7; xb0; x2a; x01; x52; x06; x70; x61;
  x72; x61; x6d; x73; x32; x7a; x0a; x05; x51; x75; x65; x72; x79; x12; x71; x0a;
  x06; x50; x61; x72; x61; x6d; x73; x12; x22; x2e; x68; x61; x6c; x62; x6f; x72;
  x6e; x63; x74; x66; x2e; x68; x61; x6c; x2e; x51; x75; x65; x72; x79; x50; x61;
  x72; x61; x6d; x73; x52; x65; x71; x75; x65; x73; x74; x1a; x23; x2e; x68; x61;
  x6c; x62; x6f; x72; x6e; x63; x74; x66; x2e; x68; x61; x6c; x2e; x51; x75; x65;
  x72; x79; x50; x61; x72; x61; x6d; x73; x52; x65; x73; x70; x6f; x6e; x73; x65;
  x22; x1e; x82; xd3; xe4; x93; x02; x18; x12; x16; x2f; x48; x61; x6c; x62; x6f;
  x72; x6e; x43; x54; x46; x2f; x68; x61; x6c; x2f; x70; x61; x72; x61; x6d; x73;
  x42; x98; x01; x0a; x12; x63; x6f; x6d; x2e; x68; x61; x6c; x62; x6f; x72; x6e;
  x63; x74; x66; x2e; x68; x61; x6c; x42; x0a; x51; x75; x65; x72; x79; x50; x72;
  x6f; x74; x6f; x50; x01; x5a; x1d; x48; x61; x6c; x62; x6f; x72; x6e; x43; x54;
  x46; x2f; x61; x70; x69; x2f; x68; x61; x6c; x62; x6f; x72; x6e; x63; x74; x66;
  x2f; x68; x61; x6c; xa2; x02; x03; x48; x48; x58; xaa; x02; x0e; x48; x61; x6c;
  x62; x6f; x72; x6e; x63; x74; x66; x2e; x48; x61; x6c; xca; x02; x0e; x48; x61;
  x6c; x62; x6f; x72; x6e; x63; x74; x66; x5c; x48; x61; x6c; xe2; x02; x1a; x48;
  x61; x6c; x62; x6f; x72; x6e; x63; x74; x66; x5c; x48; x61; x6c; x5c; x47; x50;
  x42; x4d; x65; x74; x61; x64; x61; x74; x61; xea; x02; x0f; x48; x61; x6c; x62;
  x6f; x72; x6e; x63; x74; x66; x3a; x3a; x48; x61; x6c; x62; x06; x70; x72; x6f;
  x74; x6f; x33].

Definition file_query_goTypes : list ProtoMessage := [PQueryParamsRequest None; PQueryParamsResponse None; PParams None].

Definition file_query_depIdxs : list Z := [2; 0; 1; 2; 1; 1; 1; 0].

Definition file_query_builder : TypeBuilder :=
  MkTypeBuilder file_query_rawDesc 0 2 0 1 file_query_goTypes file_query_depIdxs.

(** The descriptor is the .proto file, and the tables are what the builder
    expects. *)
Lemma file_query_parse : parse_file file_query_rawDesc = Some query_schema.
Proof. vm_compute. reflexivity. Qed.

Lemma file_query_tables : tables_ok file_query_builder query_schema = true.
Proof. vm_compute. reflexivity. Qed.

Section file_query_vars.
Context `{D : ProtoDesc}.

Definition File_query : FileDescriptor := Build file_query_builder.

(** The package variables, and their initialisation. *)
Definition file_query_vars : FileVars D :=
  MkFileVars None (Some file_query_rawDesc) (Some file_query_goTypes) (Some file_query_depIdxs) (replicate 2 None).
Definition file_query_exporters : list (ProtoMessage -> Z -> res (option exported)) :=
  [exporter as_QueryParamsRequest; exporter as_QueryParamsResponse].
Definition file_query_init (unsafe : bool) (params st : FileVars D) : FileVars D * FileVars D :=
  match File st with
  | Some _ => (params, st)
  | None => (file_params_init unsafe params, build_file unsafe file_query_exporters 0 2 0 1 st)
  end.

(** Initialising twice builds the file once; the file is that of the builder. *)
Lemma file_query_init_twice unsafe params st :
  let '(params', st') := file_query_init unsafe params st in file_query_init unsafe params' st' = (params', st').
Proof. unfold file_query_init. destruct (File st) eqn:E; [now rewrite E | reflexivity]. Qed.

Lemma file_query_init_File unsafe params : File (file_query_init unsafe params file_query_vars).2 = Some File_query.
Proof. reflexivity. Qed.

Definition file_query_gzip : GzipVars := MkGzipVars false file_query_rawDesc.
Definition file_query_rawDescGZIP : GzipVars -> bytes * GzipVars := rawDescGZIP.
Definition apiQueryParamsRequest_Descriptor (st : GzipVars) : bytes * list Z * GzipVars :=
  let '(d, st) := file_query_rawDescGZIP st in (d, [0], st).
Definition apiQueryParamsResponse_Descriptor (st : GzipVars) : bytes * list Z * GzipVars :=
  let '(d, st) := file_query_rawDescGZIP st in (d, [1], st).
End file_query_vars.

(** ** [QueryParamsRequest] *)

Definition apiQueryParamsRequest_Reset (x : ptr apiQueryParamsRequest) : res (ptr apiQueryParamsRequest) := _ ← deref x; Ok (Some apiQueryParamsRequest_zero).

Section fast_QueryParamsRequest_defs.
Context `{R : ProtoRuntime} `{D : ProtoDesc}.

(** *** Descriptors *)

Definition md_QueryParamsRequest : MessageDescriptor := Messages_ByName File_query "QueryParamsRequest".

(** *** Reflection *)

Definition fast_QueryParamsRequest_ProtoReflect (x : ptr apiQueryParamsRequest) : ProtoMessage := PQueryParamsRequest x.
Definition fast_QueryParamsRequest_messageType_Zero : ProtoMessage := PQueryParamsRequest None.
Definition fast_QueryParamsRequest_messageType_New : ProtoMessage := PQueryParamsRequest (Some apiQueryParamsRequest_zero).
Definition fast_QueryParamsRequest_messageType_Descriptor : MessageDescriptor := md_QueryParamsRequest.
Definition fast_QueryParamsRequest_Descriptor (x : ptr apiQueryParamsRequest) : MessageDescriptor := md_QueryParamsRequest.
Definition fast_QueryParamsRequest_New (x : ptr apiQueryParamsRequest) : ProtoMessage := PQueryParamsRequest (Some apiQueryParamsRequest_zero).
Definition fast_QueryParamsRequest_Interface (x : ptr apiQueryParamsRequest) : ProtoMessage := PQueryParamsRequest x.

Definition fast_QueryParamsRequest_Range {St} (x : ptr apiQueryParamsRequest) (f : FieldDescriptor -> Value -> St -> bool * St) (s : St) : res St :=
  Ok s.

Definition fast_QueryParamsRequest_Has (x : ptr apiQueryParamsRequest) (fd : FieldDescriptor) : res bool :=
  switch (FullName fd) [
  ] (no_field "halbornctf.hal.QueryParamsRequest" fd).

Definition fast_QueryParamsRequest_Clear (x : ptr apiQueryParamsRequest) (fd : FieldDescriptor) : res (ptr apiQueryParamsRequest) :=
  switch (FullName fd) [
  ] (no_field "halbornctf.hal.QueryParamsRequest" fd).

Definition fast_QueryParamsRequest_Get (x : ptr apiQueryParamsRequest) (fd : FieldDescriptor) : res Value :=
  switch (FullName fd) [
  ] (no_field "halbornctf.hal.QueryParamsRequest" fd).

Definition fast_QueryParamsRequest_Set (x : ptr apiQueryParamsRequest) (fd : FieldDescriptor) (value : Value) : res (ptr apiQueryParamsRequest) :=
  switch (FullName fd) [
  ] (no_field "halbornctf.hal.QueryParamsRequest" fd).

Definition fast_QueryParamsRequest_Mutable (x : ptr apiQueryParamsRequest) (fd : FieldDescriptor) : res (ptr apiQueryParamsRequest * Value) :=
  switch (FullName fd) [
  ] (no_field "halbornctf.hal.QueryParamsRequest" fd).

Definition fast_QueryParamsRequest_NewField (x : ptr apiQueryParamsRequest) (fd : FieldDescriptor) : res Value :=
  switch (FullName fd) [
  ] (no_field "halbornctf.hal.QueryParamsRequest" fd).

Definition fast_QueryParamsRequest_WhichOneof (x : ptr apiQueryParamsRequest) (d : string) : res FieldDescriptor := not_oneof "halbornctf.hal.QueryParamsRequest" d.
Definition fast_QueryParamsRequest_GetUnknown (x : ptr apiQueryParamsRequest) : res (option bytes) := x ← deref x; Ok (apiQueryParamsRequest_unknownFields x).
Definition apiQueryParamsRequest_with_unknown (u : option bytes) (x : apiQueryParamsRequest) : apiQueryParamsRequest :=
  MkapiQueryParamsRequest u.
Definition fast_QueryParamsRequest_SetUnknown (x : ptr apiQueryParamsRequest) (fields : option bytes) : res (ptr apiQueryParamsRequest) :=
  x ← deref x; Ok (Some (apiQueryParamsRequest_with_unknown fields x)).
Definition fast_QueryParamsRequest_IsValid (x : ptr apiQueryParamsRequest) : bool := is_set x.

Definition fast_QueryParamsRequest : Reflection apiQueryParamsRequest := MkReflection fast_QueryParamsRequest_Interface fast_QueryParamsRequest_messageType_New fast_QueryParamsRequest_messageType_Zero
  (@fast_QueryParamsRequest_Range) fast_QueryParamsRequest_Has fast_QueryParamsRequest_Clear fast_QueryParamsRequest_Get fast_QueryParamsRequest_Set fast_QueryParamsRequest_Mutable fast_QueryParamsRequest_NewField fast_QueryParamsRequest_WhichOneof
  fast_QueryParamsRequest_GetUnknown fast_QueryParamsRequest_SetUnknown fast_QueryParamsRequest_IsValid.

(** *** The fast path *)

Definition fast_QueryParamsRequest_size (input : ProtoMessage) : res Z :=
  x ← as_QueryParamsRequest input;
  match x with
  | None => Ok 0
  | Some x =>
      Ok (size_unknown (apiQueryParamsRequest_unknownFields x))
  end.

Definition fast_QueryParamsRequest_writer (x : apiQueryParamsRequest) : writer :=
  punknown (apiQueryParamsRequest_unknownFields x).

Definition fast_QueryParamsRequest_marshal (buf : option bytes) (input : ProtoMessage) : res (option bytes) :=
  x ← as_QueryParamsRequest input;
  match x with
  | None => Ok buf
  | Some x => fill_buf (options_Size fast_QueryParamsRequest_size (PQueryParamsRequest (Some x))) (fast_QueryParamsRequest_writer x) buf
  end.

Definition fast_QueryParamsRequest_field (discard : bool) (x : apiQueryParamsRequest) (fieldNum wireType : Z) (d : bytes) (iNdEx : Z)
    : option (res (apiQueryParamsRequest * Z)) :=
  None.

Definition fast_QueryParamsRequest_add_unknown (s : bytes) (x : apiQueryParamsRequest) : apiQueryParamsRequest :=
  apiQueryParamsRequest_with_unknown (append_unknown (apiQueryParamsRequest_unknownFields x) s) x.
Definition fast_QueryParamsRequest_unmarshal (discard : bool) (d : bytes) (input : ProtoMessage) : res ProtoMessage :=
  x ← as_QueryParamsRequest input;
  match x with
  | None => Ok input
  | Some x =>
      x ← Unmarshal_with PbRuntime "QueryParamsRequest" (keep_unknown fast_QueryParamsRequest_add_unknown discard) (fast_QueryParamsRequest_field discard) x d;
      Ok (PQueryParamsRequest (Some x))
  end.

Definition fast_QueryParamsRequest_methods : Methods := MkMethods fast_QueryParamsRequest_size fast_QueryParamsRequest_marshal fast_QueryParamsRequest_unmarshal.
End fast_QueryParamsRequest_defs.

(** *** Specification *)

Definition apiQueryParamsRequest_kinds : list (string * kind) := [].

Definition apiQueryParamsRequest_view (x : apiQueryParamsRequest) : list (string * Value) := [].

Definition apiQueryParamsRequest_abs `{D : ProtoDesc} : Abstraction apiQueryParamsRequest := MkAbstraction PQueryParamsRequest apiQueryParamsRequest_zero apiQueryParamsRequest_kinds
  [] apiQueryParamsRequest_view apiQueryParamsRequest_unknownFields.

Section fast_QueryParamsRequest_lemmas.
Context `{ProtoRuntimeOk} `{ProtoDescOk}.

Definition apiQueryParamsRequest_enc (x : apiQueryParamsRequest) : bytes :=
  default [] (apiQueryParamsRequest_unknownFields x).

Definition apiQueryParamsRequest_wf (dis : bool) (x : apiQueryParamsRequest) : Prop :=
  unknown_ok [] dis (apiQueryParamsRequest_unknownFields x).

Lemma fast_QueryParamsRequest_size_enc dis x : apiQueryParamsRequest_wf dis x -> len (apiQueryParamsRequest_enc x) < 2 ^ 63 ->
  fast_QueryParamsRequest_size (PQueryParamsRequest (Some x)) = Ok (len (apiQueryParamsRequest_enc x)).
Proof. solve_size apiQueryParamsRequest_wf apiQueryParamsRequest_enc fast_QueryParamsRequest_size as_QueryParamsRequest. Qed.

Lemma fast_QueryParamsRequest_writes dis x : apiQueryParamsRequest_wf dis x -> len (apiQueryParamsRequest_enc x) < 2 ^ 63 -> writes (fast_QueryParamsRequest_writer x) (apiQueryParamsRequest_enc x).
Proof. solve_pwrites apiQueryParamsRequest_wf apiQueryParamsRequest_enc fast_QueryParamsRequest_writer. Qed.

Lemma fast_QueryParamsRequest_field_ok dis : field_ok (fast_QueryParamsRequest_field dis).
Proof. intros x fn wt d i Hi Hd. unfold fast_QueryParamsRequest_field. solve_pfield_ok. Qed.

Lemma fast_QueryParamsRequest_reads dis x : apiQueryParamsRequest_wf dis x -> len (apiQueryParamsRequest_enc x) < 2 ^ 63 ->
  reads PbRuntime "QueryParamsRequest" (keep_unknown fast_QueryParamsRequest_add_unknown dis) (fast_QueryParamsRequest_field dis) apiQueryParamsRequest_zero (apiQueryParamsRequest_enc x) x.
Proof.
  unfold apiQueryParamsRequest_wf. intros W0 L. pose proof (fast_QueryParamsRequest_field_ok dis).
  unfold apiQueryParamsRequest_enc in *. enc_bounds. eapply reads_conv.
  - 
    apply reads_unknown_fields with (known := []) (getu := apiQueryParamsRequest_unknownFields) (setu := apiQueryParamsRequest_with_unknown);
      [assumption | other_fields fast_QueryParamsRequest_field | reflexivity | reflexivity | reflexivity | now intros [] | assumption | reflexivity].
  - now destruct x.
Qed.

Lemma fast_QueryParamsRequest_codec : codec_ok PQueryParamsRequest apiQueryParamsRequest_zero apiQueryParamsRequest_wf apiQueryParamsRequest_enc fast_QueryParamsRequest_methods.
Proof.
  solve_codec fast_QueryParamsRequest_size_enc fast_QueryParamsRequest_writes fast_QueryParamsRequest_field_ok fast_QueryParamsRequest_reads.
Qed.

Lemma fast_QueryParamsRequest_ok : ReflectionOk fast_QueryParamsRequest apiQueryParamsRequest_abs.
Proof. solve_reflection file_query_parse file_query_tables. Qed.
End fast_QueryParamsRequest_lemmas.
#[export] Hint Resolve fast_QueryParamsRequest_codec : pulsar.

(** ** [QueryParamsResponse] *)

Definition apiQueryParamsResponse_Reset (x : ptr apiQueryParamsResponse) : res (ptr apiQueryParamsResponse) := _ ← deref x; Ok (Some apiQueryParamsResponse_zero).
Definition apiQueryParamsResponse_GetParams (x : ptr apiQueryParamsResponse) : ptr apiParams :=
  match x with Some x => apiQueryParamsResponse_Params x | None => None end.

Section fast_QueryParamsResponse_defs.
Context `{R : ProtoRuntime} `{D : ProtoDesc}.

(** *** Descriptors *)

Definition md_QueryParamsResponse : MessageDescriptor := Messages_ByName File_query "QueryParamsResponse".
Definition fd_QueryParamsResponse_params : FieldDescriptor := Fields_ByName md_QueryParamsResponse "params".

(** *** Reflection *)

Definition fast_QueryParamsResponse_ProtoReflect (x : ptr apiQueryParamsResponse) : ProtoMessage := PQueryParamsResponse x.
Definition fast_QueryParamsResponse_messageType_Zero : ProtoMessage := PQueryParamsResponse None.
Definition fast_QueryParamsResponse_messageType_New : ProtoMessage := PQueryParamsResponse (Some apiQueryParamsResponse_zero).
Definition fast_QueryParamsResponse_messageType_Descriptor : MessageDescriptor := md_QueryParamsResponse.
Definition fast_QueryParamsResponse_Descriptor (x : ptr apiQueryParamsResponse) : MessageDescriptor := md_QueryParamsResponse.
Definition fast_QueryParamsResponse_New (x : ptr apiQueryParamsResponse) : ProtoMessage := PQueryParamsResponse (Some apiQueryParamsResponse_zero).
Definition fast_QueryParamsResponse_Interface (x : ptr apiQueryParamsResponse) : ProtoMessage := PQueryParamsResponse x.

Definition fast_QueryParamsResponse_Range {St} (x : ptr apiQueryParamsResponse) (f : FieldDescriptor -> Value -> St -> bool * St) (s : St) : res St :=
  x ← deref x;
  range_field (is_set (apiQueryParamsResponse_Params x)) fd_QueryParamsResponse_params (VMessage (PParams (apiQueryParamsResponse_Params x))) f (
  Ok) s.

Definition fast_QueryParamsResponse_Has (x : ptr apiQueryParamsResponse) (fd : FieldDescriptor) : res bool :=
  switch (FullName fd) [
    ("halbornctf.hal.QueryParamsResponse.params", x ← deref x; Ok (is_set (apiQueryParamsResponse_Params x)))
  ] (no_field "halbornctf.hal.QueryParamsResponse" fd).

Definition fast_QueryParamsResponse_Clear (x : ptr apiQueryParamsResponse) (fd : FieldDescriptor) : res (ptr apiQueryParamsResponse) :=
  switch (FullName fd) [
    ("halbornctf.hal.QueryParamsResponse.params", x ← deref x; Ok (Some (MkapiQueryParamsResponse (apiQueryParamsResponse_unknownFields x) None)))
  ] (no_field "halbornctf.hal.QueryParamsResponse" fd).

Definition fast_QueryParamsResponse_Get (x : ptr apiQueryParamsResponse) (fd : FieldDescriptor) : res Value :=
  switch (FullName fd) [
    ("halbornctf.hal.QueryParamsResponse.params", x ← deref x; Ok (VMessage (PParams (apiQueryParamsResponse_Params x))))
  ] (no_field "halbornctf.hal.QueryParamsResponse" fd).

Definition fast_QueryParamsResponse_Set (x : ptr apiQueryParamsResponse) (fd : FieldDescriptor) (value : Value) : res (ptr apiQueryParamsResponse) :=
  switch (FullName fd) [
    ("halbornctf.hal.QueryParamsResponse.params", v ← Value_Message value; v ← as_Params v; x ← deref x; Ok (Some (MkapiQueryParamsResponse (apiQueryParamsResponse_unknownFields x) v)))
  ] (no_field "halbornctf.hal.QueryParamsResponse" fd).

Definition fast_QueryParamsResponse_Mutable (x : ptr apiQueryParamsResponse) (fd : FieldDescriptor) : res (ptr apiQueryParamsResponse * Value) :=
  switch (FullName fd) [
    ("halbornctf.hal.QueryParamsResponse.params", x ← deref x;
      let x := if is_set (apiQueryParamsResponse_Params x) then x else MkapiQueryParamsResponse (apiQueryParamsResponse_unknownFields x) (Some apiParams_zero) in
      Ok (Some x, VMessage (PParams (apiQueryParamsResponse_Params x))))
  ] (no_field "halbornctf.hal.QueryParamsResponse" fd).

Definition fast_QueryParamsResponse_NewField (x : ptr apiQueryParamsResponse) (fd : FieldDescriptor) : res Value :=
  switch (FullName fd) [
    ("halbornctf.hal.QueryParamsResponse.params", Ok (VMessage (PParams (Some apiParams_zero))))
  ] (no_field "halbornctf.hal.QueryParamsResponse" fd).

Definition fast_QueryParamsResponse_WhichOneof (x : ptr apiQueryParamsResponse) (d : string) : res FieldDescriptor := not_oneof "halbornctf.hal.QueryParamsResponse" d.
Definition fast_QueryParamsResponse_GetUnknown (x : ptr apiQueryParamsResponse) : res (option bytes) := x ← deref x; Ok (apiQueryParamsResponse_unknownFields x).
Definition apiQueryParamsResponse_with_unknown (u : option bytes) (x : apiQueryParamsResponse) : apiQueryParamsResponse :=
  MkapiQueryParamsResponse u (apiQueryParamsResponse_Params x).
Definition fast_QueryParamsResponse_SetUnknown (x : ptr apiQueryParamsResponse) (fields : option bytes) : res (ptr apiQueryParamsResponse) :=
  x ← deref x; Ok (Some (apiQueryParamsResponse_with_unknown fields x)).
Definition fast_QueryParamsResponse_IsValid (x : ptr apiQueryParamsResponse) : bool := is_set x.

Definition fast_QueryParamsResponse : Reflection apiQueryParamsResponse := MkReflection fast_QueryParamsResponse_Interface fast_QueryParamsResponse_messageType_New fast_QueryParamsResponse_messageType_Zero
  (@fast_QueryParamsResponse_Range) fast_QueryParamsResponse_Has fast_QueryParamsResponse_Clear fast_QueryParamsResponse_Get fast_QueryParamsResponse_Set fast_QueryParamsResponse_Mutable fast_QueryParamsResponse_NewField fast_QueryParamsResponse_WhichOneof
  fast_QueryParamsResponse_GetUnknown fast_QueryParamsResponse_SetUnknown fast_QueryParamsResponse_IsValid.

(** *** The fast path *)

Definition fast_QueryParamsResponse_size (input : ProtoMessage) : res Z :=
  x ← as_QueryParamsResponse input;
  match x with
  | None => Ok 0
  | Some x =>
      l1 ← size_message PParams fast_Params_methods (apiQueryParamsResponse_Params x);
      Ok (l1 + size_unknown (apiQueryParamsResponse_unknownFields x))
  end.

Definition fast_QueryParamsResponse_writer (x : apiQueryParamsResponse) : writer :=
  punknown (apiQueryParamsResponse_unknownFields x) >>
  pmessage 0xa PParams fast_Params_methods (apiQueryParamsResponse_Params x).

Definition fast_QueryParamsResponse_marshal (buf : option bytes) (input : ProtoMessage) : res (option bytes) :=
  x ← as_QueryParamsResponse input;
  match x with
  | None => Ok buf
  | Some x => fill_buf (options_Size fast_QueryParamsResponse_size (PQueryParamsResponse (Some x))) (fast_QueryParamsResponse_writer x) buf
  end.

Definition fast_QueryParamsResponse_field (discard : bool) (x : apiQueryParamsResponse) (fieldNum wireType : Z) (d : bytes) (iNdEx : Z)
    : option (res (apiQueryParamsResponse * Z)) :=
  if fieldNum =? 1 then Some (
    '(s, j) ← read_message PbRuntime "Params" wireType d iNdEx;
    x' ← (p ← read_into PParams as_Params apiParams_zero fast_Params_methods discard s (apiQueryParamsResponse_Params x);
          Ok (MkapiQueryParamsResponse (apiQueryParamsResponse_unknownFields x) p));
    Ok (x', j))
  else None.

Definition fast_QueryParamsResponse_add_unknown (s : bytes) (x : apiQueryParamsResponse) : apiQueryParamsResponse :=
  apiQueryParamsResponse_with_unknown (append_unknown (apiQueryParamsResponse_unknownFields x) s) x.
Definition fast_QueryParamsResponse_unmarshal (discard : bool) (d : bytes) (input : ProtoMessage) : res ProtoMessage :=
  x ← as_QueryParamsResponse input;
  match x with
  | None => Ok input
  | Some x =>
      x ← Unmarshal_with PbRuntime "QueryParamsResponse" (keep_unknown fast_QueryParamsResponse_add_unknown discard) (fast_QueryParamsResponse_field discard) x d;
      Ok (PQueryParamsResponse (Some x))
  end.

Definition fast_QueryParamsResponse_methods : Methods := MkMethods fast_QueryParamsResponse_size fast_QueryParamsResponse_marshal fast_QueryParamsResponse_unmarshal.
End fast_QueryParamsResponse_defs.

(** *** Specification *)

Definition apiQueryParamsResponse_kinds : list (string * kind) := [
  ("halbornctf.hal.QueryParamsResponse.params", KMessage (PParams None) (PParams (Some apiParams_zero)))].

Definition apiQueryParamsResponse_view (x : apiQueryParamsResponse) : list (string * Value) := [
  ("halbornctf.hal.QueryParamsResponse.params", VMessage (PParams (apiQueryParamsResponse_Params x)))].

Definition apiQueryParamsResponse_abs `{D : ProtoDesc} : Abstraction apiQueryParamsResponse := MkAbstraction PQueryParamsResponse apiQueryParamsResponse_zero apiQueryParamsResponse_kinds
  [fd_QueryParamsResponse_params] apiQueryParamsResponse_view apiQueryParamsResponse_unknownFields.

Section fast_QueryParamsResponse_lemmas.
Context `{ProtoRuntimeOk} `{ProtoDescOk}.

Definition apiQueryParamsResponse_enc (x : apiQueryParamsResponse) : bytes :=
  enc_ptr 0xa apiParams_enc (apiQueryParamsResponse_Params x) ++
  default [] (apiQueryParamsResponse_unknownFields x).

Definition apiQueryParamsResponse_wf (dis : bool) (x : apiQueryParamsResponse) : Prop :=
  wf_ptr apiParams_wf dis (apiQueryParamsResponse_Params x) /\
  unknown_ok [1] dis (apiQueryParamsResponse_unknownFields x).

Lemma fast_QueryParamsResponse_size_enc dis x : apiQueryParamsResponse_wf dis x -> len (apiQueryParamsResponse_enc x) < 2 ^ 63 ->
  fast_QueryParamsResponse_size (PQueryParamsResponse (Some x)) = Ok (len (apiQueryParamsResponse_enc x)).
Proof. solve_size apiQueryParamsResponse_wf apiQueryParamsResponse_enc fast_QueryParamsResponse_size as_QueryParamsResponse. Qed.

Lemma fast_QueryParamsResponse_writes dis x : apiQueryParamsResponse_wf dis x -> len (apiQueryParamsResponse_enc x) < 2 ^ 63 -> writes (fast_QueryParamsResponse_writer x) (apiQueryParamsResponse_enc x).
Proof. solve_pwrites apiQueryParamsResponse_wf apiQueryParamsResponse_enc fast_QueryParamsResponse_writer. Qed.

Lemma fast_QueryParamsResponse_field_ok dis : field_ok (fast_QueryParamsResponse_field dis).
Proof. intros x fn wt d i Hi Hd. unfold fast_QueryParamsResponse_field. solve_pfield_ok. Qed.

Lemma fast_QueryParamsResponse_reads dis x : apiQueryParamsResponse_wf dis x -> len (apiQueryParamsResponse_enc x) < 2 ^ 63 ->
  reads PbRuntime "QueryParamsResponse" (keep_unknown fast_QueryParamsResponse_add_unknown dis) (fast_QueryParamsResponse_field dis) apiQueryParamsResponse_zero (apiQueryParamsResponse_enc x) x.
Proof.
  unfold apiQueryParamsResponse_wf. intros (W0 & W1) L. pose proof (fast_QueryParamsResponse_field_ok dis).
  unfold apiQueryParamsResponse_enc in *. enc_bounds. eapply reads_conv.
  - 
    eapply reads_app; [reads_pointer|].
    apply reads_unknown_fields with (known := [1]) (getu := apiQueryParamsResponse_unknownFields) (setu := apiQueryParamsResponse_with_unknown);
      [assumption | other_fields fast_QueryParamsResponse_field | reflexivity | reflexivity | reflexivity | now intros [] | assumption | reflexivity].
  - now destruct x.
Qed.

Lemma fast_QueryParamsResponse_codec : codec_ok PQueryParamsResponse apiQueryParamsResponse_zero apiQueryParamsResponse_wf apiQueryParamsResponse_enc fast_QueryParamsResponse_methods.
Proof.
  solve_codec fast_QueryParamsResponse_size_enc fast_QueryParamsResponse_writes fast_QueryParamsResponse_field_ok fast_QueryParamsResponse_reads.
Qed.

Lemma fast_QueryParamsResponse_ok : ReflectionOk fast_QueryParamsResponse apiQueryParamsResponse_abs.
Proof. solve_reflection file_query_parse file_query_tables. Qed.
End fast_QueryParamsResponse_lemmas.
#[export] Hint Resolve fast_QueryParamsResponse_codec : pulsar.
