(* ===== verification/PulsarTx.v ===== *)
(** * [api/halbornctf/hal/tx.pulsar.go]: the transaction messages and their responses

    The file descriptor with its tables, the accessors, the reflection methods
    and the fast path of each message, with the proof that the fast path is a
    correct codec. *)

From S2P Require Import Prelude Wire PulsarTypes Pulsar PulsarLaws PulsarDesc PulsarSchema PulsarReflect PulsarParams.

(** ** The file descriptor *)

Definition file_tx_rawDesc : bytes := [
  x0a; x17; x68; x61; x6c; x62; x6f; x72; x6e; x63; x74; x66; x2f; x68; x61; x6c;
  x2f; x74; x78; x2e; x70; x72; x6f; x74; x6f; x12; x0e; x68; x61; x6c; x62; x6f;
  x72; x6e; x63; x74; x66; x2e; x68; x61; x6c; x1a; x11; x61; x6d; x69; x6e; x6f;
  x2f; x61; x6d; x69; x6e; x6f; x2e; x70; x72; x6f; x74; x6f; x1a; x17; x63; x6f;
  x73; x6d; x6f; x73; x2f; x6d; x73; x67; x2f; x76; x31; x2f; x6d; x73; x67; x2e;
  x70; x72; x6f; x74; x6f; x1a; x19; x63; x6f; x73; x6d; x6f; x73; x5f; x70; x72;
  x6f; x74; x6f; x2f; x63; x6f; x73; x6d; x6f; x73; x2e; x70; x72; x6f; x74; x6f;
  x1a; x14; x67; x6f; x67; x6f; x70; x72; x6f; x74; x6f; x2f; x67; x6f; x67; x6f;
  x2e; x70; x72; x6f; x74; x6f; x1a; x1b; x68; x61; x6c; x62; x6f; x72; x6e; x63;
  x74; x66; x2f; x68; x61; x6c; x2f; x70; x61; x72; x61; x6d; x73; x2e; x70; x72;
  x6f; x74; x6f; x1a; x1e; x63; x6f; x73; x6d; x6f; x73; x2f; x62; x61; x73; x65;
  x2f; x76; x31; x62; x65; x74; x61; x31; x2f; x63; x6f; x69; x6e; x2e; x70; x72;
  x6f; x74; x6f; x1a; x1f; x67; x6f; x6f; x67; x6c; x65; x2f; x70; x72; x6f; x74;
  x6f; x62; x75; x66; x2f; x74; x69; x6d; x65; x73; x74; x61; x6d; x70; x2e; x70;
  x72; x6f; x74; x6f; x22; xb9; x01; x0a; x0f; x4d; x73; x67; x55; x70; x64; x61;
  x74; x65; x50; x61; x72; x61; x6d; x73; x12; x36; x0a; x09; x61; x75; x74; x68;
  x6f; x72; x69; x74; x79; x18; x01; x20; x01; x28; x09; x42; x18; xd2; xb4; x2d;
  x14; x63; x6f; x73; x6d; x6f; x73; x2e; x41; x64; x64; x72; x65; x73; x73; x53;
  x74; x72; x69; x6e; x67; x52; x09; x61; x75; x74; x68; x6f; x72; x69; x74; x79;
  x12; x39; x0a; x06; x70; x61; x72; x61; x6d; x73; x18; x02; x20; x01; x28; x0b;
  x32; x16; x2e; x68; x61; x6c; x62; x6f; x72; x6e; x63; x74; x66; x2e; x68; x61;
  x6c; x2e; x50; x61; x72; x61; x6d; x73; x42; x09; xc8; xde; x1f; x00; xa8; xe7;
  xb0; x2a; x01; x52; x06; x70; x61; x72; x61; x6d; x73; x3a; x33; x82; xe7; xb0;
  x2a; x09; x61; x75; x74; x68; x6f; x72; x69; x74; x79; x8a; xe7; xb0; x2a; x20;
  x68; x61; x6c; x62; x6f; x72; x6e; x63; x74; x66; x2f; x78; x2f; x68; x61; x6c;
  x2f; x4d; x73; x67; x55; x70; x64; x61; x74; x65; x50; x61; x72; x61; x6d; x73;
  x22; x19; x0a; x17; x4d; x73; x67; x55; x70; x64; x61; x74; x65; x50; x61; x72;
  x61; x6d; x73; x52; x65; x73; x70; x6f; x6e; x73; x65; x22; x81; x01; x0a; x0a;
  x4d; x73; x67; x4d; x69; x6e; x74; x48; x61; x6c; x12; x18; x0a; x07; x63; x72;
  x65; x61; x74; x6f; x72; x18; x01; x20; x01; x28; x09; x52; x07; x63; x72; x65;
  x61; x74; x6f; x72; x12; x4b; x0a; x10; x63; x6f; x6c; x6c; x61; x74; x65; x72;
  x61; x6c; x41; x6d; x6f; x75; x6e; x74; x18; x02; x20; x01; x28; x0b; x32; x19;
  x2e; x63; x6f; x73; x6d; x6f; x73; x2e; x62; x61; x73; x65; x2e; x76; x31; x62;
  x65; x74; x61; x31; x2e; x43; x6f; x69; x6e; x42; x04; xc8; xde; x1f; x00; x52;
  x10; x63; x6f; x6c; x6c; x61; x74; x65; x72; x61; x6c; x41; x6d; x6f; x75; x6e;
  x74; x3a; x0c; x82; xe7; xb0; x2a; x07; x63; x72; x65; x61; x74; x6f; x72; x22;
  x59; x0a; x12; x4d; x73; x67; x4d; x69; x6e; x74; x48; x61; x6c; x52; x65; x73;
  x70; x6f; x6e; x73; x65; x12; x43; x0a; x0c; x6d; x69; x6e; x74; x65; x64; x41;
  x6d; x6f; x75; x6e; x74; x18; x01; x20; x01; x28; x0b; x32; x19; x2e; x63; x6f;
  x73; x6d; x6f; x73; x2e; x62; x61; x73; x65; x2e; x76; x31; x62; x65; x74; x61;
  x31; x2e; x43; x6f; x69; x6e; x42; x04; xc8; xde; x1f; x00; x52; x0c; x6d; x69;
  x6e; x74; x65; x64; x41; x6d; x6f; x75; x6e; x74; x22; x7c; x0a; x13; x4d; x73;
  x67; x52; x65; x64; x65; x65; x6d; x43; x6f; x6c; x6c; x61; x74; x65; x72; x61;
  x6c; x12; x18; x0a; x07; x63; x72; x65; x61; x74; x6f; x72; x18; x01; x20; x01;
  x28; x09; x52; x07; x63; x72; x65; x61; x74; x6f; x72; x12; x3d; x0a; x09; x68;
  x61; x6c; x41; x6d; x6f; x75; x6e; x74; x18; x02; x20; x01; x28; x0b; x32; x19;
  x2e; x63; x6f; x73; x6d; x6f; x73; x2e; x62; x61; x73; x65; x2e; x76; x31; x62;
  x65; x74; x61; x31; x2e; x43; x6f; x69; x6e; x42; x04; xc8; xde; x1f; x00; x52;
  x09; x68; x61; x6c; x41; x6d; x6f; x75; x6e; x74; x3a; x0c; x82; xe7; xb0; x2a;
  x07; x63; x72; x65; x61; x74; x6f; x72; x22; xcb; x01; x0a; x1b; x4d; x73; x67;
  x52; x65; x64; x65; x65; x6d; x43; x6f; x6c; x6c; x61; x74; x65; x72; x61; x6c;
  x52; x65; x73; x70; x6f; x6e; x73; x65; x12; x43; x0a; x0c; x62; x75; x72; x6e;
  x65; x64; x41; x6d; x6f; x75; x6e; x74; x18; x01; x20; x01; x28; x0b; x32; x19;
  x2e; x63; x6f; x73; x6d; x6f; x73; x2e; x62; x61; x73; x65; x2e; x76; x31; x62;
  x65; x74; x61; x31; x2e; x43; x6f; x69; x6e; x42; x04; xc8; xde; x1f; x00; x52;
  x0c; x62; x75; x72; x6e; x65; x64; x41; x6d; x6f; x75; x6e; x74; x12; x67; x0a;
  x0f; x63; x6f; x6d; x70; x6c; x65; x74; x69; x6f; x6e; x5f; x74; x69; x6d; x65;
  x18; x02; x20; x01; x28; x0b; x32; x1a; x2e; x67; x6f; x6f; x67; x6c; x65; x2e;
  x70; x72; x6f; x74; x6f; x62; x75; x66; x2e; x54; x69; x6d; x65; x73; x74; x61;
  x6d; x70; x42; x22; xc8; xde; x1f; x00; xf2; xde; x1f; x16; x79; x61; x6d; x6c;
  x3a; x22; x63; x6f; x6d; x70; x6c; x65; x74; x69; x6f; x6e; x5f; x74; x69; x6d;
  x65; x22; x90; xdf; x1f; x01; x52; x0e; x63; x6f; x6d; x70; x6c; x65; x74; x69;
  x6f; x6e; x54; x69; x6d; x65; x22; x67; x0a; x0f; x4d; x73; x67; x43; x72; x65;
  x61; x74; x65; x54; x69; x63; x6b; x65; x74; x12; x18; x0a; x07; x63; x72; x65;
  x61; x74; x6f; x72; x18; x01; x20; x01; x28; x09; x52; x07; x63; x72; x65; x61;
  x74; x6f; x72; x12; x16; x0a; x06; x61; x75; x74; x68; x6f; x72; x18; x02; x20;
  x01; x28; x09; x52; x06; x61; x75; x74; x68; x6f; x72; x12; x14; x0a; x05; x69;
  x73; x73; x75; x65; x18; x03; x20; x01; x28; x09; x52; x05; x69; x73; x73; x75;
  x65; x3a; x0c; x82; xe7; xb0; x2a; x07; x63; x72; x65; x61; x74; x6f; x72; x22;
  x29; x0a; x17; x4d; x73; x67; x43; x72; x65; x61; x74; x65; x54; x69; x63; x6b;
  x65; x74; x52; x65; x73; x70; x6f; x6e; x73; x65; x12; x0e; x0a; x02; x69; x64;
  x18; x01; x20; x01; x28; x04; x52; x02; x69; x64; x32; xf1; x02; x0a; x03; x4d;
  x73; x67; x12; x58; x0a; x0c; x55; x70; x64; x61; x74; x65; x50; x61; x72; x61;
  x6d; x73; x12; x1f; x2e; x68; x61; x6c; x62; x6f; x72; x6e; x63; x74; x66; x2e;
  x68; x61; x6c; x2e; x4d; x73; x67; x55; x70; x64; x61; x74; x65; x50; x61; x72;
  x61; x6d; x73; x1a; x27; x2e; x68; x61; x6c; x62; x6f; x72; x6e; x63; x74; x66;
  x2e; x68; x61; x6c; x2e; x4d; x73; x67; x55; x70; x64; x61; x74; x65; x50; x61;
  x72; x61; x6d; x73; x52; x65; x73; x70; x6f; x6e; x73; x65; x12; x49; x0a; x07;
  x4d; x69; x6e; x74; x48; x61; x6c; x12; x1a; x2e; x68; x61; x6c; x62; x6f; x72;
  x6e; x63; x74; x66; x2e; x68; x61; x6c; x2e; x4d; x73; x67; x4d; x69; x6e; x74;
  x48; x61; x6c; x1a; x22; x2e; x68; x61; x6c; x62; x6f; x72; x6e; x63; x74; x66;
  x2e; x68; x61; x6c; x2e; x4d; x73; x67; x4d; x69; x6e; x74; x48; x61; x6c; x52;
  x65; x73; x70; x6f; x6e; x73; x65; x12; x64; x0a; x10; x52; x65; x64; x65; x65;
  x6d; x43; x6f; x6c; x6c; x61; x74; x65; x72; x61; x6c; x12; x23; x2e; x68; x61;
  x6c; x62; x6f; x72; x6e; x63; x74; x66; x2e; x68; x61; x6c; x2e; x4d; x73; x67;
  x52; x65; x64; x65; x65; x6d; x43; x6f; x6c; x6c; x61; x74; x65; x72; x61; x6c;
  x1a; x2b; x2e; x68; x61; x6c; x62; x6f; x72; x6e; x63; x74; x66; x2e; x68; x61;
  x6c; x2e; x4d; x73; x67; x52; x65; x64; x65; x65; x6d; x43; x6f; x6c; x6c; x61;
  x74; x65; x72; x61; x6c; x52; x65; x73; x70; x6f; x6e; x73; x65; x12; x58; x0a;
  x0c; x43; x72; x65; x61; x74; x65; x54; x69; x63; x6b; x65; x74; x12; x1f; x2e;
  x68; x61; x6c; x62; x6f; x72; x6e; x63; x74; x66; x2e; x68; x61; x6c; x2e; x4d;
  x73; x67; x43; x72; x65; x61; x74; x65; x54; x69; x63; x6b; x65; x74; x1a; x27;
  x2e; x68; x61; x6c; x62; x6f; x72; x6e; x63; x74; x66; x2e; x68; x61; x6c; x2e;
  x4d; x73; x67; x43; x72; x65; x61; x74; x65; x54; x69; x63; x6b; x65; x74; x52;
  x65; x73; x70; x6f; x6e; x73; x65; x1a; x05; x80; xe7; xb0; x2a; x01; x42; x95;
  x01; x0a; x12; x63; x6f; x6d; x2e; x68; x61; x6c; x62; x6f; x72; x6e; x63; x74;
  x66; x2e; x68; x61; x6c; x42; x07; x54; x78; x50; x72; x6f; x74; x6f; x50; x01;
  x5a; x1d; x48; x61; x6c; x62; x6f; x72; x6e; x43; x54; x46; x2f; x61; x70; x69;
  x2f; x68; x61; x6c; x62; x6f; x72; x6e; x63; x74; x66; x2f; x68; x61; x6c; xa2;
  x02; x03; x48; x48; x58; xaa; x02; x0e; x48; x61; x6c; x62; x6f; x72; x6e; x63;
  x74; x66; x2e; x48; x61; x6c; xca; x02; x0e; x48; x61; x6c; x62; x6f; x72; x6e;
  x63; x74; x66; x5c; x48; x61; x6c; xe2; x02; x1a; x48; x61; x6c; x62; x6f; x72;
  x6e; x63; x74; x66; x5c; x48; x61; x6c; x5c; x47; x50; x42; x4d; x65; x74; x61;
  x64; x61; x74; x61; xea; x02; x0f; x48; x61; x6c; x62; x6f; x72; x6e; x63; x74;
  x66; x3a; x3a; x48; x61; x6c; x62; x06; x70; x72; x6f; x74; x6f; x33].

Definition file_tx_goTypes : list ProtoMessage := [PMsgUpdateParams None; PMsgUpdateParamsResponse None; PMsgMintHal None; PMsgMintHalResponse None; PMsgRedeemCollateral None; PMsgRedeemCollateralResponse None; PMsgCreateTicket None; PMsgCreateTicketResponse None; PParams None; PCoin None; PTimestamp None].

Definition file_tx_depIdxs : list Z := [8; 9; 9; 9; 9; 10; 0; 2; 4; 6; 1; 3; 5; 7; 10; 6; 6; 6; 0].

Definition file_tx_builder : TypeBuilder :=
  MkTypeBuilder file_tx_rawDesc 0 8 0 1 file_tx_goTypes file_tx_depIdxs.

(** The descriptor is the .proto file, and the tables are what the builder
    expects. *)
Lemma file_tx_parse : parse_file file_tx_rawDesc = Some tx_schema.
Proof. vm_compute. reflexivity. Qed.

Lemma file_tx_tables : tables_ok file_tx_builder tx_schema = true.
Proof. vm_compute. reflexivity. Qed.

Section file_tx_vars.
Context `{D : ProtoDesc}.

Definition File_tx : FileDescriptor := Build file_tx_builder.

(** The package variables, and their initialisation. *)
Definition file_tx_vars : FileVars D :=
  MkFileVars None (Some file_tx_rawDesc) (Some file_tx_goTypes) (Some file_tx_depIdxs) (replicate 8 None).
Definition file_tx_exporters : list (ProtoMessage -> Z -> res (option exported)) :=
  [exporter as_MsgUpdateParams; exporter as_MsgUpdateParamsResponse; exporter as_MsgMintHal; exporter as_MsgMintHalResponse; exporter as_MsgRedeemCollateral; exporter as_MsgRedeemCollateralResponse; exporter as_MsgCreateTicket; exporter as_MsgCreateTicketResponse].
Definition file_tx_init (unsafe : bool) (params st : FileVars D) : FileVars D * FileVars D :=
  match File st with
  | Some _ => (params, st)
  | None => (file_params_init unsafe params, build_file unsafe file_tx_exporters 0 8 0 1 st)
  end.

(** Initialising twice builds the file once; the file is that of the builder. *)
Lemma file_tx_init_twice unsafe params st :
  let '(params', st') := file_tx_init unsafe params st in file_tx_init unsafe params' st' = (params', st').
Proof. unfold file_tx_init. destruct (File st) eqn:E; [now rewrite E | reflexivity]. Qed.

Lemma file_tx_init_File unsafe params : File (file_tx_init unsafe params file_tx_vars).2 = Some File_tx.
Proof. reflexivity. Qed.

Definition file_tx_gzip : GzipVars := MkGzipVars false file_tx_rawDesc.
Definition file_tx_rawDescGZIP : GzipVars -> bytes * GzipVars := rawDescGZIP.
Definition apiMsgUpdateParams_Descriptor (st : GzipVars) : bytes * list Z * GzipVars :=
  let '(d, st) := file_tx_rawDescGZIP st in (d, [0], st).
Definition apiMsgUpdateParamsResponse_Descriptor (st : GzipVars) : bytes * list Z * GzipVars :=
  let '(d, st) := file_tx_rawDescGZIP st in (d, [1], st).
Definition apiMsgMintHal_Descriptor (st : GzipVars) : bytes * list Z * GzipVars :=
  let '(d, st) := file_tx_rawDescGZIP st in (d, [2], st).
Definition apiMsgMintHalResponse_Descriptor (st : GzipVars) : bytes * list Z * GzipVars :=
  let '(d, st) := file_tx_rawDescGZIP st in (d, [3], st).
Definition apiMsgRedeemCollateral_Descriptor (st : GzipVars) : bytes * list Z * GzipVars :=
  let '(d, st) := file_tx_rawDescGZIP st in (d, [4], st).
Definition apiMsgRedeemCollateralResponse_Descriptor (st : GzipVars) : bytes * list Z * GzipVars :=
  let '(d, st) := file_tx_rawDescGZIP st in (d, [5], st).
Definition apiMsgCreateTicket_Descriptor (st : GzipVars) : bytes * list Z * GzipVars :=
  let '(d, st) := file_tx_rawDescGZIP st in (d, [6], st).
Definition apiMsgCreateTicketResponse_Descriptor (st : GzipVars) : bytes * list Z * GzipVars :=
  let '(d, st) := file_tx_rawDescGZIP st in (d, [7], st).
End file_tx_vars.

(** ** [MsgUpdateParams] *)

Definition apiMsgUpdateParams_Reset (x : ptr apiMsgUpdateParams) : res (ptr apiMsgUpdateParams) := _ ← deref x; Ok (Some apiMsgUpdateParams_zero).
Definition apiMsgUpdateParams_GetAuthority (x : ptr apiMsgUpdateParams) : gostring :=
  match x with Some x => apiMsgUpdateParams_Authority x | None => [] end.
Definition apiMsgUpdateParams_GetParams (x : ptr apiMsgUpdateParams) : ptr apiParams :=
  match x with Some x => apiMsgUpdateParams_Params x | None => None end.

Section fast_MsgUpdateParams_defs.
Context `{R : ProtoRuntime} `{D : ProtoDesc}.

(** *** Descriptors *)

Definition md_MsgUpdateParams : MessageDescriptor := Messages_ByName File_tx "MsgUpdateParams".
Definition fd_MsgUpdateParams_authority : FieldDescriptor := Fields_ByName md_MsgUpdateParams "authority".
Definition fd_MsgUpdateParams_params : FieldDescriptor := Fields_ByName md_MsgUpdateParams "params".

(** *** Reflection *)

Definition fast_MsgUpdateParams_ProtoReflect (x : ptr apiMsgUpdateParams) : ProtoMessage := PMsgUpdateParams x.
Definition fast_MsgUpdateParams_messageType_Zero : ProtoMessage := PMsgUpdateParams None.
Definition fast_MsgUpdateParams_messageType_New : ProtoMessage := PMsgUpdateParams (Some apiMsgUpdateParams_zero).
Definition fast_MsgUpdateParams_messageType_Descriptor : MessageDescriptor := md_MsgUpdateParams.
Definition fast_MsgUpdateParams_Descriptor (x : ptr apiMsgUpdateParams) : MessageDescriptor := md_MsgUpdateParams.
Definition fast_MsgUpdateParams_New (x : ptr apiMsgUpdateParams) : ProtoMessage := PMsgUpdateParams (Some apiMsgUpdateParams_zero).
Definition fast_MsgUpdateParams_Interface (x : ptr apiMsgUpdateParams) : ProtoMessage := PMsgUpdateParams x.

Definition fast_MsgUpdateParams_Range {St} (x : ptr apiMsgUpdateParams) (f : FieldDescriptor -> Value -> St -> bool * St) (s : St) : res St :=
  x ← deref x;
  range_field (nonempty (apiMsgUpdateParams_Authority x)) fd_MsgUpdateParams_authority (VString (apiMsgUpdateParams_Authority x)) f (
  range_field (is_set (apiMsgUpdateParams_Params x)) fd_MsgUpdateParams_params (VMessage (PParams (apiMsgUpdateParams_Params x))) f (
  Ok)) s.

Definition fast_MsgUpdateParams_Has (x : ptr apiMsgUpdateParams) (fd : FieldDescriptor) : res bool :=
  switch (FullName fd) [
    ("halbornctf.hal.MsgUpdateParams.authority", x ← deref x; Ok (nonempty (apiMsgUpdateParams_Authority x)));
    ("halbornctf.hal.MsgUpdateParams.params", x ← deref x; Ok (is_set (apiMsgUpdateParams_Params x)))
  ] (no_field "halbornctf.hal.MsgUpdateParams" fd).

Definition fast_MsgUpdateParams_Clear (x : ptr apiMsgUpdateParams) (fd : FieldDescriptor) : res (ptr apiMsgUpdateParams) :=
  switch (FullName fd) [
    ("halbornctf.hal.MsgUpdateParams.authority", x ← deref x; Ok (Some (MkapiMsgUpdateParams (apiMsgUpdateParams_unknownFields x) [] (apiMsgUpdateParams_Params x))));
    ("halbornctf.hal.MsgUpdateParams.params", x ← deref x; Ok (Some (MkapiMsgUpdateParams (apiMsgUpdateParams_unknownFields x) (apiMsgUpdateParams_Authority x) None)))
  ] (no_field "halbornctf.hal.MsgUpdateParams" fd).

Definition fast_MsgUpdateParams_Get (x : ptr apiMsgUpdateParams) (fd : FieldDescriptor) : res Value :=
  switch (FullName fd) [
    ("halbornctf.hal.MsgUpdateParams.authority", x ← deref x; Ok (VString (apiMsgUpdateParams_Authority x)));
    ("halbornctf.hal.MsgUpdateParams.params", x ← deref x; Ok (VMessage (PParams (apiMsgUpdateParams_Params x))))
  ] (no_field "halbornctf.hal.MsgUpdateParams" fd).

Definition fast_MsgUpdateParams_Set (x : ptr apiMsgUpdateParams) (fd : FieldDescriptor) (value : Value) : res (ptr apiMsgUpdateParams) :=
  switch (FullName fd) [
    ("halbornctf.hal.MsgUpdateParams.authority", v ← Value_string value; x ← deref x; Ok (Some (MkapiMsgUpdateParams (apiMsgUpdateParams_unknownFields x) v (apiMsgUpdateParams_Params x))));
    ("halbornctf.hal.MsgUpdateParams.params", v ← Value_Message value; v ← as_Params v; x ← deref x; Ok (Some (MkapiMsgUpdateParams (apiMsgUpdateParams_unknownFields x) (apiMsgUpdateParams_Authority x) v)))
  ] (no_field "halbornctf.hal.MsgUpdateParams" fd).

Definition fast_MsgUpdateParams_Mutable (x : ptr apiMsgUpdateParams) (fd : FieldDescriptor) : res (ptr apiMsgUpdateParams * Value) :=
  switch (FullName fd) [
    ("halbornctf.hal.MsgUpdateParams.params", x ← deref x;
      let x := if is_set (apiMsgUpdateParams_Params x) then x else MkapiMsgUpdateParams (apiMsgUpdateParams_unknownFields x) (apiMsgUpdateParams_Authority x) (Some apiParams_zero) in
      Ok (Some x, VMessage (PParams (apiMsgUpdateParams_Params x))));
    ("halbornctf.hal.MsgUpdateParams.authority", not_mutable "authority" "halbornctf.hal.MsgUpdateParams")
  ] (no_field "halbornctf.hal.MsgUpdateParams" fd).

Definition fast_MsgUpdateParams_NewField (x : ptr apiMsgUpdateParams) (fd : FieldDescriptor) : res Value :=
  switch (FullName fd) [
    ("halbornctf.hal.MsgUpdateParams.authority", Ok (VString []));
    ("halbornctf.hal.MsgUpdateParams.params", Ok (VMessage (PParams (Some apiParams_zero))))
  ] (no_field "halbornctf.hal.MsgUpdateParams" fd).

Definition fast_MsgUpdateParams_WhichOneof (x : ptr apiMsgUpdateParams) (d : string) : res FieldDescriptor := not_oneof "halbornctf.hal.MsgUpdateParams" d.
Definition fast_MsgUpdateParams_GetUnknown (x : ptr apiMsgUpdateParams) : res (option bytes) := x ← deref x; Ok (apiMsgUpdateParams_unknownFields x).
Definition apiMsgUpdateParams_with_unknown (u : option bytes) (x : apiMsgUpdateParams) : apiMsgUpdateParams :=
  MkapiMsgUpdateParams u (apiMsgUpdateParams_Authority x) (apiMsgUpdateParams_Params x).
Definition fast_MsgUpdateParams_SetUnknown (x : ptr apiMsgUpdateParams) (fields : option bytes) : res (ptr apiMsgUpdateParams) :=
  x ← deref x; Ok (Some (apiMsgUpdateParams_with_unknown fields x)).
Definition fast_MsgUpdateParams_IsValid (x : ptr apiMsgUpdateParams) : bool := is_set x.

Definition fast_MsgUpdateParams : Reflection apiMsgUpdateParams := MkReflection fast_MsgUpdateParams_Interface fast_MsgUpdateParams_messageType_New fast_MsgUpdateParams_messageType_Zero
  (@fast_MsgUpdateParams_Range) fast_MsgUpdateParams_Has fast_MsgUpdateParams_Clear fast_MsgUpdateParams_Get fast_MsgUpdateParams_Set fast_MsgUpdateParams_Mutable fast_MsgUpdateParams_NewField fast_MsgUpdateParams_WhichOneof
  fast_MsgUpdateParams_GetUnknown fast_MsgUpdateParams_SetUnknown fast_MsgUpdateParams_IsValid.

(** *** The fast path *)

Definition fast_MsgUpdateParams_size (input : ProtoMessage) : res Z :=
  x ← as_MsgUpdateParams input;
  match x with
  | None => Ok 0
  | Some x =>
      l2 ← size_message PParams fast_Params_methods (apiMsgUpdateParams_Params x);
      Ok (size_string (apiMsgUpdateParams_Authority x) + l2 + size_unknown (apiMsgUpdateParams_unknownFields x))
  end.

Definition fast_MsgUpdateParams_writer (x : apiMsgUpdateParams) : writer :=
  punknown (apiMsgUpdateParams_unknownFields x) >>
  pmessage 0x12 PParams fast_Params_methods (apiMsgUpdateParams_Params x) >>
  pstring 0xa (apiMsgUpdateParams_Authority x).

Definition fast_MsgUpdateParams_marshal (buf : option bytes) (input : ProtoMessage) : res (option bytes) :=
  x ← as_MsgUpdateParams input;
  match x with
  | None => Ok buf
  | Some x => fill_buf (options_Size fast_MsgUpdateParams_size (PMsgUpdateParams (Some x))) (fast_MsgUpdateParams_writer x) buf
  end.

Definition fast_MsgUpdateParams_field (discard : bool) (x : apiMsgUpdateParams) (fieldNum wireType : Z) (d : bytes) (iNdEx : Z)
    : option (res (apiMsgUpdateParams * Z)) :=
  if fieldNum =? 1 then Some (
    '(s, j) ← read_string PbRuntime "Authority" wireType d iNdEx;
    Ok (MkapiMsgUpdateParams (apiMsgUpdateParams_unknownFields x) s (apiMsgUpdateParams_Params x), j))
  else if fieldNum =? 2 then Some (
    '(s, j) ← read_message PbRuntime "Params" wireType d iNdEx;
    x' ← (p ← read_into PParams as_Params apiParams_zero fast_Params_methods discard s (apiMsgUpdateParams_Params x);
          Ok (MkapiMsgUpdateParams (apiMsgUpdateParams_unknownFields x) (apiMsgUpdateParams_Authority x) p));
    Ok (x', j))
  else None.

Definition fast_MsgUpdateParams_add_unknown (s : bytes) (x : apiMsgUpdateParams) : apiMsgUpdateParams :=
  apiMsgUpdateParams_with_unknown (append_unknown (apiMsgUpdateParams_unknownFields x) s) x.
Definition fast_MsgUpdateParams_unmarshal (discard : bool) (d : bytes) (input : ProtoMessage) : res ProtoMessage :=
  x ← as_MsgUpdateParams input;
  match x with
  | None => Ok input
  | Some x =>
      x ← Unmarshal_with PbRuntime "MsgUpdateParams" (keep_unknown fast_MsgUpdateParams_add_unknown discard) (fast_MsgUpdateParams_field discard) x d;
      Ok (PMsgUpdateParams (Some x))
  end.

Definition fast_MsgUpdateParams_methods : Methods := MkMethods fast_MsgUpdateParams_size fast_MsgUpdateParams_marshal fast_MsgUpdateParams_unmarshal.
End fast_MsgUpdateParams_defs.

(** *** Specification *)

Definition apiMsgUpdateParams_kinds : list (string * kind) := [
  ("halbornctf.hal.MsgUpdateParams.authority", KString);
  ("halbornctf.hal.MsgUpdateParams.params", KMessage (PParams None) (PParams (Some apiParams_zero)))].

Definition apiMsgUpdateParams_view (x : apiMsgUpdateParams) : list (string * Value) := [
  ("halbornctf.hal.MsgUpdateParams.authority", VString (apiMsgUpdateParams_Authority x));
  ("halbornctf.hal.MsgUpdateParams.params", VMessage (PParams (apiMsgUpdateParams_Params x)))].

Definition apiMsgUpdateParams_abs `{D : ProtoDesc} : Abstraction apiMsgUpdateParams := MkAbstraction PMsgUpdateParams apiMsgUpdateParams_zero apiMsgUpdateParams_kinds
  [fd_MsgUpdateParams_authority; fd_MsgUpdateParams_params] apiMsgUpdateParams_view apiMsgUpdateParams_unknownFields.

Section fast_MsgUpdateParams_lemmas.
Context `{ProtoRuntimeOk} `{ProtoDescOk}.

Definition apiMsgUpdateParams_enc (x : apiMsgUpdateParams) : bytes :=
  enc_string 0xa (apiMsgUpdateParams_Authority x) ++
  enc_ptr 0x12 apiParams_enc (apiMsgUpdateParams_Params x) ++
  default [] (apiMsgUpdateParams_unknownFields x).

Definition apiMsgUpdateParams_wf (dis : bool) (x : apiMsgUpdateParams) : Prop :=
  wf_ptr apiParams_wf dis (apiMsgUpdateParams_Params x) /\
  unknown_ok [1; 2] dis (apiMsgUpdateParams_unknownFields x).

Lemma fast_MsgUpdateParams_size_enc dis x : apiMsgUpdateParams_wf dis x -> len (apiMsgUpdateParams_enc x) < 2 ^ 63 ->
  fast_MsgUpdateParams_size (PMsgUpdateParams (Some x)) = Ok (len (apiMsgUpdateParams_enc x)).
Proof. solve_size apiMsgUpdateParams_wf apiMsgUpdateParams_enc fast_MsgUpdateParams_size as_MsgUpdateParams. Qed.

Lemma fast_MsgUpdateParams_writes dis x : apiMsgUpdateParams_wf dis x -> len (apiMsgUpdateParams_enc x) < 2 ^ 63 -> writes (fast_MsgUpdateParams_writer x) (apiMsgUpdateParams_enc x).
Proof. solve_pwrites apiMsgUpdateParams_wf apiMsgUpdateParams_enc fast_MsgUpdateParams_writer. Qed.

Lemma fast_MsgUpdateParams_field_ok dis : field_ok (fast_MsgUpdateParams_field dis).
Proof. intros x fn wt d i Hi Hd. unfold fast_MsgUpdateParams_field. solve_pfield_ok. Qed.

Lemma fast_MsgUpdateParams_reads dis x : apiMsgUpdateParams_wf dis x -> len (apiMsgUpdateParams_enc x) < 2 ^ 63 ->
  reads PbRuntime "MsgUpdateParams" (keep_unknown fast_MsgUpdateParams_add_unknown dis) (fast_MsgUpdateParams_field dis) apiMsgUpdateParams_zero (apiMsgUpdateParams_enc x) x.
Proof.
  unfold apiMsgUpdateParams_wf. intros (W0 & W1) L. pose proof (fast_MsgUpdateParams_field_ok dis).
  unfold apiMsgUpdateParams_enc in *. enc_bounds. eapply reads_conv.
  - 
    eapply reads_app; [eapply reads_string; reads_side|].
    eapply reads_app; [reads_pointer|].
    apply reads_unknown_fields with (known := [1; 2]) (getu := apiMsgUpdateParams_unknownFields) (setu := apiMsgUpdateParams_with_unknown);
      [assumption | other_fields fast_MsgUpdateParams_field | reflexivity | reflexivity | reflexivity | now intros [] | assumption | reflexivity].
  - now destruct x.
Qed.

Lemma fast_MsgUpdateParams_codec : codec_ok PMsgUpdateParams apiMsgUpdateParams_zero apiMsgUpdateParams_wf apiMsgUpdateParams_enc fast_MsgUpdateParams_methods.
Proof.
  solve_codec fast_MsgUpdateParams_size_enc fast_MsgUpdateParams_writes fast_MsgUpdateParams_field_ok fast_MsgUpdateParams_reads.
Qed.

Lemma fast_MsgUpdateParams_ok : ReflectionOk fast_MsgUpdateParams apiMsgUpdateParams_abs.
Proof. solve_reflection file_tx_parse file_tx_tables. Qed.
End fast_MsgUpdateParams_lemmas.
#[export] Hint Resolve fast_MsgUpdateParams_codec : pulsar.

(** ** [MsgUpdateParamsResponse] *)

Definition apiMsgUpdateParamsResponse_Reset (x : ptr apiMsgUpdateParamsResponse) : res (ptr apiMsgUpdateParamsResponse) := _ ← deref x; Ok (Some apiMsgUpdateParamsResponse_zero).

Section fast_MsgUpdateParamsResponse_defs.
Context `{R : ProtoRuntime} `{D : ProtoDesc}.

(** *** Descriptors *)

Definition md_MsgUpdateParamsResponse : MessageDescriptor := Messages_ByName File_tx "MsgUpdateParamsResponse".

(** *** Reflection *)

Definition fast_MsgUpdateParamsResponse_ProtoReflect (x : ptr apiMsgUpdateParamsResponse) : ProtoMessage := PMsgUpdateParamsResponse x.
Definition fast_MsgUpdateParamsResponse_messageType_Zero : ProtoMessage := PMsgUpdateParamsResponse None.
Definition fast_MsgUpdateParamsResponse_messageType_New : ProtoMessage := PMsgUpdateParamsResponse (Some apiMsgUpdateParamsResponse_zero).
Definition fast_MsgUpdateParamsResponse_messageType_Descriptor : MessageDescriptor := md_MsgUpdateParamsResponse.
Definition fast_MsgUpdateParamsResponse_Descriptor (x : ptr apiMsgUpdateParamsResponse) : MessageDescriptor := md_MsgUpdateParamsResponse.
Definition fast_MsgUpdateParamsResponse_New (x : ptr apiMsgUpdateParamsResponse) : ProtoMessage := PMsgUpdateParamsResponse (Some apiMsgUpdateParamsResponse_zero).
Definition fast_MsgUpdateParamsResponse_Interface (x : ptr apiMsgUpdateParamsResponse) : ProtoMessage := PMsgUpdateParamsResponse x.

Definition fast_MsgUpdateParamsResponse_Range {St} (x : ptr apiMsgUpdateParamsResponse) (f : FieldDescriptor -> Value -> St -> bool * St) (s : St) : res St :=
  Ok s.

Definition fast_MsgUpdateParamsResponse_Has (x : ptr apiMsgUpdateParamsResponse) (fd : FieldDescriptor) : res bool :=
  switch (FullName fd) [
  ] (no_field "halbornctf.hal.MsgUpdateParamsResponse" fd).

Definition fast_MsgUpdateParamsResponse_Clear (x : ptr apiMsgUpdateParamsResponse) (fd : FieldDescriptor) : res (ptr apiMsgUpdateParamsResponse) :=
  switch (FullName fd) [
  ] (no_field "halbornctf.hal.MsgUpdateParamsResponse" fd).

Definition fast_MsgUpdateParamsResponse_Get (x : ptr apiMsgUpdateParamsResponse) (fd : FieldDescriptor) : res Value :=
  switch (FullName fd) [
  ] (no_field "halbornctf.hal.MsgUpdateParamsResponse" fd).

Definition fast_MsgUpdateParamsResponse_Set (x : ptr apiMsgUpdateParamsResponse) (fd : FieldDescriptor) (value : Value) : res (ptr apiMsgUpdateParamsResponse) :=
  switch (FullName fd) [
  ] (no_field "halbornctf.hal.MsgUpdateParamsResponse" fd).

Definition fast_MsgUpdateParamsResponse_Mutable (x : ptr apiMsgUpdateParamsResponse) (fd : FieldDescriptor) : res (ptr apiMsgUpdateParamsResponse * Value) :=
  switch (FullName fd) [
  ] (no_field "halbornctf.hal.MsgUpdateParamsResponse" fd).

Definition fast_MsgUpdateParamsResponse_NewField (x : ptr apiMsgUpdateParamsResponse) (fd : FieldDescriptor) : res Value :=
  switch (FullName fd) [
  ] (no_field "halbornctf.hal.MsgUpdateParamsResponse" fd).

Definition fast_MsgUpdateParamsResponse_WhichOneof (x : ptr apiMsgUpdateParamsResponse) (d : string) : res FieldDescriptor := not_oneof "halbornctf.hal.MsgUpdateParamsResponse" d.
Definition fast_MsgUpdateParamsResponse_GetUnknown (x : ptr apiMsgUpdateParamsResponse) : res (option bytes) := x ← deref x; Ok (apiMsgUpdateParamsResponse_unknownFields x).
Definition apiMsgUpdateParamsResponse_with_unknown (u : option bytes) (x : apiMsgUpdateParamsResponse) : apiMsgUpdateParamsResponse :=
  MkapiMsgUpdateParamsResponse u.
Definition fast_MsgUpdateParamsResponse_SetUnknown (x : ptr apiMsgUpdateParamsResponse) (fields : option bytes) : res (ptr apiMsgUpdateParamsResponse) :=
  x ← deref x; Ok (Some (apiMsgUpdateParamsResponse_with_unknown fields x)).
Definition fast_MsgUpdateParamsResponse_IsValid (x : ptr apiMsgUpdateParamsResponse) : bool := is_set x.

Definition fast_MsgUpdateParamsResponse : Reflection apiMsgUpdateParamsResponse := MkReflection fast_MsgUpdateParamsResponse_Interface fast_MsgUpdateParamsResponse_messageType_New fast_MsgUpdateParamsResponse_messageType_Zero
  (@fast_MsgUpdateParamsResponse_Range) fast_MsgUpdateParamsResponse_Has fast_MsgUpdateParamsResponse_Clear fast_MsgUpdateParamsResponse_Get fast_MsgUpdateParamsResponse_Set fast_MsgUpdateParamsResponse_Mutable fast_MsgUpdateParamsResponse_NewField fast_MsgUpdateParamsResponse_WhichOneof
  fast_MsgUpdateParamsResponse_GetUnknown fast_MsgUpdateParamsResponse_SetUnknown fast_MsgUpdateParamsResponse_IsValid.

(** *** The fast path *)

Definition fast_MsgUpdateParamsResponse_size (input : ProtoMessage) : res Z :=
  x ← as_MsgUpdateParamsResponse input;
  match x with
  | None => Ok 0
  | Some x =>
      Ok (size_unknown (apiMsgUpdateParamsResponse_unknownFields x))
  end.

Definition fast_MsgUpdateParamsResponse_writer (x : apiMsgUpdateParamsResponse) : writer :=
  punknown (apiMsgUpdateParamsResponse_unknownFields x).

Definition fast_MsgUpdateParamsResponse_marshal (buf : option bytes) (input : ProtoMessage) : res (option bytes) :=
  x ← as_MsgUpdateParamsResponse input;
  match x with
  | None => Ok buf
  | Some x => fill_buf (options_Size fast_MsgUpdateParamsResponse_size (PMsgUpdateParamsResponse (Some x))) (fast_MsgUpdateParamsResponse_writer x) buf
  end.

Definition fast_MsgUpdateParamsResponse_field (discard : bool) (x : apiMsgUpdateParamsResponse) (fieldNum wireType : Z) (d : bytes) (iNdEx : Z)
    : option (res (apiMsgUpdateParamsResponse * Z)) :=
  None.

Definition fast_MsgUpdateParamsResponse_add_unknown (s : bytes) (x : apiMsgUpdateParamsResponse) : apiMsgUpdateParamsResponse :=
  apiMsgUpdateParamsResponse_with_unknown (append_unknown (apiMsgUpdateParamsResponse_unknownFields x) s) x.
Definition fast_MsgUpdateParamsResponse_unmarshal (discard : bool) (d : bytes) (input : ProtoMessage) : res ProtoMessage :=
  x ← as_MsgUpdateParamsResponse input;
  match x with
  | None => Ok input
  | Some x =>
      x ← Unmarshal_with PbRuntime "MsgUpdateParamsResponse" (keep_unknown fast_MsgUpdateParamsResponse_add_unknown discard) (fast_MsgUpdateParamsResponse_field discard) x d;
      Ok (PMsgUpdateParamsResponse (Some x))
  end.

Definition fast_MsgUpdateParamsResponse_methods : Methods := MkMethods fast_MsgUpdateParamsResponse_size fast_MsgUpdateParamsResponse_marshal fast_MsgUpdateParamsResponse_unmarshal.
End fast_MsgUpdateParamsResponse_defs.

(** *** Specification *)

Definition apiMsgUpdateParamsResponse_kinds : list (string * kind) := [].

Definition apiMsgUpdateParamsResponse_view (x : apiMsgUpdateParamsResponse) : list (string * Value) := [].

Definition apiMsgUpdateParamsResponse_abs `{D : ProtoDesc} : Abstraction apiMsgUpdateParamsResponse := MkAbstraction PMsgUpdateParamsResponse apiMsgUpdateParamsResponse_zero apiMsgUpdateParamsResponse_kinds
  [] apiMsgUpdateParamsResponse_view apiMsgUpdateParamsResponse_unknownFields.

Section fast_MsgUpdateParamsResponse_lemmas.
Context `{ProtoRuntimeOk} `{ProtoDescOk}.

Definition apiMsgUpdateParamsResponse_enc (x : apiMsgUpdateParamsResponse) : bytes :=
  default [] (apiMsgUpdateParamsResponse_unknownFields x).

Definition apiMsgUpdateParamsResponse_wf (dis : bool) (x : apiMsgUpdateParamsResponse) : Prop :=
  unknown_ok [] dis (apiMsgUpdateParamsResponse_unknownFields x).

Lemma fast_MsgUpdateParamsResponse_size_enc dis x : apiMsgUpdateParamsResponse_wf dis x -> len (apiMsgUpdateParamsResponse_enc x) < 2 ^ 63 ->
  fast_MsgUpdateParamsResponse_size (PMsgUpdateParamsResponse (Some x)) = Ok (len (apiMsgUpdateParamsResponse_enc x)).
Proof. solve_size apiMsgUpdateParamsResponse_wf apiMsgUpdateParamsResponse_enc fast_MsgUpdateParamsResponse_size as_MsgUpdateParamsResponse. Qed.

Lemma fast_MsgUpdateParamsResponse_writes dis x : apiMsgUpdateParamsResponse_wf dis x -> len (apiMsgUpdateParamsResponse_enc x) < 2 ^ 63 -> writes (fast_MsgUpdateParamsResponse_writer x) (apiMsgUpdateParamsResponse_enc x).
Proof. solve_pwrites apiMsgUpdateParamsResponse_wf apiMsgUpdateParamsResponse_enc fast_MsgUpdateParamsResponse_writer. Qed.

Lemma fast_MsgUpdateParamsResponse_field_ok dis : field_ok (fast_MsgUpdateParamsResponse_field dis).
Proof. intros x fn wt d i Hi Hd. unfold fast_MsgUpdateParamsResponse_field. solve_pfield_ok. Qed.

Lemma fast_MsgUpdateParamsResponse_reads dis x : apiMsgUpdateParamsResponse_wf dis x -> len (apiMsgUpdateParamsResponse_enc x) < 2 ^ 63 ->
  reads PbRuntime "MsgUpdateParamsResponse" (keep_unknown fast_MsgUpdateParamsResponse_add_unknown dis) (fast_MsgUpdateParamsResponse_field dis) apiMsgUpdateParamsResponse_zero (apiMsgUpdateParamsResponse_enc x) x.
Proof.
  unfold apiMsgUpdateParamsResponse_wf. intros W0 L. pose proof (fast_MsgUpdateParamsResponse_field_ok dis).
  unfold apiMsgUpdateParamsResponse_enc in *. enc_bounds. eapply reads_conv.
  - 
    apply reads_unknown_fields with (known := []) (getu := apiMsgUpdateParamsResponse_unknownFields) (setu := apiMsgUpdateParamsResponse_with_unknown);
      [assumption | other_fields fast_MsgUpdateParamsResponse_field | reflexivity | reflexivity | reflexivity | now intros [] | assumption | reflexivity].
  - now destruct x.
Qed.

Lemma fast_MsgUpdateParamsResponse_codec : codec_ok PMsgUpdateParamsResponse apiMsgUpdateParamsResponse_zero apiMsgUpdateParamsResponse_wf apiMsgUpdateParamsResponse_enc fast_MsgUpdateParamsResponse_methods.
Proof.
  solve_codec fast_MsgUpdateParamsResponse_size_enc fast_MsgUpdateParamsResponse_writes fast_MsgUpdateParamsResponse_field_ok fast_MsgUpdateParamsResponse_reads.
Qed.

Lemma fast_MsgUpdateParamsResponse_ok : ReflectionOk fast_MsgUpdateParamsResponse apiMsgUpdateParamsResponse_abs.
Proof. solve_reflection file_tx_parse file_tx_tables. Qed.
End fast_MsgUpdateParamsResponse_lemmas.
#[export] Hint Resolve fast_MsgUpdateParamsResponse_codec : pulsar.

(** ** [MsgMintHal] *)

Definition apiMsgMintHal_Reset (x : ptr apiMsgMintHal) : res (ptr apiMsgMintHal) := _ ← deref x; Ok (Some apiMsgMintHal_zero).
Definition apiMsgMintHal_GetCreator (x : ptr apiMsgMintHal) : gostring :=
  match x with Some x => apiMsgMintHal_Creator x | None => [] end.
Definition apiMsgMintHal_GetCollateralAmount (x : ptr apiMsgMintHal) : ptr apiCoin :=
  match x with Some x => apiMsgMintHal_CollateralAmount x | None => None end.

Section fast_MsgMintHal_defs.
Context `{R : ProtoRuntime} `{D : ProtoDesc}.

(** *** Descriptors *)

Definition md_MsgMintHal : MessageDescriptor := Messages_ByName File_tx "MsgMintHal".
Definition fd_MsgMintHal_creator : FieldDescriptor := Fields_ByName md_MsgMintHal "creator".
Definition fd_MsgMintHal_collateralAmount : FieldDescriptor := Fields_ByName md_MsgMintHal "collateralAmount".

(** *** Reflection *)

Definition fast_MsgMintHal_ProtoReflect (x : ptr apiMsgMintHal) : ProtoMessage := PMsgMintHal x.
Definition fast_MsgMintHal_messageType_Zero : ProtoMessage := PMsgMintHal None.
Definition fast_MsgMintHal_messageType_New : ProtoMessage := PMsgMintHal (Some apiMsgMintHal_zero).
Definition fast_MsgMintHal_messageType_Descriptor : MessageDescriptor := md_MsgMintHal.
Definition fast_MsgMintHal_Descriptor (x : ptr apiMsgMintHal) : MessageDescriptor := md_MsgMintHal.
Definition fast_MsgMintHal_New (x : ptr apiMsgMintHal) : ProtoMessage := PMsgMintHal (Some apiMsgMintHal_zero).
Definition fast_MsgMintHal_Interface (x : ptr apiMsgMintHal) : ProtoMessage := PMsgMintHal x.

Definition fast_MsgMintHal_Range {St} (x : ptr apiMsgMintHal) (f : FieldDescriptor -> Value -> St -> bool * St) (s : St) : res St :=
  x ← deref x;
  range_field (nonempty (apiMsgMintHal_Creator x)) fd_MsgMintHal_creator (VString (apiMsgMintHal_Creator x)) f (
  range_field (is_set (apiMsgMintHal_CollateralAmount x)) fd_MsgMintHal_collateralAmount (VMessage (PCoin (apiMsgMintHal_CollateralAmount x))) f (
  Ok)) s.

Definition fast_MsgMintHal_Has (x : ptr apiMsgMintHal) (fd : FieldDescriptor) : res bool :=
  switch (FullName fd) [
    ("halbornctf.hal.MsgMintHal.creator", x ← deref x; Ok (nonempty (apiMsgMintHal_Creator x)));
    ("halbornctf.hal.MsgMintHal.collateralAmount", x ← deref x; Ok (is_set (apiMsgMintHal_CollateralAmount x)))
  ] (no_field "halbornctf.hal.MsgMintHal" fd).

Definition fast_MsgMintHal_Clear (x : ptr apiMsgMintHal) (fd : FieldDescriptor) : res (ptr apiMsgMintHal) :=
  switch (FullName fd) [
    ("halbornctf.hal.MsgMintHal.creator", x ← deref x; Ok (Some (MkapiMsgMintHal (apiMsgMintHal_unknownFields x) [] (apiMsgMintHal_CollateralAmount x))));
    ("halbornctf.hal.MsgMintHal.collateralAmount", x ← deref x; Ok (Some (MkapiMsgMintHal (apiMsgMintHal_unknownFields x) (apiMsgMintHal_Creator x) None)))
  ] (no_field "halbornctf.hal.MsgMintHal" fd).

Definition fast_MsgMintHal_Get (x : ptr apiMsgMintHal) (fd : FieldDescriptor) : res Value :=
  switch (FullName fd) [
    ("halbornctf.hal.MsgMintHal.creator", x ← deref x; Ok (VString (apiMsgMintHal_Creator x)));
    ("halbornctf.hal.MsgMintHal.collateralAmount", x ← deref x; Ok (VMessage (PCoin (apiMsgMintHal_CollateralAmount x))))
  ] (no_field "halbornctf.hal.MsgMintHal" fd).

Definition fast_MsgMintHal_Set (x : ptr apiMsgMintHal) (fd : FieldDescriptor) (value : Value) : res (ptr apiMsgMintHal) :=
  switch (FullName fd) [
    ("halbornctf.hal.MsgMintHal.creator", v ← Value_string value; x ← deref x; Ok (Some (MkapiMsgMintHal (apiMsgMintHal_unknownFields x) v (apiMsgMintHal_CollateralAmount x))));
    ("halbornctf.hal.MsgMintHal.collateralAmount", v ← Value_Message value; v ← as_Coin v; x ← deref x; Ok (Some (MkapiMsgMintHal (apiMsgMintHal_unknownFields x) (apiMsgMintHal_Creator x) v)))
  ] (no_field "halbornctf.hal.MsgMintHal" fd).

Definition fast_MsgMintHal_Mutable (x : ptr apiMsgMintHal) (fd : FieldDescriptor) : res (ptr apiMsgMintHal * Value) :=
  switch (FullName fd) [
    ("halbornctf.hal.MsgMintHal.collateralAmount", x ← deref x;
      let x := if is_set (apiMsgMintHal_CollateralAmount x) then x else MkapiMsgMintHal (apiMsgMintHal_unknownFields x) (apiMsgMintHal_Creator x) (Some apiCoin_zero) in
      Ok (Some x, VMessage (PCoin (apiMsgMintHal_CollateralAmount x))));
    ("halbornctf.hal.MsgMintHal.creator", not_mutable "creator" "halbornctf.hal.MsgMintHal")
  ] (no_field "halbornctf.hal.MsgMintHal" fd).

Definition fast_MsgMintHal_NewField (x : ptr apiMsgMintHal) (fd : FieldDescriptor) : res Value :=
  switch (FullName fd) [
    ("halbornctf.hal.MsgMintHal.creator", Ok (VString []));
    ("halbornctf.hal.MsgMintHal.collateralAmount", Ok (VMessage (PCoin (Some apiCoin_zero))))
  ] (no_field "halbornctf.hal.MsgMintHal" fd).

Definition fast_MsgMintHal_WhichOneof (x : ptr apiMsgMintHal) (d : string) : res FieldDescriptor := not_oneof "halbornctf.hal.MsgMintHal" d.
Definition fast_MsgMintHal_GetUnknown (x : ptr apiMsgMintHal) : res (option bytes) := x ← deref x; Ok (apiMsgMintHal_unknownFields x).
Definition apiMsgMintHal_with_unknown (u : option bytes) (x : apiMsgMintHal) : apiMsgMintHal :=
  MkapiMsgMintHal u (apiMsgMintHal_Creator x) (apiMsgMintHal_CollateralAmount x).
Definition fast_MsgMintHal_SetUnknown (x : ptr apiMsgMintHal) (fields : option bytes) : res (ptr apiMsgMintHal) :=
  x ← deref x; Ok (Some (apiMsgMintHal_with_unknown fields x)).
Definition fast_MsgMintHal_IsValid (x : ptr apiMsgMintHal) : bool := is_set x.

Definition fast_MsgMintHal : Reflection apiMsgMintHal := MkReflection fast_MsgMintHal_Interface fast_MsgMintHal_messageType_New fast_MsgMintHal_messageType_Zero
  (@fast_MsgMintHal_Range) fast_MsgMintHal_Has fast_MsgMintHal_Clear fast_MsgMintHal_Get fast_MsgMintHal_Set fast_MsgMintHal_Mutable fast_MsgMintHal_NewField fast_MsgMintHal_WhichOneof
  fast_MsgMintHal_GetUnknown fast_MsgMintHal_SetUnknown fast_MsgMintHal_IsValid.

(** *** The fast path *)

Definition fast_MsgMintHal_size (input : ProtoMessage) : res Z :=
  x ← as_MsgMintHal input;
  match x with
  | None => Ok 0
  | Some x =>
      l2 ← size_message PCoin Coin_methods (apiMsgMintHal_CollateralAmount x);
      Ok (size_string (apiMsgMintHal_Creator x) + l2 + size_unknown (apiMsgMintHal_unknownFields x))
  end.

Definition fast_MsgMintHal_writer (x : apiMsgMintHal) : writer :=
  punknown (apiMsgMintHal_unknownFields x) >>
  pmessage 0x12 PCoin Coin_methods (apiMsgMintHal_CollateralAmount x) >>
  pstring 0xa (apiMsgMintHal_Creator x).

Definition fast_MsgMintHal_marshal (buf : option bytes) (input : ProtoMessage) : res (option bytes) :=
  x ← as_MsgMintHal input;
  match x with
  | None => Ok buf
  | Some x => fill_buf (options_Size fast_MsgMintHal_size (PMsgMintHal (Some x))) (fast_MsgMintHal_writer x) buf
  end.

Definition fast_MsgMintHal_field (discard : bool) (x : apiMsgMintHal) (fieldNum wireType : Z) (d : bytes) (iNdEx : Z)
    : option (res (apiMsgMintHal * Z)) :=
  if fieldNum =? 1 then Some (
    '(s, j) ← read_string PbRuntime "Creator" wireType d iNdEx;
    Ok (MkapiMsgMintHal (apiMsgMintHal_unknownFields x) s (apiMsgMintHal_CollateralAmount x), j))
  else if fieldNum =? 2 then Some (
    '(s, j) ← read_message PbRuntime "CollateralAmount" wireType d iNdEx;
    x' ← (p ← read_into PCoin as_Coin apiCoin_zero Coin_methods discard s (apiMsgMintHal_CollateralAmount x);
          Ok (MkapiMsgMintHal (apiMsgMintHal_unknownFields x) (apiMsgMintHal_Creator x) p));
    Ok (x', j))
  else None.

Definition fast_MsgMintHal_add_unknown (s : bytes) (x : apiMsgMintHal) : apiMsgMintHal :=
  apiMsgMintHal_with_unknown (append_unknown (apiMsgMintHal_unknownFields x) s) x.
Definition fast_MsgMintHal_unmarshal (discard : bool) (d : bytes) (input : ProtoMessage) : res ProtoMessage :=
  x ← as_MsgMintHal input;
  match x with
  | None => Ok input
  | Some x =>
      x ← Unmarshal_with PbRuntime "MsgMintHal" (keep_unknown fast_MsgMintHal_add_unknown discard) (fast_MsgMintHal_field discard) x d;
      Ok (PMsgMintHal (Some x))
  end.

Definition fast_MsgMintHal_methods : Methods := MkMethods fast_MsgMintHal_size fast_MsgMintHal_marshal fast_MsgMintHal_unmarshal.
End fast_MsgMintHal_defs.

(** *** Specification *)

Definition apiMsgMintHal_kinds : list (string * kind) := [
  ("halbornctf.hal.MsgMintHal.creator", KString);
  ("halbornctf.hal.MsgMintHal.collateralAmount", KMessage (PCoin None) (PCoin (Some apiCoin_zero)))].

Definition apiMsgMintHal_view (x : apiMsgMintHal) : list (string * Value) := [
  ("halbornctf.hal.MsgMintHal.creator", VString (apiMsgMintHal_Creator x));
  ("halbornctf.hal.MsgMintHal.collateralAmount", VMessage (PCoin (apiMsgMintHal_CollateralAmount x)))].

Definition apiMsgMintHal_abs `{D : ProtoDesc} : Abstraction apiMsgMintHal := MkAbstraction PMsgMintHal apiMsgMintHal_zero apiMsgMintHal_kinds
  [fd_MsgMintHal_creator; fd_MsgMintHal_collateralAmount] apiMsgMintHal_view apiMsgMintHal_unknownFields.

Section fast_MsgMintHal_lemmas.
Context `{ProtoRuntimeOk} `{ProtoDescOk}.

Definition apiMsgMintHal_enc (x : apiMsgMintHal) : bytes :=
  enc_string 0xa (apiMsgMintHal_Creator x) ++
  enc_ptr 0x12 apiCoin_enc (apiMsgMintHal_CollateralAmount x) ++
  default [] (apiMsgMintHal_unknownFields x).

Definition apiMsgMintHal_wf (dis : bool) (x : apiMsgMintHal) : Prop :=
  wf_ptr apiCoin_wf dis (apiMsgMintHal_CollateralAmount x) /\
  unknown_ok [1; 2] dis (apiMsgMintHal_unknownFields x).

Lemma fast_MsgMintHal_size_enc dis x : apiMsgMintHal_wf dis x -> len (apiMsgMintHal_enc x) < 2 ^ 63 ->
  fast_MsgMintHal_size (PMsgMintHal (Some x)) = Ok (len (apiMsgMintHal_enc x)).
Proof. solve_size apiMsgMintHal_wf apiMsgMintHal_enc fast_MsgMintHal_size as_MsgMintHal. Qed.

Lemma fast_MsgMintHal_writes dis x : apiMsgMintHal_wf dis x -> len (apiMsgMintHal_enc x) < 2 ^ 63 -> writes (fast_MsgMintHal_writer x) (apiMsgMintHal_enc x).
Proof. solve_pwrites apiMsgMintHal_wf apiMsgMintHal_enc fast_MsgMintHal_writer. Qed.

Lemma fast_MsgMintHal_field_ok dis : field_ok (fast_MsgMintHal_field dis).
Proof. intros x fn wt d i Hi Hd. unfold fast_MsgMintHal_field. solve_pfield_ok. Qed.

Lemma fast_MsgMintHal_reads dis x : apiMsgMintHal_wf dis x -> len (apiMsgMintHal_enc x) < 2 ^ 63 ->
  reads PbRuntime "MsgMintHal" (keep_unknown fast_MsgMintHal_add_unknown dis) (fast_MsgMintHal_field dis) apiMsgMintHal_zero (apiMsgMintHal_enc x) x.
Proof.
  unfold apiMsgMintHal_wf. intros (W0 & W1) L. pose proof (fast_MsgMintHal_field_ok dis).
  unfold apiMsgMintHal_enc in *. enc_bounds. eapply reads_conv.
  - 
    eapply reads_app; [eapply reads_string; reads_side|].
    eapply reads_app; [reads_pointer|].
    apply reads_unknown_fields with (known := [1; 2]) (getu := apiMsgMintHal_unknownFields) (setu := apiMsgMintHal_with_unknown);
      [assumption | other_fields fast_MsgMintHal_field | reflexivity | reflexivity | reflexivity | now intros [] | assumption | reflexivity].
  - now destruct x.
Qed.

Lemma fast_MsgMintHal_codec : codec_ok PMsgMintHal apiMsgMintHal_zero apiMsgMintHal_wf apiMsgMintHal_enc fast_MsgMintHal_methods.
Proof.
  solve_codec fast_MsgMintHal_size_enc fast_MsgMintHal_writes fast_MsgMintHal_field_ok fast_MsgMintHal_reads.
Qed.

Lemma fast_MsgMintHal_ok : ReflectionOk fast_MsgMintHal apiMsgMintHal_abs.
Proof. solve_reflection file_tx_parse file_tx_tables. Qed.
End fast_MsgMintHal_lemmas.
#[export] Hint Resolve fast_MsgMintHal_codec : pulsar.

(** ** [MsgMintHalResponse] *)

Definition apiMsgMintHalResponse_Reset (x : ptr apiMsgMintHalResponse) : res (ptr apiMsgMintHalResponse) := _ ← deref x; Ok (Some apiMsgMintHalResponse_zero).
Definition apiMsgMintHalResponse_GetMintedAmount (x : ptr apiMsgMintHalResponse) : ptr apiCoin :=
  match x with Some x => apiMsgMintHalResponse_MintedAmount x | None => None end.

Section fast_MsgMintHalResponse_defs.
Context `{R : ProtoRuntime} `{D : ProtoDesc}.

(** *** Descriptors *)

Definition md_MsgMintHalResponse : MessageDescriptor := Messages_ByName File_tx "MsgMintHalResponse".
Definition fd_MsgMintHalResponse_mintedAmount : FieldDescriptor := Fields_ByName md_MsgMintHalResponse "mintedAmount".

(** *** Reflection *)

Definition fast_MsgMintHalResponse_ProtoReflect (x : ptr apiMsgMintHalResponse) : ProtoMessage := PMsgMintHalResponse x.
Definition fast_MsgMintHalResponse_messageType_Zero : ProtoMessage := PMsgMintHalResponse None.
Definition fast_MsgMintHalResponse_messageType_New : ProtoMessage := PMsgMintHalResponse (Some apiMsgMintHalResponse_zero).
Definition fast_MsgMintHalResponse_messageType_Descriptor : MessageDescriptor := md_MsgMintHalResponse.
Definition fast_MsgMintHalResponse_Descriptor (x : ptr apiMsgMintHalResponse) : MessageDescriptor := md_MsgMintHalResponse.
Definition fast_MsgMintHalResponse_New (x : ptr apiMsgMintHalResponse) : ProtoMessage := PMsgMintHalResponse (Some apiMsgMintHalResponse_zero).
Definition fast_MsgMintHalResponse_Interface (x : ptr apiMsgMintHalResponse) : ProtoMessage := PMsgMintHalResponse x.

Definition fast_MsgMintHalResponse_Range {St} (x : ptr apiMsgMintHalResponse) (f : FieldDescriptor -> Value -> St -> bool * St) (s : St) : res St :=
  x ← deref x;
  range_field (is_set (apiMsgMintHalResponse_MintedAmount x)) fd_MsgMintHalResponse_mintedAmount (VMessage (PCoin (apiMsgMintHalResponse_MintedAmount x))) f (
  Ok) s.

Definition fast_MsgMintHalResponse_Has (x : ptr apiMsgMintHalResponse) (fd : FieldDescriptor) : res bool :=
  switch (FullName fd) [
    ("halbornctf.hal.MsgMintHalResponse.mintedAmount", x ← deref x; Ok (is_set (apiMsgMintHalResponse_MintedAmount x)))
  ] (no_field "halbornctf.hal.MsgMintHalResponse" fd).

Definition fast_MsgMintHalResponse_Clear (x : ptr apiMsgMintHalResponse) (fd : FieldDescriptor) : res (ptr apiMsgMintHalResponse) :=
  switch (FullName fd) [
    ("halbornctf.hal.MsgMintHalResponse.mintedAmount", x ← deref x; Ok (Some (MkapiMsgMintHalResponse (apiMsgMintHalResponse_unknownFields x) None)))
  ] (no_field "halbornctf.hal.MsgMintHalResponse" fd).

Definition fast_MsgMintHalResponse_Get (x : ptr apiMsgMintHalResponse) (fd : FieldDescriptor) : res Value :=
  switch (FullName fd) [
    ("halbornctf.hal.MsgMintHalResponse.mintedAmount", x ← deref x; Ok (VMessage (PCoin (apiMsgMintHalResponse_MintedAmount x))))
  ] (no_field "halbornctf.hal.MsgMintHalResponse" fd).

Definition fast_MsgMintHalResponse_Set (x : ptr apiMsgMintHalResponse) (fd : FieldDescriptor) (value : Value) : res (ptr apiMsgMintHalResponse) :=
  switch (FullName fd) [
    ("halbornctf.hal.MsgMintHalResponse.mintedAmount", v ← Value_Message value; v ← as_Coin v; x ← deref x; Ok (Some (MkapiMsgMintHalResponse (apiMsgMintHalResponse_unknownFields x) v)))
  ] (no_field "halbornctf.hal.MsgMintHalResponse" fd).

Definition fast_MsgMintHalResponse_Mutable (x : ptr apiMsgMintHalResponse) (fd : FieldDescriptor) : res (ptr apiMsgMintHalResponse * Value) :=
  switch (FullName fd) [
    ("halbornctf.hal.MsgMintHalResponse.mintedAmount", x ← deref x;
      let x := if is_set (apiMsgMintHalResponse_MintedAmount x) then x else MkapiMsgMintHalResponse (apiMsgMintHalResponse_unknownFields x) (Some apiCoin_zero) in
      Ok (Some x, VMessage (PCoin (apiMsgMintHalResponse_MintedAmount x))))
  ] (no_field "halbornctf.hal.MsgMintHalResponse" fd).

Definition fast_MsgMintHalResponse_NewField (x : ptr apiMsgMintHalResponse) (fd : FieldDescriptor) : res Value :=
  switch (FullName fd) [
    ("halbornctf.hal.MsgMintHalResponse.mintedAmount", Ok (VMessage (PCoin (Some apiCoin_zero))))
  ] (no_field "halbornctf.hal.MsgMintHalResponse" fd).

Definition fast_MsgMintHalResponse_WhichOneof (x : ptr apiMsgMintHalResponse) (d : string) : res FieldDescriptor := not_oneof "halbornctf.hal.MsgMintHalResponse" d.
Definition fast_MsgMintHalResponse_GetUnknown (x : ptr apiMsgMintHalResponse) : res (option bytes) := x ← deref x; Ok (apiMsgMintHalResponse_unknownFields x).
Definition apiMsgMintHalResponse_with_unknown (u : option bytes) (x : apiMsgMintHalResponse) : apiMsgMintHalResponse :=
  MkapiMsgMintHalResponse u (apiMsgMintHalResponse_MintedAmount x).
Definition fast_MsgMintHalResponse_SetUnknown (x : ptr apiMsgMintHalResponse) (fields : option bytes) : res (ptr apiMsgMintHalResponse) :=
  x ← deref x; Ok (Some (apiMsgMintHalResponse_with_unknown fields x)).
Definition fast_MsgMintHalResponse_IsValid (x : ptr apiMsgMintHalResponse) : bool := is_set x.

Definition fast_MsgMintHalResponse : Reflection apiMsgMintHalResponse := MkReflection fast_MsgMintHalResponse_Interface fast_MsgMintHalResponse_messageType_New fast_MsgMintHalResponse_messageType_Zero
  (@fast_MsgMintHalResponse_Range) fast_MsgMintHalResponse_Has fast_MsgMintHalResponse_Clear fast_MsgMintHalResponse_Get fast_MsgMintHalResponse_Set fast_MsgMintHalResponse_Mutable fast_MsgMintHalResponse_NewField fast_MsgMintHalResponse_WhichOneof
  fast_MsgMintHalResponse_GetUnknown fast_MsgMintHalResponse_SetUnknown fast_MsgMintHalResponse_IsValid.

(** *** The fast path *)

Definition fast_MsgMintHalResponse_size (input : ProtoMessage) : res Z :=
  x ← as_MsgMintHalResponse input;
  match x with
  | None => Ok 0
  | Some x =>
      l1 ← size_message PCoin Coin_methods (apiMsgMintHalResponse_MintedAmount x);
      Ok (l1 + size_unknown (apiMsgMintHalResponse_unknownFields x))
  end.

Definition fast_MsgMintHalResponse_writer (x : apiMsgMintHalResponse) : writer :=
  punknown (apiMsgMintHalResponse_unknownFields x) >>
  pmessage 0xa PCoin Coin_methods (apiMsgMintHalResponse_MintedAmount x).

Definition fast_MsgMintHalResponse_marshal (buf : option bytes) (input : ProtoMessage) : res (option bytes) :=
  x ← as_MsgMintHalResponse input;
  match x with
  | None => Ok buf
  | Some x => fill_buf (options_Size fast_MsgMintHalResponse_size (PMsgMintHalResponse (Some x))) (fast_MsgMintHalResponse_writer x) buf
  end.

Definition fast_MsgMintHalResponse_field (discard : bool) (x : apiMsgMintHalResponse) (fieldNum wireType : Z) (d : bytes) (iNdEx : Z)
    : option (res (apiMsgMintHalResponse * Z)) :=
  if fieldNum =? 1 then Some (
    '(s, j) ← read_message PbRuntime "MintedAmount" wireType d iNdEx;
    x' ← (p ← read_into PCoin as_Coin apiCoin_zero Coin_methods discard s (apiMsgMintHalResponse_MintedAmount x);
          Ok (MkapiMsgMintHalResponse (apiMsgMintHalResponse_unknownFields x) p));
    Ok (x', j))
  else None.

Definition fast_MsgMintHalResponse_add_unknown (s : bytes) (x : apiMsgMintHalResponse) : apiMsgMintHalResponse :=
  apiMsgMintHalResponse_with_unknown (append_unknown (apiMsgMintHalResponse_unknownFields x) s) x.
Definition fast_MsgMintHalResponse_unmarshal (discard : bool) (d : bytes) (input : ProtoMessage) : res ProtoMessage :=
  x ← as_MsgMintHalResponse input;
  match x with
  | None => Ok input
  | Some x =>
      x ← Unmarshal_with PbRuntime "MsgMintHalResponse" (keep_unknown fast_MsgMintHalResponse_add_unknown discard) (fast_MsgMintHalResponse_field discard) x d;
      Ok (PMsgMintHalResponse (Some x))
  end.

Definition fast_MsgMintHalResponse_methods : Methods := MkMethods fast_MsgMintHalResponse_size fast_MsgMintHalResponse_marshal fast_MsgMintHalResponse_unmarshal.
End fast_MsgMintHalResponse_defs.

(** *** Specification *)

Definition apiMsgMintHalResponse_kinds : list (string * kind) := [
  ("halbornctf.hal.MsgMintHalResponse.mintedAmount", KMessage (PCoin None) (PCoin (Some apiCoin_zero)))].

Definition apiMsgMintHalResponse_view (x : apiMsgMintHalResponse) : list (string * Value) := [
  ("halbornctf.hal.MsgMintHalResponse.mintedAmount", VMessage (PCoin (apiMsgMintHalResponse_MintedAmount x)))].

Definition apiMsgMintHalResponse_abs `{D : ProtoDesc} : Abstraction apiMsgMintHalResponse := MkAbstraction PMsgMintHalResponse apiMsgMintHalResponse_zero apiMsgMintHalResponse_kinds
  [fd_MsgMintHalResponse_mintedAmount] apiMsgMintHalResponse_view apiMsgMintHalResponse_unknownFields.

Section fast_MsgMintHalResponse_lemmas.
Context `{ProtoRuntimeOk} `{ProtoDescOk}.

Definition apiMsgMintHalResponse_enc (x : apiMsgMintHalResponse) : bytes :=
  enc_ptr 0xa apiCoin_enc (apiMsgMintHalResponse_MintedAmount x) ++
  default [] (apiMsgMintHalResponse_unknownFields x).

Definition apiMsgMintHalResponse_wf (dis : bool) (x : apiMsgMintHalResponse) : Prop :=
  wf_ptr apiCoin_wf dis (apiMsgMintHalResponse_MintedAmount x) /\
  unknown_ok [1] dis (apiMsgMintHalResponse_unknownFields x).

Lemma fast_MsgMintHalResponse_size_enc dis x : apiMsgMintHalResponse_wf dis x -> len (apiMsgMintHalResponse_enc x) < 2 ^ 63 ->
  fast_MsgMintHalResponse_size (PMsgMintHalResponse (Some x)) = Ok (len (apiMsgMintHalResponse_enc x)).
Proof. solve_size apiMsgMintHalResponse_wf apiMsgMintHalResponse_enc fast_MsgMintHalResponse_size as_MsgMintHalResponse. Qed.

Lemma fast_MsgMintHalResponse_writes dis x : apiMsgMintHalResponse_wf dis x -> len (apiMsgMintHalResponse_enc x) < 2 ^ 63 -> writes (fast_MsgMintHalResponse_writer x) (apiMsgMintHalResponse_enc x).
Proof. solve_pwrites apiMsgMintHalResponse_wf apiMsgMintHalResponse_enc fast_MsgMintHalResponse_writer. Qed.

Lemma fast_MsgMintHalResponse_field_ok dis : field_ok (fast_MsgMintHalResponse_field dis).
Proof. intros x fn wt d i Hi Hd. unfold fast_MsgMintHalResponse_field. solve_pfield_ok. Qed.

Lemma fast_MsgMintHalResponse_reads dis x : apiMsgMintHalResponse_wf dis x -> len (apiMsgMintHalResponse_enc x) < 2 ^ 63 ->
  reads PbRuntime "MsgMintHalResponse" (keep_unknown fast_MsgMintHalResponse_add_unknown dis) (fast_MsgMintHalResponse_field dis) apiMsgMintHalResponse_zero (apiMsgMintHalResponse_enc x) x.
Proof.
  unfold apiMsgMintHalResponse_wf. intros (W0 & W1) L. pose proof (fast_MsgMintHalResponse_field_ok dis).
  unfold apiMsgMintHalResponse_enc in *. enc_bounds. eapply reads_conv.
  - 
    eapply reads_app; [reads_pointer|].
    apply reads_unknown_fields with (known := [1]) (getu := apiMsgMintHalResponse_unknownFields) (setu := apiMsgMintHalResponse_with_unknown);
      [assumption | other_fields fast_MsgMintHalResponse_field | reflexivity | reflexivity | reflexivity | now intros [] | assumption | reflexivity].
  - now destruct x.
Qed.

Lemma fast_MsgMintHalResponse_codec : codec_ok PMsgMintHalResponse apiMsgMintHalResponse_zero apiMsgMintHalResponse_wf apiMsgMintHalResponse_enc fast_MsgMintHalResponse_methods.
Proof.
  solve_codec fast_MsgMintHalResponse_size_enc fast_MsgMintHalResponse_writes fast_MsgMintHalResponse_field_ok fast_MsgMintHalResponse_reads.
Qed.

Lemma fast_MsgMintHalResponse_ok : ReflectionOk fast_MsgMintHalResponse apiMsgMintHalResponse_abs.
Proof. solve_reflection file_tx_parse file_tx_tables. Qed.
End fast_MsgMintHalResponse_lemmas.
#[export] Hint Resolve fast_MsgMintHalResponse_codec : pulsar.

(** ** [MsgRedeemCollateral] *)

Definition apiMsgRedeemCollateral_Reset (x : ptr apiMsgRedeemCollateral) : res (ptr apiMsgRedeemCollateral) := _ ← deref x; Ok (Some apiMsgRedeemCollateral_zero).
Definition apiMsgRedeemCollateral_GetCreator (x : ptr apiMsgRedeemCollateral) : gostring :=
  match x with Some x => apiMsgRedeemCollateral_Creator x | None => [] end.
Definition apiMsgRedeemCollateral_GetHalAmount (x : ptr apiMsgRedeemCollateral) : ptr apiCoin :=
  match x with Some x => apiMsgRedeemCollateral_HalAmount x | None => None end.

Section fast_MsgRedeemCollateral_defs.
Context `{R : ProtoRuntime} `{D : ProtoDesc}.

(** *** Descriptors *)

Definition md_MsgRedeemCollateral : MessageDescriptor := Messages_ByName File_tx "MsgRedeemCollateral".
Definition fd_MsgRedeemCollateral_creator : FieldDescriptor := Fields_ByName md_MsgRedeemCollateral "creator".
Definition fd_MsgRedeemCollateral_halAmount : FieldDescriptor := Fields_ByName md_MsgRedeemCollateral "halAmount".

(** *** Reflection *)

Definition fast_MsgRedeemCollateral_ProtoReflect (x : ptr apiMsgRedeemCollateral) : ProtoMessage := PMsgRedeemCollateral x.
Definition fast_MsgRedeemCollateral_messageType_Zero : ProtoMessage := PMsgRedeemCollateral None.
Definition fast_MsgRedeemCollateral_messageType_New : ProtoMessage := PMsgRedeemCollateral (Some apiMsgRedeemCollateral_zero).
Definition fast_MsgRedeemCollateral_messageType_Descriptor : MessageDescriptor := md_MsgRedeemCollateral.
Definition fast_MsgRedeemCollateral_Descriptor (x : ptr apiMsgRedeemCollateral) : MessageDescriptor := md_MsgRedeemCollateral.
Definition fast_MsgRedeemCollateral_New (x : ptr apiMsgRedeemCollateral) : ProtoMessage := PMsgRedeemCollateral (Some apiMsgRedeemCollateral_zero).
Definition fast_MsgRedeemCollateral_Interface (x : ptr apiMsgRedeemCollateral) : ProtoMessage := PMsgRedeemCollateral x.

Definition fast_MsgRedeemCollateral_Range {St} (x : ptr apiMsgRedeemCollateral) (f : FieldDescriptor -> Value -> St -> bool * St) (s : St) : res St :=
  x ← deref x;
  range_field (nonempty (apiMsgRedeemCollateral_Creator x)) fd_MsgRedeemCollateral_creator (VString (apiMsgRedeemCollateral_Creator x)) f (
  range_field (is_set (apiMsgRedeemCollateral_HalAmount x)) fd_MsgRedeemCollateral_halAmount (VMessage (PCoin (apiMsgRedeemCollateral_HalAmount x))) f (
  Ok)) s.

Definition fast_MsgRedeemCollateral_Has (x : ptr apiMsgRedeemCollateral) (fd : FieldDescriptor) : res bool :=
  switch (FullName fd) [
    ("halbornctf.hal.MsgRedeemCollateral.creator", x ← deref x; Ok (nonempty (apiMsgRedeemCollateral_Creator x)));
    ("halbornctf.hal.MsgRedeemCollateral.halAmount", x ← deref x; Ok (is_set (apiMsgRedeemCollateral_HalAmount x)))
  ] (no_field "halbornctf.hal.MsgRedeemCollateral" fd).

Definition fast_MsgRedeemCollateral_Clear (x : ptr apiMsgRedeemCollateral) (fd : FieldDescriptor) : res (ptr apiMsgRedeemCollateral) :=
  switch (FullName fd) [
    ("halbornctf.hal.MsgRedeemCollateral.creator", x ← deref x; Ok (Some (MkapiMsgRedeemCollateral (apiMsgRedeemCollateral_unknownFields x) [] (apiMsgRedeemCollateral_HalAmount x))));
    ("halbornctf.hal.MsgRedeemCollateral.halAmount", x ← deref x; Ok (Some (MkapiMsgRedeemCollateral (apiMsgRedeemCollateral_unknownFields x) (apiMsgRedeemCollateral_Creator x) None)))
  ] (no_field "halbornctf.hal.MsgRedeemCollateral" fd).

Definition fast_MsgRedeemCollateral_Get (x : ptr apiMsgRedeemCollateral) (fd : FieldDescriptor) : res Value :=
  switch (FullName fd) [
    ("halbornctf.hal.MsgRedeemCollateral.creator", x ← deref x; Ok (VString (apiMsgRedeemCollateral_Creator x)));
    ("halbornctf.hal.MsgRedeemCollateral.halAmount", x ← deref x; Ok (VMessage (PCoin (apiMsgRedeemCollateral_HalAmount x))))
  ] (no_field "halbornctf.hal.MsgRedeemCollateral" fd).

Definition fast_MsgRedeemCollateral_Set (x : ptr apiMsgRedeemCollateral) (fd : FieldDescriptor) (value : Value) : res (ptr apiMsgRedeemCollateral) :=
  switch (FullName fd) [
    ("halbornctf.hal.MsgRedeemCollateral.creator", v ← Value_string value; x ← deref x; Ok (Some (MkapiMsgRedeemCollateral (apiMsgRedeemCollateral_unknownFields x) v (apiMsgRedeemCollateral_HalAmount x))));
    ("halbornctf.hal.MsgRedeemCollateral.halAmount", v ← Value_Message value; v ← as_Coin v; x ← deref x; Ok (Some (MkapiMsgRedeemCollateral (apiMsgRedeemCollateral_unknownFields x) (apiMsgRedeemCollateral_Creator x) v)))
  ] (no_field "halbornctf.hal.MsgRedeemCollateral" fd).

Definition fast_MsgRedeemCollateral_Mutable (x : ptr apiMsgRedeemCollateral) (fd : FieldDescriptor) : res (ptr apiMsgRedeemCollateral * Value) :=
  switch (FullName fd) [
    ("halbornctf.hal.MsgRedeemCollateral.halAmount", x ← deref x;
      let x := if is_set (apiMsgRedeemCollateral_HalAmount x) then x else MkapiMsgRedeemCollateral (apiMsgRedeemCollateral_unknownFields x) (apiMsgRedeemCollateral_Creator x) (Some apiCoin_zero) in
      Ok (Some x, VMessage (PCoin (apiMsgRedeemCollateral_HalAmount x))));
    ("halbornctf.hal.MsgRedeemCollateral.creator", not_mutable "creator" "halbornctf.hal.MsgRedeemCollateral")
  ] (no_field "halbornctf.hal.MsgRedeemCollateral" fd).

Definition fast_MsgRedeemCollateral_NewField (x : ptr apiMsgRedeemCollateral) (fd : FieldDescriptor) : res Value :=
  switch (FullName fd) [
    ("halbornctf.hal.MsgRedeemCollateral.creator", Ok (VString []));
    ("halbornctf.hal.MsgRedeemCollateral.halAmount", Ok (VMessage (PCoin (Some apiCoin_zero))))
  ] (no_field "halbornctf.hal.MsgRedeemCollateral" fd).

Definition fast_MsgRedeemCollateral_WhichOneof (x : ptr apiMsgRedeemCollateral) (d : string) : res FieldDescriptor := not_oneof "halbornctf.hal.MsgRedeemCollateral" d.
Definition fast_MsgRedeemCollateral_GetUnknown (x : ptr apiMsgRedeemCollateral) : res (option bytes) := x ← deref x; Ok (apiMsgRedeemCollateral_unknownFields x).
Definition apiMsgRedeemCollateral_with_unknown (u : option bytes) (x : apiMsgRedeemCollateral) : apiMsgRedeemCollateral :=
  MkapiMsgRedeemCollateral u (apiMsgRedeemCollateral_Creator x) (apiMsgRedeemCollateral_HalAmount x).
Definition fast_MsgRedeemCollateral_SetUnknown (x : ptr apiMsgRedeemCollateral) (fields : option bytes) : res (ptr apiMsgRedeemCollateral) :=
  x ← deref x; Ok (Some (apiMsgRedeemCollateral_with_unknown fields x)).
Definition fast_MsgRedeemCollateral_IsValid (x : ptr apiMsgRedeemCollateral) : bool := is_set x.

Definition fast_MsgRedeemCollateral : Reflection apiMsgRedeemCollateral := MkReflection fast_MsgRedeemCollateral_Interface fast_MsgRedeemCollateral_messageType_New fast_MsgRedeemCollateral_messageType_Zero
  (@fast_MsgRedeemCollateral_Range) fast_MsgRedeemCollateral_Has fast_MsgRedeemCollateral_Clear fast_MsgRedeemCollateral_Get fast_MsgRedeemCollateral_Set fast_MsgRedeemCollateral_Mutable fast_MsgRedeemCollateral_NewField fast_MsgRedeemCollateral_WhichOneof
  fast_MsgRedeemCollateral_GetUnknown fast_MsgRedeemCollateral_SetUnknown fast_MsgRedeemCollateral_IsValid.

(** *** The fast path *)

Definition fast_MsgRedeemCollateral_size (input : ProtoMessage) : res Z :=
  x ← as_MsgRedeemCollateral input;
  match x with
  | None => Ok 0
  | Some x =>
      l2 ← size_message PCoin Coin_methods (apiMsgRedeemCollateral_HalAmount x);
      Ok (size_string (apiMsgRedeemCollateral_Creator x) + l2 + size_unknown (apiMsgRedeemCollateral_unknownFields x))
  end.

Definition fast_MsgRedeemCollateral_writer (x : apiMsgRedeemCollateral) : writer :=
  punknown (apiMsgRedeemCollateral_unknownFields x) >>
  pmessage 0x12 PCoin Coin_methods (apiMsgRedeemCollateral_HalAmount x) >>
  pstring 0xa (apiMsgRedeemCollateral_Creator x).

Definition fast_MsgRedeemCollateral_marshal (buf : option bytes) (input : ProtoMessage) : res (option bytes) :=
  x ← as_MsgRedeemCollateral input;
  match x with
  | None => Ok buf
  | Some x => fill_buf (options_Size fast_MsgRedeemCollateral_size (PMsgRedeemCollateral (Some x))) (fast_MsgRedeemCollateral_writer x) buf
  end.

Definition fast_MsgRedeemCollateral_field (discard : bool) (x : apiMsgRedeemCollateral) (fieldNum wireType : Z) (d : bytes) (iNdEx : Z)
    : option (res (apiMsgRedeemCollateral * Z)) :=
  if fieldNum =? 1 then Some (
    '(s, j) ← read_string PbRuntime "Creator" wireType d iNdEx;
    Ok (MkapiMsgRedeemCollateral (apiMsgRedeemCollateral_unknownFields x) s (apiMsgRedeemCollateral_HalAmount x), j))
  else if fieldNum =? 2 then Some (
    '(s, j) ← read_message PbRuntime "HalAmount" wireType d iNdEx;
    x' ← (p ← read_into PCoin as_Coin apiCoin_zero Coin_methods discard s (apiMsgRedeemCollateral_HalAmount x);
          Ok (MkapiMsgRedeemCollateral (apiMsgRedeemCollateral_unknownFields x) (apiMsgRedeemCollateral_Creator x) p));
    Ok (x', j))
  else None.

Definition fast_MsgRedeemCollateral_add_unknown (s : bytes) (x : apiMsgRedeemCollateral) : apiMsgRedeemCollateral :=
  apiMsgRedeemCollateral_with_unknown (append_unknown (apiMsgRedeemCollateral_unknownFields x) s) x.
Definition fast_MsgRedeemCollateral_unmarshal (discard : bool) (d : bytes) (input : ProtoMessage) : res ProtoMessage :=
  x ← as_MsgRedeemCollateral input;
  match x with
  | None => Ok input
  | Some x =>
      x ← Unmarshal_with PbRuntime "MsgRedeemCollateral" (keep_unknown fast_MsgRedeemCollateral_add_unknown discard) (fast_MsgRedeemCollateral_field discard) x d;
      Ok (PMsgRedeemCollateral (Some x))
  end.

Definition fast_MsgRedeemCollateral_methods : Methods := MkMethods fast_MsgRedeemCollateral_size fast_MsgRedeemCollateral_marshal fast_MsgRedeemCollateral_unmarshal.
End fast_MsgRedeemCollateral_defs.

(** *** Specification *)

Definition apiMsgRedeemCollateral_kinds : list (string * kind) := [
  ("halbornctf.hal.MsgRedeemCollateral.creator", KString);
  ("halbornctf.hal.MsgRedeemCollateral.halAmount", KMessage (PCoin None) (PCoin (Some apiCoin_zero)))].

Definition apiMsgRedeemCollateral_view (x : apiMsgRedeemCollateral) : list (string * Value) := [
  ("halbornctf.hal.MsgRedeemCollateral.creator", VString (apiMsgRedeemCollateral_Creator x));
  ("halbornctf.hal.MsgRedeemCollateral.halAmount", VMessage (PCoin (apiMsgRedeemCollateral_HalAmount x)))].

Definition apiMsgRedeemCollateral_abs `{D : ProtoDesc} : Abstraction apiMsgRedeemCollateral := MkAbstraction PMsgRedeemCollateral apiMsgRedeemCollateral_zero apiMsgRedeemCollateral_kinds
  [fd_MsgRedeemCollateral_creator; fd_MsgRedeemCollateral_halAmount] apiMsgRedeemCollateral_view apiMsgRedeemCollateral_unknownFields.

Section fast_MsgRedeemCollateral_lemmas.
Context `{ProtoRuntimeOk} `{ProtoDescOk}.

Definition apiMsgRedeemCollateral_enc (x : apiMsgRedeemCollateral) : bytes :=
  enc_string 0xa (apiMsgRedeemCollateral_Creator x) ++
  enc_ptr 0x12 apiCoin_enc (apiMsgRedeemCollateral_HalAmount x) ++
  default [] (apiMsgRedeemCollateral_unknownFields x).

Definition apiMsgRedeemCollateral_wf (dis : bool) (x : apiMsgRedeemCollateral) : Prop :=
  wf_ptr apiCoin_wf dis (apiMsgRedeemCollateral_HalAmount x) /\
  unknown_ok [1; 2] dis (apiMsgRedeemCollateral_unknownFields x).

Lemma fast_MsgRedeemCollateral_size_enc dis x : apiMsgRedeemCollateral_wf dis x -> len (apiMsgRedeemCollateral_enc x) < 2 ^ 63 ->
  fast_MsgRedeemCollateral_size (PMsgRedeemCollateral (Some x)) = Ok (len (apiMsgRedeemCollateral_enc x)).
Proof. solve_size apiMsgRedeemCollateral_wf apiMsgRedeemCollateral_enc fast_MsgRedeemCollateral_size as_MsgRedeemCollateral. Qed.

Lemma fast_MsgRedeemCollateral_writes dis x : apiMsgRedeemCollateral_wf dis x -> len (apiMsgRedeemCollateral_enc x) < 2 ^ 63 -> writes (fast_MsgRedeemCollateral_writer x) (apiMsgRedeemCollateral_enc x).
Proof. solve_pwrites apiMsgRedeemCollateral_wf apiMsgRedeemCollateral_enc fast_MsgRedeemCollateral_writer. Qed.

Lemma fast_MsgRedeemCollateral_field_ok dis : field_ok (fast_MsgRedeemCollateral_field dis).
Proof. intros x fn wt d i Hi Hd. unfold fast_MsgRedeemCollateral_field. solve_pfield_ok. Qed.

Lemma fast_MsgRedeemCollateral_reads dis x : apiMsgRedeemCollateral_wf dis x -> len (apiMsgRedeemCollateral_enc x) < 2 ^ 63 ->
  reads PbRuntime "MsgRedeemCollateral" (keep_unknown fast_MsgRedeemCollateral_add_unknown dis) (fast_MsgRedeemCollateral_field dis) apiMsgRedeemCollateral_zero (apiMsgRedeemCollateral_enc x) x.
Proof.
  unfold apiMsgRedeemCollateral_wf. intros (W0 & W1) L. pose proof (fast_MsgRedeemCollateral_field_ok dis).
  unfold apiMsgRedeemCollateral_enc in *. enc_bounds. eapply reads_conv.
  - 
    eapply reads_app; [eapply reads_string; reads_side|].
    eapply reads_app; [reads_pointer|].
    apply reads_unknown_fields with (known := [1; 2]) (getu := apiMsgRedeemCollateral_unknownFields) (setu := apiMsgRedeemCollateral_with_unknown);
      [assumption | other_fields fast_MsgRedeemCollateral_field | reflexivity | reflexivity | reflexivity | now intros [] | assumption | reflexivity].
  - now destruct x.
Qed.

Lemma fast_MsgRedeemCollateral_codec : codec_ok PMsgRedeemCollateral apiMsgRedeemCollateral_zero apiMsgRedeemCollateral_wf apiMsgRedeemCollateral_enc fast_MsgRedeemCollateral_methods.
Proof.
  solve_codec fast_MsgRedeemCollateral_size_enc fast_MsgRedeemCollateral_writes fast_MsgRedeemCollateral_field_ok fast_MsgRedeemCollateral_reads.
Qed.

Lemma fast_MsgRedeemCollateral_ok : ReflectionOk fast_MsgRedeemCollateral apiMsgRedeemCollateral_abs.
Proof. solve_reflection file_tx_parse file_tx_tables. Qed.
End fast_MsgRedeemCollateral_lemmas.
#[export] Hint Resolve fast_MsgRedeemCollateral_codec : pulsar.

(** ** [MsgRedeemCollateralResponse] *)

Definition apiMsgRedeemCollateralResponse_Reset (x : ptr apiMsgRedeemCollateralResponse) : res (ptr apiMsgRedeemCollateralResponse) := _ ← deref x; Ok (Some apiMsgRedeemCollateralResponse_zero).
Definition apiMsgRedeemCollateralResponse_GetBurnedAmount (x : ptr apiMsgRedeemCollateralResponse) : ptr apiCoin :=
  match x with Some x => apiMsgRedeemCollateralResponse_BurnedAmount x | None => None end.
Definition apiMsgRedeemCollateralResponse_GetCompletionTime (x : ptr apiMsgRedeemCollateralResponse) : ptr apiTimestamp :=
  match x with Some x => apiMsgRedeemCollateralResponse_CompletionTime x | None => None end.

Section fast_MsgRedeemCollateralResponse_defs.
Context `{R : ProtoRuntime} `{D : ProtoDesc}.

(** *** Descriptors *)

Definition md_MsgRedeemCollateralResponse : MessageDescriptor := Messages_ByName File_tx "MsgRedeemCollateralResponse".
Definition fd_MsgRedeemCollateralResponse_burnedAmount : FieldDescriptor := Fields_ByName md_MsgRedeemCollateralResponse "burnedAmount".
Definition fd_MsgRedeemCollateralResponse_completion_time : FieldDescriptor := Fields_ByName md_MsgRedeemCollateralResponse "completion_time".

(** *** Reflection *)

Definition fast_MsgRedeemCollateralResponse_ProtoReflect (x : ptr apiMsgRedeemCollateralResponse) : ProtoMessage := PMsgRedeemCollateralResponse x.
Definition fast_MsgRedeemCollateralResponse_messageType_Zero : ProtoMessage := PMsgRedeemCollateralResponse None.
Definition fast_MsgRedeemCollateralResponse_messageType_New : ProtoMessage := PMsgRedeemCollateralResponse (Some apiMsgRedeemCollateralResponse_zero).
Definition fast_MsgRedeemCollateralResponse_messageType_Descriptor : MessageDescriptor := md_MsgRedeemCollateralResponse.
Definition fast_MsgRedeemCollateralResponse_Descriptor (x : ptr apiMsgRedeemCollateralResponse) : MessageDescriptor := md_MsgRedeemCollateralResponse.
Definition fast_MsgRedeemCollateralResponse_New (x : ptr apiMsgRedeemCollateralResponse) : ProtoMessage := PMsgRedeemCollateralResponse (Some apiMsgRedeemCollateralResponse_zero).
Definition fast_MsgRedeemCollateralResponse_Interface (x : ptr apiMsgRedeemCollateralResponse) : ProtoMessage := PMsgRedeemCollateralResponse x.

Definition fast_MsgRedeemCollateralResponse_Range {St} (x : ptr apiMsgRedeemCollateralResponse) (f : FieldDescriptor -> Value -> St -> bool * St) (s : St) : res St :=
  x ← deref x;
  range_field (is_set (apiMsgRedeemCollateralResponse_BurnedAmount x)) fd_MsgRedeemCollateralResponse_burnedAmount (VMessage (PCoin (apiMsgRedeemCollateralResponse_BurnedAmount x))) f (
  range_field (is_set (apiMsgRedeemCollateralResponse_CompletionTime x)) fd_MsgRedeemCollateralResponse_completion_time (VMessage (PTimestamp (apiMsgRedeemCollateralResponse_CompletionTime x))) f (
  Ok)) s.

Definition fast_MsgRedeemCollateralResponse_Has (x : ptr apiMsgRedeemCollateralResponse) (fd : FieldDescriptor) : res bool :=
  switch (FullName fd) [
    ("halbornctf.hal.MsgRedeemCollateralResponse.burnedAmount", x ← deref x; Ok (is_set (apiMsgRedeemCollateralResponse_BurnedAmount x)));
    ("halbornctf.hal.MsgRedeemCollateralResponse.completion_time", x ← deref x; Ok (is_set (apiMsgRedeemCollateralResponse_CompletionTime x)))
  ] (no_field "halbornctf.hal.MsgRedeemCollateralResponse" fd).

Definition fast_MsgRedeemCollateralResponse_Clear (x : ptr apiMsgRedeemCollateralResponse) (fd : FieldDescriptor) : res (ptr apiMsgRedeemCollateralResponse) :=
  switch (FullName fd) [
    ("halbornctf.hal.MsgRedeemCollateralResponse.burnedAmount", x ← deref x; Ok (Some (MkapiMsgRedeemCollateralResponse (apiMsgRedeemCollateralResponse_unknownFields x) None (apiMsgRedeemCollateralResponse_CompletionTime x))));
    ("halbornctf.hal.MsgRedeemCollateralResponse.completion_time", x ← deref x; Ok (Some (MkapiMsgRedeemCollateralResponse (apiMsgRedeemCollateralResponse_unknownFields x) (apiMsgRedeemCollateralResponse_BurnedAmount x) None)))
  ] (no_field "halbornctf.hal.MsgRedeemCollateralResponse" fd).

Definition fast_MsgRedeemCollateralResponse_Get (x : ptr apiMsgRedeemCollateralResponse) (fd : FieldDescriptor) : res Value :=
  switch (FullName fd) [
    ("halbornctf.hal.MsgRedeemCollateralResponse.burnedAmount", x ← deref x; Ok (VMessage (PCoin (apiMsgRedeemCollateralResponse_BurnedAmount x))));
    ("halbornctf.hal.MsgRedeemCollateralResponse.completion_time", x ← deref x; Ok (VMessage (PTimestamp (apiMsgRedeemCollateralResponse_CompletionTime x))))
  ] (no_field "halbornctf.hal.MsgRedeemCollateralResponse" fd).

Definition fast_MsgRedeemCollateralResponse_Set (x : ptr apiMsgRedeemCollateralResponse) (fd : FieldDescriptor) (value : Value) : res (ptr apiMsgRedeemCollateralResponse) :=
  switch (FullName fd) [
    ("halbornctf.hal.MsgRedeemCollateralResponse.burnedAmount", v ← Value_Message value; v ← as_Coin v; x ← deref x; Ok (Some (MkapiMsgRedeemCollateralResponse (apiMsgRedeemCollateralResponse_unknownFields x) v (apiMsgRedeemCollateralResponse_CompletionTime x))));
    ("halbornctf.hal.MsgRedeemCollateralResponse.completion_time", v ← Value_Message value; v ← as_Timestamp v; x ← deref x; Ok (Some (MkapiMsgRedeemCollateralResponse (apiMsgRedeemCollateralResponse_unknownFields x) (apiMsgRedeemCollateralResponse_BurnedAmount x) v)))
  ] (no_field "halbornctf.hal.MsgRedeemCollateralResponse" fd).

Definition fast_MsgRedeemCollateralResponse_Mutable (x : ptr apiMsgRedeemCollateralResponse) (fd : FieldDescriptor) : res (ptr apiMsgRedeemCollateralResponse * Value) :=
  switch (FullName fd) [
    ("halbornctf.hal.MsgRedeemCollateralResponse.burnedAmount", x ← deref x;
      let x := if is_set (apiMsgRedeemCollateralResponse_BurnedAmount x) then x else MkapiMsgRedeemCollateralResponse (apiMsgRedeemCollateralResponse_unknownFields x) (Some apiCoin_zero) (apiMsgRedeemCollateralResponse_CompletionTime x) in
      Ok (Some x, VMessage (PCoin (apiMsgRedeemCollateralResponse_BurnedAmount x))));
    ("halbornctf.hal.MsgRedeemCollateralResponse.completion_time", x ← deref x;
      let x := if is_set (apiMsgRedeemCollateralResponse_CompletionTime x) then x else MkapiMsgRedeemCollateralResponse (apiMsgRedeemCollateralResponse_unknownFields x) (apiMsgRedeemCollateralResponse_BurnedAmount x) (Some apiTimestamp_zero) in
      Ok (Some x, VMessage (PTimestamp (apiMsgRedeemCollateralResponse_CompletionTime x))))
  ] (no_field "halbornctf.hal.MsgRedeemCollateralResponse" fd).

Definition fast_MsgRedeemCollateralResponse_NewField (x : ptr apiMsgRedeemCollateralResponse) (fd : FieldDescriptor) : res Value :=
  switch (FullName fd) [
    ("halbornctf.hal.MsgRedeemCollateralResponse.burnedAmount", Ok (VMessage (PCoin (Some apiCoin_zero))));
    ("halbornctf.hal.MsgRedeemCollateralResponse.completion_time", Ok (VMessage (PTimestamp (Some apiTimestamp_zero))))
  ] (no_field "halbornctf.hal.MsgRedeemCollateralResponse" fd).

Definition fast_MsgRedeemCollateralResponse_WhichOneof (x : ptr apiMsgRedeemCollateralResponse) (d : string) : res FieldDescriptor := not_oneof "halbornctf.hal.MsgRedeemCollateralResponse" d.
Definition fast_MsgRedeemCollateralResponse_GetUnknown (x : ptr apiMsgRedeemCollateralResponse) : res (option bytes) := x ← deref x; Ok (apiMsgRedeemCollateralResponse_unknownFields x).
Definition apiMsgRedeemCollateralResponse_with_unknown (u : option bytes) (x : apiMsgRedeemCollateralResponse) : apiMsgRedeemCollateralResponse :=
  MkapiMsgRedeemCollateralResponse u (apiMsgRedeemCollateralResponse_BurnedAmount x) (apiMsgRedeemCollateralResponse_CompletionTime x).
Definition fast_MsgRedeemCollateralResponse_SetUnknown (x : ptr apiMsgRedeemCollateralResponse) (fields : option bytes) : res (ptr apiMsgRedeemCollateralResponse) :=
  x ← deref x; Ok (Some (apiMsgRedeemCollateralResponse_with_unknown fields x)).
Definition fast_MsgRedeemCollateralResponse_IsValid (x : ptr apiMsgRedeemCollateralResponse) : bool := is_set x.

Definition fast_MsgRedeemCollateralResponse : Reflection apiMsgRedeemCollateralResponse := MkReflection fast_MsgRedeemCollateralResponse_Interface fast_MsgRedeemCollateralResponse_messageType_New fast_MsgRedeemCollateralResponse_messageType_Zero
  (@fast_MsgRedeemCollateralResponse_Range) fast_MsgRedeemCollateralResponse_Has fast_MsgRedeemCollateralResponse_Clear fast_MsgRedeemCollateralResponse_Get fast_MsgRedeemCollateralResponse_Set fast_MsgRedeemCollateralResponse_Mutable fast_MsgRedeemCollateralResponse_NewField fast_MsgRedeemCollateralResponse_WhichOneof
  fast_MsgRedeemCollateralResponse_GetUnknown fast_MsgRedeemCollateralResponse_SetUnknown fast_MsgRedeemCollateralResponse_IsValid.

(** *** The fast path *)

Definition fast_MsgRedeemCollateralResponse_size (input : ProtoMessage) : res Z :=
  x ← as_MsgRedeemCollateralResponse input;
  match x with
  | None => Ok 0
  | Some x =>
      l1 ← size_message PCoin Coin_methods (apiMsgRedeemCollateralResponse_BurnedAmount x);
      l2 ← size_message PTimestamp Timestamp_methods (apiMsgRedeemCollateralResponse_CompletionTime x);
      Ok (l1 + l2 + size_unknown (apiMsgRedeemCollateralResponse_unknownFields x))
  end.

Definition fast_MsgRedeemCollateralResponse_writer (x : apiMsgRedeemCollateralResponse) : writer :=
  punknown (apiMsgRedeemCollateralResponse_unknownFields x) >>
  pmessage 0x12 PTimestamp Timestamp_methods (apiMsgRedeemCollateralResponse_CompletionTime x) >>
  pmessage 0xa PCoin Coin_methods (apiMsgRedeemCollateralResponse_BurnedAmount x).

Definition fast_MsgRedeemCollateralResponse_marshal (buf : option bytes) (input : ProtoMessage) : res (option bytes) :=
  x ← as_MsgRedeemCollateralResponse input;
  match x with
  | None => Ok buf
  | Some x => fill_buf (options_Size fast_MsgRedeemCollateralResponse_size (PMsgRedeemCollateralResponse (Some x))) (fast_MsgRedeemCollateralResponse_writer x) buf
  end.

Definition fast_MsgRedeemCollateralResponse_field (discard : bool) (x : apiMsgRedeemCollateralResponse) (fieldNum wireType : Z) (d : bytes) (iNdEx : Z)
    : option (res (apiMsgRedeemCollateralResponse * Z)) :=
  if fieldNum =? 1 then Some (
    '(s, j) ← read_message PbRuntime "BurnedAmount" wireType d iNdEx;
    x' ← (p ← read_into PCoin as_Coin apiCoin_zero Coin_methods discard s (apiMsgRedeemCollateralResponse_BurnedAmount x);
          Ok (MkapiMsgRedeemCollateralResponse (apiMsgRedeemCollateralResponse_unknownFields x) p (apiMsgRedeemCollateralResponse_CompletionTime x)));
    Ok (x', j))
  else if fieldNum =? 2 then Some (
    '(s, j) ← read_message PbRuntime "CompletionTime" wireType d iNdEx;
    x' ← (p ← read_into PTimestamp as_Timestamp apiTimestamp_zero Timestamp_methods discard s (apiMsgRedeemCollateralResponse_CompletionTime x);
          Ok (MkapiMsgRedeemCollateralResponse (apiMsgRedeemCollateralResponse_unknownFields x) (apiMsgRedeemCollateralResponse_BurnedAmount x) p));
    Ok (x', j))
  else None.

Definition fast_MsgRedeemCollateralResponse_add_unknown (s : bytes) (x : apiMsgRedeemCollateralResponse) : apiMsgRedeemCollateralResponse :=
  apiMsgRedeemCollateralResponse_with_unknown (append_unknown (apiMsgRedeemCollateralResponse_unknownFields x) s) x.
Definition fast_MsgRedeemCollateralResponse_unmarshal (discard : bool) (d : bytes) (input : ProtoMessage) : res ProtoMessage :=
  x ← as_MsgRedeemCollateralResponse input;
  match x with
  | None => Ok input
  | Some x =>
      x ← Unmarshal_with PbRuntime "MsgRedeemCollateralResponse" (keep_unknown fast_MsgRedeemCollateralResponse_add_unknown discard) (fast_MsgRedeemCollateralResponse_field discard) x d;
      Ok (PMsgRedeemCollateralResponse (Some x))
  end.

Definition fast_MsgRedeemCollateralResponse_methods : Methods := MkMethods fast_MsgRedeemCollateralResponse_size fast_MsgRedeemCollateralResponse_marshal fast_MsgRedeemCollateralResponse_unmarshal.
End fast_MsgRedeemCollateralResponse_defs.

(** *** Specification *)

Definition apiMsgRedeemCollateralResponse_kinds : list (string * kind) := [
  ("halbornctf.hal.MsgRedeemCollateralResponse.burnedAmount", KMessage (PCoin None) (PCoin (Some apiCoin_zero)));
  ("halbornctf.hal.MsgRedeemCollateralResponse.completion_time", KMessage (PTimestamp None) (PTimestamp (Some apiTimestamp_zero)))].

Definition apiMsgRedeemCollateralResponse_view (x : apiMsgRedeemCollateralResponse) : list (string * Value) := [
  ("halbornctf.hal.MsgRedeemCollateralResponse.burnedAmount", VMessage (PCoin (apiMsgRedeemCollateralResponse_BurnedAmount x)));
  ("halbornctf.hal.MsgRedeemCollateralResponse.completion_time", VMessage (PTimestamp (apiMsgRedeemCollateralResponse_CompletionTime x)))].

Definition apiMsgRedeemCollateralResponse_abs `{D : ProtoDesc} : Abstraction apiMsgRedeemCollateralResponse := MkAbstraction PMsgRedeemCollateralResponse apiMsgRedeemCollateralResponse_zero apiMsgRedeemCollateralResponse_kinds
  [fd_MsgRedeemCollateralResponse_burnedAmount; fd_MsgRedeemCollateralResponse_completion_time] apiMsgRedeemCollateralResponse_view apiMsgRedeemCollateralResponse_unknownFields.

Section fast_MsgRedeemCollateralResponse_lemmas.
Context `{ProtoRuntimeOk} `{ProtoDescOk}.

Definition apiMsgRedeemCollateralResponse_enc (x : apiMsgRedeemCollateralResponse) : bytes :=
  enc_ptr 0xa apiCoin_enc (apiMsgRedeemCollateralResponse_BurnedAmount x) ++
  enc_ptr 0x12 apiTimestamp_enc (apiMsgRedeemCollateralResponse_CompletionTime x) ++
  default [] (apiMsgRedeemCollateralResponse_unknownFields x).

Definition apiMsgRedeemCollateralResponse_wf (dis : bool) (x : apiMsgRedeemCollateralResponse) : Prop :=
  wf_ptr apiCoin_wf dis (apiMsgRedeemCollateralResponse_BurnedAmount x) /\
  wf_ptr apiTimestamp_wf dis (apiMsgRedeemCollateralResponse_CompletionTime x) /\
  unknown_ok [1; 2] dis (apiMsgRedeemCollateralResponse_unknownFields x).

Lemma fast_MsgRedeemCollateralResponse_size_enc dis x : apiMsgRedeemCollateralResponse_wf dis x -> len (apiMsgRedeemCollateralResponse_enc x) < 2 ^ 63 ->
  fast_MsgRedeemCollateralResponse_size (PMsgRedeemCollateralResponse (Some x)) = Ok (len (apiMsgRedeemCollateralResponse_enc x)).
Proof. solve_size apiMsgRedeemCollateralResponse_wf apiMsgRedeemCollateralResponse_enc fast_MsgRedeemCollateralResponse_size as_MsgRedeemCollateralResponse. Qed.

Lemma fast_MsgRedeemCollateralResponse_writes dis x : apiMsgRedeemCollateralResponse_wf dis x -> len (apiMsgRedeemCollateralResponse_enc x) < 2 ^ 63 -> writes (fast_MsgRedeemCollateralResponse_writer x) (apiMsgRedeemCollateralResponse_enc x).
Proof. solve_pwrites apiMsgRedeemCollateralResponse_wf apiMsgRedeemCollateralResponse_enc fast_MsgRedeemCollateralResponse_writer. Qed.

Lemma fast_MsgRedeemCollateralResponse_field_ok dis : field_ok (fast_MsgRedeemCollateralResponse_field dis).
Proof. intros x fn wt d i Hi Hd. unfold fast_MsgRedeemCollateralResponse_field. solve_pfield_ok. Qed.

Lemma fast_MsgRedeemCollateralResponse_reads dis x : apiMsgRedeemCollateralResponse_wf dis x -> len (apiMsgRedeemCollateralResponse_enc x) < 2 ^ 63 ->
  reads PbRuntime "MsgRedeemCollateralResponse" (keep_unknown fast_MsgRedeemCollateralResponse_add_unknown dis) (fast_MsgRedeemCollateralResponse_field dis) apiMsgRedeemCollateralResponse_zero (apiMsgRedeemCollateralResponse_enc x) x.
Proof.
  unfold apiMsgRedeemCollateralResponse_wf. intros (W0 & W1 & W2) L. pose proof (fast_MsgRedeemCollateralResponse_field_ok dis).
  unfold apiMsgRedeemCollateralResponse_enc in *. enc_bounds. eapply reads_conv.
  - 
    eapply reads_app; [reads_pointer|].
    eapply reads_app; [reads_pointer|].
    apply reads_unknown_fields with (known := [1; 2]) (getu := apiMsgRedeemCollateralResponse_unknownFields) (setu := apiMsgRedeemCollateralResponse_with_unknown);
      [assumption | other_fields fast_MsgRedeemCollateralResponse_field | reflexivity | reflexivity | reflexivity | now intros [] | assumption | reflexivity].
  - now destruct x.
Qed.

Lemma fast_MsgRedeemCollateralResponse_codec : codec_ok PMsgRedeemCollateralResponse apiMsgRedeemCollateralResponse_zero apiMsgRedeemCollateralResponse_wf apiMsgRedeemCollateralResponse_enc fast_MsgRedeemCollateralResponse_methods.
Proof.
  solve_codec fast_MsgRedeemCollateralResponse_size_enc fast_MsgRedeemCollateralResponse_writes fast_MsgRedeemCollateralResponse_field_ok fast_MsgRedeemCollateralResponse_reads.
Qed.

Lemma fast_MsgRedeemCollateralResponse_ok : ReflectionOk fast_MsgRedeemCollateralResponse apiMsgRedeemCollateralResponse_abs.
Proof. solve_reflection file_tx_parse file_tx_tables. Qed.
End fast_MsgRedeemCollateralResponse_lemmas.
#[export] Hint Resolve fast_MsgRedeemCollateralResponse_codec : pulsar.

(** ** [MsgCreateTicket] *)

Definition apiMsgCreateTicket_Reset (x : ptr apiMsgCreateTicket) : res (ptr apiMsgCreateTicket) := _ ← deref x; Ok (Some apiMsgCreateTicket_zero).
Definition apiMsgCreateTicket_GetCreator (x : ptr apiMsgCreateTicket) : gostring :=
  match x with Some x => apiMsgCreateTicket_Creator x | None => [] end.
Definition apiMsgCreateTicket_GetAuthor (x : ptr apiMsgCreateTicket) : gostring :=
  match x with Some x => apiMsgCreateTicket_Author x | None => [] end.
Definition apiMsgCreateTicket_GetIssue (x : ptr apiMsgCreateTicket) : gostring :=
  match x with Some x => apiMsgCreateTicket_Issue x | None => [] end.

Section fast_MsgCreateTicket_defs.
Context `{R : ProtoRuntime} `{D : ProtoDesc}.

(** *** Descriptors *)

Definition md_MsgCreateTicket : MessageDescriptor := Messages_ByName File_tx "MsgCreateTicket".
Definition fd_MsgCreateTicket_creator : FieldDescriptor := Fields_ByName md_MsgCreateTicket "creator".
Definition fd_MsgCreateTicket_author : FieldDescriptor := Fields_ByName md_MsgCreateTicket "author".
Definition fd_MsgCreateTicket_issue : FieldDescriptor := Fields_ByName md_MsgCreateTicket "issue".

(** *** Reflection *)

Definition fast_MsgCreateTicket_ProtoReflect (x : ptr apiMsgCreateTicket) : ProtoMessage := PMsgCreateTicket x.
Definition fast_MsgCreateTicket_messageType_Zero : ProtoMessage := PMsgCreateTicket None.
Definition fast_MsgCreateTicket_messageType_New : ProtoMessage := PMsgCreateTicket (Some apiMsgCreateTicket_zero).
Definition fast_MsgCreateTicket_messageType_Descriptor : MessageDescriptor := md_MsgCreateTicket.
Definition fast_MsgCreateTicket_Descriptor (x : ptr apiMsgCreateTicket) : MessageDescriptor := md_MsgCreateTicket.
Definition fast_MsgCreateTicket_New (x : ptr apiMsgCreateTicket) : ProtoMessage := PMsgCreateTicket (Some apiMsgCreateTicket_zero).
Definition fast_MsgCreateTicket_Interface (x : ptr apiMsgCreateTicket) : ProtoMessage := PMsgCreateTicket x.

Definition fast_MsgCreateTicket_Range {St} (x : ptr apiMsgCreateTicket) (f : FieldDescriptor -> Value -> St -> bool * St) (s : St) : res St :=
  x ← deref x;
  range_field (nonempty (apiMsgCreateTicket_Creator x)) fd_MsgCreateTicket_creator (VString (apiMsgCreateTicket_Creator x)) f (
  range_field (nonempty (apiMsgCreateTicket_Author x)) fd_MsgCreateTicket_author (VString (apiMsgCreateTicket_Author x)) f (
  range_field (nonempty (apiMsgCreateTicket_Issue x)) fd_MsgCreateTicket_issue (VString (apiMsgCreateTicket_Issue x)) f (
  Ok))) s.

Definition fast_MsgCreateTicket_Has (x : ptr apiMsgCreateTicket) (fd : FieldDescriptor) : res bool :=
  switch (FullName fd) [
    ("halbornctf.hal.MsgCreateTicket.creator", x ← deref x; Ok (nonempty (apiMsgCreateTicket_Creator x)));
    ("halbornctf.hal.MsgCreateTicket.author", x ← deref x; Ok (nonempty (apiMsgCreateTicket_Author x)));
    ("halbornctf.hal.MsgCreateTicket.issue", x ← deref x; Ok (nonempty (apiMsgCreateTicket_Issue x)))
  ] (no_field "halbornctf.hal.MsgCreateTicket" fd).

Definition fast_MsgCreateTicket_Clear (x : ptr apiMsgCreateTicket) (fd : FieldDescriptor) : res (ptr apiMsgCreateTicket) :=
  switch (FullName fd) [
    ("halbornctf.hal.MsgCreateTicket.creator", x ← deref x; Ok (Some (MkapiMsgCreateTicket (apiMsgCreateTicket_unknownFields x) [] (apiMsgCreateTicket_Author x) (apiMsgCreateTicket_Issue x))));
    ("halbornctf.hal.MsgCreateTicket.author", x ← deref x; Ok (Some (MkapiMsgCreateTicket (apiMsgCreateTicket_unknownFields x) (apiMsgCreateTicket_Creator x) [] (apiMsgCreateTicket_Issue x))));
    ("halbornctf.hal.MsgCreateTicket.issue", x ← deref x; Ok (Some (MkapiMsgCreateTicket (apiMsgCreateTicket_unknownFields x) (apiMsgCreateTicket_Creator x) (apiMsgCreateTicket_Author x) [])))
  ] (no_field "halbornctf.hal.MsgCreateTicket" fd).

Definition fast_MsgCreateTicket_Get (x : ptr apiMsgCreateTicket) (fd : FieldDescriptor) : res Value :=
  switch (FullName fd) [
    ("halbornctf.hal.MsgCreateTicket.creator", x ← deref x; Ok (VString (apiMsgCreateTicket_Creator x)));
    ("halbornctf.hal.MsgCreateTicket.author", x ← deref x; Ok (VString (apiMsgCreateTicket_Author x)));
    ("halbornctf.hal.MsgCreateTicket.issue", x ← deref x; Ok (VString (apiMsgCreateTicket_Issue x)))
  ] (no_field "halbornctf.hal.MsgCreateTicket" fd).

Definition fast_MsgCreateTicket_Set (x : ptr apiMsgCreateTicket) (fd : FieldDescriptor) (value : Value) : res (ptr apiMsgCreateTicket) :=
  switch (FullName fd) [
    ("halbornctf.hal.MsgCreateTicket.creator", v ← Value_string value; x ← deref x; Ok (Some (MkapiMsgCreateTicket (apiMsgCreateTicket_unknownFields x) v (apiMsgCreateTicket_Author x) (apiMsgCreateTicket_Issue x))));
    ("halbornctf.hal.MsgCreateTicket.author", v ← Value_string value; x ← deref x; Ok (Some (MkapiMsgCreateTicket (apiMsgCreateTicket_unknownFields x) (apiMsgCreateTicket_Creator x) v (apiMsgCreateTicket_Issue x))));
    ("halbornctf.hal.MsgCreateTicket.issue", v ← Value_string value; x ← deref x; Ok (Some (MkapiMsgCreateTicket (apiMsgCreateTicket_unknownFields x) (apiMsgCreateTicket_Creator x) (apiMsgCreateTicket_Author x) v)))
  ] (no_field "halbornctf.hal.MsgCreateTicket" fd).

Definition fast_MsgCreateTicket_Mutable (x : ptr apiMsgCreateTicket) (fd : FieldDescriptor) : res (ptr apiMsgCreateTicket * Value) :=
  switch (FullName fd) [
    ("halbornctf.hal.MsgCreateTicket.creator", not_mutable "creator" "halbornctf.hal.MsgCreateTicket");
    ("halbornctf.hal.MsgCreateTicket.author", not_mutable "author" "halbornctf.hal.MsgCreateTicket");
    ("halbornctf.hal.MsgCreateTicket.issue", not_mutable "issue" "halbornctf.hal.MsgCreateTicket")
  ] (no_field "halbornctf.hal.MsgCreateTicket" fd).

Definition fast_MsgCreateTicket_NewField (x : ptr apiMsgCreateTicket) (fd : FieldDescriptor) : res Value :=
  switch (FullName fd) [
    ("halbornctf.hal.MsgCreateTicket.creator", Ok (VString []));
    ("halbornctf.hal.MsgCreateTicket.author", Ok (VString []));
    ("halbornctf.hal.MsgCreateTicket.issue", Ok (VString []))
  ] (no_field "halbornctf.hal.MsgCreateTicket" fd).

Definition fast_MsgCreateTicket_WhichOneof (x : ptr apiMsgCreateTicket) (d : string) : res FieldDescriptor := not_oneof "halbornctf.hal.MsgCreateTicket" d.
Definition fast_MsgCreateTicket_GetUnknown (x : ptr apiMsgCreateTicket) : res (option bytes) := x ← deref x; Ok (apiMsgCreateTicket_unknownFields x).
Definition apiMsgCreateTicket_with_unknown (u : option bytes) (x : apiMsgCreateTicket) : apiMsgCreateTicket :=
  MkapiMsgCreateTicket u (apiMsgCreateTicket_Creator x) (apiMsgCreateTicket_Author x) (apiMsgCreateTicket_Issue x).
Definition fast_MsgCreateTicket_SetUnknown (x : ptr apiMsgCreateTicket) (fields : option bytes) : res (ptr apiMsgCreateTicket) :=
  x ← deref x; Ok (Some (apiMsgCreateTicket_with_unknown fields x)).
Definition fast_MsgCreateTicket_IsValid (x : ptr apiMsgCreateTicket) : bool := is_set x.

Definition fast_MsgCreateTicket : Reflection apiMsgCreateTicket := MkReflection fast_MsgCreateTicket_Interface fast_MsgCreateTicket_messageType_New fast_MsgCreateTicket_messageType_Zero
  (@fast_MsgCreateTicket_Range) fast_MsgCreateTicket_Has fast_MsgCreateTicket_Clear fast_MsgCreateTicket_Get fast_MsgCreateTicket_Set fast_MsgCreateTicket_Mutable fast_MsgCreateTicket_NewField fast_MsgCreateTicket_WhichOneof
  fast_MsgCreateTicket_GetUnknown fast_MsgCreateTicket_SetUnknown fast_MsgCreateTicket_IsValid.

(** *** The fast path *)

Definition fast_MsgCreateTicket_size (input : ProtoMessage) : res Z :=
  x ← as_MsgCreateTicket input;
  match x with
  | None => Ok 0
  | Some x =>
      Ok (size_string (apiMsgCreateTicket_Creator x) + size_string (apiMsgCreateTicket_Author x) + size_string (apiMsgCreateTicket_Issue x) + size_unknown (apiMsgCreateTicket_unknownFields x))
  end.

Definition fast_MsgCreateTicket_writer (x : apiMsgCreateTicket) : writer :=
  punknown (apiMsgCreateTicket_unknownFields x) >>
  pstring 0x1a (apiMsgCreateTicket_Issue x) >>
  pstring 0x12 (apiMsgCreateTicket_Author x) >>
  pstring 0xa (apiMsgCreateTicket_Creator x).

Definition fast_MsgCreateTicket_marshal (buf : option bytes) (input : ProtoMessage) : res (option bytes) :=
  x ← as_MsgCreateTicket input;
  match x with
  | None => Ok buf
  | Some x => fill_buf (options_Size fast_MsgCreateTicket_size (PMsgCreateTicket (Some x))) (fast_MsgCreateTicket_writer x) buf
  end.

Definition fast_MsgCreateTicket_field (discard : bool) (x : apiMsgCreateTicket) (fieldNum wireType : Z) (d : bytes) (iNdEx : Z)
    : option (res (apiMsgCreateTicket * Z)) :=
  if fieldNum =? 1 then Some (
    '(s, j) ← read_string PbRuntime "Creator" wireType d iNdEx;
    Ok (MkapiMsgCreateTicket (apiMsgCreateTicket_unknownFields x) s (apiMsgCreateTicket_Author x) (apiMsgCreateTicket_Issue x), j))
  else if fieldNum =? 2 then Some (
    '(s, j) ← read_string PbRuntime "Author" wireType d iNdEx;
    Ok (MkapiMsgCreateTicket (apiMsgCreateTicket_unknownFields x) (apiMsgCreateTicket_Creator x) s (apiMsgCreateTicket_Issue x), j))
  else if fieldNum =? 3 then Some (
    '(s, j) ← read_string PbRuntime "Issue" wireType d iNdEx;
    Ok (MkapiMsgCreateTicket (apiMsgCreateTicket_unknownFields x) (apiMsgCreateTicket_Creator x) (apiMsgCreateTicket_Author x) s, j))
  else None.

Definition fast_MsgCreateTicket_add_unknown (s : bytes) (x : apiMsgCreateTicket) : apiMsgCreateTicket :=
  apiMsgCreateTicket_with_unknown (append_unknown (apiMsgCreateTicket_unknownFields x) s) x.
Definition fast_MsgCreateTicket_unmarshal (discard : bool) (d : bytes) (input : ProtoMessage) : res ProtoMessage :=
  x ← as_MsgCreateTicket input;
  match x with
  | None => Ok input
  | Some x =>
      x ← Unmarshal_with PbRuntime "MsgCreateTicket" (keep_unknown fast_MsgCreateTicket_add_unknown discard) (fast_MsgCreateTicket_field discard) x d;
      Ok (PMsgCreateTicket (Some x))
  end.

Definition fast_MsgCreateTicket_methods : Methods := MkMethods fast_MsgCreateTicket_size fast_MsgCreateTicket_marshal fast_MsgCreateTicket_unmarshal.
End fast_MsgCreateTicket_defs.

(** *** Specification *)

Definition apiMsgCreateTicket_kinds : list (string * kind) := [
  ("halbornctf.hal.MsgCreateTicket.creator", KString);
  ("halbornctf.hal.MsgCreateTicket.author", KString);
  ("halbornctf.hal.MsgCreateTicket.issue", KString)].

Definition apiMsgCreateTicket_view (x : apiMsgCreateTicket) : list (string * Value) := [
  ("halbornctf.hal.MsgCreateTicket.creator", VString (apiMsgCreateTicket_Creator x));
  ("halbornctf.hal.MsgCreateTicket.author", VString (apiMsgCreateTicket_Author x));
  ("halbornctf.hal.MsgCreateTicket.issue", VString (apiMsgCreateTicket_Issue x))].

Definition apiMsgCreateTicket_abs `{D : ProtoDesc} : Abstraction apiMsgCreateTicket := MkAbstraction PMsgCreateTicket apiMsgCreateTicket_zero apiMsgCreateTicket_kinds
  [fd_MsgCreateTicket_creator; fd_MsgCreateTicket_author; fd_MsgCreateTicket_issue] apiMsgCreateTicket_view apiMsgCreateTicket_unknownFields.

Section fast_MsgCreateTicket_lemmas.
Context `{ProtoRuntimeOk} `{ProtoDescOk}.

Definition apiMsgCreateTicket_enc (x : apiMsgCreateTicket) : bytes :=
  enc_string 0xa (apiMsgCreateTicket_Creator x) ++
  enc_string 0x12 (apiMsgCreateTicket_Author x) ++
  enc_string 0x1a (apiMsgCreateTicket_Issue x) ++
  default [] (apiMsgCreateTicket_unknownFields x).

Definition apiMsgCreateTicket_wf (dis : bool) (x : apiMsgCreateTicket) : Prop :=
  unknown_ok [1; 2; 3] dis (apiMsgCreateTicket_unknownFields x).

Lemma fast_MsgCreateTicket_size_enc dis x : apiMsgCreateTicket_wf dis x -> len (apiMsgCreateTicket_enc x) < 2 ^ 63 ->
  fast_MsgCreateTicket_size (PMsgCreateTicket (Some x)) = Ok (len (apiMsgCreateTicket_enc x)).
Proof. solve_size apiMsgCreateTicket_wf apiMsgCreateTicket_enc fast_MsgCreateTicket_size as_MsgCreateTicket. Qed.

Lemma fast_MsgCreateTicket_writes dis x : apiMsgCreateTicket_wf dis x -> len (apiMsgCreateTicket_enc x) < 2 ^ 63 -> writes (fast_MsgCreateTicket_writer x) (apiMsgCreateTicket_enc x).
Proof. solve_pwrites apiMsgCreateTicket_wf apiMsgCreateTicket_enc fast_MsgCreateTicket_writer. Qed.

Lemma fast_MsgCreateTicket_field_ok dis : field_ok (fast_MsgCreateTicket_field dis).
Proof. intros x fn wt d i Hi Hd. unfold fast_MsgCreateTicket_field. solve_pfield_ok. Qed.

Lemma fast_MsgCreateTicket_reads dis x : apiMsgCreateTicket_wf dis x -> len (apiMsgCreateTicket_enc x) < 2 ^ 63 ->
  reads PbRuntime "MsgCreateTicket" (keep_unknown fast_MsgCreateTicket_add_unknown dis) (fast_MsgCreateTicket_field dis) apiMsgCreateTicket_zero (apiMsgCreateTicket_enc x) x.
Proof.
  unfold apiMsgCreateTicket_wf. intros W0 L. pose proof (fast_MsgCreateTicket_field_ok dis).
  unfold apiMsgCreateTicket_enc in *. enc_bounds. eapply reads_conv.
  - 
    eapply reads_app; [eapply reads_string; reads_side|].
    eapply reads_app; [eapply reads_string; reads_side|].
    eapply reads_app; [eapply reads_string; reads_side|].
    apply reads_unknown_fields with (known := [1; 2; 3]) (getu := apiMsgCreateTicket_unknownFields) (setu := apiMsgCreateTicket_with_unknown);
      [assumption | other_fields fast_MsgCreateTicket_field | reflexivity | reflexivity | reflexivity | now intros [] | assumption | reflexivity].
  - now destruct x.
Qed.

Lemma fast_MsgCreateTicket_codec : codec_ok PMsgCreateTicket apiMsgCreateTicket_zero apiMsgCreateTicket_wf apiMsgCreateTicket_enc fast_MsgCreateTicket_methods.
Proof.
  solve_codec fast_MsgCreateTicket_size_enc fast_MsgCreateTicket_writes fast_MsgCreateTicket_field_ok fast_MsgCreateTicket_reads.
Qed.

Lemma fast_MsgCreateTicket_ok : ReflectionOk fast_MsgCreateTicket apiMsgCreateTicket_abs.
Proof. solve_reflection file_tx_parse file_tx_tables. Qed.
End fast_MsgCreateTicket_lemmas.
#[export] Hint Resolve fast_MsgCreateTicket_codec : pulsar.

(** ** [MsgCreateTicketResponse] *)

Definition apiMsgCreateTicketResponse_Reset (x : ptr apiMsgCreateTicketResponse) : res (ptr apiMsgCreateTicketResponse) := _ ← deref x; Ok (Some apiMsgCreateTicketResponse_zero).
Definition apiMsgCreateTicketResponse_GetId (x : ptr apiMsgCreateTicketResponse) : Z :=
  match x with Some x => apiMsgCreateTicketResponse_Id x | None => 0 end.

Section fast_MsgCreateTicketResponse_defs.
Context `{R : ProtoRuntime} `{D : ProtoDesc}.

(** *** Descriptors *)

Definition md_MsgCreateTicketResponse : MessageDescriptor := Messages_ByName File_tx "MsgCreateTicketResponse".
Definition fd_MsgCreateTicketResponse_id : FieldDescriptor := Fields_ByName md_MsgCreateTicketResponse "id".

(** *** Reflection *)

Definition fast_MsgCreateTicketResponse_ProtoReflect (x : ptr apiMsgCreateTicketResponse) : ProtoMessage := PMsgCreateTicketResponse x.
Definition fast_MsgCreateTicketResponse_messageType_Zero : ProtoMessage := PMsgCreateTicketResponse None.
Definition fast_MsgCreateTicketResponse_messageType_New : ProtoMessage := PMsgCreateTicketResponse (Some apiMsgCreateTicketResponse_zero).
Definition fast_MsgCreateTicketResponse_messageType_Descriptor : MessageDescriptor := md_MsgCreateTicketResponse.
Definition fast_MsgCreateTicketResponse_Descriptor (x : ptr apiMsgCreateTicketResponse) : MessageDescriptor := md_MsgCreateTicketResponse.
Definition fast_MsgCreateTicketResponse_New (x : ptr apiMsgCreateTicketResponse) : ProtoMessage := PMsgCreateTicketResponse (Some apiMsgCreateTicketResponse_zero).
Definition fast_MsgCreateTicketResponse_Interface (x : ptr apiMsgCreateTicketResponse) : ProtoMessage := PMsgCreateTicketResponse x.

Definition fast_MsgCreateTicketResponse_Range {St} (x : ptr apiMsgCreateTicketResponse) (f : FieldDescriptor -> Value -> St -> bool * St) (s : St) : res St :=
  x ← deref x;
  range_field (negb (apiMsgCreateTicketResponse_Id x =? 0)) fd_MsgCreateTicketResponse_id (VUint64 (apiMsgCreateTicketResponse_Id x)) f (
  Ok) s.

Definition fast_MsgCreateTicketResponse_Has (x : ptr apiMsgCreateTicketResponse) (fd : FieldDescriptor) : res bool :=
  switch (FullName fd) [
    ("halbornctf.hal.MsgCreateTicketResponse.id", x ← deref x; Ok (negb (apiMsgCreateTicketResponse_Id x =? 0)))
  ] (no_field "halbornctf.hal.MsgCreateTicketResponse" fd).

Definition fast_MsgCreateTicketResponse_Clear (x : ptr apiMsgCreateTicketResponse) (fd : FieldDescriptor) : res (ptr apiMsgCreateTicketResponse) :=
  switch (FullName fd) [
    ("halbornctf.hal.MsgCreateTicketResponse.id", x ← deref x; Ok (Some (MkapiMsgCreateTicketResponse (apiMsgCreateTicketResponse_unknownFields x) 0)))
  ] (no_field "halbornctf.hal.MsgCreateTicketResponse" fd).

Definition fast_MsgCreateTicketResponse_Get (x : ptr apiMsgCreateTicketResponse) (fd : FieldDescriptor) : res Value :=
  switch (FullName fd) [
    ("halbornctf.hal.MsgCreateTicketResponse.id", x ← deref x; Ok (VUint64 (apiMsgCreateTicketResponse_Id x)))
  ] (no_field "halbornctf.hal.MsgCreateTicketResponse" fd).

Definition fast_MsgCreateTicketResponse_Set (x : ptr apiMsgCreateTicketResponse) (fd : FieldDescriptor) (value : Value) : res (ptr apiMsgCreateTicketResponse) :=
  switch (FullName fd) [
    ("halbornctf.hal.MsgCreateTicketResponse.id", v ← Value_Uint value; x ← deref x; Ok (Some (MkapiMsgCreateTicketResponse (apiMsgCreateTicketResponse_unknownFields x) v)))
  ] (no_field "halbornctf.hal.MsgCreateTicketResponse" fd).

Definition fast_MsgCreateTicketResponse_Mutable (x : ptr apiMsgCreateTicketResponse) (fd : FieldDescriptor) : res (ptr apiMsgCreateTicketResponse * Value) :=
  switch (FullName fd) [
    ("halbornctf.hal.MsgCreateTicketResponse.id", not_mutable "id" "halbornctf.hal.MsgCreateTicketResponse")
  ] (no_field "halbornctf.hal.MsgCreateTicketResponse" fd).

Definition fast_MsgCreateTicketResponse_NewField (x : ptr apiMsgCreateTicketResponse) (fd : FieldDescriptor) : res Value :=
  switch (FullName fd) [
    ("halbornctf.hal.MsgCreateTicketResponse.id", Ok (VUint64 0))
  ] (no_field "halbornctf.hal.MsgCreateTicketResponse" fd).

Definition fast_MsgCreateTicketResponse_WhichOneof (x : ptr apiMsgCreateTicketResponse) (d : string) : res FieldDescriptor := not_oneof "halbornctf.hal.MsgCreateTicketResponse" d.
Definition fast_MsgCreateTicketResponse_GetUnknown (x : ptr apiMsgCreateTicketResponse) : res (option bytes) := x ← deref x; Ok (apiMsgCreateTicketResponse_unknownFields x).
Definition apiMsgCreateTicketResponse_with_unknown (u : option bytes) (x : apiMsgCreateTicketResponse) : apiMsgCreateTicketResponse :=
  MkapiMsgCreateTicketResponse u (apiMsgCreateTicketResponse_Id x).
Definition fast_MsgCreateTicketResponse_SetUnknown (x : ptr apiMsgCreateTicketResponse) (fields : option bytes) : res (ptr apiMsgCreateTicketResponse) :=
  x ← deref x; Ok (Some (apiMsgCreateTicketResponse_with_unknown fields x)).
Definition fast_MsgCreateTicketResponse_IsValid (x : ptr apiMsgCreateTicketResponse) : bool := is_set x.

Definition fast_MsgCreateTicketResponse : Reflection apiMsgCreateTicketResponse := MkReflection fast_MsgCreateTicketResponse_Interface fast_MsgCreateTicketResponse_messageType_New fast_MsgCreateTicketResponse_messageType_Zero
  (@fast_MsgCreateTicketResponse_Range) fast_MsgCreateTicketResponse_Has fast_MsgCreateTicketResponse_Clear fast_MsgCreateTicketResponse_Get fast_MsgCreateTicketResponse_Set fast_MsgCreateTicketResponse_Mutable fast_MsgCreateTicketResponse_NewField fast_MsgCreateTicketResponse_WhichOneof
  fast_MsgCreateTicketResponse_GetUnknown fast_MsgCreateTicketResponse_SetUnknown fast_MsgCreateTicketResponse_IsValid.

(** *** The fast path *)

Definition fast_MsgCreateTicketResponse_size (input : ProtoMessage) : res Z :=
  x ← as_MsgCreateTicketResponse input;
  match x with
  | None => Ok 0
  | Some x =>
      Ok (size_scalar (apiMsgCreateTicketResponse_Id x) + size_unknown (apiMsgCreateTicketResponse_unknownFields x))
  end.

Definition fast_MsgCreateTicketResponse_writer (x : apiMsgCreateTicketResponse) : writer :=
  punknown (apiMsgCreateTicketResponse_unknownFields x) >>
  pscalar 0x8 (apiMsgCreateTicketResponse_Id x).

Definition fast_MsgCreateTicketResponse_marshal (buf : option bytes) (input : ProtoMessage) : res (option bytes) :=
  x ← as_MsgCreateTicketResponse input;
  match x with
  | None => Ok buf
  | Some x => fill_buf (options_Size fast_MsgCreateTicketResponse_size (PMsgCreateTicketResponse (Some x))) (fast_MsgCreateTicketResponse_writer x) buf
  end.

Definition fast_MsgCreateTicketResponse_field (discard : bool) (x : apiMsgCreateTicketResponse) (fieldNum wireType : Z) (d : bytes) (iNdEx : Z)
    : option (res (apiMsgCreateTicketResponse * Z)) :=
  if fieldNum =? 1 then Some (
    '(v, j) ← read_scalar PbRuntime u64 "Id" wireType d iNdEx;
    Ok (MkapiMsgCreateTicketResponse (apiMsgCreateTicketResponse_unknownFields x) v, j))
  else None.

Definition fast_MsgCreateTicketResponse_add_unknown (s : bytes) (x : apiMsgCreateTicketResponse) : apiMsgCreateTicketResponse :=
  apiMsgCreateTicketResponse_with_unknown (append_unknown (apiMsgCreateTicketResponse_unknownFields x) s) x.
Definition fast_MsgCreateTicketResponse_unmarshal (discard : bool) (d : bytes) (input : ProtoMessage) : res ProtoMessage :=
  x ← as_MsgCreateTicketResponse input;
  match x with
  | None => Ok input
  | Some x =>
      x ← Unmarshal_with PbRuntime "MsgCreateTicketResponse" (keep_unknown fast_MsgCreateTicketResponse_add_unknown discard) (fast_MsgCreateTicketResponse_field discard) x d;
      Ok (PMsgCreateTicketResponse (Some x))
  end.

Definition fast_MsgCreateTicketResponse_methods : Methods := MkMethods fast_MsgCreateTicketResponse_size fast_MsgCreateTicketResponse_marshal fast_MsgCreateTicketResponse_unmarshal.
End fast_MsgCreateTicketResponse_defs.

(** *** Specification *)

Definition apiMsgCreateTicketResponse_kinds : list (string * kind) := [
  ("halbornctf.hal.MsgCreateTicketResponse.id", KUint64)].

Definition apiMsgCreateTicketResponse_view (x : apiMsgCreateTicketResponse) : list (string * Value) := [
  ("halbornctf.hal.MsgCreateTicketResponse.id", VUint64 (apiMsgCreateTicketResponse_Id x))].

Definition apiMsgCreateTicketResponse_abs `{D : ProtoDesc} : Abstraction apiMsgCreateTicketResponse := MkAbstraction PMsgCreateTicketResponse apiMsgCreateTicketResponse_zero apiMsgCreateTicketResponse_kinds
  [fd_MsgCreateTicketResponse_id] apiMsgCreateTicketResponse_view apiMsgCreateTicketResponse_unknownFields.

Section fast_MsgCreateTicketResponse_lemmas.
Context `{ProtoRuntimeOk} `{ProtoDescOk}.

Definition apiMsgCreateTicketResponse_enc (x : apiMsgCreateTicketResponse) : bytes :=
  enc_scalar 0x8 (apiMsgCreateTicketResponse_Id x) ++
  default [] (apiMsgCreateTicketResponse_unknownFields x).

Definition apiMsgCreateTicketResponse_wf (dis : bool) (x : apiMsgCreateTicketResponse) : Prop :=
  0 <= apiMsgCreateTicketResponse_Id x < 2 ^ 64 /\
  unknown_ok [1] dis (apiMsgCreateTicketResponse_unknownFields x).

Lemma fast_MsgCreateTicketResponse_size_enc dis x : apiMsgCreateTicketResponse_wf dis x -> len (apiMsgCreateTicketResponse_enc x) < 2 ^ 63 ->
  fast_MsgCreateTicketResponse_size (PMsgCreateTicketResponse (Some x)) = Ok (len (apiMsgCreateTicketResponse_enc x)).
Proof. solve_size apiMsgCreateTicketResponse_wf apiMsgCreateTicketResponse_enc fast_MsgCreateTicketResponse_size as_MsgCreateTicketResponse. Qed.

Lemma fast_MsgCreateTicketResponse_writes dis x : apiMsgCreateTicketResponse_wf dis x -> len (apiMsgCreateTicketResponse_enc x) < 2 ^ 63 -> writes (fast_MsgCreateTicketResponse_writer x) (apiMsgCreateTicketResponse_enc x).
Proof. solve_pwrites apiMsgCreateTicketResponse_wf apiMsgCreateTicketResponse_enc fast_MsgCreateTicketResponse_writer. Qed.

Lemma fast_MsgCreateTicketResponse_field_ok dis : field_ok (fast_MsgCreateTicketResponse_field dis).
Proof. intros x fn wt d i Hi Hd. unfold fast_MsgCreateTicketResponse_field. solve_pfield_ok. Qed.

Lemma fast_MsgCreateTicketResponse_reads dis x : apiMsgCreateTicketResponse_wf dis x -> len (apiMsgCreateTicketResponse_enc x) < 2 ^ 63 ->
  reads PbRuntime "MsgCreateTicketResponse" (keep_unknown fast_MsgCreateTicketResponse_add_unknown dis) (fast_MsgCreateTicketResponse_field dis) apiMsgCreateTicketResponse_zero (apiMsgCreateTicketResponse_enc x) x.
Proof.
  unfold apiMsgCreateTicketResponse_wf. intros (W0 & W1) L. pose proof (fast_MsgCreateTicketResponse_field_ok dis).
  unfold apiMsgCreateTicketResponse_enc in *. enc_bounds. eapply reads_conv.
  - 
    eapply reads_app; [eapply reads_scalar with (W := u64); try reads_side; now apply u64_u64|].
    apply reads_unknown_fields with (known := [1]) (getu := apiMsgCreateTicketResponse_unknownFields) (setu := apiMsgCreateTicketResponse_with_unknown);
      [assumption | other_fields fast_MsgCreateTicketResponse_field | reflexivity | reflexivity | reflexivity | now intros [] | assumption | reflexivity].
  - now destruct x.
Qed.

Lemma fast_MsgCreateTicketResponse_codec : codec_ok PMsgCreateTicketResponse apiMsgCreateTicketResponse_zero apiMsgCreateTicketResponse_wf apiMsgCreateTicketResponse_enc fast_MsgCreateTicketResponse_methods.
Proof.
  solve_codec fast_MsgCreateTicketResponse_size_enc fast_MsgCreateTicketResponse_writes fast_MsgCreateTicketResponse_field_ok fast_MsgCreateTicketResponse_reads.
Qed.

Lemma fast_MsgCreateTicketResponse_ok : ReflectionOk fast_MsgCreateTicketResponse apiMsgCreateTicketResponse_abs.
Proof. solve_reflection file_tx_parse file_tx_tables. Qed.
End fast_MsgCreateTicketResponse_lemmas.
#[export] Hint Resolve fast_MsgCreateTicketResponse_codec : pulsar.
