(* ===== verification/PulsarModule.v ===== *)
(** * [api/halbornctf/hal/module/module.pulsar.go]: the configuration of the module

    The file descriptor with its tables, the accessors, the reflection methods
    and the fast path of each message, with the proof that the fast path is a
    correct codec. *)

From S2P Require Import Prelude Wire PulsarTypes Pulsar PulsarLaws PulsarDesc PulsarSchema PulsarReflect.

(** ** The file descriptor *)

Definition file_module_rawDesc : bytes := [
  x0a; x22; x68; x61; x6c; x62; x6f; x72; x6e; x63; x74; x66; x2f; x68; x61; x6c;
  x2f; x6d; x6f; x64; x75; x6c; x65; x2f; x6d; x6f; x64; x75; x6c; x65; x2e; x70;
  x72; x6f; x74; x6f; x12; x15; x68; x61; x6c; x62; x6f; x72; x6e; x63; x74; x66;
  x2e; x68; x61; x6c; x2e; x6d; x6f; x64; x75; x6c; x65; x1a; x20; x63; x6f; x73;
  x6d; x6f; x73; x2f; x61; x70; x70; x2f; x76; x31; x61; x6c; x70; x68; x61; x31;
  x2f; x6d; x6f; x64; x75; x6c; x65; x2e; x70; x72; x6f; x74; x6f; x22; x40; x0a;
  x06; x4d; x6f; x64; x75; x6c; x65; x12; x1c; x0a; x09; x61; x75; x74; x68; x6f;
  x72; x69; x74; x79; x18; x01; x20; x01; x28; x09; x52; x09; x61; x75; x74; x68;
  x6f; x72; x69; x74; x79; x3a; x18; xba; xc0; x96; xda; x01; x12; x0a; x10; x48;
  x61; x6c; x62; x6f; x72; x6e; x43; x54; x46; x2f; x78; x2f; x68; x61; x6c; x42;
  xc4; x01; x0a; x19; x63; x6f; x6d; x2e; x68; x61; x6c; x62; x6f; x72; x6e; x63;
  x74; x66; x2e; x68; x61; x6c; x2e; x6d; x6f; x64; x75; x6c; x65; x42; x0b; x4d;
  x6f; x64; x75; x6c; x65; x50; x72; x6f; x74; x6f; x50; x01; x5a; x24; x48; x61;
  x6c; x62; x6f; x72; x6e; x43; x54; x46; x2f; x61; x70; x69; x2f; x68; x61; x6c;
  x62; x6f; x72; x6e; x63; x74; x66; x2f; x68; x61; x6c; x2f; x6d; x6f; x64; x75;
  x6c; x65; xa2; x02; x03; x48; x48; x4d; xaa; x02; x15; x48; x61; x6c; x62; x6f;
  x72; x6e; x63; x74; x66; x2e; x48; x61; x6c; x2e; x4d; x6f; x64; x75; x6c; x65;
  xca; x02; x15; x48; x61; x6c; x62; x6f; x72; x6e; x63; x74; x66; x5c; x48; x61;
  x6c; x5c; x4d; x6f; x64; x75; x6c; x65; xe2; x02; x21; x48; x61; x6c; x62; x6f;
  x72; x6e; x63; x74; x66; x5c; x48; x61; x6c; x5c; x4d; x6f; x64; x75; x6c; x65;
  x5c; x47; x50; x42; x4d; x65; x74; x61; x64; x61; x74; x61; xea; x02; x17; x48;
  x61; x6c; x62; x6f; x72; x6e; x63; x74; x66; x3a; x3a; x48; x61; x6c; x3a; x3a;
  x4d; x6f; x64; x75; x6c; x65; x62; x06; x70; x72; x6f; x74; x6f; x33].

Definition file_module_goTypes : list ProtoMessage := [PModule None].

Definition file_module_depIdxs : list Z := [0; 0; 0; 0; 0].

Definition file_module_builder : TypeBuilder :=
  MkTypeBuilder file_module_rawDesc 0 1 0 0 file_module_goTypes file_module_depIdxs.

(** The descriptor is the .proto file, and the tables are what the builder
    expects. *)
Lemma file_module_parse : parse_file file_module_rawDesc = Some module_schema.
Proof. vm_compute. reflexivity. Qed.

Lemma file_module_tables : tables_ok file_module_builder module_schema = true.
Proof. vm_compute. reflexivity. Qed.

Section file_module_vars.
Context `{D : ProtoDesc}.

Definition File_module : FileDescriptor := Build file_module_builder.

(** The package variables, and their initialisation. *)
Definition file_module_vars : FileVars D :=
  MkFileVars None (Some file_module_rawDesc) (Some file_module_goTypes) (Some file_module_depIdxs) (replicate 1 None).
Definition file_module_exporters : list (ProtoMessage -> Z -> res (option exported)) :=
  [exporter as_Module].
Definition file_module_init (unsafe : bool) (st : FileVars D) : FileVars D :=
  match File st with
  | Some _ => st
  | None => build_file unsafe file_module_exporters 0 1 0 0 st
  end.

(** Initialising twice builds the file once; the file is that of the builder. *)
Lemma file_module_init_twice unsafe st : file_module_init unsafe (file_module_init unsafe st) = file_module_init unsafe st.
Proof. unfold file_module_init. destruct (File st) eqn:E; [now rewrite E | reflexivity]. Qed.

Lemma file_module_init_File unsafe : File (file_module_init unsafe file_module_vars) = Some File_module.
Proof. reflexivity. Qed.

Definition file_module_gzip : GzipVars := MkGzipVars false file_module_rawDesc.
Definition file_module_rawDescGZIP : GzipVars -> bytes * GzipVars := rawDescGZIP.
Definition apiModule_Descriptor (st : GzipVars) : bytes * list Z * GzipVars :=
  let '(d, st) := file_module_rawDescGZIP st in (d, [0], st).
End file_module_vars.

(** ** [Module] *)

Definition apiModule_Reset (x : ptr apiModule) : res (ptr apiModule) := _ ← deref x; Ok (Some apiModule_zero).
Definition apiModule_GetAuthority (x : ptr apiModule) : gostring :=
  match x with Some x => apiModule_Authority x | None => [] end.

Section fast_Module_defs.
Context `{R : ProtoRuntime} `{D : ProtoDesc}.

(** *** Descriptors *)

Definition md_Module : MessageDescriptor := Messages_ByName File_module "Module".
Definition fd_Module_authority : FieldDescriptor := Fields_ByName md_Module "authority".

(** *** Reflection *)

Definition fast_Module_ProtoReflect (x : ptr apiModule) : ProtoMessage := PModule x.
Definition fast_Module_messageType_Zero : ProtoMessage := PModule None.
Definition fast_Module_messageType_New : ProtoMessage := PModule (Some apiModule_zero).
Definition fast_Module_messageType_Descriptor : MessageDescriptor := md_Module.
Definition fast_Module_Descriptor (x : ptr apiModule) : MessageDescriptor := md_Module.
Definition fast_Module_New (x : ptr apiModule) : ProtoMessage := PModule (Some apiModule_zero).
Definition fast_Module_Interface (x : ptr apiModule) : ProtoMessage := PModule x.

Definition fast_Module_Range {St} (x : ptr apiModule) (f : FieldDescriptor -> Value -> St -> bool * St) (s : St) : res St :=
  x ← deref x;
  range_field (nonempty (apiModule_Authority x)) fd_Module_authority (VString (apiModule_Authority x)) f (
  Ok) s.

Definition fast_Module_Has (x : ptr apiModule) (fd : FieldDescriptor) : res bool :=
  switch (FullName fd) [
    ("halbornctf.hal.module.Module.authority", x ← deref x; Ok (nonempty (apiModule_Authority x)))
  ] (no_field "halbornctf.hal.module.Module" fd).

Definition fast_Module_Clear (x : ptr apiModule) (fd : FieldDescriptor) : res (ptr apiModule) :=
  switch (FullName fd) [
    ("halbornctf.hal.module.Module.authority", x ← deref x; Ok (Some (MkapiModule (apiModule_unknownFields x) [])))
  ] (no_field "halbornctf.hal.module.Module" fd).

Definition fast_Module_Get (x : ptr apiModule) (fd : FieldDescriptor) : res Value :=
  switch (FullName fd) [
    ("halbornctf.hal.module.Module.authority", x ← deref x; Ok (VString (apiModule_Authority x)))
  ] (no_field "halbornctf.hal.module.Module" fd).

Definition fast_Module_Set (x : ptr apiModule) (fd : FieldDescriptor) (value : Value) : res (ptr apiModule) :=
  switch (FullName fd) [
    ("halbornctf.hal.module.Module.authority", v ← Value_string value; x ← deref x; Ok (Some (MkapiModule (apiModule_unknownFields x) v)))
  ] (no_field "halbornctf.hal.module.Module" fd).

Definition fast_Module_Mutable (x : ptr apiModule) (fd : FieldDescriptor) : res (ptr apiModule * Value) :=
  switch (FullName fd) [
    ("halbornctf.hal.module.Module.authority", not_mutable "authority" "halbornctf.hal.module.Module")
  ] (no_field "halbornctf.hal.module.Module" fd).

Definition fast_Module_NewField (x : ptr apiModule) (fd : FieldDescriptor) : res Value :=
  switch (FullName fd) [
    ("halbornctf.hal.module.Module.authority", Ok (VString []))
  ] (no_field "halbornctf.hal.module.Module" fd).

Definition fast_Module_WhichOneof (x : ptr apiModule) (d : string) : res FieldDescriptor := not_oneof "halbornctf.hal.module.Module" d.
Definition fast_Module_GetUnknown (x : ptr apiModule) : res (option bytes) := x ← deref x; Ok (apiModule_unknownFields x).
Definition apiModule_with_unknown (u : option bytes) (x : apiModule) : apiModule :=
  MkapiModule u (apiModule_Authority x).
Definition fast_Module_SetUnknown (x : ptr apiModule) (fields : option bytes) : res (ptr apiModule) :=
  x ← deref x; Ok (Some (apiModule_with_unknown fields x)).
Definition fast_Module_IsValid (x : ptr apiModule) : bool := is_set x.

Definition fast_Module : Reflection apiModule := MkReflection fast_Module_Interface fast_Module_messageType_New fast_Module_messageType_Zero
  (@fast_Module_Range) fast_Module_Has fast_Module_Clear fast_Module_Get fast_Module_Set fast_Module_Mutable fast_Module_NewField fast_Module_WhichOneof
  fast_Module_GetUnknown fast_Module_SetUnknown fast_Module_IsValid.

(** *** The fast path *)

Definition fast_Module_size (input : ProtoMessage) : res Z :=
  x ← as_Module input;
  match x with
  | None => Ok 0
  | Some x =>
      Ok (size_string (apiModule_Authority x) + size_unknown (apiModule_unknownFields x))
  end.

Definition fast_Module_writer (x : apiModule) : writer :=
  punknown (apiModule_unknownFields x) >>
  pstring 0xa (apiModule_Authority x).

Definition fast_Module_marshal (buf : option bytes) (input : ProtoMessage) : res (option bytes) :=
  x ← as_Module input;
  match x with
  | None => Ok buf
  | Some x => fill_buf (options_Size fast_Module_size (PModule (Some x))) (fast_Module_writer x) buf
  end.

Definition fast_Module_field (discard : bool) (x : apiModule) (fieldNum wireType : Z) (d : bytes) (iNdEx : Z)
    : option (res (apiModule * Z)) :=
  if fieldNum =? 1 then Some (
    '(s, j) ← read_string PbRuntime "Authority" wireType d iNdEx;
    Ok (MkapiModule (apiModule_unknownFields x) s, j))
  else None.

Definition fast_Module_add_unknown (s : bytes) (x : apiModule) : apiModule :=
  apiModule_with_unknown (append_unknown (apiModule_unknownFields x) s) x.
Definition fast_Module_unmarshal (discard : bool) (d : bytes) (input : ProtoMessage) : res ProtoMessage :=
  x ← as_Module input;
  match x with
  | None => Ok input
  | Some x =>
      x ← Unmarshal_with PbRuntime "Module" (keep_unknown fast_Module_add_unknown discard) (fast_Module_field discard) x d;
      Ok (PModule (Some x))
  end.

Definition fast_Module_methods : Methods := MkMethods fast_Module_size fast_Module_marshal fast_Module_unmarshal.
End fast_Module_defs.

(** *** Specification *)

Definition apiModule_kinds : list (string * kind) := [
  ("halbornctf.hal.module.Module.authority", KString)].

Definition apiModule_view (x : apiModule) : list (string * Value) := [
  ("halbornctf.hal.module.Module.authority", VString (apiModule_Authority x))].

Definition apiModule_abs `{D : ProtoDesc} : Abstraction apiModule := MkAbstraction PModule apiModule_zero apiModule_kinds
  [fd_Module_authority] apiModule_view apiModule_unknownFields.

Section fast_Module_lemmas.
Context `{ProtoRuntimeOk} `{ProtoDescOk}.

Definition apiModule_enc (x : apiModule) : bytes :=
  enc_string 0xa (apiModule_Authority x) ++
  default [] (apiModule_unknownFields x).

Definition apiModule_wf (dis : bool) (x : apiModule) : Prop :=
  unknown_ok [1] dis (apiModule_unknownFields x).

Lemma fast_Module_size_enc dis x : apiModule_wf dis x -> len (apiModule_enc x) < 2 ^ 63 ->
  fast_Module_size (PModule (Some x)) = Ok (len (apiModule_enc x)).
Proof. solve_size apiModule_wf apiModule_enc fast_Module_size as_Module. Qed.

Lemma fast_Module_writes dis x : apiModule_wf dis x -> len (apiModule_enc x) < 2 ^ 63 -> writes (fast_Module_writer x) (apiModule_enc x).
Proof. solve_pwrites apiModule_wf apiModule_enc fast_Module_writer. Qed.

Lemma fast_Module_field_ok dis : field_ok (fast_Module_field dis).
Proof. intros x fn wt d i Hi Hd. unfold fast_Module_field. solve_pfield_ok. Qed.

Lemma fast_Module_reads dis x : apiModule_wf dis x -> len (apiModule_enc x) < 2 ^ 63 ->
  reads PbRuntime "Module" (keep_unknown fast_Module_add_unknown dis) (fast_Module_field dis) apiModule_zero (apiModule_enc x) x.
Proof.
  unfold apiModule_wf. intros W0 L. pose proof (fast_Module_field_ok dis).
  unfold apiModule_enc in *. enc_bounds. eapply reads_conv.
  - 
    eapply reads_app; [eapply reads_string; reads_side|].
    apply reads_unknown_fields with (known := [1]) (getu := apiModule_unknownFields) (setu := apiModule_with_unknown);
      [assumption | other_fields fast_Module_field | reflexivity | reflexivity | reflexivity | now intros [] | assumption | reflexivity].
  - now destruct x.
Qed.

Lemma fast_Module_codec : codec_ok PModule apiModule_zero apiModule_wf apiModule_enc fast_Module_methods.
Proof.
  solve_codec fast_Module_size_enc fast_Module_writes fast_Module_field_ok fast_Module_reads.
Qed.

Lemma fast_Module_ok : ReflectionOk fast_Module apiModule_abs.
Proof. solve_reflection file_module_parse file_module_tables. Qed.
End fast_Module_lemmas.
#[export] Hint Resolve fast_Module_codec : pulsar.
