(* ===== verification/PulsarModel.v ===== *)
(** * An implementation of the protobuf runtime

    Concrete instances of [ProtoRuntime] and [ProtoDesc], used to evaluate the
    examples on the pulsar files: the varint routines of [Wire], options that
    call the methods, and the documented wire formats of coins, timestamps and
    durations.  They show that the laws hold together, and, with the instances
    of [SdkModel], that both families of bindings can agree on the messages
    they share. *)

From Stdlib Require Import DecimalString.
From S2P Require Import Prelude Wire Sdk SdkModel PulsarTypes Pulsar PulsarLaws PulsarDesc.

(** ** Messages of other packages *)

(** Methods around an encoding and the switch of a reading loop. *)
Definition simple_methods {A} (mk : ptr A -> ProtoMessage) (as_ : ProtoMessage -> res (ptr A))
    (enc : A -> bytes) (name : string) (field : A -> Z -> Z -> bytes -> Z -> option (res (A * Z))) : Methods :=
  MkMethods
    (fun m => x ← as_ m; Ok (match x with Some x => len (enc x) | None => 0 end))
    (fun buf m => x ← as_ m; Ok (match x with Some x => Some (default [] buf ++ enc x) | None => buf end))
    (fun _ d m => x ← as_ m;
       match x with
       | Some x => x ← Unmarshal PbRuntime name field x d; Ok (mk (Some x))
       | None => Ok m
       end).

Definition coin_bytes (c : apiCoin) : bytes :=
  enc_string 0xa (apiCoin_Denom c) ++ enc_string 0x12 (apiCoin_Amount c).
Definition coin_switch (c : apiCoin) (fieldNum wireType : Z) (d : bytes) (i : Z) : option (res (apiCoin * Z)) :=
  if fieldNum =? 1 then Some (
    '(s, j) ← read_string PbRuntime "Denom" wireType d i;
    Ok (MkapiCoin (apiCoin_unknownFields c) s (apiCoin_Amount c), j))
  else if fieldNum =? 2 then Some (
    '(s, j) ← read_string PbRuntime "Amount" wireType d i;
    Ok (MkapiCoin (apiCoin_unknownFields c) (apiCoin_Denom c) s, j))
  else None.

Definition timestamp_bytes (t : apiTimestamp) : bytes :=
  enc_scalar 0x8 (apiTimestamp_Seconds t) ++ enc_scalar 0x10 (apiTimestamp_Nanos t).
Definition timestamp_switch (t : apiTimestamp) (fieldNum wireType : Z) (d : bytes) (i : Z)
    : option (res (apiTimestamp * Z)) :=
  if fieldNum =? 1 then Some (
    '(v, j) ← read_scalar PbRuntime i64 "Seconds" wireType d i;
    Ok (MkapiTimestamp (apiTimestamp_unknownFields t) v (apiTimestamp_Nanos t), j))
  else if fieldNum =? 2 then Some (
    '(v, j) ← read_scalar PbRuntime i32 "Nanos" wireType d i;
    Ok (MkapiTimestamp (apiTimestamp_unknownFields t) (apiTimestamp_Seconds t) v, j))
  else None.

Definition duration_bytes (t : apiDuration) : bytes :=
  enc_scalar 0x8 (apiDuration_Seconds t) ++ enc_scalar 0x10 (apiDuration_Nanos t).
Definition duration_switch (t : apiDuration) (fieldNum wireType : Z) (d : bytes) (i : Z)
    : option (res (apiDuration * Z)) :=
  if fieldNum =? 1 then Some (
    '(v, j) ← read_scalar PbRuntime i64 "Seconds" wireType d i;
    Ok (MkapiDuration (apiDuration_unknownFields t) v (apiDuration_Nanos t), j))
  else if fieldNum =? 2 then Some (
    '(v, j) ← read_scalar PbRuntime i32 "Nanos" wireType d i;
    Ok (MkapiDuration (apiDuration_unknownFields t) (apiDuration_Seconds t) v, j))
  else None.

(** ** The instances *)

Definition wrong_kind {A} : res A := Panic (PMsg "type mismatch").

#[export] Instance proto_runtime : ProtoRuntime := {
  Sov := sov;
  EncodeVarint := encodeVarint;
  Skip := skip PbRuntime;
  options_Size f m := f m;
  options_Marshal f m := buf ← f None m; Ok (default [] buf);
  options_Unmarshal f dis d m := f dis d m;
  Value_string v := match v with VString s => Ok s | _ => wrong_kind end;
  Value_Uint v := match v with VUint32 z | VUint64 z => Ok z | _ => wrong_kind end;
  Value_Int v := match v with VInt32 z | VInt64 z => Ok z | _ => wrong_kind end;
  Value_Message v := match v with VMessage m => Ok m | _ => wrong_kind end;
  Coin_methods := simple_methods PCoin as_Coin coin_bytes "Coin" coin_switch;
  Timestamp_methods := simple_methods PTimestamp as_Timestamp timestamp_bytes "Timestamp" timestamp_switch;
  Duration_methods := simple_methods PDuration as_Duration duration_bytes "Duration" duration_switch }.

#[export] Instance proto_desc : ProtoDesc := {
  FileDescriptor := TypeBuilder;
  MessageDescriptor := string;
  Build b := b;
  Messages_ByName b n :=
    match parse_file (RawDescriptor b) with Some F => qualified (file_package F) n | None => n end;
  Fields_ByName m f := MkFieldDescriptor (qualified m f) false;
  CompressGZIP d := d }.

#[export] Instance proto_desc_ok : ProtoDescOk.
Proof. constructor. intros b F m f Hp _ _ _. cbn. now rewrite Hp. Qed.

Lemma simple_codec {A} (mk : ptr A -> ProtoMessage) as_ zero wf enc name field :
  (forall x, as_ (mk x) = Ok x) -> field_ok field ->
  (forall dis x, wf dis x -> reads PbRuntime name (skip_field PbRuntime) field zero (enc x) x) ->
  codec_ok mk zero wf enc (simple_methods mk as_ enc name field).
Proof.
  intros Has Hf Hr. constructor; intros; cbn -[Unmarshal]; rewrite Has; cbn -[Unmarshal]; try reflexivity.
  - erewrite reads_Unmarshal; [reflexivity | assumption | eapply Hr; eassumption | assumption].
  - eapply safe_bind; [apply Unmarshal_safe; assumption | intros y _; cbn; eauto].
  - auto.
Qed.

Lemma coin_switch_ok : field_ok coin_switch.
Proof. intros c fn wt d i Hi Hd. unfold coin_switch. solve_field_ok. Qed.
Lemma timestamp_switch_ok : field_ok timestamp_switch.
Proof. intros c fn wt d i Hi Hd. unfold timestamp_switch. solve_field_ok. Qed.
Lemma duration_switch_ok : field_ok duration_switch.
Proof. intros c fn wt d i Hi Hd. unfold duration_switch. solve_field_ok. Qed.

(** The skipping loop over a varint stops where the reading loop does. *)
Lemma skipVarint_decode f W fuel d i s x y j :
  decodeVarint_loop f W fuel d i s x = Ok (y, j) -> skipVarint_loop f fuel d i s = Ok j.
Proof.
  revert i s x. induction fuel as [|fuel IH]; intros i s x;
    [discriminate|].
  unfold decodeVarint_loop, skipVarint_loop; fold (decodeVarint_loop f); fold (skipVarint_loop f).
  destruct (64 <=? s), (len d <=? i); try discriminate. replace (i + 1 - 1) with i by lia.
  destruct (index d i) as [b| | |]; cbn [mbind res_bind]; try discriminate.
  destruct (bz b <? 0x80); [congruence | apply IH].
Qed.

Lemma skip_varint f tag v post : 8 <= tag < 128 -> Z.land tag 7 = 0 -> 0 <= v < 2 ^ 64 ->
  len (zb tag :: varint v ++ post) < 2 ^ 63 ->
  skip f (zb tag :: varint v ++ post) = Ok (len (zb tag :: varint v)).
Proof.
  intros Ht Hw Hv Hl. set (d := zb tag :: _) in *. unfold skip. unfold skip_loop; fold (skip_loop f).
  pose proof (len_nonneg (varint v)). pose proof (len_nonneg post).
  assert (L : len d = 1 + len (varint v) + len post) by (unfold d; rewrite len_cons, len_app; lia).
  rewrite (proj2 (Z.ltb_lt _ _)) by lia.
  assert (E : varint tag = [zb tag]).
  { unfold varint, varint_aux. now rewrite (proj2 (Z.ltb_lt _ _)) by lia. }
  pose proof (decodeVarint_varint f u64 tag [] (varint v ++ post) ltac:(lia)) as D.
  rewrite E in D. cbn [app] in D. fold d in D. rewrite len_nil in D. rewrite D. cbn [mbind res_bind].
  change (0 + len [zb tag]) with 1. replace (u64 tag) with tag by (symmetry; apply uwrap_small; lia). rewrite Hw.
  pose proof (decodeVarint_varint f u64 v [zb tag] post Hv) as D'.
  cbn [app] in D'. fold d in D'. change (len [zb tag]) with 1 in D'.
  unfold skip_case. cbn [Z.eqb]. rewrite (skipVarint_decode _ _ _ _ _ _ _ _ _ D'). cbn [mbind res_bind].
  rewrite (proj2 (Z.ltb_ge _ _)) by lia. rewrite len_cons. reflexivity.
Qed.

#[export] Program Instance proto_runtime_ok : ProtoRuntimeOk := {
  apiCoin_enc := coin_bytes;
  apiTimestamp_enc := timestamp_bytes;
  apiDuration_enc := duration_bytes }.
Next Obligation. intros v Hv. cbn. now rewrite varint_len. Qed.
Next Obligation. intros v Hv. apply (writes_varint v Hv). Qed.
Next Obligation. intros. now apply skip_safe. Qed.
Next Obligation.
  intros tag s post Ht Hw Hl. unfold enc_message in *. cbn [app] in *. rewrite <- app_assoc in *.
  cbn. apply skip_delimited; [lia | assumption | assumption].
Qed.
Next Obligation. intros. now apply skip_varint. Qed.
Next Obligation. reflexivity. Qed.
Next Obligation. intros f m e Hf. cbn. now rewrite Hf. Qed.
Next Obligation. reflexivity. Qed.
Next Obligation. intros []; cbn; unfold wrong_kind; eauto. Qed.
Next Obligation. intros []; cbn; unfold wrong_kind; eauto. Qed.
Next Obligation. intros []; cbn; unfold wrong_kind; eauto. Qed.
Next Obligation. intros []; cbn; unfold wrong_kind; eauto. Qed.
Next Obligation.
  apply simple_codec; [reflexivity | apply coin_switch_ok |]. intros dis x Hx. pose proof coin_switch_ok.
  eapply reads_conv; [eapply reads_app; eapply reads_string; reads_side|].
  destruct x. cbn in *. now rewrite Hx.
Qed.
Next Obligation.
  apply simple_codec; [reflexivity | apply timestamp_switch_ok |]. intros dis x (Hx & Hs & Hn).
  pose proof timestamp_switch_ok. eapply reads_conv.
  - eapply reads_app; [eapply reads_scalar with (W := i64); try reads_side; now apply i64_u64|].
    eapply reads_scalar with (W := i32); try reads_side. now apply i32_u64.
  - destruct x. cbn in *. now rewrite Hx.
Qed.
Next Obligation.
  apply simple_codec; [reflexivity | apply duration_switch_ok |]. intros dis x (Hx & Hs & Hn).
  pose proof duration_switch_ok. eapply reads_conv.
  - eapply reads_app; [eapply reads_scalar with (W := i64); try reads_side; now apply i64_u64|].
    eapply reads_scalar with (W := i32); try reads_side. now apply i32_u64.
  - destruct x. cbn in *. now rewrite Hx.
Qed.
