(* ===== verification/PulsarProps.v ===== *)
(** * Correctness of the pulsar bindings

    The theorems over the sixteen messages of [api/halbornctf/hal]: the fast
    path round-trips and returns on any bytes, it writes what the descriptor
    of the message prescribes, the descriptors are the .proto files, and the
    reflection methods implement the field list of the message. *)

From S2P Require Import Prelude Wire PulsarTypes Pulsar PulsarLaws PulsarDesc PulsarSchema PulsarReflect.
From S2P Require Import PulsarTickets PulsarRedeemRequest PulsarParams PulsarGenesis PulsarQuery PulsarTx PulsarModule PulsarModel.

(** ** The messages *)

(** A message with its reflection and fast path, and what specifies them. *)
Record Generated := MkGenerated {
  g_type : Type;
  g_name : string;
  g_rawDesc : bytes;
  g_reflection : Reflection g_type;
  g_abs : Abstraction g_type;
  g_wf : bool -> g_type -> Prop;
  g_enc : g_type -> bytes;
  g_methods : Methods }.
Arguments MkGenerated {_}.

Section generated.
Context `{ProtoRuntimeOk} `{ProtoDesc}.

Definition generated : list Generated := [
  MkGenerated "Ticket" file_tickets_rawDesc fast_Ticket apiTicket_abs apiTicket_wf apiTicket_enc fast_Ticket_methods;
  MkGenerated "RedeemRequest" file_redeem_request_rawDesc fast_RedeemRequest apiRedeemRequest_abs apiRedeemRequest_wf apiRedeemRequest_enc fast_RedeemRequest_methods;
  MkGenerated "Params" file_params_rawDesc fast_Params apiParams_abs apiParams_wf apiParams_enc fast_Params_methods;
  MkGenerated "TokenMeta" file_params_rawDesc fast_TokenMeta apiTokenMeta_abs apiTokenMeta_wf apiTokenMeta_enc fast_TokenMeta_methods;
  MkGenerated "GenesisState" file_genesis_rawDesc fast_GenesisState apiGenesisState_abs apiGenesisState_wf apiGenesisState_enc fast_GenesisState_methods;
  MkGenerated "QueryParamsRequest" file_query_rawDesc fast_QueryParamsRequest apiQueryParamsRequest_abs apiQueryParamsRequest_wf apiQueryParamsRequest_enc fast_QueryParamsRequest_methods;
  MkGenerated "QueryParamsResponse" file_query_rawDesc fast_QueryParamsResponse apiQueryParamsResponse_abs apiQueryParamsResponse_wf apiQueryParamsResponse_enc fast_QueryParamsResponse_methods;
  MkGenerated "MsgUpdateParams" file_tx_rawDesc fast_MsgUpdateParams apiMsgUpdateParams_abs apiMsgUpdateParams_wf apiMsgUpdateParams_enc fast_MsgUpdateParams_methods;
  MkGenerated "MsgUpdateParamsResponse" file_tx_rawDesc fast_MsgUpdateParamsResponse apiMsgUpdateParamsResponse_abs apiMsgUpdateParamsResponse_wf apiMsgUpdateParamsResponse_enc fast_MsgUpdateParamsResponse_methods;
  MkGenerated "MsgMintHal" file_tx_rawDesc fast_MsgMintHal apiMsgMintHal_abs apiMsgMintHal_wf apiMsgMintHal_enc fast_MsgMintHal_methods;
  MkGenerated "MsgMintHalResponse" file_tx_rawDesc fast_MsgMintHalResponse apiMsgMintHalResponse_abs apiMsgMintHalResponse_wf apiMsgMintHalResponse_enc fast_MsgMintHalResponse_methods;
  MkGenerated "MsgRedeemCollateral" file_tx_rawDesc fast_MsgRedeemCollateral apiMsgRedeemCollateral_abs apiMsgRedeemCollateral_wf apiMsgRedeemCollateral_enc fast_MsgRedeemCollateral_methods;
  MkGenerated "MsgRedeemCollateralResponse" file_tx_rawDesc fast_MsgRedeemCollateralResponse apiMsgRedeemCollateralResponse_abs apiMsgRedeemCollateralResponse_wf apiMsgRedeemCollateralResponse_enc fast_MsgRedeemCollateralResponse_methods;
  MkGenerated "MsgCreateTicket" file_tx_rawDesc fast_MsgCreateTicket apiMsgCreateTicket_abs apiMsgCreateTicket_wf apiMsgCreateTicket_enc fast_MsgCreateTicket_methods;
  MkGenerated "MsgCreateTicketResponse" file_tx_rawDesc fast_MsgCreateTicketResponse apiMsgCreateTicketResponse_abs apiMsgCreateTicketResponse_wf apiMsgCreateTicketResponse_enc fast_MsgCreateTicketResponse_methods;
  MkGenerated "Module" file_module_rawDesc fast_Module apiModule_abs apiModule_wf apiModule_enc fast_Module_methods].

(** ** Encoding by descriptor

    The encoding a reader of the descriptor expects: the fields in
    declaration order, each under its number and the wire type of its value,
    a default value left out, then the unknown fields. *)

(** The fields the file descriptor [raw] declares for the message [name]. *)
Definition declared_fields (raw : bytes) (name : string) : list FieldProto :=
  match parse_file raw with
  | Some F => concat (m_fields <$> List.filter (fun m => String.eqb (m_name m) name) (file_messages F))
  | None => []
  end.

Definition value_enc (sub : ProtoMessage -> option bytes) (number : Z) (v : Value) : bytes :=
  match v with
  | VString s => enc_string (8 * number + 2) s
  | VUint32 z | VUint64 z | VInt32 z | VInt64 z => enc_scalar (8 * number) z
  | VMessage m => match sub m with Some e => enc_message (8 * number + 2) e | None => [] end
  | _ => []
  end.

Definition descriptor_enc (sub : ProtoMessage -> option bytes) (fields : list FieldProto)
    (values : list Value) (unknown : option bytes) : bytes :=
  concat (zip_with (fun f v => value_enc sub (f_number f) v) fields values) ++ default [] unknown.

(** Message fields, by dynamic type: nothing for a nil pointer.  [Params] holds
    token metadata, which holds no messages. *)
Definition other_enc (m : ProtoMessage) : option bytes :=
  match m with
  | PCoin x => apiCoin_enc <$> x
  | PTimestamp x => apiTimestamp_enc <$> x
  | PDuration x => apiDuration_enc <$> x
  | _ => None
  end.
Definition token_enc (m : ProtoMessage) : option bytes :=
  match m with
  | PTokenMeta x =>
      (fun x => descriptor_enc other_enc (declared_fields file_params_rawDesc "TokenMeta")
                  (apiTokenMeta_view x).*2 (apiTokenMeta_unknownFields x)) <$> x
  | _ => other_enc m
  end.
Definition message_enc (m : ProtoMessage) : option bytes :=
  match m with
  | PParams x =>
      (fun x => descriptor_enc token_enc (declared_fields file_params_rawDesc "Params")
                  (apiParams_view x).*2 (apiParams_unknownFields x)) <$> x
  | _ => token_enc m
  end.

Definition g_descriptor_enc (g : Generated) (x : g_type g) : bytes :=
  descriptor_enc message_enc (declared_fields (g_rawDesc g) (g_name g))
    (a_view (g_abs g) x).*2 (a_unknown (g_abs g) x).
End generated.

(** A field of the descriptor has the name and the type of the Go field. *)
Definition kind_declared (f : FieldProto) (k : kind) : bool :=
  (f_label f =? 1) &&
  match k with
  | KString => f_type f =? 9
  | KUint64 => f_type f =? 4
  | KUint32 => f_type f =? 13
  | KInt32 => f_type f =? 5
  | KMessage nilm newm =>
      (f_type f =? 11) && String.eqb (f_type_name f) ("." +:+ type_name nilm) &&
      same_type nilm newm && is_nil nilm && negb (is_nil newm)
  end.

Fixpoint fields_declared (md : string) (fs : list FieldProto) (ks : list (string * kind)) : bool :=
  match fs, ks with
  | [], [] => true
  | f :: fs, (n, k) :: ks => String.eqb n (qualified md (f_name f)) && kind_declared f k && fields_declared md fs ks
  | _, _ => false
  end.

Definition file_builders : list (TypeBuilder * FileProto) := [
  (file_tickets_builder, tickets_schema);
  (file_redeem_request_builder, redeem_request_schema);
  (file_params_builder, params_schema);
  (file_genesis_builder, genesis_schema);
  (file_query_builder, query_schema);
  (file_tx_builder, tx_schema);
  (file_module_builder, module_schema)].

(** ** Theorems *)

Section theorems.
Context `{ProtoRuntimeOk} `{ProtoDescOk}.

(** Every message of the list has the property: one lemma per message. *)
Ltac each_message lem := unfold generated; repeat (apply Forall_cons; split; [lem|]); apply Forall_nil_2.

Lemma generated_codec : Forall (fun g =>
  codec_ok (a_pointer (g_abs g)) (a_zero (g_abs g)) (g_wf g) (g_enc g) (g_methods g)) generated.
Proof. each_message ltac:(solve [eauto with pulsar]). Qed.

Lemma generated_reflection : Forall (fun g => ReflectionOk (g_reflection g) (g_abs g)) generated.
Proof.
  each_message ltac:(first [exact fast_Ticket_ok | exact fast_RedeemRequest_ok | exact fast_Params_ok | exact fast_TokenMeta_ok | exact fast_GenesisState_ok | exact fast_QueryParamsRequest_ok | exact fast_QueryParamsResponse_ok | exact fast_MsgUpdateParams_ok | exact fast_MsgUpdateParamsResponse_ok | exact fast_MsgMintHal_ok | exact fast_MsgMintHalResponse_ok | exact fast_MsgRedeemCollateral_ok | exact fast_MsgRedeemCollateralResponse_ok | exact fast_MsgCreateTicket_ok | exact fast_MsgCreateTicketResponse_ok | exact fast_Module_ok]).
Qed.

(** C16: the fast path of every pulsar message round-trips: [size] is the length
    of what [marshal] appends to the buffer it is given, and [unmarshal] of
    those bytes into a new message gives the same message, unknown fields
    included unless they are discarded. *)
Theorem pulsar_roundtrip : Forall (fun g => forall dis x buf,
  g_wf g dis x -> len (g_enc g x) < 2 ^ 63 -> exists e,
    m_size (g_methods g) (a_pointer (g_abs g) (Some x)) = Ok (len e) /\
    m_marshal (g_methods g) buf (a_pointer (g_abs g) (Some x)) = Ok (Some (default [] buf ++ e)) /\
    m_unmarshal (g_methods g) dis e (a_pointer (g_abs g) (Some (a_zero (g_abs g)))) =
      Ok (a_pointer (g_abs g) (Some x))) generated.
Proof.
  eapply Forall_impl; [apply generated_codec|]. intros g C dis x buf W L. exists (g_enc g x).
  split; [exact (co_size C dis x W L)|]. split; [exact (co_marshal C dis x buf W L) | exact (co_unmarshal C dis x W L)].
Qed.

(** [unmarshal] of every pulsar message, on any bytes and into any message,
    returns a message of the same type or an error: the loops end, no index
    is out of range, no type assertion fails. *)
Theorem pulsar_unmarshal_total : Forall (fun g => forall dis d x,
  len d < 2 ^ 63 ->
  safe (m_unmarshal (g_methods g) dis d (a_pointer (g_abs g) (Some x)))
       (fun m => exists y, m = a_pointer (g_abs g) (Some y))) generated.
Proof. eapply Forall_impl; [apply generated_codec|]. intros g C dis d x L. now apply (co_safe C). Qed.

(** C15: the reflection methods of every pulsar message implement the list of
    its fields: [Get], [Has], [Set], [Clear], [Mutable], [NewField] and [Range]
    read, test, replace, reset and enumerate exactly the declared fields, and
    panic on the descriptor of another message. *)
Theorem pulsar_reflection : Forall (fun g => ReflectionOk (g_reflection g) (g_abs g)) generated.
Proof. exact generated_reflection. Qed.
End theorems.

(** ** The descriptors decide the encoding *)

Section descriptors.
Context `{ProtoRuntimeOk} `{ProtoDesc}.

(** Unfold the declared fields of a message, from the descriptor of its file. *)
Ltac unfold_declared parse :=
  unfold descriptor_enc, declared_fields; rewrite parse;
  cbn [file_messages fmap list_fmap List.filter m_name m_fields concat app zip_with f_number value_enc snd].

Lemma TokenMeta_descriptor_enc x :
  descriptor_enc other_enc (declared_fields file_params_rawDesc "TokenMeta")
    (apiTokenMeta_view x).*2 (apiTokenMeta_unknownFields x) = apiTokenMeta_enc x.
Proof. unfold_declared file_params_parse. cbn. rewrite app_nil_r, <- !app_assoc. reflexivity. Qed.

(** A message field is encoded as the pointer it holds. *)
Definition sub_enc_ptr (sub : ProtoMessage -> option bytes) (tag : Z) (m : ProtoMessage) : bytes :=
  match sub m with Some e => enc_message tag e | None => [] end.

Ltac fold_sub :=
  repeat match goal with
  | |- context [match ?sub ?m with Some e => enc_message ?tag e | None => [] end] =>
      change (match sub m with Some e => enc_message tag e | None => [] end) with (sub_enc_ptr sub tag m)
  end.

Lemma token_enc_ptr tag x : sub_enc_ptr token_enc tag (PTokenMeta x) = enc_ptr tag apiTokenMeta_enc x.
Proof.
  destruct x as [x|]; [|reflexivity]. unfold enc_ptr. now rewrite <- TokenMeta_descriptor_enc.
Qed.

Lemma Params_descriptor_enc x :
  descriptor_enc token_enc (declared_fields file_params_rawDesc "Params")
    (apiParams_view x).*2 (apiParams_unknownFields x) = apiParams_enc x.
Proof.
  unfold_declared file_params_parse. cbn -[token_enc]. fold_sub.
  rewrite !token_enc_ptr, app_nil_r, <- !app_assoc. unfold apiParams_enc. now destruct (apiParams_RedeemDur x).
Qed.

Lemma params_enc_ptr tag x : sub_enc_ptr message_enc tag (PParams x) = enc_ptr tag apiParams_enc x.
Proof.
  destruct x as [x|]; [|reflexivity]. unfold enc_ptr. now rewrite <- Params_descriptor_enc.
Qed.

Lemma message_enc_ptr tag x : sub_enc_ptr message_enc tag (PTokenMeta x) = enc_ptr tag apiTokenMeta_enc x.
Proof. apply token_enc_ptr. Qed.
Lemma coin_enc_ptr tag x : sub_enc_ptr message_enc tag (PCoin x) = enc_ptr tag apiCoin_enc x.
Proof. now destruct x. Qed.
Lemma timestamp_enc_ptr tag x : sub_enc_ptr message_enc tag (PTimestamp x) = enc_ptr tag apiTimestamp_enc x.
Proof. now destruct x. Qed.
Lemma duration_enc_ptr tag x : sub_enc_ptr message_enc tag (PDuration x) = enc_ptr tag apiDuration_enc x.
Proof. now destruct x. Qed.

Lemma generated_enc : Forall (fun g => forall x, g_descriptor_enc g x = g_enc g x) generated.
Proof.
  unfold generated; repeat (apply Forall_cons; split; [|]); [..|apply Forall_nil_2];
    intros x; unfold g_descriptor_enc; cbn [g_rawDesc g_name g_abs g_enc a_view a_unknown];
    unfold descriptor_enc, declared_fields;
    rewrite ?file_tickets_parse, ?file_redeem_request_parse, ?file_params_parse, ?file_genesis_parse,
      ?file_query_parse, ?file_tx_parse, ?file_module_parse; cbn -[message_enc];
    fold_sub; rewrite ?params_enc_ptr, ?message_enc_ptr, ?coin_enc_ptr, ?timestamp_enc_ptr, ?duration_enc_ptr,
      ?app_nil_r, <- ?app_assoc; reflexivity.
Qed.

(** The bytes [marshal] produces are those the descriptor of the file
    prescribes: the fields [rawDesc] declares, in order, each under its
    declared number with the value reflection shows, then the unknown
    fields. *)
Theorem pulsar_descriptor_encoding : Forall (fun g => forall dis x buf,
  g_wf g dis x -> len (g_descriptor_enc g x) < 2 ^ 63 ->
  m_marshal (g_methods g) buf (a_pointer (g_abs g) (Some x)) =
    Ok (Some (default [] buf ++ g_descriptor_enc g x))) generated.
Proof.
  pose proof generated_enc as E. pose proof generated_codec as C.
  induction C as [|g l C _ IH]; inversion_clear E as [|? ? Eg El]; constructor; [|now apply IH].
  intros dis x buf W. rewrite Eg. now apply (co_marshal C dis).
Qed.

(** Every [rawDesc] is the descriptor of its .proto file; the table of Go
    types and the dependency indexes resolve every type name of the file in
    the layout the type builder documents; and every Go field has the name and
    type that the descriptor declares. *)
Theorem pulsar_descriptors :
  Forall (fun '(b, F) => parse_file (RawDescriptor b) = Some F /\ tables_ok b F = true) file_builders /\
  Forall (fun g => fields_declared (type_name (a_pointer (g_abs g) None))
                     (declared_fields (g_rawDesc g) (g_name g)) (a_kinds (g_abs g)) = true) generated.
Proof.
  split; repeat (apply Forall_cons; split); try apply Forall_nil_2; vm_compute; try split; reflexivity.
Qed.
End descriptors.

(** ** What a caller of the reflection methods relies on *)

Section callers.
Context `{ProtoRuntimeOk} `{ProtoDescOk}.

(** On every message and every field of it: a value that is set is read
    back, with every other field unchanged; a value of another kind is
    refused with a panic; a cleared field is no longer populated; and the value
    of [NewField] can be set. *)
Theorem reflection_laws : Forall (fun g => forall x fd k,
  assoc (FullName fd) (a_kinds (g_abs g)) = Some k ->
  (forall v, match convert k v with
    | Some w => exists y, r_Set (g_reflection g) (Some x) fd v = Ok (Some y) /\
        r_Get (g_reflection g) (Some y) fd = Ok w /\
        r_Has (g_reflection g) (Some y) fd = Ok (populated w) /\
        forall fd', is_Some (assoc (FullName fd') (a_kinds (g_abs g))) -> FullName fd' <> FullName fd ->
          r_Get (g_reflection g) (Some y) fd' = r_Get (g_reflection g) (Some x) fd'
    | None => panics (r_Set (g_reflection g) (Some x) fd v)
    end) /\
  (exists y, r_Clear (g_reflection g) (Some x) fd = Ok (Some y) /\
             r_Has (g_reflection g) (Some y) fd = Ok false) /\
  (exists v y, r_NewField (g_reflection g) (Some x) fd = Ok v /\
               r_Set (g_reflection g) (Some x) fd v = Ok (Some y))) generated.
Proof.
  eapply Forall_impl; [apply generated_reflection|]. intros g Hok x fd k Hk. cbn beta in Hok.
  split; [|split].
  - intros v. destruct (convert k v) as [w|] eqn:Hc.
    + destruct (set_replaces Hok x fd k v w Hk Hc) as (y & S & V). exists y.
      destruct (replaces_get Hok x y fd k w Hk V) as [G Hp].
      repeat split; [exact S | exact G | exact Hp |]. intros fd' Hs Hn. now apply (replaces_frame Hok (FullName fd) w).
    + destruct (field_known Hok x fd k Hk) as (u & _ & _ & _ & _ & S & _). specialize (S v). now rewrite Hc in S.
  - now apply (clear_has Hok x fd k).
  - destruct (ro_defaults Hok _ k Hk) as (_ & _ & Hc). destruct (set_replaces Hok x fd k _ _ Hk Hc) as (y & S & _).
    exists (new_of k), y. split; [apply (nil_panics Hok fd k Hk) | exact S].
Qed.

(** The invalid message, a nil pointer, is not the empty read-only message
    of the comments: reading any of its fields or its unknown fields panics.
    And [Set] does not refuse it: storing the nil message in a message field
    succeeds and leaves the field unpopulated. *)
Theorem invalid_message_access : Forall (fun g => forall fd k,
  assoc (FullName fd) (a_kinds (g_abs g)) = Some k ->
  r_IsValid (g_reflection g) None = false /\
  panics (r_Get (g_reflection g) None fd) /\ panics (r_Has (g_reflection g) None fd) /\
  panics (r_GetUnknown (g_reflection g) None) /\
  forall x nilm newm, k = KMessage nilm newm -> exists y,
    r_Set (g_reflection g) (Some x) fd (VMessage nilm) = Ok (Some y) /\
    r_Has (g_reflection g) (Some y) fd = Ok false) generated.
Proof.
  eapply Forall_impl; [apply generated_reflection|]. intros g Hok fd k Hk. cbn beta in Hok.
  destruct (nil_panics Hok fd k Hk) as (G & Hh & _). destruct (ro_unknown_nil _ _ Hok None) as [U _].
  rewrite (ro_valid _ _ Hok). split; [reflexivity|]. split; [exact G|]. split; [exact Hh|]. split; [exact U|].
  intros x nilm newm ->. destruct (ro_defaults Hok _ _ Hk) as (Hp & Hc & _).
  destruct (set_replaces Hok x fd _ _ _ Hk Hc) as (y & S & V). exists y. split; [exact S|].
  rewrite <- Hp. now apply (replaces_get Hok x y fd _ _ Hk V).
Qed.

(** The narrow integer fields keep the low 32 bits of what reflection sets:
    [TokenMeta.decimals] stays below 2^32 and [Params.max_redeem_entries]
    within 32 signed bits, whatever 64-bit value is given. *)
Theorem narrow_fields_wrap (z : Z) :
  (forall x, exists y, fast_TokenMeta_Set (Some x) fd_TokenMeta_decimals (VUint64 z) = Ok (Some y) /\
     apiTokenMeta_Decimals y = z mod 2 ^ 32) /\
  (forall x, exists y, fast_Params_Set (Some x) fd_Params_max_redeem_entries (VInt64 z) = Ok (Some y) /\
     - 2 ^ 31 <= apiParams_MaxRedeemEntries y < 2 ^ 31 /\
     apiParams_MaxRedeemEntries y mod 2 ^ 32 = z mod 2 ^ 32).
Proof.
  pose proof (ro_fds _ _ fast_TokenMeta_ok) as F. pose proof (ro_fds _ _ fast_Params_ok) as F'.
  injection F as _ F _. injection F' as _ F' _ _. pose proof (Value_Uint_spec (VUint64 z)) as U.
  pose proof (Value_Int_spec (VInt64 z)) as I. cbn in U, I. split; intros x.
  - unfold fast_TokenMeta_Set. rewrite F. cbn. rewrite U. cbn. eexists. split; reflexivity.
  - unfold fast_Params_Set. rewrite F'. cbn. rewrite I. cbn. eexists. split; [reflexivity|].
    split; [apply (swrap_range 32); lia | apply (swrap_mod 32); lia].
Qed.
End callers.
