(* ===== verification/PulsarGogo.v ===== *)
(** * The two bindings of the module agree

    The repository generates Go code from its .proto files twice: gogoproto in
    [x/hal/types/*.pb.go], which the module runs on, and pulsar in
    [api/halbornctf/hal], which clients and the autocli use.  The theorem:
    both encode a message to the same bytes, and each reads the other's.  Coins,
    timestamps and durations are encoded by other packages; [SameWire] states
    that their two implementations follow the same .proto definitions. *)

From Stdlib Require Import DecimalString.
From S2P Require Import Prelude Wire Sdk SdkModel PbParams PbTickets PbRedeemRequest PbGenesis PbQuery PbTx.
From S2P Require Import PulsarTypes Pulsar PulsarLaws PulsarDesc PulsarReflect.
From S2P Require Import PulsarTickets PulsarRedeemRequest PulsarParams PulsarGenesis PulsarQuery PulsarTx PulsarModel.

(** ** The messages of other packages *)

Class SameWire `{GogoOk} `{ProtoRuntimeOk} : Type := {
  coin_api : Coin -> apiCoin;
  coin_api_wf dis c : coin_set c -> apiCoin_wf dis (coin_api c);
  coin_api_enc c : coin_set c -> apiCoin_enc (coin_api c) = coin_enc c;
  time_api : Time -> apiTimestamp;
  time_api_wf dis t : time_valid t -> apiTimestamp_wf dis (time_api t);
  time_api_enc t : time_valid t -> apiTimestamp_enc (time_api t) = time_enc t;
  duration_api : Duration -> apiDuration;
  duration_api_wf dis d : - 2 ^ 63 <= d < 2 ^ 63 -> apiDuration_wf dis (duration_api d);
  duration_api_enc d : - 2 ^ 63 <= d < 2 ^ 63 -> apiDuration_enc (duration_api d) = duration_enc d }.

(** The instances of [SdkModel] and [PulsarModel]. *)
#[export] Program Instance same_wire : SameWire := {
  coin_api c := MkapiCoin None (Denom c) (text_of_int (Amount c));
  time_api t := MkapiTimestamp None (seconds (secs_of_time t)) (nanos (secs_of_time t));
  duration_api d := MkapiDuration None (seconds (secs_of_duration d)) (nanos (secs_of_duration d)) }.
Next Obligation. reflexivity. Qed.
Next Obligation.
  intros c (z & Hz & _). cbn. unfold coin_bytes, pbcoin_enc. cbn. rewrite Hz. f_equal. unfold enc_string.
  rewrite (proj2 (Z.ltb_lt _ _)); [reflexivity|]. unfold text_of_int.
  destruct (Z.to_int _) as [u|u]; destruct u; reflexivity.
Qed.
Next Obligation.
  intros dis t Ht. unfold time_valid, zero_time in Ht. unfold apiTimestamp_wf. cbn -[Z.div Z.modulo Z.pow].
  pose proof (Z.div_mod t (10 ^ 9)). pose proof (Z.mod_pos_bound t (10 ^ 9)). split; [reflexivity | lia].
Qed.
Next Obligation. reflexivity. Qed.
Next Obligation.
  intros dis d Hd. unfold apiDuration_wf. cbn -[Z.quot Z.rem Z.pow].
  pose proof (Z.quot_rem' d (10 ^ 9)). pose proof (Z.rem_bound_abs d (10 ^ 9)). split; [reflexivity | lia].
Qed.
Next Obligation. reflexivity. Qed.

(** ** The messages of the module *)

Section agreement.
Context `{SameWire}.

(** The pulsar message with the same contents: a field that is a value in the
    gogoproto struct is a pointer that is set. *)
Definition TokenMeta_api (m : TokenMeta) : apiTokenMeta := MkapiTokenMeta None (TokenMeta_Denom m) (TokenMeta_Decimals m) (TokenMeta_Description m).
Definition Params_api (m : Params) : apiParams := MkapiParams None (Some (duration_api (RedeemDur m))) (MaxRedeemEntries m) (Some (TokenMeta_api (CollateralMetas m))) (Some (TokenMeta_api (HalMeta m))).
Definition Ticket_api (m : Ticket) : apiTicket := MkapiTicket None (Ticket_Author m) (Ticket_Issue m) (Ticket_Id m) (Ticket_AdditionalInfo m).
Definition RedeemRequest_api (m : RedeemRequest) : apiRedeemRequest := MkapiRedeemRequest None (RedeemRequest_Account m) (Some (coin_api (RedeemRequest_Collateral m))) (Some (time_api (RedeemRequest_Completiontime m))).
Definition GenesisState_api (m : GenesisState) : apiGenesisState := MkapiGenesisState None (Some (Params_api (GenesisState_Params m))).
Definition QueryParamsRequest_api (m : QueryParamsRequest) : apiQueryParamsRequest := MkapiQueryParamsRequest None.
Definition QueryParamsResponse_api (m : QueryParamsResponse) : apiQueryParamsResponse := MkapiQueryParamsResponse None (Some (Params_api (QueryParamsResponse_Params m))).
Definition MsgUpdateParams_api (m : MsgUpdateParams) : apiMsgUpdateParams := MkapiMsgUpdateParams None (MsgUpdateParams_Authority m) (Some (Params_api (MsgUpdateParams_Params m))).
Definition MsgUpdateParamsResponse_api (m : MsgUpdateParamsResponse) : apiMsgUpdateParamsResponse := MkapiMsgUpdateParamsResponse None.
Definition MsgMintHal_api (m : MsgMintHal) : apiMsgMintHal := MkapiMsgMintHal None (MsgMintHal_Creator m) (Some (coin_api (MsgMintHal_CollateralAmount m))).
Definition MsgMintHalResponse_api (m : MsgMintHalResponse) : apiMsgMintHalResponse := MkapiMsgMintHalResponse None (Some (coin_api (MsgMintHalResponse_MintedAmount m))).
Definition MsgRedeemCollateral_api (m : MsgRedeemCollateral) : apiMsgRedeemCollateral := MkapiMsgRedeemCollateral None (MsgRedeemCollateral_Creator m) (Some (coin_api (MsgRedeemCollateral_HalAmount m))).
Definition MsgRedeemCollateralResponse_api (m : MsgRedeemCollateralResponse) : apiMsgRedeemCollateralResponse := MkapiMsgRedeemCollateralResponse None (Some (coin_api (MsgRedeemCollateralResponse_BurnedAmount m))) (Some (time_api (MsgRedeemCollateralResponse_CompletionTime m))).
Definition MsgCreateTicket_api (m : MsgCreateTicket) : apiMsgCreateTicket := MkapiMsgCreateTicket None (MsgCreateTicket_Creator m) (MsgCreateTicket_Author m) (MsgCreateTicket_Issue m).
Definition MsgCreateTicketResponse_api (m : MsgCreateTicketResponse) : apiMsgCreateTicketResponse := MkapiMsgCreateTicketResponse None (MsgCreateTicketResponse_Id m).

Lemma unknown_none known dis : unknown_ok known dis None.
Proof. destruct dis; [reflexivity|]. exists []. now split; [constructor|]. Qed.

#[local] Arguments apiTokenMeta_enc : simpl never.
#[local] Arguments apiParams_enc : simpl never.

Ltac split_all := repeat match goal with H : _ /\ _ |- _ => destruct H end.

Lemma TokenMeta_api_wf dis m : TokenMeta_wf m -> apiTokenMeta_wf dis (TokenMeta_api m).
Proof.
  unfold TokenMeta_wf. intros. split_all.
  unfold apiTokenMeta_wf. repeat match goal with |- _ /\ _ => split end; cbn -[Z.pow];
  first [apply unknown_none | assumption | lia | eauto using conj, coin_api_wf, time_api_wf, duration_api_wf].
Qed.
Lemma TokenMeta_api_enc m : TokenMeta_wf m -> apiTokenMeta_enc (TokenMeta_api m) = TokenMeta_enc m.
Proof.
  unfold TokenMeta_wf. intros. split_all. unfold apiTokenMeta_enc, TokenMeta_enc, enc_ptr. cbn.
  now rewrite ?app_nil_r.
Qed.
Lemma Params_api_wf dis m : Params_wf m -> apiParams_wf dis (Params_api m).
Proof.
  unfold Params_wf. intros. split_all.
  unfold apiParams_wf. repeat match goal with |- _ /\ _ => split end; cbn -[Z.pow];
  first [apply unknown_none | assumption | lia | eauto using conj, coin_api_wf, time_api_wf, duration_api_wf, TokenMeta_api_wf].
Qed.
Lemma Params_api_enc m : Params_wf m -> apiParams_enc (Params_api m) = Params_enc m.
Proof.
  unfold Params_wf. intros. split_all. unfold apiParams_enc, Params_enc, enc_ptr. cbn.
  rewrite ?duration_api_enc, ?TokenMeta_api_enc by (assumption || lia). now rewrite ?app_nil_r.
Qed.
Lemma Ticket_api_wf dis m : Ticket_wf m -> apiTicket_wf dis (Ticket_api m).
Proof.
  unfold Ticket_wf. intros. split_all.
  unfold apiTicket_wf. repeat match goal with |- _ /\ _ => split end; cbn -[Z.pow];
  first [apply unknown_none | assumption | lia | eauto using conj, coin_api_wf, time_api_wf, duration_api_wf].
Qed.
Lemma Ticket_api_enc m : Ticket_wf m -> apiTicket_enc (Ticket_api m) = Ticket_enc m.
Proof.
  unfold Ticket_wf. intros. split_all. unfold apiTicket_enc, Ticket_enc, enc_ptr. cbn.
  now rewrite ?app_nil_r.
Qed.
Lemma RedeemRequest_api_wf dis m : RedeemRequest_wf m -> apiRedeemRequest_wf dis (RedeemRequest_api m).
Proof.
  unfold RedeemRequest_wf. intros. split_all.
  unfold apiRedeemRequest_wf. repeat match goal with |- _ /\ _ => split end; cbn -[Z.pow];
  first [apply unknown_none | assumption | lia | eauto using conj, coin_api_wf, time_api_wf, duration_api_wf].
Qed.
Lemma RedeemRequest_api_enc m : RedeemRequest_wf m -> apiRedeemRequest_enc (RedeemRequest_api m) = RedeemRequest_enc m.
Proof.
  unfold RedeemRequest_wf. intros. split_all. unfold apiRedeemRequest_enc, RedeemRequest_enc, enc_ptr. cbn.
  rewrite ?coin_api_enc, ?time_api_enc by (assumption || lia). now rewrite ?app_nil_r.
Qed.
Lemma GenesisState_api_wf dis m : GenesisState_wf m -> apiGenesisState_wf dis (GenesisState_api m).
Proof.
  unfold GenesisState_wf. intros. split_all.
  unfold apiGenesisState_wf. repeat match goal with |- _ /\ _ => split end; cbn -[Z.pow];
  first [apply unknown_none | assumption | lia | eauto using conj, coin_api_wf, time_api_wf, duration_api_wf, Params_api_wf].
Qed.
Lemma GenesisState_api_enc m : GenesisState_wf m -> apiGenesisState_enc (GenesisState_api m) = GenesisState_enc m.
Proof.
  unfold GenesisState_wf. intros. split_all. unfold apiGenesisState_enc, GenesisState_enc, enc_ptr. cbn.
  rewrite ?Params_api_enc by (assumption || lia). now rewrite ?app_nil_r.
Qed.
Lemma QueryParamsRequest_api_wf dis m : QueryParamsRequest_wf m -> apiQueryParamsRequest_wf dis (QueryParamsRequest_api m).
Proof.
  unfold QueryParamsRequest_wf. intros. split_all.
  unfold apiQueryParamsRequest_wf. repeat match goal with |- _ /\ _ => split end; cbn -[Z.pow];
  first [apply unknown_none | assumption | lia | eauto using conj, coin_api_wf, time_api_wf, duration_api_wf].
Qed.
Lemma QueryParamsRequest_api_enc m : QueryParamsRequest_wf m -> apiQueryParamsRequest_enc (QueryParamsRequest_api m) = QueryParamsRequest_enc m.
Proof.
  unfold QueryParamsRequest_wf. intros. split_all. unfold apiQueryParamsRequest_enc, QueryParamsRequest_enc, enc_ptr. cbn.
  now rewrite ?app_nil_r.
Qed.
Lemma QueryParamsResponse_api_wf dis m : QueryParamsResponse_wf m -> apiQueryParamsResponse_wf dis (QueryParamsResponse_api m).
Proof.
  unfold QueryParamsResponse_wf. intros. split_all.
  unfold apiQueryParamsResponse_wf. repeat match goal with |- _ /\ _ => split end; cbn -[Z.pow];
  first [apply unknown_none | assumption | lia | eauto using conj, coin_api_wf, time_api_wf, duration_api_wf, Params_api_wf].
Qed.
Lemma QueryParamsResponse_api_enc m : QueryParamsResponse_wf m -> apiQueryParamsResponse_enc (QueryParamsResponse_api m) = QueryParamsResponse_enc m.
Proof.
  unfold QueryParamsResponse_wf. intros. split_all. unfold apiQueryParamsResponse_enc, QueryParamsResponse_enc, enc_ptr. cbn.
  rewrite ?Params_api_enc by (assumption || lia). now rewrite ?app_nil_r.
Qed.
Lemma MsgUpdateParams_api_wf dis m : MsgUpdateParams_wf m -> apiMsgUpdateParams_wf dis (MsgUpdateParams_api m).
Proof.
  unfold MsgUpdateParams_wf. intros. split_all.
  unfold apiMsgUpdateParams_wf. repeat match goal with |- _ /\ _ => split end; cbn -[Z.pow];
  first [apply unknown_none | assumption | lia | eauto using conj, coin_api_wf, time_api_wf, duration_api_wf, Params_api_wf].
Qed.
Lemma MsgUpdateParams_api_enc m : MsgUpdateParams_wf m -> apiMsgUpdateParams_enc (MsgUpdateParams_api m) = MsgUpdateParams_enc m.
Proof.
  unfold MsgUpdateParams_wf. intros. split_all. unfold apiMsgUpdateParams_enc, MsgUpdateParams_enc, enc_ptr. cbn.
  rewrite ?Params_api_enc by (assumption || lia). now rewrite ?app_nil_r.
Qed.
Lemma MsgUpdateParamsResponse_api_wf dis m : MsgUpdateParamsResponse_wf m -> apiMsgUpdateParamsResponse_wf dis (MsgUpdateParamsResponse_api m).
Proof.
  unfold MsgUpdateParamsResponse_wf. intros. split_all.
  unfold apiMsgUpdateParamsResponse_wf. repeat match goal with |- _ /\ _ => split end; cbn -[Z.pow];
  first [apply unknown_none | assumption | lia | eauto using conj, coin_api_wf, time_api_wf, duration_api_wf].
Qed.
Lemma MsgUpdateParamsResponse_api_enc m : MsgUpdateParamsResponse_wf m -> apiMsgUpdateParamsResponse_enc (MsgUpdateParamsResponse_api m) = MsgUpdateParamsResponse_enc m.
Proof.
  unfold MsgUpdateParamsResponse_wf. intros. split_all. unfold apiMsgUpdateParamsResponse_enc, MsgUpdateParamsResponse_enc, enc_ptr. cbn.
  now rewrite ?app_nil_r.
Qed.
Lemma MsgMintHal_api_wf dis m : MsgMintHal_wf m -> apiMsgMintHal_wf dis (MsgMintHal_api m).
Proof.
  unfold MsgMintHal_wf. intros. split_all.
  unfold apiMsgMintHal_wf. repeat match goal with |- _ /\ _ => split end; cbn -[Z.pow];
  first [apply unknown_none | assumption | lia | eauto using conj, coin_api_wf, time_api_wf, duration_api_wf].
Qed.
Lemma MsgMintHal_api_enc m : MsgMintHal_wf m -> apiMsgMintHal_enc (MsgMintHal_api m) = MsgMintHal_enc m.
Proof.
  unfold MsgMintHal_wf. intros. split_all. unfold apiMsgMintHal_enc, MsgMintHal_enc, enc_ptr. cbn.
  rewrite ?coin_api_enc by (assumption || lia). now rewrite ?app_nil_r.
Qed.
Lemma MsgMintHalResponse_api_wf dis m : MsgMintHalResponse_wf m -> apiMsgMintHalResponse_wf dis (MsgMintHalResponse_api m).
Proof.
  unfold MsgMintHalResponse_wf. intros. split_all.
  unfold apiMsgMintHalResponse_wf. repeat match goal with |- _ /\ _ => split end; cbn -[Z.pow];
  first [apply unknown_none | assumption | lia | eauto using conj, coin_api_wf, time_api_wf, duration_api_wf].
Qed.
Lemma MsgMintHalResponse_api_enc m : MsgMintHalResponse_wf m -> apiMsgMintHalResponse_enc (MsgMintHalResponse_api m) = MsgMintHalResponse_enc m.
Proof.
  unfold MsgMintHalResponse_wf. intros. split_all. unfold apiMsgMintHalResponse_enc, MsgMintHalResponse_enc, enc_ptr. cbn.
  rewrite ?coin_api_enc by (assumption || lia). now rewrite ?app_nil_r.
Qed.
Lemma MsgRedeemCollateral_api_wf dis m : MsgRedeemCollateral_wf m -> apiMsgRedeemCollateral_wf dis (MsgRedeemCollateral_api m).
Proof.
  unfold MsgRedeemCollateral_wf. intros. split_all.
  unfold apiMsgRedeemCollateral_wf. repeat match goal with |- _ /\ _ => split end; cbn -[Z.pow];
  first [apply unknown_none | assumption | lia | eauto using conj, coin_api_wf, time_api_wf, duration_api_wf].
Qed.
Lemma MsgRedeemCollateral_api_enc m : MsgRedeemCollateral_wf m -> apiMsgRedeemCollateral_enc (MsgRedeemCollateral_api m) = MsgRedeemCollateral_enc m.
Proof.
  unfold MsgRedeemCollateral_wf. intros. split_all. unfold apiMsgRedeemCollateral_enc, MsgRedeemCollateral_enc, enc_ptr. cbn.
  rewrite ?coin_api_enc by (assumption || lia). now rewrite ?app_nil_r.
Qed.
Lemma MsgRedeemCollateralResponse_api_wf dis m : MsgRedeemCollateralResponse_wf m -> apiMsgRedeemCollateralResponse_wf dis (MsgRedeemCollateralResponse_api m).
Proof.
  unfold MsgRedeemCollateralResponse_wf. intros. split_all.
  unfold apiMsgRedeemCollateralResponse_wf. repeat match goal with |- _ /\ _ => split end; cbn -[Z.pow];
  first [apply unknown_none | assumption | lia | eauto using conj, coin_api_wf, time_api_wf, duration_api_wf].
Qed.
Lemma MsgRedeemCollateralResponse_api_enc m : MsgRedeemCollateralResponse_wf m -> apiMsgRedeemCollateralResponse_enc (MsgRedeemCollateralResponse_api m) = MsgRedeemCollateralResponse_enc m.
Proof.
  unfold MsgRedeemCollateralResponse_wf. intros. split_all. unfold apiMsgRedeemCollateralResponse_enc, MsgRedeemCollateralResponse_enc, enc_ptr. cbn.
  rewrite ?coin_api_enc, ?time_api_enc by (assumption || lia). now rewrite ?app_nil_r.
Qed.
Lemma MsgCreateTicket_api_wf dis m : MsgCreateTicket_wf m -> apiMsgCreateTicket_wf dis (MsgCreateTicket_api m).
Proof.
  unfold MsgCreateTicket_wf. intros. split_all.
  unfold apiMsgCreateTicket_wf. repeat match goal with |- _ /\ _ => split end; cbn -[Z.pow];
  first [apply unknown_none | assumption | lia | eauto using conj, coin_api_wf, time_api_wf, duration_api_wf].
Qed.
Lemma MsgCreateTicket_api_enc m : MsgCreateTicket_wf m -> apiMsgCreateTicket_enc (MsgCreateTicket_api m) = MsgCreateTicket_enc m.
Proof.
  unfold MsgCreateTicket_wf. intros. split_all. unfold apiMsgCreateTicket_enc, MsgCreateTicket_enc, enc_ptr. cbn.
  now rewrite ?app_nil_r.
Qed.
Lemma MsgCreateTicketResponse_api_wf dis m : MsgCreateTicketResponse_wf m -> apiMsgCreateTicketResponse_wf dis (MsgCreateTicketResponse_api m).
Proof.
  unfold MsgCreateTicketResponse_wf. intros. split_all.
  unfold apiMsgCreateTicketResponse_wf. repeat match goal with |- _ /\ _ => split end; cbn -[Z.pow];
  first [apply unknown_none | assumption | lia | eauto using conj, coin_api_wf, time_api_wf, duration_api_wf].
Qed.
Lemma MsgCreateTicketResponse_api_enc m : MsgCreateTicketResponse_wf m -> apiMsgCreateTicketResponse_enc (MsgCreateTicketResponse_api m) = MsgCreateTicketResponse_enc m.
Proof.
  unfold MsgCreateTicketResponse_wf. intros. split_all. unfold apiMsgCreateTicketResponse_enc, MsgCreateTicketResponse_enc, enc_ptr. cbn.
  now rewrite ?app_nil_r.
Qed.

(** A message with its two bindings. *)
Record Shared := MkShared {
  sh_type : Type;
  sh_wf : sh_type -> Prop;
  sh_enc : sh_type -> bytes;
  sh_Marshal : sh_type -> res bytes;
  sh_Unmarshal : sh_type -> bytes -> res sh_type;
  sh_Reset : sh_type;
  sh_api : sh_type -> ProtoMessage;
  sh_new : ProtoMessage;
  sh_methods : Methods }.
Arguments MkShared {_}.

Definition shared : list Shared := [
  MkShared TokenMeta_wf TokenMeta_enc TokenMeta_Marshal TokenMeta_Unmarshal TokenMeta_Reset
    (fun m => PTokenMeta (Some (TokenMeta_api m))) (PTokenMeta (Some apiTokenMeta_zero)) fast_TokenMeta_methods;
  MkShared Params_wf Params_enc Params_Marshal Params_Unmarshal Params_Reset
    (fun m => PParams (Some (Params_api m))) (PParams (Some apiParams_zero)) fast_Params_methods;
  MkShared Ticket_wf Ticket_enc Ticket_Marshal Ticket_Unmarshal Ticket_Reset
    (fun m => PTicket (Some (Ticket_api m))) (PTicket (Some apiTicket_zero)) fast_Ticket_methods;
  MkShared RedeemRequest_wf RedeemRequest_enc RedeemRequest_Marshal RedeemRequest_Unmarshal RedeemRequest_Reset
    (fun m => PRedeemRequest (Some (RedeemRequest_api m))) (PRedeemRequest (Some apiRedeemRequest_zero)) fast_RedeemRequest_methods;
  MkShared GenesisState_wf GenesisState_enc GenesisState_Marshal GenesisState_Unmarshal GenesisState_Reset
    (fun m => PGenesisState (Some (GenesisState_api m))) (PGenesisState (Some apiGenesisState_zero)) fast_GenesisState_methods;
  MkShared QueryParamsRequest_wf QueryParamsRequest_enc QueryParamsRequest_Marshal QueryParamsRequest_Unmarshal QueryParamsRequest_Reset
    (fun m => PQueryParamsRequest (Some (QueryParamsRequest_api m))) (PQueryParamsRequest (Some apiQueryParamsRequest_zero)) fast_QueryParamsRequest_methods;
  MkShared QueryParamsResponse_wf QueryParamsResponse_enc QueryParamsResponse_Marshal QueryParamsResponse_Unmarshal QueryParamsResponse_Reset
    (fun m => PQueryParamsResponse (Some (QueryParamsResponse_api m))) (PQueryParamsResponse (Some apiQueryParamsResponse_zero)) fast_QueryParamsResponse_methods;
  MkShared MsgUpdateParams_wf MsgUpdateParams_enc MsgUpdateParams_Marshal MsgUpdateParams_Unmarshal MsgUpdateParams_Reset
    (fun m => PMsgUpdateParams (Some (MsgUpdateParams_api m))) (PMsgUpdateParams (Some apiMsgUpdateParams_zero)) fast_MsgUpdateParams_methods;
  MkShared MsgUpdateParamsResponse_wf MsgUpdateParamsResponse_enc MsgUpdateParamsResponse_Marshal MsgUpdateParamsResponse_Unmarshal MsgUpdateParamsResponse_Reset
    (fun m => PMsgUpdateParamsResponse (Some (MsgUpdateParamsResponse_api m))) (PMsgUpdateParamsResponse (Some apiMsgUpdateParamsResponse_zero)) fast_MsgUpdateParamsResponse_methods;
  MkShared MsgMintHal_wf MsgMintHal_enc MsgMintHal_Marshal MsgMintHal_Unmarshal MsgMintHal_Reset
    (fun m => PMsgMintHal (Some (MsgMintHal_api m))) (PMsgMintHal (Some apiMsgMintHal_zero)) fast_MsgMintHal_methods;
  MkShared MsgMintHalResponse_wf MsgMintHalResponse_enc MsgMintHalResponse_Marshal MsgMintHalResponse_Unmarshal MsgMintHalResponse_Reset
    (fun m => PMsgMintHalResponse (Some (MsgMintHalResponse_api m))) (PMsgMintHalResponse (Some apiMsgMintHalResponse_zero)) fast_MsgMintHalResponse_methods;
  MkShared MsgRedeemCollateral_wf MsgRedeemCollateral_enc MsgRedeemCollateral_Marshal MsgRedeemCollateral_Unmarshal MsgRedeemCollateral_Reset
    (fun m => PMsgRedeemCollateral (Some (MsgRedeemCollateral_api m))) (PMsgRedeemCollateral (Some apiMsgRedeemCollateral_zero)) fast_MsgRedeemCollateral_methods;
  MkShared MsgRedeemCollateralResponse_wf MsgRedeemCollateralResponse_enc MsgRedeemCollateralResponse_Marshal MsgRedeemCollateralResponse_Unmarshal MsgRedeemCollateralResponse_Reset
    (fun m => PMsgRedeemCollateralResponse (Some (MsgRedeemCollateralResponse_api m))) (PMsgRedeemCollateralResponse (Some apiMsgRedeemCollateralResponse_zero)) fast_MsgRedeemCollateralResponse_methods;
  MkShared MsgCreateTicket_wf MsgCreateTicket_enc MsgCreateTicket_Marshal MsgCreateTicket_Unmarshal MsgCreateTicket_Reset
    (fun m => PMsgCreateTicket (Some (MsgCreateTicket_api m))) (PMsgCreateTicket (Some apiMsgCreateTicket_zero)) fast_MsgCreateTicket_methods;
  MkShared MsgCreateTicketResponse_wf MsgCreateTicketResponse_enc MsgCreateTicketResponse_Marshal MsgCreateTicketResponse_Unmarshal MsgCreateTicketResponse_Reset
    (fun m => PMsgCreateTicketResponse (Some (MsgCreateTicketResponse_api m))) (PMsgCreateTicketResponse (Some apiMsgCreateTicketResponse_zero)) fast_MsgCreateTicketResponse_methods].

(** Both bindings of a message produce the same bytes and read them back. *)
Definition agrees (s : Shared) : Prop := forall m, sh_wf s m -> len (sh_enc s m) < 2 ^ 63 -> exists e,
  sh_Marshal s m = Ok e /\ m_marshal (sh_methods s) None (sh_api s m) = Ok (Some e) /\
  sh_Unmarshal s (sh_Reset s) e = Ok m /\
  forall dis, m_unmarshal (sh_methods s) dis e (sh_new s) = Ok (sh_api s m).

Lemma shared_agrees {A B} (wf : A -> Prop) enc Marshal Unmarshal reset (api : A -> B)
    (mk : ptr B -> ProtoMessage) zero bwf benc mt :
  (forall m, wf m -> len (enc m) < 2 ^ 63 -> Marshal m = Ok (enc m)) ->
  (forall m, wf m -> len (enc m) < 2 ^ 63 -> Unmarshal reset (enc m) = Ok m) ->
  (forall dis m, wf m -> bwf dis (api m)) -> (forall m, wf m -> benc (api m) = enc m) ->
  codec_ok mk zero bwf benc mt ->
  agrees (MkShared wf enc Marshal Unmarshal reset (fun m => mk (Some (api m))) (mk (Some zero)) mt).
Proof.
  intros HM HU HW HE C m W L. cbn in *. exists (enc m). rewrite HM, HU by assumption.
  rewrite <- HE in L |- * by assumption. split; [reflexivity|].
  split; [exact (co_marshal C true _ None (HW true m W) L)|]. split; [reflexivity|].
  intros dis. exact (co_unmarshal C dis _ (HW dis m W) L).
Qed.

(** C7: gogoproto and pulsar agree on the fifteen messages they share: for
    every message the module can hold, both [Marshal] functions return the
    same bytes, and each [Unmarshal] reads them back to its own form of the
    message. *)
Theorem bindings_agree : Forall agrees shared.
Proof.
  apply Forall_cons; split; [apply (shared_agrees _ _ _ _ _ _ _ _ _ _ _ (fun m _ => TokenMeta_Marshal_enc m) TokenMeta_Unmarshal_enc
    TokenMeta_api_wf TokenMeta_api_enc fast_TokenMeta_codec)|].
  apply Forall_cons; split; [apply (shared_agrees _ _ _ _ _ _ _ _ _ _ _ (fun m _ => Params_Marshal_enc m) Params_Unmarshal_enc
    Params_api_wf Params_api_enc fast_Params_codec)|].
  apply Forall_cons; split; [apply (shared_agrees _ _ _ _ _ _ _ _ _ _ _ Ticket_Marshal_enc Ticket_Unmarshal_enc
    Ticket_api_wf Ticket_api_enc fast_Ticket_codec)|].
  apply Forall_cons; split; [apply (shared_agrees _ _ _ _ _ _ _ _ _ _ _ RedeemRequest_Marshal_enc RedeemRequest_Unmarshal_enc
    RedeemRequest_api_wf RedeemRequest_api_enc fast_RedeemRequest_codec)|].
  apply Forall_cons; split; [apply (shared_agrees _ _ _ _ _ _ _ _ _ _ _ GenesisState_Marshal_enc GenesisState_Unmarshal_enc
    GenesisState_api_wf GenesisState_api_enc fast_GenesisState_codec)|].
  apply Forall_cons; split; [apply (shared_agrees _ _ _ _ _ _ _ _ _ _ _ QueryParamsRequest_Marshal_enc QueryParamsRequest_Unmarshal_enc
    QueryParamsRequest_api_wf QueryParamsRequest_api_enc fast_QueryParamsRequest_codec)|].
  apply Forall_cons; split; [apply (shared_agrees _ _ _ _ _ _ _ _ _ _ _ QueryParamsResponse_Marshal_enc QueryParamsResponse_Unmarshal_enc
    QueryParamsResponse_api_wf QueryParamsResponse_api_enc fast_QueryParamsResponse_codec)|].
  apply Forall_cons; split; [apply (shared_agrees _ _ _ _ _ _ _ _ _ _ _ MsgUpdateParams_Marshal_enc MsgUpdateParams_Unmarshal_enc
    MsgUpdateParams_api_wf MsgUpdateParams_api_enc fast_MsgUpdateParams_codec)|].
  apply Forall_cons; split; [apply (shared_agrees _ _ _ _ _ _ _ _ _ _ _ MsgUpdateParamsResponse_Marshal_enc MsgUpdateParamsResponse_Unmarshal_enc
    MsgUpdateParamsResponse_api_wf MsgUpdateParamsResponse_api_enc fast_MsgUpdateParamsResponse_codec)|].
  apply Forall_cons; split; [apply (shared_agrees _ _ _ _ _ _ _ _ _ _ _ MsgMintHal_Marshal_enc MsgMintHal_Unmarshal_enc
    MsgMintHal_api_wf MsgMintHal_api_enc fast_MsgMintHal_codec)|].
  apply Forall_cons; split; [apply (shared_agrees _ _ _ _ _ _ _ _ _ _ _ MsgMintHalResponse_Marshal_enc MsgMintHalResponse_Unmarshal_enc
    MsgMintHalResponse_api_wf MsgMintHalResponse_api_enc fast_MsgMintHalResponse_codec)|].
  apply Forall_cons; split; [apply (shared_agrees _ _ _ _ _ _ _ _ _ _ _ MsgRedeemCollateral_Marshal_enc MsgRedeemCollateral_Unmarshal_enc
    MsgRedeemCollateral_api_wf MsgRedeemCollateral_api_enc fast_MsgRedeemCollateral_codec)|].
  apply Forall_cons; split; [apply (shared_agrees _ _ _ _ _ _ _ _ _ _ _ MsgRedeemCollateralResponse_Marshal_enc MsgRedeemCollateralResponse_Unmarshal_enc
    MsgRedeemCollateralResponse_api_wf MsgRedeemCollateralResponse_api_enc fast_MsgRedeemCollateralResponse_codec)|].
  apply Forall_cons; split; [apply (shared_agrees _ _ _ _ _ _ _ _ _ _ _ MsgCreateTicket_Marshal_enc MsgCreateTicket_Unmarshal_enc
    MsgCreateTicket_api_wf MsgCreateTicket_api_enc fast_MsgCreateTicket_codec)|].
  apply Forall_cons; split; [apply (shared_agrees _ _ _ _ _ _ _ _ _ _ _ MsgCreateTicketResponse_Marshal_enc MsgCreateTicketResponse_Unmarshal_enc
    MsgCreateTicketResponse_api_wf MsgCreateTicketResponse_api_enc fast_MsgCreateTicketResponse_codec)|].
  apply Forall_nil_2.
Qed.
End agreement.

