(* ===== verification/PulsarWitnesses.v ===== *)
(** * The theorems on the pulsar bindings, evaluated

    Each theorem of [PulsarProps] and [PulsarGogo] at a concrete message, over
    the instances of [PulsarModel]. *)

From S2P Require Import Prelude Wire Sdk SdkModel PbTickets PbRedeemRequest PulsarTypes Pulsar PulsarLaws PulsarDesc.
From S2P Require Import PulsarReflect PulsarTickets PulsarRedeemRequest PulsarParams PulsarTx PulsarModel PulsarProps PulsarGogo.

(** A ticket with a field from a later version of the schema, number 9. *)
Definition ticket1 : apiTicket :=
  MkapiTicket (raw_fields [RawBytes 0x4a (str "new"); RawVarint 0x50 300]) (str "ann") (str "lost") 7 (str "x").

Lemma ticket1_wf : apiTicket_wf false ticket1.
Proof.
  split; [cbn; lia|]. exists [RawBytes 0x4a (str "new"); RawVarint 0x50 300].
  split; [|reflexivity].
  repeat (apply Forall_cons; split); [..|apply Forall_nil_2];
    (split; [cbn; lia | split; [apply (bool_decide_unpack _); vm_compute; exact I | cbn -[Z.pow]; first [reflexivity | split; [reflexivity | lia]]]]).
Qed.

Lemma pulsar_roundtrip_witness : exists e,
  fast_Ticket_marshal (Some (str "h")) (PTicket (Some ticket1)) = Ok (Some (str "h" ++ e)) /\
  fast_Ticket_unmarshal false e (PTicket (Some apiTicket_zero)) = Ok (PTicket (Some ticket1)).
Proof.
  destruct (Forall_inv pulsar_roundtrip false ticket1 (Some (str "h")) ticket1_wf ltac:(vm_compute; reflexivity))
    as (e & _ & M & U).
  exists e. split; [exact M | exact U].
Defined.

Lemma pulsar_unmarshal_total_witness :
  safe (fast_Ticket_unmarshal true [x0a; xff; x01] (PTicket (Some ticket1)))
       (fun m => exists y, m = PTicket (Some y)).
Proof. exact (Forall_inv pulsar_unmarshal_total true [x0a; xff; x01] ticket1 ltac:(vm_compute; reflexivity)). Defined.

Lemma pulsar_reflection_witness : ReflectionOk fast_Ticket apiTicket_abs.
Proof. exact (Forall_inv pulsar_reflection). Defined.

Lemma pulsar_descriptor_encoding_witness :
  fast_Ticket_marshal None (PTicket (Some ticket1)) =
  Ok (Some ([x0a; x03] ++ str "ann" ++ [x12; x04] ++ str "lost" ++ [x18; x07] ++ [x22; x01] ++ str "x" ++
            [x4a; x03] ++ str "new" ++ [x50; xac; x02])).
Proof.
  pose proof (Forall_inv pulsar_descriptor_encoding false ticket1 None ticket1_wf ltac:(vm_compute; reflexivity)) as E.
  etransitivity; [exact E | vm_compute; reflexivity].
Defined.

Lemma pulsar_descriptors_witness :
  fields_declared "halbornctf.hal.Ticket" (declared_fields file_tickets_rawDesc "Ticket") apiTicket_kinds = true.
Proof. exact (Forall_inv (proj2 pulsar_descriptors)). Defined.

Definition fd_id : FieldDescriptor := MkFieldDescriptor "halbornctf.hal.Ticket.id" false.
Definition fd_author : FieldDescriptor := MkFieldDescriptor "halbornctf.hal.Ticket.author" false.

Lemma reflection_laws_witness : exists y,
  fast_Ticket_Set (Some ticket1) fd_id (VUint64 8) = Ok (Some y) /\
  fast_Ticket_Get (Some y) fd_id = Ok (VUint64 8) /\
  fast_Ticket_Get (Some y) fd_author = Ok (VString (str "ann")).
Proof.
  destruct (Forall_inv reflection_laws ticket1 fd_id KUint64 eq_refl) as [S _].
  destruct (S (VUint64 8)) as (y & E & G & _ & F). exists y. split; [exact E|]. split; [exact G|].
  etransitivity; [apply (F fd_author); [eexists; reflexivity | discriminate] | reflexivity].
Defined.

Lemma invalid_message_access_witness : panics (fast_Ticket_Get None fd_id).
Proof. exact (proj1 (proj2 (Forall_inv invalid_message_access fd_id KUint64 eq_refl))). Defined.

Lemma narrow_fields_wrap_witness : exists y,
  fast_TokenMeta_Set (Some apiTokenMeta_zero) fd_TokenMeta_decimals (VUint64 (2 ^ 32 + 6)) = Ok (Some y) /\
  apiTokenMeta_Decimals y = 6.
Proof. exact (proj1 (narrow_fields_wrap (2 ^ 32 + 6)) apiTokenMeta_zero). Defined.

(** The redeem request of an account, in both bindings. *)
Definition request1 : RedeemRequest := MkRedeemRequest (str "ann") (MkCoin (str "usdc") (Some 5)) (10 ^ 18).

Lemma bindings_agree_witness : exists e,
  RedeemRequest_Marshal request1 = Ok e /\
  fast_RedeemRequest_marshal None (PRedeemRequest (Some (RedeemRequest_api request1))) = Ok (Some e).
Proof.
  pose proof (Forall_inv (Forall_inv_tail (Forall_inv_tail (Forall_inv_tail bindings_agree)))) as A.
  destruct (A request1) as (e & M & P & _).
  - split; [exists 5; split; [reflexivity | lia] | unfold time_valid, zero_time; cbn -[Z.pow]; lia].
  - vm_compute. reflexivity.
  - exists e. split; [exact M | exact P].
Defined.
