(* ===== verification/AppMonad.v ===== *)
(** * Calls on the state of the app

    The monad in which the app-level functions ([app/export.go], [cmd]) run: a
    state, Go's outcomes, and the ways that code treats errors and iterates
    over the keepers' stores. *)

From S2P Require Import Prelude.

(** A call on the app's state [A]. *)
Definition AM (A X : Type) : Type := A -> res X * A.

#[export] Instance AM_ret {A} : MRet (AM A) := fun _ x a => (Ok x, a).
#[export] Instance AM_bind {A} : MBind (AM A) := fun _ _ k m a =>
  match m a with
  | (Ok x, a') => k x a'
  | (Err e, a') => (Err e, a')
  | (Panic p, a') => (Panic p, a')
  | (Fuel, a') => (Fuel, a')
  end.

(** What an iterator opened in a state yields, and the error it ends with. *)
Definition iteration (X : Type) : Type := list X * option goerror.

(** ** Control flow *)

Section control.
Context {A : Type}.

Definition ask {X} (f : A -> X) : AM A X := fun a => (Ok (f a), a).
Definition pure {X} (r : res X) : AM A X := fun a => (r, a).

(** [if err != nil { panic(err) }] and [if err != nil { log.Fatal(err) }]. *)
Definition or_panic {X} (m : AM A X) : AM A X := fun a =>
  match m a with (Err e, a') => (Panic (PErr e), a') | r => r end.
Definition or_fatal {X} (m : AM A X) : AM A X := fun a =>
  match m a with (Err _, a') => (Panic PExit, a') | r => r end.
(** [_, _ = m]. *)
Definition discard (m : AM A unit) : AM A unit := fun a =>
  match m a with (Err _, a') => (Ok tt, a') | r => r end.

(** [x, err := m]. *)
Definition attempt {X} (m : AM A X) : AM A (X + goerror) := fun a =>
  match m a with
  | (Ok x, a') => (Ok (inl x), a')
  | (Err e, a') => (Ok (inr e), a')
  | (Panic p, a') => (Panic p, a')
  | (Fuel, a') => (Fuel, a')
  end.

(** [for _, x := range l { f(x) }]. *)
Fixpoint for_each {X} (f : X -> AM A unit) (l : list X) : AM A unit :=
  match l with
  | [] => mret tt
  | x :: l => _ ← f x; for_each f l
  end.

(** A keeper's [IterateX(ctx, f)]: [f] on what the iterator yields until it
    returns true, then the iterator's error. *)
Fixpoint visit {X} (f : X -> AM A bool) (l : list X) (err : option goerror) : AM A unit :=
  match l with
  | [] => match err with Some e => pure (Err e) | None => mret tt end
  | x :: l => stop ← f x; if (stop : bool) then mret tt else visit f l err
  end.
Definition iterate {X} (it : A -> iteration X) (f : X -> AM A bool) : AM A unit := fun a =>
  visit f (it a).1 (it a).2 a.
End control.

(** ** Loops *)

Section loops.
Context {A : Type}.

Lemma AM_bind_ok {X Y} (m : AM A X) (k : X -> AM A Y) a x a' : m a = (Ok x, a') -> (m ≫= k) a = k x a'.
Proof. unfold mbind, AM_bind. now intros ->. Qed.

Lemma pure_bind {X Y} x (k : X -> AM A Y) a : (pure (Ok x) ≫= k) a = k x a.
Proof. reflexivity. Qed.

Lemma must_bind {X Y} x (k : X -> AM A Y) a : (or_panic (pure (Ok x)) ≫= k) a = k x a.
Proof. reflexivity. Qed.

Lemma ask_bind {X Y} (f : A -> X) (k : X -> AM A Y) a : (ask f ≫= k) a = k (f a) a.
Proof. reflexivity. Qed.

Lemma or_panic_ok {X} (m : AM A X) a x a' : m a = (Ok x, a') -> or_panic m a = (Ok x, a').
Proof. unfold or_panic. now intros ->. Qed.

(** An invariant over the visited part; every step succeeds. *)
Lemma visit_inv {X} (f : X -> AM A bool) (Inv : list X -> A -> Prop) l a :
  Inv [] a ->
  (forall done x rest a, l = done ++ x :: rest -> Inv done a ->
    exists a', f x a = (Ok false, a') /\ Inv (done ++ [x]) a') ->
  exists a', visit f l None a = (Ok tt, a') /\ Inv l a'.
Proof.
  intros H0 Hs. enough (G : forall rest done a, l = done ++ rest -> Inv done a ->
    exists a', visit f rest None a = (Ok tt, a') /\ Inv l a') by now apply (G l []).
  clear a H0. induction rest as [|x rest IH]; intros done a El Hi.
  - rewrite app_nil_r in El. subst. eexists. split; [reflexivity | assumption].
  - destruct (Hs done x rest a El Hi) as (a1 & E1 & H1). cbn [visit]. rewrite (AM_bind_ok _ _ _ _ _ E1).
    apply (IH (done ++ [x])); [now rewrite <-app_assoc | assumption].
Qed.

Lemma for_each_inv {X} (f : X -> AM A unit) (Inv : A -> Prop) l a :
  Inv a -> Forall (fun x => forall a, Inv a -> exists a', f x a = (Ok tt, a') /\ Inv a') l ->
  exists a', for_each f l a = (Ok tt, a') /\ Inv a'.
Proof.
  intros Hi Hl. revert a Hi. induction Hl as [|x l Hx Hl IH]; intros a Hi.
  - eexists. split; [reflexivity | assumption].
  - destruct (Hx a Hi) as (a1 & E1 & H1). cbn [for_each]. rewrite (AM_bind_ok _ _ _ _ _ E1). now apply IH.
Qed.
End loops.
