(* ===== verification/AppExport.v ===== *)
(** * [app/export.go]: the state exported for a new genesis

    [ExportAppStateAndValidators] and [prepForZeroHeightGenesis], which resets
    the staking, distribution and slashing state so that a chain can start
    again at height zero.  The keepers of the SDK are a class of operations on
    the app's state; their documented behaviour, where the theorems rely on
    it, is a second class.  The theorems: what the preparation leaves behind
    for every redelegation, unbonding delegation, validator and signing info,
    that the outstanding rewards go to the community pool, and that an
    allow-list with a bad address ends the process before anything changes. *)

From S2P Require Import Prelude Sdk AppMonad.

(** ** The SDK's records

    The fields this code reads or writes; [rest] is the remainder. *)

Record Validator := MkValidator {
  OperatorAddress : gostring; UnbondingHeight : Z; Jailed : bool; Validator_rest : bytes }.
Record Delegation := MkDelegation { DelegatorAddress : gostring; ValidatorAddress : gostring }.
Record Entry := MkEntry { CreationHeight : Z; Entry_rest : bytes }.
(** The key is the delegator with the validator or validators. *)
Record Redelegation := MkRedelegation { Redelegation_key : bytes; Redelegation_Entries : list Entry }.
Record UnbondingDelegation := MkUnbondingDelegation {
  Unbonding_key : bytes; Unbonding_Entries : list Entry }.
Record ValidatorSigningInfo := MkSigningInfo { StartHeight : Z; SigningInfo_rest : bytes }.

(** ** The app's state and its keepers *)

(** The keepers.  A context is its block height. *)
Class AppKeepers (A : Type) : Type := {
  DecCoins : Type;
  DecCoins_Add : DecCoins -> DecCoins -> DecCoins;
  (** Addresses: [sdk.ValAddressFromBech32], [ValAddress.String],
      [sdk.AccAddressFromBech32], the staking keeper's address codec, and the
      address in a key of the validator store. *)
  ValAddressFromBech32 : gostring -> res bytes;
  ValAddress_String : bytes -> gostring;
  DelAddressFromBech32 : gostring -> res bytes;
  StringToBytes : gostring -> res bytes;
  AddressFromValidatorsKey : bytes -> res bytes;
  (** Crisis. *)
  AssertInvariants : Z -> AM A unit;
  (** Staking. *)
  IterateValidators : Z -> A -> iteration Validator;
  GetAllDelegations : Z -> A -> res (list Delegation);
  IterateRedelegations : Z -> A -> iteration Redelegation;
  SetRedelegation : Z -> Redelegation -> AM A unit;
  IterateUnbondingDelegations : Z -> A -> iteration UnbondingDelegation;
  SetUnbondingDelegation : Z -> UnbondingDelegation -> AM A unit;
  (** The keys under [ValidatorsKey], in reverse, and closing that iterator. *)
  ValidatorsKey_reverse : Z -> A -> list bytes;
  iter_Close : A -> res unit;
  GetValidator : Z -> bytes -> A -> res Validator;
  SetValidator : Z -> Validator -> AM A unit;
  ApplyAndReturnValidatorSetUpdates : Z -> AM A unit;
  (** Distribution. *)
  WithdrawValidatorCommission : Z -> bytes -> AM A unit;
  WithdrawDelegationRewards : Z -> bytes -> bytes -> AM A unit;
  DeleteAllValidatorSlashEvents : Z -> AM A unit;
  DeleteAllValidatorHistoricalRewards : Z -> AM A unit;
  GetValidatorOutstandingRewardsCoins : Z -> bytes -> A -> res DecCoins;
  FeePool_Get : Z -> A -> res DecCoins;
  FeePool_Set : Z -> DecCoins -> AM A unit;
  AfterValidatorCreated : Z -> bytes -> AM A unit;
  BeforeDelegationCreated : Z -> bytes -> bytes -> AM A unit;
  AfterDelegationModified : Z -> bytes -> bytes -> AM A unit;
  (** Slashing. *)
  IterateValidatorSigningInfos : Z -> A -> iteration (bytes * ValidatorSigningInfo);
  SetValidatorSigningInfo : Z -> bytes -> ValidatorSigningInfo -> AM A unit;
  (** The rest of the app. *)
  LastBlockHeight : A -> Z;
  GenState : Type;
  ExportGenesisForModules : Z -> list gostring -> AM A GenState;
  MarshalIndent : GenState -> res bytes;
  GenesisValidators : Type;
  WriteValidators : Z -> A -> GenesisValidators * option goerror;
  ConsensusParams : Type;
  GetConsensusParams : Z -> A -> ConsensusParams }.

(** ** [prepForZeroHeightGenesis] *)

Section export.
Context {A : Type} `{K : AppKeepers A}.

Definition allow_addr (m : res (gmap gostring bool)) (addr : gostring) : res (gmap gostring bool) :=
  allowedAddrsMap ← m;
  match ValAddressFromBech32 addr with
  | Err _ => Panic PExit
  | r => _ ← r; Ok (<[addr := true]> allowedAddrsMap)
  end.
Definition allowed_addrs (jailAllowedAddrs : list gostring) : res (gmap gostring bool) :=
  foldl allow_addr (Ok ∅) jailAllowedAddrs.

Definition withdraw_commission (ctx : Z) (val : Validator) : AM A bool :=
  valBz ← or_panic (pure (StringToBytes (OperatorAddress val)));
  _ ← discard (WithdrawValidatorCommission ctx valBz);
  mret false.

Definition withdraw_rewards (ctx : Z) (delegation : Delegation) : AM A unit :=
  valAddr ← or_panic (pure (ValAddressFromBech32 (ValidatorAddress delegation)));
  delAddr ← or_panic (pure (DelAddressFromBech32 (DelegatorAddress delegation)));
  discard (WithdrawDelegationRewards ctx delAddr valAddr).

Definition reinit_validator (ctx : Z) (val : Validator) : AM A bool :=
  valBz ← or_panic (pure (StringToBytes (OperatorAddress val)));
  scraps ← ask (GetValidatorOutstandingRewardsCoins ctx valBz);
  scraps ← or_panic (pure scraps);
  feePool ← ask (FeePool_Get ctx);
  feePool ← or_panic (pure feePool);
  _ ← or_panic (FeePool_Set ctx (DecCoins_Add feePool scraps));
  _ ← or_panic (AfterValidatorCreated ctx valBz);
  mret false.

Definition reinit_delegation (ctx : Z) (del : Delegation) : AM A unit :=
  valAddr ← or_panic (pure (ValAddressFromBech32 (ValidatorAddress del)));
  delAddr ← or_panic (pure (DelAddressFromBech32 (DelegatorAddress del)));
  _ ← or_panic (BeforeDelegationCreated ctx delAddr valAddr);
  or_panic (AfterDelegationModified ctx delAddr valAddr).

(** [for i := range entries { entries[i].CreationHeight = 0 }]. *)
Definition reset_entries (l : list Entry) : list Entry := (fun e => MkEntry 0 (Entry_rest e)) <$> l.

Definition reset_redelegation (ctx : Z) (red : Redelegation) : AM A bool :=
  _ ← or_panic (SetRedelegation ctx
        (MkRedelegation (Redelegation_key red) (reset_entries (Redelegation_Entries red))));
  mret false.

Definition reset_unbonding (ctx : Z) (ubd : UnbondingDelegation) : AM A bool :=
  _ ← or_panic (SetUnbondingDelegation ctx
        (MkUnbondingDelegation (Unbonding_key ubd) (reset_entries (Unbonding_Entries ubd))));
  mret false.

Definition reset_validator (allowed : gmap gostring bool) (apply : bool) (addr : bytes) (v : Validator) : Validator :=
  MkValidator (OperatorAddress v) 0
    (if apply && negb (default false (allowed !! ValAddress_String addr)) then true else Jailed v)
    (Validator_rest v).

(** The loop over the validator store; the counter is an [int16]. *)
Fixpoint reset_validators (ctx : Z) (allowed : gmap gostring bool) (apply : bool) (keys : list bytes)
    (counter : Z) : AM A Z :=
  match keys with
  | [] => mret counter
  | key :: keys =>
      addr ← pure (AddressFromValidatorsKey key);
      validator ← ask (GetValidator ctx addr);
      validator ← pure (match validator with
                        | Err _ => Panic (PMsg "expected validator, not found")
                        | r => r
                        end);
      _ ← or_panic (SetValidator ctx (reset_validator allowed apply addr validator));
      reset_validators ctx allowed apply keys (swrap 16 (counter + 1))
  end.

Definition reset_signing_info (ctx : Z) (x : bytes * ValidatorSigningInfo) : AM A bool :=
  _ ← discard (SetValidatorSigningInfo ctx x.1 (MkSigningInfo 0 (SigningInfo_rest x.2)));
  mret false.

(** Fee distribution, with the context at height zero for the second half; the
    error of the second iteration is not looked at. *)
Definition reset_distribution (ctx : Z) : AM A unit :=
  _ ← or_panic (iterate (IterateValidators ctx) (withdraw_commission ctx));
  dels ← ask (GetAllDelegations ctx);
  dels ← or_panic (pure dels);
  _ ← for_each (withdraw_rewards ctx) dels;
  _ ← DeleteAllValidatorSlashEvents ctx;
  _ ← DeleteAllValidatorHistoricalRewards ctx;
  let ctx := 0 in
  _ ← discard (iterate (IterateValidators ctx) (reinit_validator ctx));
  for_each (reinit_delegation ctx) dels.

(** Staking and slashing, at the original height. *)
Definition reset_staking (ctx : Z) (allowed : gmap gostring bool) (apply : bool) : AM A unit :=
  _ ← or_panic (iterate (IterateRedelegations ctx) (reset_redelegation ctx));
  _ ← or_panic (iterate (IterateUnbondingDelegations ctx) (reset_unbonding ctx));
  keys ← ask (ValidatorsKey_reverse ctx);
  _ ← reset_validators ctx allowed apply keys 0;
  mret tt.

Definition reset_slashing (ctx : Z) : AM A unit :=
  or_fatal (iterate (IterateValidatorSigningInfos ctx) (reset_signing_info ctx)).

Definition prepForZeroHeightGenesis (ctx : Z) (jailAllowedAddrs : list gostring) : AM A unit :=
  let applyAllowedAddrs := 0 <? len jailAllowedAddrs in
  allowedAddrsMap ← pure (allowed_addrs jailAllowedAddrs);
  _ ← AssertInvariants ctx;
  _ ← reset_distribution ctx;
  _ ← reset_staking ctx allowedAddrsMap applyAllowedAddrs;
  closed ← ask iter_Close;
  match closed with
  | Err _ => mret tt
  | _ =>
      _ ← pure closed;
      _ ← or_fatal (ApplyAndReturnValidatorSetUpdates ctx);
      reset_slashing ctx
  end.

(** ** [ExportAppStateAndValidators] *)

Record ExportedApp := MkExportedApp {
  AppState : bytes;
  Validators : option GenesisValidators;
  Height : Z;
  ExportedConsensusParams : option ConsensusParams }.
Definition ExportedApp_zero : ExportedApp := MkExportedApp [] None 0 None.

(** The exported app together with the error. *)
Definition ExportAppStateAndValidators (forZeroHeight : bool) (jailAllowedAddrs modulesToExport : list gostring) :
    AM A (ExportedApp * option goerror) :=
  ctx ← ask LastBlockHeight;
  last ← ask LastBlockHeight;
  let height := swrap 64 (last + 1) in
  _ ← (if forZeroHeight then prepForZeroHeightGenesis ctx jailAllowedAddrs else mret tt);
  let height := if forZeroHeight then 0 else height in
  genState ← attempt (ExportGenesisForModules ctx modulesToExport);
  match genState with
  | inr err => mret (ExportedApp_zero, Some err)
  | inl genState =>
      appState ← attempt (pure (MarshalIndent genState));
      match appState with
      | inr err => mret (ExportedApp_zero, Some err)
      | inl appState =>
          written ← ask (WriteValidators ctx);
          let '(validators, err) := written in
          params ← ask (GetConsensusParams ctx);
          mret (MkExportedApp appState (Some validators) height (Some params), err)
      end
  end.
End export.

(** ** What the keepers promise *)

Record StakingState := MkStakingState {
  st_validators : gmap bytes Validator;
  st_redelegations : gmap bytes Redelegation;
  st_unbondings : gmap bytes UnbondingDelegation }.

(** A distribution call that succeeds and leaves staking alone. *)
Definition aside {A} (staking : A -> StakingState) (m : AM A unit) : Prop :=
  forall a, exists a', m a = (Ok tt, a') /\ staking a' = staking a.

Class AppKeepersOk (A : Type) `{K : AppKeepers A} : Type := {
  staking : A -> StakingState;
  signing : A -> gmap bytes ValidatorSigningInfo;
  pool : A -> DecCoins;
  outstanding : A -> bytes -> DecCoins;
  amount : DecCoins -> gostring -> Z;
  amount_Add x y d : amount (DecCoins_Add x y) d = amount x d + amount y d;
  ValAddressFromBech32_safe s : safe (ValAddressFromBech32 s) (fun _ => True);
  (** The records are stored under their keys, and the iterators yield all. *)
  validator_key a addr v : st_validators (staking a) !! addr = Some v -> StringToBytes (OperatorAddress v) = Ok addr;
  redelegation_key a k r : st_redelegations (staking a) !! k = Some r -> Redelegation_key r = k;
  unbonding_key a k u : st_unbondings (staking a) !! k = Some u -> Unbonding_key u = k;
  IterateValidators_spec h a : exists l, IterateValidators h a = (l, None) /\
    l ≡ₚ (map_to_list (st_validators (staking a))).*2;
  IterateRedelegations_spec h a : exists l, IterateRedelegations h a = (l, None) /\
    l ≡ₚ (map_to_list (st_redelegations (staking a))).*2;
  IterateUnbondingDelegations_spec h a : exists l, IterateUnbondingDelegations h a = (l, None) /\
    l ≡ₚ (map_to_list (st_unbondings (staking a))).*2;
  IterateValidatorSigningInfos_spec h a : exists l, IterateValidatorSigningInfos h a = (l, None) /\
    l ≡ₚ map_to_list (signing a);
  ValidatorsKey_reverse_spec h a : exists addrs, mapM AddressFromValidatorsKey (ValidatorsKey_reverse h a) = Ok addrs /\
    addrs ≡ₚ (map_to_list (st_validators (staking a))).*1;
  GetValidator_spec h addr v a : st_validators (staking a) !! addr = Some v -> GetValidator h addr a = Ok v;
  SetValidator_spec h addr v a : StringToBytes (OperatorAddress v) = Ok addr ->
    exists a', SetValidator h v a = (Ok tt, a') /\ staking a' =
      MkStakingState (<[addr := v]> (st_validators (staking a))) (st_redelegations (staking a)) (st_unbondings (staking a));
  SetRedelegation_spec h r a : exists a', SetRedelegation h r a = (Ok tt, a') /\ staking a' =
      MkStakingState (st_validators (staking a)) (<[Redelegation_key r := r]> (st_redelegations (staking a)))
        (st_unbondings (staking a));
  SetUnbondingDelegation_spec h u a : exists a', SetUnbondingDelegation h u a = (Ok tt, a') /\ staking a' =
      MkStakingState (st_validators (staking a)) (st_redelegations (staking a))
        (<[Unbonding_key u := u]> (st_unbondings (staking a)));
  SetValidatorSigningInfo_spec h addr i a : exists a', SetValidatorSigningInfo h addr i a = (Ok tt, a') /\
    signing a' = <[addr := i]> (signing a) /\ staking a' = staking a;
  (** Delegations name existing accounts. *)
  GetAllDelegations_spec h a : exists dels, GetAllDelegations h a = Ok dels /\
    Forall (fun d => (exists v, ValAddressFromBech32 (ValidatorAddress d) = Ok v) /\
                     (exists x, DelAddressFromBech32 (DelegatorAddress d) = Ok x)) dels;
  (** Distribution does not touch staking; withdrawing may fail. *)
  WithdrawValidatorCommission_spec h v : aside staking (discard (WithdrawValidatorCommission h v));
  WithdrawDelegationRewards_spec h d v : aside staking (discard (WithdrawDelegationRewards h d v));
  DeleteAllValidatorSlashEvents_spec h : aside staking (DeleteAllValidatorSlashEvents h);
  DeleteAllValidatorHistoricalRewards_spec h : aside staking (DeleteAllValidatorHistoricalRewards h);
  BeforeDelegationCreated_spec h d v : aside staking (BeforeDelegationCreated h d v);
  AfterDelegationModified_spec h d v : aside staking (AfterDelegationModified h d v);
  GetValidatorOutstandingRewardsCoins_spec h v a : GetValidatorOutstandingRewardsCoins h v a = Ok (outstanding a v);
  FeePool_Get_spec h a : FeePool_Get h a = Ok (pool a);
  FeePool_Set_spec h p a : exists a', FeePool_Set h p a = (Ok tt, a') /\ staking a' = staking a /\
    pool a' = p /\ forall v, outstanding a' v = outstanding a v;
  AfterValidatorCreated_spec h v a : exists a', AfterValidatorCreated h v a = (Ok tt, a') /\ staking a' = staking a /\
    pool a' = pool a /\ (forall d, amount (outstanding a' v) d = 0) /\
    forall v', v' <> v -> outstanding a' v' = outstanding a v' }.

(** Updating a map at the keys of a list, one after the other. *)
Definition update {V} (f : bytes -> V -> V) (m : gmap bytes V) (ks : list bytes) : gmap bytes V :=
  foldl (fun m k => alter (f k) k m) m ks.

Lemma update_snoc {V} (f : bytes -> V -> V) m ks k : update f m (ks ++ [k]) = alter (f k) k (update f m ks).
Proof. unfold update. now rewrite foldl_app. Qed.

Lemma update_notin {V} (f : bytes -> V -> V) ks : forall m i, i ∉ ks -> update f m ks !! i = m !! i.
Proof.
  induction ks as [|k ks IH]; intros m i Hi; [reflexivity|]. apply not_elem_of_cons in Hi as [Hn Hi].
  change (update f (alter (f k) k m) ks !! i = m !! i). rewrite IH by assumption. now apply lookup_alter_ne.
Qed.

Lemma update_in {V} (f : bytes -> V -> V) ks : NoDup ks -> forall m i, i ∈ ks -> update f m ks !! i = f i <$> m !! i.
Proof.
  induction 1 as [|k ks Hk Hn IH]; intros m i Hi; [now apply not_elem_of_nil in Hi|].
  change (update f (alter (f k) k m) ks !! i = f i <$> m !! i). apply elem_of_cons in Hi as [->|Hi].
  - rewrite update_notin by assumption. apply lookup_alter_eq.
  - rewrite IH by assumption. rewrite lookup_alter_ne; [reflexivity|]. intros ->. contradiction.
Qed.

Lemma update_all {V} (f : bytes -> V -> V) m ks : ks ≡ₚ (map_to_list m).*1 ->
  update f m ks = map_imap (fun k v => Some (f k v)) m.
Proof.
  intros P. apply map_eq. intros i. rewrite map_lookup_imap.
  assert (Hn : NoDup ks) by (rewrite P; apply NoDup_fst_map_to_list).
  destruct (m !! i) as [v|] eqn:E; cbn.
  - rewrite update_in; [now rewrite E | assumption|]. rewrite P. apply list_elem_of_fmap.
    exists (i, v). split; [reflexivity | now apply elem_of_map_to_list].
  - destruct (decide (i ∈ ks)) as [Hi|Hi]; [now rewrite update_in, E | now rewrite update_notin].
Qed.

(** The next key of the list still has its first value. *)
Lemma update_next {V} (f : bytes -> V -> V) m done k rest v : NoDup (done ++ k :: rest) -> m !! k = Some v ->
  update f m done !! k = Some v /\ update f m (done ++ [k]) = <[k := f k v]> (update f m done).
Proof.
  intros Hn Hk. assert (Hd : k ∉ done).
  { apply NoDup_app in Hn as (_ & Hn & _). intros Hi. apply (Hn k Hi). now left. }
  rewrite <-(update_notin f done m k Hd) in Hk. split; [assumption|]. rewrite update_snoc. apply map_eq. intros i.
  destruct (decide (i = k)) as [->|Hi].
  - now rewrite lookup_alter_eq, lookup_insert_eq, Hk.
  - now rewrite lookup_alter_ne, lookup_insert_ne by congruence.
Qed.

(** The values of a map whose key is a field of the value. *)
Lemma values_keys {V} (key : V -> bytes) (m : gmap bytes V) l :
  l ≡ₚ (map_to_list m).*2 -> (forall k v, m !! k = Some v -> key v = k) ->
  key <$> l ≡ₚ (map_to_list m).*1 /\ Forall (fun v => m !! key v = Some v) l.
Proof.
  intros P Hk. split.
  - rewrite P, <-list_fmap_compose. erewrite (list_fmap_ext _ fst); [reflexivity|]. intros i [k v] Hi.
    apply Hk, elem_of_map_to_list. now apply list_elem_of_lookup_2 in Hi.
  - rewrite P. apply Forall_fmap, Forall_forall. intros [k v] Hv. cbn. apply elem_of_map_to_list in Hv.
    now rewrite (Hk _ _ Hv).
Qed.

Section theorems.
Context {A : Type} `{KO : AppKeepersOk A}.

(** One keeper iteration that rewrites each record in place. *)
Lemma iterate_update {V} (it : A -> iteration V) (f : V -> AM A bool) (key : V -> bytes) (g : V -> V)
    (part : A -> gmap bytes V) (same : A -> A -> Prop) a :
  (forall a, same a a) -> (forall a b c, same a b -> same b c -> same a c) ->
  (exists l, it a = (l, None) /\ l ≡ₚ (map_to_list (part a)).*2) ->
  (forall k v, part a !! k = Some v -> key v = k) ->
  (forall v b, exists b', f v b = (Ok false, b') /\ part b' = <[key v := g v]> (part b) /\ same b b') ->
  exists a', iterate it f a = (Ok tt, a') /\ part a' = g <$> part a /\ same a a'.
Proof.
  intros Sr St (l & El & P) Hk Hf. destruct (values_keys key _ l P Hk) as [Pk Hl].
  unfold iterate. rewrite El. cbn [fst snd].
  destruct (visit_inv f (fun done b => part b = update (fun _ => g) (part a) (key <$> done) /\ same a b) l a)
    as (a' & E' & U & S'); [split; [reflexivity | apply Sr]| |].
  - intros done x rest b Ed [Eb Sb]. destruct (Hf x b) as (b' & E' & U & S'). exists b'. split; [exact E'|].
    split; [|eauto]. rewrite fmap_app. cbn [fmap list_fmap]. rewrite U, Eb. symmetry.
    refine (proj2 (update_next (fun _ => g) _ _ _ (key <$> rest) x _ _)).
    + rewrite <-(fmap_cons key), <-fmap_app, <-Ed, Pk. apply NoDup_fst_map_to_list.
    + rewrite Forall_forall in Hl. apply Hl. rewrite Ed. apply elem_of_app. right. now left.
  - exists a'. split; [exact E'|]. split; [|exact S']. rewrite U, update_all by assumption.
    apply map_eq. intros i. rewrite map_lookup_imap, lookup_fmap. now destruct (part a !! i).
Qed.

Definition zero_redelegation (r : Redelegation) : Redelegation :=
  MkRedelegation (Redelegation_key r) (reset_entries (Redelegation_Entries r)).
Definition zero_unbonding (u : UnbondingDelegation) : UnbondingDelegation :=
  MkUnbondingDelegation (Unbonding_key u) (reset_entries (Unbonding_Entries u)).
Definition zero_info (i : ValidatorSigningInfo) : ValidatorSigningInfo := MkSigningInfo 0 (SigningInfo_rest i).
(** A validator is jailed when there is a list and its address is not on it. *)
Definition zero_validator (allow : list gostring) (addr : bytes) (v : Validator) : Validator :=
  MkValidator (OperatorAddress v) 0
    (Jailed v || bool_decide (allow <> [] /\ ValAddress_String addr ∉ allow)) (Validator_rest v).
Definition zero_staking (allow : list gostring) (s : StakingState) : StakingState :=
  MkStakingState (map_imap (fun addr v => Some (zero_validator allow addr v)) (st_validators s))
    (zero_redelegation <$> st_redelegations s) (zero_unbonding <$> st_unbondings s).

Lemma reset_redelegations_run h a : exists a',
  iterate (IterateRedelegations h) (reset_redelegation h) a = (Ok tt, a') /\
  staking a' = MkStakingState (st_validators (staking a)) (zero_redelegation <$> st_redelegations (staking a))
                 (st_unbondings (staking a)).
Proof.
  destruct (iterate_update (IterateRedelegations h) (reset_redelegation h) Redelegation_key zero_redelegation
    (fun a => st_redelegations (staking a))
    (fun a b => st_validators (staking b) = st_validators (staking a) /\
                st_unbondings (staking b) = st_unbondings (staking a)) a) as (a' & E & U & V & W).
  - auto.
  - intros x y z [-> ->] [-> ->]. auto.
  - apply IterateRedelegations_spec.
  - apply redelegation_key.
  - intros r b. destruct (SetRedelegation_spec h (zero_redelegation r) b) as (b' & E & S).
    exists b'. unfold reset_redelegation. rewrite (AM_bind_ok _ _ _ _ _ (or_panic_ok _ _ _ _ E)).
    rewrite S. cbn. auto.
  - exists a'. split; [exact E|]. destruct (staking a'). cbn in *. congruence.
Qed.

Lemma reset_unbondings_run h a : exists a',
  iterate (IterateUnbondingDelegations h) (reset_unbonding h) a = (Ok tt, a') /\
  staking a' = MkStakingState (st_validators (staking a)) (st_redelegations (staking a))
                 (zero_unbonding <$> st_unbondings (staking a)).
Proof.
  destruct (iterate_update (IterateUnbondingDelegations h) (reset_unbonding h) Unbonding_key zero_unbonding
    (fun a => st_unbondings (staking a))
    (fun a b => st_validators (staking b) = st_validators (staking a) /\
                st_redelegations (staking b) = st_redelegations (staking a)) a) as (a' & E & U & V & W).
  - auto.
  - intros x y z [-> ->] [-> ->]. auto.
  - apply IterateUnbondingDelegations_spec.
  - apply unbonding_key.
  - intros r b. destruct (SetUnbondingDelegation_spec h (zero_unbonding r) b) as (b' & E & S).
    exists b'. unfold reset_unbonding. rewrite (AM_bind_ok _ _ _ _ _ (or_panic_ok _ _ _ _ E)).
    rewrite S. cbn. auto.
  - exists a'. split; [exact E|]. destruct (staking a'). cbn in *. congruence.
Qed.

Lemma reset_validator_zero allow allowed k v :
  (forall s, default false (allowed !! s) = bool_decide (s ∈ allow)) ->
  reset_validator allowed (0 <? len allow) k v = zero_validator allow k v.
Proof.
  intros Hm. unfold reset_validator, zero_validator. rewrite Hm. f_equal.
  destruct allow as [|s l]; [now rewrite orb_false_r|].
  rewrite (proj2 (Z.ltb_lt _ _)) by (rewrite len_cons; pose proof (len_nonneg l); lia).
  rewrite (bool_decide_ext (s :: l <> [] /\ _) (ValAddress_String k ∉ s :: l)) by (split; [tauto | auto]).
  rewrite bool_decide_not. now destruct (bool_decide _), (Jailed v).
Qed.

Lemma reset_validators_run h allow allowed apply a : apply = (0 <? len allow) ->
  (forall s, default false (allowed !! s) = bool_decide (s ∈ allow)) -> forall keys addrs done counter b,
  mapM AddressFromValidatorsKey keys = Ok addrs -> done ++ addrs ≡ₚ (map_to_list (st_validators (staking a))).*1 ->
  staking b = MkStakingState (update (zero_validator allow) (st_validators (staking a)) done)
                (st_redelegations (staking a)) (st_unbondings (staking a)) ->
  exists n a', reset_validators h allowed apply keys counter b = (Ok n, a') /\
  staking a' = MkStakingState (map_imap (fun k v => Some (zero_validator allow k v)) (st_validators (staking a)))
                 (st_redelegations (staking a)) (st_unbondings (staking a)).
Proof.
  intros -> Hm. induction keys as [|key keys IH]; intros addrs done counter b Ek P Sb.
  - injection Ek as <-. rewrite app_nil_r in P. exists counter, b. split; [reflexivity|].
    now rewrite Sb, update_all.
  - cbn in Ek. destruct (AddressFromValidatorsKey key) as [addr|?|?|] eqn:Ea; try discriminate. cbn in Ek.
    destruct (mapM AddressFromValidatorsKey keys) as [addrs'|?|?|]; try discriminate. injection Ek as <-.
    assert (Hn : NoDup (done ++ addr :: addrs')) by (rewrite P; apply NoDup_fst_map_to_list).
    assert (Hi : addr ∈ (map_to_list (st_validators (staking a))).*1)
      by (rewrite <-P; apply elem_of_app; right; now left).
    apply list_elem_of_fmap in Hi as ([k v] & -> & Hv). apply elem_of_map_to_list in Hv. cbn [fst] in *.
    destruct (update_next (zero_validator allow) _ _ _ _ _ Hn Hv) as [Hg Hu].
    assert (Eg : GetValidator h k b = Ok v) by (apply GetValidator_spec; now rewrite Sb).
    destruct (SetValidator_spec h k (zero_validator allow k v) b) as (b' & Es & Sb').
    { exact (validator_key a k v Hv). }
    cbn [reset_validators]. rewrite Ea, pure_bind, ask_bind, Eg, pure_bind.
    rewrite (reset_validator_zero allow) by assumption.
    rewrite (AM_bind_ok _ _ _ _ _ (or_panic_ok _ _ _ _ Es)).
    apply (IH addrs' (done ++ [k])); [reflexivity | now rewrite <-app_assoc|].
    rewrite Sb', Sb. cbn. now rewrite Hu.
Qed.

Lemma reset_staking_run h allow allowed a :
  (forall s, default false (allowed !! s) = bool_decide (s ∈ allow)) ->
  exists a', reset_staking h allowed (0 <? len allow) a = (Ok tt, a') /\ staking a' = zero_staking allow (staking a).
Proof.
  intros Hm. unfold reset_staking.
  destruct (reset_redelegations_run h a) as (a1 & E1 & S1).
  rewrite (AM_bind_ok _ _ _ _ _ (or_panic_ok _ _ _ _ E1)).
  destruct (reset_unbondings_run h a1) as (a2 & E2 & S2).
  rewrite (AM_bind_ok _ _ _ _ _ (or_panic_ok _ _ _ _ E2)).
  destruct (ValidatorsKey_reverse_spec h a2) as (addrs & Ek & P).
  destruct (reset_validators_run h allow allowed _ a2 eq_refl Hm _ addrs [] 0 a2 Ek P) as (n & a3 & E3 & S3);
    [now destruct (staking a2)|].
  rewrite ask_bind, (AM_bind_ok _ _ _ _ _ E3). eexists. split; [reflexivity|]. rewrite S3, S2, S1. reflexivity.
Qed.

Lemma reset_slashing_run h a : exists a',
  reset_slashing h a = (Ok tt, a') /\ signing a' = zero_info <$> signing a /\ staking a' = staking a.
Proof.
  destruct (IterateValidatorSigningInfos_spec h a) as (l & El & P).
  assert (Hn : NoDup l.*1) by (rewrite P; apply NoDup_fst_map_to_list).
  destruct (visit_inv (reset_signing_info h)
    (fun done b => signing b = update (fun _ => zero_info) (signing a) done.*1 /\ staking b = staking a) l a)
    as (a' & E & U & S); [auto| |].
  - intros done [k i] rest b Ed [Eb Sb].
    destruct (SetValidatorSigningInfo_spec h k (zero_info i) b) as (b' & E' & U & S). exists b'. split.
    { unfold reset_signing_info. cbn [fst snd]. erewrite AM_bind_ok; [reflexivity|]. unfold discard.
      change (MkSigningInfo 0 (SigningInfo_rest i)) with (zero_info i). now rewrite E'. }
    split; [|congruence]. rewrite U, Eb, fmap_app. symmetry.
    refine (proj2 (update_next (fun _ => zero_info) _ _ k rest.*1 i _ _)).
    + now rewrite <-(fmap_cons fst (k, i)), <-fmap_app, <-Ed.
    + apply elem_of_map_to_list. rewrite <-P, Ed. apply elem_of_app. right. now left.
  - exists a'. unfold reset_slashing, or_fatal, iterate. rewrite El. cbn [fst snd]. rewrite E. split; [reflexivity|].
    split; [|assumption]. rewrite U, update_all by now rewrite P.
    apply map_eq. intros i. rewrite map_lookup_imap, lookup_fmap. now destruct (signing a !! i).
Qed.

Lemma allowed_addrs_run allow : Forall (fun s => exists v, ValAddressFromBech32 s = Ok v) allow ->
  exists m, allowed_addrs allow = Ok m /\ forall s, default false (m !! s) = bool_decide (s ∈ allow).
Proof.
  unfold allowed_addrs. intros H. enough (G : forall m0 : gmap gostring bool, exists m, foldl allow_addr (Ok m0) allow = Ok m /\
    forall s, m !! s = if bool_decide (s ∈ allow) then Some true else m0 !! s).
  { destruct (G ∅) as (m & E & L). exists m. split; [exact E|]. intros s. rewrite L, lookup_empty. now case_bool. }
  induction H as [|x l [v Hv] Hl IH]; intros m0; [eexists; split; [reflexivity|]; now intros|].
  cbn [foldl]. unfold allow_addr at 2. rewrite Hv. destruct (IH (<[x := true]> m0)) as (m & E & L). exists m. split; [exact E|].
  intros s. rewrite L. destruct (decide (s = x)) as [->|N].
  - rewrite lookup_insert_eq, (bool_decide_eq_true_2 (x ∈ x :: l)) by now left. now case_bool.
  - rewrite lookup_insert_ne by congruence.
    now rewrite (bool_decide_ext (s ∈ x :: l) (s ∈ l)) by (rewrite elem_of_cons; tauto).
Qed.

(** ** Distribution *)

(** The calls that leave staking alone, in sequence. *)
Definition keeps (a : A) (b : A) : Prop := staking b = staking a.

Lemma withdraw_commissions_run h a : exists a',
  or_panic (iterate (IterateValidators h) (withdraw_commission h)) a = (Ok tt, a') /\ keeps a a'.
Proof.
  destruct (IterateValidators_spec h a) as (l & El & P).
  destruct (visit_inv (withdraw_commission h) (fun _ => keeps a) l a) as (a' & E & S); [reflexivity| |].
  - intros done v rest b Ed Sb.
    assert (Hv : v ∈ (map_to_list (st_validators (staking a))).*2)
      by (rewrite <-P, Ed; apply elem_of_app; right; now left).
    apply list_elem_of_fmap in Hv as ([k v'] & -> & Hv). apply elem_of_map_to_list, validator_key in Hv. cbn [snd].
    destruct (WithdrawValidatorCommission_spec h k b) as (b' & E & S). exists b'. split; [|unfold keeps in *; congruence].
    unfold withdraw_commission. rewrite Hv, must_bind. now rewrite (AM_bind_ok _ _ _ _ _ E).
  - exists a'. unfold iterate. split; [|assumption]. apply or_panic_ok. now rewrite El.
Qed.

Definition valid_delegation (d : Delegation) : Prop :=
  (exists v, ValAddressFromBech32 (ValidatorAddress d) = Ok v) /\
  (exists x, DelAddressFromBech32 (DelegatorAddress d) = Ok x).

Lemma withdraw_rewards_run h dels a b : keeps a b -> Forall valid_delegation dels ->
  exists a', for_each (withdraw_rewards h) dels b = (Ok tt, a') /\ keeps a a'.
Proof.
  intros Hb Hd. apply for_each_inv; [exact Hb|]. apply (Forall_impl _ _ _ Hd). intros d [[v Hv] [x Hx]] c Hc.
  destruct (WithdrawDelegationRewards_spec h x v c) as (c' & E & S). exists c'. split; [|unfold keeps in *; congruence].
  unfold withdraw_rewards. now rewrite Hv, Hx, !must_bind.
Qed.

Lemma reinit_delegations_run h dels a b : keeps a b -> Forall valid_delegation dels ->
  exists a', for_each (reinit_delegation h) dels b = (Ok tt, a') /\ keeps a a'.
Proof.
  intros Hb Hd. apply for_each_inv; [exact Hb|]. apply (Forall_impl _ _ _ Hd). intros d [[v Hv] [x Hx]] c Hc.
  destruct (BeforeDelegationCreated_spec h x v c) as (c1 & E1 & S1).
  destruct (AfterDelegationModified_spec h x v c1) as (c' & E & S). exists c'. split; [|unfold keeps in *; congruence].
  unfold reinit_delegation. rewrite Hv, Hx, !must_bind.
  rewrite (AM_bind_ok _ _ _ _ _ (or_panic_ok _ _ _ _ E1)). now apply or_panic_ok.
Qed.

(** The outstanding rewards of the listed validators. *)
Definition total_outstanding (a : A) (d : gostring) (l : list bytes) : Z :=
  foldr (fun v n => amount (outstanding a v) d + n) 0 l.

Lemma total_outstanding_app a d l l' :
  total_outstanding a d (l ++ l') = total_outstanding a d l + total_outstanding a d l'.
Proof. induction l as [|x l IH]; [reflexivity|]. cbn. unfold total_outstanding in *. cbn. lia. Qed.

Lemma reinit_validator_run h v addr a : StringToBytes (OperatorAddress v) = Ok addr ->
  exists a', reinit_validator h v a = (Ok false, a') /\ staking a' = staking a /\
    (forall d, amount (pool a') d = amount (pool a) d + amount (outstanding a addr) d) /\
    (forall d, amount (outstanding a' addr) d = 0) /\
    forall addr', addr' <> addr -> outstanding a' addr' = outstanding a addr'.
Proof.
  intros Hv. destruct (FeePool_Set_spec h (DecCoins_Add (pool a) (outstanding a addr)) a) as (a1 & E1 & S1 & P1 & O1).
  destruct (AfterValidatorCreated_spec h addr a1) as (a2 & E2 & S2 & P2 & Z2 & O2). exists a2. split; [|split; [congruence|]].
  - unfold reinit_validator. rewrite Hv, must_bind, ask_bind.
    rewrite GetValidatorOutstandingRewardsCoins_spec, must_bind, ask_bind.
    rewrite FeePool_Get_spec, must_bind.
    rewrite (AM_bind_ok _ _ _ _ _ (or_panic_ok _ _ _ _ E1)). now rewrite (AM_bind_ok _ _ _ _ _ (or_panic_ok _ _ _ _ E2)).
  - split; [intros d; rewrite P2, P1; apply amount_Add|]. split; [exact Z2|].
    intros addr' N. rewrite O2 by assumption. apply O1.
Qed.

Lemma total_outstanding_perm a d l l' : l ≡ₚ l' -> total_outstanding a d l = total_outstanding a d l'.
Proof. unfold total_outstanding. induction 1; cbn; lia. Qed.

Definition operator_key (v : Validator) : bytes :=
  match StringToBytes (OperatorAddress v) with Ok k => k | _ => [] end.

(** Re-initialising the validators moves exactly their outstanding rewards to
    the community pool, in every denomination, and leaves them none. *)
Lemma reinit_validators_run h a : exists a',
  iterate (IterateValidators h) (reinit_validator h) a = (Ok tt, a') /\ staking a' = staking a /\
  (forall d, amount (pool a') d =
     amount (pool a) d + total_outstanding a d (map_to_list (st_validators (staking a))).*1) /\
  (forall v d, is_Some (st_validators (staking a) !! v) -> amount (outstanding a' v) d = 0).
Proof.
  destruct (IterateValidators_spec h a) as (l & El & P).
  destruct (values_keys operator_key _ l P) as [Pk Hl].
  { intros k v Hv. unfold operator_key. now rewrite (validator_key _ _ _ Hv). }
  assert (Hn : NoDup (operator_key <$> l)) by (rewrite Pk; apply NoDup_fst_map_to_list).
  destruct (visit_inv (reinit_validator h) (fun done b => staking b = staking a /\
    (forall d, amount (pool b) d = amount (pool a) d + total_outstanding a d (operator_key <$> done)) /\
    (forall k d, k ∈ operator_key <$> done -> amount (outstanding b k) d = 0) /\
    (forall k, k ∉ operator_key <$> done -> outstanding b k = outstanding a k)) l a) as (a' & E & S & Hp & Hz & _).
  - repeat split; [cbn; intros; lia | intros k d Hk; now apply not_elem_of_nil in Hk].
  - intros done v rest b Ed (Sb & Hp & Hz & Ho).
    assert (Hv : StringToBytes (OperatorAddress v) = Ok (operator_key v)).
    { rewrite Ed in Hl. apply Forall_app in Hl as [_ Hl]. apply Forall_inv in Hl. exact (validator_key a _ _ Hl). }
    assert (Hd : operator_key v ∉ operator_key <$> done).
    { rewrite Ed, fmap_app in Hn. apply NoDup_app in Hn as (_ & Hn & _). intros Hi. apply (Hn _ Hi). now left. }
    destruct (reinit_validator_run h v _ b Hv) as (b' & E & S & Pb & Zb & Ob). exists b'. split; [exact E|].
    split; [congruence|]. rewrite fmap_app. split; [|split].
    + intros d. rewrite Pb, Hp, total_outstanding_app, (Ho _ Hd). cbn. lia.
    + intros k d Hk. destruct (decide (k = operator_key v)) as [->|N]; [apply Zb|]. rewrite Ob by assumption.
      apply Hz. apply elem_of_app in Hk as [Hk|Hk]; [exact Hk|]. now apply list_elem_of_singleton in Hk.
    + intros k Hk. apply not_elem_of_app in Hk as [Hk N]. rewrite Ob; [now apply Ho|]. intros ->. apply N. now left.
  - exists a'. unfold iterate. rewrite El. split; [exact E|]. split; [exact S|]. split.
    + intros d. rewrite Hp. f_equal. now apply total_outstanding_perm.
    + intros k d [v Hk]. apply Hz. rewrite Pk. apply list_elem_of_fmap. exists (k, v). split; [reflexivity|].
      now apply elem_of_map_to_list.
Qed.

Lemma reset_distribution_run h a : exists a', reset_distribution h a = (Ok tt, a') /\ keeps a a'.
Proof.
  unfold reset_distribution. destruct (withdraw_commissions_run h a) as (a1 & E1 & S1).
  rewrite (AM_bind_ok _ _ _ _ _ E1), ask_bind.
  destruct (GetAllDelegations_spec h a1) as (dels & Ed & Hd). rewrite Ed, must_bind.
  destruct (withdraw_rewards_run h dels a a1 S1 Hd) as (a2 & E2 & S2). rewrite (AM_bind_ok _ _ _ _ _ E2).
  destruct (DeleteAllValidatorSlashEvents_spec h a2) as (a3 & E3 & S3). rewrite (AM_bind_ok _ _ _ _ _ E3).
  destruct (DeleteAllValidatorHistoricalRewards_spec h a3) as (a4 & E4 & S4). rewrite (AM_bind_ok _ _ _ _ _ E4).
  destruct (reinit_validators_run 0 a4) as (a5 & E5 & S5 & _). cbv zeta.
  rewrite (AM_bind_ok _ _ a4 tt a5) by (unfold discard; now rewrite E5).
  apply reinit_delegations_run; [|exact Hd]. unfold keeps in *. congruence.
Qed.

(** ** Theorems *)

(** C38: with valid addresses on the allow-list and the invariants asserted, the
    preparation reaches the last step of staking with every creation height
    and unbonding height zero and exactly the validators outside a non-empty
    list jailed in addition; when the validator set update succeeds it returns
    with every signing info starting at zero, and when it fails the process
    ends. *)
Theorem zero_height_state h allow a a0 :
  Forall (fun s => exists v, ValAddressFromBech32 s = Ok v) allow ->
  AssertInvariants h a = (Ok tt, a0) -> staking a0 = staking a -> (forall b, iter_Close b = Ok tt) ->
  exists a1, staking a1 = zero_staking allow (staking a) /\
    match ApplyAndReturnValidatorSetUpdates h a1 with
    | (Ok _, a2) => exists a3, prepForZeroHeightGenesis h allow a = (Ok tt, a3) /\
        signing a3 = zero_info <$> signing a2 /\ staking a3 = staking a2
    | (Err _, a2) => prepForZeroHeightGenesis h allow a = (Panic PExit, a2)
    | (Panic p, a2) => prepForZeroHeightGenesis h allow a = (Panic p, a2)
    | (Fuel, a2) => prepForZeroHeightGenesis h allow a = (Fuel, a2)
    end.
Proof.
  intros Hl Ha S0 Hc. destruct (allowed_addrs_run allow Hl) as (m & Em & Hm).
  destruct (reset_distribution_run h a0) as (b1 & E1 & S1).
  destruct (reset_staking_run h allow m b1 Hm) as (b2 & E2 & S2). exists b2.
  split; [unfold keeps in S1; congruence|].
  assert (R : prepForZeroHeightGenesis h allow a =
    (or_fatal (ApplyAndReturnValidatorSetUpdates h) ≫= fun _ => reset_slashing h) b2).
  { unfold prepForZeroHeightGenesis. cbv zeta.
    rewrite Em, pure_bind, (AM_bind_ok _ _ _ _ _ Ha), (AM_bind_ok _ _ _ _ _ E1), (AM_bind_ok _ _ _ _ _ E2).
    rewrite ask_bind, Hc. reflexivity. }
  rewrite R. unfold mbind, AM_bind, or_fatal.
  destruct (ApplyAndReturnValidatorSetUpdates h b2) as [[[]|e|p|] a2]; try reflexivity. apply reset_slashing_run.
Qed.

(** An allow-list with an address that does not decode ends the process
    before anything is changed. *)
Theorem bad_allow_list_exits h allow a : Exists (fun s => exists e, ValAddressFromBech32 s = Err e) allow ->
  prepForZeroHeightGenesis h allow a = (Panic PExit, a).
Proof.
  intros H. unfold prepForZeroHeightGenesis. cbv zeta.
  enough (E : allowed_addrs allow = Panic PExit) by now rewrite E.
  assert (G : forall l, foldl allow_addr (Panic PExit) l = Panic PExit) by (induction l; [reflexivity | assumption]).
  unfold allowed_addrs. generalize (∅ : gmap gostring bool) as m.
  induction H as [x l [e He]|x l H IH]; intros m; cbn [foldl]; unfold allow_addr at 2; cbn.
  - now rewrite He.
  - pose proof (ValAddressFromBech32_safe x) as Sx.
    destruct (ValAddressFromBech32 x); try contradiction; [apply IH | apply G].
Qed.
End theorems.

(** ** An app for the export

    Concrete keepers for [AppExport], used to evaluate its theorems: staking,
    distribution and slashing state as finite maps, addresses as their own
    bech32 text, one denomination of rewards. *)

(** Records are stored without their key. *)
Record app := MkApp {
  app_validators : gmap bytes (Z * bool * bytes);
  app_redelegations : gmap bytes (list Entry);
  app_unbondings : gmap bytes (list Entry);
  app_delegations : list Delegation;
  app_signing : gmap bytes ValidatorSigningInfo;
  app_pool : Z;
  app_outstanding : gmap bytes Z;
  app_height : Z }.

Definition app_staking (a : app) : StakingState :=
  MkStakingState
    (map_imap (fun k v => Some (MkValidator k v.1.1 v.1.2 v.2)) (app_validators a))
    (map_imap (fun k es => Some (MkRedelegation k es)) (app_redelegations a))
    (map_imap (fun k es => Some (MkUnbondingDelegation k es)) (app_unbondings a)).

Definition set_validators m (a : app) : app :=
  MkApp m (app_redelegations a) (app_unbondings a) (app_delegations a) (app_signing a) (app_pool a)
    (app_outstanding a) (app_height a).
Definition set_redelegations m (a : app) : app :=
  MkApp (app_validators a) m (app_unbondings a) (app_delegations a) (app_signing a) (app_pool a)
    (app_outstanding a) (app_height a).
Definition set_unbondings m (a : app) : app :=
  MkApp (app_validators a) (app_redelegations a) m (app_delegations a) (app_signing a) (app_pool a)
    (app_outstanding a) (app_height a).
Definition set_signing m (a : app) : app :=
  MkApp (app_validators a) (app_redelegations a) (app_unbondings a) (app_delegations a) m (app_pool a)
    (app_outstanding a) (app_height a).
Definition set_rewards p o (a : app) : app :=
  MkApp (app_validators a) (app_redelegations a) (app_unbondings a) (app_delegations a) (app_signing a) p o
    (app_height a).

(** The empty text is the one that does not decode. *)
Definition decode_address (s : gostring) : res bytes :=
  if bool_decide (s = []) then Err (ErrMsg "empty address string is not allowed") else Ok s.

Definition succeed (f : app -> app) : AM app unit := fun a => (Ok tt, f a).

(** Whole units of rewards are paid out, fractions stay outstanding. *)
Definition pay_out (v : bytes) (a : app) : app :=
  set_rewards (app_pool a) (alter (fun z => z mod 1000) v (app_outstanding a)) a.

#[export] Instance app_keepers : AppKeepers app := {|
  DecCoins := Z;
  DecCoins_Add := Z.add;
  ValAddressFromBech32 := decode_address;
  ValAddress_String addr := addr;
  DelAddressFromBech32 := decode_address;
  StringToBytes s := Ok s;
  AddressFromValidatorsKey k := Ok k;
  AssertInvariants _ := succeed id;
  IterateValidators _ a := ((map_to_list (st_validators (app_staking a))).*2, None);
  GetAllDelegations _ a := Ok (filter (fun d => DelegatorAddress d <> [] /\ ValidatorAddress d <> []) (app_delegations a));
  IterateRedelegations _ a := ((map_to_list (st_redelegations (app_staking a))).*2, None);
  SetRedelegation _ r := succeed (fun a =>
    set_redelegations (<[Redelegation_key r := Redelegation_Entries r]> (app_redelegations a)) a);
  IterateUnbondingDelegations _ a := ((map_to_list (st_unbondings (app_staking a))).*2, None);
  SetUnbondingDelegation _ u := succeed (fun a =>
    set_unbondings (<[Unbonding_key u := Unbonding_Entries u]> (app_unbondings a)) a);
  ValidatorsKey_reverse _ a := reverse (map_to_list (st_validators (app_staking a))).*1;
  iter_Close _ := Ok tt;
  GetValidator _ addr a :=
    match st_validators (app_staking a) !! addr with
    | Some v => Ok v
    | None => Err (ErrMsg "validator does not exist")
    end;
  SetValidator _ v := succeed (fun a =>
    set_validators (<[OperatorAddress v := (UnbondingHeight v, Jailed v, Validator_rest v)]> (app_validators a)) a);
  ApplyAndReturnValidatorSetUpdates _ := succeed id;
  WithdrawValidatorCommission _ _ a := (Err (ErrMsg "no validator commission to withdraw"), a);
  WithdrawDelegationRewards _ _ v := succeed (pay_out v);
  DeleteAllValidatorSlashEvents _ := succeed id;
  DeleteAllValidatorHistoricalRewards _ := succeed id;
  GetValidatorOutstandingRewardsCoins _ v a := Ok (default 0 (app_outstanding a !! v));
  FeePool_Get _ a := Ok (app_pool a);
  FeePool_Set _ p := succeed (fun a => set_rewards p (app_outstanding a) a);
  AfterValidatorCreated _ v := succeed (fun a => set_rewards (app_pool a) (<[v := 0]> (app_outstanding a)) a);
  BeforeDelegationCreated _ _ _ := succeed id;
  AfterDelegationModified _ _ _ := succeed id;
  IterateValidatorSigningInfos _ a := (map_to_list (app_signing a), None);
  SetValidatorSigningInfo _ addr i := succeed (fun a => set_signing (<[addr := i]> (app_signing a)) a);
  LastBlockHeight a := app_height a;
  GenState := unit;
  ExportGenesisForModules _ _ := succeed id;
  MarshalIndent _ := Ok (str "{}");
  GenesisValidators := list Validator;
  WriteValidators _ a := ((map_to_list (st_validators (app_staking a))).*2, None);
  ConsensusParams := unit;
  GetConsensusParams _ _ := tt |}.

Definition app_amount (x : Z) (d : gostring) : Z := if bool_decide (d = str "stake") then x else 0.

#[local] Ltac by_succeed := intros; eexists; split; [reflexivity|].

#[export] Program Instance app_keepers_ok : AppKeepersOk app := {
  staking := app_staking;
  signing := app_signing;
  pool := app_pool;
  outstanding a v := default 0 (app_outstanding a !! v);
  amount := app_amount }.
Next Obligation. intros x y d. unfold app_amount. now case_bool. Qed.
Next Obligation. intros s. cbn. unfold decode_address. now case_bool. Qed.
Next Obligation.
  intros a addr v E. cbn in *. rewrite map_lookup_imap in E. destruct (app_validators a !! addr); [|discriminate].
  now injection E as <-.
Qed.
Next Obligation.
  intros a k v E. cbn in *. rewrite map_lookup_imap in E. destruct (app_redelegations a !! k); [|discriminate].
  now injection E as <-.
Qed.
Next Obligation.
  intros a k v E. cbn in *. rewrite map_lookup_imap in E. destruct (app_unbondings a !! k); [|discriminate].
  now injection E as <-.
Qed.
Next Obligation. by_succeed. reflexivity. Qed.
Next Obligation. by_succeed. reflexivity. Qed.
Next Obligation. by_succeed. reflexivity. Qed.
Next Obligation. by_succeed. reflexivity. Qed.
Next Obligation.
  intros h a. exists (reverse (map_to_list (st_validators (app_staking a))).*1). split.
  - cbn. now induction (reverse _) as [|x l IH]; [|cbn; rewrite IH].
  - apply reverse_Permutation.
Qed.
Next Obligation. intros h addr v a E. cbn in *. now rewrite E. Qed.
Next Obligation.
  intros h addr v a E. injection E as <-. by_succeed. unfold app_staking. cbn. f_equal.
  rewrite (map_imap_insert_Some _ _ _ _ v); [reflexivity | now destruct v].
Qed.
Next Obligation.
  by_succeed. unfold app_staking. cbn. f_equal. rewrite (map_imap_insert_Some _ _ _ _ r); [reflexivity | now destruct r].
Qed.
Next Obligation.
  by_succeed. unfold app_staking. cbn. f_equal. rewrite (map_imap_insert_Some _ _ _ _ u); [reflexivity | now destruct u].
Qed.
Next Obligation. by_succeed. split; reflexivity. Qed.
Next Obligation.
  by_succeed. apply Forall_forall. intros d Hd. apply list_elem_of_filter in Hd as [[H1 H2] _].
  cbn. unfold decode_address. rewrite !bool_decide_eq_false_2 by assumption. eauto.
Qed.
Next Obligation. by_succeed. reflexivity. Qed.
Next Obligation. by_succeed. reflexivity. Qed.
Next Obligation. by_succeed. reflexivity. Qed.
Next Obligation. by_succeed. reflexivity. Qed.
Next Obligation. by_succeed. reflexivity. Qed.
Next Obligation. by_succeed. reflexivity. Qed.
Next Obligation. reflexivity. Qed.
Next Obligation. reflexivity. Qed.
Next Obligation. by_succeed. repeat split. Qed.
Next Obligation.
  by_succeed. repeat split; cbn; intros.
  - rewrite lookup_insert_eq. unfold app_amount. cbn. now case_bool.
  - now rewrite lookup_insert_ne by congruence.
Qed.

(** ** An app with two validators, one of them on the allow-list *)

Definition val1 : bytes := str "cosmosvaloper1".
Definition val2 : bytes := str "cosmosvaloper2".
Definition del1 : bytes := str "cosmos1".
Definition app0 : app :=
  MkApp {[val1 := (7, false, []); val2 := (9, false, [])]} {[del1 := [MkEntry 5 []; MkEntry 6 []]]} ∅
    [MkDelegation del1 val1] {[val2 := MkSigningInfo 3 []]} 10 {[val1 := 2345; val2 := 678]} 12.

Lemma zero_height_state_witness : exists a1,
  staking a1 = zero_staking [val1] (staking app0) /\
  exists a3, prepForZeroHeightGenesis 12 [val1] app0 = (Ok tt, a3) /\
    signing a3 = zero_info <$> signing a1 /\ staking a3 = staking a1.
Proof.
  destruct (zero_height_state 12 [val1] app0 app0) as (a1 & S & H); try reflexivity.
  - repeat constructor. exists val1. reflexivity.
  - exists a1. split; [exact S | exact H].
Defined.

(** What that run gives: validator 2 is jailed, validator 1 is not, and the
    fractions 345 and 678 have joined the pool. *)
Lemma zero_height_example :
  let a := (prepForZeroHeightGenesis 12 [val1] app0).2 in
  app_validators a !! val1 = Some (0, false, []) /\ app_validators a !! val2 = Some (0, true, []) /\
  app_redelegations a !! del1 = Some [MkEntry 0 []; MkEntry 0 []] /\ app_pool a = 10 + 345 + 678.
Proof. vm_compute. auto. Qed.

Lemma bad_allow_list_exits_witness : prepForZeroHeightGenesis 12 [val1; []] app0 = (Panic PExit, app0).
Proof.
  apply (bad_allow_list_exits 12 [val1; []] app0). apply Exists_cons_tl, Exists_cons_hd.
  eexists. reflexivity.
Defined.
