(* ===== verification/AppTestnet.v ===== *)
(** * [cmd/HalbornCTFd/cmd/testnet.go]: a testnet from a local copy of a chain

    [getCommandArgs] reads the command's options; [initAppForTestnet] replaces
    the validator set of the app by one new validator and funds accounts.  The
    staking store and the bank are those of [Sdk]; the staking, distribution
    and slashing keepers are parameters with laws.  The theorems: what is left
    in the staking store, whose balances grow and by how much, and that the
    list of accounts given on the command line is the list that is funded. *)

From S2P Require Import Prelude Sdk Bank AppMonad.

(** ** The app *)

(** The staking store, the bank and the rest. *)
Record tapp (S B X : Type) := MkTapp { t_store : S; t_bank : B; t_rest : X }.
Arguments MkTapp {S B X} t_store t_bank t_rest.
Arguments t_store {S B X} t.
Arguments t_bank {S B X} t.
Arguments t_rest {S B X} t.

(** [stakingtypes.Validator], the fields that are set. *)
Inductive BondStatus := Unspecified | Unbonded | Unbonding | Bonded.
Record NewValidator (Any Dec : Type) := MkNewValidator {
  nv_OperatorAddress : gostring;
  nv_ConsensusPubkey : Any;
  nv_Jailed : bool;
  nv_Status : BondStatus;
  nv_Tokens : Int;
  nv_DelegatorShares : Dec;
  nv_Moniker : gostring;
  nv_Rate : Dec;
  nv_MaxRate : Dec;
  nv_MaxChangeRate : Dec;
  nv_MinSelfDelegation : Int }.
Arguments MkNewValidator {Any Dec} _ _ _ _ _ _ _ _ _ _ _.
Arguments nv_OperatorAddress {Any Dec} _.
Arguments nv_ConsensusPubkey {Any Dec} _.
Arguments nv_Jailed {Any Dec} _.
Arguments nv_Status {Any Dec} _.
Arguments nv_Tokens {Any Dec} _.

Record NewSigningInfo := MkNewSigningInfo {
  si_Address : gostring; si_StartHeight : Z; si_Tombstoned : bool }.

(** [valArgs]; the public key as its bytes. *)
Record valArgs := MkValArgs {
  newValAddr : bytes;
  newOperatorAddress : gostring;
  newValPubKey : bytes;
  accountsToFund : list AccAddress;
  upgradeToTrigger : gostring;
  homeDir : gostring }.

Class TestnetKeepers (S B X : Type) `{KVStore S} `{BankKeeper B} `{SdkTypes} : Type := {
  Any : Type;
  (** [codectypes.NewAnyWithValue] of an ed25519 key. *)
  NewAnyWithValue : bytes -> res Any;
  LegacyMustNewDecFromStr : gostring -> res Dec;
  OperatorStringToBytes : gostring -> res bytes;
  ConsAddress_String : bytes -> gostring;
  (** Constants of the SDK. *)
  ValidatorsKey : bytes;
  ValidatorQueueKey : bytes;
  MintModuleName : gostring;
  (** The keys the staking keeper's iterators yield. *)
  ValidatorsPowerStoreIterator : tapp S B X -> res (list bytes);
  LastValidatorsIterator : tapp S B X -> res (list bytes);
  SetValidator : NewValidator Any Dec -> AM (tapp S B X) unit;
  SetValidatorByConsAddr : NewValidator Any Dec -> AM (tapp S B X) unit;
  SetValidatorByPowerIndex : NewValidator Any Dec -> AM (tapp S B X) unit;
  SetLastValidatorPower : bytes -> Z -> AM (tapp S B X) unit;
  AfterValidatorCreated : bytes -> AM (tapp S B X) unit;
  BondDenom : tapp S B X -> res gostring;
  (** Distribution: a record with no rewards and the given period or count. *)
  SetValidatorHistoricalRewards : bytes -> Z -> Z -> AM (tapp S B X) unit;
  SetValidatorCurrentRewards : bytes -> Z -> AM (tapp S B X) unit;
  SetValidatorAccumulatedCommission : bytes -> AM (tapp S B X) unit;
  SetValidatorOutstandingRewards : bytes -> AM (tapp S B X) unit;
  SetValidatorSigningInfo : bytes -> NewSigningInfo -> AM (tapp S B X) unit;
  LastBlockHeight : tapp S B X -> Z }.

(** ** [initAppForTestnet] *)

Section testnet.
Context {S B X : Type} `{KVStore S} `{BankKeeper B} `{SdkTypes} {K : TestnetKeepers S B X}.

Definition valVotingPower : Z := 900000000000000.

Definition store_op (f : S -> S) : AM (tapp S B X) unit := fun a =>
  (Ok tt, MkTapp (f (t_store a)) (t_bank a) (t_rest a)).
Definition tbank_op {Y} (f : B -> res Y * B) : AM (tapp S B X) Y := fun a =>
  let '(r, b) := f (t_bank a) in (r, MkTapp (t_store a) b (t_rest a)).

(** [for ; iterator.Valid(); iterator.Next() { store.Delete(iterator.Key()) }]. *)
Definition delete_keys (keys : list bytes) : AM (tapp S B X) unit :=
  for_each (fun key => store_op (fun s => kv_delete s key)) keys.

(** [store.Iterator(prefix, storetypes.PrefixEndBytes(prefix))]: the keys that
    start with the prefix. *)
Definition prefix_keys (prefix : bytes) (a : tapp S B X) : list bytes :=
  filter (fun k => prefix `prefix_of` k) (kv_entries (t_store a)).*1.

Definition new_validator (args : valArgs) (pubkeyAny : Any) : AM (tapp S B X) (NewValidator Any Dec) :=
  shares ← pure (LegacyMustNewDecFromStr (str "10000000"));
  rate ← pure (LegacyMustNewDecFromStr (str "0.05"));
  maxRate ← pure (LegacyMustNewDecFromStr (str "0.1"));
  maxChangeRate ← pure (LegacyMustNewDecFromStr (str "0.05"));
  mret (MkNewValidator (newOperatorAddress args) pubkeyAny false Bonded (Some valVotingPower) shares
          (str "Testnet Validator") rate maxRate maxChangeRate (Some 1)).

Definition remove_validators : AM (tapp S B X) unit :=
  iterator ← ask ValidatorsPowerStoreIterator;
  iterator ← or_fatal (pure iterator);
  _ ← delete_keys iterator;
  iterator ← ask LastValidatorsIterator;
  iterator ← or_fatal (pure iterator);
  _ ← delete_keys iterator;
  iterator ← ask (prefix_keys ValidatorsKey);
  _ ← delete_keys iterator;
  iterator ← ask (prefix_keys ValidatorQueueKey);
  delete_keys iterator.

Definition add_validator (newVal : NewValidator Any Dec) (validator : bytes) : AM (tapp S B X) unit :=
  _ ← discard (SetValidator newVal);
  _ ← or_fatal (SetValidatorByConsAddr newVal);
  _ ← discard (SetValidatorByPowerIndex newVal);
  _ ← discard (SetLastValidatorPower validator 0);
  or_fatal (AfterValidatorCreated validator).

Definition add_records (args : valArgs) (validator : bytes) : AM (tapp S B X) unit :=
  _ ← discard (SetValidatorHistoricalRewards validator 0 1);
  _ ← discard (SetValidatorCurrentRewards validator 1);
  _ ← discard (SetValidatorAccumulatedCommission validator);
  _ ← discard (SetValidatorOutstandingRewards validator);
  let newConsAddr := newValAddr args in
  height ← ask LastBlockHeight;
  discard (SetValidatorSigningInfo newConsAddr
             (MkNewSigningInfo (ConsAddress_String newConsAddr) (i64 (height - 1)) false)).

Definition fund_account (defaultCoins : Coins) (account : AccAddress) : AM (tapp S B X) unit :=
  _ ← or_fatal (tbank_op (MintCoins MintModuleName defaultCoins));
  or_fatal (tbank_op (SendCoinsFromModuleToAccount MintModuleName account defaultCoins)).

Definition initAppForTestnet (args : valArgs) : AM (tapp S B X) unit :=
  pubkeyAny ← or_fatal (pure (NewAnyWithValue (newValPubKey args)));
  newVal ← new_validator args pubkeyAny;
  validator ← or_fatal (pure (OperatorStringToBytes (nv_OperatorAddress newVal)));
  _ ← remove_validators;
  _ ← add_validator newVal validator;
  _ ← add_records args validator;
  bondDenom ← ask BondDenom;
  bondDenom ← or_fatal (pure bondDenom);
  coin ← pure (NewCoin bondDenom (Some 1000000000));
  defaultCoins ← pure (NewCoins [coin]);
  for_each (fund_account defaultCoins) (accountsToFund args).

(** ** [getCommandArgs] *)

(** The options that are read, and what [appOpts.Get] returns: the dynamic
    types the code asks for. *)
Inductive optkey :=
  KeyNewValAddr | KeyUserPubKey | KeyNewOpAddr | KeyTriggerTestnetUpgrade | flagAccountsToFund | FlagHome.
Inductive optval := VHexBytes (b : bytes) | VPubKey (b : bytes) | VString (s : gostring) | VNil.

(** [strings.Split(s, sep)] for a separator of one byte. *)
Fixpoint split (sep : Byte.byte) (s : gostring) : list gostring :=
  match s with
  | [] => [[]]
  | c :: s =>
      match split sep s with
      | p :: ps => if bool_decide (c = sep) then [] :: p :: ps else (c :: p) :: ps
      | [] => [[c]]
      end
  end.

(** The loop over the pieces, with the accounts collected so far. *)
Fixpoint parse_accounts (pieces : list gostring) (accounts : list AccAddress) : list AccAddress * res unit :=
  match pieces with
  | [] => (accounts, Ok tt)
  | account :: pieces =>
      if bool_decide (account = []) then parse_accounts pieces accounts
      else match AccAddressFromBech32 account with
           | Ok addr => parse_accounts pieces (accounts ++ [addr])
           | Err _ => (accounts, Err (ErrMsg "invalid bech32 address format %w"))
           | Panic p => (accounts, Panic p)
           | Fuel => (accounts, Fuel)
           end
  end.

(** [cast.ToString] is a parameter. *)
Definition getCommandArgs (ToString : optval -> gostring) (Get : optkey -> optval) : res (valArgs * option goerror) :=
  match Get KeyNewValAddr with
  | VHexBytes newValAddr =>
    match Get KeyUserPubKey with
    | VPubKey newValPubKey =>
      match Get KeyNewOpAddr with
      | VString newOperatorAddress =>
        match Get KeyTriggerTestnetUpgrade with
        | VString upgradeToTrigger =>
            let accountsString := ToString (Get flagAccountsToFund) in
            let '(accounts, r) := parse_accounts (split Byte.x2c accountsString) [] in
            let args h := MkValArgs newValAddr newOperatorAddress newValPubKey accounts upgradeToTrigger h in
            match r with
            | Ok _ =>
                let homeDir := ToString (Get FlagHome) in
                if bool_decide (homeDir = []) then Ok (args [], Some (ErrMsg "invalid home dir"))
                else Ok (args homeDir, None)
            | Err e => Ok (args [], Some e)
            | Panic p => Panic p
            | Fuel => Fuel
            end
        | _ => Panic (PMsg "upgradeToTrigger is not of type string")
        end
      | _ => Panic (PMsg "newOperatorAddress is not of type string")
      end
    | _ => Panic (PMsg "newValPubKey is not of type crypto.PubKey")
    end
  | _ => Panic (PMsg "newValAddr is not of type bytes.HexBytes")
  end.

(** [newTestnetApp]: the app [newApp] returns, prepared for a testnet. *)
Definition newTestnetApp (newApp : tapp S B X) (ToString : optval -> gostring) (Get : optkey -> optval) :
    res unit * tapp S B X :=
  match getCommandArgs ToString Get with
  | Ok (args, None) => initAppForTestnet args newApp
  | Ok (_, Some err) => (Panic (PErr err), newApp)
  | Err e => (Err e, newApp)
  | Panic p => (Panic p, newApp)
  | Fuel => (Fuel, newApp)
  end.
End testnet.

(** ** What the keepers promise *)

(** The records of validators outside the staking store: rewards, without
    amounts, by validator (and period, with a reference count), and signing
    infos by consensus address. *)
Record Records := MkRecords {
  rc_historical : gmap (bytes * Z) Z;
  rc_current : gmap bytes Z;
  rc_commission : gset bytes;
  rc_outstanding : gset bytes;
  rc_signing : gmap bytes NewSigningInfo }.

(** A call that succeeds and changes neither the bank nor the last block:
    what it does to the staking store and to the rest. *)
Definition performs {S B X} `{TestnetKeepers S B X} (m : AM (tapp S B X) unit) (a : tapp S B X) (post : S -> X -> Prop) : Prop :=
  exists a', m a = (Ok tt, a') /\ t_bank a' = t_bank a /\ LastBlockHeight a' = LastBlockHeight a /\ post (t_store a') (t_rest a').

(** It writes one entry of the staking store. *)
Definition writes_entry {S B X} `{TestnetKeepers S B X} (e : bytes * bytes) (m : AM (tapp S B X) unit) : Prop :=
  forall a, performs m a (fun s _ => s = kv_set (t_store a) e.1 e.2).

Class TestnetKeepersOk (S B X : Type) `{K : TestnetKeepers S B X} : Type := {
  (** The ranges behind the staking keeper's iterators, and the key of its
      parameters. *)
  power_prefix : bytes;
  last_prefix : bytes;
  staking_params_key : bytes;
  (** The entries of a validator with the given operator address: its record,
      its operator by consensus address and by power, its last power. *)
  validator_entry : NewValidator Any Dec -> bytes -> bytes * bytes;
  cons_entry : NewValidator Any Dec -> bytes -> bytes * bytes;
  power_entry : NewValidator Any Dec -> bytes -> bytes * bytes;
  last_entry : bytes -> Z -> bytes * bytes;
  (** The prefixes of these keys are different. *)
  entries_apart v addr n : NoDup (staking_params_key ::
    [validator_entry v addr; cons_entry v addr; power_entry v addr; last_entry addr n].*1);
  staking_params_apart : Forall (fun p => ~ p `prefix_of` staking_params_key)
    [power_prefix; last_prefix; ValidatorsKey; ValidatorQueueKey];
  LegacyMustNewDecFromStr_literals :
    Forall (fun s => exists d, LegacyMustNewDecFromStr s = Ok d) [str "10000000"; str "0.05"; str "0.1"];
  ValidatorsPowerStoreIterator_spec a : exists keys, ValidatorsPowerStoreIterator a = Ok keys /\
    forall k, k ∈ keys <-> power_prefix `prefix_of` k /\ is_Some (kv_get (t_store a) k);
  LastValidatorsIterator_spec a : exists keys, LastValidatorsIterator a = Ok keys /\
    forall k, k ∈ keys <-> last_prefix `prefix_of` k /\ is_Some (kv_get (t_store a) k);
  SetValidator_writes v addr : OperatorStringToBytes (nv_OperatorAddress v) = Ok addr ->
    writes_entry (validator_entry v addr) (SetValidator v);
  (** The consensus address comes from the key in the record. *)
  SetValidatorByConsAddr_writes v addr key : OperatorStringToBytes (nv_OperatorAddress v) = Ok addr ->
    NewAnyWithValue key = Ok (nv_ConsensusPubkey v) -> writes_entry (cons_entry v addr) (SetValidatorByConsAddr v);
  (** A jailed validator has no power. *)
  SetValidatorByPowerIndex_writes v addr : OperatorStringToBytes (nv_OperatorAddress v) = Ok addr ->
    nv_Jailed v = false -> writes_entry (power_entry v addr) (SetValidatorByPowerIndex v);
  SetLastValidatorPower_writes addr n : writes_entry (last_entry addr n) (SetLastValidatorPower addr n);
  (** The hooks look the validator up, and fail when there is none. *)
  AfterValidatorCreated_ok v addr key a : OperatorStringToBytes (nv_OperatorAddress v) = Ok addr ->
    NewAnyWithValue key = Ok (nv_ConsensusPubkey v) ->
    kv_get (t_store a) (validator_entry v addr).1 = Some (validator_entry v addr).2 ->
    performs (AfterValidatorCreated addr) a (fun s _ => s = t_store a);
  AfterValidatorCreated_missing v addr a : OperatorStringToBytes (nv_OperatorAddress v) = Ok addr ->
    kv_get (t_store a) (validator_entry v addr).1 = None -> exists e a', AfterValidatorCreated addr a = (Err e, a');
  (** The other setters write one record each. *)
  records : X -> Records;
  SetValidatorHistoricalRewards_writes addr p n a : performs (SetValidatorHistoricalRewards addr p n) a (fun s x =>
    s = t_store a /\ let r := records (t_rest a) in records x =
      MkRecords (<[(addr, p) := n]> (rc_historical r)) (rc_current r) (rc_commission r) (rc_outstanding r) (rc_signing r));
  SetValidatorCurrentRewards_writes addr p a : performs (SetValidatorCurrentRewards addr p) a (fun s x =>
    s = t_store a /\ let r := records (t_rest a) in records x =
      MkRecords (rc_historical r) (<[addr := p]> (rc_current r)) (rc_commission r) (rc_outstanding r) (rc_signing r));
  SetValidatorAccumulatedCommission_writes addr a : performs (SetValidatorAccumulatedCommission addr) a (fun s x =>
    s = t_store a /\ let r := records (t_rest a) in records x =
      MkRecords (rc_historical r) (rc_current r) ({[addr]} ∪ rc_commission r) (rc_outstanding r) (rc_signing r));
  SetValidatorOutstandingRewards_writes addr a : performs (SetValidatorOutstandingRewards addr) a (fun s x =>
    s = t_store a /\ let r := records (t_rest a) in records x =
      MkRecords (rc_historical r) (rc_current r) (rc_commission r) ({[addr]} ∪ rc_outstanding r) (rc_signing r));
  SetValidatorSigningInfo_writes addr i a : performs (SetValidatorSigningInfo addr i) a (fun s x =>
    s = t_store a /\ let r := records (t_rest a) in records x =
      MkRecords (rc_historical r) (rc_current r) (rc_commission r) (rc_outstanding r) (<[addr := i]> (rc_signing r)));
  (** The last block is not kept in the staking store or the bank. *)
  LastBlockHeight_rest a a' : t_rest a' = t_rest a -> LastBlockHeight a' = LastBlockHeight a;
  BondDenom_params a a' : kv_get (t_store a') staking_params_key = kv_get (t_store a) staking_params_key -> BondDenom a' = BondDenom a }.

(** ** Lemmas *)

Section testnet_lemmas.
Context {S B X : Type} `{KVStoreOk S} `{BankKeeperOk B} `{!SdkTypesOk} {T : TestnetKeepers S B X} {TO : TestnetKeepersOk S B X}.
Implicit Types (a : tapp S B X).

(** The entries of the new validator; its last power is 0. *)
Definition new_entries (v : NewValidator Any Dec) (addr : bytes) : list (bytes * bytes) :=
  [validator_entry v addr; cons_entry v addr; power_entry v addr; last_entry addr 0].

Lemma performs_discard (m : AM (tapp S B X) unit) a post : performs m a post -> performs (discard m) a post.
Proof. intros (a' & E & R). exists a'. split; [|exact R]. unfold discard. now rewrite E. Qed.

Lemma performs_fatal (m : AM (tapp S B X) unit) a post : performs m a post -> performs (or_fatal m) a post.
Proof. intros (a' & E & R). exists a'. split; [|exact R]. unfold or_fatal. now rewrite E. Qed.

Lemma performs_bind (m : AM (tapp S B X) unit) (k : unit -> AM (tapp S B X) unit) a post1 post2 :
  performs m a post1 ->
  (forall a1, LastBlockHeight a1 = LastBlockHeight a -> post1 (t_store a1) (t_rest a1) -> performs (k tt) a1 post2) ->
  performs (m ≫= k) a post2.
Proof.
  intros (a1 & E1 & B1 & L1 & P1) Hk. destruct (Hk a1 L1 P1) as (a2 & E2 & B2 & L2 & P2).
  exists a2. rewrite (AM_bind_ok _ _ _ _ _ E1). split; [exact E2|]. split; [congruence|]. split; [congruence | exact P2].
Qed.

(** The staking store after the entries are written. *)
Definition put_entries (l : list (bytes * bytes)) (s : S) : S := foldl (fun s e => kv_set s e.1 e.2) s l.

Lemma put_entries_other l s k : k ∉ l.*1 -> kv_get (put_entries l s) k = kv_get s k.
Proof.
  revert s. induction l as [|e l IH]; intros s Hk; [reflexivity|]. apply not_elem_of_cons in Hk as [N Hk].
  cbn [put_entries foldl]. fold (put_entries l (kv_set s e.1 e.2)). rewrite IH by assumption.
  apply kv_get_set_ne. congruence.
Qed.

Lemma put_entries_in l s k b : NoDup l.*1 -> (k, b) ∈ l -> kv_get (put_entries l s) k = Some b.
Proof.
  revert s. induction l as [|e l IH]; intros s Hn Hk; [now apply not_elem_of_nil in Hk|].
  apply NoDup_cons in Hn as [N Hn]. cbn [put_entries foldl]. fold (put_entries l (kv_set s e.1 e.2)).
  apply elem_of_cons in Hk as [<-|Hk]; [|now apply IH]. rewrite put_entries_other by exact N. apply kv_get_set.
Qed.

Lemma add_validator_run v key addr a : NewAnyWithValue key = Ok (nv_ConsensusPubkey v) ->
  OperatorStringToBytes (nv_OperatorAddress v) = Ok addr -> nv_Jailed v = false ->
  performs (add_validator v addr) a (fun s _ => s = put_entries (new_entries v addr) (t_store a)).
Proof.
  intros Hk Ha Hj. unfold add_validator.
  eapply performs_bind; [apply performs_discard, SetValidator_writes; exact Ha|]. intros a1 _ E1.
  eapply performs_bind; [eapply performs_fatal, SetValidatorByConsAddr_writes; eassumption|]. intros a2 _ E2.
  eapply performs_bind; [apply performs_discard, SetValidatorByPowerIndex_writes; eassumption|]. intros a3 _ E3.
  eapply performs_bind; [apply performs_discard, SetLastValidatorPower_writes|]. intros a4 _ E4.
  assert (E : t_store a4 = put_entries (new_entries v addr) (t_store a)) by (cbn; congruence).
  rewrite <- E. eapply performs_fatal, AfterValidatorCreated_ok; [exact Ha | exact Hk|]. rewrite E.
  apply put_entries_in; [exact (NoDup_cons_1_2 _ _ (entries_apart v addr 0))|]. rewrite <- surjective_pairing. now left.
Qed.

(** The records of a new validator. *)
Definition new_records (args : valArgs) (addr : bytes) (height : Z) (r : Records) : Prop :=
  rc_historical r !! (addr, 0) = Some 1 /\ rc_current r !! addr = Some 1 /\
  addr ∈ rc_commission r /\ addr ∈ rc_outstanding r /\
  rc_signing r !! newValAddr args =
    Some (MkNewSigningInfo (ConsAddress_String (newValAddr args)) (i64 (height - 1)) false).

Lemma add_records_run args addr a : performs (add_records args addr) a (fun s x =>
  s = t_store a /\ new_records args addr (LastBlockHeight a) (records x)).
Proof.
  unfold add_records.
  eapply performs_bind; [apply performs_discard, SetValidatorHistoricalRewards_writes|]. intros a1 L1 [E1 R1].
  eapply performs_bind; [apply performs_discard, SetValidatorCurrentRewards_writes|]. intros a2 L2 [E2 R2].
  eapply performs_bind; [apply performs_discard, SetValidatorAccumulatedCommission_writes|]. intros a3 L3 [E3 R3].
  eapply performs_bind; [apply performs_discard, SetValidatorOutstandingRewards_writes|]. intros a4 L4 [E4 R4].
  unfold performs. rewrite ask_bind.
  destruct (performs_discard _ _ _ (SetValidatorSigningInfo_writes (newValAddr args)
    (MkNewSigningInfo (ConsAddress_String (newValAddr args)) (i64 (LastBlockHeight a4 - 1)) false) a4))
    as (a5 & Ea & Eb & L5 & E5 & R5).
  exists a5. split; [exact Ea|]. split; [exact Eb|]. split; [exact L5|]. split; [congruence|]. unfold new_records.
  cbn zeta in *. rewrite R5, R4, R3, R2, R1. cbn. rewrite !lookup_insert_eq. repeat split; [set_solver.. |].
  do 4 f_equal. congruence.
Qed.

(** Deleting the listed keys and nothing else. *)
Definition removes (P : bytes -> Prop) (a a' : tapp S B X) : Prop :=
  t_bank a' = t_bank a /\ t_rest a' = t_rest a /\
  (forall k, P k -> kv_get (t_store a') k = None) /\
  (forall k, ~ P k -> kv_get (t_store a') k = kv_get (t_store a) k).

Lemma delete_keys_run keys : forall a, exists a', delete_keys keys a = (Ok tt, a') /\ t_bank a' = t_bank a /\ t_rest a' = t_rest a /\
  (forall k, k ∈ keys -> kv_get (t_store a') k = None) /\
  (forall k, k ∉ keys -> kv_get (t_store a') k = kv_get (t_store a) k).
Proof.
  induction keys as [|key keys IH]; intros a.
  - exists a. repeat split. intros k Hk. now apply not_elem_of_nil in Hk.
  - destruct (IH (MkTapp (kv_delete (t_store a) key) (t_bank a) (t_rest a))) as (a' & E & Eb & Er & Hin & Hout).
    exists a'. split; [exact E|]. split; [exact Eb|]. split; [exact Er|]. split; intros k Hk.
    + destruct (decide (k ∈ keys)) as [|N]; [now apply Hin|]. rewrite Hout by assumption. cbn.
      apply elem_of_cons in Hk as [->|]; [apply kv_get_delete | contradiction].
    + apply not_elem_of_cons in Hk as [N Hk]. rewrite Hout by assumption. apply kv_get_delete_ne. congruence.
Qed.

(** A range whose keys are listed is removed. *)
Lemma delete_range p keys a :
  (forall k, k ∈ keys <-> p `prefix_of` k /\ is_Some (kv_get (t_store a) k)) ->
  exists a', delete_keys keys a = (Ok tt, a') /\ removes (fun k => p `prefix_of` k) a a'.
Proof.
  intros Hk. destruct (delete_keys_run keys a) as (a' & E & Eb & Er & Hin & Hout). exists a'. split; [exact E|].
  split; [exact Eb|]. split; [exact Er|]. split; intros k Hp.
  - destruct (decide (k ∈ keys)) as [Hi|Hi]; [now apply Hin|]. rewrite Hout by assumption.
    destruct (kv_get (t_store a) k) eqn:Eg; [|reflexivity]. exfalso. apply Hi, Hk. rewrite Eg. eauto.
  - apply Hout. rewrite Hk. tauto.
Qed.

Lemma prefix_keys_spec p a k : k ∈ prefix_keys p a <-> p `prefix_of` k /\ is_Some (kv_get (t_store a) k).
Proof.
  unfold prefix_keys. rewrite list_elem_of_filter, list_elem_of_fmap. split; intros [Hp Hk]; split; try exact Hp.
  - destruct Hk as ([k' v] & -> & Hk). apply kv_entries_spec in Hk. cbn [fst]. rewrite Hk. eauto.
  - destruct Hk as [v Hk]. exists (k, v). split; [reflexivity | now apply kv_entries_spec].
Qed.

Lemma removes_trans P Q a b c : removes P a b -> removes Q b c -> (forall k, Decision (Q k)) ->
  removes (fun k => P k \/ Q k) a c.
Proof.
  intros (B1 & Q1 & N1 & S1) (B2 & Q2 & N2 & S2) D. split; [congruence|]. split; [congruence|]. split; intros k Hk.
  - destruct (D k) as [Hq|Hq]; [now apply N2|]. rewrite S2 by assumption. apply N1. tauto.
  - rewrite S2, S1 by tauto. reflexivity.
Qed.

(** The four ranges that are emptied. *)
Definition validator_range (k : bytes) : Prop :=
  ((power_prefix `prefix_of` k \/ last_prefix `prefix_of` k) \/ ValidatorsKey `prefix_of` k) \/
  ValidatorQueueKey `prefix_of` k.

Lemma params_outside : ~ validator_range staking_params_key.
Proof.
  pose proof staking_params_apart as F. rewrite !Forall_cons in F. unfold validator_range. tauto.
Qed.

Lemma remove_validators_run a : exists a', remove_validators a = (Ok tt, a') /\ removes validator_range a a'.
Proof.
  unfold remove_validators.
  destruct (ValidatorsPowerStoreIterator_spec a) as (l1 & E1 & L1).
  destruct (delete_range _ _ _ L1) as (a1 & D1 & R1).
  destruct (LastValidatorsIterator_spec a1) as (l2 & E2 & L2).
  destruct (delete_range _ _ _ L2) as (a2 & D2 & R2).
  destruct (delete_range _ _ _ (prefix_keys_spec ValidatorsKey a2)) as (a3 & D3 & R3).
  destruct (delete_range _ _ _ (prefix_keys_spec ValidatorQueueKey a3)) as (a4 & D4 & R4).
  exists a4. split.
  - rewrite ask_bind, E1, (AM_bind_ok _ _ a l1 a), (AM_bind_ok _ _ _ _ _ D1) by reflexivity.
    rewrite ask_bind, E2, (AM_bind_ok _ _ a1 l2 a1), (AM_bind_ok _ _ _ _ _ D2) by reflexivity.
    now rewrite ask_bind, (AM_bind_ok _ _ _ _ _ D3), ask_bind.
  - unfold validator_range. repeat (eapply removes_trans; [|eassumption|intros; apply _]). exact R1.
Qed.

Lemma new_validator_run args any a : exists v, new_validator args any a = (Ok v, a) /\
  nv_OperatorAddress v = newOperatorAddress args /\ nv_ConsensusPubkey v = any /\ nv_Jailed v = false /\
  nv_Status v = Bonded /\ nv_Tokens v = Some valVotingPower.
Proof.
  unfold new_validator. destruct (Forall_cons_1 _ _ _ LegacyMustNewDecFromStr_literals) as [[d1 E1] L].
  destruct (Forall_cons_1 _ _ _ L) as [[d2 E2] L2]. destruct (Forall_cons_1 _ _ _ L2) as [[d3 E3] _].
  rewrite E1, pure_bind, E2, pure_bind, E3, pure_bind, pure_bind. eexists. split; [reflexivity|]. auto.
Qed.

(** ** Funding *)

Definition gift : Z := 1000000000.
(** How often an account is listed. *)
Definition times (x : AccAddress) (l : list AccAddress) : Z := len (filter (fun y => y = x) l).

Lemma times_cons x y l : times x (y :: l) = delta (bool_decide (y = x)) 1 + times x l.
Proof. unfold times. rewrite filter_cons. unfold delta. destruct (decide (y = x)); case_bool_decide; try done; apply len_cons. Qed.

Lemma times_range x l : 0 <= times x l <= len l.
Proof.
  induction l as [|y l IH]; [split; discriminate|]. rewrite times_cons, len_cons. unfold delta. case_bool; lia.
Qed.

Lemma fund_account_run d y a : registered MintModuleName = true -> may_mint MintModuleName = true ->
  blocked y = false -> supply (t_bank a) d + gift < maxInt ->
  bal (t_bank a) (GetModuleAddress MintModuleName) d + gift < maxInt ->
  exists a', fund_account (coins1 d gift) y a = (Ok tt, a') /\ t_store a' = t_store a /\ t_rest a' = t_rest a /\
    (forall x d', bal (t_bank a') x d' = bal (t_bank a) x d' + delta (bool_decide (y = x)) (delta (bool_decide (d = d')) gift)) /\
    (forall d', supply (t_bank a') d' = supply (t_bank a) d' + delta (bool_decide (d = d')) gift).
Proof.
  intros Hr Hp Hy Hs Hb.
  destruct (mint_run (t_bank a) MintModuleName d gift) as (b1 & E1 & I1); try assumption; [unfold gift; lia|].
  pose proof (fun x d' => issued1_bal 1 _ _ _ _ _ x d' I1) as L1.
  pose proof (fun d' => issued1_supply 1 _ _ _ _ _ d' I1) as S1.
  destruct (sendMA_run b1 MintModuleName y d gift) as (b2 & E2 & I2); try assumption.
  { rewrite L1, at1_self. pose proof (bal_nonneg (t_bank a) (GetModuleAddress MintModuleName) d). unfold gift. fold bal. lia. }
  pose proof (fun x d' => moves1_bal _ _ _ _ _ _ x d' I2) as L2.
  pose proof (fun d' => moves1_supply _ _ _ _ _ _ d' I2) as S2.
  exists (MkTapp (t_store a) b2 (t_rest a)). split.
  - unfold fund_account. rewrite (AM_bind_ok _ _ _ tt (MkTapp (t_store a) b1 (t_rest a))).
    + unfold or_fatal, tbank_op. cbn [t_bank t_store t_rest]. now rewrite E2.
    + unfold or_fatal, tbank_op. now rewrite E1.
  - split; [reflexivity|]. split; [reflexivity|]. cbn. split.
    + intros x d'. rewrite L2, L1, !at1_bools. rewrite (bool_decide_ext (x = y) (y = x)) by (split; congruence).
      unfold delta. destruct (bool_decide _), (bool_decide (y = x)), (bool_decide (d = d')); lia.
    + intros d'. rewrite S2, S1. unfold delta. case_bool; lia.
Qed.

Lemma fund_accounts_run d l : registered MintModuleName = true -> may_mint MintModuleName = true ->
  Forall (fun y => blocked y = false) l -> forall a, supply (t_bank a) d + len l * gift < maxInt ->
  bal (t_bank a) (GetModuleAddress MintModuleName) d + len l * gift < maxInt ->
  exists a', for_each (fund_account (coins1 d gift)) l a = (Ok tt, a') /\ t_store a' = t_store a /\ t_rest a' = t_rest a /\
    (forall x d', bal (t_bank a') x d' = bal (t_bank a) x d' + delta (bool_decide (d = d')) (times x l * gift)) /\
    (forall d', supply (t_bank a') d' = supply (t_bank a) d' + delta (bool_decide (d = d')) (len l * gift)).
Proof.
  intros Hr Hp. induction 1 as [|y l Hy Hl IH]; intros a Hs Hb.
  - exists a. repeat split; intros; unfold delta;
      [change (times x []) with 0 | change (len []) with 0]; case_bool; lia.
  - rewrite len_cons in *. pose proof (len_nonneg l).
    destruct (fund_account_run d y a) as (a1 & E1 & S1 & Q1 & L1 & P1); try assumption; [unfold gift in *; lia..|].
    destruct (IH a1) as (a' & E' & S' & Q' & L' & P').
    + rewrite P1, bool_decide_eq_true_2 by reflexivity. unfold delta. lia.
    + rewrite L1, (bool_decide_eq_true_2 (d = d)) by reflexivity. unfold delta, gift in *. case_bool; lia.
    + exists a'. split; [cbn [for_each]; now rewrite (AM_bind_ok _ _ _ _ _ E1)|]. split; [congruence|]. split; [congruence|].
      split; [intros x d'; rewrite L', L1, times_cons | intros d'; rewrite P', P1]; unfold delta, gift;
        destruct (bool_decide (d = d')); try (case_bool; lia); lia.
Qed.
End testnet_lemmas.

(** ** The list of accounts *)

(** [strings.Join]. *)
Fixpoint join (sep : Byte.byte) (l : list gostring) : gostring :=
  match l with
  | [] => []
  | [s] => s
  | s :: l => s ++ sep :: join sep l
  end.

Lemma split_cons sep s : exists p ps, split sep s = p :: ps.
Proof. induction s as [|c s (p & ps & E)]; cbn; [eauto|]. rewrite E. case_bool; eauto. Qed.

Lemma split_no_sep sep s : sep ∉ s -> split sep s = [s].
Proof.
  induction s as [|c s IH]; intros Hs; [reflexivity|]. apply not_elem_of_cons in Hs as [N Hs].
  cbn. rewrite IH by assumption. now rewrite bool_decide_eq_false_2 by congruence.
Qed.

Lemma split_app sep s t : sep ∉ s -> split sep (s ++ sep :: t) = s :: split sep t.
Proof.
  induction s as [|c s IH]; intros Hs.
  - destruct (split_cons sep t) as (p & ps & E). cbn. rewrite E. now rewrite bool_decide_eq_true_2.
  - apply not_elem_of_cons in Hs as [N Hs]. cbn. rewrite IH by assumption.
    now rewrite bool_decide_eq_false_2 by congruence.
Qed.

Lemma split_join sep l : l <> [] -> Forall (fun s => sep ∉ s) l -> split sep (join sep l) = l.
Proof.
  intros N Hl. induction Hl as [|s l Hs Hl IH]; [contradiction|]. destruct l as [|s' l]; [now apply split_no_sep|].
  change (join sep (s :: s' :: l)) with (s ++ sep :: join sep (s' :: l)). rewrite split_app by assumption.
  now rewrite IH.
Qed.

Section testnet_theorems.
Context {S B X : Type} `{KVStoreOk S} `{BankKeeperOk B} `{!SdkTypesOk} {T : TestnetKeepers S B X} {TO : TestnetKeepersOk S B X}.

Lemma parse_accounts_run accounts acc : Forall addr_ok accounts ->
  parse_accounts (AccAddress_String <$> accounts) acc = (acc ++ accounts, Ok tt).
Proof.
  intros Ha. revert acc. induction Ha as [|x l Hx Hl IH]; intros acc; [cbn; now rewrite app_nil_r|].
  cbn. rewrite bool_decide_eq_false_2.
  - rewrite AccAddressFromBech32_String, IH by assumption. now rewrite <-app_assoc.
  - intros E. pose proof (AccAddressFromBech32_String x Hx) as D. rewrite E in D.
    destruct AccAddressFromBech32_empty as [e Ee]. congruence.
Qed.

(** C39: the preparation leaves one validator, the new one, bonded and with the
    testnet's power: its record, its entries by consensus address and by power
    and its last power are in the staking store, nothing else is in the four
    ranges of validators, and the rest of the store is as before; its reward
    and signing records are set.  Every listed account has received 1000000000
    of the bond denomination for each time it is listed, and the supply has
    grown by as much. *)
Theorem testnet_prepared args (a : tapp S B X) any addr d :
  NewAnyWithValue (newValPubKey args) = Ok any -> OperatorStringToBytes (newOperatorAddress args) = Ok addr ->
  BondDenom a = Ok d -> ValidateDenom d = true ->
  registered MintModuleName = true -> may_mint MintModuleName = true ->
  Forall (fun y => blocked y = false) (accountsToFund args) ->
  supply (t_bank a) d + len (accountsToFund args) * gift < maxInt ->
  bal (t_bank a) (GetModuleAddress MintModuleName) d + len (accountsToFund args) * gift < maxInt ->
  exists v a', initAppForTestnet args a = (Ok tt, a') /\
    nv_OperatorAddress v = newOperatorAddress args /\ nv_ConsensusPubkey v = any /\ nv_Jailed v = false /\
    nv_Status v = Bonded /\ nv_Tokens v = Some valVotingPower /\
    (forall k b, (k, b) ∈ [validator_entry v addr; cons_entry v addr; power_entry v addr; last_entry addr 0] ->
       kv_get (t_store a') k = Some b) /\
    (forall k, validator_range k -> k ∉ (new_entries v addr).*1 -> kv_get (t_store a') k = None) /\
    (forall k, ~ validator_range k -> k ∉ (new_entries v addr).*1 -> kv_get (t_store a') k = kv_get (t_store a) k) /\
    new_records args addr (LastBlockHeight a) (records (t_rest a')) /\
    (forall x d', bal (t_bank a') x d' =
       bal (t_bank a) x d' + delta (bool_decide (d = d')) (times x (accountsToFund args) * gift)) /\
    (forall d', supply (t_bank a') d' =
       supply (t_bank a) d' + delta (bool_decide (d = d')) (len (accountsToFund args) * gift)).
Proof.
  intros Hk Ho Hd Hv Rm Mm Hb Bs Bb.
  destruct (new_validator_run args any a) as (v & Ev & Vo & Vk & Vj & Vf). exists v.
  destruct (remove_validators_run a) as (a1 & E1 & B1 & Q1 & N1 & S1).
  destruct (add_validator_run v (newValPubKey args) addr a1) as (a2 & E2 & B2 & L2 & S2); [congruence..|].
  destruct (add_records_run args addr a2) as (a3 & E3 & B3 & L3 & S3 & R3).
  rewrite L2, (LastBlockHeight_rest a a1 Q1) in R3. rewrite S2 in S3.
  destruct (proj1 (NoDup_cons _ _) (entries_apart v addr 0)) as [Np Ne].
  assert (Ed : BondDenom a3 = Ok d).
  { rewrite <-Hd. apply BondDenom_params. rewrite S3, put_entries_other by exact Np. apply S1. exact params_outside. }
  destruct (fund_accounts_run d (accountsToFund args) Rm Mm Hb a3) as (a4 & E4 & S4 & Q4 & L4 & P4); [congruence..|].
  exists a4. rewrite S4, S3, Q4. split.
  - unfold initAppForTestnet. rewrite Hk, (AM_bind_ok _ _ a any a) by reflexivity.
    rewrite (AM_bind_ok _ _ _ _ _ Ev), Vo, Ho, (AM_bind_ok _ _ a addr a) by reflexivity.
    rewrite (AM_bind_ok _ _ _ _ _ E1), (AM_bind_ok _ _ _ _ _ E2), (AM_bind_ok _ _ _ _ _ E3), ask_bind, Ed.
    rewrite (AM_bind_ok _ _ a3 d a3), NewCoin_ok, pure_bind by (reflexivity || assumption || lia).
    rewrite NewCoins_run, pure_bind by (auto || lia). exact E4.
  - do 3 (split; [assumption|]). do 2 (split; [apply Vf|]). split; [intros k b Hi; now apply put_entries_in|].
    split; [intros k Hr Hi; rewrite put_entries_other by exact Hi; now apply N1|].
    split; [intros k Hr Hi; rewrite put_entries_other by exact Hi; now apply S1|]. split; [exact R3|].
    split; [intros x d'; rewrite L4 | intros d'; rewrite P4]; congruence.
Qed.

(** The accounts written on the command line, separated by commas, are the
    accounts that are funded, in order; with a home directory the options are
    accepted. *)
Theorem accounts_to_fund ToString (Get : optkey -> optval) accounts valAddr pubKey opAddr upgrade home :
  Get KeyNewValAddr = VHexBytes valAddr -> Get KeyUserPubKey = VPubKey pubKey -> Get KeyNewOpAddr = VString opAddr ->
  Get KeyTriggerTestnetUpgrade = VString upgrade ->
  ToString (Get flagAccountsToFund) = join Byte.x2c (AccAddress_String <$> accounts) -> ToString (Get FlagHome) = home ->
  home <> [] -> Forall addr_ok accounts -> Forall (fun x => Byte.x2c ∉ AccAddress_String x) accounts ->
  getCommandArgs ToString Get = Ok (MkValArgs valAddr opAddr pubKey accounts upgrade home, None).
Proof.
  intros E1 E2 E3 E4 E5 E6 Hh Ha Hc. unfold getCommandArgs. rewrite E1, E2, E3, E4, E5, E6.
  assert (P : parse_accounts (split Byte.x2c (join Byte.x2c (AccAddress_String <$> accounts))) [] = (accounts, Ok tt)).
  { destruct accounts as [|x l]; [reflexivity|]. rewrite split_join; [now apply parse_accounts_run | done|].
    now apply Forall_fmap. }
  rewrite P. now rewrite bool_decide_eq_false_2.
Qed.
End testnet_theorems.
