(* ===== verification/AppCommands.v ===== *)
(** * The app's accessors and the commands of the daemon

    What is left of [app/app.go], [app/ibc.go], [app/genesis_account.go] and
    [cmd/HalbornCTFd/cmd]: the store keys, the scoped capability keepers, the
    validation of simulated genesis accounts, the export command and the flag
    defaults of the command tree.  The runtime, the capability keeper, the
    account types and the flag values are parameters. *)

From S2P Require Import Prelude Sdk AppMonad AppExport.

(** ** Store keys: [app/app.go] *)

Inductive AppStoreKey := KVStoreKey (name : gostring) | MemoryStoreKey (name : gostring) | TransientStoreKey (name : gostring).
Definition AppStoreKey_Name (k : AppStoreKey) : gostring :=
  match k with KVStoreKey n | MemoryStoreKey n | TransientStoreKey n => n end.
#[export] Instance AppStoreKey_eq_dec : EqDecision AppStoreKey.
Proof. solve_decision. Defined.

Section store_keys.
(** [runtime.App]: the registered keys, and the key of a name or nil. *)
Context (GetStoreKeys : list AppStoreKey) (UnsafeFindStoreKey : gostring -> option AppStoreKey).

Definition GetKey (storeKey : gostring) : option AppStoreKey :=
  match UnsafeFindStoreKey storeKey with Some (KVStoreKey n) => Some (KVStoreKey n) | _ => None end.

Definition GetMemKey (storeKey : gostring) : option AppStoreKey :=
  match UnsafeFindStoreKey storeKey with Some (MemoryStoreKey n) => Some (MemoryStoreKey n) | _ => None end.

Definition kvStoreKeys : gmap gostring AppStoreKey :=
  foldl (fun keys k => match k with KVStoreKey n => <[n := KVStoreKey n]> keys | _ => keys end) ∅ GetStoreKeys.

(** The keys handed to the streaming services are those [GetKey] finds. *)
Theorem store_keys_agree :
  (forall n k, UnsafeFindStoreKey n = Some k <-> k ∈ GetStoreKeys /\ AppStoreKey_Name k = n) ->
  forall n, kvStoreKeys !! n = GetKey n.
Proof.
  intros Hf n. unfold kvStoreKeys, GetKey.
  assert (G : forall l (m : gmap gostring AppStoreKey),
    foldl (fun keys k => match k with KVStoreKey n => <[n := KVStoreKey n]> keys | _ => keys end) m l !! n =
    if bool_decide (KVStoreKey n ∈ l) then Some (KVStoreKey n) else m !! n).
  { induction l as [|k l IH]; intros m; [reflexivity|]. cbn [foldl]. rewrite IH.
    destruct (decide (k = KVStoreKey n)) as [->|N].
    - rewrite lookup_insert_eq, (bool_decide_eq_true_2 (_ ∈ _ :: l)) by now left. now case_bool.
    - rewrite (bool_decide_ext (KVStoreKey n ∈ k :: l) (KVStoreKey n ∈ l)) by (rewrite elem_of_cons; intuition congruence).
      case_bool; [reflexivity|]. destruct k; [|reflexivity..]. apply lookup_insert_ne. congruence. }
  rewrite G, lookup_empty. case_bool_decide as E.
  - now rewrite (proj2 (Hf n (KVStoreKey n)) (conj E eq_refl)).
  - destruct (UnsafeFindStoreKey n) as [[m|m|m]|] eqn:F; try reflexivity.
    apply Hf in F as [F <-]. contradiction.
Qed.
End store_keys.

(** ** Scoped capability keepers: [app/app.go], [app/ibc.go] *)

(** [capabilitykeeper.Keeper.ScopeToModule]: one scoped keeper per module; it
    panics when the module has one already. *)
Class CapabilityKeeper (C : Type) : Type := {
  ScopedKeeper : Type;
  ScopeToModule : gostring -> AM C ScopedKeeper }.

Class CapabilityKeeperOk (C : Type) `{CapabilityKeeper C} : Type := {
  scoped : C -> gset gostring;
  ScopeToModule_new n c : n ∉ scoped c ->
    exists sk c', ScopeToModule n c = (Ok sk, c') /\ scoped c' = {[n]} ∪ scoped c;
  ScopeToModule_dup n c : n ∈ scoped c -> exists p, ScopeToModule n c = (Panic p, c) }.

(** The capability keeper and the app's map [ScopedKeepers]. *)
Record scoping (C : Type) `{CapabilityKeeper C} := MkScoping {
  capability : C; ScopedKeepers : gmap gostring ScopedKeeper }.
Arguments MkScoping {C _} _ _.
Arguments capability {C _} _.
Arguments ScopedKeepers {C _} _.

Section scoped.
Context {C : Type} `{CapabilityKeeper C}.

Definition scope_to_module (moduleName : gostring) : AM (scoping C) ScopedKeeper := fun a =>
  let '(r, c) := ScopeToModule moduleName (capability a) in (r, MkScoping c (ScopedKeepers a)).

Definition remember (moduleName : gostring) (sk : ScopedKeeper) : AM (scoping C) ScopedKeeper := fun a =>
  (Ok sk, MkScoping (capability a) (<[moduleName := sk]> (ScopedKeepers a))).

Definition GetCapabilityScopedKeeper (moduleName : gostring) : AM (scoping C) ScopedKeeper := fun a =>
  match ScopedKeepers a !! moduleName with
  | Some sk => (Ok sk, a)
  | None => (sk ← scope_to_module moduleName; remember moduleName sk) a
  end.

(** [registerIBCModules] scopes its four modules itself. *)
Definition scope_ibc_modules (ibc transfer icacontroller icahost : gostring) : AM (scoping C) (list ScopedKeeper) :=
  scopedIBCKeeper ← scope_to_module ibc;
  scopedIBCTransferKeeper ← scope_to_module transfer;
  scopedICAControllerKeeper ← scope_to_module icacontroller;
  scopedICAHostKeeper ← scope_to_module icahost;
  mret [scopedIBCKeeper; scopedIBCTransferKeeper; scopedICAControllerKeeper; scopedICAHostKeeper].
End scoped.

Section scoped_theorems.
Context {C : Type} `{CapabilityKeeperOk C}.

(** The app's map only names scoped modules. *)
Definition scoping_ok (a : scoping C) : Prop := forall n, is_Some (ScopedKeepers a !! n) -> n ∈ scoped (capability a).

(** The second request for a module returns the keeper of the first, and
    changes nothing; a module that was scoped without the map cannot be
    requested. *)
Theorem scoped_keeper_memo n (a : scoping C) : scoping_ok a ->
  (n ∈ scoped (capability a) /\ ScopedKeepers a !! n = None /\
     exists p, (GetCapabilityScopedKeeper n a).1 = Panic p) \/
  (exists sk a', GetCapabilityScopedKeeper n a = (Ok sk, a') /\ scoping_ok a' /\
     GetCapabilityScopedKeeper n a' = (Ok sk, a')).
Proof.
  intros Ha. destruct (ScopedKeepers a !! n) as [sk|] eqn:E.
  { right. exists sk, a. unfold GetCapabilityScopedKeeper. rewrite E. auto. }
  unfold GetCapabilityScopedKeeper. rewrite E. unfold scope_to_module, mbind, AM_bind.
  destruct (decide (n ∈ scoped (capability a))) as [Hn|Hn].
  - left. split; [exact Hn|]. split; [reflexivity|]. destruct (ScopeToModule_dup n _ Hn) as [p ->]. now exists p.
  - right. destruct (ScopeToModule_new n _ Hn) as (sk & c' & E' & Sc). rewrite E'.
    exists sk, (MkScoping c' (<[n := sk]> (ScopedKeepers a))). split; [reflexivity|]. split.
    + intros m Hm. cbn in *. rewrite Sc. destruct (decide (m = n)) as [->|N]; [now apply elem_of_union_l, elem_of_singleton|].
      rewrite lookup_insert_ne in Hm by congruence. apply elem_of_union_r, Ha, Hm.
    + cbn. now rewrite lookup_insert_eq.
Qed.
End scoped_theorems.

(** ** Simulated genesis accounts: [app/genesis_account.go] *)

Section genesis_account.
Context (BaseAccount : Type) (Coins_IsZero : Coins -> bool).
Context (BaseAccount_Validate : BaseAccount -> res unit).
Context (ModuleAccount_Validate : BaseAccount -> gostring -> list gostring -> res unit).

Record GenesisAccount := MkGenesisAccount {
  ga_BaseAccount : BaseAccount;
  OriginalVesting : Coins;
  DelegatedFree : Coins;
  DelegatedVesting : Coins;
  StartTime : Z;
  EndTime : Z;
  ga_ModuleName : gostring;
  ModulePermissions : list gostring }.

Definition GenesisAccount_Validate (sga : GenesisAccount) : res unit :=
  _ ← (if negb (Coins_IsZero (OriginalVesting sga)) then
         if EndTime sga <=? StartTime sga then Err (ErrMsg "vesting start-time cannot be before end-time") else Ok tt
       else Ok tt);
  _ ← (if negb (bool_decide (ga_ModuleName sga = [])) then
         ModuleAccount_Validate (ga_BaseAccount sga) (ga_ModuleName sga) (ModulePermissions sga)
       else Ok tt);
  BaseAccount_Validate (ga_BaseAccount sga).

(** An account is accepted exactly when a vesting period is not empty and the
    module and base accounts are valid. *)
Theorem genesis_account_valid sga : GenesisAccount_Validate sga = Ok tt <->
  (Coins_IsZero (OriginalVesting sga) = true \/ StartTime sga < EndTime sga) /\
  (ga_ModuleName sga = [] \/ ModuleAccount_Validate (ga_BaseAccount sga) (ga_ModuleName sga) (ModulePermissions sga) = Ok tt) /\
  BaseAccount_Validate (ga_BaseAccount sga) = Ok tt.
Proof.
  unfold GenesisAccount_Validate.
  destruct (Coins_IsZero _), (Z.leb_spec (EndTime sga) (StartTime sga)), (bool_decide_reflect (ga_ModuleName sga = []));
    cbn; try (destruct (ModuleAccount_Validate _ _ _) as [[]| | |]; cbn); intuition (congruence || lia).
Qed.
End genesis_account.

(** ** The export command: [cmd/commands.go] *)

Section app_export.
Context {A : Type} `{AppKeepers A}.

(** The options: the home directory, whether they are a [viper.Viper], and the
    period of the invariant checks. *)
Record AppOptions := MkAppOptions { opt_home : option gostring; opt_viper : bool; InvCheckPeriod : Z }.

(** [app.New(..., loadLatest, appOpts)] and [bApp.LoadHeight]. *)
Context (New : bool -> AppOptions -> res A) (LoadHeight : Z -> AM A unit).

Definition appExport (height : Z) (forZeroHeight : bool) (jailAllowedAddrs : list gostring) (appOpts : AppOptions)
    (modulesToExport : list gostring) : res (ExportedApp * option goerror) :=
  let homePath := default [] (opt_home appOpts) in
  if bool_decide (homePath = []) then Ok (ExportedApp_zero, Some (ErrMsg "application home not set"))
  else if negb (opt_viper appOpts) then Ok (ExportedApp_zero, Some (ErrMsg "appOpts is not viper.Viper"))
  else
    let appOpts := MkAppOptions (opt_home appOpts) (opt_viper appOpts) 1 in
    let bApp := if negb (height =? -1)
                then bApp ← New false appOpts;
                     match LoadHeight height bApp with
                     | (Ok _, bApp) => Ok bApp
                     | (Err e, _) => Err e
                     | (Panic p, _) => Panic p
                     | (Fuel, _) => Fuel
                     end
                else New true appOpts in
    match bApp with
    | Ok bApp => (ExportAppStateAndValidators forZeroHeight jailAllowedAddrs modulesToExport bApp).1
    | Err e => Ok (ExportedApp_zero, Some e)
    | Panic p => Panic p
    | Fuel => Fuel
    end.

(** An export without error carries height zero, or the height after the last
    block of the app that was loaded. *)
Theorem exported_height height forZeroHeight allow appOpts modules e :
  appExport height forZeroHeight allow appOpts modules = Ok (e, None) ->
  exists loadLatest app0 app, New loadLatest (MkAppOptions (opt_home appOpts) true 1) = Ok app0 /\
    (if loadLatest then height = -1 /\ app = app0 else LoadHeight height app0 = (Ok tt, app)) /\
    Height e = if forZeroHeight then 0 else swrap 64 (LastBlockHeight app + 1).
Proof.
  unfold appExport. case_bool_decide; [discriminate|]. destruct (opt_viper appOpts); [|discriminate]. cbn [negb].
  assert (G : forall app, (ExportAppStateAndValidators forZeroHeight allow modules app).1 = Ok (e, None) ->
    Height e = if forZeroHeight then 0 else swrap 64 (LastBlockHeight app + 1)).
  { intros app. unfold ExportAppStateAndValidators. rewrite !ask_bind. unfold mbind at 1, AM_bind at 1.
    match goal with |- context [match ?m app with _ => _ end] => destruct (m app) as [[[]|?|?|] a1] end; try discriminate.
    unfold mbind, AM_bind, attempt, ask, pure, mret, AM_ret.
    destruct (ExportGenesisForModules _ _ a1) as [[g|?|?|] a2]; try discriminate.
    destruct (MarshalIndent g); try discriminate. destruct (WriteValidators _ a2) as [vs [err|]]; [discriminate|].
    intros E. injection E as <-. reflexivity. }
  destruct (Z.eqb_spec height (-1)) as [->|N]; cbn [negb].
  - destruct (New true _) as [app|?|?|] eqn:En; try discriminate. intros E.
    exists true, app, app. repeat split; auto.
  - destruct (New false _) as [app0|?|?|] eqn:En; try discriminate. cbn.
    destruct (LoadHeight height app0) as [[[]|?|?|] app] eqn:El; try discriminate. intros E.
    exists false, app0, app. auto.
Qed.
End app_export.

(** ** Flag defaults: [cmd/root.go] *)

Section flags.
(** [pflag.Value.Set]: the new value, or [None] when the text is refused. *)
Context {V : Type} (Value_Set : V -> string -> option V).
(** The other fields of a [cobra.Command]. *)
Context {Info : Type}.

Record Flag := MkFlag { DefValue : string; FlagValue : V }.
#[local] Unset Elimination Schemes.
Inductive Command := MkCommand (info : Info) (Flags PersistentFlags : gmap string Flag) (Commands : list Command).
#[local] Set Elimination Schemes.

(** [set(s, key, val)]; a value that is refused stays. *)
Definition set_flag (val : string) (f : Flag) : Flag :=
  MkFlag val (default (FlagValue f) (Value_Set (FlagValue f) val)).
Definition set_defaults (defaults : list (string * string)) (s : gmap string Flag) : gmap string Flag :=
  foldl (fun s kv => alter (set_flag kv.2) kv.1 s) s defaults.

(** The entries of the map [defaults], in the order [range] visits them. *)
Fixpoint overwriteFlagDefaults (defaults : list (string * string)) (c : Command) : Command :=
  match c with
  | MkCommand info fl pfl cs =>
      MkCommand info (set_defaults defaults fl) (set_defaults defaults pfl) (overwriteFlagDefaults defaults <$> cs)
  end.

(** The commands of a tree. *)
Fixpoint commands (c : Command) : list (gmap string Flag * gmap string Flag) :=
  match c with MkCommand _ fl pfl cs => (fl, pfl) :: concat (commands <$> cs) end.

(** What one flag becomes. *)
Definition defaulted (defaults : gmap string string) (key : string) (f : Flag) : Flag :=
  match defaults !! key with Some val => set_flag val f | None => f end.

Lemma set_defaults_map (defaults : gmap string string) l s : l ≡ₚ map_to_list defaults ->
  set_defaults l s = map_imap (fun k f => Some (defaulted defaults k f)) s.
Proof.
  intros P. apply map_eq. intros i. rewrite map_lookup_imap.
  assert (Hn : NoDup l.*1) by (rewrite P; apply NoDup_fst_map_to_list).
  assert (E : set_defaults l s !! i = defaulted (list_to_map l) i <$> s !! i).
  { clear P. revert s. induction l as [|[k v] l IH]; intros s.
    - cbn. unfold defaulted. rewrite lookup_empty. now destruct (s !! i).
    - apply NoDup_cons in Hn as [Hk Hn]. cbn [set_defaults foldl fst snd list_to_map].
      change (set_defaults l (alter (set_flag v) k s) !! i = defaulted (list_to_map ((k, v) :: l)) i <$> s !! i).
      rewrite (IH Hn), list_to_map_cons. unfold defaulted. destruct (decide (i = k)) as [->|N].
      + rewrite (not_elem_of_list_to_map_1 _ _ Hk), lookup_insert_eq, lookup_alter_eq. now destruct (s !! k).
      + now rewrite lookup_insert_ne, lookup_alter_ne by congruence. }
  rewrite E, (list_to_map_proper l (map_to_list defaults) Hn P), list_to_map_to_list. now destruct (s !! i).
Qed.

(** Whatever the order of the map, every flag of every command of the tree that
    has a default is set to it and no other flag changes. *)
Theorem flag_defaults_everywhere (defaults : gmap string string) l c : l ≡ₚ map_to_list defaults ->
  commands (overwriteFlagDefaults l c) =
    (fun fs => (map_imap (fun k f => Some (defaulted defaults k f)) fs.1,
                map_imap (fun k f => Some (defaulted defaults k f)) fs.2)) <$> commands c.
Proof.
  intros P. revert c. fix IH 1. intros [info fl pfl cs]. cbn [overwriteFlagDefaults commands].
  rewrite !(set_defaults_map defaults l) by assumption. cbn [fmap list_fmap fst snd]. f_equal.
  induction cs as [|c cs IHcs]; [reflexivity|]. cbn [fmap list_fmap concat]. now rewrite fmap_app, IH, <-IHcs.
Qed.
End flags.
