(* ===== verification/HalModule.v ===== *)
(** * The module as the app registers it

    The rest of [x/hal/module]: the basic module (genesis as JSON, codec
    registration), the command-line descriptors ([autocli.go]) and the
    simulation hooks ([simulation.go], [x/hal/simulation]).  The JSON codec and
    the simulation's parameters and account choice are parameters.  The theorems:
    a genesis exported as JSON imports to the same state, the default genesis
    passes validation, every command of the command line is a method of the
    schema with fields of its request as arguments, and the registered
    messages are the requests of the Msg service. *)

From S2P Require Import Prelude Wire Sdk PbParams PbGenesis PbTx Types World Keeper MsgServer Store Chain.
From S2P Require Import PulsarTypes PulsarDesc PulsarSchema.

(** ** Parameters *)

(** [codec.JSONCodec] on the genesis state.  A string outside ASCII may be
    changed or refused by the JSON encoding; the laws speak of the others. *)
Class JSONCodec : Type := {
  MarshalJSON : GenesisState -> res bytes;
  UnmarshalJSON : bytes -> GenesisState -> res GenesisState }.

Definition ascii_text (s : gostring) : Prop := Forall (fun b => bz b < 128) s.
Definition TokenMeta_ascii (m : TokenMeta) : Prop :=
  ascii_text (TokenMeta_Denom m) /\ ascii_text (TokenMeta_Description m).
Definition GenesisState_ascii (g : GenesisState) : Prop :=
  TokenMeta_ascii (CollateralMetas (GenesisState_Params g)) /\ TokenMeta_ascii (HalMeta (GenesisState_Params g)).

Class JSONCodecOk `{JSONCodec} : Prop := {
  UnmarshalJSON_Marshal g bz : Params_wf (GenesisState_Params g) -> GenesisState_ascii g ->
    MarshalJSON g = Ok bz -> UnmarshalJSON bz GenesisState_Reset = Ok g;
  UnmarshalJSON_safe bz g : safe (UnmarshalJSON bz g) (fun _ => True) }.

(** ** [x/hal/types/codec.go]

    A registry lists interfaces with the type URLs of their implementations. *)

Definition registry := list (string * string).

Definition RegisterImplementations (iface : string) (impls : list string) (r : registry) : registry :=
  r ++ ((fun t => (iface, t)) <$> impls).

(** [RegisterMsgServiceDesc] of the SDK is a parameter. *)
Definition RegisterInterfaces (RegisterMsgServiceDesc : string -> registry -> registry) (r : registry) : registry :=
  let r := RegisterImplementations "sdk.Msg" ["halbornctf.hal.MsgMintHal"] r in
  let r := RegisterImplementations "sdk.Msg" ["halbornctf.hal.MsgRedeemCollateral"] r in
  let r := RegisterImplementations "sdk.Msg" ["halbornctf.hal.MsgCreateTicket"] r in
  let r := RegisterImplementations "sdk.Msg" ["halbornctf.hal.MsgUpdateParams"] r in
  RegisterMsgServiceDesc "halbornctf.hal.Msg" r.

(** The amino registrations, type and name. *)
Definition RegisterLegacyAminoCodec (cdc : list (string * string)) : list (string * string) :=
  cdc ++ [("halbornctf.hal.MsgMintHal", "hal/MsgMintHAL")].

(** ** [x/hal/module/module.go] *)

Definition AppModuleBasic_Name : gostring := ModuleName.

Section basic.
Context {S B : Type} `{KVStore S} `{Gogo} `{SdkTypes} `{BinaryCodec} `{JSONCodec}.

Definition AppModuleBasic_DefaultGenesis : res bytes := must (MarshalJSON DefaultGenesis).

Definition AppModuleBasic_ValidateGenesis (bz : bytes) : res unit :=
  match UnmarshalJSON bz GenesisState_Reset with
  | Ok genState => GenesisState_Validate genState
  | Err _ => Err (ErrMsg "failed to unmarshal %s genesis state: %w")
  | Panic p => Panic p
  | Fuel => Fuel
  end.

Definition AppModule_InitGenesis (gs : bytes) : M S B unit :=
  genState ← lift (must (UnmarshalJSON gs GenesisState_Reset));
  InitGenesis genState.

Definition AppModule_ExportGenesis : M S B bytes :=
  genState ← ExportGenesis;
  lift (must (MarshalJSON genState)).

(** ** [x/hal/module/simulation.go]

    The simulator's generator state [R], its choice of an account and the
    configured weights are parameters. *)

Context {R : Type} (RandomAcc : R -> list AccAddress -> res (AccAddress * R)).
(** [AppParams.GetOrGenerate(key, ptr, nil, f)]: the configured value, or what
    [f] stores. *)
Context (GetOrGenerate : string -> Z -> Z).

Definition opWeightMsgMintHal : string := "op_weight_msg_mint_hal".
Definition opWeightMsgRedeemCollateral : string := "op_weight_msg_redeem_collateral".
Definition opWeightMsgCreateTicket : string := "op_weight_msg_create_ticket".
Definition defaultWeightMsgMintHal : Z := 100.
Definition defaultWeightMsgRedeemCollateral : Z := 100.
Definition defaultWeightMsgCreateTicket : Z := 100.

(** [simState.GenState[types.ModuleName] = ...]; the addresses collected first
    are not used. *)
Definition GenerateGenesisState (Accounts : list AccAddress) (GenState : gmap gostring bytes) :
    res (gmap gostring bytes) :=
  let accs := AccAddress_String <$> Accounts in
  let halGenesis := MkGenesisState DefaultParams in
  bz ← must (MarshalJSON halGenesis);
  Ok (<[ModuleName := bz]> GenState).

(** [simtypes.NoOpMsg(route, name, comment)] and an operation: the generator
    and the accounts in, a log entry out. *)
Record OperationMsg := NoOpMsg { op_route : gostring; op_name : string; op_comment : string }.
Definition Operation : Type := R -> list AccAddress -> M S B (OperationMsg * R).

(** The message a simulation builds (only its sender is set) and reports. *)
Definition SimulateMsgMintHal : Operation := fun r accs =>
  '(simAccount, r) ← lift (RandomAcc r accs);
  let msg := MkMsgMintHal (AccAddress_String simAccount) (MkCoin [] None) in
  mret (NoOpMsg ModuleName "/halbornctf.hal.MsgMintHal" "MintHal simulation not implemented", r).

Definition SimulateMsgRedeemCollateral : Operation := fun r accs =>
  '(simAccount, r) ← lift (RandomAcc r accs);
  let msg := MkMsgRedeemCollateral (AccAddress_String simAccount) (MkCoin [] None) in
  mret (NoOpMsg ModuleName "/halbornctf.hal.MsgRedeemCollateral" "RedeemCollateral simulation not implemented", r).

Definition SimulateMsgCreateTicket : Operation := fun r accs =>
  '(simAccount, r) ← lift (RandomAcc r accs);
  let msg := MkMsgCreateTicket (AccAddress_String simAccount) [] [] in
  mret (NoOpMsg ModuleName "/halbornctf.hal.MsgCreateTicket" "CreateTicket simulation not implemented", r).

Definition WeightedOperations : list (Z * Operation) :=
  let operations := [] in
  let weightMsgMintHal := GetOrGenerate opWeightMsgMintHal defaultWeightMsgMintHal in
  let operations := operations ++ [(weightMsgMintHal, SimulateMsgMintHal)] in
  let weightMsgRedeemCollateral := GetOrGenerate opWeightMsgRedeemCollateral defaultWeightMsgRedeemCollateral in
  let operations := operations ++ [(weightMsgRedeemCollateral, SimulateMsgRedeemCollateral)] in
  let weightMsgCreateTicket := GetOrGenerate opWeightMsgCreateTicket defaultWeightMsgCreateTicket in
  operations ++ [(weightMsgCreateTicket, SimulateMsgCreateTicket)].

(** A weighted proposal: its weight's key and default, and the function that
    makes the [sdk.Msg], nil being [None]. *)
Record WeightedProposalMsg (Msg : Type) := NewWeightedProposalMsg {
  wp_AppParamsKey : string; wp_DefaultWeight : Z; wp_MsgSimulatorFn : R -> Context_ -> list AccAddress -> option Msg }.
Arguments NewWeightedProposalMsg {Msg}.
Arguments wp_MsgSimulatorFn {Msg}.

(** Each function builds an operation and drops it. *)
Definition ProposalMsgs (Msg : Type) : list (WeightedProposalMsg Msg) :=
  [ NewWeightedProposalMsg opWeightMsgMintHal defaultWeightMsgMintHal
      (fun r ctx accs => let _ := SimulateMsgMintHal in None);
    NewWeightedProposalMsg opWeightMsgRedeemCollateral defaultWeightMsgRedeemCollateral
      (fun r ctx accs => let _ := SimulateMsgRedeemCollateral in None);
    NewWeightedProposalMsg opWeightMsgCreateTicket defaultWeightMsgCreateTicket
      (fun r ctx accs => let _ := SimulateMsgCreateTicket in None) ].

(** [testutil/keeper/hal.go]: a keeper over a new store, with the parameters
    set; an error is a panic. *)
Definition HalKeeper (NewModuleAddress : gostring -> AccAddress) (gov_ModuleName : gostring) : M S B Keeper :=
  let authority := NewModuleAddress gov_ModuleName in
  k ← lift (NewKeeper (AccAddress_String authority));
  _ ← must_do (SetParams DefaultParams);
  mret k.

(** [x/hal/simulation/helpers.go]. *)
Definition FindAccount {Account : Type} (simtypes_FindAccount : list Account -> AccAddress -> option Account)
    (accs : list Account) (address : gostring) : res (option Account) :=
  creator ← must (AccAddressFromBech32 address);
  Ok (simtypes_FindAccount accs creator).
End basic.

(** ** The command line *)

(** [autocliv1.RpcCommandOptions] and [ServiceCommandDescriptor]. *)
Record RpcCommandOptions := MkRpcCommandOptions {
  RpcMethod : string;
  Use : string;
  Skip_ : bool;
  PositionalArgs : list string }.
Record ServiceCommandDescriptor := MkServiceCommandDescriptor {
  Service : string;
  RpcCommands : list RpcCommandOptions }.

Definition AutoCLIOptions_Query : ServiceCommandDescriptor :=
  MkServiceCommandDescriptor "halbornctf.hal.Query" [
    MkRpcCommandOptions "Params" "params" false []].

Definition AutoCLIOptions_Tx : ServiceCommandDescriptor :=
  MkServiceCommandDescriptor "halbornctf.hal.Msg" [
    MkRpcCommandOptions "UpdateParams" EmptyString true [];
    MkRpcCommandOptions "MintHal" "mint-hal [collateral-amount]" false ["collateralAmount"];
    MkRpcCommandOptions "RedeemCollateral" "redeem-collateral [hal-amount]" false ["halAmount"];
    MkRpcCommandOptions "CreateTicket" "create-ticket [author] [issue]" false ["author"; "issue"]].

(** The method of the service, and the fields of its request. *)
Definition find_method (F : FileProto) (service method : string) : option MethodProto :=
  head (List.filter (fun m => String.eqb (mt_name m) method)
    (concat (s_methods <$> List.filter (fun s => String.eqb (qualified (file_package F) (s_name s)) service)
                             (file_services F)))).
Definition request_fields (F : FileProto) (m : MethodProto) : list string :=
  concat ((fun M => f_name <$> m_fields M) <$>
    List.filter (fun M => String.eqb (mt_input m) ("." +:+ qualified (file_package F) (m_name M))) (file_messages F)).

(** The placeholders [[...]] of a usage line. *)
Fixpoint placeholders (s : string) : nat :=
  match s with
  | EmptyString => O
  | String c s => if String.eqb (String c EmptyString) "[" then Datatypes.S (placeholders s) else placeholders s
  end.

(** A command names a method of its service, takes distinct fields of the
    request as arguments, and shows as many placeholders. *)
Definition command_ok (F : FileProto) (service : string) (o : RpcCommandOptions) : bool :=
  match find_method F service (RpcMethod o) with
  | Some m => forallb (fun a => existsb (String.eqb a) (request_fields F m)) (PositionalArgs o) &&
              bool_decide (NoDup (PositionalArgs o)) &&
              Nat.eqb (placeholders (Use o)) (length (PositionalArgs o))
  | None => false
  end.

Definition service_ok (F : FileProto) (d : ServiceCommandDescriptor) : Prop :=
  forallb (command_ok F (Service d)) (RpcCommands d) = true /\
  RpcMethod <$> RpcCommands d =
    mt_name <$> concat (s_methods <$> List.filter (fun s => String.eqb (qualified (file_package F) (s_name s)) (Service d))
                                        (file_services F)).

(** ** Theorems *)

Section theorems.
Context {S B : Type} `{KVStoreOk S} `{GogoOk} `{SdkTypes} `{BinaryCodecOk} `{JSONCodecOk}.

(** A genesis in JSON that is imported into an empty store is exported as
    the same JSON, and validation of the JSON is validation of its parameters. *)
Theorem module_genesis_json g bz (w : world S B) :
  kv_entries (kvs w) = [] -> Params_ok (GenesisState_Params g) -> GenesisState_ascii g -> MarshalJSON g = Ok bz ->
  AppModuleBasic_ValidateGenesis bz = Params_Validate (GenesisState_Params g) /\
  exists w', AppModule_InitGenesis bz w = (Ok tt, w') /\ AppModule_ExportGenesis w' = (Ok bz, w').
Proof.
  intros E Hp Ha Hm. pose proof (UnmarshalJSON_Marshal g bz (proj1 Hp) Ha Hm) as U. split.
  - unfold AppModuleBasic_ValidateGenesis. now rewrite U.
  - destruct (InitGenesis_refines w g E Hp) as (s' & Ei & R'). exists (World s' (bnk w)).
    unfold AppModule_InitGenesis, AppModule_ExportGenesis, ExportGenesis. rewrite U. split; [exact Ei|].
    rewrite (M_bind_ok _ _ _ (MkGenesisState (GenesisState_Params g)) (World s' (bnk w))).
    + destruct g. cbn in *. unfold lift. now rewrite Hm.
    + now rewrite (M_bind_ok _ _ _ _ _ (GetParams_refines _ (World s' (bnk w)) R')).
Qed.

(** The keeper of the tests has governance as its authority and a store that
    holds the default parameters. *)
Lemma HalKeeper_run NewModuleAddress gov (w : world S B) : kv_entries (kvs w) = [] -> Params_ok DefaultParams ->
  (exists addr, AccAddressFromBech32 (AccAddress_String (NewModuleAddress gov)) = Ok addr) ->
  exists s', HalKeeper NewModuleAddress gov w = (Ok (MkKeeper (AccAddress_String (NewModuleAddress gov))), World s' (bnk w)) /\
    refines (set_params DefaultParams hal_empty) s'.
Proof.
  intros E Hp [addr Ha]. destruct (SetParams_refines hal_empty w DefaultParams (refines_empty _ E) Hp) as (s' & Es & R').
  exists s'. split; [|exact R']. unfold HalKeeper, NewKeeper. rewrite Ha, lift_bind.
  unfold must_do. erewrite M_bind_ok; [reflexivity|]. unfold on_err. now rewrite Es.
Qed.

(** The operations of the simulation never change the chain. *)
Lemma simulation_readonly {R : Type} (RandomAcc : R -> list AccAddress -> res (AccAddress * R)) weights weight
    (op : Operation) r accs :
  (weight, op) ∈ WeightedOperations (S := S) (B := B) RandomAcc weights -> readonly (op r accs).
Proof.
  unfold WeightedOperations. cbn [app]. rewrite !elem_of_cons.
  intros [E|[E|[E|E]]]; [injection E as -> ->; unfold SimulateMsgMintHal, SimulateMsgRedeemCollateral,
    SimulateMsgCreateTicket; solve_readonly.. | now apply not_elem_of_nil in E].
Qed.
End theorems.

(** The command line has a command for every method of both services, in the
    order of the schema; the arguments of each are distinct fields of the
    request, as many as its usage line shows. *)
Theorem autocli_matches_schema :
  service_ok query_schema AutoCLIOptions_Query /\ service_ok tx_schema AutoCLIOptions_Tx.
Proof. repeat split; vm_compute; reflexivity. Qed.

(** Every request of the Msg service is registered as an [sdk.Msg], whatever
    the SDK's registration of the service adds. *)
Theorem registered_messages f r m :
  (forall s r e, e ∈ r -> e ∈ f s r) -> m ∈ concat (s_methods <$> file_services tx_schema) ->
  exists t, mt_input m = "." +:+ t /\ ("sdk.Msg", t) ∈ RegisterInterfaces f r.
Proof.
  intros Hf Hm. unfold RegisterInterfaces, RegisterImplementations. cbn [fmap list_fmap].
  cbn in Hm. rewrite !elem_of_cons in Hm. destruct Hm as [->|[->|[->|[->|Hm]]]];
    [..|now apply not_elem_of_nil in Hm]; eexists; split;
    first [reflexivity | apply Hf; rewrite !elem_of_app, !elem_of_cons; tauto].
Qed.
