(* ===== verification/Grpc.v ===== *)
(** * Remote calls: the gRPC stubs and the HTTP gateway

    [x/hal/types/query.pb.go] and [tx.pb.go] contain, besides the messages, a
    client and a server stub of each service; [api/halbornctf/hal/*_grpc.pb.go]
    contains the same for the pulsar messages; [x/hal/types/query.pb.gw.go] is
    the HTTP gateway of the query service; [x/hal/module/module.go] registers
    all of them.  The connection, the gateway's runtime and the codec options
    of the protobuf library are parameters; what a connection to a server
    does is stated by the laws of [Serves].  The theorems: a call of either
    client runs the keeper's handler on the message and returns its answer, the
    stubs have the methods and types of the schema, and a GET of the
    parameters returns the stored ones, with a local server only for a context
    that carries an SDK context. *)

From S2P Require Import Prelude Wire Sdk PbParams PbQuery PbTx Types World Keeper MsgServer Store Chain.
From S2P Require Import PulsarTypes Pulsar PulsarLaws PulsarDesc PulsarSchema PulsarReflect PulsarQuery PulsarTx PulsarGogo.

(** ** Messages *)

(** A pulsar message through [proto.Marshal] and [proto.Unmarshal], which use
    its fast path. *)
Definition api_pm {A} `{ProtoRuntime} (mk : ptr A -> ProtoMessage) (as_ : ProtoMessage -> res (ptr A)) (zero : A)
    (mt : Methods) : ProtoMarshaler A :=
  {| pm_Reset := zero;
     pm_Marshal x := options_Marshal (m_marshal mt) (mk (Some x));
     pm_Unmarshal x d := m ← options_Unmarshal (m_unmarshal mt) false d (mk (Some x)); y ← as_ m; deref y |}.

#[export] Instance QueryParamsRequest_pm : ProtoMarshaler QueryParamsRequest :=
  {| pm_Reset := QueryParamsRequest_Reset; pm_Marshal := QueryParamsRequest_Marshal; pm_Unmarshal := QueryParamsRequest_Unmarshal |}.
#[export] Instance QueryParamsResponse_pm `{Gogo} : ProtoMarshaler QueryParamsResponse :=
  {| pm_Reset := QueryParamsResponse_Reset; pm_Marshal := QueryParamsResponse_Marshal; pm_Unmarshal := QueryParamsResponse_Unmarshal |}.
#[export] Instance MsgUpdateParams_pm `{Gogo} : ProtoMarshaler MsgUpdateParams :=
  {| pm_Reset := MsgUpdateParams_Reset; pm_Marshal := MsgUpdateParams_Marshal; pm_Unmarshal := MsgUpdateParams_Unmarshal |}.
#[export] Instance MsgUpdateParamsResponse_pm : ProtoMarshaler MsgUpdateParamsResponse :=
  {| pm_Reset := MsgUpdateParamsResponse_Reset; pm_Marshal := MsgUpdateParamsResponse_Marshal; pm_Unmarshal := MsgUpdateParamsResponse_Unmarshal |}.
#[export] Instance MsgMintHal_pm `{Gogo} : ProtoMarshaler MsgMintHal :=
  {| pm_Reset := MsgMintHal_Reset; pm_Marshal := MsgMintHal_Marshal; pm_Unmarshal := MsgMintHal_Unmarshal |}.
#[export] Instance MsgMintHalResponse_pm `{Gogo} : ProtoMarshaler MsgMintHalResponse :=
  {| pm_Reset := MsgMintHalResponse_Reset; pm_Marshal := MsgMintHalResponse_Marshal; pm_Unmarshal := MsgMintHalResponse_Unmarshal |}.
#[export] Instance MsgRedeemCollateral_pm `{Gogo} : ProtoMarshaler MsgRedeemCollateral :=
  {| pm_Reset := MsgRedeemCollateral_Reset; pm_Marshal := MsgRedeemCollateral_Marshal; pm_Unmarshal := MsgRedeemCollateral_Unmarshal |}.
#[export] Instance MsgRedeemCollateralResponse_pm `{Gogo} : ProtoMarshaler MsgRedeemCollateralResponse :=
  {| pm_Reset := MsgRedeemCollateralResponse_Reset; pm_Marshal := MsgRedeemCollateralResponse_Marshal; pm_Unmarshal := MsgRedeemCollateralResponse_Unmarshal |}.
#[export] Instance MsgCreateTicket_pm : ProtoMarshaler MsgCreateTicket :=
  {| pm_Reset := MsgCreateTicket_Reset; pm_Marshal := MsgCreateTicket_Marshal; pm_Unmarshal := MsgCreateTicket_Unmarshal |}.
#[export] Instance MsgCreateTicketResponse_pm : ProtoMarshaler MsgCreateTicketResponse :=
  {| pm_Reset := MsgCreateTicketResponse_Reset; pm_Marshal := MsgCreateTicketResponse_Marshal; pm_Unmarshal := MsgCreateTicketResponse_Unmarshal |}.
#[export] Instance apiQueryParamsRequest_pm `{ProtoRuntime} : ProtoMarshaler apiQueryParamsRequest := api_pm PQueryParamsRequest as_QueryParamsRequest apiQueryParamsRequest_zero fast_QueryParamsRequest_methods.
#[export] Instance apiQueryParamsResponse_pm `{ProtoRuntime} : ProtoMarshaler apiQueryParamsResponse := api_pm PQueryParamsResponse as_QueryParamsResponse apiQueryParamsResponse_zero fast_QueryParamsResponse_methods.
#[export] Instance apiMsgUpdateParams_pm `{ProtoRuntime} : ProtoMarshaler apiMsgUpdateParams := api_pm PMsgUpdateParams as_MsgUpdateParams apiMsgUpdateParams_zero fast_MsgUpdateParams_methods.
#[export] Instance apiMsgUpdateParamsResponse_pm `{ProtoRuntime} : ProtoMarshaler apiMsgUpdateParamsResponse := api_pm PMsgUpdateParamsResponse as_MsgUpdateParamsResponse apiMsgUpdateParamsResponse_zero fast_MsgUpdateParamsResponse_methods.
#[export] Instance apiMsgMintHal_pm `{ProtoRuntime} : ProtoMarshaler apiMsgMintHal := api_pm PMsgMintHal as_MsgMintHal apiMsgMintHal_zero fast_MsgMintHal_methods.
#[export] Instance apiMsgMintHalResponse_pm `{ProtoRuntime} : ProtoMarshaler apiMsgMintHalResponse := api_pm PMsgMintHalResponse as_MsgMintHalResponse apiMsgMintHalResponse_zero fast_MsgMintHalResponse_methods.
#[export] Instance apiMsgRedeemCollateral_pm `{ProtoRuntime} : ProtoMarshaler apiMsgRedeemCollateral := api_pm PMsgRedeemCollateral as_MsgRedeemCollateral apiMsgRedeemCollateral_zero fast_MsgRedeemCollateral_methods.
#[export] Instance apiMsgRedeemCollateralResponse_pm `{ProtoRuntime} : ProtoMarshaler apiMsgRedeemCollateralResponse := api_pm PMsgRedeemCollateralResponse as_MsgRedeemCollateralResponse apiMsgRedeemCollateralResponse_zero fast_MsgRedeemCollateralResponse_methods.
#[export] Instance apiMsgCreateTicket_pm `{ProtoRuntime} : ProtoMarshaler apiMsgCreateTicket := api_pm PMsgCreateTicket as_MsgCreateTicket apiMsgCreateTicket_zero fast_MsgCreateTicket_methods.
#[export] Instance apiMsgCreateTicketResponse_pm `{ProtoRuntime} : ProtoMarshaler apiMsgCreateTicketResponse := api_pm PMsgCreateTicketResponse as_MsgCreateTicketResponse apiMsgCreateTicketResponse_zero fast_MsgCreateTicketResponse_methods.

(** The messages of [x/hal/types] behind [interface{}]. *)
Inductive GoMsg :=
| GQueryParamsRequest (x : QueryParamsRequest)
| GQueryParamsResponse (x : QueryParamsResponse)
| GMsgUpdateParams (x : MsgUpdateParams)
| GMsgUpdateParamsResponse (x : MsgUpdateParamsResponse)
| GMsgMintHal (x : MsgMintHal)
| GMsgMintHalResponse (x : MsgMintHalResponse)
| GMsgRedeemCollateral (x : MsgRedeemCollateral)
| GMsgRedeemCollateralResponse (x : MsgRedeemCollateralResponse)
| GMsgCreateTicket (x : MsgCreateTicket)
| GMsgCreateTicketResponse (x : MsgCreateTicketResponse).

(** The message name, as in the schema. *)
Definition GoMsg_name (m : GoMsg) : string :=
  match m with
  | GQueryParamsRequest _ => "halbornctf.hal.QueryParamsRequest"
  | GQueryParamsResponse _ => "halbornctf.hal.QueryParamsResponse"
  | GMsgUpdateParams _ => "halbornctf.hal.MsgUpdateParams"
  | GMsgUpdateParamsResponse _ => "halbornctf.hal.MsgUpdateParamsResponse"
  | GMsgMintHal _ => "halbornctf.hal.MsgMintHal"
  | GMsgMintHalResponse _ => "halbornctf.hal.MsgMintHalResponse"
  | GMsgRedeemCollateral _ => "halbornctf.hal.MsgRedeemCollateral"
  | GMsgRedeemCollateralResponse _ => "halbornctf.hal.MsgRedeemCollateralResponse"
  | GMsgCreateTicket _ => "halbornctf.hal.MsgCreateTicket"
  | GMsgCreateTicketResponse _ => "halbornctf.hal.MsgCreateTicketResponse"
  end.

(** The codec of the server: a message is encoded by its methods, and decoded
    into the type of the message that is passed. *)
Definition GoMsg_Marshal `{Gogo} (m : GoMsg) : res bytes :=
  match m with
  | GQueryParamsRequest x => pm_Marshal x
  | GQueryParamsResponse x => pm_Marshal x
  | GMsgUpdateParams x => pm_Marshal x
  | GMsgUpdateParamsResponse x => pm_Marshal x
  | GMsgMintHal x => pm_Marshal x
  | GMsgMintHalResponse x => pm_Marshal x
  | GMsgRedeemCollateral x => pm_Marshal x
  | GMsgRedeemCollateralResponse x => pm_Marshal x
  | GMsgCreateTicket x => pm_Marshal x
  | GMsgCreateTicketResponse x => pm_Marshal x
  end.

Definition GoMsg_Unmarshal `{Gogo} (d : bytes) (m : GoMsg) : res GoMsg :=
  match m with
  | GQueryParamsRequest _ => x ← pm_Unmarshal pm_Reset d; Ok (GQueryParamsRequest x)
  | GQueryParamsResponse _ => x ← pm_Unmarshal pm_Reset d; Ok (GQueryParamsResponse x)
  | GMsgUpdateParams _ => x ← pm_Unmarshal pm_Reset d; Ok (GMsgUpdateParams x)
  | GMsgUpdateParamsResponse _ => x ← pm_Unmarshal pm_Reset d; Ok (GMsgUpdateParamsResponse x)
  | GMsgMintHal _ => x ← pm_Unmarshal pm_Reset d; Ok (GMsgMintHal x)
  | GMsgMintHalResponse _ => x ← pm_Unmarshal pm_Reset d; Ok (GMsgMintHalResponse x)
  | GMsgRedeemCollateral _ => x ← pm_Unmarshal pm_Reset d; Ok (GMsgRedeemCollateral x)
  | GMsgRedeemCollateralResponse _ => x ← pm_Unmarshal pm_Reset d; Ok (GMsgRedeemCollateralResponse x)
  | GMsgCreateTicket _ => x ← pm_Unmarshal pm_Reset d; Ok (GMsgCreateTicket x)
  | GMsgCreateTicketResponse _ => x ← pm_Unmarshal pm_Reset d; Ok (GMsgCreateTicketResponse x)
  end.

(** The type assertions of the handlers on the request. *)
Definition bad_assertion : gopanic := PMsg "interface conversion".
Definition the_QueryParamsRequest (m : GoMsg) : res QueryParamsRequest := match m with GQueryParamsRequest x => Ok x | _ => Panic bad_assertion end.
Definition the_MsgUpdateParams (m : GoMsg) : res MsgUpdateParams := match m with GMsgUpdateParams x => Ok x | _ => Panic bad_assertion end.
Definition the_MsgMintHal (m : GoMsg) : res MsgMintHal := match m with GMsgMintHal x => Ok x | _ => Panic bad_assertion end.
Definition the_MsgRedeemCollateral (m : GoMsg) : res MsgRedeemCollateral := match m with GMsgRedeemCollateral x => Ok x | _ => Panic bad_assertion end.
Definition the_MsgCreateTicket (m : GoMsg) : res MsgCreateTicket := match m with GMsgCreateTicket x => Ok x | _ => Panic bad_assertion end.

(** ** Servers *)

(** The [context.Context] of a call: the SDK context attached to it, if there is
    one.  BaseApp attaches one to the calls it makes. *)
Definition CallContext : Type := option Context_.

(** [sdk.UnwrapSDKContext] asserts the type of the value it finds. *)
Definition UnwrapSDKContext (goCtx : CallContext) : res Context_ :=
  match goCtx with Some ctx => Ok ctx | None => Panic bad_assertion end.

(** What [status.Errorf(codes.Unimplemented, ...)] returns. *)
Definition unimplemented (msg : string) : goerror := ErrMsg msg.

Section stubs.
Context {S B : Type}.
Abbreviation M := (M S B).

(** The interfaces [QueryServer] and [MsgServer]. *)
Record IQueryServer := MkQueryServer { qs_Params : CallContext -> QueryParamsRequest -> M QueryParamsResponse }.
Record IMsgServer := MkMsgServer {
  ms_UpdateParams : CallContext -> MsgUpdateParams -> M MsgUpdateParamsResponse;
  ms_MintHal : CallContext -> MsgMintHal -> M MsgMintHalResponse;
  ms_RedeemCollateral : CallContext -> MsgRedeemCollateral -> M MsgRedeemCollateralResponse;
  ms_CreateTicket : CallContext -> MsgCreateTicket -> M MsgCreateTicketResponse }.

Definition UnimplementedQueryServer : IQueryServer :=
  MkQueryServer (fun _ _ => lift (Err (unimplemented "method Params not implemented"))).
Definition UnimplementedMsgServer : IMsgServer :=
  MkMsgServer (fun _ _ => lift (Err (unimplemented "method UpdateParams not implemented")))
              (fun _ _ => lift (Err (unimplemented "method MintHal not implemented")))
              (fun _ _ => lift (Err (unimplemented "method RedeemCollateral not implemented")))
              (fun _ _ => lift (Err (unimplemented "method CreateTicket not implemented"))).

(** A server behind [interface{}], and the assertions of the handlers. *)
Inductive Srv := SrvQuery (s : IQueryServer) | SrvMsg (s : IMsgServer).
Definition the_QueryServer (s : Srv) : res IQueryServer := match s with SrvQuery s => Ok s | _ => Panic bad_assertion end.
Definition the_MsgServer (s : Srv) : res IMsgServer := match s with SrvMsg s => Ok s | _ => Panic bad_assertion end.

(** [grpc.UnaryServerInfo], [grpc.UnaryServerInterceptor]. *)
Record UnaryServerInfo := MkInfo { Info_Server : Srv; FullMethod : string }.
Definition Interceptor : Type := CallContext -> GoMsg -> UnaryServerInfo -> (CallContext -> GoMsg -> M GoMsg) -> M GoMsg.
Definition Handler : Type := Srv -> CallContext -> (GoMsg -> res GoMsg) -> option Interceptor -> M GoMsg.

(** The body every generated handler has: decode into a new request, then call
    the method, or hand the call to the interceptor. *)
Definition unary_handler (new : GoMsg) (fullMethod : string) (method : Srv -> CallContext -> GoMsg -> M GoMsg) : Handler :=
  fun srv ctx dec interceptor =>
    in_ ← lift (dec new);
    match interceptor with
    | None => method srv ctx in_
    | Some intercept => intercept ctx in_ (MkInfo srv fullMethod) (method srv)
    end.

Definition _Query_Params_Handler : Handler :=
  unary_handler (GQueryParamsRequest QueryParamsRequest_Reset) "/halbornctf.hal.Query/Params" (fun srv ctx req =>
    s ← lift (the_QueryServer srv); x ← lift (the_QueryParamsRequest req);
    r ← qs_Params s ctx x; mret (GQueryParamsResponse r)).

Definition _Msg_UpdateParams_Handler : Handler :=
  unary_handler (GMsgUpdateParams MsgUpdateParams_Reset) "/halbornctf.hal.Msg/UpdateParams" (fun srv ctx req =>
    s ← lift (the_MsgServer srv); x ← lift (the_MsgUpdateParams req);
    r ← ms_UpdateParams s ctx x; mret (GMsgUpdateParamsResponse r)).

Definition _Msg_MintHal_Handler : Handler :=
  unary_handler (GMsgMintHal MsgMintHal_Reset) "/halbornctf.hal.Msg/MintHal" (fun srv ctx req =>
    s ← lift (the_MsgServer srv); x ← lift (the_MsgMintHal req);
    r ← ms_MintHal s ctx x; mret (GMsgMintHalResponse r)).

Definition _Msg_RedeemCollateral_Handler : Handler :=
  unary_handler (GMsgRedeemCollateral MsgRedeemCollateral_Reset) "/halbornctf.hal.Msg/RedeemCollateral" (fun srv ctx req =>
    s ← lift (the_MsgServer srv); x ← lift (the_MsgRedeemCollateral req);
    r ← ms_RedeemCollateral s ctx x; mret (GMsgRedeemCollateralResponse r)).

Definition _Msg_CreateTicket_Handler : Handler :=
  unary_handler (GMsgCreateTicket MsgCreateTicket_Reset) "/halbornctf.hal.Msg/CreateTicket" (fun srv ctx req =>
    s ← lift (the_MsgServer srv); x ← lift (the_MsgCreateTicket req);
    r ← ms_CreateTicket s ctx x; mret (GMsgCreateTicketResponse r)).

(** [grpc.ServiceDesc]; no service has streams. *)
Record MethodDesc := MkMethodDesc { MethodName : string; Method_Handler : Handler }.
Record ServiceDesc := MkServiceDesc { ServiceName : string; Service_Methods : list MethodDesc; Metadata : string }.

Definition _Query_serviceDesc : ServiceDesc :=
  MkServiceDesc "halbornctf.hal.Query" [MkMethodDesc "Params" _Query_Params_Handler] "halbornctf/hal/query.proto".

Definition _Msg_serviceDesc : ServiceDesc :=
  MkServiceDesc "halbornctf.hal.Msg" [
    MkMethodDesc "UpdateParams" _Msg_UpdateParams_Handler;
    MkMethodDesc "MintHal" _Msg_MintHal_Handler;
    MkMethodDesc "RedeemCollateral" _Msg_RedeemCollateral_Handler;
    MkMethodDesc "CreateTicket" _Msg_CreateTicket_Handler] "halbornctf/hal/tx.proto".

(** [grpc1.Server]: the services registered so far, with their servers. *)
Definition Registrar : Type := list (ServiceDesc * Srv).
Definition RegisterQueryServer (s : Registrar) (srv : IQueryServer) : Registrar := s ++ [(_Query_serviceDesc, SrvQuery srv)].
Definition RegisterMsgServer (s : Registrar) (srv : IMsgServer) : Registrar := s ++ [(_Msg_serviceDesc, SrvMsg srv)].

(** ** Clients *)

(** The header and trailer of a reply; what [(resp, err)] and they are together. *)
Record ServerMetadata := MkMetadata { HeaderMD : list (string * string); TrailerMD : list (string * string) }.
Definition Reply (O : Type) : Type := (O + goerror) * ServerMetadata.

(** [ClientConn.Invoke(ctx, method, in, out)]: what [out] holds afterwards, the
    error, and the metadata the call options receive. *)
Class ClientConn : Type := {
  Invoke : forall {I O} `{ProtoMarshaler I} `{ProtoMarshaler O},
    string -> I -> O -> M (O * option goerror * ServerMetadata) }.

Context `{Gogo} `{ProtoRuntime} `{CC : ClientConn}.

(** The body every generated client method has. *)
Definition client_call {I O} `{ProtoMarshaler I} `{ProtoMarshaler O} (method : string) (in_ : I) : M (Reply O) :=
  '(out, err, md) ← Invoke method in_ (pm_Reset : O);
  mret (match err with Some e => inr e | None => inl out end, md).

Record IQueryClient := MkQueryClient { qc_Params : QueryParamsRequest -> M (Reply QueryParamsResponse) }.
Definition queryClient_Params (in_ : QueryParamsRequest) : M (Reply QueryParamsResponse) :=
  client_call "/halbornctf.hal.Query/Params" in_.
Definition NewQueryClient : IQueryClient := MkQueryClient queryClient_Params.

Definition msgClient_UpdateParams (in_ : MsgUpdateParams) : M (Reply MsgUpdateParamsResponse) :=
  client_call "/halbornctf.hal.Msg/UpdateParams" in_.
Definition msgClient_MintHal (in_ : MsgMintHal) : M (Reply MsgMintHalResponse) :=
  client_call "/halbornctf.hal.Msg/MintHal" in_.
Definition msgClient_RedeemCollateral (in_ : MsgRedeemCollateral) : M (Reply MsgRedeemCollateralResponse) :=
  client_call "/halbornctf.hal.Msg/RedeemCollateral" in_.
Definition msgClient_CreateTicket (in_ : MsgCreateTicket) : M (Reply MsgCreateTicketResponse) :=
  client_call "/halbornctf.hal.Msg/CreateTicket" in_.

(** [api/halbornctf/hal/query_grpc.pb.go] and [tx_grpc.pb.go]. *)
Definition Query_Params_FullMethodName : string := "/halbornctf.hal.Query/Params".
Definition Msg_UpdateParams_FullMethodName : string := "/halbornctf.hal.Msg/UpdateParams".
Definition Msg_MintHal_FullMethodName : string := "/halbornctf.hal.Msg/MintHal".
Definition Msg_RedeemCollateral_FullMethodName : string := "/halbornctf.hal.Msg/RedeemCollateral".
Definition Msg_CreateTicket_FullMethodName : string := "/halbornctf.hal.Msg/CreateTicket".

Definition api_queryClient_Params (in_ : apiQueryParamsRequest) : M (Reply apiQueryParamsResponse) :=
  client_call Query_Params_FullMethodName in_.
Definition api_msgClient_UpdateParams (in_ : apiMsgUpdateParams) : M (Reply apiMsgUpdateParamsResponse) :=
  client_call Msg_UpdateParams_FullMethodName in_.
Definition api_msgClient_MintHal (in_ : apiMsgMintHal) : M (Reply apiMsgMintHalResponse) :=
  client_call Msg_MintHal_FullMethodName in_.
Definition api_msgClient_RedeemCollateral (in_ : apiMsgRedeemCollateral) : M (Reply apiMsgRedeemCollateralResponse) :=
  client_call Msg_RedeemCollateral_FullMethodName in_.
Definition api_msgClient_CreateTicket (in_ : apiMsgCreateTicket) : M (Reply apiMsgCreateTicketResponse) :=
  client_call Msg_CreateTicket_FullMethodName in_.
End stubs.

(** ** The module's servers *)

Section servers.
Context {S B : Type} `{KVStore S} `{BankKeeper B} `{Gogo} `{SdkTypes} `{BinaryCodec}.

(** [keeper.NewMsgServerImpl]; the keeper itself is the query server. *)
Definition NewMsgServerImpl (rt : Runtime) (keeper : Keeper) : @IMsgServer S B :=
  MkMsgServer
    (fun goCtx req =>
       (* the authority is checked before the context is unwrapped *)
       _ ← (if bool_decide (GetAuthority keeper = MsgUpdateParams_Authority req)
            then _ ← lift (UnwrapSDKContext goCtx); mret tt else mret tt);
       UpdateParams keeper req)
    (fun goCtx msg => _ ← lift (UnwrapSDKContext goCtx); MintHal msg)
    (fun goCtx msg => _ ← lift (UnwrapSDKContext goCtx); RedeemCollateral rt msg)
    (fun goCtx msg => ctx ← lift (UnwrapSDKContext goCtx); CreateTicket rt ctx msg).
Definition Keeper_QueryServer : @IQueryServer S B :=
  MkQueryServer (fun goCtx req => _ ← lift (UnwrapSDKContext goCtx); Params_query (Some req)).

(** [AppModule.RegisterServices]; [cfg] has a registrar for each kind of service. *)
Record Configurator := MkConfigurator { cfg_MsgServer : @Registrar S B; cfg_QueryServer : @Registrar S B }.
Definition RegisterServices (rt : Runtime) (keeper : Keeper) (cfg : Configurator) : Configurator :=
  MkConfigurator (RegisterMsgServer (cfg_MsgServer cfg) (NewMsgServerImpl rt keeper))
                 (RegisterQueryServer (cfg_QueryServer cfg) Keeper_QueryServer).
End servers.

(** ** The HTTP gateway *)

(** The runtime of the gateway: requests, their contexts and encodings, URL
    patterns. *)
Class Gateway : Type := {
  Request : Type; GoContext : Type; Marshaler : Type; Pattern : Type;
  Request_Context : Request -> GoContext;
  WithCancel : GoContext -> GoContext;
  NewContextWithServerTransportStream : GoContext -> GoContext;
  (** The SDK context a Go context carries. *)
  sdk_context : GoContext -> CallContext;
  MarshalerForRequest : Request -> Marshaler * Marshaler;
  AnnotateContext : GoContext -> Request -> res GoContext;
  AnnotateIncomingContext : GoContext -> Request -> res GoContext;
  NewServerMetadataContext : GoContext -> ServerMetadata -> GoContext;
  NewPattern : Z -> list Z -> list string -> string -> res Pattern }.

Section gateway.
Context {S B : Type} `{Gogo} `{Gateway}.
Abbreviation M := (M S B).
Abbreviation QueryClient := (@IQueryClient S B).
Abbreviation QueryServer := (@IQueryServer S B).
Abbreviation pathParams_t := (list (string * string)).

(** What a handler writes to the response: [runtime.HTTPError] or
    [runtime.ForwardResponseMessage]. *)
Inductive HttpReply :=
| HTTPError (ctx : GoContext) (marshaler : Marshaler) (req : Request) (err : goerror)
| ForwardResponseMessage (ctx : GoContext) (marshaler : Marshaler) (req : Request) (resp : QueryParamsResponse).

(** [runtime.ServeMux]: the routes in the order they were added. *)
Record Route := MkRoute {
  route_method : string; route_pattern : Pattern; route_handler : Request -> pathParams_t -> M HttpReply }.
Definition ServeMux : Type := list Route.
Definition mux_Handle (mux : ServeMux) (meth : string) (pat : Pattern)
    (h : Request -> pathParams_t -> M HttpReply) : ServeMux := mux ++ [MkRoute meth pat h].

Definition no_metadata : ServerMetadata := MkMetadata [] [].
Definition metadata_Join (a b : list (string * string)) : list (string * string) := a ++ b.

(** [runtime.MustPattern]. *)
Definition MustPattern (p : res Pattern) : res Pattern := match p with Err e => Panic (PErr e) | _ => p end.

Definition pattern_Query_Params_0 : res Pattern :=
  MustPattern (NewPattern 1 [2; 0; 2; 1; 2; 2] ["HalbornCTF"; "hal"; "params"] EmptyString).
Definition forward_Query_Params_0 := ForwardResponseMessage.

Definition request_Query_Params_0 (client : QueryClient) (req : Request) (pathParams : pathParams_t)
    : M (Reply QueryParamsResponse) :=
  qc_Params client QueryParamsRequest_Reset.

(** An error of the server is a value here, as in the source. *)
Definition local_request_Query_Params_0 (ctx : GoContext) (server : QueryServer) (req : Request)
    (pathParams : pathParams_t) : M (Reply QueryParamsResponse) :=
  on_err (qs_Params server (sdk_context ctx) QueryParamsRequest_Reset)
    (fun err => mret (inr err, no_metadata)) (fun msg => mret (inl msg, no_metadata)).

(** The stream of the local handler is new, and the servers of this model set
    no header on it. *)
Definition stream : ServerMetadata := no_metadata.

Definition RegisterQueryHandlerServer (mux : ServeMux) (server : QueryServer) : res ServeMux :=
  pattern ← pattern_Query_Params_0;
  Ok (mux_Handle mux "GET" pattern (fun req pathParams =>
    let ctx := WithCancel (Request_Context req) in
    let ctx := NewContextWithServerTransportStream ctx in
    let '(inboundMarshaler, outboundMarshaler) := MarshalerForRequest req in
    on_err (lift (AnnotateIncomingContext ctx req)) (fun err => mret (HTTPError ctx outboundMarshaler req err)) (fun rctx =>
    '(resp, md) ← local_request_Query_Params_0 rctx server req pathParams;
    let md := MkMetadata (metadata_Join (HeaderMD md) (HeaderMD stream)) (metadata_Join (TrailerMD md) (TrailerMD stream)) in
    let ctx := NewServerMetadataContext ctx md in
    match resp with
    | inr err => mret (HTTPError ctx outboundMarshaler req err)
    | inl resp => mret (forward_Query_Params_0 ctx outboundMarshaler req resp)
    end))).

Definition RegisterQueryHandlerClient (mux : ServeMux) (client : QueryClient) : res ServeMux :=
  pattern ← pattern_Query_Params_0;
  Ok (mux_Handle mux "GET" pattern (fun req pathParams =>
    let ctx := WithCancel (Request_Context req) in
    let '(inboundMarshaler, outboundMarshaler) := MarshalerForRequest req in
    on_err (lift (AnnotateContext ctx req)) (fun err => mret (HTTPError ctx outboundMarshaler req err)) (fun rctx =>
    '(resp, md) ← request_Query_Params_0 client req pathParams;
    let ctx := NewServerMetadataContext ctx md in
    match resp with
    | inr err => mret (HTTPError ctx outboundMarshaler req err)
    | inl resp => mret (forward_Query_Params_0 ctx outboundMarshaler req resp)
    end))).

Definition RegisterQueryHandler (mux : ServeMux) (conn : @ClientConn S B) : res ServeMux :=
  RegisterQueryHandlerClient mux (NewQueryClient (CC := conn)).

(** What happens to the connection once it is dialed: closed at once when the
    registration fails, or by the goroutine that waits for the context. *)
Inductive Closing := CloseNow | CloseOnDone.
Definition RegisterQueryHandlerFromEndpoint (Dial : string -> res (@ClientConn S B)) (mux : ServeMux) (endpoint : string)
    : res ServeMux * option Closing :=
  match Dial endpoint with
  | Ok conn =>
      let err := RegisterQueryHandler mux conn in
      (err, Some (match err with Err _ => CloseNow | _ => CloseOnDone end))
  | Err err => (Err err, None)
  | Panic p => (Panic p, None)
  | Fuel => (Fuel, None)
  end.

(** [AppModuleBasic.RegisterGRPCGatewayRoutes]. *)
Definition RegisterGRPCGatewayRoutes (clientCtx : @ClientConn S B) (mux : ServeMux) : res ServeMux :=
  match RegisterQueryHandlerClient mux (NewQueryClient (CC := clientCtx)) with
  | Err err => Panic (PErr err)
  | r => r
  end.
End gateway.

(** ** Messages on the wire *)

(** A type of messages with its encoding, and the messages that can be sent. *)
Class WireOk (A : Type) `{ProtoMarshaler A} : Type := {
  wire_wf : A -> Prop;
  wire_enc : A -> bytes;
  wire_marshal x : wire_wf x -> len (wire_enc x) < 2 ^ 63 -> pm_Marshal x = Ok (wire_enc x);
  wire_unmarshal x : wire_wf x -> len (wire_enc x) < 2 ^ 63 -> pm_Unmarshal pm_Reset (wire_enc x) = Ok x }.

Definition sendable {A} `{WireOk A} (x : A) : Prop := wire_wf x /\ len (wire_enc x) < 2 ^ 63.

(** [conv x] is the message [x] in the types of a client: both have the same
    encoding. *)
Class ReadAs {A C} `{WireOk A} `{PC : ProtoMarshaler C} (conv : A -> C) : Prop := {
  read_marshal x : sendable x -> pm_Marshal (conv x) = Ok (wire_enc x);
  read_unmarshal x : sendable x -> pm_Unmarshal pm_Reset (wire_enc x) = Ok (conv x) }.

#[export] Instance read_self {A} `{WireOk A} : ReadAs (fun x : A => x).
Proof. split; intros x [W L]; [now apply wire_marshal | now apply wire_unmarshal]. Qed.

Lemma api_read {A C} `{ProtoRuntimeOk} `{WireOk A} (mk : ptr C -> ProtoMessage) as_ zero wf enc mt (conv : A -> C) :
  codec_ok mk zero wf enc mt -> (forall p, as_ (mk p) = Ok p) ->
  (forall dis x, wire_wf x -> wf dis (conv x)) -> (forall x, wire_wf x -> enc (conv x) = wire_enc x) ->
  ReadAs (PC := api_pm mk as_ zero mt) conv.
Proof.
  intros C0 Has Hwf Henc. split; intros x [W L]; cbn; rewrite <- Henc in L |- * by assumption.
  - apply options_Marshal_spec. intros buf. exact (co_marshal C0 true _ buf (Hwf true x W) L).
  - rewrite options_Unmarshal_spec, (co_unmarshal C0 false _ (Hwf false x W) L). cbn. now rewrite Has.
Qed.

#[export] Instance QueryParamsRequest_wire `{GogoOk} : WireOk QueryParamsRequest :=
  {| wire_wf := QueryParamsRequest_wf; wire_enc := QueryParamsRequest_enc; wire_marshal := QueryParamsRequest_Marshal_enc; wire_unmarshal := QueryParamsRequest_Unmarshal_enc |}.
#[export] Instance QueryParamsResponse_wire `{GogoOk} : WireOk QueryParamsResponse :=
  {| wire_wf := QueryParamsResponse_wf; wire_enc := QueryParamsResponse_enc; wire_marshal := QueryParamsResponse_Marshal_enc; wire_unmarshal := QueryParamsResponse_Unmarshal_enc |}.
#[export] Instance MsgUpdateParams_wire `{GogoOk} : WireOk MsgUpdateParams :=
  {| wire_wf := MsgUpdateParams_wf; wire_enc := MsgUpdateParams_enc; wire_marshal := MsgUpdateParams_Marshal_enc; wire_unmarshal := MsgUpdateParams_Unmarshal_enc |}.
#[export] Instance MsgUpdateParamsResponse_wire `{GogoOk} : WireOk MsgUpdateParamsResponse :=
  {| wire_wf := MsgUpdateParamsResponse_wf; wire_enc := MsgUpdateParamsResponse_enc; wire_marshal := MsgUpdateParamsResponse_Marshal_enc; wire_unmarshal := MsgUpdateParamsResponse_Unmarshal_enc |}.
#[export] Instance MsgMintHal_wire `{GogoOk} : WireOk MsgMintHal :=
  {| wire_wf := MsgMintHal_wf; wire_enc := MsgMintHal_enc; wire_marshal := MsgMintHal_Marshal_enc; wire_unmarshal := MsgMintHal_Unmarshal_enc |}.
#[export] Instance MsgMintHalResponse_wire `{GogoOk} : WireOk MsgMintHalResponse :=
  {| wire_wf := MsgMintHalResponse_wf; wire_enc := MsgMintHalResponse_enc; wire_marshal := MsgMintHalResponse_Marshal_enc; wire_unmarshal := MsgMintHalResponse_Unmarshal_enc |}.
#[export] Instance MsgRedeemCollateral_wire `{GogoOk} : WireOk MsgRedeemCollateral :=
  {| wire_wf := MsgRedeemCollateral_wf; wire_enc := MsgRedeemCollateral_enc; wire_marshal := MsgRedeemCollateral_Marshal_enc; wire_unmarshal := MsgRedeemCollateral_Unmarshal_enc |}.
#[export] Instance MsgRedeemCollateralResponse_wire `{GogoOk} : WireOk MsgRedeemCollateralResponse :=
  {| wire_wf := MsgRedeemCollateralResponse_wf; wire_enc := MsgRedeemCollateralResponse_enc; wire_marshal := MsgRedeemCollateralResponse_Marshal_enc; wire_unmarshal := MsgRedeemCollateralResponse_Unmarshal_enc |}.
#[export] Instance MsgCreateTicket_wire `{GogoOk} : WireOk MsgCreateTicket :=
  {| wire_wf := MsgCreateTicket_wf; wire_enc := MsgCreateTicket_enc; wire_marshal := MsgCreateTicket_Marshal_enc; wire_unmarshal := MsgCreateTicket_Unmarshal_enc |}.
#[export] Instance MsgCreateTicketResponse_wire `{GogoOk} : WireOk MsgCreateTicketResponse :=
  {| wire_wf := MsgCreateTicketResponse_wf; wire_enc := MsgCreateTicketResponse_enc; wire_marshal := MsgCreateTicketResponse_Marshal_enc; wire_unmarshal := MsgCreateTicketResponse_Unmarshal_enc |}.

#[export] Instance QueryParamsRequest_read `{SameWire} : ReadAs QueryParamsRequest_api :=
  api_read _ as_QueryParamsRequest _ _ _ _ QueryParamsRequest_api fast_QueryParamsRequest_codec (fun _ => eq_refl) QueryParamsRequest_api_wf QueryParamsRequest_api_enc.
#[export] Instance QueryParamsResponse_read `{SameWire} : ReadAs QueryParamsResponse_api :=
  api_read _ as_QueryParamsResponse _ _ _ _ QueryParamsResponse_api fast_QueryParamsResponse_codec (fun _ => eq_refl) QueryParamsResponse_api_wf QueryParamsResponse_api_enc.
#[export] Instance MsgUpdateParams_read `{SameWire} : ReadAs MsgUpdateParams_api :=
  api_read _ as_MsgUpdateParams _ _ _ _ MsgUpdateParams_api fast_MsgUpdateParams_codec (fun _ => eq_refl) MsgUpdateParams_api_wf MsgUpdateParams_api_enc.
#[export] Instance MsgUpdateParamsResponse_read `{SameWire} : ReadAs MsgUpdateParamsResponse_api :=
  api_read _ as_MsgUpdateParamsResponse _ _ _ _ MsgUpdateParamsResponse_api fast_MsgUpdateParamsResponse_codec (fun _ => eq_refl) MsgUpdateParamsResponse_api_wf MsgUpdateParamsResponse_api_enc.
#[export] Instance MsgMintHal_read `{SameWire} : ReadAs MsgMintHal_api :=
  api_read _ as_MsgMintHal _ _ _ _ MsgMintHal_api fast_MsgMintHal_codec (fun _ => eq_refl) MsgMintHal_api_wf MsgMintHal_api_enc.
#[export] Instance MsgMintHalResponse_read `{SameWire} : ReadAs MsgMintHalResponse_api :=
  api_read _ as_MsgMintHalResponse _ _ _ _ MsgMintHalResponse_api fast_MsgMintHalResponse_codec (fun _ => eq_refl) MsgMintHalResponse_api_wf MsgMintHalResponse_api_enc.
#[export] Instance MsgRedeemCollateral_read `{SameWire} : ReadAs MsgRedeemCollateral_api :=
  api_read _ as_MsgRedeemCollateral _ _ _ _ MsgRedeemCollateral_api fast_MsgRedeemCollateral_codec (fun _ => eq_refl) MsgRedeemCollateral_api_wf MsgRedeemCollateral_api_enc.
#[export] Instance MsgRedeemCollateralResponse_read `{SameWire} : ReadAs MsgRedeemCollateralResponse_api :=
  api_read _ as_MsgRedeemCollateralResponse _ _ _ _ MsgRedeemCollateralResponse_api fast_MsgRedeemCollateralResponse_codec (fun _ => eq_refl) MsgRedeemCollateralResponse_api_wf MsgRedeemCollateralResponse_api_enc.
#[export] Instance MsgCreateTicket_read `{SameWire} : ReadAs MsgCreateTicket_api :=
  api_read _ as_MsgCreateTicket _ _ _ _ MsgCreateTicket_api fast_MsgCreateTicket_codec (fun _ => eq_refl) MsgCreateTicket_api_wf MsgCreateTicket_api_enc.
#[export] Instance MsgCreateTicketResponse_read `{SameWire} : ReadAs MsgCreateTicketResponse_api :=
  api_read _ as_MsgCreateTicketResponse _ _ _ _ MsgCreateTicketResponse_api fast_MsgCreateTicketResponse_codec (fun _ => eq_refl) MsgCreateTicketResponse_api_wf MsgCreateTicketResponse_api_enc.

(** ** Registered methods *)

Section registered.
Context {S B : Type}.

Definition full_method (d : @ServiceDesc S B) (m : @MethodDesc S B) : string :=
  ("/" +:+ ServiceName d +:+ "/" +:+ MethodName m)%string.

(** Method [m] of a registered service [d], whose server is [srv]. *)
Definition registered (services : @Registrar S B) (d : ServiceDesc) (srv : Srv) (m : MethodDesc) : Prop :=
  (d, srv) ∈ services /\ m ∈ Service_Methods d.

(** The handler decodes its request into a message of the type of [g]: what a
    decoder is called with. *)
Definition decodes_into (h : Handler) (name : string) : Prop := forall srv ctx i (w : world S B),
  h srv ctx (fun g => Err (ErrMsg (GoMsg_name g))) i w = (Err (ErrMsg name), w).
End registered.

(** A connection to a gRPC server with these services: the server decodes the
    request, runs the handler, and sends the encoded response or the status of
    the error back. *)
Class Serves {S B} `{Gogo} `{ClientConn S B} (services : @Registrar S B) : Type := {
  served_ctx : Context_;
  status_of : goerror -> goerror;
  invoke_ok {I O} `{ProtoMarshaler I} `{ProtoMarshaler O} d srv m (in_ : I) (out0 out : O) bz resp rbz (w w' : world S B) :
    registered services d srv m -> pm_Marshal in_ = Ok bz ->
    Method_Handler m srv (Some served_ctx) (GoMsg_Unmarshal bz) None w = (Ok resp, w') ->
    GoMsg_Marshal resp = Ok rbz -> pm_Unmarshal out0 rbz = Ok out ->
    exists md, Invoke (full_method d m) in_ out0 w = (Ok (out, None, md), w');
  invoke_err {I O} `{ProtoMarshaler I} `{ProtoMarshaler O} d srv m (in_ : I) (out0 : O) bz e (w w' : world S B) :
    registered services d srv m -> pm_Marshal in_ = Ok bz ->
    Method_Handler m srv (Some served_ctx) (GoMsg_Unmarshal bz) None w = (Err e, w') ->
    exists md, Invoke (full_method d m) in_ out0 w = (Ok (out0, Some (status_of e), md), w') }.

(** [ValidateBasic], for the messages that have it. *)
Definition GoMsg_ValidateBasic `{SdkTypes} (m : GoMsg) : res unit :=
  match m with
  | GMsgUpdateParams x => MsgUpdateParams_ValidateBasic x
  | GMsgMintHal x => MsgMintHal_ValidateBasic x
  | GMsgRedeemCollateral x => MsgRedeemCollateral_ValidateBasic x
  | GMsgCreateTicket x => MsgCreateTicket_ValidateBasic x
  | _ => Ok tt
  end.

(** [baseapp.MsgServiceRouter] with these services: the handler registered for
    the type of a message runs with a decoder that does nothing and an
    interceptor that puts the message in.  The messages are those the app's
    circuit breaker has not disabled. *)
Class Routes {S B} `{SdkTypes} (services : @Registrar S B) : Type := {
  dispatch : Context_ -> GoMsg -> M S B GoMsg;
  dispatch_handler d srv m ctx msg (w : world S B) :
    registered services d srv m -> decodes_into (Method_Handler m) (GoMsg_name msg) ->
    dispatch ctx msg w =
      (_ ← lift (GoMsg_ValidateBasic msg);
       Method_Handler m srv (Some ctx) (fun g => Ok g) (Some (fun ctx _ _ handler => handler ctx msg))) w }.

(** ** Calls over a connection *)

Section calls.
Context {S B : Type} `{SameWire} `{CC : ClientConn S B} {services : @Registrar S B} {serves : Serves services}.
Implicit Types w : world S B.

(** A client's call on a message the server can be sent: it returns the
    response of the server, or the status of its error, and leaves the state as
    the server does. *)
Definition answers {A R C D} `{WireOk A} `{WireOk R} (conv : A -> C) (conv' : R -> D)
    (serve : CallContext -> A -> M S B R) (call : C -> M S B (Reply D)) : Prop := forall x w, sendable x ->
  match serve (Some served_ctx) x w with
  | (Ok r, w') => sendable r -> exists md, call (conv x) w = (Ok (inl (conv' r), md), w')
  | (Err e, w') => exists md, call (conv x) w = (Ok (inr (status_of e), md), w')
  | _ => True
  end.

Lemma client_answers {A R C D} `{WireOk A} `{WireOk R} `{ProtoMarshaler C} `{ProtoMarshaler D}
    (conv : A -> C) (conv' : R -> D) `{!ReadAs conv} `{!ReadAs conv'} (inR : R -> GoMsg) (serve : CallContext -> A -> M S B R) d srv m :
  registered services d srv m -> (forall r, GoMsg_Marshal (inR r) = pm_Marshal r) ->
  (forall bz x w, pm_Unmarshal pm_Reset bz = Ok x ->
    Method_Handler m srv (Some served_ctx) (GoMsg_Unmarshal bz) None w = (r ← serve (Some served_ctx) x; mret (inR r)) w) ->
  answers conv conv' serve (client_call (full_method d m)).
Proof.
  intros Reg HR Hh x w Sx. pose proof (read_marshal (conv := conv) x Sx) as HM.
  specialize (Hh _ _ w (read_unmarshal (conv := fun x : A => x) x Sx)).
  destruct (serve (Some served_ctx) x w) as [[r|e| |] w'] eqn:E; try exact I.
  - intros Sr. rewrite (M_bind_ok _ _ _ _ _ E) in Hh.
    destruct (invoke_ok (O := D) d srv m (conv x) pm_Reset (conv' r) _ _ (wire_enc r) w w' Reg HM Hh) as [md Hi].
    + rewrite HR. now apply (read_marshal (conv := fun x : R => x)).
    + now apply read_unmarshal.
    + exists md. unfold client_call. now rewrite (M_bind_ok _ _ _ _ _ Hi).
  - rewrite (M_bind_err _ _ _ _ _ E) in Hh.
    destruct (invoke_err (O := D) d srv m (conv x) pm_Reset _ e w w' Reg HM Hh) as [md Hi].
    exists md. unfold client_call. now rewrite (M_bind_ok _ _ _ _ _ Hi).
Qed.

Lemma unary_handler_decoded new path method srv ctx dec x w : dec new = Ok x ->
  unary_handler new path method srv ctx dec None w = method srv ctx x w.
Proof. unfold unary_handler, mbind, M_bind, lift. now intros ->. Qed.

(** A call of the method at position [i] of service [d]. *)
Local Ltac call_of d i Reg inA inR :=
  lazymatch eval cbn in (Service_Methods d !! i) with Some ?m =>
    refine (client_answers _ _ inR _ d _ m (conj Reg _) (fun _ => eq_refl) _);
    [ apply (list_elem_of_lookup_2 (Service_Methods d) i); reflexivity
    | intros bz x w Hx;
      etransitivity; [apply (unary_handler_decoded _ _ _ _ _ _ (inA x)); unfold GoMsg_Unmarshal; now rewrite Hx | reflexivity] ]
  end.

Lemma queryClient_answers qs : (_Query_serviceDesc, SrvQuery qs) ∈ services ->
  answers id id (qs_Params qs) queryClient_Params.
Proof. intros HQ. call_of (@_Query_serviceDesc S B) 0%nat HQ GQueryParamsRequest GQueryParamsResponse. Qed.

(** C20: A call of any method through either generated client returns what the
    server's method returns on that message, or the status of its error, and
    leaves the state as the server does. *)
Theorem remote_calls qs ms : (_Query_serviceDesc, SrvQuery qs) ∈ services -> (_Msg_serviceDesc, SrvMsg ms) ∈ services ->
  answers id id (qs_Params qs) queryClient_Params /\
  answers id id (ms_UpdateParams ms) msgClient_UpdateParams /\
  answers id id (ms_MintHal ms) msgClient_MintHal /\
  answers id id (ms_RedeemCollateral ms) msgClient_RedeemCollateral /\
  answers id id (ms_CreateTicket ms) msgClient_CreateTicket /\
  answers QueryParamsRequest_api QueryParamsResponse_api (qs_Params qs) api_queryClient_Params /\
  answers MsgUpdateParams_api MsgUpdateParamsResponse_api (ms_UpdateParams ms) api_msgClient_UpdateParams /\
  answers MsgMintHal_api MsgMintHalResponse_api (ms_MintHal ms) api_msgClient_MintHal /\
  answers MsgRedeemCollateral_api MsgRedeemCollateralResponse_api (ms_RedeemCollateral ms) api_msgClient_RedeemCollateral /\
  answers MsgCreateTicket_api MsgCreateTicketResponse_api (ms_CreateTicket ms) api_msgClient_CreateTicket.
Proof.
  intros HQ HM. split_and!.
  1: now apply queryClient_answers.
  5: call_of (@_Query_serviceDesc S B) 0%nat HQ GQueryParamsRequest GQueryParamsResponse.
  1, 5: call_of (@_Msg_serviceDesc S B) 0%nat HM GMsgUpdateParams GMsgUpdateParamsResponse.
  1, 4: call_of (@_Msg_serviceDesc S B) 1%nat HM GMsgMintHal GMsgMintHalResponse.
  1, 3: call_of (@_Msg_serviceDesc S B) 2%nat HM GMsgRedeemCollateral GMsgRedeemCollateralResponse.
  1, 2: call_of (@_Msg_serviceDesc S B) 3%nat HM GMsgCreateTicket GMsgCreateTicketResponse.
Qed.
End calls.

(** ** Dispatch of transactions *)

Section dispatched.
Context {S B : Type} `{KVStore S} `{BankKeeper B} `{Gogo} `{SdkTypes} `{BinaryCodec}.

(** The message of a transaction. *)
Definition tx_msg (t : tx) : GoMsg :=
  match t with
  | TxUpdateParams msg => GMsgUpdateParams msg
  | TxMintHal msg => GMsgMintHal msg
  | TxRedeemCollateral msg => GMsgRedeemCollateral msg
  | TxCreateTicket msg => GMsgCreateTicket msg
  end.

(** The position of its method in the service. *)
Definition tx_method (t : tx) : nat :=
  match t with TxUpdateParams _ => 0 | TxMintHal _ => 1 | TxRedeemCollateral _ => 2 | TxCreateTicket _ => 3 end.

Lemma tx_registered rt k cfg t : exists m,
  Service_Methods (@_Msg_serviceDesc S B) !! tx_method t = Some m /\
  registered (cfg_MsgServer (RegisterServices rt k cfg)) _Msg_serviceDesc (SrvMsg (NewMsgServerImpl rt k)) m /\
  decodes_into (Method_Handler m) (GoMsg_name (tx_msg t)).
Proof.
  assert (In_ : (@_Msg_serviceDesc S B, SrvMsg (NewMsgServerImpl rt k)) ∈ cfg_MsgServer (RegisterServices rt k cfg))
    by (cbn; apply elem_of_app; right; now apply list_elem_of_singleton).
  destruct t; eexists; (split; [reflexivity|]); split; try (now intros ? ? ? ?);
    (split; [exact In_|]); [apply (list_elem_of_lookup_2 _ 0) | apply (list_elem_of_lookup_2 _ 1)
    | apply (list_elem_of_lookup_2 _ 2) | apply (list_elem_of_lookup_2 _ 3)]; reflexivity.
Qed.

Lemma deliver_ignores {A R} (v : res unit) (serve run : M S B A) (g : A -> R) w : serve w = run w ->
  deliver (_ ← (_ ← lift v; r ← serve; mret (g r)); mret tt) w = deliver (_ ← lift v; _ ← run; mret tt) w.
Proof.
  intros E. destruct v; try reflexivity. unfold deliver, mbind, M_bind, lift, mret, M_ret. rewrite E.
  destruct (run w) as [[] ?]; reflexivity.
Qed.

(** With an SDK context, [UpdateParams] unwraps it without effect. *)
Lemma UpdateParams_served rt k ctx msg w :
  ms_UpdateParams (NewMsgServerImpl rt k) (Some ctx) msg w = UpdateParams k msg w.
Proof. cbn. now destruct (bool_decide _). Qed.

(** C8: A message dispatched through the registered service, with the generated
    handler, the router's decoder and its interceptor, has the outcome and the
    state of the transaction of the chain model. *)
Theorem dispatch_runs_tx rt k cfg {routes : Routes (cfg_MsgServer (RegisterServices rt k cfg))} ctx t w :
  deliver (_ ← dispatch ctx (tx_msg t); mret tt) w = run_tx k rt ctx t w.
Proof.
  destruct (tx_registered rt k cfg t) as (m & Hm & Reg & Dec).
  pose proof (dispatch_handler _ _ _ ctx _ w Reg Dec) as D. unfold deliver, mbind at 1, M_bind at 1. rewrite D.
  destruct t as [msg|msg|msg|msg]; injection Hm as <-;
    [exact (deliver_ignores _ _ _ _ w (UpdateParams_served rt k ctx msg w)) | exact (deliver_ignores _ _ _ _ w eq_refl)..].
Qed.
End dispatched.

(** ** The stubs and the schema *)

Section schema.
Context {S B : Type} `{Gogo} `{ProtoRuntime}.
Implicit Types w : world S B.

(** A method of a service has the name, the request and response types and the
    path the schema gives it. *)
Definition method_conforms (d : @ServiceDesc S B) (m : MethodDesc) (p : MethodProto) : Prop :=
  MethodName m = mt_name p /\
  (exists name, mt_input p = ("." +:+ name)%string /\ decodes_into (Method_Handler m) name) /\
  (forall srv ctx dec w r w', Method_Handler m srv ctx dec None w = (Ok r, w') ->
    mt_output p = ("." +:+ GoMsg_name r)%string) /\
  (forall srv ctx w, Method_Handler m srv ctx (fun g => Ok g)
     (Some (fun _ _ info _ => lift (Err (ErrMsg (FullMethod info))))) w = (Err (ErrMsg (full_method d m)), w)).

Definition service_conforms (f : FileProto) (d : @ServiceDesc S B) (s : ServiceProto) : Prop :=
  ServiceName d = (file_package f +:+ "." +:+ s_name s)%string /\ Metadata d = file_name f /\
  Forall2 (method_conforms d) (Service_Methods d) (s_methods s).

(** The paths of the methods of a file. *)
Definition rpc_paths (f : FileProto) : list string :=
  s ← file_services f; m ← s_methods s;
  [("/" +:+ file_package f +:+ "." +:+ s_name s +:+ "/" +:+ mt_name m)%string].

(** A connection that returns the path it is asked for. *)
Definition echo : @ClientConn S B := {| Invoke _ _ _ _ path _ _ := lift (Err (ErrMsg path)) |}.
Definition asks_for {A} (call : M S B A) (path : string) : Prop := forall w, call w = (Err (ErrMsg path), w).

Local Ltac conforms :=
  split; [reflexivity|]; split; [eexists; split; [reflexivity | now intros ? ? ? ?]|]; split; [|reflexivity];
    intros srv ctx dec w r w' E; apply M_bind_inv in E as (g & w1 & _ & E);
    apply M_bind_inv in E as (s & w2 & _ & E); apply M_bind_inv in E as (x & w3 & _ & E);
    apply M_bind_inv in E as (y & w4 & _ & E); injection E as <- <-; reflexivity.

(** C23: The service descriptors have the methods of the .proto files: each handler
    decodes the request type, returns the response type and reports the path of
    its method, and the clients of both packages call these paths. *)
Theorem services_match_schema q u mh rc ct aq au am ar ac :
  Forall2 (service_conforms query_schema) [_Query_serviceDesc] (file_services query_schema) /\
  Forall2 (service_conforms tx_schema) [_Msg_serviceDesc] (file_services tx_schema) /\
  Forall2 asks_for [_ ← queryClient_Params (CC := echo) q; mret tt] (rpc_paths query_schema) /\
  Forall2 asks_for [_ ← msgClient_UpdateParams (CC := echo) u; mret tt; _ ← msgClient_MintHal (CC := echo) mh; mret tt;
    _ ← msgClient_RedeemCollateral (CC := echo) rc; mret tt; _ ← msgClient_CreateTicket (CC := echo) ct; mret tt] (rpc_paths tx_schema) /\
  Forall2 asks_for [_ ← api_queryClient_Params (CC := echo) aq; mret tt] (rpc_paths query_schema) /\
  Forall2 asks_for [_ ← api_msgClient_UpdateParams (CC := echo) au; mret tt; _ ← api_msgClient_MintHal (CC := echo) am; mret tt;
    _ ← api_msgClient_RedeemCollateral (CC := echo) ar; mret tt; _ ← api_msgClient_CreateTicket (CC := echo) ac; mret tt] (rpc_paths tx_schema).
Proof.
  split_and!; repeat (apply Forall2_cons; split); try (now apply Forall2_nil); try (now intros w);
    (split; [reflexivity|]); (split; [reflexivity|]); repeat (apply Forall2_cons; split); try (now apply Forall2_nil); conforms.
Qed.
End schema.

(** ** Requests over HTTP *)

(** The mux: a literal pattern matches its own path, and a request that one
    route matches is handled by that route. *)
Class ServeMuxOk (S B : Type) `{Gateway} : Type := {
  Request_Method : Request -> string;
  Request_components : Request -> list string;
  Pattern_Match : Pattern -> list string -> option (list (string * string));
  NewPattern_literal pool : exists p,
    NewPattern 1 (mjoin (imap (fun i _ => [2; Z.of_nat i]) pool)) pool EmptyString = Ok p /\
    forall path, Pattern_Match p path = (if decide (path = pool) then Some [] else None);
  ServeHTTP : @ServeMux S B _ -> Request -> M S B HttpReply;
  (** Contexts derived from another carry the same values. *)
  WithCancel_sdk c : sdk_context (WithCancel c) = sdk_context c;
  transport_sdk c : sdk_context (NewContextWithServerTransportStream c) = sdk_context c;
  AnnotateIncoming_sdk c req c' : AnnotateIncomingContext c req = Ok c' -> sdk_context c' = sdk_context c;
  serve_route pre r post req args :
    let matches r := if decide (route_method r = Request_Method req)
                     then Pattern_Match (route_pattern r) (Request_components req) else None in
    Forall (fun r => matches r = None) (pre ++ post) -> matches r = Some args ->
    forall w, ServeHTTP (pre ++ r :: post) req w = route_handler r req args w }.

Section http.
Context {S B : Type} `{KVStoreOk S} `{BankKeeper B} `{SameWire} `{SdkTypesOk} `{BinaryCodecOk}.
Context `{GW : Gateway} `{!ServeMuxOk S B} `{CC : ClientConn S B}.
Implicit Types (w : world S B) (req : Request) (mux : @ServeMux S B _).

(** A GET of the parameters that no route of [mux] answers. *)
Definition new_params_request mux req : Prop :=
  Request_Method req = "GET" /\ Request_components req = ["HalbornCTF"; "hal"; "params"] /\
  Forall (fun r => route_method r = Request_Method req -> Pattern_Match (route_pattern r) (Request_components req) = None) mux.

Lemma params_pattern : exists p, pattern_Query_Params_0 = Ok p /\
  forall path, Pattern_Match p path = if decide (path = ["HalbornCTF"; "hal"; "params"]) then Some [] else None.
Proof.
  destruct (NewPattern_literal ["HalbornCTF"; "hal"; "params"]) as (p & E & Hp).
  exists p. split; [|exact Hp]. exact (f_equal MustPattern E).
Qed.

Lemma serve_params mux req p h w : new_params_request mux req ->
  (forall path, Pattern_Match p path = if decide (path = ["HalbornCTF"; "hal"; "params"]) then Some [] else None) ->
  ServeHTTP (mux_Handle mux "GET" p h) req w = h req [] w.
Proof.
  intros (Hm & Hc & Hn) Hp. unfold mux_Handle. apply (serve_route mux (MkRoute "GET" p h) [] req []).
  - rewrite app_nil_r. eapply Forall_impl; [exact Hn|]. intros r Hr. cbn. case_decide; auto.
  - cbn. rewrite Hm, Hc, Hp. now rewrite !decide_True.
Qed.

Lemma Params_served a w sc : refines a (kvs w) ->
  qs_Params Keeper_QueryServer (Some sc) QueryParamsRequest_Reset w = (Ok (MkQueryParamsResponse (params_of a)), w).
Proof.
  intros R. cbn [qs_Params Keeper_QueryServer UnwrapSDKContext]. rewrite lift_bind. unfold Params_query.
  now rewrite (M_bind_ok _ _ _ _ _ (GetParams_refines a w R)).
Qed.

Lemma Params_answered rt k cfg {serves : Serves (cfg_QueryServer (RegisterServices rt k cfg))} a w :
  refines a (kvs w) -> sendable (MkQueryParamsResponse (params_of a)) ->
  exists md, queryClient_Params QueryParamsRequest_Reset w = (Ok (inl (MkQueryParamsResponse (params_of a)), md), w).
Proof.
  intros R Sr.
  assert (A : answers id id (qs_Params Keeper_QueryServer) queryClient_Params)
    by (apply queryClient_answers, elem_of_app; right; now apply list_elem_of_singleton).
  specialize (A QueryParamsRequest_Reset w).
  rewrite (Params_served a w served_ctx R) in A. apply A; [|exact Sr]. now split.
Qed.

(** The reply of either registration on a request whose context is annotated
    with [annotated]. *)
Definition params_reply (annotated : res GoContext) (ctx : GoContext) mux' req w (p : Params) : Prop :=
  let out := snd (MarshalerForRequest req) in
  match annotated with
  | Ok _ => exists md, ServeHTTP mux' req w =
      (Ok (ForwardResponseMessage (NewServerMetadataContext ctx md) out req (MkQueryParamsResponse p)), w)
  | Err e => ServeHTTP mux' req w = (Ok (HTTPError ctx out req e), w)
  | _ => True
  end.

Lemma remote_gateway_params rt k cfg {serves : Serves (cfg_QueryServer (RegisterServices rt k cfg))} a mux req w :
  refines a (kvs w) -> sendable (MkQueryParamsResponse (params_of a)) -> new_params_request mux req ->
  let ctx := WithCancel (Request_Context req) in
  exists mux', RegisterQueryHandler mux CC = Ok mux' /\
    params_reply (AnnotateContext ctx req) ctx mux' req w (params_of a).
Proof.
  intros R Sr Hreq ctx. destruct params_pattern as (p & Ep & Hp).
  unfold RegisterQueryHandler, RegisterQueryHandlerClient. rewrite Ep. eexists. split; [reflexivity|].
  unfold params_reply. destruct (AnnotateContext ctx req) as [rctx|e| |] eqn:Ea; try exact I;
    [destruct (Params_answered rt k cfg a w R Sr) as [md E]; exists md|];
    rewrite (serve_params _ _ p _ _ Hreq Hp); fold ctx; destruct (MarshalerForRequest req) as [i o];
    unfold on_err, lift; rewrite Ea; [|reflexivity].
  now rewrite (M_bind_ok _ _ _ _ _ E).
Qed.

(** The local server unwraps the context of the request and panics when it
    carries no SDK context. *)
Definition local_params_reply (annotated : res GoContext) (ctx : GoContext) mux' req w (p : Params) : Prop :=
  match annotated, sdk_context (Request_Context req) with
  | Ok _, None => exists why, ServeHTTP mux' req w = (Panic why, w)
  | _, _ => params_reply annotated ctx mux' req w p
  end.

Lemma local_gateway_params a mux req w : refines a (kvs w) -> new_params_request mux req ->
  let ctx := NewContextWithServerTransportStream (WithCancel (Request_Context req)) in
  exists mux', RegisterQueryHandlerServer mux Keeper_QueryServer = Ok mux' /\
    local_params_reply (AnnotateIncomingContext ctx req) ctx mux' req w (params_of a).
Proof.
  intros R Hreq ctx. destruct params_pattern as (p & Ep & Hp).
  unfold RegisterQueryHandlerServer. rewrite Ep. eexists. split; [reflexivity|].
  unfold local_params_reply. destruct (AnnotateIncomingContext ctx req) as [rctx|e| |] eqn:Ea; try exact I.
  2: { destruct (sdk_context (Request_Context req)); unfold params_reply; rewrite (serve_params _ _ p _ _ Hreq Hp); fold ctx;
       destruct (MarshalerForRequest req) as [i o]; unfold on_err at 1, lift at 1; now rewrite Ea. }
  assert (Ec : sdk_context rctx = sdk_context (Request_Context req))
    by (rewrite (AnnotateIncoming_sdk _ _ _ Ea); unfold ctx; now rewrite transport_sdk, WithCancel_sdk).
  destruct (sdk_context (Request_Context req)) as [sc|]; [exists no_metadata | exists bad_assertion];
    rewrite (serve_params _ _ p _ _ Hreq Hp); fold ctx; destruct (MarshalerForRequest req) as [i o];
    unfold on_err at 1, lift at 1; rewrite Ea.
  - rewrite (M_bind_ok _ _ _ (inl (MkQueryParamsResponse (params_of a)), no_metadata) w); [reflexivity|].
    unfold local_request_Query_Params_0, on_err. rewrite Ec, (Params_served a w sc R). reflexivity.
  - rewrite (M_bind_panic _ _ _ bad_assertion w); [reflexivity|].
    unfold local_request_Query_Params_0, on_err. now rewrite Ec.
Qed.

(** C21: a GET of the parameters' path.  Over a connection the gateway returns
    the stored parameters.  With a local server it does so only for a request
    whose context carries an SDK context, and panics for any other, because the
    keeper unwraps the request's context.  Either way the state does not change,
    and an error of the annotation becomes the HTTP error.  A dialed connection
    is closed when the context is done. *)
Theorem gateway_params rt k cfg {serves : Serves (cfg_QueryServer (RegisterServices rt k cfg))} a mux req w :
  refines a (kvs w) -> sendable (MkQueryParamsResponse (params_of a)) -> new_params_request mux req ->
  let ctx := WithCancel (Request_Context req) in let ctx' := NewContextWithServerTransportStream ctx in
  exists mux' mux'',
    RegisterGRPCGatewayRoutes CC mux = Ok mux' /\
    params_reply (AnnotateContext ctx req) ctx mux' req w (params_of a) /\
    RegisterQueryHandlerServer mux Keeper_QueryServer = Ok mux'' /\
    local_params_reply (AnnotateIncomingContext ctx' req) ctx' mux'' req w (params_of a) /\
    forall endpoint, RegisterQueryHandlerFromEndpoint (fun _ => Ok CC) mux endpoint = (Ok mux', Some CloseOnDone).
Proof.
  intros R Sr Hreq ctx ctx'. destruct (remote_gateway_params rt k cfg a mux req w R Sr Hreq) as (m1 & E1 & P1).
  destruct (local_gateway_params a mux req w R Hreq) as (m2 & E2 & P2). exists m1, m2.
  split; [|split; [exact P1|split; [exact E2|split; [exact P2|]]]].
  - unfold RegisterGRPCGatewayRoutes. unfold RegisterQueryHandler in E1. now rewrite E1.
  - intros endpoint. unfold RegisterQueryHandlerFromEndpoint. now rewrite E1.
Qed.
End http.
