(* ===== verification/AppNew.v ===== *)
(** * Building the app: [app/app.go] and [app/ibc.go]

    [New] injects the configured modules, builds the runtime app, registers the
    IBC stores, keepers and modules by hand ([registerIBCModules]), and loads
    the state.  The packages it puts together are a parameter ([AppDeps]): the
    runtime's state [R], the params keeper's state [P], the capability
    keeper's state [C], and the constructors of the keepers.  [AppDepsOk]
    states when they accept their arguments.  The theorems: after a successful
    injection nothing of [New] panics, its errors are those of the streaming
    services and of loading, and every IBC keeper is built on its own store
    key, subspace and capabilities. *)

From S2P Require Import Prelude Types Keeper AppMonad AppConfig AppCommands.

(** The stores and the scopes of the IBC modules, constants of other packages. *)
Inductive ibc_store :=
| CapabilityStore | IbcStore | TransferStore | FeeStore | HostStore | ControllerStore | CapabilityMemStore | ParamsTStore.
Inductive ibc_scope := IbcScope | TransferScope | ControllerScope | HostScope.
#[export] Instance ibc_store_eq_dec : EqDecision ibc_store.
Proof. solve_decision. Defined.
#[export] Instance ibc_scope_eq_dec : EqDecision ibc_scope.
Proof. solve_decision. Defined.

(** The two init chainers: the runtime's own, and the closure of [New]. *)
Inductive InitChainerKind := RuntimeInitChainer | VersionMapInitChainer.

(** ** The packages *)

Class AppDeps (R P C : Type) `{SdkNames} `{CapabilityKeeper C} : Type := {
  runtime_name : gostring; ibctm_name : gostring; solomachine_name : gostring;
  store_name : ibc_store -> gostring;
  scope_name : ibc_scope -> gostring;
  (** Values that are only passed on. *)
  Options : Type; Logger : Type; DB : Type; Writer : Type; BaseAppOption : Type;
  Codec : Type; LegacyAmino_t : Type; TxConfig_t : Type; InterfaceRegistry_t : Type;
  AccountKeeper_t : Type; BankKeeper_t : Type; StakingKeeper_t : Type; DistrKeeper_t : Type;
  ConsensusParamsKeeper_t : Type; SlashingKeeper_t : Type; MintKeeper_t : Type; GovKeeper_t : Type;
  CrisisKeeper_t : Type; UpgradeKeeper_t : Type; AuthzKeeper_t : Type; EvidenceKeeper_t : Type;
  FeeGrantKeeper_t : Type; GroupKeeper_t : Type; NFTKeeper_t : Type; CircuitBreakerKeeper_t : Type;
  AppBuilder : Type; Basic : Type; ProposalHandler : Type; Subspace_t : Type; KeyTable : Type;
  ChannelKeeper : Type; PortKeeper : Type; MsgRouter : Type; QueryRouter : Type; GovRouter : Type;
  IBCKeeper_t : Type; FeeKeeper : Type; TransferKeeper_t : Type; HostKeeper : Type; ControllerKeeper : Type;
  IBCModule : Type; PortRouter : Type; AppModule_t : Type; Modules : Type; SimModule : Type; SimManager : Type;
  (** [genutil], [gov], [params]: basics and proposals. *)
  genutil_NewAppModuleBasic : Basic;
  gov_NewAppModuleBasic : list ProposalHandler -> Basic;
  params_ProposalHandler : ProposalHandler;
  (** [baseapp] and [runtime]. *)
  SetOptimisticExecution : BaseAppOption;
  Build : AppBuilder -> DB -> Writer -> list BaseAppOption -> res R;
  RegisterStores : list AppStoreKey -> AM R unit;
  GetStoreKeys : R -> list AppStoreKey;
  UnsafeFindStoreKey : R -> gostring -> option AppStoreKey;
  MsgServiceRouter : R -> MsgRouter;
  GRPCQueryRouter : R -> QueryRouter;
  RegisterModules : list AppModule_t -> AM R unit;
  RegisterStreamingServices : Options -> gmap gostring AppStoreKey -> AM R unit;
  ModuleManager_Modules : R -> Modules;
  SetInitChainer : InitChainerKind -> R -> R;
  Load : bool -> AM R unit;
  (** The params keeper. *)
  Subspace : gostring -> AM P Subspace_t;
  WithKeyTable : Subspace_t -> KeyTable -> AM P Subspace_t;
  Params_GetSubspace : P -> gostring -> Subspace_t * bool;
  client_ParamKeyTable : KeyTable; transfer_ParamKeyTable : KeyTable;
  controller_ParamKeyTable : KeyTable; host_ParamKeyTable : KeyTable;
  RegisterConnectionParams : KeyTable -> res KeyTable;
  (** The keepers; a nil store key is [None]. *)
  NewCapabilityKeeper : Codec -> option AppStoreKey -> option AppStoreKey -> C;
  NewModuleAddress_String : gostring -> gostring;
  NewIBCKeeper : Codec -> option AppStoreKey -> Subspace_t -> StakingKeeper_t -> UpgradeKeeper_t -> ScopedKeeper ->
    gostring -> res IBCKeeper_t;
  IBC_ChannelKeeper : IBCKeeper_t -> ChannelKeeper;
  IBC_PortKeeper : IBCKeeper_t -> PortKeeper;
  IBC_SetRouter : IBCKeeper_t -> PortRouter -> res IBCKeeper_t;
  NewFeeKeeper : Codec -> option AppStoreKey -> ChannelKeeper -> ChannelKeeper -> PortKeeper -> AccountKeeper_t ->
    BankKeeper_t -> FeeKeeper;
  NewTransferKeeper : Codec -> option AppStoreKey -> Subspace_t -> FeeKeeper -> ChannelKeeper -> PortKeeper ->
    AccountKeeper_t -> BankKeeper_t -> ScopedKeeper -> gostring -> res TransferKeeper_t;
  NewHostKeeper : Codec -> option AppStoreKey -> Subspace_t -> FeeKeeper -> ChannelKeeper -> PortKeeper ->
    AccountKeeper_t -> ScopedKeeper -> MsgRouter -> gostring -> res HostKeeper;
  WithQueryRouter : HostKeeper -> QueryRouter -> HostKeeper;
  NewControllerKeeper : Codec -> option AppStoreKey -> Subspace_t -> FeeKeeper -> ChannelKeeper -> PortKeeper ->
    ScopedKeeper -> MsgRouter -> gostring -> res ControllerKeeper;
  gov_NewRouter : GovRouter;
  gov_AddProposalRoute : GovRouter -> res GovRouter;
  SetLegacyRouter : GovKeeper_t -> GovRouter -> GovKeeper_t;
  (** The IBC modules and the router. *)
  transfer_NewIBCModule : TransferKeeper_t -> IBCModule;
  fee_NewIBCMiddleware : IBCModule -> FeeKeeper -> IBCModule;
  controller_NewIBCMiddleware : option IBCModule -> ControllerKeeper -> IBCModule;
  host_NewIBCModule : HostKeeper -> IBCModule;
  port_NewRouter : PortRouter;
  port_AddRoute : PortRouter -> gostring -> IBCModule -> res PortRouter;
  ibc_NewAppModule : IBCKeeper_t -> AppModule_t;
  transfer_NewAppModule : TransferKeeper_t -> AppModule_t;
  fee_NewAppModule : FeeKeeper -> AppModule_t;
  ica_NewAppModule : ControllerKeeper -> HostKeeper -> AppModule_t;
  capability_NewAppModule : Codec -> C -> bool -> AppModule_t;
  ibctm_NewAppModule : AppModule_t;
  solomachine_NewAppModule : AppModule_t;
  (** Invariants and simulation. *)
  RegisterInvariants : Modules -> CrisisKeeper_t -> CrisisKeeper_t;
  auth_NewAppModule : Codec -> AccountKeeper_t -> Subspace_t -> SimModule;
  NewSimulationManagerFromAppModules : Modules -> list (gostring * SimModule) -> SimManager;
  RegisterStoreDecoders : SimManager -> SimManager }.

Section app.
Context {R P C : Type} `{AppDeps R P C}.

(** ** The configuration *)

(** What [depinject.Supply] is given; the two getters are methods of the app
    that is being built. *)
Inductive Supplied :=
| SupplyModuleBasics (l : list (gostring * Basic))
| SupplyOptions (o : Options)
| SupplyLogger (l : Logger)
| SupplyGetIBCKeeper
| SupplyGetCapabilityScopedKeeper.
#[local] Unset Elimination Schemes.
Inductive DepConfig := AppModules (l : list (module_name * ModuleConfig)) | Supply (l : list Supplied) | Configs (l : list DepConfig).
#[local] Set Elimination Schemes.

Definition getGovProposalHandlers : list ProposalHandler :=
  let govProposalHandlers := [] in govProposalHandlers ++ [params_ProposalHandler].

Definition AppConfig_ : DepConfig :=
  Configs [AppModules appConfig;
    Supply [SupplyModuleBasics [(name_of Genutil, genutil_NewAppModuleBasic);
                                (name_of Gov, gov_NewAppModuleBasic getGovProposalHandlers)]]].

(** ** The app *)

(** What the injection fills in, apart from the keepers with their own field below. *)
Record Injected := MkInjected {
  appCodec : Codec;
  legacyAmino : LegacyAmino_t;
  txConfig : TxConfig_t;
  interfaceRegistry : InterfaceRegistry_t;
  AccountKeeper : AccountKeeper_t;
  BankKeeper : BankKeeper_t;
  StakingKeeper : StakingKeeper_t;
  DistrKeeper : DistrKeeper_t;
  ConsensusParamsKeeper : ConsensusParamsKeeper_t;
  SlashingKeeper : SlashingKeeper_t;
  MintKeeper : MintKeeper_t;
  UpgradeKeeper : UpgradeKeeper_t;
  AuthzKeeper : AuthzKeeper_t;
  EvidenceKeeper : EvidenceKeeper_t;
  FeeGrantKeeper : FeeGrantKeeper_t;
  NFTKeeper : NFTKeeper_t;
  GroupKeeper : GroupKeeper_t;
  CircuitBreakerKeeper : CircuitBreakerKeeper_t;
  HalKeeper : Keeper }.

(** The keepers of [registerIBCModules] and their scoped keepers. *)
Record IbcKeepers := MkIbcKeepers {
  IBCKeeper : IBCKeeper_t;
  IBCFeeKeeper : FeeKeeper;
  ICAControllerKeeper : ControllerKeeper;
  ICAHostKeeper : HostKeeper;
  TransferKeeper : TransferKeeper_t;
  ScopedIBCKeeper : ScopedKeeper;
  ScopedIBCTransferKeeper : ScopedKeeper;
  ScopedICAControllerKeeper : ScopedKeeper;
  ScopedICAHostKeeper : ScopedKeeper }.

Record App := MkApp {
  runtime_App : R;
  injected : Injected;
  ParamsKeeper : P;
  GovKeeper : GovKeeper_t;
  CrisisKeeper : CrisisKeeper_t;
  CapabilityKeeper_ : option C;
  ibc : option IbcKeepers;
  app_ScopedKeepers : gmap gostring ScopedKeeper;
  sm : option SimManager }.

Definition set_runtime r a := MkApp r (injected a) (ParamsKeeper a) (GovKeeper a) (CrisisKeeper a) (CapabilityKeeper_ a) (ibc a) (app_ScopedKeepers a) (sm a).
Definition set_ParamsKeeper p a := MkApp (runtime_App a) (injected a) p (GovKeeper a) (CrisisKeeper a) (CapabilityKeeper_ a) (ibc a) (app_ScopedKeepers a) (sm a).
Definition set_GovKeeper g a := MkApp (runtime_App a) (injected a) (ParamsKeeper a) g (CrisisKeeper a) (CapabilityKeeper_ a) (ibc a) (app_ScopedKeepers a) (sm a).
Definition set_CrisisKeeper c a := MkApp (runtime_App a) (injected a) (ParamsKeeper a) (GovKeeper a) c (CapabilityKeeper_ a) (ibc a) (app_ScopedKeepers a) (sm a).
Definition set_ibc c i a := MkApp (runtime_App a) (injected a) (ParamsKeeper a) (GovKeeper a) (CrisisKeeper a) (Some c) (Some i) (app_ScopedKeepers a) (sm a).
Definition set_sm s a := MkApp (runtime_App a) (injected a) (ParamsKeeper a) (GovKeeper a) (CrisisKeeper a) (CapabilityKeeper_ a) (ibc a) (app_ScopedKeepers a) (Some s).

Definition on_runtime {X} (m : AM R X) : AM App X := fun a => let '(x, r) := m (runtime_App a) in (x, set_runtime r a).
Definition on_params {X} (m : AM P X) : AM App X := fun a => let '(x, p) := m (ParamsKeeper a) in (x, set_ParamsKeeper p a).
Definition modify (f : App -> App) : AM App unit := fun a => (Ok tt, f a).

(** Accessors. *)
Definition App_LegacyAmino (a : App) : LegacyAmino_t := legacyAmino (injected a).
Definition App_AppCodec (a : App) : Codec := appCodec (injected a).
Definition App_InterfaceRegistry (a : App) : InterfaceRegistry_t := interfaceRegistry (injected a).
Definition App_TxConfig (a : App) : TxConfig_t := txConfig (injected a).
Definition App_GetSubspace (a : App) (moduleName : gostring) : Subspace_t :=
  let '(subspace, _) := Params_GetSubspace (ParamsKeeper a) moduleName in subspace.
Definition GetIBCKeeper (a : App) : option IBCKeeper_t := IBCKeeper <$> ibc a.
Definition SimulationManager (a : App) : option SimManager := sm a.
Definition App_GetKey (a : App) (n : ibc_store) : option AppStoreKey := GetKey (UnsafeFindStoreKey (runtime_App a)) (store_name n).
Definition App_GetMemKey (a : App) (n : ibc_store) : option AppStoreKey := GetMemKey (UnsafeFindStoreKey (runtime_App a)) (store_name n).

(** ** [registerIBCModules] *)

Definition ibc_store_keys : list AppStoreKey :=
  [KVStoreKey (store_name CapabilityStore); KVStoreKey (store_name IbcStore); KVStoreKey (store_name TransferStore);
   KVStoreKey (store_name FeeStore); KVStoreKey (store_name HostStore); KVStoreKey (store_name ControllerStore);
   MemoryStoreKey (store_name CapabilityMemStore); TransientStoreKey (store_name ParamsTStore)].

(** The key tables of the legacy subspaces. *)
Definition register_subspace (s : ibc_scope) (kt : KeyTable) : AM App unit :=
  subspace ← on_params (Subspace (scope_name s)); _ ← on_params (WithKeyTable subspace kt); mret tt.
Definition register_subspaces : AM App unit :=
  keyTable ← pure (RegisterConnectionParams client_ParamKeyTable);
  _ ← register_subspace IbcScope keyTable;
  _ ← register_subspace TransferScope transfer_ParamKeyTable;
  _ ← register_subspace ControllerScope controller_ParamKeyTable;
  register_subspace HostScope host_ParamKeyTable.

(** The capability keeper and its four scoped keepers. *)
Definition scope_ibc (a : App) : res (ScopedKeeper * ScopedKeeper * ScopedKeeper * ScopedKeeper) * C :=
  (scopedIBCKeeper ← ScopeToModule (scope_name IbcScope);
   scopedIBCTransferKeeper ← ScopeToModule (scope_name TransferScope);
   scopedICAControllerKeeper ← ScopeToModule (scope_name ControllerScope);
   scopedICAHostKeeper ← ScopeToModule (scope_name HostScope);
   mret (scopedIBCKeeper, scopedIBCTransferKeeper, scopedICAControllerKeeper, scopedICAHostKeeper))
  (NewCapabilityKeeper (App_AppCodec a) (App_GetKey a CapabilityStore) (App_GetMemKey a CapabilityMemStore)).

Definition gov_authority : gostring := NewModuleAddress_String (name_of Gov).

(** The keepers, in the order they are made; the IBC keeper is returned before
    its router is set. *)
Definition new_ibc_keepers (a : App) (sk sk_transfer sk_controller sk_host : ScopedKeeper) : res IbcKeepers :=
  let cdc := App_AppCodec a in
  let accountKeeper := AccountKeeper (injected a) in
  let bankKeeper := BankKeeper (injected a) in
  ibcKeeper ← NewIBCKeeper cdc (App_GetKey a IbcStore) (App_GetSubspace a (scope_name IbcScope))
    (StakingKeeper (injected a)) (UpgradeKeeper (injected a)) sk gov_authority;
  let channel := IBC_ChannelKeeper ibcKeeper in
  let port := IBC_PortKeeper ibcKeeper in
  let fee := NewFeeKeeper cdc (App_GetKey a FeeStore) channel channel port accountKeeper bankKeeper in
  transfer ← NewTransferKeeper cdc (App_GetKey a TransferStore) (App_GetSubspace a (scope_name TransferScope)) fee channel
    port accountKeeper bankKeeper sk_transfer gov_authority;
  host ← NewHostKeeper cdc (App_GetKey a HostStore) (App_GetSubspace a (scope_name HostScope)) fee channel port
    accountKeeper sk_host (MsgServiceRouter (runtime_App a)) gov_authority;
  let host := WithQueryRouter host (GRPCQueryRouter (runtime_App a)) in
  controller ← NewControllerKeeper cdc (App_GetKey a ControllerStore) (App_GetSubspace a (scope_name ControllerScope)) fee
    channel port sk_controller (MsgServiceRouter (runtime_App a)) gov_authority;
  Ok (MkIbcKeepers ibcKeeper fee controller host transfer sk sk_transfer sk_controller sk_host).

(** The static router. *)
Definition ibc_router (k : IbcKeepers) : res PortRouter :=
  let transferIBCModule := fee_NewIBCMiddleware (transfer_NewIBCModule (TransferKeeper k)) (IBCFeeKeeper k) in
  let icaControllerIBCModule :=
    fee_NewIBCMiddleware (controller_NewIBCMiddleware None (ICAControllerKeeper k)) (IBCFeeKeeper k) in
  let icaHostIBCModule := fee_NewIBCMiddleware (host_NewIBCModule (ICAHostKeeper k)) (IBCFeeKeeper k) in
  r ← port_AddRoute port_NewRouter (scope_name TransferScope) transferIBCModule;
  r ← port_AddRoute r (scope_name ControllerScope) icaControllerIBCModule;
  port_AddRoute r (scope_name HostScope) icaHostIBCModule.

Definition ibc_modules (cdc : Codec) (c : C) (k : IbcKeepers) : list AppModule_t :=
  [ibc_NewAppModule (IBCKeeper k); transfer_NewAppModule (TransferKeeper k); fee_NewAppModule (IBCFeeKeeper k);
   ica_NewAppModule (ICAControllerKeeper k) (ICAHostKeeper k); capability_NewAppModule cdc c false;
   ibctm_NewAppModule; solomachine_NewAppModule].

Definition with_IBCKeeper (ik : IBCKeeper_t) (k : IbcKeepers) : IbcKeepers :=
  MkIbcKeepers ik (IBCFeeKeeper k) (ICAControllerKeeper k) (ICAHostKeeper k) (TransferKeeper k) (ScopedIBCKeeper k)
    (ScopedIBCTransferKeeper k) (ScopedICAControllerKeeper k) (ScopedICAHostKeeper k).

Definition registerIBCModules : AM App unit :=
  _ ← on_runtime (RegisterStores ibc_store_keys);
  _ ← register_subspaces;
  a ← ask (fun a => a);
  let '(scoped, c) := scope_ibc a in
  '(sk, sk_transfer, sk_controller, sk_host) ← pure scoped;
  k ← pure (new_ibc_keepers a sk sk_transfer sk_controller sk_host);
  govRouter ← pure (gov_AddProposalRoute gov_NewRouter);
  _ ← modify (fun a => set_GovKeeper (SetLegacyRouter (GovKeeper a) govRouter) a);
  router ← pure (ibc_router k);
  ik ← pure (IBC_SetRouter (IBCKeeper k) router);
  _ ← modify (set_ibc c (with_IBCKeeper ik k));
  on_runtime (RegisterModules (ibc_modules (App_AppCodec a) c (with_IBCKeeper ik k))).

(** ** [New] *)

(** [depinject.Inject]: the builder and what the injected pointers receive. *)
Context (Inject : DepConfig -> res (AppBuilder * Injected * P * GovKeeper_t * CrisisKeeper_t)).

(** The configuration [New] injects. *)
Definition New_config (logger : Logger) (appOpts : Options) : DepConfig :=
  Configs [AppConfig_; Supply [SupplyOptions appOpts; SupplyLogger logger; SupplyGetIBCKeeper; SupplyGetCapabilityScopedKeeper]].

(** What [New] does once the runtime app is built. *)
Definition New_start (loadLatest : bool) (appOpts : Options) : AM App unit :=
  _ ← registerIBCModules;
  a ← ask (fun a => a);
  _ ← on_runtime (RegisterStreamingServices appOpts (kvStoreKeys (GetStoreKeys (runtime_App a))));
  _ ← modify (fun a => set_CrisisKeeper (RegisterInvariants (ModuleManager_Modules (runtime_App a)) (CrisisKeeper a)) a);
  _ ← modify (fun a =>
        let overrideModules := [(name_of Auth, auth_NewAppModule (App_AppCodec a) (AccountKeeper (injected a))
                                                 (App_GetSubspace a (name_of Auth)))] in
        set_sm (RegisterStoreDecoders (NewSimulationManagerFromAppModules (ModuleManager_Modules (runtime_App a)) overrideModules)) a);
  _ ← modify (fun a => set_runtime (SetInitChainer VersionMapInitChainer (runtime_App a)) a);
  on_runtime (Load loadLatest).

Definition New (logger : Logger) (db : DB) (traceStore : Writer) (loadLatest : bool) (appOpts : Options)
    (baseAppOptions : list BaseAppOption) : res App :=
  match Inject (New_config logger appOpts) with
  | Err err => Panic (PErr err)
  | Ok (appBuilder, inj, params, gov, crisis) =>
      let baseAppOptions := baseAppOptions ++ [SetOptimisticExecution] in
      r ← Build appBuilder db traceStore baseAppOptions;
      match New_start loadLatest appOpts (MkApp r inj params gov crisis None None ∅ None) with
      | (Ok _, app) => Ok app
      | (Err err, _) => Err err
      | (Panic p, _) => Panic p
      | (Fuel, _) => Fuel
      end
  | Panic p => Panic p
  | Fuel => Fuel
  end.

(** ** The init chainer of the app *)

Section init_chain.
Context {W Request Response VersionMap : Type}.
Context (SetModuleVersionMap : UpgradeKeeper_t -> VersionMap -> AM W unit) (GetVersionMap : Modules -> VersionMap).
Context (runtime_InitChainer : R -> Request -> AM W Response).

(** The closure [New] sets. *)
Definition app_InitChainer (a : App) (req : Request) : AM W Response :=
  _ ← SetModuleVersionMap (UpgradeKeeper (injected a)) (GetVersionMap (ModuleManager_Modules (runtime_App a)));
  runtime_InitChainer (runtime_App a) req.
End init_chain.
End app.

(** ** What the packages promise *)

Class AppDepsOk (R P C : Type) `{D : AppDeps R P C} `{!CapabilityKeeperOk C} : Type := {
  store_name_inj :: Inj (=) (=) store_name;
  scope_name_inj :: Inj (=) (=) scope_name;
  resolve_inj :: Inj (=) (=) (resolve runtime_name ibctm_name solomachine_name);
  (** The runtime: the names of its modules, and its init chainer. *)
  module_names : R -> list gostring;
  chainer : R -> InitChainerKind;
  RegisterStores_new keys r : NoDup (AppStoreKey_Name <$> GetStoreKeys r ++ keys) -> exists r',
    RegisterStores keys r = (Ok tt, r') /\ GetStoreKeys r' = GetStoreKeys r ++ keys /\
    module_names r' = module_names r /\ chainer r' = chainer r;
  UnsafeFindStoreKey_spec r k : NoDup (AppStoreKey_Name <$> GetStoreKeys r) -> k ∈ GetStoreKeys r ->
    UnsafeFindStoreKey r (AppStoreKey_Name k) = Some k;
  AppModule_Name : AppModule_t -> gostring;
  ibc_modules_names cdc c k : AppModule_Name <$> ibc_modules cdc c k =
    resolve runtime_name ibctm_name solomachine_name <$> registered_ibc_modules;
  RegisterModules_new ms r : NoDup (module_names r ++ (AppModule_Name <$> ms)) -> exists r',
    RegisterModules ms r = (Ok tt, r') /\ module_names r' = module_names r ++ (AppModule_Name <$> ms) /\
    GetStoreKeys r' = GetStoreKeys r /\ chainer r' = chainer r;
  RegisterStreamingServices_safe o keys r : exists out r', RegisterStreamingServices o keys r = (out, r') /\
    safe out (fun _ => True) /\ GetStoreKeys r' = GetStoreKeys r /\ module_names r' = module_names r /\ chainer r' = chainer r;
  SetInitChainer_spec c r : chainer (SetInitChainer c r) = c /\
    GetStoreKeys (SetInitChainer c r) = GetStoreKeys r /\ module_names (SetInitChainer c r) = module_names r;
  (** The orders are complete: [Load] returns, possibly with the store's error. *)
  Load_safe latest r :
    module_names r ≡ₚ genesisModuleOrder ++
      (resolve runtime_name ibctm_name solomachine_name <$> [RuntimeName; TxName; IbcTm; Solomachine]) ->
    Forall (fun l => l ⊆ module_names r) [preBlockers; beginBlockers; endBlockers] ->
    exists out r', Load latest r = (out, r') /\ safe out (fun _ => True) /\
      GetStoreKeys r' = GetStoreKeys r /\ module_names r' = module_names r /\ chainer r' = chainer r;
  (** The params keeper: its subspaces and their tables. *)
  spaces : P -> gmap gostring (option KeyTable);
  space : gostring -> Subspace_t;
  Subspace_new n p : spaces p !! n = None -> exists p',
    Subspace n p = (Ok (space n), p') /\ spaces p' = <[n := None]> (spaces p);
  WithKeyTable_new n kt p : spaces p !! n = Some None -> exists p',
    WithKeyTable (space n) kt p = (Ok (space n), p') /\ spaces p' = <[n := Some kt]> (spaces p);
  Params_GetSubspace_spec p n : is_Some (spaces p !! n) -> Params_GetSubspace p n = (space n, true);
  connection_table : KeyTable;
  RegisterConnectionParams_ok : RegisterConnectionParams client_ParamKeyTable = Ok connection_table;
  (** The capability keeper is new, and a scoped keeper knows its module. *)
  NewCapabilityKeeper_scoped cdc k m : scoped (NewCapabilityKeeper cdc k m) = ∅;
  scope_of : ScopedKeeper -> gostring;
  ScopeToModule_scope n c sk c' : ScopeToModule n c = (Ok sk, c') -> scope_of sk = n;
  (** The constructors panic without a store key, an authority or the module's account. *)
  accounts_of : AccountKeeper_t -> list gostring;
  gov_authority_set : NewModuleAddress_String (name_of Gov) <> [];
  NewIBCKeeper_ok cdc k s st up sk auth : auth <> [] -> exists ik, NewIBCKeeper cdc (Some k) s st up sk auth = Ok ik;
  NewTransferKeeper_ok cdc k s f ch po ak bk sk auth : auth <> [] -> name_of IbcTransfer ∈ accounts_of ak ->
    exists tk, NewTransferKeeper cdc (Some k) s f ch po ak bk sk auth = Ok tk;
  NewHostKeeper_ok cdc k s f ch po ak sk mr auth : auth <> [] -> name_of Ica ∈ accounts_of ak ->
    exists hk, NewHostKeeper cdc (Some k) s f ch po ak sk mr auth = Ok hk;
  NewControllerKeeper_ok cdc k s f ch po sk mr auth : auth <> [] ->
    exists ck, NewControllerKeeper cdc (Some k) s f ch po sk mr auth = Ok ck;
  gov_AddProposalRoute_ok : exists r, gov_AddProposalRoute gov_NewRouter = Ok r;
  (** The router of ports. *)
  routes : PortRouter -> gmap gostring IBCModule;
  port_NewRouter_routes : routes port_NewRouter = ∅;
  port_AddRoute_new r s m : routes r !! scope_name s = None -> exists r',
    port_AddRoute r (scope_name s) m = Ok r' /\ routes r' = <[scope_name s := m]> (routes r);
  router_of : IBCKeeper_t -> option PortRouter;
  NewIBCKeeper_router cdc k s st up sk auth ik : NewIBCKeeper cdc k s st up sk auth = Ok ik -> router_of ik = None;
  IBC_SetRouter_new ik r : router_of ik = None -> exists ik', IBC_SetRouter ik r = Ok ik' /\ router_of ik' = Some r }.

(** ** Registration *)

Section registration.
Context {R P C : Type} `{AppDepsOk R P C}.
Implicit Types (a : App) (k : IbcKeepers) (c : C).

Abbreviation app_resolve := (resolve runtime_name ibctm_name solomachine_name).

(** The key table of a subspace. *)
Definition table_of (s : ibc_scope) : KeyTable :=
  match s with
  | IbcScope => connection_table | TransferScope => transfer_ParamKeyTable
  | ControllerScope => controller_ParamKeyTable | HostScope => host_ParamKeyTable
  end.

Definition kv_key (n : ibc_store) : option AppStoreKey := Some (KVStoreKey (store_name n)).

(** Every keeper is made from its own store key, subspace and capabilities and
    the same channels, with governance as its authority. *)
Record keepers_wired (inj : Injected) (mr : MsgRouter) (qr : QueryRouter) k : Prop := {
  w_scopes : scope_of (ScopedIBCKeeper k) = scope_name IbcScope /\ scope_of (ScopedIBCTransferKeeper k) = scope_name TransferScope /\
    scope_of (ScopedICAControllerKeeper k) = scope_name ControllerScope /\ scope_of (ScopedICAHostKeeper k) = scope_name HostScope;
  w_ibc : NewIBCKeeper (appCodec inj) (kv_key IbcStore) (space (scope_name IbcScope)) (StakingKeeper inj) (UpgradeKeeper inj)
    (ScopedIBCKeeper k) gov_authority = Ok (IBCKeeper k);
  w_fee : IBCFeeKeeper k = NewFeeKeeper (appCodec inj) (kv_key FeeStore) (IBC_ChannelKeeper (IBCKeeper k))
    (IBC_ChannelKeeper (IBCKeeper k)) (IBC_PortKeeper (IBCKeeper k)) (AccountKeeper inj) (BankKeeper inj);
  w_transfer : NewTransferKeeper (appCodec inj) (kv_key TransferStore) (space (scope_name TransferScope)) (IBCFeeKeeper k)
    (IBC_ChannelKeeper (IBCKeeper k)) (IBC_PortKeeper (IBCKeeper k)) (AccountKeeper inj) (BankKeeper inj)
    (ScopedIBCTransferKeeper k) gov_authority = Ok (TransferKeeper k);
  w_host : exists host, NewHostKeeper (appCodec inj) (kv_key HostStore) (space (scope_name HostScope)) (IBCFeeKeeper k)
    (IBC_ChannelKeeper (IBCKeeper k)) (IBC_PortKeeper (IBCKeeper k)) (AccountKeeper inj) (ScopedICAHostKeeper k) mr
    gov_authority = Ok host /\ ICAHostKeeper k = WithQueryRouter host qr;
  w_controller : NewControllerKeeper (appCodec inj) (kv_key ControllerStore) (space (scope_name ControllerScope)) (IBCFeeKeeper k)
    (IBC_ChannelKeeper (IBCKeeper k)) (IBC_PortKeeper (IBCKeeper k)) (ScopedICAControllerKeeper k) mr gov_authority =
    Ok (ICAControllerKeeper k) }.

(** The routes of the three applications, all behind the fee middleware. *)
Definition ibc_routes k : gmap gostring IBCModule :=
  <[scope_name HostScope := fee_NewIBCMiddleware (host_NewIBCModule (ICAHostKeeper k)) (IBCFeeKeeper k)]>
  (<[scope_name ControllerScope := fee_NewIBCMiddleware (controller_NewIBCMiddleware None (ICAControllerKeeper k)) (IBCFeeKeeper k)]>
  {[scope_name TransferScope := fee_NewIBCMiddleware (transfer_NewIBCModule (TransferKeeper k)) (IBCFeeKeeper k)]}).

(** An app whose stores, subspaces and modules leave room for the IBC modules. *)
Record unregistered a : Prop := {
  u_stores : NoDup (AppStoreKey_Name <$> GetStoreKeys (runtime_App a) ++ ibc_store_keys);
  u_spaces s : spaces (ParamsKeeper a) !! scope_name s = None;
  u_modules : NoDup (module_names (runtime_App a) ++ (app_resolve <$> registered_ibc_modules));
  u_accounts : [name_of IbcTransfer; name_of Ica] ⊆ accounts_of (AccountKeeper (injected a)) }.

Lemma on_params_run {X} (m : AM P X) a x p : m (ParamsKeeper a) = (Ok x, p) -> on_params m a = (Ok x, set_ParamsKeeper p a).
Proof. unfold on_params. now intros ->. Qed.
Lemma on_runtime_run {X} (m : AM R X) a x r : m (runtime_App a) = (x, r) -> on_runtime m a = (x, set_runtime r a).
Proof. unfold on_runtime. now intros ->. Qed.

(** One subspace with its table. *)
Lemma subspace_run s kt a : spaces (ParamsKeeper a) !! scope_name s = None -> exists p,
  register_subspace s kt a = (Ok tt, set_ParamsKeeper p a) /\
  spaces p = <[scope_name s := Some kt]> (spaces (ParamsKeeper a)).
Proof.
  intros Hs. destruct (Subspace_new _ _ Hs) as (p1 & E1 & S1).
  destruct (WithKeyTable_new (scope_name s) kt p1) as (p2 & E2 & S2); [rewrite S1; apply lookup_insert_eq|].
  exists p2. unfold register_subspace. rewrite (AM_bind_ok _ _ _ _ _ (on_params_run _ a _ _ E1)).
  rewrite (AM_bind_ok _ _ _ _ _ (on_params_run _ (set_ParamsKeeper p1 a) _ _ E2)). split; [now destruct a|].
  rewrite S2, S1. apply insert_insert_eq.
Qed.

Lemma scope_ne (s s' : ibc_scope) : s <> s' -> scope_name s <> scope_name s'.
Proof. intros N E. now apply N, (inj scope_name). Qed.

Lemma register_subspaces_run a : (forall s, spaces (ParamsKeeper a) !! scope_name s = None) -> exists p,
  register_subspaces a = (Ok tt, set_ParamsKeeper p a) /\ forall s, spaces p !! scope_name s = Some (Some (table_of s)).
Proof.
  intros Hs. unfold register_subspaces. rewrite RegisterConnectionParams_ok, pure_bind.
  destruct (subspace_run IbcScope connection_table a (Hs _)) as (p1 & E1 & S1).
  destruct (subspace_run TransferScope transfer_ParamKeyTable (set_ParamsKeeper p1 a)) as (p2 & E2 & S2);
    [cbn; now rewrite S1, lookup_insert_ne by now apply scope_ne|].
  destruct (subspace_run ControllerScope controller_ParamKeyTable (set_ParamsKeeper p2 a)) as (p3 & E3 & S3);
    [cbn in *; now rewrite S2, S1, !lookup_insert_ne by now apply scope_ne|].
  destruct (subspace_run HostScope host_ParamKeyTable (set_ParamsKeeper p3 a)) as (p4 & E4 & S4);
    [cbn in *; now rewrite S3, S2, S1, !lookup_insert_ne by now apply scope_ne|].
  exists p4. rewrite (AM_bind_ok _ _ _ _ _ E1), (AM_bind_ok _ _ _ _ _ E2), (AM_bind_ok _ _ _ _ _ E3). split; [exact E4|].
  cbn in *. intros s. rewrite S4, S3, S2, S1.
  destruct s; rewrite ?lookup_insert_ne by (now apply scope_ne); apply lookup_insert_eq.
Qed.

Local Ltac not_scoped :=
  rewrite ?not_elem_of_union, ?not_elem_of_singleton; split_and?;
    first [apply not_elem_of_empty | now apply scope_ne].

Lemma scope_ibc_run a : exists sk1 sk2 sk3 sk4 c, scope_ibc a = (Ok (sk1, sk2, sk3, sk4), c) /\
  scope_of sk1 = scope_name IbcScope /\ scope_of sk2 = scope_name TransferScope /\
  scope_of sk3 = scope_name ControllerScope /\ scope_of sk4 = scope_name HostScope /\ forall s, scope_name s ∈ scoped c.
Proof.
  unfold scope_ibc. set (c0 := NewCapabilityKeeper _ _ _).
  assert (S0 : scoped c0 = ∅) by apply NewCapabilityKeeper_scoped.
  destruct (ScopeToModule_new (scope_name IbcScope) c0) as (sk1 & c1 & E1 & S1); [rewrite S0; not_scoped|].
  destruct (ScopeToModule_new (scope_name TransferScope) c1) as (sk2 & c2 & E2 & S2); [rewrite S1, S0; not_scoped|].
  destruct (ScopeToModule_new (scope_name ControllerScope) c2) as (sk3 & c3 & E3 & S3); [rewrite S2, S1, S0; not_scoped|].
  destruct (ScopeToModule_new (scope_name HostScope) c3) as (sk4 & c4 & E4 & S4); [rewrite S3, S2, S1, S0; not_scoped|].
  exists sk1, sk2, sk3, sk4, c4.
  rewrite (AM_bind_ok _ _ _ _ _ E1), (AM_bind_ok _ _ _ _ _ E2), (AM_bind_ok _ _ _ _ _ E3), (AM_bind_ok _ _ _ _ _ E4).
  split; [reflexivity|]. repeat (split; [eapply ScopeToModule_scope; eassumption|]).
  intros s. rewrite S4, S3, S2, S1, !elem_of_union, !elem_of_singleton. destruct s; tauto.
Qed.

(** The registered keys are the ones the keepers get. *)
Lemma ibc_keys_found a : NoDup (AppStoreKey_Name <$> GetStoreKeys (runtime_App a)) -> ibc_store_keys ⊆ GetStoreKeys (runtime_App a) ->
  Forall (fun n => App_GetKey a n = kv_key n) [CapabilityStore; IbcStore; TransferStore; FeeStore; HostStore; ControllerStore].
Proof.
  intros Hn Hk. rewrite !Forall_cons, Forall_nil. unfold App_GetKey, GetKey.
  assert (G : forall n, KVStoreKey (store_name n) ∈ ibc_store_keys ->
    UnsafeFindStoreKey (runtime_App a) (store_name n) = Some (KVStoreKey (store_name n))).
  { intros n Hi. exact (UnsafeFindStoreKey_spec _ (KVStoreKey (store_name n)) Hn (Hk _ Hi)). }
  repeat split; rewrite G; try reflexivity; unfold ibc_store_keys; rewrite !elem_of_cons; tauto.
Qed.

Lemma new_ibc_keepers_run a sk1 sk2 sk3 sk4 :
  NoDup (AppStoreKey_Name <$> GetStoreKeys (runtime_App a)) -> ibc_store_keys ⊆ GetStoreKeys (runtime_App a) ->
  (forall s, is_Some (spaces (ParamsKeeper a) !! scope_name s)) ->
  [name_of IbcTransfer; name_of Ica] ⊆ accounts_of (AccountKeeper (injected a)) ->
  scope_of sk1 = scope_name IbcScope -> scope_of sk2 = scope_name TransferScope ->
  scope_of sk3 = scope_name ControllerScope -> scope_of sk4 = scope_name HostScope ->
  exists k, new_ibc_keepers a sk1 sk2 sk3 sk4 = Ok k /\
    keepers_wired (injected a) (MsgServiceRouter (runtime_App a)) (GRPCQueryRouter (runtime_App a)) k.
Proof.
  intros Hn Hk Hs Ha S1 S2 S3 S4. pose proof (ibc_keys_found a Hn Hk) as F. rewrite !Forall_cons in F.
  destruct F as (_ & F1 & F2 & F3 & F4 & F5 & _).
  assert (G : forall s, App_GetSubspace a (scope_name s) = space (scope_name s))
    by (intros s; unfold App_GetSubspace; now rewrite Params_GetSubspace_spec).
  unfold new_ibc_keepers. rewrite F1, F2, F3, F4, F5, !G. unfold kv_key, App_AppCodec.
  edestruct (fun s => NewIBCKeeper_ok (appCodec (injected a)) (KVStoreKey (store_name IbcStore)) s (StakingKeeper (injected a))
    (UpgradeKeeper (injected a)) sk1 gov_authority gov_authority_set) as [ik E1]. rewrite E1. cbn [mbind res_bind].
  edestruct NewTransferKeeper_ok as [tk E2]; [exact gov_authority_set | apply Ha; now left |]. rewrite E2. cbn [mbind res_bind].
  edestruct NewHostKeeper_ok as [hk E3]; [exact gov_authority_set | apply Ha; right; now left |]. rewrite E3. cbn [mbind res_bind].
  edestruct NewControllerKeeper_ok as [ck E4]; [exact gov_authority_set|]. rewrite E4. cbn [mbind res_bind].
  eexists. split; [reflexivity|]. split; cbn; eauto.
Qed.

Lemma ibc_router_run k : exists router, ibc_router k = Ok router /\ routes router = ibc_routes k.
Proof.
  unfold ibc_router. cbv zeta.
  edestruct (port_AddRoute_new port_NewRouter TransferScope) as (r1 & E1 & R1); [rewrite port_NewRouter_routes; apply lookup_empty|].
  rewrite E1. cbn [mbind res_bind]. rewrite port_NewRouter_routes in R1.
  edestruct (port_AddRoute_new r1 ControllerScope) as (r2 & E2 & R2);
    [rewrite R1; now rewrite lookup_insert_ne by now apply scope_ne|].
  rewrite E2. cbn [mbind res_bind].
  edestruct (port_AddRoute_new r2 HostScope) as (r3 & E3 & R3);
    [rewrite R2, R1; now rewrite !lookup_insert_ne by now apply scope_ne|].
  exists r3. split; [exact E3|]. rewrite R3, R2, R1. unfold ibc_routes. now rewrite insert_empty.
Qed.

(** What registration adds to an app. *)
Record registered_ibc a a' : Prop := {
  r_injected : injected a' = injected a;
  r_stores : GetStoreKeys (runtime_App a') = GetStoreKeys (runtime_App a) ++ ibc_store_keys;
  r_modules : module_names (runtime_App a') = module_names (runtime_App a) ++ (app_resolve <$> registered_ibc_modules);
  r_spaces s : spaces (ParamsKeeper a') !! scope_name s = Some (Some (table_of s));
  r_keepers : exists k c mr qr ik0 router, ibc a' = Some k /\ CapabilityKeeper_ a' = Some c /\
    keepers_wired (injected a) mr qr (with_IBCKeeper ik0 k) /\
    router_of (IBCKeeper k) = Some router /\ routes router = ibc_routes k /\ forall s, scope_name s ∈ scoped c;
  r_memo : app_ScopedKeepers a' = app_ScopedKeepers a }.

Lemma registerIBCModules_run a : unregistered a -> exists a', registerIBCModules a = (Ok tt, a') /\ registered_ibc a a'.
Proof.
  intros [Us Up Um Ua]. unfold registerIBCModules.
  destruct (RegisterStores_new _ _ Us) as (r1 & E1 & K1 & M1 & _). rewrite (AM_bind_ok _ _ _ _ _ (on_runtime_run _ a _ _ E1)).
  destruct (register_subspaces_run (set_runtime r1 a) Up) as (p & E2 & Sp). rewrite (AM_bind_ok _ _ _ _ _ E2), ask_bind.
  set (a2 := set_ParamsKeeper p (set_runtime r1 a)).
  destruct (scope_ibc_run a2) as (sk1 & sk2 & sk3 & sk4 & c & E3 & S1 & S2 & S3 & S4 & Sc). rewrite E3, pure_bind.
  destruct (new_ibc_keepers_run a2 sk1 sk2 sk3 sk4) as (k & E4 & W); try assumption.
  { cbn. now rewrite K1. }
  { cbn. rewrite K1. intros x Hx. apply elem_of_app. now right. }
  { intros s. cbn. rewrite Sp. eauto. }
  rewrite E4, pure_bind. destruct gov_AddProposalRoute_ok as [gr Eg]. rewrite Eg, pure_bind.
  rewrite (AM_bind_ok _ _ _ _ _ (eq_refl : modify _ a2 = (Ok tt, _))).
  destruct (ibc_router_run k) as (router & Er & Rr). rewrite Er, pure_bind.
  destruct (IBC_SetRouter_new (IBCKeeper k) router (NewIBCKeeper_router _ _ _ _ _ _ _ _ (w_ibc _ _ _ _ W))) as (ik & Ei & Ri).
  rewrite Ei, pure_bind. rewrite (AM_bind_ok _ _ _ _ _ (eq_refl : modify _ _ = (Ok tt, _))).
  destruct (RegisterModules_new (ibc_modules (App_AppCodec a2) c (with_IBCKeeper ik k)) r1) as (r2 & E5 & M2 & K2 & _).
  { now rewrite ibc_modules_names, M1. }
  rewrite (on_runtime_run _ (set_ibc c (with_IBCKeeper ik k) (set_GovKeeper (SetLegacyRouter (GovKeeper a2) gr) a2)) _ _ E5).
  eexists. split; [reflexivity|]. split; cbn; try assumption || reflexivity.
  - now rewrite K2, K1.
  - now rewrite M2, ibc_modules_names, M1.
  - exists (with_IBCKeeper ik k), c, (MsgServiceRouter r1), (GRPCQueryRouter r1), (IBCKeeper k), router.
    split; [reflexivity|]. split; [reflexivity|]. split; [now destruct k|]. split; [exact Ri|]. split; [exact Rr | exact Sc].
Qed.
End registration.

(** ** Starting the app *)

Section start.
Context {R P C : Type} `{AppDepsOk R P C}.
Context (Inject : DepConfig -> res (AppBuilder * Injected * P * GovKeeper_t * CrisisKeeper_t)).
Implicit Types (a : App).

Abbreviation app_resolve := (resolve runtime_name ibctm_name solomachine_name).

(** The modules of a configuration. *)
Fixpoint config_modules (c : DepConfig) : list (module_name * ModuleConfig) :=
  match c with
  | AppModules l => l
  | Supply _ => []
  | Configs l => concat (config_modules <$> l)
  end.

(** The injection builds what is configured: the account keeper has the
    configured module accounts, the app the configured modules, and neither
    knows the stores and subspaces of IBC. *)
Class Injects : Prop := {
  inject_outcome cfg : safe (Inject cfg) (fun _ => True);
  inject_accounts cfg b inj p g c prefix perms : Inject cfg = Ok (b, inj, p, g, c) ->
    (Sdk Auth, AuthModule prefix perms) ∈ config_modules cfg -> accounts_of (AccountKeeper inj) = perms.*1;
  inject_spaces cfg b inj p g c s : Inject cfg = Ok (b, inj, p, g, c) -> spaces p !! scope_name s = None;
  inject_build cfg b inj p g c db w opts : Inject cfg = Ok (b, inj, p, g, c) -> exists r, Build b db w opts = Ok r /\
    module_names r ≡ₚ app_resolve <$> (config_modules cfg).*1 /\
    NoDup (AppStoreKey_Name <$> GetStoreKeys r ++ ibc_store_keys) }.

Lemma New_config_modules logger o : config_modules (New_config logger o) = appConfig.
Proof. reflexivity. Qed.

(** The modules of a registered app are those of the orders. *)
Lemma registered_modules a a' : module_names (runtime_App a) ≡ₚ app_resolve <$> appConfig.*1 -> registered_ibc a a' ->
  module_names (runtime_App a') ≡ₚ genesisModuleOrder ++ (app_resolve <$> [RuntimeName; TxName; IbcTm; Solomachine]) /\
  Forall (fun l => l ⊆ module_names (runtime_App a')) [preBlockers; beginBlockers; endBlockers].
Proof.
  intros Hm W. destruct (app_modules_ordered runtime_name ibctm_name solomachine_name) as (Ho & Hh & _).
  assert (E : module_names (runtime_App a') ≡ₚ app_resolve <$> app_modules)
    by (rewrite (r_modules _ _ W), Hm; unfold app_modules; now rewrite fmap_app).
  split; [now rewrite E|]. eapply Forall_impl; [exact Hh|]. intros l Hl x Hx. rewrite E. now apply Hl.
Qed.

Lemma app_modules_nodup : NoDup (app_resolve <$> appConfig.*1 ++ registered_ibc_modules).
Proof. apply (NoDup_fmap_2 _). apply (app_modules_ordered runtime_name ibctm_name solomachine_name). Qed.

Lemma New_start_run latest o a : unregistered a -> module_names (runtime_App a) ≡ₚ app_resolve <$> appConfig.*1 ->
  exists a1, registered_ibc a a1 /\
    match RegisterStreamingServices o (kvStoreKeys (GetStoreKeys (runtime_App a1))) (runtime_App a1) with
    | (Ok _, r2) => match Load latest (SetInitChainer VersionMapInitChainer r2) with
        | (Ok _, r3) => exists a', New_start latest o a = (Ok tt, a') /\ runtime_App a' = r3 /\ registered_ibc a a' /\
            chainer (runtime_App a') = VersionMapInitChainer /\ is_Some (sm a')
        | (Err e, _) => (New_start latest o a).1 = Err e
        | _ => False
        end
    | (Err e, _) => (New_start latest o a).1 = Err e
    | _ => False
    end.
Proof.
  intros U Hm. destruct (registerIBCModules_run a U) as (a1 & E1 & W). exists a1. split; [exact W|].
  unfold New_start. rewrite (AM_bind_ok _ _ _ _ _ E1), ask_bind.
  destruct (RegisterStreamingServices_safe o (kvStoreKeys (GetStoreKeys (runtime_App a1))) (runtime_App a1))
    as (out & r2 & E2 & Hs & K2 & M2 & _). pose proof (on_runtime_run _ a1 _ _ E2) as E2'. rewrite E2.
  destruct out as [[]|e| |]; try contradiction; [|unfold mbind, AM_bind; now rewrite E2'].
  rewrite (AM_bind_ok _ _ _ _ _ E2'). unfold modify. do 3 (erewrite AM_bind_ok; [|reflexivity]).
  destruct (registered_modules a a1 Hm W) as [Ho Hh]. destruct (SetInitChainer_spec VersionMapInitChainer r2) as (C3 & K3 & M3).
  destruct (Load_safe latest (SetInitChainer VersionMapInitChainer r2)) as (out & r3 & E4 & Hs' & K4 & M4 & C4);
    [now rewrite M3, M2 | now rewrite M3, M2|]. rewrite E4.
  match goal with |- context [on_runtime (Load latest) ?x] => rewrite (on_runtime_run (Load latest) x out r3 E4) end.
  destruct out as [[]|e| |]; try contradiction; [|reflexivity].
  eexists. split; [reflexivity|]. split; [reflexivity|]. split; [|split; [cbn; congruence | now eexists]].
  destruct W as [W1 W2 W3 W4 W5 W6]. split; cbn; try assumption; [now rewrite K4, K3, K2 | now rewrite M4, M3, M2].
Qed.

(** The app [New] starts from is unregistered. *)
Lemma injected_unregistered `{!Injects} logger o db w opts b inj p g c : Inject (New_config logger o) = Ok (b, inj, p, g, c) ->
  exists r, Build b db w opts = Ok r /\ unregistered (MkApp r inj p g c None None ∅ None) /\
    module_names r ≡ₚ app_resolve <$> appConfig.*1.
Proof.
  intros E. destruct (inject_build _ _ _ _ _ _ db w opts E) as (r & Eb & Hm & Hk). rewrite New_config_modules in Hm.
  exists r. split; [exact Eb|]. split; [|exact Hm]. split; cbn [runtime_App ParamsKeeper injected].
  - exact Hk.
  - intros s. exact (inject_spaces _ _ _ _ _ _ s E).
  - rewrite Hm, <- fmap_app. exact app_modules_nodup.
  - rewrite (inject_accounts _ _ _ _ _ _ AccountAddressPrefix moduleAccPerms E) by (right; now left).
    intros x Hx. rewrite !elem_of_cons in Hx. cbn. rewrite !elem_of_cons. destruct Hx as [->|[->|Hx]]; [tauto|tauto|].
    now apply not_elem_of_nil in Hx.
Qed.

(** C22: [New] panics when the injection fails; after a successful injection nothing
    panics, and the error of [New] is that of the streaming services or of
    loading, which run with the IBC stores, modules and the init chainer in
    place. *)
Theorem New_outcome `{!Injects} logger db w latest o opts :
  match Inject (New_config logger o) with
  | Err e => New Inject logger db w latest o opts = Panic (PErr e)
  | Ok _ => exists r1, ibc_store_keys ⊆ GetStoreKeys r1 /\ app_resolve <$> registered_ibc_modules ⊆ module_names r1 /\
      match RegisterStreamingServices o (kvStoreKeys (GetStoreKeys r1)) r1 with
      | (Ok _, r2) => match Load latest (SetInitChainer VersionMapInitChainer r2) with
          | (Ok _, r3) => exists app, New Inject logger db w latest o opts = Ok app /\ runtime_App app = r3
          | (Err e, _) => New Inject logger db w latest o opts = Err e
          | _ => False
          end
      | (Err e, _) => New Inject logger db w latest o opts = Err e
      | _ => False
      end
  | _ => False
  end.
Proof.
  pose proof (inject_outcome (New_config logger o)) as S. unfold New.
  destruct (Inject (New_config logger o)) as [[[[[b inj] p] g] c]|e| |] eqn:E; try contradiction; [|reflexivity].
  destruct (injected_unregistered logger o db w (opts ++ [SetOptimisticExecution]) _ _ _ _ _ E) as (r & Eb & U & Hm).
  rewrite Eb. cbn [mbind res_bind]. destruct (New_start_run latest o _ U Hm) as (a1 & W & Hr). exists (runtime_App a1).
  split; [rewrite (r_stores _ _ W); intros x Hx; apply elem_of_app; now right|].
  split; [rewrite (r_modules _ _ W); intros x Hx; apply elem_of_app; now right|].
  destruct (RegisterStreamingServices _ _ _) as [[?|?| |] r2]; try contradiction;
    [destruct (Load _ _) as [[?|?| |] r3]; try contradiction|].
  - destruct Hr as (a' & -> & Er & _). now exists a'.
  - destruct (New_start _ _ _) as [[?|?| |] ?]; cbn in Hr; congruence.
  - destruct (New_start _ _ _) as [[?|?| |] ?]; cbn in Hr; congruence.
Qed.

(** C12: An app that [New] returns has the IBC stores, subspaces with their key
    tables, modules and routes, and every IBC keeper is made from its own store
    key, subspace and capabilities, with governance as its authority.  A scoped
    keeper of these modules cannot be requested from it: the request panics. *)
Theorem New_wired `{!Injects} logger db w latest o opts app : New Inject logger db w latest o opts = Ok app ->
  exists b inj p g c r cap,
    Inject (New_config logger o) = Ok (b, inj, p, g, c) /\ Build b db w (opts ++ [SetOptimisticExecution]) = Ok r /\
    registered_ibc (MkApp r inj p g c None None ∅ None) app /\
    chainer (runtime_App app) = VersionMapInitChainer /\ CapabilityKeeper_ app = Some cap /\
    forall s, exists why, (GetCapabilityScopedKeeper (scope_name s) (MkScoping cap (app_ScopedKeepers app))).1 = Panic why.
Proof.
  unfold New. destruct (Inject (New_config logger o)) as [[[[[b inj] p] g] c]|e| |] eqn:E; try discriminate.
  destruct (injected_unregistered logger o db w (opts ++ [SetOptimisticExecution]) _ _ _ _ _ E) as (r & Eb & U & Hm).
  rewrite Eb. cbn [mbind res_bind]. destruct (New_start_run latest o _ U Hm) as (a1 & _ & Hr).
  destruct (New_start _ _ _) as [[[]|?| |] a'] eqn:En; try discriminate. intros Ea. injection Ea as ->.
  assert (W : registered_ibc (MkApp r inj p g c None None ∅ None) app /\ chainer (runtime_App app) = VersionMapInitChainer).
  { destruct (RegisterStreamingServices _ _ _) as [[?|?| |] r2]; try contradiction; [|discriminate].
    destruct (Load _ _) as [[?|?| |] r3]; try contradiction; [|discriminate].
    destruct Hr as (a' & Ea & _ & W & Hc & _). now injection Ea as <-. }
  destruct W as [W Hc]. destruct (r_keepers _ _ W) as (k & cap & mr & qr & ik & ro & Ek & Ec & Wk & _ & _ & Hs).
  exists b, inj, p, g, c, r, cap. repeat (split; [assumption || reflexivity|]).
  intros s. rewrite (r_memo _ _ W). unfold GetCapabilityScopedKeeper, scope_to_module, mbind, AM_bind. cbn.
  rewrite lookup_empty. destruct (ScopeToModule_dup _ _ (Hs s)) as [why ->]. now exists why.
Qed.
End start.
