(* ===== verification/AppRoot.v ===== *)
(** * The daemon's command tree

    [cmd/HalbornCTFd/cmd/root.go], [commands.go] and [config.go],
    [cmd/HalbornCTFd/main.go], the prefixes of [app/config.go], the API routes
    of [app/app.go] and [docs/docs.go], and the test support of
    [testutil/network] and [testutil/nullify].  The commands of other packages, the
    injection and the client context are parameters ([Cli], with the law of autocli in [CliOk]).  The theorems:
    in the tree [NewRootCmd] returns, the commands of [commands.go] have the
    app's defaults for the chain id and the keyring whatever the order of Go's
    maps, the other commands were added by autocli after the defaults were
    set; the IBC modules are added to the injected ones; and the address
    prefixes of the SDK's configuration are those of the app configuration. *)

From Stdlib Require Import Ascii.
From S2P Require Import Prelude Types AppMonad AppConfig AppCommands AppNew.

(** ** Prefixes: [app/config.go] *)

(** [sdk.Config]. *)
Record SdkConfig := MkSdkConfig {
  Bech32AccountPrefix : string * string; Bech32ValidatorPrefix : string * string; Bech32ConsensusPrefix : string * string;
  sealed : bool }.

(** The setters panic on a sealed configuration. *)
Definition config_set (f : SdkConfig -> SdkConfig) : AM SdkConfig unit := fun c =>
  if sealed c then (Panic (PMsg "Config is sealed"), c) else (Ok tt, f c).

Definition config_Seal : AM SdkConfig unit := fun c =>
  (Ok tt, MkSdkConfig (Bech32AccountPrefix c) (Bech32ValidatorPrefix c) (Bech32ConsensusPrefix c) true).

Definition config_init : AM SdkConfig unit :=
  let accountPubKeyPrefix := (AccountAddressPrefix +:+ "pub")%string in
  let validatorAddressPrefix := (AccountAddressPrefix +:+ "valoper")%string in
  let validatorPubKeyPrefix := (AccountAddressPrefix +:+ "valoperpub")%string in
  let consNodeAddressPrefix := (AccountAddressPrefix +:+ "valcons")%string in
  let consNodePubKeyPrefix := (AccountAddressPrefix +:+ "valconspub")%string in
  _ ← config_set (fun c => MkSdkConfig (AccountAddressPrefix, accountPubKeyPrefix) (Bech32ValidatorPrefix c) (Bech32ConsensusPrefix c) (sealed c));
  _ ← config_set (fun c => MkSdkConfig (Bech32AccountPrefix c) (validatorAddressPrefix, validatorPubKeyPrefix) (Bech32ConsensusPrefix c) (sealed c));
  _ ← config_set (fun c => MkSdkConfig (Bech32AccountPrefix c) (Bech32ValidatorPrefix c) (consNodeAddressPrefix, consNodePubKeyPrefix) (sealed c));
  config_Seal.

(** ** Commands *)

Inductive Run := NoRun | ValidateCmd | OtherRun (name : string).
(** The fields of a [cobra.Command]; whether it has the pre-run of [NewRootCmd]. *)
Record CommandInfo := MkInfo {
  Use : string; Aliases : list string; Short : string; SilenceErrors : bool; DisableFlagParsing : bool;
  SuggestionsMinimumDistance : Z; RunE : Run; has_PreRunE : bool }.

Section commands.
Context {V : Type} (Value_Set : V -> string -> option V) (string_value : string -> V).
Abbreviation Cmd := (@Command V CommandInfo).

Definition AddCommand (c : Cmd) (cs : list Cmd) : Cmd :=
  match c with MkCommand info fl pfl cs0 => MkCommand info fl pfl (cs0 ++ cs) end.

(** [c.PersistentFlags().String(name, value, usage)]. *)
Definition PersistentString (name value : string) (c : Cmd) : res Cmd :=
  match c with MkCommand info fl pfl cs =>
    match pfl !! name with
    | Some _ => Panic (PMsg "flag redefined")
    | None => Ok (MkCommand info fl (<[name := MkFlag value (string_value value)]> pfl) cs)
    end
  end.

Definition FlagChainID : string := "chain-id".
Definition FlagKeyringBackend : string := "keyring-backend".

(** ** The packages the commands come from *)

Class Cli : Type := {
  TxConfig : Type; ClientContext : Type; AutoCli : Type; CMTConfig : Type; ServerConfig : Type; BasicModule : Type;
  cmtcfg_DefaultConfig : CMTConfig; serverconfig_DefaultConfig : ServerConfig; DefaultConfigTemplate : string;
  crisis_AddModuleInitFlags : Cmd -> Cmd;
  genutil_InitCmd : gmap gostring BasicModule -> string -> Cmd;
  genutil_Commands : TxConfig -> gmap gostring BasicModule -> string -> Cmd;
  NewInPlaceTestnetCmd_ : (Cmd -> Cmd) -> Cmd;
  debug_Cmd : Cmd; confix_ConfigCommand : Cmd; pruning_Cmd : string -> Cmd; snapshot_Cmd : Cmd;
  server_AddCommands : string -> (Cmd -> Cmd) -> Cmd -> Cmd;
  server_StatusCommand : Cmd; keys_Commands : Cmd; LineBreak : Cmd;
  rpc_QueryEventForTxCmd : Cmd; rpc_ValidatorCommand : Cmd; server_QueryBlockCmd : Cmd; authcmd_QueryTxsByEventsCmd : Cmd;
  server_QueryBlocksCmd : Cmd; authcmd_QueryTxCmd : Cmd; server_QueryBlockResultsCmd : Cmd;
  authcmd_GetSignCommand : Cmd; authcmd_GetSignBatchCommand : Cmd; authcmd_GetMultiSignCommand : Cmd;
  authcmd_GetMultiSignBatchCmd : Cmd; authcmd_GetValidateSignaturesCommand : Cmd; authcmd_GetBroadcastCommand : Cmd;
  authcmd_GetEncodeCommand : Cmd; authcmd_GetDecodeCommand : Cmd; authcmd_GetSimulateCmd : Cmd;
  (** The client context. *)
  Codec_t : Type; Registry : Type; Amino : Type; TxConfigOptions : Type; MetadataQueryFn : Type;
  Context_zero : ClientContext;
  WithCodec : Codec_t -> ClientContext -> ClientContext; WithInterfaceRegistry : Registry -> ClientContext -> ClientContext;
  WithLegacyAmino : Amino -> ClientContext -> ClientContext; WithStdin : ClientContext -> ClientContext;
  WithAccountRetriever : ClientContext -> ClientContext; WithHomeDir : string -> ClientContext -> ClientContext;
  WithViper : string -> ClientContext -> ClientContext;
  ctx_Codec : ClientContext -> Codec_t;
  (** The context is returned beside the error. *)
  ReadFromClientConfig : ClientContext -> ClientContext * option goerror;
  NewGRPCCoinMetadataQueryFn : ClientContext -> MetadataQueryFn;
  WithTextualCoinMetadataQueryFn : MetadataQueryFn -> TxConfigOptions -> TxConfigOptions;
  NewTxConfigWithOptions : Codec_t -> TxConfigOptions -> res TxConfig;
  WithTxConfig : TxConfig -> ClientContext -> ClientContext;
  ctx_TxConfig : ClientContext -> TxConfig;
  CoreAppModuleBasicAdaptor : module_name -> BasicModule;
  EnhanceRootCommand : AutoCli -> gmap gostring module_name -> Cmd -> res Cmd }.

Context `{Cli} (DefaultNodeHome : string).

(** [config.go]. *)
Definition initCometBFTConfig : CMTConfig := let cfg := cmtcfg_DefaultConfig in cfg.
Record CustomAppConfig := MkCustomAppConfig { custom_Config : ServerConfig }.
Definition initAppConfig : string * CustomAppConfig :=
  let srvCfg := serverconfig_DefaultConfig in
  let customAppConfig := MkCustomAppConfig srvCfg in
  let customAppTemplate := DefaultConfigTemplate in
  (customAppTemplate, customAppConfig).

(** [commands.go]. *)
Definition addModuleInitFlags (startCmd : Cmd) : Cmd := crisis_AddModuleInitFlags startCmd.

Definition genesisCommand (txConfig : TxConfig) (basicManager : gmap gostring BasicModule) (cmds : list Cmd) : Cmd :=
  foldl (fun cmd subCmd => AddCommand cmd [subCmd]) (genutil_Commands txConfig basicManager DefaultNodeHome) cmds.

Definition queryCommand : res Cmd :=
  let cmd := MkCommand (MkInfo "query" ["q"] "Querying subcommands" false false 2 ValidateCmd false) ∅ ∅ [] in
  let cmd := AddCommand cmd [rpc_QueryEventForTxCmd; rpc_ValidatorCommand; server_QueryBlockCmd; authcmd_QueryTxsByEventsCmd;
    server_QueryBlocksCmd; authcmd_QueryTxCmd; server_QueryBlockResultsCmd] in
  PersistentString FlagChainID EmptyString cmd.

Definition txCommand : res Cmd :=
  let cmd := MkCommand (MkInfo "tx" [] "Transactions subcommands" false false 2 ValidateCmd false) ∅ ∅ [] in
  let cmd := AddCommand cmd [authcmd_GetSignCommand; authcmd_GetSignBatchCommand; authcmd_GetMultiSignCommand;
    authcmd_GetMultiSignBatchCmd; authcmd_GetValidateSignaturesCommand; LineBreak; authcmd_GetBroadcastCommand;
    authcmd_GetEncodeCommand; authcmd_GetDecodeCommand; authcmd_GetSimulateCmd] in
  PersistentString FlagChainID EmptyString cmd.

Definition initRootCmd (rootCmd : Cmd) (txConfig : TxConfig) (basicManager : gmap gostring BasicModule) : res Cmd :=
  let rootCmd := AddCommand rootCmd
    [genutil_InitCmd basicManager DefaultNodeHome; NewInPlaceTestnetCmd_ addModuleInitFlags; debug_Cmd;
     confix_ConfigCommand; pruning_Cmd DefaultNodeHome; snapshot_Cmd] in
  let rootCmd := server_AddCommands DefaultNodeHome addModuleInitFlags rootCmd in
  query ← queryCommand;
  tx ← txCommand;
  Ok (AddCommand rootCmd [server_StatusCommand; genesisCommand txConfig basicManager []; query; tx; keys_Commands]).

(** ** [root.go] *)

(** The error of the client configuration is not looked at. *)
Definition ProvideClientContext (appCodec : Codec_t) (interfaceRegistry : Registry) (txConfigOpts : TxConfigOptions)
    (legacyAmino : Amino) : res ClientContext :=
  let clientCtx := WithViper Name (WithHomeDir DefaultNodeHome (WithAccountRetriever (WithStdin
    (WithLegacyAmino legacyAmino (WithInterfaceRegistry interfaceRegistry (WithCodec appCodec Context_zero)))))) in
  let '(clientCtx, _) := ReadFromClientConfig clientCtx in
  let txConfigOpts := WithTextualCoinMetadataQueryFn (NewGRPCCoinMetadataQueryFn clientCtx) txConfigOpts in
  txConfig ← must (NewTxConfigWithOptions (ctx_Codec clientCtx) txConfigOpts);
  Ok (WithTxConfig txConfig clientCtx).

(** The pre-run of every command; [W] is what the handlers act on, the command's
    outputs included. *)
Definition PersistentPreRunE {W} (SetOut SetErr : AM W unit) (WithCmdContext : ClientContext -> ClientContext)
    (ReadPersistentCommandFlags : ClientContext -> res ClientContext)
    (SetCmdClientContextHandler : ClientContext -> AM W unit)
    (InterceptConfigsPreRunHandler : string -> CustomAppConfig -> CMTConfig -> AM W unit) (clientCtx : ClientContext) : AM W unit :=
  _ ← SetOut;
  _ ← SetErr;
  let clientCtx := WithCmdContext clientCtx in
  clientCtx ← pure (ReadPersistentCommandFlags clientCtx);
  clientCtx ← pure (match ReadFromClientConfig clientCtx with (c, None) => Ok c | (_, Some err) => Err err end);
  _ ← SetCmdClientContextHandler clientCtx;
  let '(customAppTemplate, customAppConfig) := initAppConfig in
  let customCMTConfig := initCometBFTConfig in
  InterceptConfigsPreRunHandler customAppTemplate customAppConfig customCMTConfig.

(** [strings.ReplaceAll(s, "-", "")]. *)
Fixpoint remove_dashes (s : string) : string :=
  match s with
  | EmptyString => EmptyString
  | String c s => if Ascii.eqb c "-"%char then remove_dashes s else String c (remove_dashes s)
  end.

Definition root_defaults : list (string * string) :=
  [(FlagChainID, remove_dashes Name); (FlagKeyringBackend, "test")].

Definition root_info : CommandInfo :=
  MkInfo (Name +:+ "d") [] "Start halbornctf node" true false 0 NoRun true.

(** [for name, mod := range ibcModules], in the given order of the map. *)
Definition add_ibc_modules (names : module_name -> gostring) (ibcModules : list module_name)
    (s : gmap gostring BasicModule * gmap gostring module_name) : gmap gostring BasicModule * gmap gostring module_name :=
  foldl (fun s x => (<[names x := CoreAppModuleBasicAdaptor x]> s.1, <[names x := x]> s.2)) s ibcModules.

(** [names] are the modules' names; [ibc_order] and [default_order] the orders
    in which the two maps are visited; [Inject] is the outcome of the injection
    of the app configuration with [ProvideClientContext]. *)
Definition NewRootCmd (names : module_name -> gostring) (ibc_order : list module_name) (default_order : list (string * string))
    (Inject : res (AutoCli * gmap gostring module_name * gmap gostring BasicModule * ClientContext)) : res Cmd :=
  match Inject with
  | Err err => Panic (PErr err)
  | Ok (autoCliOpts, autoCli_Modules, moduleBasicManager, clientCtx) =>
      let rootCmd := MkCommand root_info ∅ ∅ [] in
      let '(moduleBasicManager, autoCli_Modules) := add_ibc_modules names ibc_order (moduleBasicManager, autoCli_Modules) in
      rootCmd ← initRootCmd rootCmd (ctx_TxConfig clientCtx) moduleBasicManager;
      let rootCmd := overwriteFlagDefaults Value_Set default_order rootCmd in
      must (EnhanceRootCommand autoCliOpts autoCli_Modules rootCmd)
  | Panic p => Panic p
  | Fuel => Fuel
  end.

(** [main.go]: the exit code; the error is printed first. *)
Definition main (Execute : Cmd -> res unit) (rootCmd : res Cmd) : res Z :=
  c ← rootCmd;
  match Execute c with
  | Err _ => Ok 1
  | Ok _ => Ok 0
  | Panic p => Panic p
  | Fuel => Fuel
  end.
End commands.

(** A command and its subcommands' place in a tree, by their [Use]. *)
Section trees.
Context {V : Type}.
Abbreviation Cmd := (@Command V CommandInfo).

Definition cmd_info (c : Cmd) : CommandInfo := match c with MkCommand info _ _ _ => info end.
Definition cmd_Flags (c : Cmd) : gmap string Flag := match c with MkCommand _ fl _ _ => fl end.
Definition cmd_PersistentFlags (c : Cmd) : gmap string Flag := match c with MkCommand _ _ pfl _ => pfl end.
Definition cmd_Commands (c : Cmd) : list Cmd := match c with MkCommand _ _ _ cs => cs end.

Inductive subcommand : Cmd -> list string -> Cmd -> Prop :=
| sub_here c : subcommand c [] c
| sub_below c x path y : x ∈ cmd_Commands c -> subcommand x path y -> subcommand c (Use (cmd_info x) :: path) y.

(** The same commands with the same flags, among added ones. *)
#[local] Unset Elimination Schemes.
Inductive extends : Cmd -> Cmd -> Prop :=
| extends_node info fl pfl cs cs' kept added : Forall2 extends cs kept -> cs' ≡ₚ kept ++ added ->
    extends (MkCommand info fl pfl cs) (MkCommand info fl pfl cs').
#[local] Set Elimination Schemes.

(** autocli: "only adding missing commands and doesn't override commands
    already in the root command". *)
Class CliOk `{!Cli (V := V)} : Prop := {
  EnhanceRootCommand_adds auto mods c c' : EnhanceRootCommand auto mods c = Ok c' -> extends c c' }.
End trees.

(** [newApp] of [commands.go]: [app.New] of the latest state, whose error is a
    panic. *)
Definition newApp {R P C : Type} `{AppDeps R P C} (Inject : DepConfig -> res (AppBuilder * Injected * P * GovKeeper_t * CrisisKeeper_t))
    (DefaultBaseappOptions : Options -> list BaseAppOption) (logger : Logger) (db : DB) (traceStore : Writer)
    (appOpts : Options) : res App :=
  let baseappOptions := DefaultBaseappOptions appOpts in
  must (New Inject logger db traceStore true appOpts baseappOptions).

(** ** API routes: [app.go], [docs.go] *)

Section api.
Context {A Page Handler : Type}.
Context (Template_Execute : option Page -> string -> string -> A -> res unit * A).

Definition apiFile : string := "/static/openapi.yml".
Definition indexFile : string := "template/index.tpl".

(** The page's handler; errors of the template are dropped. *)
Definition handler (ParseFS : string -> option Page) (title : string) : AM A unit :=
  let t := ParseFS indexFile in
  fun w => match Template_Execute t title apiFile w with (Err _, w') => (Ok tt, w') | r => r end.

Definition RegisterOpenAPIService (FileServer : Handler) (HandlerFunc : AM A unit -> Handler) (ParseFS : string -> option Page)
    (appName : string) (rtr : list (string * Handler)) : list (string * Handler) :=
  rtr ++ [(apiFile, FileServer); ("/", HandlerFunc (handler ParseFS appName))].

(** [App.RegisterAPIRoutes]; the runtime's routes come first. *)
Definition RegisterAPIRoutes (FileServer : Handler) (HandlerFunc : AM A unit -> Handler) (ParseFS : string -> option Page)
    (runtime_RegisterAPIRoutes : list (string * Handler) -> list (string * Handler))
    (RegisterSwaggerAPI : list (string * Handler) -> res (list (string * Handler))) (rtr : list (string * Handler))
    : res (list (string * Handler)) :=
  let rtr := runtime_RegisterAPIRoutes rtr in
  rtr ← must (RegisterSwaggerAPI rtr);
  Ok (RegisterOpenAPIService FileServer HandlerFunc ParseFS Name rtr).
End api.

(** ** Test support: [testutil] *)

Section network.
Context {A : Type}.

(** [network.FreeTCPAddr]: a port and its open listener; [closeFn]. *)
Context (FreeTCPAddr : AM A (string * nat)) (closeFn : nat -> AM A unit).

Fixpoint listen_each (n : nat) : AM A (list (string * nat)) :=
  match n with
  | O => mret []
  | Datatypes.S n => p ← FreeTCPAddr; ps ← listen_each n; mret (p :: ps)
  end.

Definition freePorts (n : nat) : AM A (list string) :=
  ps ← listen_each n;
  _ ← for_each closeFn ps.*2;
  mret ps.*1.

Record NetConfig := MkNetConfig { APIAddress : string; RPCAddress : string; GRPCAddress : string }.
Definition or_address (addr fallback : string) : string := if bool_decide (addr = EmptyString) then fallback else addr.

(** [DefaultConfig]; an index out of range panics. *)
Definition net_DefaultConfig (DefaultConfigWithAppConfig : res NetConfig) : AM A NetConfig :=
  cfg ← or_panic (pure DefaultConfigWithAppConfig);
  ports ← or_panic (freePorts 3);
  match ports with
  | p0 :: p1 :: p2 :: _ =>
      mret (MkNetConfig (or_address (APIAddress cfg) ("tcp://0.0.0.0:" +:+ p0))
                        (or_address (RPCAddress cfg) ("tcp://0.0.0.0:" +:+ p1))
                        (or_address (GRPCAddress cfg) ("0.0.0.0:" +:+ p2)))
  | _ => pure (Panic (PMsg "index out of range"))
  end.

(** [New]; a failed requirement stops the test. *)
Definition net_New {N} (DefaultConfigWithAppConfig : res NetConfig) (network_New : NetConfig -> AM A N)
    (WaitForHeight : N -> Z -> AM A unit) (configs : list NetConfig) : AM A N :=
  match configs with
  | _ :: _ :: _ => pure (Panic (PMsg "at most one config should be provided"))
  | _ =>
      cfg ← match configs with [] => net_DefaultConfig DefaultConfigWithAppConfig | c :: _ => mret c end;
      net ← or_fatal (network_New cfg);
      _ ← or_fatal (WaitForHeight net 1);
      mret net
  end.
End network.

(** The Go values [nullify.Fill] tells apart: slices, structs with exported and
    other fields, [sdk.Coin], pointers, and the rest.  [sdk.Coins] is a slice. *)
#[local] Unset Elimination Schemes.
Inductive GoVal :=
| GoScalar (z : Z)
| GoCoin (denom : gostring) (amount : option Z)
| GoSlice (l : list GoVal)
| GoStruct (fields : list (bool * GoVal))
| GoPtr (p : option GoVal).
#[local] Set Elimination Schemes.

Definition is_ptr (v : GoVal) : bool := match v with GoPtr _ => true | _ => false end.

(** A field that can be set. *)
Definition fill_field (rec : GoVal -> res GoVal) (f : GoVal) : res GoVal :=
  match f with
  | GoSlice _ => Ok (GoSlice [])
  | GoCoin _ _ => Ok (GoCoin [] None)
  | GoStruct _ => rec f
  | _ => Ok f
  end.

(** The body of [Fill] on the value behind a pointer ([addr]) or not.  A slice
    element that is a pointer is replaced by what it points to, which
    [reflect.Value.Set] refuses; a field behind a pointer can be set anyway. *)
Fixpoint fill_at (addr : bool) (v : GoVal) {struct v} : res GoVal :=
  match v with
  | GoScalar _ | GoCoin _ _ => Ok v
  | GoSlice l =>
      l' ← (fix elems l := match l with
            | [] => Ok []
            | o :: l => o' ← (if is_ptr o then Panic (PMsg "reflect.Set: value is not assignable") else fill_at true o);
                        l' ← elems l; Ok (o' :: l')
            end) l;
      Ok (GoSlice l')
  | GoStruct fields =>
      fs ← (fix each fs := match fs with
            | [] => Ok []
            | (exported, f) :: fs =>
                f' ← match f with
                     | GoPtr (Some g) => if exported : bool then g' ← fill_field (fill_at true) g; Ok (GoPtr (Some g')) else Ok f
                     | GoPtr None => Ok f
                     | _ => if exported && addr then fill_field (fill_at true) f else Ok f
                     end;
                fs' ← each fs; Ok ((exported, f') :: fs')
            end) fields;
      Ok (GoStruct fs)
  | GoPtr (Some w) => Ok w
  | GoPtr None => Panic (PMsg "reflect: call of reflect.Value.Interface on zero Value")
  end.

Definition Fill (x : GoVal) : res GoVal :=
  match x with
  | GoPtr (Some v) => fill_at true v
  | GoPtr None => Panic (PMsg "reflect: call of reflect.Value.Interface on zero Value")
  | v => fill_at false v
  end.

(** ** Theorems *)

(** The SDK's configuration gets the prefixes the auth and staking modules are
    configured with, and is sealed. *)
Lemma prefixes_match_config `{SdkNames} c : sealed c = false -> exists c',
  config_init c = (Ok tt, c') /\ sealed c' = true /\
  (Sdk Auth, AuthModule (fst (Bech32AccountPrefix c')) moduleAccPerms) ∈ appConfig /\
  (Sdk Staking, StakingModule (fst (Bech32ValidatorPrefix c')) (fst (Bech32ConsensusPrefix c'))) ∈ appConfig.
Proof.
  intros E. unfold config_init, config_set, mbind, AM_bind. cbn. rewrite E. cbn.
  eexists. split; [reflexivity|]. split; [reflexivity|]. cbn. split; unfold appConfig; rewrite !elem_of_cons; tauto.
Qed.

Section root_theorems.
Context {V : Type} (Value_Set : V -> string -> option V) (string_value : string -> V) `{CLI : Cli V} `{!CliOk (V := V)} (DefaultNodeHome : string).
Implicit Types (names : module_name -> gostring).

(** The module maps after the loop, in any order. *)
Lemma add_ibc_modules_maps names l b m : NoDup (names <$> l) ->
  add_ibc_modules names l (b, m) =
    (list_to_map ((fun x => (names x, CoreAppModuleBasicAdaptor x)) <$> l) ∪ b, list_to_map ((fun x => (names x, x)) <$> l) ∪ m).
Proof.
  revert b m. induction l as [|x l IH]; intros b m Hn; [cbn; now rewrite !(left_id_L ∅ (∪))|].
  rewrite fmap_cons in Hn. apply NoDup_cons in Hn as [Hx Hn].
  transitivity (add_ibc_modules names l (<[names x := CoreAppModuleBasicAdaptor x]> b, <[names x := x]> m)); [reflexivity|].
  rewrite IH by assumption. rewrite !fmap_cons.
  assert (N : forall {A} (f : module_name -> A), (list_to_map ((fun x => (names x, f x)) <$> l) : gmap gostring A) !! names x = None).
  { intros A f. apply not_elem_of_list_to_map_1. rewrite <- list_fmap_compose. exact Hx. }
  rewrite !list_to_map_cons, <- !insert_union_l, <- !insert_union_r by apply N. reflexivity.
Qed.

Lemma ibc_modules_in {A} names (f : module_name -> A) l m x : NoDup (names <$> l) -> x ∈ l ->
  (list_to_map ((fun x => (names x, f x)) <$> l) ∪ m : gmap gostring A) !! names x = Some (f x).
Proof.
  intros Hn Hx. apply lookup_union_Some_l, elem_of_list_to_map_1; [now rewrite <- list_fmap_compose|].
  apply list_elem_of_fmap. now exists x.
Qed.

Lemma ibc_modules_out {A} names (f : module_name -> A) l m n : n ∉ names <$> l ->
  (list_to_map ((fun x => (names x, f x)) <$> l) ∪ m : gmap gostring A) !! n = m !! n.
Proof.
  intros Hx. rewrite lookup_union_r; [reflexivity|]. apply not_elem_of_list_to_map_1. now rewrite <- list_fmap_compose.
Qed.

(** A flag of a command, local or persistent. *)
Definition has_flag (key : string) (c : @Command V CommandInfo) (f : Flag) : Prop :=
  cmd_Flags c !! key = Some f \/ cmd_PersistentFlags c !! key = Some f.

Lemma root_defaults_map : root_defaults ≡ₚ map_to_list (list_to_map root_defaults : gmap string string).
Proof. symmetry. apply map_to_list_to_map, (bool_decide_unpack _). vm_compute. exact I. Qed.

Lemma set_defaults_lookup l (s : gmap string (@Flag V)) key val : l ≡ₚ root_defaults -> (key, val) ∈ root_defaults ->
  set_defaults Value_Set l s !! key = set_flag Value_Set val <$> s !! key.
Proof.
  intros P Hk. rewrite (set_defaults_map Value_Set (list_to_map root_defaults)) by (rewrite P; exact root_defaults_map).
  rewrite map_lookup_imap. unfold defaulted.
  rewrite (elem_of_list_to_map_1 root_defaults key val); [now destruct (s !! key)| |exact Hk].
  apply (bool_decide_unpack _). vm_compute. exact I.
Qed.

Lemma overwrite_sub l c path x : subcommand c path x ->
  subcommand (overwriteFlagDefaults Value_Set l c) path (overwriteFlagDefaults Value_Set l x).
Proof.
  induction 1 as [|[info fl pfl cs] x path y Hx Hy IH]; [constructor|].
  replace (cmd_info x) with (cmd_info (overwriteFlagDefaults Value_Set l x)) by now destruct x.
  apply sub_below; [|exact IH]. now apply (list_elem_of_fmap_2 (overwriteFlagDefaults Value_Set l)).
Qed.

Lemma extends_sub (c c' : @Command V CommandInfo) path x : extends c c' -> subcommand c path x ->
  exists x', subcommand c' path x' /\ extends x x'.
Proof.
  intros E Hx. revert c' E. induction Hx as [|c x path y Hx Hy IH]; intros c' E; [eexists; split; [constructor | exact E]|].
  destruct E as [info fl pfl cs cs' kept added F P]. apply list_elem_of_lookup_1 in Hx as [i Hi].
  destruct (Forall2_lookup_l _ _ _ _ _ F Hi) as (x' & Hi' & Ex). destruct (IH x' Ex) as (y' & Hy' & Ey).
  exists y'. split; [|exact Ey]. replace (cmd_info x) with (cmd_info x') by now destruct Ex.
  apply sub_below; [|exact Hy']. cbn. rewrite P. apply elem_of_app. left. eapply list_elem_of_lookup_2, Hi'.
Qed.

(** The flags of the tree, and those of the added commands. *)
Lemma extends_commands : forall (c c' : @Command V CommandInfo), extends c c' -> exists added, commands c' ≡ₚ commands c ++ added.
Proof.
  fix IH 3. intros c c' [info fl pfl cs cs' kept added F P]. cbn [commands].
  assert (K : exists extra, concat (commands <$> kept) ≡ₚ concat (commands <$> cs) ++ extra).
  { clear P. induction F as [|x y cs kept E F [extra K]]; [now exists []|].
    destruct (IH x y E) as [e Ee]. exists (e ++ extra). cbn. rewrite Ee, K. solve_Permutation. }
  destruct K as [extra K]. exists (extra ++ concat (commands <$> added)).
  rewrite P, fmap_app, concat_app, K. cbn. now rewrite <-app_assoc.
Qed.

(** The tree of [initRootCmd] has a query and a transaction command with a
    persistent flag for the chain id. *)
Lemma initRootCmd_run c tc b : exists c', initRootCmd string_value DefaultNodeHome c tc b = Ok c' /\
  Forall (fun use => exists x, subcommand c' [use] x /\ is_Some (cmd_PersistentFlags x !! FlagChainID)) ["query"; "tx"].
Proof.
  unfold initRootCmd, queryCommand, txCommand. cbn. rewrite !lookup_empty. cbn. eexists. split; [reflexivity|].
  destruct (server_AddCommands _ _ _) as [info fl pfl cs]. cbn.
  repeat constructor; (eexists; split; [eapply (sub_below _ (MkCommand (MkInfo _ _ _ _ _ _ _ _) _ _ _) []); [|apply sub_here]|]);
    try (cbn; rewrite lookup_insert_eq; eauto); cbn; rewrite elem_of_app; right; rewrite !elem_of_cons; eauto.
Qed.

Lemma must_inv {X} (m : res X) x : must m = Ok x -> m = Ok x.
Proof. destruct m; [auto | discriminate..]. Qed.

Lemma extends_defaults l x x' : l ≡ₚ root_defaults -> extends (overwriteFlagDefaults Value_Set l x) x' ->
  cmd_info x' = cmd_info x /\
  forall key val, (key, val) ∈ root_defaults -> forall f, has_flag key x' f -> DefValue f = val.
Proof.
  intros P E. destruct x as [info fl pfl cs]. inversion E; subst. split; [reflexivity|]. intros key val Hk f.
  unfold has_flag. cbn. rewrite !(set_defaults_lookup _ _ _ _ P Hk).
  intros [Hf|Hf]; apply fmap_Some in Hf as (f0 & _ & ->); reflexivity.
Qed.

(** C40: Whatever the order of the two maps, [NewRootCmd] returns autocli's
    extension of the tree of [initRootCmd], the IBC modules added to the
    injected ones.  In the returned tree every command of [initRootCmd] is in
    its place, and its flags for the chain id and the keyring have the defaults
    of the app; so have the persistent chain ids of the query and transaction
    commands.  All other commands were added by autocli, to the tree whose
    defaults were already overwritten. *)
Theorem root_command names ibc_order default_order auto m b ctx :
  ibc_order ≡ₚ RegisterIBC -> default_order ≡ₚ root_defaults -> NoDup (names <$> RegisterIBC) ->
  exists built mods basics,
    initRootCmd string_value DefaultNodeHome (MkCommand root_info ∅ ∅ []) (ctx_TxConfig ctx) basics = Ok built /\
    NewRootCmd Value_Set string_value DefaultNodeHome names ibc_order default_order (Ok (auto, m, b, ctx)) =
      must (EnhanceRootCommand auto mods (overwriteFlagDefaults Value_Set default_order built)) /\
    (forall x, x ∈ RegisterIBC -> mods !! names x = Some x /\ basics !! names x = Some (CoreAppModuleBasicAdaptor x)) /\
    (forall n, n ∉ names <$> RegisterIBC -> mods !! n = m !! n /\ basics !! n = b !! n) /\
    forall root,
      NewRootCmd Value_Set string_value DefaultNodeHome names ibc_order default_order (Ok (auto, m, b, ctx)) = Ok root ->
      (forall path x, subcommand built path x -> exists x', subcommand root path x' /\ cmd_info x' = cmd_info x /\
         (forall f, has_flag FlagChainID x' f -> DefValue f = "HalbornCTF") /\
         (forall f, has_flag FlagKeyringBackend x' f -> DefValue f = "test")) /\
      (forall use, use ∈ ["query"; "tx"] -> exists x f, subcommand root [use] x /\
         cmd_PersistentFlags x !! FlagChainID = Some f /\ DefValue f = "HalbornCTF") /\
      (exists added, commands root ≡ₚ commands (overwriteFlagDefaults Value_Set default_order built) ++ added).
Proof.
  intros Pi Pd Hn. assert (Hn' : NoDup (names <$> ibc_order)) by now rewrite Pi.
  unfold NewRootCmd. rewrite add_ibc_modules_maps by exact Hn'.
  match goal with |- context [initRootCmd ?sv ?home ?c ?tc ?bm] =>
    destruct (initRootCmd_run c tc bm) as (built & Ei & Hq); eexists built, _, bm; rewrite Ei end.
  split; [reflexivity|]. split; [reflexivity|].
  split; [intros x Hx; split; apply ibc_modules_in; (exact Hn' || now rewrite Pi)|].
  split; [intros n Hx; split; apply ibc_modules_out; now rewrite Pi|].
  intros root E. cbn [mbind res_bind] in E. apply must_inv in E. pose proof (EnhanceRootCommand_adds _ _ _ _ E) as Ex.
  split; [|split; [|now apply extends_commands]].
  - intros path x Hx. destruct (extends_sub _ _ path _ Ex (overwrite_sub _ _ _ _ Hx)) as (x' & Hx' & Ey).
    exists x'. split; [exact Hx'|]. destruct (extends_defaults default_order x x' Pd Ey) as (Ec & D). split; [exact Ec|].
    split; intros f; [apply (D FlagChainID); now left | apply (D FlagKeyringBackend); right; now left].
  - intros use Hu. rewrite Forall_forall in Hq. destruct (Hq use Hu) as (x & Hx & f & Hf).
    destruct (extends_sub _ _ [use] _ Ex (overwrite_sub _ _ _ _ Hx)) as (x' & Hx' & Ey). exists x', (set_flag Value_Set "HalbornCTF" f).
    split; [exact Hx'|]. split; [|reflexivity]. destruct x as [info fl pfl cs]. inversion Ey; subst. cbn in Hf |- *.
    rewrite (set_defaults_lookup _ _ _ "HalbornCTF" Pd), Hf by now left. reflexivity.
Qed.
End root_theorems.

(** ** Test support *)

Section network_theorems.
(** Listeners: the open ones, and the ports they hold. *)
Context {A : Type} (FreeTCPAddr : AM A (string * nat)) (closeFn : nat -> AM A unit) (listening : A -> gmap nat string).
Hypothesis FreeTCPAddr_spec : forall a out a', FreeTCPAddr a = (out, a') ->
  match out with
  | Ok (port, h) => listening a !! h = None /\ (forall h', listening a !! h' <> Some port) /\ listening a' = <[h := port]> (listening a)
  | Err _ => listening a' = listening a
  | _ => False
  end.
Hypothesis closeFn_spec : forall h a, exists a', closeFn h a = (Ok tt, a') /\ listening a' = delete h (listening a).

Lemma listen_each_run n a out a' : listen_each FreeTCPAddr n a = (out, a') ->
  match out with
  | Ok ps => length ps = n /\ NoDup ps.*1 /\ (forall h, h ∈ ps.*2 -> listening a !! h = None) /\
      (forall p h, p ∈ ps.*1 -> listening a !! h <> Some p) /\ (forall i, i ∉ ps.*2 -> listening a' !! i = listening a !! i)
  | Err _ => listening a ⊆ listening a'
  | _ => False
  end.
Proof.
  revert a out a'. induction n as [|n IH]; intros a out a' E; cbn in E.
  { injection E as <- <-. repeat split; try apply NoDup_nil_2; intros; now apply not_elem_of_nil in H. }
  unfold mbind, AM_bind in E. destruct (FreeTCPAddr a) as [o1 a1] eqn:E1. pose proof (FreeTCPAddr_spec _ _ _ E1) as S1.
  destruct o1 as [[port h]|e| |]; try contradiction; [|injection E as <- <-; now rewrite S1].
  destruct S1 as (F1 & F2 & L1). destruct (listen_each FreeTCPAddr n a1) as [o2 a2] eqn:E2. pose proof (IH _ _ _ E2) as S2.
  destruct o2 as [ps|e| |]; try contradiction; injection E as <- <-.
  - destruct S2 as (Hl & Hp & Hh & Hf & Hu). rewrite L1 in *. rewrite !fmap_cons. cbn [fst snd].
    split; [cbn; now rewrite Hl|]. split; [|split; [|split]].
    + apply NoDup_cons. split; [|exact Hp]. intros Hi. apply (Hf port h Hi). apply lookup_insert_eq.
    + intros x Hx. apply elem_of_cons in Hx as [->|Hx]; [exact F1|]. specialize (Hh x Hx).
      destruct (decide (x = h)) as [->|N]; [exact F1|]. now rewrite lookup_insert_ne in Hh by congruence.
    + intros p x Hi. apply elem_of_cons in Hi as [->|Hi]; [apply F2|]. specialize (Hf p x Hi).
      destruct (decide (x = h)) as [->|N]; [now rewrite F1|]. now rewrite lookup_insert_ne in Hf by congruence.
    + intros x Hx. apply not_elem_of_cons in Hx as [N Hx]. rewrite Hu by exact Hx. now apply lookup_insert_ne.
  - rewrite L1 in S2. etransitivity; [|exact S2]. now apply insert_subseteq.
Qed.

Lemma close_each_run hs a : exists a', for_each closeFn hs a = (Ok tt, a') /\
  forall i, listening a' !! i = if decide (i ∈ hs) then None else listening a !! i.
Proof.
  revert a. induction hs as [|h hs IH]; intros a; [now exists a|].
  destruct (closeFn_spec h a) as (a1 & E1 & L1). destruct (IH a1) as (a2 & E2 & L2).
  exists a2. cbn [for_each]. rewrite (AM_bind_ok _ _ _ _ _ E1). split; [exact E2|]. intros i. rewrite L2, L1.
  destruct (decide (i = h)) as [->|N].
  - rewrite lookup_delete_eq, (decide_True _ _ (list_elem_of_here h hs)). now case_decide.
  - rewrite lookup_delete_ne by congruence. rewrite (decide_ext (i ∈ h :: hs) (i ∈ hs)); [reflexivity|].
    rewrite elem_of_cons. tauto.
Qed.

(** The ports are distinct and all listeners are closed again; when one cannot
    be opened, those opened before it stay open. *)
Lemma free_ports_released n a out a' : freePorts FreeTCPAddr closeFn n a = (out, a') ->
  match out with
  | Ok ports => length ports = n /\ NoDup ports /\ listening a' = listening a
  | Err _ => listening a ⊆ listening a'
  | _ => False
  end.
Proof.
  unfold freePorts, mbind, AM_bind. destruct (listen_each FreeTCPAddr n a) as [o1 a1] eqn:E1.
  pose proof (listen_each_run _ _ _ _ E1) as S1. destruct o1 as [ps|e| |]; try contradiction; [|intros E; now injection E as <- <-].
  destruct S1 as (Hl & Hp & Hh & _ & Hu). destruct (close_each_run ps.*2 a1) as (a2 & E2 & L2). rewrite E2.
  intros E. injection E as <- <-. rewrite length_fmap. split; [exact Hl|]. split; [exact Hp|].
  apply map_eq. intros i. rewrite L2. case_decide as D; [symmetry; now apply Hh | now apply Hu].
Qed.
End network_theorems.

(** What [Fill] leaves: every slice and coin it can set is empty. *)
Definition blank_field (rec : GoVal -> bool) (f : GoVal) : bool :=
  match f with
  | GoSlice l => match l with [] => true | _ => false end
  | GoCoin d a => bool_decide (d = [] /\ a = None)
  | GoStruct _ => rec f
  | _ => true
  end.
Fixpoint blanked (addr : bool) (v : GoVal) {struct v} : bool :=
  match v with
  | GoScalar _ | GoCoin _ _ | GoPtr _ => true
  | GoSlice l => forallb (fun o => negb (is_ptr o) && blanked true o) l
  | GoStruct fields => forallb (fun ef =>
      match ef.2 with
      | GoPtr (Some g) => negb ef.1 || blank_field (blanked true) g
      | GoPtr None => true
      | _ => negb (ef.1 && addr) || blank_field (blanked true) ef.2
      end) fields
  end.

(** [Fill] keeps the kind of a value. *)
Definition is_struct (v : GoVal) : bool := match v with GoStruct _ => true | _ => false end.

Lemma fill_at_kind addr v r : is_ptr v = false -> fill_at addr v = Ok r -> is_ptr r = false /\ is_struct r = is_struct v.
Proof.
  destruct v as [z|d a|l|fs|p]; intros Hp E; try discriminate Hp; cbn [fill_at] in E; try (now injection E as <-);
    match type of E with (_ ← ?m; _) = _ => destruct m as [l'|?|?|]; try discriminate E end; now injection E as <-.
Qed.

Lemma fill_field_blank f f' :
  (forall r, is_ptr f = false -> fill_at true f = Ok r -> blanked true r = true) ->
  fill_field (fill_at true) f = Ok f' -> blank_field (blanked true) f' = true /\ is_ptr f' = is_ptr f.
Proof.
  intros Hf E. destruct f as [z|d a|l|fs|p]; cbn [fill_field] in E; try (now injection E as <-).
  specialize (Hf f' eq_refl E). destruct (fill_at_kind true (GoStruct fs) f' eq_refl E) as [K1 K2].
  destruct f'; try discriminate K2. now split.
Qed.

Lemma fill_at_blanked : forall v addr r, is_ptr v = false -> fill_at addr v = Ok r -> blanked addr r = true.
Proof.
  fix IH 1. intros [z|d a|l|fs|p] addr r Hp E; try discriminate Hp; cbn [fill_at] in E; try (now injection E as <-);
    match type of E with (_ ← ?m; _) = _ => destruct m as [l'|?|?|] eqn:El; try discriminate E end; injection E as <-;
    cbn [blanked]; clear Hp; revert l' El.
  - induction l as [|o l IHl]; intros l' El; [now injection El as <-|].
    destruct (is_ptr o) eqn:Ho; [discriminate El|].
    destruct (fill_at true o) as [o'|?|?|] eqn:Eo; try discriminate El. cbn [mbind res_bind] in El.
    match type of El with (_ ← ?m; _) = _ => destruct m as [l2|?|?|] eqn:E2; try discriminate El end. injection El as <-.
    cbn [forallb]. rewrite (IH o true o' Ho Eo), (proj1 (fill_at_kind _ _ _ Ho Eo)). now apply IHl.
  - induction fs as [|[ex f] fs IHl]; intros l' El; [now injection El as <-|].
    match type of El with (_ ← ?m; _) = _ => destruct m as [f'|?|?|] eqn:Ef; try discriminate El end. cbn [mbind res_bind] in El.
    match type of El with (_ ← ?m; _) = _ => destruct m as [l2|?|?|] eqn:E2; try discriminate El end. injection El as <-.
    cbn [forallb fst snd]. rewrite (IHl _ eq_refl), andb_true_r. clear E2 IHl. pose proof (IH f true) as If.
    assert (Ig : match f with GoPtr (Some g) => forall r, is_ptr g = false -> fill_at true g = Ok r -> blanked true r = true | _ => True end)
      by (destruct f as [| | | |[g|]]; try exact I; exact (IH g true)). clear IH.
    destruct f as [z|d a|l|gs|[g|]]; try (now injection Ef as <-).
    5: { destruct ex; [|now injection Ef as <-]. destruct (fill_field _ g) as [g'|?|?|] eqn:Eg; try discriminate Ef. injection Ef as <-.
         exact (proj1 (fill_field_blank g g' Ig Eg)). }
    all: destruct (ex && addr); [|injection Ef as <-; reflexivity].
    all: match type of Ef with fill_field _ ?f = _ => destruct (fill_field_blank f f' If Ef) as [B K] end.
    all: destruct f'; cbn in K |- *; try discriminate K; exact B.
Qed.

(** After [Fill] on a pointer no slice or coin that could be set keeps what it
    held, empty before or not. *)
Lemma Fill_empties v r : is_ptr v = false -> Fill (GoPtr (Some v)) = Ok r -> blanked true r = true.
Proof. exact (fill_at_blanked v true r). Qed.
