(* ===== verification/AppWitnesses.v ===== *)
(** * The app-level theorems at concrete inputs

    A JSON codec, testnet keepers over the store and the ledger of [SdkModel], a
    server with its connection, router and gateway, an app and a command tree;
    the theorems of [HalModule], [AppTestnet], [AppCommands], [Grpc], [AppNew]
    and [AppRoot] applied to them. *)

From S2P Require Import Prelude Wire Sdk SdkModel PbParams PbGenesis Types World Keeper MsgServer Store Bank Chain Scenario.
From S2P Require Import PbQuery PbTx PulsarTypes Pulsar PulsarLaws PulsarDesc PulsarSchema PulsarModel PulsarGogo Grpc.
From S2P Require Import AppConfig Witnesses HalModule AppMonad AppTestnet AppCommands AppNew AppRoot.

(** ** The module's genesis *)

(** The text of a genesis is its binary encoding. *)
#[export] Instance json_codec : JSONCodec := {
  MarshalJSON g :=
    bz ← GenesisState_Marshal g;
    if (len bz <? 2 ^ 63) && bool_decide (GenesisState_Unmarshal GenesisState_Reset bz = Ok g)
    then Ok bz else Err (ErrMsg "cannot marshal");
  UnmarshalJSON bz _ := if len bz <? 2 ^ 63 then GenesisState_Unmarshal GenesisState_Reset bz else Err (ErrMsg "too long") }.

#[export] Instance json_codec_ok : JSONCodecOk.
Proof.
  split.
  - intros g bz _ _. cbn. destruct (GenesisState_Marshal g) as [b| | |]; try discriminate. cbn.
    case_bool; [|discriminate]. intros Eb. injection Eb as ->. zify_bools.
    match goal with H : bool_decide _ = true |- _ => apply bool_decide_eq_true in H as -> end. now if_true.
  - intros bz g. cbn. case_bool; [|exact I]. zify_bools. now apply GenesisState_Unmarshal_safe.
Qed.

Lemma module_genesis_json_witness : exists bz w',
  MarshalJSON DefaultGenesis = Ok bz /\ AppModuleBasic_ValidateGenesis bz = Ok tt /\
  AppModule_InitGenesis bz (World ∅ bank0 : chain_world) = (Ok tt, w') /\ AppModule_ExportGenesis w' = (Ok bz, w').
Proof.
  assert (E : exists bz, MarshalJSON DefaultGenesis = Ok bz) by (eexists; vm_compute; reflexivity).
  destruct E as [bz E]. exists bz.
  destruct (module_genesis_json DefaultGenesis bz (World ∅ bank0 : chain_world)) as (V & w' & I & X);
    [reflexivity | exact Params_ok_default | | exact E |].
  - repeat split; apply (bool_decide_unpack _); vm_compute; exact I.
  - exists w'. auto.
Defined.

Lemma registered_messages_witness :
  exists t, "." +:+ t = ".halbornctf.hal.MsgMintHal" /\ ("sdk.Msg", t) ∈ RegisterInterfaces (fun _ r => r) [].
Proof.
  destruct (registered_messages (fun _ r => r) []
    (PulsarDesc.MkMethodProto "MintHal" ".halbornctf.hal.MsgMintHal" ".halbornctf.hal.MsgMintHalResponse"))
    as (t & E & H); [auto | | exists t; split; [now rewrite <-E | exact H]].
  cbn. rewrite !elem_of_cons. tauto.
Defined.

(** ** Testnets *)

(** The mint module's account. *)
Definition testnet_accounts : modules := [(str "mint", true, false)].
Abbreviation testnet := (tapp store (ledger testnet_accounts) Records).

Definition put (prefix : Byte.byte) (addr : bytes) : AM testnet unit :=
  store_op (fun s => kv_set s (prefix :: addr) (str "validator")).
Definition record (f : Records -> Records) : AM testnet unit := fun a =>
  (Ok tt, MkTapp (t_store a) (t_bank a) (f (t_rest a))).

#[export] Instance testnet_keepers : TestnetKeepers store (ledger testnet_accounts) Records := {|
  Any := bytes;
  NewAnyWithValue key := if bool_decide (key = []) then Err (ErrMsg "nil key") else Ok key;
  LegacyMustNewDecFromStr s := Ok 0;
  OperatorStringToBytes s := if bool_decide (s = []) then Err (ErrMsg "empty address") else Ok s;
  ConsAddress_String b := b;
  ValidatorsKey := [Byte.x21];
  ValidatorQueueKey := [Byte.x43];
  MintModuleName := str "mint";
  ValidatorsPowerStoreIterator a := Ok (prefix_keys [Byte.x23] a);
  LastValidatorsIterator a := Ok (prefix_keys [Byte.x11] a);
  SetValidator v := put Byte.x21 (nv_OperatorAddress v);
  SetValidatorByConsAddr v := put Byte.x22 (nv_OperatorAddress v);
  SetValidatorByPowerIndex v := if nv_Jailed v then mret tt else put Byte.x23 (nv_OperatorAddress v);
  SetLastValidatorPower addr _ := put Byte.x11 addr;
  AfterValidatorCreated addr a :=
    (if kv_get (t_store a) (Byte.x21 :: addr) is Some _ then Ok tt else Err (ErrMsg "validator does not exist"), a);
  BondDenom a := match kv_get (t_store a) [Byte.x51] with Some d => Ok d | None => Err (ErrMsg "no params") end;
  SetValidatorHistoricalRewards addr p n := record (fun r =>
    MkRecords (<[(addr, p) := n]> (rc_historical r)) (rc_current r) (rc_commission r) (rc_outstanding r) (rc_signing r));
  SetValidatorCurrentRewards addr p := record (fun r =>
    MkRecords (rc_historical r) (<[addr := p]> (rc_current r)) (rc_commission r) (rc_outstanding r) (rc_signing r));
  SetValidatorAccumulatedCommission addr := record (fun r =>
    MkRecords (rc_historical r) (rc_current r) ({[addr]} ∪ rc_commission r) (rc_outstanding r) (rc_signing r));
  SetValidatorOutstandingRewards addr := record (fun r =>
    MkRecords (rc_historical r) (rc_current r) (rc_commission r) ({[addr]} ∪ rc_outstanding r) (rc_signing r));
  SetValidatorSigningInfo addr i := record (fun r =>
    MkRecords (rc_historical r) (rc_current r) (rc_commission r) (rc_outstanding r) (<[addr := i]> (rc_signing r)));
  LastBlockHeight _ := 7 |}.

Lemma operator_bytes (s addr : bytes) : OperatorStringToBytes (TestnetKeepers := testnet_keepers) s = Ok addr -> s = addr.
Proof. cbn. case_bool_decide; [discriminate | congruence]. Qed.

#[local] Ltac performs_now := eexists; split; [reflexivity | repeat split].
#[local] Ltac operator E := apply operator_bytes in E; subst.

#[export] Program Instance testnet_keepers_ok : TestnetKeepersOk store (ledger testnet_accounts) Records := {
  power_prefix := [Byte.x23];
  last_prefix := [Byte.x11];
  staking_params_key := [Byte.x51];
  validator_entry v addr := (Byte.x21 :: addr, str "validator");
  cons_entry v addr := (Byte.x22 :: addr, str "validator");
  power_entry v addr := (Byte.x23 :: addr, str "validator");
  last_entry addr n := (Byte.x11 :: addr, str "validator");
  records r := r }.
Next Obligation.
  intros v addr n. cbn. rewrite !NoDup_cons, !not_elem_of_cons.
  repeat split; try discriminate; try apply not_elem_of_nil. apply NoDup_nil_2.
Qed.
Next Obligation. repeat constructor; intros [x Hx]; discriminate. Qed.
Next Obligation. repeat constructor; eexists; reflexivity. Qed.
Next Obligation. intros a. eexists. split; [reflexivity|]. intros k. apply prefix_keys_spec. Qed.
Next Obligation. intros a. eexists. split; [reflexivity|]. intros k. apply prefix_keys_spec. Qed.
Next Obligation. intros v addr E a. operator E. performs_now. Qed.
Next Obligation. intros v addr key E _ a. operator E. performs_now. Qed.
Next Obligation. intros v addr E J a. apply operator_bytes in E as <-. destruct v; cbn in J; subst. performs_now. Qed.
Next Obligation. intros addr n a. performs_now. Qed.
Next Obligation. intros v addr key a E _ G. cbn in *. unfold performs. rewrite G. performs_now. Qed.
Next Obligation. intros v addr a E G. cbn in *. rewrite G. now eexists _, _. Qed.
Next Obligation. intros. performs_now. Qed.
Next Obligation. intros. performs_now. Qed.
Next Obligation. intros. performs_now. Qed.
Next Obligation. intros. performs_now. Qed.
Next Obligation. intros. performs_now. Qed.
Next Obligation. reflexivity. Qed.
Next Obligation. intros a a' E. cbn in *. now rewrite E. Qed.

(** An old validator in three ranges, and Alice listed twice. *)
Definition testnet_args : valArgs :=
  MkValArgs (str "consaddr") (str "cosmosvaloper1new") (str "pubkey") [alice; str "bob"; alice] [] (str "/home").
Definition testnet0 : testnet :=
  MkTapp {[ [Byte.x51] := Stake; Byte.x21 :: str "old" := str "v"; Byte.x23 :: str "old" := str "v";
            Byte.x11 :: str "old" := str "v" ]} (ledger_of []) (MkRecords ∅ ∅ ∅ ∅ ∅).

Lemma testnet_prepared_witness : exists a' : testnet, initAppForTestnet testnet_args testnet0 = (Ok tt, a') /\
  kv_get (t_store a') (Byte.x21 :: str "old") = None /\ kv_get (t_store a') [Byte.x51] = Some Stake /\
  kv_get (t_store a') (Byte.x21 :: str "cosmosvaloper1new") = Some (str "validator") /\
  rc_current (t_rest a') !! str "cosmosvaloper1new" = Some 1 /\ bal (t_bank a') alice Stake = 2 * gift.
Proof.
  destruct (testnet_prepared (T := testnet_keepers) testnet_args testnet0 (str "pubkey") (str "cosmosvaloper1new") Stake)
    as (v & a' & E & _ & _ & _ & _ & _ & He & Hd & Hs & Hr & Hb & _).
  - reflexivity.
  - reflexivity.
  - reflexivity.
  - reflexivity.
  - reflexivity.
  - reflexivity.
  - repeat constructor.
  - vm_compute. reflexivity.
  - vm_compute. reflexivity.
  - exists a'. split; [exact E|]. split; [|split; [|split; [|split]]].
    + apply Hd; [left; right; now exists (str "old")|]. apply (bool_decide_unpack _). vm_compute. exact I.
    + rewrite Hs; [reflexivity| |].
      * intros [[[[x Hx]|[x Hx]]|[x Hx]]|[x Hx]]; discriminate.
      * apply (bool_decide_unpack _). vm_compute. exact I.
    + apply He. left.
    + apply Hr.
    + rewrite Hb. reflexivity.
Defined.

(** Both accounts, written with the address texts of [SdkModel]. *)
Definition testnet_options (k : optkey) : optval :=
  match k with
  | KeyNewValAddr => VHexBytes (str "consaddr")
  | KeyUserPubKey => VPubKey (str "pubkey")
  | KeyNewOpAddr => VString (str "cosmosvaloper1new")
  | KeyTriggerTestnetUpgrade => VString []
  | flagAccountsToFund => VString (join Byte.x2c (AccAddress_String <$> [alice; str "bob"]))
  | FlagHome => VString (str "/home")
  end.

Lemma accounts_to_fund_witness :
  getCommandArgs (fun v => match v with VString s => s | _ => [] end) testnet_options =
    Ok (MkValArgs (str "consaddr") (str "cosmosvaloper1new") (str "pubkey") [alice; str "bob"] [] (str "/home"), None).
Proof.
  apply (accounts_to_fund _ testnet_options [alice; str "bob"] (str "consaddr") (str "pubkey") (str "cosmosvaloper1new")
    [] (str "/home")); try reflexivity.
  - discriminate.
  - repeat (apply Forall_cons_2; [vm_compute; split; congruence|]). apply Forall_nil_2.
  - repeat (apply Forall_cons_2; [apply (bool_decide_unpack _); vm_compute; exact I|]). apply Forall_nil_2.
Defined.

(** ** Flags *)

Lemma flag_defaults_everywhere_witness :
  let child := MkCommand tt {["chain-id" := MkFlag EmptyString EmptyString]} ∅ [] in
  commands (overwriteFlagDefaults (fun _ v => Some v) [("chain-id", "HalbornCTF")] (MkCommand tt ∅ ∅ [child])) =
    [(∅, ∅); ({["chain-id" := MkFlag "HalbornCTF" "HalbornCTF"]}, ∅)].
Proof.
  intros child. rewrite (flag_defaults_everywhere _ {["chain-id" := "HalbornCTF"]}); [reflexivity|].
  now rewrite map_to_list_singleton.
Defined.

(** ** A connection to the module's services *)

Definition keeper0 : Keeper := MkKeeper (str "gov").
Definition cfg0 : @Configurator store (ledger accounts) :=
  RegisterServices (runtime_at now0) keeper0 (MkConfigurator [] []).
(** One server with both services. *)
Definition services0 : @Registrar store (ledger accounts) := cfg_MsgServer cfg0 ++ cfg_QueryServer cfg0.

(** The handler at a path. *)
Definition handler_at {S B} (services : @Registrar S B) (path : string) : option (Srv * Handler) :=
  snd <$> (snd <$> list_find (fun e => e.1 = path)
    ('(d, srv) ← services; m ← Service_Methods d; [(full_method d m, (srv, Method_Handler m))])).

(** A server in the same process. *)
Definition loopback (services : @Registrar store (ledger accounts)) (ctx : Context_) : @ClientConn store (ledger accounts) :=
  {| Invoke I O _ _ path in_ out := fun w =>
    match handler_at services path, pm_Marshal in_ with
    | Some (srv, h), Ok bz =>
        match h srv (Some ctx) (GoMsg_Unmarshal bz) None w with
        | (Ok resp, w') =>
            match GoMsg_Marshal resp with
            | Ok rbz => match pm_Unmarshal out rbz with
                        | Ok out => (Ok (out, None, MkMetadata [] []), w')
                        | _ => (Ok (out, Some (ErrMsg "malformed response"), MkMetadata [] []), w')
                        end
            | _ => (Ok (out, Some (ErrMsg "malformed response"), MkMetadata [] []), w')
            end
        | (Err e, w') => (Ok (out, Some e, MkMetadata [] []), w')
        | (_, w') => (Ok (out, Some (ErrMsg "internal"), MkMetadata [] []), w')
        end
    | _, _ => (Ok (out, Some (ErrMsg "unavailable"), MkMetadata [] []), w)
    end |}.

Definition serves_loopback (services : @Registrar store (ledger accounts)) ctx :
  (forall d srv m, registered services d srv m -> handler_at services (full_method d m) = Some (srv, Method_Handler m)) ->
  Serves (H0 := loopback services ctx) services.
Proof.
  intros Hs. refine {| served_ctx := ctx; status_of e := e |}.
  - intros I O ? ? d srv m in_ out0 out bz resp rbz w w' Reg E1 E2 E3 E4. exists (MkMetadata [] []).
    cbn. now rewrite (Hs _ _ _ Reg), E1, E2, E3, E4.
  - intros I O ? ? d srv m in_ out0 bz e w w' Reg E1 E2. exists (MkMetadata [] []).
    cbn. now rewrite (Hs _ _ _ Reg), E1, E2.
Defined.

Local Ltac each_method :=
  intros d srv m [Hd Hm]; repeat (apply elem_of_cons in Hd as [Hd|Hd]); try (now apply not_elem_of_nil in Hd);
  injection Hd as -> ->; repeat (apply elem_of_cons in Hm as [Hm|Hm]); try (now apply not_elem_of_nil in Hm); subst m.

Lemma services0_paths d srv m : registered services0 d srv m ->
  handler_at services0 (full_method d m) = Some (srv, Method_Handler m).
Proof. revert d srv m. each_method; reflexivity. Qed.

Lemma query_paths d srv m : registered (cfg_QueryServer cfg0) d srv m ->
  handler_at (cfg_QueryServer cfg0) (full_method d m) = Some (srv, Method_Handler m).
Proof. revert d srv m. each_method; reflexivity. Qed.

Definition serves0 := serves_loopback services0 (ctx_at now0) services0_paths.
Definition serves_query0 := serves_loopback (cfg_QueryServer cfg0) (ctx_at now0) query_paths.

(** Alice mints over the connection, through either client. *)
Definition mint_request : MsgMintHal := MkMsgMintHal alice_account (MkCoin Stake (Some 2)).

Lemma remote_calls_witness : exists w' md md',
  msgClient_MintHal (CC := loopback services0 (ctx_at now0)) mint_request world0 =
    (Ok (inl (MkMsgMintHalResponse (MkCoin HAL (Some 4))), md), w') /\
  api_msgClient_MintHal (CC := loopback services0 (ctx_at now0)) (MsgMintHal_api mint_request) world0 =
    (Ok (inl (MsgMintHalResponse_api (MkMsgMintHalResponse (MkCoin HAL (Some 4)))), md'), w').
Proof.
  destruct (remote_calls (serves := serves0) Keeper_QueryServer (NewMsgServerImpl (runtime_at now0) keeper0))
    as (_ & _ & Hm & _ & _ & _ & _ & Ha & _).
  - right. now left.
  - now left.
  - assert (Ss : sendable mint_request) by (split; [eexists; split; [reflexivity | lia] | vm_compute; reflexivity]).
    specialize (Hm mint_request world0 Ss). specialize (Ha mint_request world0 Ss).
    assert (Sr : sendable (MkMsgMintHalResponse (MkCoin HAL (Some 4)))) by (split; [eexists; split; [reflexivity | lia] | vm_compute; reflexivity]).
    destruct (ms_MintHal _ _ mint_request world0) as [r w'] eqn:E.
    assert (Er : r = Ok (MkMsgMintHalResponse (MkCoin HAL (Some 4))))
      by (change r with (fst (r, w')); rewrite <- E; vm_compute; reflexivity).
    subst r. destruct (Hm Sr) as [md Em], (Ha Sr) as [md' Ea]. exists w', md, md'. split; [exact Em | exact Ea].
Defined.

(** ** A router *)

Definition router0 : Routes (cfg_MsgServer cfg0).
Proof.
  refine {| dispatch ctx msg :=
    _ ← lift (GoMsg_ValidateBasic msg);
    match list_find (fun m => GoMsg_name msg = ("halbornctf.hal.Msg" +:+ MethodName m)%string)
            (Service_Methods (@_Msg_serviceDesc store (ledger accounts))) with
    | Some (_, m) => Method_Handler m (SrvMsg (NewMsgServerImpl (runtime_at now0) keeper0)) (Some ctx) (fun g => Ok g)
                       (Some (fun ctx _ _ handler => handler ctx msg))
    | None => lift (Err (ErrMsg "unrecognized message"))
    end |}.
  intros d srv m ctx msg w Reg Dec. specialize (Dec srv (Some ctx) None w). revert d srv m Reg Dec.
  each_method; intros Dec; destruct msg; try discriminate Dec; reflexivity.
Defined.

Lemma dispatch_runs_tx_witness :
  deliver (_ ← dispatch (Routes := router0) (ctx_at now0) (GMsgMintHal mint_request); mret tt) world0 =
  run_tx keeper0 (runtime_at now0) (ctx_at now0) (TxMintHal mint_request) world0.
Proof.
  exact (dispatch_runs_tx (runtime_at now0) keeper0 (MkConfigurator [] []) (routes := router0) (ctx_at now0)
    (TxMintHal mint_request) world0).
Defined.

(** ** A gateway *)

(** A request is a context, a method and a path; a pattern is its literals. *)
#[export] Instance gateway0 : Gateway := {|
  Request := CallContext * (string * list string); GoContext := CallContext; Marshaler := unit; Pattern := list string;
  Request_Context := fst; WithCancel c := c; NewContextWithServerTransportStream c := c;
  sdk_context c := c; MarshalerForRequest _ := (tt, tt);
  AnnotateContext c _ := Ok c; AnnotateIncomingContext c _ := Ok c; NewServerMetadataContext c _ := c;
  NewPattern _ _ pool _ := Ok pool |}.

Definition matches0 (req : string * list string) (r : @Route store (ledger accounts) gateway0) : bool :=
  bool_decide (route_method r = req.1 /\ route_pattern r = req.2).

#[export] Instance mux0_ok : ServeMuxOk store (ledger accounts).
Proof.
  refine {| Request_Method req := req.2.1; Request_components req := req.2.2;
    Pattern_Match p path := if decide (path = p) then Some [] else None;
    ServeHTTP mux req := match list_find (fun r => matches0 req.2 r) mux with
                         | Some (_, r) => route_handler r req []
                         | None => lift (Err (ErrMsg "not found"))
                         end |}.
  - intros pool. now exists pool.
  - reflexivity.
  - reflexivity.
  - intros c req c' E. now injection E as <-.
  - intros pre r post req args matches Hn Hr w.
    assert (F : list_find (fun r => matches0 req.2 r) (pre ++ r :: post) = Some (length pre, r)).
    { apply list_find_Some. split; [now apply list_lookup_middle|]. unfold matches in *. split.
      - apply bool_decide_pack. repeat case_decide; try discriminate. now split; [|symmetry].
      - intros j y Hy Hj. rewrite lookup_app_l in Hy by assumption. apply Forall_app in Hn as [Hn _].
        pose proof (Forall_lookup_1 _ _ _ _ Hn Hy) as Hm. intros Hc%bool_decide_unpack. destruct Hc as [H1 H2].
        cbv beta in Hm. rewrite decide_True, decide_True in Hm by congruence. discriminate. }
    rewrite F. unfold matches in Hr. repeat case_decide; try discriminate. now injection Hr as <-.
Defined.

(** A request with an SDK context, and an ordinary one. *)
Definition params_request (c : CallContext) : Request (Gateway := gateway0) := (c, ("GET", ["HalbornCTF"; "hal"; "params"])).

Lemma gateway_params_witness : exists mux' mux'' why,
  RegisterGRPCGatewayRoutes (loopback (cfg_QueryServer cfg0) (ctx_at now0)) [] = Ok mux' /\
  params_reply (Ok None) None mux' (params_request None) world0 DefaultParams /\
  RegisterQueryHandlerServer [] Keeper_QueryServer = Ok mux'' /\
  ServeHTTP mux'' (params_request None) world0 = (Panic why, world0) /\
  params_reply (Ok (Some (ctx_at now0))) (Some (ctx_at now0)) mux'' (params_request (Some (ctx_at now0))) world0 DefaultParams.
Proof.
  assert (Sr : sendable (MkQueryParamsResponse (params_of genesis_state)))
    by (split; [exact (proj1 Params_ok_default) | vm_compute; reflexivity]).
  assert (Hr : forall c, new_params_request (S := store) (B := ledger accounts) [] (params_request c))
    by (intros c; repeat split; apply Forall_nil_2).
  destruct (gateway_params (runtime_at now0) keeper0 (MkConfigurator [] []) (serves := serves_query0) genesis_state []
    (params_request None) world0 genesis_refines Sr (Hr None)) as (m1 & m2 & E1 & P1 & E2 & [why P2] & _).
  destruct (gateway_params (runtime_at now0) keeper0 (MkConfigurator [] []) (serves := serves_query0) genesis_state []
    (params_request (Some (ctx_at now0))) world0 genesis_refines Sr (Hr _)) as (m3 & m4 & _ & _ & E4 & P4 & _).
  rewrite E2 in E4. injection E4 as <-. exists m1, m2, why. auto.
Defined.

(** ** An app *)

(** The runtime: store keys, modules and the init chainer. *)
Record runtime0 := MkRuntime0 { rt_keys : list AppStoreKey; rt_modules : list gostring; rt_chainer : InitChainerKind }.
Abbreviation params0 := (gmap gostring (option nat)).
Abbreviation cap0 := (gset gostring).

#[export] Instance capability0 : CapabilityKeeper cap0 := {|
  ScopedKeeper := gostring;
  ScopeToModule n c := if decide (n ∈ c) then (Panic (PMsg "cannot create multiple scoped keepers"), c) else (Ok n, {[n]} ∪ c) |}.
#[export] Program Instance capability0_ok : CapabilityKeeperOk cap0 := {| scoped c := c |}.
Next Obligation. intros n c Hn. exists n, ({[n]} ∪ c). cbn. now rewrite decide_False. Qed.
Next Obligation. intros n c Hn. eexists. cbn. now rewrite decide_True. Qed.

Definition store_name0 (s : ibc_store) : gostring := str
  match s with
  | CapabilityStore => "capability" | IbcStore => "ibc" | TransferStore => "transfer" | FeeStore => "feeibc"
  | HostStore => "icahost" | ControllerStore => "icacontroller" | CapabilityMemStore => "memory:capability"
  | ParamsTStore => "transient_params"
  end.
Definition scope_name0 (s : ibc_scope) : gostring := str
  match s with IbcScope => "ibc" | TransferScope => "transfer" | ControllerScope => "icacontroller" | HostScope => "icahost" end.

(** A constructor that needs a store key and an authority. *)
Definition keeper_of (k : option AppStoreKey) (auth : gostring) : res (option gostring) :=
  if bool_decide (is_Some k /\ auth <> []) then Ok None else Panic PNilDeref.

#[export] Instance app_deps0 : AppDeps runtime0 params0 cap0 := {|
  runtime_name := str "runtime"; ibctm_name := str "07-tendermint"; solomachine_name := str "06-solomachine";
  store_name := store_name0; scope_name := scope_name0;
  Options := bool; Logger := unit; DB := unit; Writer := unit; BaseAppOption := unit;
  Codec := unit; LegacyAmino_t := unit; TxConfig_t := unit; InterfaceRegistry_t := unit;
  AccountKeeper_t := list gostring; BankKeeper_t := unit; StakingKeeper_t := unit; DistrKeeper_t := unit;
  ConsensusParamsKeeper_t := unit; SlashingKeeper_t := unit; MintKeeper_t := unit; GovKeeper_t := unit;
  CrisisKeeper_t := unit; UpgradeKeeper_t := unit; AuthzKeeper_t := unit; EvidenceKeeper_t := unit;
  FeeGrantKeeper_t := unit; GroupKeeper_t := unit; NFTKeeper_t := unit; CircuitBreakerKeeper_t := unit;
  AppBuilder := list gostring; Basic := unit; ProposalHandler := unit; Subspace_t := gostring; KeyTable := nat;
  ChannelKeeper := unit; PortKeeper := unit; MsgRouter := unit; QueryRouter := unit; GovRouter := unit;
  IBCKeeper_t := option (gmap gostring nat); FeeKeeper := unit; TransferKeeper_t := option gostring;
  HostKeeper := option gostring; ControllerKeeper := option gostring;
  IBCModule := nat; PortRouter := gmap gostring nat; AppModule_t := gostring; Modules := list gostring;
  SimModule := unit; SimManager := list gostring;
  genutil_NewAppModuleBasic := tt; gov_NewAppModuleBasic _ := tt; params_ProposalHandler := tt;
  SetOptimisticExecution := tt;
  Build b _ _ _ := Ok (MkRuntime0 [] b RuntimeInitChainer);
  RegisterStores keys r := (Ok tt, MkRuntime0 (rt_keys r ++ keys) (rt_modules r) (rt_chainer r));
  GetStoreKeys := rt_keys;
  UnsafeFindStoreKey r n := snd <$> list_find (fun k => AppStoreKey_Name k = n) (rt_keys r);
  MsgServiceRouter _ := tt; GRPCQueryRouter _ := tt;
  RegisterModules ms r := if decide (NoDup (rt_modules r ++ ms)) then (Ok tt, MkRuntime0 (rt_keys r) (rt_modules r ++ ms) (rt_chainer r))
                          else (Err (ErrMsg "AppModule already exists"), r);
  RegisterStreamingServices o _ r := if o : bool then (Err (ErrMsg "failed to load streaming plugin"), r) else (Ok tt, r);
  ModuleManager_Modules := rt_modules;
  SetInitChainer c r := MkRuntime0 (rt_keys r) (rt_modules r) c;
  Load latest r := if latest : bool then (Ok tt, r) else (Err (ErrMsg "no version"), r);
  Subspace n p := match p !! n with None => (Ok n, <[n := None]> p) | _ => (Panic (PMsg "subspace already occupied"), p) end;
  WithKeyTable n kt p := match p !! n with Some None => (Ok n, <[n := Some kt]> p) | _ => (Panic (PMsg "already initialized"), p) end;
  Params_GetSubspace p n := match p !! n with Some _ => (n, true) | None => ([], false) end;
  client_ParamKeyTable := 0%nat; transfer_ParamKeyTable := 2%nat; controller_ParamKeyTable := 3%nat; host_ParamKeyTable := 4%nat;
  RegisterConnectionParams kt := Ok (Datatypes.S kt);
  NewCapabilityKeeper _ _ _ := ∅;
  NewModuleAddress_String n := str "cosmos1" ++ n;
  NewIBCKeeper _ k _ _ _ _ auth := _ ← keeper_of k auth; Ok None;
  IBC_ChannelKeeper _ := tt; IBC_PortKeeper _ := tt;
  IBC_SetRouter ik r := match ik with None => Ok (Some r) | Some _ => Panic (PMsg "cannot reset a sealed router") end;
  NewFeeKeeper _ _ _ _ _ _ _ := tt;
  NewTransferKeeper _ k _ _ _ _ ak _ sk auth :=
    if bool_decide (name_of IbcTransfer ∈ ak) then keeper_of k auth else Panic (PMsg "the IBC transfer module account has not been set");
  NewHostKeeper _ k _ _ _ _ ak sk _ auth :=
    if bool_decide (name_of Ica ∈ ak) then keeper_of k auth else Panic (PMsg "the Interchain Accounts module account has not been set");
  WithQueryRouter h _ := h;
  NewControllerKeeper _ k _ _ _ _ sk _ auth := keeper_of k auth;
  gov_NewRouter := tt; gov_AddProposalRoute _ := Ok tt; SetLegacyRouter g _ := g;
  transfer_NewIBCModule _ := 1%nat; fee_NewIBCMiddleware m _ := (10 * m)%nat; controller_NewIBCMiddleware _ _ := 2%nat;
  host_NewIBCModule _ := 3%nat; port_NewRouter := ∅;
  port_AddRoute r n m := match r !! n with None => Ok (<[n := m]> r) | Some _ => Panic (PMsg "route has already been registered") end;
  ibc_NewAppModule _ := name_of IbcExported; transfer_NewAppModule _ := name_of IbcTransfer; fee_NewAppModule _ := name_of IbcFee;
  ica_NewAppModule _ _ := name_of Ica; capability_NewAppModule _ _ _ := name_of Capability;
  ibctm_NewAppModule := str "07-tendermint"; solomachine_NewAppModule := str "06-solomachine";
  RegisterInvariants _ c := c; auth_NewAppModule _ _ _ := tt;
  NewSimulationManagerFromAppModules ms _ := ms; RegisterStoreDecoders s := s |}.

#[export] Instance app_deps0_ok : AppDepsOk runtime0 params0 cap0.
Proof.
  unshelve eapply (Build_AppDepsOk runtime0 params0 cap0 _ _ app_deps0 _).
  1: exact rt_modules. 1: exact rt_chainer. 1: exact (fun n => n). 1: exact (fun p => p). 1: exact (fun n => n). 1: exact 1%nat.
  1: exact (fun n => n). 1: exact (fun l => l). 1: exact (fun r => r). 1: exact (fun ik => ik).
  - intros [] [] E; reflexivity || discriminate.
  - intros [] [] E; reflexivity || discriminate.
  - intros [n| | | | |] [m| | | | |] E; try reflexivity; try (destruct n || destruct m; discriminate); [|discriminate..].
    f_equal. exact (name_inj n m E).
  - intros keys r _. eexists. split; [reflexivity|]. auto.
  - intros r k Hn Hk. cbn in *. apply list_elem_of_lookup in Hk as [i Hi].
    rewrite (proj2 (list_find_Some _ _ i k)); [reflexivity|]. split; [exact Hi|]. split; [reflexivity|].
    intros j y Hy Hj Ey. assert (E : j = i); [|lia].
    apply (NoDup_lookup (AppStoreKey_Name <$> rt_keys r) j i (AppStoreKey_Name k) Hn); rewrite list_lookup_fmap;
      [now rewrite Hy, <- Ey | now rewrite Hi].
  - reflexivity.
  - intros ms r Hn. cbn in *. rewrite list_fmap_id in *. rewrite decide_True by assumption. eexists. split; [reflexivity|]. auto.
  - intros [] keys r; repeat eexists.
  - intros c r. auto.
  - intros [] r _ _; repeat eexists.
  - intros n p Hp. cbn. assert (E : (p : params0) !! n = None) by exact Hp. rewrite E. eauto.
  - intros n kt p Hp. cbn. assert (E : (p : params0) !! n = Some None) by exact Hp. rewrite E. eauto.
  - intros p n [kt Hp]. cbn. assert (E : (p : params0) !! n = Some (kt : option nat)) by exact Hp. now rewrite E.
  - reflexivity.
  - reflexivity.
  - intros n c sk c'. cbn. case_decide; congruence.
  - discriminate.
  - intros. cbn. unfold keeper_of. rewrite bool_decide_true by eauto. now eexists.
  - intros. cbn. unfold keeper_of. rewrite !bool_decide_true by eauto. now eexists.
  - intros. cbn. unfold keeper_of. rewrite !bool_decide_true by eauto. now eexists.
  - intros. cbn. unfold keeper_of. rewrite !bool_decide_true by eauto. now eexists.
  - now exists tt.
  - reflexivity.
  - intros r s0 m Hr. cbn. assert (E : (r : gmap gostring nat) !! scope_name0 s0 = None) by exact Hr. rewrite E. eauto.
  - intros cdc k s0 st up sk auth ik. cbn. unfold keeper_of. destruct (bool_decide _); cbn; congruence.
  - intros ik r ->. cbn. eauto.
Defined.

(** The injection of the configured modules; it refuses a module that is
    configured twice. *)
Definition auth_accounts (l : list (module_name * ModuleConfig)) : list gostring :=
  default [] (head (omap (fun m => match m with (Sdk Auth, AuthModule _ perms) => Some perms.*1 | _ => None end) l)).
Definition inject0 (cfg : DepConfig) : res (AppBuilder * Injected * params0 * GovKeeper_t * CrisisKeeper_t) :=
  if decide (NoDup (config_modules cfg).*1) then
    Ok (resolve runtime_name ibctm_name solomachine_name <$> (config_modules cfg).*1,
        MkInjected tt tt tt tt (auth_accounts (config_modules cfg)) tt tt tt tt tt tt tt tt tt tt tt tt tt (MkKeeper (str "gov")),
        ∅, tt, tt)
  else Err (ErrMsg "duplicate module").

Lemma auth_accounts_in l prefix perms : NoDup l.*1 -> (Sdk Auth, AuthModule prefix perms) ∈ l -> auth_accounts l = perms.*1.
Proof.
  unfold auth_accounts. induction l as [|[m mc] l IH]; intros Hn Hi; [now apply not_elem_of_nil in Hi|].
  apply NoDup_cons in Hn as [Hm Hn]. apply elem_of_cons in Hi as [E|Hi]; [now injection E as <- <-|].
  assert (N : m <> Sdk Auth) by (intros ->; apply Hm, list_elem_of_fmap; now exists (Sdk Auth, AuthModule prefix perms)).
  destruct m as [[]| | | | |]; try (now apply IH); congruence.
Qed.

#[export] Instance inject0_ok : Injects inject0.
Proof.
  split; unfold inject0.
  - intros cfg. now case_decide.
  - intros cfg b inj p g c prefix perms E Hi. case_decide; [|discriminate]. injection E as <- <- <- <- <-. now apply (auth_accounts_in _ prefix).
  - intros cfg b inj p g c s E. case_decide; [|discriminate]. now injection E as <- <- <- <- <-.
  - intros cfg b inj p g c db w opts E. case_decide; [|discriminate]. injection E as <- <- <- <- <-.
    eexists. split; [reflexivity|]. split; [reflexivity|]. apply (bool_decide_unpack _). vm_compute. exact I.
Qed.

Lemma inject0_run o : exists v, inject0 (New_config tt o) = Ok v.
Proof.
  unfold inject0. rewrite decide_True; [eauto|]. rewrite New_config_modules. apply (bool_decide_unpack _). vm_compute. exact I.
Qed.

(** The app starts, and fails where the streaming services or the store fail. *)
Lemma New_outcome_witness :
  (exists app, New inject0 tt tt tt true false [] = Ok app) /\
  New inject0 tt tt tt true true [] = Err (ErrMsg "failed to load streaming plugin") /\
  New inject0 tt tt tt false false [] = Err (ErrMsg "no version").
Proof.
  pose proof (New_outcome inject0 tt tt tt true false []) as H1. pose proof (New_outcome inject0 tt tt tt true true []) as H2.
  pose proof (New_outcome inject0 tt tt tt false false []) as H3.
  destruct (inject0_run false) as [v1 E1], (inject0_run true) as [v2 E2]. rewrite E1 in H1, H3. rewrite E2 in H2.
  destruct H1 as (r1 & _ & _ & app & H1 & _), H2 as (r2 & _ & _ & H2), H3 as (r3 & _ & _ & H3).
  split; [now exists app|]. split; [exact H2 | exact H3].
Defined.

Lemma New0_starts : exists app, New inject0 tt tt tt true false [] = Ok app.
Proof.
  destruct (inject0_run false) as [[[[[b inj] p] g] c] E]. unfold New. rewrite E.
  destruct (injected_unregistered inject0 tt false tt tt ([] ++ [SetOptimisticExecution]) _ _ _ _ _ E) as (r & -> & U & Hm).
  destruct (New_start_run true (false : Options (AppDeps := app_deps0)) _ U Hm) as (a1 & _ & a' & E' & _). cbn [mbind res_bind]. rewrite E'. now exists a'.
Qed.

Lemma New_wired_witness : exists app cap why, New inject0 tt tt tt true false [] = Ok app /\ CapabilityKeeper_ app = Some cap /\
  GetStoreKeys (runtime_App app) = ibc_store_keys /\
  (GetCapabilityScopedKeeper (scope_name TransferScope) (MkScoping cap (app_ScopedKeepers app))).1 = Panic why.
Proof.
  destruct New0_starts as [app E].
  destruct (New_wired inject0 tt tt tt true false [] app E) as (b & inj & p & g & c & r & cap & _ & Eb & W & _ & Ec & Hp).
  destruct (Hp TransferScope) as [why Hw]. exists app, cap, why. split; [exact E|]. split; [exact Ec|]. split; [|exact Hw].
  rewrite (r_stores _ _ W). now injection Eb as <-.
Defined.

(** ** A command tree *)

Definition leaf (use : string) : @Command string CommandInfo :=
  MkCommand (MkInfo use [] EmptyString false false 0 (OtherRun use) false)
    {["chain-id" := MkFlag EmptyString EmptyString]} {["keyring-backend" := MkFlag "os" "os"]} [].

#[export] Instance cli0 : Cli (V := string) := {|
  TxConfig := unit; ClientContext := unit; AutoCli := unit; CMTConfig := unit; ServerConfig := unit; BasicModule := unit;
  cmtcfg_DefaultConfig := tt; serverconfig_DefaultConfig := tt; DefaultConfigTemplate := EmptyString;
  crisis_AddModuleInitFlags c := c; genutil_InitCmd _ _ := leaf "init"; genutil_Commands _ _ _ := leaf "genesis";
  NewInPlaceTestnetCmd_ _ := leaf "in-place-testnet"; debug_Cmd := leaf "debug"; confix_ConfigCommand := leaf "config";
  pruning_Cmd _ := leaf "prune"; snapshot_Cmd := leaf "snapshots"; server_AddCommands _ _ c := AddCommand c [leaf "start"];
  server_StatusCommand := leaf "status"; keys_Commands := leaf "keys"; LineBreak := leaf EmptyString;
  rpc_QueryEventForTxCmd := leaf "event-query-tx-for"; rpc_ValidatorCommand := leaf "comet-validator-set";
  server_QueryBlockCmd := leaf "block"; authcmd_QueryTxsByEventsCmd := leaf "txs"; server_QueryBlocksCmd := leaf "blocks";
  authcmd_QueryTxCmd := leaf "tx"; server_QueryBlockResultsCmd := leaf "block-results";
  authcmd_GetSignCommand := leaf "sign"; authcmd_GetSignBatchCommand := leaf "sign-batch";
  authcmd_GetMultiSignCommand := leaf "multi-sign"; authcmd_GetMultiSignBatchCmd := leaf "multisign-batch";
  authcmd_GetValidateSignaturesCommand := leaf "validate-signatures"; authcmd_GetBroadcastCommand := leaf "broadcast";
  authcmd_GetEncodeCommand := leaf "encode"; authcmd_GetDecodeCommand := leaf "decode"; authcmd_GetSimulateCmd := leaf "simulate";
  Codec_t := unit; Registry := unit; Amino := unit; TxConfigOptions := unit; MetadataQueryFn := unit; Context_zero := tt;
  WithCodec _ c := c; WithInterfaceRegistry _ c := c; WithLegacyAmino _ c := c; WithStdin c := c; WithAccountRetriever c := c;
  WithHomeDir _ c := c; WithViper _ c := c; ctx_Codec _ := tt; ReadFromClientConfig c := (c, None);
  NewGRPCCoinMetadataQueryFn _ := tt; WithTextualCoinMetadataQueryFn _ o := o; NewTxConfigWithOptions _ _ := Ok tt; WithTxConfig _ c := c;
  ctx_TxConfig _ := tt; CoreAppModuleBasicAdaptor _ := tt; EnhanceRootCommand _ _ c := Ok (AddCommand c [leaf "hal"]) |}.

Lemma extends_refl : forall c : @Command string CommandInfo, extends c c.
Proof.
  fix IH 1. intros [info fl pfl cs]. apply (extends_node _ _ _ _ _ cs []); [|now rewrite app_nil_r].
  induction cs as [|c cs IHcs]; constructor; [apply IH | exact IHcs].
Qed.

#[export] Instance cli0_ok : CliOk (V := string).
Proof.
  constructor. intros auto mods [info fl pfl cs] c' E. injection E as <-.
  apply (extends_node _ _ _ _ _ cs [leaf "hal"]); [|reflexivity]. apply Forall_Forall2_diag, Forall_true, extends_refl.
Qed.

(** The added command keeps its own default. *)
Lemma root_command_witness : exists root x f,
  NewRootCmd (fun _ v => Some v) (fun v => v) "/home" (resolve (str "runtime") (str "07-tendermint") (str "06-solomachine"))
    (reverse RegisterIBC) (reverse root_defaults) (Ok (tt, ∅, ∅, tt)) = Ok root /\
  subcommand root ["query"] x /\ cmd_PersistentFlags x !! FlagChainID = Some f /\ DefValue f = "HalbornCTF" /\
  subcommand root ["hal"] (leaf "hal").
Proof.
  destruct (root_command (CLI := cli0) (fun _ v => Some v) (fun v => v) "/home" (resolve (str "runtime") (str "07-tendermint") (str "06-solomachine"))
    (reverse RegisterIBC) (reverse root_defaults) tt ∅ ∅ tt) as (built & mods & basics & _ & E & _ & _ & R).
  - apply reverse_Permutation.
  - apply reverse_Permutation.
  - apply (bool_decide_unpack _). vm_compute. exact I.
  - destruct (R _ E) as (_ & Q & _). destruct (Q "query") as (x & f & Hx & Hf & Hd); [left|].
    eexists _, x, f. split; [exact E|]. split; [exact Hx|]. split; [exact Hf|]. split; [exact Hd|].
    apply (sub_below _ (leaf "hal") []); [|constructor]. destruct built. apply elem_of_app. right. left.
Defined.

Lemma services_match_schema_witness :
  Forall2 (service_conforms query_schema) [@_Query_serviceDesc store (ledger accounts)] (file_services query_schema) /\
  Forall2 (service_conforms tx_schema) [@_Msg_serviceDesc store (ledger accounts)] (file_services tx_schema).
Proof.
  destruct (services_match_schema (S := store) (B := ledger accounts) QueryParamsRequest_Reset MsgUpdateParams_Reset mint_request
    MsgRedeemCollateral_Reset MsgCreateTicket_Reset apiQueryParamsRequest_zero apiMsgUpdateParams_zero apiMsgMintHal_zero
    apiMsgRedeemCollateral_zero apiMsgCreateTicket_zero) as (Q & T & _). split; [exact Q | exact T].
Defined.
