(* ===== verification/Rust.v ===== *)
(** * Rust results and integers

    What the Rust programs of the repository share: [Result] with panics,
    the [?] operator, [unwrap] and [expect], and unsigned integer widths. *)

From S2P Require Import Prelude.

(** A call returns [Ok], returns [Err], or panics; a panic aborts the
    transaction, as an error returned from an entry point does. *)
Inductive result (E A : Type) : Type :=
| ROk (a : A) | RErr (e : E) | RPanic (why : string).
Arguments ROk {E A} a.
Arguments RErr {E A} e.
Arguments RPanic {E A} why.

#[export] Instance result_ret E : MRet (result E) := fun _ a => ROk a.
#[export] Instance result_bind E : MBind (result E) := fun _ _ k r =>
  match r with ROk a => k a | RErr e => RErr e | RPanic p => RPanic p end.

#[export] Instance result_eq_dec {E A} `{EqDecision E, EqDecision A} : EqDecision (result E A).
Proof. solve_decision. Defined.

(** [opt.expect(why)], [opt.ok_or(e)], [r.map_err(f)] and [r.unwrap()]. *)
Definition expect {E A} (why : string) (o : option A) : result E A :=
  match o with Some a => ROk a | None => RPanic why end.
Definition ok_or {E A} (e : E) (o : option A) : result E A :=
  match o with Some a => ROk a | None => RErr e end.
Definition map_err {E F A} (f : E -> F) (r : result E A) : result F A :=
  match r with ROk a => ROk a | RErr e => RErr (f e) | RPanic p => RPanic p end.
Definition unwrap {E F A} (why : string) (r : result E A) : result F A :=
  match r with ROk a => ROk a | RErr _ => RPanic why | RPanic p => RPanic p end.

Definition panics {E A} (r : result E A) : Prop := exists why, r = RPanic why.

(** A value of an unsigned type of [k] bits. *)
Definition uint (k z : Z) : Prop := 0 <= z < 2 ^ k.
Abbreviation U128 := (uint 128) (only parsing).
Abbreviation U256 := (uint 256) (only parsing).

(** ** Inversion *)

Lemma rbind_ok {E A B} (r : result E A) (k : A -> result E B) b :
  r ≫= k = ROk b -> exists a, r = ROk a /\ k a = ROk b.
Proof. destruct r; cbn; try discriminate. eauto. Qed.

Lemma rbind_err {E A B} (r : result E A) (k : A -> result E B) e :
  r ≫= k = RErr e -> r = RErr e \/ exists a, r = ROk a /\ k a = RErr e.
Proof. destruct r; cbn; intros [= ]; subst; eauto. Qed.

Lemma expect_ok {E A} why (o : option A) a : expect (E := E) why o = ROk a <-> o = Some a.
Proof. destruct o; cbn; split; congruence. Qed.

Lemma ok_or_ok {E A} (e : E) (o : option A) a : ok_or e o = ROk a <-> o = Some a.
Proof. destruct o; cbn; split; congruence. Qed.

Lemma map_err_ok {E F A} (f : E -> F) (r : result E A) a : map_err f r = ROk a <-> r = ROk a.
Proof. destruct r; cbn; split; congruence. Qed.

Lemma unwrap_ok {E F A} why (r : result E A) a : unwrap (F := F) why r = ROk a <-> r = ROk a.
Proof. destruct r; cbn; split; congruence. Qed.

(** [rstep H as x R]: the first call of [H : r ≫= k = ROk b] returned [x]. *)
Tactic Notation "rstep" hyp(H) "as" simple_intropattern(x) ident(R) :=
  apply rbind_ok in H; destruct H as (x & R & H);
  rewrite ?map_err_ok, ?unwrap_ok, ?expect_ok, ?ok_or_ok in R.

(** A conditional of [H] whose other branch is not a success. *)
Ltac rguard H C :=
  match type of H with (if ?b then _ else _) = ROk _ =>
    destruct b eqn:C; try discriminate H end.
