(* ===== verification/CwStd.v ===== *)
(** * cosmwasm-std as the DVAMM contracts see it

    The contracts call crates that are not part of the repository: the integer
    and decimal types of cosmwasm-std, the square root of the uint crate,
    address validation, and queries answered by the bank, by cw20 tokens and by
    other contracts.  Each is a class of operations, an argument of the
    definitions that call it; [CwMathOk] states the documented behaviour of the
    numbers.  [None] stands for a panic of an operator, or for the error of a
    checked operation. *)

From S2P Require Import Prelude Rust.

(** ** Data *)

(** Rust strings as their UTF-8 bytes; [Addr] wraps a string. *)
Abbreviation rstring := (list byte).
Abbreviation Addr := (list byte).

(** [Uint128] and [Uint256] by value, [Decimal] and [Decimal256] by the number
    of their units of 10^-18. *)
Abbreviation Uint128 := Z (only parsing).
Abbreviation Uint256 := Z (only parsing).
Abbreviation Decimal := Z (only parsing).
Abbreviation Decimal256 := Z (only parsing).

Definition DECIMAL_FRACTIONAL : Z := 10 ^ 18.

Record CwCoin := MkCwCoin { denom : rstring; coin_amount : Uint128 }.
Record MessageInfo := MkMessageInfo { sender : Addr; funds : list CwCoin }.

(** The errors of cosmwasm-std the contracts return. *)
Inductive StdError :=
| GenericErr (msg : string)
| ParseErr (target msg : string)
| NotFound
| OverflowErr
| SerializeErr
| QueryErr.

#[export] Instance CwCoin_eq_dec : EqDecision CwCoin.
Proof. solve_decision. Defined.
#[export] Instance StdError_eq_dec : EqDecision StdError.
Proof. solve_decision. Defined.

(** ** Numbers *)

Class CwMath : Type := {
  u128_checked_sub : Uint128 -> Uint128 -> option Uint128;
  u128_mul : Uint128 -> Uint128 -> option Uint128;
  u128_multiply_ratio : Uint128 -> Uint128 -> Uint128 -> option Uint128;
  u256_add : Uint256 -> Uint256 -> option Uint256;
  u256_sub : Uint256 -> Uint256 -> option Uint256;
  u256_mul : Uint256 -> Uint256 -> option Uint256;
  u256_multiply_ratio : Uint256 -> Uint256 -> Uint256 -> option Uint256;
  u128_try_from : Uint256 -> option Uint128;
  dec_from_ratio : Uint128 -> Uint128 -> option Decimal;
  dec_to_uint_floor : Decimal -> Uint128;
  dec_to_uint_ceil : Decimal -> Uint128;
  dec_try_from : Decimal256 -> option Decimal;
  dec256_new : Uint256 -> Decimal256;
  dec256_one : Decimal256;
  dec256_from_ratio : Uint256 -> Uint256 -> option Decimal256;
  dec256_sub : Decimal256 -> Decimal256 -> option Decimal256;
  dec256_mul : Decimal256 -> Decimal256 -> option Decimal256;
  dec256_div : Decimal256 -> Decimal256 -> option Decimal256;
  dec256_to_uint_ceil : Decimal256 -> Uint256;
  (** The uint crate's [U256]: product, [integer_sqrt], [as_u128]. *)
  uint_mul : Z -> Z -> option Z;
  uint_sqrt : Z -> Z;
  uint_as_u128 : Z -> option Uint128 }.

(** A result that fits into [k] bits, and the panic or error otherwise. *)
Definition fit (k z : Z) : option Z := if (0 <=? z) && (z <? 2 ^ k) then Some z else None.

(** Division of naturals; a zero divisor panics. *)
Definition ratio (k a b c : Z) : option Z := if c =? 0 then None else fit k (a * b / c).

Definition ceil_div (a b : Z) : Z := if a =? 0 then 0 else 1 + (a - 1) / b.

Class CwMathOk `{M : CwMath} : Prop := {
  u128_checked_sub_ok a b : U128 a -> U128 b -> u128_checked_sub a b = fit 128 (a - b);
  u128_mul_ok a b : U128 a -> U128 b -> u128_mul a b = fit 128 (a * b);
  u128_multiply_ratio_ok a n d : U128 a -> U128 n -> U128 d -> u128_multiply_ratio a n d = ratio 128 a n d;
  u256_add_ok a b : U256 a -> U256 b -> u256_add a b = fit 256 (a + b);
  u256_sub_ok a b : U256 a -> U256 b -> u256_sub a b = fit 256 (a - b);
  u256_mul_ok a b : U256 a -> U256 b -> u256_mul a b = fit 256 (a * b);
  u256_multiply_ratio_ok a n d : U256 a -> U256 n -> U256 d -> u256_multiply_ratio a n d = ratio 256 a n d;
  u128_try_from_ok a : U256 a -> u128_try_from a = fit 128 a;
  (** Ratios are rounded down to 18 places. *)
  dec_from_ratio_ok n d : U128 n -> U128 d -> dec_from_ratio n d = ratio 128 n DECIMAL_FRACTIONAL d;
  dec_to_uint_floor_ok x : U128 x -> dec_to_uint_floor x = x / DECIMAL_FRACTIONAL;
  dec_to_uint_ceil_ok x : U128 x -> dec_to_uint_ceil x = ceil_div x DECIMAL_FRACTIONAL;
  dec_try_from_ok x : U256 x -> dec_try_from x = fit 128 x;
  (** [Decimal256::new(v)] is [v] units of 10^-18, not the number [v]. *)
  dec256_new_ok v : U256 v -> dec256_new v = v;
  dec256_one_ok : dec256_one = DECIMAL_FRACTIONAL;
  dec256_from_ratio_ok n d : U256 n -> U256 d -> dec256_from_ratio n d = ratio 256 n DECIMAL_FRACTIONAL d;
  dec256_sub_ok x y : U256 x -> U256 y -> dec256_sub x y = fit 256 (x - y);
  dec256_mul_ok x y : U256 x -> U256 y -> dec256_mul x y = fit 256 (x * y / DECIMAL_FRACTIONAL);
  dec256_div_ok x y : U256 x -> U256 y -> dec256_div x y = ratio 256 x DECIMAL_FRACTIONAL y;
  dec256_to_uint_ceil_ok x : U256 x -> dec256_to_uint_ceil x = ceil_div x DECIMAL_FRACTIONAL;
  uint_mul_ok a b : U256 a -> U256 b -> uint_mul a b = fit 256 (a * b);
  uint_sqrt_ok a : U256 a -> uint_sqrt a = Z.sqrt a;
  uint_as_u128_ok a : U256 a -> uint_as_u128 a = fit 128 a }.

(** The documented behaviour, computed. *)
#[export] Instance cw_math : CwMath := {
  u128_checked_sub a b := fit 128 (a - b);
  u128_mul a b := fit 128 (a * b);
  u128_multiply_ratio := ratio 128;
  u256_add a b := fit 256 (a + b);
  u256_sub a b := fit 256 (a - b);
  u256_mul a b := fit 256 (a * b);
  u256_multiply_ratio := ratio 256;
  u128_try_from := fit 128;
  dec_from_ratio n d := ratio 128 n DECIMAL_FRACTIONAL d;
  dec_to_uint_floor x := x / DECIMAL_FRACTIONAL;
  dec_to_uint_ceil x := ceil_div x DECIMAL_FRACTIONAL;
  dec_try_from := fit 128;
  dec256_new v := v;
  dec256_one := DECIMAL_FRACTIONAL;
  dec256_from_ratio n d := ratio 256 n DECIMAL_FRACTIONAL d;
  dec256_sub x y := fit 256 (x - y);
  dec256_mul x y := fit 256 (x * y / DECIMAL_FRACTIONAL);
  dec256_div x y := ratio 256 x DECIMAL_FRACTIONAL y;
  dec256_to_uint_ceil x := ceil_div x DECIMAL_FRACTIONAL;
  uint_mul a b := fit 256 (a * b);
  uint_sqrt := Z.sqrt;
  uint_as_u128 := fit 128 }.

#[export] Instance cw_math_ok : CwMathOk.
Proof. split; reflexivity. Qed.

(** ** Addresses *)

(** [deps.api.addr_validate]: a valid address is returned unchanged. *)
Class CwApi : Type := { addr_validate : rstring -> result StdError Addr }.
Class CwApiOk `{A : CwApi} : Prop := {
  addr_validate_ok s a : addr_validate s = ROk a -> a = s;
  addr_validate_total s : ~ panics (addr_validate s) }.

(** ** Lemmas *)

Lemma fit_some k z : uint k z -> fit k z = Some z.
Proof.
  intros [? ?]. unfold fit. rewrite (proj2 (Z.leb_le _ _)), (proj2 (Z.ltb_lt _ _)) by lia. reflexivity.
Qed.

Lemma fit_inv k z v : fit k z = Some v -> v = z /\ uint k z.
Proof.
  unfold fit. case_bool; [|discriminate]. intros [= <-]. zify_bools. split; [easy|split; lia].
Qed.

Lemma fit_none k z : fit k z = None <-> ~ uint k z.
Proof.
  unfold fit, uint. case_bool; zify_bools; split; try easy; intros; try lia.
Qed.

Lemma ratio_some k a b c : 0 < c -> uint k (a * b / c) -> ratio k a b c = Some (a * b / c).
Proof. intros. unfold ratio. rewrite (proj2 (Z.eqb_neq _ _)) by lia. now apply fit_some. Qed.

Lemma ratio_inv k a b c v : ratio k a b c = Some v -> c <> 0 /\ v = a * b / c /\ uint k v.
Proof.
  unfold ratio. case_bool; [discriminate|]. intros H%fit_inv. zify_bools. intuition congruence.
Qed.

(** Rounding a fraction of at most 1 gives 0 or 1. *)
Lemma ceil_div_le1 x d : 0 <= x <= d -> ceil_div x d = if x =? 0 then 0 else 1.
Proof.
  intros H. unfold ceil_div. case_bool; zify_bools; [easy|].
  rewrite Z.div_small; lia.
Qed.

Lemma ceil_div_bounds x d : 0 < d -> 0 <= x -> d * (ceil_div x d - 1) < x \/ x = 0 /\ ceil_div x d = 0.
Proof.
  intros Hd Hx. unfold ceil_div. case_bool; zify_bools; [right; lia|left].
  pose proof (Z.mul_div_le (x - 1) d Hd). lia.
Qed.

Lemma ceil_div_ge x d : 0 < d -> 0 <= x -> x <= d * ceil_div x d.
Proof.
  intros Hd Hx. unfold ceil_div. case_bool; zify_bools; [lia|].
  pose proof (Z.mod_pos_bound (x - 1) d Hd). pose proof (Z.div_mod (x - 1) d). lia.
Qed.

Lemma ceil_div_nonneg x d : 0 < d -> 0 <= x -> 0 <= ceil_div x d.
Proof. intros. unfold ceil_div. case_bool; [lia|]. zify_bools. pose proof (Z.div_pos (x - 1) d). lia. Qed.
