(* ===== verification/DvammPackage.v ===== *)
(** * [packages/dvamm]: assets, messages and queries of the DVAMM contracts

    [asset.rs], [factory.rs], [pair.rs], [querier.rs] and [token.rs].
    Messages and query answers are typed values: their JSON encoding, and the
    event attributes of responses, are not modelled. *)

From S2P Require Import Prelude Rust CwStd.

(** ** Messages to other contracts and to the bank *)

Inductive Cw20ExecuteMsg :=
| Transfer (recipient : rstring) (amount : Uint128)
| TransferFrom (owner recipient : rstring) (amount : Uint128)
| Burn (amount : Uint128)
| Mint (recipient : rstring) (amount : Uint128).

Inductive CosmosMsg :=
| WasmExecute (contract_addr : rstring) (msg : Cw20ExecuteMsg) (funds : list CwCoin)
| BankSend (to_address : rstring) (amount : list CwCoin).

(** ** [asset.rs] *)

Inductive AssetInfo :=
| Token (contract_addr : Addr)
| NativeToken (denom : rstring).

Record Asset := MkAsset { info : AssetInfo; amount : Uint128 }.

Inductive PairType := Xyk.

Record PairInfo := MkPairInfo {
  asset_infos : AssetInfo * AssetInfo;
  contract_addr : Addr;
  liquidity_token : Addr;
  pair_type : PairType }.

#[export] Instance Cw20ExecuteMsg_eq_dec : EqDecision Cw20ExecuteMsg.
Proof. solve_decision. Defined.
#[export] Instance CosmosMsg_eq_dec : EqDecision CosmosMsg.
Proof. solve_decision. Defined.
#[export] Instance AssetInfo_eq_dec : EqDecision AssetInfo.
Proof. solve_decision. Defined.
#[export] Instance Asset_eq_dec : EqDecision Asset.
Proof. solve_decision. Defined.

Definition is_native_token (i : AssetInfo) : bool :=
  match i with NativeToken _ => true | Token _ => false end.

Definition Asset_is_native_token (a : Asset) : bool := is_native_token (info a).

Definition into_msg (a : Asset) (recipient : Addr) : result StdError CosmosMsg :=
  match info a with
  | Token contract_addr => ROk (WasmExecute contract_addr (Transfer recipient (amount a)) [])
  | NativeToken denom => ROk (BankSend recipient [MkCwCoin denom (amount a)])
  end.

Definition assert_sent_native_token_balance (a : Asset) (message_info : MessageInfo) : result StdError unit :=
  match info a with
  | NativeToken d =>
      match list_find (fun x => denom x = d) (funds message_info) with
      | Some (_, coin) =>
          if amount a =? coin_amount coin then ROk tt
          else RErr (GenericErr "Native token balance mismatch between the argument and the transferred")
      | None =>
          if amount a =? 0 then ROk tt
          else RErr (GenericErr "Native token balance mismatch between the argument and the transferred")
      end
  | Token _ => ROk tt
  end.

Definition equal (self asset : AssetInfo) : bool :=
  match self with
  | Token self_contract_addr =>
      match asset with
      | Token contract_addr => bool_decide (self_contract_addr = contract_addr)
      | NativeToken _ => false
      end
  | NativeToken self_denom =>
      match asset with
      | Token _ => false
      | NativeToken denom => bool_decide (self_denom = denom)
      end
  end.

Definition as_bytes (i : AssetInfo) : bytes :=
  match i with NativeToken denom => denom | Token contract_addr => contract_addr end.

(** ** [factory.rs] *)

Record PairConfig := MkPairConfig { code_id : Z; total_fee_bps : Z; maker_fee_bps : Z }.

Definition valid_fee_bps (c : PairConfig) : bool :=
  (total_fee_bps c <=? 10000) && (maker_fee_bps c <=? 10000).

Record FeeInfoResponse := MkFeeInfoResponse {
  res_fee_address : option Addr; res_total_fee_bps : Z; res_maker_fee_bps : Z }.

Record FactoryConfigResponse := MkFactoryConfigResponse {
  cr_owner : Addr; cr_pair_xyk_config : option PairConfig;
  cr_token_code_id : Z; cr_fee_address : option Addr }.

Record PairsResponse := MkPairsResponse { pairs : list PairInfo }.

(** ** [pair.rs] *)

Record PairInstantiateMsg := MkPairInstantiateMsg {
  im_asset_infos : AssetInfo * AssetInfo; im_token_code_id : Z; im_factory_addr : Addr }.

Record SimulationResponse := MkSimulationResponse {
  sim_return_amount : Uint128; sim_commission_amount : Uint128 }.
Record ReverseSimulationResponse := MkReverseSimulationResponse {
  rsim_offer_amount : Uint128; rsim_commission_amount : Uint128 }.

Definition mint_liquidity_token_message (lp_token beneficiary : Addr) (amount : Uint128)
    : result StdError (list CosmosMsg) :=
  let recipient := beneficiary in
  ROk [WasmExecute lp_token (Mint recipient amount) []].

(** ** [querier.rs] *)

(** The answer of a cw20 token to [TokenInfo], as far as it is used. *)
Record TokenInfoResponse := MkTokenInfoResponse { decimals : Z; total_supply : Uint128 }.

(** [deps.querier]: the queries the contracts send, by their target. *)
Class Querier (Q : Type) : Type := {
  bank_balance : Q -> Addr -> rstring -> result StdError Uint128;
  bank_all_balances : Q -> Addr -> result StdError (list CwCoin);
  cw20_balance : Q -> Addr -> Addr -> result StdError Uint128;
  cw20_token_info : Q -> Addr -> result StdError TokenInfoResponse;
  factory_config_q : Q -> Addr -> result StdError FactoryConfigResponse;
  factory_fee_info : Q -> Addr -> PairType -> result StdError FeeInfoResponse;
  factory_pair : Q -> Addr -> AssetInfo * AssetInfo -> result StdError PairInfo;
  factory_pairs : Q -> Addr -> option (AssetInfo * AssetInfo) -> option Z -> result StdError PairsResponse;
  pair_pair : Q -> Addr -> result StdError PairInfo;
  pair_simulation : Q -> Addr -> Asset -> result StdError SimulationResponse;
  pair_reverse_simulation : Q -> Addr -> Asset -> result StdError ReverseSimulationResponse }.

(** Balances and supplies are [Uint128]; a query returns or fails. *)
Class QuerierOk (Q : Type) `{Querier Q} : Prop := {
  bank_balance_range q a d z : bank_balance q a d = ROk z -> U128 z;
  cw20_balance_range q t a z : cw20_balance q t a = ROk z -> U128 z;
  cw20_supply_range q t r : cw20_token_info q t = ROk r -> U128 (total_supply r) }.

Section querier.
Context {Q : Type} `{Querier Q}.

Definition query_balance (q : Q) (account_addr : Addr) (denom : rstring) : result StdError Uint128 :=
  bank_balance q account_addr denom.

Definition query_all_balances (q : Q) (account_addr : Addr) : result StdError (list CwCoin) :=
  bank_all_balances q account_addr.

(** A token that does not answer counts as a zero balance. *)
Definition query_token_balance (q : Q) (contract_addr account_addr : Addr) : result StdError Uint128 :=
  match cw20_balance q contract_addr account_addr with
  | RErr _ => ROk 0
  | r => r
  end.

Definition query_supply (q : Q) (contract_addr : Addr) : result StdError Uint128 :=
  res ← cw20_token_info q contract_addr;
  ROk (total_supply res).

Definition NATIVE_TOKEN_PRECISION : Z := 6.

Definition query_token_precision (q : Q) (asset_info : AssetInfo) : result StdError Z :=
  match asset_info with
  | NativeToken _ => ROk NATIVE_TOKEN_PRECISION
  | Token contract_addr => res ← cw20_token_info q contract_addr; ROk (decimals res)
  end.

Definition querier_query_pair_info (q : Q) (factory_contract : Addr) (asset_infos : AssetInfo * AssetInfo)
    : result StdError PairInfo :=
  factory_pair q factory_contract asset_infos.

Definition query_pairs_info (q : Q) (factory_contract : Addr)
    (start_after : option (AssetInfo * AssetInfo)) (limit : option Z) : result StdError PairsResponse :=
  factory_pairs q factory_contract start_after limit.

Definition simulate (q : Q) (pair_contract : Addr) (offer_asset : Asset) : result StdError SimulationResponse :=
  pair_simulation q pair_contract offer_asset.

Definition reverse_simulate (q : Q) (pair_contract : Addr) (ask_asset : Asset)
    : result StdError ReverseSimulationResponse :=
  pair_reverse_simulation q pair_contract ask_asset.

Definition factory_config (q : Q) (factory_addr : Addr) : result StdError FactoryConfigResponse :=
  factory_config_q q factory_addr.

(** [AssetInfo::query_pool] and [PairInfo::query_pools] of [asset.rs]. *)
Definition query_pool (q : Q) (i : AssetInfo) (pool_addr : Addr) : result StdError Uint128 :=
  match i with
  | Token contract_addr => query_token_balance q contract_addr pool_addr
  | NativeToken denom => query_balance q pool_addr denom
  end.

Definition query_pools (q : Q) (p : PairInfo) (contract_addr : Addr) : result StdError (Asset * Asset) :=
  a0 ← query_pool q (asset_infos p).1 contract_addr;
  a1 ← query_pool q (asset_infos p).2 contract_addr;
  ROk (MkAsset (asset_infos p).1 a0, MkAsset (asset_infos p).2 a1).
End querier.

(** ** [token.rs] *)

Record MinterResponse := MkMinterResponse { minter : rstring; cap : option Uint128 }.

Record TokenInstantiateMsg := MkTokenInstantiateMsg {
  name : rstring; symbol : rstring; tim_decimals : Z;
  initial_balances : list (rstring * Uint128);
  mint : option MinterResponse }.

Definition get_cap (m : TokenInstantiateMsg) : option Uint128 := v ← mint m; cap v.

Definition is_valid_name (name : rstring) : bool := negb ((len name <? 3) || (50 <? len name)).

(** The bytes [A-Z], [a-z] and [-]. *)
Fixpoint valid_symbol_bytes (bs : bytes) : bool :=
  match bs with
  | [] => true
  | b :: bs =>
      if negb (bz b =? 45) && ((bz b <? 65) || (90 <? bz b)) && ((bz b <? 97) || (122 <? bz b))
      then false else valid_symbol_bytes bs
  end.

Definition is_valid_symbol (symbol : rstring) : bool :=
  if (len symbol <? 3) || (12 <? len symbol) then false else valid_symbol_bytes symbol.

Definition validate (m : TokenInstantiateMsg) : result StdError unit :=
  if negb (is_valid_name (name m))
  then RErr (GenericErr "Name is not in the expected format (3-50 UTF-8 bytes)") else
  if negb (is_valid_symbol (symbol m))
  then RErr (GenericErr "Ticker symbol is not in expected format [a-zA-Z\-]{3,12}") else
  if 18 <? tim_decimals m
  then RErr (GenericErr "Decimals must not exceed 18") else
  ROk tt.

(** ** Lemmas *)

Lemma equal_spec i j : equal i j = true <-> i = j.
Proof. destruct i, j; cbn; rewrite ?bool_decide_eq_true; split; congruence. Qed.

Lemma equal_refl i : equal i i = true.
Proof. now apply equal_spec. Qed.

(** What an accepted native deposit says about the coins sent with it. *)
Lemma sent_native_ok a mi : assert_sent_native_token_balance a mi = ROk tt ->
  forall d, info a = NativeToken d ->
  (exists i c, funds mi !! i = Some c /\ denom c = d /\ coin_amount c = amount a) \/
  (amount a = 0 /\ Forall (fun c => denom c <> d) (funds mi)).
Proof.
  unfold assert_sent_native_token_balance. intros H d E. rewrite E in H.
  destruct (list_find _ _) as [[i c]|] eqn:F.
  - apply list_find_Some in F as (L & D & _). rguard H C. zify_bools. left. eauto.
  - apply list_find_None in F. rguard H C. zify_bools. right. auto.
Qed.

Section query_pools_lemmas.
Context {Q : Type} `{QuerierOk Q}.

Lemma query_pool_range (q : Q) i a z : query_pool q i a = ROk z -> U128 z.
Proof.
  destruct i; cbn.
  - unfold query_token_balance. destruct (cw20_balance _ _ _) eqn:E; intros [= <-].
    + eapply cw20_balance_range; eauto.
    + split; lia.
  - apply bank_balance_range.
Qed.

Lemma query_pools_inv (q : Q) p a ps : query_pools q p a = ROk ps ->
  info ps.1 = (asset_infos p).1 /\ info ps.2 = (asset_infos p).2 /\
  query_pool q (asset_infos p).1 a = ROk (amount ps.1) /\ query_pool q (asset_infos p).2 a = ROk (amount ps.2) /\
  U128 (amount ps.1) /\ U128 (amount ps.2).
Proof.
  unfold query_pools. intros E. rstep E as a0 R0. rstep E as a1 R1. injection E as <-. cbn.
  repeat split; eauto using query_pool_range; eapply query_pool_range; eauto.
Qed.

Lemma query_supply_range (q : Q) a z : query_supply q a = ROk z -> U128 z.
Proof. unfold query_supply. intros E. rstep E as r R. injection E as <-. eapply cw20_supply_range; eauto. Qed.
End query_pools_lemmas.
