(* ===== verification/DvammPair.v ===== *)
(** * [contracts/pair]: the pair contract of the DVAMM

    [contract.rs], [state.rs] and [error.rs].  An entry point takes the
    contract's storage and the querier and returns the new storage with the
    response, or an error; an error or a panic leaves the storage as it was. *)

From S2P Require Import Prelude Rust CwStd DvammPackage.

(** ** [error.rs] *)

Inductive ContractError :=
| Std (e : StdError)
| Unauthorized
| NonSupported
| InvalidZeroAmount
| MaxSpreadAssertion
| MaxSlippageAssertion
| AssetMismatch
| PairTypeMismatch.

#[export] Instance ContractError_eq_dec : EqDecision ContractError.
Proof. solve_decision. Defined.

(** ** [state.rs] *)

Record Config := MkConfig { pair_info : PairInfo; factory_addr : Addr; block_time_last : Z }.

(** The storage: the cw2 contract version and the item [CONFIG]. *)
Record Storage := MkStorage { contract_version : option (rstring * rstring); CONFIG : option Config }.

Definition load_config (s : Storage) : result StdError Config := ok_or NotFound (CONFIG s).
Definition save_config (c : Config) (s : Storage) : Storage := MkStorage (contract_version s) (Some c).
Definition set_contract_version (n v : rstring) (s : Storage) : Storage := MkStorage (Some (n, v)) (CONFIG s).

(** ** Messages and responses *)

Record Env := MkEnv { contract_address : Addr }.

Inductive ReplyOn := Always | OnError | Success | Never.

(** A sub-message that instantiates a token or pair contract. *)
Record SubMsg (I : Type) := MkSubMsg {
  id : Z; admin : option rstring; inst_code_id : Z; inst_msg : I;
  inst_funds : list CwCoin; label : string; reply_on : ReplyOn }.
Arguments MkSubMsg {I} _ _ _ _ _ _ _.

Record Response (I : Type) := MkResponse { messages : list CosmosMsg; submessages : list (SubMsg I) }.
Arguments MkResponse {I} _ _.
Arguments messages {I} _.
Arguments submessages {I} _.

Definition Response_new {I} : Response I := MkResponse [] [].
Definition add_messages {I} (ms : list CosmosMsg) : Response I := MkResponse ms [].

(** [MsgInstantiateContractResponse] and [SubMsgResponse]. *)
Record InstantiateResponse := MkInstantiateResponse { contract_address_ : rstring; data_ : bytes }.
Record SubMsgResponse := MkSubMsgResponse { data : option bytes; msg_responses : list bytes }.

(** [Reply.result]: the error text or the response of the sub-message. *)
Abbreviation SubMsgResult := (result string SubMsgResponse).

Inductive Cw20HookMsg :=
| HookSwap (to : option rstring)
| HookWithdrawLiquidity.

Record Cw20ReceiveMsg := MkCw20ReceiveMsg { cw20_sender : rstring; cw20_amount : Uint128; cw20_msg : bytes }.

Inductive ExecuteMsg :=
| Receive (msg : Cw20ReceiveMsg)
| ProvideLiquidity (assets : Asset * Asset) (slippage_tolerance : option Decimal) (receiver : option rstring)
| Swap (offer_asset : Asset) (to : option rstring).

(** Decoding of the bytes of a hook message (serde) and of a reply (rust-protobuf). *)
Class CwDecode : Type := {
  from_json_hook : bytes -> result StdError Cw20HookMsg;
  parse_instantiate_response : bytes -> option InstantiateResponse }.

Definition CONTRACT_NAME : rstring := str "dvamm-pair".
Definition CONTRACT_VERSION : rstring := str "2.0.0".
Definition INSTANTIATE_TOKEN_REPLY_ID : Z := 1.

(** ** Arithmetic *)

Section arithmetic.
Context `{CwMath}.

Definition compute_swap (offer_pool ask_pool offer_amount : Uint128) (commission_rate : Decimal)
    : result StdError (Uint128 * Uint128) :=
  cp ← expect "attempt to multiply with overflow" (u256_mul offer_pool ask_pool);
  sum ← expect "attempt to add with overflow" (u256_add offer_pool offer_amount);
  rest ← expect "Decimal256::from_ratio" (dec256_from_ratio cp sum);
  diff ← expect "attempt to subtract with overflow" (dec256_sub (dec256_new ask_pool) rest);
  let return_amount := dec256_to_uint_ceil diff in
  commission_amount ← expect "attempt to multiply with overflow"
    (u256_mul return_amount (dec256_to_uint_ceil commission_rate));
  return_amount ← expect "attempt to subtract with overflow" (u256_sub return_amount commission_amount);
  r ← expect "called Result::unwrap() on an Err value" (u128_try_from return_amount);
  c ← expect "called Result::unwrap() on an Err value" (u128_try_from commission_amount);
  ROk (r, c).

Definition compute_offer_amount (offer_pool ask_pool ask_amount : Uint128) (commission_rate : Decimal)
    : result StdError (Uint128 * Uint128) :=
  cp ← expect "attempt to multiply with overflow" (u256_mul offer_pool ask_pool);
  one_minus_commission ← expect "attempt to subtract with overflow" (dec256_sub dec256_one commission_rate);
  inv ← expect "Division failed" (dec256_div dec256_one one_minus_commission);
  inv_one_minus_commission ← expect "called Result::unwrap() on an Err value" (dec_try_from inv);
  x ← expect "attempt to multiply with overflow" (u128_mul ask_amount (dec_to_uint_floor inv_one_minus_commission));
  left ← ok_or OverflowErr (u128_checked_sub ask_pool x);
  q ← expect "multiply_ratio" (u256_multiply_ratio cp 1 left);
  q ← expect "called Result::unwrap() on an Err value" (u128_try_from q);
  offer_amount ← ok_or OverflowErr (u128_checked_sub q offer_pool);
  before_commission_deduction ← expect "attempt to multiply with overflow"
    (u128_mul ask_amount (dec_to_uint_floor inv_one_minus_commission));
  commission_amount ← expect "attempt to multiply with overflow"
    (u128_mul before_commission_deduction (dec_to_uint_floor commission_rate));
  ROk (offer_amount, commission_amount).

Definition calculate_maker_fee (pool_info : AssetInfo) (commission_amount : Uint128)
    (maker_commission_rate : Decimal) : result ContractError (option Asset) :=
  maker_fee ← expect "attempt to multiply with overflow"
    (u128_mul commission_amount (dec_to_uint_ceil maker_commission_rate));
  if maker_fee =? 0 then ROk None else ROk (Some (MkAsset pool_info maker_fee)).

Definition get_share_in_assets {E} (pools : Asset * Asset) (amount_ total_share : Uint128)
    : result E (Asset * Asset) :=
  share_ratio ← expect "Decimal::from_ratio" (dec_from_ratio amount_ total_share);
  a0 ← expect "attempt to multiply with overflow" (u128_mul (amount pools.1) (dec_to_uint_floor share_ratio));
  a1 ← expect "attempt to multiply with overflow" (u128_mul (amount pools.2) (dec_to_uint_floor share_ratio));
  ROk (MkAsset (info pools.1) a0, MkAsset (info pools.2) a1).

Definition assert_slippage_tolerance (slippage_tolerance : option Decimal) (deposits : Uint128 * Uint128)
    (pools : Asset * Asset) : result ContractError unit :=
  match slippage_tolerance with
  | None => ROk tt
  | Some slippage_tolerance =>
      if dec256_one <? slippage_tolerance
      then RErr (Std (GenericErr "slippage_tolerance cannot bigger than 1")) else
      one_minus_slippage_tolerance ← expect "attempt to subtract with overflow"
        (dec256_sub dec256_one slippage_tolerance);
      d01 ← expect "Decimal256::from_ratio" (dec256_from_ratio deposits.1 deposits.2);
      d01 ← expect "attempt to multiply with overflow" (dec256_mul d01 one_minus_slippage_tolerance);
      p01 ← expect "Decimal256::from_ratio" (dec256_from_ratio (amount pools.1) (amount pools.2));
      if p01 <? d01 then RErr MaxSlippageAssertion else
      d10 ← expect "Decimal256::from_ratio" (dec256_from_ratio deposits.2 deposits.1);
      d10 ← expect "attempt to multiply with overflow" (dec256_mul d10 one_minus_slippage_tolerance);
      p10 ← expect "Decimal256::from_ratio" (dec256_from_ratio (amount pools.2) (amount pools.1));
      if p10 <? d10 then RErr MaxSlippageAssertion else
      ROk tt
  end.
End arithmetic.

Definition amount_of (coins : list CwCoin) (d : rstring) : Uint128 :=
  match list_find (fun x => denom x = d) coins with
  | Some (_, coin) => coin_amount coin
  | None => 0
  end.

(** ** Entry points *)

Section contract.
Context `{CwMath} `{CwApi} `{CwDecode} {Q : Type} `{Querier Q}.

Abbreviation TokenResponse := (Response TokenInstantiateMsg).

Definition instantiate (s : Storage) (env : Env) (msg : PairInstantiateMsg)
    : result ContractError (Storage * TokenResponse) :=
  let s := set_contract_version CONTRACT_NAME CONTRACT_VERSION s in
  factory_addr ← map_err Std (addr_validate (im_factory_addr msg));
  let config := MkConfig (MkPairInfo (im_asset_infos msg) (contract_address env) [] Xyk) factory_addr 0 in
  let s := save_config config s in
  let sub_msg :=
    [MkSubMsg INSTANTIATE_TOKEN_REPLY_ID None (im_token_code_id msg)
       (MkTokenInstantiateMsg (str "DVAMM LP token") (str "dLP") 6 []
          (Some (MkMinterResponse (contract_address env) None)))
       [] "DVAMM LP token" Success] in
  ROk (s, MkResponse [] sub_msg).

Definition set_liquidity_token (a : Addr) (c : Config) : Config :=
  let p := pair_info c in
  MkConfig (MkPairInfo (asset_infos p) (contract_addr p) a (pair_type p)) (factory_addr c) (block_time_last c).

(** The bytes of the reply: the first message response, or the older [data] field. *)
Definition reply_bytes (response : SubMsgResponse) : result ContractError bytes :=
  match msg_responses response with
  | [] => expect "called Option::unwrap() on a None value" (data response)
  | value :: _ => ROk value
  end.

Definition reply (s : Storage) (result : SubMsgResult) : Rust.result ContractError (Storage * TokenResponse) :=
  config ← map_err Std (load_config s);
  if negb (bool_decide (liquidity_token (pair_info config) = [])) then RErr Unauthorized else
  response ← unwrap "called Result::unwrap() on an Err value" result;
  message ← reply_bytes response;
  res ← ok_or (Std (ParseErr "MsgInstantiateContractResponse" "failed to parse data"))
          (parse_instantiate_response message);
  token ← map_err Std (addr_validate (contract_address_ res));
  ROk (save_config (set_liquidity_token token config) s, Response_new).

Record FeeInfo := MkFeeInfo { fee_address : option Addr; total_fee_rate : Decimal; maker_fee_rate : Decimal }.

Definition get_fee_info (q : Q) (config : Config) : result StdError FeeInfo :=
  res ← factory_fee_info q (factory_addr config) (pair_type (pair_info config));
  total ← expect "Decimal::from_ratio" (dec_from_ratio (res_total_fee_bps res) 10000);
  maker ← expect "Decimal::from_ratio" (dec_from_ratio (res_maker_fee_bps res) 10000);
  ROk (MkFeeInfo (res_fee_address res) total maker).

Definition pool_info (q : Q) (config : Config) : result StdError ((Asset * Asset) * Uint128) :=
  pools ← query_pools q (pair_info config) (contract_addr (pair_info config));
  total_share ← query_supply q (liquidity_token (pair_info config));
  ROk (pools, total_share).

(** [assets.iter().find(|a| a.info.equal(i)).map(|a| a.amount).expect(..)]. *)
Definition deposit_of (assets : Asset * Asset) (i : AssetInfo) : result ContractError Uint128 :=
  if equal (info assets.1) i then ROk (amount assets.1)
  else if equal (info assets.2) i then ROk (amount assets.2)
  else RPanic "Wrong asset info is given".

(** The body of the loop over the pools in [provide_liquidity]: the transfer
    message of a token, or the pool without the deposit of a native coin. *)
Definition collect_deposit (env : Env) (mi : MessageInfo) (pool : Asset) (deposit : Uint128)
    : result ContractError (list CosmosMsg * Asset) :=
  match info pool with
  | Token contract_addr =>
      ROk ([WasmExecute contract_addr (TransferFrom (sender mi) (contract_address env) deposit) []], pool)
  | NativeToken _ =>
      a ← ok_or (Std OverflowErr) (u128_checked_sub (amount pool) deposit);
      ROk ([], MkAsset (info pool) a)
  end.

(** The liquidity tokens a deposit is worth. *)
Definition compute_share (total_share : Uint128) (deposits : Uint128 * Uint128) (pools : Asset * Asset)
    : result ContractError Uint128 :=
  if total_share =? 0 then
    p ← expect "arithmetic operation overflow" (uint_mul deposits.1 deposits.2);
    expect "Integer overflow when casting to u128" (uint_as_u128 (uint_sqrt p))
  else
    s0 ← expect "multiply_ratio" (u128_multiply_ratio deposits.1 total_share (amount pools.1));
    s1 ← expect "multiply_ratio" (u128_multiply_ratio deposits.2 total_share (amount pools.2));
    ROk (Z.min s0 s1).

Definition provide_liquidity (s : Storage) (q : Q) (env : Env) (mi : MessageInfo) (assets : Asset * Asset)
    (slippage_tolerance : option Decimal) (receiver : option rstring) : result ContractError (Storage * TokenResponse) :=
  _ ← map_err Std (assert_sent_native_token_balance assets.1 mi);
  _ ← map_err Std (assert_sent_native_token_balance assets.2 mi);
  config ← map_err Std (load_config s);
  pools ← map_err Std (query_pools q (pair_info config) (contract_address env));
  deposit0 ← deposit_of assets (info pools.1);
  deposit1 ← deposit_of assets (info pools.2);
  if (deposit0 =? 0) || (deposit1 =? 0) then RErr InvalidZeroAmount else
  '(messages0, pool0) ← collect_deposit env mi pools.1 deposit0;
  '(messages1, pool1) ← collect_deposit env mi pools.2 deposit1;
  _ ← assert_slippage_tolerance slippage_tolerance (deposit0, deposit1) (pool0, pool1);
  total_share ← map_err Std (query_supply q (liquidity_token (pair_info config)));
  share ← compute_share total_share (deposit0, deposit1) (pool0, pool1);
  let receiver := default (sender mi) receiver in
  receiver ← map_err Std (addr_validate receiver);
  mint ← map_err Std (mint_liquidity_token_message (liquidity_token (pair_info config)) receiver share);
  ROk (s, add_messages (messages0 ++ messages1 ++ mint)).

Definition withdraw_liquidity (s : Storage) (q : Q) (mi : MessageInfo) (sender_ : Addr) (amount_ : Uint128)
    : result ContractError (Storage * TokenResponse) :=
  config ← unwrap "called Result::unwrap() on an Err value" (load_config s);
  if negb (bool_decide (sender mi = liquidity_token (pair_info config))) then RErr Unauthorized else
  '(pools, total_share) ← map_err Std (pool_info q config);
  refund_assets ← get_share_in_assets pools amount_ total_share;
  m0 ← map_err Std (into_msg refund_assets.1 sender_);
  m1 ← map_err Std (into_msg refund_assets.2 sender_);
  ROk (s, add_messages [m0; m1; WasmExecute (liquidity_token (pair_info config)) (Burn amount_) []]).

(** The pool without the offer that has already reached it; [unwrap]s the subtraction. *)
Definition without_offer (offer_asset p : Asset) : result ContractError Asset :=
  if equal (info p) (info offer_asset)
  then a ← expect "called Result::unwrap() on an Err value" (u128_checked_sub (amount p) (amount offer_asset));
       ROk (MkAsset (info p) a)
  else ROk p.

(** The pool an asset belongs to, first, and the other one. *)
Definition choose_pools {E} (err : E) (i : AssetInfo) (pools : Asset * Asset) : Rust.result E (Asset * Asset) :=
  if equal i (info pools.1) then ROk (pools.1, pools.2)
  else if equal i (info pools.2) then ROk (pools.2, pools.1)
  else RErr err.

Definition swap (s : Storage) (q : Q) (env : Env) (mi : MessageInfo) (sender_ : Addr) (offer_asset : Asset)
    (to : option Addr) : result ContractError (Storage * TokenResponse) :=
  _ ← map_err Std (assert_sent_native_token_balance offer_asset mi);
  config ← map_err Std (load_config s);
  pools ← map_err Std (query_pools q (pair_info config) (contract_address env));
  pool0 ← without_offer offer_asset pools.1;
  pool1 ← without_offer offer_asset pools.2;
  '(offer_pool, ask_pool) ← choose_pools AssetMismatch (info offer_asset) (pool0, pool1);
  fee_info ← map_err Std (get_fee_info q config);
  '(return_amount, commission_amount) ← map_err Std
     (compute_swap (amount offer_pool) (amount ask_pool) (amount offer_asset) (total_fee_rate fee_info));
  let return_asset := MkAsset (info ask_pool) return_amount in
  let receiver := default sender_ to in
  m ← map_err Std (into_msg return_asset receiver);
  maker ← match fee_address fee_info with
          | None => ROk []
          | Some fee_address =>
              f ← calculate_maker_fee (info ask_pool) commission_amount (maker_fee_rate fee_info);
              match f with
              | None => ROk []
              | Some f => m ← map_err Std (into_msg f fee_address); ROk [m]
              end
          end;
  ROk (s, add_messages (m :: maker)).

Definition validate_opt (a : option rstring) : result ContractError (option Addr) :=
  match a with
  | Some a => a ← map_err Std (addr_validate a); ROk (Some a)
  | None => ROk None
  end.

(** Whether a token of the pair has the address [a]. *)
Definition is_pair_token (a : Addr) (i : AssetInfo) : bool :=
  match i with Token contract_addr => bool_decide (contract_addr = a) | NativeToken _ => false end.

Definition receive_cw20 (s : Storage) (q : Q) (env : Env) (mi : MessageInfo) (msg : Cw20ReceiveMsg)
    : result ContractError (Storage * TokenResponse) :=
  match from_json_hook (cw20_msg msg) with
  | ROk (HookSwap to) =>
      config ← map_err Std (load_config s);
      let authorized := is_pair_token (sender mi) (asset_infos (pair_info config)).1
                     || is_pair_token (sender mi) (asset_infos (pair_info config)).2 in
      if negb authorized then RErr Unauthorized else
      to_addr ← validate_opt to;
      swap s q env mi (cw20_sender msg) (MkAsset (Token (sender mi)) (cw20_amount msg)) to_addr
  | ROk HookWithdrawLiquidity => withdraw_liquidity s q mi (cw20_sender msg) (cw20_amount msg)
  | RErr err => RErr (Std err)
  | RPanic p => RPanic p
  end.

Definition execute (s : Storage) (q : Q) (env : Env) (mi : MessageInfo) (msg : ExecuteMsg)
    : result ContractError (Storage * TokenResponse) :=
  match msg with
  | Receive msg => receive_cw20 s q env mi msg
  | ProvideLiquidity assets slippage_tolerance receiver =>
      provide_liquidity s q env mi assets slippage_tolerance receiver
  | Swap offer_asset to =>
      if negb (Asset_is_native_token offer_asset) then RErr Unauthorized else
      to_addr ← validate_opt to;
      swap s q env mi (sender mi) offer_asset to_addr
  end.

Definition migrate (s : Storage) : result StdError (Storage * TokenResponse) := ROk (s, Response_new).

(** ** Queries *)

Inductive QueryMsg :=
| QPair | QPool | QConfig
| QShare (amount : Uint128)
| QSimulation (offer_asset : Asset)
| QReverseSimulation (ask_asset : Asset).

Inductive QueryResponse :=
| RPair (p : PairInfo)
| RPool (assets : Asset * Asset) (total_share : Uint128)
| RShare (assets : Asset * Asset)
| RSimulation (r : SimulationResponse)
| RReverseSimulation (r : ReverseSimulationResponse)
| RConfig (block_time_last : Z).

Definition query_pair_info (s : Storage) : result StdError PairInfo :=
  config ← load_config s; ROk (pair_info config).

Definition pair_query_pool (s : Storage) (q : Q) : result StdError ((Asset * Asset) * Uint128) :=
  config ← load_config s; pool_info q config.

Definition query_share (s : Storage) (q : Q) (amount_ : Uint128) : result StdError (Asset * Asset) :=
  config ← load_config s;
  '(pools, total_share) ← pool_info q config;
  get_share_in_assets pools amount_ total_share.

Definition query_simulation (s : Storage) (q : Q) (offer_asset : Asset) : result StdError SimulationResponse :=
  config ← load_config s;
  pools ← query_pools q (pair_info config) (contract_addr (pair_info config));
  '(offer_pool, ask_pool) ← choose_pools (GenericErr "Given offer asset doesn't belong to pairs") (info offer_asset) pools;
  fee_info ← get_fee_info q config;
  '(return_amount, commission_amount) ←
     compute_swap (amount offer_pool) (amount ask_pool) (amount offer_asset) (total_fee_rate fee_info);
  ROk (MkSimulationResponse return_amount commission_amount).

Definition query_reverse_simulation (s : Storage) (q : Q) (ask_asset : Asset)
    : result StdError ReverseSimulationResponse :=
  config ← load_config s;
  pools ← query_pools q (pair_info config) (contract_addr (pair_info config));
  '(ask_pool, offer_pool) ← choose_pools (GenericErr "Given ask asset doesn't belong to pairs") (info ask_asset) pools;
  fee_info ← get_fee_info q config;
  '(offer_amount, commission_amount) ←
     compute_offer_amount (amount offer_pool) (amount ask_pool) (amount ask_asset) (total_fee_rate fee_info);
  ROk (MkReverseSimulationResponse offer_amount commission_amount).

Definition query_config (s : Storage) : result StdError Z :=
  config ← load_config s; ROk (block_time_last config).

Definition query (s : Storage) (q : Q) (msg : QueryMsg) : result StdError QueryResponse :=
  match msg with
  | QPair => r ← query_pair_info s; ROk (RPair r)
  | QPool => '(a, t) ← pair_query_pool s q; ROk (RPool a t)
  | QShare amount => r ← query_share s q amount; ROk (RShare r)
  | QSimulation offer_asset => r ← query_simulation s q offer_asset; ROk (RSimulation r)
  | QReverseSimulation ask_asset => r ← query_reverse_simulation s q ask_asset; ROk (RReverseSimulation r)
  | QConfig => r ← query_config s; ROk (RConfig r)
  end.
End contract.
