(* ===== verification/DvammFactory.v ===== *)
(** * [contracts/factory]: the factory contract of the DVAMM

    [contract.rs], [state.rs], [error.rs] and [querier.rs]: the configuration,
    the registry of pairs and its paginated listing. *)

From S2P Require Import Prelude Rust CwStd DvammPackage DvammPair.

(** ** [error.rs] *)

Inductive FactoryError :=
| FStd (e : StdError)
| FUnauthorized
| PairWasCreated
| PairWasRegistered
| PairConfigInvalidFeeBps
| PairConfigNotFound.

#[export] Instance FactoryError_eq_dec : EqDecision FactoryError.
Proof. solve_decision. Defined.

(** ** [state.rs] *)

Record FConfig := MkFConfig {
  owner : Addr; token_code_id : Z; f_fee_address : option Addr; pair_xyk_config : option PairConfig }.

(** The storage: the contract version, the items [CONFIG] and [TMP_PAIR_INFO]
    and the map [PAIRS]. *)
Record FStorage := MkFStorage {
  f_version : option (rstring * rstring);
  FCONFIG : option FConfig;
  TMP_PAIR_INFO : option bytes;
  PAIRS : gmap bytes Addr }.

Definition f_load_config (s : FStorage) : result StdError FConfig := ok_or NotFound (FCONFIG s).
Definition f_save_config (c : FConfig) (s : FStorage) : FStorage :=
  MkFStorage (f_version s) (Some c) (TMP_PAIR_INFO s) (PAIRS s).
Definition save_tmp (k : bytes) (s : FStorage) : FStorage :=
  MkFStorage (f_version s) (FCONFIG s) (Some k) (PAIRS s).
Definition save_pair (k : bytes) (a : Addr) (s : FStorage) : FStorage :=
  MkFStorage (f_version s) (FCONFIG s) (TMP_PAIR_INFO s) (<[k := a]> (PAIRS s)).
Definition f_set_version (n v : rstring) (s : FStorage) : FStorage :=
  MkFStorage (Some (n, v)) (FCONFIG s) (TMP_PAIR_INFO s) (PAIRS s).

(** [Ord] of byte slices: lexicographic. *)
Fixpoint bytes_lt (a b : bytes) : bool :=
  match a, b with
  | _, [] => false
  | [], _ :: _ => true
  | x :: a, y :: b => if bz x <? bz y then true else if bz y <? bz x then false else bytes_lt a b
  end.

(** [sort_by] on two elements: swapped when the second is smaller. *)
Definition sort_infos (asset_infos : AssetInfo * AssetInfo) : AssetInfo * AssetInfo :=
  if bytes_lt (as_bytes asset_infos.2) (as_bytes asset_infos.1)
  then (asset_infos.2, asset_infos.1) else asset_infos.

Definition pair_key (asset_infos : AssetInfo * AssetInfo) : bytes :=
  let sorted := sort_infos asset_infos in
  as_bytes sorted.1 ++ as_bytes sorted.2.

Definition MAX_LIMIT : Z := 30.
Definition DEFAULT_LIMIT : Z := 10.

Definition calc_range_start (start_after : option (AssetInfo * AssetInfo)) : option bytes :=
  match start_after with
  | Some asset_infos =>
      let sorted := sort_infos asset_infos in
      Some ((as_bytes sorted.1 ++ as_bytes sorted.2) ++ [x01])
  | None => None
  end.

(** [Map::range] without an upper bound: the entries above an exclusive lower
    bound, in ascending order of their keys. *)
Definition entry_le (x y : bytes * Addr) : Prop := bytes_lt y.1 x.1 = false.
#[export] Instance entry_le_dec : RelDecision entry_le.
Proof. unfold entry_le. intros x y. apply _. Defined.

Definition above (start : option bytes) (k : bytes) : bool :=
  match start with Some v => bytes_lt v k | None => true end.

Definition range (m : gmap bytes Addr) (start : option bytes) : list (bytes * Addr) :=
  merge_sort entry_le (base.filter (fun e : bytes * Addr => above start e.1 = true) (map_to_list m)).

Definition read_pairs (s : FStorage) (start_after : option (AssetInfo * AssetInfo)) (limit : option Z)
    : list Addr :=
  let limit := Z.min (default DEFAULT_LIMIT limit) MAX_LIMIT in
  let start := calc_range_start start_after in
  snd <$> take (Z.to_nat limit) (range (PAIRS s) start).

(** ** Messages *)

Record FInstantiateMsg := MkFInstantiateMsg {
  fi_pair_xyk_config : option PairConfig; fi_token_code_id : Z;
  fi_fee_address : option Addr; fi_owner : rstring }.

Record UpdateConfig := MkUpdateConfig {
  uc_owner : option Addr; uc_token_code_id : option Z;
  uc_fee_address : option Addr; uc_pair_xyk_config : option PairConfig }.

Inductive FExecuteMsg :=
| FUpdateConfig (param : UpdateConfig)
| FCreatePair (asset_infos : AssetInfo * AssetInfo).

Definition F_CONTRACT_NAME : rstring := str "dvamm-factory".
Definition F_CONTRACT_VERSION : rstring := str "2.0.0".
Definition INSTANTIATE_PAIR_REPLY_ID : Z := 1.

(** ** Entry points *)

Section contract.
Context `{CwApi} `{CwDecode} {Q : Type} `{Querier Q}.

Abbreviation PairResponse := (Response PairInstantiateMsg).

(** [if let Some(c) = pair_xyk_config { if c.valid_fee_bps() { .. } else { return Err } }]. *)
Definition check_fees (c : option PairConfig) : result FactoryError unit :=
  match c with
  | Some c => if valid_fee_bps c then ROk tt else RErr PairConfigInvalidFeeBps
  | None => ROk tt
  end.

Definition validate_fee_address (a : option Addr) : result FactoryError (option Addr) :=
  match a with
  | Some a => a ← map_err FStd (addr_validate a); ROk (Some a)
  | None => ROk None
  end.

Definition f_instantiate (s : FStorage) (msg : FInstantiateMsg) : result FactoryError (FStorage * PairResponse) :=
  let s := f_set_version F_CONTRACT_NAME F_CONTRACT_VERSION s in
  owner ← map_err FStd (addr_validate (fi_owner msg));
  fee_address ← validate_fee_address (fi_fee_address msg);
  _ ← check_fees (fi_pair_xyk_config msg);
  let config := MkFConfig owner (fi_token_code_id msg) fee_address (fi_pair_xyk_config msg) in
  ROk (f_save_config config s, Response_new).

(** The configuration is only saved together with a new pair configuration. *)
Definition execute_update_config (s : FStorage) (mi : MessageInfo) (param : UpdateConfig)
    : result FactoryError (FStorage * PairResponse) :=
  config ← map_err FStd (f_load_config s);
  if negb (bool_decide (sender mi = owner config)) then RErr FUnauthorized else
  owner ← match uc_owner param with
          | Some owner => map_err FStd (addr_validate owner)
          | None => ROk (owner config)
          end;
  fee_address ← match uc_fee_address param with
                | Some fee_address => a ← map_err FStd (addr_validate fee_address); ROk (Some a)
                | None => ROk (f_fee_address config)
                end;
  let token_code_id := default (token_code_id config) (uc_token_code_id param) in
  match uc_pair_xyk_config param with
  | Some pair_xyk_config =>
      if valid_fee_bps pair_xyk_config
      then ROk (f_save_config (MkFConfig owner token_code_id fee_address (Some pair_xyk_config)) s, Response_new)
      else RErr PairConfigInvalidFeeBps
  | None => ROk (s, Response_new)
  end.

Definition execute_create_pair (s : FStorage) (env : Env) (asset_infos : AssetInfo * AssetInfo)
    : result FactoryError (FStorage * PairResponse) :=
  config ← map_err FStd (f_load_config s);
  match pair_xyk_config config with
  | None => RErr PairConfigNotFound
  | Some pair_config =>
      match PAIRS s !! pair_key asset_infos with
      | Some _ => RErr PairWasCreated
      | None =>
          let s := save_tmp (pair_key asset_infos) s in
          let sub_msg :=
            [MkSubMsg INSTANTIATE_PAIR_REPLY_ID (Some (owner config)) (code_id pair_config)
               (MkPairInstantiateMsg asset_infos (token_code_id config) (contract_address env))
               [] "DVAMM pair" Success] in
          ROk (s, MkResponse [] sub_msg)
      end
  end.

Definition f_execute (s : FStorage) (env : Env) (mi : MessageInfo) (msg : FExecuteMsg)
    : result FactoryError (FStorage * PairResponse) :=
  match msg with
  | FUpdateConfig param => execute_update_config s mi param
  | FCreatePair asset_infos => execute_create_pair s env asset_infos
  end.

Definition f_reply_bytes (response : SubMsgResponse) : result FactoryError bytes :=
  match msg_responses response with
  | [] => expect "called Option::unwrap() on a None value" (data response)
  | value :: _ => ROk value
  end.

Definition f_reply (s : FStorage) (result : SubMsgResult) : Rust.result FactoryError (FStorage * PairResponse) :=
  tmp ← map_err FStd (ok_or NotFound (TMP_PAIR_INFO s));
  match PAIRS s !! tmp with
  | Some _ => RErr PairWasRegistered
  | None =>
      response ← unwrap "called Result::unwrap() on an Err value" result;
      message ← f_reply_bytes response;
      res ← ok_or (FStd (ParseErr "MsgInstantiateContractResponse" "failed to parse data"))
              (parse_instantiate_response message);
      pair_contract ← map_err FStd (addr_validate (contract_address_ res));
      ROk (save_pair tmp pair_contract s, Response_new)
  end.

Definition f_migrate (s : FStorage) : result StdError (FStorage * PairResponse) := ROk (s, Response_new).

(** ** Queries *)

Inductive FQueryMsg :=
| FQConfig
| FQPair (asset_infos : AssetInfo * AssetInfo)
| FQPairs (start_after : option (AssetInfo * AssetInfo)) (limit : option Z)
| FQFeeInfo (pair_type : PairType).

Inductive FQueryResponse :=
| FRConfig (r : FactoryConfigResponse)
| FRPair (p : PairInfo)
| FRPairs (r : PairsResponse)
| FRFeeInfo (r : FeeInfoResponse).

Definition f_query_config (s : FStorage) : result StdError FactoryConfigResponse :=
  config ← f_load_config s;
  ROk (MkFactoryConfigResponse (owner config) (pair_xyk_config config) (token_code_id config) (f_fee_address config)).

(** [querier.rs]. *)
Definition f_query_pair_info (q : Q) (pair_contract : Addr) : result StdError PairInfo := pair_pair q pair_contract.

Definition query_pair (s : FStorage) (q : Q) (asset_infos : AssetInfo * AssetInfo) : result StdError PairInfo :=
  pair_addr ← ok_or NotFound (PAIRS s !! pair_key asset_infos);
  f_query_pair_info q pair_addr.

Fixpoint query_each (q : Q) (addrs : list Addr) : result StdError (list PairInfo) :=
  match addrs with
  | [] => ROk []
  | a :: addrs =>
      p ← unwrap "called Result::unwrap() on an Err value" (f_query_pair_info q a);
      ps ← query_each q addrs;
      ROk (p :: ps)
  end.

Definition query_pairs (s : FStorage) (q : Q) (start_after : option (AssetInfo * AssetInfo)) (limit : option Z)
    : result StdError PairsResponse :=
  ps ← query_each q (read_pairs s start_after limit);
  ROk (MkPairsResponse ps).

Definition query_fee_info (s : FStorage) (pair_type : PairType) : result StdError FeeInfoResponse :=
  config ← f_load_config s;
  let pair_config := match pair_type with Xyk => pair_xyk_config config end in
  match pair_config with
  | None => RErr (GenericErr "Pair config not found")
  | Some pair_config =>
      ROk (MkFeeInfoResponse (f_fee_address config) (total_fee_bps pair_config) (maker_fee_bps pair_config))
  end.

Definition f_query (s : FStorage) (q : Q) (msg : FQueryMsg) : result StdError FQueryResponse :=
  match msg with
  | FQConfig => r ← f_query_config s; ROk (FRConfig r)
  | FQPair asset_infos => r ← query_pair s q asset_infos; ROk (FRPair r)
  | FQPairs start_after limit => r ← query_pairs s q start_after limit; ROk (FRPairs r)
  | FQFeeInfo pair_type => r ← query_fee_info s pair_type; ROk (FRFeeInfo r)
  end.
End contract.
