(* ===== verification/DvammPairProps.v ===== *)
(** * What the pair contract computes and pays

    The arithmetic of swaps, withdrawals and deposits in exact integers, then
    the responses of the handlers that use it. *)

From S2P Require Import Prelude Rust CwStd DvammPackage DvammPair.

(** ** Ranges *)

Lemma frac_pos : 0 < DECIMAL_FRACTIONAL.
Proof. reflexivity. Qed.

Lemma u128_u256 z : U128 z -> U256 z.
Proof. unfold uint. intros. assert (2 ^ 128 < 2 ^ 256) by reflexivity. lia. Qed.

Lemma u128_prod a b : U128 a -> U128 b -> U256 (a * b).
Proof.
  intros [? ?] [? ?]. split; [nia|]. change (2 ^ 256) with (2 ^ 128 * 2 ^ 128). nia.
Qed.

Lemma u128_sum a b : U128 a -> U128 b -> U256 (a + b).
Proof. intros [? ?] [? ?]. split; [lia|]. assert (2 ^ 128 + 2 ^ 128 <= 2 ^ 256) by easy. lia. Qed.

Lemma u256_one_dec : U256 DECIMAL_FRACTIONAL.
Proof. split; easy. Qed.

Lemma u128_bit (b : bool) : U128 (if b then 0 else 1).
Proof. destruct b; split; easy. Qed.

Lemma u128_0 : U128 0.
Proof. split; easy. Qed.

#[export] Hint Resolve u128_u256 u128_prod u128_sum u256_one_dec u128_bit u128_0 : halborn.

(** ** Swaps *)

(** The part of the ask pool the code keeps, in units of 10^-18, and the
    amount it takes out of the pool. *)
Definition kept (offer_pool ask_pool offer_amount : Z) : Z :=
  offer_pool * ask_pool * DECIMAL_FRACTIONAL / (offer_pool + offer_amount).
Definition gross (offer_pool ask_pool offer_amount : Z) : Z :=
  ceil_div (ask_pool - kept offer_pool ask_pool offer_amount) DECIMAL_FRACTIONAL.

Lemma kept_range op ap oa : U128 op -> U128 ap -> U128 oa -> 0 < op + oa -> U256 (kept op ap oa).
Proof.
  intros [] [] [] Hs. unfold kept. split; [apply Z.div_pos; [|lia]; unfold DECIMAL_FRACTIONAL; nia|].
  apply Z.le_lt_trans with (ap * DECIMAL_FRACTIONAL).
  - apply Z.div_le_upper_bound; [lia|]. pose proof frac_pos. nia.
  - apply Z.lt_le_trans with (2 ^ 128 * 2 ^ 128); [|easy].
    assert (DECIMAL_FRACTIONAL < 2 ^ 128) by reflexivity. nia.
Qed.

Lemma gross_le op ap oa : 0 <= ap -> 0 <= kept op ap oa <= ap -> 0 <= gross op ap oa <= ap.
Proof.
  intros Ha Hk. pose proof frac_pos. split; [apply ceil_div_nonneg; lia|].
  destruct (ceil_div_bounds (ap - kept op ap oa) DECIMAL_FRACTIONAL) as [B|[_ B]]; [lia|lia| |unfold gross; lia].
  fold (gross op ap oa) in B. nia.
Qed.

(** While at least two units of the ask asset are pooled, taking [gross] out
    does not lower the product of the pools. *)
Lemma gross_product op ap oa : 0 <= op -> 0 <= oa -> 0 < op + oa -> 2 <= ap -> kept op ap oa <= ap ->
  op * ap <= (op + oa) * (ap - gross op ap oa).
Proof.
  intros Ho Hoa Hs Ha Hk.
  assert (K0 : 0 <= kept op ap oa).
  { unfold kept. apply Z.div_pos; [|lia]. pose proof frac_pos. nia. }
  assert (K : op * ap * DECIMAL_FRACTIONAL < (op + oa) * (ap + 1)).
  { pose proof (Z.mod_pos_bound (op * ap * DECIMAL_FRACTIONAL) (op + oa) Hs) as R.
    pose proof (Z.div_mod (op * ap * DECIMAL_FRACTIONAL) (op + oa)) as D. fold (kept op ap oa) in D. nia. }
  assert (G : DECIMAL_FRACTIONAL * (gross op ap oa - 1) <= ap).
  { destruct (ceil_div_bounds (ap - kept op ap oa) DECIMAL_FRACTIONAL) as [B|[_ B]];
      [easy|lia| |]; fold (gross op ap oa) in B; [lia|]. rewrite B. unfold DECIMAL_FRACTIONAL. lia. }
  apply Z.mul_le_mono_pos_r with (p := DECIMAL_FRACTIONAL); [easy|].
  assert (ap + 1 <= DECIMAL_FRACTIONAL * (ap - gross op ap oa)); [|nia].
  unfold DECIMAL_FRACTIONAL in *. lia.
Qed.

Section pair.
Context `{CwMathOk}.

Lemma compute_swap_panics op ap oa rate : U128 op -> U128 ap -> U128 oa ->
  op + oa = 0 \/ ap < kept op ap oa -> panics (compute_swap op ap oa rate).
Proof.
  intros Ho Ha Hoa C. unfold compute_swap, panics.
  rewrite u256_mul_ok, fit_some by eauto with halborn. cbn.
  rewrite u256_add_ok, fit_some by eauto with halborn. cbn.
  rewrite dec256_from_ratio_ok by eauto with halborn. unfold ratio.
  destruct (op + oa =? 0) eqn:E; zify_bools; [cbn; eauto|].
  destruct Ho, Ha, Hoa. assert (0 < op + oa) by lia. destruct C as [?|C]; [lia|].
  pose proof (kept_range op ap oa ltac:(split; lia) ltac:(split; lia) ltac:(split; lia) ltac:(lia)) as K.
  fold (kept op ap oa). rewrite fit_some by exact K. cbn.
  rewrite dec256_new_ok, dec256_sub_ok by (try assumption; apply u128_u256; split; lia).
  rewrite (proj2 (fit_none _ _)) by (intros []; lia). cbn. eauto.
Qed.

Lemma compute_swap_run op ap oa rate : U128 op -> U128 ap -> U128 oa -> 0 <= rate <= DECIMAL_FRACTIONAL ->
  0 < op + oa -> kept op ap oa <= ap ->
  compute_swap op ap oa rate =
    ROk (if rate =? 0 then (gross op ap oa, 0) else (0, gross op ap oa)).
Proof.
  intros Ho Ha Hoa Hr Hs Hk. unfold compute_swap.
  pose proof (kept_range op ap oa Ho Ha Hoa Hs) as K.
  assert (G : 0 <= gross op ap oa <= ap) by (apply gross_le; destruct Ha, K; lia).
  assert (G1 : U128 (gross op ap oa)) by (destruct Ha; split; lia).
  assert (R : U256 rate) by (split; [lia|]; assert (DECIMAL_FRACTIONAL < 2 ^ 256) by easy; lia).
  assert (D : U256 (ap - kept op ap oa)) by (apply u128_u256; destruct K, Ha; split; lia).
  rewrite u256_mul_ok, fit_some by eauto with halborn. cbn.
  rewrite u256_add_ok, fit_some by eauto with halborn. cbn.
  rewrite dec256_from_ratio_ok, ratio_some by eauto with halborn. cbn. fold (kept op ap oa).
  rewrite dec256_new_ok, dec256_sub_ok, fit_some by eauto with halborn. cbn.
  rewrite !dec256_to_uint_ceil_ok by assumption. fold (gross op ap oa). rewrite ceil_div_le1 by lia.
  rewrite u256_mul_ok by eauto with halborn.
  destruct (rate =? 0); [rewrite Z.mul_0_r | rewrite Z.mul_1_r]; rewrite fit_some by eauto with halborn; cbn;
    rewrite u256_sub_ok by eauto with halborn; rewrite ?Z.sub_0_r, ?Z.sub_diag, fit_some by eauto with halborn;
    cbn; rewrite !u128_try_from_ok, !fit_some by eauto with halborn; reflexivity.
Qed.

(** Below 10^18 times the offer pool nothing is left to pay out: the pool is
    compared, in units of 10^-18, with the same number of whole units. *)
Lemma kept_exceeds op ap oa : 0 < op -> 0 < ap -> 0 <= oa -> 2 * (op + oa) <= op * DECIMAL_FRACTIONAL ->
  ap < kept op ap oa.
Proof.
  intros Ho Ha Hoa Hb. unfold kept. apply Z.lt_le_trans with (ap + 1); [lia|].
  apply Z.div_le_lower_bound; [lia|]. nia.
Qed.

(** [compute_swap] on every input: it returns exactly when the offer side
    is not empty and the kept part, in units of 10^-18, does not exceed the ask
    pool taken as that many units; the output then goes whole to the trader if
    there is no fee and whole to the commission if there is one. *)
Theorem compute_swap_exact op ap oa rate : U128 op -> U128 ap -> U128 oa -> 0 <= rate <= DECIMAL_FRACTIONAL ->
  (0 < op + oa /\ kept op ap oa <= ap /\
   compute_swap op ap oa rate = ROk (if rate =? 0 then (gross op ap oa, 0) else (0, gross op ap oa))) \/
  ((op + oa = 0 \/ ap < kept op ap oa) /\ panics (compute_swap op ap oa rate)).
Proof.
  intros Ho Ha Hoa Hr. destruct (decide (op + oa = 0 \/ ap < kept op ap oa)) as [C|C].
  - right. eauto using compute_swap_panics.
  - left. assert (0 < op + oa /\ kept op ap oa <= ap) as [? ?] by (destruct Ho, Hoa; lia).
    auto using compute_swap_run.
Qed.

(** ** Withdrawals and deposits *)

Lemma get_share_run {E} p t x : U128 (amount p.1) -> U128 (amount p.2) -> 0 < t < 2 ^ 128 -> 0 <= x <= t ->
  get_share_in_assets (E := E) p x t =
    ROk (if x =? t then p else (MkAsset (info p.1) 0, MkAsset (info p.2) 0)).
Proof.
  intros H0 H1 Ht Hx. unfold get_share_in_assets.
  assert (R : 0 <= x * DECIMAL_FRACTIONAL / t <= DECIMAL_FRACTIONAL).
  { pose proof frac_pos. split; [apply Z.div_pos; nia|]. apply Z.div_le_upper_bound; nia. }
  assert (R1 : U128 (x * DECIMAL_FRACTIONAL / t)).
  { split; [lia|]. assert (DECIMAL_FRACTIONAL < 2 ^ 128) by easy. lia. }
  rewrite dec_from_ratio_ok, ratio_some by (try assumption; try split; lia). cbn.
  rewrite dec_to_uint_floor_ok by assumption.
  replace (x * DECIMAL_FRACTIONAL / t / DECIMAL_FRACTIONAL) with (if x =? t then 1 else 0).
  - destruct p as [[i0 a0] [i1 a1]], (x =? t); cbn in *;
      rewrite !u128_mul_ok by first [assumption | apply (u128_bit true) | apply (u128_bit false)];
      rewrite ?Z.mul_1_r, ?Z.mul_0_r, !fit_some by eauto with halborn; reflexivity.
  - rewrite Z.div_div, Z.div_mul_cancel_r by (unfold DECIMAL_FRACTIONAL; lia).
    destruct (Z.eqb_spec x t) as [->|]; [rewrite Z.div_same; lia | rewrite Z.div_small; lia].
Qed.

(** The largest number of shares that is worth at most the deposit in both
    assets; for the first deposit, its geometric mean. *)
Definition fair_share (total d0 d1 p0 p1 share : Z) : Prop :=
  if total =? 0 then share * share <= d0 * d1 < (share + 1) * (share + 1)
  else share * p0 <= d0 * total /\ share * p1 <= d1 * total /\
       (d0 * total < (share + 1) * p0 \/ d1 * total < (share + 1) * p1).

Lemma div_fair d t p : 0 < p -> d * t / p * p <= d * t < (d * t / p + 1) * p.
Proof. intros Hp. pose proof (Z.div_mod (d * t) p). pose proof (Z.mod_pos_bound (d * t) p Hp). lia. Qed.

Lemma compute_share_run total d0 d1 p : U128 total -> U128 d0 -> U128 d1 -> U128 (amount p.1) -> U128 (amount p.2) ->
  (0 < total -> 0 < amount p.1 /\ 0 < amount p.2 /\
     d0 * total / amount p.1 < 2 ^ 128 /\ d1 * total / amount p.2 < 2 ^ 128) ->
  exists share, compute_share total (d0, d1) p = ROk share /\
    fair_share total d0 d1 (amount p.1) (amount p.2) share.
Proof.
  intros Ht H0 H1 P0 P1 Hb. unfold compute_share, fair_share. cbn [fst snd].
  destruct (total =? 0) eqn:E; zify_bools.
  - rewrite uint_mul_ok, fit_some by eauto with halborn. cbn.
    assert (Q : U128 (Z.sqrt (d0 * d1))).
    { destruct H0, H1. split; [apply Z.sqrt_nonneg|]. apply Z.sqrt_lt_square; nia. }
    rewrite uint_sqrt_ok, uint_as_u128_ok, fit_some by eauto with halborn.
    eexists. split; [reflexivity|]. destruct H0, H1.
    pose proof (Z.sqrt_spec (d0 * d1) ltac:(nia)). unfold Z.succ in *. lia.
  - destruct Ht, H0, H1. destruct Hb as (? & ? & ? & ?); [lia|].
    rewrite !u128_multiply_ratio_ok, !ratio_some by
      (try assumption; try split; try apply Z.div_pos; nia). cbn.
    eexists. split; [reflexivity|].
    pose proof (div_fair d0 total (amount p.1) ltac:(lia)).
    pose proof (div_fair d1 total (amount p.2) ltac:(lia)).
    nia.
Qed.

(** For a fee below one half the reverse simulation does not see the fee. *)
Lemma compute_offer_amount_run op ap x rate : U128 op -> U128 ap -> U128 x -> 0 <= rate ->
  2 * rate < DECIMAL_FRACTIONAL -> x < ap -> op * ap / (ap - x) < 2 ^ 128 ->
  compute_offer_amount op ap x rate = ROk (op * ap / (ap - x) - op, 0).
Proof.
  intros Ho Ha Hx Hr Hr2 Hlt Hb. unfold compute_offer_amount.
  assert (R : U128 rate).
  { split; [lia|]. assert (DECIMAL_FRACTIONAL < 2 ^ 128) by easy. lia. }
  assert (I : DECIMAL_FRACTIONAL <= DECIMAL_FRACTIONAL * DECIMAL_FRACTIONAL / (DECIMAL_FRACTIONAL - rate) < 2 * DECIMAL_FRACTIONAL).
  { split; [apply Z.div_le_lower_bound; nia | apply Z.div_lt_upper_bound; nia]. }
  assert (I1 : U128 (DECIMAL_FRACTIONAL * DECIMAL_FRACTIONAL / (DECIMAL_FRACTIONAL - rate))).
  { split; [unfold DECIMAL_FRACTIONAL in *; lia|]. assert (2 * DECIMAL_FRACTIONAL < 2 ^ 128) by easy. lia. }
  assert (Q0 : op <= op * ap / (ap - x)) by (apply Z.div_le_lower_bound; destruct Ho, Ha, Hx; nia).
  assert (Q1 : U128 (op * ap / (ap - x))) by (destruct Ho; split; lia).
  assert (L : U128 (ap - x)) by (destruct Ha, Hx; split; lia).
  assert (F : DECIMAL_FRACTIONAL * DECIMAL_FRACTIONAL / (DECIMAL_FRACTIONAL - rate) / DECIMAL_FRACTIONAL = 1).
  { symmetry. apply Z.div_unique with
      (r := DECIMAL_FRACTIONAL * DECIMAL_FRACTIONAL / (DECIMAL_FRACTIONAL - rate) - DECIMAL_FRACTIONAL); lia. }
  assert (D : U128 (DECIMAL_FRACTIONAL - rate)).
  { split; [lia|]. assert (DECIMAL_FRACTIONAL < 2 ^ 128) by easy. lia. }
  rewrite u256_mul_ok, fit_some by eauto with halborn. cbn.
  rewrite dec256_one_ok, dec256_sub_ok, fit_some by eauto with halborn. cbn.
  rewrite dec256_div_ok, ratio_some by (eauto with halborn; lia). cbn.
  rewrite dec_try_from_ok, fit_some by eauto with halborn. cbn.
  rewrite !dec_to_uint_floor_ok, F, (Z.div_small rate) by (eauto with halborn; lia).
  rewrite u128_mul_ok, Z.mul_1_r, fit_some by first [assumption | apply (u128_bit false)]. cbn.
  rewrite u128_checked_sub_ok, fit_some by assumption. cbn.
  rewrite u256_multiply_ratio_ok by first [solve [eauto with halborn] | apply u128_u256, (u128_bit false)].
  rewrite ratio_some, Z.mul_1_r by (rewrite ?Z.mul_1_r; first [lia | eauto with halborn]). cbn.
  rewrite u128_try_from_ok, fit_some by eauto with halborn. cbn.
  rewrite u128_checked_sub_ok, fit_some by (try assumption; destruct Ho, Q1; split; lia). cbn.
  rewrite u128_mul_ok, Z.mul_0_r, fit_some by eauto with halborn. reflexivity.
Qed.
End pair.

(** ** Handlers *)

(** The message that pays an amount of an asset. *)
Definition pay (i : AssetInfo) (z : Z) (to : Addr) : CosmosMsg :=
  match i with
  | Token c => WasmExecute c (Transfer to z) []
  | NativeToken d => BankSend to [MkCwCoin d z]
  end.

Lemma into_msg_pay a to : into_msg a to = ROk (pay (info a) (amount a) to).
Proof. unfold into_msg, pay. now destruct (info a). Qed.

(** The pool before a deposit, and the message that collects it: native coins
    have arrived with the message, tokens are transferred by the response. *)
Definition before_deposit (pool : Asset) (d : Z) : Asset :=
  match info pool with Token _ => pool | NativeToken _ => MkAsset (info pool) (amount pool - d) end.
Definition collect_msgs (env : Env) (mi : MessageInfo) (pool : Asset) (d : Z) : list CosmosMsg :=
  match info pool with
  | Token c => [WasmExecute c (TransferFrom (sender mi) (contract_address env) d) []]
  | NativeToken _ => []
  end.

Definition holds_deposit (pool : Asset) (d : Z) : Prop :=
  match info pool with Token _ => True | NativeToken _ => d <= amount pool end.

(** Split a conditional of a hypothesis. *)
Ltac case_bool_in H :=
  match type of H with context [if ?b then _ else _] => let E := fresh "E" in destruct b eqn:E end.

Section handlers.
Context `{CwMathOk} `{CwApi} `{CwDecode} {Q : Type} `{QuerierOk Q}.

Lemma collect_deposit_run env mi pool d : U128 (amount pool) -> U128 d -> holds_deposit pool d ->
  collect_deposit env mi pool d = ROk (collect_msgs env mi pool d, before_deposit pool d) /\
  U128 (amount (before_deposit pool d)).
Proof.
  unfold collect_deposit, collect_msgs, before_deposit, holds_deposit. destruct pool as [[c|c] a]; cbn; intros Ha Hd Hh.
  - auto.
  - rewrite u128_checked_sub_ok, fit_some by (try assumption; destruct Ha, Hd; split; lia).
    destruct Ha, Hd. split; [reflexivity|split; lia].
Qed.

Lemma without_offer_inv offer p p' : U128 (amount p) -> U128 (amount offer) -> without_offer offer p = ROk p' ->
  info p' = info p /\ U128 (amount p') /\
  amount p' = amount p - (if equal (info p) (info offer) then amount offer else 0).
Proof.
  intros Hp Ho. unfold without_offer. destruct (equal _ _).
  - intros E. rstep E as a R. rewrite u128_checked_sub_ok in R by assumption.
    apply fit_inv in R as [-> R]. now injection E as <-.
  - intros [= <-]. rewrite Z.sub_0_r. auto.
Qed.

(** A fee rate read from the factory. *)
Lemma get_fee_info_range (q : Q) cfg fee r :
  factory_fee_info q (factory_addr cfg) (pair_type (pair_info cfg)) = ROk r ->
  0 <= res_total_fee_bps r <= 10000 -> 0 <= res_maker_fee_bps r <= 10000 ->
  get_fee_info q cfg = ROk fee ->
  0 <= total_fee_rate fee <= DECIMAL_FRACTIONAL /\ 0 <= maker_fee_rate fee <= DECIMAL_FRACTIONAL.
Proof.
  intros F Ht Hm. unfold get_fee_info. rewrite F. cbn. intros E.
  rstep E as t R. rstep E as m R'. injection E as <-. cbn.
  rewrite dec_from_ratio_ok in R, R' by (split; lia).
  apply ratio_inv in R as (_ & -> & _), R' as (_ & -> & _).
  unfold DECIMAL_FRACTIONAL. split; (split; [apply Z.div_pos; lia | apply Z.div_le_upper_bound; lia]).
Qed.

(** The commission on top of a payment that goes to the fee address. *)
Lemma calculate_maker_fee_inv i c rate f : U128 c -> 0 <= rate <= DECIMAL_FRACTIONAL ->
  calculate_maker_fee i c rate = ROk f ->
  f = None \/ f = Some (MkAsset i c).
Proof.
  intros Hc Hr. unfold calculate_maker_fee. intros E. rstep E as m R.
  rewrite dec_to_uint_ceil_ok, ceil_div_le1 in R
    by (try split; try lia; assert (DECIMAL_FRACTIONAL < 2 ^ 128) by easy; lia).
  rewrite u128_mul_ok in R by eauto with halborn. apply fit_inv in R as [-> R].
  revert E. case_bool; intros [= <-]; [now left | right]. zify_bools.
  destruct (rate =? 0); [lia|]. now rewrite Z.mul_1_r.
Qed.

(** The amounts [compute_swap] splits the output into. *)
Lemma compute_swap_inv op ap oa rate out com : U128 op -> U128 ap -> U128 oa -> 0 <= rate <= DECIMAL_FRACTIONAL ->
  compute_swap op ap oa rate = ROk (out, com) ->
  0 < op + oa /\ kept op ap oa <= ap /\ 0 <= out /\ U128 com /\ out + com = gross op ap oa /\
  (0 < rate -> out = 0) /\ (rate = 0 -> com = 0).
Proof.
  intros Ho Ha Hoa Hr E.
  destruct (decide (op + oa = 0 \/ ap < kept op ap oa)) as [C|C].
  - destruct (compute_swap_panics op ap oa rate Ho Ha Hoa C) as [w W]. congruence.
  - assert (0 < op + oa /\ kept op ap oa <= ap) as [Hs Hk] by (destruct Ho, Hoa; lia).
    rewrite compute_swap_run in E by assumption.
    pose proof (kept_range op ap oa Ho Ha Hoa Hs) as [K _].
    assert (G : U128 (gross op ap oa)) by (destruct Ha; pose proof (gross_le op ap oa); split; lia).
    destruct (Z.eqb_spec rate 0); injection E as <- <-; destruct G; repeat split; lia.
Qed.

(** The pools of a swap: the one of the offer, without the offer, and the
    other one. *)
Lemma swap_pools_inv (q : Q) p a offer pools p0 p1 op ap : U128 (amount offer) ->
  (asset_infos p).1 <> (asset_infos p).2 -> query_pools q p a = ROk pools ->
  without_offer offer pools.1 = ROk p0 -> without_offer offer pools.2 = ROk p1 ->
  choose_pools AssetMismatch (info offer) (p0, p1) = ROk (op, ap) ->
  query_pool q (info offer) a = ROk (amount op + amount offer) /\
  info ap ∈ [(asset_infos p).1; (asset_infos p).2] /\ info ap <> info offer /\
  query_pool q (info ap) a = ROk (amount ap) /\ U128 (amount op) /\ U128 (amount ap).
Proof.
  intros Ho Hne (I0 & I1 & Q0 & Q1 & R0 & R1)%query_pools_inv W0 W1.
  apply without_offer_inv in W0 as (J0 & S0 & A0), W1 as (J1 & S1 & A1); try assumption.
  unfold choose_pools. cbn. rewrite J0, J1, I0, I1 in *.
  destruct (equal (info offer) (asset_infos p).1) eqn:E; [|destruct (equal (info offer) (asset_infos p).2) eqn:E'; [|discriminate]];
    intros [= <- <-]; [apply equal_spec in E|apply equal_spec in E'].
  - rewrite E in *. rewrite equal_refl in A0.
    destruct (equal (asset_infos p).2 (asset_infos p).1) eqn:N; [apply equal_spec in N; congruence|].
    rewrite A0, Z.sub_add, J1. rewrite A1, Z.sub_0_r. rewrite A1, Z.sub_0_r in S1. rewrite A0 in S0.
    rewrite elem_of_cons, list_elem_of_singleton. auto 10.
  - rewrite E' in *. rewrite equal_refl in A1.
    destruct (equal (asset_infos p).1 (asset_infos p).2) eqn:N; [apply equal_spec in N; congruence|].
    rewrite A1, Z.sub_add, J0. rewrite A0, Z.sub_0_r. rewrite A0, Z.sub_0_r in S0. rewrite A1 in S1.
    rewrite elem_of_cons, list_elem_of_singleton. auto 10.
Qed.

(** C9: [swap] takes from the ask pool no more than keeps the product of the
    pools, as long as the ask pool holds at least two units; and with any fee
    above zero, up to the permitted 100%, the trader receives nothing: the
    commission is the whole output. *)
Theorem swap_sound s (q : Q) env mi from offer to s' r cfg fi :
  U128 (amount offer) -> CONFIG s = Some cfg ->
  factory_fee_info q (factory_addr cfg) (pair_type (pair_info cfg)) = ROk fi ->
  0 <= res_total_fee_bps fi <= 10000 -> 0 <= res_maker_fee_bps fi <= 10000 ->
  (asset_infos (pair_info cfg)).1 <> (asset_infos (pair_info cfg)).2 ->
  swap s q env mi from offer to = ROk (s', r) ->
  exists op ask ap out fees,
    ask ∈ [(asset_infos (pair_info cfg)).1; (asset_infos (pair_info cfg)).2] /\ ask <> info offer /\
    query_pool q (info offer) (contract_address env) = ROk (op + amount offer) /\
    query_pool q ask (contract_address env) = ROk ap /\
    s' = s /\ messages r = pay ask out (default from to) :: fees /\
    (fees = [] \/ exists a f, res_fee_address fi = Some a /\ fees = [pay ask f a] /\
                              out + f = gross op ap (amount offer)) /\
    0 <= out <= gross op ap (amount offer) /\ (0 < res_total_fee_bps fi -> out = 0) /\
    (2 <= ap -> op * ap <= (op + amount offer) * (ap - gross op ap (amount offer))).
Proof.
  intros Ho C F Ht Hm Hne. unfold swap. intros E.
  rstep E as u1 R1. rstep E as cfg' R. unfold load_config in R. rewrite C in R. injection R as <-.
  rstep E as pools QP. rstep E as p0 W0. rstep E as p1 W1. rstep E as [op ap] CH.
  rstep E as fee FE. rstep E as [out com] CS. rstep E as m MS. rstep E as fees FM. injection E as <- <-.
  rewrite into_msg_pay in MS. injection MS as <-. cbn [info amount] in *.
  destruct (swap_pools_inv q _ _ _ _ _ _ _ _ Ho Hne QP W0 W1 CH) as (P1 & P2 & P3 & P4 & P5 & P6).
  destruct (get_fee_info_range q cfg fee fi F Ht Hm FE) as [RT RM].
  apply compute_swap_inv in CS as (S1 & S2 & S3 & S4 & S5 & S6 & S7); try assumption.
  exists (amount op), (info ap), (amount ap), out, fees.
  assert (FA : fee_address fee = res_fee_address fi /\
               total_fee_rate fee = res_total_fee_bps fi * DECIMAL_FRACTIONAL / 10000).
  { unfold get_fee_info in FE. rewrite F in FE. cbn in FE. rstep FE as t T. rstep FE as t' T'.
    injection FE as <-. cbn. rewrite dec_from_ratio_ok in T by (split; lia). now apply ratio_inv in T as (_ & -> & _). }
  destruct FA as [FA FR]. repeat split; try assumption; try (destruct S4; lia).
  - rewrite FA in FM. destruct (res_fee_address fi) as [a|] eqn:A; [|injection FM as <-; now left].
    rstep FM as f CF. apply calculate_maker_fee_inv in CF as [-> | ->]; try assumption.
    + injection FM as <-. now left.
    + rstep FM as m Em. rewrite into_msg_pay in Em. injection Em as <-. injection FM as <-. right. eauto.
  - intros B. apply S6. rewrite FR. apply Z.div_str_pos. unfold DECIMAL_FRACTIONAL. lia.
  - intros. apply gross_product; destruct Ho, P5; lia.
Qed.

(** Choosing the pools after taking the offer out. *)
Lemma choose_without_offer pools offer (P A : Asset) : info pools.1 <> info pools.2 ->
  U128 (amount P) -> U128 (amount offer) -> amount offer <= amount P ->
  choose_pools AssetMismatch (info offer) pools = ROk (P, A) ->
  exists p0 p1, without_offer offer pools.1 = ROk p0 /\ without_offer offer pools.2 = ROk p1 /\
    choose_pools AssetMismatch (info offer) (p0, p1) = ROk (MkAsset (info P) (amount P - amount offer), A).
Proof.
  intros Hne Hp Ho Hle. unfold choose_pools, without_offer. cbn.
  destruct (equal (info offer) (info pools.1)) eqn:E; [|destruct (equal (info offer) (info pools.2)) eqn:E'; [|discriminate]];
    intros [= <- <-]; [apply equal_spec in E|apply equal_spec in E'].
  - rewrite E, equal_refl, u128_checked_sub_ok, fit_some by (try assumption; destruct Hp, Ho; split; lia). cbn.
    destruct (equal (info pools.2) (info pools.1)) eqn:N; [apply equal_spec in N; congruence|].
    do 2 eexists. split; [reflexivity|split; [reflexivity|]]. cbn. now rewrite equal_refl.
  - rewrite E'. destruct (equal (info pools.1) (info pools.2)) eqn:N; [apply equal_spec in N; congruence|].
    rewrite equal_refl, u128_checked_sub_ok, fit_some by (try assumption; destruct Hp, Ho; split; lia). cbn.
    do 2 eexists. split; [reflexivity|split; [reflexivity|]]. cbn. rewrite E' in E. now rewrite E, equal_refl.
Qed.

(** A swap of an ordinary size cannot succeed: unless the offer is of the
    order of 10^18 times the offer pool, the handler panics, because the ask
    pool enters the subtraction as that many units of 10^-18. *)
Theorem swap_aborts s (q : Q) env mi from offer to cfg pools P A fee :
  U128 (amount offer) -> assert_sent_native_token_balance offer mi = ROk tt ->
  CONFIG s = Some cfg -> query_pools q (pair_info cfg) (contract_address env) = ROk pools ->
  info pools.1 <> info pools.2 -> choose_pools AssetMismatch (info offer) pools = ROk (P, A) ->
  get_fee_info q cfg = ROk fee ->
  amount offer < amount P -> 0 < amount A -> 2 * amount P <= (amount P - amount offer) * DECIMAL_FRACTIONAL ->
  panics (swap s q env mi from offer to).
Proof.
  intros Ho HS C QP Hne CH FE Hlt HA Hb. pose proof QP as (_ & _ & _ & _ & R0 & R1)%query_pools_inv.
  assert (RP : U128 (amount P) /\ U128 (amount A)).
  { unfold choose_pools in CH. repeat (case_bool_in CH); try discriminate; injection CH as <- <-; auto. }
  destruct RP as [RP RA].
  destruct (choose_without_offer pools offer P A Hne RP Ho ltac:(lia) CH) as (p0 & p1 & W0 & W1 & CH').
  destruct (compute_swap_panics (amount P - amount offer) (amount A) (amount offer) (total_fee_rate fee)) as [w W].
  { destruct RP, Ho; split; lia. }
  { exact RA. }
  { exact Ho. }
  { right. apply kept_exceeds; destruct Ho; lia. }
  exists w. unfold swap, load_config. rewrite HS, C. cbn. rewrite QP. cbn. rewrite W0. cbn. rewrite W1. cbn.
  rewrite CH'. cbn. rewrite FE. cbn. rewrite W. reflexivity.
Qed.

(** [withdraw_liquidity] burns any part of the supply, but pays out
    nothing for less than all of it; all of it is worth both whole pools. *)
Theorem withdraw_all_or_nothing s (q : Q) mi holder x cfg pools total :
  CONFIG s = Some cfg -> sender mi = liquidity_token (pair_info cfg) ->
  query_pools q (pair_info cfg) (contract_addr (pair_info cfg)) = ROk pools ->
  query_supply q (liquidity_token (pair_info cfg)) = ROk total -> 0 < total -> 0 <= x <= total ->
  withdraw_liquidity s q mi holder x = ROk (s, add_messages
    [pay (info pools.1) (if x =? total then amount pools.1 else 0) holder;
     pay (info pools.2) (if x =? total then amount pools.2 else 0) holder;
     WasmExecute (liquidity_token (pair_info cfg)) (Burn x) []]).
Proof.
  intros C HS QP QS Ht Hx. pose proof QP as (_ & _ & _ & _ & R0 & R1)%query_pools_inv.
  pose proof (query_supply_range _ _ _ QS) as [_ RT].
  unfold withdraw_liquidity, load_config, pool_info. rewrite C. cbn.
  rewrite bool_decide_true by exact HS. cbn. rewrite QP. cbn. rewrite QS. cbn.
  rewrite get_share_run by (try assumption; lia). cbn. rewrite !into_msg_pay. cbn.
  now destruct (x =? total).
Qed.

(** C10: [provide_liquidity] collects both deposits (tokens by a transfer,
    native coins having come with the message) and mints the receiver the
    largest number of shares not worth more than the deposit in either asset,
    so that earlier holders are not diluted. *)
Theorem provide_liquidity_run s (q : Q) env mi assets tolerance receiver cfg pools d0 d1 total to :
  assert_sent_native_token_balance assets.1 mi = ROk tt -> assert_sent_native_token_balance assets.2 mi = ROk tt ->
  CONFIG s = Some cfg -> query_pools q (pair_info cfg) (contract_address env) = ROk pools ->
  deposit_of assets (info pools.1) = ROk d0 -> deposit_of assets (info pools.2) = ROk d1 ->
  0 < d0 < 2 ^ 128 -> 0 < d1 < 2 ^ 128 -> holds_deposit pools.1 d0 -> holds_deposit pools.2 d1 ->
  let p0 := before_deposit pools.1 d0 in let p1 := before_deposit pools.2 d1 in
  assert_slippage_tolerance tolerance (d0, d1) (p0, p1) = ROk tt ->
  query_supply q (liquidity_token (pair_info cfg)) = ROk total ->
  (0 < total -> 0 < amount p0 /\ 0 < amount p1 /\
     d0 * total / amount p0 < 2 ^ 128 /\ d1 * total / amount p1 < 2 ^ 128) ->
  addr_validate (default (sender mi) receiver) = ROk to ->
  exists share,
    provide_liquidity s q env mi assets tolerance receiver = ROk (s, add_messages
      (collect_msgs env mi pools.1 d0 ++ collect_msgs env mi pools.2 d1 ++
       [WasmExecute (liquidity_token (pair_info cfg)) (Mint to share) []])) /\
    fair_share total d0 d1 (amount p0) (amount p1) share.
Proof.
  intros S0 S1 C QP D0 D1 Hd0 Hd1 L0 L1 p0 p1 SL QS Hb AV.
  pose proof QP as (_ & _ & _ & _ & R0 & R1)%query_pools_inv. pose proof (query_supply_range _ _ _ QS) as RT.
  destruct (collect_deposit_run env mi pools.1 d0) as [CD0 B0]; [assumption|split; lia|assumption|].
  destruct (collect_deposit_run env mi pools.2 d1) as [CD1 B1]; [assumption|split; lia|assumption|].
  destruct (compute_share_run total d0 d1 (p0, p1)) as (share & CS & FS); try assumption; [split; lia..|].
  exists share. split; [|exact FS].
  unfold provide_liquidity, load_config. rewrite S0. cbn. rewrite S1, C. cbn. rewrite QP. cbn. rewrite D0. cbn.
  rewrite D1. cbn. rewrite (proj2 (Z.eqb_neq d0 0)), (proj2 (Z.eqb_neq d1 0)) by lia. cbn.
  rewrite CD0. cbn. rewrite CD1. cbn. fold p0 p1. rewrite SL. cbn. rewrite QS. cbn. rewrite CS. cbn.
  rewrite AV. reflexivity.
Qed.

(** For a fee below one half the reverse simulation quotes the offer of a
    swap without any fee, and a commission of zero. *)
Theorem reverse_simulation_ignores_fee s (q : Q) ask cfg pools A P fee :
  U128 (amount ask) -> CONFIG s = Some cfg ->
  query_pools q (pair_info cfg) (contract_addr (pair_info cfg)) = ROk pools ->
  choose_pools (GenericErr "Given ask asset doesn't belong to pairs") (info ask) pools = ROk (A, P) ->
  get_fee_info q cfg = ROk fee -> 0 <= total_fee_rate fee -> 2 * total_fee_rate fee < DECIMAL_FRACTIONAL ->
  amount ask < amount A -> amount P * amount A / (amount A - amount ask) < 2 ^ 128 ->
  query_reverse_simulation s q ask =
    ROk (MkReverseSimulationResponse (amount P * amount A / (amount A - amount ask) - amount P) 0).
Proof.
  intros Ha C QP CH FE F0 F1 Hlt Hb. pose proof QP as (_ & _ & _ & _ & R0 & R1)%query_pools_inv.
  assert (RP : U128 (amount P) /\ U128 (amount A)).
  { unfold choose_pools in CH. repeat (case_bool_in CH); try discriminate; injection CH as <- <-; auto. }
  destruct RP as [RP RA]. unfold query_reverse_simulation, load_config. rewrite C. cbn.
  rewrite QP. cbn. rewrite CH. cbn. rewrite FE. cbn. now rewrite compute_offer_amount_run.
Qed.

Lemma swap_storage s (q : Q) env mi from offer to s' r : swap s q env mi from offer to = ROk (s', r) -> s' = s.
Proof.
  unfold swap. intros E. do 5 (let y := fresh "y" in let T := fresh "T" in rstep E as y T).
  rstep E as [op ap] R1. rstep E as f R2. rstep E as [o c] R3. rstep E as m R4. rstep E as fs R5. now injection E.
Qed.

Lemma withdraw_storage s (q : Q) mi from x s' r : withdraw_liquidity s q mi from x = ROk (s', r) -> s' = s.
Proof.
  unfold withdraw_liquidity. intros E. rstep E as c R. rguard E G. rstep E as [p t] R1.
  rstep E as y2 R2. rstep E as y3 R3. rstep E as y4 R4. now injection E.
Qed.

Lemma provide_storage s (q : Q) env mi a sl to s' r : provide_liquidity s q env mi a sl to = ROk (s', r) -> s' = s.
Proof.
  unfold provide_liquidity. intros E. do 6 (let y := fresh "y" in let T := fresh "T" in rstep E as y T).
  rguard E G. rstep E as [m0 p0] R1. rstep E as [m1 p1] R2. do 5 (let y := fresh "y" in let T := fresh "T" in rstep E as y T).
  now injection E.
Qed.

Lemma execute_storage s (q : Q) env mi msg s' r : execute s q env mi msg = ROk (s', r) -> s' = s.
Proof.
  destruct msg as [msg| |]; cbn.
  - unfold receive_cw20. destruct (from_json_hook _) as [[]| |]; try discriminate; [|apply withdraw_storage].
    intros E. rstep E as c R. rguard E G. rstep E as t R1. eapply swap_storage, E.
  - apply provide_storage.
  - intros E. rguard E G. rstep E as t R1. eapply swap_storage, E.
Qed.

(** C37: who may do what.  A token that is not of the pair cannot trigger a
    swap, an address that is not the liquidity token cannot withdraw, a cw20
    asset cannot be swapped without its token's message, the liquidity token
    is set once; and no message changes the pair's configuration. *)
Theorem pair_authorization s (q : Q) env mi cfg : CONFIG s = Some cfg ->
  (forall msg to, from_json_hook (cw20_msg msg) = ROk (HookSwap to) ->
     ~ Token (sender mi) ∈ [(asset_infos (pair_info cfg)).1; (asset_infos (pair_info cfg)).2] ->
     execute s q env mi (Receive msg) = RErr Unauthorized) /\
  (forall msg, from_json_hook (cw20_msg msg) = ROk HookWithdrawLiquidity ->
     sender mi <> liquidity_token (pair_info cfg) -> execute s q env mi (Receive msg) = RErr Unauthorized) /\
  (forall c x to, execute s q env mi (Swap (MkAsset (Token c) x) to) = RErr Unauthorized) /\
  (forall result, liquidity_token (pair_info cfg) <> [] -> reply s result = RErr Unauthorized) /\
  (forall msg s' r, execute s q env mi msg = ROk (s', r) -> s' = s).
Proof.
  intros C. repeat split.
  - intros msg to J N. cbn. unfold receive_cw20, load_config. rewrite J, C. cbn.
    rewrite elem_of_cons, list_elem_of_singleton in N.
    destruct (asset_infos (pair_info cfg)) as [[c0|?] [c1|?]]; cbn in *;
      rewrite ?bool_decide_false by (intros ->; tauto); reflexivity.
  - intros msg J N. cbn. unfold receive_cw20, withdraw_liquidity, load_config. rewrite J, C. cbn.
    now rewrite bool_decide_false.
  - intros result N. unfold reply, load_config. rewrite C. cbn. now rewrite bool_decide_false.
  - intros msg s' r E. eapply execute_storage, E.
Qed.
End handlers.
