(* ===== verification/DvammFactoryProps.v ===== *)
(** * The pair registry and its listing

    The order of keys, the key of a pair, the sequences of transactions of the
    factory and the invariants of its storage. *)

From S2P Require Import Prelude Rust CwStd DvammPackage DvammPair DvammFactory.

(** ** The order of byte strings *)

Lemma bytes_lt_irrefl a : bytes_lt a a = false.
Proof. induction a as [|x a IH]; cbn; [easy|]. now rewrite Z.ltb_irrefl. Qed.

Lemma bytes_lt_trans a b c : bytes_lt a b = true -> bytes_lt b c = true -> bytes_lt a c = true.
Proof.
  revert b c. induction a as [|x a IH]; intros [|y b] [|z c]; cbn; try easy.
  destruct (Z.ltb_spec (bz x) (bz y)), (Z.ltb_spec (bz y) (bz x)), (Z.ltb_spec (bz y) (bz z)),
    (Z.ltb_spec (bz z) (bz y)), (Z.ltb_spec (bz x) (bz z)), (Z.ltb_spec (bz z) (bz x)); try easy; try lia.
  apply IH.
Qed.

Lemma bytes_lt_asym a b : bytes_lt a b = true -> bytes_lt b a = false.
Proof.
  intros L. destruct (bytes_lt b a) eqn:E; [|easy].
  pose proof (bytes_lt_trans _ _ _ L E). pose proof (bytes_lt_irrefl a). congruence.
Qed.

Lemma bytes_lt_total a b : bytes_lt a b = false -> bytes_lt b a = false -> a = b.
Proof.
  revert b. induction a as [|x a IH]; intros [|y b]; cbn; try easy.
  destruct (Z.ltb_spec (bz x) (bz y)), (Z.ltb_spec (bz y) (bz x)); try easy.
  intros. rewrite (IH b) by assumption. now rewrite (bz_inj x y) by lia.
Qed.

#[export] Instance entry_le_trans : Transitive entry_le.
Proof.
  unfold entry_le. intros x y z Hxy Hyz. destruct (bytes_lt z.1 x.1) eqn:E; [|easy].
  destruct (bytes_lt x.1 y.1) eqn:F.
  - rewrite (bytes_lt_trans _ _ _ E F) in Hyz. discriminate.
  - rewrite (bytes_lt_total _ _ F Hxy) in E. congruence.
Qed.

#[export] Instance entry_le_total : Total entry_le.
Proof.
  unfold entry_le. intros x y. destruct (bytes_lt y.1 x.1) eqn:E; [right|now left].
  now apply bytes_lt_asym.
Qed.

Lemma filter_keep {A} (P : A -> Prop) `{forall x, Decision (P x)} (l : list A) :
  (forall x, x ∈ l -> P x) -> base.filter P l = l.
Proof.
  induction l as [|x l IH]; intros F; [easy|].
  rewrite filter_cons_True, IH; [easy | intros; apply F; now right | apply F; left].
Qed.

Lemma filter_drop {A} (P : A -> Prop) `{forall x, Decision (P x)} (l : list A) :
  (forall x, x ∈ l -> ~ P x) -> base.filter P l = [].
Proof.
  induction l as [|x l IH]; intros F; [easy|].
  rewrite filter_cons_False, IH; [easy | intros; apply F; now right | apply F; left].
Qed.

(** ** The key of a pair *)

Lemma pair_key_sym a b : pair_key (a, b) = pair_key (b, a).
Proof.
  unfold pair_key, sort_infos. cbn. destruct (bytes_lt (as_bytes b) (as_bytes a)) eqn:E; cbn.
  - now rewrite (bytes_lt_asym _ _ E).
  - destruct (bytes_lt (as_bytes a) (as_bytes b)) eqn:F; [easy|]. cbn.
    now rewrite (bytes_lt_total _ _ E F).
Qed.

Lemma calc_range_start_key infos : calc_range_start (Some infos) = Some (pair_key infos ++ [x01]).
Proof. reflexivity. Qed.

(** ** Listing *)

Lemma StronglySorted_filter {A} (R : relation A) (P : A -> Prop) `{forall x, Decision (P x)} (l : list A) :
  StronglySorted R l -> StronglySorted R (base.filter P l).
Proof.
  induction 1 as [|x l _ IH F]; [constructor|]. rewrite filter_cons. case_decide; [|exact IH].
  constructor; [exact IH|]. rewrite Forall_forall in *. intros y [_ Hy]%list_elem_of_filter. auto.
Qed.

Section listing.
Implicit Types m : gmap bytes Addr.

Lemma range_perm m start :
  range m start ≡ₚ base.filter (fun e : bytes * Addr => above start e.1 = true) (map_to_list m).
Proof. apply merge_sort_Permutation. Qed.

Lemma range_sorted m start : StronglySorted entry_le (range m start).
Proof. apply (StronglySorted_merge_sort _). Qed.

Lemma elem_of_range m start k a : (k, a) ∈ range m start <-> above start k = true /\ m !! k = Some a.
Proof. rewrite range_perm, list_elem_of_filter, elem_of_map_to_list. reflexivity. Qed.

(** The keys above a bound are a tail of the whole listing. *)
Lemma range_filter m start : range m start = base.filter (fun e : bytes * Addr => above start e.1 = true) (range m None).
Proof.
  apply (StronglySorted_unique_strong entry_le).
  - intros [k1 a1] [k2 a2] [_ L1]%elem_of_range [_ [_ L2]%elem_of_range]%list_elem_of_filter A B.
    cbn in *. assert (k1 = k2) by (apply bytes_lt_total; assumption). congruence.
  - apply range_sorted.
  - apply StronglySorted_filter. apply range_sorted.
  - rewrite !range_perm. f_equiv. symmetry. 
    induction (map_to_list m) as [|e l IH]; [easy|]. rewrite filter_cons_True by easy. now f_equiv.
Qed.

(** The bound [k ++ [1]] excludes [k] and admits every greater key but those
    that extend [k] by a zero byte or by the byte 1 alone. *)
Lemma above_next k key : key <> k ++ [x01] -> (forall t, key <> k ++ x00 :: t) ->
  bytes_lt (k ++ [x01]) key = bytes_lt k key.
Proof.
  revert key. induction k as [|x k IH]; intros [|y key] N1 N0; cbn; try easy.
  - change (bz x01) with 1. pose proof (bz_range y).
    destruct (Z.ltb_spec 1 (bz y)), (Z.ltb_spec (bz y) 1); try lia.
    + exfalso. apply (N0 key). cbn. f_equal. apply bz_inj. change (bz x00) with 0. lia.
    + destruct key; [|easy]. exfalso. apply N1. cbn. f_equal. apply bz_inj. change (bz x01) with 1. lia.
  - destruct (Z.ltb_spec (bz x) (bz y)), (Z.ltb_spec (bz y) (bz x)); try easy.
    assert (x = y) as -> by (apply bz_inj; lia).
    apply IH; [intros E; apply N1; cbn; congruence | intros t E; apply (N0 t); cbn; congruence].
Qed.

(** Around an entry of the listing: smaller keys before it, greater after. *)
Lemma range_split m pre k a post : range m None = pre ++ (k, a) :: post ->
  Forall (fun e : bytes * Addr => bytes_lt k e.1 = false) pre /\
  Forall (fun e : bytes * Addr => bytes_lt k e.1 = true) post.
Proof.
  intros E. pose proof (range_sorted m None) as S. rewrite E in S.
  assert (N : NoDup (fst <$> range m None)).
  { rewrite range_perm. rewrite filter_keep by (intros; easy). apply NoDup_fst_map_to_list. }
  rewrite E, fmap_app in N. apply NoDup_app in N as (_ & _ & N). cbn in N. apply NoDup_cons in N as [N _].
  split; apply Forall_forall; intros [k' a'] He; cbn.
  - apply (StronglySorted_app_1_elem_of entry_le pre ((k, a) :: post)) with (x1 := (k', a')) (x2 := (k, a)) in S;
      [exact S | exact He | left].
  - apply StronglySorted_app_1_r, StronglySorted_inv in S as [_ S]. rewrite Forall_forall in S.
    specialize (S _ He). unfold entry_le in S. cbn in S.
    destruct (bytes_lt k k') eqn:L; [easy|]. exfalso. apply N.
    rewrite (bytes_lt_total _ _ L S). apply list_elem_of_fmap. now exists (k', a').
Qed.

(** The pages of [read_pairs] are consecutive.  [range] lists every
    registered pair once, by ascending key; a page without a start is a prefix
    of it, and the page after a pair begins with the next entry, at most 30
    long, provided no key is that of the pair followed by a zero byte or by
    the byte 1 alone. *)
Theorem read_pairs_pages s limit :
  let size := Z.to_nat (Z.min (default DEFAULT_LIMIT limit) MAX_LIMIT) in
  StronglySorted entry_le (range (PAIRS s) None) /\ range (PAIRS s) None ≡ₚ map_to_list (PAIRS s) /\
  read_pairs s None limit = snd <$> take size (range (PAIRS s) None) /\ (size <= 30)%nat /\
  (forall infos pre a post, range (PAIRS s) None = pre ++ (pair_key infos, a) :: post ->
     (forall key, is_Some (PAIRS s !! key) ->
        key <> pair_key infos ++ [x01] /\ forall t, key <> pair_key infos ++ x00 :: t) ->
     read_pairs s (Some infos) limit = snd <$> take size post).
Proof.
  intros size. split; [apply range_sorted|]. split.
  { rewrite range_perm, filter_keep; easy. }
  split; [reflexivity|]. split; [unfold size, MAX_LIMIT; lia|].
  intros infos pre a post E K. unfold read_pairs. rewrite calc_range_start_key, range_filter.
  fold size. do 2 f_equal.
  assert (A : forall e, e ∈ range (PAIRS s) None ->
    above (Some (pair_key infos ++ [x01])) e.1 = bytes_lt (pair_key infos) e.1).
  { intros [k b] [_ L]%elem_of_range. cbn. destruct (K k ltac:(eauto)). now apply above_next. }
  destruct (range_split _ _ _ _ _ E) as [F1 F2]. rewrite E in *. rewrite Forall_forall in F1, F2.
  rewrite filter_app, filter_cons_False, filter_drop, filter_keep; [reflexivity|..].
  - intros e He. rewrite A by (rewrite elem_of_app, elem_of_cons; auto). now apply F2.
  - intros e He. rewrite A by (rewrite elem_of_app; auto). now rewrite F1.
  - rewrite A by (rewrite elem_of_app, elem_of_cons; auto). cbn. now rewrite bytes_lt_irrefl.
Qed.
End listing.

(** ** Transactions *)

(** The fees of a configuration are at most 100%. *)
Definition fees_ok (c : FConfig) : Prop :=
  forall pc, pair_xyk_config c = Some pc -> total_fee_bps pc <= 10000 /\ maker_fee_bps pc <= 10000.
Definition storage_ok (s : FStorage) : Prop := exists c, FCONFIG s = Some c /\ fees_ok c.

Lemma valid_fees_ok o t a pc : valid_fee_bps pc = true -> fees_ok (MkFConfig o t a (Some pc)).
Proof. unfold valid_fee_bps. intros V pc' [= <-]. zify_bools. lia. Qed.

Section registry.
Context `{CwApi} `{CwDecode} {Q : Type} `{Querier Q}.

(** A successful transaction: an update of the configuration, or the creation
    of a pair with the reply of its instantiation.  Failed ones are rolled
    back. *)
Inductive ftx (env : Env) : FStorage -> FStorage -> Prop :=
| ftx_update mi param s s' r :
    f_execute s env mi (FUpdateConfig param) = ROk (s', r) -> ftx env s s'
| ftx_create mi infos result s s1 r s' r' :
    f_execute s env mi (FCreatePair infos) = ROk (s1, r) -> f_reply s1 result = ROk (s', r') -> ftx env s s'.

Lemma f_instantiate_ok s msg s' r : f_instantiate s msg = ROk (s', r) -> storage_ok s' /\ PAIRS s' = PAIRS s.
Proof.
  unfold f_instantiate. intros E. rstep E as o R. rstep E as a R1. rstep E as u R2. injection E as <- _.
  split; [|easy]. eexists. split; [reflexivity|].
  destruct (fi_pair_xyk_config msg) as [pc|]; [|easy]. cbn in R2. rguard R2 V. now apply valid_fees_ok.
Qed.

Lemma update_config_inv s mi param s' r : execute_update_config s mi param = ROk (s', r) ->
  PAIRS s' = PAIRS s /\ (storage_ok s -> storage_ok s') /\
  (exists c, FCONFIG s = Some c /\ sender mi = owner c) /\
  (uc_pair_xyk_config param = None -> s' = s).
Proof.
  unfold execute_update_config, f_load_config. intros E. rstep E as c R. rguard E G. rstep E as o R1. rstep E as a R2.
  apply negb_false_iff, bool_decide_eq_true in G.
  destruct (uc_pair_xyk_config param) as [pc|].
  - rguard E V. injection E as <- _. repeat split; [|eauto|easy].
    intros _. eexists. split; [reflexivity|]. now apply valid_fees_ok.
  - injection E as <- _. eauto 10.
Qed.

(** What a creation adds: one entry, under the key of the pair. *)
Lemma create_pair_inv s env infos result s1 r s' r' :
  execute_create_pair s env infos = ROk (s1, r) -> f_reply s1 result = ROk (s', r') ->
  FCONFIG s' = FCONFIG s /\ PAIRS s !! pair_key infos = None /\
  exists a, PAIRS s' = <[pair_key infos := a]> (PAIRS s).
Proof.
  unfold execute_create_pair, f_load_config. intros E. rstep E as c R.
  destruct (pair_xyk_config c) as [pc|]; [|discriminate].
  destruct (PAIRS s !! pair_key infos) eqn:L; [discriminate|]. injection E as <- <-.
  unfold f_reply. cbn. rewrite L. intros E. rstep E as resp R1. rstep E as m R2. rstep E as ir R3. rstep E as a R4.
  injection E as <- _. cbn. eauto.
Qed.

Lemma ftx_ok env s s' : ftx env s s' -> storage_ok s -> storage_ok s'.
Proof.
  intros [mi param ? ? r E|mi infos result ? s1 r ? r' E E'].
  - apply update_config_inv in E as (_ & I & _). exact I.
  - destruct (create_pair_inv _ _ _ _ _ _ _ _ E E') as (C & _). unfold storage_ok. now rewrite C.
Qed.

Lemma ftx_pairs env s s' : ftx env s s' -> PAIRS s ⊆ PAIRS s'.
Proof.
  intros [mi param ? ? r E|mi infos result ? s1 r ? r' E E'].
  - apply update_config_inv in E as (-> & _). reflexivity.
  - destruct (create_pair_inv _ _ _ _ _ _ _ _ E E') as (_ & N & a & ->). now apply insert_subseteq.
Qed.

Lemma rtc_ftx_ok env s s' : rtc (ftx env) s s' -> storage_ok s -> storage_ok s'.
Proof. induction 1; eauto using ftx_ok. Qed.

Lemma rtc_ftx_pairs env s s' : rtc (ftx env) s s' -> PAIRS s ⊆ PAIRS s'.
Proof. induction 1; [reflexivity|]. etrans; [eapply ftx_pairs|]; eauto. Qed.

(** C11: the registry of the factory.  In every sequence of transactions after
    the instantiation, a registered pair keeps its contract for ever, a second
    pair of the same assets in either order, and any pair whose key is the
    same, is refused, and the fees a pair contract is told are at most 100%. *)
Theorem factory_registry env s msg s0 r s1 s2 infos a :
  f_instantiate s msg = ROk (s0, r) -> rtc (ftx env) s0 s1 -> PAIRS s1 !! pair_key infos = Some a ->
  rtc (ftx env) s1 s2 ->
  PAIRS s2 !! pair_key infos = Some a /\
  (forall mi infos', pair_key infos' = pair_key infos ->
     f_execute s2 env mi (FCreatePair infos') = RErr PairWasCreated \/
     f_execute s2 env mi (FCreatePair infos') = RErr PairConfigNotFound) /\
  pair_key (infos.2, infos.1) = pair_key infos /\
  (forall q : Q, query_pair s2 q (infos.2, infos.1) = f_query_pair_info q a) /\
  (forall fi, query_fee_info s2 Xyk = ROk fi -> res_total_fee_bps fi <= 10000 /\ res_maker_fee_bps fi <= 10000).
Proof.
  intros I R1 L R2. apply f_instantiate_ok in I as [I _].
  assert (L2 : PAIRS s2 !! pair_key infos = Some a) by (eapply lookup_weaken; eauto using rtc_ftx_pairs).
  destruct (rtc_ftx_ok _ _ _ R2 (rtc_ftx_ok _ _ _ R1 I)) as (c & C & F).
  assert (Sy : pair_key (infos.2, infos.1) = pair_key infos) by (rewrite pair_key_sym; now destruct infos).
  repeat split; try assumption.
  - intros mi infos' K. cbn. unfold execute_create_pair, f_load_config. rewrite C, K, L2. cbn.
    destruct (pair_xyk_config c); auto.
  - intros q. unfold query_pair. now rewrite Sy, L2.
  - revert H2. unfold query_fee_info, f_load_config. rewrite C. cbn.
    destruct (pair_xyk_config c) as [pc|] eqn:P; [|discriminate]. intros [= <-]. now apply F.
  - revert H2. unfold query_fee_info, f_load_config. rewrite C. cbn.
    destruct (pair_xyk_config c) as [pc|] eqn:P; [|discriminate]. intros [= <-]. now apply F.
Qed.

(** Only the owner updates the configuration, and an update that does not
    carry a pair configuration reports success but is not stored. *)
Theorem update_config_saved s env mi param c : FCONFIG s = Some c ->
  (sender mi <> owner c -> f_execute s env mi (FUpdateConfig param) = RErr FUnauthorized) /\
  (forall s' r, f_execute s env mi (FUpdateConfig param) = ROk (s', r) ->
     (uc_pair_xyk_config param = None -> s' = s) /\ PAIRS s' = PAIRS s) /\
  (sender mi = owner c -> uc_owner param = None -> uc_fee_address param = None -> uc_pair_xyk_config param = None ->
   f_execute s env mi (FUpdateConfig param) = ROk (s, Response_new)).
Proof.
  intros C. repeat split.
  - intros N. cbn. unfold execute_update_config, f_load_config. rewrite C. cbn. now rewrite bool_decide_false.
  - intros P. now apply update_config_inv in H2 as (_ & _ & _ & I); apply I.
  - now apply update_config_inv in H2 as (I & _).
  - intros Hs Ho Hf Hp. cbn. unfold execute_update_config, f_load_config. rewrite C, Ho, Hf, Hp. cbn.
    now rewrite bool_decide_true.
Qed.
End registry.
