(* ===== verification/DvammWitnesses.v ===== *)
(** * The DVAMM theorems at concrete inputs

    A market with a native coin and a cw20 token, a pair over them and a
    factory; each theorem applied to it. *)

From S2P Require Import Prelude Rust CwStd DvammPackage DvammPair DvammFactory DvammPairProps DvammFactoryProps.

(** ** A concrete environment *)

(** Balances and supplies as association lists. *)
Record market := Market {
  natives : list ((Addr * rstring) * Z);
  tokens : list ((Addr * Addr) * Z);
  supplies : list (Addr * Z);
  fees : FeeInfoResponse }.

Definition assoc {K} `{EqDecision K} (l : list (K * Z)) (k : K) : option Z :=
  '(_, e) ← list_find (fun e => e.1 = k) l; Some (e.2 mod 2 ^ 128).

#[export] Instance market_querier : Querier market := {
  bank_balance m a d := ROk (default 0 (assoc (natives m) (a, d)));
  bank_all_balances m a := ROk [];
  cw20_balance m t a := ok_or QueryErr (assoc (tokens m) (t, a));
  cw20_token_info m t := z ← ok_or QueryErr (assoc (supplies m) t); ROk (MkTokenInfoResponse 6 z);
  factory_config_q m a := RErr QueryErr;
  factory_fee_info m a t := ROk (fees m);
  factory_pair m a i := RErr QueryErr;
  factory_pairs m a i l := RErr QueryErr;
  pair_pair m a := RErr QueryErr;
  pair_simulation m a x := RErr QueryErr;
  pair_reverse_simulation m a x := RErr QueryErr }.

Lemma assoc_range {K} `{EqDecision K} (l : list (K * Z)) k z : assoc l k = Some z -> U128 z.
Proof.
  unfold assoc. destruct (list_find _ _) as [[i e]|]; [|discriminate]. intros [= <-].
  apply Z.mod_pos_bound. lia.
Qed.

#[export] Instance market_querier_ok : QuerierOk market.
Proof.
  split; cbn.
  - intros m a d z [= <-]. destruct (assoc _ _) eqn:E; cbn; [eapply assoc_range, E|split; lia].
  - intros m t a z E. apply ok_or_ok in E. eapply assoc_range, E.
  - intros m t r E. rstep E as z R. injection E as <-. eapply assoc_range, R.
Qed.

#[export] Instance demo_api : CwApi := {
  addr_validate s := if bool_decide (s = []) then RErr (GenericErr "empty address") else ROk s }.

#[export] Instance demo_decode : CwDecode := {
  from_json_hook b := if bool_decide (b = str "swap") then ROk (HookSwap None) else ROk HookWithdrawLiquidity;
  parse_instantiate_response b := Some (MkInstantiateResponse b []) }.

Definition uluna : AssetInfo := NativeToken (str "uluna").
Definition tok : AssetInfo := Token (str "tok").
Definition pair_addr : Addr := str "pair".
Definition lp : Addr := str "lp".
Definition trader : Addr := str "trader".

Definition pair_config : Config := MkConfig (MkPairInfo (uluna, tok) pair_addr lp Xyk) (str "factory") 0.
Definition pair_storage : Storage := MkStorage None (Some pair_config).
Definition pair_env : Env := MkEnv pair_addr.

(** Pools of [u] uluna and [t] tok, [total] shares, a fee of [bps]. *)
Definition pools_of (u t total bps : Z) : market :=
  Market [((pair_addr, str "uluna"), u)] [((str "tok", pair_addr), t)] [(lp, total)]
    (MkFeeInfoResponse (Some (str "collector")) bps bps).

Definition sends (z : Z) : MessageInfo := MkMessageInfo trader [MkCwCoin (str "uluna") z].

(** Discharge the hypotheses of a theorem by evaluation. *)
Ltac by_eval :=
  lazymatch goal with
  | |- _ = _ => reflexivity
  | |- _ <> _ => discriminate
  | |- _ => vm_compute; repeat split; congruence
  end.

(** ** The pair *)

Lemma compute_swap_exact_witness :
  (0 < 1000 + 50 /\ kept 1000 2000 50 <= 2000 /\
   compute_swap 1000 2000 50 (3 * 10 ^ 15) =
     ROk (if 3 * 10 ^ 15 =? 0 then (gross 1000 2000 50, 0) else (0, gross 1000 2000 50))) \/
  ((1000 + 50 = 0 \/ 2000 < kept 1000 2000 50) /\ panics (compute_swap 1000 2000 50 (3 * 10 ^ 15))).
Proof. apply (compute_swap_exact 1000 2000 50 (3 * 10 ^ 15)); by_eval. Defined.

(** An offer of 10^20 against a pool of 10: the swap goes through and pays the
    trader nothing, the fee being 0.3%. *)
Lemma swap_sound_witness : exists r op ask ap out fees,
    swap pair_storage (pools_of (10 + 10 ^ 20) (5 * 10 ^ 18) 7 30) pair_env (sends (10 ^ 20)) trader
      (MkAsset uluna (10 ^ 20)) None = ROk (pair_storage, r) /\
    ask = tok /\ messages r = pay ask out trader :: fees /\ out = 0 /\
    op * ap <= (op + 10 ^ 20) * (ap - gross op ap (10 ^ 20)).
Proof.
  destruct (swap pair_storage (pools_of (10 + 10 ^ 20) (5 * 10 ^ 18) 7 30) pair_env (sends (10 ^ 20)) trader
      (MkAsset uluna (10 ^ 20)) None) as [[s' r]|e|w] eqn:E; [|vm_compute in E; discriminate..].
  pose proof (swap_sound pair_storage (pools_of (10 + 10 ^ 20) (5 * 10 ^ 18) 7 30) pair_env (sends (10 ^ 20)) trader
      (MkAsset uluna (10 ^ 20)) None s' r pair_config (MkFeeInfoResponse (Some (str "collector")) 30 30)) as T.
  specialize (T ltac:(by_eval) eq_refl eq_refl ltac:(by_eval) ltac:(by_eval) ltac:(by_eval) E).
  destruct T as (op & ask & ap & out & fs & A & N & Q1 & Q2 & -> & M & F & O & Z0 & P).
  exists r, op, ask, ap, out, fs. split; [reflexivity|].
  rewrite elem_of_cons, list_elem_of_singleton in A. destruct A as [->| ->]; [now destruct N|].
  split; [reflexivity|]. split; [exact M|]. split; [now apply Z0|]. apply P.
  vm_compute in Q2. injection Q2 as <-. vm_compute. congruence.
Defined.

(** Offering 50 of 1050 against 2000. *)
Lemma swap_aborts_witness :
  panics (swap pair_storage (pools_of 1050 2000 7 30) pair_env (sends 50) trader (MkAsset uluna 50) None).
Proof.
  apply (swap_aborts pair_storage (pools_of 1050 2000 7 30) pair_env (sends 50) trader (MkAsset uluna 50) None
    pair_config (MkAsset uluna 1050, MkAsset tok 2000) (MkAsset uluna 1050) (MkAsset tok 2000)
    (MkFeeInfo (Some (str "collector")) (3 * 10 ^ 15) (3 * 10 ^ 15))); by_eval.
Defined.

(** Half of the supply is burned for nothing. *)
Lemma withdraw_all_or_nothing_witness :
  withdraw_liquidity pair_storage (pools_of 1000 2000 100 30) (MkMessageInfo lp []) trader 50 =
    ROk (pair_storage, add_messages [pay uluna 0 trader; pay tok 0 trader; WasmExecute lp (Burn 50) []]).
Proof.
  apply (withdraw_all_or_nothing pair_storage (pools_of 1000 2000 100 30) (MkMessageInfo lp []) trader 50
    pair_config (MkAsset uluna 1000, MkAsset tok 2000) 100); by_eval.
Defined.

Lemma provide_liquidity_run_witness : exists share,
  provide_liquidity pair_storage (pools_of 1100 2000 500 30) pair_env (sends 100)
      (MkAsset uluna 100, MkAsset tok 300) (Some (10 ^ 18)) None = ROk (pair_storage, add_messages
    [WasmExecute (str "tok") (TransferFrom trader pair_addr 300) []; WasmExecute lp (Mint trader share) []]) /\
  fair_share 500 100 300 1000 2000 share.
Proof.
  apply (provide_liquidity_run pair_storage (pools_of 1100 2000 500 30) pair_env (sends 100)
      (MkAsset uluna 100, MkAsset tok 300) (Some (10 ^ 18)) None pair_config
      (MkAsset uluna 1100, MkAsset tok 2000) 100 300 500 trader); by_eval.
Defined.

Lemma reverse_simulation_ignores_fee_witness :
  query_reverse_simulation pair_storage (pools_of 1000 2000 7 30) (MkAsset tok 100) =
    ROk (MkReverseSimulationResponse (1000 * 2000 / (2000 - 100) - 1000) 0).
Proof.
  apply (reverse_simulation_ignores_fee pair_storage (pools_of 1000 2000 7 30) (MkAsset tok 100) pair_config
    (MkAsset uluna 1000, MkAsset tok 2000) (MkAsset tok 2000) (MkAsset uluna 1000)
    (MkFeeInfo (Some (str "collector")) (3 * 10 ^ 15) (3 * 10 ^ 15))); by_eval.
Defined.

Lemma pair_authorization_witness :
  execute pair_storage (pools_of 1000 2000 7 30) pair_env (MkMessageInfo trader [])
    (Receive (MkCw20ReceiveMsg trader 10 (str "swap"))) = RErr Unauthorized.
Proof.
  apply (pair_authorization pair_storage (pools_of 1000 2000 7 30) pair_env (MkMessageInfo trader []) pair_config
    eq_refl) with (to := None); [reflexivity|].
  rewrite elem_of_cons, list_elem_of_singleton. intros [E|E]; discriminate E.
Defined.

(** ** The factory *)

Definition owner_addr : Addr := str "owner".
Definition f_init : FInstantiateMsg := MkFInstantiateMsg (Some (MkPairConfig 1 30 10)) 2 None owner_addr.
Definition f_empty : FStorage := MkFStorage None None None ∅.
Definition f_started : FStorage :=
  MkFStorage (Some (F_CONTRACT_NAME, F_CONTRACT_VERSION))
    (Some (MkFConfig owner_addr 2 None (Some (MkPairConfig 1 30 10)))) None ∅.
Definition f_reply_of (a : Addr) : SubMsgResult := ROk (MkSubMsgResponse None [a]).
Definition f_with_pair : FStorage :=
  save_pair (pair_key (uluna, tok)) pair_addr (save_tmp (pair_key (uluna, tok)) f_started).

Lemma f_created env : ftx env f_started f_with_pair.
Proof. eapply (ftx_create env (MkMessageInfo trader []) (uluna, tok) (f_reply_of pair_addr)); reflexivity. Qed.

Lemma factory_registry_witness :
  f_execute f_with_pair pair_env (MkMessageInfo trader []) (FCreatePair (tok, uluna)) = RErr PairWasCreated \/
  f_execute f_with_pair pair_env (MkMessageInfo trader []) (FCreatePair (tok, uluna)) = RErr PairConfigNotFound.
Proof.
  apply (factory_registry (Q := market) pair_env f_empty f_init f_started Response_new f_with_pair f_with_pair (uluna, tok) pair_addr);
    [reflexivity | apply rtc_once, f_created | reflexivity | apply rtc_refl | reflexivity].
Defined.

Lemma update_config_saved_witness :
  f_execute f_started pair_env (MkMessageInfo owner_addr [])
    (FUpdateConfig (MkUpdateConfig None (Some 9) None None)) = ROk (f_started, Response_new).
Proof.
  apply (update_config_saved f_started pair_env (MkMessageInfo owner_addr [])
    (MkUpdateConfig None (Some 9) None None) (MkFConfig owner_addr 2 None (Some (MkPairConfig 1 30 10))) eq_refl);
    reflexivity.
Defined.

(** Two different pairs with one key. *)
Example pair_key_collision :
  pair_key (NativeToken (str "a"), NativeToken (str "bc")) = pair_key (NativeToken (str "ab"), NativeToken (str "c")).
Proof. reflexivity. Qed.
