(* ===== verification/Ledger.v ===== *)
(** * Ledgers

    Maps from accounts to amounts, as the contracts of several platforms keep
    them: the balance of an account, the sum of all balances and how updates
    change it; machine arithmetic in the two build profiles of Rust; the bytes
    of a number in borsh. *)

From S2P Require Import Prelude Rust.

(** ** Balances *)

Section ledger.
  Context {K : Type} `{Countable K}.
  Implicit Types (m : gmap K Z) (k : K) (v : Z).

Definition held m k : Z := default 0 (m !! k).
Definition msum m : Z := map_fold (fun _ v acc => v + acc) 0 m.

(** Every entry is at least zero. *)
Definition nonneg m : Prop := map_Forall (fun _ v => 0 <= v) m.

Lemma msum_empty : msum ∅ = 0.
Proof. apply map_fold_empty. Qed.

Lemma msum_insert_new m k v : m !! k = None -> msum (<[k := v]> m) = v + msum m.
Proof.
  intros Hn. unfold msum. rewrite map_fold_insert_L; [done| |done]. intros. lia.
Qed.

Lemma msum_delete m k : msum (delete k m) = msum m - held m k.
Proof.
  unfold held. destruct (m !! k) as [v|] eqn:E; cbn.
  - rewrite <-(insert_delete_id m k v E) at 2. rewrite msum_insert_new by apply lookup_delete_eq. lia.
  - rewrite delete_id by done. lia.
Qed.

Lemma msum_insert m k v : msum (<[k := v]> m) = msum m - held m k + v.
Proof.
  rewrite <-insert_delete_eq, msum_insert_new by apply lookup_delete_eq.
  rewrite msum_delete. lia.
Qed.

Lemma held_insert m k v : held (<[k := v]> m) k = v.
Proof. unfold held. now rewrite lookup_insert_eq. Qed.

Lemma held_insert_ne m k k' v : k <> k' -> held (<[k := v]> m) k' = held m k'.
Proof. intros. unfold held. now rewrite lookup_insert_ne. Qed.

Lemma held_insert_dec m k k' v : held (<[k := v]> m) k' = if decide (k = k') then v else held m k'.
Proof. case_decide; [subst; apply held_insert|now apply held_insert_ne]. Qed.

Lemma nonneg_empty : nonneg ∅.
Proof. apply map_Forall_empty. Qed.

Lemma nonneg_insert m k v : 0 <= v -> nonneg m -> nonneg (<[k := v]> m).
Proof. intros. now apply map_Forall_insert_2. Qed.

Lemma nonneg_delete m k : nonneg m -> nonneg (delete k m).
Proof. apply map_Forall_delete. Qed.

Lemma nonneg_held m k : nonneg m -> 0 <= held m k.
Proof. intros Hm. unfold held. destruct (m !! k) eqn:E; cbn; [now apply (Hm k)|lia]. Qed.

Lemma msum_nonneg m : nonneg m -> 0 <= msum m.
Proof.
  induction m as [|k v m Hk IH] using map_ind; intros Hm; [rewrite msum_empty; lia|].
  rewrite msum_insert_new by done. apply map_Forall_insert in Hm as [? Hm]; [|done].
  specialize (IH Hm). lia.
Qed.

Lemma held_le_msum m k : nonneg m -> held m k <= msum m.
Proof.
  intros Hm. pose proof (msum_nonneg _ (nonneg_delete _ k Hm)) as Hd.
  rewrite msum_delete in Hd. lia.
Qed.

(** Two accounts hold at most the sum. *)
Lemma held2_le_msum m k k' : nonneg m -> k <> k' -> held m k + held m k' <= msum m.
Proof.
  intros Hm Hk. pose proof (held_le_msum _ k' (nonneg_delete _ k Hm)) as Hd.
  rewrite msum_delete in Hd. unfold held in *. rewrite lookup_delete_ne in Hd by done. lia.
Qed.

End ledger.

#[export] Hint Resolve nonneg_empty nonneg_insert nonneg_delete nonneg_held msum_nonneg : halborn.

(** ** Arithmetic of a build *)

(** Whether the compiler was told to check arithmetic ([overflow-checks]): a
    result that does not fit panics, otherwise it wraps around. *)
Class BuildProfile : Type := overflow_checks : bool.

Definition arith `{BuildProfile} {E} (k z : Z) : result E Z :=
  if (0 <=? z) && (z <? 2 ^ k) then ROk z
  else if overflow_checks then RPanic "attempt to compute with overflow"
  else ROk (uwrap k z).

Definition saturating_add (k a b : Z) : Z := Z.min (a + b) (2 ^ k - 1).
Definition saturating_sub (a b : Z) : Z := Z.max 0 (a - b).
Definition checked_add (k a b : Z) : option Z := if a + b <? 2 ^ k then Some (a + b) else None.
Definition checked_sub (a b : Z) : option Z := if b <=? a then Some (a - b) else None.

Lemma arith_fits `{BuildProfile} {E} k z : uint k z -> arith (E := E) k z = ROk z.
Proof.
  intros [? ?]. unfold arith. rewrite (proj2 (Z.leb_le _ _)), (proj2 (Z.ltb_lt _ _)) by lia. done.
Qed.

Lemma arith_range `{BuildProfile} {E} k z v : 0 <= k -> arith (E := E) k z = ROk v -> uint k v /\ v = uwrap k z.
Proof.
  intros Hk. unfold arith. case_bool; zify_bools.
  - intros [= <-]. split; [split; lia|symmetry; apply uwrap_small; lia].
  - case_bool; [discriminate|]. intros [= <-]. split; [now apply uwrap_range|done].
Qed.

Lemma checked_add_some k a b c : checked_add k a b = Some c <-> c = a + b /\ a + b < 2 ^ k.
Proof. unfold checked_add. case_bool; zify_bools; split; [intros [= <-]; lia|intros [-> _]; done|done|lia]. Qed.

Lemma checked_sub_some a b c : checked_sub a b = Some c <-> c = a - b /\ b <= a.
Proof. unfold checked_sub. case_bool; zify_bools; split; [intros [= <-]; lia|intros [-> _]; done|done|lia]. Qed.

(** ** Numbers in borsh *)

(** [n] bytes of a number, the least significant first, and back. *)
Fixpoint le (n : nat) (z : Z) : bytes :=
  match n with O => [] | S n => zb z :: le n (z / 256) end.
Fixpoint le_value (l : bytes) : Z := match l with [] => 0 | b :: l => bz b + 256 * le_value l end.

Lemma le_length n z : length (le n z) = n.
Proof. revert z. induction n; intros; cbn; congruence. Qed.

Lemma le_value_le n z : 0 <= z < 256 ^ Z.of_nat n -> le_value (le n z) = z.
Proof.
  revert z. induction n as [|n IH]; intros z Hz.
  - change (256 ^ Z.of_nat 0) with 1 in Hz. cbn. lia.
  - rewrite Nat2Z.inj_succ, Z.pow_succ_r in Hz by lia. cbn [le le_value]. rewrite bz_zb, IH.
    + pose proof (Z.div_mod z 256). lia.
    + split; [apply Z.div_pos; lia|apply Z.div_lt_upper_bound; lia].
Qed.

Lemma le_inj n a b : 0 <= a < 256 ^ Z.of_nat n -> 0 <= b < 256 ^ Z.of_nat n -> le n a = le n b -> a = b.
Proof. intros Ha Hb E. rewrite <-(le_value_le n a), <-(le_value_le n b) by done. now rewrite E. Qed.

Lemma le_value_range l : 0 <= le_value l < 256 ^ len l.
Proof.
  induction l as [|b l IH]; [change (0 <= 0 < 1); lia|]. rewrite len_cons, Z.pow_add_r by (pose proof (len_nonneg l); lia).
  cbn [le_value]. pose proof (bz_range b). change (256 ^ 1) with 256. lia.
Qed.
