(* ===== verification/NearSdk.v ===== *)
(** * near-sdk as the Malborn contracts see it

    A contract method runs inside a receipt: it reads the environment, changes
    the contract's state, writes logs and schedules promises, and may panic.
    The host takes what a scheduled transfer needs from the account's balance
    at once, and undoes the whole receipt when it panics.  Scheduled function
    calls are receipts of their own that run later.

    What the macros of near-sdk generate around a method is in [call_method];
    the byte formats of near-sdk are the classes [NearBorsh] and [Borsh], with
    the documented formats as their laws. *)

From S2P Require Import Prelude Rust Ledger.

Abbreviation AccountId := (list byte).

(** ** Environment, promises and logs *)

Record Env := MkEnv {
  current_account_id : AccountId;
  signer_account_id : AccountId;
  predecessor_account_id : AccountId;
  attached_deposit : Z;
  block_timestamp : Z }.

(** Arguments of calls and logs: 64- and 128-bit numbers travel as decimal
    strings, so that only their value matters. *)
Inductive JsonValue := JDec (z : Z) | JAccount (a : AccountId).

Inductive Promise :=
| PTransfer (to : AccountId) (yocto : Z)
| PFunctionCall (to : AccountId) (method : string) (args : list (string * JsonValue)) (gas : Z).

Record LogLine := MkLog { log_format : string; log_args : list JsonValue }.

(** ** The receipt monad *)

Record Receipt (S : Type) := MkReceipt {
  rc_state : S; rc_balance : Z; rc_promises : list Promise; rc_logs : list LogLine }.
Arguments MkReceipt {S} _ _ _ _.
Arguments rc_state {S} _.
Arguments rc_balance {S} _.
Arguments rc_promises {S} _.
Arguments rc_logs {S} _.

(** Methods have no error value: they return or panic. *)
Abbreviation outcome := (result Empty_set).

Definition NM (S A : Type) : Type := Env -> Receipt S -> outcome (A * Receipt S).

#[export] Instance NM_ret S : MRet (NM S) := fun _ a _ r => ROk (a, r).
#[export] Instance NM_bind S : MBind (NM S) := fun _ _ k m env r =>
  match m env r with
  | ROk (a, r') => k a env r'
  | RErr e => RErr e
  | RPanic why => RPanic why
  end.

Definition panic_str {S A} (why : string) : NM S A := fun _ _ => RPanic why.
Definition require {S} (b : bool) (why : string) : NM S unit := if b then mret tt else panic_str why.
Definition env_of {S A} (f : Env -> A) : NM S A := fun env r => ROk (f env, r).
Definition expect_some {S A} (why : string) (o : option A) : NM S A :=
  match o with Some a => mret a | None => panic_str why end.
Definition of_outcome {S A} (o : outcome A) : NM S A := fun _ r =>
  match o with ROk a => ROk (a, r) | RErr e => RErr e | RPanic why => RPanic why end.

(** [self]: reading it and writing it back. *)
Definition this {S} : NM S S := fun _ r => ROk (rc_state r, r).
Definition set_this {S} (s : S) : NM S unit := fun _ r =>
  ROk (tt, MkReceipt s (rc_balance r) (rc_promises r) (rc_logs r)).

Definition account_balance {S} : NM S Z := fun _ r => ROk (rc_balance r, r).
Definition log_line {S} (fmt : string) (args : list JsonValue) : NM S unit := fun _ r =>
  ROk (tt, MkReceipt (rc_state r) (rc_balance r) (rc_promises r) (rc_logs r ++ [MkLog fmt args])).

(** [Promise::new(to).transfer(amount)]: the host refuses to schedule more than
    the account holds. *)
Definition promise_transfer {S} (to : AccountId) (yocto : Z) : NM S unit := fun _ r =>
  if rc_balance r <? yocto then RPanic "Exceeded the account balance"
  else ROk (tt, MkReceipt (rc_state r) (rc_balance r - yocto)
                  (rc_promises r ++ [PTransfer to yocto]) (rc_logs r)).

Definition promise_call {S} (to : AccountId) (method : string) (args : list (string * JsonValue)) (gas : Z)
  : NM S unit := fun _ r =>
  ROk (tt, MkReceipt (rc_state r) (rc_balance r) (rc_promises r ++ [PFunctionCall to method args gas]) (rc_logs r)).

(** ** Exported methods *)

Inductive MethodKind := MView | MCall | MPayable | MPrivate.

(** A method that changes the state refuses a deposit unless it is payable; a
    private one is reserved to the contract itself. *)
Definition call_method {S A} (kind : MethodKind) (m : NM S A) : NM S A :=
  env ← env_of id;
  _ ← require (match kind with
               | MPrivate => bool_decide (predecessor_account_id env = current_account_id env)
               | _ => true end) "Method is private";
  _ ← require (match kind with
               | MCall | MPrivate => attached_deposit env =? 0
               | _ => true end) "Method doesn't accept deposit";
  m.

(** ** Receipts *)

(** An account with a contract: its state and its balance in yoctoNEAR. *)
Record Account (S : Type) := MkAccount { acc_state : S; acc_balance : Z }.
Arguments MkAccount {S} _ _.
Arguments acc_state {S} _.
Arguments acc_balance {S} _.

Record Done (A : Type) := MkDone { done_value : A; done_promises : list Promise; done_logs : list LogLine }.
Arguments MkDone {A} _ _ _.
Arguments done_value {A} _.
Arguments done_promises {A} _.
Arguments done_logs {A} _.

(** The deposit arrives before the method runs; a panic undoes everything and
    the deposit goes back to the caller. *)
Definition run_receipt {S A} (m : NM S A) (env : Env) (acc : Account S) : outcome (Done A) * Account S :=
  match m env (MkReceipt (acc_state acc) (acc_balance acc + attached_deposit env) [] []) with
  | ROk (a, r) => (ROk (MkDone a (rc_promises r) (rc_logs r)), MkAccount (rc_state r) (rc_balance r))
  | RErr e => (RErr e, acc)
  | RPanic why => (RPanic why, acc)
  end.

(** Calls one after the other: what each answers, and the account at the end. *)
Fixpoint run_calls {S A C} (m : C -> NM S A) (calls : list (Env * C)) (acc : Account S)
  : list (outcome (Done A)) * Account S :=
  match calls with
  | [] => ([], acc)
  | (env, c) :: rest =>
      let '(o, acc) := run_receipt (m c) env acc in
      let '(os, acc) := run_calls m rest acc in (o :: os, acc)
  end.

(** ** Byte formats *)

Class NearBorsh : Type := {
  borsh_account : AccountId -> bytes;
  borsh_u64 : Z -> bytes;
  (** The storage key of an entry of a collection with the given prefix. *)
  lookup_key : bytes -> bytes -> bytes }.

(** Strings carry their length in four bytes; the key of an entry is the
    prefix followed by the encoded element. *)
Class NearBorshOk `{near_borsh_ops : NearBorsh} : Prop := {
  borsh_account_ok a : uint 32 (len a) -> borsh_account a = le 4 (len a) ++ a;
  borsh_u64_ok n : uint 64 n -> borsh_u64 n = le 8 n;
  lookup_key_ok p k : lookup_key p k = p ++ k }.

#[export] Instance near_borsh : NearBorsh :=
  {| borsh_account a := le 4 (len a) ++ a; borsh_u64 n := le 8 n; lookup_key p k := p ++ k |}.
#[export] Instance near_borsh_ok : NearBorshOk.
Proof. split; reflexivity. Qed.

(** Values stored in collections. *)
Class Borsh (A : Type) : Type := { borsh_to_vec : A -> bytes; borsh_try_from_slice : bytes -> option A }.
Class BorshOk (A : Type) `{Borsh A} (wf : A -> Prop) : Prop :=
  borsh_roundtrip (a : A) : wf a -> borsh_try_from_slice (borsh_to_vec a) = Some a.

(** ** Lemmas *)

(** Run the steps of a method whose outcome is known. *)
Ltac nm_run := unfold call_method, require, expect_some, env_of, this, set_this, panic_str, log_line;
  cbv beta delta [mbind mret NM_bind NM_ret]; cbn.
Tactic Notation "nm_run" "in" hyp(H) :=
  unfold call_method, require, expect_some, env_of, this, set_this, panic_str, log_line in H;
  cbv beta delta [mbind mret NM_bind NM_ret] in H; cbn in H.

Lemma NM_bind_ok {S A B} (m : NM S A) (k : A -> NM S B) env r b r'' :
  (m ≫= k) env r = ROk (b, r'') -> exists a r', m env r = ROk (a, r') /\ k a env r' = ROk (b, r'').
Proof.
  change ((m ≫= k) env r) with (match m env r with
    | ROk (a, r') => k a env r' | RErr e => RErr e | RPanic why => RPanic why end).
  destruct (m env r) as [[a r']| |]; try discriminate. eauto.
Qed.

Lemma NM_bind_run {S A B} (m : NM S A) (k : A -> NM S B) env r a r' :
  m env r = ROk (a, r') -> (m ≫= k) env r = k a env r'.
Proof.
  intros E. change ((m ≫= k) env r) with (match m env r with
    | ROk (a, r') => k a env r' | RErr e => RErr e | RPanic why => RPanic why end). now rewrite E.
Qed.

Lemma NM_bind_panic {S A B} (m : NM S A) (k : A -> NM S B) env r why :
  m env r = RPanic why -> (m ≫= k) env r = RPanic why.
Proof.
  intros E. change ((m ≫= k) env r) with (match m env r with
    | ROk (a, r') => k a env r' | RErr e => RErr e | RPanic why => RPanic why end). now rewrite E.
Qed.

Lemma require_ok {S} b why env (r r' : Receipt S) u : require b why env r = ROk (u, r') <-> b = true /\ r' = r.
Proof. destruct u, b; cbn; split; [intros [= ->]|intros [_ ->]|discriminate|intros [? _]]; done. Qed.

Lemma call_method_ok {S A} kind (m : NM S A) env r x :
  call_method kind m env r = ROk x ->
  m env r = ROk x /\ (kind = MPrivate -> predecessor_account_id env = current_account_id env) /\
  (kind = MCall \/ kind = MPrivate -> attached_deposit env = 0).
Proof.
  nm_run. destruct kind; cbn; try case_bool_decide; cbn;
    try (destruct (attached_deposit env =? 0) eqn:E; cbn; zify_bools); intros Hm; try discriminate Hm;
    (split; [exact Hm|split; [intros Hk; try discriminate Hk; done|intros [Hk|Hk]; try discriminate Hk; done]]).
Qed.

Lemma call_method_run {S A} kind (m : NM S A) env r :
  (kind = MPrivate -> predecessor_account_id env = current_account_id env) ->
  (kind = MCall \/ kind = MPrivate -> attached_deposit env = 0) ->
  call_method kind m env r = m env r.
Proof.
  intros Hp Hd. nm_run.
  destruct kind; cbn; rewrite ?bool_decide_true by auto; cbn;
    rewrite ?(proj2 (Z.eqb_eq _ _)) by auto; done.
Qed.
