(* ===== verification/NearStaking.v ===== *)
(** * The staking contract

    [halborn-near-ctf-staking/src/lib.rs]: users stake NEAR with the contract
    and take it back; the owner can airdrop from the contract's balance to all
    stakers.  The iterable map of near-sdk is a class. *)

From S2P Require Import Prelude Rust Ledger NearSdk.

(** [near_sdk::collections::UnorderedMap] from accounts. *)
Class UnorderedMap (M : Type) : Type := {
  um_new : bytes -> M;
  um_get : M -> AccountId -> option Z;
  um_insert : M -> AccountId -> Z -> M;
  um_iter : M -> list (AccountId * Z) }.

(** The iterator visits every entry once, in an order the contract does not
    rely on. *)
Class UnorderedMapOk (M : Type) `{UnorderedMap M} : Prop := {
  um_new_get p k : um_get (um_new p) k = None;
  um_insert_get m k v : um_get (um_insert m k v) k = Some v;
  um_insert_get_ne m k k' v : k <> k' -> um_get (um_insert m k v) k' = um_get m k';
  um_iter_nodup m : NoDup (um_iter m).*1;
  um_iter_spec m k v : (k, v) ∈ um_iter m <-> um_get m k = Some v }.

#[export] Instance gmap_unordered : UnorderedMap (gmap AccountId Z) := {|
  um_new _ := ∅; um_get m k := m !! k; um_insert m k v := <[k := v]> m; um_iter := map_to_list |}.
#[export] Instance gmap_unordered_ok : UnorderedMapOk (gmap AccountId Z).
Proof.
  split; cbn; intros.
  - apply lookup_empty.
  - apply lookup_insert_eq.
  - now apply lookup_insert_ne.
  - apply NoDup_fst_map_to_list.
  - apply elem_of_map_to_list.
Qed.

Section staking.
  Context {M : Type} `{UnorderedMap M}.

(** ** State *)

Record StakingContract := MkStaking { owner : AccountId; stake_balances : M; total_staked : Z }.

Abbreviation SM := (NM StakingContract).

(** ** Methods *)

Definition staking_new : Env -> StakingContract := fun env =>
  MkStaking (predecessor_account_id env) (um_new [x73]) 0.

Definition stake : SM Z :=
  deposit ← env_of attached_deposit;
  user ← env_of predecessor_account_id;
  _ ← log_line "{} is staking {}" [JAccount user; JDec deposit];
  self ← this;
  match um_get (stake_balances self) user with
  | Some balance =>
      let new_balance := saturating_add 128 balance deposit in
      _ ← set_this (MkStaking (owner self) (um_insert (stake_balances self) user new_balance)
                      (saturating_add 128 (total_staked self) deposit));
      mret new_balance
  | None =>
      let new_balance := deposit in
      _ ← set_this (MkStaking (owner self) (um_insert (stake_balances self) user new_balance)
                      (saturating_add 128 (total_staked self) deposit));
      mret new_balance
  end.

Definition unstake (amount : Z) : SM bool :=
  _ ← require (0 <? amount) "assertion failed: u128::from(amount) > 0";
  user ← env_of predecessor_account_id;
  _ ← log_line "{} is unstaking {}" [JAccount user; JDec amount];
  self ← this;
  match um_get (stake_balances self) user with
  | Some balance =>
      let new_balance := saturating_sub balance amount in
      _ ← set_this (MkStaking (owner self) (um_insert (stake_balances self) user new_balance)
                      (saturating_sub (total_staked self) amount));
      _ ← (if new_balance =? 0 then promise_transfer user balance else promise_transfer user amount);
      mret true
  | None => mret false
  end.

Fixpoint airdrop_each (stakers : list (AccountId * Z)) (amount : Z) : SM unit :=
  match stakers with
  | [] => mret tt
  | (staker, _) :: rest => _ ← promise_transfer staker amount; airdrop_each rest amount
  end.

Definition airdrop (amount : Z) : SM unit :=
  user ← env_of predecessor_account_id;
  self ← this;
  _ ← require (bool_decide (user = owner self)) "assertion failed: user == self.owner";
  airdrop_each (um_iter (stake_balances self)) amount.

Definition get_total_staked : SM Z := self ← this; mret (total_staked self).
Definition get_user_staked : SM Z :=
  user ← env_of predecessor_account_id;
  self ← this;
  mret (match um_get (stake_balances self) user with Some balance => balance | None => 0 end).
Definition get_total_balance : SM Z := account_balance.
Definition get_account_id : SM AccountId := env_of current_account_id.

(** ** Calls *)

Inductive StakingCall := CStake | CUnstake (amount : Z) | CAirdrop (amount : Z).

(** The exported methods that change the state, with what their results say. *)
Definition staking_call (c : StakingCall) : SM bool :=
  match c with
  | CStake => call_method MPayable (_ ← stake; mret true)
  | CUnstake amount => call_method MCall (unstake amount)
  | CAirdrop amount => call_method MCall (_ ← airdrop amount; mret true)
  end.

Definition staking_step (acc : Account StakingContract) (ec : Env * StakingCall) : Account StakingContract :=
  snd (run_receipt (staking_call (snd ec)) (fst ec) acc).

Definition staking_run (calls : list (Env * StakingCall)) (acc : Account StakingContract)
  : Account StakingContract := foldl staking_step acc calls.

(** Deposits and amounts are u128. *)
Definition staking_input (ec : Env * StakingCall) : Prop :=
  U128 (attached_deposit (fst ec)) /\
  match snd ec with CStake => True | CUnstake z => U128 z | CAirdrop z => U128 z end.

Definition is_airdrop (c : StakingCall) : bool := match c with CAirdrop _ => true | _ => false end.

(** The stakes as a map; what the contract owes its users is their sum. *)
Definition stakes (self : StakingContract) : gmap AccountId Z := list_to_map (um_iter (stake_balances self)).

Record staking_inv (acc : Account StakingContract) : Prop := {
  stakes_fit : map_Forall (fun _ v => U128 v) (stakes (acc_state acc));
  total_fits : U128 (total_staked (acc_state acc));
  (** The counter never exceeds what is staked... *)
  total_below : total_staked (acc_state acc) <= msum (stakes (acc_state acc)) }.

(** ... and the contract is solvent when it holds what it owes. *)
Definition solvent (acc : Account StakingContract) : Prop := msum (stakes (acc_state acc)) <= acc_balance acc.

End staking.

Arguments StakingContract M : clear implicits.

(** ** The staking contract: what holds of it

    What each method does on every branch; the contract pays back exactly what
    it deducts and stays solvent without airdrops; an airdrop is paid out of
    the stakes; the counter [total_staked] can be driven to zero for free. *)

Section staking_props.
  Context {M : Type} `{UnorderedMapOk M}.
  Implicit Types (self : StakingContract M) (acc : Account (StakingContract M)).

(** ** Stakes *)

Lemma stakes_lookup self k : stakes self !! k = um_get (stake_balances self) k.
Proof.
  unfold stakes. destruct (um_get (stake_balances self) k) as [v|] eqn:E.
  - apply elem_of_list_to_map; [apply um_iter_nodup|now apply um_iter_spec].
  - apply not_elem_of_list_to_map_1. intros ((k' & v) & -> & Hin)%list_elem_of_fmap.
    apply um_iter_spec in Hin. cbn in *. congruence.
Qed.

Lemma stakes_insert o m k v t : stakes (MkStaking o (um_insert m k v) t) = <[k := v]> (stakes (MkStaking o m t)).
Proof.
  apply map_eq. intros j. rewrite stakes_lookup. cbn. destruct (decide (k = j)) as [<-|Hj].
  - now rewrite um_insert_get, lookup_insert_eq.
  - rewrite um_insert_get_ne, lookup_insert_ne by done. now rewrite stakes_lookup.
Qed.

Lemma stakes_total o m t t' : stakes (MkStaking o m t) = stakes (MkStaking o m t').
Proof. reflexivity. Qed.

Lemma inv_held acc k : staking_inv acc -> U128 (held (stakes (acc_state acc)) k).
Proof.
  intros [F _ _]. unfold held. destruct (stakes (acc_state acc) !! k) eqn:E; cbn; [now apply (F k)|split; lia].
Qed.

Lemma inv_nonneg acc : staking_inv acc -> nonneg (stakes (acc_state acc)).
Proof. intros [F _ _]. eapply map_Forall_impl; [exact F|]. intros ? ? [? _]. done. Qed.

(** ** The methods *)

(** What [stake] credits, and leaves behind. *)
Definition staked_to (env : Env) self : Z :=
  match um_get (stake_balances self) (predecessor_account_id env) with
  | Some b => saturating_add 128 b (attached_deposit env) | None => attached_deposit env end.
Definition after_stake (env : Env) self : StakingContract M :=
  MkStaking (owner self) (um_insert (stake_balances self) (predecessor_account_id env) (staked_to env self))
    (saturating_add 128 (total_staked self) (attached_deposit env)).

Lemma stake_run env r : stake env r = ROk (staked_to env (rc_state r),
  MkReceipt (after_stake env (rc_state r)) (rc_balance r) (rc_promises r)
    (rc_logs r ++ [MkLog "{} is staking {}" [JAccount (predecessor_account_id env); JDec (attached_deposit env)]])).
Proof.
  unfold after_stake, staked_to, stake. nm_run. now destruct (um_get _ _) as [b|] eqn:E.
Qed.

(** What is deducted by an unstaking of [amount]: never more than the stake. *)
Definition refund (stakes : gmap AccountId Z) (user : AccountId) (amount : Z) : Z := Z.min (held stakes user) amount.

Definition after_unstake (user : AccountId) (amount : Z) self : StakingContract M :=
  MkStaking (owner self)
    (um_insert (stake_balances self) user (held (stakes self) user - refund (stakes self) user amount))
    (saturating_sub (total_staked self) amount).

Lemma unstake_known env r amount b : 0 < amount -> 0 <= b ->
  um_get (stake_balances (rc_state r)) (predecessor_account_id env) = Some b ->
  let user := predecessor_account_id env in
  let pay := refund (stakes (rc_state r)) user amount in
  unstake amount env r =
    if rc_balance r <? pay then RPanic "Exceeded the account balance"
    else ROk (true, MkReceipt (after_unstake user amount (rc_state r)) (rc_balance r - pay)
                      (rc_promises r ++ [PTransfer user pay])
                      (rc_logs r ++ [MkLog "{} is unstaking {}" [JAccount user; JDec amount]])).
Proof.
  intros Ha Hb Hg. cbn zeta. unfold unstake, after_unstake, refund. nm_run.
  rewrite (proj2 (Z.ltb_lt 0 amount)) by done. nm_run. rewrite Hg. nm_run.
  assert (held (stakes (rc_state r)) (predecessor_account_id env) = b) as ->.
  { unfold held. now rewrite stakes_lookup, Hg. }
  unfold saturating_sub. destruct (Z.leb_spec b amount).
  - rewrite (Z.max_l 0 (b - amount)), (Z.min_l b amount) by lia. replace (b - b) with 0 by lia.
    cbn. unfold promise_transfer. cbn. now destruct (rc_balance r <? b).
  - rewrite (Z.max_r 0 (b - amount)), (Z.min_r b amount) by lia.
    rewrite (proj2 (Z.eqb_neq (b - amount) 0)) by lia.
    cbn. unfold promise_transfer. cbn. now destruct (rc_balance r <? amount).
Qed.

Lemma unstake_unknown env r amount : 0 < amount ->
  um_get (stake_balances (rc_state r)) (predecessor_account_id env) = None ->
  unstake amount env r = ROk (false, MkReceipt (rc_state r) (rc_balance r) (rc_promises r)
    (rc_logs r ++ [MkLog "{} is unstaking {}" [JAccount (predecessor_account_id env); JDec amount]])).
Proof.
  intros Ha Hg. unfold unstake. nm_run. rewrite (proj2 (Z.ltb_lt 0 amount)) by done.
  nm_run. now rewrite Hg.
Qed.

Lemma airdrop_each_run l amount env (r : Receipt (StakingContract M)) : 0 <= amount -> amount * len l <= rc_balance r ->
  airdrop_each l amount env r = ROk (tt, MkReceipt (rc_state r) (rc_balance r - amount * len l)
    (rc_promises r ++ map (fun s => PTransfer s.1 amount) l) (rc_logs r)).
Proof.
  intros Ha. revert r. induction l as [|[s v] l IH]; intros r Hr.
  - cbn. unfold len. cbn. rewrite Z.mul_0_r, Z.sub_0_r, app_nil_r. now destruct r.
  - rewrite len_cons in *. cbn [airdrop_each]. erewrite NM_bind_run.
    2:{ unfold promise_transfer. pose proof (Z.mul_nonneg_nonneg amount (len l) Ha (len_nonneg l)). if_false; [reflexivity|lia]. }
    rewrite IH by (cbn; lia). cbn. rewrite <-app_assoc.
    replace (rc_balance r - amount * (1 + len l)) with (rc_balance r - amount - amount * len l) by lia. done.
Qed.

Lemma airdrop_each_panics l amount env (r : Receipt (StakingContract M)) : 0 <= amount ->
  0 <= rc_balance r < amount * len l -> panics (airdrop_each l amount env r).
Proof.
  intros Ha. revert r. induction l as [|[s v] l IH]; intros r Hr.
  - unfold len in Hr. cbn in Hr. lia.
  - rewrite len_cons in Hr. cbn [airdrop_each]. destruct (Z.ltb_spec (rc_balance r) amount).
    + eexists. apply NM_bind_panic. unfold promise_transfer. if_true; [reflexivity|done].
    + erewrite NM_bind_run. 2:{ unfold promise_transfer. if_false; [reflexivity|done]. }
      apply IH. cbn. lia.
Qed.

(** ** Invariants *)

Lemma after_stake_stakes env self :
  stakes (after_stake env self) = <[predecessor_account_id env := staked_to env self]> (stakes self).
Proof. unfold after_stake. rewrite stakes_insert. now destruct self. Qed.

Lemma after_unstake_stakes user amount self :
  stakes (after_unstake user amount self) =
  <[user := held (stakes self) user - refund (stakes self) user amount]> (stakes self).
Proof. unfold after_unstake. rewrite stakes_insert. now destruct self. Qed.

Lemma staked_to_eq env self : 0 <= attached_deposit env < 2 ^ 128 ->
  staked_to env self = saturating_add 128 (held (stakes self) (predecessor_account_id env)) (attached_deposit env).
Proof.
  intros Hd. unfold staked_to, held. rewrite stakes_lookup. destruct (um_get _ _); cbn; [done|].
  unfold saturating_add. lia.
Qed.

Lemma stake_inv env acc : staking_inv acc -> U128 (attached_deposit env) ->
  let acc' := MkAccount (after_stake env (acc_state acc)) (acc_balance acc + attached_deposit env) in
  staking_inv acc' /\ (solvent acc -> solvent acc').
Proof.
  intros I [D1 D2]. pose proof (inv_held _ (predecessor_account_id env) I) as [U1 U2].
  pose proof (held_le_msum _ (predecessor_account_id env) (inv_nonneg _ I)) as Hs.
  destruct I as [F [T1 T2] B]. cbn zeta. unfold solvent. cbn [acc_state acc_balance].
  rewrite after_stake_stakes, msum_insert, staked_to_eq by done. unfold saturating_add in *.
  split; [split; cbn [acc_state]|intros; lia].
  - rewrite after_stake_stakes, staked_to_eq by done.
    apply map_Forall_insert_2; [unfold saturating_add; split; lia|done].
  - cbn. unfold saturating_add. split; lia.
  - rewrite after_stake_stakes, msum_insert, staked_to_eq by done. cbn. unfold saturating_add. lia.
Qed.

Lemma unstake_inv user amount acc : staking_inv acc -> 0 < amount ->
  let acc' := MkAccount (after_unstake user amount (acc_state acc))
                (acc_balance acc - refund (stakes (acc_state acc)) user amount) in
  staking_inv acc' /\ (solvent acc -> solvent acc').
Proof.
  intros I Ha. pose proof (inv_held _ user I) as [U1 U2].
  pose proof (held_le_msum _ user (inv_nonneg _ I)) as Hs.
  destruct I as [F [T1 T2] B]. cbn zeta. unfold solvent. cbn [acc_state acc_balance].
  rewrite after_unstake_stakes, msum_insert.
  split; [split; cbn [acc_state]|unfold refund in *; intros; lia].
  - rewrite after_unstake_stakes. apply map_Forall_insert_2; [unfold refund; split; lia|done].
  - cbn. unfold saturating_sub. split; lia.
  - rewrite after_unstake_stakes, msum_insert. cbn. unfold saturating_sub, refund. lia.
Qed.

(** ** Calls *)

Definition owed acc : Z := msum (stakes (acc_state acc)) - acc_balance acc.

Lemma step_stake env acc : staking_step acc (env, CStake) =
  MkAccount (after_stake env (acc_state acc)) (acc_balance acc + attached_deposit env).
Proof.
  unfold staking_step, run_receipt, staking_call. cbn [fst snd].
  rewrite call_method_run by (intros; try discriminate; intuition discriminate).
  erewrite NM_bind_run by apply stake_run. reflexivity.
Qed.

(** An unstaking is refused without effect, or deducts and pays the refund. *)
Lemma step_unstake env amount acc : staking_inv acc ->
  let user := predecessor_account_id env in
  let pay := refund (stakes (acc_state acc)) user amount in
  staking_step acc (env, CUnstake amount) = acc \/
  0 < amount /\ pay <= acc_balance acc /\
  staking_step acc (env, CUnstake amount) = MkAccount (after_unstake user amount (acc_state acc)) (acc_balance acc - pay).
Proof.
  intros I. cbn zeta. unfold staking_step, run_receipt, staking_call. cbn [fst snd].
  set (r := MkReceipt _ _ _ _). destruct (call_method _ _ _ r) as [[v r']| |] eqn:E; [|now left..].
  apply call_method_ok in E as (E & _ & Hd). specialize (Hd (or_introl eq_refl)).
  destruct (Z.ltb_spec 0 amount) as [Ha|Ha].
  2:{ unfold unstake in E. apply NM_bind_ok in E as (? & ? & [Hb _]%require_ok & _). zify_bools. lia. }
  destruct (um_get (stake_balances (acc_state acc)) (predecessor_account_id env)) as [b|] eqn:G.
  - right. assert (0 <= b). { pose proof (inv_held _ (predecessor_account_id env) I) as [U _].
      unfold held in U. now rewrite stakes_lookup, G in U. }
    erewrite (unstake_known env r amount b) in E by done. subst r. cbn [rc_balance rc_state] in E.
    rewrite Hd, Z.add_0_r in E.
    destruct (_ <? _) eqn:L; [discriminate|]. injection E as _ <-. zify_bools. done.
  - left. erewrite (unstake_unknown env r amount) in E by done. injection E as _ <-. subst r. cbn.
    rewrite Hd, Z.add_0_r. now destruct acc.
Qed.

Lemma step_airdrop env amount acc : 0 <= amount -> 0 <= acc_balance acc ->
  let n := len (um_iter (stake_balances (acc_state acc))) in
  staking_step acc (env, CAirdrop amount) = acc \/
  predecessor_account_id env = owner (acc_state acc) /\ amount * n <= acc_balance acc /\
  staking_step acc (env, CAirdrop amount) = MkAccount (acc_state acc) (acc_balance acc - amount * n).
Proof.
  intros Ha Hb. cbn zeta. unfold staking_step, run_receipt, staking_call. cbn [fst snd].
  set (r := MkReceipt _ _ _ _). destruct (call_method _ _ _ r) as [[v r']| |] eqn:E; [|now left..].
  right. apply call_method_ok in E as (E & _ & Hd). specialize (Hd (or_introl eq_refl)).
  apply NM_bind_ok in E as ([] & r1 & E & [= _ <-]). unfold airdrop in E.
  apply NM_bind_ok in E as (? & ? & [= <- <-] & E). apply NM_bind_ok in E as (? & ? & [= <- <-] & E).
  apply NM_bind_ok in E as (? & ? & [Ho ->]%require_ok & E). apply bool_decide_eq_true in Ho.
  destruct (Z.leb_spec (amount * len (um_iter (stake_balances (acc_state acc)))) (acc_balance acc)) as [L|L].
  - rewrite airdrop_each_run in E by (subst r; cbn; lia). injection E as <-. subst r. cbn. rewrite Hd, Z.add_0_r. done.
  - edestruct (airdrop_each_panics (um_iter (stake_balances (acc_state acc))) amount env r) as [w W]; [done|subst r; cbn; lia|].
    cbn in E. congruence.
Qed.

Lemma step_inv acc ec : staking_inv acc -> 0 <= acc_balance acc -> staking_input ec ->
  staking_inv (staking_step acc ec) /\ 0 <= acc_balance (staking_step acc ec) /\
  (is_airdrop (snd ec) = false -> solvent acc -> solvent (staking_step acc ec)).
Proof.
  intros I B [D A]. destruct ec as [env [|amount|amount]]; cbn [fst snd is_airdrop] in *.
  - rewrite step_stake. destruct (stake_inv env acc I D). destruct D. split; [done|split; [cbn; lia|done]].
  - destruct (step_unstake env amount acc I) as [->|(Ha & P & ->)]; [done|].
    destruct (unstake_inv (predecessor_account_id env) amount acc I Ha).
    split; [done|split; [cbn; lia|done]].
  - destruct A as [A _]. destruct (step_airdrop env amount acc A B) as [->|(_ & P & ->)]; [done|].
    split; [destruct I; now split|split; [cbn; lia|done]].
Qed.

Lemma run_inv calls acc : Forall staking_input calls -> staking_inv acc -> 0 <= acc_balance acc ->
  staking_inv (staking_run calls acc) /\ 0 <= acc_balance (staking_run calls acc) /\
  (Forall (fun ec => is_airdrop (snd ec) = false) calls -> solvent acc -> solvent (staking_run calls acc)).
Proof.
  revert acc. induction calls as [|ec calls IH]; intros acc F I B; [done|].
  apply Forall_cons in F as [Hi F]. destruct (step_inv acc ec I B Hi) as (I' & B' & S').
  destruct (IH _ F I' B') as (I'' & B'' & S''). cbn. split; [done|split; [done|]].
  intros [Ha Fa]%Forall_cons Hs. auto.
Qed.

Lemma new_stakes env : stakes (M := M) (staking_new env) = ∅.
Proof. apply map_eq. intros k. rewrite stakes_lookup. cbn. now rewrite um_new_get, lookup_empty. Qed.

Lemma new_inv env b : staking_inv (M := M) (MkAccount (staking_new env) b).
Proof.
  split; cbn [acc_state]; rewrite ?new_stakes.
  - apply map_Forall_empty.
  - split; cbn; lia.
  - rewrite (msum_empty (K := AccountId)). easy.
Qed.

Lemma new_solvent env b : 0 <= b -> solvent (M := M) (MkAccount (staking_new env) b).
Proof. intros Hb. unfold solvent. cbn [acc_state acc_balance]. now rewrite new_stakes, (msum_empty (K := AccountId)). Qed.

Lemma unstake_owed acc env amount : staking_inv acc -> owed (staking_step acc (env, CUnstake amount)) = owed acc.
Proof.
  intros I. destruct (step_unstake env amount acc I) as [->|(Ha & P & ->)]; [done|].
  unfold owed. cbn [acc_state acc_balance]. rewrite after_unstake_stakes, msum_insert. lia.
Qed.

(** ** Theorems *)

(** C29: Without airdrops the contract stays able to pay everyone: after any calls
    of any users, an unstaking by a staker succeeds and pays the amount, or
    the whole stake when less is left. *)
Theorem unstake_always_paid env0 b calls env amount :
  0 <= b -> Forall staking_input calls -> Forall (fun ec => is_airdrop (snd ec) = false) calls ->
  let acc := staking_run calls (MkAccount (staking_new env0) b) in
  let user := predecessor_account_id env in
  let pay := Z.min (held (stakes (acc_state acc)) user) amount in
  is_Some (stakes (acc_state acc) !! user) -> 0 < amount -> attached_deposit env = 0 ->
  exists done, run_receipt (staking_call (CUnstake amount)) env acc =
    (ROk done, MkAccount (after_unstake user amount (acc_state acc)) (acc_balance acc - pay)) /\
  done_value done = true /\ done_promises done = [PTransfer user pay].
Proof.
  intros Hb Fi Fa acc user pay [v Hv] Ha Hd.
  destruct (run_inv calls (MkAccount (staking_new env0) b) Fi (new_inv _ _) Hb) as (I & B & S).
  specialize (S Fa (new_solvent _ _ Hb)). fold acc in I, B, S.
  rewrite stakes_lookup in Hv.
  assert (0 <= v). { pose proof (inv_held _ user I) as [U _]. unfold held in U. now rewrite stakes_lookup, Hv in U. }
  unfold run_receipt, staking_call. rewrite call_method_run by (intros; done || discriminate).
  rewrite (unstake_known env _ amount v) by done. cbn [rc_state rc_balance]. rewrite Hd, Z.add_0_r.
  pose proof (held_le_msum _ user (inv_nonneg _ I)). unfold solvent in S.
  fold user. unfold refund. if_false; [|lia]. eexists. split; [reflexivity|done].
Qed.

(** The counter [total_staked] is not the sum of the stakes: a user whose stake
    is zero can bring it to zero, is paid nothing, and changes nothing else. *)
Theorem counter_drained env acc :
  staking_inv acc -> 0 < total_staked (acc_state acc) -> 0 <= acc_balance acc -> attached_deposit env = 0 ->
  stakes (acc_state acc) !! predecessor_account_id env = Some 0 ->
  let acc' := staking_step acc (env, CUnstake (total_staked (acc_state acc))) in
  total_staked (acc_state acc') = 0 /\ stakes (acc_state acc') = stakes (acc_state acc) /\
  acc_balance acc' = acc_balance acc.
Proof.
  intros I T B Hd Hs. cbn zeta. unfold staking_step, run_receipt, staking_call. cbn [fst snd].
  rewrite call_method_run by (intros; done || discriminate).
  rewrite (unstake_known env _ _ 0) by (rewrite <-?stakes_lookup; done). cbn [rc_state rc_balance].
  assert (refund (stakes (acc_state acc)) (predecessor_account_id env) (total_staked (acc_state acc)) = 0) as R.
  { unfold refund, held. rewrite Hs. cbn. lia. }
  rewrite R, Hd, Z.add_0_r. if_false; [|lia]. cbn [snd acc_state acc_balance rc_state rc_balance].
  split; [unfold after_unstake, saturating_sub; cbn [total_staked]; lia|split; [|lia]].
  rewrite after_unstake_stakes, R. unfold held. rewrite Hs. cbn. now apply insert_id.
Qed.

(** An airdrop is paid out of the stakes: from an account that holds just the
    stakes, the owner's airdrop leaves more owed than held, and however the
    users then unstake, some stake is never paid. *)
Theorem airdrop_spends_stakes env amount acc calls :
  staking_inv acc -> acc_balance acc = msum (stakes (acc_state acc)) -> 0 < amount ->
  predecessor_account_id env = owner (acc_state acc) -> attached_deposit env = 0 ->
  let n := len (um_iter (stake_balances (acc_state acc))) in
  0 < n -> amount * n <= acc_balance acc ->
  Forall staking_input calls -> Forall (fun ec => exists z, snd ec = CUnstake z) calls ->
  let acc1 := staking_step acc (env, CAirdrop amount) in
  owed acc1 = amount * n /\ 0 < msum (stakes (acc_state (staking_run calls acc1))).
Proof.
  intros I Hb Ha Ho Hd n Hn Hle Fi Fu acc1.
  assert (acc1 = MkAccount (acc_state acc) (acc_balance acc - amount * n)) as E.
  { subst acc1. unfold staking_step, run_receipt, staking_call. cbn [fst snd].
    rewrite call_method_run by (intros; done || discriminate).
    erewrite NM_bind_run. 2:{ unfold airdrop. nm_run. rewrite bool_decide_true by done. nm_run.
      apply airdrop_each_run; cbn; lia. }
    cbn. now rewrite Hd, Z.add_0_r. }
  assert (owed acc1 = amount * n) as O by (rewrite E; unfold owed; cbn; lia).
  split; [done|].
  assert (staking_inv acc1) as I1 by (rewrite E; destruct I; now split).
  assert (0 <= acc_balance acc1) as B1 by (rewrite E; cbn; lia).
  clear E Hb. assert (0 < owed acc1) as P by (rewrite O; nia). clear O. revert I1 B1 P.
  generalize acc1 as a. induction calls as [|[e c] calls IH]; intros a I1 B1 P.
  - unfold owed in P. cbn. lia.
  - apply Forall_cons in Fi as [Hi Fi]. apply Forall_cons in Fu as [[z Hz] Fu]. cbn in Hz. subst c.
    cbn. destruct (step_inv a (e, CUnstake z) I1 B1 Hi) as (I2 & B2 & _).
    apply IH; try done. now rewrite unstake_owed.
Qed.

End staking_props.
