(* ===== verification/NearAssociated.v ===== *)
(** * The associated contract

    [halborn-near-ctf-associated-contract/src/lib.rs] and [storage.rs]: events
    that members of privileged clubs register for.  The collections are keys
    of one key-value store, and a set of registered users is itself a value of
    a collection: what is stored there is only the prefix of its keys.  The
    model keeps the store, its keys and its bytes. *)

From S2P Require Import Prelude Rust Ledger NearSdk.

(** ** Keys *)

(** A number below 10^fuel in decimal, in front of [acc]. *)
Fixpoint decimal_digits (fuel : nat) (z : Z) (acc : bytes) : bytes :=
  match fuel with
  | O => acc
  | S fuel => let acc := zb (48 + z mod 10) :: acc in
              if z <? 10 then acc else decimal_digits fuel (z / 10) acc
  end.

(** [format!("{}", n)] of a [u16]: at most five digits. *)
Definition u16_to_string (n : Z) : bytes := decimal_digits 5 n [].

Inductive StorageKey :=
| PrivilegedClubs
| EventsOnline
| EventToRegisteredUsers
| RegisteredUsers (event_id : Z).

Definition StorageKey_to_string (k : StorageKey) : bytes :=
  match k with
  | PrivilegedClubs => str "priv_clubs"
  | EventsOnline => str "events"
  | EventToRegisteredUsers => str "ev_to_registered"
  | RegisteredUsers event_id => str "event" ++ u16_to_string event_id
  end.

Definition into_bytes (k : StorageKey) : bytes := StorageKey_to_string k.
#[global] Arguments into_bytes : simpl never.

(** ** Data *)

Inductive ContractStatus := Working | Paused.
#[export] Instance ContractStatus_eq_dec : EqDecision ContractStatus.
Proof. solve_decision. Defined.

Definition ContractStatus_fmt (s : ContractStatus) : string :=
  match s with Working => "working" | Paused => "paused" end.

Record Event := MkEvent { created_timestamp : Z; is_live : bool; title : option bytes }.

(** [LookupSet] as it is stored: its prefix. *)
Record LookupSet := MkLookupSet { set_prefix : bytes }.

Record AssociatedContract := MkAssociated {
  privileged_clubs : LookupSet;
  events : bytes;
  event_to_registered_users : bytes;
  assoc_owner_id : AccountId;
  next_event_idx : Z;
  assoc_status : ContractStatus }.

(** The contract's record and the key-value store of its account. *)
Record AssocState := MkAssocState { assoc : AssociatedContract; trie : gmap bytes bytes }.

Section associated.
  Context `{BuildProfile, NearBorsh, Borsh Event, Borsh LookupSet}.

(** ** Collections on the store *)

Definition decode_value {V} `{Borsh V} (raw : bytes) : outcome V :=
  match borsh_try_from_slice raw with
  | Some v => ROk v
  | None => RPanic "Cannot deserialize value with Borsh"
  end.

(** [LookupMap] with keys of 64 bits: [get], [contains_key], [insert] and
    [remove]; the latter two decode the value they replace. *)
Definition lmap_key (prefix : bytes) (k : Z) : bytes := lookup_key prefix (borsh_u64 k).
Definition lmap_get {V} `{Borsh V} (t : gmap bytes bytes) (prefix : bytes) (k : Z) : outcome (option V) :=
  match t !! lmap_key prefix k with
  | None => ROk None
  | Some raw => v ← decode_value raw; ROk (Some v)
  end.
Definition lmap_contains_key (t : gmap bytes bytes) (prefix : bytes) (k : Z) : bool :=
  bool_decide (is_Some (t !! lmap_key prefix k)).
Definition lmap_insert {V} `{Borsh V} (t : gmap bytes bytes) (prefix : bytes) (k : Z) (v : V)
  : outcome (gmap bytes bytes) :=
  _ ← lmap_get (V := V) t prefix k;
  ROk (<[lmap_key prefix k := borsh_to_vec v]> t).
Definition lmap_remove (V : Type) `{Borsh V} (t : gmap bytes bytes) (prefix : bytes) (k : Z)
  : outcome (gmap bytes bytes) :=
  _ ← lmap_get (V := V) t prefix k;
  ROk (delete (lmap_key prefix k) t).

(** [LookupSet] of accounts: an element is a key with an empty value. *)
Definition lset_key (s : LookupSet) (a : AccountId) : bytes := lookup_key (set_prefix s) (borsh_account a).
Definition lset_contains (t : gmap bytes bytes) (s : LookupSet) (a : AccountId) : bool :=
  bool_decide (is_Some (t !! lset_key s a)).
Definition lset_insert (t : gmap bytes bytes) (s : LookupSet) (a : AccountId) : gmap bytes bytes :=
  <[lset_key s a := []]> t.
Definition lset_remove (t : gmap bytes bytes) (s : LookupSet) (a : AccountId) : gmap bytes bytes :=
  delete (lset_key s a) t.

(** ** Methods *)

Abbreviation AcM := (NM AssocState).

Definition set_trie (t : gmap bytes bytes) : AcM unit := s ← this; set_this (MkAssocState (assoc s) t).
Definition set_assoc (c : AssociatedContract) : AcM unit := s ← this; set_this (MkAssocState c (trie s)).

Definition assoc_new (owner_id : AccountId) : AssociatedContract :=
  MkAssociated (MkLookupSet (into_bytes PrivilegedClubs)) (into_bytes EventsOnline)
    (into_bytes EventToRegisteredUsers) owner_id 1 Working.

Definition assoc_only_owner : AcM unit :=
  s ← this;
  signer ← env_of signer_account_id;
  if negb (bool_decide (signer = assoc_owner_id (assoc s)))
  then panic_str "Only owner can call this function" else mret tt.

Definition only_from_privileged_club : AcM unit :=
  s ← this;
  predecessor ← env_of predecessor_account_id;
  if negb (lset_contains (trie s) (privileged_clubs (assoc s)) predecessor)
  then panic_str "Can be called only from a privileged club contract" else mret tt.

Definition get_next_event_idx : AcM Z := s ← this; mret (next_event_idx (assoc s)).

Definition get_event (event_idx : Z) : AcM Event :=
  s ← this;
  e ← of_outcome (lmap_get (trie s) (events (assoc s)) event_idx);
  expect_some "called `Option::unwrap()` on a `None` value" e.

Definition add_new_event (event_title : bytes) : AcM Z :=
  now ← env_of block_timestamp;
  let new_event := MkEvent now true (Some event_title) in
  s ← this;
  t ← of_outcome (lmap_insert (trie s) (events (assoc s)) (next_event_idx (assoc s)) new_event);
  let new_ev_to_registered_users := MkLookupSet (into_bytes (RegisteredUsers (next_event_idx (assoc s)))) in
  t ← of_outcome (lmap_insert t (event_to_registered_users (assoc s)) (next_event_idx (assoc s))
                    new_ev_to_registered_users);
  _ ← set_trie t;
  let created_event_idx := next_event_idx (assoc s) in
  next ← of_outcome (arith 16 (next_event_idx (assoc s) + 1));
  let c := assoc s in
  _ ← set_assoc (MkAssociated (privileged_clubs c) (events c) (event_to_registered_users c)
                   (assoc_owner_id c) next (assoc_status c));
  mret created_event_idx.

Definition remove_event (event_id : Z) : AcM unit :=
  _ ← assoc_only_owner;
  s ← this;
  t ← of_outcome (lmap_remove Event (trie s) (events (assoc s)) event_id);
  t ← of_outcome (lmap_remove LookupSet t (event_to_registered_users (assoc s)) event_id);
  set_trie t.

(** The event that is changed is the one [get] decoded, which is dropped. *)
Definition make_event_offline (event_id : Z) : AcM unit :=
  _ ← assoc_only_owner;
  s ← this;
  e ← of_outcome (lmap_get (trie s) (events (assoc s)) event_id);
  e ← expect_some "called `Option::unwrap()` on a `None` value" e;
  let _dropped := MkEvent (created_timestamp e) false (title e) in
  mret tt.

Definition add_privileged_club (account_id : AccountId) : AcM unit :=
  _ ← assoc_only_owner;
  s ← this;
  set_trie (lset_insert (trie s) (privileged_clubs (assoc s)) account_id).

Definition remove_privileged_club (account_id : AccountId) : AcM unit :=
  _ ← assoc_only_owner;
  s ← this;
  set_trie (lset_remove (trie s) (privileged_clubs (assoc s)) account_id).

Definition register_for_an_event (event_id : Z) (account_id : AccountId) : AcM unit :=
  _ ← only_from_privileged_club;
  s ← this;
  _ ← require (lmap_contains_key (trie s) (events (assoc s)) event_id) "No event with such ID";
  e ← of_outcome (lmap_get (V := Event) (trie s) (events (assoc s)) event_id);
  e ← expect_some "called `Option::unwrap()` on a `None` value" e;
  _ ← require (is_live e) "Event is no longer live";
  users ← of_outcome (lmap_get (V := LookupSet) (trie s) (event_to_registered_users (assoc s)) event_id);
  users ← expect_some "called `Option::unwrap()` on a `None` value" users;
  _ ← set_trie (lset_insert (trie s) users account_id);
  log_line "{} registered for event: {}" [JAccount account_id; JDec event_id].

Definition check_user_registered (event_id : Z) (account_id : AccountId) : AcM bool :=
  s ← this;
  if lmap_contains_key (trie s) (events (assoc s)) event_id then
    users ← of_outcome (lmap_get (V := LookupSet) (trie s) (event_to_registered_users (assoc s)) event_id);
    users ← expect_some "called `Option::unwrap()` on a `None` value" users;
    mret (lset_contains (trie s) users account_id)
  else mret false.

Definition assoc_set_owner (account_id : AccountId) : AcM unit :=
  _ ← assoc_only_owner;
  s ← this;
  let c := assoc s in
  set_assoc (MkAssociated (privileged_clubs c) (events c) (event_to_registered_users c)
               account_id (next_event_idx c) (assoc_status c)).

Definition assoc_set_status (st : ContractStatus) : AcM unit :=
  s ← this;
  let c := assoc s in
  set_assoc (MkAssociated (privileged_clubs c) (events c) (event_to_registered_users c)
               (assoc_owner_id c) (next_event_idx c) st).
Definition assoc_pause : AcM unit := _ ← assoc_only_owner; assoc_set_status Paused.
Definition assoc_resume : AcM unit := _ ← assoc_only_owner; assoc_set_status Working.

End associated.

(** ** Exported methods *)

Inductive AssocCall :=
| AcNextIdx | AcGetEvent (event_idx : Z) | AcAddEvent (event_title : bytes) | AcRemoveEvent (event_id : Z)
| AcMakeOffline (event_id : Z) | AcAddClub (account_id : AccountId) | AcRemoveClub (account_id : AccountId)
| AcRegister (event_id : Z) (account_id : AccountId) | AcCheck (event_id : Z) (account_id : AccountId)
| AcSetOwner (account_id : AccountId) | AcPause | AcResume.

Inductive AssocValue := VUnit | VIdx (n : Z) | VEvent (e : Event) | VBool (b : bool).

Section dispatch.
  Context `{BuildProfile, NearBorsh, Borsh Event, Borsh LookupSet}.

Definition assoc_call (c : AssocCall) : NM AssocState AssocValue :=
  match c with
  | AcNextIdx => call_method MView (n ← get_next_event_idx; mret (VIdx n))
  | AcGetEvent i => call_method MView (e ← get_event i; mret (VEvent e))
  | AcAddEvent t => call_method MCall (n ← add_new_event t; mret (VIdx n))
  | AcRemoveEvent i => call_method MCall (_ ← remove_event i; mret VUnit)
  | AcMakeOffline i => call_method MCall (_ ← make_event_offline i; mret VUnit)
  | AcAddClub a => call_method MCall (_ ← add_privileged_club a; mret VUnit)
  | AcRemoveClub a => call_method MCall (_ ← remove_privileged_club a; mret VUnit)
  | AcRegister i a => call_method MCall (_ ← register_for_an_event i a; mret VUnit)
  | AcCheck i a => call_method MView (b ← check_user_registered i a; mret (VBool b))
  | AcSetOwner a => call_method MCall (_ ← assoc_set_owner a; mret VUnit)
  | AcPause => call_method MCall (_ ← assoc_pause; mret VUnit)
  | AcResume => call_method MCall (_ ← assoc_resume; mret VUnit)
  end.

End dispatch.
