(* ===== verification/NearRegistry.v ===== *)
(** * What the associated contract implements

    The contract of [NearAssociated] on an abstract state: a set of clubs, a
    map of events and a relation of registrations.  The keys of its collections
    never collide, and the contract on its store refines this specification:
    every call has the same outcome and keeps the states related. *)

From S2P Require Import Prelude Rust Ledger NearSdk NearAssociated.

(** ** Specification *)

Record Registry := MkRegistry {
  reg_clubs : gset AccountId;
  reg_events : gmap Z Event;
  (** Registrations by event number; they outlive their event. *)
  reg_users : gset (Z * AccountId);
  reg_owner : AccountId;
  reg_next : Z;
  reg_status : ContractStatus }.

Definition reg_new (owner_id : AccountId) : Registry := MkRegistry ∅ ∅ ∅ owner_id 1 Working.

Section spec.
  Context `{BuildProfile}.

Definition as_owner (f : Registry -> Registry) : NM Registry AssocValue :=
  s ← this;
  signer ← env_of signer_account_id;
  _ ← require (bool_decide (signer = reg_owner s)) "Only owner can call this function";
  _ ← set_this (f s);
  mret VUnit.

Definition reg_set_clubs (g : gset AccountId -> gset AccountId) (s : Registry) : Registry :=
  MkRegistry (g (reg_clubs s)) (reg_events s) (reg_users s) (reg_owner s) (reg_next s) (reg_status s).
Definition reg_drop_event (i : Z) (s : Registry) : Registry :=
  MkRegistry (reg_clubs s) (delete i (reg_events s)) (reg_users s) (reg_owner s) (reg_next s) (reg_status s).
Definition reg_set_owner (a : AccountId) (s : Registry) : Registry :=
  MkRegistry (reg_clubs s) (reg_events s) (reg_users s) a (reg_next s) (reg_status s).
Definition reg_set_status (st : ContractStatus) (s : Registry) : Registry :=
  MkRegistry (reg_clubs s) (reg_events s) (reg_users s) (reg_owner s) (reg_next s) st.
Definition reg_add_event (e : Event) (next : Z) (s : Registry) : Registry :=
  MkRegistry (reg_clubs s) (<[reg_next s := e]> (reg_events s)) (reg_users s) (reg_owner s) next (reg_status s).
Definition reg_add_user (i : Z) (a : AccountId) (s : Registry) : Registry :=
  MkRegistry (reg_clubs s) (reg_events s) ({[(i, a)]} ∪ reg_users s) (reg_owner s) (reg_next s) (reg_status s).

Definition unwrap_none : string := "called `Option::unwrap()` on a `None` value".

Definition spec_method (c : AssocCall) : NM Registry AssocValue :=
  match c with
  | AcNextIdx => s ← this; mret (VIdx (reg_next s))
  | AcGetEvent i => s ← this; e ← expect_some unwrap_none (reg_events s !! i); mret (VEvent e)
  | AcAddEvent t =>
      now ← env_of block_timestamp;
      s ← this;
      next ← of_outcome (arith 16 (reg_next s + 1));
      _ ← set_this (reg_add_event (MkEvent now true (Some t)) next s);
      mret (VIdx (reg_next s))
  | AcRemoveEvent i => as_owner (reg_drop_event i)
  | AcMakeOffline i =>
      s ← this;
      signer ← env_of signer_account_id;
      _ ← require (bool_decide (signer = reg_owner s)) "Only owner can call this function";
      _ ← expect_some unwrap_none (reg_events s !! i);
      mret VUnit
  | AcAddClub a => as_owner (reg_set_clubs (fun g => {[a]} ∪ g))
  | AcRemoveClub a => as_owner (reg_set_clubs (fun g => g ∖ {[a]}))
  | AcRegister i a =>
      s ← this;
      predecessor ← env_of predecessor_account_id;
      _ ← require (bool_decide (predecessor ∈ reg_clubs s)) "Can be called only from a privileged club contract";
      e ← expect_some "No event with such ID" (reg_events s !! i);
      _ ← require (is_live e) "Event is no longer live";
      _ ← set_this (reg_add_user i a s);
      _ ← log_line "{} registered for event: {}" [JAccount a; JDec i];
      mret VUnit
  | AcCheck i a =>
      s ← this;
      mret (VBool (bool_decide (is_Some (reg_events s !! i)) && bool_decide ((i, a) ∈ reg_users s)))
  | AcSetOwner a => as_owner (reg_set_owner a)
  | AcPause => as_owner (reg_set_status Paused)
  | AcResume => as_owner (reg_set_status Working)
  end.

Definition call_kind (c : AssocCall) : MethodKind :=
  match c with AcNextIdx | AcGetEvent _ | AcCheck _ _ => MView | _ => MCall end.

Definition spec_call (c : AssocCall) : NM Registry AssocValue := call_method (call_kind c) (spec_method c).

End spec.

(** ** Keys *)

(** What the store holds an entry for. *)
Inductive entry :=
| EClub (a : AccountId) | EEvent (n : Z) | EHandle (n : Z) | EUser (n : Z) (a : AccountId).

#[export] Instance entry_eq_dec : EqDecision entry.
Proof. solve_decision. Defined.

(** Account ids have at most 64 bytes. *)
Definition valid_account (a : AccountId) : Prop := len a <= 64.

Definition valid_entry (e : entry) : Prop :=
  match e with
  | EClub a => valid_account a
  | EEvent n | EHandle n => uint 64 n
  | EUser n a => uint 16 n /\ valid_account a
  end.

(** The set of the users of an event. *)
Definition users_of (n : Z) : LookupSet := MkLookupSet (into_bytes (RegisteredUsers n)).

Definition entry_key `{NearBorsh} (e : entry) : bytes :=
  match e with
  | EClub a => lset_key (MkLookupSet (into_bytes PrivilegedClubs)) a
  | EEvent n => lmap_key (into_bytes EventsOnline) n
  | EHandle n => lmap_key (into_bytes EventToRegisteredUsers) n
  | EUser n a => lset_key (users_of n) a
  end.

Definition is_digit (b : byte) : Prop := 48 <= bz b <= 57.

Lemma decimal_digits_digits fuel z acc : Forall is_digit acc -> Forall is_digit (decimal_digits fuel z acc).
Proof.
  revert z acc. induction fuel as [|f IH]; intros z acc Ha; [done|]. cbn.
  assert (is_digit (zb (48 + z mod 10))).
  { unfold is_digit. pose proof (Z.mod_pos_bound z 10). rewrite bz_zb_small by lia. lia. }
  case_bool; [now constructor|]. apply IH. now constructor.
Qed.

(** Reading the digits back. *)
Definition dec_value (l : bytes) : Z := foldl (fun v b => v * 10 + (bz b - 48)) 0 l.

Lemma dec_value_digits fuel z acc : 0 <= z < 10 ^ Z.of_nat fuel -> (0 < fuel)%nat ->
  dec_value (decimal_digits fuel z acc) = foldl (fun v b => v * 10 + (bz b - 48)) z acc.
Proof.
  unfold dec_value. revert z acc. induction fuel as [|f IH]; intros z acc Hz Hf; [lia|]. cbn [decimal_digits].
  assert (bz (zb (48 + z mod 10)) - 48 = z mod 10) as Hd.
  { pose proof (Z.mod_pos_bound z 10). rewrite bz_zb_small by lia. lia. }
  case_bool; zify_bools.
  - cbn. rewrite Hd, Z.mod_small by lia. f_equal.
  - destruct f as [|f']; [change (10 ^ Z.of_nat 1) with 10 in Hz; lia|].
    rewrite Nat2Z.inj_succ, Z.pow_succ_r in Hz by lia.
    rewrite IH; [|split; [apply Z.div_pos; lia|apply Z.div_lt_upper_bound; lia]|lia].
    cbn [foldl]. rewrite Hd. f_equal. pose proof (Z.div_mod z 10). lia.
Qed.

Lemma u16_to_string_inj a b : uint 16 a -> uint 16 b -> u16_to_string a = u16_to_string b -> a = b.
Proof.
  intros [? ?] [? ?] E. apply (f_equal dec_value) in E. unfold u16_to_string in E.
  rewrite !dec_value_digits in E by (cbn; lia). done.
Qed.

Lemma u16_digits n : Forall is_digit (u16_to_string n).
Proof. now apply decimal_digits_digits. Qed.

Lemma u16_nonempty n : exists b l, u16_to_string n = b :: l /\ is_digit b.
Proof.
  assert (forall fuel z acc, acc <> [] -> decimal_digits fuel z acc <> []) as N.
  { induction fuel as [|f IH]; intros z acc Ha; cbn; [done|]. case_bool; [done|]. now apply IH. }
  pose proof (u16_digits n) as D. destruct (u16_to_string n) as [|b l] eqn:E.
  - exfalso. revert E. change (u16_to_string n) with
      (if n <? 10 then [zb (48 + n mod 10)] else decimal_digits 4 (n / 10) [zb (48 + n mod 10)]).
    case_bool; [done|]. now apply N.
  - exists b, l. split; [done|]. now inversion D.
Qed.

(** An encoded account never continues a decimal number: its first byte is its
    length and its second byte zero. *)
Lemma account_after_digits (k a b : bytes) : Forall is_digit k -> valid_account a -> valid_account b ->
  le 4 (len a) ++ a = k ++ le 4 (len b) ++ b -> k = [].
Proof.
  unfold valid_account. pose proof (len_nonneg a). pose proof (len_nonneg b).
  intros D Va Vb E. destruct k as [|d ds]; [done|exfalso].
  apply Forall_cons in D as [Hd D]. unfold is_digit in *. cbn in E.
  rewrite !(Z.div_small (len a)), !(Z.div_small (len b)), !Z.div_0_l in E by lia.
  injection E as E1 E. subst d. rewrite bz_zb_small in Hd by lia.
  destruct ds as [|d ds].
  - cbn in E. injection E as E2 E. apply (f_equal bz) in E2. rewrite !bz_zb_small in E2 by lia.
    apply (f_equal len) in E. cbn in E. rewrite !len_cons in E. lia.
  - cbn in E. injection E as E2 E. subst d. apply Forall_cons in D as [D _].
    rewrite bz_zb_small in D by lia. lia.
Qed.

Lemma user_key_inj i j a b : uint 16 i -> uint 16 j -> valid_account a -> valid_account b ->
  u16_to_string i ++ le 4 (len a) ++ a = u16_to_string j ++ le 4 (len b) ++ b -> i = j /\ a = b.
Proof.
  intros Hi Hj Va Vb E. pose proof (u16_digits i) as Di. pose proof (u16_digits j) as Dj.
  assert (u16_to_string i = u16_to_string j) as Eij.
  { destruct (List.app_eq_app _ _ _ _ E) as (k & [[Ek Er]|[Ek Er]]); rewrite Ek in *;
      (apply account_after_digits in Er; [|now apply Forall_app in Di as [_ ?] || now apply Forall_app in Dj as [_ ?]|done..]);
      subst k; now rewrite app_nil_r. }
  split; [now apply u16_to_string_inj|]. rewrite Eij in E. apply app_inv_head in E.
  now apply app_inj_1 in E as [_ ?]; [|rewrite !le_length].
Qed.

Section refinement.
  Context `{BuildProfile, NearBorshOk, Borsh Event, Borsh LookupSet}.

Lemma lset_key_eq p a : valid_account a -> lset_key (MkLookupSet p) a = p ++ le 4 (len a) ++ a.
Proof.
  unfold valid_account. pose proof (len_nonneg a). intros Va. unfold lset_key. cbn [set_prefix].
  rewrite lookup_key_ok, borsh_account_ok by (split; lia). done.
Qed.

Lemma lmap_key_eq p n : uint 64 n -> lmap_key p n = p ++ le 8 n.
Proof. intros Hn. unfold lmap_key. rewrite lookup_key_ok, borsh_u64_ok by done. done. Qed.

Lemma le8_inj n m : uint 64 n -> uint 64 m -> le 8 n = le 8 m -> n = m.
Proof. intros Hn Hm. apply le_inj; [exact Hn|exact Hm]. Qed.

(** The key of an entry after its first bytes are compared. *)
Lemma entry_key_inj x y : valid_entry x -> valid_entry y -> entry_key x = entry_key y -> x = y.
Proof.
  assert (forall n b l, u16_to_string n = b :: l -> b <> x73) as S.
  { intros n b l E ->. pose proof (u16_digits n) as D. rewrite E in D. inversion D as [|? ? Hd].
    unfold is_digit in Hd. change (bz x73) with 115 in Hd. lia. }
  destruct x as [a|n|n|n a], y as [b|m|m|m b]; cbn [valid_entry entry_key]; intros Vx Vy E;
    repeat match goal with V : uint 16 _ /\ valid_account _ |- _ => destruct V end;
    unfold users_of in E; rewrite ?lset_key_eq, ?lmap_key_eq in E by done; try discriminate E.
  - apply app_inv_head in E. apply app_inj_1 in E as [_ ->]; [done|]. now rewrite !le_length.
  - apply app_inv_head in E. f_equal. now apply le8_inj.
  - destruct (u16_nonempty m) as (c & l & Em & _). unfold into_bytes, StorageKey_to_string in E. rewrite Em in E.
    specialize (S m c l Em). cbn in E. congruence.
  - apply app_inv_head in E. f_equal. now apply le8_inj.
  - destruct (u16_nonempty n) as (c & l & En & _). unfold into_bytes, StorageKey_to_string in E. rewrite En in E.
    specialize (S n c l En). cbn in E. congruence.
  - unfold into_bytes, StorageKey_to_string in E.
    rewrite <-!app_assoc in E. apply app_inv_head in E. apply user_key_inj in E as [-> ->]; done.
Qed.

(** ** The store represents the registry *)

(** Lengths are 32-bit numbers in borsh. *)
Definition Event_wf (e : Event) : Prop :=
  uint 64 (created_timestamp e) /\ match title e with Some t => uint 32 (len t) | None => True end.
Definition LookupSet_wf (s : LookupSet) : Prop := uint 32 (len (set_prefix s)).

Context `{!BorshOk Event Event_wf, !BorshOk LookupSet LookupSet_wf}.

Definition content (g : Registry) (x : entry) : option bytes :=
  match x with
  | EClub a => if decide (a ∈ reg_clubs g) then Some [] else None
  | EEvent n => borsh_to_vec <$> reg_events g !! n
  | EHandle n => (fun _ => borsh_to_vec (users_of n)) <$> reg_events g !! n
  | EUser n a => if decide ((n, a) ∈ reg_users g) then Some [] else None
  end.

Definition assoc_of (g : Registry) : AssociatedContract :=
  MkAssociated (MkLookupSet (into_bytes PrivilegedClubs)) (into_bytes EventsOnline)
    (into_bytes EventToRegisteredUsers) (reg_owner g) (reg_next g) (reg_status g).

Record represents (s : AssocState) (g : Registry) : Prop := {
  rep_self : assoc s = assoc_of g;
  rep_trie x : valid_entry x -> trie s !! entry_key x = content g x;
  rep_next : uint 16 (reg_next g);
  rep_events n e : reg_events g !! n = Some e -> uint 16 n /\ Event_wf e }.

(** Read an entry of a represented store. *)
Ltac read_entry R x V :=
  let T := fresh "T" in pose proof (rep_trie _ _ R x V) as T; cbn [entry_key content] in T; rewrite T; clear T.

Lemma uint_16_64 n : uint 16 n -> uint 64 n.
Proof. unfold uint. lia. Qed.

Lemma users_of_wf n : LookupSet_wf (users_of n).
Proof.
  assert (forall f z acc, len (decimal_digits f z acc) <= Z.of_nat f + len acc) as L.
  { induction f as [|f IH]; intros z acc; [cbn; lia|]. cbn [decimal_digits].
    rewrite Nat2Z.inj_succ. pose proof (len_nonneg acc). case_bool; [rewrite len_cons; lia|].
    etransitivity; [apply IH|]. rewrite len_cons. lia. }
  unfold LookupSet_wf, users_of. cbn [set_prefix]. unfold into_bytes, StorageKey_to_string, u16_to_string.
  rewrite len_app. specialize (L 5%nat n []). rewrite len_nil in L.
  change (len (str "event")) with 5. pose proof (len_nonneg (decimal_digits 5 n [])). split; lia.
Qed.

Lemma rep_get_event s g i : represents s g -> uint 64 i ->
  lmap_get (V := Event) (trie s) (into_bytes EventsOnline) i = ROk (reg_events g !! i).
Proof.
  intros R Hi. unfold lmap_get. read_entry R (EEvent i) Hi.
  destruct (reg_events g !! i) as [e|] eqn:E; [|done]. cbn. unfold decode_value.
  rewrite borsh_roundtrip by apply (rep_events _ _ R _ _ E). done.
Qed.

Lemma rep_contains s g i : represents s g -> uint 64 i ->
  lmap_contains_key (trie s) (into_bytes EventsOnline) i = bool_decide (is_Some (reg_events g !! i)).
Proof.
  intros R Hi. unfold lmap_contains_key. read_entry R (EEvent i) Hi.
  apply bool_decide_ext. now rewrite fmap_is_Some.
Qed.

Lemma rep_get_users s g i : represents s g -> uint 64 i ->
  lmap_get (V := LookupSet) (trie s) (into_bytes EventToRegisteredUsers) i =
  ROk ((fun _ => users_of i) <$> reg_events g !! i).
Proof.
  intros R Hi. unfold lmap_get. read_entry R (EHandle i) Hi.
  destruct (reg_events g !! i) as [e|] eqn:E; [|done]. cbn. unfold decode_value.
  rewrite borsh_roundtrip by apply users_of_wf. done.
Qed.

Lemma rep_club s g a : represents s g -> valid_account a ->
  lset_contains (trie s) (MkLookupSet (into_bytes PrivilegedClubs)) a = bool_decide (a ∈ reg_clubs g).
Proof.
  intros R Ha. unfold lset_contains. read_entry R (EClub a) Ha.
  apply bool_decide_ext. case_decide; split; try done; now intros [? ?].
Qed.

Lemma rep_user s g i a : represents s g -> uint 16 i -> valid_account a ->
  lset_contains (trie s) (users_of i) a = bool_decide ((i, a) ∈ reg_users g).
Proof.
  intros R Hi Ha. unfold lset_contains. read_entry R (EUser i a) (conj Hi Ha).
  apply bool_decide_ext. case_decide; split; try done; now intros [? ?].
Qed.

(** ** Updates *)

Lemma trie_insert (t : gmap bytes bytes) (f f' : entry -> option bytes) x v :
  (forall y, valid_entry y -> t !! entry_key y = f y) -> valid_entry x ->
  f' x = Some v -> (forall y, valid_entry y -> y <> x -> f' y = f y) ->
  forall y, valid_entry y -> <[entry_key x := v]> t !! entry_key y = f' y.
Proof.
  intros T Hx E1 E2 y Hy. destruct (decide (y = x)) as [->|N].
  - now rewrite lookup_insert_eq.
  - rewrite lookup_insert_ne by (intros E; apply N; symmetry; now apply entry_key_inj). now rewrite T, E2.
Qed.

Lemma trie_delete (t : gmap bytes bytes) (f f' : entry -> option bytes) x :
  (forall y, valid_entry y -> t !! entry_key y = f y) -> valid_entry x ->
  f' x = None -> (forall y, valid_entry y -> y <> x -> f' y = f y) ->
  forall y, valid_entry y -> delete (entry_key x) t !! entry_key y = f' y.
Proof.
  intros T Hx E1 E2 y Hy. destruct (decide (y = x)) as [->|N].
  - now rewrite lookup_delete_eq.
  - rewrite lookup_delete_ne by (intros E; apply N; symmetry; now apply entry_key_inj). now rewrite T, E2.
Qed.

Lemma rep_add_club s g a : represents s g -> valid_account a ->
  represents (MkAssocState (assoc s) (lset_insert (trie s) (MkLookupSet (into_bytes PrivilegedClubs)) a))
    (reg_set_clubs (fun c => {[a]} ∪ c) g).
Proof.
  intros [R1 R2 R3 R4] Ha. split; try done. intros x. cbn [trie]. unfold lset_insert.
  apply (trie_insert (trie s) (content g) _ (EClub a)); [done|done| |].
  - cbn. now rewrite decide_True by (clear; set_solver).
  - intros [b|n|n|n b] _ N; cbn; try done. apply decide_ext. clear -N. set_solver.
Qed.

Lemma rep_remove_club s g a : represents s g -> valid_account a ->
  represents (MkAssocState (assoc s) (lset_remove (trie s) (MkLookupSet (into_bytes PrivilegedClubs)) a))
    (reg_set_clubs (fun c => c ∖ {[a]}) g).
Proof.
  intros [R1 R2 R3 R4] Ha. split; try done. intros x. cbn [trie]. unfold lset_remove.
  apply (trie_delete (trie s) (content g) _ (EClub a)); [done|done| |].
  - cbn. now rewrite decide_False by (clear; set_solver).
  - intros [b|n|n|n b] _ N; cbn; try done. apply decide_ext. clear -N. set_solver.
Qed.

Lemma rep_add_user s g i a : represents s g -> uint 16 i -> valid_account a ->
  represents (MkAssocState (assoc s) (lset_insert (trie s) (users_of i) a)) (reg_add_user i a g).
Proof.
  intros [R1 R2 R3 R4] Hi Ha. split; try done. intros x. cbn [trie]. unfold lset_insert.
  apply (trie_insert (trie s) (content g) _ (EUser i a)); [done|done| |].
  - cbn. now rewrite decide_True by (clear; set_solver).
  - intros [b|n|n|n b] _ N; cbn; try done. apply decide_ext. clear -N. set_solver.
Qed.

Lemma rep_remove_event s g i : represents s g -> uint 64 i ->
  represents (MkAssocState (assoc s)
    (delete (lmap_key (into_bytes EventToRegisteredUsers) i) (delete (lmap_key (into_bytes EventsOnline) i) (trie s))))
    (reg_drop_event i g).
Proof.
  intros [R1 R2 R3 R4] Hi. split; try done; [intros x; cbn [trie]|intros n e; cbn].
  - set (f := fun y => if decide (y = EEvent i) then None else content g y).
    apply (trie_delete _ f _ (EHandle i)); [|done|cbn; now rewrite lookup_delete_eq|].
    + apply (trie_delete _ (content g) f (EEvent i)); [done|done| |]; unfold f; intros; case_decide; done.
    + intros [b|n|n|n b] _ N; unfold f; cbn; try done.
      * case_decide as D; [injection D as ->; now rewrite lookup_delete_eq|].
        rewrite lookup_delete_ne; [done|congruence].
      * rewrite lookup_delete_ne; [done|congruence].
  - intros [_ ?]%lookup_delete_Some. eauto.
Qed.

Lemma rep_add_event s g e next : represents s g -> uint 16 next -> Event_wf e ->
  represents (MkAssocState (assoc_of (reg_add_event e next g))
    (<[lmap_key (into_bytes EventToRegisteredUsers) (reg_next g) := borsh_to_vec (users_of (reg_next g))]>
      (<[lmap_key (into_bytes EventsOnline) (reg_next g) := borsh_to_vec e]> (trie s))))
    (reg_add_event e next g).
Proof.
  intros [R1 R2 R3 R4] Hn We. pose proof (uint_16_64 _ R3) as H64.
  split; try done; [intros x; cbn [trie]|intros n e'; cbn].
  - set (f := fun y => if decide (y = EEvent (reg_next g)) then Some (borsh_to_vec e) else content g y).
    apply (trie_insert _ f _ (EHandle (reg_next g))); [|done|cbn; now rewrite lookup_insert_eq|].
    + apply (trie_insert _ (content g) f (EEvent (reg_next g))); [done|done| |]; unfold f; intros; case_decide; done.
    + intros [b|n|n|n b] _ N; unfold f; cbn; try done.
      * case_decide as D; [injection D as ->; now rewrite lookup_insert_eq|].
        rewrite lookup_insert_ne; [done|congruence].
      * rewrite lookup_insert_ne; [done|congruence].
  - intros [[<- <-]|[_ ?]]%lookup_insert_Some; eauto.
Qed.

Lemma rep_self_only s g f :
  represents s g -> reg_clubs (f g) = reg_clubs g -> reg_events (f g) = reg_events g ->
  reg_users (f g) = reg_users g -> reg_next (f g) = reg_next g ->
  represents (MkAssocState (assoc_of (f g)) (trie s)) (f g).
Proof.
  intros [R1 R2 R3 R4] E1 E2 E3 E4. split; [done| |now rewrite E4|now rewrite E2].
  intros x Hx. cbn. rewrite R2 by done. destruct x; cbn; now rewrite ?E1, ?E2, ?E3.
Qed.

(** ** Simulation *)

Definition related {A} (o : outcome (A * Receipt AssocState)) (o' : outcome (A * Receipt Registry)) : Prop :=
  match o, o' with
  | ROk (v, r), ROk (v', r') => v = v' /\ represents (rc_state r) (rc_state r') /\
      rc_balance r = rc_balance r' /\ rc_promises r = rc_promises r' /\ rc_logs r = rc_logs r'
  | RPanic why, RPanic why' => why = why'
  | _, _ => False
  end.

(** What the platform guarantees about a call. *)
Definition valid_call (env : Env) (c : AssocCall) : Prop :=
  valid_account (predecessor_account_id env) /\ uint 64 (block_timestamp env) /\
  match c with
  | AcAddEvent t => uint 32 (len t)
  | AcGetEvent i | AcRemoveEvent i | AcMakeOffline i => uint 64 i
  | AcRegister i a | AcCheck i a => uint 64 i /\ valid_account a
  | AcAddClub a | AcRemoveClub a | AcSetOwner a => valid_account a
  | _ => True
  end.

Lemma call_method_related {A} kind (m : NM AssocState A) (m' : NM Registry A) env r r' :
  related (m env r) (m' env r') -> related (call_method kind m env r) (call_method kind m' env r').
Proof.
  intros E. unfold call_method. nm_run.
  destruct kind; cbn; try (destruct (bool_decide _); cbn); try (destruct (attached_deposit env =? 0); cbn); done.
Qed.

Section methods.
  Context (env : Env) (t : gmap bytes bytes) (g : Registry) (b : Z) (p : list Promise) (l : list LogLine).
  Context (R : represents (MkAssocState (assoc_of g) t) g).
Local Abbreviation c := (MkReceipt (MkAssocState (assoc_of g) t) b p l).
Local Abbreviation a := (MkReceipt g b p l).
Local Ltac run := unfold spec_method, as_owner, assoc_only_owner, set_trie, set_assoc, of_outcome; nm_run.
Local Ltac owner := destruct (bool_decide (signer_account_id _ = _)); nm_run; [|done].

Let get_ev i (Hi : uint 64 i) : lmap_get t (into_bytes EventsOnline) i = ROk (reg_events g !! i) :=
  rep_get_event _ _ i R Hi.
Let get_us i (Hi : uint 64 i) : lmap_get t (into_bytes EventToRegisteredUsers) i =
  ROk ((fun _ => users_of i) <$> reg_events g !! i) := rep_get_users _ _ i R Hi.
Let has_ev i (Hi : uint 64 i) : lmap_contains_key t (into_bytes EventsOnline) i =
  bool_decide (is_Some (reg_events g !! i)) := rep_contains _ _ i R Hi.
Let has_club x (Hx : valid_account x) : lset_contains t (MkLookupSet (into_bytes PrivilegedClubs)) x =
  bool_decide (x ∈ reg_clubs g) := rep_club _ _ x R Hx.

Lemma get_event_related i : uint 64 i ->
  related ((e ← get_event i; mret (VEvent e)) env c) (spec_method (AcGetEvent i) env a).
Proof.
  intros Hi. unfold get_event. run. rewrite (get_ev _ Hi).
  destruct (reg_events g !! i); nm_run; done.
Qed.

Lemma add_event_related ti : uint 64 (block_timestamp env) -> uint 32 (len ti) ->
  related ((n ← add_new_event ti; mret (VIdx n)) env c) (spec_method (AcAddEvent ti) env a).
Proof.
  intros Ht Hl. pose proof (uint_16_64 _ (rep_next _ _ R)) as H64.
  unfold add_new_event. run. unfold lmap_insert at 1. rewrite (get_ev _ H64). cbn.
  assert (forall v, lmap_get (V := LookupSet) (<[lmap_key (into_bytes EventsOnline) (reg_next g) := v]> t)
            (into_bytes EventToRegisteredUsers) (reg_next g) =
          lmap_get (V := LookupSet) t (into_bytes EventToRegisteredUsers) (reg_next g)) as F.
  { intros v. unfold lmap_get. rewrite lookup_insert_ne; [done|].
    intros E. by apply (entry_key_inj (EEvent (reg_next g)) (EHandle (reg_next g))) in E. }
  unfold lmap_insert. rewrite F, (get_us _ H64). cbn.
  destruct (arith 16 (reg_next g + 1)) as [next|[]|w] eqn:A; cbn; [|done].
  split; [done|]. split; [|done]. apply (rep_add_event (MkAssocState (assoc_of g) t)); [done| |split; done].
  now apply arith_range in A.
Qed.

Lemma remove_event_related i : uint 64 i ->
  related ((_ ← remove_event i; mret VUnit) env c) (spec_method (AcRemoveEvent i) env a).
Proof.
  intros Hi. unfold remove_event. run. owner. unfold lmap_remove at 1. rewrite (get_ev _ Hi). cbn.
  assert (lmap_get (V := LookupSet) (delete (lmap_key (into_bytes EventsOnline) i) t) (into_bytes EventToRegisteredUsers) i =
          lmap_get (V := LookupSet) t (into_bytes EventToRegisteredUsers) i) as F.
  { unfold lmap_get. rewrite lookup_delete_ne; [done|].
    intros E. by apply (entry_key_inj (EEvent i) (EHandle i)) in E. }
  unfold lmap_remove. rewrite F, (get_us _ Hi). cbn.
  split; [done|]. split; [|done]. now apply (rep_remove_event (MkAssocState (assoc_of g) t)).
Qed.

Lemma offline_related i : uint 64 i ->
  related ((_ ← make_event_offline i; mret VUnit) env c) (spec_method (AcMakeOffline i) env a).
Proof.
  intros Hi. unfold make_event_offline. run. owner. rewrite (get_ev _ Hi).
  destruct (reg_events g !! i); nm_run; done.
Qed.

Lemma register_related i x : uint 64 i -> valid_account x -> valid_account (predecessor_account_id env) ->
  related ((_ ← register_for_an_event i x; mret VUnit) env c) (spec_method (AcRegister i x) env a).
Proof.
  intros Hi Hx Hp. unfold register_for_an_event, only_from_privileged_club. run.
  rewrite (has_club _ Hp). destruct (bool_decide (_ ∈ _)); nm_run; [|done].
  rewrite (has_ev _ Hi), (get_ev _ Hi), (get_us _ Hi).
  destruct (reg_events g !! i) as [e|] eqn:E; nm_run; [|done].
  destruct (is_live e); nm_run; [|done]. split; [done|]. split; [|done].
  apply (rep_add_user (MkAssocState (assoc_of g) t)); [done|now apply (rep_events _ _ R _ _ E)|done].
Qed.

Lemma check_related i x : uint 64 i -> valid_account x ->
  related ((v ← check_user_registered i x; mret (VBool v)) env c) (spec_method (AcCheck i x) env a).
Proof.
  intros Hi Hx. unfold check_user_registered. run.
  rewrite (has_ev _ Hi). destruct (reg_events g !! i) as [e|] eqn:E; cbn; [|done].
  rewrite (get_us _ Hi), E. cbn. split; [|done].
  pose proof (rep_events _ _ R _ _ E) as [Hi16 _]. now rewrite <-(rep_user _ _ i x R Hi16 Hx).
Qed.

Lemma method_related ca : valid_call env ca -> related (assoc_call ca env c) (spec_call ca env a).
Proof.
  intros (Hp & Ht & Hc). unfold assoc_call, spec_call. destruct ca; apply call_method_related.
  - run. done.
  - now apply get_event_related.
  - now apply add_event_related.
  - now apply remove_event_related.
  - now apply offline_related.
  - unfold add_privileged_club. run. owner. split; [done|]. split; [|done].
    now apply (rep_add_club (MkAssocState (assoc_of g) t)).
  - unfold remove_privileged_club. run. owner. split; [done|]. split; [|done].
    now apply (rep_remove_club (MkAssocState (assoc_of g) t)).
  - destruct Hc. now apply register_related.
  - destruct Hc. now apply check_related.
  - unfold assoc_set_owner. run. owner. split; [done|]. split; [|done].
    now apply (rep_self_only (MkAssocState (assoc_of g) t) g (reg_set_owner _)).
  - unfold assoc_pause, assoc_set_status. run. owner. split; [done|]. split; [|done].
    now apply (rep_self_only (MkAssocState (assoc_of g) t) g (reg_set_status _)).
  - unfold assoc_resume, assoc_set_status. run. owner. split; [done|]. split; [|done].
    now apply (rep_self_only (MkAssocState (assoc_of g) t) g (reg_set_status _)).
Qed.

End methods.

Lemma receipt_related ca env acc acc' : valid_call env ca ->
  represents (acc_state acc) (acc_state acc') -> acc_balance acc = acc_balance acc' ->
  let '(o, acc1) := run_receipt (assoc_call ca) env acc in
  let '(o', acc1') := run_receipt (spec_call ca) env acc' in
  o = o' /\ represents (acc_state acc1) (acc_state acc1') /\ acc_balance acc1 = acc_balance acc1'.
Proof.
  intros V R Hb. destruct acc as [[c t] b], acc' as [g b']. cbn in R, Hb. subst b'.
  pose proof (rep_self _ _ R) as E. cbn in E. subst c.
  pose proof (method_related env t g (b + attached_deposit env) [] [] R ca V) as Rel.
  unfold run_receipt. cbn [acc_state acc_balance]. unfold related in Rel.
  destruct (assoc_call ca env _) as [[v r]|[]|w], (spec_call ca env _) as [[v' r']|[]|w']; try done.
  - destruct Rel as (-> & ? & ? & -> & ->). done.
  - now subst.
Qed.

(** A fresh contract represents the empty registry. *)
Lemma new_represents owner_id : represents (MkAssocState (assoc_new owner_id) ∅) (reg_new owner_id).
Proof. split; [done| |split; cbn; lia|done]. intros [] _; cbn; rewrite lookup_empty; done. Qed.

Lemma run_related calls acc acc' : Forall (fun ec => valid_call ec.1 ec.2) calls ->
  represents (acc_state acc) (acc_state acc') -> acc_balance acc = acc_balance acc' ->
  fst (run_calls assoc_call calls acc) = fst (run_calls spec_call calls acc') /\
  represents (acc_state (snd (run_calls assoc_call calls acc))) (acc_state (snd (run_calls spec_call calls acc'))) /\
  acc_balance (snd (run_calls assoc_call calls acc)) = acc_balance (snd (run_calls spec_call calls acc')).
Proof.
  revert acc acc'. induction calls as [|[env ca] calls IH]; intros acc acc' F R Hb; [done|].
  apply Forall_cons in F as [V F]. cbn. pose proof (receipt_related ca env acc acc' V R Hb) as S.
  destruct (run_receipt (assoc_call ca) env acc) as [o acc1], (run_receipt (spec_call ca) env acc') as [o' acc1'].
  destruct S as (-> & R1 & B1). destruct (IH acc1 acc1' F R1 B1) as (Eo & R2 & B2).
  destruct (run_calls assoc_call calls acc1), (run_calls spec_call calls acc1'). cbn in *. now subst.
Qed.

(** C4: The associated contract, with its collections on one key-value store,
    refines the registry: any calls get the same answers, panics included. *)
Theorem associated_refines owner_id b calls :
  Forall (fun ec => valid_call ec.1 ec.2) calls ->
  let impl := run_calls assoc_call calls (MkAccount (MkAssocState (assoc_new owner_id) ∅) b) in
  let spec := run_calls spec_call calls (MkAccount (reg_new owner_id) b) in
  fst impl = fst spec /\ represents (acc_state (snd impl)) (acc_state (snd spec)).
Proof.
  intros F. cbn zeta.
  destruct (run_related calls (MkAccount (MkAssocState (assoc_new owner_id) ∅) b)
              (MkAccount (reg_new owner_id) b) F (new_represents _) eq_refl) as (? & ? & _). done.
Qed.

End refinement.

(** ** Events and registrations: what holds of the associated contract

    Statements about runs of the contract, proved on its specification and
    carried over by the refinement of [NearRegistry]. *)

Section registry_props.
  Context `{BuildProfile}.
  Implicit Types (g : Registry) (acc : Account Registry).

Definition spec_step (acc : Account Registry) (ec : Env * AssocCall) : Account Registry :=
  snd (run_receipt (spec_call ec.2) ec.1 acc).
Definition spec_run (calls : list (Env * AssocCall)) (acc : Account Registry) : Account Registry :=
  foldl spec_step acc calls.

Lemma run_calls_state calls acc : snd (run_calls spec_call calls acc) = spec_run calls acc.
Proof.
  revert acc. induction calls as [|[env c] calls IH]; intros acc; [done|]. cbn.
  destruct (run_receipt (spec_call c) env acc) as [o acc1] eqn:E.
  specialize (IH acc1). destruct (run_calls spec_call calls acc1) as [os acc2]. cbn in *. rewrite IH.
  unfold spec_step. cbn. now rewrite E.
Qed.

(** How a call changes the registry. *)
Inductive reg_change (env : Env) (g : Registry) : AssocCall -> Registry -> Prop :=
| RcSame c : reg_change env g c g
| RcAdd t next : arith (E := Empty_set) 16 (reg_next g + 1) = ROk next ->
    reg_change env g (AcAddEvent t) (reg_add_event (MkEvent (block_timestamp env) true (Some t)) next g)
| RcRegister i a e : predecessor_account_id env ∈ reg_clubs g -> reg_events g !! i = Some e -> is_live e = true ->
    reg_change env g (AcRegister i a) (reg_add_user i a g)
| RcOwner c g' : signer_account_id env = reg_owner g -> reg_users g' = reg_users g -> reg_next g' = reg_next g ->
    (forall n e, reg_events g' !! n = Some e -> reg_events g !! n = Some e) -> reg_change env g c g'.

Lemma spec_step_change acc env c : reg_change env (acc_state acc) c (acc_state (spec_step acc (env, c))).
Proof.
  unfold spec_step, run_receipt. cbn [fst snd]. set (r := MkReceipt _ _ _ _).
  destruct (spec_call c env r) as [[v r']| |] eqn:E; cbn; [|constructor 1..].
  apply call_method_ok in E as (E & _).
  assert (forall f, spec_method c = as_owner f ->
    reg_users (f (acc_state acc)) = reg_users (acc_state acc) -> reg_next (f (acc_state acc)) = reg_next (acc_state acc) ->
    (forall n e, reg_events (f (acc_state acc)) !! n = Some e -> reg_events (acc_state acc) !! n = Some e) ->
    reg_change env (acc_state acc) c (rc_state r')) as O.
  { intros f Ef U N Ev. rewrite Ef in E. unfold as_owner in E. nm_run in E.
    destruct (bool_decide _) eqn:S; [|discriminate]. apply bool_decide_eq_true in S. injection E as _ <-.
    now apply RcOwner. }
  destruct c; try (eapply O; [reflexivity|reflexivity|reflexivity|first [done|intros n e Ev; cbn in Ev; now apply lookup_delete_Some in Ev as [_ ?]]]);
    clear O; unfold spec_method in E; nm_run in E.
  - injection E as _ <-. constructor 1.
  - destruct (reg_events _ !! _); nm_run in E; [injection E as _ <-; constructor 1|discriminate].
  - destruct (arith 16 _) as [next| |] eqn:A; cbn in E; try discriminate. injection E as _ <-. now constructor 2.
  - destruct (bool_decide _); [|discriminate]. nm_run in E.
    destruct (reg_events _ !! _); nm_run in E; [injection E as _ <-; constructor 1|discriminate].
  - destruct (bool_decide _) eqn:P; [|discriminate]. apply bool_decide_eq_true in P. nm_run in E.
    destruct (reg_events _ !! _) as [e|] eqn:Ev; nm_run in E; [|discriminate].
    destruct (is_live e) eqn:Li; nm_run in E; [|discriminate]. injection E as _ <-. now apply (RcRegister env _ _ _ e).
  - injection E as _ <-. constructor 1.
Qed.

(** ** Theorems *)

(** Every event is live, whatever is called: [make_event_offline] has no effect. *)
Theorem events_stay_live owner_id b calls n e :
  reg_events (acc_state (spec_run calls (MkAccount (reg_new owner_id) b))) !! n = Some e -> is_live e = true.
Proof.
  assert (forall calls acc, (forall n e, reg_events (acc_state acc) !! n = Some e -> is_live e = true) ->
    forall n e, reg_events (acc_state (spec_run calls acc)) !! n = Some e -> is_live e = true) as G.
  { clear. induction calls as [|[env c] calls IH]; intros acc L; [done|]. cbn. apply IH.
    destruct (spec_step_change acc env c); [done| |done|eauto].
    intros n e Ev. cbn in Ev. apply lookup_insert_Some in Ev as [[_ <-]|[_ ?]]; [done|eauto]. }
  apply G. intros ? ? E. cbn in E. now rewrite lookup_empty in E.
Qed.

Lemma user_origin calls acc i a : (i, a) ∈ reg_users (acc_state (spec_run calls acc)) ->
  (i, a) ∈ reg_users (acc_state acc) \/
  exists pre env post e, calls = pre ++ (env, AcRegister i a) :: post /\
    let g := acc_state (spec_run pre acc) in
    predecessor_account_id env ∈ reg_clubs g /\ reg_events g !! i = Some e /\ is_live e = true.
Proof.
  revert acc. induction calls as [|[env c] calls IH]; intros acc U; [now left|]. cbn in U.
  destruct (IH _ U) as [V|(pre & env' & post & e & -> & G)].
  - destruct (spec_step_change acc env c) as [| |j x e P Ev L|c' g' _ E]; [now left|now left| |rewrite E in V; now left].
    cbn in V. apply elem_of_union in V as [[= -> ->]%elem_of_singleton|V]; [|now left].
    right. exists [], env, calls, e. done.
  - right. exists ((env, c) :: pre), env', post, e. done.
Qed.

(** ** Carried over to the contract *)

Context `{NearBorshOk, Borsh Event, Borsh LookupSet, !BorshOk Event Event_wf, !BorshOk LookupSet LookupSet_wf}.

(** C30: A user the contract reports as registered was registered by a call of a
    club that was privileged at that time, for an event that existed. *)
Theorem registrations_authorized owner_id b calls env i a d :
  Forall (fun ec => valid_call ec.1 ec.2) calls -> valid_call env (AcCheck i a) ->
  let impl := MkAccount (MkAssocState (assoc_new owner_id) ∅) b in
  let spec := MkAccount (reg_new owner_id) b in
  fst (run_receipt (assoc_call (AcCheck i a)) env (snd (run_calls assoc_call calls impl))) = ROk d ->
  done_value d = VBool true ->
  exists pre env' post e, calls = pre ++ (env', AcRegister i a) :: post /\
    let g := acc_state (spec_run pre spec) in
    predecessor_account_id env' ∈ reg_clubs g /\ reg_events g !! i = Some e /\ is_live e = true.
Proof.
  intros F V impl spec E Hd.
  destruct (run_related calls impl spec F (new_represents _) eq_refl) as (_ & R & Bal).
  pose proof (receipt_related (AcCheck i a) env _ _ V R Bal) as Rel.
  destruct (run_receipt (assoc_call _) _ _) as [o acc1]. cbn in E. subst o.
  rewrite run_calls_state in Rel. unfold run_receipt, spec_call in Rel.
  rewrite call_method_run in Rel by (intros; done || intuition discriminate). cbn in Rel.
  destruct Rel as (Eo & _). injection Eo as ->. cbn in Hd. injection Hd as Hb.
  apply andb_true_iff in Hb as [_ Hu]. apply bool_decide_eq_true in Hu.
  destruct (user_origin _ _ _ _ Hu) as [[]%elem_of_empty|?]; done.
Qed.

(** Events are numbered by 16 bits.  After event 65535 a build that checks
    arithmetic accepts no event any more; a build that does not starts again
    at 0, and the event that gets a used number inherits its registrations. *)
Theorem event_numbers_run_out env t acc :
  reg_next (acc_state acc) = 65535 -> attached_deposit env = 0 ->
  let o := run_receipt (spec_call (AcAddEvent t)) env acc in
  if overflow_checks then panics (fst o) /\ snd o = acc
  else reg_next (acc_state (snd o)) = 0.
Proof.
  intros N D. cbn zeta. unfold run_receipt, spec_call. rewrite call_method_run by (intros; done || discriminate).
  unfold spec_method. nm_run. rewrite N. unfold arith. cbn.
  destruct overflow_checks; cbn; [split; [eexists; reflexivity|done]|done].
Qed.

Theorem number_reuse_inherits env t acc i a b :
  reg_next (acc_state acc) = i -> uint 16 i -> attached_deposit env = 0 -> overflow_checks = false ->
  (i, a) ∈ reg_users (acc_state acc) ->
  let acc' := snd (run_receipt (spec_call (AcAddEvent t)) env acc) in
  reg_events (acc_state acc') !! i = Some (MkEvent (block_timestamp env) true (Some t)) /\
  run_receipt (spec_call (AcCheck i a)) b acc' = (ROk (MkDone (VBool true) [] []), MkAccount (acc_state acc') (acc_balance acc' + attached_deposit b)).
Proof.
  intros N [I1 I2] D O U. cbn zeta. unfold run_receipt, spec_call.
  rewrite !call_method_run by (intros; done || intuition discriminate).
  unfold spec_method. nm_run. rewrite N. unfold arith. rewrite O.
  destruct ((0 <=? i + 1) && (i + 1 <? 2 ^ 16)); cbn; rewrite N, lookup_insert_eq, !bool_decide_true by eauto; done.
Qed.

End registry_props.
