(* ===== verification/NearClub.v ===== *)
(** * The Malborn Club token

    [halborn-near-ctf/src/lib.rs]: a fungible token whose members burn a share
    of the supply to register for an event of the associated contract.  The
    token core of near-contract-standards is the class [FtLib]; its laws are
    the documented behaviour of the NEP-141 and NEP-145 methods. *)

From S2P Require Import Prelude Rust Ledger NearSdk NearAssociated.

(** ** The token library *)

(** [FungibleToken] with the fields the contract uses. *)
Record FungibleToken := MkFt { accounts : gmap AccountId Z; total_supply : Z }.

Record FungibleTokenMetadata := MkMetadata {
  md_spec : string; md_name : string; md_symbol : string; md_icon : option string;
  md_reference : option string; md_reference_hash : option bytes; md_decimals : Z }.

Record StorageBalance := MkStorageBalance { sb_total : Z; sb_available : Z }.
Record StorageBalanceBounds := MkBounds { sb_min : Z; sb_max : option Z }.

Class FtLib : Type := {
  FT_METADATA_SPEC : string;
  lib_new : bytes -> FungibleToken;
  lib_register_account : AccountId -> NM FungibleToken unit;
  lib_deposit : AccountId -> Z -> NM FungibleToken unit;
  lib_ft_transfer : AccountId -> Z -> option string -> NM FungibleToken unit;
  (** The returned promise is scheduled by the call. *)
  lib_ft_transfer_call : AccountId -> Z -> option string -> string -> NM FungibleToken unit;
  lib_ft_total_supply : FungibleToken -> Z;
  lib_ft_balance_of : FungibleToken -> AccountId -> Z;
  (** What the receiver used and what was burned. *)
  lib_ft_resolve_transfer : AccountId -> AccountId -> Z -> NM FungibleToken (Z * Z);
  lib_storage_deposit : option AccountId -> option bool -> NM FungibleToken StorageBalance;
  lib_storage_withdraw : option Z -> NM FungibleToken StorageBalance;
  lib_storage_unregister : option bool -> NM FungibleToken (option (AccountId * Z));
  lib_storage_balance_bounds : FungibleToken -> StorageBalanceBounds;
  lib_storage_balance_of : FungibleToken -> AccountId -> option StorageBalance }.

(** Tokens moved from one account to another. *)
Definition ft_move (t : FungibleToken) (from to : AccountId) (amount : Z) : FungibleToken :=
  let m := <[from := held (accounts t) from - amount]> (accounts t) in
  MkFt (<[to := held m to + amount]> m) (total_supply t).

(** When a transfer is accepted: one yoctoNEAR is attached, both accounts are
    registered and differ, and the sender has the amount. *)
Definition transfer_allowed (env : Env) (t : FungibleToken) (to : AccountId) (amount : Z) : Prop :=
  attached_deposit env = 1 /\ predecessor_account_id env <> to /\ 0 < amount /\
  is_Some (accounts t !! predecessor_account_id env) /\ is_Some (accounts t !! to) /\
  amount <= held (accounts t) (predecessor_account_id env) /\ held (accounts t) to + amount < 2 ^ 128.

Definition keeps_receipt {S} (r r' : Receipt S) : Prop := rc_balance r' = rc_balance r /\ rc_promises r' = rc_promises r.

Class FtLibOk `{ft_lib_ops : FtLib} : Prop := {
  lib_new_ok p : lib_new p = MkFt ∅ 0;
  lib_register_ok a env r : accounts (rc_state r) !! a = None -> exists r',
    lib_register_account a env r = ROk (tt, r') /\ keeps_receipt r r' /\
    rc_state r' = MkFt (<[a := 0]> (accounts (rc_state r))) (total_supply (rc_state r));
  lib_deposit_ok a z env r b : accounts (rc_state r) !! a = Some b -> 0 <= z ->
    b + z < 2 ^ 128 -> total_supply (rc_state r) + z < 2 ^ 128 -> exists r',
    lib_deposit a z env r = ROk (tt, r') /\ keeps_receipt r r' /\
    rc_state r' = MkFt (<[a := b + z]> (accounts (rc_state r))) (total_supply (rc_state r) + z);
  lib_ft_transfer_ok to z memo env r u r' : lib_ft_transfer to z memo env r = ROk (u, r') ->
    transfer_allowed env (rc_state r) to z /\ keeps_receipt r r' /\
    rc_state r' = ft_move (rc_state r) (predecessor_account_id env) to z;
  lib_ft_transfer_total to z memo env r : transfer_allowed env (rc_state r) to z ->
    exists r', lib_ft_transfer to z memo env r = ROk (tt, r');
  lib_ft_transfer_call_ok to z memo msg env r u r' : lib_ft_transfer_call to z memo msg env r = ROk (u, r') ->
    transfer_allowed env (rc_state r) to z /\ rc_balance r' = rc_balance r /\
    rc_state r' = ft_move (rc_state r) (predecessor_account_id env) to z;
  lib_ft_total_supply_ok t : lib_ft_total_supply t = total_supply t;
  lib_ft_balance_of_ok t a : lib_ft_balance_of t a = held (accounts t) a;
  (** What the receiver did not use goes back as far as the receiver still has
      it: to the sender, or burned when the sender has left. *)
  lib_ft_resolve_ok from to z env r u r' : lib_ft_resolve_transfer from to z env r = ROk (u, r') ->
    exists back, 0 <= back <= z /\ back <= held (accounts (rc_state r)) to /\ rc_balance r' = rc_balance r /\
    (rc_state r' = rc_state r \/
     (is_Some (accounts (rc_state r) !! from) /\ is_Some (accounts (rc_state r) !! to) /\
      rc_state r' = ft_move (rc_state r) to from back) \/
     (is_Some (accounts (rc_state r) !! to) /\ back <= total_supply (rc_state r) /\
      rc_state r' = MkFt (<[to := held (accounts (rc_state r)) to - back]> (accounts (rc_state r)))
                      (total_supply (rc_state r) - back)));
  lib_storage_deposit_ok who only env r v r' : lib_storage_deposit who only env r = ROk (v, r') ->
    let a := default (predecessor_account_id env) who in
    rc_state r' = rc_state r \/
    accounts (rc_state r) !! a = None /\
    rc_state r' = MkFt (<[a := 0]> (accounts (rc_state r))) (total_supply (rc_state r));
  lib_storage_withdraw_ok z env r v r' : lib_storage_withdraw z env r = ROk (v, r') -> rc_state r' = rc_state r;
  (** Leaving with a balance is possible by force, and burns it. *)
  lib_storage_unregister_ok force env r v r' : lib_storage_unregister force env r = ROk (v, r') ->
    match v with
    | None => rc_state r' = rc_state r
    | Some (a, b) => a = predecessor_account_id env /\ accounts (rc_state r) !! a = Some b /\
        (b = 0 \/ force = Some true) /\
        rc_state r' = MkFt (delete a (accounts (rc_state r))) (total_supply (rc_state r) - b)
    end }.

(** ** State *)

Inductive BlocklistStatus := Allowed | Banned.
#[export] Instance BlocklistStatus_eq_dec : EqDecision BlocklistStatus.
Proof. solve_decision. Defined.

Record MalbornClubContract := MkClub {
  owner_id : AccountId;
  malborn_token : FungibleToken;
  token_metadata : option FungibleTokenMetadata;
  block_list : gmap AccountId BlocklistStatus;
  status : ContractStatus;
  associated_contract_account_id : option AccountId;
  registration_fee_denominator : Z }.

Definition GAS_FOR_REGISTER : Z := 10000000000000.

Section club.
  Context `{FtLib}.

Abbreviation CM := (NM MalbornClubContract).

(** Assignments to the fields of [self]. *)
Definition set_token (t : FungibleToken) : CM unit := self ← this;
  set_this (MkClub (owner_id self) t (token_metadata self) (block_list self) (status self)
              (associated_contract_account_id self) (registration_fee_denominator self)).
Definition set_metadata (m : option FungibleTokenMetadata) : CM unit := self ← this;
  set_this (MkClub (owner_id self) (malborn_token self) m (block_list self) (status self)
              (associated_contract_account_id self) (registration_fee_denominator self)).
Definition set_block_list (l : gmap AccountId BlocklistStatus) : CM unit := self ← this;
  set_this (MkClub (owner_id self) (malborn_token self) (token_metadata self) l (status self)
              (associated_contract_account_id self) (registration_fee_denominator self)).
Definition set_status (s : ContractStatus) : CM unit := self ← this;
  set_this (MkClub (owner_id self) (malborn_token self) (token_metadata self) (block_list self) s
              (associated_contract_account_id self) (registration_fee_denominator self)).

(** A method of the token core on [self.malborn_token]. *)
Definition on_token {A} (m : NM FungibleToken A) : CM A := fun env r =>
  let self := rc_state r in
  match m env (MkReceipt (malborn_token self) (rc_balance r) (rc_promises r) (rc_logs r)) with
  | ROk (a, r') => ROk (a, MkReceipt
      (MkClub (owner_id self) (rc_state r') (token_metadata self) (block_list self) (status self)
         (associated_contract_account_id self) (registration_fee_denominator self))
      (rc_balance r') (rc_promises r') (rc_logs r'))
  | RErr e => RErr e
  | RPanic why => RPanic why
  end.

(** ** Helpers *)

Definition only_owner : CM unit :=
  self ← this;
  signer ← env_of signer_account_id;
  if negb (bool_decide (signer = owner_id self)) then panic_str "Can only be called by owner" else mret tt.

Definition not_paused : CM unit :=
  self ← this;
  if bool_decide (status self = Paused) then panic_str "Contract is paused" else mret tt.

Definition get_blocklist_status (account_id : AccountId) : CM BlocklistStatus :=
  _ ← not_paused;
  self ← this;
  mret (match block_list self !! account_id with Some user_status => user_status | None => Allowed end).

Definition not_banned (account_id : AccountId) : CM unit :=
  s ← get_blocklist_status account_id;
  if bool_decide (s = Banned) then panic_str "User is banned" else mret tt.

Definition on_account_closed (account_id : AccountId) (balance : Z) : CM unit :=
  log_line "Closed @{} with {}" [JAccount account_id; JDec balance].

Definition burn_tokens_internal (account_id : AccountId) (amount : Z) : CM unit :=
  self ← this;
  _ ← require (amount <=? total_supply (malborn_token self)) "assertion failed: total_supply >= amount";
  user_balance ← expect_some "User not registered" (accounts (malborn_token self) !! account_id);
  _ ← require (amount <=? user_balance) "assertion failed: user_balance >= amount";
  supply ← expect_some "Burn caused underflow" (checked_sub (total_supply (malborn_token self)) amount);
  _ ← set_token (MkFt (accounts (malborn_token self)) supply);
  balance ← expect_some "Underflow in user balance" (checked_sub user_balance amount);
  self ← this;
  set_token (MkFt (<[account_id := balance]> (accounts (malborn_token self))) (total_supply (malborn_token self))).

(** ** Methods *)

Definition club_metadata : FungibleTokenMetadata :=
  MkMetadata FT_METADATA_SPEC "Malborn Token" "MAL" None None None 10.

(** The owner is registered and receives the supply. *)
Definition club_new (state_exists : bool) (owner : AccountId) (token_total_supply : Z) (env : Env)
  : outcome MalbornClubContract :=
  let this_state := MkClub owner (lib_new [x74]) (Some club_metadata) ∅ Working None 10000 in
  match (_ ← require (negb state_exists) "Already initialized";
         _ ← on_token (lib_register_account owner);
         on_token (lib_deposit owner token_total_supply)) env (MkReceipt this_state 0 [] []) with
  | ROk (_, r) => ROk (rc_state r)
  | RErr e => RErr e
  | RPanic why => RPanic why
  end.

Definition mint_tokens (account_id : AccountId) (amount : Z) : CM Z :=
  _ ← only_owner;
  _ ← not_paused;
  self ← this;
  supply ← expect_some "Minting caused overflow" (checked_add 128 (total_supply (malborn_token self)) amount);
  _ ← set_token (MkFt (accounts (malborn_token self)) supply);
  _ ← match accounts (malborn_token self) !! account_id with
      | Some user_amount =>
          balance ← expect_some "Exceeded balance" (checked_add 128 user_amount amount);
          set_token (MkFt (<[account_id := balance]> (accounts (malborn_token self))) supply)
      | None => mret tt
      end;
  self ← this;
  mret (total_supply (malborn_token self)).

Definition burn_tokens (account_id : AccountId) (amount : Z) : CM unit :=
  _ ← only_owner;
  _ ← not_paused;
  burn_tokens_internal account_id amount.

Definition register_for_event (event_id : Z) : CM unit :=
  _ ← not_paused;
  self ← this;
  _ ← require (bool_decide (is_Some (associated_contract_account_id self))) "Associated Account is not set";
  sender_id ← env_of signer_account_id;
  _ ← not_banned sender_id;
  self ← this;
  _ ← require (negb (registration_fee_denominator self =? 0)) "attempt to divide by zero";
  let burn_amount := total_supply (malborn_token self) / registration_fee_denominator self in
  _ ← burn_tokens_internal sender_id burn_amount;
  self ← this;
  to ← expect_some "called `Option::unwrap()` on a `None` value" (associated_contract_account_id self);
  promise_call to "register_for_an_event"
    [("event_id", JDec event_id); ("account_id", JAccount sender_id)] GAS_FOR_REGISTER.

Definition upgrade_token_name_symbol (name symbol : string) : CM unit :=
  _ ← only_owner;
  self ← this;
  _ ← set_metadata None;
  match token_metadata self with
  | Some m => set_metadata (Some (MkMetadata (md_spec m) name symbol (md_icon m) (md_reference m)
                                    (md_reference_hash m) (md_decimals m)))
  | None => mret tt
  end.

Definition add_to_blocklist (account_id : AccountId) : CM unit :=
  _ ← only_owner;
  _ ← not_paused;
  self ← this;
  set_block_list (<[account_id := Banned]> (block_list self)).

Definition remove_from_blocklist (account_id : AccountId) : CM unit :=
  _ ← only_owner;
  _ ← not_paused;
  self ← this;
  set_block_list (<[account_id := Allowed]> (block_list self)).

Definition pause : CM unit := _ ← only_owner; set_status Paused.
Definition resume : CM unit := _ ← only_owner; set_status Paused.

Definition set_owner (new_owner : AccountId) : CM unit :=
  _ ← only_owner;
  self ← this;
  set_this (MkClub new_owner (malborn_token self) (token_metadata self) (block_list self) (status self)
              (associated_contract_account_id self) (registration_fee_denominator self)).

Definition set_registration_fee_denominator (new_denominator : Z) : CM unit :=
  _ ← only_owner;
  self ← this;
  set_this (MkClub (owner_id self) (malborn_token self) (token_metadata self) (block_list self) (status self)
              (associated_contract_account_id self) new_denominator).

Definition set_associated_contract (account_id : AccountId) : CM unit :=
  _ ← only_owner;
  self ← this;
  set_this (MkClub (owner_id self) (malborn_token self) (token_metadata self) (block_list self) (status self)
              (Some account_id) (registration_fee_denominator self)).

(** [token_metadata.take()]: the stored value is removed. *)
Definition take_metadata : CM FungibleTokenMetadata :=
  self ← this;
  _ ← set_metadata None;
  expect_some "Unable to retrieve metadata at this moment" (token_metadata self).

Definition get_symbol : CM string := _ ← not_paused; m ← take_metadata; mret (md_symbol m).
Definition get_name : CM string := _ ← not_paused; m ← take_metadata; mret (md_name m).
Definition get_decimals : CM Z := _ ← not_paused; m ← take_metadata; mret (md_decimals m).
Definition contract_status : CM ContractStatus := self ← this; mret (status self).

(** ** The standard interfaces *)

Definition ft_total_supply : CM Z :=
  _ ← not_paused; self ← this; mret (lib_ft_total_supply (malborn_token self)).
Definition ft_balance_of (account_id : AccountId) : CM Z :=
  _ ← not_paused; self ← this; mret (lib_ft_balance_of (malborn_token self) account_id).

Definition ft_transfer (receiver_id : AccountId) (amount : Z) (memo : option string) : CM unit :=
  _ ← not_paused;
  sender_id ← env_of signer_account_id;
  _ ← not_banned sender_id;
  balance ← ft_balance_of sender_id;
  _ ← require (amount <=? balance) "assertion failed: amount <= self.ft_balance_of(sender_id)";
  on_token (lib_ft_transfer receiver_id amount memo).

Definition ft_transfer_call (receiver_id : AccountId) (amount : Z) (memo : option string) (msg : string) : CM unit :=
  _ ← not_paused;
  sender_id ← env_of signer_account_id;
  _ ← not_banned sender_id;
  on_token (lib_ft_transfer_call receiver_id amount memo msg).

Definition ft_resolve_transfer (sender_id receiver_id : AccountId) (amount : Z) : CM Z :=
  used ← on_token (lib_ft_resolve_transfer sender_id receiver_id amount);
  mret (fst used).

Definition ft_metadata : CM FungibleTokenMetadata :=
  self ← this;
  expect_some "called `Option::unwrap()` on a `None` value" (token_metadata self).

Definition storage_deposit (account_id : option AccountId) (registration_only : option bool) : CM StorageBalance :=
  on_token (lib_storage_deposit account_id registration_only).
Definition storage_withdraw (amount : option Z) : CM StorageBalance := on_token (lib_storage_withdraw amount).
Definition storage_unregister (force : option bool) : CM bool :=
  closed ← on_token (lib_storage_unregister force);
  match closed with
  | Some (account_id, balance) => _ ← on_account_closed account_id balance; mret true
  | None => mret false
  end.
Definition storage_balance_bounds : CM StorageBalanceBounds :=
  self ← this; mret (lib_storage_balance_bounds (malborn_token self)).
Definition storage_balance_of (account_id : AccountId) : CM (option StorageBalance) :=
  self ← this; mret (lib_storage_balance_of (malborn_token self) account_id).

End club.

(** ** Exported methods *)

Inductive ClubCall :=
| KMint (account_id : AccountId) (amount : Z) | KBurn (account_id : AccountId) (amount : Z)
| KRegister (event_id : Z) | KUpgrade (name symbol : string)
| KBlock (account_id : AccountId) | KUnblock (account_id : AccountId) | KPause | KResume
| KSetOwner (new_owner : AccountId) | KSetFee (new_denominator : Z) | KSetAssociated (account_id : AccountId)
| KSymbol | KName | KDecimals | KStatus | KBlockStatus (account_id : AccountId)
| KTransfer (receiver_id : AccountId) (amount : Z) (memo : option string)
| KTransferCall (receiver_id : AccountId) (amount : Z) (memo : option string) (msg : string)
| KTotalSupply | KBalanceOf (account_id : AccountId)
| KResolve (sender_id receiver_id : AccountId) (amount : Z) | KMetadata
| KStorageDeposit (account_id : option AccountId) (registration_only : option bool)
| KStorageWithdraw (amount : option Z) | KStorageUnregister (force : option bool)
| KStorageBounds | KStorageBalanceOf (account_id : AccountId).

Inductive ClubValue :=
| KUnit | KNum (z : Z) | KString (s : string) | KContractStatus (s : ContractStatus)
| KBlocklist (s : BlocklistStatus) | KMeta (m : FungibleTokenMetadata) | KBool (b : bool)
| KStorage (b : option StorageBalance) | KBounds (b : StorageBalanceBounds).

Section club_dispatch.
  Context `{FtLib}.

Definition club_call (k : ClubCall) : NM MalbornClubContract ClubValue :=
  match k with
  | KMint a z => call_method MCall (v ← mint_tokens a z; mret (KNum v))
  | KBurn a z => call_method MCall (_ ← burn_tokens a z; mret KUnit)
  | KRegister i => call_method MCall (_ ← register_for_event i; mret KUnit)
  | KUpgrade n s => call_method MCall (_ ← upgrade_token_name_symbol n s; mret KUnit)
  | KBlock a => call_method MCall (_ ← add_to_blocklist a; mret KUnit)
  | KUnblock a => call_method MCall (_ ← remove_from_blocklist a; mret KUnit)
  | KPause => call_method MCall (_ ← pause; mret KUnit)
  | KResume => call_method MCall (_ ← resume; mret KUnit)
  | KSetOwner a => call_method MCall (_ ← set_owner a; mret KUnit)
  | KSetFee z => call_method MCall (_ ← set_registration_fee_denominator z; mret KUnit)
  | KSetAssociated a => call_method MCall (_ ← set_associated_contract a; mret KUnit)
  | KSymbol => call_method MCall (v ← get_symbol; mret (KString v))
  | KName => call_method MCall (v ← get_name; mret (KString v))
  | KDecimals => call_method MCall (v ← get_decimals; mret (KNum v))
  | KStatus => call_method MView (v ← contract_status; mret (KContractStatus v))
  | KBlockStatus a => call_method MView (v ← get_blocklist_status a; mret (KBlocklist v))
  | KTransfer a z m => call_method MPayable (_ ← ft_transfer a z m; mret KUnit)
  | KTransferCall a z m s => call_method MPayable (_ ← ft_transfer_call a z m s; mret KUnit)
  | KTotalSupply => call_method MView (v ← ft_total_supply; mret (KNum v))
  | KBalanceOf a => call_method MView (v ← ft_balance_of a; mret (KNum v))
  | KResolve f t z => call_method MPrivate (v ← ft_resolve_transfer f t z; mret (KNum v))
  | KMetadata => call_method MView (v ← ft_metadata; mret (KMeta v))
  | KStorageDeposit a o => call_method MPayable (v ← storage_deposit a o; mret (KStorage (Some v)))
  | KStorageWithdraw z => call_method MPayable (v ← storage_withdraw z; mret (KStorage (Some v)))
  | KStorageUnregister f => call_method MPayable (v ← storage_unregister f; mret (KBool v))
  | KStorageBounds => call_method MView (v ← storage_balance_bounds; mret (KBounds v))
  | KStorageBalanceOf a => call_method MView (v ← storage_balance_of a; mret (KStorage v))
  end.

End club_dispatch.
