(* ===== verification/NearClubProps.v ===== *)
(** * The Malborn Club token: what holds of it

    The supply is the sum of the balances plus what was minted to accounts that
    are not registered, over any calls; a paused contract stays paused; taken
    metadata never comes back; owner rights and bans follow the signer of the
    transaction, not the caller. *)

From S2P Require Import Prelude Rust Ledger NearSdk NearAssociated NearClub.

Section club_props.
  Context `{FtLibOk}.
  Implicit Types (env : Env) (r : Receipt MalbornClubContract) (t : FungibleToken).

(** ** Running a method to its end *)

(** Run [H : club_call k env r = ROk _], splitting its guards. *)
Ltac club_run H :=
  apply call_method_ok in H; destruct H as (H & _);
  unfold mint_tokens, burn_tokens, register_for_event, upgrade_token_name_symbol, add_to_blocklist,
    remove_from_blocklist, pause, resume, set_owner, set_registration_fee_denominator, set_associated_contract,
    get_symbol, get_name, get_decimals, contract_status, ft_transfer, ft_transfer_call, ft_total_supply,
    ft_balance_of, ft_resolve_transfer, ft_metadata, storage_deposit, storage_withdraw, storage_unregister,
    storage_balance_bounds, storage_balance_of, take_metadata, not_banned, get_blocklist_status,
    burn_tokens_internal, only_owner, not_paused, set_token, set_metadata, set_block_list, set_status,
    promise_call, on_account_closed, on_token in H;
  nm_run in H;
  repeat (match type of H with context [match ?b with _ => _ end] =>
            lazymatch b with context [match _ with _ => _ end] => fail | _ => destruct b eqn:? end
          end; nm_run in H; try discriminate H);
  try (injection H as <- <-); cbn in *.

(** Methods that leave the balances alone. *)
Definition moves_tokens (k : ClubCall) : bool :=
  match k with
  | KMint _ _ | KBurn _ _ | KRegister _ | KTransfer _ _ _ | KTransferCall _ _ _ _ | KResolve _ _ _
  | KStorageDeposit _ _ | KStorageWithdraw _ | KStorageUnregister _ => true
  | _ => false
  end.

Lemma token_unchanged k env r v r' : moves_tokens k = false ->
  club_call k env r = ROk (v, r') -> malborn_token (rc_state r') = malborn_token (rc_state r).
Proof. intros M E. destruct k; try discriminate M; club_run E; done. Qed.

(** ** Supply *)

(** What is minted to an account that is not registered reaches no balance. *)
Definition lost_by (t : FungibleToken) (k : ClubCall) : Z :=
  match k with KMint a z => match accounts t !! a with Some _ => 0 | None => z end | _ => 0 end.

Definition unbacked (t : FungibleToken) : Z := total_supply t - msum (accounts t).

Record token_inv (t : FungibleToken) : Prop := {
  tok_nonneg : nonneg (accounts t);
  tok_covered : msum (accounts t) <= total_supply t;
  tok_fits : total_supply t < 2 ^ 128 }.

(** Amounts are u128. *)
Definition club_input (k : ClubCall) : Prop :=
  match k with
  | KMint _ z | KBurn _ z | KTransfer _ z _ | KTransferCall _ z _ _ | KResolve _ _ z | KSetFee z | KRegister z => U128 z
  | _ => True
  end.

Lemma move_inv t from to z : token_inv t -> 0 <= z <= held (accounts t) from ->
  token_inv (ft_move t from to z) /\ unbacked (ft_move t from to z) = unbacked t.
Proof.
  intros [N C F] Z. unfold ft_move, unbacked. cbn [accounts total_supply].
  pose proof (nonneg_held _ to N).
  set (m := <[from := held (accounts t) from - z]> (accounts t)).
  assert (nonneg m) as Nm by (apply nonneg_insert; [lia|done]).
  assert (msum (<[to := held m to + z]> m) = msum (accounts t)) as E.
  { rewrite msum_insert. unfold m at 1. rewrite msum_insert. lia. }
  pose proof (nonneg_held _ to Nm). split; [split; cbn [accounts total_supply]|lia].
  - apply nonneg_insert; [lia|done].
  - rewrite E. lia.
  - done.
Qed.

(** Setting one balance and the supply. *)
Lemma set_balance_inv t a b s : token_inv t -> 0 <= b ->
  s - b = total_supply t - held (accounts t) a -> s < 2 ^ 128 ->
  token_inv (MkFt (<[a := b]> (accounts t)) s) /\ unbacked (MkFt (<[a := b]> (accounts t)) s) = unbacked t.
Proof.
  intros [N C F] B E S. unfold unbacked. cbn [accounts total_supply]. rewrite msum_insert.
  split; [split; cbn [accounts total_supply]|lia]; [auto using nonneg_insert|rewrite msum_insert; lia|done].
Qed.

Lemma burn_inv t a z b s : token_inv t -> accounts t !! a = Some b -> 0 <= z ->
  checked_sub (total_supply t) z = Some s -> forall b', checked_sub b z = Some b' ->
  token_inv (MkFt (<[a := b']> (accounts t)) s) /\ unbacked (MkFt (<[a := b']> (accounts t)) s) = unbacked t.
Proof.
  intros I A Z [-> S]%checked_sub_some b' [-> B]%checked_sub_some. pose proof (tok_fits _ I).
  apply set_balance_inv; [done|lia| |lia]. unfold held. rewrite A. cbn. lia.
Qed.

Lemma mint_inv env r v r' a z : token_inv (malborn_token (rc_state r)) -> U128 z ->
  club_call (KMint a z) env r = ROk (v, r') ->
  token_inv (malborn_token (rc_state r')) /\
  unbacked (malborn_token (rc_state r')) = unbacked (malborn_token (rc_state r)) + lost_by (malborn_token (rc_state r)) (KMint a z).
Proof.
  intros I [Z1 Z2] E. pose proof I as [N C F]. cbn [lost_by]. club_run E;
    repeat match goal with S : checked_add _ _ _ = Some _ |- _ => apply checked_add_some in S as [-> ?] end.
  - match goal with A : accounts _ !! a = Some ?b |- _ => rename A into Ha; pose proof (N a b Ha) as Hb end.
    edestruct (set_balance_inv (malborn_token (rc_state r)) a) as [I' U]; [exact I| | | |split; [exact I'|]].
    + cbn in Hb. lia.
    + unfold held. rewrite Ha. cbn. lia.
    + done.
    + rewrite U. lia.
  - unfold unbacked. cbn. split; [split; cbn; [done|lia|done]|lia].
Qed.

(** The fee's denominator is a u128. *)
Definition club_inv (self : MalbornClubContract) : Prop :=
  token_inv (malborn_token self) /\ 0 <= registration_fee_denominator self.

Lemma fee_nonneg env r v r' k : 0 <= registration_fee_denominator (rc_state r) -> club_input k ->
  club_call k env r = ROk (v, r') -> 0 <= registration_fee_denominator (rc_state r').
Proof. intros F Hk E. destruct k; club_run E; try done. apply Hk. Qed.

Lemma fee_amount_nonneg t d : token_inv t -> 0 <= d -> negb (d =? 0) = true -> 0 <= total_supply t / d.
Proof.
  intros [N C _] D E. pose proof (msum_nonneg _ N). zify_bools. apply Z.div_pos; lia.
Qed.

(** The methods of the token core keep the supply backed. *)
Definition keeps_backing (t t' : FungibleToken) : Prop := token_inv t' /\ unbacked t' = unbacked t.

Section token_core.
  Context (env : Env) (t : FungibleToken) (I : token_inv t).
  Context (q q' : Receipt FungibleToken) (Hq : rc_state q = t).

Lemma transfer_backed to z memo u : lib_ft_transfer to z memo env q = ROk (u, q') -> keeps_backing t (rc_state q').
Proof.
  intros ((_ & _ & ? & _ & _ & ? & _) & _ & ->)%lib_ft_transfer_ok. rewrite Hq in *. apply move_inv; [done|lia].
Qed.

Lemma transfer_call_backed to z memo msg u :
  lib_ft_transfer_call to z memo msg env q = ROk (u, q') -> keeps_backing t (rc_state q').
Proof.
  intros ((_ & _ & ? & _ & _ & ? & _) & _ & ->)%lib_ft_transfer_call_ok. rewrite Hq in *. apply move_inv; [done|lia].
Qed.

Lemma resolve_backed from to z u :
  lib_ft_resolve_transfer from to z env q = ROk (u, q') -> keeps_backing t (rc_state q').
Proof.
  intros (back & B1 & B2 & _ & C)%lib_ft_resolve_ok. rewrite Hq in *.
  destruct C as [->|[(_ & _ & ->)|(_ & ? & ->)]]; [done|now apply move_inv|].
  apply set_balance_inv; [done|lia|lia|pose proof (tok_fits _ I); lia].
Qed.

Lemma storage_deposit_backed who only v :
  lib_storage_deposit who only env q = ROk (v, q') -> keeps_backing t (rc_state q').
Proof.
  intros [->|[A ->]]%lib_storage_deposit_ok; rewrite Hq in *; [done|].
  apply set_balance_inv; [done|lia|unfold held; rewrite A; cbn; lia|apply (tok_fits _ I)].
Qed.

Lemma storage_withdraw_backed z v : lib_storage_withdraw z env q = ROk (v, q') -> keeps_backing t (rc_state q').
Proof. intros ->%lib_storage_withdraw_ok. now rewrite Hq. Qed.

Lemma storage_unregister_backed force v :
  lib_storage_unregister force env q = ROk (v, q') -> keeps_backing t (rc_state q').
Proof.
  intros U%lib_storage_unregister_ok. rewrite Hq in *. destruct v as [[a b]|]; [|now rewrite U].
  destruct U as (_ & A & _ & ->). pose proof I as [N C F]. pose proof (N _ _ A) as P. cbn in P.
  assert (msum (delete a (accounts t)) = msum (accounts t) - b) as E.
  { rewrite msum_delete. unfold held. now rewrite A. }
  unfold keeps_backing, unbacked. cbn. rewrite E. split; [|lia].
  split; cbn; [now apply nonneg_delete|lia|lia].
Qed.

End token_core.

Lemma call_inv env r v r' k : club_inv (rc_state r) -> club_input k -> club_call k env r = ROk (v, r') ->
  club_inv (rc_state r') /\
  unbacked (malborn_token (rc_state r')) = unbacked (malborn_token (rc_state r)) + lost_by (malborn_token (rc_state r)) k.
Proof.
  intros [I D] Hk E. unfold club_inv. pose proof (fee_nonneg _ _ _ _ _ D Hk E) as D'.
  enough (token_inv (malborn_token (rc_state r')) /\ unbacked (malborn_token (rc_state r')) =
    unbacked (malborn_token (rc_state r)) + lost_by (malborn_token (rc_state r)) k) by tauto. clear D'.
  destruct (moves_tokens k) eqn:M.
  2:{ rewrite (token_unchanged _ _ _ _ _ M E). split; [done|]. destruct k; cbn; try discriminate M; lia. }
  destruct k; try discriminate M; [exact (mint_inv _ _ _ _ _ _ I Hk E)|..];
    cbn [club_input lost_by] in *; rewrite Z.add_0_r; club_run E;
    solve [eapply burn_inv; [exact I|eassumption| |eassumption|eassumption]; first [now apply fee_amount_nonneg|apply Hk]
          |eapply transfer_backed; [exact I| |eassumption]; reflexivity
          |eapply transfer_call_backed; [exact I| |eassumption]; reflexivity
          |eapply resolve_backed; [exact I| |eassumption]; reflexivity
          |eapply storage_deposit_backed; [exact I| |eassumption]; reflexivity
          |eapply storage_withdraw_backed; [exact I| |eassumption]; reflexivity
          |eapply storage_unregister_backed; [exact I| |eassumption]; reflexivity].
Qed.

(** ** Calls one after the other *)

Definition club_step (acc : Account MalbornClubContract) (ek : Env * ClubCall) : Account MalbornClubContract :=
  snd (run_receipt (club_call ek.2) ek.1 acc).
Definition club_run_all (calls : list (Env * ClubCall)) (acc : Account MalbornClubContract) : Account MalbornClubContract :=
  foldl club_step acc calls.

(** A failed call changes nothing; a successful one ran its method. *)
Lemma club_step_cases acc env k : club_step acc (env, k) = acc \/
  exists v r', club_call k env (MkReceipt (acc_state acc) (acc_balance acc + attached_deposit env) [] []) = ROk (v, r') /\
    acc_state (club_step acc (env, k)) = rc_state r'.
Proof.
  unfold club_step, run_receipt. cbn [fst snd]. destruct (club_call k env _) as [[v r']| |]; eauto.
Qed.

(** What the successful mints of a run created without crediting it. *)
Fixpoint lost_in (calls : list (Env * ClubCall)) (acc : Account MalbornClubContract) : Z :=
  match calls with
  | [] => 0
  | (env, k) :: rest =>
      match fst (run_receipt (club_call k) env acc) with
      | ROk _ => lost_by (malborn_token (acc_state acc)) k
      | _ => 0
      end + lost_in rest (club_step acc (env, k))
  end.

Lemma run_ledger calls acc : club_inv (acc_state acc) -> Forall (fun ek => club_input ek.2) calls ->
  let acc' := club_run_all calls acc in
  club_inv (acc_state acc') /\
  unbacked (malborn_token (acc_state acc')) = unbacked (malborn_token (acc_state acc)) + lost_in calls acc.
Proof.
  revert acc. induction calls as [|[env k] calls IH]; intros acc I F; [cbn; split; [done|lia]|].
  apply Forall_cons in F as [Hk F]. cbn in Hk. cbn [club_run_all foldl lost_in].
  set (acc1 := club_step acc (env, k)).
  assert (club_inv (acc_state acc1) /\ unbacked (malborn_token (acc_state acc1)) =
    unbacked (malborn_token (acc_state acc)) +
    match fst (run_receipt (club_call k) env acc) with ROk _ => lost_by (malborn_token (acc_state acc)) k | _ => 0 end) as [I1 U1].
  { unfold acc1, club_step, run_receipt. cbn [fst snd].
    destruct (club_call k env _) as [[v r']| |] eqn:E; cbn; [|split; [done|lia]..].
    now apply (call_inv _ _ _ _ k) in E. }
  destruct (IH acc1 I1 F) as [I2 U2]. split; [exact I2|].
  change (foldl club_step acc1 calls) with (club_run_all calls acc1). rewrite U2, U1. lia.
Qed.

Lemma new_state owner supply env : U128 supply ->
  exists self, club_new false owner supply env = ROk self /\ malborn_token self = MkFt {[owner := supply]} supply /\
  owner_id self = owner /\ status self = Working /\ registration_fee_denominator self = 10000.
Proof.
  intros [S1 S2]. unfold club_new. nm_run. unfold on_token at 1. nm_run. rewrite lib_new_ok.
  destruct (lib_register_ok owner env (MkReceipt (MkFt ∅ 0) 0 [] [])) as (r1 & -> & _ & E1); [done|]. cbn.
  unfold on_token. cbn. rewrite E1. cbn [accounts total_supply rc_state].
  match goal with |- context [lib_deposit _ _ _ ?q] =>
    destruct (lib_deposit_ok owner supply env q 0) as (r2 & -> & _ & E2) end;
    [cbn; now rewrite lookup_insert_eq|done|cbn; lia|cbn; lia|].
  cbn. eexists. split; [reflexivity|]. cbn. rewrite E2. cbn. rewrite insert_insert_eq. done.
Qed.

(** ** Theorems *)

(** C13: Over any calls of any accounts, the supply is the sum of the balances plus
    what the owner minted to accounts that were not registered. *)
Theorem supply_ledger owner supply env self b calls :
  U128 supply -> Forall (fun ek => club_input ek.2) calls -> club_new false owner supply env = ROk self ->
  let acc := MkAccount self b in
  let t := malborn_token (acc_state (club_run_all calls acc)) in
  total_supply t = msum (accounts t) + lost_in calls acc /\ nonneg (accounts t) /\ total_supply t < 2 ^ 128.
Proof.
  intros S F E. cbn zeta. destruct (new_state owner supply env S) as (self' & E' & T & _ & _ & D).
  rewrite E' in E. injection E as ->.
  assert (unbacked (malborn_token self) = 0) as U0.
  { rewrite T. unfold unbacked. cbn. rewrite <-insert_empty, msum_insert_new by done.
    rewrite (msum_empty (K := AccountId)). lia. }
  assert (club_inv (acc_state (MkAccount self b))) as I.
  { split; cbn; [|lia]. destruct S. split; [|unfold unbacked in U0; lia|rewrite T; cbn; lia].
    rewrite T. cbn. rewrite <-insert_empty. apply nonneg_insert; [lia|apply nonneg_empty]. }
  destruct (run_ledger calls _ I F) as [[[N C L] _] U]. cbn [acc_state] in U. rewrite U0 in U.
  unfold unbacked in U. split; [lia|done].
Qed.

(** Methods that refuse to work while the contract is paused. *)
Definition guarded (k : ClubCall) : bool :=
  match k with
  | KMint _ _ | KBurn _ _ | KRegister _ | KBlock _ | KUnblock _ | KSymbol | KName | KDecimals | KBlockStatus _
  | KTransfer _ _ _ | KTransferCall _ _ _ _ | KTotalSupply | KBalanceOf _ => true
  | _ => false
  end.

Lemma paused_stays k env r v r' : status (rc_state r) = Paused ->
  club_call k env r = ROk (v, r') -> status (rc_state r') = Paused /\ guarded k = false.
Proof.
  intros P E. destruct k; club_run E; try done;
    match goal with Q : bool_decide (status _ = Paused) = false |- _ =>
      apply bool_decide_eq_false in Q; contradiction end.
Qed.

(** A paused contract cannot be resumed: whatever is called afterwards, it is
    still paused and every guarded method fails. *)
Theorem paused_forever calls acc env k :
  status (acc_state acc) = Paused -> guarded k = true ->
  let acc' := club_run_all calls acc in
  status (acc_state acc') = Paused /\ panics (fst (run_receipt (club_call k) env acc')).
Proof.
  intros P G. cbn zeta.
  assert (status (acc_state (club_run_all calls acc)) = Paused) as P'.
  { revert acc P. induction calls as [|[e c] calls IH]; intros acc P; [done|]. cbn. apply IH.
    destruct (club_step_cases acc e c) as [->|(v & r' & E & ->)]; [done|].
    now apply paused_stays in E as [? _]. }
  split; [done|]. unfold run_receipt.
  destruct (club_call k env _) as [[v r']|[]|w] eqn:E; [|now exists w].
  apply paused_stays in E as [_ E]; [congruence|done].
Qed.

(** Metadata that was read once is gone: after a successful [get_symbol],
    [get_name] or [get_decimals] no call restores it, and [ft_metadata] fails. *)
Theorem metadata_gone calls acc env0 k v r0 env :
  (k = KSymbol \/ k = KName \/ k = KDecimals) ->
  club_call k env0 (MkReceipt (acc_state acc) (acc_balance acc + attached_deposit env0) [] []) = ROk (v, r0) ->
  let acc' := club_run_all calls (club_step acc (env0, k)) in
  token_metadata (acc_state acc') = None /\
  fst (run_receipt (club_call KMetadata) env acc') = RPanic "called `Option::unwrap()` on a `None` value".
Proof.
  intros Hk E. cbn zeta.
  assert (forall k env r v r', token_metadata (rc_state r) = None -> club_call k env r = ROk (v, r') ->
    token_metadata (rc_state r') = None) as Keep.
  { clear. intros k env r v r' N E. destruct k; club_run E; try done; congruence. }
  assert (token_metadata (acc_state (club_step acc (env0, k))) = None) as N0.
  { unfold club_step, run_receipt. cbn [fst snd]. rewrite E. cbn.
    destruct Hk as [->|[->| ->]]; club_run E; done. }
  assert (token_metadata (acc_state (club_run_all calls (club_step acc (env0, k)))) = None) as N.
  { revert N0. generalize (club_step acc (env0, k)) as a. clear -Keep.
    induction calls as [|[e c] calls IH]; intros a N; [done|]. cbn. apply IH.
    destruct (club_step_cases a e c) as [->|(v & r' & E & ->)]; [done|]. now apply Keep in E. }
  split; [done|]. unfold run_receipt, club_call, ft_metadata. nm_run. now rewrite N.
Qed.

Definition owner_only (k : ClubCall) : bool :=
  match k with
  | KMint _ _ | KBurn _ _ | KUpgrade _ _ | KBlock _ | KUnblock _ | KPause | KResume | KSetOwner _ | KSetFee _
  | KSetAssociated _ => true
  | _ => false
  end.

(** The owner is recognised by the signature of the transaction: a call relayed
    by any contract the owner calls has the outcome of the owner's own call. *)
Theorem owner_rights_relayed k env relay r : owner_only k = true ->
  let env' := MkEnv (current_account_id env) (signer_account_id env) relay (attached_deposit env) (block_timestamp env) in
  club_call k env' r = club_call k env r.
Proof.
  intros O. destruct k; try discriminate O; unfold club_call, mint_tokens, burn_tokens, burn_tokens_internal,
    upgrade_token_name_symbol, add_to_blocklist, remove_from_blocklist, pause, resume, set_owner,
    set_registration_fee_denominator, set_associated_contract, only_owner, not_paused, set_token, set_metadata,
    set_block_list, set_status; nm_run;
    repeat (match goal with |- context [match ?b with _ => _ end] =>
      lazymatch b with context [match _ with _ => _ end] => fail | _ => destruct b end end; nm_run); done.
Qed.

(** Bans look at the signer while the token core moves the caller's tokens: a
    banned account transfers when it is called by an account that is not banned
    and holds the amount. *)
Theorem ban_bypassed env self b to z memo :
  status self = Working -> block_list self !! predecessor_account_id env = Some Banned ->
  block_list self !! signer_account_id env = None ->
  transfer_allowed env (malborn_token self) to z -> z <= held (accounts (malborn_token self)) (signer_account_id env) ->
  let acc' := club_step (MkAccount self b) (env, KTransfer to z memo) in
  malborn_token (acc_state acc') = ft_move (malborn_token self) (predecessor_account_id env) to z.
Proof.
  intros S B U T Z. cbn zeta. unfold club_step, run_receipt, club_call, ft_transfer, not_banned, get_blocklist_status,
    ft_balance_of, not_paused. cbn [fst snd]. rewrite call_method_run by (intros; intuition discriminate).
  assert (bool_decide (status self = Paused) = false) as P by now rewrite S.
  nm_run. rewrite ?P. nm_run. rewrite ?P. nm_run. rewrite U.
  change (bool_decide (Allowed = Banned)) with false. nm_run. rewrite ?P. nm_run.
  rewrite lib_ft_balance_of_ok. if_true; [|done]. nm_run.
  unfold on_token. cbn.
  match goal with |- context [lib_ft_transfer _ _ _ _ ?q] => destruct (lib_ft_transfer_total to z memo env q T) as [r' E] end.
  rewrite E. apply lib_ft_transfer_ok in E as (_ & _ & Q). cbn. now rewrite Q.
Qed.

End club_props.
