(* ===== verification/NearSystem.v ===== *)
(** * The club and the associated contract together

    A member calls [register_for_event] of the club; the fee is burned in that
    receipt, and a second receipt carries the registration to the associated
    contract with the club as its caller.  The two receipts are independent:
    the second can fail when the first has succeeded. *)

From S2P Require Import Prelude Rust Ledger NearSdk NearAssociated NearRegistry NearClub NearClubProps.

(** ** Receipts between the two accounts *)

Record NearWorld := MkNearWorld {
  w_club : Account MalbornClubContract; w_assoc : Account AssocState }.

Definition json_arg (name : string) (args : list (string * JsonValue)) : option JsonValue :=
  snd <$> List.find (fun a => bool_decide (fst a = name)) args.

(** The arguments of [register_for_an_event]: [event_id] is a [U64] there. *)
Definition parse_register (args : list (string * JsonValue)) : option (Z * AccountId) :=
  match json_arg "event_id" args, json_arg "account_id" args with
  | Some (JDec i), Some (JAccount a) => if (0 <=? i) && (i <? 2 ^ 64) then Some (i, a) else None
  | _, _ => None
  end.

Lemma parse_register_args i a : parse_register [("event_id", JDec i); ("account_id", JAccount a)] =
  if (0 <=? i) && (i <? 2 ^ 64) then Some (i, a) else None.
Proof. reflexivity. Qed.

Section system.
  Context `{BuildProfile, NearBorshOk, FtLibOk, Borsh Event, Borsh LookupSet}.
  Context (club_account assoc_account : AccountId).

(** The environment of the second receipt: signed by the same account, called
    by the club. *)
Definition receipt_env (env : Env) (now : Z) : Env :=
  MkEnv assoc_account (signer_account_id env) club_account 0 now.

Definition deliver (env : Env) (now : Z) (p : Promise) (assoc : Account AssocState) : Account AssocState :=
  match p with
  | PFunctionCall to method args _ =>
      if bool_decide (to = assoc_account) && bool_decide (method = "register_for_an_event") then
        match parse_register args with
        | Some (i, a) => snd (run_receipt (assoc_call (AcRegister i a)) (receipt_env env now) assoc)
        | None => assoc
        end
      else assoc
  | PTransfer _ _ => assoc
  end.

(** The transaction and the receipts it causes. *)
Definition register_transaction (env : Env) (now event_id : Z) (w : NearWorld) : NearWorld :=
  let '(o, club) := run_receipt (club_call (KRegister event_id)) env (w_club w) in
  match o with
  | ROk d => MkNearWorld club (foldl (fun a p => deliver env now p a) (w_assoc w) (done_promises d))
  | _ => MkNearWorld club (w_assoc w)
  end.

(** ** Behaviour *)

Definition registration_fee (self : MalbornClubContract) : Z :=
  total_supply (malborn_token self) / registration_fee_denominator self.

(** When the first receipt accepts a registration of the signer. *)
Definition may_register (env : Env) (self : MalbornClubContract) : Prop :=
  status self = Working /\ is_Some (associated_contract_account_id self) /\
  block_list self !! signer_account_id env <> Some Banned /\ 0 < registration_fee_denominator self /\
  is_Some (accounts (malborn_token self) !! signer_account_id env) /\
  registration_fee self <= held (accounts (malborn_token self)) (signer_account_id env) /\ attached_deposit env = 0.

(** The token after the fee of an account was burned. *)
Definition fee_burned (self : MalbornClubContract) (user : AccountId) : FungibleToken :=
  let t := malborn_token self in
  MkFt (<[user := held (accounts t) user - registration_fee self]> (accounts t)) (total_supply t - registration_fee self).

Lemma register_run env self b i to : may_register env self -> club_inv self ->
  associated_contract_account_id self = Some to ->
  exists d, run_receipt (club_call (KRegister i)) env (MkAccount self b) =
    (ROk d, MkAccount (MkClub (owner_id self) (fee_burned self (signer_account_id env)) (token_metadata self)
               (block_list self) (status self) (associated_contract_account_id self)
               (registration_fee_denominator self)) b) /\
  done_promises d = [PFunctionCall to "register_for_an_event"
    [("event_id", JDec i); ("account_id", JAccount (signer_account_id env))] GAS_FOR_REGISTER].
Proof.
  intros (S & _ & B & D & [v A] & F & Hd) [[N C _] _] T.
  assert (held (accounts (malborn_token self)) (signer_account_id env) = v) as Hh by (unfold held; now rewrite A).
  assert (registration_fee self <= total_supply (malborn_token self)) as Fs.
  { unfold registration_fee in *. rewrite Hh in F. pose proof (held_le_msum _ (signer_account_id env) N). lia. }
  assert (bool_decide (status self = Paused) = false) as P by now rewrite S.
  assert (bool_decide (match block_list self !! signer_account_id env with Some u => u | None => Allowed end = Banned) = false) as Q.
  { apply bool_decide_false. destruct (block_list self !! _); congruence. }
  unfold run_receipt, club_call. rewrite call_method_run by (intros; done || discriminate).
  unfold register_for_event, not_banned, get_blocklist_status, burn_tokens_internal, not_paused, set_token, promise_call.
  nm_run. rewrite ?P. nm_run. rewrite T, bool_decide_true by eauto. nm_run. rewrite ?P. nm_run.
  rewrite Q. nm_run. rewrite (proj2 (Z.eqb_neq _ 0)) by lia. nm_run.
  fold (registration_fee self). rewrite (proj2 (Z.leb_le _ _) Fs). nm_run. rewrite A. nm_run.
  rewrite Hh in F. rewrite (proj2 (Z.leb_le _ _) F). nm_run.
  unfold checked_sub. rewrite (proj2 (Z.leb_le _ _) Fs), (proj2 (Z.leb_le _ _) F). nm_run.
  unfold fee_burned. rewrite Hh, Hd, Z.add_0_r, T. eexists. split; reflexivity.
Qed.

(** ** The second receipt *)

Context `{!BorshOk Event Event_wf, !BorshOk LookupSet LookupSet_wf}.

(** When the associated contract accepts a registration by the club. *)
Definition accepted (g : Registry) (i : Z) : bool :=
  bool_decide (club_account ∈ reg_clubs g) && (0 <=? i) && (i <? 2 ^ 64) &&
  match reg_events g !! i with Some e => is_live e | None => false end.

Lemma spec_register env g b i a : attached_deposit env = 0 -> predecessor_account_id env = club_account ->
  0 <= i < 2 ^ 64 ->
  acc_state (snd (run_receipt (spec_call (AcRegister i a)) env (MkAccount g b))) =
    if accepted g i then reg_add_user i a g else g.
Proof.
  intros D P I. unfold run_receipt, spec_call. rewrite call_method_run by (intros; done || discriminate).
  unfold spec_method, accepted. nm_run. rewrite P. destruct (bool_decide (club_account ∈ reg_clubs g)); nm_run; [|done].
  rewrite (proj2 (Z.leb_le 0 i)), (proj2 (Z.ltb_lt i (2 ^ 64))) by lia. cbn.
  destruct (reg_events g !! i) as [e|]; nm_run; [|done]. now destruct (is_live e).
Qed.

Lemma deliver_registration env now i assoc g gas :
  represents (acc_state assoc) g -> valid_account club_account -> valid_account (signer_account_id env) ->
  uint 64 now -> 0 <= i ->
  represents (acc_state (deliver env now (PFunctionCall assoc_account "register_for_an_event"
    [("event_id", JDec i); ("account_id", JAccount (signer_account_id env))] gas) assoc))
    (if accepted g i then reg_add_user i (signer_account_id env) g else g).
Proof.
  intros R Vc Vs Hn Hi. unfold deliver. rewrite !bool_decide_true by done. cbn [andb].
  rewrite parse_register_args, (proj2 (Z.leb_le 0 i)) by done. cbn [andb].
  destruct (i <? 2 ^ 64) eqn:L.
  - zify_bools. pose proof (receipt_related (AcRegister i (signer_account_id env)) (receipt_env env now) assoc
      (MkAccount g (acc_balance assoc))) as Rel.
    rewrite <-(spec_register (receipt_env env now) g (acc_balance assoc) i (signer_account_id env)) by done.
    destruct (run_receipt (assoc_call _) _ _) as [o a1], (run_receipt (spec_call _) _ _) as [o' a1'].
    apply Rel; [|exact R|done]. split; [done|]. split; [done|]. split; [split; lia|done].
  - unfold accepted. rewrite L, andb_false_r. done.
Qed.

(** C14: A member registers for an event: the fee is burned whenever the club
    accepts the call; the member is registered just when the club is
    privileged there and the event exists and is live.  In the other cases the
    fee is lost. *)
Theorem registration_flow env now i self b assoc g :
  may_register env self -> club_inv self -> associated_contract_account_id self = Some assoc_account ->
  represents (acc_state assoc) g -> valid_account club_account -> valid_account (signer_account_id env) ->
  uint 64 now -> 0 <= i ->
  let user := signer_account_id env in
  let w := register_transaction env now i (MkNearWorld (MkAccount self b) assoc) in
  malborn_token (acc_state (w_club w)) = fee_burned self user /\
  represents (acc_state (w_assoc w)) (if accepted g i then reg_add_user i user g else g).
Proof.
  intros M I T R Vc Vs Hn Hi. cbn zeta. unfold register_transaction. cbn [w_club w_assoc].
  destruct (register_run env self b i assoc_account M I T) as (d & -> & ->). cbn [foldl w_club w_assoc].
  split; [done|]. now apply deliver_registration.
Qed.

End system.
