(* ===== verification/NearWitnesses.v ===== *)
(** * The NEAR contracts: theorems at concrete inputs

    Byte formats for what the associated contract stores and a fungible token
    library over maps, which satisfy the laws of their classes; a club, an
    associated contract and a staking contract with a few accounts. *)

From S2P Require Import Prelude Rust Ledger NearSdk NearStaking NearAssociated NearRegistry NearClub NearClubProps NearSystem.

(** ** Byte formats *)

Definition checked_build : BuildProfile := true.
#[local] Existing Instance checked_build.

Definition borsh_bytes (t : bytes) : bytes := le 4 (len t) ++ t.
Definition unborsh_bytes (b : bytes) : option bytes :=
  let t := drop 4 b in if le_value (take 4 b) =? len t then Some t else None.

Lemma unborsh_borsh t : uint 32 (len t) -> unborsh_bytes (borsh_bytes t) = Some t.
Proof.
  intros Ht. unfold unborsh_bytes, borsh_bytes.
  rewrite take_app_length', drop_app_length' by now rewrite le_length.
  rewrite le_value_le by exact Ht. now rewrite Z.eqb_refl.
Qed.

#[local] Instance borsh_event : Borsh Event := {|
  borsh_to_vec e := le 8 (created_timestamp e) ++ (if is_live e then x01 else x00)
    :: match title e with None => [x00] | Some t => x01 :: borsh_bytes t end;
  borsh_try_from_slice b :=
    match drop 8 b with
    | live :: x00 :: _ => Some (MkEvent (le_value (take 8 b)) (bool_decide (live = x01)) None)
    | live :: x01 :: t => t ← unborsh_bytes t; Some (MkEvent (le_value (take 8 b)) (bool_decide (live = x01)) (Some t))
    | _ => None
    end |}.
#[local] Instance borsh_event_ok : BorshOk Event Event_wf.
Proof.
  intros [ts live [t|]] [Hts Ht]; cbn [borsh_try_from_slice borsh_to_vec borsh_event created_timestamp is_live title] in *;
    rewrite take_app_length', drop_app_length' by now rewrite le_length.
  - rewrite unborsh_borsh, le_value_le by done. now destruct live.
  - rewrite le_value_le by done. now destruct live.
Qed.

#[local] Instance borsh_set : Borsh LookupSet := {|
  borsh_to_vec s := borsh_bytes (set_prefix s); borsh_try_from_slice b := MkLookupSet <$> unborsh_bytes b |}.
#[local] Instance borsh_set_ok : BorshOk LookupSet LookupSet_wf.
Proof. intros [p] Hp. cbn [borsh_try_from_slice borsh_to_vec borsh_set set_prefix]. now rewrite unborsh_borsh. Qed.

(** ** A fungible token library *)

#[local] Instance transfer_allowed_dec env t to z : Decision (transfer_allowed env t to z).
Proof. unfold transfer_allowed. apply _. Defined.

(** Replace the token, or fail. *)
Definition token_step {A} (a : A) (t : Env -> FungibleToken -> option FungibleToken) : NM FungibleToken A := fun env r =>
  match t env (rc_state r) with
  | Some t' => ROk (a, MkReceipt t' (rc_balance r) (rc_promises r) (rc_logs r))
  | None => RPanic "token"
  end.

Definition move_step (to : AccountId) (z : Z) (env : Env) (t : FungibleToken) : option FungibleToken :=
  if decide (transfer_allowed env t to z) then Some (ft_move t (predecessor_account_id env) to z) else None.

Definition deposit_step (a : AccountId) (z : Z) (_ : Env) (t : FungibleToken) : option FungibleToken :=
  b ← accounts t !! a;
  if (b + z <? 2 ^ 128) && (total_supply t + z <? 2 ^ 128)
  then Some (MkFt (<[a := b + z]> (accounts t)) (total_supply t + z)) else None.

Definition register_step (a : AccountId) (_ : Env) (t : FungibleToken) : option FungibleToken :=
  match accounts t !! a with Some _ => Some t | None => Some (MkFt (<[a := 0]> (accounts t)) (total_supply t)) end.

(** Leaving is possible with an empty balance only. *)
Definition leave : NM FungibleToken (option (AccountId * Z)) := fun env r =>
  let a := predecessor_account_id env in
  match accounts (rc_state r) !! a with
  | Some 0 => ROk (Some (a, 0), MkReceipt (MkFt (delete a (accounts (rc_state r))) (total_supply (rc_state r) - 0))
                                  (rc_balance r) (rc_promises r) (rc_logs r))
  | _ => ROk (None, r)
  end.

#[local] Instance map_ft : FtLib := {|
  FT_METADATA_SPEC := "ft-1.0.0";
  lib_new _ := MkFt ∅ 0;
  lib_register_account a := token_step tt (register_step a);
  lib_deposit a z := token_step tt (deposit_step a z);
  lib_ft_transfer to z _ := token_step tt (move_step to z);
  lib_ft_transfer_call to z _ _ := token_step tt (move_step to z);
  lib_ft_total_supply := total_supply;
  lib_ft_balance_of t a := held (accounts t) a;
  lib_ft_resolve_transfer _ to z := token_step (z, 0) (fun _ t => if (0 <=? z) && (0 <=? held (accounts t) to) then Some t else None);
  lib_storage_deposit a _ := fun env r =>
    token_step (MkStorageBalance 0 0) (register_step (default (predecessor_account_id env) a)) env r;
  lib_storage_withdraw _ := mret (MkStorageBalance 0 0);
  lib_storage_unregister _ := leave;
  lib_storage_balance_bounds _ := MkBounds 0 None;
  lib_storage_balance_of _ _ := None |}.

Lemma move_step_ok {A} (a : A) to z env r x r' : token_step a (move_step to z) env r = ROk (x, r') ->
  transfer_allowed env (rc_state r) to z /\ keeps_receipt r r' /\
  rc_state r' = ft_move (rc_state r) (predecessor_account_id env) to z.
Proof. unfold token_step, move_step. case_decide; [|done]. intros [= <- <-]. done. Qed.

#[local] Instance map_ft_ok : FtLibOk.
Proof.
  split; try done.
  - intros a env r Ha. eexists. cbn. unfold token_step, register_step. rewrite Ha. split; [reflexivity|done].
  - intros a z env r b Ha Hz Hb Ht. eexists. cbn. unfold token_step, deposit_step. rewrite Ha. cbn.
    replace (_ && _) with true by lia. split; [reflexivity|done].
  - intros to z memo env r u r'. apply move_step_ok.
  - intros to z memo env r Ha. eexists. cbn. unfold token_step, move_step. now rewrite decide_True by done.
  - intros to z memo msg env r u r' E. apply move_step_ok in E as (? & [? _] & ?). done.
  - intros from to z env r u r' E. cbn in E. unfold token_step in E. destruct (_ && _) eqn:Eb; [|done]. inversion E; subst.
    exists 0. cbn. split; [lia|]. split; [lia|]. auto.
  - intros who only env r v r' E. cbn in E. unfold token_step, register_step in E. cbn.
    destruct (accounts (rc_state r) !! _) eqn:Ea; inversion E; subst; auto.
  - intros z env r v r' [= _ <-]. done.
  - intros force env r v r' E. cbn in E. unfold leave in E.
    destruct (accounts (rc_state r) !! _) as [[| |]|] eqn:Ea; inversion E; subst; try done.
    split; [done|]. split; [done|]. auto.
Qed.

(** ** The contracts *)

Definition alice : AccountId := str "alice.near".
Definition bob : AccountId := str "bob.near".
Definition club_id : AccountId := str "club.near".
Definition events_id : AccountId := str "events.near".

(** A call signed and made by [who]. *)
Definition by_account (contract who : AccountId) (deposit : Z) : Env := MkEnv contract who who deposit 1700000000.

(** The owner adds the club and an event, the club registers Bob. *)
Definition event_calls : list (Env * AssocCall) :=
  [(by_account events_id alice 0, AcAddClub club_id); (by_account events_id alice 0, AcAddEvent (str "party"));
   (by_account events_id club_id 0, AcRegister 1 bob); (by_account events_id bob 0, AcRegister 1 alice)].

Ltac small := cbv; repeat split; congruence.

Lemma event_calls_valid : Forall (fun ec => valid_call (fst ec) (snd ec)) event_calls.
Proof. repeat constructor; small. Qed.

Lemma associated_refines_witness :
  let impl := run_calls assoc_call event_calls (MkAccount (MkAssocState (assoc_new alice) ∅) 0) in
  let spec := run_calls spec_call event_calls (MkAccount (reg_new alice) 0) in
  fst impl = fst spec /\ represents (acc_state (snd impl)) (acc_state (snd spec)).
Proof. apply (associated_refines alice 0 event_calls). exact event_calls_valid. Defined.

Definition events_after : Account AssocState :=
  snd (run_calls assoc_call event_calls (MkAccount (MkAssocState (assoc_new alice) ∅) 0)).
Definition checked_bob := fst (run_receipt (assoc_call (AcCheck 1 bob)) (by_account events_id bob 0) events_after).

Lemma registrations_authorized_witness :
  (exists d, checked_bob = ROk d /\ done_value d = VBool true) /\
  exists pre env' post e, event_calls = pre ++ (env', AcRegister 1 bob) :: post /\
    let g := acc_state (spec_run pre (MkAccount (reg_new alice) 0)) in
    predecessor_account_id env' ∈ reg_clubs g /\ reg_events g !! 1 = Some e /\ is_live e = true.
Proof.
  split; [eexists; split; vm_compute; reflexivity|].
  eapply (registrations_authorized alice 0 event_calls (by_account events_id bob 0) 1 bob);
    [exact event_calls_valid|repeat constructor; small|vm_compute; reflexivity|reflexivity].
Defined.

(** ** The club *)

Definition club0 : MalbornClubContract :=
  MkClub alice (MkFt (<[alice := 900000]> (<[bob := 100000]> ∅)) 1000000) None ∅ Working (Some events_id) 10000.

(** The registration of Bob for the event, before he is registered. *)
Definition events_before : Account AssocState :=
  snd (run_calls assoc_call (take 2 event_calls) (MkAccount (MkAssocState (assoc_new alice) ∅) 0)).
Definition registry_before : Registry :=
  acc_state (snd (run_calls spec_call (take 2 event_calls) (MkAccount (reg_new alice) 0))).

Lemma club0_inv : club_inv club0.
Proof.
  split; [|cbn; lia]. split; cbn.
  - apply nonneg_insert; [lia|]. apply nonneg_insert; [lia|apply nonneg_empty].
  - vm_compute. congruence.
  - done.
Qed.

Lemma events_before_represents : represents (acc_state events_before) registry_before.
Proof.
  assert (Forall (fun ec => valid_call (fst ec) (snd ec)) (take 2 event_calls)) as HV by (repeat constructor; small).
  exact (proj1 (proj2 (run_related (take 2 event_calls) (MkAccount (MkAssocState (assoc_new alice) ∅) 0)
    (MkAccount (reg_new alice) 0) HV (new_represents _) eq_refl))).
Qed.

Lemma registration_flow_witness :
  let w := register_transaction club_id events_id (by_account club_id bob 0) 1700000000 1
             (MkNearWorld (MkAccount club0 0) events_before) in
  accepted club_id registry_before 1 = true /\
  malborn_token (acc_state (w_club w)) = fee_burned club0 bob /\
  represents (acc_state (w_assoc w)) (reg_add_user 1 bob registry_before).
Proof.
  split; [vm_compute; reflexivity|].
  apply (registration_flow club_id events_id (by_account club_id bob 0) 1700000000 1 club0 0 events_before registry_before).
  - repeat split; try (vm_compute; congruence); [now eexists|vm_compute; now eexists].
  - exact club0_inv.
  - reflexivity.
  - exact events_before_represents.
  - small.
  - small.
  - small.
  - lia.
Defined.

(** ** Supply and pausing *)

Definition club_calls : list (Env * ClubCall) :=
  [(by_account club_id alice 0, KMint bob 500); (by_account club_id bob 0, KStorageDeposit None None);
   (by_account club_id alice 0, KMint bob 300); (by_account club_id alice 1, KTransfer bob 200 None);
   (by_account club_id alice 0, KPause); (by_account club_id alice 0, KResume); (by_account club_id alice 0, KMint bob 1)].

Definition club_new0 : MalbornClubContract :=
  match club_new false alice 1000 (by_account club_id alice 0) with ROk c => c | _ => club0 end.

(** The first mint is lost: Bob was not registered. *)
Lemma supply_ledger_witness :
  let acc := MkAccount club_new0 0 in let t := malborn_token (acc_state (club_run_all club_calls acc)) in
  lost_in club_calls acc = 500 /\
  total_supply t = msum (accounts t) + lost_in club_calls acc /\ nonneg (accounts t) /\ total_supply t < 2 ^ 128.
Proof.
  split; [vm_compute; reflexivity|].
  apply (supply_ledger alice 1000 (by_account club_id alice 0) club_new0 0 club_calls);
    [small|repeat constructor; small|vm_compute; reflexivity].
Defined.

Lemma paused_forever_witness :
  let acc := club_run_all club_calls (MkAccount club_new0 0) in
  let acc' := club_run_all [(by_account club_id alice 0, KResume)] acc in
  status (acc_state acc) = Paused /\ status (acc_state acc') = Paused /\
  panics (fst (run_receipt (club_call (KTransfer bob 1 None)) (by_account club_id alice 1) acc')).
Proof.
  split; [vm_compute; reflexivity|].
  apply (paused_forever [(by_account club_id alice 0, KResume)]); vm_compute; reflexivity.
Defined.

(** ** Staking *)

Definition stake_calls : list (Env * StakingCall) :=
  [(by_account events_id bob 700, CStake); (by_account events_id bob 0, CUnstake 200); (by_account events_id alice 50, CStake)].

Lemma unstake_always_paid_witness :
  let acc := staking_run stake_calls (MkAccount (staking_new (M := gmap AccountId Z) (by_account events_id alice 0)) 1000) in
  held (stakes (acc_state acc)) bob = 500 /\
  exists done, run_receipt (staking_call (CUnstake 900)) (by_account events_id bob 0) acc =
    (ROk done, MkAccount (after_unstake bob 900 (acc_state acc)) (acc_balance acc - Z.min (held (stakes (acc_state acc)) bob) 900)) /\
    done_value done = true /\ done_promises done = [PTransfer bob (Z.min (held (stakes (acc_state acc)) bob) 900)].
Proof.
  split; [vm_compute; reflexivity|].
  apply (unstake_always_paid (M := gmap AccountId Z) (by_account events_id alice 0) 1000 stake_calls (by_account events_id bob 0) 900);
    [lia|repeat constructor; small|repeat constructor|vm_compute; now eexists|lia|reflexivity].
Defined.
