(* ===== verification/SolanaSdk.v ===== *)
(** * solana-program as the game sees it

    Accounts are a map from addresses to lamports, owner and data; an
    instruction names the accounts it works on and says which of them signed.
    Address derivation, rent and the system program's account creation are a
    class of parameters; the laws are their documented behaviour.  After an
    instruction the runtime refuses changes of accounts that were not passed
    as writable. *)

From S2P Require Import Prelude Rust Ledger.

Abbreviation Pubkey := (list byte).

Record SolAccount := MkSolAccount { lamports : Z; sol_owner : Pubkey; sol_data : bytes }.
#[export] Instance SolAccount_eq_dec : EqDecision SolAccount.
Proof. solve_decision. Defined.

Record AccountInfo := MkAccountInfo { info_key : Pubkey; is_signer : bool; is_writable : bool }.

Inductive ProgramError :=
| IllegalOwner | AccountBorrowFailed | InvalidAccountData | NotEnoughAccountKeys | MissingRequiredSignature
| AccountAlreadyInitialized | InsufficientFunds | MaxAccountsDataAllocationsExceeded | BorshIoError
| ReadonlyDataModified | CpiFailed (code : Z).
#[export] Instance ProgramError_eq_dec : EqDecision ProgramError.
Proof. solve_decision. Defined.

Class SolanaSdk : Type := {
  program_id : Pubkey;
  system_program_id : Pubkey;
  find_program_address : list bytes -> Pubkey -> Pubkey * byte;
  minimum_balance : Z -> Z;
  (** The size the compiler gives the type [User]. *)
  size_of_User : Z;
  (** [invoke_signed] of [create_account], with the seeds it is signed with. *)
  create_account_cpi : AccountInfo -> AccountInfo -> Z -> Z -> Pubkey -> list bytes ->
    gmap Pubkey SolAccount -> result ProgramError (gmap Pubkey SolAccount) }.

Section sdk.
  Context `{SolanaSdk}.

(** An address without an account reads as an empty one of the system program. *)
Definition sol_load (accs : gmap Pubkey SolAccount) (k : Pubkey) : SolAccount :=
  default (MkSolAccount 0 system_program_id []) (accs !! k).

(** The account a payment and a new account leave behind. *)
Definition paid (accs : gmap Pubkey SolAccount) (k : Pubkey) (z : Z) : SolAccount :=
  let a := sol_load accs k in MkSolAccount (lamports a - z) (sol_owner a) (sol_data a).

(** When the system program creates an account: the payer signed, is writable
    and can pay; the new address is writable, signed for by its seeds, and has
    neither lamports nor data nor another owner. *)
Definition creatable (accs : gmap Pubkey SolAccount) (from to : AccountInfo) (z space : Z) (seeds : list bytes) : Prop :=
  is_signer from = true /\ is_writable from = true /\ is_writable to = true /\ info_key from <> info_key to /\
  z <= lamports (sol_load accs (info_key from)) /\ sol_data (sol_load accs (info_key from)) = [] /\
  sol_owner (sol_load accs (info_key from)) = system_program_id /\
  (exists bump pre, seeds = pre ++ [[bump]] /\ find_program_address pre program_id = (info_key to, bump)) /\
  sol_load accs (info_key to) = MkSolAccount 0 system_program_id [].

Class SolanaSdkOk : Prop := {
  (** The size of a structure covers its fields. *)
  size_of_User_ok : 70 <= size_of_User;
  minimum_balance_ok z : 0 <= minimum_balance z;
  program_not_system : program_id <> system_program_id;
  create_account_ok from to z space owner seeds accs accs' :
    create_account_cpi from to z space owner seeds accs = ROk accs' ->
    creatable accs from to z space seeds /\
    accs' = <[info_key to := MkSolAccount z owner (repeat x00 (Z.to_nat space))]>
              (<[info_key from := paid accs (info_key from) z]> accs);
  create_account_total from to z space owner seeds accs :
    creatable accs from to z space seeds -> exists accs', create_account_cpi from to z space owner seeds accs = ROk accs' }.

(** ** The program monad *)

Definition PM (A : Type) : Type := gmap Pubkey SolAccount -> result ProgramError (A * gmap Pubkey SolAccount).

#[export] Instance PM_ret : MRet PM := fun _ a accs => ROk (a, accs).
#[export] Instance PM_bind : MBind PM := fun _ _ k m accs =>
  match m accs with ROk (a, accs') => k a accs' | RErr e => RErr e | RPanic why => RPanic why end.

Definition fail_with {A} (e : ProgramError) : PM A := fun _ => RErr e.
Definition assert_that (b : bool) : PM unit := fun accs =>
  if b then ROk (tt, accs) else RPanic "assertion `left == right` failed".
Definition of_result {A} (o : result ProgramError A) : PM A := fun accs =>
  match o with ROk a => ROk (a, accs) | RErr e => RErr e | RPanic why => RPanic why end.

(** [next_account_info] *)
Definition next_account_info (it : list AccountInfo) : PM (AccountInfo * list AccountInfo) :=
  match it with a :: rest => mret (a, rest) | [] => fail_with NotEnoughAccountKeys end.

Definition account_of (a : AccountInfo) : PM SolAccount := fun accs => ROk (sol_load accs (info_key a), accs).

(** [signer_key().ok_or(MissingRequiredSignature)?] *)
Definition signer_key (a : AccountInfo) : PM Pubkey :=
  if is_signer a then mret (info_key a) else fail_with MissingRequiredSignature.

(** Writing bytes at the start of an account's data, which must be large enough. *)
Definition write_data (a : AccountInfo) (raw : bytes) : PM unit := fun accs =>
  let acc := sol_load accs (info_key a) in
  if len raw <=? len (sol_data acc)
  then ROk (tt, <[info_key a := MkSolAccount (lamports acc) (sol_owner acc)
                                  (raw ++ drop (length raw) (sol_data acc))]> accs)
  else RErr BorshIoError.

Definition invoke_create_account (from to : AccountInfo) (z space : Z) (owner : Pubkey) (seeds : list bytes) : PM unit :=
  fun accs => match create_account_cpi from to z space owner seeds accs with
              | ROk accs' => ROk (tt, accs') | RErr e => RErr e | RPanic why => RPanic why end.

(** ** Instructions *)

(** Only the accounts passed as writable may differ afterwards. *)
Definition writes_allowed (infos : list AccountInfo) (accs accs' : gmap Pubkey SolAccount) : bool :=
  forallb (fun k => bool_decide (sol_load accs k = sol_load accs' k) ||
                    existsb (fun i => bool_decide (info_key i = k) && is_writable i) infos)
    (elements (dom accs ∪ dom accs')).

Definition run_instruction (m : PM unit) (infos : list AccountInfo) (accs : gmap Pubkey SolAccount)
  : result ProgramError unit * gmap Pubkey SolAccount :=
  match m accs with
  | ROk (_, accs') => if writes_allowed infos accs accs' then (ROk tt, accs') else (RErr ReadonlyDataModified, accs)
  | RErr e => (RErr e, accs)
  | RPanic why => (RPanic why, accs)
  end.

(** ** Lemmas *)

Lemma PM_bind_ok {A B} (m : PM A) (k : A -> PM B) accs b accs'' :
  (m ≫= k) accs = ROk (b, accs'') -> exists a accs', m accs = ROk (a, accs') /\ k a accs' = ROk (b, accs'').
Proof.
  change ((m ≫= k) accs) with (match m accs with
    | ROk (a, accs') => k a accs' | RErr e => RErr e | RPanic why => RPanic why end).
  destruct (m accs) as [[a accs']| |]; try discriminate. eauto.
Qed.

Lemma sol_load_insert accs k a : sol_load (<[k := a]> accs) k = a.
Proof. unfold sol_load. now rewrite lookup_insert_eq. Qed.

Lemma sol_load_insert_ne accs k k' a : k <> k' -> sol_load (<[k := a]> accs) k' = sol_load accs k'.
Proof. intros. unfold sol_load. now rewrite lookup_insert_ne. Qed.

End sdk.

(** Run the steps of an instruction whose outcome is known. *)
Ltac pm_run := unfold next_account_info, account_of, signer_key, fail_with, assert_that, of_result;
  cbv beta delta [mbind mret PM_bind PM_ret]; cbn.
Tactic Notation "pm_run" "in" hyp(H) :=
  unfold next_account_info, account_of, signer_key, fail_with, assert_that, of_result in H;
  cbv beta delta [mbind mret PM_bind PM_ret] in H; cbn in H.
