(* ===== verification/SolanaGame.v ===== *)
(** * The game program

    [HalbornCTF_Rust_Solana/ctf_game/ctf/src/]: game configurations, users with
    credits and a level, minting of credits by the administrator of a
    configuration and levelling up by the user.  The state types and their
    borsh format come first, then the processors and the entry point. *)

From S2P Require Import Prelude Rust Ledger SolanaSdk.

(** ** Constants *)

Definition GAME_CONFIG_SEED : bytes := str "GAME_CONFIG".
Definition USER_SEED : bytes := str "USER".
Definition MAX_LEVEL : Z := 255.

(** ** State *)

Inductive AccountType := Uninitialized | TGameConfig | TUser.
#[export] Instance AccountType_eq_dec : EqDecision AccountType.
Proof. solve_decision. Defined.

Record GameConfig := MkGameConfig { gc_account_type : AccountType; credits_per_level : Z }.
Definition GameConfig_new (credits_per_level : Z) : GameConfig := MkGameConfig TGameConfig credits_per_level.

Record User := MkUser {
  account_type : AccountType; authority : Pubkey; game_config : Pubkey; credits : Z; level : Z }.
Definition User_new (authority game_config : Pubkey) : User := MkUser TUser authority game_config 0 0.

(** The derived borsh encodings: the index of the variant in one byte, the
    fields in order, numbers with the least significant byte first. *)
Definition AccountType_to_byte (t : AccountType) : byte :=
  match t with Uninitialized => x00 | TGameConfig => x01 | TUser => x02 end.
Definition AccountType_of_byte (b : byte) : option AccountType :=
  match b with x00 => Some Uninitialized | x01 => Some TGameConfig | x02 => Some TUser | _ => None end.

Definition GameConfig_serialize (c : GameConfig) : bytes :=
  [AccountType_to_byte (gc_account_type c); zb (credits_per_level c)].
Definition User_serialize (u : User) : bytes :=
  AccountType_to_byte (account_type u) :: authority u ++ game_config u ++ le 4 (credits u) ++ [zb (level u)].

(** [deserialize] reads from the front and ignores what follows. *)
Definition GameConfig_deserialize (raw : bytes) : result ProgramError GameConfig :=
  match raw with
  | t :: c :: _ =>
      match AccountType_of_byte t with Some t => ROk (MkGameConfig t (bz c)) | None => RErr BorshIoError end
  | _ => RErr BorshIoError
  end.
Definition User_deserialize (raw : bytes) : result ProgramError User :=
  if len raw <? 70 then RErr BorshIoError
  else match raw with
       | t :: rest =>
           match AccountType_of_byte t with
           | Some t => ROk (MkUser t (take 32 rest) (take 32 (drop 32 rest)) (le_value (take 4 (drop 64 rest)))
                              (le_value (take 1 (drop 68 rest))))
           | None => RErr BorshIoError
           end
       | [] => RErr BorshIoError
       end.

(** ** Instructions *)

Inductive ProgramInstruction :=
| CreateGameConfig (credits_per_level : Z)
| CreateUser
| MintCreditsToUser (credits : Z)
| UserLevelUp (credits_to_burn : Z).

Definition ProgramInstruction_serialize (i : ProgramInstruction) : bytes :=
  match i with
  | CreateGameConfig c => [x00; zb c]
  | CreateUser => [x01]
  | MintCreditsToUser c => x02 :: le 4 c
  | UserLevelUp c => x03 :: le 4 c
  end.

(** [try_from_slice] accepts no byte more than the instruction. *)
Definition ProgramInstruction_try_from_slice (raw : bytes) : result ProgramError ProgramInstruction :=
  match raw with
  | [x00; c] => ROk (CreateGameConfig (bz c))
  | [x01] => ROk CreateUser
  | [x02; a; b; c; d] => ROk (MintCreditsToUser (le_value [a; b; c; d]))
  | [x03; a; b; c; d] => ROk (UserLevelUp (le_value [a; b; c; d]))
  | _ => RErr BorshIoError
  end.

Section game.
  Context `{BuildProfile, SolanaSdk}.

(** The instruction builders: the accounts each one passes. *)
Definition create_game_config_ix (config admin : Pubkey) (c : Z) : list AccountInfo * bytes :=
  ([MkAccountInfo config false true; MkAccountInfo admin true false; MkAccountInfo system_program_id false false],
   ProgramInstruction_serialize (CreateGameConfig c)).
Definition create_user_ix (config user user_authority : Pubkey) : list AccountInfo * bytes :=
  ([MkAccountInfo config false false; MkAccountInfo user false true; MkAccountInfo user_authority true true;
    MkAccountInfo system_program_id false false], ProgramInstruction_serialize CreateUser).
Definition mint_credits_to_user_ix (config user_account admin : Pubkey) (c : Z) : list AccountInfo * bytes :=
  ([MkAccountInfo config false false; MkAccountInfo user_account false true; MkAccountInfo admin true false],
   ProgramInstruction_serialize (MintCreditsToUser c)).
Definition user_level_up_ix (config user_account user_authority : Pubkey) (c : Z) : list AccountInfo * bytes :=
  ([MkAccountInfo config false false; MkAccountInfo user_account false true; MkAccountInfo user_authority true false],
   ProgramInstruction_serialize (UserLevelUp c)).

(** ** Processors *)

Definition try_get_type (a : AccountInfo) : PM AccountType :=
  acc ← account_of a;
  if negb (bool_decide (sol_owner acc = program_id)) then fail_with IllegalOwner
  else match sol_data acc with
       | [] => fail_with AccountBorrowFailed
       | x01 :: _ => mret TGameConfig
       | x02 :: _ => mret TUser
       | _ => fail_with InvalidAccountData
       end.

Definition create_game_config (credits_per_level : Z) (accounts : list AccountInfo) : PM unit :=
  '(game_config_info, accounts) ← next_account_info accounts;
  '(admin_info, accounts) ← next_account_info accounts;
  '(system_program_info, accounts) ← next_account_info accounts;
  signer ← signer_key admin_info;
  let '(game_config_pubkey, bump) := find_program_address [signer; GAME_CONFIG_SEED] program_id in
  _ ← assert_that (bool_decide (info_key game_config_info = game_config_pubkey));
  acc ← account_of game_config_info;
  if negb (len (sol_data acc) =? 0) then fail_with AccountAlreadyInitialized
  else
    payer ← signer_key admin_info;
    _ ← invoke_create_account admin_info game_config_info (minimum_balance 2) 2 program_id
          [info_key admin_info; GAME_CONFIG_SEED; [bump]];
    write_data game_config_info (GameConfig_serialize (GameConfig_new credits_per_level)).

Definition create_user (accounts : list AccountInfo) : PM unit :=
  '(game_config_info, accounts) ← next_account_info accounts;
  '(user_info, accounts) ← next_account_info accounts;
  '(authority_info, accounts) ← next_account_info accounts;
  '(system_program_info, accounts) ← next_account_info accounts;
  ty ← try_get_type game_config_info;
  _ ← assert_that (bool_decide (ty = TGameConfig));
  signer ← signer_key authority_info;
  let '(user_pubkey, bump) := find_program_address [info_key game_config_info; signer; USER_SEED] program_id in
  _ ← assert_that (bool_decide (info_key user_info = user_pubkey));
  _ ← invoke_create_account authority_info user_info (minimum_balance size_of_User) size_of_User program_id
        [info_key game_config_info; info_key authority_info; USER_SEED; [bump]];
  write_data user_info (User_serialize (User_new (info_key authority_info) (info_key game_config_info))).

Definition mint_credits_to_user (amount : Z) (accounts : list AccountInfo) : PM unit :=
  '(game_config_info, accounts) ← next_account_info accounts;
  '(user_info, accounts) ← next_account_info accounts;
  '(admin_info, accounts) ← next_account_info accounts;
  ty ← try_get_type game_config_info;
  _ ← assert_that (bool_decide (ty = TGameConfig));
  ty ← try_get_type user_info;
  _ ← assert_that (bool_decide (ty = TUser));
  signer ← signer_key admin_info;
  let '(game_config_pubkey, _) := find_program_address [signer; GAME_CONFIG_SEED] program_id in
  _ ← assert_that (bool_decide (info_key game_config_info = game_config_pubkey));
  acc ← account_of user_info;
  user ← of_result (User_deserialize (sol_data acc));
  _ ← assert_that (bool_decide (game_config user = info_key game_config_info));
  total ← of_result (arith 32 (credits user + amount));
  write_data user_info (User_serialize (MkUser (account_type user) (authority user) (game_config user) total (level user))).

(** The loop of [user_level_up] on [iterator], [level_credits],
    [next_level_credits] and [stop]; every turn raises the iterator or stops,
    so 256 turns are enough. *)
Fixpoint level_loop (fuel : nat) (per_level credits_to_burn iterator level_credits next_level_credits : Z) (stop : bool)
  : result ProgramError (Z * Z) :=
  if (next_level_credits <? credits_to_burn) && negb stop then
    match fuel with
    | O => RPanic "out of fuel"
    | S fuel =>
        let level_credits := next_level_credits in
        if iterator <? MAX_LEVEL then
          iterator ← arith 8 (iterator + 1);
          cost ← arith 32 (iterator * per_level);
          next_level_credits ← arith 32 (next_level_credits + cost);
          level_loop fuel per_level credits_to_burn iterator level_credits next_level_credits stop
        else level_loop fuel per_level credits_to_burn iterator level_credits next_level_credits true
    end
  else ROk (iterator, level_credits).

Definition level_fuel : nat := 257.

Definition user_level_up (credits_to_burn : Z) (accounts : list AccountInfo) : PM unit :=
  '(game_config_info, accounts) ← next_account_info accounts;
  '(user_info, accounts) ← next_account_info accounts;
  '(authority_info, accounts) ← next_account_info accounts;
  ty ← try_get_type game_config_info;
  _ ← assert_that (bool_decide (ty = TGameConfig));
  ty ← try_get_type user_info;
  _ ← assert_that (bool_decide (ty = TUser));
  gc ← account_of game_config_info;
  config ← of_result (GameConfig_deserialize (sol_data gc));
  uc ← account_of user_info;
  user ← of_result (User_deserialize (sol_data uc));
  signer ← signer_key authority_info;
  _ ← assert_that (bool_decide (signer = authority user));
  start ← of_result (arith 32 (level user * credits_per_level config));
  '(iterator, level_credits) ← of_result (level_loop level_fuel (credits_per_level config) credits_to_burn
                                            (level user) start start false);
  rest ← of_result (arith 32 (credits user - level_credits));
  if negb (0 <? rest) then fail_with InsufficientFunds
  else write_data user_info (User_serialize (MkUser (account_type user) (authority user) (game_config user) rest iterator)).

(** ** Entry point *)

Definition process_instruction (accounts : list AccountInfo) (instruction_data : bytes) : PM unit :=
  i ← of_result (ProgramInstruction_try_from_slice instruction_data);
  match i with
  | CreateGameConfig c => create_game_config c accounts
  | CreateUser => create_user accounts
  | MintCreditsToUser c => mint_credits_to_user c accounts
  | UserLevelUp c => user_level_up c accounts
  end.

Definition game_instruction (infos : list AccountInfo) (raw : bytes) (accs : gmap Pubkey SolAccount)
  : result ProgramError unit * gmap Pubkey SolAccount :=
  run_instruction (process_instruction infos raw) infos accs.

End game.
