(* ===== verification/SolanaGameProps.v ===== *)
(** * The game program: what holds of it

    Accounts and instructions survive their byte formats; the levelling loop
    ends and never overflows, and what it charges is less than what the reached
    level costs; the outcome of an instruction on every branch, in both build
    profiles; addresses of the program's accounts always belong to their
    contents; a configuration of another game levels a user up for free. *)

From S2P Require Import Prelude Rust Ledger SolanaSdk SolanaGame.

(** ** Byte formats *)

Definition User_wf (u : User) : Prop :=
  length (authority u) = 32%nat /\ length (game_config u) = 32%nat /\ uint 32 (credits u) /\ uint 8 (level u).
Definition ProgramInstruction_wf (i : ProgramInstruction) : Prop :=
  match i with
  | CreateGameConfig c => uint 8 c | CreateUser => True
  | MintCreditsToUser c | UserLevelUp c => uint 32 c
  end.

Lemma AccountType_roundtrip t : AccountType_of_byte (AccountType_to_byte t) = Some t.
Proof. now destruct t. Qed.

Lemma User_serialize_length u : User_wf u -> length (User_serialize u) = 70%nat.
Proof.
  intros (A & G & _). unfold User_serialize. cbn [length]. rewrite !length_app, le_length, A, G. done.
Qed.

(** Decoding ignores what follows the encoded user. *)
Lemma User_roundtrip u rest : User_wf u -> User_deserialize (User_serialize u ++ rest) = ROk u.
Proof.
  intros W. pose proof (User_serialize_length u W) as L. destruct W as (A & G & [C1 C2] & [L1 L2]).
  unfold User_deserialize. if_false; [|unfold len; rewrite length_app, L; lia].
  unfold User_serialize. cbn [app]. rewrite AccountType_roundtrip, <-!app_assoc.
  rewrite (take_app_length' (authority u)), (drop_app_length' (authority u)) by done.
  rewrite (take_app_length' (game_config u)) by done.
  replace (drop 64 (authority u ++ game_config u ++ le 4 (credits u) ++ [zb (level u)] ++ rest))
    with (le 4 (credits u) ++ [zb (level u)] ++ rest).
  2:{ rewrite (app_assoc (authority u)), (drop_app_length' (authority u ++ game_config u)); [done|].
      rewrite length_app, A, G. done. }
  replace (drop 68 (authority u ++ game_config u ++ le 4 (credits u) ++ [zb (level u)] ++ rest))
    with ([zb (level u)] ++ rest).
  2:{ rewrite (app_assoc (authority u)), (app_assoc (authority u ++ game_config u)).
      rewrite (drop_app_length' ((authority u ++ game_config u) ++ le 4 (credits u))); [done|].
      rewrite !length_app, A, G, le_length. done. }
  rewrite (take_app_length' (le 4 (credits u))) by now rewrite le_length.
  rewrite le_value_le by (change (256 ^ Z.of_nat 4) with (2 ^ 32); lia).
  cbn [app take le_value]. rewrite bz_zb_small by lia. rewrite Z.mul_0_r, Z.add_0_r. now destruct u.
Qed.

Lemma GameConfig_roundtrip c rest : uint 8 (credits_per_level c) ->
  GameConfig_deserialize (GameConfig_serialize c ++ rest) = ROk c.
Proof.
  intros [? ?]. cbn. rewrite AccountType_roundtrip, bz_zb_small by lia. now destruct c.
Qed.

(** Instructions built by the client are the ones the program decodes. *)
Theorem instruction_roundtrip i : ProgramInstruction_wf i ->
  ProgramInstruction_try_from_slice (ProgramInstruction_serialize i) = ROk i.
Proof.
  assert (forall c, uint 32 c -> le_value (le 4 c) = c) as L.
  { intros c Hc. apply le_value_le. exact Hc. }
  destruct i; intros W; cbn [ProgramInstruction_serialize ProgramInstruction_wf] in *.
  - destruct W. cbn. now rewrite bz_zb_small by lia.
  - done.
  - rewrite <-(L _ W) at 2. reflexivity.
  - rewrite <-(L _ W) at 2. reflexivity.
Qed.

Section loop.
  Context `{BuildProfile}.

(** ** Levels *)

(** What it costs to be at level [l + k], counted as the program does from a
    user of level [l]. *)
Fixpoint price (c l : Z) (k : nat) : Z :=
  match k with O => l * c | S k => price c l k + (l + Z.of_nat k + 1) * c end.

Lemma price_bound c l k : 0 <= c -> 0 <= l -> l + Z.of_nat k <= 255 -> 0 <= price c l k <= 255 * c * (Z.of_nat k + 1).
Proof.
  intros Hc Hl. induction k as [|k IH]; intros B.
  - cbn. nia.
  - cbn [price]. specialize (IH ltac:(lia)). rewrite Nat2Z.inj_succ in *. nia.
Qed.

Lemma price_fits c l k : 0 <= c <= 255 -> 0 <= l -> l + Z.of_nat k <= 255 -> uint 32 (price c l k).
Proof. intros Hc Hl B. pose proof (price_bound c l k). unfold uint. nia. Qed.

(** What the loop ends with: the level [l + k] and what is charged for it. *)
Definition loop_result (c burn l : Z) (k0 : nat) (charged0 : Z) (it charged : Z) : Prop :=
  exists k, (k0 <= k)%nat /\ it = l + Z.of_nat k /\ it <= 255 /\
  ((k = k0 /\ burn <= price c l k0 /\ charged = charged0) \/
   ((k0 < k)%nat /\ charged = price c l (k - 1) /\ price c l (k - 1) < burn <= price c l k) \/
   (it = 255 /\ charged = price c l k /\ price c l k < burn)).

Lemma level_loop_from fuel c burn l k lc : 0 <= c <= 255 -> 0 <= l -> l + Z.of_nat k <= 255 ->
  256 - (l + Z.of_nat k) <= Z.of_nat fuel ->
  exists it charged, level_loop fuel c burn (l + Z.of_nat k) lc (price c l k) false = ROk (it, charged) /\
    loop_result c burn l k lc it charged.
Proof.
  intros Hc Hl. revert k lc. induction fuel as [|f IH]; intros k lc Hk Hf; [lia|].
  cbn [level_loop]. destruct (Z.ltb_spec (price c l k) burn) as [B|B]; cbn [andb negb].
  2:{ do 2 eexists. split; [reflexivity|]. exists k. split; [done|]. split; [done|]. split; [done|]. now left. }
  unfold MAX_LEVEL. destruct (Z.ltb_spec (l + Z.of_nat k) 255) as [M|M].
  - rewrite arith_fits by (split; lia). cbn.
    pose proof (price_fits c l (S k) Hc Hl ltac:(lia)) as [P1 P2]. pose proof (price_fits c l k Hc Hl ltac:(lia)) as [Q1 Q2].
    cbn [price] in P1, P2. rewrite arith_fits by (split; nia). cbn. rewrite arith_fits by (split; lia). cbn.
    replace (l + Z.of_nat k + 1) with (l + Z.of_nat (S k)) by lia.
    replace (price c l k + (l + Z.of_nat (S k)) * c) with (price c l (S k)) by (cbn [price]; lia).
    destruct (IH (S k) (price c l k) ltac:(lia) ltac:(lia)) as (it & ch & -> & k' & K & -> & I & Cases).
    do 2 eexists. split; [reflexivity|]. exists k'. split; [lia|]. split; [done|]. split; [done|]. right.
    destruct Cases as [(-> & E & ->)|[(K' & -> & E)|(E1 & -> & E2)]].
    + left. split; [lia|]. replace (S k - 1)%nat with k by lia. done.
    + left. split; [lia|done].
    + right. done.
  - destruct f as [|f']; cbn; rewrite (proj2 (Z.ltb_lt _ _) B); cbn;
      (do 2 eexists; split; [reflexivity|]; exists k; split; [done|]; split; [done|]; split; [done|]; right; right;
       split; [lia|done]).
Qed.

(** The loop of [user_level_up] ends within its fuel for every level, price
    and amount, without overflow. *)
Theorem level_loop_total c burn l : uint 8 c -> uint 8 l ->
  exists it charged, level_loop level_fuel c burn l (l * c) (l * c) false = ROk (it, charged) /\
    loop_result c burn l 0 (l * c) it charged.
Proof.
  intros [? ?] [? ?]. pose proof (level_loop_from level_fuel c burn l 0 (l * c)) as L.
  cbn [price Z.of_nat] in L. rewrite Z.add_0_r in L. apply L; unfold level_fuel; lia.
Qed.

End loop.

#[local] Opaque level_fuel GAME_CONFIG_SEED USER_SEED.

Section game_props.
  Context `{BuildProfile, SolanaSdkOk}.
  Implicit Types (accs : gmap Pubkey SolAccount) (gc ui au : AccountInfo).

(** ** Accounts of the program *)

Definition user_at accs (k : Pubkey) (u : User) : Prop :=
  sol_owner (sol_load accs k) = program_id /\ User_wf u /\ account_type u = TUser /\
  exists rest, sol_data (sol_load accs k) = User_serialize u ++ rest.
Definition config_at accs (k : Pubkey) (c : Z) : Prop :=
  sol_owner (sol_load accs k) = program_id /\ uint 8 c /\
  exists rest, sol_data (sol_load accs k) = GameConfig_serialize (GameConfig_new c) ++ rest.

(** The accounts after the data of a user was rewritten. *)
Definition set_user accs (k : Pubkey) (u : User) : gmap Pubkey SolAccount :=
  let a := sol_load accs k in
  <[k := MkSolAccount (lamports a) (sol_owner a) (User_serialize u ++ drop 70 (sol_data a))]> accs.

Lemma type_of_user accs ui u : user_at accs (info_key ui) u -> try_get_type ui accs = ROk (TUser, accs).
Proof.
  intros (O & _ & T & rest & D). unfold try_get_type. pm_run. rewrite bool_decide_true by done. cbn.
  rewrite D. unfold User_serialize. rewrite T. done.
Qed.

Lemma type_of_config accs gc c : config_at accs (info_key gc) c -> try_get_type gc accs = ROk (TGameConfig, accs).
Proof.
  intros (O & _ & rest & D). unfold try_get_type. pm_run. rewrite bool_decide_true by done. cbn. now rewrite D.
Qed.

Lemma write_user accs ui u u' : user_at accs (info_key ui) u -> User_wf u' ->
  write_data ui (User_serialize u') accs = ROk (tt, set_user accs (info_key ui) u').
Proof.
  intros (_ & W & _ & rest & D) W'. unfold write_data, set_user.
  assert (len (User_serialize u') = 70) as L by (unfold len; rewrite User_serialize_length by done; done).
  if_true; [|rewrite L, D, len_app; unfold len at 1; rewrite User_serialize_length by done; pose proof (len_nonneg rest); lia].
  now rewrite User_serialize_length.
Qed.

Lemma set_user_at accs k u u' : user_at accs k u -> User_wf u' -> account_type u' = TUser -> user_at (set_user accs k u') k u'.
Proof.
  intros (O & _) W' T. unfold user_at, set_user. rewrite sol_load_insert. cbn. eauto.
Qed.

Lemma writes_one infos accs k a : existsb (fun i => bool_decide (info_key i = k) && is_writable i) infos = true ->
  writes_allowed infos accs (<[k := a]> accs) = true.
Proof.
  intros E. unfold writes_allowed. apply forallb_forall. intros x _. destruct (decide (k = x)) as [->|N].
  - rewrite E. apply orb_true_r.
  - rewrite sol_load_insert_ne, bool_decide_true by done. done.
Qed.

(** ** Levelling up *)

Definition levelled (u : User) (rest it : Z) : User :=
  MkUser (account_type u) (authority u) (game_config u) rest it.

(** The outcome for a user that signs, on every branch.  When the charge
    exceeds the credits, a build with overflow checks panics; one without them
    leaves the user with almost 2^32 credits and the level. *)
Theorem user_level_up_run accs gc ui au c u burn :
  config_at accs (info_key gc) c -> user_at accs (info_key ui) u ->
  is_signer au = true -> info_key au = authority u ->
  exists it charged, loop_result c burn (level u) 0 (level u * c) it charged /\
  user_level_up burn [gc; ui; au] accs =
    if credits u <? charged then
      if overflow_checks then RPanic "attempt to compute with overflow"
      else ROk (tt, set_user accs (info_key ui) (levelled u (credits u - charged + 2 ^ 32) it))
    else if credits u =? charged then RErr InsufficientFunds
    else ROk (tt, set_user accs (info_key ui) (levelled u (credits u - charged) it)).
Proof.
  intros Hc Hu Sg K. pose proof Hu as (_ & W & T & rest & D). pose proof W as (WA & WG & [C1 C2] & WL).
  pose proof Hc as (_ & Uc & crest & Dc).
  destruct (level_loop_total c burn (level u) Uc WL) as (it & ch & E & R). exists it, ch. split; [done|].
  assert (uint 8 it /\ uint 32 ch) as [[I1 I2] [H1' H2']].
  { destruct R as (k & _ & -> & B & Cs), Uc as [? ?], WL as [? ?]. split; [split; lia|].
    assert (forall j, (j <= k)%nat -> uint 32 (price c (level u) j)) as P by (intros; apply price_fits; lia).
    destruct Cs as [(-> & _ & ->)|[(? & -> & _)|(_ & -> & _)]]; [apply (P 0%nat)|apply P|apply P]; lia. }
  unfold user_level_up. pm_run. rewrite (type_of_config _ _ _ Hc). cbn. rewrite (bool_decide_true (TGameConfig = _)) by done. cbn.
  rewrite (type_of_user _ _ _ Hu). cbn. rewrite (bool_decide_true (TUser = _)) by done. cbn.
  rewrite Dc, GameConfig_roundtrip by done. cbn [credits_per_level GameConfig_new].
  rewrite D, User_roundtrip, Sg by done. cbn. rewrite bool_decide_true by done. cbn.
  rewrite (arith_fits 32 (level u * c)) by (apply (price_fits c (level u) 0); destruct Uc, WL; lia). cbn. rewrite E. cbn.
  destruct (Z.ltb_spec (credits u) ch) as [L|L].
  - unfold arith. rewrite (proj2 (Z.leb_gt 0 _)) by lia. cbn.
    destruct overflow_checks; [done|]. cbn.
    assert (uwrap 32 (credits u - ch) = credits u - ch + 2 ^ 32) as ->.
    { unfold uwrap. symmetry. apply (Z.mod_unique _ _ (-1)); lia. }
    if_true; [|lia]. cbn. apply write_user with u; [done|]. repeat split; cbn; (done || lia).
  - rewrite (arith_fits 32) by (split; lia). cbn. destruct (Z.eqb_spec (credits u) ch) as [->|N].
    + rewrite Z.sub_diag. done.
    + if_true; [|lia]. cbn. apply write_user with u; [done|]. repeat split; cbn; (done || lia).
Qed.

(** ** Minting *)

Theorem mint_credits_run accs gc ui au c u z :
  config_at accs (info_key gc) c -> user_at accs (info_key ui) u -> uint 32 z ->
  is_signer au = true -> fst (find_program_address [info_key au; GAME_CONFIG_SEED] program_id) = info_key gc ->
  game_config u = info_key gc ->
  mint_credits_to_user z [gc; ui; au] accs =
    if credits u + z <? 2 ^ 32 then ROk (tt, set_user accs (info_key ui) (levelled u (credits u + z) (level u)))
    else if overflow_checks then RPanic "attempt to compute with overflow"
    else ROk (tt, set_user accs (info_key ui) (levelled u (credits u + z - 2 ^ 32) (level u))).
Proof.
  intros Hc Hu [Z1 Z2] Sg Pda G. pose proof Hu as (_ & W & T & rest & D). pose proof W as (WA & WG & [C1 C2] & [L1 L2]).
  unfold mint_credits_to_user. pm_run. rewrite (type_of_config _ _ _ Hc). cbn.
  rewrite (bool_decide_true (TGameConfig = _)) by done. cbn.
  rewrite (type_of_user _ _ _ Hu). cbn. rewrite (bool_decide_true (TUser = _)) by done. cbn. rewrite Sg. cbn.
  destruct (find_program_address _ _) as [k bump]. cbn in Pda. subst k. rewrite bool_decide_true by done. cbn.
  rewrite D, User_roundtrip by done. cbn. rewrite G, bool_decide_true by done. cbn.
  destruct (Z.ltb_spec (credits u + z) (2 ^ 32)) as [L|L].
  - rewrite arith_fits by (split; lia). cbn. rewrite <-G. apply write_user with u; [done|]. repeat split; cbn; (done || lia).
  - unfold arith. rewrite (proj2 (Z.ltb_ge _ (2 ^ 32))), andb_false_r by lia.
    destruct overflow_checks; [done|]. cbn.
    assert (uwrap 32 (credits u + z) = credits u + z - 2 ^ 32) as ->.
    { unfold uwrap. symmetry. apply (Z.mod_unique _ _ 1); lia. }
    rewrite <-G. apply write_user with u; [done|]. repeat split; cbn; (done || lia).
Qed.

(** ** A configuration of one's own *)

Lemma create_config_run accs gc au sys c : uint 8 c ->
  is_signer au = true -> fst (find_program_address [info_key au; GAME_CONFIG_SEED] program_id) = info_key gc ->
  creatable accs au gc (minimum_balance 2) 2
    [info_key au; GAME_CONFIG_SEED; [snd (find_program_address [info_key au; GAME_CONFIG_SEED] program_id)]] ->
  exists accs', create_game_config c [gc; au; sys] accs = ROk (tt, accs') /\ config_at accs' (info_key gc) c /\
    (forall k, k <> info_key gc -> k <> info_key au -> sol_load accs' k = sol_load accs k) /\
    (forall k, existsb (fun i => bool_decide (info_key i = k) && is_writable i) [gc; au; sys] = true \/
       sol_load accs k = sol_load accs' k).
Proof.
  intros U Sg Pda Cr. destruct (create_account_total au gc _ 2 program_id _ accs Cr) as [a1 E].
  pose proof (create_account_ok _ _ _ _ _ _ _ _ E) as [_ ->]. pose proof Cr as (_ & Wf & Wt & Ne & _ & _ & _ & _ & Fresh).
  unfold create_game_config. pm_run. rewrite Sg. cbn.
  destruct (find_program_address _ _) as [k bump] eqn:F. cbn in Pda. subst k. rewrite bool_decide_true by done. cbn.
  rewrite Fresh. cbn. change (len (@nil byte) =? 0) with true. cbn. unfold invoke_create_account. cbn [snd] in E. rewrite E. cbn.
  unfold write_data. rewrite sol_load_insert. cbn. eexists. split; [reflexivity|].
  assert (forall k, k <> info_key gc -> k <> info_key au -> sol_load (<[info_key gc := MkSolAccount (minimum_balance 2) program_id [x01; zb c]]>
    (<[info_key gc := MkSolAccount (minimum_balance 2) program_id [x00; x00]]>
      (<[info_key au := paid accs (info_key au) (minimum_balance 2)]> accs))) k = sol_load accs k) as Same.
  { intros k N1 N2. rewrite !sol_load_insert_ne by done. done. }
  split; [|split; [exact Same|]].
  - unfold config_at. rewrite sol_load_insert. cbn. split; [done|]. split; [done|]. now exists [].
  - intros k. destruct (decide (info_key gc = k)) as [<-|N1]; [left; cbn; rewrite (bool_decide_true (info_key gc = _)), Wt by done; done|].
    destruct (decide (info_key au = k)) as [<-|N2]; [|right; symmetry; now apply Same].
    left. cbn. rewrite (bool_decide_true (info_key au = _)), Wf by done. cbn. now rewrite orb_true_r.
Qed.

Lemma process_decoded infos i accs : ProgramInstruction_wf i ->
  process_instruction infos (ProgramInstruction_serialize i) accs =
  match i with
  | CreateGameConfig c => create_game_config c infos
  | CreateUser => create_user infos
  | MintCreditsToUser c => mint_credits_to_user c infos
  | UserLevelUp c => user_level_up c infos
  end accs.
Proof.
  intros W. unfold process_instruction, of_result.
  cbv beta delta [mbind mret PM_bind PM_ret]. now rewrite instruction_roundtrip.
Qed.

(** C28: The transaction a player sends to level up, on every branch.  The level
    reached and the charge are those of [loop_result]; when the charge exceeds
    the credits, a build with overflow checks panics and nothing changes, while
    one without them leaves the user with almost 2^32 credits and the level. *)
Theorem level_up_instruction accs ck uk c u burn :
  config_at accs ck c -> user_at accs uk u -> uint 32 burn ->
  exists it charged, loop_result c burn (level u) 0 (level u * c) it charged /\
  let '(infos, raw) := user_level_up_ix ck uk (authority u) burn in
  game_instruction infos raw accs =
    if credits u <? charged then
      if overflow_checks then (RPanic "attempt to compute with overflow", accs)
      else (ROk tt, set_user accs uk (levelled u (credits u - charged + 2 ^ 32) it))
    else if credits u =? charged then (RErr InsufficientFunds, accs)
    else (ROk tt, set_user accs uk (levelled u (credits u - charged) it)).
Proof.
  intros Hc Hu B.
  destruct (user_level_up_run accs (MkAccountInfo ck false false) (MkAccountInfo uk false true)
    (MkAccountInfo (authority u) true false) c u burn) as (it & ch & R & E); [done..|].
  exists it, ch. split; [exact R|]. cbn [user_level_up_ix]. unfold game_instruction, run_instruction.
  rewrite process_decoded by exact B. rewrite E. unfold set_user.
  destruct (credits u <? ch); [destruct overflow_checks|destruct (credits u =? ch)]; try done; rewrite writes_one; try done;
    cbn; rewrite (bool_decide_true (uk = uk)) by done; cbn; now rewrite orb_true_r.
Qed.

(** A user of any game reaches the last level for nothing: with a configuration
    of their own whose levels cost nothing, which the program does not compare
    with the configuration of the user. *)
Theorem free_last_level accs ck uk ak (u : User) :
  user_at accs uk u -> authority u = ak -> 0 < credits u ->
  let pda := find_program_address [ak; GAME_CONFIG_SEED] program_id in
  let gc := MkAccountInfo ck false true in
  let au := MkAccountInfo ak true true in
  ck = fst pda -> uk <> ck -> uk <> ak ->
  creatable accs au gc (minimum_balance 2) 2 [ak; GAME_CONFIG_SEED; [snd pda]] ->
  let '(o1, accs1) := game_instruction [gc; au; MkAccountInfo system_program_id false false]
                        (ProgramInstruction_serialize (CreateGameConfig 0)) accs in
  let '(infos, raw) := user_level_up_ix ck uk ak 1 in
  let '(o2, accs2) := game_instruction infos raw accs1 in
  o1 = ROk tt /\ o2 = ROk tt /\ user_at accs2 uk (levelled u (credits u) 255).
Proof.
  intros Hu A C pda gc au Ec N1 N2 Cr.
  destruct (create_config_run accs gc au (MkAccountInfo system_program_id false false) 0) as (a1 & E1 & Hc & Same & Wr);
    [split; lia|done|done|exact Cr|].
  unfold game_instruction, run_instruction. rewrite process_decoded by (split; lia). rewrite E1.
  assert (writes_allowed [gc; au; MkAccountInfo system_program_id false false] accs a1 = true) as W1.
  { unfold writes_allowed. apply forallb_forall. intros k _. destruct (Wr k) as [X|X].
    - rewrite X. apply orb_true_r.
    - rewrite X, bool_decide_true by done. done. }
  rewrite W1. cbn [user_level_up_ix]. rewrite process_decoded by (split; lia).
  assert (user_at a1 uk u) as Hu1. { unfold user_at in *. now rewrite Same. }
  destruct (user_level_up_run a1 (MkAccountInfo ck false false) (MkAccountInfo uk false true) (MkAccountInfo ak true false) 0 u 1)
    as (it & ch & R & E2); [done|done|done|done|].
  assert (forall k, price 0 (level u) k = 0) as P0 by (induction k; cbn [price]; lia).
  assert (it = 255 /\ ch = 0) as [-> ->].
  { destruct R as (k & _ & _ & _ & [(_ & B & _)|[(_ & _ & _ & B)|(I & -> & _)]]);
      [rewrite P0 in B; lia|rewrite P0 in B; lia|now rewrite P0]. }
  cbn [fst snd]. rewrite E2. do 2 (if_false; [|lia]). rewrite Z.sub_0_r. unfold set_user. rewrite writes_one.
  - split; [done|]. split; [done|].
    apply (set_user_at a1 uk u); [done| |now destruct Hu1 as (_ & _ & ? & _)].
    destruct Hu1 as (_ & (W1' & W2' & [W3' W4'] & _) & _). repeat split; cbn; (done || lia).
  - cbn. rewrite (bool_decide_true (uk = uk)) by done. cbn. now rewrite orb_true_r.
Qed.

(** ** Addresses belong to contents *)

(** An account of the program is blank, or a configuration at the address of
    an administrator, or a user at the address of its configuration and
    authority. *)
Definition bound_account (k : Pubkey) (a : SolAccount) : Prop :=
  sol_owner a = program_id ->
  Forall (eq x00) (sol_data a) \/
  (exists admin c, uint 8 c /\ fst (find_program_address [admin; GAME_CONFIG_SEED] program_id) = k /\
     sol_data a = GameConfig_serialize (GameConfig_new c)) \/
  (exists u rest, User_wf u /\ account_type u = TUser /\
     fst (find_program_address [game_config u; authority u; USER_SEED] program_id) = k /\
     sol_data a = User_serialize u ++ rest).

Definition game_inv accs : Prop := map_Forall bound_account accs.

Lemma inv_load accs k : game_inv accs -> bound_account k (sol_load accs k).
Proof.
  intros I. unfold sol_load. destruct (accs !! k) eqn:E; [exact (I _ _ E)|].
  intros O. cbn in O. now destruct program_not_system.
Qed.

Lemma typed accs i ty accs' : try_get_type i accs = ROk (ty, accs') ->
  accs' = accs /\ sol_owner (sol_load accs (info_key i)) = program_id /\
  exists rest, sol_data (sol_load accs (info_key i)) = AccountType_to_byte ty :: rest /\ ty <> Uninitialized.
Proof.
  unfold try_get_type. pm_run. case_bool_decide as O; cbn; [|discriminate].
  destruct (sol_data _) as [|[] rest]; cbn; intros E; try discriminate E; injection E as <- <-; eauto 10.
Qed.

Lemma inv_user accs i accs' : game_inv accs -> try_get_type i accs = ROk (TUser, accs') ->
  accs' = accs /\ exists u, user_at accs (info_key i) u /\
    fst (find_program_address [game_config u; authority u; USER_SEED] program_id) = info_key i.
Proof.
  intros I T. apply typed in T as (-> & O & rest & D & _). split; [done|].
  destruct (inv_load accs (info_key i) I O) as [Z|[(admin & c & _ & _ & E)|(u & r & W & T & P & E)]].
  - rewrite D in Z. inversion Z. discriminate.
  - rewrite D in E. discriminate.
  - exists u. split; [|done]. unfold user_at. eauto.
Qed.

Lemma inv_config accs i accs' : game_inv accs -> try_get_type i accs = ROk (TGameConfig, accs') ->
  accs' = accs /\ exists c, config_at accs (info_key i) c.
Proof.
  intros I T. apply typed in T as (-> & O & rest & D & _). split; [done|].
  destruct (inv_load accs (info_key i) I O) as [Z|[(admin & c & U & _ & E)|(u & r & W & T & P & E)]].
  - rewrite D in Z. inversion Z. discriminate.
  - exists c. split; [done|]. split; [done|]. exists []. now rewrite app_nil_r.
  - rewrite E in D. unfold User_serialize in D. rewrite T in D. discriminate.
Qed.

Lemma set_user_inv accs k u u' : game_inv accs -> user_at accs k u ->
  fst (find_program_address [game_config u; authority u; USER_SEED] program_id) = k ->
  User_wf u' -> account_type u' = TUser -> game_config u' = game_config u -> authority u' = authority u ->
  game_inv (set_user accs k u').
Proof.
  intros I _ P W T G A. apply map_Forall_insert_2; [|done]. intros _. right. right.
  exists u'. eexists. split; [done|]. split; [done|]. rewrite G, A. done.
Qed.

Lemma create_inv accs accs' from to z space seeds : game_inv accs ->
  create_account_cpi from to z space program_id seeds accs = ROk accs' ->
  sol_load accs' (info_key to) = MkSolAccount z program_id (repeat x00 (Z.to_nat space)) /\ game_inv accs'.
Proof.
  intros I E. apply create_account_ok in E as [(_ & _ & _ & _ & _ & _ & Sys & _) ->].
  split; [apply sol_load_insert|]. apply map_Forall_insert_2; [|apply map_Forall_insert_2; [|done]].
  - intros _. left. cbn. clear. induction (Z.to_nat space); cbn; auto.
  - intros O. cbn in O. rewrite Sys in O. now destruct program_not_system.
Qed.

(** Split the guards of [H : m accs = ROk _]. *)
Ltac game_run H :=
  pm_run in H;
  repeat (match type of H with context [match ?b with _ => _ end] =>
            lazymatch b with context [match _ with _ => _ end] => fail | _ => destruct b eqn:? end
          end; pm_run in H; try discriminate H).

Lemma create_game_config_inv c infos accs accs' : game_inv accs -> uint 8 c ->
  create_game_config c infos accs = ROk (tt, accs') -> game_inv accs'.
Proof.
  intros I U E. unfold create_game_config, invoke_create_account in E. game_run E.
  match goal with X : create_account_cpi _ _ _ _ _ _ _ = _ |- _ => apply create_inv in X as [L I1]; [|done] end.
  unfold write_data in E. rewrite L in E. cbn in E. injection E as <-.
  apply map_Forall_insert_2; [|done]. intros _. right. left.
  match goal with X : bool_decide (_ = _) = true |- _ => apply bool_decide_eq_true in X end.
  match goal with X : find_program_address [?a; _] _ = _ |- _ => exists a, c; rewrite X end. cbn. split; [done|]. split; [|done].
  congruence.
Qed.

Lemma create_user_inv infos accs accs' : game_inv accs -> Forall (fun i => length (info_key i) = 32%nat) infos ->
  create_user infos accs = ROk (tt, accs') -> game_inv accs'.
Proof.
  intros I F E. unfold create_user, invoke_create_account in E. game_run E.
  match goal with X : try_get_type _ _ = _ |- _ => apply typed in X as (-> & _) end.
  match goal with X : create_account_cpi _ _ _ _ _ _ _ = _ |- _ => apply create_inv in X as [L I1]; [|done] end.
  unfold write_data in E. rewrite L in E. cbn [sol_data sol_owner lamports] in E.
  destruct (_ <=? _); [|discriminate]. injection E as <-.
  apply map_Forall_insert_2; [|done]. intros _. right. right.
  repeat match goal with X : bool_decide (_ = _) = true |- _ => apply bool_decide_eq_true in X end.
  repeat match goal with X : Forall _ (_ :: _) |- _ => apply Forall_cons in X as [? X] end.
  match goal with X : find_program_address [?g; ?au; _] _ = _ |- _ => exists (User_new au g) end. eexists.
  split; [repeat split; cbn; (done || lia)|]. split; [done|]. split; [|reflexivity]. cbn.
  match goal with X : find_program_address _ _ = _ |- _ => rewrite X end. cbn. congruence.
Qed.

Lemma rewritten_inv accs ui u u' accs' : game_inv accs -> user_at accs (info_key ui) u ->
  fst (find_program_address [game_config u; authority u; USER_SEED] program_id) = info_key ui ->
  User_wf u' -> account_type u' = TUser -> game_config u' = game_config u -> authority u' = authority u ->
  write_data ui (User_serialize u') accs = ROk (tt, accs') -> game_inv accs'.
Proof.
  intros I Hu P W T G A E. rewrite (write_user _ _ u) in E by done. injection E as <-. now apply set_user_inv with u.
Qed.

Lemma credits_inv z infos accs accs' : game_inv accs ->
  mint_credits_to_user z infos accs = ROk (tt, accs') -> game_inv accs'.
Proof.
  intros I E. unfold mint_credits_to_user in E. game_run E.
  repeat match goal with X : bool_decide (_ = _) = true |- _ => apply bool_decide_eq_true in X end. subst.
  match goal with X : try_get_type _ accs = _ |- _ => apply typed in X as (-> & _) end.
  match goal with X : try_get_type _ accs = _ |- _ => apply inv_user in X as (-> & u & Hu & P); [|done] end.
  pose proof Hu as (_ & W & T & rest & D).
  match goal with X : User_deserialize _ = ROk ?v |- _ => rewrite D, User_roundtrip in X by done; injection X as <- end.
  match goal with X : arith _ _ = ROk _ |- _ => apply arith_range in X as [Hz _]; [|lia] end.
  apply (rewritten_inv _ _ u) in E; try done. destruct W as (? & ? & _ & ?). split; done.
Qed.

Lemma level_up_inv z infos accs accs' : game_inv accs ->
  user_level_up z infos accs = ROk (tt, accs') -> game_inv accs'.
Proof.
  intros I E. unfold user_level_up in E. game_run E.
  repeat match goal with X : bool_decide (_ = _) = true |- _ => apply bool_decide_eq_true in X end. subst.
  match goal with X : try_get_type _ accs = _ |- _ => apply inv_config in X as (-> & c & Hc); [|done] end.
  match goal with X : try_get_type _ accs = _ |- _ => apply inv_user in X as (-> & u & Hu & P); [|done] end.
  pose proof Hu as (_ & W & T & rest & D). pose proof Hc as (_ & [U1 U2] & crest & Dc).
  match goal with X : User_deserialize _ = ROk ?v |- _ => rewrite D, User_roundtrip in X by done; injection X as <- end.
  match goal with X : GameConfig_deserialize _ = ROk ?v |- _ =>
    rewrite Dc, GameConfig_roundtrip in X by done; injection X as <- end.
  destruct W as (W1 & W2 & W3 & W4). cbn [credits_per_level GameConfig_new] in *.
  match goal with X : arith 32 (level u * c) = ROk _ |- _ =>
    rewrite (arith_fits 32 (level u * c)) in X by (apply (price_fits c (level u) 0); destruct W4; lia); injection X as <- end.
  destruct (level_loop_total c z (level u)) as (it & ch & L & k & _ & -> & B & _); [done|done|].
  match goal with X : level_loop _ _ _ _ _ _ _ = _ |- _ => rewrite L in X; injection X as <- <- end.
  match goal with X : arith _ _ = ROk _ |- _ => apply arith_range in X as [Hz _]; [|lia] end.
  apply (rewritten_inv _ _ u) in E; try done. destruct W4. split; [done|]. split; [done|]. split; [done|]. split; cbn; lia.
Qed.

(** C27: Whatever accounts and bytes are passed, an instruction keeps every account
    of the program bound to its address. *)
Theorem accounts_stay_bound infos raw accs :
  game_inv accs -> Forall (fun i => length (info_key i) = 32%nat) infos ->
  game_inv (snd (game_instruction infos raw accs)).
Proof.
  intros I F. unfold game_instruction, run_instruction.
  destruct (process_instruction infos raw accs) as [[[] a1]| |] eqn:E; [|done..].
  destruct (writes_allowed _ _ _); [|done]. cbn. unfold process_instruction in E.
  apply PM_bind_ok in E as (i & a & D & E). unfold of_result in D.
  destruct (ProgramInstruction_try_from_slice raw) as [i'| |] eqn:Di; [|done..]. injection D as -> <-.
  destruct i as [c| |z|z].
  - eapply create_game_config_inv; [done| |exact E].
    unfold ProgramInstruction_try_from_slice in Di. repeat case_match; try discriminate Di.
    injection Di as <-. apply bz_range.
  - now apply create_user_inv in E.
  - now apply credits_inv in E.
  - now apply level_up_inv in E.
Qed.

End game_props.

(** ** The Solana game: theorems at concrete inputs

    A derivation of addresses and an account creation that satisfy the laws of
    their class, and an administrator, a configuration and a user. *)

Definition wrapping_build : BuildProfile := false.
#[local] Existing Instance wrapping_build.

(** ** The runtime *)

Definition game_id : Pubkey := repeat x47 32.
Definition system_id : Pubkey := repeat x00 32.
Definition derive (seeds : list bytes) (p : Pubkey) : Pubkey * byte := (take 32 (rev (p ++ concat seeds)), xff).

(** The seeds an address was derived from, with the bump at the end. *)
Definition signed_by (to : Pubkey) (seeds : list bytes) : bool :=
  match last seeds with
  | Some [bump] => bool_decide (derive (removelast seeds) game_id = (to, bump))
  | _ => false
  end.

Lemma signed_by_spec to seeds :
  signed_by to seeds = true <-> exists bump pre, seeds = pre ++ [[bump]] /\ derive pre game_id = (to, bump).
Proof.
  unfold signed_by. split.
  - destruct seeds as [|s seeds _] using rev_ind; [done|]. rewrite last_snoc, removelast_last.
    destruct s as [|bump [|]]; try done. intros E%bool_decide_eq_true. eauto.
  - intros (bump & pre & -> & E). rewrite last_snoc, removelast_last. now rewrite bool_decide_true.
Qed.

Definition load0 (accs : gmap Pubkey SolAccount) (k : Pubkey) : SolAccount := default (MkSolAccount 0 system_id []) (accs !! k).

Definition create0 (from to : AccountInfo) (z space : Z) (owner : Pubkey) (seeds : list bytes) (accs : gmap Pubkey SolAccount)
  : result ProgramError (gmap Pubkey SolAccount) :=
  let a := load0 accs (info_key from) in
  if is_signer from && is_writable from && is_writable to && bool_decide (info_key from <> info_key to) &&
     (z <=? lamports a) && bool_decide (sol_data a = []) && bool_decide (sol_owner a = system_id) &&
     signed_by (info_key to) seeds && bool_decide (load0 accs (info_key to) = MkSolAccount 0 system_id [])
  then ROk (<[info_key to := MkSolAccount z owner (repeat x00 (Z.to_nat space))]>
              (<[info_key from := MkSolAccount (lamports a - z) (sol_owner a) (sol_data a)]> accs))
  else RErr (CpiFailed 1).

#[local] Instance sdk0 : SolanaSdk := {|
  program_id := game_id; system_program_id := system_id; find_program_address := derive;
  minimum_balance z := Z.max 0 ((z + 128) * 6960); size_of_User := 72; create_account_cpi := create0 |}.

Lemma create0_guard from to z space seeds accs :
  is_signer from && is_writable from && is_writable to && bool_decide (info_key from <> info_key to) &&
  (z <=? lamports (load0 accs (info_key from))) && bool_decide (sol_data (load0 accs (info_key from)) = []) &&
  bool_decide (sol_owner (load0 accs (info_key from)) = system_id) && signed_by (info_key to) seeds &&
  bool_decide (load0 accs (info_key to) = MkSolAccount 0 system_id []) = true <->
  creatable accs from to z space seeds.
Proof.
  unfold creatable. rewrite !andb_true_iff, !bool_decide_eq_true, signed_by_spec, Z.leb_le. cbn. tauto.
Qed.

#[local] Instance sdk0_ok : SolanaSdkOk.
Proof.
  split.
  - cbn. lia.
  - intros z. cbn. lia.
  - done.
  - intros from to z space owner seeds accs accs' E. cbn [create_account_cpi sdk0] in E. unfold create0 in E.
    destruct (_ && _) eqn:G; [|done]. apply (create0_guard from to z space seeds accs) in G. injection E as <-. done.
  - intros from to z space owner seeds accs C. cbn [create_account_cpi sdk0]. unfold create0.
    apply create0_guard in C. rewrite C. eauto.
Qed.

(** ** A game *)

Definition admin : Pubkey := repeat x41 32.
Definition player : Pubkey := repeat x50 32.
Definition config : Pubkey := fst (derive [admin; GAME_CONFIG_SEED] game_id).
Definition player_account : Pubkey := fst (derive [config; player; USER_SEED] game_id).

Definition accounts0 : gmap Pubkey SolAccount :=
  <[admin := MkSolAccount 1000000000 system_id []]> (<[player := MkSolAccount 1000000000 system_id []]> ∅).

(** The administrator pays for the transaction, so its account is writable. *)
Definition create_config_infos : list AccountInfo :=
  [MkAccountInfo config false true; MkAccountInfo admin true true; MkAccountInfo system_id false false].

Definition accounts1 : gmap Pubkey SolAccount :=
  snd (game_instruction create_config_infos (ProgramInstruction_serialize (CreateGameConfig 10)) accounts0).
Definition accounts2 : gmap Pubkey SolAccount :=
  let '(infos, raw) := create_user_ix config player_account player in snd (game_instruction infos raw accounts1).
Definition accounts3 : gmap Pubkey SolAccount :=
  let '(infos, raw) := mint_credits_to_user_ix config player_account admin 100 in snd (game_instruction infos raw accounts2).

Lemma accounts_stay_bound_witness :
  fst (game_instruction create_config_infos (ProgramInstruction_serialize (CreateGameConfig 10)) accounts0) = ROk tt /\
  game_inv accounts1.
Proof.
  split; [vm_compute; reflexivity|].
  apply (accounts_stay_bound create_config_infos (ProgramInstruction_serialize (CreateGameConfig 10)) accounts0).
  - intros k a Ha O. unfold accounts0 in Ha. apply lookup_insert_Some in Ha as [[_ <-]|[_ Ha]]; [done|].
    apply lookup_insert_Some in Ha as [[_ <-]|[_ Ha]]; [done|]. now rewrite lookup_empty in Ha.
  - repeat constructor.
Defined.

(** The player with a hundred credits, at level zero. *)
Definition player0 : User := MkUser TUser player config 100 0.

Lemma level_up_instruction_witness :
  exists it charged, loop_result 10 40 0 0 0 it charged /\
    let '(infos, raw) := user_level_up_ix config player_account player 40 in
    game_instruction infos raw accounts3 =
    if 100 <? charged then if overflow_checks then (RPanic "attempt to compute with overflow", accounts3)
      else (ROk tt, set_user accounts3 player_account (levelled player0 (100 - charged + 2 ^ 32) it))
    else if 100 =? charged then (RErr InsufficientFunds, accounts3)
    else (ROk tt, set_user accounts3 player_account (levelled player0 (100 - charged) it)).
Proof.
  apply (level_up_instruction accounts3 config player_account 10 player0 40).
  - split; [vm_compute; reflexivity|]. split; [vm_compute; split; congruence|]. exists []. vm_compute. reflexivity.
  - split; [vm_compute; reflexivity|]. split; [repeat split; vm_compute; congruence|]. split; [reflexivity|].
    exists [x00; x00]. vm_compute. reflexivity.
  - vm_compute. split; congruence.
Defined.
