(* ===== verification/Substrate.v ===== *)
(** * The pallets of the Malborn chain

    [HalbornCTF_Rust_Substrate]: the pallets [pause] and [allocations], and the
    parts of the runtime that compute: their configuration, the splitting of
    fees and the migration of grants.  The runtime is built on FRAME 3.0, where
    a call that fails keeps what it has written; a panic does not.  The
    currency of the balances pallet, [Perbill] and the origins are classes. *)

From S2P Require Import Prelude Rust Ledger.

(** ** FRAME *)

Abbreviation SAccount := (list byte).

Inductive Origin := ORoot | OSigned (who : SAccount) | OCollective (yes total : Z) | ONone.

Inductive DispatchError := BadOrigin | OracleAccessDenied | TooManyCoinsToAllocate.
#[export] Instance DispatchError_eq_dec : EqDecision DispatchError.
Proof. solve_decision. Defined.

(** A dispatchable returns its result together with the storage it leaves. *)
Definition FM (S A : Type) : Type := S -> result DispatchError A * S.
#[export] Instance FM_ret S : MRet (FM S) := fun _ a s => (ROk a, s).
#[export] Instance FM_bind S : MBind (FM S) := fun _ _ k m s =>
  match m s with
  | (ROk a, s') => k a s'
  | (RErr e, s') => (RErr e, s')
  | (RPanic why, s') => (RPanic why, s')
  end.

Definition sget {S} : FM S S := fun s => (ROk s, s).
Definition sput {S} (s : S) : FM S unit := fun _ => (ROk tt, s).
Definition sres {S A} (r : result DispatchError A) : FM S A := fun s => (r, s).
Definition ensure {S} (b : bool) (e : DispatchError) : FM S unit := sres (if b then ROk tt else RErr e).

Definition ensure_signed (o : Origin) : result DispatchError SAccount :=
  match o with OSigned who => ROk who | _ => RErr BadOrigin end.
Definition ensure_root (o : Origin) : result DispatchError unit :=
  match o with ORoot => ROk tt | _ => RErr BadOrigin end.

(** An extrinsic: a panic undoes it, an error does not. *)
Definition dispatch {S A} (m : FM S A) (s : S) : result DispatchError A * S :=
  match m s with (RPanic why, _) => (RPanic why, s) | r => r end.

(** [T::PauseOrigin::try_origin]. *)
Class PauseOrigin : Type := try_origin : Origin -> bool.

(** ** The currency *)

(** Free balances and the total issuance of the balances pallet. *)
Record Currency := MkCurrency { free_balance : gmap SAccount Z; total_issuance : Z }.

Class CurrencyLib : Type := {
  existential_deposit : Z;
  (** [issue]: the coins created, as an imbalance. *)
  cur_issue : Z -> Currency -> Z * Currency;
  (** [resolve_creating]: give an imbalance to an account. *)
  cur_resolve_creating : SAccount -> Z -> Currency -> Currency;
  (** [Perbill * amount] for a number of billionths. *)
  perbill_mul : Z -> Z -> Z }.

(** What an account can take: nothing below the existential deposit when it is
    new, nothing above the largest balance. *)
Definition deposit_accepted `{CurrencyLib} (c : Currency) (who : SAccount) (z : Z) : bool :=
  match free_balance c !! who with
  | Some f => f + z <? 2 ^ 128
  | None => existential_deposit <=? z
  end.

Class CurrencyOk `{CurrencyLib} : Prop := {
  existential_deposit_ok : 0 <= existential_deposit;
  (** Issuing saturates at the largest balance. *)
  cur_issue_ok z c : 0 <= z -> 0 <= total_issuance c < 2 ^ 128 ->
    let z' := Z.min z (2 ^ 128 - 1 - total_issuance c) in
    cur_issue z c = (z', MkCurrency (free_balance c) (total_issuance c + z'));
  (** What is not accepted is dropped, which takes it out of the issuance. *)
  cur_resolve_ok who z c : 0 <= z ->
    cur_resolve_creating who z c =
      if z =? 0 then c
      else if deposit_accepted c who z
      then MkCurrency (<[who := held (free_balance c) who + z]> (free_balance c)) (total_issuance c)
      else MkCurrency (free_balance c) (saturating_sub (total_issuance c) z);
  (** Rounded to the nearest integer. *)
  perbill_mul_ok p x : 0 <= p <= 10 ^ 9 -> 0 <= x ->
    2 * Z.abs (10 ^ 9 * perbill_mul p x - p * x) <= 10 ^ 9 }.

(** ** The pause pallet ([pallets/pause/src/lib.rs]) *)

Inductive PauseEvent := StatusChanged (paused : bool).

Record PauseStore := MkPauseStore { paused : bool; pause_events : list PauseEvent }.

Section pause.
  Context `{PauseOrigin}.

Definition pause_origin (o : Origin) : FM PauseStore unit :=
  sres (if try_origin o then ROk tt else ensure_root o).

Definition put_paused (b : bool) : FM PauseStore unit := s ← sget; sput (MkPauseStore b (pause_events s)).
Definition deposit_event (e : PauseEvent) : FM PauseStore unit :=
  s ← sget; sput (MkPauseStore (paused s) (pause_events s ++ [e])).

Definition toggle (origin : Origin) : FM PauseStore unit :=
  _ ← pause_origin origin;
  s ← sget;
  _ ← put_paused (paused s);
  s ← sget;
  deposit_event (StatusChanged (paused s)).

Definition pallet_pause (origin : Origin) : FM PauseStore unit :=
  _ ← pause_origin origin;
  _ ← put_paused true;
  deposit_event (StatusChanged true).

Definition unpause (origin : Origin) : FM PauseStore unit :=
  _ ← pause_origin origin;
  s ← sget;
  _ ← put_paused (paused s);
  deposit_event (StatusChanged false).

End pause.

(** ** The allocations pallet ([pallets/allocations/src/lib.rs]) *)

(** The storage of the pallet, with the currency it issues and the state of the
    pause pallet its configuration extends. *)
Record AllocStore := MkAllocStore {
  oracles : list SAccount; coins_allocations : Z; currency : Currency; pause_store : PauseStore }.

(** The constants of the pallet's configuration. *)
Class AllocConfig : Type := {
  ProtocolFee : Z;
  ProtocolFeeReceiver : SAccount;
  MaximumCoinsEverAllocated : Z }.

Section allocations.
  Context `{BuildProfile, CurrencyLib, AllocConfig}.

Definition is_oracle (s : AllocStore) (who : SAccount) : bool := bool_decide (who ∈ oracles s).

Definition validate_oracle (origin : Origin) : FM AllocStore unit :=
  sender ← sres (ensure_signed origin);
  s ← sget;
  ensure (is_oracle s sender) OracleAccessDenied.

Definition put_coins_allocations (z : Z) : FM AllocStore unit :=
  s ← sget; sput (MkAllocStore (oracles s) z (currency s) (pause_store s)).

(** [resolve_creating(who, issue(amount))] *)
Definition issue_to (who : SAccount) (amount : Z) : FM AllocStore unit :=
  s ← sget;
  let '(imbalance, c) := cur_issue amount (currency s) in
  sput (MkAllocStore (oracles s) (coins_allocations s) (cur_resolve_creating who imbalance c) (pause_store s)).

Definition allocate_coins (origin : Origin) (to : SAccount) (amount : Z) (_proof : bytes) : FM AllocStore unit :=
  _ ← validate_oracle origin;
  s ← sget;
  to_consume_coins ← sres (arith 128 (coins_allocations s + amount));
  let amount_for_protocol := perbill_mul ProtocolFee amount in
  let amount_for_grantee := saturating_sub amount amount_for_protocol in
  _ ← put_coins_allocations to_consume_coins;
  _ ← ensure (to_consume_coins <? MaximumCoinsEverAllocated) TooManyCoinsToAllocate;
  _ ← issue_to ProtocolFeeReceiver amount_for_protocol;
  issue_to to amount_for_grantee.

Definition initialize_members (init : list SAccount) : FM AllocStore unit :=
  s ← sget; sput (MkAllocStore init (coins_allocations s) (currency s) (pause_store s)).

End allocations.

(** ** The runtime ([runtime/src/]) *)

(** [pallets_malborn.rs]: 20% of an allocation goes to the company reserve,
    whose account is derived by the reserve pallet. *)
Class CompanyReserve : Type := reserve_account : SAccount.

#[export] Instance malborn_config `{CompanyReserve} : AllocConfig := {|
  ProtocolFee := 20 * 10 ^ 7;
  ProtocolFeeReceiver := reserve_account;
  MaximumCoinsEverAllocated := 1259995654473120000000 |}.

(** [EnsureProportionMoreThan<_1, _2, AccountId, RootCollective>] *)
#[export] Instance malborn_pause_origin : PauseOrigin :=
  fun o => match o with OCollective yes total => total <? 2 * yes | _ => false end.

(** Calls of the two pallets. *)
Inductive PalletCall :=
| CToggle | CPause | CUnpause | CAllocate (to : SAccount) (amount : Z) (proof : bytes).

Section runtime.
  Context `{BuildProfile, CurrencyLib, AllocConfig, PauseOrigin}.

Definition on_pause (m : FM PauseStore unit) : FM AllocStore unit := fun s =>
  let '(r, p) := m (pause_store s) in (r, MkAllocStore (oracles s) (coins_allocations s) (currency s) p).

Definition pallet_call (c : PalletCall) (origin : Origin) : FM AllocStore unit :=
  match c with
  | CToggle => on_pause (toggle origin)
  | CPause => on_pause (pallet_pause origin)
  | CUnpause => on_pause (unpause origin)
  | CAllocate to amount proof => allocate_coins origin to amount proof
  end.

Definition extrinsic (s : AllocStore) (oc : Origin * PalletCall) : AllocStore :=
  snd (dispatch (pallet_call oc.2 oc.1) s).
Definition extrinsics (l : list (Origin * PalletCall)) (s : AllocStore) : AllocStore := foldl extrinsic s l.

End runtime.

(** [implementations.rs], [DealWithFees::on_unbalanceds]: of the fees, and of
    the tips when there are any, the first part goes to the reserve and the
    rest to the author of the block.  [ration] splits an imbalance in two. *)
Class ImbalanceLib : Type := ration : Z -> Z -> Z -> Z * Z.
Class ImbalanceOk `{ImbalanceLib} : Prop :=
  ration_ok z a b : 0 <= z -> 0 <= a -> 0 < a + b -> ration z a b = (z * a / (a + b), z - z * a / (a + b)).

Definition on_unbalanceds `{ImbalanceLib} (fees_then_tips : list Z) : option (Z * Z) :=
  match fees_then_tips with
  | [] => None
  | fees :: rest =>
      let split := ration fees 20 80 in
      let split := match rest with
                   | [] => split
                   | tips :: _ => let '(a, b) := ration tips 20 80 in (fst split + a, snd split + b)
                   end in
      Some split
  end.

(** [migrations.rs], [GrantsMigration::on_runtime_upgrade]: vesting schedules
    by account, stored under the name of a pallet. *)
Record VestingSchedule := MkVesting { vs_start : Z; vs_period : Z; vs_period_count : Z; vs_per_period : Z }.

Abbreviation PalletStorage := (gmap string (gmap SAccount (list VestingSchedule))).

(** Blocks of the network before the restart, with a margin: u32. *)
Definition previous_network_stopped_at : Z := saturating_add 32 422613 20000.

Definition corrected_grant (g : VestingSchedule) : VestingSchedule :=
  MkVesting (saturating_sub (vs_start g) previous_network_stopped_at) (vs_period g) (vs_period_count g) (vs_per_period g).

(** The schedules under "Vesting" are drained and put back under "Vesting"; the
    weight is a base and a database access for every account. *)
Definition on_runtime_upgrade (reads_writes : Z) (st : PalletStorage) : PalletStorage * Z :=
  let vesting := default ∅ (st !! "Vesting") in
  (<["Vesting" := map corrected_grant <$> vesting]> st,
   foldl (fun weight _ => saturating_add 64 weight reads_writes) 1000 (map_to_list vesting)).

(** ** The pallets of the Malborn chain: what holds of them

    The pause state only ever becomes true; what an allocation does on every
    branch; the limit holds over any calls when arithmetic is checked, and is
    bypassed with the help of a call that fails when it is not; fees are split
    without loss; the migration shifts the grants where they are. *)

Ltac fm_run := unfold sget, sput, sres, ensure; cbv beta delta [mbind mret FM_bind FM_ret]; cbn.

(** ** Pausing *)

Section pause_props.
  Context `{PauseOrigin}.

Definition may_pause (o : Origin) : bool := try_origin o || bool_decide (ensure_root o = ROk tt).

Lemma toggle_run o s : toggle o s =
  if may_pause o then (ROk tt, MkPauseStore (paused s) (pause_events s ++ [StatusChanged (paused s)]))
  else (RErr BadOrigin, s).
Proof. unfold toggle, pause_origin, may_pause. fm_run. destruct (try_origin o); [done|]. now destruct o. Qed.

Lemma pause_run o s : pallet_pause o s =
  if may_pause o then (ROk tt, MkPauseStore true (pause_events s ++ [StatusChanged true])) else (RErr BadOrigin, s).
Proof. unfold pallet_pause, pause_origin, may_pause. fm_run. destruct (try_origin o); [done|]. now destruct o. Qed.

Lemma unpause_run o s : unpause o s =
  if may_pause o then (ROk tt, MkPauseStore (paused s) (pause_events s ++ [StatusChanged false]))
  else (RErr BadOrigin, s).
Proof. unfold unpause, pause_origin, may_pause. fm_run. destruct (try_origin o); [done|]. now destruct o. Qed.

End pause_props.

Section alloc_props.
  Context `{BuildProfile, CurrencyOk, AllocConfig, PauseOrigin}.
  Context (fee_ok : 0 <= ProtocolFee <= 10 ^ 9).

(** ** Allocations *)

Definition fee_of (amount : Z) : Z := perbill_mul ProtocolFee amount.

Lemma fee_bounds amount : 0 <= amount -> 0 <= fee_of amount <= amount.
Proof. intros A. pose proof (perbill_mul_ok ProtocolFee amount fee_ok A). unfold fee_of. nia. Qed.

(** Issue coins to an account. *)
Definition issued_to (who : SAccount) (z : Z) (c : Currency) : Currency :=
  let '(i, c) := cur_issue z c in cur_resolve_creating who i c.

Definition with_currency (f : Currency -> Currency) (s : AllocStore) : AllocStore :=
  MkAllocStore (oracles s) (coins_allocations s) (f (currency s)) (pause_store s).
Definition with_counter (z : Z) (s : AllocStore) : AllocStore :=
  MkAllocStore (oracles s) z (currency s) (pause_store s).

(** An allocation on every branch: the counter is written before the limit is
    checked, and stays written. *)
Theorem allocate_coins_run o to amount proof s :
  allocate_coins o to amount proof s =
  match o with
  | OSigned who =>
      if is_oracle s who then
        match arith 128 (coins_allocations s + amount) with
        | ROk total =>
            if total <? MaximumCoinsEverAllocated then
              (ROk tt, with_currency (fun c => issued_to to (saturating_sub amount (fee_of amount))
                                        (issued_to ProtocolFeeReceiver (fee_of amount) c)) (with_counter total s))
            else (RErr TooManyCoinsToAllocate, with_counter total s)
        | RErr e => (RErr e, s)
        | RPanic why => (RPanic why, s)
        end
      else (RErr OracleAccessDenied, s)
  | _ => (RErr BadOrigin, s)
  end.
Proof.
  unfold allocate_coins, validate_oracle, put_coins_allocations, issue_to. fm_run. destruct o; cbn; try done.
  destruct (is_oracle s who); cbn; [|done]. destruct (arith 128 _) as [total| |]; cbn; [|done..].
  destruct (total <? _); cbn; [|done]. unfold with_currency, issued_to, fee_of, with_counter. cbn.
  destruct (cur_issue (perbill_mul _ _) _) as [i c]. cbn. now destruct (cur_issue _ (cur_resolve_creating _ _ _)).
Qed.

(** Issuing adds at most what was asked for. *)
Lemma issued_to_bound who z c : 0 <= z -> 0 <= total_issuance c < 2 ^ 128 ->
  total_issuance c <= total_issuance (issued_to who z c) <= total_issuance c + z /\
  total_issuance (issued_to who z c) < 2 ^ 128.
Proof.
  intros Z I. unfold issued_to. rewrite cur_issue_ok by done. cbn zeta.
  set (i := Z.min z (2 ^ 128 - 1 - total_issuance c)). assert (0 <= i <= z) by (unfold i; lia).
  rewrite cur_resolve_ok by lia. destruct (i =? 0) eqn:E; cbn; [unfold i in *; lia|].
  destruct (deposit_accepted _ _ _); cbn; unfold saturating_sub, i in *; lia.
Qed.

Lemma allocation_bound s amount total to : 0 <= amount -> 0 <= total_issuance (currency s) < 2 ^ 128 ->
  let s' := with_currency (fun c => issued_to to (saturating_sub amount (fee_of amount))
              (issued_to ProtocolFeeReceiver (fee_of amount) c)) (with_counter total s) in
  total_issuance (currency s) <= total_issuance (currency s') <= total_issuance (currency s) + amount /\
  total_issuance (currency s') < 2 ^ 128.
Proof.
  intros A I. cbn. pose proof (fee_bounds amount A) as [F1 F2].
  destruct (issued_to_bound ProtocolFeeReceiver (fee_of amount) (currency s) F1 I) as [B1 C1].
  assert (0 <= saturating_sub amount (fee_of amount)) as G by (unfold saturating_sub; lia).
  destruct (issued_to_bound to _ _ G (conj (Z.le_trans _ _ _ (proj1 I) (proj1 B1)) C1)) as [B2 C2].
  unfold saturating_sub in *. lia.
Qed.

Definition call_ok (oc : Origin * PalletCall) : Prop :=
  match oc.2 with CAllocate _ amount _ => U128 amount | _ => True end.

(** Calls of the pause pallet do not touch the allocations. *)
Lemma pause_call_frame c o s : (forall to z p, c <> CAllocate to z p) ->
  let s' := extrinsic s (o, c) in
  oracles s' = oracles s /\ coins_allocations s' = coins_allocations s /\ currency s' = currency s.
Proof.
  intros N. cbn zeta. unfold extrinsic, dispatch. cbn [fst snd]. destruct c as [| | |to z p]; [| | |now destruct (N to z p)];
    unfold pallet_call, on_pause; rewrite ?toggle_run, ?pause_run, ?unpause_run; destruct (may_pause o); done.
Qed.

(** ** Theorems *)

(** The pause state is changed by [pause] alone: [toggle] and [unpause] leave it
    as it is, so that nothing ever resumes. *)
Theorem pause_only_set l s :
  paused (pause_store (extrinsics l s)) =
  paused (pause_store s) || existsb (fun oc => match oc.2 with CPause => may_pause oc.1 | _ => false end) l.
Proof.
  revert s. induction l as [|[o c] l IH]; intros s; cbn [extrinsics foldl existsb fst snd]; [now rewrite orb_false_r|].
  change (foldl extrinsic (extrinsic s (o, c)) l) with (extrinsics l (extrinsic s (o, c))). rewrite IH, orb_assoc.
  f_equal. unfold extrinsic, dispatch. cbn [fst snd]. destruct c as [| | |to z p]; unfold pallet_call, on_pause.
  - rewrite toggle_run. destruct (may_pause o); cbn; now rewrite orb_false_r.
  - rewrite pause_run. destruct (may_pause o); cbn; [now rewrite orb_true_r|now rewrite orb_false_r].
  - rewrite unpause_run. destruct (may_pause o); cbn; now rewrite orb_false_r.
  - rewrite allocate_coins_run. destruct o; cbn; rewrite ?orb_false_r; try done.
    destruct (is_oracle s who); [|done]. destruct (arith 128 _); [|done..]. now destruct (_ <? _).
Qed.

(** C31: With checked arithmetic the pallet never issues more than the maximum,
    whatever is called in whatever order. *)
Theorem allocation_limit l s :
  overflow_checks = true -> Forall call_ok l -> coins_allocations s = 0 -> 0 < MaximumCoinsEverAllocated ->
  0 <= total_issuance (currency s) < 2 ^ 128 ->
  total_issuance (currency (extrinsics l s)) < total_issuance (currency s) + MaximumCoinsEverAllocated.
Proof.
  intros O F Z M I.
  assert (forall l t, Forall call_ok l -> 0 <= coins_allocations t ->
    0 <= total_issuance (currency t) < 2 ^ 128 ->
    total_issuance (currency t) <= total_issuance (currency s) + coins_allocations t ->
    total_issuance (currency t) < total_issuance (currency s) + MaximumCoinsEverAllocated ->
    total_issuance (currency (extrinsics l t)) < total_issuance (currency s) + MaximumCoinsEverAllocated) as G.
  { clear l F. induction l as [|[o c] l IH]; intros t F C It B1 B2; [done|].
    apply Forall_cons in F as [Hc F]. cbn [extrinsics foldl].
    change (foldl extrinsic (extrinsic t (o, c)) l) with (extrinsics l (extrinsic t (o, c))).
    assert ((forall to z p, c <> CAllocate to z p) -> total_issuance (currency (extrinsics l (extrinsic t (o, c)))) <
      total_issuance (currency s) + MaximumCoinsEverAllocated) as P.
    { intros N. destruct (pause_call_frame c o t N) as (_ & E1 & E2). apply IH; rewrite ?E1, ?E2; done. }
    destruct c as [| | |to z p]; [now apply P..|]. clear P.
    assert (dispatch (allocate_coins o to z p) t = allocate_coins o to z p t \/ extrinsic t (o, CAllocate to z p) = t) as [D|D];
      [|unfold extrinsic; cbn [fst snd]; unfold pallet_call; rewrite D|rewrite D; now apply IH].
    { unfold extrinsic, dispatch. cbn. destruct (allocate_coins o to z p t) as [[]]; auto. }
    destruct Hc as [Z1 Z2]. rewrite allocate_coins_run. destruct o as [|who| |]; cbn; try now apply IH.
    destruct (is_oracle t who); cbn; [|now apply IH].
    unfold arith. destruct ((0 <=? coins_allocations t + z) && _) eqn:E; [|rewrite O; cbn; now apply IH].
    destruct (Z.ltb_spec (coins_allocations t + z) MaximumCoinsEverAllocated) as [L|L]; cbn [snd].
    - destruct (allocation_bound t z (coins_allocations t + z) to Z1 It) as [? ?]. apply IH; [done|cbn; lia|lia|cbn in *; lia|cbn in *; lia].
    - apply IH; cbn; (done || lia). }
  apply G; (done || lia).
Qed.

(** Coins that fit and are accepted all arrive. *)
Lemma issued_to_total who z c : 0 <= z -> 0 <= total_issuance c -> total_issuance c + z < 2 ^ 128 ->
  deposit_accepted c who z = true -> total_issuance (issued_to who z c) = total_issuance c + z.
Proof.
  intros Z I F A. unfold issued_to. rewrite cur_issue_ok by lia. cbn zeta. rewrite Z.min_l by lia.
  rewrite cur_resolve_ok by lia. destruct (z =? 0); [done|].
  assert (deposit_accepted (MkCurrency (free_balance c) (total_issuance c + z)) who z = true) as -> by exact A. done.
Qed.

(** With checked arithmetic, nothing is allocated once the counter is at the
    limit: each call fails, and the counter does not go down. *)
Lemma full_allocate o to z q s : overflow_checks = true -> 0 <= z -> MaximumCoinsEverAllocated <= coins_allocations s ->
  fst (allocate_coins o to z q s) <> ROk tt /\
  let s' := extrinsic s (o, CAllocate to z q) in
  currency s' = currency s /\ MaximumCoinsEverAllocated <= coins_allocations s'.
Proof.
  intros Oc Z M. unfold extrinsic, dispatch. cbn [fst snd]. unfold pallet_call. rewrite allocate_coins_run.
  destruct o as [|who| |]; cbn; try done. destruct (is_oracle s who); cbn; [|done].
  unfold arith. destruct (_ && _); [|rewrite Oc; done]. if_false; [|lia]. cbn. split; [done|]. split; [done|lia].
Qed.

Lemma full_extrinsics l s : overflow_checks = true -> Forall call_ok l -> MaximumCoinsEverAllocated <= coins_allocations s ->
  currency (extrinsics l s) = currency s /\ MaximumCoinsEverAllocated <= coins_allocations (extrinsics l s).
Proof.
  intros Oc. revert s. induction l as [|[o c] l IH]; intros s F M; [done|].
  apply Forall_cons in F as [Hc F]. cbn [extrinsics foldl].
  change (foldl extrinsic (extrinsic s (o, c)) l) with (extrinsics l (extrinsic s (o, c))).
  assert (currency (extrinsic s (o, c)) = currency s /\ MaximumCoinsEverAllocated <= coins_allocations (extrinsic s (o, c))) as [<- M'].
  { pose proof (pause_call_frame c o s) as P. cbn zeta in P.
    destruct c as [| | |to z q]; [destruct P as (_ & -> & ->); done..|].
    now apply full_allocate; [|apply Hc|]. }
  now apply IH.
Qed.

(** C32: an allocation of an oracle that reaches the limit fails with
    [TooManyCoinsToAllocate] and issues nothing, but the counter it wrote stays.
    With checked arithmetic that is final: whatever is called afterwards, by
    whomever, every allocation fails and no coin is ever issued again.  With
    wrapping arithmetic, every later allocation of any oracle to any account
    whose amount brings the sum past 2^128 to below the limit succeeds; all of
    its amount is issued when the issuance has room for it and the two accounts
    take their parts. *)
Theorem failed_call_moves_limit who to x p s : is_oracle s who = true -> 0 <= x ->
  0 <= MaximumCoinsEverAllocated <= coins_allocations s + x -> 0 <= coins_allocations s + x < 2 ^ 128 ->
  let sum := coins_allocations s + x in
  let s1 := extrinsic s (OSigned who, CAllocate to x p) in
  allocate_coins (OSigned who) to x p s = (RErr TooManyCoinsToAllocate, s1) /\
  s1 = MkAllocStore (oracles s) sum (currency s) (pause_store s) /\
  if overflow_checks then
    forall l, Forall call_ok l -> currency (extrinsics l s1) = currency s /\
      forall o to' y q, 0 <= y -> fst (allocate_coins o to' y q (extrinsics l s1)) <> ROk tt
  else
    forall who' to' y q, is_oracle s who' = true -> 2 ^ 128 <= sum + y < 2 ^ 128 + MaximumCoinsEverAllocated ->
      let c1 := issued_to ProtocolFeeReceiver (fee_of y) (currency s) in
      let c2 := issued_to to' (y - fee_of y) c1 in
      allocate_coins (OSigned who') to' y q s1 =
        (ROk tt, MkAllocStore (oracles s) (sum + y - 2 ^ 128) c2 (pause_store s)) /\
      (0 <= total_issuance (currency s) -> total_issuance (currency s) + y < 2 ^ 128 ->
       deposit_accepted (currency s) ProtocolFeeReceiver (fee_of y) = true ->
       deposit_accepted c1 to' (y - fee_of y) = true ->
       total_issuance c2 = total_issuance (currency s) + y).
Proof.
  intros O X M C sum s1.
  assert (allocate_coins (OSigned who) to x p s = (RErr TooManyCoinsToAllocate, with_counter sum s)) as E.
  { rewrite allocate_coins_run, O, arith_fits by (split; lia). if_false; [done|lia]. }
  assert (s1 = with_counter sum s) as S1 by (unfold s1, extrinsic, dispatch, pallet_call; cbn [fst snd]; now rewrite E).
  rewrite S1. split; [exact E|]. split; [done|]. destruct overflow_checks eqn:Oc.
  - intros l F. destruct (full_extrinsics l (with_counter sum s) Oc F) as [E1 E2]; [cbn; lia|]. split; [exact E1|].
    intros o to' y q Y. now apply full_allocate.
  - intros who' to' y q O' Y c1 c2. assert (0 <= y) as Y0 by lia. pose proof (fee_bounds y Y0) as [B1 B2]. split.
    + rewrite allocate_coins_run. change (is_oracle (with_counter _ s) who') with (is_oracle s who'). rewrite O'.
      cbn [coins_allocations with_counter]. unfold arith.
      rewrite (proj2 (Z.ltb_ge _ (2 ^ 128))), andb_false_r, Oc by lia.
      assert (uwrap 128 (sum + y) = sum + y - 2 ^ 128) as ->.
      { unfold uwrap. symmetry. apply (Z.mod_unique _ _ 1); lia. }
      if_true; [|lia]. unfold saturating_sub. rewrite Z.max_r by lia. done.
    + intros I F A1 A2.
      assert (total_issuance c1 = total_issuance (currency s) + fee_of y) as T1 by (apply issued_to_total; done || lia).
      unfold c2. rewrite issued_to_total; rewrite ?T1; done || lia.
Qed.

End alloc_props.

(** ** Fees and grants *)

(** Fees and tips are split without loss: a fifth of each, rounded down, goes to
    the reserve, the rest to the author. *)
Theorem fees_split `{ImbalanceOk} fees tips : 0 <= fees -> 0 <= tips ->
  on_unbalanceds [fees; tips] = Some (fees / 5 + tips / 5, (fees - fees / 5) + (tips - tips / 5)).
Proof.
  intros F T. unfold on_unbalanceds. rewrite !ration_ok by lia. cbn [fst snd].
  change (20 + 80) with 100.
  assert (forall z, z * 20 / 100 = z / 5) as E.
  { intros z. replace 100 with (5 * 20) by lia. rewrite Z.div_mul_cancel_r by lia. done. }
  now rewrite !E.
Qed.

(** The migration shifts every grant towards the start of the new network and
    leaves it under its old name; running it again shifts it again. *)
Theorem migration_shifts w st a l : st !! "Vesting" ≫= (fun m => m !! a) = Some l ->
  let st1 := fst (on_runtime_upgrade w st) in
  (st1 !! "Vesting" ≫= (fun m => m !! a) = Some (map corrected_grant l)) /\ st1 !! "Grants" = st !! "Grants" /\
  (forall g, vs_start (corrected_grant (corrected_grant g)) = Z.max 0 (vs_start g - 2 * 442613)).
Proof.
  intros L. cbn zeta. unfold on_runtime_upgrade. cbn [fst].
  destruct (st !! "Vesting") as [m|] eqn:V; [|done]. cbn [default mbind option_bind] in L |- *. split; [|split].
  - rewrite lookup_insert_eq. cbn. now rewrite lookup_fmap, L.
  - now rewrite lookup_insert_ne.
  - intros g. cbn. unfold saturating_sub, previous_network_stopped_at, saturating_add. lia.
Qed.

(** ** The pallets of the Malborn chain: theorems at concrete inputs

    A currency that satisfies the laws of its class, with the configuration of
    the runtime. *)

#[local] Instance currency0 : CurrencyLib := {|
  existential_deposit := 500;
  cur_issue z c := let z' := Z.min z (2 ^ 128 - 1 - total_issuance c) in
    (z', MkCurrency (free_balance c) (total_issuance c + z'));
  cur_resolve_creating who z c :=
    if z =? 0 then c
    else if match free_balance c !! who with Some f => f + z <? 2 ^ 128 | None => 500 <=? z end
    then MkCurrency (<[who := held (free_balance c) who + z]> (free_balance c)) (total_issuance c)
    else MkCurrency (free_balance c) (saturating_sub (total_issuance c) z);
  perbill_mul p x := (p * x + 5 * 10 ^ 8) / 10 ^ 9 |}.

#[local] Instance currency0_ok : CurrencyOk.
Proof.
  split; try done.
  intros p x Hp Hx. cbn [perbill_mul currency0]. generalize (p * x). intros y.
  pose proof (Z.div_mod (y + 5 * 10 ^ 8) (10 ^ 9) ltac:(lia)) as Hd.
  pose proof (Z.mod_pos_bound (y + 5 * 10 ^ 8) (10 ^ 9) ltac:(lia)) as Hm. lia.
Qed.

#[local] Instance reserve0 : CompanyReserve := str "reserve".

Definition oracle : SAccount := str "oracle".
Definition grantee : SAccount := str "grantee".
Definition store0 : AllocStore := MkAllocStore [oracle] 0 (MkCurrency ∅ 1000000) (MkPauseStore false []).

Lemma fee0_ok : 0 <= ProtocolFee <= 10 ^ 9.
Proof. cbn. lia. Qed.

Lemma allocation_limit_witness :
  let l := [(OSigned oracle, CAllocate grantee 1000000 []); (OSigned oracle, CAllocate grantee (2 ^ 127) [])] in
  total_issuance (currency (extrinsics (H := true) l store0)) = 2000000 /\
  total_issuance (currency (extrinsics (H := true) l store0)) < 1000000 + MaximumCoinsEverAllocated.
Proof.
  split; [vm_compute; reflexivity|].
  apply (allocation_limit (H := true) fee0_ok
    [(OSigned oracle, CAllocate grantee 1000000 []); (OSigned oracle, CAllocate grantee (2 ^ 127) [])] store0);
    [reflexivity|repeat constructor; vm_compute; congruence|reflexivity|vm_compute; reflexivity|vm_compute; split; congruence].
Defined.

(** An oracle moves the counter to 2^127; then 2^127 + 7 coins are allocated. *)
Lemma failed_call_moves_limit_witness :
  let y := 2 ^ 127 + 7 in
  let s1 := extrinsic (H := false) store0 (OSigned oracle, CAllocate grantee (2 ^ 127) []) in
  let s2 := extrinsic (H := false) s1 (OSigned oracle, CAllocate grantee y []) in
  currency s1 = currency store0 /\ coins_allocations s1 = 2 ^ 127 /\ coins_allocations s2 = 7 /\
  total_issuance (currency s2) = 1000000 + y.
Proof.
  intros y s1 s2.
  destruct (failed_call_moves_limit (H := false) fee0_ok oracle grantee (2 ^ 127) [] store0) as (_ & E1 & W);
    [vm_compute; repeat split; congruence..|].
  destruct (W oracle grantee y []) as [E2 E3]; [vm_compute; repeat split; congruence..|].
  assert (s2 = snd (allocate_coins (H := false) (OSigned oracle) grantee y [] s1)) as Es.
  { unfold s2, extrinsic, dispatch, pallet_call. cbn [fst snd]. unfold s1. now rewrite E2. }
  unfold s1 in *. rewrite E2 in Es. rewrite Es. cbn [snd currency coins_allocations]. split; [now rewrite E1|].
  split; [now rewrite E1|]. split; [vm_compute; reflexivity|].
  apply E3; vm_compute; congruence.
Defined.
