(* ===== verification/Sway.v ===== *)
(** * The liquidity pool on Fuel

    [HalbornCTF_Sway/src/main.sw]: deposits are recorded for the sender and
    answered with four times the amount in pool tokens; pool tokens are taken
    back against the base token.  A call carries coins of one asset to the
    contract; any failure reverts it as a whole.  Asset identifiers are hashes
    computed by the machine and a parameter here. *)

From S2P Require Import Prelude Rust Ledger.

(** ** The machine *)

Abbreviation b256 := (list byte).
Abbreviation AssetId := (list byte).

Inductive Identity := Address (bits : b256) | ContractIdentity (bits : b256).
#[export] Instance Identity_eq_dec : EqDecision Identity.
Proof. solve_decision. Defined.
#[export] Instance Identity_countable : Countable Identity.
Proof.
  refine (inj_countable' (fun i => match i with Address b => inl b | ContractIdentity b => inr b end)
    (fun i => match i with inl b => Address b | inr b => ContractIdentity b end) _).
  by intros [].
Defined.

Class FuelVm : Type := {
  (** [ContractId::this()] *)
  this_contract : b256;
  (** [AssetId::new(contract, sub_id)] *)
  asset_new : b256 -> b256 -> AssetId }.

(** Coins by holder and asset, and the storage of the contract. *)
Record Pool := MkPool { pool_balances : gmap Identity Z; total_deposited : Z }.
Record FuelWorld := MkFuelWorld { coins : gmap (Identity * AssetId) Z; pool : Pool }.

(** Who pays the coins sent along, [msg_sender()] (an error where the inputs
    of the transaction have several owners), and the coins. *)
Record CallFrame := MkCallFrame {
  payer : Identity; msg_sender : option Identity; msg_asset_id : AssetId; msg_amount : Z }.

Inductive Revert := AssertionFailed | InsufficientBalance | ArithmeticOverflow
  | NoSender | NotEnoughCoins | BalanceOverflow | TransferZeroCoins.
#[export] Instance Revert_eq_dec : EqDecision Revert.
Proof. solve_decision. Defined.

Definition WM (A : Type) : Type := FuelWorld -> result Revert (A * FuelWorld).
#[export] Instance WM_ret : MRet WM := fun _ a w => ROk (a, w).
#[export] Instance WM_bind : MBind WM := fun _ _ k m w =>
  match m w with ROk (a, w') => k a w' | RErr e => RErr e | RPanic why => RPanic why end.

Definition wget : WM FuelWorld := fun w => ROk (w, w).
Definition set_pool (p : Pool) : WM unit := fun w => ROk (tt, MkFuelWorld (coins w) p).
Definition set_coins (c : gmap (Identity * AssetId) Z) : WM unit := fun w => ROk (tt, MkFuelWorld c (pool w)).
Definition revert_unless (b : bool) (e : Revert) : WM unit := fun w => if b then ROk (tt, w) else RErr e.

(** Operators on u64 revert when the result does not fit. *)
Definition u64_op (z : Z) : WM Z := fun w => if (0 <=? z) && (z <? 2 ^ 64) then ROk (z, w) else RErr ArithmeticOverflow.

Definition sender_unwrap (f : CallFrame) : WM Identity :=
  fun w => match msg_sender f with Some i => ROk (i, w) | None => RErr NoSender end.

(** Balances of contracts are u64; coins at an address are separate outputs. *)
Definition can_receive (c : gmap (Identity * AssetId) Z) (to : Identity) (asset : AssetId) (z : Z) : bool :=
  match to with Address _ => true | ContractIdentity _ => held c (to, asset) + z <? 2 ^ 64 end.

(** Coins from one holder to another. *)
Definition move_coins (from to : Identity) (asset : AssetId) (z : Z) : WM unit :=
  w ← wget;
  _ ← revert_unless (z <=? held (coins w) (from, asset)) NotEnoughCoins;
  let c := <[(from, asset) := held (coins w) (from, asset) - z]> (coins w) in
  _ ← revert_unless (can_receive c to asset z) BalanceOverflow;
  set_coins (<[(to, asset) := held c (to, asset) + z]> c).

Section pool.
  Context `{FuelVm}.

(** [transfer(to, asset_id, amount)] from the contract. *)
Definition transfer (to : Identity) (asset : AssetId) (amount : Z) : WM unit :=
  _ ← revert_unless (negb (amount =? 0)) TransferZeroCoins;
  move_coins (ContractIdentity this_contract) to asset amount.

(** [mint(sub_id, amount)] to the contract, [mint_to] on to the recipient. *)
Definition mint (sub_id : b256) (amount : Z) : WM unit :=
  w ← wget;
  let k := (ContractIdentity this_contract, asset_new this_contract sub_id) in
  _ ← revert_unless (held (coins w) k + amount <? 2 ^ 64) BalanceOverflow;
  set_coins (<[k := held (coins w) k + amount]> (coins w)).

Definition mint_to (to : Identity) (sub_id : b256) (amount : Z) : WM unit :=
  _ ← mint sub_id amount;
  transfer to (asset_new this_contract sub_id) amount.

(** ** The contract *)

Definition BASE_TOKEN : AssetId :=
  [x9a; xe5; xb6; x58; x75; x4e; x09; x6e; x4d; x68; x1c; x54; x8d; xaf; x46; x35;
   x44; x95; xa4; x37; xcc; x61; x49; x25; x99; xe3; x3f; xc6; x4d; xab; xcd; x12].
Definition LP_TOKEN_SUB_ID : b256 :=
  repeat x00 25 ++ [x0d; xea; xd0; x00; x12; x34; x56].

Definition deposit_base_asset (f : CallFrame) : WM unit :=
  let amount := msg_amount f in
  mret tt.

Definition deposit (recipient : Identity) (f : CallFrame) : WM unit :=
  let amount := msg_amount f in
  sender ← sender_unwrap f;
  w ← wget;
  let current_balance := held (pool_balances (pool w)) sender in
  balance ← u64_op (current_balance + amount);
  _ ← set_pool (MkPool (<[sender := balance]> (pool_balances (pool w))) (total_deposited (pool w)));
  w ← wget;
  total ← u64_op (total_deposited (pool w) + amount);
  _ ← set_pool (MkPool (pool_balances (pool w)) total);
  amount_to_mint ← u64_op (msg_amount f * 4);
  mint_to recipient LP_TOKEN_SUB_ID amount_to_mint.

Definition withdraw (recipient : Identity) (f : CallFrame) : WM unit :=
  _ ← revert_unless (bool_decide (asset_new this_contract LP_TOKEN_SUB_ID = msg_asset_id f)) AssertionFailed;
  _ ← revert_unless (0 <? msg_amount f) AssertionFailed;
  let amount := msg_amount f / 4 in
  sender ← sender_unwrap f;
  w ← wget;
  let current_balance := held (pool_balances (pool w)) sender in
  _ ← revert_unless (amount <=? current_balance) InsufficientBalance;
  balance ← u64_op (current_balance - amount);
  _ ← set_pool (MkPool (<[sender := balance]> (pool_balances (pool w))) (total_deposited (pool w)));
  w ← wget;
  total ← u64_op (total_deposited (pool w) - amount);
  _ ← set_pool (MkPool (pool_balances (pool w)) total);
  transfer recipient BASE_TOKEN amount.

(** ** Calls *)

Inductive PoolCall := PDepositBase | PDeposit (recipient : Identity) | PWithdraw (recipient : Identity).

Definition pool_method (c : PoolCall) (f : CallFrame) : WM unit :=
  match c with
  | PDepositBase => deposit_base_asset f
  | PDeposit recipient => deposit recipient f
  | PWithdraw recipient => withdraw recipient f
  end.

(** The coins of the call reach the contract first; a revert undoes it all. *)
Definition pool_call (fc : CallFrame * PoolCall) (w : FuelWorld) : result Revert unit * FuelWorld :=
  let '(f, c) := fc in
  match (_ ← move_coins (payer f) (ContractIdentity this_contract) (msg_asset_id f) (msg_amount f);
         pool_method c f) w with
  | ROk (_, w2) => (ROk tt, w2)
  | RErr e => (RErr e, w)
  | RPanic why => (RPanic why, w)
  end.

Definition pool_run (l : list (CallFrame * PoolCall)) (w : FuelWorld) : FuelWorld :=
  foldl (fun w fc => snd (pool_call fc w)) w l.

Definition LP_TOKEN : AssetId := asset_new this_contract LP_TOKEN_SUB_ID.

End pool.

(** ** The liquidity pool on Fuel: what holds of it

    The recorded deposits always add up to the recorded total; when a
    withdrawal succeeds and what it does; and how one unit of any asset is
    turned into all base tokens of the pool, since a deposit accepts every
    asset, the pool token included. *)

Ltac wm_run := unfold wget, set_pool, set_coins, revert_unless, u64_op, sender_unwrap;
  cbv beta delta [mbind mret WM_bind WM_ret]; cbn.
Tactic Notation "wm_run" "in" hyp(H) :=
  unfold wget, set_pool, set_coins, revert_unless, u64_op, sender_unwrap in H;
  cbv beta delta [mbind mret WM_bind WM_ret] in H; cbn in H.

(** Follow every guard of a run that succeeds. *)
Ltac wm_guards H := repeat match type of H with context [if ?b then _ else _] => destruct b eqn:? end; try done.

(** Pass a guard that holds by arithmetic. *)
Ltac wm_pass := match goal with |- context [if ?b then _ else _] => replace b with true by lia end; cbn.

#[local] Opaque LP_TOKEN_SUB_ID BASE_TOKEN.

Section pool_props.
  Context `{FuelVm}.

Abbreviation P := (ContractIdentity this_contract).

(** ** Deposits add up *)

Definition pool_inv (p : Pool) : Prop :=
  nonneg (pool_balances p) /\ total_deposited p = msum (pool_balances p) /\ total_deposited p < 2 ^ 64.

Lemma move_coins_pool from to a z w w' : move_coins from to a z w = ROk (tt, w') -> pool w' = pool w.
Proof. unfold move_coins. intros E. wm_run in E. wm_guards E. now inversion E. Qed.

Lemma transfer_pool to a z w w' : transfer to a z w = ROk (tt, w') -> pool w' = pool w.
Proof. unfold transfer. intros E. wm_run in E. wm_guards E. now apply move_coins_pool in E. Qed.

Lemma mint_to_pool to s z w w' : mint_to to s z w = ROk (tt, w') -> pool w' = pool w.
Proof. unfold mint_to, mint. intros E. wm_run in E. wm_guards E. now apply transfer_pool in E. Qed.

Lemma pool_inv_update p s z :
  pool_inv p -> 0 <= held (pool_balances p) s + z -> total_deposited p + z < 2 ^ 64 ->
  pool_inv (MkPool (<[s := held (pool_balances p) s + z]> (pool_balances p)) (total_deposited p + z)).
Proof.
  intros (Hn & Ht & Hb) Hs Hz. repeat split; cbn; [now apply nonneg_insert|rewrite msum_insert; lia|lia].
Qed.

Lemma pool_method_inv c f w w' : pool_method c f w = ROk (tt, w') -> pool_inv (pool w) -> pool_inv (pool w').
Proof.
  destruct c as [|r|r]; cbn; intros E I.
  - unfold deposit_base_asset in E. wm_run in E. now simplify_eq.
  - unfold deposit in E. wm_run in E. destruct (msg_sender f) as [s|]; [|done]. wm_guards E.
    apply mint_to_pool in E as ->. cbn. apply pool_inv_update; [done|lia|lia].
  - unfold withdraw in E. wm_run in E. wm_guards E. destruct (msg_sender f) as [s|]; [|done]. wm_guards E.
    apply transfer_pool in E as ->. cbn. unfold Z.sub. apply pool_inv_update; [done|lia|lia].
Qed.

Lemma pool_call_inv fc w : pool_inv (pool w) -> pool_inv (pool (snd (pool_call fc w))).
Proof.
  destruct fc as [f c]. unfold pool_call. intros I. cbv beta delta [mbind WM_bind].
  destruct (move_coins _ _ _ _ w) as [[[] w1]| |] eqn:E1; [|done|done]. apply move_coins_pool in E1.
  destruct (pool_method c f w1) as [[[] w2]| |] eqn:E2; [|done|done].
  apply pool_method_inv in E2; [done|now rewrite E1].
Qed.

(** Over any calls, accepted or reverted, the recorded balances are at least
    zero, add up to the recorded total, and the total fits its 64 bits. *)
Theorem deposits_add_up l w : pool_inv (pool w) -> pool_inv (pool (pool_run l w)).
Proof.
  unfold pool_run. revert w. induction l as [|fc l IH]; intros w I; [done|].
  cbn. apply IH. now apply pool_call_inv.
Qed.

(** ** What a call moves *)

Definition at_key (k k' : Identity * AssetId) (z : Z) : Z := if decide (k = k') then z else 0.

Ltac at_keys := unfold at_key; repeat (case_decide; try congruence).

Lemma move_coins_run from to a z w :
  z <= held (coins w) (from, a) -> from <> to -> can_receive (coins w) to a z = true ->
  exists c, move_coins from to a z w = ROk (tt, MkFuelWorld c (pool w)) /\
    forall k, held c k = held (coins w) k - at_key (from, a) k z + at_key (to, a) k z.
Proof.
  intros Hz Hne Hc. eexists. split.
  - unfold move_coins. wm_run. wm_pass.
    replace (can_receive _ to a z) with true; [reflexivity|].
    rewrite <-Hc. unfold can_receive. destruct to; [done|]. rewrite held_insert_ne; [done|congruence].
  - intros k. cbn. unfold at_key. rewrite !held_insert_dec. repeat case_decide; subst; try lia; congruence.
Qed.

Lemma mint_to_run to z w :
  0 < z -> held (coins w) (P, LP_TOKEN) + z < 2 ^ 64 -> 0 <= held (coins w) (P, LP_TOKEN) ->
  exists c, mint_to (Address to) LP_TOKEN_SUB_ID z w = ROk (tt, MkFuelWorld c (pool w)) /\
    forall k, held c k = held (coins w) k + at_key (Address to, LP_TOKEN) k z.
Proof.
  intros Hz Hb H0. unfold mint_to, mint. wm_run. fold LP_TOKEN. wm_pass.
  unfold transfer. wm_run. wm_pass.
  edestruct (move_coins_run P (Address to) LP_TOKEN z) as (c & -> & Hc).
  3: done. 2: done. { cbn. rewrite held_insert. lia. }
  exists c. split; [done|]. intros k. rewrite Hc. cbn. rewrite held_insert_dec. unfold at_key.
  repeat case_decide; subst; try lia; congruence.
Qed.

(** A frame of someone who pays for their own call. *)
Definition own_frame (a : b256) (asset : AssetId) (z : Z) : CallFrame :=
  MkCallFrame (Address a) (Some (Address a)) asset z.

Lemma pool_deposit_run a A z w :
  pool_inv (pool w) -> 0 <= held (coins w) (P, LP_TOKEN) ->
  0 < z <= held (coins w) (Address a, A) -> held (coins w) (P, A) + z < 2 ^ 64 ->
  total_deposited (pool w) + z < 2 ^ 64 ->
  held (coins w) (P, LP_TOKEN) + 5 * z < 2 ^ 64 ->
  exists w', pool_call (own_frame a A z, PDeposit (Address a)) w = (ROk tt, w') /\
    pool w' = MkPool (<[Address a := held (pool_balances (pool w)) (Address a) + z]> (pool_balances (pool w)))
                     (total_deposited (pool w) + z) /\
    forall k, held (coins w') k = held (coins w) k - at_key (Address a, A) k z + at_key (P, A) k z
                                  + at_key (Address a, LP_TOKEN) k (4 * z).
Proof.
  intros (Hn & Ht & Hb) H2 [Hz Hh] HP Htot HL.
  pose proof (nonneg_held _ (Address a) Hn) as H0. pose proof (held_le_msum _ (Address a) Hn) as H1.
  unfold pool_call, own_frame. cbn -[deposit]. cbv beta delta [mbind WM_bind].
  destruct (move_coins_run (Address a) P A z w) as (c & -> & Hc); [done|done|cbn; lia|].
  unfold deposit. wm_run. do 3 wm_pass.
  edestruct (mint_to_run a (z * 4)) as (c' & -> & Hc'); [lia| | |].
  1-2: cbn; rewrite Hc; unfold at_key; repeat case_decide; simplify_eq; lia.
  eexists. split; [reflexivity|]. split; [done|]. intros k. cbn. rewrite Hc'. cbn. rewrite Hc.
  unfold at_key. repeat case_decide; lia.
Qed.

(** A withdrawal by someone who pays for it themselves. *)
Definition withdrawn (a r : b256) (z : Z) (w w' : FuelWorld) : Prop :=
  pool w' = MkPool (<[Address a := held (pool_balances (pool w)) (Address a) - z / 4]> (pool_balances (pool w)))
                   (total_deposited (pool w) - z / 4) /\
  forall k, held (coins w') k = held (coins w) k - at_key (Address a, LP_TOKEN) k z + at_key (P, LP_TOKEN) k z
                                - at_key (P, BASE_TOKEN) k (z / 4) + at_key (Address r, BASE_TOKEN) k (z / 4).

Definition may_withdraw (a : b256) (A : AssetId) (z : Z) (w : FuelWorld) : Prop :=
  A = LP_TOKEN /\ 4 <= z <= held (coins w) (Address a, LP_TOKEN) /\
  held (coins w) (P, LP_TOKEN) + z < 2 ^ 64 /\
  z / 4 <= held (pool_balances (pool w)) (Address a) /\ z / 4 <= held (coins w) (P, BASE_TOKEN).

Lemma pool_withdraw_run a r z w :
  pool_inv (pool w) -> LP_TOKEN <> BASE_TOKEN -> may_withdraw a LP_TOKEN z w ->
  exists w', pool_call (own_frame a LP_TOKEN z, PWithdraw (Address r)) w = (ROk tt, w') /\ withdrawn a r z w w'.
Proof.
  intros (Hn & Ht & Hb) Hne (_ & [Hz Hh] & HP & Hbal & HB).
  pose proof (held_le_msum _ (Address a) Hn) as H1. pose proof (Z.div_le_lower_bound z 4 1) as H4.
  unfold pool_call, own_frame. cbn -[withdraw]. cbv beta delta [mbind WM_bind].
  destruct (move_coins_run (Address a) P LP_TOKEN z w) as (c & -> & Hc); [done|done|cbn; lia|].
  unfold withdraw. wm_run. fold LP_TOKEN. rewrite bool_decide_true by done. do 4 wm_pass.
  unfold transfer. wm_run. wm_pass.
  edestruct (move_coins_run P (Address r) BASE_TOKEN (z / 4)) as (c' & -> & Hc').
  3: done. 2: done. { cbn. rewrite Hc. unfold at_key. repeat case_decide; simplify_eq; lia. }
  eexists. split; [reflexivity|]. split; [done|]. intros k. cbn. rewrite Hc'. cbn. rewrite Hc. lia.
Qed.

Lemma withdraw_needs a r A z w :
  LP_TOKEN <> BASE_TOKEN -> fst (pool_call (own_frame a A z, PWithdraw (Address r)) w) = ROk tt -> may_withdraw a A z w.
Proof.
  intros Hne. unfold pool_call, own_frame. cbn -[withdraw]. cbv beta delta [mbind WM_bind].
  unfold move_coins at 1. wm_run. destruct (z <=? _) eqn:Ez; [|done]. cbn.
  rewrite held_insert_ne by congruence. destruct (_ <? _) eqn:Er; [|done]. cbn.
  unfold withdraw. wm_run. fold LP_TOKEN. case_bool_decide as EA; [|done]. cbn.
  destruct (0 <? z) eqn:E0; [|done]. cbn. destruct (z / 4 <=? _) eqn:Eb; [|done]. cbn.
  destruct (_ && _); [|done]. cbn. destruct (_ && _); [|done]. cbn.
  unfold transfer. wm_run. destruct (negb _) eqn:E4; [|done]. cbn.
  unfold move_coins. wm_run. rewrite !held_insert_ne by congruence. destruct (z / 4 <=? held _ (P, BASE_TOKEN)) eqn:EB; [|done].
  intros _. subst A. pose proof (Z.div_small z 4). repeat split; lia.
Qed.

(** A withdrawal succeeds exactly when the coins sent are pool tokens worth at
    least one base token, the sender has deposited what they are worth and the
    pool holds it; it then takes the worth from the recorded deposits and sends
    it to the recipient, and keeps the pool tokens.  So pool tokens are worth
    nothing to a holder who did not deposit. *)
Theorem withdraw_exact a r A z w :
  pool_inv (pool w) -> LP_TOKEN <> BASE_TOKEN ->
  (fst (pool_call (own_frame a A z, PWithdraw (Address r)) w) = ROk tt <-> may_withdraw a A z w) /\
  (may_withdraw a A z w -> withdrawn a r z w (snd (pool_call (own_frame a A z, PWithdraw (Address r)) w))) /\
  (~ may_withdraw a A z w -> snd (pool_call (own_frame a A z, PWithdraw (Address r)) w) = w).
Proof.
  intros I Hne.
  assert (may_withdraw a A z w -> exists w', pool_call (own_frame a A z, PWithdraw (Address r)) w = (ROk tt, w') /\
            withdrawn a r z w w') as Hrun
    by (intros M; pose proof M as M'; destruct M' as [-> _]; now apply pool_withdraw_run).
  pose proof (withdraw_needs a r A z w Hne) as Hneed. split_and!.
  - split; [done|]. intros M. destruct (Hrun M) as (w' & -> & _). done.
  - intros M. destruct (Hrun M) as (w' & -> & Hw). done.
  - intros M. unfold pool_call in *. destruct (own_frame a A z); cbn in *.
    match goal with |- context [match ?x with _ => _ end] => destruct x as [[[] ?]| |] end; [|done|done].
    exfalso. apply M, Hneed. done.
Qed.

(** ** Draining the pool *)

(** One unit of an asset, then the pool tokens obtained, again and again. *)
Definition pump_step (a : b256) (A : AssetId) (i : nat) : CallFrame * PoolCall :=
  (own_frame a (if decide (i = O) then A else LP_TOKEN) (4 ^ Z.of_nat i), PDeposit (Address a)).
Definition pump (a : b256) (A : AssetId) (n : nat) : list (CallFrame * PoolCall) := pump_step a A <$> seq 0 n.

Section drain.
  Context (a : b256) (A : AssetId) (w0 : FuelWorld).
  Context (A_lp : A <> LP_TOKEN) (A_base : A <> BASE_TOKEN) (lp_base : LP_TOKEN <> BASE_TOKEN).

(** After [n] deposits the attacker holds [4 ^ n] pool tokens and is recorded
    with a third of that. *)
Definition pumped (n : nat) (w : FuelWorld) : Prop :=
  pool_inv (pool w) /\
  3 * (total_deposited (pool w) - total_deposited (pool w0)) + 1 = 4 ^ Z.of_nat n /\
  3 * (held (pool_balances (pool w)) (Address a) - held (pool_balances (pool w0)) (Address a)) + 1 = 4 ^ Z.of_nat n /\
  held (coins w) (Address a, LP_TOKEN) = held (coins w0) (Address a, LP_TOKEN) + 4 ^ Z.of_nat n /\
  3 * (held (coins w) (P, LP_TOKEN) - held (coins w0) (P, LP_TOKEN)) + 4 = 4 ^ Z.of_nat n /\
  held (coins w) (P, BASE_TOKEN) = held (coins w0) (P, BASE_TOKEN) /\
  held (coins w) (Address a, BASE_TOKEN) = held (coins w0) (Address a, BASE_TOKEN).

Context (bound : nat).
Context (inv0 : pool_inv (pool w0)) (lp0 : 0 <= held (coins w0) (P, LP_TOKEN)).
Context (own0 : 0 <= held (coins w0) (Address a, LP_TOKEN)).
Context (unit0 : 1 <= held (coins w0) (Address a, A)) (room0 : held (coins w0) (P, A) + 1 < 2 ^ 64).
Context (total_room : total_deposited (pool w0) + 4 ^ Z.of_nat bound < 2 ^ 64).
Context (lp_room : held (coins w0) (P, LP_TOKEN) + 2 * 4 ^ Z.of_nat bound < 2 ^ 64).

Lemma pump_room n : (n <= bound)%nat -> 1 <= 4 ^ Z.of_nat n <= 4 ^ Z.of_nat bound.
Proof. intros Hn. split; [apply (Z.pow_le_mono_r 4 0); lia|apply Z.pow_le_mono_r; lia]. Qed.

Lemma pow4_succ n : 4 ^ Z.of_nat (S n) = 4 * 4 ^ Z.of_nat n.
Proof. rewrite Nat2Z.inj_succ, Z.pow_succ_r by lia. done. Qed.

Lemma pump_first : (1 <= bound)%nat -> pumped 1 (snd (pool_call (pump_step a A 0) w0)).
Proof.
  intros Hb. pose proof (pump_room 1 Hb) as R. change (4 ^ Z.of_nat 1) with 4 in R.
  change (pump_step a A 0) with (own_frame a A 1, PDeposit (Address a)).
  destruct (pool_deposit_run a A 1 w0) as (w & E & Hp & Hc); [done|done|lia|lia|lia|lia|].
  pose proof (pool_call_inv (own_frame a A 1, PDeposit (Address a)) w0 inv0) as I.
  rewrite E in *. cbn [snd] in *. unfold pumped. rewrite Hp in *. cbn [pool_balances total_deposited].
  rewrite held_insert, !Hc. at_keys.
  change (4 ^ Z.of_nat 1) with 4. split_and!; [done|lia..].
Qed.

Lemma pump_next n w :
  (1 <= n)%nat -> (S n <= bound)%nat -> pumped n w -> pumped (S n) (snd (pool_call (pump_step a A n) w)).
Proof.
  intros H1 Hb (I & Ht & Hbal & Hown & Hlp & HPb & Hab).
  pose proof (pump_room (S n) Hb) as R. rewrite pow4_succ in R. pose proof (Z.pow_le_mono_r 4 1 (Z.of_nat n)) as R'.
  unfold pump_step. rewrite decide_False by lia.
  destruct (pool_deposit_run a LP_TOKEN (4 ^ Z.of_nat n) w) as (w' & E & Hp & Hc); [done|lia..|].
  pose proof (pool_call_inv (own_frame a LP_TOKEN (4 ^ Z.of_nat n), PDeposit (Address a)) w I) as I'.
  rewrite E in *. cbn [snd] in *. unfold pumped. rewrite Hp in *. rewrite !pow4_succ. cbn [pool_balances total_deposited].
  rewrite held_insert, !Hc. at_keys.
  split_and!; [done|lia..].
Qed.

Lemma pump_run n : (1 <= n <= bound)%nat -> pumped n (pool_run (pump a A n) w0).
Proof.
  intros Hn. induction n as [|n IH]; [lia|]. unfold pool_run, pump in *. rewrite seq_S, fmap_app, foldl_app. cbn [foldl fmap list_fmap].
  destruct (decide (n = O)) as [->|]; [apply pump_first; lia|]. apply pump_next; [lia|lia|]. apply IH. lia.
Qed.

(** C26: One unit of any asset is turned into every base token of the pool, in a
    number of deposits logarithmic in what the pool holds and one withdrawal:
    a deposit does not look at the asset, so the pool tokens of one deposit
    are the next deposit, four times as large. *)
Theorem pool_drained :
  let B := held (coins w0) (P, BASE_TOKEN) in
  let w := pool_run (pump a A bound ++ [(own_frame a LP_TOKEN (4 * B), PWithdraw (Address a))]) w0 in
  0 < B -> 4 * B <= 4 ^ Z.of_nat bound ->
  held (coins w) (P, BASE_TOKEN) = 0 /\
  held (coins w) (Address a, BASE_TOKEN) = held (coins w0) (Address a, BASE_TOKEN) + B.
Proof.
  cbn zeta. set (B := held (coins w0) (P, BASE_TOKEN)). intros HB H4.
  assert (1 <= bound)%nat as Hb1 by (destruct bound; [cbn in H4; lia|lia]).
  destruct (pump_run bound ltac:(lia)) as (I & Ht & Hbal & Hown & Hlp & HPb & Hab).
  unfold pool_run in *. rewrite foldl_app. cbn [foldl]. set (w1 := foldl _ w0 _) in *.
  pose proof (nonneg_held _ (Address a) (proj1 inv0)) as Hbal0.
  assert (4 * B / 4 = B) as Hd by (rewrite Z.mul_comm; now apply Z.div_mul).
  destruct (pool_withdraw_run a a (4 * B) w1) as (w2 & -> & Hp & Hc); [done|done| |].
  - unfold may_withdraw. rewrite Hd. fold B in HPb. split_and!; [done|lia..].
  - cbn [snd]. rewrite !Hc, Hd. at_keys.
    fold B in HPb. lia.
Qed.

End drain.
End pool_props.

(** ** The liquidity pool on Fuel: theorems at concrete inputs

    A machine with an injective derivation of assets; a pool with ten million
    base tokens, and an attacker with one unit of another asset. *)

#[local] Instance fuel0 : FuelVm := {| this_contract := [x01]; asset_new c s := x02 :: c ++ s |}.

Definition attacker : b256 := [x0a].
Definition gas_token : AssetId := [x07].
Definition pool_id : Identity := ContractIdentity this_contract.

Definition fuel_world : FuelWorld :=
  MkFuelWorld (<[(pool_id, BASE_TOKEN) := 10000000]> (<[(Address attacker, gas_token) := 2000]> ∅)) (MkPool ∅ 0).

Lemma empty_pool_inv : pool_inv (MkPool ∅ 0).
Proof. split; [apply nonneg_empty|]. split; [symmetry; apply msum_empty|done]. Qed.

Definition pool_holds : Z := held (coins fuel_world) (ContractIdentity this_contract, BASE_TOKEN).

Lemma pool_drained_witness :
  let w := pool_run (pump attacker gas_token 13 ++ [(own_frame attacker LP_TOKEN (4 * pool_holds), PWithdraw (Address attacker))]) fuel_world in
  pool_holds = 10000000 /\ held (coins w) (ContractIdentity this_contract, BASE_TOKEN) = 0 /\
  held (coins w) (Address attacker, BASE_TOKEN) = held (coins fuel_world) (Address attacker, BASE_TOKEN) + pool_holds.
Proof.
  split; [vm_compute; reflexivity|].
  refine (pool_drained attacker gas_token fuel_world _ _ _ 13 _ _ _ _ _ _ _ _ _);
    first [exact empty_pool_inv|vm_compute; congruence].
Defined.

(** The world after one deposit of a thousand gas tokens. *)
Definition fuel_world1 : FuelWorld :=
  pool_run [(own_frame attacker gas_token 1000, PDeposit (Address attacker))] fuel_world.

Lemma withdraw_exact_witness :
  may_withdraw attacker LP_TOKEN 4000 fuel_world1 /\
  withdrawn attacker attacker 4000 fuel_world1
    (snd (pool_call (own_frame attacker LP_TOKEN 4000, PWithdraw (Address attacker)) fuel_world1)).
Proof.
  assert (may_withdraw attacker LP_TOKEN 4000 fuel_world1) as HM by (vm_compute; repeat split; congruence).
  split; [exact HM|]. apply (withdraw_exact attacker attacker LP_TOKEN 4000 fuel_world1);
    [apply deposits_add_up, empty_pool_inv|vm_compute; congruence|exact HM].
Defined.
