(* ===== verification/Evm.v ===== *)
(** * Ethereum: the platform of the lending contracts

    What [HalbornCTF_Solidity_Ethereum] uses of the machine and of
    OpenZeppelin.  The sources of OpenZeppelin are not part of the repository
    (empty submodules), so its tokens, ownership, initializers and Merkle
    proofs are a class with the documented laws.  Addresses and uint256 are
    integers; a revert undoes a call and its inner calls. *)

From S2P Require Import Prelude Rust Ledger.

Abbreviation Addr := Z.

Inductive SolError := Revert (why : string) | Panic (code : Z).
#[export] Instance SolError_eq_dec : EqDecision SolError.
Proof. solve_decision. Defined.

Definition is_u256 (z : Z) : bool := (0 <=? z) && (z <? 2 ^ 256).
Definition uint256_max : Z := 2 ^ 256 - 1.

(** ** OpenZeppelin *)

Class OpenZeppelin : Type := {
  (** [Initializable]: the storage behind [initializer]. *)
  Init : Type;
  init_fresh : Init;
  initializer : Init -> result SolError Init;
  (** [OwnableUpgradeable]: the inherited calls act on the owner. *)
  OwnCall : Type;
  own_call : Addr -> OwnCall -> Addr -> result SolError Addr;
  (** [ERC20Upgradeable] *)
  Erc20 : Type;
  E20Call : Type;
  e20_init : string -> string -> Erc20 -> Erc20;
  e20_balanceOf : Erc20 -> Addr -> Z;
  e20_totalSupply : Erc20 -> Z;
  e20_mint : Addr -> Z -> Erc20 -> result SolError Erc20;
  e20_burn : Addr -> Z -> Erc20 -> result SolError Erc20;
  e20_call : Addr -> E20Call -> Erc20 -> result SolError Erc20;
  (** [ERC721Upgradeable]: owners, the address approved for a token and the
      operators of an owner; the calls are those that run no receiver. *)
  Erc721 : Type;
  E721Call : Type;
  e721_init : string -> string -> Erc721 -> Erc721;
  e721_owner : Erc721 -> Z -> option Addr;
  e721_approved : Erc721 -> Z -> option Addr;
  e721_operator : Erc721 -> Addr -> Addr -> bool;
  e721_mint : Addr -> Z -> Erc721 -> result SolError Erc721;
  e721_transfer : Addr -> Addr -> Addr -> Z -> Erc721 -> result SolError Erc721;
  e721_call : Addr -> E721Call -> Erc721 -> result SolError Erc721;
  (** [keccak256(abi.encodePacked(account, id))] and [MerkleProofUpgradeable]. *)
  keccak_packed : Addr -> Z -> bytes;
  verifyCalldata : list bytes -> bytes -> bytes -> bool }.

(** Who may move a token. *)
Definition e721_authorized `{OpenZeppelin} (t : Erc721) (op : Addr) (id : Z) : bool :=
  match e721_owner t id with
  | None => false
  | Some o => bool_decide (op = o) || e721_operator t o op || bool_decide (e721_approved t id = Some op)
  end.

Definition transfer_ok `{OpenZeppelin} (op from to : Addr) (id : Z) (t : Erc721) : bool :=
  bool_decide (e721_owner t id = Some from) && e721_authorized t op id && negb (to =? 0).

Definition is_ok {E A} (r : result E A) : bool := match r with ROk _ => true | _ => false end.

Class OpenZeppelinOk `{OpenZeppelin} : Prop := {
  (** An initializer runs once. *)
  initializer_fresh : is_ok (initializer init_fresh) = true;
  initializer_once i i' : initializer i = ROk i' -> is_ok (initializer i') = false;
  own_call_ok s c o o' : own_call s c o = ROk o' -> s = o;
  (** Minting and burning check the zero address, the supply and the balance. *)
  e20_init_ok n s t : e20_totalSupply (e20_init n s t) = e20_totalSupply t /\
    forall a, e20_balanceOf (e20_init n s t) a = e20_balanceOf t a;
  e20_mint_ok a z t : 0 <= z ->
    is_ok (e20_mint a z t) = negb (a =? 0) && (e20_totalSupply t + z <? 2 ^ 256) /\
    forall t', e20_mint a z t = ROk t' -> e20_totalSupply t' = e20_totalSupply t + z /\
      forall b, e20_balanceOf t' b = e20_balanceOf t b + if decide (a = b) then z else 0;
  e20_burn_ok a z t : 0 <= z ->
    is_ok (e20_burn a z t) = negb (a =? 0) && (z <=? e20_balanceOf t a) /\
    forall t', e20_burn a z t = ROk t' -> e20_totalSupply t' = e20_totalSupply t - z /\
      forall b, e20_balanceOf t' b = e20_balanceOf t b - if decide (a = b) then z else 0;
  e20_call_ok s c t t' : e20_call s c t = ROk t' -> e20_totalSupply t' = e20_totalSupply t;
  (** A token is minted once, and moved by who is authorized. *)
  e721_init_ok n s t : let t' := e721_init n s t in
    (forall id, e721_owner t' id = e721_owner t id /\ e721_approved t' id = e721_approved t id) /\
    forall o op, e721_operator t' o op = e721_operator t o op;
  e721_mint_ok a id t : is_ok (e721_mint a id t) = negb (a =? 0) && bool_decide (e721_owner t id = None);
  e721_mint_owner a id t t' : e721_mint a id t = ROk t' ->
    e721_owner t' id = Some a /\ (forall id', id' <> id -> e721_owner t' id' = e721_owner t id') /\
    (forall id', e721_approved t' id' = e721_approved t id') /\
    (forall o op, e721_operator t' o op = e721_operator t o op);
  e721_transfer_ok op from to id t : is_ok (e721_transfer op from to id t) = transfer_ok op from to id t;
  e721_transfer_owner op from to id t t' : e721_transfer op from to id t = ROk t' ->
    e721_owner t' id = Some to /\ e721_approved t' id = None /\
    (forall id', id' <> id -> e721_owner t' id' = e721_owner t id' /\ e721_approved t' id' = e721_approved t id') /\
    (forall o op', e721_operator t' o op' = e721_operator t o op');
  (** The other calls neither make nor destroy tokens, and change only what the
      sender is authorized for. *)
  e721_call_exists s c t t' id : e721_call s c t = ROk t' -> e721_owner t' id = None <-> e721_owner t id = None;
  e721_call_auth s c t t' id : e721_call s c t = ROk t' -> e721_authorized t s id = false ->
    e721_owner t' id = e721_owner t id /\ e721_approved t' id = e721_approved t id;
  e721_call_operator s c t t' o op : e721_call s c t = ROk t' -> s <> o -> e721_operator t' o op = e721_operator t o op;
  (** With no hashes to combine, a proof compares the leaf with the root. *)
  verifyCalldata_nil root leaf : verifyCalldata [] root leaf = bool_decide (root = leaf) }.

(** ** The machine *)

Class Evm : Type := {
  (** The proxies of the three contracts. *)
  TOKEN : Addr;
  NFT : Addr;
  LOANS : Addr;
  (** Whether code is deployed at an address, and whether it takes ether sent
      with the gas of [transfer]. *)
  is_contract : Addr -> bool;
  accepts_eth : Addr -> bool }.

Class EvmOk `{Evm} : Prop := {
  addrs_distinct : TOKEN <> NFT /\ TOKEN <> LOANS /\ NFT <> LOANS;
  addrs_nonzero : TOKEN <> 0 /\ NFT <> 0 /\ LOANS <> 0;
  contracts_code : is_contract TOKEN = true /\ is_contract NFT = true /\ is_contract LOANS = true }.

Record Msg := MkMsg { msg_sender : Addr; msg_value : Z }.
