(* ===== verification/EthContracts.v ===== *)
(** * The lending contracts on Ethereum

    [HalbornCTF_Solidity_Ethereum/src]: the token, the NFT and the loans behind
    their upgradeable proxies, the multicall they share, and the replacement
    implementations of [exploits/].  A transaction comes with what the
    receivers of NFTs do when they are called back, so that every theorem
    about transactions covers re-entrancy. *)

From S2P Require Import Prelude Rust Ledger Evm.

(** ** Implementations and storage *)

Inductive TokenImpl := HalbornToken | Token_UUPSattack.
Inductive NftImpl := HalbornNFT | NFT_UUPSattack.
(** The price of a collateral is immutable, part of the code. *)
Inductive LoansImpl := HalbornLoans (price : Z) | HalbornLoans_UUPSattack (price : Z).

Record TokenState `{OpenZeppelin} := MkTokenState {
  tk_impl : TokenImpl; tk_init : Init; tk_owner : Addr; tk_erc20 : Erc20;
  halbornLoans : Addr; tk_hacker : Addr }.

Record NftState `{OpenZeppelin} := MkNftState {
  nt_impl : NftImpl; nt_init : Init; nt_owner : Addr; nt_erc721 : Erc721;
  merkleRoot : bytes; price : Z; idCounter : Z; nt_hacker : Addr }.

(** The variables of the replacement lie in slots of their own. *)
Record LoansState `{OpenZeppelin} := MkLoansState {
  ls_impl : LoansImpl; ls_init : Init; loans_token : Addr; loans_nft : Addr;
  totalCollateral : gmap Addr Z; usedCollateral : gmap Addr Z; idsCollateral : gmap Z Addr;
  la_token : Addr; la_nft : Addr; la_hacker : Addr }.

Record World `{OpenZeppelin} := MkWorld {
  eth : gmap Addr Z; token_st : TokenState; nft_st : NftState; loans_st : LoansState }.

#[global] Arguments MkTokenState {_}.
#[global] Arguments MkNftState {_}.
#[global] Arguments MkLoansState {_}.
#[global] Arguments MkWorld {_}.

(** ** Calls *)

#[local] Set Warnings "-register-all".

Inductive TokenCall `{OpenZeppelin} :=
  | TInitialize | TSetLoans (a : Addr) | TMintToken (a : Addr) (z : Z) | TBurnToken (a : Addr) (z : Z)
  | TErc20 (c : E20Call) | TOwn (c : OwnCall) | TUpgradeTo (i : TokenImpl) | TMulticall (data : list TokenCall).

Inductive NftCall `{OpenZeppelin} :=
  | NInitialize (root : bytes) (p : Z) | NSetPrice (p : Z) | NSetMerkleRoot (root : bytes)
  | NMintAirdrops (id : Z) (proof : list bytes) | NMintBuyWithETH | NWithdrawETH (z : Z)
  | NSafeTransferFrom (from to : Addr) (id : Z) | NErc721 (c : E721Call) | NOwn (c : OwnCall)
  | NUpgradeTo (i : NftImpl) | NMulticall (data : list NftCall).

Inductive LoansCall :=
  | LInitialize (token nft : Addr) | LDeposit (id : Z) | LWithdraw (id : Z) | LGetLoan (z : Z) | LReturnLoan (z : Z)
  | LMint | LBurn (a : Addr) | LOnReceived | LUpgradeTo (i : LoansImpl) | LMulticall (data : list LoansCall).

Inductive Call `{OpenZeppelin} := CToken (c : TokenCall) | CNft (c : NftCall) | CLoans (c : LoansCall).

(** What a receiver does when it is called back: the calls it makes, each of
    which may fail without consequence for it, and whether it accepts. *)
Inductive Tx `{OpenZeppelin} := MkTx (from : Addr) (value : Z) (c : Call) (replies : list Script)
with Script `{OpenZeppelin} := MkScript (accept : bool) (inner : list Tx).

(** ** Effects *)

Section contracts.
  Context `{OpenZeppelin, Evm}.

Record EvmState := MkEvmState { world : World; replies : list Script }.

Definition EM (A : Type) : Type := Msg -> EvmState -> result SolError (A * EvmState).
#[export] Instance EM_ret : MRet EM := fun _ a _ st => ROk (a, st).
#[export] Instance EM_bind : MBind EM := fun _ _ k m msg st =>
  match m msg st with ROk (a, st') => k a msg st' | RErr e => RErr e | RPanic why => RPanic why end.

Definition the_msg : EM Msg := fun msg st => ROk (msg, st).
Definition wget : EM World := fun _ st => ROk (world st, st).
Definition upd (f : World -> World) : EM unit := fun _ st => ROk (tt, MkEvmState (f (world st)) (replies st)).
Definition revert {A} (e : SolError) : EM A := fun _ _ => RErr e.
Definition require (b : bool) (why : string) : EM unit := if b then mret tt else revert (Revert why).
Definition of_res {A} (r : result SolError A) : EM A := fun _ st =>
  match r with ROk a => ROk (a, st) | RErr e => RErr e | RPanic why => RPanic why end.

(** Checked arithmetic, and what the decoder of calldata admits. *)
Definition checked (z : Z) : EM Z := if is_u256 z then mret z else revert (Panic 17).
Definition uint256 (z : Z) : EM Z := if is_u256 z then mret z else revert (Revert "abi").
Definition nonpayable : EM unit := msg ← the_msg; require (msg_value msg =? 0) "non-payable".

(** A call made by one of the contracts. *)
Definition as_contract {A} (self : Addr) (m : EM A) : EM A := fun _ st => m (MkMsg self 0) st.

Definition upd_token (f : TokenState -> TokenState) : EM unit :=
  upd (fun w => MkWorld (eth w) (f (token_st w)) (nft_st w) (loans_st w)).
Definition upd_nft (f : NftState -> NftState) : EM unit :=
  upd (fun w => MkWorld (eth w) (token_st w) (f (nft_st w)) (loans_st w)).
Definition upd_loans (f : LoansState -> LoansState) : EM unit :=
  upd (fun w => MkWorld (eth w) (token_st w) (nft_st w) (f (loans_st w))).

Definition move_eth (from to : Addr) (z : Z) (e : gmap Addr Z) : gmap Addr Z :=
  let e := <[from := held e from - z]> e in <[to := held e to + z]> e.

Definition pay (from to : Addr) (z : Z) (w : World) : World :=
  MkWorld (move_eth from to z (eth w)) (token_st w) (nft_st w) (loans_st w).

(** [payable(to).transfer(amount)] from a contract. *)
Definition transfer_eth (self to : Addr) (z : Z) : EM unit :=
  w ← wget;
  _ ← require (z <=? held (eth w) self) "insufficient balance";
  _ ← require (accepts_eth to) "transfer failed";
  upd (pay self to z).

(** ** Multicall *)

(** Each element is a call of the contract to itself, with the sender and the
    value of the whole. *)
Definition multicall {C} (functionDelegateCall : C -> EM unit) : list C -> EM unit :=
  fix go data := match data with [] => mret tt | c :: data => _ ← functionDelegateCall c; go data end.

(** ** The token *)

Definition set_tk_init i s := MkTokenState (tk_impl s) i (tk_owner s) (tk_erc20 s) (halbornLoans s) (tk_hacker s).
Definition set_tk_owner o s := MkTokenState (tk_impl s) (tk_init s) o (tk_erc20 s) (halbornLoans s) (tk_hacker s).
Definition set_tk_erc20 t s := MkTokenState (tk_impl s) (tk_init s) (tk_owner s) t (halbornLoans s) (tk_hacker s).
Definition set_halbornLoans a s := MkTokenState (tk_impl s) (tk_init s) (tk_owner s) (tk_erc20 s) a (tk_hacker s).
Definition set_tk_hacker a s := MkTokenState (tk_impl s) (tk_init s) (tk_owner s) (tk_erc20 s) (halbornLoans s) a.
Definition set_tk_impl i s := MkTokenState i (tk_init s) (tk_owner s) (tk_erc20 s) (halbornLoans s) (tk_hacker s).

Definition onlyLoans : EM unit :=
  msg ← the_msg; w ← wget;
  require (msg_sender msg =? halbornLoans (token_st w)) "Caller is not HalbornLoans".
Definition token_onlyOwner : EM unit :=
  msg ← the_msg; w ← wget;
  require (tk_owner (token_st w) =? msg_sender msg) "Ownable: caller is not the owner".

Definition token_initialize : EM unit :=
  msg ← the_msg; w ← wget;
  i ← of_res (initializer (tk_init (token_st w)));
  _ ← upd_token (set_tk_init i);
  _ ← upd_token (fun s => set_tk_erc20 (e20_init "HalbornToken" "HT" (tk_erc20 s)) s);
  upd_token (set_tk_owner (msg_sender msg)).

Definition setLoans (halbornLoans_ : Addr) : EM unit :=
  _ ← token_onlyOwner;
  _ ← require (negb (halbornLoans_ =? 0)) "Zero Address";
  upd_token (set_halbornLoans halbornLoans_).

Definition token_mint_ (account : Addr) (amount : Z) : EM unit :=
  w ← wget; t ← of_res (e20_mint account amount (tk_erc20 (token_st w))); upd_token (set_tk_erc20 t).
Definition token_burn_ (account : Addr) (amount : Z) : EM unit :=
  w ← wget; t ← of_res (e20_burn account amount (tk_erc20 (token_st w))); upd_token (set_tk_erc20 t).

Definition mintToken (account : Addr) (amount : Z) : EM unit :=
  _ ← onlyLoans;
  token_mint_ account amount.

Definition burnToken (account : Addr) (amount : Z) : EM unit :=
  _ ← onlyLoans;
  token_burn_ account amount.

Definition token_authorizeUpgrade : EM unit := mret tt.

(** *** The replacement *)

Definition tokenX_onlyHacker : EM unit :=
  msg ← the_msg; w ← wget;
  require (msg_sender msg =? tk_hacker (token_st w)) "Caller is not the hacker".

Definition tokenX_initialize : EM unit :=
  msg ← the_msg;
  upd_token (set_tk_hacker (msg_sender msg)).

Definition tokenX_setLoans (halbornLoans_ : Addr) : EM unit :=
  _ ← tokenX_onlyHacker;
  _ ← require (negb (halbornLoans_ =? 0)) "Zero Address";
  upd_token (set_halbornLoans halbornLoans_).

Definition tokenX_mintToken (account : Addr) (amount : Z) : EM unit :=
  _ ← tokenX_onlyHacker;
  token_mint_ account amount.

Definition tokenX_burnToken (account : Addr) (amount : Z) : EM unit :=
  _ ← tokenX_onlyHacker;
  token_burn_ account amount.

Definition tokenX_authorizeUpgrade : EM unit := tokenX_onlyHacker.

(** *** Dispatch *)

(** Calls inherited from OpenZeppelin. *)
Definition token_erc20 (c : E20Call) : EM unit :=
  msg ← the_msg; w ← wget;
  t ← of_res (e20_call (msg_sender msg) c (tk_erc20 (token_st w)));
  upd_token (set_tk_erc20 t).
Definition token_own (c : OwnCall) : EM unit :=
  msg ← the_msg; w ← wget;
  o ← of_res (own_call (msg_sender msg) c (tk_owner (token_st w)));
  upd_token (set_tk_owner o).

Fixpoint token_call (c : TokenCall) : EM unit :=
  w ← wget;
  match tk_impl (token_st w), c with
  | HalbornToken, TInitialize => _ ← nonpayable; token_initialize
  | HalbornToken, TSetLoans a => _ ← nonpayable; setLoans a
  | HalbornToken, TMintToken a z => _ ← nonpayable; z ← uint256 z; mintToken a z
  | HalbornToken, TBurnToken a z => _ ← nonpayable; z ← uint256 z; burnToken a z
  | HalbornToken, TMulticall data => multicall token_call data
  | Token_UUPSattack, TInitialize => _ ← nonpayable; tokenX_initialize
  | Token_UUPSattack, TSetLoans a => _ ← nonpayable; tokenX_setLoans a
  | Token_UUPSattack, TMintToken a z => _ ← nonpayable; z ← uint256 z; tokenX_mintToken a z
  | Token_UUPSattack, TBurnToken a z => _ ← nonpayable; z ← uint256 z; tokenX_burnToken a z
  | Token_UUPSattack, TMulticall _ => revert (Revert "no such function")
  | _, TErc20 c => _ ← nonpayable; token_erc20 c
  | _, TOwn c => _ ← nonpayable; token_own c
  | HalbornToken, TUpgradeTo i => _ ← nonpayable; _ ← token_authorizeUpgrade; upd_token (set_tk_impl i)
  | Token_UUPSattack, TUpgradeTo i => _ ← nonpayable; _ ← tokenX_authorizeUpgrade; upd_token (set_tk_impl i)
  end.

(** ** The NFT *)

Section callbacks.
  (** The code of a receiver: whether it accepts. *)
  Context (receive : Addr -> EM bool).

Definition set_nt_impl i s := MkNftState i (nt_init s) (nt_owner s) (nt_erc721 s) (merkleRoot s) (price s) (idCounter s) (nt_hacker s).
Definition set_nt_init i s := MkNftState (nt_impl s) i (nt_owner s) (nt_erc721 s) (merkleRoot s) (price s) (idCounter s) (nt_hacker s).
Definition set_nt_owner o s := MkNftState (nt_impl s) (nt_init s) o (nt_erc721 s) (merkleRoot s) (price s) (idCounter s) (nt_hacker s).
Definition set_nt_erc721 t s := MkNftState (nt_impl s) (nt_init s) (nt_owner s) t (merkleRoot s) (price s) (idCounter s) (nt_hacker s).
Definition set_merkleRoot r s := MkNftState (nt_impl s) (nt_init s) (nt_owner s) (nt_erc721 s) r (price s) (idCounter s) (nt_hacker s).
Definition set_price p s := MkNftState (nt_impl s) (nt_init s) (nt_owner s) (nt_erc721 s) (merkleRoot s) p (idCounter s) (nt_hacker s).
Definition set_idCounter n s := MkNftState (nt_impl s) (nt_init s) (nt_owner s) (nt_erc721 s) (merkleRoot s) (price s) n (nt_hacker s).
Definition set_nt_hacker a s := MkNftState (nt_impl s) (nt_init s) (nt_owner s) (nt_erc721 s) (merkleRoot s) (price s) (idCounter s) a.

(** [onERC721Received] of whoever a token is sent to: the loans accept every
    token, their replacement, the token and the NFT have no such function, and
    an account without code is not asked. *)
Definition check_received (to : Addr) : EM unit :=
  w ← wget;
  if negb (is_contract to) then mret tt
  else if to =? LOANS then
    require (match ls_impl (loans_st w) with HalbornLoans _ => true | HalbornLoans_UUPSattack _ => false end) "not a receiver"
  else if (to =? TOKEN) || (to =? NFT) then revert (Revert "not a receiver")
  else accepted ← receive to; require accepted "not a receiver".

(** [_safeMint] and [safeTransferFrom]: the receiver is asked afterwards. *)
Definition safeMint (to : Addr) (id : Z) : EM unit :=
  w ← wget;
  t ← of_res (e721_mint to id (nt_erc721 (nft_st w)));
  _ ← upd_nft (set_nt_erc721 t);
  check_received to.

Definition safeTransferFrom (from to : Addr) (id : Z) : EM unit :=
  msg ← the_msg; w ← wget;
  t ← of_res (e721_transfer (msg_sender msg) from to id (nt_erc721 (nft_st w)));
  _ ← upd_nft (set_nt_erc721 t);
  check_received to.

Definition nft_onlyOwner : EM unit :=
  msg ← the_msg; w ← wget;
  require (nt_owner (nft_st w) =? msg_sender msg) "Ownable: caller is not the owner".

Definition setPrice (price_ : Z) : EM unit :=
  _ ← nft_onlyOwner;
  _ ← require (negb (price_ =? 0)) "Price cannot be 0";
  upd_nft (set_price price_).

Definition setMerkleRoot (merkleRoot_ : bytes) : EM unit :=
  upd_nft (set_merkleRoot merkleRoot_).

Definition nft_initialize (merkleRoot_ : bytes) (price_ : Z) : EM unit :=
  msg ← the_msg; w ← wget;
  i ← of_res (initializer (nt_init (nft_st w)));
  _ ← upd_nft (set_nt_init i);
  _ ← upd_nft (fun s => set_nt_erc721 (e721_init "Halborn NFT" "HNFT" (nt_erc721 s)) s);
  _ ← upd_nft (set_nt_owner (msg_sender msg));
  _ ← setMerkleRoot merkleRoot_;
  setPrice price_.

Definition mintAirdrops (id : Z) (merkleProof : list bytes) : EM unit :=
  msg ← the_msg; w ← wget;
  _ ← require (bool_decide (e721_owner (nt_erc721 (nft_st w)) id = None)) "Token already minted";
  let node := keccak_packed (msg_sender msg) id in
  let isValidProof := verifyCalldata merkleProof (merkleRoot (nft_st w)) node in
  _ ← require isValidProof "Invalid proof.";
  safeMint (msg_sender msg) id.

Definition mintBuyWithETH : EM unit :=
  msg ← the_msg; w ← wget;
  _ ← require (msg_value msg =? price (nft_st w)) "Invalid Price";
  _ ← upd_nft (fun s => set_idCounter ((idCounter s + 1) `mod` 2 ^ 256) s);
  w ← wget;
  safeMint (msg_sender msg) (idCounter (nft_st w)).

Definition withdrawETH (amount : Z) : EM unit :=
  _ ← nft_onlyOwner;
  w ← wget;
  transfer_eth NFT (nt_owner (nft_st w)) amount.

Definition nft_authorizeUpgrade : EM unit := mret tt.

(** *** The replacement *)

Definition nftX_onlyHacker : EM unit :=
  msg ← the_msg; w ← wget;
  require (msg_sender msg =? nt_hacker (nft_st w)) "Caller is not the hacker".

Definition nftX_initialize (merkleRoot_ : bytes) (price_ : Z) : EM unit :=
  msg ← the_msg;
  _ ← upd_nft (set_merkleRoot merkleRoot_);
  _ ← upd_nft (set_price price_);
  upd_nft (set_nt_hacker (msg_sender msg)).

Definition nftX_authorizeUpgrade : EM unit := nftX_onlyHacker.

Definition nftX_withdrawETH (amount : Z) : EM unit :=
  _ ← nftX_onlyHacker;
  msg ← the_msg; w ← wget;
  transfer_eth NFT (msg_sender msg) (held (eth w) NFT).

(** *** Dispatch *)

Definition nft_erc721 (c : E721Call) : EM unit :=
  msg ← the_msg; w ← wget;
  t ← of_res (e721_call (msg_sender msg) c (nt_erc721 (nft_st w)));
  upd_nft (set_nt_erc721 t).
Definition nft_own (c : OwnCall) : EM unit :=
  msg ← the_msg; w ← wget;
  o ← of_res (own_call (msg_sender msg) c (nt_owner (nft_st w)));
  upd_nft (set_nt_owner o).

Fixpoint nft_call (c : NftCall) : EM unit :=
  w ← wget;
  match nt_impl (nft_st w), c with
  | HalbornNFT, NInitialize root p => _ ← nonpayable; p ← uint256 p; nft_initialize root p
  | HalbornNFT, NSetPrice p => _ ← nonpayable; p ← uint256 p; setPrice p
  | HalbornNFT, NSetMerkleRoot root => _ ← nonpayable; setMerkleRoot root
  | HalbornNFT, NMintAirdrops id proof => _ ← nonpayable; id ← uint256 id; mintAirdrops id proof
  | HalbornNFT, NMintBuyWithETH => mintBuyWithETH
  | HalbornNFT, NWithdrawETH z => _ ← nonpayable; z ← uint256 z; withdrawETH z
  | HalbornNFT, NMulticall data => multicall nft_call data
  | HalbornNFT, NUpgradeTo i => _ ← nonpayable; _ ← nft_authorizeUpgrade; upd_nft (set_nt_impl i)
  | NFT_UUPSattack, NInitialize root p => _ ← nonpayable; p ← uint256 p; nftX_initialize root p
  | NFT_UUPSattack, NWithdrawETH z => _ ← nonpayable; z ← uint256 z; nftX_withdrawETH z
  | NFT_UUPSattack, NUpgradeTo i => _ ← nonpayable; _ ← nftX_authorizeUpgrade; upd_nft (set_nt_impl i)
  | _, NSafeTransferFrom from to id => _ ← nonpayable; id ← uint256 id; safeTransferFrom from to id
  | _, NErc721 c => _ ← nonpayable; nft_erc721 c
  | _, NOwn c => _ ← nonpayable; nft_own c
  | NFT_UUPSattack, _ => revert (Revert "no such function")
  end.

(** ** The loans *)

Definition set_ls_impl i s := MkLoansState i (ls_init s) (loans_token s) (loans_nft s) (totalCollateral s)
  (usedCollateral s) (idsCollateral s) (la_token s) (la_nft s) (la_hacker s).
Definition set_ls_init i s := MkLoansState (ls_impl s) i (loans_token s) (loans_nft s) (totalCollateral s)
  (usedCollateral s) (idsCollateral s) (la_token s) (la_nft s) (la_hacker s).
Definition set_links t n s := MkLoansState (ls_impl s) (ls_init s) t n (totalCollateral s)
  (usedCollateral s) (idsCollateral s) (la_token s) (la_nft s) (la_hacker s).
Definition set_total a z s := MkLoansState (ls_impl s) (ls_init s) (loans_token s) (loans_nft s)
  (<[a := z]> (totalCollateral s)) (usedCollateral s) (idsCollateral s) (la_token s) (la_nft s) (la_hacker s).
Definition set_used a z s := MkLoansState (ls_impl s) (ls_init s) (loans_token s) (loans_nft s) (totalCollateral s)
  (<[a := z]> (usedCollateral s)) (idsCollateral s) (la_token s) (la_nft s) (la_hacker s).
Definition set_ids m s := MkLoansState (ls_impl s) (ls_init s) (loans_token s) (loans_nft s) (totalCollateral s)
  (usedCollateral s) m (la_token s) (la_nft s) (la_hacker s).
Definition set_attack t n a s := MkLoansState (ls_impl s) (ls_init s) (loans_token s) (loans_nft s) (totalCollateral s)
  (usedCollateral s) (idsCollateral s) t n a.

(** Calls of the loans to the contracts they are linked to; at other addresses
    there is no such contract. *)
Definition token_at (a : Addr) (c : TokenCall) : EM unit :=
  if a =? TOKEN then as_contract LOANS (token_call c) else revert (Revert "no contract").
Definition nft_at (a : Addr) (c : NftCall) : EM unit :=
  if a =? NFT then as_contract LOANS (nft_call c) else revert (Revert "no contract").
Definition ownerOf_at (a : Addr) (id : Z) : EM Addr :=
  w ← wget;
  if a =? NFT then
    match e721_owner (nt_erc721 (nft_st w)) id with Some o => mret o | None => revert (Revert "ERC721: invalid token ID") end
  else revert (Revert "no contract").
Definition balanceOf_at (a who : Addr) : EM Z :=
  w ← wget;
  if a =? TOKEN then mret (e20_balanceOf (tk_erc20 (token_st w)) who) else revert (Revert "no contract").

Definition loans_initialize (token_ nft_ : Addr) : EM unit :=
  w ← wget;
  i ← of_res (initializer (ls_init (loans_st w)));
  _ ← upd_loans (set_ls_init i);
  upd_loans (set_links token_ nft_).

Definition depositNFTCollateral (collateralPrice id : Z) : EM unit :=
  msg ← the_msg; w ← wget;
  owner ← ownerOf_at (loans_nft (loans_st w)) id;
  _ ← require (owner =? msg_sender msg) "Caller is not the owner of the NFT";
  _ ← nft_at (loans_nft (loans_st w)) (NSafeTransferFrom (msg_sender msg) LOANS id);
  w ← wget;
  total ← checked (held (totalCollateral (loans_st w)) (msg_sender msg) + collateralPrice);
  _ ← upd_loans (set_total (msg_sender msg) total);
  upd_loans (fun s => set_ids (<[id := msg_sender msg]> (idsCollateral s)) s).

Definition withdrawCollateral (collateralPrice id : Z) : EM unit :=
  msg ← the_msg; w ← wget;
  available ← checked (held (totalCollateral (loans_st w)) (msg_sender msg) - held (usedCollateral (loans_st w)) (msg_sender msg));
  _ ← require (collateralPrice <=? available) "Collateral unavailable";
  _ ← require (default 0 (idsCollateral (loans_st w) !! id) =? msg_sender msg) "ID not deposited by caller";
  _ ← nft_at (loans_nft (loans_st w)) (NSafeTransferFrom LOANS (msg_sender msg) id);
  w ← wget;
  total ← checked (held (totalCollateral (loans_st w)) (msg_sender msg) - collateralPrice);
  _ ← upd_loans (set_total (msg_sender msg) total);
  upd_loans (fun s => set_ids (delete id (idsCollateral s)) s).

Definition getLoan (amount : Z) : EM unit :=
  msg ← the_msg; w ← wget;
  available ← checked (held (totalCollateral (loans_st w)) (msg_sender msg) - held (usedCollateral (loans_st w)) (msg_sender msg));
  _ ← require (available <? amount) "Not enough collateral";
  used ← checked (held (usedCollateral (loans_st w)) (msg_sender msg) + amount);
  _ ← upd_loans (set_used (msg_sender msg) used);
  token_at (loans_token (loans_st w)) (TMintToken (msg_sender msg) amount).

Definition returnLoan (amount : Z) : EM unit :=
  msg ← the_msg; w ← wget;
  _ ← require (amount <=? held (usedCollateral (loans_st w)) (msg_sender msg)) "Not enough collateral";
  balance ← balanceOf_at (loans_token (loans_st w)) (msg_sender msg);
  _ ← require (amount <=? balance) EmptyString;
  used ← checked (held (usedCollateral (loans_st w)) (msg_sender msg) + amount);
  _ ← upd_loans (set_used (msg_sender msg) used);
  token_at (loans_token (loans_st w)) (TBurnToken (msg_sender msg) amount).

Definition loans_authorizeUpgrade : EM unit := mret tt.

Definition onERC721Received : EM unit := mret tt.

(** *** The replacement *)

Definition loansX_onlyHacker : EM unit :=
  msg ← the_msg; w ← wget;
  require (msg_sender msg =? la_hacker (loans_st w)) "Caller is not the hacker".

Definition loansX_initialize (token_ nft_ : Addr) : EM unit :=
  msg ← the_msg;
  upd_loans (set_attack token_ nft_ (msg_sender msg)).

Definition loansX_mint : EM unit :=
  _ ← loansX_onlyHacker;
  msg ← the_msg; w ← wget;
  token_at (la_token (loans_st w)) (TMintToken (msg_sender msg) uint256_max).

Definition loansX_burn (account : Addr) : EM unit :=
  _ ← loansX_onlyHacker;
  w ← wget;
  balance ← balanceOf_at (la_token (loans_st w)) account;
  token_at (la_token (loans_st w)) (TBurnToken account balance).

Definition loansX_authorizeUpgrade : EM unit := loansX_onlyHacker.

(** *** Dispatch *)

Fixpoint loans_call (c : LoansCall) : EM unit :=
  w ← wget;
  match ls_impl (loans_st w), c with
  | HalbornLoans _, LInitialize t n => _ ← nonpayable; loans_initialize t n
  | HalbornLoans p, LDeposit id => _ ← nonpayable; id ← uint256 id; depositNFTCollateral p id
  | HalbornLoans p, LWithdraw id => _ ← nonpayable; id ← uint256 id; withdrawCollateral p id
  | HalbornLoans _, LGetLoan z => _ ← nonpayable; z ← uint256 z; getLoan z
  | HalbornLoans _, LReturnLoan z => _ ← nonpayable; z ← uint256 z; returnLoan z
  | HalbornLoans _, LOnReceived => _ ← nonpayable; onERC721Received
  | HalbornLoans _, LUpgradeTo i => _ ← nonpayable; _ ← loans_authorizeUpgrade; upd_loans (set_ls_impl i)
  | HalbornLoans _, LMulticall data => multicall loans_call data
  | HalbornLoans_UUPSattack _, LInitialize t n => _ ← nonpayable; loansX_initialize t n
  | HalbornLoans_UUPSattack _, LMint => _ ← nonpayable; loansX_mint
  | HalbornLoans_UUPSattack _, LBurn a => _ ← nonpayable; loansX_burn a
  | HalbornLoans_UUPSattack _, LUpgradeTo i => _ ← nonpayable; _ ← loansX_authorizeUpgrade; upd_loans (set_ls_impl i)
  | _, _ => revert (Revert "no such function")
  end.

Definition target (c : Call) : Addr := match c with CToken _ => TOKEN | CNft _ => NFT | CLoans _ => LOANS end.

Definition call (c : Call) : EM unit :=
  match c with CToken c => token_call c | CNft c => nft_call c | CLoans c => loans_call c end.

End callbacks.

(** ** Transactions *)

(** A receiver makes the calls of its next reply. *)
Definition reply_with (run : Tx -> World -> World) (_ : Addr) : EM bool := fun _ st =>
  match replies st with
  | [] => ROk (true, st)
  | MkScript accept inner :: rest => ROk (accept, MkEvmState (foldl (fun w t => run t w) (world st) inner) rest)
  end.

(** Calls nest as deep as the machine allows, [depth]. *)
Fixpoint run_tx (depth : nat) (t : Tx) (w : World) : result SolError unit * World :=
  match depth with
  | O => (RErr (Revert "call depth"), w)
  | S depth =>
      let '(MkTx from value c scripts) := t in
      let receive := reply_with (fun t w => snd (run_tx depth t w)) in
      if (value <? 0) || (held (eth w) from <? value) then (RErr (Revert "insufficient funds"), w)
      else
        match call receive c (MkMsg from value) (MkEvmState (pay from (target c) value w) scripts) with
        | ROk (_, st) => (ROk tt, world st)
        | RErr e => (RErr e, w)
        | RPanic why => (RPanic why, w)
        end
  end.

Definition run_txs (depth : nat) (l : list Tx) (w : World) : World :=
  foldl (fun w t => snd (run_tx depth t w)) w l.

End contracts.
