(* ===== verification/EthProps.v ===== *)
(** * The lending contracts on Ethereum: what holds over all transactions

    Invariants under arbitrary transactions with arbitrary re-entrancy: once
    the next identifier is taken the sale is over for good, and what an account
    has borrowed is never given back.  Then what single transactions achieve. *)

From S2P Require Import Prelude Rust Ledger Evm EthContracts.

Ltac em_run := unfold the_msg, wget, upd, upd_token, upd_nft, upd_loans, require, revert, of_res, as_contract;
  cbv beta delta [mbind mret EM_bind EM_ret]; cbn.
Tactic Notation "em_run" "in" hyp(H) :=
  unfold the_msg, wget, upd, upd_token, upd_nft, upd_loans, require, revert, of_res, as_contract in H;
  cbv beta delta [mbind mret EM_bind EM_ret] in H; cbn in H.

(** ** Invariants of calls *)

Section pres.
  Context `{OpenZeppelin, Evm}.
  Implicit Types (I : World -> Prop) (Q : Msg -> Prop).

(** A call with a message in [Q] that succeeds keeps [I]. *)
Definition pres Q I {A} (m : EM A) : Prop :=
  forall msg st a st', Q msg -> m msg st = ROk (a, st') -> I (world st) -> I (world st').

Definition any_msg (_ : Msg) : Prop := True.

Lemma pres_bind Q I {A B} (m : EM A) (k : A -> EM B) : pres Q I m -> (forall a, pres Q I (k a)) -> pres Q I (m ≫= k).
Proof.
  intros Hm Hk msg st b st' HQ E HI. cbv beta delta [mbind EM_bind] in E.
  destruct (m msg st) as [[a st1]| |] eqn:E1; [|done|done]. eapply Hk; [exact HQ|exact E|]. eapply Hm; eauto.
Qed.

Lemma pres_ret Q I {A} (a : A) : pres Q I (mret a).
Proof. intros msg st b st' _ E HI. now inversion E; subst. Qed.

Lemma pres_msg Q I : pres Q I the_msg.
Proof. intros msg st b st' _ E HI. now inversion E; subst. Qed.

Lemma pres_wget Q I : pres Q I wget.
Proof. intros msg st b st' _ E HI. now inversion E; subst. Qed.

Lemma pres_revert Q I {A} e : pres Q I (revert e : EM A).
Proof. intros msg st b st' _ E HI. done. Qed.

Lemma pres_require Q I b why : pres Q I (require b why).
Proof. destruct b; [apply pres_ret|apply pres_revert]. Qed.

Lemma pres_checked Q I z : pres Q I (checked z).
Proof. unfold checked. destruct (is_u256 z); [apply pres_ret|apply pres_revert]. Qed.

Lemma pres_uint256 Q I z : pres Q I (uint256 z).
Proof. unfold uint256. destruct (is_u256 z); [apply pres_ret|apply pres_revert]. Qed.

Lemma pres_of_res Q I {A} (r : result SolError A) : pres Q I (of_res r).
Proof. intros msg st b st' _ E HI. unfold of_res in E. destruct r; now inversion E; subst. Qed.

Lemma pres_nonpayable Q I : pres Q I nonpayable.
Proof. apply pres_bind; [apply pres_msg|intros; apply pres_require]. Qed.

Lemma pres_as_contract Q I {A} self (m : EM A) : pres any_msg I m -> pres Q I (as_contract self m).
Proof. intros Hm msg st b st' _ E HI. exact (Hm _ _ _ _ Logic.I E HI). Qed.

Lemma pres_upd Q I f : (forall w, I w -> I (f w)) -> pres Q I (upd f).
Proof. intros Hf msg st b st' _ E HI. inversion E; subst. now apply Hf. Qed.

Lemma pres_any Q I {A} (m : EM A) : pres any_msg I m -> pres Q I m.
Proof. intros Hm msg st a st' _ E. exact (Hm msg st a st' Logic.I E). Qed.

Lemma pres_uint_bind Q I {A} z (k : Z -> EM A) : (is_u256 z = true -> pres Q I (k z)) -> pres Q I (uint256 z ≫= k).
Proof.
  intros Hk msg st a st' HQ E HI. unfold uint256 in E. destruct (is_u256 z) eqn:Ez; [|done].
  exact (Hk eq_refl _ _ _ _ HQ E HI).
Qed.

End pres.

(** Down to the updates, or to what [leaf] solves. *)
Ltac em_pres_with leaf := repeat first
  [ assumption | solve [leaf ()] | progress intros | apply pres_bind | apply pres_ret | apply pres_msg | apply pres_wget
  | apply pres_revert | apply pres_require | apply pres_checked | apply pres_uint256 | apply pres_of_res
  | apply pres_nonpayable | apply pres_as_contract | apply pres_upd | case_match ].
Ltac em_pres := em_pres_with ltac:(fun _ => fail).

(** ** Frames *)

Section frames.
  Context `{OpenZeppelin, Evm}.
  Implicit Types (I : World -> Prop) (Q : Msg -> Prop).

(** What does not depend on the token contract is kept by its calls. *)
Definition token_free I : Prop := forall w s, I w -> I (MkWorld (eth w) s (nft_st w) (loans_st w)).
Definition nft_free I : Prop := forall w s, I w -> I (MkWorld (eth w) (token_st w) s (loans_st w)).
Definition eth_free I : Prop := forall w e, I w -> I (MkWorld e (token_st w) (nft_st w) (loans_st w)).
Definition loans_free I : Prop := forall w s, I w -> I (MkWorld (eth w) (token_st w) (nft_st w) s).

Lemma token_call_pres Q I c : token_free I -> pres Q I (token_call c).
Proof.
  intros HI. revert c. fix IH 1. intros c.
  destruct c; cbn [token_call]; (apply pres_bind; [apply pres_wget|intros w; destruct (tk_impl (token_st w))]);
    try (unfold token_initialize, setLoans, mintToken, burnToken, token_mint_, token_burn_, tokenX_initialize,
      tokenX_setLoans, tokenX_mintToken, tokenX_burnToken, token_erc20, token_own, token_authorizeUpgrade,
      tokenX_authorizeUpgrade, tokenX_onlyHacker, token_onlyOwner, onlyLoans; em_pres; now apply HI).
  induction data as [|c data IHd]; [apply pres_ret|]. cbn. apply pres_bind; [apply IH|intros _; apply IHd].
Qed.

Lemma token_at_pres Q I a c : token_free I -> pres Q I (token_at a c).
Proof. intros HI. unfold token_at. em_pres_with ltac:(fun _ => now apply token_call_pres). Qed.

Context (receive : Addr -> EM bool).

Lemma check_received_pres Q I to : (forall a, pres any_msg I (receive a)) -> pres Q I (check_received receive to).
Proof. intros HR. unfold check_received. em_pres_with ltac:(fun _ => apply pres_any, HR). Qed.

Lemma transfer_eth_pres Q I a b z : eth_free I -> pres Q I (transfer_eth a b z).
Proof. intros HI. unfold transfer_eth. em_pres. now apply HI. Qed.

Definition same_tokens (t t' : Erc721) : Prop :=
  (forall id, e721_owner t id = e721_owner t' id /\ e721_approved t id = e721_approved t' id) /\
  forall o op, e721_operator t o op = e721_operator t' o op.

Lemma same_tokens_refl t : same_tokens t t.
Proof. done. Qed.

(** The calls of the NFT that decide about tokens are left to the invariant. *)
Section nft_frame.
  Context (Q : Msg -> Prop) (I : World -> Prop) (HE : eth_free I).
  Context (soft : forall w s, I w -> same_tokens (nt_erc721 s) (nt_erc721 (nft_st w)) ->
    idCounter s = idCounter (nft_st w) -> I (MkWorld (eth w) (token_st w) s (loans_st w))).
  Context (mints : forall id proof, pres Q I (mintAirdrops receive id proof)) (buys : pres Q I (mintBuyWithETH receive)).
  Context (moves : forall a b id, pres Q I (safeTransferFrom receive a b id)) (calls : forall c, pres Q I (nft_erc721 c)).
  Context `{!OpenZeppelinOk}.

Lemma nft_call_pres c : pres Q I (nft_call receive c).
Proof.
  revert c. fix IH 1. intros c.
  destruct c; cbn [nft_call]; (apply pres_bind; [apply pres_wget|intros w; destruct (nt_impl (nft_st w))]);
    try (unfold nft_initialize, setPrice, setMerkleRoot, nft_own, nft_onlyOwner, withdrawETH, nft_authorizeUpgrade,
      nftX_initialize, nftX_authorizeUpgrade, nftX_onlyHacker, nftX_withdrawETH;
      em_pres_with ltac:(fun _ => first [ apply mints | apply buys | apply moves | apply calls | now apply transfer_eth_pres ]);
      (apply soft; [done|cbn; first [apply same_tokens_refl|apply e721_init_ok]|done])).
  induction data as [|c data IHd]; [apply pres_ret|]. cbn. apply pres_bind; [apply IH|intros _; apply IHd].
Qed.

End nft_frame.

(** What does not depend on the NFT contract is kept by its calls. *)
Lemma nft_call_free `{!OpenZeppelinOk} Q I c :
  nft_free I -> eth_free I -> (forall a, pres any_msg I (receive a)) -> pres Q I (nft_call receive c).
Proof.
  intros HN HE HR. apply nft_call_pres; auto.
  - intros id proof. unfold mintAirdrops, safeMint. em_pres_with ltac:(fun _ => now apply check_received_pres); now apply HN.
  - unfold mintBuyWithETH, safeMint. em_pres_with ltac:(fun _ => now apply check_received_pres); now apply HN.
  - intros a b id. unfold safeTransferFrom. em_pres_with ltac:(fun _ => now apply check_received_pres); now apply HN.
  - intros c'. unfold nft_erc721. em_pres. now apply HN.
Qed.

Lemma nft_at_pres Q I a c : (forall c, pres any_msg I (nft_call receive c)) -> pres Q I (nft_at receive a c).
Proof. intros HN. unfold nft_at. em_pres_with ltac:(fun _ => apply HN). Qed.

(** What does not depend on the loans is kept by them, when it is by the NFT. *)
Lemma loans_call_pres Q I c :
  token_free I -> loans_free I -> (forall c, pres any_msg I (nft_call receive c)) -> pres Q I (loans_call receive c).
Proof.
  intros HT HL HN. revert c. fix IH 1. intros c.
  destruct c; cbn [loans_call]; (apply pres_bind; [apply pres_wget|intros w; destruct (ls_impl (loans_st w))]);
    try (unfold loans_initialize, depositNFTCollateral, withdrawCollateral, getLoan, returnLoan, loans_authorizeUpgrade,
      onERC721Received, loansX_initialize, loansX_mint, loansX_burn, loansX_authorizeUpgrade, loansX_onlyHacker,
      ownerOf_at, balanceOf_at;
      em_pres_with ltac:(fun _ => first [ now apply token_at_pres | now apply nft_at_pres ]); now apply HL).
  induction data as [|c data IHd]; [apply pres_ret|]. cbn. apply pres_bind; [apply IH|intros _; apply IHd].
Qed.

End frames.

(** ** Transactions *)

Section transactions.
  Context `{OpenZeppelin, Evm}.

(** An invariant of every call, whatever the receivers do, is an invariant of
    transactions. *)
Lemma run_tx_pres (I : World -> Prop) :
  eth_free I -> (forall receive c, (forall a, pres any_msg I (receive a)) -> pres any_msg I (call receive c)) ->
  forall depth t w, I w -> I (snd (run_tx depth t w)).
Proof.
  intros HE HC. induction depth as [|depth IH]; intros [from value c scripts] w HI; [exact HI|]. cbn [run_tx].
  case_match; [exact HI|].
  assert (forall a, pres any_msg I (reply_with (fun t w => snd (run_tx depth t w)) a)) as HR.
  - intros a msg st b st' _ E Hw. unfold reply_with in E. destruct (replies st) as [|[accept inner] rest]; [now simplify_eq|].
    injection E as _ <-. cbn. revert Hw. generalize (world st). induction inner as [|t inner IHi]; intros w' Hw'; [done|].
    cbn. apply IHi. now apply IH.
  - destruct (call _ _ _ _) as [[[] st]| |] eqn:E; [|exact HI|exact HI].
    apply (HC _ _ HR _ _ _ _ Logic.I E). now apply HE.
Qed.

(** A transaction that can be paid for. *)
Lemma run_tx_paid depth from v c scripts w :
  0 <= v <= held (eth w) from ->
  run_tx (S depth) (MkTx from v c scripts) w =
  match call (reply_with (fun t w => snd (run_tx depth t w))) c (MkMsg from v)
          (MkEvmState (pay from (target c) v w) scripts) with
  | ROk (_, st) => (ROk tt, world st) | RErr e => (RErr e, w) | RPanic why => (RPanic why, w)
  end.
Proof. intros Hv. cbn [run_tx]. replace (_ || _) with false by lia. done. Qed.

Lemma run_txs_pres (I : World -> Prop) :
  eth_free I -> (forall receive c, (forall a, pres any_msg I (receive a)) -> pres any_msg I (call receive c)) ->
  forall depth l w, I w -> I (run_txs depth l w).
Proof.
  intros HE HC depth l. unfold run_txs. induction l as [|t l IH]; intros w HI; [done|]. cbn. apply IH. now apply run_tx_pres.
Qed.

End transactions.

(** ** The sale *)

Section sale.
  Context `{OpenZeppelinOk, Evm}.

Definition next_id (w : World) : Z := (idCounter (nft_st w) + 1) `mod` 2 ^ 256.
Definition owner_of (w : World) (id : Z) : option Addr := e721_owner (nt_erc721 (nft_st w)) id.

(** The next identifier to sell is already taken. *)
Definition sale_over (n : Z) (w : World) : Prop :=
  idCounter (nft_st w) = n /\ owner_of w (next_id w) <> None.

Lemma mintBuy_reverts receive n msg st a st' :
  sale_over n (world st) -> mintBuyWithETH receive msg st = ROk (a, st') -> False.
Proof.
  intros [_ Ho] E. unfold mintBuyWithETH, safeMint in E. em_run in E. destruct (_ =? _); [|done].
  pose proof (e721_mint_ok (msg_sender msg) (next_id (world st)) (nt_erc721 (nft_st (world st)))) as HM.
  rewrite bool_decide_false, andb_false_r in HM by done.
  unfold next_id in HM. now destruct (e721_mint _ _ _).
Qed.

Lemma sale_over_call n receive c :
  (forall a, pres any_msg (sale_over n) (receive a)) -> pres any_msg (sale_over n) (nft_call receive c).
Proof.
  intros HR. apply nft_call_pres; [by intros ?| | | | | |done].
  - intros w s [Hn Ho] Hs Hi. split; cbn; [congruence|]. unfold owner_of, next_id. cbn.
    now rewrite (proj1 (proj1 Hs _)), Hi.
  - intros id proof msg st a st' _ E [Hn Ho]. unfold mintAirdrops, safeMint in E. em_run in E.
    destruct (bool_decide _); [cbn in E|done]. destruct (verifyCalldata _ _ _); [cbn in E|done].
    destruct (e721_mint _ _ _) as [t| |] eqn:Em; [|done|done].
    eapply (check_received_pres receive any_msg); [exact HR|exact Logic.I|exact E|]. apply e721_mint_owner in Em as (Hid & Hne & _).
    split; cbn; [done|]. unfold owner_of, next_id in *. cbn.
    destruct (decide ((idCounter (nft_st (world st)) + 1) `mod` 2 ^ 256 = id)) as [->|]; [congruence|now rewrite Hne].
  - intros msg st a st' _ E HI. now apply (mintBuy_reverts receive n) in E.
  - intros from to id msg st a st' _ E [Hn Ho]. unfold safeTransferFrom in E. em_run in E.
    destruct (e721_transfer _ _ _ _ _) as [t| |] eqn:Em; [|done|done].
    eapply (check_received_pres receive any_msg); [exact HR|exact Logic.I|exact E|]. apply e721_transfer_owner in Em as (Hid & _ & Hne & _).
    split; cbn; [done|]. unfold owner_of, next_id in *. cbn.
    destruct (decide ((idCounter (nft_st (world st)) + 1) `mod` 2 ^ 256 = id)) as [->|]; [congruence|].
    now rewrite (proj1 (Hne _ ltac:(done))).
  - intros c' msg st a st' _ E [Hn Ho]. unfold nft_erc721 in E. em_run in E.
    destruct (e721_call _ _ _) as [t| |] eqn:Em; [|done|done]. inversion E; subst. split; cbn; [done|].
    unfold owner_of, next_id in *. cbn. now rewrite (e721_call_exists _ _ _ _ _ Em).
Qed.

Lemma sale_over_kept n depth l w : sale_over n w -> sale_over n (run_txs depth l w).
Proof.
  apply run_txs_pres; [by intros ?|]. intros receive [c|c|c] HR; cbn [call].
  - apply token_call_pres. by intros ?.
  - now apply sale_over_call.
  - apply loans_call_pres; [by intros ?|by intros ?|]. intros c'. now apply sale_over_call.
Qed.

Lemma sale_over_no_sale n depth from v scripts w :
  sale_over n w -> fst (run_tx depth (MkTx from v (CNft NMintBuyWithETH) scripts) w) <> ROk tt.
Proof.
  intros HI. destruct depth as [|depth]; [done|]. cbn [run_tx]. case_match; [done|]. cbn [call].
  destruct (nft_call _ _ _ _) as [[a st]| |] eqn:E; [|done|done]. exfalso. cbn [nft_call] in E. em_run in E.
  destruct (nt_impl (nft_st w)); [|done]. now eapply (mintBuy_reverts _ n) in E.
Qed.

(** Once the identifier that follows the counter is taken, by an airdrop, the
    sale is over for good: no transactions, whatever their receivers do, move
    the counter again, and every purchase fails. *)
Theorem sale_blocked n depth l w :
  sale_over n w -> sale_over n (run_txs depth l w) /\
  forall depth' from v scripts,
    fst (run_tx depth' (MkTx from v (CNft NMintBuyWithETH) scripts) (run_txs depth l w)) <> ROk tt.
Proof.
  intros HI. pose proof (sale_over_kept n depth l w HI) as HK. split; [done|].
  intros. now apply (sale_over_no_sale n).
Qed.

(** The two transactions of [a] that take an identifier: the root of the airdrop
    becomes the leaf of [a] itself. *)
Definition grab (a : Addr) (id : Z) : list Tx :=
  [MkTx a 0 (CNft (NSetMerkleRoot (keccak_packed a id))) []; MkTx a 0 (CNft (NMintAirdrops id [])) []].

Lemma pay_zero a b e : held (move_eth a b 0 e) a = held e a.
Proof. unfold move_eth. rewrite !held_insert_dec. repeat case_decide; subst; lia. Qed.

Lemma setMerkleRoot_tx depth a root w :
  0 <= held (eth w) a -> nt_impl (nft_st w) = HalbornNFT ->
  run_tx (S depth) (MkTx a 0 (CNft (NSetMerkleRoot root)) []) w =
  (ROk tt, MkWorld (move_eth a NFT 0 (eth w)) (token_st w) (set_merkleRoot root (nft_st w)) (loans_st w)).
Proof.
  intros He Hi. rewrite run_tx_paid by lia. cbn [call nft_call]. em_run. rewrite Hi. unfold nonpayable, setMerkleRoot. em_run. done.
Qed.

Lemma safeMint_eoa receive to id msg st :
  to <> 0 -> is_contract to = false -> owner_of (world st) id = None ->
  exists t, safeMint receive to id msg st = ROk (tt, MkEvmState (MkWorld (eth (world st)) (token_st (world st))
      (set_nt_erc721 t (nft_st (world st))) (loans_st (world st))) (replies st)) /\
    e721_owner t id = Some to /\ forall id', id' <> id -> e721_owner t id' = owner_of (world st) id'.
Proof.
  intros Ha Hc Ho. unfold safeMint, check_received. em_run.
  pose proof (e721_mint_ok to id (nt_erc721 (nft_st (world st)))) as HM.
  rewrite (proj2 (Z.eqb_neq to 0)), bool_decide_true in HM by done. cbn in HM.
  destruct (e721_mint _ _ _) as [t| |] eqn:Em; [|done|done]. cbn. rewrite Hc. exists t.
  apply e721_mint_owner in Em as (? & ? & _). done.
Qed.

Lemma grab_run a id depth w :
  a <> 0 -> is_contract a = false -> 0 <= held (eth w) a -> is_u256 id = true ->
  nt_impl (nft_st w) = HalbornNFT -> owner_of w id = None ->
  let w' := run_txs (S depth) (grab a id) w in
  owner_of w' id = Some a /\ idCounter (nft_st w') = idCounter (nft_st w).
Proof.
  intros Ha Hc He Hid Hi Ho. unfold run_txs, grab. cbn [foldl]. rewrite setMerkleRoot_tx by done. cbn [snd].
  rewrite run_tx_paid by (cbn [eth]; rewrite pay_zero; lia). cbn [call nft_call]. em_run. rewrite Hi.
  unfold nonpayable, uint256. em_run. rewrite Hid. unfold mintAirdrops. em_run.
  unfold owner_of in Ho. rewrite bool_decide_true by done. rewrite verifyCalldata_nil, bool_decide_true by done. em_run.
  edestruct (safeMint_eoa (reply_with (fun t w => snd (run_tx depth t w))) a id) as (t & -> & Ht & _); [done..|]. cbn. done.
Qed.

(** C25: Anyone without code at their address can end the sale, for nothing: the
    root of the airdrop can be set by everyone. *)
Theorem sale_ended_by_anyone a depth l w :
  a <> 0 -> is_contract a = false -> 0 <= held (eth w) a -> nt_impl (nft_st w) = HalbornNFT ->
  owner_of w (next_id w) = None ->
  let w' := run_txs depth l (run_txs (S depth) (grab a (next_id w)) w) in
  forall depth' from v scripts, fst (run_tx depth' (MkTx from v (CNft NMintBuyWithETH) scripts) w') <> ROk tt.
Proof.
  intros Ha Hc He Hi Ho w' d from v scripts.
  assert (is_u256 (next_id w) = true) as Hid.
  { unfold is_u256, next_id. pose proof (Z.mod_pos_bound (idCounter (nft_st w) + 1) (2 ^ 256) ltac:(lia)). lia. }
  destruct (grab_run a (next_id w) depth w) as [Hg Hn]; [done..|].
  apply (sale_over_no_sale (idCounter (nft_st w))), sale_over_kept. split; [done|].
  set (w1 := run_txs _ _ w) in *. assert (next_id w1 = next_id w) as -> by (unfold next_id at 1; now rewrite Hn).
  now rewrite Hg.
Qed.

End sale.
