(* ===== verification/EthLoansProps.v ===== *)
(** * Loans, multicall and upgrades: what transactions achieve

    A loan can only exceed the free collateral, so it locks the account of the
    borrower, and nothing but new deposits unlocks it: what is repaid counts as
    borrowed again.  Several purchases in a multicall are paid for once.
    Anyone can replace an implementation. *)

From S2P Require Import Prelude Rust Ledger Evm EthContracts EthProps.

(** The next guard, where the call fails otherwise. *)
Ltac em_guard H := match goal with |- context [if ?b then _ else _] => destruct b eqn:H; [|done] end; cbn -[is_u256].

Section borrowing.
  Context `{OpenZeppelinOk, Evm}.

Definition used (w : World) (a : Addr) : Z := held (usedCollateral (loans_st w)) a.
Definition total (w : World) (a : Addr) : Z := held (totalCollateral (loans_st w)) a.

(** ** What is borrowed is never given back *)

Definition used_above (u : Addr -> Z) (w : World) : Prop := forall a, u a <= used w a.

Lemma set_used_above u w a z :
  used_above u w -> used w a <= z ->
  used_above u (MkWorld (eth w) (token_st w) (nft_st w) (set_used a z (loans_st w))).
Proof.
  intros HI Hz b. specialize (HI b). unfold used in *. cbn. rewrite held_insert_dec. case_decide; subst; lia.
Qed.

Lemma token_at_used u a c : pres any_msg (used_above u) (token_at a c).
Proof. apply token_at_pres. by intros ?. Qed.

Lemma getLoan_used u z : 0 <= z -> pres any_msg (used_above u) (getLoan z).
Proof.
  intros Hz msg st a st' _ E HI. unfold getLoan, checked in E. em_run in E.
  repeat match type of E with context [if ?b then _ else _] => destruct b; [cbn in E|done] end.
  apply (token_at_used u _ _ _ _ _ _ Logic.I E). apply set_used_above; [done|]. unfold used. lia.
Qed.

Lemma returnLoan_used u z : 0 <= z -> pres any_msg (used_above u) (returnLoan z).
Proof.
  intros Hz msg st a st' _ E HI. unfold returnLoan, balanceOf_at, checked in E. em_run in E.
  repeat match type of E with context [if ?b then _ else _] => destruct b; [cbn in E|done] end.
  apply (token_at_used u _ _ _ _ _ _ Logic.I E). apply set_used_above; [done|]. unfold used. lia.
Qed.

Lemma loans_call_used u receive c :
  (forall a, pres any_msg (used_above u) (receive a)) -> pres any_msg (used_above u) (loans_call receive c).
Proof.
  intros HR. assert (forall a c, pres any_msg (used_above u) (nft_at receive a c)) as HN.
  { intros. apply nft_at_pres. intros. apply nft_call_free; first [done|by intros ?]. }
  revert c. fix IH 1. intros c.
  destruct c; cbn [loans_call]; (apply pres_bind; [apply pres_wget|intros w; destruct (ls_impl (loans_st w))]);
    try (unfold loans_initialize, depositNFTCollateral, withdrawCollateral, loans_authorizeUpgrade,
      onERC721Received, loansX_initialize, loansX_mint, loansX_burn, loansX_authorizeUpgrade, loansX_onlyHacker,
      ownerOf_at, balanceOf_at;
      em_pres_with ltac:(fun _ => first [ apply token_at_used | apply HN
        | apply pres_uint_bind; intros; first [apply getLoan_used|apply returnLoan_used]; unfold is_u256 in *; lia ]); done).
  induction data as [|c data IHd]; [apply pres_ret|]. cbn. apply pres_bind; [apply IH|intros _; apply IHd].
Qed.

Lemma used_kept u depth l w : used_above u w -> used_above u (run_txs depth l w).
Proof.
  apply run_txs_pres; [by intros ?|]. intros receive [c|c|c] HR; cbn [call].
  - apply token_call_pres. by intros ?.
  - apply nft_call_free; first [done|by intros ?].
  - now apply loans_call_used.
Qed.

(** ** A loan locks the account *)

(** An account that owes more than its collateral neither borrows nor gets a
    token back, whatever the implementation. *)
Definition locked (a : Addr) (w : World) : Prop :=
  forall depth v scripts x,
    fst (run_tx depth (MkTx a v (CLoans (LGetLoan x)) scripts) w) <> ROk tt /\
    fst (run_tx depth (MkTx a v (CLoans (LWithdraw x)) scripts) w) <> ROk tt.

Lemma overdrawn_locked a w : total w a < used w a -> locked a w.
Proof.
  intros Hlt depth v scripts x. unfold total, used in Hlt.
  split; (destruct depth as [|depth]; [done|]; cbn [run_tx]; case_match; [done|]; cbn [call loans_call]; em_run;
    destruct (ls_impl (loans_st w)); [|done]; unfold nonpayable, uint256; em_run;
    destruct (v =? 0); [|done]; cbn -[is_u256]; destruct (is_u256 x); [|done];
    unfold getLoan, withdrawCollateral, checked; em_run; replace (is_u256 _) with false by (unfold is_u256; lia); done).
Qed.

Lemma token_at_loans a c msg st u st' : token_at a c msg st = ROk (u, st') -> loans_st (world st') = loans_st (world st).
Proof.
  intros E. assert (token_free (fun w => loans_st w = loans_st (world st))) as HF by (by intros ?).
  exact (token_at_pres any_msg _ a c HF _ _ _ _ Logic.I E eq_refl).
Qed.

Lemma getLoan_overdraws depth a v z scripts w :
  fst (run_tx depth (MkTx a v (CLoans (LGetLoan z)) scripts) w) = ROk tt ->
  let w' := snd (run_tx depth (MkTx a v (CLoans (LGetLoan z)) scripts) w) in
  total w' a = total w a /\ used w' a = used w a + z /\ total w' a < used w' a.
Proof.
  destruct depth as [|depth]; [done|]. cbn [run_tx]. case_match; [done|]. cbn [call loans_call]. em_run.
  destruct (ls_impl (loans_st w)); [|done]. unfold nonpayable, uint256. em_run. destruct (v =? 0); [|done]. cbn -[is_u256].
  destruct (is_u256 z) eqn:Ez; [|done]. unfold getLoan, checked. em_run.
  em_guard E1. em_guard E2. em_guard E3.
  destruct (token_at _ _ _ _) as [[u st]| |] eqn:E; [|done|done]. intros _. cbn. apply token_at_loans in E. cbn in E.
  unfold total, used. rewrite E. cbn. rewrite held_insert. lia.
Qed.

(** C24: A loan is granted only if it exceeds the free collateral of the borrower,
    so it leaves them owing more than their collateral.  From then on they can
    neither borrow nor withdraw a token, whatever transactions follow,
    repayments included, as long as their collateral does not grow. *)
Theorem borrowed_locked depth a v z scripts w depth' l :
  fst (run_tx depth (MkTx a v (CLoans (LGetLoan z)) scripts) w) = ROk tt ->
  let w1 := snd (run_tx depth (MkTx a v (CLoans (LGetLoan z)) scripts) w) in
  let w2 := run_txs depth' l w1 in
  total w2 a <= total w a -> used w a + z <= used w2 a /\ locked a w2.
Proof.
  intros E w1 w2 Ht. destruct (getLoan_overdraws _ _ _ _ _ _ E) as (Ht1 & Hu1 & Hlt). fold w1 in Ht1, Hu1, Hlt.
  pose proof (used_kept (used w1) depth' l w1 ltac:(intros ?; lia) a) as Hu. fold w2 in Hu.
  split; [lia|]. apply overdrawn_locked. lia.
Qed.

(** ** Repaying *)

(** A repayment burns the tokens and adds to what is owed. *)
Lemma returnLoan_run z msg st :
  loans_token (loans_st (world st)) = TOKEN -> halbornLoans (token_st (world st)) = LOANS ->
  tk_impl (token_st (world st)) = HalbornToken -> msg_sender msg <> 0 -> is_u256 z = true ->
  let a := msg_sender msg in
  z <= used (world st) a -> z <= e20_balanceOf (tk_erc20 (token_st (world st))) a -> used (world st) a + z < 2 ^ 256 ->
  exists st', returnLoan z msg st = ROk (tt, st') /\ used (world st') a = used (world st) a + z /\
    e20_balanceOf (tk_erc20 (token_st (world st'))) a = e20_balanceOf (tk_erc20 (token_st (world st))) a - z.
Proof.
  intros Hl Hh Hi Ha Hz a Hu Hb Hf. unfold used in *. unfold is_u256 in Hz.
  unfold returnLoan, balanceOf_at, token_at, checked. em_run. fold a. rewrite Hl, Z.eqb_refl.
  replace (z <=? held _ a) with true by lia. cbn -[is_u256]. replace (z <=? e20_balanceOf _ a) with true by lia.
  cbn -[is_u256]. replace (is_u256 (_ + z)) with true by (unfold is_u256; lia). em_run.
  rewrite Hi. unfold nonpayable, uint256. em_run.
  unfold is_u256. rewrite Hz. unfold burnToken, onlyLoans, token_burn_. em_run. rewrite Hh, Z.eqb_refl. cbn.
  destruct (e20_burn_ok a z (tk_erc20 (token_st (world st)))) as [Hok Hr]; [lia|].
  destruct (e20_burn a z _) as [t| |] eqn:E; [|exfalso; cbn in Hok; lia..].
  destruct (Hr _ eq_refl) as [_ Hbal]. eexists. split; [reflexivity|]. cbn. rewrite held_insert, Hbal, decide_True by done. lia.
Qed.

End borrowing.

(** ** Multicall *)

Section batches.
  Context `{OpenZeppelinOk, Evm}.
  Context (a : Addr) (a_nonzero : a <> 0) (a_eoa : is_contract a = false).

(** The identifiers after the counter are free. *)
Definition free_ids (n : nat) (w : World) : Prop :=
  0 <= idCounter (nft_st w) /\ idCounter (nft_st w) + Z.of_nat n < 2 ^ 256 /\
  forall k, 1 <= k <= Z.of_nat n -> owner_of w (idCounter (nft_st w) + k) = None.

(** [n] tokens after the counter of [w] are sold to [a]. *)
Definition sold (n : nat) (w w' : World) : Prop :=
  eth w' = eth w /\ idCounter (nft_st w') = idCounter (nft_st w) + Z.of_nat n /\
  (forall k, 1 <= k <= Z.of_nat n -> owner_of w' (idCounter (nft_st w) + k) = Some a) /\
  forall id, ~ (idCounter (nft_st w) < id <= idCounter (nft_st w) + Z.of_nat n) -> owner_of w' id = owner_of w id.

Lemma buy_run receive v st :
  nt_impl (nft_st (world st)) = HalbornNFT -> price (nft_st (world st)) = v -> free_ids 1 (world st) ->
  exists st', nft_call receive NMintBuyWithETH (MkMsg a v) st = ROk (tt, st') /\ sold 1 (world st) (world st') /\
    nt_impl (nft_st (world st')) = HalbornNFT /\ price (nft_st (world st')) = v.
Proof.
  intros Hi Hp (Hge & Hb & Hf). cbn [nft_call]. em_run. rewrite Hi. unfold mintBuyWithETH. em_run.
  rewrite Hp, Z.eqb_refl. cbn. rewrite Z.mod_small by lia.
  edestruct (safeMint_eoa receive a (idCounter (nft_st (world st)) + 1)) as (t & -> & Ht & Hne); [done|done| |].
  { cbn. apply Hf. lia. }
  eexists. split; [reflexivity|]. split; [|done]. split; [done|]. split; [done|]. split.
  - intros k Hk. replace k with 1 by lia. done.
  - intros id Hid. cbn. apply Hne. lia.
Qed.

Lemma buys_run receive v n st :
  nt_impl (nft_st (world st)) = HalbornNFT -> price (nft_st (world st)) = v -> free_ids n (world st) ->
  exists st', multicall (nft_call receive) (replicate n NMintBuyWithETH) (MkMsg a v) st = ROk (tt, st') /\
    sold n (world st) (world st').
Proof.
  revert st. induction n as [|n IH]; intros st Hi Hp (Hge & Hb & Hf).
  { exists st. split; [done|]. split; [done|]. split; [lia|]. split; [lia|done]. }
  destruct (buy_run receive v st) as (st1 & E & (He & Hc & Ho & Hno) & Hi1 & Hp1); [done|done| |].
  { split; [lia|]. split; [lia|]. intros. apply Hf. lia. }
  destruct (IH st1) as (st2 & E2 & He2 & Hc2 & Ho2 & Hno2); [done|done| |].
  { split; [lia|]. split; [lia|]. intros k Hk. rewrite Hc, Hno by lia.
    replace (_ + 1 + k) with (idCounter (nft_st (world st)) + (k + 1)) by lia. apply Hf. lia. }
  exists st2. split.
  - cbn [replicate multicall]. cbv beta delta [mbind EM_bind]. rewrite E. exact E2.
  - split; [congruence|]. split; [lia|]. rewrite Hc in *. split.
    + intros k Hk. destruct (decide (k = 1)) as [->|].
      * rewrite Hno2 by lia. apply Ho. lia.
      * replace (idCounter (nft_st (world st)) + k) with (idCounter (nft_st (world st)) + Z.of_nat 1 + (k - 1)) by lia.
        apply Ho2. lia.
    + intros id Hid. rewrite Hno2, Hno by lia. done.
Qed.

(** In one multicall, any number of tokens is bought for the price of one: each
    purchase sees the value of the whole. *)
Theorem multicall_pays_once depth n w :
  let v := price (nft_st w) in
  nt_impl (nft_st w) = HalbornNFT -> free_ids n w -> 0 <= v <= held (eth w) a ->
  let r := run_tx (S depth) (MkTx a v (CNft (NMulticall (replicate n NMintBuyWithETH))) []) w in
  fst r = ROk tt /\ idCounter (nft_st (snd r)) = idCounter (nft_st w) + Z.of_nat n /\
  (forall k, 1 <= k <= Z.of_nat n -> owner_of (snd r) (idCounter (nft_st w) + k) = Some a) /\
  eth (snd r) = move_eth a NFT v (eth w).
Proof.
  intros v Hi Hf Hv. cbn zeta. rewrite run_tx_paid by done. cbn [call]. 
  set (receive := reply_with _). set (st := MkEvmState _ _).
  destruct (buys_run receive v n st) as (st' & E & He & Hc & Ho & _); [done|done|done|].
  cbn [nft_call]. em_run. rewrite Hi. rewrite E. cbn. done.
Qed.

End batches.

(** ** Upgrades *)

Section upgrades.
  Context `{OpenZeppelinOk, EvmOk}.
  Context (a : Addr).

(** The calls of [a] that make the replacement of the NFT pay out. *)
Definition steal_eth (root : bytes) (p : Z) : list Tx :=
  [MkTx a 0 (CNft (NUpgradeTo NFT_UUPSattack)) []; MkTx a 0 (CNft (NInitialize root p)) [];
   MkTx a 0 (CNft (NWithdrawETH 0)) []].

Lemma nft_upgrade_tx depth i w :
  0 <= held (eth w) a -> nt_impl (nft_st w) = HalbornNFT ->
  run_tx (S depth) (MkTx a 0 (CNft (NUpgradeTo i)) []) w =
  (ROk tt, MkWorld (move_eth a NFT 0 (eth w)) (token_st w) (set_nt_impl i (nft_st w)) (loans_st w)).
Proof.
  intros He Hi. rewrite run_tx_paid by lia. cbn [call nft_call]. em_run. rewrite Hi.
  unfold nonpayable, nft_authorizeUpgrade. em_run. done.
Qed.

Lemma nft_reinit_tx depth root p w :
  0 <= held (eth w) a -> nt_impl (nft_st w) = NFT_UUPSattack -> is_u256 p = true ->
  run_tx (S depth) (MkTx a 0 (CNft (NInitialize root p)) []) w =
  (ROk tt, MkWorld (move_eth a NFT 0 (eth w)) (token_st w) (set_nt_hacker a (set_price p (set_merkleRoot root (nft_st w)))) (loans_st w)).
Proof.
  intros He Hi Hp. rewrite run_tx_paid by lia. cbn [call nft_call]. em_run. rewrite Hi.
  unfold nonpayable, uint256, nftX_initialize. em_run. rewrite Hp. em_run. done.
Qed.

Lemma nft_drain_tx depth w :
  0 <= held (eth w) a -> nt_impl (nft_st w) = NFT_UUPSattack -> nt_hacker (nft_st w) = a -> accepts_eth a = true ->
  let e := move_eth a NFT 0 (eth w) in
  run_tx (S depth) (MkTx a 0 (CNft (NWithdrawETH 0)) []) w =
  (ROk tt, MkWorld (move_eth NFT a (held e NFT) e) (token_st w) (nft_st w) (loans_st w)).
Proof.
  intros He Hi Hh Hac e. rewrite run_tx_paid by lia. cbn [call nft_call]. em_run. rewrite Hi.
  unfold nonpayable, uint256, nftX_withdrawETH, nftX_onlyHacker, transfer_eth. em_run.
  change (0 <? 2 ^ 256) with true. em_run. rewrite Hh, Z.eqb_refl. em_run.
  rewrite Z.leb_refl, Hac. em_run. done.
Qed.

(** Whoever accepts ether takes all of what the NFT holds. *)
Theorem eth_stolen root p depth w :
  a <> NFT -> accepts_eth a = true -> 0 <= held (eth w) a -> is_u256 p = true -> nt_impl (nft_st w) = HalbornNFT ->
  let w' := run_txs (S depth) (steal_eth root p) w in
  held (eth w') NFT = 0 /\ held (eth w') a = held (eth w) a + held (eth w) NFT.
Proof.
  intros Ha Hac He Hp Hi. unfold run_txs, steal_eth. cbn [foldl].
  rewrite nft_upgrade_tx by done. cbn [snd].
  rewrite nft_reinit_tx by (cbn [eth nft_st]; first [done|now rewrite pay_zero]). cbn [snd].
  rewrite nft_drain_tx by (cbn [eth nft_st]; first [done|now rewrite !pay_zero]). cbn [snd eth].
  unfold move_eth. rewrite !held_insert_dec. repeat (case_decide; try congruence). lia.
Qed.

(** *** The loans *)

Definition seize_loans : list Tx :=
  [MkTx a 0 (CLoans (LUpgradeTo (HalbornLoans_UUPSattack 0))) []; MkTx a 0 (CLoans (LInitialize TOKEN NFT)) []].

Definition token_balance (w : World) (b : Addr) : Z := e20_balanceOf (tk_erc20 (token_st w)) b.
Definition token_supply (w : World) : Z := e20_totalSupply (tk_erc20 (token_st w)).

(** The loans obey [a] and the token obeys the loans. *)
Definition seized (w : World) : Prop :=
  (exists p, ls_impl (loans_st w) = HalbornLoans_UUPSattack p) /\ la_token (loans_st w) = TOKEN /\ la_hacker (loans_st w) = a /\
  0 <= held (eth w) a.

Lemma loans_upgrade_tx depth i p w :
  0 <= held (eth w) a -> ls_impl (loans_st w) = HalbornLoans p ->
  run_tx (S depth) (MkTx a 0 (CLoans (LUpgradeTo i)) []) w =
  (ROk tt, MkWorld (move_eth a LOANS 0 (eth w)) (token_st w) (nft_st w) (set_ls_impl i (loans_st w))).
Proof.
  intros He Hi. rewrite run_tx_paid by lia. cbn [call loans_call]. em_run. rewrite Hi.
  unfold nonpayable, loans_authorizeUpgrade. em_run. done.
Qed.

Lemma loans_reinit_tx depth t n p w :
  0 <= held (eth w) a -> ls_impl (loans_st w) = HalbornLoans_UUPSattack p ->
  run_tx (S depth) (MkTx a 0 (CLoans (LInitialize t n)) []) w =
  (ROk tt, MkWorld (move_eth a LOANS 0 (eth w)) (token_st w) (nft_st w) (set_attack t n a (loans_st w))).
Proof.
  intros He Hi. rewrite run_tx_paid by lia. cbn [call loans_call]. em_run. rewrite Hi.
  unfold nonpayable, loansX_initialize. em_run. done.
Qed.

Lemma seize_run depth p w :
  0 <= held (eth w) a -> ls_impl (loans_st w) = HalbornLoans p ->
  let w' := run_txs (S depth) seize_loans w in seized w' /\ token_st w' = token_st w.
Proof.
  intros He Hi. unfold run_txs, seize_loans. cbn [foldl].
  rewrite (loans_upgrade_tx depth _ p) by done. cbn [snd].
  rewrite (loans_reinit_tx depth _ _ 0) by (cbn [eth loans_st]; first [done|now rewrite pay_zero]). cbn [snd].
  split; [|done]. split; [now eexists|]. split; [done|]. split; [done|]. cbn [eth]. now rewrite !pay_zero.
Qed.

Section obeyed.
  Context (w : World) (trusted : halbornLoans (token_st w) = LOANS) (impl : tk_impl (token_st w) = HalbornToken).
  Context (is_seized : seized w) (a_nonzero : a <> 0).

Lemma seized_mint depth :
  let r := run_tx (S depth) (MkTx a 0 (CLoans LMint) []) w in
  (fst r = ROk tt <-> token_supply w + uint256_max < 2 ^ 256) /\
  (fst r = ROk tt -> token_balance (snd r) a = token_balance w a + uint256_max).
Proof.
  destruct is_seized as ((p & Hi) & Ht & Hh & He). cbn zeta. rewrite run_tx_paid by lia. cbn [call loans_call].
  em_run. rewrite Hi. unfold nonpayable, loansX_mint, loansX_onlyHacker. em_run. rewrite Hh, Z.eqb_refl. em_run.
  unfold token_at. em_run. rewrite Ht, Z.eqb_refl. em_run. rewrite impl.
  unfold nonpayable, uint256, mintToken, onlyLoans, token_mint_. change (is_u256 uint256_max) with true. em_run. rewrite trusted, Z.eqb_refl. em_run.
  destruct (e20_mint_ok a uint256_max (tk_erc20 (token_st w))) as [Hok Hr]; [done|].
  rewrite (proj2 (Z.eqb_neq a 0)) in Hok by done. unfold token_supply, token_balance in *.
  destruct (e20_mint _ _ _) as [t| |] eqn:E; cbn in Hok |- *.
  - destruct (Hr _ eq_refl) as [_ Hb]. rewrite Hb, decide_True by done. split; [split; [lia|done]|done].
  - split; [split; [done|lia]|done].
  - split; [split; [done|lia]|done].
Qed.

Lemma seized_burn depth victim :
  victim <> 0 -> is_u256 (token_balance w victim) = true ->
  let r := run_tx (S depth) (MkTx a 0 (CLoans (LBurn victim)) []) w in
  fst r = ROk tt /\ token_balance (snd r) victim = 0.
Proof.
  intros Hv Hb. destruct is_seized as ((p & Hi) & Ht & Hh & He). cbn zeta. rewrite run_tx_paid by lia. cbn [call loans_call].
  em_run. rewrite Hi. unfold nonpayable, loansX_burn, loansX_onlyHacker, balanceOf_at. em_run. rewrite Hh, Z.eqb_refl. em_run.
  unfold token_at. em_run. rewrite Ht, Z.eqb_refl. em_run. rewrite impl.
  unfold nonpayable, uint256, burnToken, onlyLoans, token_burn_, token_balance in *. em_run. rewrite Hb. em_run.
  rewrite trusted, Z.eqb_refl. em_run.
  unfold is_u256 in Hb. destruct (e20_burn_ok victim (e20_balanceOf (tk_erc20 (token_st w)) victim) (tk_erc20 (token_st w))) as [Hok Hr]; [lia|].
  rewrite (proj2 (Z.eqb_neq victim 0)), Z.leb_refl in Hok by done.
  destruct (e20_burn _ _ _) as [t| |] eqn:E; [|done|done]. destruct (Hr _ eq_refl) as [_ Hbal]. cbn.
  rewrite Hbal, decide_True by done. split; [done|lia].
Qed.

End obeyed.

(** Anyone can make the loans their own by replacing the implementation, and
    then burn the tokens of every holder; the mint of the replacement, of the
    largest amount there is, succeeds exactly when no token exists. *)
Theorem loans_seized depth p victim w :
  a <> 0 -> 0 <= held (eth w) a -> ls_impl (loans_st w) = HalbornLoans p ->
  halbornLoans (token_st w) = LOANS -> tk_impl (token_st w) = HalbornToken ->
  victim <> 0 -> is_u256 (token_balance w victim) = true -> 0 <= token_supply w ->
  let w1 := run_txs (S depth) seize_loans w in
  let minted := run_tx (S depth) (MkTx a 0 (CLoans LMint) []) w1 in
  let burned := run_tx (S depth) (MkTx a 0 (CLoans (LBurn victim)) []) w1 in
  fst burned = ROk tt /\ token_balance (snd burned) victim = 0 /\
  (fst minted = ROk tt <-> token_supply w = 0) /\
  (fst minted = ROk tt -> token_balance (snd minted) a = token_balance w a + uint256_max).
Proof.
  intros Ha He Hi Ht Hk Hv Hb Hs w1 minted burned. destruct (seize_run depth p w He Hi) as [HS Htk]. fold w1 in HS, Htk.
  assert (token_supply w1 = token_supply w /\ forall b, token_balance w1 b = token_balance w b) as [Hsup Hbal]
    by (unfold token_supply, token_balance; now rewrite Htk).
  destruct (seized_mint w1 ltac:(congruence) ltac:(congruence) HS Ha depth) as [Hm Hm'].
  destruct (seized_burn w1 ltac:(congruence) ltac:(congruence) HS depth victim) as [Hbn Hbn']; [done|now rewrite Hbal|].
  rewrite Hsup in Hm. rewrite Hbal in Hm'. unfold uint256_max in *. split; [done|]. split; [done|]. split; [|done].
  fold minted in Hm. rewrite Hm. lia.
Qed.

End upgrades.
