(* ===== verification/EthBooks.v ===== *)
(** * The collateral of the loans

    As long as receivers of tokens call nothing back and the loans are not
    upgraded, the collateral of every account is the price times the tokens it
    has deposited, and the loans hold those tokens.  Anyone can upgrade the
    loans, which ends this.  One re-entrant deposit during a withdrawal breaks it: the
    token stays with the loans and nobody can take it out. *)

From S2P Require Import Prelude Rust Ledger Evm EthContracts EthProps EthLoansProps.

(** ** Tokens of an account *)

Definition count_ids (m : gmap Z Addr) (a : Addr) : Z := Z.of_nat (size (filter (fun kv => kv.2 = a) m)).

Lemma count_insert m id s a : m !! id = None ->
  count_ids (<[id := s]> m) a = count_ids m a + if decide (s = a) then 1 else 0.
Proof.
  intros Hm. unfold count_ids. case_decide as Hs.
  - rewrite map_filter_insert_True by done. rewrite map_size_insert_None; [lia|].
    apply map_lookup_filter_None. now left.
  - rewrite map_filter_insert_False by done. rewrite delete_id by done. lia.
Qed.

Lemma count_delete m id s a : m !! id = Some s ->
  count_ids (delete id m) a = count_ids m a - if decide (s = a) then 1 else 0.
Proof.
  intros Hm. rewrite <-(insert_delete_id m id s Hm) at 2. rewrite count_insert by apply lookup_delete_eq. lia.
Qed.

Section books.
  Context `{OpenZeppelinOk, EvmOk}.
  Context (p : Z).

Definition deposits (w : World) : gmap Z Addr := idsCollateral (loans_st w).
Definition tokens (w : World) : Erc721 := nt_erc721 (nft_st w).

(** The loans run the implementation with price [p] and are initialized. *)
Definition books_setup (w : World) : Prop :=
  ls_impl (loans_st w) = HalbornLoans p /\ loans_nft (loans_st w) = NFT /\ is_ok (initializer (ls_init (loans_st w))) = false.

(** The loans own what is deposited, and nobody else may move it. *)
Definition books_held (w : World) : Prop :=
  (forall id a, deposits w !! id = Some a -> e721_owner (tokens w) id = Some LOANS /\ e721_approved (tokens w) id = None) /\
  forall op, e721_operator (tokens w) LOANS op = false.

Definition books_total (w : World) : Prop := forall a, total w a = p * count_ids (deposits w) a.

Definition books (w : World) : Prop := books_setup w /\ books_held w /\ books_total w.

(** ** Calls of others to the NFT *)

Definition not_loans (msg : Msg) : Prop := msg_sender msg <> LOANS.

Lemma books_tokens w s :
  books w -> (forall id a, deposits w !! id = Some a ->
    e721_owner (nt_erc721 s) id = e721_owner (tokens w) id /\ e721_approved (nt_erc721 s) id = e721_approved (tokens w) id) ->
  (forall op, e721_operator (nt_erc721 s) LOANS op = e721_operator (tokens w) LOANS op) ->
  books (MkWorld (eth w) (token_st w) s (loans_st w)).
Proof.
  intros (HS & [Hh Ho] & HT) Hid Hop. split; [done|]. split; [|done]. split.
  - intros id a Hd. destruct (Hid id a Hd) as [E1 E2]. unfold tokens. cbn. rewrite E1, E2. eauto.
  - intros op. unfold tokens. cbn. now rewrite Hop.
Qed.

Lemma books_unauthorized w id a op : books w -> deposits w !! id = Some a -> op <> LOANS -> e721_authorized (tokens w) op id = false.
Proof.
  intros (_ & [Hh Ho] & _) Hd Hop. destruct (Hh id a Hd) as [E1 E2]. unfold e721_authorized.
  rewrite E1, E2, Ho, bool_decide_false by done. now rewrite bool_decide_false.
Qed.

(** A token that is minted was not deposited. *)
Lemma books_mint w s a id t : books w -> e721_mint a id (tokens w) = ROk t -> nt_erc721 s = t ->
  books (MkWorld (eth w) (token_st w) s (loans_st w)).
Proof.
  intros HB Em Es. pose proof (f_equal is_ok Em) as Hok. rewrite e721_mint_ok in Hok. cbn in Hok.
  apply andb_true_iff in Hok as [_ Hok]. apply bool_decide_eq_true in Hok.
  apply e721_mint_owner in Em as (_ & Hne & Hap & Hop). apply books_tokens; rewrite ?Es; [done| |intros; apply Hop].
  intros id' b Hd. split; [|apply Hap]. apply Hne. intros ->. destruct HB as (_ & [Hh _] & _).
  destruct (Hh _ _ Hd) as [Ho _]. congruence.
Qed.

Section quiet.
  Context (receive : Addr -> EM bool).
  Context (quiet : forall a msg st b st', receive a msg st = ROk (b, st') -> world st' = world st).

Lemma quiet_pres I a : pres any_msg I (receive a).
Proof. intros msg st b st' _ E. apply quiet in E. now rewrite E. Qed.

Lemma check_received_world to msg st u st' : check_received receive to msg st = ROk (u, st') -> world st' = world st.
Proof.
  intros E. refine (check_received_pres receive any_msg (fun w => w = world st) to _ _ _ _ _ Logic.I E eq_refl).
  intros a. apply quiet_pres.
Qed.

Lemma nft_call_books c : pres not_loans books (nft_call receive c).
Proof.
  apply nft_call_pres; [by intros ?| | | | | |done].
  - intros w s HB [Hs Hop] _. apply books_tokens; [done|intros; apply Hs|intros; apply Hop].
  - intros id proof msg st a st' HQ E HB. unfold mintAirdrops, safeMint in E. em_run in E.
    destruct (bool_decide _); [cbn in E|done]. destruct (verifyCalldata _ _ _); [cbn in E|done].
    destruct (e721_mint _ _ _) as [t| |] eqn:Em; [|done|done]. apply check_received_world in E. rewrite E.
    now apply (books_mint _ _ _ _ _ HB Em).
  - intros msg st a st' HQ E HB. unfold mintBuyWithETH, safeMint in E. em_run in E. destruct (_ =? _); [cbn in E|done].
    destruct (e721_mint _ _ _) as [t| |] eqn:Em; [|done|done]. apply check_received_world in E. rewrite E.
    now apply (books_mint _ _ _ _ _ HB Em).
  - intros from to id msg st a st' HQ E HB. unfold safeTransferFrom in E. em_run in E.
    destruct (e721_transfer _ _ _ _ _) as [t| |] eqn:Em; [|done|done]. apply check_received_world in E. rewrite E. cbn.
    pose proof (f_equal is_ok Em) as Hok. rewrite e721_transfer_ok in Hok. unfold transfer_ok in Hok. cbn in Hok.
    apply e721_transfer_owner in Em as (_ & _ & Hne & Hop). apply books_tokens; [done| |intros; apply Hop].
    intros id' b Hd. apply Hne. intros ->. pose proof (books_unauthorized _ _ _ _ HB Hd HQ) as HU. unfold tokens in HU.
    rewrite HU, andb_false_r in Hok. done.
  - intros c' msg st a st' HQ E HB. unfold nft_erc721 in E. em_run in E.
    destruct (e721_call _ _ _) as [t| |] eqn:Em; [|done|done]. inversion E; subst. cbn. apply books_tokens; [done| |].
    + intros id b Hd. apply (e721_call_auth _ _ _ _ _ Em). now apply (books_unauthorized _ _ b).
    + intros op. now apply (e721_call_operator _ _ _ _ _ _ Em).
Qed.

(** ** Calls to the loans *)

(** The call of the loans that moves a token. *)
Lemma nft_at_move from to id msg st u st' :
  nft_at receive NFT (NSafeTransferFrom from to id) msg st = ROk (u, st') ->
  exists t, e721_transfer LOANS from to id (tokens (world st)) = ROk t /\
    world st' = MkWorld (eth (world st)) (token_st (world st)) (set_nt_erc721 t (nft_st (world st))) (loans_st (world st)).
Proof.
  unfold nft_at. rewrite Z.eqb_refl. cbn [nft_call]. em_run. intros E.
  assert (safeTransferFrom receive from to id (MkMsg LOANS 0) st = ROk (u, st')) as E'.
  { destruct (nt_impl _); unfold nonpayable, uint256 in E; em_run in E; destruct (is_u256 id); done. }
  clear E. unfold safeTransferFrom in E'. em_run in E'.
  destruct (e721_transfer _ _ _ _ _) as [t| |] eqn:Em; [|done|done]. apply check_received_world in E'.
  exists t. split; [done|exact E'].
Qed.

Lemma set_total_total w a z b :
  total (MkWorld (eth w) (token_st w) (nft_st w) (set_total a z (loans_st w))) b = if decide (a = b) then z else total w b.
Proof. unfold total. cbn. apply held_insert_dec. Qed.

Lemma deposit_books id : pres not_loans books (depositNFTCollateral receive p id).
Proof.
  intros msg st a st' HQ E ((Hi & Hn & Hin) & [Hh Ho] & HT). unfold depositNFTCollateral, ownerOf_at in E. em_run in E.
  rewrite Hn, Z.eqb_refl in E. destruct (e721_owner _ id) as [o|] eqn:Eo; [|done]. cbn in E.
  destruct (o =? msg_sender msg) eqn:Es; [|done]. cbn in E.
  destruct (nft_at _ _ _ _ _) as [[u st1]| |] eqn:En; [|done|done]. apply nft_at_move in En as (t & Em & Hw).
  unfold checked in E. rewrite Hw in E. cbn in E. destruct (is_u256 _); [|done]. em_run in E. rewrite Hw in E. inversion E; subst st'. clear E.
  apply e721_transfer_owner in Em as (Ht & Hap & Hne & Hop).
  assert (deposits (world st) !! id = None) as Hd.
  { destruct (deposits (world st) !! id) as [b|] eqn:Eb; [|done]. destruct (Hh _ _ Eb) as [Ho' _].
    unfold tokens in Ho'. unfold not_loans in HQ. rewrite Ho' in Eo. simplify_eq. lia. }
  split; [done|]. split; [split|].
  - intros id' b. unfold deposits, tokens. cbn. destruct (decide (id' = id)) as [->|Hid]; [done|].
    rewrite lookup_insert_ne by done. intros Eb. destruct (Hne id' Hid) as [-> ->]. now apply (Hh id' b).
  - intros op. unfold tokens. cbn. rewrite Hop. apply Ho.
  - intros b. unfold deposits, total. cbn. rewrite count_insert, held_insert_dec by done.
    unfold books_total, total, deposits in HT. rewrite !HT. case_decide; subst; lia.
Qed.

Lemma withdraw_books id : pres not_loans books (withdrawCollateral receive p id).
Proof.
  intros msg st a st' HQ E ((Hi & Hn & Hin) & [Hh Ho] & HT). unfold withdrawCollateral, checked in E. em_run in E.
  destruct (is_u256 _); [cbn in E|done]. destruct (p <=? _); [cbn in E|done]. destruct (_ =? msg_sender msg) eqn:Es; [cbn in E|done].
  destruct (nft_at _ _ _ _ _) as [[u st1]| |] eqn:En; [|done|done]. rewrite Hn in En. apply nft_at_move in En as (t & Em & Hw).
  rewrite Hw in E. cbn in E. destruct (is_u256 _); [|done]. em_run in E. rewrite Hw in E. inversion E; subst st'. clear E.
  pose proof (f_equal is_ok Em) as Hok. rewrite e721_transfer_ok in Hok. unfold transfer_ok in Hok. cbn in Hok.
  apply e721_transfer_owner in Em as (Ht & Hap & Hne & Hop).
  assert (deposits (world st) !! id = Some (msg_sender msg)) as Hd.
  { unfold deposits. destruct (idsCollateral (loans_st (world st)) !! id) as [b|]; cbn [default from_option] in Es; [f_equal; cbn in Es; lia|].
    apply andb_true_iff in Hok as [_ Hok]. lia. }
  split; [done|]. split; [split|].
  - intros id' b. unfold deposits, tokens. cbn. rewrite lookup_delete_Some. intros [Hid Eb].
    destruct (Hne id') as [-> ->]; [done|]. now apply (Hh id' b).
  - intros op. unfold tokens. cbn. rewrite Hop. apply Ho.
  - intros b. unfold deposits, total. cbn. rewrite (count_delete _ _ _ _ Hd), held_insert_dec.
    unfold books_total, total, deposits in HT. rewrite !HT. unfold deposits.
    destruct (decide (msg_sender msg = b)); subst; lia.
Qed.

(** Calls that replace nothing. *)
Fixpoint no_upgrade (c : LoansCall) : bool :=
  match c with LUpgradeTo _ => false | LMulticall data => forallb no_upgrade data | _ => true end.

Lemma books_token_free : token_free books.
Proof. by intros ?. Qed.

Lemma loans_call_books c : no_upgrade c = true -> pres not_loans books (loans_call receive c).
Proof.
  revert c. fix IH 1. intros c Hc msg st a st' HQ E HB. pose proof HB as ((Hi & _ & Hin) & _).
  destruct c; cbn [loans_call] in E; em_run in E; rewrite Hi in E; try done;
    try (unfold nonpayable, uint256 in E; em_run in E; destruct (msg_value msg =? 0); [cbn -[is_u256] in E|done]).
  - unfold loans_initialize in E. em_run in E. now destruct (initializer _).
  - destruct (is_u256 id); [|done]. exact (deposit_books id _ _ _ _ HQ E HB).
  - destruct (is_u256 id); [|done]. exact (withdraw_books id _ _ _ _ HQ E HB).
  - destruct (is_u256 z); [|done].
    assert (pres not_loans books (getLoan z)) as HP; [|exact (HP _ _ _ _ HQ E HB)].
    unfold getLoan. em_pres_with ltac:(fun _ => apply token_at_pres, books_token_free).
  - destruct (is_u256 z); [|done].
    assert (pres not_loans books (returnLoan z)) as HP; [|exact (HP _ _ _ _ HQ E HB)].
    unfold returnLoan, balanceOf_at. em_pres_with ltac:(fun _ => apply token_at_pres, books_token_free).
  - unfold onERC721Received in E. em_run in E. now inversion E; subst.
  - clear Hi Hin. cbn in Hc. revert st Hc E HB. induction data as [|c data IHd]; intros st Hc E HB.
    + em_run in E. now inversion E; subst.
    + cbn in Hc, E. apply andb_true_iff in Hc as [Hc Hd]. cbv beta delta [mbind EM_bind] in E.
      destruct (loans_call _ c _ _) as [[u st1]| |] eqn:E1; [|done|done].
      apply (IHd st1); [done|exact E|]. exact (IH c Hc _ _ _ _ HQ E1 HB).
Qed.

End quiet.

(** ** Transactions without re-entrancy *)

(** At depth one the calls of receivers fail. *)
Lemma reply_quiet a msg st b st' :
  reply_with (fun t w => snd (run_tx 0 t w)) a msg st = ROk (b, st') -> world st' = world st.
Proof.
  unfold reply_with. destruct (replies st) as [|[accept inner] rest]; intros E; inversion E; subst; [done|]. cbn.
  clear E. generalize (world st). induction inner as [|t inner IH]; intros w; [done|apply IH].
Qed.

Definition sender (t : Tx) : Addr := let '(MkTx from _ _ _) := t in from.

(** Does the transaction replace the implementation of the loans, directly or
    inside a multicall? *)
Definition replaces_loans (t : Tx) : bool :=
  match t with MkTx _ _ (CLoans c) _ => negb (no_upgrade c) | _ => false end.

Lemma books_tx t w : sender t <> LOANS -> replaces_loans t = false -> books w -> books (snd (run_tx 1 t w)).
Proof.
  destruct t as [from v c scripts]. intros Hf Hc HB. cbn [run_tx]. destruct ((v <? 0) || _); [exact HB|].
  destruct (call _ _ _ _) as [[u st]| |] eqn:E; [|exact HB|exact HB]. cbn [snd].
  assert (pres not_loans books (call (reply_with (fun t w => snd (run_tx 0 t w))) c)) as HP.
  { destruct c as [c|c|c]; cbn [call].
    - apply token_call_pres, books_token_free.
    - apply nft_call_books, reply_quiet.
    - apply loans_call_books; [apply reply_quiet|]. now apply negb_false_iff. }
  exact (HP (MkMsg from v) _ _ _ Hf E HB).
Qed.

(** Anyone can replace the loans: [_authorizeUpgrade] is empty. *)
Lemma upgrade_run depth a impl w : books w -> 0 <= held (eth w) a ->
  let r := run_tx (S depth) (MkTx a 0 (CLoans (LUpgradeTo impl)) []) w in
  fst r = ROk tt /\ ls_impl (loans_st (snd r)) = impl.
Proof.
  intros ((Hi & _) & _) He. cbn zeta. rewrite run_tx_paid by lia. cbn [call loans_call]. em_run. rewrite Hi.
  unfold nonpayable, loans_authorizeUpgrade. em_run. done.
Qed.


(** ** Re-entrancy *)

Lemma nft_at_safe receive from to id msg st : is_u256 id = true ->
  nft_at receive NFT (NSafeTransferFrom from to id) msg st = safeTransferFrom receive from to id (MkMsg LOANS 0) st.
Proof.
  intros Hid. unfold nft_at. rewrite Z.eqb_refl. cbn [nft_call]. em_run.
  destruct (nt_impl _); unfold nonpayable, uint256; em_run; rewrite Hid; em_run; reflexivity.
Qed.

(** The transfer of a token that is authorized. *)
Lemma transfer_run op from to id t : transfer_ok op from to id t = true -> exists t', e721_transfer op from to id t = ROk t'.
Proof.
  intros Hok. rewrite <-e721_transfer_ok in Hok. destruct (e721_transfer _ _ _ _ _) as [t'| |]; [now exists t'|done|done].
Qed.

Lemma collateral_run receive id msg st :
  let a := msg_sender msg in let w := world st in
  ls_impl (loans_st w) = HalbornLoans p -> loans_nft (loans_st w) = NFT -> is_u256 id = true ->
  e721_owner (tokens w) id = Some a -> e721_operator (tokens w) a LOANS = true -> is_u256 (total w a + p) = true ->
  exists t, e721_transfer LOANS a LOANS id (tokens w) = ROk t /\
    depositNFTCollateral receive p id msg st = ROk (tt, MkEvmState (MkWorld (eth w) (token_st w) (set_nt_erc721 t (nft_st w))
      (set_ids (<[id := a]> (deposits w)) (set_total a (total w a + p) (loans_st w)))) (replies st)).
Proof.
  intros a w Hi Hn Hid Ho Hop Hu. destruct addrs_nonzero as (_ & _ & HL0). destruct contracts_code as (_ & _ & HLc).
  destruct (transfer_run LOANS a LOANS id (tokens w)) as [t Et].
  { unfold transfer_ok, e721_authorized. rewrite Ho, Hop, bool_decide_true, orb_true_r by done. cbn. lia. }
  exists t. split; [done|]. unfold depositNFTCollateral, ownerOf_at. em_run. fold a w. rewrite Hn, Z.eqb_refl.
  unfold tokens in Ho, Et. rewrite Ho. cbn. rewrite Z.eqb_refl. cbn. rewrite nft_at_safe by done.
  unfold safeTransferFrom, check_received. em_run. fold w. rewrite Et. cbn. rewrite HLc, Z.eqb_refl. cbn. fold w. rewrite Hi. cbn -[is_u256].
  unfold checked. unfold total in Hu. rewrite Hu. em_run. done.
Qed.

(** A receiver that deposits the token again while it is being withdrawn. *)
Definition reenter (a : Addr) (id : Z) : Tx :=
  MkTx a 0 (CLoans (LWithdraw id)) [MkScript true [MkTx a 0 (CLoans (LDeposit id)) []]].

Section reentrancy.
  Context (a : Addr) (id : Z) (w : World).
  Context (a_code : is_contract a = true) (a_other : a <> LOANS /\ a <> TOKEN /\ a <> NFT) (a_nonzero : a <> 0).
  Context (id_ok : is_u256 id = true) (w_books : books w) (price_nonneg : 0 <= p) (gas : 0 <= held (eth w) a).
  Context (deposited : deposits w !! id = Some a) (approved : e721_operator (tokens w) a LOANS = true).
  Context (free : is_u256 (total w a - used w a) = true /\ p <= total w a - used w a).
  Context (fits : is_u256 (total w a) = true /\ is_u256 (total w a + p) = true).

(** The deposit that runs inside the withdrawal. *)
Lemma reenter_inner depth t e :
  e721_transfer LOANS LOANS a id (tokens w) = ROk t -> 0 <= held e a ->
  let w1 := MkWorld e (token_st w) (set_nt_erc721 t (nft_st w)) (loans_st w) in
  exists t' e', snd (run_tx (S depth) (MkTx a 0 (CLoans (LDeposit id)) []) w1) =
    MkWorld e' (token_st w) (set_nt_erc721 t' (nft_st w))
      (set_ids (<[id := a]> (deposits w)) (set_total a (total w a + p) (loans_st w))) /\
    e721_owner t' id = Some LOANS.
Proof.
  intros Et He w1. destruct w_books as ((Hi & Hn & _) & _). apply e721_transfer_owner in Et as (Ho & _ & _ & Hop).
  rewrite run_tx_paid by (cbn; lia). cbn [call loans_call]. em_run. rewrite Hi. unfold nonpayable, uint256. em_run.
  rewrite id_ok. em_run.
  edestruct (collateral_run (reply_with (fun t w => snd (run_tx depth t w))) id (MkMsg a 0)) as (t' & Et' & ->); [done..| | |].
  - cbn. now rewrite Hop.
  - exact (proj2 fits).
  - cbn. apply e721_transfer_owner in Et' as (Ho' & _). now eexists _, _.
Qed.

Lemma reenter_run depth :
  exists t e l, run_tx (S (S depth)) (reenter a id) w =
    (ROk tt, MkWorld e (token_st w) (set_nt_erc721 t (nft_st w)) l) /\ e721_owner t id = Some LOANS /\
    idsCollateral l = delete id (deposits w) /\ totalCollateral l = <[a := total w a]> (<[a := total w a + p]> (totalCollateral (loans_st w))).
Proof.
  pose proof w_books as ((Hi & Hn & _) & [Hh _] & _). destruct (Hh id a deposited) as [Ho _]. destruct a_other as (HaL & HaT & HaN).
  destruct (transfer_run LOANS LOANS a id (tokens w)) as [t Et].
  { unfold transfer_ok, e721_authorized. rewrite Ho, !bool_decide_true by done. cbn. lia. }
  destruct (reenter_inner depth t (move_eth a LOANS 0 (eth w)) Et) as (t' & e & Ew & Ho'); [now rewrite pay_zero|].
  exists t', e. eexists. unfold reenter. rewrite run_tx_paid by lia.
  set (run := fun t w => snd (run_tx (S depth) t w)). change (snd (run_tx (S depth) ?t ?w)) with (run t w) in Ew. clearbody run.
  cbn [call loans_call]. em_run. rewrite Hi.
  unfold nonpayable, uint256. em_run. rewrite id_ok. unfold withdrawCollateral, checked. em_run.
  unfold total, used in free. rewrite (proj1 free). cbn -[is_u256]. rewrite (proj2 (Z.leb_le _ _) (proj2 free)). cbn -[is_u256].
  unfold deposits in deposited. rewrite deposited. cbn -[is_u256]. rewrite Z.eqb_refl. cbn -[is_u256]. rewrite Hn, nft_at_safe by done.
  unfold safeTransferFrom, check_received. em_run. unfold tokens in Et. rewrite Et. cbn -[is_u256].
  rewrite a_code, (proj2 (Z.eqb_neq a LOANS)), (proj2 (Z.eqb_neq a TOKEN)), (proj2 (Z.eqb_neq a NFT)) by done. cbn -[is_u256].
  unfold pay in *. rewrite Ew. cbn -[is_u256]. rewrite held_insert.
  replace (total w a + p - p) with (total w a) by lia. rewrite (proj1 fits). em_run.
  split; [reflexivity|]. split; [done|]. split; [|done]. cbn. now rewrite delete_insert_eq.
Qed.

(** A token that is not recorded is not withdrawn, by anyone. *)
Lemma withdraw_unrecorded depth s v scripts w' :
  deposits w' !! id = None -> s <> 0 -> fst (run_tx depth (MkTx s v (CLoans (LWithdraw id)) scripts) w') <> ROk tt.
Proof.
  intros Hd Hs. destruct depth as [|depth]; [done|]. cbn [run_tx]. destruct ((v <? 0) || _); [done|].
  cbn [call loans_call]. em_run. destruct (ls_impl _); [|done]. unfold nonpayable, uint256. em_run.
  destruct (v =? 0); [|done]. cbn -[is_u256]. rewrite id_ok. unfold withdrawCollateral, checked. em_run.
  em_guard E1. em_guard E2.
  unfold deposits in Hd. rewrite Hd. cbn [default from_option]. rewrite (proj2 (Z.eqb_neq 0 s)) by done. done.
Qed.

(** C6: A contract that deposits a token again while it is withdrawing it keeps its
    collateral, but the token is no longer recorded: the loans hold it and
    nobody can withdraw it, and the books do not balance. *)
Theorem reentrancy_strands depth :
  let r := run_tx (S (S depth)) (reenter a id) w in
  fst r = ROk tt /\ e721_owner (tokens (snd r)) id = Some LOANS /\ total (snd r) a = total w a /\
  total (snd r) a = p * count_ids (deposits (snd r)) a + p /\
  forall depth' s v scripts, s <> 0 -> fst (run_tx depth' (MkTx s v (CLoans (LWithdraw id)) scripts) (snd r)) <> ROk tt.
Proof.
  destruct (reenter_run depth) as (t & e & l & -> & Ho & Hids & Htot). cbn zeta. cbn [fst snd].
  assert (total (MkWorld e (token_st w) (set_nt_erc721 t (nft_st w)) l) a = total w a) as Ht
    by (unfold total; cbn; now rewrite Htot, held_insert).
  split; [done|]. split; [done|]. split; [done|]. split.
  - rewrite Ht. unfold deposits at 1. cbn. rewrite Hids, (count_delete _ _ _ _ deposited), decide_True by done.
    destruct w_books as (_ & _ & HT). rewrite HT. lia.
  - intros d s v scripts Hs. apply withdraw_unrecorded; [|done]. unfold deposits. cbn. rewrite Hids. apply lookup_delete_eq.
Qed.

End reentrancy.
End books.
