(* ===== verification/Murky.v ===== *)
(** * Merkle trees

    [HalbornCTF_Solidity_Ethereum/test/murky]: the generator of the roots and
    proofs of the airdrop.  A bytes32 is an integer below [2 ^ 256]; the hash
    of two of them (keccak256 of 64 bytes) is a parameter.  A revert is [None].
    The proofs it generates verify against the roots it generates, and its two
    routines for the height of the tree agree. *)

From S2P Require Import Prelude.

Section murky.
  (** [keccak256] of the two words. *)
  Context (keccak : Z -> Z -> Z).

(** Ascending sort and concatenation before hashing. *)
Definition hashLeafPairs (left right : Z) : Z :=
  if left <? right then keccak left right else keccak right left.

Definition verifyProof (root : Z) (proof : list Z) (valueToProve : Z) : bool :=
  let rollingHash := foldl (fun rollingHash p => hashLeafPairs rollingHash p) valueToProve proof in
  root =? rollingHash.

(** ** One level *)

Fixpoint level_loop (fuel : nat) (data : list Z) (i pos : nat) (result : list Z) : list Z :=
  match fuel with
  | O => result
  | S fuel =>
      if decide (i < length data - 1)%nat then
        let result := <[pos := hashLeafPairs (data !!! i) (data !!! S i)]> result in
        level_loop fuel data (i + 2) (pos + 1) result
      else result
  end.

Definition hashLevel (data : list Z) : list Z :=
  let length_ := length data in
  let result :=
    if Nat.odd length_ then
      let result := replicate (length_ / 2 + 1) 0 in
      <[(length result - 1)%nat := hashLeafPairs (data !!! (length_ - 1)%nat) 0]> result
    else replicate (length_ / 2) 0 in
  level_loop length_ data 0 0 result.

(** ** Roots *)

Fixpoint root_loop (fuel : nat) (data : list Z) : list Z :=
  match fuel with
  | O => data
  | S fuel => if decide (1 < length data)%nat then root_loop fuel (hashLevel data) else data
  end.

Definition getRoot (data : list Z) : option Z :=
  if decide (1 < length data)%nat then root_loop (length data) data !! 0%nat else None.

(** ** The height *)

(** One step of the search for the most significant bit. *)
Definition msb_step (k : Z) (s : Z * Z) : Z * Z :=
  let '(x, msb) := s in if 2 ^ k <=? x then (Z.shiftr x k, msb + k) else (x, msb).

Definition log2ceilBitMagic (x : Z) : Z :=
  if x <=? 1 then 0
  else
    let _x := x in
    let '(x, msb) := msb_step 2 (msb_step 4 (msb_step 8 (msb_step 16 (msb_step 32 (msb_step 64 (msb_step 128 (x, 0))))))) in
    let msb := if 2 ^ 1 <=? x then msb + 1 else msb in
    let lsb := Z.land ((2 ^ 256 - 1 - _x + 1) `mod` 2 ^ 256) _x in
    if (lsb =? _x) && (0 <? msb) then msb else msb + 1.

Fixpoint ceil_loop (fuel : nat) (x ceil : Z) : Z :=
  match fuel with
  | O => ceil
  | S fuel => if 0 <? x then ceil_loop fuel (Z.shiftr x 1) ((ceil + 1) `mod` 2 ^ 256) else ceil
  end.

Definition log2ceil (x : Z) : Z :=
  let pOf2 := if Z.land ((2 ^ 256 - 1 - x + 1) `mod` 2 ^ 256) x =? x then 1 else 0 in
  let ceil := ceil_loop 257 x 0 in
  (ceil - pOf2) `mod` 2 ^ 256.

(** ** Proofs *)

Fixpoint proof_loop (fuel : nat) (data : list Z) (node pos : nat) (result : list Z) : option (list Z) :=
  match fuel with
  | O => Some result
  | S fuel =>
      if decide (1 < length data)%nat then
        sibling ←
          (if Nat.odd node then data !! (node - 1)%nat
           else if decide (node + 1 = length data)%nat then Some 0
           else data !! (node + 1)%nat);
        if decide (pos < length result)%nat then
          proof_loop fuel (hashLevel data) (node / 2) (pos + 1) (<[pos := sibling]> result)
        else None
      else Some result
  end.

Definition getProof (data : list Z) (node : nat) : option (list Z) :=
  if decide (1 < length data)%nat then
    let result := replicate (Z.to_nat (log2ceilBitMagic (Z.of_nat (length data)))) 0 in
    proof_loop (length data) data node 0 result
  else None.

(** ** The level, by recursion *)

Fixpoint pairs (data : list Z) : list Z :=
  match data with
  | x :: y :: rest => hashLeafPairs x y :: pairs rest
  | [x] => [hashLeafPairs x 0]
  | [] => []
  end.

Lemma hashLeafPairs_comm x y : hashLeafPairs x y = hashLeafPairs y x.
Proof.
  unfold hashLeafPairs. destruct (Z.ltb_spec x y), (Z.ltb_spec y x); try done; [lia|]. now replace y with x by lia.
Qed.

Lemma pairs_ind (P : list Z -> Prop) :
  P [] -> (forall x, P [x]) -> (forall x y l, P l -> P (x :: y :: l)) -> forall l, P l.
Proof.
  intros H0 H1 H2. fix IH 1. intros [|x [|y l]]; [exact H0|apply H1|]. apply H2, IH.
Qed.

Lemma half_SS n : (S (S n) / 2 = S (n / 2))%nat.
Proof. replace (S (S n)) with (1 * 2 + n)%nat by lia. rewrite Nat.div_add_l by lia. lia. Qed.

Lemma pairs_length l : length (pairs l) = (if Nat.odd (length l) then length l / 2 + 1 else length l / 2)%nat.
Proof.
  induction l as [| |x y l IH] using pairs_ind; [done|done|]. cbn [pairs length]. rewrite IH, half_SS.
  change (Nat.odd (S (S (length l)))) with (Nat.odd (length l)). destruct (Nat.odd _); lia.
Qed.

(** The loop fills the slots in front of the last one of an odd level. *)
Lemma level_loop_pairs rest : forall fuel pre done todo,
  (length rest <= fuel)%nat -> length pre = (2 * length done)%nat -> length todo = length (pairs rest) ->
  (Nat.odd (length rest) = true -> last todo = (fun x => hashLeafPairs x 0) <$> last rest) ->
  level_loop fuel (pre ++ rest) (length pre) (length done) (done ++ todo) = done ++ pairs rest.
Proof.
  induction rest as [|x|x y l IH] using pairs_ind; intros fuel pre done todo Hf Hp Ht Hl; cbn in Ht.
  - destruct todo; [|done]. destruct fuel; cbn; [done|]. rewrite length_app, decide_False by (cbn; lia). done.
  - destruct todo as [|z [|]]; [done| |done]. specialize (Hl eq_refl). cbn in Hl. simplify_eq.
    destruct fuel; cbn; [cbn in Hf; lia|]. rewrite length_app, decide_False by (cbn; lia). done.
  - destruct fuel as [|fuel]; [cbn in Hf; lia|]. destruct todo as [|z todo]; [done|]. cbn in Ht.
    cbn [level_loop]. rewrite length_app, decide_True by (cbn; lia).
    rewrite (list_lookup_total_correct _ _ x), (list_lookup_total_correct _ _ y).
    2: { rewrite lookup_app_r by lia. now replace (S (length pre) - length pre)%nat with 1%nat by lia. }
    2: { rewrite lookup_app_r by lia. now rewrite Nat.sub_diag. }
    replace (length done) with (length done + 0)%nat at 2 by lia. rewrite insert_app_r. cbn [pairs].
    specialize (IH fuel (pre ++ [x; y]) (done ++ [hashLeafPairs x y]) todo).
    rewrite !length_app, <-!app_assoc in IH. cbn [app length] in IH. apply IH; [cbn in Hf; lia|lia|lia|].
    intros Ho. destruct l as [|x' l]; [done|]. destruct todo as [|z' todo]; [now destruct l|].
    specialize (Hl Ho). exact Hl.
Qed.

(** One level of the tree is what the recursion computes. *)
Lemma hashLevel_pairs data : hashLevel data = pairs data.
Proof.
  unfold hashLevel. pose proof (pairs_length data) as Hlen.
  destruct (Nat.odd (length data)) eqn:Eo.
  - rewrite length_replicate.
    match goal with |- level_loop _ _ _ _ ?t = _ => apply (level_loop_pairs data (length data) [] [] t) end; [done|done| |].
    + now rewrite length_insert, length_replicate.
    + intros _. replace (length data / 2 + 1 - 1)%nat with (length data / 2)%nat by lia.
      rewrite last_lookup, length_insert, length_replicate.
      replace (pred (length data / 2 + 1)) with (length data / 2)%nat by lia.
      rewrite list_lookup_insert_eq by (rewrite length_replicate; lia).
      rewrite last_lookup. destruct data as [|x data] using rev_ind; [done|]. rewrite length_app. cbn.
      rewrite Nat.add_sub, Nat.add_1_r. cbn. rewrite list_lookup_total_middle, lookup_app_r, Nat.sub_diag by lia. done.
  - match goal with |- level_loop _ _ _ _ ?t = _ => apply (level_loop_pairs data (length data) [] [] t) end;
      [done|done| |congruence]. now rewrite length_replicate.
Qed.

End murky.

(** ** Merkle trees: what holds of the generator

    Both routines for the height compute the logarithm rounded up; the proof
    that is generated for a leaf has that length and verifies against the root
    that is generated for the leaves. *)

(** ** The height *)

(** [s] is [x] shifted by the second component, and has [n] bits left. *)
Definition msb_inv (x n : Z) (s : Z * Z) : Prop := 0 <= snd s /\ fst s = Z.shiftr x (snd s) /\ 1 <= fst s < 2 ^ n.

Lemma msb_step_inv x k s : 0 < k -> msb_inv x (2 * k) s -> msb_inv x k (msb_step k s).
Proof.
  destruct s as [y m]. unfold msb_inv, msb_step. cbn. intros Hk (Hm & -> & Hy). destruct (Z.leb_spec (2 ^ k) (Z.shiftr x m)) as [Hle|Hlt]; cbn.
  - rewrite Z.shiftr_shiftr by lia. split; [lia|]. split; [done|].
    rewrite <-Z.shiftr_shiftr, (Z.shiftr_div_pow2 (Z.shiftr x m)) by lia. split.
    + apply Z.div_le_lower_bound; lia.
    + apply Z.div_lt_upper_bound; [lia|]. rewrite <-Z.pow_add_r by lia. now replace (k + k) with (2 * k) by lia.
  - split; [lia|]. split; [done|lia].
Qed.

Lemma msb_log2 x y m : msb_inv x 2 (y, m) -> (if 2 ^ 1 <=? y then m + 1 else m) = Z.log2 x.
Proof.
  intros (Hm & Hy & Hr). cbn in Hm, Hy, Hr. rewrite Z.shiftr_div_pow2 in Hy by lia.
  pose proof (Z.div_mod x (2 ^ m) ltac:(lia)) as Hd. pose proof (Z.mod_pos_bound x (2 ^ m) ltac:(lia)) as Hb.
  rewrite <-Hy in Hd. symmetry. destruct (Z.leb_spec (2 ^ 1) y).
  - apply Z.log2_unique; [lia|]. unfold Z.succ. rewrite !Z.pow_add_r by lia. change (2 ^ 1) with 2 in *. nia.
  - apply Z.log2_unique; [lia|]. unfold Z.succ. rewrite !Z.pow_add_r by lia. change (2 ^ 1) with 2 in *. nia.
Qed.

(** The mask for the lowest bit set tells the powers of two. *)
Lemma low_bit x : 1 <= x < 2 ^ 256 ->
  (Z.land ((2 ^ 256 - 1 - x + 1) `mod` 2 ^ 256) x =? x) = (x =? 2 ^ Z.log2 x).
Proof.
  intros Hx. set (m := Z.log2 x). pose proof (Z.log2_spec x ltac:(lia)) as Hm. fold m in Hm.
  assert (0 <= m < 256) as Hr by (split; [apply Z.log2_nonneg|apply Z.log2_lt_pow2; lia]).
  replace (2 ^ 256 - 1 - x + 1) with (2 ^ 256 - x) by lia. rewrite Z.mod_small by lia.
  destruct (Z.eqb_spec x (2 ^ m)) as [E|E]; [apply Z.eqb_eq|apply Z.eqb_neq].
  - rewrite E. replace (2 ^ 256 - 2 ^ m) with (2 ^ m * (2 ^ (256 - m) - 1)).
    2: { rewrite Z.mul_sub_distr_l, <-Z.pow_add_r by lia. replace (m + (256 - m)) with 256 by lia. lia. }
    rewrite Z.land_comm. apply Z.bits_inj'. intros n Hn. rewrite Z.land_spec, Z.pow2_bits_eqb by lia.
    destruct (Z.eqb_spec m n) as [->|]; [|done]. cbn. rewrite Z.mul_comm, Z.mul_pow2_bits, Z.sub_diag by lia.
    replace (2 ^ (256 - n) - 1) with (Z.ones (256 - n)) by (rewrite Z.ones_equiv; lia). apply Z.ones_spec_low. lia.
  - intros El. assert (Z.testbit (2 ^ 256 - x) m = true) as Hb.
    { apply (f_equal (fun z => Z.testbit z m)) in El. rewrite Z.land_spec in El. unfold m in El at 2 3.
      rewrite Z.bit_log2, andb_true_r in El by lia. exact El. }
    assert ((2 ^ 256 - x) `mod` 2 ^ (m + 1) = 2 ^ (m + 1) - x) as Hmod.
    { symmetry. apply (Z.mod_unique _ _ (2 ^ (255 - m) - 1)); [left; unfold Z.succ in Hm; lia|].
      rewrite Z.mul_sub_distr_l, <-Z.pow_add_r by lia. replace (m + 1 + (255 - m)) with 256 by lia. lia. }
    rewrite <-(Z.mod_pow2_bits_low _ (m + 1)), Hmod in Hb by lia. unfold Z.succ in Hm.
    rewrite Z.pow_add_r in * by lia. change (2 ^ 1) with 2 in *.
    rewrite Z.bits_above_log2 in Hb; [done|lia|]. apply Z.log2_lt_pow2; lia.
Qed.

Lemma log2_up_split x : 1 < x -> Z.log2_up x = if x =? 2 ^ Z.log2 x then Z.log2 x else Z.log2 x + 1.
Proof.
  intros Hx. pose proof (Z.log2_spec x ltac:(lia)) as Hs. pose proof (Z.log2_nonneg x) as Hn.
  destruct (Z.eqb_spec x (2 ^ Z.log2 x)) as [E|E]; [rewrite E at 1; now apply Z.log2_up_pow2|].
  rewrite Z.log2_up_eqn by lia. enough (Z.log2 (Z.pred x) = Z.log2 x) by lia. apply Z.log2_unique; lia.
Qed.

Lemma bit_magic_log2_up x : 0 <= x < 2 ^ 256 -> log2ceilBitMagic x = Z.log2_up x.
Proof.
  intros Hx. unfold log2ceilBitMagic. destruct (Z.leb_spec x 1); [rewrite Z.log2_up_eqn0; lia|].
  assert (msb_inv x 2 (msb_step 2 (msb_step 4 (msb_step 8 (msb_step 16 (msb_step 32 (msb_step 64 (msb_step 128 (x, 0))))))))) as HI.
  { do 7 (apply msb_step_inv; [lia|]). unfold msb_inv. cbn. split; [lia|]. split; [done|lia]. }
  destruct (msb_step 2 _) as [y m]. rewrite (msb_log2 _ _ _ HI), low_bit, log2_up_split by lia.
  replace (0 <? Z.log2 x) with true; [now rewrite andb_true_r|].
  symmetry. apply Z.ltb_lt. apply Z.log2_pos. lia.
Qed.

Lemma ceil_loop_bits fuel : forall x c, 0 <= x < 2 ^ Z.of_nat fuel -> 0 <= c -> c + Z.of_nat fuel < 2 ^ 256 ->
  ceil_loop fuel x c = if x =? 0 then c else c + Z.log2 x + 1.
Proof.
  induction fuel as [|fuel IH]; intros x c Hx Hc Hb; cbn [ceil_loop]; [replace x with 0 by lia; done|].
  destruct (Z.ltb_spec 0 x); [|replace x with 0 by lia; done].
  rewrite Z.mod_small, Z.shiftr_div_pow2 by lia. change (2 ^ 1) with 2. rewrite (proj2 (Z.eqb_neq x 0)) by lia.
  rewrite Nat2Z.inj_succ, Z.pow_succ_r in Hx by lia.
  pose proof (Z.div_mod x 2 ltac:(lia)) as Hd. pose proof (Z.mod_pos_bound x 2 ltac:(lia)) as Hm.
  rewrite IH by lia. destruct (Z.eqb_spec (x / 2) 0) as [E|E]; [replace x with 1 by lia; cbn; lia|].
  replace (x / 2) with (Z.shiftr x 1) by (now rewrite Z.shiftr_div_pow2). rewrite Z.log2_shiftr by lia.
  enough (1 <= Z.log2 x) by lia. apply Z.log2_le_pow2; lia.
Qed.

(** Both routines for the height compute the logarithm rounded up, for every
    number of leaves; but for zero the loop wraps around, although a comment
    says that it does not underflow. *)
Theorem height_routines x : 0 <= x < 2 ^ 256 ->
  log2ceilBitMagic x = Z.log2_up x /\ log2ceil x = if x =? 0 then 2 ^ 256 - 1 else Z.log2_up x.
Proof.
  intros Hx. split; [now apply bit_magic_log2_up|]. unfold log2ceil. rewrite ceil_loop_bits by lia.
  destruct (Z.eqb_spec x 0) as [->|Hne]; [done|]. rewrite low_bit by lia.
  pose proof (Z.log2_nonneg x) as Hn. pose proof (Z.log2_lt_pow2 x 256 ltac:(lia)) as Hl.
  destruct (Z.eqb_spec x 1) as [->|]; [done|]. rewrite log2_up_split by lia.
  destruct (x =? 2 ^ Z.log2 x); rewrite Z.mod_small; lia.
Qed.

(** ** Proofs and roots *)

Section proofs.
  Context (keccak : Z -> Z -> Z).
  Abbreviation hash := (hashLeafPairs keccak).
  Abbreviation level := (pairs keccak).

Definition height (n : nat) : nat := Z.to_nat (Z.log2_up (Z.of_nat n)).

(** What [getProof] takes from a level. *)
Definition sibling (d : list Z) (node : nat) : option Z :=
  if Nat.odd node then d !! (node - 1)%nat
  else if decide (node + 1 = length d)%nat then Some 0 else d !! (node + 1)%nat.

Lemma sibling_SS x y l i : sibling (x :: y :: l) (S (S i)) = sibling l i.
Proof.
  unfold sibling. change (Nat.odd (S (S i))) with (Nat.odd i). destruct (Nat.odd i) eqn:Eo.
  - destruct i as [|i]; [done|]. cbn. now rewrite Nat.sub_0_r.
  - cbn. destruct (decide (i + 1 = length l)%nat), (decide (S (S (i + 1)) = S (S (length l)))); first [done|lia].
Qed.

(** A leaf and its sibling make the node above. *)
Lemma sibling_hash d : forall i x, d !! i = Some x ->
  exists s, sibling d i = Some s /\ level d !! (i / 2)%nat = Some (hash x s).
Proof.
  induction d as [|x0|x0 y0 l IH] using pairs_ind; intros i x Hi; [done| |].
  - destruct i; [|done]. exists 0. simplify_eq/=. done.
  - destruct i as [|[|i]]; cbn in Hi; simplify_eq.
    + exists y0. done.
    + exists x0. cbn. now rewrite hashLeafPairs_comm.
    + destruct (IH i x Hi) as (s & Hs & Hp). exists s. rewrite sibling_SS, half_SS. done.
Qed.

Lemma level_shrinks d : (1 < length d)%nat -> (1 <= length (level d) < length d)%nat.
Proof.
  intros Hd. rewrite pairs_length. pose proof (Nat.div_mod (length d) 2 ltac:(done)) as Hm.
  pose proof (Nat.mod_upper_bound (length d) 2 ltac:(done)) as Hb.
  assert (Nat.odd (length d) = true <-> length d `mod` 2 = 1)%nat as Ho by (now rewrite <-Nat.bit0_odd, Nat.bit0_eqb, Nat.eqb_eq).
  destruct (Nat.odd (length d)); lia.
Qed.

Lemma height_level d : (1 < length d)%nat -> height (length d) = S (height (length (level d))).
Proof.
  intros Hd. pose proof (level_shrinks d Hd) as Hs. rewrite pairs_length in *.
  pose proof (Nat.div_mod (length d) 2 ltac:(done)) as Hm. pose proof (Nat.mod_upper_bound (length d) 2 ltac:(done)) as Hb.
  assert (Nat.odd (length d) = true <-> length d `mod` 2 = 1)%nat as Ho by (now rewrite <-Nat.bit0_odd, Nat.bit0_eqb, Nat.eqb_eq).
  set (k := (if Nat.odd _ then _ else _)) in *. assert (length d = 2 * k \/ length d = 2 * k - 1)%nat as Hk
    by (unfold k; destruct (Nat.odd (length d)); lia).
  unfold height. set (h := Z.log2_up (Z.of_nat k)). pose proof (Z.log2_up_nonneg (Z.of_nat k)) as Hh. fold h in Hh.
  enough (Z.log2_up (Z.of_nat (length d)) = h + 1) by lia.
  destruct (decide (k = 1%nat)) as [E|].
  { assert (length d = 2)%nat as -> by lia. unfold h. now rewrite E. }
  pose proof (Z.log2_up_spec (Z.of_nat k) ltac:(lia)) as Hu. fold h in Hu.
  assert (0 < h) by (apply Z.log2_up_pos; lia).
  apply Z.log2_up_unique; [lia|]. rewrite Z.pow_add_r by lia. change (2 ^ 1) with 2.
  replace (Z.pred (h + 1)) with (Z.pred h + 1) by lia. rewrite Z.pow_add_r by lia. lia.
Qed.

(** The two loops run in step. *)
Lemma loops_agree fuel : forall d i pos result x,
  (1 <= length d <= fuel)%nat -> d !! i = Some x -> length result = (pos + height (length d))%nat ->
  exists pr, proof_loop keccak fuel d i pos result = Some (take pos result ++ pr) /\
    length pr = height (length d) /\ root_loop keccak fuel d !! 0%nat = Some (foldl hash x pr).
Proof.
  induction fuel as [|fuel IH]; intros d i pos result x Hd Hi Hr; [lia|]. cbn [proof_loop root_loop].
  destruct (decide (1 < length d)%nat) as [H1|H1].
  2: { exists []. assert (length d = 1)%nat as E by lia. rewrite E in *. change (height 1) with 0%nat in *.
    destruct d as [|y [|]]; [done| |done]. destruct i; [|done]. simplify_eq/=. rewrite app_nil_r, firstn_all2 by lia. done. }
  fold (sibling d i). rewrite hashLevel_pairs. destruct (sibling_hash d i x Hi) as (s & Hs & Hp).
  pose proof (height_level d H1) as Hh. pose proof (level_shrinks d H1) as Hsh.
  rewrite Hs. cbn [mbind option_bind]. rewrite decide_True by lia.
  destruct (IH (level d) (i / 2)%nat (pos + 1)%nat (<[pos := s]> result) (hash x s)) as (pr & E & Hl & Hroot); [lia|done| |].
  { rewrite length_insert. lia. }
  exists (s :: pr). split; [|split; [cbn; lia|exact Hroot]]. rewrite E. f_equal.
  rewrite Nat.add_1_r, (take_S_r _ _ s) by (apply list_lookup_insert_eq; lia).
  rewrite take_insert, decide_False by lia. now rewrite <-app_assoc.
Qed.

(** C33: For every leaf of a tree of at least two leaves a proof is generated, as long
    as the tree is high, and it verifies against the root that is generated. *)
Theorem proof_verifies data node x :
  (1 < length data)%nat -> Z.of_nat (length data) < 2 ^ 256 -> data !! node = Some x ->
  exists root pr, getRoot keccak data = Some root /\ getProof keccak data node = Some pr /\
    length pr = height (length data) /\ verifyProof keccak root pr x = true.
Proof.
  intros H1 Hb Hx. unfold getRoot, getProof. rewrite !decide_True by done.
  rewrite bit_magic_log2_up by lia. fold (height (length data)).
  destruct (loops_agree (length data) data node 0 (replicate (height (length data)) 0) x) as (pr & E & Hl & Hr);
    [lia|done|now rewrite length_replicate|].
  rewrite E, Hr. eexists _, pr. split; [done|]. split; [done|]. split; [done|]. unfold verifyProof. apply Z.eqb_refl.
Qed.

End proofs.
