(* ===== verification/EthWitnesses.v ===== *)
(** * The contracts on Ethereum: theorems at concrete inputs

    Tokens over maps that satisfy the laws of OpenZeppelin's contracts; a
    deployment of the three contracts with a buyer, and with a contract that
    receives tokens. *)

From S2P Require Import Prelude Rust Ledger Evm EthContracts EthProps EthLoansProps EthBooks Murky.

(** ** Tokens *)

Record Balances := MkBalances { bal : gmap Addr Z; supply : Z }.
Record Tokens := MkTokens { owners : gmap Z Addr; approvals : gmap Z Addr; operators : gset (Addr * Addr) }.

Inductive TokensCall := Approve (to : Addr) (id : Z) | ApproveAll (op : Addr) | TransferFrom (from to : Addr) (id : Z).

Definition refused {A} : result SolError A := RErr (Revert "refused").

Definition may_move (t : Tokens) (op from to : Addr) (id : Z) : bool :=
  bool_decide (owners t !! id = Some from) &&
  match owners t !! id with
  | None => false
  | Some o => bool_decide (op = o) || bool_decide ((o, op) ∈ operators t) || bool_decide (approvals t !! id = Some op)
  end && negb (to =? 0).

Definition move_token (op from to : Addr) (id : Z) (t : Tokens) : result SolError Tokens :=
  if may_move t op from to id then ROk (MkTokens (<[id := to]> (owners t)) (delete id (approvals t)) (operators t)) else refused.

Definition tokens_call (s : Addr) (c : TokensCall) (t : Tokens) : result SolError Tokens :=
  match c with
  | Approve to id =>
      match owners t !! id with
      | Some o => if bool_decide (s = o) || bool_decide ((o, s) ∈ operators t)
                  then ROk (MkTokens (owners t) (<[id := to]> (approvals t)) (operators t)) else refused
      | None => refused
      end
  | ApproveAll op => ROk (MkTokens (owners t) (approvals t) ({[(s, op)]} ∪ operators t))
  | TransferFrom from to id => move_token s from to id t
  end.

#[local] Instance oz0 : OpenZeppelin := {|
  Init := bool; init_fresh := false; initializer i := if i then refused else ROk true;
  OwnCall := Addr; own_call s c o := if s =? o then ROk c else refused;
  Erc20 := Balances; E20Call := Addr * Z; e20_init _ _ t := t;
  e20_balanceOf t a := held (bal t) a; e20_totalSupply := supply;
  e20_mint a z t := if negb (a =? 0) && (supply t + z <? 2 ^ 256)
    then ROk (MkBalances (<[a := held (bal t) a + z]> (bal t)) (supply t + z)) else refused;
  e20_burn a z t := if negb (a =? 0) && (z <=? held (bal t) a)
    then ROk (MkBalances (<[a := held (bal t) a - z]> (bal t)) (supply t - z)) else refused;
  e20_call s c t := if (0 <=? snd c) && (snd c <=? held (bal t) s) then
    let m := <[s := held (bal t) s - snd c]> (bal t) in ROk (MkBalances (<[fst c := held m (fst c) + snd c]> m) (supply t)) else refused;
  Erc721 := Tokens; E721Call := TokensCall; e721_init _ _ t := t;
  e721_owner t id := owners t !! id; e721_approved t id := approvals t !! id;
  e721_operator t o op := bool_decide ((o, op) ∈ operators t);
  e721_mint a id t := if negb (a =? 0) && bool_decide (owners t !! id = None)
    then ROk (MkTokens (<[id := a]> (owners t)) (approvals t) (operators t)) else refused;
  e721_transfer := move_token; e721_call := tokens_call;
  keccak_packed a id := le 20 a ++ le 32 id;
  verifyCalldata proof root leaf := match proof with [] => bool_decide (root = leaf) | _ => false end |}.

Lemma move_token_ok op from to id t t' : move_token op from to id t = ROk t' ->
  may_move t op from to id = true /\
  t' = MkTokens (<[id := to]> (owners t)) (delete id (approvals t)) (operators t).
Proof. unfold move_token. destruct (may_move _ _ _ _ _); [|done]. now intros [= <-]. Qed.

Lemma move_token_auth op from to id t : may_move t op from to id = true -> e721_authorized (t : Erc721) op id = true.
Proof. unfold may_move, e721_authorized. cbn. rewrite !andb_true_iff. now intros [[_ E] _]. Qed.

#[local] Instance oz0_ok : OpenZeppelinOk.
Proof.
  split; try done.
  - intros [] i'; now intros [= <-].
  - intros s c o o'. cbn. destruct (Z.eqb_spec s o); [done|done].
  - intros a z t Hz. cbn. destruct (_ && _); [|done]. split; [done|]. intros t' [= <-]. split; [done|]. intros b. cbn.
    rewrite held_insert_dec. case_decide; subst; lia.
  - intros a z t Hz. cbn. destruct (_ && _); [|done]. split; [done|]. intros t' [= <-]. split; [done|]. intros b. cbn.
    rewrite held_insert_dec. case_decide; subst; lia.
  - intros s c t t'. cbn. destruct (_ && _); [|done]. now intros [= <-].
  - intros a id t. cbn. destruct (_ && _); done.
  - intros a id t t'. cbn. destruct (_ && _); [|done]. intros [= <-]. cbn. rewrite lookup_insert_eq. split; [done|].
    split; [|done]. intros. now rewrite lookup_insert_ne.
  - intros op from to id t. cbn [e721_transfer oz0]. unfold move_token.
    change (transfer_ok op from to id t) with (may_move t op from to id). now destruct (may_move _ _ _ _ _).
  - intros op from to id t t' E. apply move_token_ok in E as [_ ->]. cbn. rewrite lookup_insert_eq, lookup_delete_eq.
    split; [done|]. split; [done|]. split; [|done]. intros. now rewrite lookup_insert_ne, lookup_delete_ne.
  - intros s [to id'|op|from to id'] t t' id; cbn.
    + case_match; [|done]. case_match; [|done]. now intros [= <-].
    + now intros [= <-].
    + intros E. apply move_token_ok in E as [E ->]. cbn. unfold may_move in E. rewrite !andb_true_iff, bool_decide_eq_true in E.
      destruct E as [[E _] _]. rewrite lookup_insert_None. split; [tauto|]. intros En. split; [done|]. congruence.
  - intros s [to id'|op|from to id'] t t' id; cbn [e721_call oz0 tokens_call].
    + case_match eqn:Eo; [|done]. destruct (_ || _) eqn:Ea; [|done]. intros [= <-] Hu. split; [done|]. cbn.
      destruct (decide (id' = id)) as [->|]; [|now rewrite lookup_insert_ne]. exfalso.
      unfold e721_authorized in Hu. cbn in Hu. rewrite Eo in Hu. now rewrite Ea in Hu.
    + now intros [= <-].
    + intros E Hu. apply move_token_ok in E as [E ->]. apply move_token_auth in E. cbn.
      assert (id' <> id) by (intros ->; congruence). now rewrite lookup_insert_ne, lookup_delete_ne.
  - intros s [to id'|op'|from to id'] t t' o op; cbn [e721_call oz0 tokens_call].
    + case_match; [|done]. case_match; [|done]. now intros [= <-].
    + intros [= <-] Hs. cbn. apply bool_decide_ext. set_solver.
    + intros E. apply move_token_ok in E as [_ ->]. done.
Qed.

(** ** A deployment *)

Definition buyer : Addr := 7.
Definition vault : Addr := 5000.

#[local] Instance evm0 : Evm := {|
  TOKEN := 1001; NFT := 1002; LOANS := 1003;
  is_contract a := (a =? 1001) || (a =? 1002) || (a =? 1003) || (a =? 5000); accepts_eth _ := true |}.
#[local] Instance evm0_ok : EvmOk.
Proof. split; done. Qed.

Definition ether : Z := 10 ^ 18.

Definition world0 : World := MkWorld
  (<[buyer := 10 * ether]> (<[vault := 10 * ether]> ∅))
  (MkTokenState HalbornToken (true : Init) 1 (MkBalances ∅ 0 : Erc20) LOANS 0)
  (MkNftState HalbornNFT (true : Init) 1 (MkTokens ∅ ∅ ∅ : Erc721) [] ether 0 0)
  (MkLoansState (HalbornLoans (2 * ether)) (true : Init) TOKEN NFT ∅ ∅ ∅ 0 0 0).

(** Buy a token, approve the loans and deposit it. *)
Definition deposit_txs (a : Addr) : list Tx :=
  [MkTx a ether (CNft NMintBuyWithETH) []; MkTx a 0 (CNft (NErc721 (ApproveAll LOANS : E721Call))) [];
   MkTx a 0 (CLoans (LDeposit 1)) []].

Lemma books_world0 : books (2 * ether) world0.
Proof.
  split; [done|]. split; [split|].
  - intros id a. unfold deposits. cbn. now rewrite lookup_empty.
  - done.
  - intros a. unfold total, deposits, count_ids. cbn. unfold held. rewrite lookup_empty, map_filter_empty, map_size_empty. done.
Qed.

Lemma deposit_plain a : a <> LOANS -> Forall (fun t => sender t <> LOANS /\ replaces_loans t = false) (deposit_txs a).
Proof. repeat constructor; done. Qed.


(** A contract that has deposited a token. *)
Definition world1 : World := run_txs 1 (deposit_txs vault) world0.

Lemma books_world1 : books (2 * ether) world1.
Proof.
  pose proof (deposit_plain vault ltac:(done)) as HP. unfold world1, run_txs, deposit_txs in *. cbn [foldl].
  inversion_clear HP as [|? ? P1 HP1]. inversion_clear HP1 as [|? ? P2 HP2]. inversion_clear HP2 as [|? ? P3 _].
  do 3 (apply books_tx; [apply P1 || apply P2 || apply P3 ..|]). exact books_world0.
Qed.

Lemma reentrancy_strands_witness :
  let r := run_tx 2 (reenter vault 1) world1 in
  fst r = ROk tt /\ e721_owner (tokens (snd r)) 1 = Some LOANS /\ total (snd r) vault = total world1 vault /\
  total (snd r) vault = 2 * ether * count_ids (deposits (snd r)) vault + 2 * ether /\
  forall depth' s v scripts, s <> 0 -> fst (run_tx depth' (MkTx s v (CLoans (LWithdraw 1)) scripts) (snd r)) <> ROk tt.
Proof.
  refine (reentrancy_strands (2 * ether) vault 1 world1 _ _ _ _ _ _ _ _ _ _ 0);
    first [exact books_world1|vm_compute; repeat split; congruence].
Defined.

(** ** Borrowing *)

Lemma borrowed_locked_witness :
  let t := MkTx buyer 0 (CLoans (LGetLoan 500)) [] in
  let w1 := snd (run_tx 1 t world0) in let w2 := run_txs 1 [MkTx buyer 0 (CLoans (LReturnLoan 500)) []] w1 in
  fst (run_tx 1 t world0) = ROk tt /\ used w2 buyer = 1000 /\ used world0 buyer + 500 <= used w2 buyer /\ locked buyer w2.
Proof.
  split; [vm_compute; reflexivity|]. split; [vm_compute; reflexivity|].
  apply (borrowed_locked 1 buyer 0 500 [] world0 1 [MkTx buyer 0 (CLoans (LReturnLoan 500)) []]);
    [vm_compute; reflexivity|vm_compute; congruence].
Defined.

(** ** The sale *)

Lemma sale_ended_by_anyone_witness :
  next_id world0 = 1 /\
  forall depth' from v scripts, fst (run_tx depth' (MkTx from v (CNft NMintBuyWithETH) scripts)
    (run_txs 1 [MkTx 1 0 (CNft (NSetPrice 5)) []] (run_txs 2 (grab buyer (next_id world0)) world0))) <> ROk tt.
Proof.
  split; [vm_compute; reflexivity|].
  apply (sale_ended_by_anyone buyer 1 [MkTx 1 0 (CNft (NSetPrice 5)) []] world0);
    [vm_compute; congruence|reflexivity|vm_compute; congruence|reflexivity|vm_compute; reflexivity].
Defined.

Lemma multicall_pays_once_witness :
  let r := run_tx 1 (MkTx buyer ether (CNft (NMulticall (replicate 3 NMintBuyWithETH))) []) world0 in
  fst r = ROk tt /\ idCounter (nft_st (snd r)) = idCounter (nft_st world0) + Z.of_nat 3 /\
  (forall k, 1 <= k <= Z.of_nat 3 -> owner_of (snd r) (idCounter (nft_st world0) + k) = Some buyer) /\
  eth (snd r) = move_eth buyer NFT ether (eth world0).
Proof.
  refine (multicall_pays_once buyer _ _ 0 3 world0 _ _ _);
    [vm_compute; congruence|reflexivity|reflexivity| |vm_compute; split; congruence].
  split; [cbn; lia|]. split; [cbn; lia|]. intros k _. unfold owner_of. cbn. apply lookup_empty.
Defined.

(** ** Merkle trees *)

Lemma proof_verifies_witness :
  let hash := fun x y => (x * 31 + y + 7) `mod` 2 ^ 256 in
  exists root pr, getRoot hash [5; 3; 9; 4; 1] = Some root /\ getProof hash [5; 3; 9; 4; 1] 4 = Some pr /\
    length pr = height 5 /\ verifyProof hash root pr 1 = true.
Proof.
  apply (proof_verifies (fun x y => (x * 31 + y + 7) `mod` 2 ^ 256) [5; 3; 9; 4; 1] 4 1); [cbn; lia|cbn; lia|reflexivity].
Defined.

Lemma height_routines_witness : log2ceilBitMagic 5 = 3 /\ log2ceil 5 = if 5 =? 0 then 2 ^ 256 - 1 else 3.
Proof. apply (height_routines 5); lia. Defined.
